(* ===== verification/_CoqProject ===== *)
-Q . S2P
Prelude.v
Text.v
Security.v
Budget.v
PGBudget.v
RateLimit.v
Approval.v
AutoApproval.v
LLM.v
Providers.v
Anthropic.v
OpenAI.v
Gemini.v
ProviderProps.v
ToolValues.v
Sandbox.v
SandboxTools.v
FileSystem.v
FileTool.v
WebTool.v
ToolExamples.v
Conversation.v
Prompt.v
SecurityManager.v
Agent.v
AgentSpec.v
AgentProps.v
AgentManager.v
AgentLoop.v
AgentLoopProps.v
Config.v
Protocol.v
AgentRegistry.v
TaskTracker.v
WsServer.v
WsProps.v
WsClient.v
RoutingAgent.v
RemoteExamples.v
WorkflowTypes.v
Skill.v
Factory.v
AgentExamples.v
Dag.v
PlanParser.v
WorkflowStore.v
Scheduler.v
SchedulerProps.v
WorkflowRepo.v
AgentPoller.v
SchedulerExamples.v
Domain.v
ConversationDB.v
Models.v
SkillLoader.v
Fleet.v
Infra.v
ApprovalDB.v
RoleDB.v
RoleProps.v
Notification.v
Cron.v
Alerting.v
AlertingProps.v
Soul.v
HeartbeatTask.v
ServiceTools.v
Senders.v
Settings.v
Startup.v
Observability.v
GatewayText.v
Gateway.v
ChatGateways.v
HttpApi.v
Commands.v
Routes.v
HttpJobs.v
GatewayProps.v
ServiceExamples.v
