(* ===== verification/Prelude.v ===== *)
(** * Akili: a verification development

    Akili is a gateway for language-model agents: a user's message goes through a
    conversation loop that asks a model, runs the tools the model asks for under a
    security pipeline (policy, roles, approvals, budget, audit), and, for larger goals,
    through workflows of role agents scheduled over a graph of tasks.  Around it are chat,
    HTTP and websocket gateways, background services (cron jobs, alerts, heartbeat tasks,
    reflections), skills, a database behind repositories, and the commands that start it.
    This library translates the program from Go into executable definitions and proves what
    it does.  Source paths are under [src/internal/] unless they say otherwise.

    ** The parts and how they interact

    *** Foundations
    - [Prelude]: errors and their chains, results, the state monad [st], float64 behind the
      class [Num] (the binary64 instance [f64] runs; [ExactNum] is for the arithmetic
      theorems), time, map iteration ([MapRange]) and sorting ([GoSort]) in any order Go may
      choose, the classes of JSON, digests and renderings, strings, lists, the hint database.
    - [Text]: trimming, cutting and case of strings as the loaders use them.

    *** Security
    - [Security]: security/security.go, rbac.go, policy.go.  [Budget]: budget.go and the
      adapter pg_budget.go.  [PGBudget]: storage/postgres/budget_repo.go.  [RateLimit]:
      ratelimit/ratelimit.go.  [Approval], [AutoApproval]: approval/approval.go and auto.go.
    - [SecurityManager]: security.go, manager.go, audit.go; its class [SecurityManager] is the
      interface the agent is proved against, [Manager] over a role table, an audit log and a
      budget is its instance.

    *** Models and tools
    - [LLM]: llm/provider.go and tools/tools.go.  [Providers]: llm/fallback.go, streaming.go.
      [Anthropic], [OpenAI], [Gemini]: the three clients; [ProviderProps].
    - [ToolValues]: the parameters of tools, the interface of sandboxes.  [Sandbox]:
      sandbox/process.go, docker.go.  [SandboxTools]: tools/shell, git, code.
    - [FileSystem]: a file system with links, as the tools and loaders see it.  [FileTool]:
      tools/file.  [WebTool]: tools/web, tools/browser.
      [ToolExamples]: runs.

    *** The agent
    - [Conversation]: agent/conversation.go as the class [ConversationStore], the in-memory
      store, and the tool cache of agent/toolcache.go.  [Prompt]: the prompt of
      agent/orchestrator.go, planner.go, runbook_match.go.
    - [Agent]: ExecuteTool, runSecurityChecks, executeWithAudit, ResumeWithApproval in a state
      monad whose state has every component the agent calls and the trace of the calls across
      its interfaces.  [AgentSpec]: the abstract specification, the traces [exec_trace] the
      pipeline allows, and the refinement lemmas under any invariant of the security manager.
      [AgentProps], [AgentManager]: its consequences, the latter for the in-memory manager.
    - [AgentLoop], [AgentLoopProps]: Process, summarizer.go, token_budget.go.  [AgentExamples].

    *** Remote agents
    - [Config]: the sections of config/config.go the gateway and the pollers read, with their
      defaults.  [Protocol]: protocol.  [AgentRegistry], [TaskTracker], [WsServer], [WsProps]:
      gateway/ws, the gateway as one state and its operations.  [WsClient]:
      agent/wsclient.go.  [RoutingAgent]: agent/routing.go and gateway/ws/adapter.go, local or
      remote execution, with its theorems.  [RemoteExamples].

    *** Workflows
    - [WorkflowTypes], [Skill], [Factory], [Dag], [PlanParser], [WorkflowStore]:
      orchestrator/types.go, skill.go, factory.go and role_agent.go, dag.go, the parsing of
      task_executor.go and recovery.go, memory_store.go.
    - [Scheduler]: scheduler.go, task_executor.go and engine.go; the loop is the relation
      [sched_step], a round an explicit sequence of events, so that every interleaving of its
      concurrent tasks is a run.  [SchedulerProps].  [WorkflowRepo]: the workflow store of the
      database, with the statements of a claim on their own.  [AgentPoller]: agent_poller.go.
      [SchedulerExamples].

    *** The database and the services
    - [Domain]: the records of domain and the class [World] (clock, identifiers, failures of
      the database).  [Models]: rows and conversions of storage/postgres/models.go and
      convert_*.go.  [ConversationDB], [ApprovalDB], [RoleDB] with [RoleProps]: repositories
      and the managers over them.
    - [SkillLoader]: skillloader and the skill rows.  [Fleet]: identity, heartbeat, workspace.
      [Infra]: infra, secrets, tools/infra and the rows of nodes.
    - [Notification]: notification.go, fallback and channels; [Senders]: the six senders.
      [Cron]: scheduler/scheduler.go and its rows.  [Alerting], [AlertingProps]: alerting.
      [Soul]: soul.  [HeartbeatTask]: heartbeattask, its files and rows.  [ServiceTools]:
      tools/cronjob, tools/alert and the notification tool.
    - [Settings]: every section of config/config.go, loading, overrides and validation.
      [Startup]: src/cmd/akili/shared.go, from the configuration to the running agent, and
      tools/mcp.  [Commands]: gateway.go, agent.go, onboarding.go and query.go of the same
      directory.  [Observability]: metrics, wrappers, health checks and the anomaly detector.

    *** The gateways
    - [GatewayText]: escaping, Markdown and splitting.  [Gateway]: the services all gateways
      call, and the command line (gateway/cli).  [ChatGateways]: gateway/telegram, signal,
      slack.  [HttpApi], [HttpJobs], [Routes]: gateway/httpapi.  [GatewayProps].
      [ServiceExamples]: runs of the services, the repositories and the gateways.

    The components meet at classes: [SecurityManager] (an in-memory, a database-backed and an
    instrumented instance), [ConversationStore] (in memory, in the database), [Sandbox],
    [InfraStore], [SkillStore], [WebSocket], [World], each with its laws where a client needs
    them; a client's theorems hold for every instance.

    ** What the theorems show

    Each property's comment carries its identifier.
    - The agent (C1, C2, C3, C17, C23, C27): [ExecuteTool] refines the pipeline specification
      from every state, for every security manager, store and tool; no tool runs without its
      checks, its reservation and its audit records, in the loop and after an approval
      included; the loop ends within its limits; the books of a user's budget, exactly.
    - The started agent (C4, C26, C31): a tool that runs on an agent started without a database
      is one the configuration knows, and its role and its policies let it run, or the call
      resumed a request for it that was approved; what a configuration file
      must satisfy to be loaded; what the bridge makes of a tool of an MCP server.
    - Tools (C6, C7, C8, C9, C39, C40): file accesses stay in the allowed directories, requests
      reach checked addresses only, the cap of outputs, secrets never show in answers.
    - Approvals (C14, C15) and roles (C18, C19): one decision per request; the managers over
      the database answer as those in memory, the role table as its abstract map.
    - Workflows (C5, C16, C21, C22, C24, C25): limits in every reachable state; plans are
      accepted exactly when they are well-formed and acyclic; what a plan adds; claims are
      exclusive; verdicts, and a workflow that waits for ever.
    - Remote agents (C28, C29, C30, C35): the registry's invariant, trust is not raised by
      registering and a removed agent stays removed, each waiting request is answered at most once, a saved key verifies.
    - Gateways (C10, C11, C13): requests act for the known user they come from; the check of
      Slack's signatures; splitting ends.
    - Services (C12, C20, C32, C33, C34, C36, C37, C38): packs load exactly the admissible skills, webhooks
      reach public hosts only, when an alert fires, what a job tool stores, removed tasks
      never run, task files and their parser, the soul is the replay of its log, conversations
      in the database are those of the abstract store.
    Other theorems of the files complete these: the behaviour of every operation on its
    branches, round trips of rows and payloads, races that the critical sections allow.

    ** Bounds and fuel

    [Process] iterates on its own limit, which is the loop bound of the code.  The search of
    [ValidateDAG] recurses on the number of tasks; each nested call visits a node that was
    white, so it never runs out, which C16 contains.  A walk through a file system follows at
    most 255 links when it evaluates a path and 40 when it opens one, the limits of Go and of
    the kernel; an HTTP client makes at most five redirects.  The splitting of texts has its
    length as fuel, which C13 shows to be enough; lines of an event stream are at most 64 KB.
    Integers that stay far from 2^63 (counts, depths, nanoseconds; durations of settings are
    below 292 years) are [Z]; those that come from outside and are counted with (the load an
    agent reports, a timestamp of Slack, a cooldown) wrap around ([wrap64]); conversions from
    float64 are written out.  Amounts are any
    [Num]; a theorem about sums asks for [ExactNum], amounts that add without rounding.

    ** What is a parameter

    The model, HTTP, SMTP, DNS, the mail and MCP libraries, processes, the terminal, JSON and
    YAML with the round-trip laws of the types, SHA-256, Ed25519 and PEM with their laws,
    parsers of cron expressions and durations, logarithms, the clock, identifiers, the
    environment and the errors of the database are arguments, any functions.  Map iteration
    and unstable sorting are arguments with their documented laws.  Tables are finite maps;
    the rows of approvals keep the costs and instants their columns keep ([Columns]), those of
    the other tables keep amounts and instants as they are given.
    Tracing and logging are left out, mutexes are the atomicity of one definition, contexts
    are cancelled only between steps, timers are lists of ticks.

    ** What is not modelled

    - observability/tracing.go: spans, over the OpenTelemetry library.
    - orchestrator/prompts.go and metrics.go: fixed texts and Prometheus counters.
    - The opening, migration and drivers of the databases, the session repository, the
      listing of roles and organisations: calls of gorm without logic of their own.
    - Of the commands, signals, the shutdown, logging and most of what they print; main.go and
      version.go.
    - The dispatch and the server of gateway/httpapi, TLS and the HTTP upgrade of gateway/ws:
      the network frameworks. *)

From Corelib Require Export SpecFloat.
From Stdlib Require Export QArith Lqa.
From stdpp Require Export base tactics gmap strings list sorting.

#[export] Set Default Goal Selector "!".
#[export] Set Warnings "-clear-no-such-hyp,-level-tolerance,-register-all".

Declare Scope go_scope.
Delimit Scope go_scope with go.

(** ** Errors and results

    A Go [error] is either one of the sentinel values the packages export, a
    plain [fmt.Errorf] text, a wrapped error ([fmt.Errorf] with [%w]), or the
    agent's [*ErrApprovalPending], which unwraps to [ErrApprovalRequired].  The
    interpolated values of a message are dropped, its fixed words and its chain
    of wrapped errors are kept: the chain is what [errors.Is] walks. *)

Inductive sentinel : Type :=
  | ErrPermissionDenied | ErrApprovalRequired | ErrBudgetExceeded
  | ErrNotFound | ErrExpired | ErrAlreadyResolved
  | ErrRateLimited | ErrNoAvailableAgent | ErrCanceled.

#[export] Instance sentinel_eq_dec : EqDecision sentinel.
Proof. solve_decision. Defined.

Inductive error : Type :=
  | Sentinel (s : sentinel)
  | Errorf (msg : string)
  | Wrap (msg : string) (inner : error)
  | ErrApprovalPending (approvalID toolName actionName riskLevel userID : string).

#[export] Instance error_eq_dec : EqDecision error.
Proof. solve_decision. Defined.

(** [errors.Is]: some error of the chain is the sentinel. *)
Fixpoint errors_is (e : error) (s : sentinel) : bool :=
  match e with
  | Sentinel s' => bool_decide (s' = s)
  | Errorf _ => false
  | Wrap _ e' => errors_is e' s
  | ErrApprovalPending _ _ _ _ _ => bool_decide (ErrApprovalRequired = s)
  end.

(** [errors.As] with an [*ErrApprovalPending] target. *)
Fixpoint as_approval_pending (e : error) : option (string * string * string * string * string) :=
  match e with
  | Wrap _ e' => as_approval_pending e'
  | ErrApprovalPending id tool action risk user => Some (id, tool, action, risk, user)
  | _ => None
  end.

(** [err.Error()]: any rendering of an error as text. *)
Class ErrorText := { error_Error : error -> string }.

(** The result of a fallible call: Go's pair of a value and an error. *)
Inductive result (E A : Type) : Type :=
  | Ok (a : A)
  | Err (e : E).
Arguments Ok {E A} a.
Arguments Err {E A} e.

#[export] Instance result_ret {E} : MRet (result E) := fun A a => Ok a.
#[export] Instance result_bind {E} : MBind (result E) := fun A B f m =>
  match m with Ok a => f a | Err e => Err e end.

Definition is_ok {E A} (r : result E A) : bool :=
  match r with Ok _ => true | Err _ => false end.

(** ** A state monad *)

Definition st (S A : Type) : Type := S -> A * S.
#[export] Instance st_ret {S} : MRet (st S) := fun A a s => (a, s).
#[export] Instance st_bind {S} : MBind (st S) := fun A B f m s => let '(a, s') := m s in f a s'.

Definition st_get {S A} (f : S -> A) : st S A := fun s => (f s, s).
Definition st_modify {S} (f : S -> S) : st S unit := fun s => (tt, f s).

(** Do [f] for each element in order. *)
Fixpoint st_each {S A} (f : A -> st S unit) (l : list A) : st S unit :=
  match l with
  | [] => mret tt
  | x :: l => _ ← f x; st_each f l
  end.

(** A computation that keeps a property of the state: the rules for composing them. *)
Definition preserves {S A} (I : S -> Prop) (m : st S A) : Prop := forall s, I s -> I (m s).2.

Section preserves.
Context {S : Type} (I : S -> Prop).

Lemma preserves_ret {A} (a : A) : preserves I (mret a : st S A).
Proof. by intros s. Qed.

Lemma preserves_bind {A B} (m : st S A) (k : A -> st S B) :
  preserves I m -> (forall a, preserves I (k a)) -> preserves I (m ≫= k).
Proof.
  intros Hm Hk s Hs. unfold mbind, st_bind. specialize (Hm s Hs).
  destruct (m s) as [a s']. by apply Hk.
Qed.

Lemma preserves_get {A} (f : S -> A) : preserves I (st_get f).
Proof. by intros s. Qed.

Lemma preserves_modify (f : S -> S) : (forall s, I s -> I (f s)) -> preserves I (st_modify f).
Proof. intros Hf s Hs. by apply Hf. Qed.

Lemma preserves_each {A} (f : A -> st S unit) l :
  (forall x, preserves I (f x)) -> preserves I (st_each f l).
Proof.
  intros Hf. induction l as [|x l IH]; simpl; [apply preserves_ret|].
  apply preserves_bind; [apply Hf|by intros _].
Qed.

Lemma preserves_each_in {A} (f : A -> st S unit) l :
  (forall x, x ∈ l -> preserves I (f x)) -> preserves I (st_each f l).
Proof.
  intros Hf. induction l as [|x l IH]; simpl; [apply preserves_ret|].
  apply preserves_bind; [apply Hf; by left|]. intros _. apply IH. intros y Hy. apply Hf. by right.
Qed.
End preserves.

Lemma st_bind_run {S A B} (m : st S A) (k : A -> st S B) s :
  (m ≫= k) s = k (m s).1 (m s).2.
Proof. unfold mbind, st_bind. by destruct (m s). Qed.

(** ** float64

    Amounts, scores and token counts are [float64] in the code.  A model is
    written once against the operations of [Num]; [f64] is the IEEE 754 binary64
    instance (round to nearest even) computed inside the logic, on which every
    definition runs as the Go program does.  [ExactNum] states what the
    arithmetic theorems rely on: additions and subtractions that do not round
    (amounts on a common binary grid, well inside the 53-bit significand), with
    comparisons that decide the order of the rationals. *)

Class Num (F : Type) := {
  nofZ : Z -> F;
  nadd : F -> F -> F;
  nsub : F -> F -> F;
  nmul : F -> F -> F;
  ndiv : F -> F -> F;
  nltb : F -> F -> bool;
  nleb : F -> F -> bool;
}.

Notation "x +f y" := (nadd x y) (at level 50, left associativity) : go_scope.
Notation "x -f y" := (nsub x y) (at level 50, left associativity) : go_scope.
Notation "x *f y" := (nmul x y) (at level 40, left associativity) : go_scope.
Notation "x /f y" := (ndiv x y) (at level 40, left associativity) : go_scope.
Notation "x <f? y" := (nltb x y) (at level 70) : go_scope.
Notation "x >f? y" := (nltb y x) (at level 70, only parsing) : go_scope.
Notation "x <=f? y" := (nleb x y) (at level 70) : go_scope.
Notation "x >=f? y" := (nleb y x) (at level 70, only parsing) : go_scope.

(** A decimal literal such as [0.05]: the correctly rounded quotient. *)
Definition nlit {F} `{Num F} (n d : Z) : F := ndiv (nofZ n) (nofZ d).

Definition f64 : Type := spec_float.
Definition f64_of_Z (z : Z) : f64 := binary_normalize 53 1024 z 0 false.

#[export] Instance f64_num : Num f64 := {
  nofZ := f64_of_Z;
  nadd := SFadd 53 1024;
  nsub := SFsub 53 1024;
  nmul := SFmul 53 1024;
  ndiv := SFdiv 53 1024;
  nltb := SFltb;
  nleb := SFleb;
}.

(** Go's [int(x)]: truncation toward zero of a finite value. *)
Definition f64_trunc (x : f64) : Z :=
  match x with
  | S754_finite s m e =>
      let v := (if (0 <=? e)%Z then Z.pos m * 2 ^ e else Z.pos m / 2 ^ (- e))%Z in
      if s then (- v)%Z else v
  | _ => 0%Z
  end.

Class ExactNum (F : Type) `{Num F} := {
  toQ : F -> Q;
  toQ_ofZ : forall z, (toQ (nofZ z) == inject_Z z)%Q;
  toQ_add : forall a b, (toQ (nadd a b) == toQ a + toQ b)%Q;
  toQ_sub : forall a b, (toQ (nsub a b) == toQ a - toQ b)%Q;
  toQ_mul : forall a b, (toQ (nmul a b) == toQ a * toQ b)%Q;
  toQ_div : forall a b, (toQ (ndiv a b) == toQ a / toQ b)%Q;
  nltb_spec : forall a b, nltb a b = true <-> (toQ a < toQ b)%Q;
  nleb_spec : forall a b, nleb a b = true <-> (toQ a <= toQ b)%Q;
}.

#[export] Instance Q_num : Num Q := {
  nofZ := inject_Z;
  nadd := Qplus;
  nsub := Qminus;
  nmul := Qmult;
  ndiv := Qdiv;
  nltb := fun a b => negb (Qle_bool b a);
  nleb := Qle_bool;
}.

#[export] Instance Q_exact : ExactNum Q.
Proof.
  refine {| toQ := fun q => q |}; try (intros; reflexivity).
  - intros a b. simpl. rewrite negb_true_iff. split.
    + intros Hle. apply Qnot_le_lt. intros Hba%Qle_bool_iff. congruence.
    + intros Hlt. destruct (Qle_bool b a) eqn:E; [|done].
      apply Qle_bool_iff in E. lra.
  - intros a b. simpl. apply Qle_bool_iff.
Defined.

Section exact.
Context {F : Type} `{ExactNum F}.

Lemma nltb_false (a b : F) : nltb a b = false <-> (toQ b <= toQ a)%Q.
Proof.
  rewrite <-not_true_iff_false, nltb_spec. split; [apply Qnot_lt_le | lra].
Qed.

Lemma nleb_false (a b : F) : nleb a b = false <-> (toQ b < toQ a)%Q.
Proof.
  rewrite <-not_true_iff_false, nleb_spec. split; [apply Qnot_le_lt | lra].
Qed.
End exact.

(** Decide goals on exact amounts: push [toQ] to the leaves, turn the boolean
    tests of the code into inequalities, finish with [lra]. *)
Ltac num_norm :=
  repeat match goal with
  | H : nltb _ _ = true |- _ => apply nltb_spec in H
  | H : nltb _ _ = false |- _ => apply nltb_false in H
  | H : nleb _ _ = true |- _ => apply nleb_spec in H
  | H : nleb _ _ = false |- _ => apply nleb_false in H
  | |- nltb _ _ = true => apply nltb_spec
  | |- nltb _ _ = false => apply nltb_false
  | |- nleb _ _ = true => apply nleb_spec
  | |- nleb _ _ = false => apply nleb_false
  end;
  rewrite ?toQ_add, ?toQ_sub, ?toQ_mul, ?toQ_div, ?toQ_ofZ in *.

(** ** Integers

    An [int] has 64 bits: its arithmetic wraps around. *)

Definition wrap64 (z : Z) : Z := ((z + 2 ^ 63) mod 2 ^ 64 - 2 ^ 63)%Z.

Definition maxInt : Z := (2 ^ 63 - 1)%Z.

Definition is_int (z : Z) : Prop := (- 2 ^ 63 <= z < 2 ^ 63)%Z.

Lemma wrap64_mod z : (wrap64 z mod 2 ^ 64 = z mod 2 ^ 64)%Z.
Proof.
  unfold wrap64. rewrite Zminus_mod, Zmod_mod, <-Zminus_mod. f_equal. lia.
Qed.

Lemma wrap64_id z : is_int z -> wrap64 z = z.
Proof. unfold is_int. intros Hz. unfold wrap64. rewrite Z.mod_small; lia. Qed.

Lemma wrap64_int z : is_int (wrap64 z).
Proof. unfold is_int, wrap64. pose proof (Z.mod_pos_bound (z + 2 ^ 63) (2 ^ 64) ltac:(done)). lia. Qed.

(** ** Time

    [time.Time] is a number of nanoseconds since the Unix epoch, and so is a
    [time.Duration].  A definition receives the value of each [time.Now()] it
    makes as an argument. *)

Definition Time : Type := Z.
Definition Duration : Type := Z.
Definition time_After (t u : Time) : bool := (u <? t)%Z.
Definition time_Before (t u : Time) : bool := (t <? u)%Z.
Definition Nanosecond : Duration := 1%Z.
Definition Second : Duration := (1000000000 * Nanosecond)%Z.
Definition Minute : Duration := (60 * Second)%Z.
Definition Hour : Duration := (60 * Minute)%Z.
(** The zero [time.Time], January 1 of year 1. *)
Definition time_zero : Time := (-62135596800 * Second)%Z.

(** [Duration.Seconds]: whole seconds plus the fraction, as float64. *)
Definition Duration_Seconds {F} `{Num F} (d : Duration) : F :=
  nadd (nofZ (Z.quot d Second)) (ndiv (nofZ (Z.rem d Second)) (nofZ 1000000000)).

Lemma Duration_Seconds_exact {F} `{ExactNum F} (d : Duration) :
  (toQ (Duration_Seconds d) == inject_Z d / inject_Z Second)%Q.
Proof.
  unfold Duration_Seconds. rewrite toQ_add, toQ_div, !toQ_ofZ.
  rewrite (Z.quot_rem' d Second) at 3. rewrite inject_Z_plus, inject_Z_mult.
  change 1000000000%Z with Second. field. done.
Qed.

Definition time_Unix (t : Time) : Z := (t / Second)%Z.

(** ** Serialisation and digests

    Tool parameters are arbitrary Go values ([map[string]any]): a model is written
    for any type [P] of them with its [json.Marshal] text, and for any function in
    the place of SHA-256 (the hexadecimal of the first 16 bytes of the digest). *)

Class GoJson (P : Type) := { json_marshal : P -> string }.

(** [json.Unmarshal] into a value of a type. *)
Class Decode (A : Type) := { json_unmarshal : string -> result error A }.
Class Digest := { sha256_16 : string -> string }.

(** [github.com/google/uuid]: a 128-bit value. *)
Definition uuid : Type := N.
Definition uuid_Nil : uuid := 0%N.
Class UuidParse := { uuid_Parse : string -> result error uuid }.
#[export] Instance uuid_eq_dec : EqDecision uuid := N.eq_dec.
#[export] Instance uuid_countable : Countable uuid := N_countable.

(** [%d] of an integer and [%s] of an identifier, any renderings. *)
Class Render := { itoa : Z -> string; uuid_String : uuid -> string }.

(** A Go map used as a value, [nil] included. *)
Class GoMap (P : Type) := { nil_map : P; is_nil : P -> bool }.

(** A column with a default: gorm's [Create] writes the default of the tag in place of a
    zero value. *)
Definition or_int (x default : Z) : Z := if (x =? 0)%Z then default else x.
Definition or_text (x default : string) : string := if String.eqb x "" then default else x.
Definition or_num {F} `{Num F} (x default : F) : F :=
  if nleb x (nofZ 0) && nleb (nofZ 0) x then default else x.

(** ** Map iteration

    Go ranges over a map in an unspecified order.  A definition that does so is
    written against [MapRange]: any function that lists the entries of the map,
    each once.  A theorem over [MapRange] holds for every order. *)

Class MapRange (K A : Type) `{Countable K} := {
  map_range : gmap K A -> list (K * A);
  map_range_perm : forall m, map_range m ≡ₚ map_to_list m;
}.

#[export] Instance map_range_default {K A} `{Countable K} : MapRange K A | 100 :=
  {| map_range := map_to_list; map_range_perm := fun m => reflexivity _ |}.

Lemma elem_of_map_range {K A} `{MapRange K A} (m : gmap K A) (k : K) (a : A) :
  (k, a) ∈ map_range m <-> m !! k = Some a.
Proof. rewrite map_range_perm. apply elem_of_map_to_list. Qed.

Lemma NoDup_fst_map_range {K A} `{MapRange K A} (m : gmap K A) :
  NoDup (map_range m).*1.
Proof. rewrite map_range_perm. apply NoDup_fst_map_to_list. Qed.

(** A map filled in a loop from a list of entries: a later entry replaces an earlier one. *)
Definition map_of {K A} `{Countable K} (l : list (K * A)) : gmap K A :=
  fold_left (fun m p => <[p.1 := p.2]> m) l ∅.

Lemma fold_insert_lookup {K A} `{Countable K} (l : list (K * A)) (m : gmap K A) k v :
  NoDup l.*1 ->
  fold_left (fun m p => <[p.1 := p.2]> m) l m !! k = Some v <->
    (k, v) ∈ l \/ k ∉ l.*1 /\ m !! k = Some v.
Proof.
  revert m. induction l as [|[k' v'] l IH]; intros m Hd; simpl.
  { rewrite elem_of_nil. split; [intros; right; split; [apply not_elem_of_nil|done]|tauto]. }
  apply NoDup_cons in Hd as [Hk Hd]. simpl in *. rewrite (IH _ Hd), !elem_of_cons.
  destruct (decide (k = k')) as [->|Hne].
  - rewrite lookup_insert_eq. split.
    + intros [Hin|[_ [= ->]]]; [|by left; left].
      exfalso. apply Hk. by apply (list_elem_of_fmap_2 fst _ (k', v)).
    + intros [[[= ->]|Hin]|[Hno _]]; [right|..]; [done| |].
      * exfalso. apply Hk. by apply (list_elem_of_fmap_2 fst _ (k', v)).
      * exfalso. tauto.
  - rewrite lookup_insert_ne by done. split.
    + intros [Hin|[Hn Hm]]; [tauto|]. right. split; [|done]. intros [->|]; tauto.
    + intros [[[= -> ->]|Hin]|[Hn Hm]]; [done|by left|]. right. split; [|done]. tauto.
Qed.

Lemma lookup_map_of {K A} `{Countable K} (l : list (K * A)) k v :
  NoDup l.*1 -> map_of l !! k = Some v <-> (k, v) ∈ l.
Proof.
  intros Hd. unfold map_of. rewrite fold_insert_lookup by done. rewrite lookup_empty. naive_solver.
Qed.

(** ** Sorting

    [sort.Slice] is not stable: equal elements end up in an unspecified order.  A
    definition that sorts is written against [GoSort], any function that permutes
    and sorts; the default instance is a stable insertion sort. *)

Section sorting.
Context {A : Type} (less : A -> A -> bool).

Fixpoint insert_sorted (x : A) (l : list A) : list A :=
  match l with
  | [] => [x]
  | y :: l' => if less y x then y :: insert_sorted x l' else x :: l
  end.

Definition insertion_sort (l : list A) : list A := fold_right insert_sorted [] l.

Lemma insert_sorted_perm x l : insert_sorted x l ≡ₚ x :: l.
Proof.
  induction l as [|y l IH]; simpl; [done|]. destruct (less y x); [|done].
  rewrite IH. apply perm_swap.
Qed.

Lemma insertion_sort_perm l : insertion_sort l ≡ₚ l.
Proof. induction l as [|x l IH]; simpl; [done|]. by rewrite insert_sorted_perm, IH. Qed.

(** What [sort.Slice] expects of [less]. *)
Definition weak_order : Prop :=
  (forall x y, less x y = true -> less y x = false) /\
  (forall x y z, less y x = false -> less z y = false -> less z x = false).

Definition ordered (x y : A) : Prop := less y x = false.

Lemma insertion_sort_sorted l : weak_order -> StronglySorted ordered (insertion_sort l).
Proof.
  intros [Hasym Htr]. induction l as [|x l IH]; simpl; [constructor|].
  revert IH. generalize (insertion_sort l) as s. induction s as [|y s IHs]; intros Hs; simpl.
  - repeat constructor.
  - apply StronglySorted_inv in Hs as [Hs Hy]. destruct (less y x) eqn:E.
    + constructor; [by apply IHs|]. rewrite insert_sorted_perm. constructor; [by apply Hasym|done].
    + constructor; [by constructor|]. constructor; [done|].
      eapply Forall_impl; [exact Hy|]. intros z Hz. by eapply Htr.
Qed.
End sorting.

Lemma StronglySorted_weaken {A} (R R' : A -> A -> Prop) (l : list A) :
  (forall x y, R x y -> R' x y) -> StronglySorted R l -> StronglySorted R' l.
Proof.
  intros HR. induction 1 as [|x l _ IH Hx]; constructor; [done|].
  eapply Forall_impl; [exact Hx|]. apply HR.
Qed.

Class GoSort (A : Type) := {
  go_sort : (A -> A -> bool) -> list A -> list A;
  go_sort_perm : forall less l, go_sort less l ≡ₚ l;
  go_sort_sorted : forall less l, weak_order less -> StronglySorted (ordered less) (go_sort less l);
}.

#[export] Instance go_sort_default {A} : GoSort A | 100 :=
  {| go_sort := insertion_sort; go_sort_perm := insertion_sort_perm;
     go_sort_sorted := insertion_sort_sorted |}.

(** ** Strings and slices of strings

    Go strings are byte strings.  [strings.ToLower] is the ASCII case map (the
    code lowers keywords, tool names and host names). *)

Definition has_prefix (s p : string) : bool := String.prefix p s.

Fixpoint contains (s sub : string) : bool :=
  String.prefix sub s ||
  match s with
  | EmptyString => false
  | String _ s' => contains s' sub
  end.

Definition lower_ascii (c : Ascii.ascii) : Ascii.ascii :=
  let n := Ascii.N_of_ascii c in
  if ((65 <=? n) && (n <=? 90))%N then Ascii.ascii_of_N (n + 32) else c.

Fixpoint to_lower (s : string) : string :=
  match s with
  | EmptyString => EmptyString
  | String c s' => String (lower_ascii c) (to_lower s')
  end.

(** [strings.Count] of a one-byte separator. *)
Fixpoint count_char (c : Ascii.ascii) (s : string) : nat :=
  match s with
  | EmptyString => 0
  | String c' s' => (if Ascii.eqb c c' then 1 else 0) + count_char c s'
  end.

(** [s[:n]] for [n <= len(s)]. *)
Definition str_take (n : nat) (s : string) : string := String.substring 0 n s.

(** [for _, x := range xs { if x == v { return true } }; return false]. *)
Definition slice_contains (xs : list string) (v : string) : bool :=
  existsb (String.eqb v) xs.

Lemma slice_contains_true xs v : slice_contains xs v = true <-> v ∈ xs.
Proof.
  unfold slice_contains. rewrite existsb_exists. split.
  - intros (x & Hin & ->%String.eqb_eq). by apply list_elem_of_In.
  - intros Hin. exists v. rewrite String.eqb_refl. by rewrite <-list_elem_of_In.
Qed.

Lemma slice_contains_false xs v : slice_contains xs v = false <-> v ∉ xs.
Proof. rewrite <-not_true_iff_false, slice_contains_true. done. Qed.

Lemma slice_contains_spec xs v : reflect (v ∈ xs) (slice_contains xs v).
Proof. apply iff_reflect. symmetry. apply slice_contains_true. Qed.

Lemma str_app_length s t : String.length (s +:+ t) = String.length s + String.length t.
Proof. induction s as [|c s IH]; simpl; [done|]. by rewrite IH. Qed.

Lemma str_app_assoc s t u : (s +:+ t) +:+ u = s +:+ (t +:+ u).
Proof.
  induction s as [|c s IH]; [done|].
  change (String c ((s +:+ t) +:+ u) = String c (s +:+ (t +:+ u))). by f_equal.
Qed.

(** ** Lists *)

(** The elements of a slice from index [n] on, [xs[n:]]; the code relies on
    [0 <= n <= len(xs)], out of range Go panics. *)
Definition slice_from {A} (n : nat) (xs : list A) : option (list A) :=
  if decide (n <= length xs) then Some (drop n xs) else None.

Definition countb {A} (p : A -> bool) (l : list A) : nat := length (List.filter p l).

Lemma countb_zero {A} (p : A -> bool) l :
  countb p l = 0 <-> Forall (fun x => p x = false) l.
Proof.
  unfold countb. induction l as [|x l IH]; simpl; [done|].
  rewrite Forall_cons, <-IH. destruct (p x); simpl; intuition congruence.
Qed.

Lemma countb_perm {A} (p : A -> bool) l l' : l ≡ₚ l' -> countb p l = countb p l'.
Proof.
  unfold countb. induction 1 as [|x l l' _ IH|x y l|l l' l'' _ IH1 _ IH2]; simpl; [done| | |].
  - destruct (p x); simpl; by rewrite IH.
  - by destruct (p x), (p y).
  - by rewrite IH1.
Qed.

Lemma countb_nonzero {A} (p : A -> bool) l :
  countb p l <> 0 -> exists x, x ∈ l /\ p x = true.
Proof.
  unfold countb. destruct (List.filter p l) as [|x xs] eqn:E; [done|]. intros _.
  assert (In x (List.filter p l)) as Hx by (rewrite E; by left).
  apply filter_In in Hx as [Hx ?]. exists x. by apply list_elem_of_In in Hx.
Qed.

Lemma forallb_Forall {A} (p : A -> bool) l : forallb p l = true <-> Forall (fun x => p x = true) l.
Proof. rewrite forallb_forall, List.Forall_forall. done. Qed.

(** ** Automation

    The database [go]: its rewrites turn the boolean tests of the code into
    propositions ([by_tests] does so everywhere and finishes), its hints are the
    lemmas by which an operation keeps a component's invariant.  [case_hyp H] splits
    every match of a hypothesis. *)

Create HintDb go discriminated.
Create Rewrite HintDb go.
#[export] Hint Rewrite slice_contains_true slice_contains_false
  @bool_decide_eq_true @bool_decide_eq_false andb_true_iff orb_true_iff
  negb_true_iff String.eqb_eq String.eqb_neq : go.

Ltac case_hyp H :=
  repeat match type of H with
  | context [match ?x with _ => _ end] => destruct x eqn:?; simplify_eq/=
  end.
(** Prove [preserves] by the structure of the computation; what is left are the
    primitives the database does not know. *)
#[export] Hint Resolve preserves_ret preserves_get : go.
Ltac preserve :=
  repeat match goal with
  | |- forall _, preserves _ _ => intros ?
  | |- preserves _ (mbind _ _) => apply preserves_bind
  | |- preserves _ (match ?x with _ => _ end) => destruct x
  | |- preserves _ (st_each _ _) => apply preserves_each
  | |- preserves _ _ => solve [eauto 2 with go]
  end.

Ltac by_tests := autorewrite with go in *; tauto.
