(* ===== verification/Text.v ===== *)
(** * Texts

    The functions of the package [strings] the tools, the alerts and the gateways share,
    on bytes, with their lemmas. *)

From S2P Require Import Prelude.

Definition newline : string := String (Ascii.ascii_of_nat 10) "".

(** [strings.Index(s, sub)] as the text before and after the first occurrence. *)
Fixpoint cut (s sub : string) : option (string * string) :=
  if String.prefix sub s
  then Some ("", String.substring (String.length sub) (String.length s - String.length sub) s)
  else match s with
       | EmptyString => None
       | String c s' =>
           match cut s' sub with
           | Some (a, b) => Some (String c a, b)
           | None => None
           end
       end.

(** The text after the first [c], with what is before it. *)
Fixpoint cut_char (c : Ascii.ascii) (s : string) : option (string * string) :=
  match s with
  | EmptyString => None
  | String a s => if Ascii.eqb a c then Some ("", s)
                  else match cut_char c s with Some (x, y) => Some (String a x, y) | None => None end
  end.

(** Go's [\s]. *)
Definition is_space (c : Ascii.ascii) : bool :=
  existsb (fun n => Ascii.eqb c (Ascii.ascii_of_nat n)) [9; 10; 12; 13; 32].

(** [strings.TrimSpace], on ASCII. *)
Definition is_trimmed (c : Ascii.ascii) : bool := is_space c || Ascii.eqb c (Ascii.ascii_of_nat 11).
Fixpoint trim_left (s : string) : string :=
  match s with
  | EmptyString => ""
  | String a s' => if is_trimmed a then trim_left s' else s
  end.
Fixpoint trim_right (s : string) : string :=
  match s with
  | EmptyString => ""
  | String a s' => let r := trim_right s' in
                   if String.eqb r "" && is_trimmed a then "" else String a r
  end.
Definition TrimSpace (s : string) : string := trim_right (trim_left s).

Definition drop_prefix (p s : string) : option string :=
  if has_prefix s p then Some (String.substring (String.length p) (String.length s - String.length p) s) else None.

(** [s[n:]] for [n <= len(s)]. *)
Fixpoint str_drop (n : nat) (s : string) : string :=
  match n, s with
  | S n, String _ s => str_drop n s
  | _, _ => s
  end.

Definition line_feed : Ascii.ascii := Ascii.ascii_of_nat 10.

(** [strings.Split(text, "\n")]. *)
Fixpoint split_lines (s : string) : list string :=
  match s with
  | EmptyString => [""]
  | String c s =>
      match split_lines s with
      | l :: ls => if Ascii.eqb c line_feed then "" :: l :: ls else String c l :: ls
      | [] => [String c ""]
      end
  end.

Definition has_suffix (s suffix : string) : bool :=
  (String.length suffix <=? String.length s)%nat &&
  String.eqb (str_drop (String.length s - String.length suffix) s) suffix.

(** ** Markdown files with a frontmatter

    What the loaders of heartbeat tasks and of skills share. *)

(** The lines of a [bufio.Scanner], and its error: a line of 64 KB or more ends the scan. *)
Definition max_token : nat := Z.to_nat (64 * 1024).
Definition drop_cr (line : string) : string :=
  if has_suffix line (String (Ascii.ascii_of_nat 13) "") then str_take (String.length line - 1) line else line.

Fixpoint fitting (lines : list string) : list string * option error :=
  match lines with
  | [] => ([], None)
  | [last] => if String.eqb last "" then ([], None)
              else if (max_token <=? String.length last)%nat then ([], Some (Errorf "bufio.Scanner: token too long"))
              else ([drop_cr last], None)
  | line :: lines =>
      if (max_token <=? String.length line)%nat then ([], Some (Errorf "bufio.Scanner: token too long"))
      else let '(ls, err) := fitting lines in (drop_cr line :: ls, err)
  end.

Definition scan_lines (text : string) : list string * option error := fitting (split_lines text).

(** The frontmatter before the closing line, and the lines after it. *)
Fixpoint until_close (lines : list string) : option (list string * list string) :=
  match lines with
  | [] => None
  | line :: lines =>
      if String.eqb (TrimSpace line) "---" then Some ([], lines)
      else match until_close lines with Some (f, b) => Some (line :: f, b) | None => None end
  end.

(** An entry of a directory, and what reading it answers. *)
Record dir_entry := mkDirEntry { de_Name : string; de_IsDir : bool; de_Content : result error string }.

(** ** Lemmas *)

Lemma str_take_length n s : String.length (str_take n s) = n `min` String.length s.
Proof.
  unfold str_take. revert s. induction n as [|n IH]; intros [|c s]; simpl; [done..|]. by rewrite IH.
Qed.

Lemma str_take_app n a b :
  str_take n (a +:+ b) = str_take n a +:+ str_take (n - String.length a) b.
Proof.
  unfold str_take. revert n. induction a as [|c a IH]; intros n.
  - rewrite Nat.sub_0_r. by destruct n.
  - destruct n as [|n]; [by destruct b|].
    change (String c (String.substring 0 n (a +:+ b)) =
            String c (String.substring 0 n a +:+ String.substring 0 (n - String.length a) b)).
    f_equal. apply IH.
Qed.

Lemma str_take_all n s : String.length s <= n -> str_take n s = s.
Proof.
  unfold str_take. revert n. induction s as [|c s IH]; intros n Hn; [by destruct n|].
  simpl in Hn. destruct n as [|n]; [lia|]. simpl. f_equal. apply IH. lia.
Qed.

Lemma str_take_zero s : str_take 0 s = "".
Proof. by destruct s. Qed.

Lemma str_app_nil s : s +:+ "" = s.
Proof. induction s as [|c s IH]; [done|]. change (String c (s +:+ "") = String c s). by rewrite IH. Qed.

Lemma str_nil_app s : "" +:+ s = s.
Proof. done. Qed.

Lemma str_take_drop n s : str_take n s +:+ str_drop n s = s.
Proof.
  unfold str_take. revert s. induction n as [|n IH]; intros [|c s]; [done..|].
  change (String c (String.substring 0 n s +:+ str_drop n s) = String c s). by rewrite IH.
Qed.

Lemma str_drop_length n s : String.length (str_drop n s) = String.length s - n.
Proof. revert s. induction n as [|n IH]; intros [|c s]; simpl; [done..|]. apply IH. Qed.

Lemma str_drop_app n a b : str_drop n (a +:+ b) = str_drop n a +:+ str_drop (n - String.length a) b.
Proof.
  revert n. induction a as [|c a IH]; intros n; [by rewrite Nat.sub_0_r; destruct n|].
  destruct n as [|n]; [done|]. change (str_drop n (a +:+ b) = str_drop n a +:+ str_drop (n - String.length a) b).
  apply IH.
Qed.

Lemma str_drop_prefix p s : str_drop (String.length p) (p +:+ s) = s.
Proof. induction p as [|c p IH]; simpl; done. Qed.

Lemma str_drop_all n s : String.length s <= n -> str_drop n s = "".
Proof. revert s. induction n as [|n IH]; intros [|c s] Hn; simpl in *; [done|lia|done|]. apply IH. lia. Qed.

Lemma str_app_inj_l a b c : a +:+ b = a +:+ c -> b = c.
Proof. induction a as [|x a IH]; [done|]. intros E. apply IH. by injection E. Qed.

Lemma has_prefix_spec s p : has_prefix s p = true <-> exists t, s = p +:+ t.
Proof.
  unfold has_prefix. revert s. induction p as [|c p IH]; intros s.
  - split; [by exists s|by destruct s].
  - destruct s as [|d s]; [split; [done|by intros [t E]]|]. cbn [String.prefix].
    destruct (Ascii.ascii_dec c d) as [->|Hne].
    + rewrite IH. split; intros [t E]; exists t; [by rewrite E|by injection E].
    + split; [done|]. intros [t E]. by injection E.
Qed.

Lemma substring_skip p t : String.substring (String.length p) (String.length (p +:+ t) - String.length p) (p +:+ t) = t.
Proof.
  rewrite str_app_length. replace (String.length p + String.length t - String.length p) with (String.length t) by lia.
  induction p as [|c p IH]; [|exact IH]. by apply str_take_all.
Qed.

Lemma prefix_cut s sub a b :
  String.prefix sub s = true ->
  Some ("", String.substring (String.length sub) (String.length s - String.length sub) s) = Some (a, b) ->
  s = a +:+ (sub +:+ b).
Proof. intros [t ->]%has_prefix_spec. rewrite substring_skip. by intros [= <- <-]. Qed.

Lemma cut_Some s sub a b : cut s sub = Some (a, b) -> s = a +:+ (sub +:+ b).
Proof.
  revert a. induction s as [|c s IH]; intros a; cbn [cut].
  - destruct (String.prefix sub "") eqn:Ep; [by apply prefix_cut|done].
  - destruct (String.prefix sub (String c s)) eqn:Ep; [by apply prefix_cut|].
    destruct (cut s sub) as [[x y]|]; [|done]. intros [= <- <-]. by rewrite (IH x eq_refl).
Qed.

Lemma cut_at_once sub b : cut (sub +:+ b) sub <> None.
Proof.
  assert (String.prefix sub (sub +:+ b) = true) as Hp by (apply has_prefix_spec; by exists b).
  destruct (sub +:+ b) as [|d s]; cbn [cut]; by rewrite Hp.
Qed.

Lemma cut_None s sub a b : cut s sub = None -> s <> a +:+ (sub +:+ b).
Proof.
  intros Hc ->. revert Hc. induction a as [|c a IH]; [exact (cut_at_once sub b)|].
  change (cut (String c (a +:+ (sub +:+ b))) sub = None -> False). cbn [cut].
  destruct (String.prefix _ _); [done|]. destruct (cut (a +:+ _) sub) as [[x y]|]; [done|].
  intros _. by apply IH.
Qed.

(** [sub] is nowhere in [s]. *)
Definition without_text (sub s : string) : Prop := forall a b, s <> a +:+ (sub +:+ b).

Lemma without_text_cut sub s : without_text sub s <-> cut s sub = None.
Proof.
  split; [|intros Hc a b; by apply cut_None].
  intros Hw. destruct (cut s sub) as [[a b]|] eqn:E; [|done]. apply cut_Some in E. by destruct (Hw a b).
Qed.

Lemma without_text_part sub a s b : without_text sub (a +:+ (s +:+ b)) -> without_text sub s.
Proof. intros Hw x y ->. apply (Hw (a +:+ x) (y +:+ b)). by rewrite !str_app_assoc. Qed.

(** [TrimSpace] keeps a part of the text. *)
Lemma trim_left_part s : exists a, s = a +:+ trim_left s.
Proof.
  induction s as [|c s [a IH]]; simpl; [by exists ""|].
  destruct (is_trimmed c); [|by exists ""]. exists (String c a). by rewrite IH at 1.
Qed.

Lemma trim_right_part s : exists b, s = trim_right s +:+ b.
Proof.
  induction s as [|c s [b IH]]; simpl; [by exists ""|].
  destruct (_ && _); [by exists (String c s)|]. exists b.
  change (String c s = String c (trim_right s +:+ b)). by rewrite <- IH.
Qed.

Lemma TrimSpace_part s : exists a b, s = a +:+ (TrimSpace s +:+ b).
Proof.
  destruct (trim_left_part s) as [a Ha], (trim_right_part (trim_left s)) as [b Hb].
  exists a, b. unfold TrimSpace. by rewrite <- Hb.
Qed.

Lemma concat_cons x l : String.concat "" (x :: l) = x +:+ String.concat "" l.
Proof. destruct l as [|y l]; [by rewrite str_app_nil|done]. Qed.

Lemma cut_now sub b : cut (sub +:+ b) sub = Some ("", b).
Proof.
  assert (String.prefix sub (sub +:+ b) = true) as Hp by (apply has_prefix_spec; by exists b).
  pose proof (substring_skip sub b) as Hs. destruct (sub +:+ b) as [|d s]; cbn [cut]; by rewrite Hp, Hs.
Qed.

(** A text is not made to occur by a last byte that is not its last. *)
Lemma app_last_split (x y z : string) c :
  x +:+ String c "" = y +:+ z -> z = "" \/ exists z', z = z' +:+ String c "" /\ x = y +:+ z'.
Proof.
  revert x. induction y as [|d y IH]; intros x E.
  - right. exists x. by split; [symmetry|].
  - destruct x as [|e x].
    + injection E as _ E. destruct y; [|done]. by left.
    + injection E as -> E. destruct (IH x E) as [->|(z' & -> & ->)]; [by left|]. right. by exists z'.
Qed.

Lemma without_text_last sub d s c :
  c <> d -> without_text (sub +:+ String d "") s -> without_text (sub +:+ String d "") (s +:+ String c "").
Proof.
  intros Hne Hw a b E. rewrite <-str_app_assoc in E.
  destruct (app_last_split _ _ _ _ E) as [->|(b' & -> & ->)].
  - rewrite str_app_nil, <-str_app_assoc in E.
    apply app_last_split in E as [E|(z & E & _)]; [done|]. destruct z as [|e z]; [by injection E|].
    injection E as _ E. by destruct z.
  - apply (Hw a b'). by rewrite str_app_assoc.
Qed.
