(* ===== verification/Security.v ===== *)
(** * Permission, approval and capability checks

    [src/internal/security]: risk levels and actions ([security.go]), role-based
    access control ([rbac.go]) and capability policies ([policy.go]). *)

From S2P Require Import Prelude.

(** ** Risk levels and actions *)

(** [RiskLevel] is a Go [int]; the constants are its [iota] values. *)
Definition RiskLevel : Type := Z.
Definition RiskLow : RiskLevel := 0%Z.
Definition RiskMedium : RiskLevel := 1%Z.
Definition RiskHigh : RiskLevel := 2%Z.
Definition RiskCritical : RiskLevel := 3%Z.

Definition RiskLevel_String (r : RiskLevel) : string :=
  if (r =? RiskLow)%Z then "low"
  else if (r =? RiskMedium)%Z then "medium"
  else if (r =? RiskHigh)%Z then "high"
  else if (r =? RiskCritical)%Z then "critical"
  else "unknown".

Definition ParseRiskLevel (s : string) : RiskLevel :=
  if String.eqb s "low" then RiskLow
  else if String.eqb s "medium" then RiskMedium
  else if String.eqb s "high" then RiskHigh
  else if String.eqb s "critical" then RiskCritical
  else RiskCritical.

Record Action := mkAction { act_Name : string; act_RiskLevel : RiskLevel }.

(** ** Role-based access control *)

Record Role := mkRole {
  role_Name : string;
  role_Permissions : list string;
  role_MaxRiskLevel : string;
  role_RequireApproval : list string;
}.

Record RBAC := mkRBAC {
  rbac_roles : gmap string Role;
  rbac_userRoles : gmap string string;
  rbac_defaultRole : string;
}.

Definition roleNameOf (r : RBAC) (userID : string) : string :=
  match rbac_userRoles r !! userID with
  | Some name => name
  | None => rbac_defaultRole r
  end.

Definition resolveRole (r : RBAC) (userID : string) : option Role :=
  let roleName := roleNameOf r userID in
  if String.eqb roleName "" then None else rbac_roles r !! roleName.

Definition roleHasPermission (role : Role) (actionName : string) : bool :=
  slice_contains (role_Permissions role) actionName.

Definition rbac_CheckPermission (r : RBAC) (userID : string) (action : Action) : option error :=
  match resolveRole r userID with
  | None => Some (Wrap "user has no assigned role" (Sentinel ErrPermissionDenied))
  | Some role =>
      if negb (roleHasPermission role (act_Name action))
      then Some (Wrap "role does not include action" (Sentinel ErrPermissionDenied))
      else None
  end.

Definition rbac_RequireApproval (r : RBAC) (userID : string) (action : Action) : option error :=
  match resolveRole r userID with
  | None => Some (Wrap "no role for user" (Sentinel ErrApprovalRequired))
  | Some role =>
      let maxRisk := ParseRiskLevel (role_MaxRiskLevel role) in
      if (maxRisk <? act_RiskLevel action)%Z
      then Some (Wrap "action exceeds role max risk" (Sentinel ErrApprovalRequired))
      else if slice_contains (role_RequireApproval role) (act_Name action)
      then Some (Wrap "action requires explicit approval" (Sentinel ErrApprovalRequired))
      else None
  end.

(** ** Capability policies *)

Record SecurityPolicy := mkPolicy {
  pol_Name : string;
  pol_AllowedTools : list string; pol_DeniedTools : list string;
  pol_AllowedPaths : list string; pol_DeniedPaths : list string;
  pol_AllowedDomains : list string; pol_DeniedDomains : list string;
  pol_AllowedCommands : list string; pol_DeniedCommands : list string;
  pol_MaxRiskLevel : string;
  pol_RequireApproval : list string;
  pol_AllowedSkills : list string; pol_DeniedSkills : list string;
}.

Record PolicyEnforcer := mkEnforcer {
  pe_policies : gmap string SecurityPolicy;
  pe_bindings : gmap string string;
}.

(** A later policy of the same name replaces an earlier one. *)
Definition NewPolicyEnforcer (policies : list SecurityPolicy) (bindings : gmap string string)
    : PolicyEnforcer :=
  let pm := fold_left (fun m p => <[pol_Name p := p]> m) policies ∅ in
  {| pe_policies := pm; pe_bindings := bindings |}.

Definition ResolvePolicy (e : PolicyEnforcer) (agentID : string) : option SecurityPolicy :=
  match pe_bindings e !! agentID with
  | None => None
  | Some policyName => pe_policies e !! policyName
  end.

Definition checkAllowDeny (value : string) (allowed denied : list string) (label : string)
    : option error :=
  if slice_contains denied value
  then Some (Wrap (label +:+ " is explicitly denied by policy") (Sentinel ErrPermissionDenied))
  else if (0 <? length allowed)%nat then
    if slice_contains allowed value then None
    else Some (Wrap (label +:+ " is not in the policy allow list") (Sentinel ErrPermissionDenied))
  else None.

Definition checkPrefixAllowDeny (value : string) (allowed denied : list string) (label : string)
    : option error :=
  if existsb (has_prefix value) denied
  then Some (Wrap (label +:+ " matches denied prefix") (Sentinel ErrPermissionDenied))
  else if (0 <? length allowed)%nat then
    if existsb (has_prefix value) allowed then None
    else Some (Wrap (label +:+ " does not match any allowed prefix") (Sentinel ErrPermissionDenied))
  else None.

Definition toLower (ss : list string) : list string := map to_lower ss.

Definition CheckToolAllowed (e : PolicyEnforcer) (agentID toolName : string) : option error :=
  match ResolvePolicy e agentID with
  | None => None
  | Some p => checkAllowDeny toolName (pol_AllowedTools p) (pol_DeniedTools p) "tool"
  end.

Definition CheckPathAllowed (e : PolicyEnforcer) (agentID path : string) : option error :=
  match ResolvePolicy e agentID with
  | None => None
  | Some p => checkPrefixAllowDeny path (pol_AllowedPaths p) (pol_DeniedPaths p) "path"
  end.

Definition CheckDomainAllowed (e : PolicyEnforcer) (agentID domain : string) : option error :=
  match ResolvePolicy e agentID with
  | None => None
  | Some p => checkAllowDeny (to_lower domain) (toLower (pol_AllowedDomains p))
                (toLower (pol_DeniedDomains p)) "domain"
  end.

Definition CheckCommandAllowed (e : PolicyEnforcer) (agentID command : string) : option error :=
  match ResolvePolicy e agentID with
  | None => None
  | Some p => checkPrefixAllowDeny command (pol_AllowedCommands p) (pol_DeniedCommands p) "command"
  end.

Definition CheckSkillAllowed (e : PolicyEnforcer) (agentID skillKey : string) : option error :=
  match ResolvePolicy e agentID with
  | None => None
  | Some p => checkAllowDeny skillKey (pol_AllowedSkills p) (pol_DeniedSkills p) "skill"
  end.

Definition CheckRiskLevel (e : PolicyEnforcer) (agentID : string) (riskLevel : RiskLevel)
    : option error :=
  match ResolvePolicy e agentID with
  | None => None
  | Some p =>
      if String.eqb (pol_MaxRiskLevel p) "" then None
      else if (ParseRiskLevel (pol_MaxRiskLevel p) <? riskLevel)%Z
      then Some (Wrap "risk level exceeds policy cap" (Sentinel ErrPermissionDenied))
      else None
  end.

Definition RequiresApproval (e : PolicyEnforcer) (agentID toolName : string) : bool :=
  match ResolvePolicy e agentID with
  | None => false
  | Some p => slice_contains (pol_RequireApproval p) toolName
  end.

(** ** Lemmas *)

#[export] Hint Rewrite Z.ltb_lt Z.ltb_ge Nat.ltb_lt Nat.ltb_ge : go.

Lemma roleHasPermission_true role a :
  roleHasPermission role a = true <-> a ∈ role_Permissions role.
Proof. apply slice_contains_true. Qed.
#[export] Hint Rewrite roleHasPermission_true : go.

Lemma resolveRole_spec r u role :
  resolveRole r u = Some role <->
  roleNameOf r u <> "" /\ rbac_roles r !! roleNameOf r u = Some role.
Proof. unfold resolveRole. destruct (String.eqb_spec (roleNameOf r u) ""); naive_solver. Qed.

Lemma checkAllowDeny_None v allowed denied label :
  checkAllowDeny v allowed denied label = None <->
  v ∉ denied /\ (allowed = [] \/ v ∈ allowed).
Proof.
  unfold checkAllowDeny. destruct (slice_contains_spec denied v); [by split; [|intros []]|].
  destruct allowed as [|x xs]; simpl (0 <? _)%nat; cbv iota; [by split; auto|].
  destruct (slice_contains_spec (x :: xs) v); split; try done; [by auto|].
  intros [_ [?|?]]; done.
Qed.

Lemma existsb_has_prefix v ps :
  existsb (has_prefix v) ps = true <-> exists p, p ∈ ps /\ has_prefix v p = true.
Proof.
  rewrite existsb_exists. split; intros (p & ? & ?); exists p; split; try done;
    by apply list_elem_of_In.
Qed.

Lemma existsb_has_prefix_false v ps :
  existsb (has_prefix v) ps = false <-> forall p, p ∈ ps -> has_prefix v p = false.
Proof.
  rewrite <-not_true_iff_false, existsb_has_prefix. split.
  - intros Hn p Hp. apply not_true_iff_false. intros ?. apply Hn. eauto.
  - intros Hall (p & Hp & Hpre). by rewrite Hall in Hpre.
Qed.

Lemma checkPrefixAllowDeny_None v allowed denied label :
  checkPrefixAllowDeny v allowed denied label = None <->
  (forall p, p ∈ denied -> has_prefix v p = false) /\
  (allowed = [] \/ exists p, p ∈ allowed /\ has_prefix v p = true).
Proof.
  unfold checkPrefixAllowDeny. rewrite <-existsb_has_prefix, <-existsb_has_prefix_false.
  destruct (existsb (has_prefix v) denied); [by split; [|intros []]|].
  destruct allowed as [|x xs]; simpl (0 <? _)%nat; cbv iota; [by split; auto|].
  destruct (existsb (has_prefix v) (x :: xs)); split; try done; [by auto|].
  intros [_ [?|?]]; done.
Qed.

Lemma ParseRiskLevel_range s : (RiskLow <= ParseRiskLevel s <= RiskCritical)%Z.
Proof.
  unfold ParseRiskLevel, RiskLow, RiskMedium, RiskHigh, RiskCritical.
  repeat case_match; lia.
Qed.

Lemma ParseRiskLevel_unrecognised s :
  s ∉ ["low"; "medium"; "high"; "critical"] -> ParseRiskLevel s = RiskCritical.
Proof.
  rewrite !not_elem_of_cons. intros (Hl & Hm & Hh & _). unfold ParseRiskLevel.
  rewrite !(proj2 (String.eqb_neq _ _)) by done. by destruct (String.eqb s "critical").
Qed.

Lemma rbac_RequireApproval_None r u a :
  rbac_RequireApproval r u a = None <->
  exists role, resolveRole r u = Some role /\
    (act_RiskLevel a <= ParseRiskLevel (role_MaxRiskLevel role))%Z /\
    act_Name a ∉ role_RequireApproval role.
Proof.
  unfold rbac_RequireApproval.
  destruct (resolveRole r u) as [role|]; [|split; [done|intros (? & ? & _); done]].
  destruct (Z.ltb_spec (ParseRiskLevel (role_MaxRiskLevel role)) (act_RiskLevel a)).
  { split; [done|]. intros (role' & [= <-] & ? & ?). lia. }
  destruct (slice_contains_spec (role_RequireApproval role) (act_Name a)); split; try done.
  - intros (role' & [= <-] & ? & ?). done.
  - eauto.
Qed.

Lemma rbac_RequireApproval_Some r u a e :
  rbac_RequireApproval r u a = Some e -> errors_is e ErrApprovalRequired = true.
Proof.
  unfold rbac_RequireApproval. intros H. case_hyp H; done.
Qed.

Lemma rbac_CheckPermission_None r u a :
  rbac_CheckPermission r u a = None <->
  exists role, resolveRole r u = Some role /\ act_Name a ∈ role_Permissions role.
Proof.
  unfold rbac_CheckPermission, roleHasPermission.
  destruct (resolveRole r u) as [role|]; [|split; [done|intros (? & ? & _); done]].
  destruct (slice_contains_spec (role_Permissions role) (act_Name a)); simpl; split;
    try done; [eauto|]. by intros (? & [= <-] & ?).
Qed.

Lemma rbac_CheckPermission_Some r u a e :
  rbac_CheckPermission r u a = Some e -> errors_is e ErrPermissionDenied = true.
Proof. unfold rbac_CheckPermission. intros H. case_hyp H; done. Qed.

(** ** Properties *)

(** Permission is default-deny.  [RBAC.CheckPermission] lets a user act only
    when the role the user resolves to (the assigned one, else the default role)
    has a name, is defined, and lists the action explicitly; in every other case
    it returns an error that is [ErrPermissionDenied]. *)
Theorem rbac_default_deny (r : RBAC) (u : string) (a : Action) :
  (rbac_CheckPermission r u a = None <->
   exists role, roleNameOf r u <> "" /\ rbac_roles r !! roleNameOf r u = Some role /\
     act_Name a ∈ role_Permissions role) /\
  (forall e, rbac_CheckPermission r u a = Some e -> errors_is e ErrPermissionDenied = true).
Proof.
  split; [|apply rbac_CheckPermission_Some].
  rewrite rbac_CheckPermission_None. setoid_rewrite resolveRole_spec. naive_solver.
Qed.

(** [RBAC.RequireApproval] asks for an approval exactly when the user has no
    role, the action's risk exceeds the role's maximum, or the action is on the
    role's [RequireApproval] list; the error it returns is [ErrApprovalRequired]. *)
Theorem rbac_approval_exact (r : RBAC) (u : string) (a : Action) :
  (is_Some (rbac_RequireApproval r u a) <->
   forall role, resolveRole r u = Some role ->
     (ParseRiskLevel (role_MaxRiskLevel role) < act_RiskLevel a)%Z \/
     act_Name a ∈ role_RequireApproval role) /\
  (forall e, rbac_RequireApproval r u a = Some e -> errors_is e ErrApprovalRequired = true).
Proof.
  split; [|apply rbac_RequireApproval_Some].
  rewrite <-not_eq_None_Some, rbac_RequireApproval_None. split.
  - intros Hn role Hr. destruct (decide (act_Name a ∈ role_RequireApproval role)); [by right|].
    left. apply Z.nle_gt. intros Hle. apply Hn. eauto.
  - intros Hall (role & Hr & Hle & Hni). destruct (Hall role Hr); [lia|done].
Qed.

(** An unrecognised [MaxRiskLevel] (a misspelt or empty one) is read as
    [RiskCritical], the widest ceiling, by both readers of the field: no risk
    level then makes [RBAC.RequireApproval] ask for an approval, and a policy's
    [CheckRiskLevel] refuses no risk level a tool can have. *)
Theorem unrecognised_risk_ceiling_allows_all (r : RBAC) (pe : PolicyEnforcer) (u agent : string)
    (a : Action) (role : Role) (p : SecurityPolicy) :
  resolveRole r u = Some role ->
  ResolvePolicy pe agent = Some p ->
  role_MaxRiskLevel role ∉ ["low"; "medium"; "high"; "critical"] ->
  pol_MaxRiskLevel p ∉ ["low"; "medium"; "high"; "critical"] ->
  act_Name a ∉ role_RequireApproval role ->
  (act_RiskLevel a <= RiskCritical)%Z ->
  rbac_RequireApproval r u a = None /\ CheckRiskLevel pe agent (act_RiskLevel a) = None.
Proof.
  intros Hr Hp Hm Hpm Hna Hrisk. split.
  - apply rbac_RequireApproval_None. exists role. by rewrite ParseRiskLevel_unrecognised.
  - unfold CheckRiskLevel. rewrite Hp, ParseRiskLevel_unrecognised by done.
    destruct (String.eqb _ _); [done|]. by rewrite (proj2 (Z.ltb_ge _ _)).
Qed.

Definition demo_role : Role := mkRole "ops" ["shell"] "hihg" [].
Definition demo_rbac : RBAC := mkRBAC {["ops" := demo_role]} {["alice" := "ops"]} "".
Definition demo_policy : SecurityPolicy :=
  mkPolicy "p" ["shell_exec"] ["git_write"] [] [] [] [] [] [] "hgh" [] [] [].
Definition demo_enforcer : PolicyEnforcer := NewPolicyEnforcer [demo_policy] {["alice" := "p"]}.

Lemma unrecognised_risk_ceiling_allows_all_witness :
  rbac_RequireApproval demo_rbac "alice" (mkAction "shell" RiskCritical) = None /\
  CheckRiskLevel demo_enforcer "alice" RiskCritical = None.
Proof.
  apply (unrecognised_risk_ceiling_allows_all demo_rbac demo_enforcer "alice" "alice"
    (mkAction "shell" RiskCritical) demo_role demo_policy).
  - reflexivity.
  - vm_compute. reflexivity.
  - apply (bool_decide_unpack _). vm_compute. exact I.
  - apply (bool_decide_unpack _). vm_compute. exact I.
  - apply (bool_decide_unpack _). vm_compute. exact I.
  - unfold RiskCritical. simpl. lia.
Defined.

(** Deny wins, then the allow list decides.  For an agent bound to a policy, a
    tool or skill passes exactly when it is on no deny list and the allow list is
    empty or contains it; a path or command passes exactly when no denied prefix
    matches it and the allow list is empty or one of its prefixes matches. *)
Theorem policy_deny_first (pe : PolicyEnforcer) (agent : string) (p : SecurityPolicy) :
  ResolvePolicy pe agent = Some p ->
  (forall t, CheckToolAllowed pe agent t = None <->
     t ∉ pol_DeniedTools p /\ (pol_AllowedTools p = [] \/ t ∈ pol_AllowedTools p)) /\
  (forall k, CheckSkillAllowed pe agent k = None <->
     k ∉ pol_DeniedSkills p /\ (pol_AllowedSkills p = [] \/ k ∈ pol_AllowedSkills p)) /\
  (forall x, CheckPathAllowed pe agent x = None <->
     (forall d, d ∈ pol_DeniedPaths p -> has_prefix x d = false) /\
     (pol_AllowedPaths p = [] \/ exists d, d ∈ pol_AllowedPaths p /\ has_prefix x d = true)) /\
  (forall x, CheckCommandAllowed pe agent x = None <->
     (forall d, d ∈ pol_DeniedCommands p -> has_prefix x d = false) /\
     (pol_AllowedCommands p = [] \/ exists d, d ∈ pol_AllowedCommands p /\ has_prefix x d = true)).
Proof.
  intros Hp. unfold CheckToolAllowed, CheckSkillAllowed, CheckPathAllowed, CheckCommandAllowed.
  rewrite Hp. repeat split_and; intros x;
    (apply checkAllowDeny_None || apply checkPrefixAllowDeny_None).
Qed.

Lemma policy_deny_first_witness :
  CheckToolAllowed demo_enforcer "alice" "shell_exec" = None /\
  CheckToolAllowed demo_enforcer "alice" "git_write" <> None.
Proof.
  destruct (policy_deny_first demo_enforcer "alice" demo_policy) as (Ht & _);
    [vm_compute; reflexivity|].
  split.
  - apply Ht. split; [apply (bool_decide_unpack _); vm_compute; exact I|].
    right. apply (bool_decide_unpack _). vm_compute. exact I.
  - intros H. apply Ht in H as [H _]. revert H. simpl. set_solver.
Defined.
