(* ===== verification/Budget.v ===== *)
(** * Per-user budgets with reservations

    [src/internal/security/budget.go]: the in-memory [BudgetManager], and
    [pg_budget.go]: its adapter over a persistent [BudgetStore].

    A reservation returns a closure that captures the user's record and a
    [released] flag.  The record is the map entry of the user (entries are never
    replaced), so the closure is modelled by the user, the amount and the index of
    its flag in [bm_released]; the flags are part of the manager's state. *)

From S2P Require Import Prelude.

Section model.
Context {F : Type} `{Num F}.
Local Open Scope go_scope.

Record userBudget := mkUserBudget { ub_limit : F; ub_spent : F; ub_reserved : F }.

Record releaseFn := mkRelease { rf_user : string; rf_cost : F; rf_flag : nat }.

Record BudgetManager := mkBudgetManager {
  bm_defaultLimitUSD : F;
  bm_users : gmap string userBudget;
  bm_released : gset nat;
  bm_nextFlag : nat;
}.

Definition NewBudgetManager (defaultLimitUSD : F) : BudgetManager :=
  mkBudgetManager defaultLimitUSD ∅ ∅ 0.

Definition set_users (b : BudgetManager) (us : gmap string userBudget) : BudgetManager :=
  mkBudgetManager (bm_defaultLimitUSD b) us (bm_released b) (bm_nextFlag b).

Definition getOrCreate (b : BudgetManager) (userID : string) : userBudget * BudgetManager :=
  match bm_users b !! userID with
  | Some ub => (ub, b)
  | None =>
      let ub := mkUserBudget (bm_defaultLimitUSD b) (nofZ 0) (nofZ 0) in
      (ub, set_users b (<[userID := ub]> (bm_users b)))
  end.

Definition ub_remaining (ub : userBudget) : F := ub_limit ub -f ub_spent ub -f ub_reserved ub.

Definition CheckBudget (b : BudgetManager) (userID : string) (estimatedCost : F)
    : option error * BudgetManager :=
  let '(ub, b) := getOrCreate b userID in
  let remaining := ub_remaining ub in
  if estimatedCost >f? remaining
  then (Some (Wrap "estimated cost exceeds remaining" (Sentinel ErrBudgetExceeded)), b)
  else (None, b).

Definition ReserveBudget (b : BudgetManager) (userID : string) (estimatedCost : F)
    : result error releaseFn * BudgetManager :=
  let '(ub, b) := getOrCreate b userID in
  let remaining := ub_remaining ub in
  if estimatedCost >f? remaining
  then (Err (Wrap "cannot reserve" (Sentinel ErrBudgetExceeded)), b)
  else
    let ub := mkUserBudget (ub_limit ub) (ub_spent ub) (ub_reserved ub +f estimatedCost) in
    let flag := bm_nextFlag b in
    (Ok (mkRelease userID estimatedCost flag),
     mkBudgetManager (bm_defaultLimitUSD b) (<[userID := ub]> (bm_users b))
       (bm_released b) (S flag)).

(** Calling the closure [ReserveBudget] returned. *)
Definition release (fn : releaseFn) (b : BudgetManager) : BudgetManager :=
  if bool_decide (rf_flag fn ∈ bm_released b) then b
  else
    let sub ub := mkUserBudget (ub_limit ub) (ub_spent ub) (ub_reserved ub -f rf_cost fn) in
    mkBudgetManager (bm_defaultLimitUSD b) (alter sub (rf_user fn) (bm_users b))
      ({[rf_flag fn]} ∪ bm_released b) (bm_nextFlag b).

Definition RecordCost (b : BudgetManager) (userID : string) (actualCost : F) : BudgetManager :=
  let '(ub, b) := getOrCreate b userID in
  let spent := ub_spent ub +f actualCost in
  let reserved :=
    if ub_reserved ub >=f? actualCost then ub_reserved ub -f actualCost else nofZ 0 in
  set_users b (<[userID := mkUserBudget (ub_limit ub) spent reserved]> (bm_users b)).

Definition Remaining (b : BudgetManager) (userID : string) : F * BudgetManager :=
  let '(ub, b) := getOrCreate b userID in
  (ub_remaining ub, b).

(** ** The persistent adapter

    [BudgetStore] is the interface of [interfaces.go]; the adapter is stated for
    any implementation [S] of it, keyed by reservation identifiers. *)

Class BudgetStore (S R : Type) := {
  st_CheckBudget : S -> string -> F -> result error F * S;
  st_ReserveBudget : S -> string -> F -> F -> result error R * S;
  st_ReleaseReservation : S -> R -> option error * S;
  st_RecordCost : S -> R -> F -> option error * S;
}.

Section pg.
Context {S R : Type} `{BudgetStore S R}.

Record PGBudgetManager := mkPG { pg_store : S; pg_defaultLimit : F }.

Definition pg_CheckBudget (b : PGBudgetManager) (userID : string) (estimatedCost : F)
    : option error * PGBudgetManager :=
  match st_CheckBudget (pg_store b) userID (pg_defaultLimit b) with
  | (Err e, s) => (Some (Wrap "checking budget" e), mkPG s (pg_defaultLimit b))
  | (Ok remaining, s) =>
      (if estimatedCost >f? remaining
       then Some (Wrap "estimated cost exceeds remaining" (Sentinel ErrBudgetExceeded))
       else None, mkPG s (pg_defaultLimit b))
  end.

(** The closure of the adapter: the reservation and its [released] flag. *)
Record pgRelease := mkPGRelease { pr_reservation : R; pr_released : bool }.

Definition pg_ReserveBudget (b : PGBudgetManager) (userID : string) (estimatedCost : F)
    : result error pgRelease * PGBudgetManager :=
  match st_ReserveBudget (pg_store b) userID estimatedCost (pg_defaultLimit b) with
  | (Err e, s) => (Err e, mkPG s (pg_defaultLimit b))
  | (Ok reservationID, s) =>
      (Ok (mkPGRelease reservationID false), mkPG s (pg_defaultLimit b))
  end.

Definition pg_release (fn : pgRelease) (b : PGBudgetManager) : pgRelease * PGBudgetManager :=
  if pr_released fn then (fn, b)
  else
    let '(_, s) := st_ReleaseReservation (pg_store b) (pr_reservation fn) in
    (mkPGRelease (pr_reservation fn) true, mkPG s (pg_defaultLimit b)).

(** The adapter's [RecordCost] logs the amount and changes nothing. *)
Definition pg_RecordCost (b : PGBudgetManager) (userID : string) (actualCost : F)
    : PGBudgetManager := b.

End pg.
End model.

Arguments userBudget F : clear implicits.
Arguments releaseFn F : clear implicits.
Arguments BudgetManager F : clear implicits.
Arguments BudgetStore F S R : clear implicits.
Arguments pgRelease R : clear implicits.
Arguments PGBudgetManager F S : clear implicits.

(** ** Lemmas on exact amounts *)

Section exact.
Context {F : Type} `{ExactNum F}.
Implicit Types (b : BudgetManager F) (fn : releaseFn F) (ub : userBudget F).
Local Open Scope go_scope.

(** The record a user has, or the one the first access creates. *)
Definition ub_of (b : BudgetManager F) (u : string) : userBudget F := (getOrCreate b u).1.

(** What the user can still reserve, as a rational. *)
Definition avail (b : BudgetManager F) (u : string) : Q := toQ (ub_remaining (ub_of b u)).

Lemma getOrCreate_fst b u : (getOrCreate b u).1 = ub_of b u.
Proof. done. Qed.

Lemma getOrCreate_users b u :
  bm_users (getOrCreate b u).2 !! u = Some (ub_of b u).
Proof.
  unfold ub_of, getOrCreate. destruct (bm_users b !! u) eqn:E; simpl; [done|].
  apply lookup_insert_eq.
Qed.

Lemma getOrCreate_other b u v :
  u <> v -> bm_users (getOrCreate b u).2 !! v = bm_users b !! v.
Proof.
  intros Hne. unfold getOrCreate. destruct (bm_users b !! u); simpl; [done|].
  by apply lookup_insert_ne.
Qed.

Lemma getOrCreate_misc b u :
  bm_defaultLimitUSD (getOrCreate b u).2 = bm_defaultLimitUSD b /\
  bm_released (getOrCreate b u).2 = bm_released b /\
  bm_nextFlag (getOrCreate b u).2 = bm_nextFlag b.
Proof. unfold getOrCreate. by destruct (bm_users b !! u). Qed.

Lemma ub_of_Some b u ub : bm_users b !! u = Some ub -> ub_of b u = ub.
Proof. intros E. unfold ub_of, getOrCreate. by rewrite E. Qed.

Lemma ub_of_lookup_eq b b' u :
  bm_users b' !! u = bm_users b !! u ->
  bm_defaultLimitUSD b' = bm_defaultLimitUSD b -> ub_of b' u = ub_of b u.
Proof.
  intros E1 E2. unfold ub_of, getOrCreate. rewrite E1, E2. by destruct (bm_users b !! u).
Qed.

Lemma ub_of_getOrCreate b u v : ub_of (getOrCreate b u).2 v = ub_of b v.
Proof.
  destruct (decide (u = v)) as [<-|Hne].
  - apply ub_of_Some, getOrCreate_users.
  - apply ub_of_lookup_eq; [by apply getOrCreate_other|apply getOrCreate_misc].
Qed.

Lemma avail_unfold b u :
  (avail b u == toQ (ub_limit (ub_of b u)) - toQ (ub_spent (ub_of b u)) -
     toQ (ub_reserved (ub_of b u)))%Q.
Proof. unfold avail, ub_remaining. by rewrite !toQ_sub. Qed.

(** The effect of [ReserveBudget] on the record of every user. *)
Lemma ReserveBudget_Ok b u c fn b' :
  ReserveBudget b u c = (Ok fn, b') ->
  (toQ c <= avail b u)%Q /\ fn = mkRelease u c (bm_nextFlag b) /\
  bm_users b' = <[u := mkUserBudget (ub_limit (ub_of b u)) (ub_spent (ub_of b u))
                        (ub_reserved (ub_of b u) +f c)]> (bm_users (getOrCreate b u).2) /\
  bm_defaultLimitUSD b' = bm_defaultLimitUSD b /\
  bm_released b' = bm_released b /\ bm_nextFlag b' = S (bm_nextFlag b).
Proof.
  unfold ReserveBudget, avail. pose proof (getOrCreate_misc b u) as (E1 & E2 & E3).
  rewrite <-getOrCreate_fst. destruct (getOrCreate b u) as [ub b1]; simpl in *.
  destruct (nltb (ub_remaining ub) c) eqn:E; intros [= <- <-]; simpl.
  apply nltb_false in E. by rewrite E1, E2, E3.
Qed.

Lemma ReserveBudget_Err b u c e b' :
  ReserveBudget b u c = (Err e, b') ->
  (avail b u < toQ c)%Q /\ errors_is e ErrBudgetExceeded = true /\ b' = (getOrCreate b u).2.
Proof.
  unfold ReserveBudget, avail. rewrite <-getOrCreate_fst.
  destruct (getOrCreate b u) as [ub b1]; simpl.
  destruct (nltb (ub_remaining ub) c) eqn:E; intros [= <- <-]; simpl.
  apply nltb_spec in E. done.
Qed.

Lemma ReserveBudget_cases b u c :
  (exists fn b', ReserveBudget b u c = (Ok fn, b')) \/
  (exists e b', ReserveBudget b u c = (Err e, b')).
Proof. destruct (ReserveBudget b u c) as [[fn|e] b']; eauto. Qed.

Lemma RecordCost_users b u c :
  bm_users (RecordCost b u c) =
  <[u := mkUserBudget (ub_limit (ub_of b u)) (ub_spent (ub_of b u) +f c)
           (if ub_reserved (ub_of b u) >=f? c then ub_reserved (ub_of b u) -f c else nofZ 0)]>
    (bm_users (getOrCreate b u).2).
Proof. unfold RecordCost. rewrite <-getOrCreate_fst. by destruct (getOrCreate b u). Qed.

Lemma RecordCost_misc b u c :
  bm_defaultLimitUSD (RecordCost b u c) = bm_defaultLimitUSD b /\
  bm_released (RecordCost b u c) = bm_released b /\
  bm_nextFlag (RecordCost b u c) = bm_nextFlag b.
Proof.
  unfold RecordCost. pose proof (getOrCreate_misc b u) as (E1 & E2 & E3).
  destruct (getOrCreate b u) as [ub b1]; simpl in *. by rewrite E1, E2, E3.
Qed.

Lemma release_done fn b : rf_flag fn ∈ bm_released b -> release fn b = b.
Proof. intros Hin. unfold release. by rewrite bool_decide_eq_true_2. Qed.

Lemma release_live fn b :
  rf_flag fn ∉ bm_released b ->
  bm_users (release fn b) =
    alter (fun ub => mkUserBudget (ub_limit ub) (ub_spent ub) (ub_reserved ub -f rf_cost fn))
      (rf_user fn) (bm_users b) /\
  bm_released (release fn b) = {[rf_flag fn]} ∪ bm_released b /\
  bm_nextFlag (release fn b) = bm_nextFlag b /\
  bm_defaultLimitUSD (release fn b) = bm_defaultLimitUSD b.
Proof. intros Hin. unfold release. by rewrite bool_decide_eq_false_2. Qed.
End exact.

(** ** The ledger a caller must keep

    [settles b open] holds of the managers reachable when every reservation is
    settled once: released, or replaced by a cost of the same amount.  [open] lists
    the reservations not settled yet. *)

Inductive settles {F} `{ExactNum F} : BudgetManager F -> list (releaseFn F) -> Prop :=
  | settles_new L : (0 <= toQ L)%Q -> settles (NewBudgetManager L) []
  | settles_check b open u c :
      settles b open -> settles (CheckBudget b u c).2 open
  | settles_reserve b open u c fn b' :
      settles b open -> (0 <= toQ c)%Q ->
      ReserveBudget b u c = (Ok fn, b') -> settles b' (fn :: open)
  | settles_refuse b open u c e b' :
      settles b open -> ReserveBudget b u c = (Err e, b') -> settles b' open
  | settles_release b o1 fn o2 :
      settles b (o1 ++ fn :: o2) -> settles (release fn b) (o1 ++ o2)
  | settles_again b open fn :
      settles b open -> rf_flag fn ∈ bm_released b -> settles (release fn b) open
  | settles_record b o1 fn o2 :
      settles b (o1 ++ fn :: o2) ->
      settles (RecordCost b (rf_user fn) (rf_cost fn)) (o1 ++ o2).

(** The open reservations of a user, summed. *)
Fixpoint open_sum {F} `{ExactNum F} (u : string) (open : list (releaseFn F)) : Q :=
  match open with
  | [] => 0
  | fn :: open' =>
      ((if String.eqb (rf_user fn) u then toQ (rf_cost fn) else 0) + open_sum u open')%Q
  end.

Record ledger_ok {F} `{ExactNum F} (b : BudgetManager F) (open : list (releaseFn F)) : Prop := {
  lo_default : (0 <= toQ (bm_defaultLimitUSD b))%Q;
  lo_cost : Forall (fun fn => 0 <= toQ (rf_cost fn))%Q open;
  lo_flag : Forall (fun fn => rf_flag fn ∉ bm_released b /\ rf_flag fn < bm_nextFlag b) open;
  lo_released : forall n, n ∈ bm_released b -> n < bm_nextFlag b;
  lo_nodup : NoDup (rf_flag <$> open);
  lo_user : Forall (fun fn => is_Some (bm_users b !! rf_user fn)) open;
  lo_reserved : forall u, (toQ (ub_reserved (ub_of b u)) == open_sum u open)%Q;
  lo_spent : forall u, (0 <= toQ (ub_spent (ub_of b u)))%Q;
  lo_avail : forall u, (0 <= avail b u)%Q;
}.

Section ledger.
Context {F : Type} `{ExactNum F}.
Implicit Types (b : BudgetManager F) (fn : releaseFn F) (ub : userBudget F).

Lemma ub_of_insert b b' u ub v :
  bm_users b' = <[u := ub]> (bm_users (getOrCreate b u).2) ->
  bm_defaultLimitUSD b' = bm_defaultLimitUSD b ->
  ub_of b' v = if String.eqb u v then ub else ub_of b v.
Proof.
  intros E1 E2. destruct (String.eqb_spec u v) as [<-|Hne].
  - apply ub_of_Some. rewrite E1. apply lookup_insert_eq.
  - apply ub_of_lookup_eq; [|done]. rewrite E1, lookup_insert_ne by done.
    by apply getOrCreate_other.
Qed.

Lemma ub_of_release b fn v :
  rf_flag fn ∉ bm_released b -> is_Some (bm_users b !! rf_user fn) ->
  ub_of (release fn b) v =
    if String.eqb (rf_user fn) v
    then mkUserBudget (ub_limit (ub_of b v)) (ub_spent (ub_of b v))
           (nsub (ub_reserved (ub_of b v)) (rf_cost fn))
    else ub_of b v.
Proof.
  intros Hf [ub Hub]. destruct (release_live fn b Hf) as (E & _ & _ & Ed).
  destruct (String.eqb_spec (rf_user fn) v) as [<-|Hne].
  - rewrite (ub_of_Some _ _ _ Hub). apply ub_of_Some.
    rewrite E, lookup_alter_eq, Hub. done.
  - apply ub_of_lookup_eq; [|done]. by rewrite E, lookup_alter_ne.
Qed.

Lemma open_sum_app u (o1 o2 : list (releaseFn F)) :
  (open_sum u (o1 ++ o2) == open_sum u o1 + open_sum u o2)%Q.
Proof. induction o1 as [|fn o1 IH]; simpl; [lra|]. rewrite IH. destruct (String.eqb _ _); lra. Qed.

Lemma open_sum_remove u fn (o1 o2 : list (releaseFn F)) :
  (open_sum u (o1 ++ fn :: o2) ==
   open_sum u (o1 ++ o2) + if String.eqb (rf_user fn) u then toQ (rf_cost fn) else 0)%Q.
Proof. rewrite !open_sum_app. simpl. destruct (String.eqb _ _); lra. Qed.

Lemma open_sum_nonneg u (open : list (releaseFn F)) :
  Forall (fun fn => 0 <= toQ (rf_cost fn))%Q open -> (0 <= open_sum u open)%Q.
Proof. induction 1; simpl; [lra|]. destruct (String.eqb _ _); lra. Qed.

Lemma Forall_remove {A} (P : A -> Prop) o1 x o2 :
  Forall P (o1 ++ x :: o2) -> P x /\ Forall P (o1 ++ o2).
Proof. rewrite !Forall_app, Forall_cons. tauto. Qed.

Lemma NoDup_remove_mid {A} (o1 o2 : list A) x :
  NoDup (o1 ++ x :: o2) -> x ∉ o1 ++ o2 /\ NoDup (o1 ++ o2).
Proof. rewrite <-Permutation_middle. apply NoDup_cons. Qed.

Lemma ledger_ok_users b b' open :
  ledger_ok b open ->
  bm_defaultLimitUSD b' = bm_defaultLimitUSD b -> bm_released b' = bm_released b ->
  bm_nextFlag b' = bm_nextFlag b ->
  (forall u, is_Some (bm_users b !! u) -> is_Some (bm_users b' !! u)) ->
  (forall u, ub_of b' u = ub_of b u) -> ledger_ok b' open.
Proof.
  intros [] E1 E2 E3 Hs Hu. split; rewrite ?E1, ?E2, ?E3; try done.
  - eapply Forall_impl; eauto.
  - intros u. by rewrite Hu.
  - intros u. by rewrite Hu.
  - intros u. unfold avail. rewrite Hu. apply (lo_avail0 u).
Qed.

Lemma ledger_ok_getOrCreate b open u :
  ledger_ok b open -> ledger_ok (getOrCreate b u).2 open.
Proof.
  intros Hok. pose proof (getOrCreate_misc b u) as (E1 & E2 & E3).
  eapply ledger_ok_users; eauto using ub_of_getOrCreate.
  intros v Hv. destruct (decide (u = v)) as [<-|Hne].
  - rewrite getOrCreate_users. done.
  - by rewrite getOrCreate_other.
Qed.

Lemma getOrCreate_is_Some b u v :
  is_Some (bm_users b !! v) -> is_Some (bm_users (getOrCreate b u).2 !! v).
Proof.
  intros Hv. destruct (decide (u = v)) as [<-|Hne]; [by rewrite getOrCreate_users|].
  by rewrite getOrCreate_other.
Qed.

Lemma insert_is_Some b u ub v :
  is_Some (bm_users b !! v) ->
  is_Some (<[u := ub]> (bm_users (getOrCreate b u).2) !! v).
Proof. intros Hv. apply lookup_insert_is_Some'. right. by apply getOrCreate_is_Some. Qed.
End ledger.

Section ledger_steps.
Context {F : Type} `{ExactNum F}.
Implicit Types (b : BudgetManager F) (fn : releaseFn F).

Lemma ledger_ok_reserve b open u c fn b' :
  ledger_ok b open -> (0 <= toQ c)%Q -> ReserveBudget b u c = (Ok fn, b') ->
  ledger_ok b' (fn :: open).
Proof.
  intros Hok Hc (Hle & -> & Eu & Ed & Er & En)%ReserveBudget_Ok.
  pose proof (fun v => ub_of_insert b b' u _ v Eu Ed) as Hub.
  destruct Hok as [? ? Hflag ? ? Huser Hres Hsp Hav].
  split; rewrite ?Ed, ?Er, ?En; simpl.
  - done.
  - by constructor.
  - constructor; [simpl; split; [|lia]|].
    + intros Hin%lo_released0. simpl in *. lia.
    + eapply Forall_impl; [exact Hflag|]. simpl. intros ? []. split; [done|lia].
  - intros n Hn%lo_released0. lia.
  - constructor; [|done]. intros (fn & Heq & Hin)%list_elem_of_fmap.
    rewrite Forall_forall in Hflag. specialize (Hflag fn Hin). simpl in *. lia.
  - rewrite Eu. constructor; simpl; [rewrite lookup_insert_eq; done|].
    eapply Forall_impl; [exact Huser|]. intros fn. apply insert_is_Some.
  - intros v. rewrite Hub. specialize (Hres v). destruct (String.eqb_spec u v) as [<-|]; simpl.
    + rewrite toQ_add, Hres. lra.
    + rewrite Hres. lra.
  - intros v. rewrite Hub. specialize (Hsp u) as Hu. specialize (Hsp v).
    by destruct (String.eqb u v).
  - intros v. rewrite avail_unfold, Hub. rewrite avail_unfold in Hle.
    specialize (Hav v). rewrite avail_unfold in Hav.
    destruct (String.eqb_spec u v) as [<-|]; simpl; rewrite ?toQ_add; lra.
Qed.

Lemma ledger_ok_release b o1 fn o2 :
  ledger_ok b (o1 ++ fn :: o2) -> ledger_ok (release fn b) (o1 ++ o2).
Proof.
  intros [? Hcost Hflag ? Hnd Huser Hres Hsp Hav].
  apply Forall_remove in Hcost as [Hc Hcost]. apply Forall_remove in Hflag as [[Hf Hn] Hflag].
  apply Forall_remove in Huser as [Hu Huser].
  rewrite fmap_app, fmap_cons in Hnd. apply NoDup_remove_mid in Hnd as [Hni Hnd].
  rewrite <-fmap_app in Hni, Hnd.
  destruct (release_live fn b Hf) as (Eu & Er & En & Ed).
  pose proof (fun v => ub_of_release b fn v Hf Hu) as Hub.
  split; rewrite ?Ed, ?Er, ?En; try done.
  - apply Forall_forall. intros fn' Hin. rewrite Forall_forall in Hflag.
    destruct (Hflag fn' Hin). split; [|done]. apply not_elem_of_union. split; [|done].
    apply not_elem_of_singleton. intros Heq. apply Hni. rewrite <-Heq.
    by apply list_elem_of_fmap_2.
  - intros n [->%elem_of_singleton|?%lo_released0]%elem_of_union; lia.
  - rewrite Eu. eapply Forall_impl; [exact Huser|]. intros fn' [ub Hs]. simpl.
    rewrite lookup_alter. case_decide as Heq; rewrite ?Heq, Hs; done.
  - intros v. rewrite Hub. specialize (Hres v). rewrite open_sum_remove in Hres.
    destruct (String.eqb (rf_user fn) v); simpl; rewrite ?toQ_sub; lra.
  - intros v. rewrite Hub. specialize (Hsp v). by destruct (String.eqb (rf_user fn) v).
  - intros v. rewrite avail_unfold, Hub. specialize (Hav v). rewrite avail_unfold in Hav.
    destruct (String.eqb (rf_user fn) v); simpl; rewrite ?toQ_sub; lra.
Qed.

Lemma ledger_ok_record b o1 fn o2 :
  ledger_ok b (o1 ++ fn :: o2) ->
  ledger_ok (RecordCost b (rf_user fn) (rf_cost fn)) (o1 ++ o2).
Proof.
  intros [? Hcost Hflag ? Hnd Huser Hres Hsp Hav].
  apply Forall_remove in Hcost as [Hc Hcost]. apply Forall_remove in Hflag as [_ Hflag].
  apply Forall_remove in Huser as [_ Huser].
  rewrite fmap_app, fmap_cons in Hnd. apply NoDup_remove_mid in Hnd as [_ Hnd].
  rewrite <-fmap_app in Hnd.
  pose proof (RecordCost_misc b (rf_user fn) (rf_cost fn)) as (Ed & Er & En).
  pose proof (RecordCost_users b (rf_user fn) (rf_cost fn)) as Eu.
  pose proof (fun v => ub_of_insert b _ _ _ v Eu Ed) as Hub.
  assert (nleb (rf_cost fn) (ub_reserved (ub_of b (rf_user fn))) = true) as Hge.
  { apply nleb_spec. rewrite Hres, open_sum_remove, String.eqb_refl.
    pose proof (open_sum_nonneg (rf_user fn) _ Hcost). lra. }
  rewrite Hge in Hub.
  split; rewrite ?Ed, ?Er, ?En; try done.
  - rewrite Eu. eapply Forall_impl; [exact Huser|]. intros fn'. apply insert_is_Some.
  - intros v. rewrite Hub. specialize (Hres v). rewrite open_sum_remove in Hres.
    destruct (String.eqb_spec (rf_user fn) v) as [Heq|]; [rewrite Heq|]; simpl; rewrite ?toQ_sub; lra.
  - intros v. rewrite Hub. specialize (Hsp v).
    destruct (String.eqb_spec (rf_user fn) v) as [Heq|]; [rewrite Heq|]; simpl; rewrite ?toQ_add; lra.
  - intros v. rewrite avail_unfold, Hub. specialize (Hav v). rewrite avail_unfold in Hav.
    destruct (String.eqb_spec (rf_user fn) v) as [Heq|]; [rewrite Heq|]; simpl;
      rewrite ?toQ_add, ?toQ_sub; lra.
Qed.

Lemma ledger_ok_settles b open : settles b open -> ledger_ok b open.
Proof.
  induction 1 as [L HL|b open u c _ IH|b open u c fn b' _ IH Hc E|b open u c e b' _ IH E
                 |b o1 fn o2 _ IH|b open fn _ IH Hin|b o1 fn o2 _ IH].
  - assert (forall u, ub_of (NewBudgetManager L) u = mkUserBudget L (nofZ 0) (nofZ 0)) as Hub
      by done.
    split; try done; try (by constructor); intros u; rewrite ?avail_unfold, ?Hub; simpl;
      rewrite ?toQ_ofZ; unfold inject_Z; lra.
  - unfold CheckBudget. pose proof (ledger_ok_getOrCreate b open u IH) as Hok.
    destruct (getOrCreate b u) as [ub b1]. by destruct (nltb _ _).
  - by eapply ledger_ok_reserve.
  - apply ReserveBudget_Err in E as (_ & _ & ->). by apply ledger_ok_getOrCreate.
  - by apply ledger_ok_release.
  - by rewrite release_done.
  - by apply ledger_ok_record.
Qed.
End ledger_steps.

(** ** Properties *)

Section properties.
Context {F : Type} `{ExactNum F}.

(** [BudgetManager.ReserveBudget] grants a reservation exactly when the cost
    fits in what the user has left (limit - spent - reserved).  A grant lowers what
    is left by the cost and no other user's, and calling the returned closure, once
    or any number of times, gives the amount back; a refusal is
    [ErrBudgetExceeded] and changes nobody's budget. *)
Theorem budget_reserve_spec (b : BudgetManager F) open (u : string) (c : F) :
  settles b open ->
  match ReserveBudget b u c with
  | (Ok fn, b') =>
      (toQ c <= avail b u)%Q /\ (avail b' u == avail b u - toQ c)%Q /\
      (forall v, v <> u -> ub_of b' v = ub_of b v) /\
      (avail (release fn b') u == avail b u)%Q /\
      release fn (release fn b') = release fn b'
  | (Err e, b') =>
      (avail b u < toQ c)%Q /\ errors_is e ErrBudgetExceeded = true /\
      (forall v, ub_of b' v = ub_of b v)
  end.
Proof.
  intros Hset. destruct (ReserveBudget b u c) as [[fn|e] b'] eqn:E.
  2: { apply ReserveBudget_Err in E as (? & ? & ->). eauto using ub_of_getOrCreate. }
  apply ReserveBudget_Ok in E as (Hle & -> & Eu & Ed & Er & En).
  pose proof (fun v => ub_of_insert b b' u _ v Eu Ed) as Hub.
  set (fn := mkRelease u c (bm_nextFlag b)) in *.
  assert (rf_flag fn ∉ bm_released b') as Hlive.
  { rewrite Er. intros Hin%(lo_released _ _ (ledger_ok_settles _ _ Hset)). simpl in Hin. lia. }
  assert (is_Some (bm_users b' !! rf_user fn)) as Hsome by (by rewrite Eu; simpl; rewrite lookup_insert_eq).
  pose proof (ub_of_release b' fn u Hlive Hsome) as Hrel.
  destruct (release_live fn b' Hlive) as (_ & Er' & _).
  split; [done|]. rewrite !avail_unfold, Hrel, !Hub. simpl. rewrite !String.eqb_refl. simpl.
  rewrite !toQ_sub, !toQ_add. rewrite avail_unfold in Hle. split; [lra|]. split.
  { intros v Hne. rewrite Hub. by destruct (String.eqb_spec u v). }
  split; [lra|]. apply release_done. rewrite Er'. set_solver.
Qed.

(** The ledger.  When every reservation is settled once, by its release or by
    recording a cost of the same amount (in any order, any number of users and
    reservations in flight), a user's [reserved] is the sum of their open
    reservations, and spent plus reserved never exceeds the limit. *)
Theorem budget_within_limit (b : BudgetManager F) open (u : string) :
  settles b open ->
  (toQ (ub_reserved (ub_of b u)) == open_sum u open)%Q /\
  (0 <= toQ (ub_reserved (ub_of b u)))%Q /\
  (0 <= toQ (ub_spent (ub_of b u)))%Q /\
  (toQ (ub_spent (ub_of b u)) + toQ (ub_reserved (ub_of b u)) <= toQ (ub_limit (ub_of b u)))%Q.
Proof.
  intros Hok%ledger_ok_settles. pose proof (lo_avail _ _ Hok u) as Ha. rewrite avail_unfold in Ha.
  pose proof (open_sum_nonneg u _ (lo_cost _ _ Hok)).
  rewrite <-(lo_reserved _ _ Hok u) in *. pose proof (lo_spent _ _ Hok u).
  repeat split; lra.
Qed.
End properties.

(** A run on exact amounts: alice reserves 3 of 10, then 4; the first is recorded. *)
Definition demo_b1 : BudgetManager Q :=
  (ReserveBudget (NewBudgetManager (inject_Z 10)) "alice" (inject_Z 3)).2.
Definition demo_b2 : BudgetManager Q := (ReserveBudget demo_b1 "alice" (inject_Z 4)).2.

Lemma demo_settles : settles (RecordCost demo_b2 "alice" (inject_Z 3)) [mkRelease "alice" (inject_Z 4) 1].
Proof.
  apply (settles_record demo_b2 [mkRelease "alice" (inject_Z 4) 1] (mkRelease "alice" (inject_Z 3) 0) []).
  apply (settles_reserve demo_b1 _ "alice" (inject_Z 4)); [|done|by vm_compute].
  apply (settles_reserve (NewBudgetManager (inject_Z 10)) _ "alice" (inject_Z 3));
    [|done|by vm_compute].
  by apply settles_new.
Qed.

Lemma budget_reserve_spec_witness :
  (avail (RecordCost demo_b2 "alice" (inject_Z 3)) "alice" < inject_Z 4)%Q.
Proof.
  exact (proj1 (budget_reserve_spec _ _ "alice" (inject_Z 4) demo_settles)).
Defined.

Lemma budget_within_limit_witness :
  (toQ (ub_spent (ub_of (RecordCost demo_b2 "alice" (inject_Z 3)) "alice")) +
   toQ (ub_reserved (ub_of (RecordCost demo_b2 "alice" (inject_Z 3)) "alice")) <= 10)%Q.
Proof.
  destruct (budget_within_limit _ _ "alice" demo_settles) as (_ & _ & _ & Hle).
  exact Hle.
Defined.
