(* ===== verification/PGBudget.v ===== *)
(** * Budgets kept in the database

    [src/internal/storage/postgres/budget_repo.go], the [BudgetRepository] behind
    the adapter of [Budget.v].  The tables are a map of budget rows keyed by user
    and day and the list of reservation rows, a row's index standing for its fresh
    UUID.  A call sees the clock [br_now] and fails as a whole, changing nothing,
    while the database is down ([br_down]).  The database's [SUM] is a parameter,
    and the rounding of the [numeric(14,6)] columns is not modelled. *)

From S2P Require Import Prelude Budget.

Section repo.
Context {F : Type} `{Num F}.
(** [COALESCE(SUM(amount_usd), 0)] as the database computes it. *)
Context (db_sum : list F -> F).
Local Open Scope go_scope.

Record BudgetModel := mkBudgetModel { bd_LimitUSD : F; bd_SpentUSD : F }.

Record ReservationModel := mkReservation {
  rs_BudgetID : string * Time;
  rs_AmountUSD : F;
  rs_ReleasedAt : option Time;
}.

Record BudgetRepository := mkRepo {
  br_budgets : gmap (string * Time) BudgetModel;
  br_reservations : list ReservationModel;
  br_now : Time;
  br_down : option error;
}.

Definition with_tables (r : BudgetRepository) bs rs : BudgetRepository :=
  mkRepo bs rs (br_now r) (br_down r).

(** [time.Now().UTC().Truncate(24 * time.Hour)]. *)
Definition today (now : Time) : Time := (now - now mod (24 * Hour))%Z.

Definition getOrCreateBudget (r : BudgetRepository) (userID : string) (defaultLimit : F)
    : (string * Time) * BudgetModel * BudgetRepository :=
  let id := (userID, today (br_now r)) in
  match br_budgets r !! id with
  | Some budget => (id, budget, r)
  | None =>
      (* the column has a default of 10 *)
      let budget := mkBudgetModel (or_num defaultLimit (nofZ 10)) (nofZ 0) in
      (id, budget, with_tables r (<[id := budget]> (br_budgets r)) (br_reservations r))
  end.

Definition rs_active (id : string * Time) (rs : ReservationModel) : bool :=
  bool_decide (rs_BudgetID rs = id) && bool_decide (rs_ReleasedAt rs = None).

Definition activeReserved (r : BudgetRepository) (id : string * Time) : F :=
  db_sum (rs_AmountUSD <$> List.filter (rs_active id) (br_reservations r)).

Definition repo_CheckBudget (r : BudgetRepository) (externalUserID : string) (defaultLimit : F)
    : result error F * BudgetRepository :=
  match br_down r with
  | Some e => (Err (Wrap "looking up budget" e), r)
  | None =>
      let '(id, budget, r) := getOrCreateBudget r externalUserID defaultLimit in
      (Ok (bd_LimitUSD budget -f bd_SpentUSD budget -f activeReserved r id), r)
  end.

Definition repo_ReserveBudget (r : BudgetRepository) (externalUserID : string)
    (cost defaultLimit : F) : result error nat * BudgetRepository :=
  match br_down r with
  | Some e => (Err (Wrap "looking up budget" e), r)
  | None =>
      let '(id, budget, r') := getOrCreateBudget r externalUserID defaultLimit in
      let remaining := bd_LimitUSD budget -f bd_SpentUSD budget -f activeReserved r' id in
      if cost >f? remaining
      then (* the transaction rolls back *)
        (Err (Wrap "cannot reserve" (Sentinel ErrBudgetExceeded)), r)
      else
        let reservationID := length (br_reservations r') in
        (Ok reservationID,
         with_tables r' (br_budgets r') (br_reservations r' ++ [mkReservation id cost None]))
  end.

Definition set_released (now : Time) (rs : ReservationModel) : ReservationModel :=
  mkReservation (rs_BudgetID rs) (rs_AmountUSD rs) (Some now).

Definition repo_ReleaseReservation (r : BudgetRepository) (reservationID : nat)
    : option error * BudgetRepository :=
  match br_down r with
  | Some e => (Some (Wrap "releasing reservation" e), r)
  | None =>
      let upd rs := match rs_ReleasedAt rs with None => set_released (br_now r) rs | Some _ => rs end in
      (None, with_tables r (br_budgets r) (alter upd reservationID (br_reservations r)))
  end.

Definition repo_RecordCost (r : BudgetRepository) (reservationID : nat) (actualCost : F)
    : option error * BudgetRepository :=
  match br_down r with
  | Some e => (Some (Wrap "finding reservation" e), r)
  | None =>
      match br_reservations r !! reservationID with
      | None => (Some (Wrap "finding reservation" (Errorf "record not found")), r)
      | Some res =>
          let add b := mkBudgetModel (bd_LimitUSD b) (bd_SpentUSD b +f actualCost) in
          (None, with_tables r (alter add (rs_BudgetID res) (br_budgets r))
                   (alter (set_released (br_now r)) reservationID (br_reservations r)))
      end
  end.

#[global] Instance repo_store : BudgetStore F BudgetRepository nat := {
  st_CheckBudget := repo_CheckBudget;
  st_ReserveBudget := repo_ReserveBudget;
  st_ReleaseReservation := repo_ReleaseReservation;
  st_RecordCost := repo_RecordCost;
}.

(** What [executeWithAudit] does to the adapter around a tool that ran: reserve,
    record the cost, release. *)
Definition pg_charge (b : PGBudgetManager F BudgetRepository) (u : string) (c : F)
    : option error * PGBudgetManager F BudgetRepository :=
  match pg_ReserveBudget b u c with
  | (Err e, b) => (Some e, b)
  | (Ok fn, b) => (None, (pg_release fn (pg_RecordCost b u c)).2)
  end.

Fixpoint pg_charges (b : PGBudgetManager F BudgetRepository) (cs : list (string * F))
    : PGBudgetManager F BudgetRepository :=
  match cs with
  | [] => b
  | (u, c) :: cs => pg_charges (pg_charge b u c).2 cs
  end.

(** Two repositories no check can tell apart. *)
Definition same_checks (L : F) (r r' : BudgetRepository) : Prop :=
  br_now r' = br_now r /\ br_down r' = br_down r /\
  (forall v, (repo_CheckBudget r' v L).1 = (repo_CheckBudget r v L).1).

Lemma getOrCreateBudget_facts r u L :
  let g := getOrCreateBudget r u L in
  g.1.1 = (u, today (br_now r)) /\ br_reservations g.2 = br_reservations r /\
  br_now g.2 = br_now r /\ br_down g.2 = br_down r /\
  (forall v, (getOrCreateBudget g.2 v L).1.2 = (getOrCreateBudget r v L).1.2).
Proof.
  unfold getOrCreateBudget. destruct (br_budgets r !! (u, today (br_now r))) eqn:E; [done|].
  simpl. repeat split. intros v. destruct (decide (u = v)) as [<-|Hne].
  - by rewrite lookup_insert_eq, E.
  - rewrite lookup_insert_ne by congruence. by destruct (br_budgets r !! (v, _)).
Qed.

Lemma repo_CheckBudget_val r v L :
  (repo_CheckBudget r v L).1 =
  match br_down r with
  | Some e => Err (Wrap "looking up budget" e)
  | None =>
      let budget := (getOrCreateBudget r v L).1.2 in
      Ok (bd_LimitUSD budget -f bd_SpentUSD budget -f activeReserved r (v, today (br_now r)))
  end.
Proof.
  unfold repo_CheckBudget. destruct (br_down r); [done|].
  pose proof (getOrCreateBudget_facts r v L) as (E1 & E2 & _).
  destruct (getOrCreateBudget r v L) as [[id bud] r']; simpl in *. subst id.
  unfold activeReserved. by rewrite E2.
Qed.

Lemma same_checks_intro L r r' :
  br_now r' = br_now r -> br_down r' = br_down r ->
  (forall v, (getOrCreateBudget r' v L).1.2 = (getOrCreateBudget r v L).1.2) ->
  (forall id, activeReserved r' id = activeReserved r id) -> same_checks L r r'.
Proof.
  intros E1 E2 E3 E4. split_and!; [done..|]. intros v.
  by rewrite !repo_CheckBudget_val, E1, E2, E3, E4.
Qed.

Lemma same_checks_trans L r1 r2 r3 :
  same_checks L r1 r2 -> same_checks L r2 r3 -> same_checks L r1 r3.
Proof. intros (?&?&Ha) (?&?&Hb). split_and!; congruence. Qed.

(** A completed execution leaves every check as it was. *)
Lemma pg_charge_same_checks b u c :
  br_down (pg_store b) = None ->
  same_checks (pg_defaultLimit b) (pg_store b) (pg_store (pg_charge b u c).2) /\
  pg_defaultLimit (pg_charge b u c).2 = pg_defaultLimit b.
Proof.
  intros Hup. unfold pg_charge, pg_ReserveBudget. simpl. unfold repo_ReserveBudget. rewrite Hup.
  pose proof (getOrCreateBudget_facts (pg_store b) u (pg_defaultLimit b)) as (E1&E2&E3&E4&E5).
  destruct (getOrCreateBudget (pg_store b) u (pg_defaultLimit b)) as [[id bud] r'].
  simpl in *. destruct (nltb _ c) eqn:E; simpl; [done|].
  unfold repo_ReleaseReservation, with_tables. simpl. rewrite E4, Hup. simpl. split; [|done].
  apply same_checks_intro; simpl; [done|congruence| |].
  - intros v. rewrite <-E5. unfold getOrCreateBudget. simpl.
    by destruct (br_budgets r' !! (v, _)).
  - intros id'. unfold activeReserved. f_equal. f_equal. simpl.
    rewrite alter_app_r_alt, Nat.sub_diag by done. simpl.
    rewrite List.filter_app, E2. simpl. unfold rs_active at 2. simpl.
    by rewrite andb_false_r, app_nil_r.
Qed.

Lemma pg_charges_same_checks cs : forall b,
  br_down (pg_store b) = None ->
  same_checks (pg_defaultLimit b) (pg_store b) (pg_store (pg_charges b cs)).
Proof.
  induction cs as [|[u c] cs IH]; intros b Hup; simpl; [done|].
  destruct (pg_charge_same_checks b u c Hup) as [Hs HL].
  eapply same_checks_trans; [exact Hs|]. rewrite <-HL. apply IH.
  destruct Hs as (_ & -> & _). done.
Qed.

(** With the database-backed budget no execution is ever charged.  After any
    number of executions, of any users at any cost, each reserving, recording its
    cost and releasing, every user's remaining budget is what it was before the
    first one: [PGBudgetManager.RecordCost] writes nothing and the release gives
    the reservation back, so the daily limit bounds one execution, not their sum. *)
Theorem pg_budget_never_charged (b : PGBudgetManager F BudgetRepository)
    (cs : list (string * F)) (v : string) :
  br_down (pg_store b) = None ->
  (repo_CheckBudget (pg_store (pg_charges b cs)) v (pg_defaultLimit b)).1 =
  (repo_CheckBudget (pg_store b) v (pg_defaultLimit b)).1.
Proof. intros Hup. apply (pg_charges_same_checks cs b Hup). Qed.
End repo.

Arguments BudgetRepository F : clear implicits.

(** Eleven executions of 3 dollars against a limit of 10, in float64. *)
Definition demo_sum (l : list f64) : f64 := fold_left nadd l (f64_of_Z 0).
Definition demo_pg : PGBudgetManager f64 (BudgetRepository f64) :=
  mkPG (mkRepo ∅ [] 0%Z None) (f64_of_Z 10).

Lemma pg_budget_never_charged_witness :
  (repo_CheckBudget demo_sum
     (pg_store (pg_charges demo_sum demo_pg (replicate 11 ("alice", f64_of_Z 3))))
     "alice" (f64_of_Z 10)).1 = Ok (f64_of_Z 10).
Proof.
  etransitivity.
  - apply (pg_budget_never_charged demo_sum demo_pg (replicate 11 ("alice", f64_of_Z 3)) "alice").
    reflexivity.
  - vm_compute. reflexivity.
Defined.
