(* ===== verification/RateLimit.v ===== *)
(** * The token bucket rate limiter

    [src/internal/ratelimit/ratelimit.go]. *)

From S2P Require Import Prelude.

Section model.
Context {F : Type} `{Num F}.
Local Open Scope go_scope.

Record Config := mkConfig { cfg_RequestsPerMinute : Z; cfg_BurstSize : Z }.

Record bucket := mkBucket { bk_tokens : F; bk_lastFill : Time }.

Record Limiter := mkLimiter {
  lim_users : gmap string bucket;
  lim_rate : F;
  lim_burst : F;
}.

Definition NewLimiter (cfg : Config) : Limiter :=
  let burst := cfg_BurstSize cfg in
  let burst := if (burst <=? 0)%Z then cfg_RequestsPerMinute cfg else burst in
  let burst := if (burst <=? 0)%Z then 1%Z else burst in
  mkLimiter ∅ (nofZ (cfg_RequestsPerMinute cfg) /f nofZ 60) (nofZ burst).

(** [Allow] at time [now]: the error it returns and the limiter it leaves. *)
Definition Allow (l : Limiter) (userID : string) (now : Time) : option error * Limiter :=
  if lim_rate l <=f? nofZ 0 then (None, l)
  else
    let b :=
      match lim_users l !! userID with
      | Some b => b
      | None => mkBucket (lim_burst l) now
      end in
    let elapsed := Duration_Seconds (now - bk_lastFill b)%Z in
    let tokens := bk_tokens b +f elapsed *f lim_rate l in
    let tokens := if tokens >f? lim_burst l then lim_burst l else tokens in
    let put tokens :=
      mkLimiter (<[userID := mkBucket tokens now]> (lim_users l)) (lim_rate l) (lim_burst l) in
    if tokens <f? nofZ 1 then (Some (Sentinel ErrRateLimited), put tokens)
    else (None, put (tokens -f nofZ 1)).

(** A sequence of calls and the outcome of each. *)
Fixpoint allow_all (l : Limiter) (calls : list (string * Time)) : list bool * Limiter :=
  match calls with
  | [] => ([], l)
  | (u, t) :: calls =>
      let '(e, l) := Allow l u t in
      let '(rs, l) := allow_all l calls in
      ((match e with None => true | Some _ => false end) :: rs, l)
  end.

End model.

Arguments bucket F : clear implicits.
Arguments Limiter F : clear implicits.

(** How many of the calls of [u] were allowed. *)
Fixpoint allowed_count (u : string) (calls : list (string * Time)) (rs : list bool) : nat :=
  match calls, rs with
  | (v, _) :: calls, r :: rs =>
      (if String.eqb v u && r then 1 else 0) + allowed_count u calls rs
  | _, _ => 0
  end.

(** Calls made in the order of the clock, within [t0 .. t1]. *)
Fixpoint clocked (t0 t1 : Time) (calls : list (string * Time)) : Prop :=
  match calls with
  | [] => (t0 <= t1)%Z
  | (_, t) :: calls => (t0 <= t)%Z /\ clocked t t1 calls
  end.

Lemma clocked_le t0 t1 calls : clocked t0 t1 calls -> (t0 <= t1)%Z.
Proof.
  revert t0. induction calls as [|[u t] calls IH]; simpl; [done|]. intros t0 [? ?%IH]. lia.
Qed.

Section lemmas.
Context {F : Type} `{ExactNum F}.
Implicit Types l : Limiter F.

(** Seconds between two instants, times the rate. *)
Definition refill (l : Limiter F) (t0 t1 : Time) : Q :=
  (inject_Z (t1 - t0) / inject_Z Second * toQ (lim_rate l))%Q.

(** The state of a limiter that has seen calls up to time [t]. *)
Record lim_ok (l : Limiter F) (t : Time) : Prop := {
  lk_rate : (0 < toQ (lim_rate l))%Q;
  lk_burst : (1 <= toQ (lim_burst l))%Q;
  lk_bucket : forall u b, lim_users l !! u = Some b ->
    (0 <= toQ (bk_tokens b) <= toQ (lim_burst l))%Q /\ (bk_lastFill b <= t)%Z;
}.

Lemma refill_nonneg l t0 t1 : (0 < toQ (lim_rate l))%Q -> (t0 <= t1)%Z -> (0 <= refill l t0 t1)%Q.
Proof.
  intros Hr Ht. unfold refill, Qdiv. apply Qmult_le_0_compat; [|lra].
  apply Qmult_le_0_compat; [|by vm_compute].
  change 0%Q with (inject_Z 0). rewrite <-Zle_Qle. lia.
Qed.

Lemma refill_plus l t0 t1 t2 : (refill l t0 t1 + refill l t1 t2 == refill l t0 t2)%Q.
Proof.
  unfold refill. replace (t2 - t0)%Z with ((t1 - t0) + (t2 - t1))%Z by lia.
  rewrite inject_Z_plus. field. done.
Qed.

(** One call on a limiter in use. *)
Lemma Allow_spec l u t :
  lim_ok l t ->
  exists (e : option error) (tok : Q) (b' : bucket F),
    Allow l u t = (e, mkLimiter (<[u := b']> (lim_users l)) (lim_rate l) (lim_burst l)) /\
    bk_lastFill b' = t /\
    (tok <= toQ (lim_burst l))%Q /\
    (forall b, lim_users l !! u = Some b ->
       (tok <= toQ (bk_tokens b) + refill l (bk_lastFill b) t)%Q) /\
    (0 <= tok)%Q /\
    ((e = None /\ (1 <= tok)%Q /\ (toQ (bk_tokens b') == tok - 1)%Q) \/
     (e = Some (Sentinel ErrRateLimited) /\ (tok < 1)%Q /\ (toQ (bk_tokens b') == tok)%Q)).
Proof.
  intros [Hr Hb Hok]. unfold Allow.
  replace (nleb (lim_rate l) (nofZ 0)) with false
    by (symmetry; apply nleb_false; rewrite toQ_ofZ; exact Hr).
  set (b := match lim_users l !! u with Some b => b | None => mkBucket (lim_burst l) t end).
  assert ((0 <= toQ (bk_tokens b) <= toQ (lim_burst l))%Q /\ (bk_lastFill b <= t)%Z) as [Hb1 Hb2].
  { unfold b. destruct (lim_users l !! u) eqn:E; [by eapply Hok|]. simpl. split; [lra|lia]. }
  pose proof (refill_nonneg l _ _ Hr Hb2) as Hf.
  set (tok0 := nadd (bk_tokens b) _).
  assert (toQ tok0 == toQ (bk_tokens b) + refill l (bk_lastFill b) t)%Q as E0.
  { unfold tok0. by rewrite toQ_add, toQ_mul, Duration_Seconds_exact. }
  set (tok := if nltb (lim_burst l) tok0 then lim_burst l else tok0).
  assert ((0 <= toQ tok <= toQ (lim_burst l))%Q /\ (toQ tok <= toQ tok0)%Q) as [Ht1 Ht2].
  { unfold tok. destruct (nltb (lim_burst l) tok0) eqn:E; num_norm; lra. }
  assert (forall b0, lim_users l !! u = Some b0 -> b0 = b) as Hbb.
  { intros b0 E. unfold b. by rewrite E. }
  destruct (nltb tok (nofZ 1)) eqn:E; num_norm.
  - eexists _, (toQ tok), _. split; [done|]. simpl.
    split_and!; try done; try lra; [|right; split_and!; [done|exact E|reflexivity]].
    intros b0 ->%Hbb. lra.
  - eexists _, (toQ tok), _. split; [done|]. simpl.
    split_and!; try done; try lra.
    + intros b0 ->%Hbb. lra.
    + left. split_and!; [done|exact E|]. by rewrite toQ_sub, toQ_ofZ.
Qed.
End lemmas.

Section window.
Context {F : Type} `{ExactNum F}.
Implicit Types l : Limiter F.

Lemma Allow_lim_ok l u t : lim_ok l t -> lim_ok (Allow l u t).2 t.
Proof.
  intros Hok. destruct (Allow_spec l u t Hok) as (e & tok & b' & -> & Ht & Hle & _ & Hge & Hcase).
  destruct Hok as [Hr Hb Hbk]. split; simpl; [done..|].
  intros v b [[<- <-]|[Hne Hl]]%lookup_insert_Some; [|by eapply Hbk].
  split; [|lia]. destruct Hcase as [(_ & Hg & ->)|(_ & Hg & ->)]; lra.
Qed.

Lemma lim_ok_mono l t t' : lim_ok l t -> (t <= t')%Z -> lim_ok l t'.
Proof.
  intros [Hr Hb Hbk] Hle. split; [done..|]. intros u b Hl. destruct (Hbk u b Hl). split; [done|lia].
Qed.

Lemma allow_all_lim_ok l t0 t1 calls :
  lim_ok l t0 -> clocked t0 t1 calls -> lim_ok (allow_all l calls).2 t1.
Proof.
  revert l t0. induction calls as [|[u t] calls IH]; intros l t0 Hok; simpl.
  - intros ?. by eapply lim_ok_mono.
  - intros [Hle Hc]. eapply lim_ok_mono in Hok; [|exact Hle].
    pose proof (Allow_lim_ok l u t Hok) as Hok'. destruct (Allow l u t) as [e l1]; simpl in *.
    specialize (IH l1 t Hok' Hc). by destruct (allow_all l1 calls).
Qed.

Lemma inject_Z_count (r : bool) n :
  (inject_Z (Z.of_nat ((if r then 1 else 0) + n)) ==
   (if r then 1 else 0) + inject_Z (Z.of_nat n))%Q.
Proof. rewrite Nat2Z.inj_add, inject_Z_plus. by destruct r. Qed.

(** From a bucket holding [tokens], the calls allowed up to [t1] are paid by the
    tokens and the refill. *)
Lemma allowed_by_bucket u calls : forall l t0 t1 b,
  lim_ok l t0 -> lim_users l !! u = Some b -> clocked t0 t1 calls ->
  (inject_Z (Z.of_nat (allowed_count u calls (allow_all l calls).1)) <=
   toQ (bk_tokens b) + refill l (bk_lastFill b) t1)%Q.
Proof.
  induction calls as [|[v t] calls IH]; intros l t0 t1 b Hok Hl Hc; simpl.
  { destruct Hok as [Hr _ Hbk]. destruct (Hbk u b Hl) as [[? ?] ?]. simpl in Hc.
    assert (bk_lastFill b <= t1)%Z as Hlt by lia.
    pose proof (refill_nonneg l (bk_lastFill b) t1 Hr Hlt). change (inject_Z (Z.of_nat 0)) with 0%Q. lra. }
  destruct Hc as [Hle Hc]. eapply lim_ok_mono in Hok; [|exact Hle].
  pose proof (Allow_lim_ok l v t Hok) as Hok'.
  destruct (Allow_spec l v t Hok) as (e & tok & b' & E & Hb't & Hcap & Htok & Hge & Hcase).
  rewrite E in *. simpl in Hok'. destruct (allow_all _ calls) as [rs l2] eqn:Eall. simpl.
  destruct (String.eqb_spec v u) as [->|Hne]; simpl.
  - pose proof (IH _ t t1 b' Hok' (lookup_insert_eq _ _ _) Hc) as IHb. rewrite Eall in IHb.
    unfold refill in *. simpl in *. rewrite inject_Z_count.
    specialize (Htok b Hl). pose proof (refill_plus l (bk_lastFill b) t t1) as Hplus.
    unfold refill in Hplus. rewrite Hb't in IHb.
    destruct Hcase as [(-> & Hg & Hb'v)|(-> & Hg & Hb'v)]; rewrite Hb'v in IHb; lra.
  - assert (lim_users (mkLimiter (<[v:=b']> (lim_users l)) (lim_rate l) (lim_burst l)) !! u = Some b)
      as Hl' by (simpl; by rewrite lookup_insert_ne).
    pose proof (IH _ t t1 b Hok' Hl' Hc) as IHb. rewrite Eall in IHb. exact IHb.
Qed.

(** Whatever the bucket, the calls allowed in a window are paid by a full bucket
    and the refill of the window. *)
Lemma allowed_in_window u calls : forall l t0 t1,
  lim_ok l t0 -> clocked t0 t1 calls ->
  (inject_Z (Z.of_nat (allowed_count u calls (allow_all l calls).1)) <=
   toQ (lim_burst l) + refill l t0 t1)%Q.
Proof.
  induction calls as [|[v t] calls IH]; intros l t0 t1 Hok Hc; simpl.
  { destruct Hok as [Hr Hb _]. pose proof (refill_nonneg l t0 t1 Hr Hc). change (inject_Z (Z.of_nat 0)) with 0%Q. lra. }
  destruct Hc as [Hle Hc]. eapply lim_ok_mono in Hok; [|exact Hle].
  pose proof (Allow_lim_ok l v t Hok) as Hok'.
  destruct (Allow_spec l v t Hok) as (e & tok & b' & E & Hb't & Hcap & Htok & Hge & Hcase).
  rewrite E in *. simpl in Hok'. destruct (allow_all _ calls) as [rs l2] eqn:Eall. simpl.
  pose proof (lk_rate _ _ Hok) as Hr. pose proof (refill_nonneg l t0 t Hr Hle) as Hr0.
  pose proof (refill_plus l t0 t t1) as Hplus.
  destruct (String.eqb_spec v u) as [->|Hne]; simpl.
  - pose proof (allowed_by_bucket u calls _ t t1 b' Hok' (lookup_insert_eq _ _ _) Hc) as IHb.
    rewrite Eall in IHb. unfold refill in *. simpl in *. rewrite inject_Z_count, Hb't in *.
    destruct Hcase as [(-> & Hg & Hb'v)|(-> & Hg & Hb'v)]; rewrite Hb'v in IHb; lra.
  - pose proof (IH _ t t1 Hok' Hc) as IHb. rewrite Eall in IHb. unfold refill in *. simpl in *. lra.
Qed.

Lemma NewLimiter_ok cfg t : (0 < cfg_RequestsPerMinute cfg)%Z -> lim_ok (NewLimiter (F:=F) cfg) t.
Proof.
  intros Hrpm. split; simpl.
  - rewrite toQ_div, !toQ_ofZ. apply Qlt_shift_div_l; [by vm_compute|].
    rewrite Qmult_0_l. change 0%Q with (inject_Z 0). by rewrite <-Zlt_Qlt.
  - rewrite toQ_ofZ. change 1%Q with (inject_Z 1). rewrite <-Zle_Qle.
    repeat case_match; rewrite ?Z.leb_le, ?Z.leb_gt in *; lia.
  - intros u b Hb. by rewrite lookup_empty in Hb.
Qed.
End window.

Section properties.
Context {F : Type} `{ExactNum F}.

(** The rate bound.  After any earlier traffic, in any window [t0..t1] and
    whatever the other users do meanwhile, a user is allowed at most the burst size
    plus requests-per-minute times the length of the window. *)
Theorem ratelimit_window (cfg : Config) (u : string) (pre calls : list (string * Time))
    (s t0 t1 : Time) :
  (0 < cfg_RequestsPerMinute cfg)%Z ->
  clocked s t0 pre -> clocked t0 t1 calls ->
  let l := (allow_all (NewLimiter (F:=F) cfg) pre).2 in
  (inject_Z (Z.of_nat (allowed_count u calls (allow_all l calls).1)) <=
   inject_Z (if (cfg_BurstSize cfg <=? 0)%Z then cfg_RequestsPerMinute cfg else cfg_BurstSize cfg) +
   inject_Z (cfg_RequestsPerMinute cfg) * (inject_Z (t1 - t0) / inject_Z Minute))%Q.
Proof.
  intros Hrpm Hpre Hseg l.
  pose proof (allow_all_lim_ok _ _ _ pre (NewLimiter_ok cfg s Hrpm) Hpre) as Hok.
  fold l in Hok. pose proof (allowed_in_window u calls l t0 t1 Hok Hseg) as Hw.
  assert (forall calls (l0 : Limiter F), lim_rate (allow_all l0 calls).2 = lim_rate l0 /\
            lim_burst (allow_all l0 calls).2 = lim_burst l0) as Hconst.
  { clear. induction calls as [|[v t] calls IH]; intros l0; simpl; [done|].
    specialize (IH (Allow l0 v t).2). destruct (Allow l0 v t) as [e l1] eqn:E. simpl in *.
    destruct (allow_all l1 calls). simpl in *. destruct IH as [-> ->].
    unfold Allow in E. repeat case_match; simplify_eq; done. }
  destruct (Hconst pre (NewLimiter cfg)) as [Er Eb]. fold l in Er, Eb.
  eapply Qle_trans; [exact Hw|]. unfold refill. rewrite Er, Eb. simpl.
  rewrite toQ_div, !toQ_ofZ. apply Qplus_le_compat.
  - rewrite <-Zle_Qle. repeat case_match; rewrite ?Z.leb_le, ?Z.leb_gt in *; lia.
  - apply Qle_lteq. right. unfold Minute. rewrite inject_Z_mult. field. done.
Qed.
End properties.

Lemma ratelimit_window_witness :
  (inject_Z 3 <= inject_Z 2 + inject_Z 60 * (inject_Z (Second - 0) / inject_Z Minute))%Q.
Proof.
  exact (ratelimit_window (F:=Q) (mkConfig 60 2) "alice" []
    [("alice", 0%Z); ("bob", 0%Z); ("alice", 0%Z); ("alice", 0%Z); ("alice", Second); ("alice", Second)]
    0%Z 0%Z Second eq_refl ltac:(vm_compute; done) ltac:(vm_compute; intuition discriminate)).
Defined.

(** The outcomes of the calls of one user. *)
Fixpoint outcomes_of (u : string) (calls : list (string * Time)) (rs : list bool) : list bool :=
  match calls, rs with
  | (v, _) :: calls, r :: rs =>
      if String.eqb v u then r :: outcomes_of u calls rs else outcomes_of u calls rs
  | _, _ => []
  end.

(** Two limiters a user cannot tell apart. *)
Definition agree_on {F} (u : string) (l l' : Limiter F) : Prop :=
  lim_users l !! u = lim_users l' !! u /\ lim_rate l = lim_rate l' /\ lim_burst l = lim_burst l'.

Section independence.
Context {F : Type} `{Num F}.
Implicit Types l : Limiter F.

Lemma Allow_other l u v t : v <> u -> agree_on u l (Allow l v t).2.
Proof.
  intros Hne. unfold Allow, agree_on. repeat case_match; simpl; rewrite ?lookup_insert_ne; done.
Qed.

Lemma Allow_agree l l' u t :
  agree_on u l l' -> (Allow l u t).1 = (Allow l' u t).1 /\ agree_on u (Allow l u t).2 (Allow l' u t).2.
Proof.
  intros (E1 & E2 & E3). unfold Allow, agree_on. rewrite <-E1, <-E2, <-E3.
  repeat case_match; simpl; rewrite ?lookup_insert_eq; done.
Qed.

(** One user cannot exhaust another's quota: the outcomes a user's calls get
    in a mixed traffic are those they get when the calls of every other user are
    removed.  It holds of the float64 limiter as it is, with no assumption. *)
Theorem ratelimit_independent (u : string) (calls : list (string * Time)) : forall l l',
  agree_on u l l' ->
  outcomes_of u calls (allow_all l calls).1 =
  (allow_all l' (List.filter (fun c => String.eqb c.1 u) calls)).1.
Proof.
  induction calls as [|[v t] calls IH]; intros l l' Hag; simpl; [done|].
  destruct (String.eqb_spec v u) as [->|Hne]; simpl.
  - destruct (Allow_agree l l' u t Hag) as [Ee Hag']. specialize (IH _ _ Hag').
    destruct (Allow l u t) as [e l1], (Allow l' u t) as [e' l1']; simpl in *. subst e'.
    destruct (allow_all l1 calls), (allow_all l1' _). simpl in *.
    by f_equal.
  - assert (agree_on u (Allow l v t).2 l') as Hag'.
    { destruct (Allow_other l u v t Hne) as (?&?&?), Hag as (?&?&?). repeat split; congruence. }
    specialize (IH _ _ Hag'). destruct (Allow l v t) as [e l1]. simpl in *.
    by destruct (allow_all l1 calls).
Qed.
End independence.

Lemma ratelimit_independent_witness :
  outcomes_of "a" [("b", 0%Z); ("a", 0%Z); ("a", 0%Z)]
    (allow_all (NewLimiter (F:=f64) (mkConfig 1 1)) [("b", 0%Z); ("a", 0%Z); ("a", 0%Z)]).1 =
  [true; false].
Proof.
  rewrite (ratelimit_independent "a" [("b", 0%Z); ("a", 0%Z); ("a", 0%Z)]
    (NewLimiter (mkConfig 1 1)) (NewLimiter (mkConfig 1 1))).
  - vm_compute. reflexivity.
  - repeat split.
Defined.
