(* ===== verification/Approval.v ===== *)
(** * Approvals

    [src/internal/approval]: the in-memory approval manager ([approval.go]) and the
    auto-approver that learns from manual approvals ([auto.go]). *)

From S2P Require Import Prelude.

(** ** The approval manager *)

Inductive Status := StatusPending | StatusApproved | StatusDenied | StatusExpired.

#[export] Instance Status_eq_dec : EqDecision Status.
Proof. solve_decision. Defined.

Definition Status_String (s : Status) : string :=
  match s with
  | StatusPending => "pending" | StatusApproved => "approved"
  | StatusDenied => "denied" | StatusExpired => "expired"
  end.

Section manager.
Context {F P : Type}.

Record PendingApproval := mkPA {
  pa_ID : string;
  pa_UserID : string;
  pa_ToolName : string;
  pa_Parameters : P;
  pa_ActionName : string;
  pa_RiskLevel : string;
  pa_EstimatedCost : F;
  pa_CorrelationID : string;
  pa_ConversationID : string;
  pa_ToolUseID : string;
  pa_Status : Status;
  pa_ApprovedBy : string;
  pa_CreatedAt : Time;
  pa_ExpiresAt : Time;
  pa_ResolvedAt : Time;
}.

Record CreateRequest := mkCreateRequest {
  cr_UserID : string;
  cr_ToolName : string;
  cr_Parameters : P;
  cr_ActionName : string;
  cr_RiskLevel : string;
  cr_EstimatedCost : F;
  cr_CorrelationID : string;
  cr_ConversationID : string;
  cr_ToolUseID : string;
}.

Record Manager := mkManager {
  mg_pending : gmap string PendingApproval;
  mg_ttl : Duration;
}.

Definition NewManager (ttl : Duration) : Manager := mkManager ∅ ttl.

Definition with_pending (m : Manager) (ps : gmap string PendingApproval) : Manager :=
  mkManager ps (mg_ttl m).

Definition set_status (pa : PendingApproval) (s : Status) (by_ : string) (at_ : Time)
    : PendingApproval :=
  mkPA (pa_ID pa) (pa_UserID pa) (pa_ToolName pa) (pa_Parameters pa) (pa_ActionName pa)
    (pa_RiskLevel pa) (pa_EstimatedCost pa) (pa_CorrelationID pa) (pa_ConversationID pa)
    (pa_ToolUseID pa) s by_ (pa_CreatedAt pa) (pa_ExpiresAt pa) at_.

(** [pa.Status = StatusExpired]. *)
Definition expire (pa : PendingApproval) : PendingApproval :=
  set_status pa StatusExpired (pa_ApprovedBy pa) (pa_ResolvedAt pa).

(** [Create]; [gen] is what [generateID] returned. *)
Definition Create (m : Manager) (req : CreateRequest) (gen : result error string) (now : Time)
    : result error string * Manager :=
  match gen with
  | Err e => (Err (Wrap "generating approval ID" e), m)
  | Ok id =>
      let pa :=
        mkPA id (cr_UserID req) (cr_ToolName req) (cr_Parameters req) (cr_ActionName req)
          (cr_RiskLevel req) (cr_EstimatedCost req) (cr_CorrelationID req)
          (cr_ConversationID req) (cr_ToolUseID req) StatusPending "" now
          (now + mg_ttl m)%Z time_zero in
      (Ok id, with_pending m (<[id := pa]> (mg_pending m)))
  end.

(** [resolve]; [now1] is read for the expiry test, [now2] for [ResolvedAt]. *)
Definition resolve (m : Manager) (id resolverID : string) (status : Status) (now1 now2 : Time)
    : option error * Manager :=
  match mg_pending m !! id with
  | None => (Some (Sentinel ErrNotFound), m)
  | Some pa =>
      if time_After now1 (pa_ExpiresAt pa)
      then (Some (Sentinel ErrExpired), with_pending m (<[id := expire pa]> (mg_pending m)))
      else if negb (bool_decide (pa_Status pa = StatusPending))
      then (Some (Sentinel ErrAlreadyResolved), m)
      else (None, with_pending m (<[id := set_status pa status resolverID now2]> (mg_pending m)))
  end.

Definition Approve (m : Manager) (id approverID : string) (now1 now2 : Time) :=
  resolve m id approverID StatusApproved now1 now2.

Definition Deny (m : Manager) (id denierID : string) (now1 now2 : Time) :=
  resolve m id denierID StatusDenied now1 now2.

(** Marking an overdue pending approval, as [Get] and [Cleanup] do. *)
Definition expire_if_due (pa : PendingApproval) (now : Time) : PendingApproval :=
  if bool_decide (pa_Status pa = StatusPending) && time_After now (pa_ExpiresAt pa)
  then expire pa else pa.

Definition Get (m : Manager) (id : string) (now : Time)
    : result error PendingApproval * Manager :=
  match mg_pending m !! id with
  | None => (Err (Sentinel ErrNotFound), m)
  | Some pa =>
      let pa := expire_if_due pa now in
      (Ok pa, with_pending m (<[id := pa]> (mg_pending m)))
  end.

(** What [Cleanup] does to one entry: [None] deletes it.  The entries are visited
    in an unspecified order, each on its own. *)
Definition cleanup_entry (ttl : Duration) (now : Time) (pa : PendingApproval)
    : option PendingApproval :=
  let pa := expire_if_due pa now in
  if negb (bool_decide (pa_Status pa = StatusPending)) && time_After now (pa_ExpiresAt pa + ttl)%Z
  then None else Some pa.

Definition Cleanup (m : Manager) (now : Time) : Manager :=
  with_pending m (omap (cleanup_entry (mg_ttl m) now) (mg_pending m)).

(** ** The operations as steps *)

Inductive mgr_op :=
  | OpCreate (req : CreateRequest) (gen : result error string) (now : Time)
  | OpApprove (id who : string) (now1 now2 : Time)
  | OpDeny (id who : string) (now1 now2 : Time)
  | OpGet (id : string) (now : Time)
  | OpCleanup (now : Time).

(** The manager after the operation, and whether it resolved an approval. *)
Definition mgr_step (m : Manager) (op : mgr_op) : option string * Manager :=
  match op with
  | OpCreate req gen now => (None, (Create m req gen now).2)
  | OpApprove id who n1 n2 =>
      let '(e, m) := Approve m id who n1 n2 in
      (match e with None => Some id | Some _ => None end, m)
  | OpDeny id who n1 n2 =>
      let '(e, m) := Deny m id who n1 n2 in
      (match e with None => Some id | Some _ => None end, m)
  | OpGet id now => (None, (Get m id now).2)
  | OpCleanup now => (None, Cleanup m now)
  end.

Definition creates (id : string) (op : mgr_op) : bool :=
  match op with OpCreate _ (Ok id') _ => String.eqb id' id | _ => false end.

(** The identifiers resolved along a sequence of operations. *)
Fixpoint mgr_run (m : Manager) (ops : list mgr_op) : list string * Manager :=
  match ops with
  | [] => ([], m)
  | op :: ops =>
      let '(r, m) := mgr_step m op in
      let '(rs, m) := mgr_run m ops in
      (match r with Some id => id :: rs | None => rs end, m)
  end.

(** The status changes an operation can make to an approval that exists. *)
Inductive status_step : Status -> Status -> Prop :=
  | ss_same s : status_step s s
  | ss_approve : status_step StatusPending StatusApproved
  | ss_deny : status_step StatusPending StatusDenied
  | ss_expire s : status_step s StatusExpired.
End manager.

Arguments PendingApproval F P : clear implicits.
Arguments CreateRequest F P : clear implicits.
Arguments Manager F P : clear implicits.
Arguments mgr_op F P : clear implicits.

Section manager_lemmas.
Context {F P : Type}.
Implicit Types (m : Manager F P) (pa : PendingApproval F P) (op : mgr_op F P).

Lemma expire_if_due_status pa now : status_step (pa_Status pa) (pa_Status (expire_if_due pa now)).
Proof. unfold expire_if_due. destruct (_ && _); simpl; constructor. Qed.

Lemma cleanup_entry_Some ttl now pa pa' :
  cleanup_entry ttl now pa = Some pa' -> pa' = expire_if_due pa now.
Proof. unfold cleanup_entry. by destruct (_ && _); intros [= <-]. Qed.

(** [resolve] on an identifier that is present, branch by branch. *)
Lemma resolve_present m id who s n1 n2 pa :
  mg_pending m !! id = Some pa ->
  (time_After n1 (pa_ExpiresAt pa) = true /\
   resolve m id who s n1 n2 =
     (Some (Sentinel ErrExpired), with_pending m (<[id := expire pa]> (mg_pending m)))) \/
  (time_After n1 (pa_ExpiresAt pa) = false /\ pa_Status pa <> StatusPending /\
   resolve m id who s n1 n2 = (Some (Sentinel ErrAlreadyResolved), m)) \/
  (time_After n1 (pa_ExpiresAt pa) = false /\ pa_Status pa = StatusPending /\
   resolve m id who s n1 n2 =
     (None, with_pending m (<[id := set_status pa s who n2]> (mg_pending m)))).
Proof.
  intros E. unfold resolve. rewrite E. destruct (time_After n1 (pa_ExpiresAt pa)); [by left|].
  case_bool_decide; simpl; [by right; right|by right; left].
Qed.

Lemma resolve_other m id id' who s n1 n2 :
  id <> id' -> mg_pending (resolve m id who s n1 n2).2 !! id' = mg_pending m !! id'.
Proof.
  intros Hne. unfold resolve. repeat case_match; simpl; rewrite ?lookup_insert_ne; done.
Qed.

(** What one operation does to an approval: it keeps it, changes its status along
    [status_step], or deletes it. *)
Lemma mgr_step_entry m op id pa :
  mg_pending m !! id = Some pa -> creates id op = false ->
  match mg_pending (mgr_step m op).2 !! id with
  | Some pa' => status_step (pa_Status pa) (pa_Status pa')
  | None => exists now, op = OpCleanup now
  end.
Proof.
  intros Hpa Hc. destruct op as [req gen now|id' who n1 n2|id' who n1 n2|id' now|now]; simpl.
  - unfold Create. destruct gen as [id'|e]; simpl; [|rewrite Hpa; constructor].
    simpl in Hc. apply String.eqb_neq in Hc. rewrite lookup_insert_ne, Hpa by done. constructor.
  - unfold Approve. destruct (decide (id' = id)) as [->|Hne].
    + destruct (resolve_present m id who StatusApproved n1 n2 pa Hpa)
        as [[_ ->]|[(_ & _ & ->)|(_ & Hs & ->)]]; simpl;
        rewrite ?lookup_insert_eq, ?Hpa, ?Hs; constructor.
    + pose proof (resolve_other m id' id who StatusApproved n1 n2 Hne) as E.
      destruct (resolve _ _ _ _ _ _). simpl in *. rewrite E, Hpa. constructor.
  - unfold Deny. destruct (decide (id' = id)) as [->|Hne].
    + destruct (resolve_present m id who StatusDenied n1 n2 pa Hpa)
        as [[_ ->]|[(_ & _ & ->)|(_ & Hs & ->)]]; simpl;
        rewrite ?lookup_insert_eq, ?Hpa, ?Hs; constructor.
    + pose proof (resolve_other m id' id who StatusDenied n1 n2 Hne) as E.
      destruct (resolve _ _ _ _ _ _). simpl in *. rewrite E, Hpa. constructor.
  - unfold Get. destruct (mg_pending m !! id') as [pa'|] eqn:E; simpl; [|rewrite Hpa; constructor].
    destruct (decide (id' = id)) as [->|Hne].
    + rewrite lookup_insert_eq. rewrite Hpa in E. injection E as ->. apply expire_if_due_status.
    + rewrite lookup_insert_ne, Hpa by done. constructor.
  - rewrite lookup_omap, Hpa. simpl.
    destruct (cleanup_entry _ _ pa) as [pa'|] eqn:E; [|by eexists].
    apply cleanup_entry_Some in E as ->. apply expire_if_due_status.
Qed.
End manager_lemmas.

(** ** Resolving at most once *)

Section manager_runs.
Context {F P : Type}.
Implicit Types (m : Manager F P) (pa : PendingApproval F P) (op : mgr_op F P).

(** The approval [id] exists and still waits for a decision. *)
Definition waiting m (id : string) : Prop :=
  exists pa, mg_pending m !! id = Some pa /\ pa_Status pa = StatusPending.

Lemma resolve_None m id who s n1 n2 m' :
  resolve m id who s n1 n2 = (None, m') ->
  exists pa, mg_pending m !! id = Some pa /\ pa_Status pa = StatusPending /\
    (n1 <= pa_ExpiresAt pa)%Z /\
    m' = with_pending m (<[id := set_status pa s who n2]> (mg_pending m)).
Proof.
  intros E. destruct (mg_pending m !! id) as [pa|] eqn:Hpa.
  - destruct (resolve_present m id who s n1 n2 pa Hpa) as [[_ R]|[(_ & _ & R)|(Ht & Hs & R)]];
      rewrite R in E; [done..|]. injection E as <-. exists pa.
    unfold time_After in Ht. apply Z.ltb_ge in Ht. done.
  - unfold resolve in E. by rewrite Hpa in E.
Qed.

Lemma mgr_step_resolves m op id :
  (mgr_step m op).1 = Some id ->
  waiting m id /\ (exists pa, mg_pending (mgr_step m op).2 !! id = Some pa /\
                     pa_Status pa <> StatusPending).
Proof.
  destruct op as [| id' who n1 n2 | id' who n1 n2 | |]; simpl; try done.
  all: unfold Approve, Deny; destruct (resolve _ _ _ _ _ _) as [[e|] m'] eqn:E; simpl; [done|].
  all: intros [= ->]; apply resolve_None in E as (pa & Hpa & Hs & _ & ->).
  all: split; [by exists pa|].
  all: eexists; split; [apply lookup_insert_eq|done].
Qed.

Lemma mgr_step_stays_resolved m op id :
  ~ waiting m id -> creates id op = false -> ~ waiting (mgr_step m op).2 id.
Proof.
  intros Hw Hc (pa' & Hpa' & Hs'). destruct (mg_pending m !! id) as [pa|] eqn:Hpa.
  - pose proof (mgr_step_entry m op id pa Hpa Hc) as Hst. rewrite Hpa', Hs' in Hst.
    inversion Hst; subst. apply Hw. by exists pa.
  - destruct op as [req gen now|id' who n1 n2|id' who n1 n2|id' now|now]; simpl in *.
    + unfold Create in Hpa'. destruct gen as [id'|]; simpl in *; [|congruence].
      apply String.eqb_neq in Hc. rewrite lookup_insert_ne in Hpa' by done. congruence.
    + unfold Approve, resolve in Hpa'. repeat case_match; simplify_eq/=; try congruence.
      all: rewrite lookup_insert_ne in Hpa' by congruence; congruence.
    + unfold Deny, resolve in Hpa'. repeat case_match; simplify_eq/=; try congruence.
      all: rewrite lookup_insert_ne in Hpa' by congruence; congruence.
    + unfold Get in Hpa'. repeat case_match; simplify_eq/=; try congruence.
      rewrite lookup_insert_ne in Hpa' by congruence; congruence.
    + rewrite lookup_omap, Hpa in Hpa'. done.
Qed.

Lemma mgr_run_never m ops id :
  ~ waiting m id -> Forall (fun op => creates id op = false) ops ->
  id ∉ (mgr_run m ops).1.
Proof.
  revert m. induction ops as [|op ops IH]; intros m Hw Hc; simpl; [apply not_elem_of_nil|].
  apply Forall_cons in Hc as [Hc Hcs].
  pose proof (mgr_step_resolves m op) as Hr.
  pose proof (mgr_step_stays_resolved m op id Hw Hc) as Hw'.
  destruct (mgr_step m op) as [r m'] eqn:E. specialize (IH m' Hw' Hcs).
  destruct (mgr_run m' ops) as [rs m'']. simpl in *.
  destruct r as [id'|]; [|done]. apply not_elem_of_cons. split; [|done].
  intros <-. by destruct (Hr id eq_refl).
Qed.

(** C14: an approval is decided at most once.  In any sequence of creations,
    approvals, denials, reads and cleanups, as long as the identifier is not
    created again, at most one [Approve] or [Deny] of it succeeds. *)
Theorem approval_resolved_once m ops id :
  Forall (fun op => creates id op = false) ops ->
  countb (String.eqb id) (mgr_run m ops).1 <= 1.
Proof.
  revert m. induction ops as [|op ops IH]; intros m Hc; simpl; [unfold countb; simpl; lia|].
  apply Forall_cons in Hc as [Hc Hcs].
  pose proof (mgr_step_resolves m op id) as Hr.
  destruct (mgr_step m op) as [r m'] eqn:E.
  pose proof (mgr_run_never m' ops id) as Hn. specialize (IH m' Hcs).
  destruct (mgr_run m' ops) as [rs m'']. simpl in *.
  destruct r as [id'|]; [|done]. unfold countb in *. simpl.
  destruct (String.eqb_spec id id') as [<-|Hne]; [|done]. simpl.
  destruct (Hr eq_refl) as [_ (pa & Hpa & Hs)].
  assert (id ∉ rs) as Hrs by (apply Hn; [intros (pa' & Hpa' & ?); congruence|done]).
  enough (length (List.filter (String.eqb id) rs) = 0) by lia.
  apply (countb_zero (String.eqb id) rs), Forall_forall.
  intros x Hx. apply String.eqb_neq. by intros <-.
Qed.

(** Every approval that reads Approved was approved by one of the operations. *)
Definition approved_by (hist : list (mgr_op F P)) m : Prop :=
  forall id pa, mg_pending m !! id = Some pa -> pa_Status pa = StatusApproved ->
    exists n1, OpApprove id (pa_ApprovedBy pa) n1 (pa_ResolvedAt pa) ∈ hist /\
               (n1 <= pa_ExpiresAt pa)%Z.

Lemma approved_by_keep hist hist' m m' :
  approved_by hist m -> (forall op, op ∈ hist -> op ∈ hist') ->
  (forall id pa', mg_pending m' !! id = Some pa' -> pa_Status pa' = StatusApproved ->
     mg_pending m !! id = Some pa' \/
     exists n1, OpApprove id (pa_ApprovedBy pa') n1 (pa_ResolvedAt pa') ∈ hist' /\
                (n1 <= pa_ExpiresAt pa')%Z) ->
  approved_by hist' m'.
Proof.
  intros Ha Hsub Hm id pa Hpa Hs. destruct (Hm id pa Hpa Hs) as [Hold|Hnew]; [|done].
  destruct (Ha id pa Hold Hs) as (n1 & Hin & Hle). exists n1. split; [by apply Hsub|done].
Qed.

Lemma expire_if_due_approved pa now :
  pa_Status (expire_if_due pa now) = StatusApproved -> expire_if_due pa now = pa.
Proof. unfold expire_if_due. by destruct (_ && _). Qed.

Lemma approved_by_step hist m op :
  approved_by hist m -> approved_by (hist ++ [op]) (mgr_step m op).2.
Proof.
  intros Ha. eapply approved_by_keep; [exact Ha|set_solver|]. intros id pa' Hpa' Hs.
  destruct op as [req gen now|id' who n1 n2|id' who n1 n2|id' now|now]; simpl in Hpa'.
  - unfold Create in Hpa'. destruct gen as [id'|]; [|by left]. simpl in Hpa'.
    apply lookup_insert_Some in Hpa' as [[_ <-]|[_ ?]]; [done|by left].
  - unfold Approve in Hpa'. destruct (resolve _ _ _ _ _ _) as [[e|] m'] eqn:E; simpl in Hpa'.
    + unfold resolve in E. repeat case_match; simplify_eq/=; try by left.
      apply lookup_insert_Some in Hpa' as [[_ <-]|[_ ?]]; [done|by left].
    + apply resolve_None in E as (pa & _ & _ & Hle & ->). simpl in Hpa'.
      apply lookup_insert_Some in Hpa' as [[<- <-]|[_ ?]]; [|by left].
      right. exists n1. split; [set_solver|done].
  - unfold Deny in Hpa'. destruct (resolve _ _ _ _ _ _) as [[e|] m'] eqn:E; simpl in Hpa'.
    + unfold resolve in E. repeat case_match; simplify_eq/=; try by left.
      apply lookup_insert_Some in Hpa' as [[_ <-]|[_ ?]]; [done|by left].
    + apply resolve_None in E as (pa & _ & _ & Hle & ->). simpl in Hpa'.
      apply lookup_insert_Some in Hpa' as [[_ <-]|[_ ?]]; [done|by left].
  - unfold Get in Hpa'. destruct (mg_pending m !! id') as [pa|] eqn:E; simpl in Hpa'; [|by left].
    apply lookup_insert_Some in Hpa' as [[<- <-]|[_ ?]]; [|by left].
    apply expire_if_due_approved in Hs. rewrite Hs. by left.
  - rewrite lookup_omap in Hpa'. destruct (mg_pending m !! id) as [pa|] eqn:E; [|done].
    simpl in Hpa'. apply cleanup_entry_Some in Hpa' as ->.
    apply expire_if_due_approved in Hs. rewrite Hs. by left.
Qed.

Lemma approved_by_run hist m ops :
  approved_by hist m -> approved_by (hist ++ ops) (mgr_run m ops).2.
Proof.
  revert hist m. induction ops as [|op ops IH]; intros hist m Ha; simpl.
  - by rewrite app_nil_r.
  - pose proof (approved_by_step hist m op Ha) as H1.
    destruct (mgr_step m op) as [r m']. specialize (IH _ _ H1).
    rewrite <-app_assoc in IH. simpl in IH. by destruct (mgr_run m' ops).
Qed.

(** Nothing is approved by itself.  Whatever is done with a new manager, an
    approval that reads Approved was approved by an explicit [Approve] of that
    identifier among the operations, made at or before its expiry, and it
    records who approved it and when. *)
Theorem approved_needs_approver ttl (ops : list (mgr_op F P)) id pa :
  mg_pending (mgr_run (NewManager ttl) ops).2 !! id = Some pa ->
  pa_Status pa = StatusApproved ->
  exists n1, OpApprove id (pa_ApprovedBy pa) n1 (pa_ResolvedAt pa) ∈ ops /\
             (n1 <= pa_ExpiresAt pa)%Z.
Proof.
  intros Hpa Hs. apply (approved_by_run [] (NewManager ttl) ops); [|done..].
  intros id' pa' Hpa' _. simpl in Hpa'. by rewrite lookup_empty in Hpa'.
Qed.

(** The whole behaviour of [Approve] and [Deny].  An unknown identifier is
    ErrNotFound; past the expiry the answer is ErrExpired and the approval is
    marked expired; one that is not pending is ErrAlreadyResolved and unchanged;
    otherwise it gets the decision, who took it and when, and keeps every other
    field.  No other approval changes. *)
Theorem approval_resolve_spec m id who s n1 n2 :
  let '(e, m') := resolve m id who s n1 n2 in
  mg_ttl m' = mg_ttl m /\
  (forall id', id' <> id -> mg_pending m' !! id' = mg_pending m !! id') /\
  match mg_pending m !! id with
  | None => e = Some (Sentinel ErrNotFound) /\ mg_pending m' !! id = None
  | Some pa =>
      if (pa_ExpiresAt pa <? n1)%Z
      then e = Some (Sentinel ErrExpired) /\
           option_map pa_Status (mg_pending m' !! id) = Some StatusExpired
      else if decide (pa_Status pa = StatusPending)
      then e = None /\ exists pa', mg_pending m' !! id = Some pa' /\
           pa_Status pa' = s /\ pa_ApprovedBy pa' = who /\ pa_ResolvedAt pa' = n2 /\
           set_status pa' StatusPending (pa_ApprovedBy pa) (pa_ResolvedAt pa) = pa
      else e = Some (Sentinel ErrAlreadyResolved) /\ mg_pending m' !! id = Some pa
  end.
Proof.
  pose proof (fun id' H => resolve_other m id id' who s n1 n2 H) as Ho.
  destruct (mg_pending m !! id) as [pa|] eqn:Hpa.
  - destruct (resolve_present m id who s n1 n2 pa Hpa) as [[Ht R]|[(Ht & Hs & R)|(Ht & Hs & R)]];
      rewrite R in *; simpl in *; unfold time_After in Ht; rewrite Ht.
    all: split; [done|split; [intros; by apply Ho|]].
    + by rewrite lookup_insert_eq.
    + by rewrite decide_False.
    + rewrite decide_True by done. split; [done|]. eexists. split; [apply lookup_insert_eq|].
      repeat split. destruct pa; simpl in *. by subst.
  - unfold resolve in *. rewrite Hpa in *. done.
Qed.

(** A decision is not final.  [interfaces.go] documents an approval's status
    as immutable once it is approved, denied or expired; the expiry test of
    [resolve] comes before the test for a pending status, so a second [Approve]
    or [Deny] of an approved request after its expiry turns it into Expired. *)
Theorem approved_can_become_expired m id pa who s n1 n2 :
  mg_pending m !! id = Some pa -> pa_Status pa = StatusApproved ->
  (pa_ExpiresAt pa < n1)%Z ->
  option_map pa_Status (mg_pending (resolve m id who s n1 n2).2 !! id) = Some StatusExpired.
Proof.
  intros Hpa _ Ht%Z.ltb_lt. unfold resolve, time_After. rewrite Hpa, Ht. simpl.
  by rewrite lookup_insert_eq.
Qed.

(** Cleanup never loses a decision that can still be made.  After [Cleanup]
    an approval is gone only when it is past its expiry by more than the TTL;
    every other one is kept, unchanged apart from an overdue pending one being
    marked expired, and no approval appears. *)
Theorem approval_cleanup_spec m now id :
  (0 <= mg_ttl m)%Z ->
  mg_pending (Cleanup m now) !! id =
  match mg_pending m !! id with
  | None => None
  | Some pa =>
      if (now <=? pa_ExpiresAt pa)%Z then
        Some pa
      else if (now <=? pa_ExpiresAt pa + mg_ttl m)%Z then
        Some (if decide (pa_Status pa = StatusPending) then expire pa else pa)
      else None
  end.
Proof.
  intros Httl. simpl. rewrite lookup_omap.
  destruct (mg_pending m !! id) as [pa|]; simpl; [|done].
  unfold cleanup_entry, expire_if_due, time_After.
  destruct (Z.ltb_spec (pa_ExpiresAt pa) now), (Z.leb_spec now (pa_ExpiresAt pa)); try lia;
    destruct (decide (pa_Status pa = StatusPending)) as [Hs|Hs];
    [rewrite (bool_decide_true _ Hs)|rewrite (bool_decide_false _ Hs)
    |rewrite (bool_decide_true _ Hs)|rewrite (bool_decide_false _ Hs)]; simpl;
    rewrite ?(bool_decide_true _ Hs), ?(bool_decide_false _ Hs); simpl.
  all: repeat case_match; simplify_eq/=; try done; lia.
Qed.
End manager_runs.

(** ** Witnesses *)

Definition req_ex : CreateRequest Q unit :=
  mkCreateRequest "u" "shell" tt "execute" "high" 0%Q "corr" "conv" "use".
Definition ops_ex : list (mgr_op Q unit) :=
  [OpCreate req_ex (Ok "a1") 0%Z; OpApprove "a1" "admin" 5%Z 6%Z; OpDeny "a1" "admin" 7%Z 7%Z].
Definition mgr_ex : Manager Q unit := (mgr_run (NewManager 10%Z) ops_ex).2.
Definition pa_ex : PendingApproval Q unit :=
  mkPA "a1" "u" "shell" tt "execute" "high" 0%Q "corr" "conv" "use" StatusApproved "admin" 0%Z 10%Z 6%Z.

Lemma approval_resolved_once_witness :
  countb (String.eqb "a1") (mgr_run mgr_ex (drop 1 ops_ex)).1 <= 1.
Proof. apply (approval_resolved_once mgr_ex (drop 1 ops_ex) "a1"). repeat constructor. Defined.

Lemma approved_needs_approver_witness :
  exists n1, OpApprove "a1" "admin" n1 6%Z ∈ ops_ex /\ (n1 <= 10)%Z.
Proof. apply (approved_needs_approver 10%Z ops_ex "a1" pa_ex); reflexivity. Defined.

Lemma approved_can_become_expired_witness :
  option_map pa_Status
    (mg_pending (resolve mgr_ex "a1" "admin" StatusDenied 11%Z 11%Z).2 !! "a1") = Some StatusExpired.
Proof. apply (approved_can_become_expired mgr_ex "a1" pa_ex); reflexivity. Defined.

Lemma approval_cleanup_spec_witness :
  mg_pending (Cleanup mgr_ex 21%Z) !! "a1" = None.
Proof. rewrite (approval_cleanup_spec mgr_ex 21%Z "a1"); [reflexivity|by vm_compute]. Defined.
