(* ===== verification/AutoApproval.v ===== *)
(** * The auto-approver

    [src/internal/approval/auto.go]: tracking manual approvals per user, tool and
    parameters, and approving an identical request after enough of them, at most
    so many times per user and hour.  [ShouldAutoApprove] takes the lock three
    times; each of its critical sections is a definition, their composition is the
    call, and [call_step] interleaves the sections of concurrent calls. *)

From S2P Require Import Prelude.

Record AutoApprovalConfig := mkAutoConfig {
  aac_Enabled : bool;
  aac_MaxAutoApprovals : Z;
  aac_AllowedTools : list string;
  aac_RequiredApprovals : Z;
  aac_WindowHours : Z;
}.

Record AutoApprover := mkAutoApprover {
  aa_history : gmap string (list Time);
  aa_counters : gmap string Z;
  aa_hourSlot : Z;
  aa_config : AutoApprovalConfig;
}.

Definition NewAutoApprover (cfg : AutoApprovalConfig) : AutoApprover :=
  mkAutoApprover ∅ ∅ 0
    (mkAutoConfig (aac_Enabled cfg)
      (if (aac_MaxAutoApprovals cfg <=? 0)%Z then 10%Z else aac_MaxAutoApprovals cfg)
      (aac_AllowedTools cfg)
      (if (aac_RequiredApprovals cfg <=? 0)%Z then 3%Z else aac_RequiredApprovals cfg)
      (if (aac_WindowHours cfg <=? 0)%Z then 24%Z else aac_WindowHours cfg)).

Definition isToolAllowed (a : AutoApprover) (toolName : string) : bool :=
  if decide (length (aac_AllowedTools (aa_config a)) = 0) then false
  else slice_contains (aac_AllowedTools (aa_config a)) toolName.

(** [a.counters[userID]]. *)
Definition counter (a : AutoApprover) (userID : string) : Z :=
  default 0%Z (aa_counters a !! userID).

(** [a.history[key]]. *)
Definition history_of (a : AutoApprover) (key : string) : list Time :=
  default [] (aa_history a !! key).

Definition window_cutoff (a : AutoApprover) (now : Time) : Time :=
  (now - aac_WindowHours (aa_config a) * Hour)%Z.

(** First critical section: reset the counters in a new hour, test the cap. *)
Definition checkCap (a : AutoApprover) (userID : string) (now : Time) : bool * AutoApprover :=
  let currentHour := (time_Unix now / 3600)%Z in
  let a :=
    if negb (currentHour =? aa_hourSlot a)%Z
    then mkAutoApprover (aa_history a) ∅ currentHour (aa_config a)
    else a in
  (negb (aac_MaxAutoApprovals (aa_config a) <=? counter a userID)%Z, a).

(** Second critical section and the count that follows it. *)
Definition recentApprovals (a : AutoApprover) (key : string) (now : Time) : Z :=
  Z.of_nat (countb (fun ts => time_After ts (window_cutoff a now)) (history_of a key)).

(** Third critical section. *)
Definition countAuto (a : AutoApprover) (userID : string) : AutoApprover :=
  mkAutoApprover (aa_history a) (<[userID := (counter a userID + 1)%Z]> (aa_counters a))
    (aa_hourSlot a) (aa_config a).

Section keyed.
Context {P : Type} `{GoJson P} `{Digest}.

Definition approvalKey (userID toolName : string) (params : P) : string :=
  sha256_16 (userID +:+ "|" +:+ toolName +:+ "|" +:+ json_marshal params).

Definition ShouldAutoApprove (a : AutoApprover) (userID toolName : string) (params : P)
    (now1 now2 : Time) : bool * AutoApprover :=
  if negb (aac_Enabled (aa_config a)) then (false, a)
  else if negb (isToolAllowed a toolName) then (false, a)
  else
    let '(pass, a) := checkCap a userID now1 in
    if negb pass then (false, a)
    else if (aac_RequiredApprovals (aa_config a) <=?
             recentApprovals a (approvalKey userID toolName params) now2)%Z
    then (true, countAuto a userID)
    else (false, a).

Definition RecordManualApproval (a : AutoApprover) (userID toolName : string) (params : P)
    (now1 now2 : Time) : AutoApprover :=
  let key := approvalKey userID toolName params in
  let entries := history_of a key ++ [now1] in
  let pruned := List.filter (fun ts => time_After ts (window_cutoff a now2)) entries in
  mkAutoApprover (<[key := pruned]> (aa_history a)) (aa_counters a) (aa_hourSlot a) (aa_config a).

Inductive auto_op :=
  | OpShould (userID toolName : string) (params : P) (now1 now2 : Time)
  | OpRecord (userID toolName : string) (params : P) (now1 now2 : Time).

Definition auto_step (a : AutoApprover) (op : auto_op) : bool * AutoApprover :=
  match op with
  | OpShould u t p n1 n2 => ShouldAutoApprove a u t p n1 n2
  | OpRecord u t p n1 n2 => (false, RecordManualApproval a u t p n1 n2)
  end.

(** The calls that auto-approved, and the final state. *)
Fixpoint auto_run (a : AutoApprover) (ops : list auto_op) : list auto_op * AutoApprover :=
  match ops with
  | [] => ([], a)
  | op :: ops =>
      let '(b, a) := auto_step a op in
      let '(oks, a) := auto_run a ops in
      ((if b then [op] else []) ++ oks, a)
  end.

Definition op_user (op : auto_op) : string :=
  match op with OpShould u _ _ _ _ | OpRecord u _ _ _ _ => u end.

(** The hour slot an operation reads; recording reads none. *)
Definition op_hour_is (h : Z) (op : auto_op) : bool :=
  match op with
  | OpShould _ _ _ n1 _ => (time_Unix n1 / 3600 =? h)%Z
  | OpRecord _ _ _ _ _ => true
  end.

(** Recordings under [key] made after [cutoff]. *)
Definition records_after (key : string) (cutoff : Time) (op : auto_op) : bool :=
  match op with
  | OpShould _ _ _ _ _ => false
  | OpRecord u t p n1 _ => String.eqb key (approvalKey u t p) && time_After n1 cutoff
  end.
End keyed.

Arguments auto_op P : clear implicits.

(** ** Interleaving

    Concurrent calls of one user on one key, each between two of its critical
    sections. *)

Inductive call_pc := AtCap | AtHistory | AtCount | Approved | Refused.

Inductive call_step (userID key : string) (now : Time)
    : AutoApprover * list call_pc -> AutoApprover * list call_pc -> Prop :=
  | cs_cap a cs i :
      cs !! i = Some AtCap ->
      call_step userID key now (a, cs)
        ((checkCap a userID now).2,
         <[i := if (checkCap a userID now).1 then AtHistory else Refused]> cs)
  | cs_history a cs i :
      cs !! i = Some AtHistory ->
      call_step userID key now (a, cs)
        (a, <[i := if (aac_RequiredApprovals (aa_config a) <=? recentApprovals a key now)%Z
                   then AtCount else Refused]> cs)
  | cs_count a cs i :
      cs !! i = Some AtCount ->
      call_step userID key now (a, cs) (countAuto a userID, <[i := Approved]> cs).

(** ** Lemmas *)


Section auto_lemmas.
Context {P : Type} `{GoJson P} `{Digest}.
Implicit Types (a : AutoApprover) (op : auto_op P).

Lemma checkCap_spec a u now :
  let h := (time_Unix now / 3600)%Z in
  let '(pass, a') := checkCap a u now in
  aa_history a' = aa_history a /\ aa_config a' = aa_config a /\ aa_hourSlot a' = h /\
  (forall u', counter a' u' = if (h =? aa_hourSlot a)%Z then counter a u' else 0%Z) /\
  (pass = true <-> (counter a' u < aac_MaxAutoApprovals (aa_config a))%Z).
Proof.
  unfold checkCap. cbv zeta. destruct (Z.eqb_spec (time_Unix now / 3600) (aa_hourSlot a)) as [E|E];
    simpl; rewrite negb_true_iff, Z.leb_gt; by repeat split.
Qed.

Lemma counter_countAuto a u u' :
  counter (countAuto a u) u' = (counter a u' + if String.eqb u u' then 1 else 0)%Z.
Proof.
  unfold counter at 1, countAuto. simpl. destruct (String.eqb_spec u u') as [->|Hne].
  - by rewrite lookup_insert_eq.
  - rewrite lookup_insert_ne by done. fold (counter a u'). lia.
Qed.

(** A positive answer: the tool is allowed, the user is below the cap of the hour
    and the recent approvals suffice; the counter of the user grows by one. *)
Lemma ShouldAutoApprove_true a u t p n1 n2 a' :
  ShouldAutoApprove a u t p n1 n2 = (true, a') ->
  let h := (time_Unix n1 / 3600)%Z in
  isToolAllowed a t = true /\
  (aac_RequiredApprovals (aa_config a) <= recentApprovals a (approvalKey u t p) n2)%Z /\
  aa_history a' = aa_history a /\ aa_config a' = aa_config a /\ aa_hourSlot a' = h /\
  (counter a' u <= aac_MaxAutoApprovals (aa_config a))%Z /\
  (forall u', counter a' u' = (if (h =? aa_hourSlot a) then counter a u' else 0) +
                              if String.eqb u u' then 1 else 0)%Z.
Proof.
  unfold ShouldAutoApprove. intros E. destruct (aac_Enabled _); cbn [negb] in E; [|done].
  destruct (isToolAllowed a t); cbn [negb] in E; [|done].
  pose proof (checkCap_spec a u n1) as C. destruct (checkCap a u n1) as [[] a1]; cbn [negb] in E; [|done].
  destruct C as (Hh & Hc & Hs & Hn & Hp). destruct (_ <=? _)%Z eqn:Hr in E; [|done].
  injection E as <-. apply Z.leb_le in Hr.
  unfold recentApprovals, window_cutoff, history_of in *. rewrite Hc, Hh in Hr.
  split; [done|]. split; [done|].
  simpl. repeat (split; [done|]). split.
  - rewrite counter_countAuto, String.eqb_refl. apply proj1 in Hp. specialize (Hp eq_refl). lia.
  - intros u'. rewrite counter_countAuto, Hn. done.
Qed.

Lemma ShouldAutoApprove_false a u t p n1 n2 a' :
  ShouldAutoApprove a u t p n1 n2 = (false, a') ->
  let h := (time_Unix n1 / 3600)%Z in
  aa_history a' = aa_history a /\ aa_config a' = aa_config a /\
  (a' = a \/ aa_hourSlot a' = h /\
     forall u', counter a' u' = if (h =? aa_hourSlot a)%Z then counter a u' else 0%Z).
Proof.
  unfold ShouldAutoApprove. intros E.
  destruct (aac_Enabled _); cbn [negb] in E; [|injection E as <-; auto].
  destruct (isToolAllowed a t); cbn [negb] in E; [|injection E as <-; auto].
  pose proof (checkCap_spec a u n1) as C. destruct (checkCap a u n1) as [pass a1].
  destruct C as (Hh & Hc & Hs & Hn & _).
  destruct pass; cbn [negb] in E; [destruct (_ <=? _)%Z in E; [done|]|]; injection E as <-; auto.
Qed.
End auto_lemmas.

(** ** Properties *)

Section auto_properties.
Context {P : Type} `{GoJson P} `{Digest}.
Implicit Types (a : AutoApprover) (op : auto_op P) (ops : list (auto_op P)).

Definition cap a : Z := aac_MaxAutoApprovals (aa_config a).

(** The approvals of [u] the current counters account for in hour [h]. *)
Definition used_in a (h : Z) (u : string) : Z :=
  if (h =? aa_hourSlot a)%Z then counter a u else 0%Z.

Definition by_user (u : string) op : bool := String.eqb u (op_user op).

Definition cap_ok a : Prop := (0 < cap a)%Z /\ forall u, (counter a u <= cap a)%Z.

Lemma auto_step_cap_ok a op : cap_ok a -> cap_ok (auto_step a op).2.
Proof.
  intros [Hc Hu]. destruct op as [u t p n1 n2|u t p n1 n2]; simpl; [|done].
  destruct (ShouldAutoApprove a u t p n1 n2) as [b a'] eqn:E. unfold cap_ok, cap in *. destruct b.
  - apply ShouldAutoApprove_true in E as (_ & _ & _ & Hcfg & _ & Hle & Hn). simpl. rewrite Hcfg.
    split; [done|]. intros u'. destruct (String.eqb_spec u u') as [->|Hne]; [done|].
    rewrite Hn, (proj2 (String.eqb_neq u u') Hne). specialize (Hu u'). destruct (_ =? _)%Z; lia.
  - apply ShouldAutoApprove_false in E as (_ & Hcfg & [->|[_ Hn]]); simpl; [done|].
    rewrite Hcfg. split; [done|]. intros u'. rewrite Hn. specialize (Hu u').
    destruct (_ =? _)%Z; lia.
Qed.

Lemma auto_run_app a ops1 ops2 :
  auto_run a (ops1 ++ ops2) =
  ((auto_run a ops1).1 ++ (auto_run (auto_run a ops1).2 ops2).1,
   (auto_run (auto_run a ops1).2 ops2).2).
Proof.
  revert a. induction ops1 as [|op ops IH]; intros a; simpl; [by destruct (auto_run a ops2)|].
  destruct (auto_step a op) as [b a']. rewrite IH.
  destruct (auto_run a' ops) as [oks a'']. simpl. by rewrite app_assoc.
Qed.

Lemma auto_run_cap_ok a ops : cap_ok a -> cap_ok (auto_run a ops).2.
Proof.
  revert a. induction ops as [|op ops IH]; intros a Ha; simpl; [done|].
  pose proof (auto_step_cap_ok a op Ha) as Hs. destruct (auto_step a op) as [b a'].
  specialize (IH a' Hs). by destruct (auto_run a' ops).
Qed.

Lemma auto_step_used a op h u :
  op_hour_is h op = true -> (used_in a h u <= cap a)%Z ->
  let '(b, a') := auto_step a op in
  cap a' = cap a /\ (used_in a' h u <= cap a')%Z /\
  used_in a' h u = (used_in a h u + if b && by_user u op then 1 else 0)%Z.
Proof.
  intros Hh Hu. destruct op as [u' t p n1 n2|u' t p n1 n2]; simpl in *.
  - apply Z.eqb_eq in Hh. destruct (ShouldAutoApprove a u' t p n1 n2) as [b a'] eqn:E.
    unfold cap, used_in, by_user in *. simpl. destruct b.
    + apply ShouldAutoApprove_true in E as (_ & _ & _ & Hcfg & Hs & Hle & Hn).
      rewrite Hs, Hcfg, Hn, Hh, Z.eqb_refl, (String.eqb_sym u' u). simpl. split; [done|].
      destruct (String.eqb_spec u u') as [->|Hne]; [|split; lia].
      rewrite Hn, Hh, String.eqb_refl in Hle. lia.
    + apply ShouldAutoApprove_false in E as (_ & Hcfg & [->|[Hs Hn]]); simpl; [split; [done|lia]|].
      rewrite Hcfg, Hs, Hn, Hh, Z.eqb_refl. split; [done|]. lia.
  - unfold used_in, cap in *. simpl. split; [done|]. unfold counter in *. simpl. lia.
Qed.

Lemma auto_run_used a ops h u :
  Forall (fun op => op_hour_is h op = true) ops -> (used_in a h u <= cap a)%Z ->
  (used_in a h u + Z.of_nat (countb (by_user u) (auto_run a ops).1) <= cap a)%Z.
Proof.
  revert a. induction ops as [|op ops IH]; intros a Hh Hu; simpl; [unfold countb; simpl; lia|].
  apply Forall_cons in Hh as [Hop Hh]. pose proof (auto_step_used a op h u Hop Hu) as Hs.
  destruct (auto_step a op) as [b a'] eqn:E. destruct Hs as (Hc & Hu' & He).
  specialize (IH a' Hh Hu'). destruct (auto_run a' ops) as [oks a'']. simpl in *.
  unfold countb in *. rewrite List.filter_app, length_app.
  destruct b; simpl in *; [destruct (by_user u op); simpl in *|]; lia.
Qed.

Lemma NewAutoApprover_cap_ok cfg : cap_ok (NewAutoApprover cfg).
Proof.
  unfold cap_ok, cap, counter. simpl. destruct (Z.leb_spec (aac_MaxAutoApprovals cfg) 0).
  all: split; [lia|]; intros u'; rewrite lookup_empty; simpl; lia.
Qed.

Lemma auto_step_counter_nonneg a op :
  (forall u, 0 <= counter a u)%Z -> (forall u, 0 <= counter (auto_step a op).2 u)%Z.
Proof.
  intros Ha u'. destruct op as [u1 t p n1 n2|]; simpl; [|apply Ha].
  destruct (ShouldAutoApprove a u1 t p n1 n2) as [[] a'] eqn:E; simpl; specialize (Ha u').
  - apply ShouldAutoApprove_true in E as (_ & _ & _ & _ & _ & _ & ->).
    destruct (_ =? _)%Z, (String.eqb _ _); lia.
  - apply ShouldAutoApprove_false in E as (_ & _ & [->|[_ ->]]); [done|].
    destruct (_ =? _)%Z; lia.
Qed.

Lemma auto_run_counter_nonneg a ops u :
  (forall u, 0 <= counter a u)%Z -> (0 <= counter (auto_run a ops).2 u)%Z.
Proof.
  revert a. induction ops as [|op ops IH]; intros a Ha; simpl; [done|].
  pose proof (auto_step_counter_nonneg a op Ha) as Ha'.
  destruct (auto_step a op) as [b a']. specialize (IH a' Ha'). by destruct (auto_run a' ops).
Qed.

Lemma auto_run_config a ops : aa_config (auto_run a ops).2 = aa_config a.
Proof.
  revert a. induction ops as [|op ops IH]; intros a; simpl; [done|].
  destruct (auto_step a op) as [b a1] eqn:E. specialize (IH a1).
  destruct (auto_run a1 ops). simpl in *. rewrite IH.
  destruct op as [u t p n1 n2|]; simpl in E; [|by injection E as <- <-].
  destruct b; [by apply ShouldAutoApprove_true in E as (_ & _ & _ & ? & _)
              |by apply ShouldAutoApprove_false in E as (_ & ? & _)].
Qed.

(** The hourly cap.  Whatever the auto-approver did before, the calls of one
    user that read a clock of the same hour are auto-approved at most
    [MaxAutoApprovals] times, when the calls do not overlap. *)
Theorem auto_hourly_cap cfg pre ops h u :
  Forall (fun op => op_hour_is h op = true) ops ->
  (Z.of_nat (countb (by_user u) (auto_run (auto_run (NewAutoApprover cfg) pre).2 ops).1)
   <= cap (auto_run (NewAutoApprover cfg) pre).2)%Z.
Proof.
  intros Hh. destruct (auto_run_cap_ok _ pre (NewAutoApprover_cap_ok cfg)) as [Hc Hu].
  specialize (Hu u).
  pose proof (auto_run_counter_nonneg (NewAutoApprover cfg) pre u ltac:(done)) as Hpos.
  set (a := (auto_run (NewAutoApprover cfg) pre).2) in *.
  pose proof (auto_run_used a ops h u Hh) as Hr.
  unfold used_in in *. destruct (_ =? _)%Z; lia.
Qed.

(** The recorded timestamps of a key after a cutoff come from recordings of it. *)
Lemma auto_run_history a ops key cutoff :
  countb (fun ts => time_After ts cutoff) (history_of (auto_run a ops).2 key) <=
  countb (fun ts => time_After ts cutoff) (history_of a key) +
  countb (records_after key cutoff) ops.
Proof.
  revert a. induction ops as [|op ops IH]; intros a; simpl; [unfold countb; simpl; lia|].
  destruct (auto_step a op) as [b a'] eqn:E. specialize (IH a').
  destruct (auto_run a' ops) as [oks a'']. simpl in *. etransitivity; [exact IH|].
  unfold countb. simpl. fold (countb (records_after key cutoff) ops).
  enough (countb (fun ts => time_After ts cutoff) (history_of a' key) <=
          countb (fun ts => time_After ts cutoff) (history_of a key) +
          if records_after key cutoff op then 1 else 0) as Hstep.
  { unfold countb in *. destruct (records_after key cutoff op); simpl; lia. }
  destruct op as [u t p n1 n2|u t p n1 n2]; simpl in *.
  - destruct b; [apply ShouldAutoApprove_true in E as (_ & _ & Hh & _)
                |apply ShouldAutoApprove_false in E as (Hh & _)];
      unfold history_of; rewrite Hh; lia.
  - injection E as <- <-. unfold history_of at 1. simpl.
    destruct (String.eqb_spec key (approvalKey u t p)) as [<-|Hne]; simpl.
    + rewrite lookup_insert_eq. simpl. generalize (window_cutoff a n2) as c. intros c.
      generalize (history_of a key) as l. intros l.
      transitivity (countb (fun ts => time_After ts cutoff) (l ++ [n1])).
      * unfold countb. generalize (l ++ [n1]). intros l'. induction l' as [|x l' IH']; simpl; [lia|].
        destruct (time_After x c); simpl; destruct (time_After x cutoff); simpl; lia.
      * unfold countb. rewrite List.filter_app, length_app. simpl.
        destruct (time_After n1 cutoff); simpl; lia.
    + rewrite lookup_insert_ne by done. unfold history_of. lia.
Qed.

(** An auto-approval rests on manual ones.  From a new auto-approver, if a
    request is auto-approved then its tool is on the allowlist and the same key
    (user, tool, parameters) was manually approved at least [RequiredApprovals]
    times, at least once, each within the lookback window. *)
Theorem auto_needs_manual_approvals cfg ops u t p n1 n2 :
  let a := (auto_run (NewAutoApprover cfg) ops).2 in
  (ShouldAutoApprove a u t p n1 n2).1 = true ->
  t ∈ aac_AllowedTools (aa_config a) /\
  (1 <= aac_RequiredApprovals (aa_config a) <=
   Z.of_nat (countb (records_after (approvalKey u t p) (window_cutoff a n2)) ops))%Z.
Proof.
  intros a Hok. destruct (ShouldAutoApprove a u t p n1 n2) as [b a'] eqn:E. simpl in Hok.
  rewrite Hok in E. apply ShouldAutoApprove_true in E as (Ht & Hr & _).
  unfold isToolAllowed in Ht. destruct (decide _) in Ht; [done|]. split.
  { by apply slice_contains_true. }
  split.
  { unfold a. rewrite auto_run_config. simpl. destruct (Z.leb_spec (aac_RequiredApprovals cfg) 0); lia. }
  etransitivity; [exact Hr|]. unfold recentApprovals. apply inj_le.
  unfold a at 2. etransitivity; [apply auto_run_history|].
  unfold history_of at 1. simpl. rewrite lookup_empty. simpl. unfold countb at 1. simpl. done.
Qed.
End auto_properties.

(** ** The race on the cap *)

Lemma call_phase (u key : string) (now : Time) (inv : AutoApprover -> Prop)
    (f : AutoApprover -> AutoApprover) (pc pc' : call_pc) :
  (forall a, inv a -> inv (f a)) ->
  (forall a cs i, inv a -> cs !! i = Some pc -> call_step u key now (a, cs) (f a, <[i := pc']> cs)) ->
  forall n a ready, inv a ->
    rtc (call_step u key now) (a, ready ++ replicate n pc)
      (Nat.iter n f a, ready ++ replicate n pc').
Proof.
  intros Hinv Hstep n. induction n as [|n IH]; intros a ready Ha; [done|].
  eapply rtc_l.
  { apply (Hstep a _ (length ready)); [done|]. apply list_lookup_middle. done. }
  replace (ready ++ replicate (S n) pc') with ((ready ++ [pc']) ++ replicate n pc')
    by (by rewrite <-app_assoc).
  rewrite Nat.iter_succ_r. rewrite insert_app_r_alt, Nat.sub_diag by lia. simpl.
  replace (ready ++ pc' :: replicate n pc) with ((ready ++ [pc']) ++ replicate n pc)
    by (by rewrite <-app_assoc).
  apply IH. auto.
Qed.

(** The cap does not hold for overlapping calls.  The test of the counter and
    its increment are separate critical sections: any number of concurrent calls of
    a user who is below the cap and has enough manual approvals can all pass the
    test before any of them counts, and all are auto-approved. *)
Theorem auto_cap_race (a : AutoApprover) (u key : string) (now : Time) (n : nat) :
  0 < n -> (checkCap a u now).1 = true ->
  (aac_RequiredApprovals (aa_config a) <= recentApprovals a key now)%Z ->
  exists a', rtc (call_step u key now) (a, replicate n AtCap) (a', replicate n Approved) /\
    (Z.of_nat n <= counter a' u - counter (checkCap a u now).2 u)%Z.
Proof.
  intros Hn Hcap Hreq. set (a1 := (checkCap a u now).2).
  pose proof (checkCap_spec a u now) as Hc. cbv zeta in Hc.
  assert (checkCap a1 u now = (true, a1)) as Hidem.
  { unfold a1, checkCap in *. cbv zeta in *. destruct (Z.eqb_spec (time_Unix now / 3600) (aa_hourSlot a)) as [E|E]; simpl in *.
    - apply Z.eqb_eq in E. rewrite E. simpl. by rewrite Hcap.
    - rewrite Z.eqb_refl. simpl. by rewrite Hcap. }
  assert (aac_RequiredApprovals (aa_config a1) <= recentApprovals a1 key now)%Z as Hreq1.
  { unfold a1. destruct (checkCap a u now) as [pass a']. destruct Hc as (Hh & Hcf & _). simpl.
    unfold recentApprovals, window_cutoff, history_of in *. by rewrite Hh, Hcf. }
  exists (Nat.iter n (fun a => countAuto a u) a1). split.
  - destruct n as [|n]; [lia|]. eapply rtc_l.
    { apply (cs_cap u key now a (replicate (S n) AtCap) 0). done. }
    rewrite Hcap. fold a1. simpl. etransitivity; [|etransitivity].
    + apply (call_phase u key now (eq a1) (fun a => a) AtCap AtHistory) with (ready := [AtHistory]); try done.
      intros a' cs i <- Hi. pose proof (cs_cap u key now a1 cs i Hi) as Hs. by rewrite Hidem in Hs.
    + change ([AtHistory] ++ replicate n AtHistory) with ([] ++ replicate (S n) AtHistory).
      replace (Nat.iter n (fun a => a) a1) with a1 by (clear; induction n; simpl; done).
      apply (call_phase u key now (eq a1) (fun a => a) AtHistory AtCount); try done.
      intros a' cs i <- Hi. pose proof (cs_history u key now a1 cs i Hi) as Hs.
      by rewrite (proj2 (Z.leb_le _ _) Hreq1) in Hs.
    + replace (Nat.iter (S n) (fun a => a) a1) with a1 by (clear; induction n; simpl; done).
      apply (call_phase u key now (fun _ => True) (fun a => countAuto a u) AtCount Approved
               ltac:(done) ltac:(intros; by apply cs_count) (S n) a1 []). done.
  - clear. induction n as [|n IH]; simpl; [lia|].
    rewrite counter_countAuto, String.eqb_refl. lia.
Qed.

(** ** Witnesses *)

#[local] Instance json_nat_ex : GoJson nat := {| json_marshal := fun n => if decide (n = 0) then "{}" else "{n}" |}.
#[local] Instance digest_ex : Digest := {| sha256_16 := fun s => s |}.
Definition auto_cfg_ex : AutoApprovalConfig := mkAutoConfig true 1 ["web_search"] 2 24.
Definition records_ex : list (auto_op nat) :=
  [OpRecord "u" "web_search" 0 (Hour + 5)%Z (Hour + 5)%Z;
   OpRecord "u" "web_search" 0 (Hour + 6)%Z (Hour + 6)%Z].
Definition calls_ex : list (auto_op nat) :=
  [OpShould "u" "web_search" 0 (Hour + 7)%Z (Hour + 7)%Z;
   OpShould "u" "web_search" 0 (Hour + 8)%Z (Hour + 8)%Z].
Definition auto_ex : AutoApprover := (auto_run (NewAutoApprover auto_cfg_ex) records_ex).2.

Lemma auto_hourly_cap_witness :
  (Z.of_nat (countb (by_user "u") (auto_run auto_ex calls_ex).1) <= 1)%Z /\
  length (auto_run auto_ex calls_ex).1 = 1.
Proof.
  split; [|by vm_compute].
  apply (auto_hourly_cap auto_cfg_ex records_ex calls_ex 1 "u"). repeat constructor.
Defined.

Lemma auto_needs_manual_approvals_witness :
  "web_search" ∈ aac_AllowedTools (aa_config auto_ex).
Proof.
  apply (auto_needs_manual_approvals auto_cfg_ex records_ex "u" "web_search" 0
           (Hour + 7)%Z (Hour + 7)%Z).
  vm_compute. reflexivity.
Defined.

(** Three overlapping calls against a cap of one. *)
Lemma auto_cap_race_witness :
  exists a', rtc (call_step "u" (approvalKey "u" "web_search" 0) (Hour + 7)%Z)
    (auto_ex, replicate 3 AtCap) (a', replicate 3 Approved) /\
    (Z.of_nat 3 <= counter a' "u" - counter (checkCap auto_ex "u" (Hour + 7)%Z).2 "u")%Z.
Proof.
  apply (auto_cap_race auto_ex "u" (approvalKey "u" "web_search" 0) (Hour + 7)%Z 3);
    [lia|by vm_compute|by vm_compute].
Defined.
