(* ===== verification/LLM.v ===== *)
(** * Messages, tools and the tool registry

    [src/internal/llm/provider.go]: the provider-agnostic conversation data, and
    [src/internal/tools/tools.go]: the tool interface, the registry and the tool
    definitions sent to the model.  Parameters, schemas and metadata
    ([map[string]any]) are values of any type [P]; a tool acts on a world [W]. *)

From S2P Require Import Prelude Security.

(** ** Conversation data *)

Definition LRole : Type := string.
Definition RoleUser : LRole := "user".
Definition RoleAssistant : LRole := "assistant".

Section data.
Context {P : Type} `{GoMap P}.

Record ContentBlock := mkBlock {
  cb_Type : string;
  cb_Text : string;
  cb_ID : string;
  cb_Name : string;
  cb_Input : P;
  cb_ToolUseID : string;
  cb_IsError : bool;
}.

Definition TextBlock (text : string) : ContentBlock :=
  mkBlock "text" text "" "" nil_map "" false.
Definition ToolUseBlock (id name : string) (input : P) : ContentBlock :=
  mkBlock "tool_use" "" id name input "" false.
Definition ToolResultBlock (toolUseID content : string) (isError : bool) : ContentBlock :=
  mkBlock "tool_result" content "" "" nil_map toolUseID isError.

Record Message := mkMessage {
  msg_Role : LRole;
  msg_Content : string;
  msg_ContentBlocks : list ContentBlock;
}.

(** The concatenated text blocks, or the plain content without blocks. *)
Definition TextContent (m : Message) : string :=
  match msg_ContentBlocks m with
  | [] => msg_Content m
  | bs => fold_left (fun s b => if String.eqb (cb_Type b) "text" then s +:+ cb_Text b else s) bs ""
  end.

Record ToolDefinition := mkToolDef {
  td_Name : string;
  td_Description : string;
  td_InputSchema : P;
}.

Record Request := mkRequest {
  rq_SystemPrompt : string;
  rq_Messages : list Message;
  rq_MaxTokens : Z;
  rq_Tools : list ToolDefinition;
}.

Record Usage := mkUsage { InputTokens : Z; OutputTokens : Z }.

Record LLMResponse := mkLLMResponse {
  rs_Content : string;
  rs_ContentBlocks : list ContentBlock;
  rs_Usage : Usage;
  rs_StopReason : string;
}.

Definition HasToolUse (r : LLMResponse) : bool := String.eqb (rs_StopReason r) "tool_use".

Definition is_tool_use (b : ContentBlock) : bool := String.eqb (cb_Type b) "tool_use".

Definition ToolUseBlocks (r : LLMResponse) : list ContentBlock :=
  List.filter is_tool_use (rs_ContentBlocks r).
End data.

Arguments ContentBlock P : clear implicits.
Arguments Message P : clear implicits.
Arguments ToolDefinition P : clear implicits.
Arguments Request P : clear implicits.
Arguments LLMResponse P : clear implicits.

(** ** Tools *)

Section tools.
Context {F P W : Type}.

Record ToolResult := mkToolResult {
  tr_Output : string;
  tr_Metadata : P;
  tr_Success : bool;
}.

(** The [Tool] interface; [tool_Execute] receives the user the context carries
    ([UserIDFromContext], [""] when none is set), [tool_Validate] may look at the world. *)
Record Tool := mkTool {
  tool_Name : string;
  tool_Description : string;
  tool_InputSchema : P;
  tool_RequiredAction : Action;
  tool_EstimateCost : P -> F;
  tool_Validate : P -> W -> option error;
  tool_Execute : string -> P -> W -> result error ToolResult * W;
}.

Definition MaxOutputBytes : nat := N.to_nat (2 ^ 20).

(** [TruncateOutput]; [None] where the code would slice with a negative bound. *)
Definition TruncateOutput (s : string) (maxBytes : nat) : string :=
  if (String.length s <=? maxBytes)%nat then s
  else
    let suffix := String (Ascii.ascii_of_nat 10) "... [output truncated]" in
    if (maxBytes <=? String.length suffix)%nat then str_take maxBytes s
    else str_take (maxBytes - String.length suffix) s +:+ suffix.

(** ** The registry *)

Record Registry := mkRegistry { reg_tools : gmap string Tool }.

Definition NewRegistry : Registry := mkRegistry ∅.

(** [None]: the code panics on a duplicate name. *)
Definition Register (r : Registry) (t : Tool) : option Registry :=
  match reg_tools r !! tool_Name t with
  | Some _ => None
  | None => Some (mkRegistry (<[tool_Name t := t]> (reg_tools r)))
  end.

(** [Registry.Get]. *)
Definition registry_Get (r : Registry) (name : string) : option Tool := reg_tools r !! name.

Context `{!MapRange string Tool}.

(** [Registry.List]. *)
Definition registry_List (r : Registry) : list string := (map_range (reg_tools r)).*1.

(** [Registry.All]. *)
Definition registry_All (r : Registry) : list Tool := (map_range (reg_tools r)).*2.

Definition tool_def (t : Tool) : ToolDefinition P :=
  mkToolDef (tool_Name t) (tool_Description t) (tool_InputSchema t).

Definition ToLLMDefinitions (reg : Registry) : list (ToolDefinition P) :=
  map tool_def (registry_All reg).

Definition toolCategories : gmap string string := list_to_map [
  ("shell_exec", "core"); ("file_read", "core"); ("file_write", "core"); ("web_fetch", "core");
  ("git_read", "investigation"); ("browser", "investigation"); ("code_exec", "investigation");
  ("infra_lookup", "infra"); ("infra_manage", "infra"); ("infra_exec", "infra");
  ("git_write", "git_write")].

(** The test of [ToLLMDefinitionsForIntent] on one tool. *)
Definition intent_includes (activeCategories : gset string) (t : Tool) : bool :=
  match toolCategories !! tool_Name t with
  | None => true
  | Some cat => String.eqb cat "core" || bool_decide (cat ∈ activeCategories)
  end.

Definition ToLLMDefinitionsForIntent (reg : Registry) (activeCategories : gset string)
    : list (ToolDefinition P) :=
  map tool_def (List.filter (intent_includes activeCategories) (registry_All reg)).
End tools.

Arguments ToolResult P : clear implicits.
Arguments Tool F P W : clear implicits.
Arguments Registry F P W : clear implicits.

(** ** Properties *)

Section registry_properties.
Context {F P W : Type} `{!MapRange string (Tool F P W)}.
Implicit Types (r : Registry F P W) (t : Tool F P W).

Lemma Register_Some r t r' :
  Register r t = Some r' ->
  forall n t', reg_tools r' !! n = Some t' <-> reg_tools r !! n = Some t' \/ (t' = t /\ n = tool_Name t).
Proof.
  unfold Register. intros E n t'. destruct (reg_tools r !! tool_Name t) eqn:Ht; [done|].
  injection E as <-. simpl. rewrite lookup_insert_Some. split.
  - intros [[<- <-]|[? ?]]; auto.
  - intros [Hn|[-> ->]]; [|by left]. right. split; [congruence|done].
Qed.

(** Registering tools one after the other, as start-up does. *)
Fixpoint register_all r (ts : list (Tool F P W)) : option (Registry F P W) :=
  match ts with
  | [] => Some r
  | t :: ts => match Register r t with None => None | Some r' => register_all r' ts end
  end.

Lemma register_all_Some ts r r' :
  register_all r ts = Some r' ->
  forall n t, reg_tools r' !! n = Some t <-> reg_tools r !! n = Some t \/ (t ∈ ts /\ n = tool_Name t).
Proof.
  revert r. induction ts as [|t0 ts IH]; intros r E n t; simpl in E.
  - injection E as <-. rewrite elem_of_nil. tauto.
  - destruct (Register r t0) as [r1|] eqn:E1; [|done].
    rewrite (IH r1 E), (Register_Some r t0 r1 E1), elem_of_cons.
    split; [intros [[?|[-> ->]]|[? ?]]|intros [?|[[->|?] ?]]]; auto.
Qed.

Lemma elem_of_registry_All r t : t ∈ registry_All r <-> exists n, reg_tools r !! n = Some t.
Proof.
  unfold registry_All. rewrite list_elem_of_fmap. split.
  - intros ([n t'] & -> & Hin). exists n. by apply elem_of_map_range.
  - intros (n & Hn). exists (n, t). split; [done|]. by apply elem_of_map_range.
Qed.

(** What the registry sends to the model.  A registry built by registering
    tools without a panic holds exactly those tools, each under its own name; the
    definitions sent list each of them once, and the intent filter only drops
    tools of a known, inactive category: a core tool and a tool without a
    category are always sent. *)
Theorem registry_definitions_spec ts r active :
  register_all (NewRegistry) ts = Some r ->
  NoDup (map td_Name (ToLLMDefinitions r)) /\
  (forall d, d ∈ ToLLMDefinitions r <-> exists t, t ∈ ts /\ d = tool_def t) /\
  (forall t, t ∈ ts ->
     tool_def t ∈ ToLLMDefinitionsForIntent r active \/
     exists cat, toolCategories !! tool_Name t = Some cat /\ cat <> "core" /\ cat ∉ active) /\
  (forall d, d ∈ ToLLMDefinitionsForIntent r active -> d ∈ ToLLMDefinitions r).
Proof.
  intros E. pose proof (register_all_Some ts (NewRegistry) r E) as Hr.
  assert (forall t, t ∈ registry_All r <-> t ∈ ts) as Hall.
  { intros t. rewrite elem_of_registry_All. split.
    - intros (n & [Hn|[Hn _]]%Hr); [|done]. simpl in Hn. by rewrite lookup_empty in Hn.
    - intros Ht. exists (tool_Name t). apply Hr. by right. }
  split; [|split; [|split]].
  - unfold ToLLMDefinitions, registry_All. rewrite map_map. simpl.
    rewrite map_map. erewrite (map_ext_in _ fst); [apply NoDup_fst_map_range|].
    intros [n t] Hin%list_elem_of_In. apply elem_of_map_range, Hr in Hin as [Hn|[_ ->]]; [|done].
    simpl in Hn. by rewrite lookup_empty in Hn.
  - intros d. unfold ToLLMDefinitions. rewrite list_elem_of_In, in_map_iff.
    split; intros (t & H1 & H2); exists t; (split; [|done]) || idtac.
    + rewrite <-Hall. by apply list_elem_of_In.
    + split; [done|]. apply list_elem_of_In. by rewrite Hall.
  - intros t Ht. destruct (intent_includes active t) eqn:Hi.
    + left. unfold ToLLMDefinitionsForIntent. apply list_elem_of_In, in_map, filter_In.
      split; [|done]. apply list_elem_of_In. by apply Hall.
    + right. unfold intent_includes in Hi. destruct (toolCategories !! _) as [cat|]; [|done].
      exists cat. apply orb_false_iff in Hi as [Hc Ha]. apply String.eqb_neq in Hc.
      by apply bool_decide_eq_false in Ha.
  - intros d Hd%list_elem_of_In. apply in_map_iff in Hd as (t & <- & [Ht _]%filter_In).
    by apply list_elem_of_In, in_map.
Qed.
End registry_properties.

(** ** Witnesses *)

Definition tool_ex (name : string) : Tool Q nat nat :=
  mkTool name "" 0 (mkAction "read" RiskLow) (fun _ => 0%Q) (fun _ _ => None)
    (fun _ p w => (Ok (mkToolResult "done" 0 true), S w)).

Lemma registry_definitions_spec_witness :
  exists r, register_all (NewRegistry) [tool_ex "shell_exec"; tool_ex "infra_exec"] = Some r /\
    NoDup (map td_Name (ToLLMDefinitions r)) /\
    map td_Name (ToLLMDefinitionsForIntent r ∅) = ["shell_exec"].
Proof.
  eexists. split; [reflexivity|]. split; [|vm_compute; reflexivity].
  eapply (registry_definitions_spec [tool_ex "shell_exec"; tool_ex "infra_exec"] _ ∅).
  reflexivity.
Defined.
