(* ===== verification/Providers.v ===== *)
(** * Model providers

    [src/internal/llm/fallback.go] and [streaming.go]: the fallback chain, streams, and the
    request over HTTP the three clients share.  HTTP and JSON of the wire types are
    parameters; logging is left out. *)

From S2P Require Import Prelude Security LLM.

Section providers.
Context {P W : Type} `{GoMap P}.

(** The interface [Provider]. *)
Record Provider := mkProvider {
  pv_Name : string;
  pv_SendMessage : Request P -> W -> result error (LLMResponse P) * W;
}.

(** ** The fallback chain *)

(** The loop of [FallbackProvider.SendMessage]. *)
Fixpoint try_providers (ps : list Provider) (req : Request P) (lastErr : option error)
    : st W (result (option error) (LLMResponse P)) :=
  match ps with
  | [] => mret (Err lastErr)
  | p :: ps =>
      r ← (pv_SendMessage p req : st W (result error (LLMResponse P)));
      match r with
      | Ok resp => mret (Ok resp)
      | Err err => try_providers ps req (Some err)
      end
  end.

Definition fallback_SendMessage (ps : list Provider) (req : Request P) : st W (result error (LLMResponse P)) :=
  r ← try_providers ps req None;
  mret (match r with
        | Ok resp => Ok resp
        | Err lastErr => Err (match lastErr with
                              | Some e => Wrap "all providers failed, last error" e
                              | None => Errorf "all providers failed, last error"
                              end)
        end).

(** [NewFallbackProvider]; [None] is the panic without a provider. *)
Definition NewFallbackProvider (ps : list Provider) : option Provider :=
  match ps with
  | [] => None
  | p :: _ => Some (mkProvider (pv_Name p +:+ "+fallback") (fallback_SendMessage ps))
  end.

(** ** Streaming *)

Record StreamEvent := mkStreamEvent {
  se_Type : string;
  se_Content : string;
  se_ToolUse : option (ContentBlock P);
  se_Error : option error;
}.

Definition text_event (s : string) : StreamEvent := mkStreamEvent "text" s None None.
Definition tool_event (b : ContentBlock P) : StreamEvent := mkStreamEvent "tool_use_start" "" (Some b) None.
Definition done_event : StreamEvent := mkStreamEvent "done" "" None None.
Definition error_event (e : error) : StreamEvent := mkStreamEvent "error" "" None (Some e).

(** [NonStreamingAdapter.StreamMessage]: the events sent and the error returned. *)
Definition adapter_events (r : result error (LLMResponse P)) : list StreamEvent * option error :=
  match r with
  | Err err => ([error_event err], Some err)
  | Ok resp =>
      ((if String.eqb (rs_Content resp) "" then [] else [text_event (rs_Content resp)]) ++
       map tool_event (ToolUseBlocks resp) ++ [done_event], None)
  end.

Definition adapter_StreamMessage (p : Provider) (req : Request P) : st W (list StreamEvent * option error) :=
  r ← (pv_SendMessage p req : st W (result error (LLMResponse P)));
  mret (adapter_events r).

(** ** Requests over HTTP *)

(** [http_post]: the status and what reading the body gives. *)
Class LlmHttp := {
  post_invalid : string -> option error;
  http_post : string -> list (string * string) -> string -> W -> result error (Z * result error string) * W;
}.

(** [json.Marshal] of a wire type. *)
Class Encode (A : Type) := { encode : A -> result error string }.

Context `{!LlmHttp}.

(** What the three [SendMessage]s do with a built request. *)
Definition send {R A} `{!Encode R} `{!Decode A} (url : string) (headers : list (string * string))
    (toResponse : A -> LLMResponse P) (r : R) : st W (result error (LLMResponse P)) :=
  match encode r with
  | Err err => mret (Err (Wrap "marshaling request" err))
  | Ok body =>
      match post_invalid url with
      | Some err => mret (Err (Wrap "creating HTTP request" err))
      | None =>
          resp ← (http_post url headers body : st W (result error (Z * result error string)));
          mret (match resp with
                | Err err => Err (Wrap "sending request" err)
                | Ok (_, Err err) => Err (Wrap "reading response body" err)
                | Ok (status, Ok respBody) =>
                    if negb (status =? 200)%Z then Err (Errorf "API error")
                    else match json_unmarshal respBody with
                         | Err err => Err (Wrap "parsing response" err)
                         | Ok apiResp => Ok (toResponse apiResp)
                         end
                end)
      end
  end.

Definition maxTokensOr (n : Z) : Z := if (n <=? 0)%Z then 4096%Z else n.
End providers.

Arguments Provider P W : clear implicits.
Arguments StreamEvent P : clear implicits.
Arguments LlmHttp W : clear implicits.
