(* ===== verification/Anthropic.v ===== *)
(** * The Anthropic client

    [src/internal/llm/anthropic/anthropic.go]: how a conversation becomes a request of the
    API, its answer a response, and its event stream a stream. *)

From S2P Require Import Prelude Security LLM Providers.

Section anthropic.
Context {P W : Type} `{GoMap P}.

Record apiContentBlock := mkApiBlock {
  ab_Type : string;
  ab_Text : string;
  ab_ID : string;
  ab_Name : string;
  ab_Input : P;
  ab_ToolUseID : string;
  ab_Content : string;
  ab_IsError : bool;
}.

(** Content is a text or a list of blocks. *)
Inductive apiContent := ContentText (s : string) | ContentList (l : list apiContentBlock).
Record apiMessage := mkApiMessage { am_Role : string; am_Content : apiContent }.
Record apiRequest := mkApiRequest {
  ar_Model : string;
  ar_System : string;
  ar_Messages : list apiMessage;
  ar_MaxTokens : Z;
  ar_Tools : list (ToolDefinition P);
  ar_Stream : bool;
}.
Record apiResponse := mkApiResponse {
  ap_Content : list apiContentBlock;
  ap_StopReason : string;
  ap_Usage : Usage;
}.

Definition toAPIContentBlock (b : ContentBlock P) : apiContentBlock :=
  let t := cb_Type b in
  if String.eqb t "text" then mkApiBlock t (cb_Text b) "" "" nil_map "" "" false
  else if String.eqb t "tool_use" then mkApiBlock t "" (cb_ID b) (cb_Name b) (cb_Input b) "" "" false
  else if String.eqb t "tool_result" then mkApiBlock t "" "" "" nil_map (cb_ToolUseID b) (cb_Text b) (cb_IsError b)
  else mkApiBlock t "" "" "" nil_map "" "" false.

Definition to_message (m : Message P) : apiMessage :=
  mkApiMessage (msg_Role m)
    (match msg_ContentBlocks m with
     | [] => ContentText (msg_Content m)
     | bs => ContentList (map toAPIContentBlock bs)
     end).

Definition buildRequest (model : string) (req : Request P) : apiRequest :=
  mkApiRequest model (rq_SystemPrompt req) (map to_message (rq_Messages req)) (maxTokensOr (rq_MaxTokens req))
    (rq_Tools req) false.

Definition of_block (b : apiContentBlock) : list (ContentBlock P) :=
  if String.eqb (ab_Type b) "text" then [TextBlock (ab_Text b)]
  else if String.eqb (ab_Type b) "tool_use" then [ToolUseBlock (ab_ID b) (ab_Name b) (ab_Input b)]
  else [].

Definition toResponse (r : apiResponse) : LLMResponse P :=
  mkLLMResponse
    (fold_left (fun s b => if String.eqb (ab_Type b) "text" then s +:+ ab_Text b else s) (ap_Content r) "")
    (concat (map of_block (ap_Content r))) (ap_Usage r) (ap_StopReason r).

Definition headers (apiKey : string) : list (string * string) :=
  [("Content-Type", "application/json"); ("X-API-Key", apiKey); ("Anthropic-Version", "2023-06-01")].

Context `{!LlmHttp W} `{!Encode apiRequest} `{!Decode apiResponse}.

Definition SendMessage (apiKey model baseURL : string) (req : Request P) : st W (result error (LLMResponse P)) :=
  send (baseURL +:+ "/v1/messages") (headers apiKey) toResponse (buildRequest model req).

Definition NewClient (apiKey model baseURL : string) : Provider P W :=
  mkProvider "anthropic" (SendMessage apiKey model baseURL).

(** ** The event stream *)

Record apiStreamEvent := mkApiStreamEvent {
  ae_Type : string;
  ae_ContentBlock : option apiContentBlock;
  ae_Delta : option (string * string);
}.

Context `{!Decode apiStreamEvent}.

(** What an event sends, and whether it ends the stream, with which error. *)
Definition on_event (e : apiStreamEvent) : list (StreamEvent P) * option (option error) :=
  if String.eqb (ae_Type e) "content_block_start" then
    match ae_ContentBlock e with
    | Some b => if String.eqb (ab_Type b) "tool_use"
                then ([tool_event (mkBlock "tool_use" "" (ab_ID b) (ab_Name b) nil_map "" false)], None)
                else ([], None)
    | None => ([], None)
    end
  else if String.eqb (ae_Type e) "content_block_delta" then
    match ae_Delta e with
    | Some (type, text) => if String.eqb type "text_delta" then ([text_event text], None) else ([], None)
    | None => ([], None)
    end
  else if String.eqb (ae_Type e) "message_stop" then ([done_event], Some None)
  else if String.eqb (ae_Type e) "error"
  then let err := Errorf "stream error" in ([error_event err], Some (Some err))
  else ([], None).

Definition stream_end (scanErr : option error) : list (StreamEvent P) * option error :=
  match scanErr with
  | Some err => ([error_event err], Some err)
  | None => ([done_event], None)
  end.

(** The loop over the lines, each with the error the scanner holds when it is scanned;
    [scanErr] is the one after the last. *)
Fixpoint stream_lines (lines : list (string * option error)) (scanErr : option error)
    : list (StreamEvent P) * option error :=
  match lines with
  | [] => stream_end scanErr
  | (line, held) :: lines =>
      if negb (has_prefix line "data: ") then stream_lines lines scanErr
      else
        let data := String.substring 6 (String.length line - 6) line in
        if String.eqb data "[DONE]" then stream_end held
        else
          match json_unmarshal data with
          | Err _ => stream_lines lines scanErr
          | Ok e =>
              match on_event e with
              | (out, Some err) => (out, err)
              | (out, None) => let '(more, err) := stream_lines lines scanErr in (out ++ more, err)
              end
          end
  end.

(** [StreamMessage]; [stream_post] is the status and the scan of the body. *)
Class LlmStream := {
  stream_post : string -> list (string * string) -> string -> W ->
    result error (Z * list (string * option error) * option error) * W;
}.
Context `{!LlmStream}.

Definition streaming (r : apiRequest) : apiRequest :=
  mkApiRequest (ar_Model r) (ar_System r) (ar_Messages r) (ar_MaxTokens r) (ar_Tools r) true.

Definition stream_error (msg : string) (err : error) : list (StreamEvent P) * option error :=
  ([error_event (Wrap msg err)], Some err).

Definition StreamMessage (apiKey model baseURL : string) (req : Request P)
    : st W (list (StreamEvent P) * option error) :=
  match encode (streaming (buildRequest model req)) with
  | Err err => mret (stream_error "marshaling request" err)
  | Ok body =>
      let url := baseURL +:+ "/v1/messages" in
      match post_invalid url with
      | Some err => mret (stream_error "creating HTTP request" err)
      | None =>
          resp ← (stream_post url (headers apiKey) body
                    : st W (result error (Z * list (string * option error) * option error)));
          mret (match resp with
                | Err err => stream_error "sending request" err
                | Ok (status, lines, scanErr) =>
                    if negb (status =? 200)%Z
                    then let err := Errorf "API error" in ([error_event err], Some err)
                    else stream_lines lines scanErr
                end)
      end
  end.
End anthropic.
