(* ===== verification/OpenAI.v ===== *)
(** * The OpenAI client, also used for Ollama

    [src/internal/llm/openai/openai.go]. *)

From S2P Require Import Prelude Security LLM Providers.

Section openai.
Context {P W : Type} `{GoMap P} `{!GoJson P} `{!Decode P}.

Record apiToolCall := mkToolCall { tc_ID : string; tc_Type : string; tc_Name : string; tc_Arguments : string }.
Record apiMessage := mkApiMessage {
  am_Role : string;
  am_Content : string;
  am_ToolCalls : list apiToolCall;
  am_ToolCallID : string;
}.
Record apiRequest := mkApiRequest {
  ar_Model : string;
  ar_Messages : list apiMessage;
  ar_MaxTokens : Z;
  ar_Tools : list (ToolDefinition P);
}.
Record apiChoice := mkChoice { ch_Content : string; ch_ToolCalls : list apiToolCall; ch_FinishReason : string }.
Record apiResponse := mkApiResponse { ap_Choices : list apiChoice; ap_Usage : Usage }.

(** The texts of the blocks, one after the other. *)
Definition texts (bs : list (ContentBlock P)) : string :=
  fold_left (fun s b => if String.eqb (cb_Type b) "text" then s +:+ cb_Text b else s) bs "".

Definition to_call (b : ContentBlock P) : list apiToolCall :=
  if String.eqb (cb_Type b) "tool_use"
  then [mkToolCall (cb_ID b) "function" (cb_Name b) (json_marshal (cb_Input b))] else [].

Definition to_tool_message (b : ContentBlock P) : list apiMessage :=
  if String.eqb (cb_Type b) "tool_result" then [mkApiMessage "tool" (cb_Text b) [] (cb_ToolUseID b)] else [].

Definition convertStructuredMessage (m : Message P) : list apiMessage :=
  let bs := msg_ContentBlocks m in
  if String.eqb (msg_Role m) RoleAssistant
  then [mkApiMessage "assistant" (texts bs) (concat (map to_call bs)) ""]
  else (if String.eqb (texts bs) "" then [] else [mkApiMessage "user" (texts bs) [] ""]) ++
       concat (map to_tool_message bs).

Definition to_messages (m : Message P) : list apiMessage :=
  match msg_ContentBlocks m with
  | [] => [mkApiMessage (msg_Role m) (msg_Content m) [] ""]
  | _ => convertStructuredMessage m
  end.

Definition buildRequest (model : string) (req : Request P) : apiRequest :=
  mkApiRequest model
    ((if String.eqb (rq_SystemPrompt req) "" then [] else [mkApiMessage "system" (rq_SystemPrompt req) [] ""]) ++
     concat (map to_messages (rq_Messages req)))
    (maxTokensOr (rq_MaxTokens req)) (rq_Tools req).

Definition normalizeFinishReason (reason : string) : string :=
  if String.eqb reason "stop" then "end_turn"
  else if String.eqb reason "tool_calls" then "tool_use"
  else if String.eqb reason "length" then "max_tokens"
  else reason.

Definition of_call (tc : apiToolCall) : ContentBlock P :=
  ToolUseBlock (tc_ID tc) (tc_Name tc)
    (match json_unmarshal (tc_Arguments tc) with Ok input => input | Err _ => nil_map end).

Definition toResponse (r : apiResponse) : LLMResponse P :=
  match ap_Choices r with
  | [] => mkLLMResponse "" [] (ap_Usage r) ""
  | choice :: _ =>
      mkLLMResponse (ch_Content choice)
        ((if String.eqb (ch_Content choice) "" then [] else [TextBlock (ch_Content choice)]) ++
         map of_call (ch_ToolCalls choice))
        (ap_Usage r) (normalizeFinishReason (ch_FinishReason choice))
  end.

Context `{!LlmHttp W} `{!Encode apiRequest} `{!Decode apiResponse}.

Definition headers (apiKey : string) : list (string * string) :=
  ("Content-Type", "application/json") ::
  (if String.eqb apiKey "" then [] else [("Authorization", "Bearer " +:+ apiKey)]).

Definition SendMessage (apiKey model baseURL : string) (req : Request P) : st W (result error (LLMResponse P)) :=
  send (baseURL +:+ "/v1/chat/completions") (headers apiKey) toResponse (buildRequest model req).

Definition NewClient (name apiKey model baseURL : string) : Provider P W :=
  mkProvider name (SendMessage apiKey model baseURL).
End openai.
