(* ===== verification/Gemini.v ===== *)
(** * The Gemini client

    [src/internal/llm/gemini/gemini.go]. *)

From S2P Require Import Prelude Security LLM Providers.

Section gemini.
Context {P W : Type} `{GoMap P} `{!Render}.

(** [response_content] is the map with the field [content] that an answer is put in. *)
Inductive apiPart :=
  | PartText (s : string)
  | PartCall (name : string) (args : P)
  | PartResponse (name : string) (content : string).

Record apiContent := mkContent { ct_Role : string; ct_Parts : list apiPart }.
Record apiRequest := mkApiRequest {
  ar_Contents : list apiContent;
  ar_SystemInstruction : option apiContent;
  ar_Tools : list (list (ToolDefinition P));
  ar_MaxOutputTokens : Z;
}.

(** A part of an answer has a text, a call, or both. *)
Record answerPart := mkAnswerPart { an_Text : string; an_Call : option (string * P) }.
Record apiCandidate := mkCandidate { cd_Parts : list answerPart; cd_FinishReason : string }.
Record apiResponse := mkApiResponse { ap_Candidates : list apiCandidate; ap_Usage : option Usage }.

Definition buildToolIDMap (messages : list (Message P)) : gmap string string :=
  fold_left (fun m msg =>
    if negb (String.eqb (msg_Role msg) RoleAssistant) then m
    else fold_left (fun m b =>
      if String.eqb (cb_Type b) "tool_use" && negb (String.eqb (cb_ID b) "")
      then <[cb_ID b := cb_Name b]> m else m) (msg_ContentBlocks msg) m) messages ∅.

Definition to_part (idToName : gmap string string) (b : ContentBlock P) : list apiPart :=
  if String.eqb (cb_Type b) "text" then [PartText (cb_Text b)]
  else if String.eqb (cb_Type b) "tool_use" then [PartCall (cb_Name b) (cb_Input b)]
  else if String.eqb (cb_Type b) "tool_result"
  then [PartResponse (default "" (idToName !! cb_ToolUseID b)) (cb_Text b)]
  else [].

Definition toGeminiContent (m : Message P) (idToName : gmap string string) : list apiContent :=
  let role := if String.eqb (msg_Role m) RoleAssistant then "model" else "user" in
  match msg_ContentBlocks m with
  | [] => [mkContent role [PartText (msg_Content m)]]
  | bs => [mkContent role (concat (map (to_part idToName) bs))]
  end.

Definition buildRequest (req : Request P) : apiRequest :=
  let idToName := buildToolIDMap (rq_Messages req) in
  mkApiRequest (concat (map (fun m => toGeminiContent m idToName) (rq_Messages req)))
    (if String.eqb (rq_SystemPrompt req) "" then None else Some (mkContent "" [PartText (rq_SystemPrompt req)]))
    (match rq_Tools req with [] => [] | ts => [ts] end) (maxTokensOr (rq_MaxTokens req)).

Definition call_id (callIdx : Z) : string := "gemini-call-" +:+ itoa callIdx.

(** The blocks of the parts, calls numbered from [callIdx]. *)
Fixpoint part_blocks (parts : list answerPart) (callIdx : Z) : list (ContentBlock P) :=
  match parts with
  | [] => []
  | p :: parts =>
      (if String.eqb (an_Text p) "" then [] else [TextBlock (an_Text p)]) ++
      match an_Call p with
      | Some (name, args) => ToolUseBlock (call_id callIdx) name args :: part_blocks parts (callIdx + 1)
      | None => part_blocks parts callIdx
      end
  end.

Definition normalizeFinishReason (reason : string) (hasToolCalls : bool) : string :=
  if hasToolCalls then "tool_use"
  else if String.eqb reason "STOP" then "end_turn"
  else if String.eqb reason "MAX_TOKENS" then "max_tokens"
  else reason.

Definition extractUsage (r : apiResponse) : Usage := default (mkUsage 0 0) (ap_Usage r).

Definition toResponse (r : apiResponse) : LLMResponse P :=
  match ap_Candidates r with
  | [] => mkLLMResponse "" [] (extractUsage r) ""
  | c :: _ =>
      mkLLMResponse (fold_left (fun s p => s +:+ an_Text p) (cd_Parts c) "") (part_blocks (cd_Parts c) 0)
        (extractUsage r)
        (normalizeFinishReason (cd_FinishReason c) (existsb (fun p => bool_decide (is_Some (an_Call p))) (cd_Parts c)))
  end.

Context `{!LlmHttp W} `{!Encode apiRequest} `{!Decode apiResponse}.

Definition SendMessage (apiKey model baseURL : string) (req : Request P) : st W (result error (LLMResponse P)) :=
  send (baseURL +:+ "/v1beta/models/" +:+ model +:+ ":generateContent")
    [("Content-Type", "application/json"); ("x-goog-api-key", apiKey)] toResponse (buildRequest req).

Definition NewClient (apiKey model baseURL : string) : Provider P W :=
  mkProvider "gemini" (SendMessage apiKey model baseURL).
End gemini.
