(* ===== verification/ProviderProps.v ===== *)
(** * What the providers promise

    The fallback chain, the end of a stream, and what of a conversation reaches the model. *)

From S2P Require Import Prelude Security LLM Providers Anthropic OpenAI Gemini.

(** ** The fallback chain *)

Section fallback.
Context {P W : Type} `{GoMap P}.
Implicit Types (p : Provider P W) (ps : list (Provider P W)) (req : Request P).

(** Every provider fails, one after the other, the last one with [e]. *)
Inductive all_fail req : list (Provider P W) -> W -> option error -> option error -> W -> Prop :=
  | af_nil w e : all_fail req [] w e e w
  | af_cons p ps w e0 e w1 e1 w2 :
      pv_SendMessage p req w = (Err e, w1) -> all_fail req ps w1 (Some e) e1 w2 ->
      all_fail req (p :: ps) w e0 e1 w2.

(** The fallback chain gives the first success.  Either some provider succeeds after
    all those before it failed, its answer is the answer and the ones after it are not
    asked; or all fail, and the error wraps the last one's. *)
Theorem fallback_first_success ps req w :
  ps <> [] ->
  (exists before p after e w1 w2 resp, ps = before ++ p :: after /\ all_fail req before w None e w1 /\
     pv_SendMessage p req w1 = (Ok resp, w2) /\ fallback_SendMessage ps req w = (Ok resp, w2)) \/
  (exists e w1, all_fail req ps w None (Some e) w1 /\
     fallback_SendMessage ps req w = (Err (Wrap "all providers failed, last error" e), w1)).
Proof.
  intros Hne. unfold fallback_SendMessage. rewrite st_bind_run.
  assert (forall e0 w, (exists before p after e w1 w2 resp, ps = before ++ p :: after /\
      all_fail req before w e0 e w1 /\ pv_SendMessage p req w1 = (Ok resp, w2) /\
      try_providers ps req e0 w = (Ok resp, w2)) \/
    (exists e w1, all_fail req ps w e0 e w1 /\ try_providers ps req e0 w = (Err e, w1) /\
       (ps <> [] -> exists e', e = Some e'))) as Htry.
  { clear. induction ps as [|p ps IH]; intros e0 w.
    - right. exists e0, w. split_and!; [constructor|done|done].
    - simpl. rewrite st_bind_run. destruct (pv_SendMessage p req w) as [[resp|e] w1] eqn:Ep; simpl.
      + left. exists [], p, ps, e0, w, w1, resp. split_and!; [done|constructor|done|done].
      + destruct (IH (Some e) w1) as [(bf & q & af & e1 & w2 & w3 & resp & -> & Hf & Hq & ->)|(e1 & w2 & Hf & -> & He)].
        * left. exists (p :: bf), q, af, e1, w2, w3, resp. split_and!; [done| |done|done]. by econstructor.
        * right. exists e1, w2. split_and!; [by econstructor|done|]. intros _.
          destruct ps as [|p' ps]; [inversion Hf; subst; by eexists|by apply He]. }
  destruct (Htry None w) as [(bf & q & af & e1 & w2 & w3 & resp & E & Hf & Hq & Et)|(e1 & w2 & Hf & Et & He)].
  - left. exists bf, q, af, e1, w2, w3, resp. split_and!; [done..|]. by rewrite Et.
  - right. destruct (He Hne) as [e ->]. exists e, w2. split; [done|]. by rewrite Et.
Qed.
End fallback.

(** ** Streams *)

Section streams.
Context {P W : Type} `{GoMap P} `{!LlmHttp W} `{!Encode (Anthropic.apiRequest (P:=P))}.
Context `{!Decode (Anthropic.apiStreamEvent (P:=P))} `{!Anthropic.LlmStream (W:=W)}.

(** Texts and tool calls, then one last event that agrees with the error returned. *)
Definition ends_once (r : list (StreamEvent P) * option error) : Prop :=
  exists body last, r.1 = body ++ [last] /\
    Forall (fun e => se_Type e = "text" \/ se_Type e = "tool_use_start") body /\
    match r.2 with
    | None => last = done_event
    | Some _ => se_Type last = "error" /\ is_Some (se_Error last)
    end.

Lemma ends_once_last last err :
  match err with None => last = done_event | Some _ => se_Type last = "error" /\ is_Some (se_Error last) end ->
  ends_once ([last], err).
Proof. intros Hl. by exists [], last. Qed.

Lemma on_event_shape e :
  match Anthropic.on_event e with
  | (out, Some err) => ends_once (out, err)
  | (out, None) => Forall (fun e => se_Type e = "text" \/ se_Type e = "tool_use_start") out
  end.
Proof.
  unfold Anthropic.on_event. repeat case_match; simplify_eq; try (repeat constructor; auto; done).
  - by apply ends_once_last.
  - apply ends_once_last. split; [done|by eexists].
Qed.

Lemma stream_lines_end lines scanErr : ends_once (Anthropic.stream_lines lines scanErr).
Proof.
  assert (forall e, ends_once (Anthropic.stream_end e)) as He.
  { intros [e|]; unfold Anthropic.stream_end; apply ends_once_last; [|done]. split; [done|by eexists]. }
  induction lines as [|[line held] lines IH]; simpl; [apply He|].
  destruct (negb _); [done|]. destruct (String.eqb _ "[DONE]"); [apply He|].
  destruct (json_unmarshal _) as [e|]; [|done]. pose proof (on_event_shape e) as Ho.
  destruct (Anthropic.on_event e) as [out [err|]]; [done|].
  destruct (Anthropic.stream_lines lines scanErr) as [more err].
  destruct IH as (body & last & E & Hb & Hl). simpl in E, Hl. subst more.
  exists (out ++ body), last. simpl. split_and!; [by rewrite app_assoc| |done].
  by apply Forall_app.
Qed.

(** A stream ends once.  Whatever the server sends, both ways of streaming emit texts
    and tool calls and then exactly one last event: [done] when they return no error, an
    error when they return one. *)
Theorem stream_ends_once apiKey model baseURL req (p : Provider P W) w :
  ends_once (Anthropic.StreamMessage apiKey model baseURL req w).1 /\
  ends_once (adapter_StreamMessage p req w).1.
Proof.
  split.
  - unfold Anthropic.StreamMessage. destruct (encode _) as [body|e].
    2: { apply ends_once_last. split; [done|by eexists]. }
    destruct (post_invalid _) as [e|]; [apply ends_once_last; split; [done|by eexists]|].
    rewrite st_bind_run. simpl. destruct (Anthropic.stream_post _ _ _ w).1 as [[[status lines] scanErr]|e].
    + destruct (negb _); [|apply stream_lines_end]. apply ends_once_last. split; [done|by eexists].
    + apply ends_once_last. split; [done|by eexists].
  - unfold adapter_StreamMessage. rewrite st_bind_run. simpl. unfold adapter_events.
    destruct (pv_SendMessage p req w).1 as [resp|e]; [|apply ends_once_last; split; [done|by eexists]].
    eexists _, _. simpl. split; [by rewrite app_assoc|]. split; [|done]. apply Forall_app. split.
    + destruct (String.eqb _ ""); repeat constructor; auto.
    + apply Forall_map, Forall_forall. intros b _. by right.
Qed.
End streams.

(** ** What the model said is sent back *)

(** Parameters that were parsed marshal to a text that is parsed again, to parameters with
    the same text. *)
Class ParamsLaw (P : Type) `{!GoJson P} `{!Decode P} := {
  params_read_back : forall s (p : P), json_unmarshal s = Ok p ->
    exists p' : P, json_unmarshal (json_marshal p) = Ok p' /\ json_marshal p' = json_marshal p;
}.

Section echo.
Context {P : Type} `{GoMap P} `{!GoJson P} `{!Decode P} `{!ParamsLaw P} `{!Render}.

(** The blocks of an Anthropic answer: a text or a call, nothing else in them. *)
Definition anthropic_block (b : Anthropic.apiContentBlock (P:=P)) : Prop :=
  (exists t, b = Anthropic.mkApiBlock "text" t "" "" nil_map "" "" false) \/
  (exists id n p, b = Anthropic.mkApiBlock "tool_use" "" id n p "" "" false).

Lemma anthropic_echo_block b :
  anthropic_block b -> map Anthropic.toAPIContentBlock (Anthropic.of_block b) = [b].
Proof. by intros [(t & ->)|(id & n & p & ->)]. Qed.

Definition openai_call (tc : OpenAI.apiToolCall) : Prop :=
  OpenAI.tc_Type tc = "function" /\
  exists s (p : P), json_unmarshal s = Ok p /\ OpenAI.tc_Arguments tc = json_marshal p.

Lemma openai_echo_call tc : openai_call tc -> OpenAI.to_call (OpenAI.of_call (P:=P) tc) = [tc].
Proof.
  destruct tc as [id ty n args]. intros [Ht (s & p & Hs & Hp)]. simpl in *. subst.
  destruct (params_read_back s p Hs) as (p' & E & E'). unfold OpenAI.of_call. simpl. by rewrite E, <- E'.
Qed.

Lemma openai_texts_calls tcs acc :
  fold_left (fun s b => if String.eqb (cb_Type b) "text" then s +:+ cb_Text b else s)
    (map (OpenAI.of_call (P:=P)) tcs) acc = acc.
Proof. by induction tcs. Qed.

(** A part of a Gemini answer: a text or a call. *)
Definition gemini_part (p : Gemini.answerPart (P:=P)) : Prop :=
  (Gemini.an_Text p <> "" /\ Gemini.an_Call p = None) \/ (Gemini.an_Text p = "" /\ is_Some (Gemini.an_Call p)).

Definition sent_part (p : Gemini.answerPart (P:=P)) : Gemini.apiPart (P:=P) :=
  match Gemini.an_Call p with
  | Some (n, a) => Gemini.PartCall n a
  | None => Gemini.PartText (Gemini.an_Text p)
  end.

Lemma gemini_echo_parts ids parts i :
  Forall gemini_part parts ->
  concat (map (Gemini.to_part ids) (Gemini.part_blocks parts i)) = map sent_part parts.
Proof.
  intros Hp. revert i. induction Hp as [|p parts Hp _ IH]; intros i; [done|]. simpl. unfold sent_part.
  destruct Hp as [[Ht Hc]|[Ht [[n a] Hc]]]; rewrite Hc.
  - rewrite (proj2 (String.eqb_neq _ _) Ht). simpl. by rewrite IH.
  - rewrite Ht. simpl. by rewrite IH.
Qed.

(** What a model said is sent back to it unchanged.  The blocks of an answer, kept as
    the assistant's message of the conversation, are sent in the next request as they were:
    Anthropic's blocks, OpenAI's text and calls with their arguments, Gemini's parts. *)
Theorem assistant_echo :
  (forall r, Forall anthropic_block (Anthropic.ap_Content r) -> Anthropic.ap_Content r <> [] ->
     Anthropic.to_message (mkMessage RoleAssistant "" (rs_ContentBlocks (Anthropic.toResponse r))) =
     Anthropic.mkApiMessage "assistant" (Anthropic.ContentList (Anthropic.ap_Content r))) /\
  (forall r c cs, OpenAI.ap_Choices r = c :: cs -> Forall openai_call (OpenAI.ch_ToolCalls c) ->
     OpenAI.convertStructuredMessage
       (mkMessage RoleAssistant "" (rs_ContentBlocks (OpenAI.toResponse (P:=P) r))) =
     [OpenAI.mkApiMessage "assistant" (OpenAI.ch_Content c) (OpenAI.ch_ToolCalls c) ""]) /\
  (forall r c cs ids, Gemini.ap_Candidates r = c :: cs -> Forall gemini_part (Gemini.cd_Parts c) ->
     Gemini.cd_Parts c <> [] ->
     Gemini.toGeminiContent (mkMessage RoleAssistant "" (rs_ContentBlocks (Gemini.toResponse r))) ids =
     [Gemini.mkContent "model" (map sent_part (Gemini.cd_Parts c))]).
Proof.
  split_and!.
  - intros r Hb Hne. unfold Anthropic.to_message. simpl.
    assert (map Anthropic.toAPIContentBlock (concat (map Anthropic.of_block (Anthropic.ap_Content r))) =
      Anthropic.ap_Content r) as E.
    { clear Hne. induction Hb as [|b bs Hb _ IH]; [done|]. simpl. by rewrite map_app, anthropic_echo_block, IH. }
    destruct (concat (map Anthropic.of_block (Anthropic.ap_Content r))) eqn:Ec; [by destruct Hne|].
    exact (f_equal (fun l => Anthropic.mkApiMessage "assistant" (Anthropic.ContentList l)) E).
  - intros r c cs Er Hc. unfold OpenAI.convertStructuredMessage, OpenAI.toResponse. rewrite Er. simpl.
    assert (concat (map OpenAI.to_call (map (OpenAI.of_call (P:=P)) (OpenAI.ch_ToolCalls c))) =
      OpenAI.ch_ToolCalls c) as E.
    { induction Hc as [|tc tcs Hc _ IH]; [done|]. cbn [map concat].
      by rewrite openai_echo_call, IH. }
    unfold OpenAI.texts. destruct (String.eqb_spec (OpenAI.ch_Content c) "") as [->|Hne]; simpl.
    + by rewrite openai_texts_calls, E.
    + by rewrite openai_texts_calls, E.
  - intros r c cs ids Er Hp Hne. unfold Gemini.toGeminiContent, Gemini.toResponse. rewrite Er. simpl.
    pose proof (gemini_echo_parts ids _ 0%Z Hp) as E.
    destruct (Gemini.part_blocks _ _) eqn:Eb; [|exact (f_equal (fun l => [Gemini.mkContent "model" l]) E)].
    destruct (Gemini.cd_Parts c); [done|discriminate E].
Qed.

(** A result of Gemini is sent under the wrong name.  Each answer numbers its calls
    from 0 and the identifiers of a conversation are mapped to names together: when two
    answers each call one function, the result of the first call is sent as a result of the
    function of the second. *)
Theorem gemini_misattributes r1 r2 c1 c2 n1 n2 a1 a2 u1 out1 out2 system maxTokens tools :
  Gemini.ap_Candidates r1 = [c1] -> Gemini.cd_Parts c1 = [Gemini.mkAnswerPart "" (Some (n1, a1))] ->
  Gemini.ap_Candidates r2 = [c2] -> Gemini.cd_Parts c2 = [Gemini.mkAnswerPart "" (Some (n2, a2))] ->
  let said r := mkMessage RoleAssistant "" (rs_ContentBlocks (Gemini.toResponse r)) in
  let result text := mkMessage RoleUser "" [ToolResultBlock (Gemini.call_id 0) text false] in
  Gemini.ar_Contents (Gemini.buildRequest (mkRequest system
      [mkMessage RoleUser u1 []; said r1; result out1; said r2; result out2] maxTokens tools)) =
    [Gemini.mkContent "user" [Gemini.PartText u1];
     Gemini.mkContent "model" [Gemini.PartCall n1 a1];
     Gemini.mkContent "user" [Gemini.PartResponse n2 out1];
     Gemini.mkContent "model" [Gemini.PartCall n2 a2];
     Gemini.mkContent "user" [Gemini.PartResponse n2 out2]].
Proof.
  intros E1 P1 E2 P2 said result. subst said result. unfold Gemini.toResponse. rewrite E1, E2. simpl.
  rewrite P1, P2. unfold Gemini.buildRequest, Gemini.buildToolIDMap. simpl.
  by rewrite !lookup_insert_eq.
Qed.
End echo.
