(* ===== verification/ToolValues.v ===== *)
(** * Parameters of the concrete tools

    [map[string]any] as the tools of [src/internal/tools/] read it, the interface of a
    sandbox ([src/internal/sandbox/sandbox.go]) and the answer the sandboxed tools make of
    a result.  The tools are values of the record [Tool] of [LLM]. *)

From S2P Require Import Prelude Text Security LLM.

(** A value of type [any] after [json.Unmarshal], or one a tool puts in its metadata. *)
Inductive GoAny : Type :=
  | AString (s : string)
  | AInt (z : Z)
  | ABool (b : bool)
  | AList (l : list GoAny)
  | AObject (fields : list (string * GoAny))
  | ANull
  | AFloat (x : f64).

(** [map[string]any]; [None] is the nil map. *)
Definition Params : Type := option (gmap string GoAny).
#[export] Instance params_map : GoMap Params := {| nil_map := None; is_nil := fun p => match p with None => true | Some _ => false end |}.

Definition param (params : Params) (key : string) : option GoAny := params ≫= lookup key.
Definition object (fields : list (string * GoAny)) : Params := Some (list_to_map fields).

(** [v, ok := params[key].(string)]. *)
Definition param_string (params : Params) (key : string) : option string :=
  match param params key with Some (AString s) => Some s | _ => None end.

(** [requireString], which every tool has a copy of. *)
Definition requireString (params : Params) (key : string) : result error string :=
  match param params key with
  | None => Err (Errorf "missing required parameter")
  | Some (AString s) =>
      if String.eqb s "" then Err (Errorf "parameter must not be empty") else Ok s
  | Some _ => Err (Errorf "parameter must be a string")
  end.

(** [s, _ := requireString(params, key)]. *)
Definition stringOrEmpty (params : Params) (key : string) : string :=
  match requireString params key with Ok s => s | Err _ => "" end.

(** [x := d; if v, ok := params[key].(string); ok && v != "" { x = v }]. *)
Definition paramOr (params : Params) (key d : string) : string :=
  match param_string params key with Some v => or_text v d | None => d end.

(** The strings of a parameter that is a list. *)
Definition param_strings (params : Params) (key : string) : list string :=
  match param params key with
  | Some (AList l) => omap (fun a => match a with AString s => Some s | _ => None end) l
  | _ => []
  end.

(** [map[string]any{"type": ..., "description": ...}] of an input schema. *)
Definition prop_schema (type description : string) : GoAny :=
  AObject [("type", AString type); ("description", AString description)].
Definition enum_schema (values : list string) (description : string) : GoAny :=
  AObject [("type", AString "string"); ("enum", AList (map AString values)); ("description", AString description)].
Definition object_schema (properties : list (string * GoAny)) (required : list string) : Params :=
  object [("type", AString "object"); ("properties", AObject properties); ("required", AList (map AString required))].

Lemma requireString_Ok params key s :
  requireString params key = Ok s <-> param params key = Some (AString s) /\ s <> "".
Proof.
  unfold requireString. destruct (param params key) as [[s'| | | | | |]|]; try (split; [done|by intros [? _]]).
  destruct (String.eqb_spec s' "") as [->|Hne]; split; [done|intros [[= <-] []]; done|by intros [= <-]|].
  by intros [[= <-] _].
Qed.

Lemma stringOrEmpty_Ok params key s : requireString params key = Ok s -> stringOrEmpty params key = s.
Proof. unfold stringOrEmpty. by intros ->. Qed.

(** ** Sandboxes *)

Record ResourceLimits := mkLimits { rl_MaxCPUSeconds : Z; rl_MaxMemoryMB : Z }.

Record ExecutionRequest := mkExecRequest {
  er_Command : list string;
  er_WorkingDir : string;
  er_Env : gmap string string;
  er_Timeout : Duration;
  er_Limits : ResourceLimits;
}.

Record ExecutionResult := mkExecResult {
  xr_Stdout : string;
  xr_Stderr : string;
  xr_ExitCode : Z;
  xr_Duration : Duration;
}.

(** The interface [Sandbox]: what runs the command is any implementation. *)
Class Sandbox (W : Type) := {
  sandbox_Execute : ExecutionRequest -> W -> result error ExecutionResult * W;
}.

(** The text of a result: standard output, then standard error on a new line. *)
Definition joined_output (r : ExecutionResult) : string :=
  if String.eqb (xr_Stderr r) "" then xr_Stdout r
  else (if String.eqb (xr_Stdout r) "" then "" else xr_Stdout r +:+ newline) +:+ xr_Stderr r.

(** ** Truncated output *)

Lemma TruncateOutput_bound s n : String.length (TruncateOutput s n) <= n.
Proof.
  unfold TruncateOutput. destruct (Nat.leb_spec (String.length s) n) as [Hs|Hs]; [done|].
  set (suffix := String _ _). destruct (Nat.leb_spec n (String.length suffix)) as [Hn|Hn].
  - rewrite str_take_length. lia.
  - rewrite str_app_length, str_take_length. lia.
Qed.

Lemma TruncateOutput_short s n : String.length s <= n -> TruncateOutput s n = s.
Proof. intros Hs. unfold TruncateOutput. by apply Nat.leb_le in Hs as ->. Qed.
