(* ===== verification/Sandbox.v ===== *)
(** * The sandboxes

    [src/internal/sandbox/process.go] and [docker.go]: how a request becomes a process, how
    its output is capped and how its end becomes a result.  What a process does is the
    class [ProcessOS]; logging is left out. *)

From S2P Require Import Prelude Text Security LLM ToolValues.

Definition maxOutputBytes : Z := 1048576.
Definition defaultTimeout : Duration := (30 * Second)%Z.
Definition defaultCPUSeconds : Z := 60.
Definition defaultMemoryMB : Z := 512.

(** ** The capped writer *)

Record limitedWriter := mkWriter { lw_w : string; lw_remaining : Z }.

(** [Write]: the number of bytes reported and the writer after it. *)
Definition lw_Write (lw : limitedWriter) (p : string) : Z * limitedWriter :=
  if (lw_remaining lw <=? 0)%Z then (Z.of_nat (String.length p), lw)
  else
    let p := if (lw_remaining lw <? Z.of_nat (String.length p))%Z
             then str_take (Z.to_nat (lw_remaining lw)) p else p in
    let n := Z.of_nat (String.length p) in
    (n, mkWriter (lw_w lw +:+ p) (lw_remaining lw - n)).

(** [io.Copy] of the chunks a pipe yields: it stops with [io.ErrShortWrite] at the first
    write that reports less than it was given. *)
Fixpoint io_Copy (lw : limitedWriter) (chunks : list string) : option error * limitedWriter :=
  match chunks with
  | [] => (None, lw)
  | p :: chunks =>
      let '(n, lw) := lw_Write lw p in
      if (n =? Z.of_nat (String.length p))%Z then io_Copy lw chunks
      else (Some (Errorf "short write"), lw)
  end.

(** ** Processes *)

(** [exec.Cmd]: [cmd_Env] is [None] when the environment is inherited, [cmd_timeout] the
    time after which its context kills it. *)
Record Cmd := mkCmd {
  cmd_Path : string;
  cmd_Args : list string;
  cmd_Dir : string;
  cmd_Env : option (list string);
  cmd_Setpgid : bool;
  cmd_timeout : Duration;
}.

(** The end of a process: a status other than 0, or it could not be run. *)
Inductive process_error := ExitError (code : Z) | RunFailed (err : error).

(** What a run of a process yields: the chunks read from its two pipes, its end, whether
    its context was done, and how long it took. *)
Record process_run := mkRun {
  pr_stdout : list string;
  pr_stderr : list string;
  pr_end : option process_error;
  pr_ctx_done : bool;
  pr_duration : Duration;
}.

Class ProcessOS (W : Type) := {
  os_MkdirTemp : W -> result error string * W;
  os_RemoveAll : string -> W -> unit * W;
  os_Run : Cmd -> W -> process_run * W;
  rand_hex : W -> result error string * W;
}.

(** What [cmd.Run] returns, with the two buffers: the error of a copy counts when the
    process ended well. *)
Definition run_buffers (r : process_run) : option process_error * string * string :=
  let '(e1, out) := io_Copy (mkWriter "" maxOutputBytes) (pr_stdout r) in
  let '(e2, err) := io_Copy (mkWriter "" maxOutputBytes) (pr_stderr r) in
  (match pr_end r, e1, e2 with
   | Some e, _, _ => Some e
   | None, Some e, _ => Some (RunFailed e)
   | None, None, Some e => Some (RunFailed e)
   | None, None, None => None
   end, lw_w out, lw_w err).

(** The last part of both [Execute]s. *)
Definition interpret (failed : string) (r : process_run) : result error ExecutionResult :=
  let '(runErr, stdout, stderr) := run_buffers r in
  match runErr with
  | None => Ok (mkExecResult stdout stderr 0 (pr_duration r))
  | Some e =>
      if pr_ctx_done r then Err (Errorf "execution timed out")
      else
        match e with
        | ExitError code => Ok (mkExecResult stdout stderr code (pr_duration r))
        | RunFailed err => Err (Wrap failed err)
        end
  end.

Section process.
Context {W : Type} `{!ProcessOS W} `{!Render} `{!MapRange string string}.

(** ** The process sandbox *)

Record ProcessSandbox := mkProcessSandbox {
  ps_defaultTimeout : Duration;
  ps_defaultLimits : ResourceLimits;
}.

(** [NewProcessSandbox]; the two arguments are the fields of [ProcessConfig]. *)
Definition NewProcessSandbox (timeout : Duration) (limits : ResourceLimits) : ProcessSandbox :=
  mkProcessSandbox (or_int timeout defaultTimeout)
    (mkLimits (or_int (rl_MaxCPUSeconds limits) defaultCPUSeconds)
       (or_int (rl_MaxMemoryMB limits) defaultMemoryMB)).

Definition resolveLimits (s : ProcessSandbox) (req : ResourceLimits) : ResourceLimits :=
  let limits := ps_defaultLimits s in
  mkLimits (if (0 <? rl_MaxCPUSeconds req)%Z then rl_MaxCPUSeconds req else rl_MaxCPUSeconds limits)
    (if (0 <? rl_MaxMemoryMB req)%Z then rl_MaxMemoryMB req else rl_MaxMemoryMB limits).

(** A pair of a map as a setting. *)
Definition setting (kv : string * string) : string := kv.1 +:+ "=" +:+ kv.2.

Definition buildEnv (tmpDir : string) (extra : gmap string string) : list string :=
  ["PATH=/usr/local/bin:/usr/bin:/bin"; "HOME=" +:+ tmpDir; "TMPDIR=" +:+ tmpDir;
   "LANG=en_US.UTF-8"; "TERM=dumb"] ++ map setting (map_range extra).

Definition double_quote : string := String (Ascii.ascii_of_nat 34) "".

(** The wrapper: ["$@"] stands for the positional arguments. *)
Definition ulimit_script (limits : ResourceLimits) : string :=
  "ulimit -v " +:+ itoa (rl_MaxMemoryMB limits * 1024) +:+ " 2>/dev/null; ulimit -t " +:+
  itoa (rl_MaxCPUSeconds limits) +:+ " 2>/dev/null; exec " +:+ double_quote +:+ "$@" +:+ double_quote.

Definition process_cmd (s : ProcessSandbox) (tmpDir : string) (req : ExecutionRequest) : Cmd :=
  mkCmd "/bin/sh" (["-c"; ulimit_script (resolveLimits s (er_Limits req)); "_"] ++ er_Command req)
    (or_text (er_WorkingDir req) tmpDir) (Some (buildEnv tmpDir (er_Env req))) true
    (or_int (er_Timeout req) (ps_defaultTimeout s)).

(** [ProcessSandbox.Execute]; the directory is removed whatever happens. *)
Definition process_Execute (s : ProcessSandbox) (req : ExecutionRequest)
    : st W (result error ExecutionResult) :=
  if bool_decide (er_Command req = []) then mret (Err (Errorf "empty command"))
  else
    tmp ← (os_MkdirTemp : st W (result error string));
    match tmp with
    | Err err => mret (Err (Wrap "creating sandbox temp dir" err))
    | Ok tmpDir =>
        r ← (os_Run (process_cmd s tmpDir req) : st W process_run);
        _ ← (os_RemoveAll tmpDir : st W unit);
        mret (interpret "execution failed" r)
    end.

(** ** The docker sandbox *)

Context {F : Type} `{Num F}.

(** [format_cpus] is [strconv.FormatFloat] with two decimals. *)
Class CpuFormat := { format_cpus : F -> string }.
Context `{!CpuFormat}.

Record DockerConfig := mkDockerConfig {
  dc_Image : string;
  dc_DefaultTimeout : Duration;
  dc_MemoryMB : Z;
  dc_CPUCores : F;
  dc_PIDsLimit : Z;
  dc_NetworkAllowed : bool;
}.

Definition NewDockerSandbox (c : DockerConfig) : DockerConfig :=
  mkDockerConfig (or_text (dc_Image c) "akili-runtime:latest") (or_int (dc_DefaultTimeout c) defaultTimeout)
    (or_int (dc_MemoryMB c) defaultMemoryMB)
    (if nleb (dc_CPUCores c) (nofZ 0) then nofZ 1 else dc_CPUCores c)
    (if (dc_PIDsLimit c <=? 0)%Z then 64 else dc_PIDsLimit c)%Z (dc_NetworkAllowed c).

(** The flags that do not depend on the request. *)
Definition hardening (c : DockerConfig) (name : string) (memoryMB : Z) : list string :=
  let memoryFlag := itoa memoryMB +:+ "m" in
  ["run"; "--rm"; "--name"; name;
   "--cap-drop=ALL"; "--security-opt=no-new-privileges"; "--read-only"; "--user=65534:65534";
   "--memory=" +:+ memoryFlag; "--memory-swap=" +:+ memoryFlag;
   "--cpus=" +:+ format_cpus (dc_CPUCores c); "--pids-limit=" +:+ itoa (dc_PIDsLimit c);
   "--tmpfs"; "/tmp:rw,noexec,nosuid,size=64m"; "--tmpfs"; "/home/sandbox:rw,noexec,nosuid,size=64m";
   "--env"; "HOME=/home/sandbox"; "--env"; "PATH=/usr/local/bin:/usr/bin:/bin";
   "--env"; "LANG=en_US.UTF-8"; "--env"; "TERM=dumb"] ++
  (if dc_NetworkAllowed c then ["--network=bridge"] else ["--network=none"]).

Definition buildDockerArgs (c : DockerConfig) (name : string) (memoryMB : Z) (req : ExecutionRequest)
    : list string :=
  hardening c name memoryMB ++
  ["--workdir"; or_text (er_WorkingDir req) "/home/sandbox"] ++
  concat (map (fun kv => ["--env"; setting kv]) (map_range (er_Env req))) ++
  [dc_Image c].

Definition docker_cmd (args : list string) (timeout : Duration) : Cmd :=
  mkCmd "docker" args "" None false timeout.

(** [DockerSandbox.Execute]; the container is removed in any case. *)
Definition docker_Execute (c : DockerConfig) (req : ExecutionRequest)
    : st W (result error ExecutionResult) :=
  if bool_decide (er_Command req = []) then mret (Err (Errorf "empty command"))
  else
    name ← (rand_hex : st W (result error string));
    match name with
    | Err err => mret (Err (Wrap "generating container name" err))
    | Ok hex =>
        let containerName := "akili-sbx-" +:+ hex in
        let memoryMB := if (0 <? rl_MaxMemoryMB (er_Limits req))%Z
                        then rl_MaxMemoryMB (er_Limits req) else dc_MemoryMB c in
        let args := buildDockerArgs c containerName memoryMB req ++ er_Command req in
        r ← (os_Run (docker_cmd args (or_int (er_Timeout req) (dc_DefaultTimeout c))) : st W process_run);
        _ ← (os_Run (docker_cmd ["rm"; "-f"; containerName] (5 * Second)%Z) : st W process_run);
        mret (interpret "docker execution failed" r)
    end.
End process.

Arguments DockerConfig F : clear implicits.
Arguments CpuFormat F : clear implicits.

(** ** Capped output *)

(** The bytes of a sequence of chunks. *)
Definition bytes_of (chunks : list string) : string := fold_right String.append "" chunks.

Lemma bytes_of_app a b : bytes_of (a ++ b) = bytes_of a +:+ bytes_of b.
Proof. induction a as [|c a IH]; simpl; [done|]. by rewrite IH, str_app_assoc. Qed.

(** Some chunk begins before the limit and ends after it. *)
Definition straddles (cap : nat) (chunks : list string) : Prop :=
  exists before p after, chunks = before ++ p :: after /\
    String.length (bytes_of before) < cap < String.length (bytes_of before) + String.length p.

Lemma straddles_cons cap p chunks :
  straddles cap (p :: chunks) <->
  (0 < cap < String.length p) \/ (String.length p <= cap /\ straddles (cap - String.length p) chunks).
Proof.
  split.
  - intros (before & q & after & E & Hlt). destruct before as [|b before].
    + injection E as <- <-. simpl in Hlt. left. lia.
    + injection E as <- ->. simpl in Hlt. rewrite str_app_length in Hlt. right. split; [lia|].
      exists before, q, after. split; [done|lia].
  - intros [Hlt|[Hle (before & q & after & -> & Hlt)]].
    + exists [], p, chunks. split; [done|]. simpl. lia.
    + exists (p :: before), q, after. split; [done|]. simpl. rewrite str_app_length. lia.
Qed.

Lemma straddles_zero chunks : ~ straddles 0 chunks.
Proof. intros (? & ? & ? & _ & ?). lia. Qed.

(** A copy keeps the first bytes up to the limit, and fails exactly when a chunk straddles it. *)
Lemma io_Copy_spec chunks : forall w r,
  let '(e, lw) := io_Copy (mkWriter w (Z.of_nat r)) chunks in
  lw_w lw = w +:+ str_take r (bytes_of chunks) /\
  (e = None /\ ~ straddles r chunks \/ e = Some (Errorf "short write") /\ straddles r chunks).
Proof.
  assert (forall s, s +:+ "" = s) as Hnil by (induction s as [|c s IH]; [done|]; simpl; by rewrite <-IH at 2).
  induction chunks as [|p chunks IH]; intros w r.
  - simpl. replace (str_take r "") with "" by (by destruct r). rewrite Hnil.
    split; [done|]. left. split; [done|]. intros (before & p & after & E & _). by destruct before.
  - pose proof (straddles_cons r p chunks) as Hsc. simpl. unfold lw_Write. simpl.
    destruct (Z.leb_spec (Z.of_nat r) 0) as [H0|H0].
    + rewrite Z.eqb_refl. assert (r = 0) as -> by lia. specialize (IH w 0). change (Z.of_nat 0) with 0%Z in *.
      destruct (io_Copy _ chunks) as [e lw]. rewrite str_take_zero in IH. rewrite str_take_zero.
      rewrite Hsc. simpl. destruct IH as [-> IH]. split; [done|].
      destruct IH as [[-> _]|[_ Hs]]; [|destruct (straddles_zero chunks Hs)].
      left. split; [done|]. intros [?|[_ Hs]]; [lia|destruct (straddles_zero chunks Hs)].
    + destruct (Z.ltb_spec (Z.of_nat r) (Z.of_nat (String.length p))) as [Hlt|Hge].
      * rewrite str_take_length, Nat2Z.id, Nat.min_l by lia.
        destruct (Z.eqb_spec (Z.of_nat r) (Z.of_nat (String.length p))) as [|_]; [lia|]. simpl.
        rewrite str_take_app. replace (r - String.length p) with 0 by lia. rewrite str_take_zero, Hnil, Hsc.
        split; [done|]. right. split; [done|]. left. lia.
      * rewrite Z.eqb_refl. replace (Z.of_nat r - Z.of_nat (String.length p))%Z
          with (Z.of_nat (r - String.length p)) by lia.
        specialize (IH (w +:+ p) (r - String.length p)). destruct (io_Copy _ chunks) as [e lw].
        destruct IH as [-> IH]. rewrite Hsc, str_take_app, str_app_assoc, (str_take_all r p) by lia.
        split; [done|]. assert (String.length p <= r) by lia.
        destruct IH as [[-> Hn]|[-> Hs]]; [left|right]; (split; [done|]); [|by right].
        intros [?|[_ ?]]; [lia|done].
Qed.

Definition cap : nat := Z.to_nat maxOutputBytes.

(** C9: the cap on output, exactly.  The buffers hold the first megabyte of each stream.
    A command that succeeds gives its output unless a chunk of it straddles the limit: then
    the writer reports a short write, the copy fails, and the whole result is an error
    although the excess was meant to be dropped.  A command that fails is a result with its
    status; a command that did not end well before its time is an error. *)
Theorem output_cap_exact failed r :
  let stdout := str_take cap (bytes_of (pr_stdout r)) in
  let stderr := str_take cap (bytes_of (pr_stderr r)) in
  let cut := straddles cap (pr_stdout r) \/ straddles cap (pr_stderr r) in
  (pr_end r = None -> ~ cut -> interpret failed r = Ok (mkExecResult stdout stderr 0 (pr_duration r))) /\
  (pr_end r = None -> cut -> pr_ctx_done r = false ->
     interpret failed r = Err (Wrap failed (Errorf "short write"))) /\
  (forall code, pr_end r = Some (ExitError code) -> pr_ctx_done r = false ->
     interpret failed r = Ok (mkExecResult stdout stderr code (pr_duration r))) /\
  (pr_ctx_done r = true -> pr_end r <> None \/ cut ->
     interpret failed r = Err (Errorf "execution timed out")).
Proof.
  intros stdout stderr cut. unfold interpret, run_buffers.
  change maxOutputBytes with (Z.of_nat cap).
  pose proof (io_Copy_spec (pr_stdout r) "" cap) as HO. pose proof (io_Copy_spec (pr_stderr r) "" cap) as HE.
  destruct (io_Copy _ (pr_stdout r)) as [eo wo], (io_Copy _ (pr_stderr r)) as [ee we].
  destruct HO as [-> HO], HE as [-> HE]. change ("" +:+ ?x) with x. fold stdout stderr.
  destruct (pr_end r) as [[code|err]|], HO as [[-> ?]|[-> ?]], HE as [[-> ?]|[-> ?]], (pr_ctx_done r);
    unfold cut; split_and!; intros; simplify_eq; first [done|tauto].
Qed.

(** ** Isolation of the process sandbox *)

(** The temporary directories that exist: only their creation and removal changes them. *)
Class TempDirs (W : Type) `{!ProcessOS W} := {
  live_dirs : W -> gset string;
  live_made : forall w d w', os_MkdirTemp w = (Ok d, w') ->
    d ∉ live_dirs w /\ live_dirs w' = {[d]} ∪ live_dirs w;
  live_failed : forall w e w', os_MkdirTemp w = (Err e, w') -> live_dirs w' = live_dirs w;
  live_run : forall c w, live_dirs (os_Run c w).2 = live_dirs w;
  live_removed : forall d w, live_dirs (os_RemoveAll d w).2 = live_dirs w ∖ {[d]};
}.

Section isolation.
Context {W : Type} `{!ProcessOS W} `{!TempDirs W} `{!Render} `{!MapRange string string}.

Lemma buildEnv_spec tmp extra x :
  x ∈ buildEnv tmp extra <->
  x ∈ buildEnv tmp ∅ \/ exists k v, extra !! k = Some v /\ x = setting (k, v).
Proof.
  unfold buildEnv. rewrite !elem_of_app, !list_elem_of_fmap.
  assert (forall y : string * string, y ∈ map_range (∅ : gmap string string) -> False) as He
    by (intros [k v] Hin%elem_of_map_range; by rewrite lookup_empty in Hin).
  split.
  - intros [Hx|([k v] & -> & Hkv%elem_of_map_range)]; [by left; left|right; by exists k, v].
  - intros [[Hx|(y & _ & []%He)]|(k & v & Hkv & ->)]; [by left|].
    right. exists (k, v). split; [done|]. by apply elem_of_map_range.
Qed.

(** The process sandbox isolates a command.  It leaves no temporary directory behind,
    however the execution ends; its process gets the words of the command as positional
    arguments of a script that does not depend on them, and an environment of the five
    fixed settings and those of the request, nothing of the host's. *)
Theorem process_isolated s req w :
  live_dirs (process_Execute s req w).2 = live_dirs w /\
  forall tmp req2, let c := process_cmd s tmp req in
    (er_Limits req = er_Limits req2 ->
       exists script, cmd_Args c = ["-c"; script; "_"] ++ er_Command req /\
                 cmd_Args (process_cmd s tmp req2) = ["-c"; script; "_"] ++ er_Command req2) /\
    (exists env, cmd_Env c = Some env /\ forall x, x ∈ env <->
       x ∈ ["PATH=/usr/local/bin:/usr/bin:/bin"; "HOME=" +:+ tmp; "TMPDIR=" +:+ tmp;
            "LANG=en_US.UTF-8"; "TERM=dumb"] \/
       exists k v, er_Env req !! k = Some v /\ x = setting (k, v)).
Proof.
  split.
  - unfold process_Execute. case_bool_decide; [done|]. rewrite st_bind_run.
    destruct (os_MkdirTemp w) as [[tmp|e] w1] eqn:Em; simpl; [|by eapply live_failed].
    apply live_made in Em as [Hn Hl]. rewrite !st_bind_run. simpl.
    rewrite live_removed, live_run, Hl. set_solver.
  - intros tmp req2. split.
    + intros El. eexists. unfold process_cmd. simpl. by rewrite El.
    + eexists. split; [reflexivity|]. intros x. rewrite buildEnv_spec.
      assert (buildEnv tmp ∅ = ["PATH=/usr/local/bin:/usr/bin:/bin"; "HOME=" +:+ tmp; "TMPDIR=" +:+ tmp;
        "LANG=en_US.UTF-8"; "TERM=dumb"]) as ->; [|done].
      unfold buildEnv. assert (map_range (∅ : gmap string string) = []) as ->; [|done].
      apply elem_of_nil_inv. intros [k v] Hin%elem_of_map_range. by rewrite lookup_empty in Hin.
Qed.
End isolation.
