(* ===== verification/SandboxTools.v ===== *)
(** * The sandboxed tools

    [src/internal/tools/shell/shell.go], [git/git.go], [git/write.go] and [code/code.go]:
    tools whose execution is one run of a sandbox. *)

From S2P Require Import Prelude Text Security LLM ToolValues.

(** [time.ParseDuration] and [Duration.String]. *)
Class DurationText := {
  ParseDuration : string -> result error Duration;
  Duration_String : Duration -> string;
}.

Section tools.
Context {F W : Type} `{Num F} `{!Sandbox W} `{!DurationText}.

Definition no_limits : ResourceLimits := mkLimits 0 0.

(** One run; [finish] makes the result. *)
Definition sandboxed (req : ExecutionRequest) (finish : ExecutionResult -> ToolResult Params)
    : st W (result error (ToolResult Params)) :=
  r ← (sandbox_Execute req : st W (result error ExecutionResult));
  mret (match r with
        | Err err => Err (Wrap "sandbox execution" err)
        | Ok r => Ok (finish r)
        end).

(** ** shell_exec *)

Definition shell_Validate (params : Params) : option error :=
  match requireString params "command" with
  | Err err => Some err
  | Ok _ =>
      match param_string params "timeout" with
      | Some timeout =>
          if String.eqb timeout "" then None
          else match ParseDuration timeout with
               | Err err => Some (Wrap "invalid timeout" err)
               | Ok _ => None
               end
      | None => None
      end
  end.

Definition shell_finish (r : ExecutionResult) : ToolResult Params :=
  mkToolResult (joined_output r)
    (object [("exit_code", AInt (xr_ExitCode r)); ("duration", AString (Duration_String (xr_Duration r)))])
    (xr_ExitCode r =? 0)%Z.

Definition shell_Execute (params : Params) : st W (result error (ToolResult Params)) :=
  match requireString params "command" with
  | Err err => mret (Err err)
  | Ok command =>
      let timeout := paramOr params "timeout" "" in
      let run (d : Duration) :=
        sandboxed (mkExecRequest ["sh"; "-c"; command] (default "" (param_string params "working_dir"))
                     ∅ d no_limits) shell_finish in
      if String.eqb timeout "" then run 0%Z
      else match ParseDuration timeout with
           | Err err => mret (Err (Wrap "invalid timeout" err))
           | Ok d => run d
           end
  end.

Definition shell_tool : Tool F Params W :=
  mkTool "shell_exec" "Execute a shell command in a sandboxed environment"
    (object_schema [("command", prop_schema "string" "The shell command to execute");
       ("timeout", prop_schema "string" "Duration string (e.g. '10s', '1m'), overrides default timeout");
       ("working_dir", prop_schema "string" "Working directory override")] ["command"])
    (mkAction "shell_exec" RiskHigh) (fun _ => nofZ 0) (fun params _ => shell_Validate params) (fun _ => shell_Execute).

(** ** git_read and git_write *)

Definition allowedSubcommands : list string := ["log"; "diff"; "status"; "show"; "branch"].
Definition blockedSubcommands : list string :=
  ["push"; "commit"; "merge"; "rebase"; "reset"; "checkout"; "fetch"; "pull"; "remote"; "init";
   "clone"; "tag"; "stash"].
Definition allowedWriteSubcommands : list string :=
  ["add"; "commit"; "checkout"; "branch"; "tag"; "stash"; "merge"; "rebase"; "reset"; "rm"; "mv";
   "restore"; "switch"; "cherry-pick"].
Definition blockedWriteSubcommands : list string :=
  ["push"; "fetch"; "pull"; "remote"; "clone"; "init"; "clean"].

Definition git_Validate (params : Params) : option error :=
  match requireString params "subcommand" with
  | Err err => Some err
  | Ok subcmd =>
      if slice_contains blockedSubcommands subcmd
      then Some (Errorf "git subcommand is blocked (write/remote operation)")
      else if negb (slice_contains allowedSubcommands subcmd)
      then Some (Errorf "git subcommand is not allowed; permitted: log, diff, status, show, branch")
      else match requireString params "repo_path" with Err err => Some err | Ok _ => None end
  end.

Definition git_write_Validate (params : Params) : option error :=
  match requireString params "subcommand" with
  | Err err => Some err
  | Ok subcmd =>
      if slice_contains blockedWriteSubcommands subcmd
      then Some (Errorf "git subcommand is blocked (remote/destructive operation)")
      else if negb (slice_contains allowedWriteSubcommands subcmd)
      then if slice_contains allowedSubcommands subcmd
           then Some (Errorf "git subcommand is read-only; use the git_read tool instead")
           else Some (Errorf "git subcommand is not allowed for git_write")
      else match requireString params "repo_path" with Err err => Some err | Ok _ => None end
  end.

Definition git_finish (subcmd : string) (r : ExecutionResult) : ToolResult Params :=
  mkToolResult (TruncateOutput (joined_output r) MaxOutputBytes)
    (object [("subcommand", AString subcmd); ("exit_code", AInt (xr_ExitCode r));
             ("duration", AString (Duration_String (xr_Duration r)))])
    (xr_ExitCode r =? 0)%Z.

(** Both tools have this [Execute]. *)
Definition git_Execute (params : Params) : st W (result error (ToolResult Params)) :=
  let subcmd := stringOrEmpty params "subcommand" in
  let repoPath := stringOrEmpty params "repo_path" in
  sandboxed (mkExecRequest (["git"; subcmd] ++ param_strings params "args") repoPath
               {["GIT_TERMINAL_PROMPT" := "0"]} 0%Z no_limits) (git_finish subcmd).

Definition git_schema (subcommands : list string) : Params :=
  object_schema [("subcommand", enum_schema subcommands "The git subcommand to run");
    ("repo_path", prop_schema "string" "Path to the git repository");
    ("args", AObject [("type", AString "array"); ("items", AObject [("type", AString "string")]);
                      ("description", AString "Additional arguments for the git subcommand")])]
    ["subcommand"; "repo_path"].

Definition git_read_tool : Tool F Params W :=
  mkTool "git_read" "Run read-only git commands (log, diff, status, show, branch)"
    (git_schema allowedSubcommands) (mkAction "git_read" RiskMedium) (fun _ => nofZ 0)
    (fun params _ => git_Validate params) (fun _ => git_Execute).

Definition git_write_tool : Tool F Params W :=
  mkTool "git_write" "Run local git write commands (add, commit, checkout, branch, tag, stash, merge, rebase, reset, rm, mv, restore, switch, cherry-pick)"
    (git_schema allowedWriteSubcommands) (mkAction "git_write" RiskHigh) (fun _ => nofZ 0)
    (fun params _ => git_write_Validate params) (fun _ => git_Execute).

(** ** code_exec *)

Definition interpreters : gmap string string :=
  list_to_map [("python3", "python3"); ("python", "python3"); ("sh", "sh"); ("bash", "bash")].

Definition code_Validate (allowed : gset string) (params : Params) : option error :=
  match requireString params "language" with
  | Err err => Some err
  | Ok lang =>
      if negb (bool_decide (lang ∈ allowed)) then Some (Errorf "language is not allowed")
      else match interpreters !! lang with
           | None => Some (Errorf "no interpreter configured for language")
           | Some _ => match requireString params "code" with Err err => Some err | Ok _ => None end
           end
  end.

Definition quoted (s : string) : string :=
  let q := String (Ascii.ascii_of_nat 34) "" in q +:+ s +:+ q.

(** The code is the first positional argument of this script. *)
Definition code_script (interpreter : string) : string :=
  "printf '%s' " +:+ quoted "$1" +:+ " > " +:+ quoted "$HOME/script" +:+ " && " +:+ interpreter +:+ " " +:+
  quoted "$HOME/script".

Definition code_finish (lang : string) (r : ExecutionResult) : ToolResult Params :=
  mkToolResult (TruncateOutput (joined_output r) MaxOutputBytes)
    (object [("language", AString lang); ("exit_code", AInt (xr_ExitCode r));
             ("duration", AString (Duration_String (xr_Duration r)))])
    (xr_ExitCode r =? 0)%Z.

Definition code_Execute (params : Params) : st W (result error (ToolResult Params)) :=
  let lang := stringOrEmpty params "language" in
  let code := stringOrEmpty params "code" in
  let interpreter := default "" (interpreters !! lang) in
  sandboxed (mkExecRequest ["sh"; "-c"; code_script interpreter; "_"; code] "" ∅ 0%Z no_limits)
    (code_finish lang).

(** [NewTool]: the set of the configured languages. *)
Definition code_tool (allowedLanguages : list string) : Tool F Params W :=
  mkTool "code_exec" "Execute code in a sandboxed environment (no network)"
    (object_schema [("language", prop_schema "string" "Programming language (e.g. 'python3', 'sh', 'bash')");
       ("code", prop_schema "string" "The source code to execute")] ["language"; "code"])
    (mkAction "code_exec" RiskHigh) (fun _ => nofZ 0)
    (fun params _ => code_Validate (list_to_set allowedLanguages) params) (fun _ => code_Execute).
End tools.

(** ** What is accepted and what is run *)

Lemma git_Validate_None params :
  git_Validate params = None <-> exists sub repo, requireString params "subcommand" = Ok sub /\
    sub ∈ allowedSubcommands /\ requireString params "repo_path" = Ok repo.
Proof.
  unfold git_Validate. destruct (requireString params "subcommand") as [sub|e];
    [|split; [done|by intros (? & ? & ? & _)]].
  destruct (slice_contains_spec blockedSubcommands sub) as [Hb|_].
  - split; [done|]. intros (s & repo & [= <-] & Ha & _). revert Ha Hb.
    unfold allowedSubcommands, blockedSubcommands. rewrite !elem_of_cons, elem_of_nil.
    intros Ha Hb. repeat (destruct Ha as [->|Ha]; [repeat (destruct Hb as [Hb|Hb]; [done|]); done|]). done.
  - destruct (slice_contains_spec allowedSubcommands sub) as [Ha|Ha]; simpl.
    + destruct (requireString params "repo_path") as [repo|e]; split; try done; eauto.
      by intros (? & ? & _ & _ & ?).
    + split; [done|]. by intros (s & repo & [= <-] & ? & _).
Qed.

Lemma git_write_Validate_None params :
  git_write_Validate params = None <-> exists sub repo, requireString params "subcommand" = Ok sub /\
    sub ∈ allowedWriteSubcommands /\ requireString params "repo_path" = Ok repo.
Proof.
  unfold git_write_Validate. destruct (requireString params "subcommand") as [sub|e];
    [|split; [done|by intros (? & ? & ? & _)]].
  destruct (slice_contains_spec blockedWriteSubcommands sub) as [Hb|_].
  - split; [done|]. intros (s & repo & [= <-] & Ha & _). revert Ha Hb.
    unfold allowedWriteSubcommands, blockedWriteSubcommands. rewrite !elem_of_cons, elem_of_nil.
    intros Ha Hb. repeat (destruct Ha as [->|Ha]; [repeat (destruct Hb as [Hb|Hb]; [done|]); done|]). done.
  - destruct (slice_contains_spec allowedWriteSubcommands sub) as [Ha|Ha]; cbn [negb].
    + destruct (requireString params "repo_path") as [repo|e]; split; try done; eauto.
      by intros (? & ? & _ & _ & ?).
    + destruct (slice_contains allowedSubcommands sub); (split; [done|]); by intros (s & repo & [= <-] & ? & _).
Qed.

(** The two git tools share out the subcommands, with one exception.  No parameters are
    accepted by both but those of [branch], and neither accepts a subcommand that talks to
    a remote, creates a repository or cleans one. *)
Theorem git_tools_split params sub :
  requireString params "subcommand" = Ok sub ->
  (git_Validate params = None -> git_write_Validate params = None -> sub = "branch") /\
  (sub ∈ ["push"; "fetch"; "pull"; "remote"; "clone"; "init"; "clean"] ->
     git_Validate params <> None /\ git_write_Validate params <> None).
Proof.
  intros Hs. rewrite git_Validate_None, git_write_Validate_None. split.
  - intros (s1 & r1 & E1 & H1 & _) (s2 & r2 & E2 & H2 & _). rewrite E1 in Hs, E2. simplify_eq.
    revert H1 H2. unfold allowedSubcommands, allowedWriteSubcommands. rewrite !elem_of_cons, !elem_of_nil.
    intros H1 H2. repeat (destruct H1 as [->|H1]; [repeat (destruct H2 as [H2|H2]; [done|]); done|]). done.
  - intros Hr. split; intros (s1 & r1 & E1 & H1 & _); rewrite E1 in Hs; simplify_eq; revert Hr H1;
      unfold allowedSubcommands, allowedWriteSubcommands; rewrite !elem_of_cons, !elem_of_nil;
      intros H1 H2; repeat (destruct H1 as [->|H1]; [repeat (destruct H2 as [H2|H2]; [done|]); done|]); done.
Qed.

Section runs.
Context {F W : Type} `{Num F} `{!Sandbox W} `{!DurationText}.

(** The execution is one run of the sandbox with this request: its effect, its error, its
    success and its output. *)
Definition one_run (req : ExecutionRequest) (m : st W (result error (ToolResult Params))) : Prop :=
  forall w, (m w).2 = (sandbox_Execute req w).2 /\
  match (sandbox_Execute req w).1 with
  | Err e => (m w).1 = Err (Wrap "sandbox execution" e)
  | Ok r => exists out meta, (m w).1 = Ok (mkToolResult out meta (xr_ExitCode r =? 0)%Z) /\
              (out = joined_output r \/ out = TruncateOutput (joined_output r) MaxOutputBytes)
  end.

Lemma sandboxed_one_run req finish :
  (forall r, exists out meta, finish r = mkToolResult out meta (xr_ExitCode r =? 0)%Z /\
    (out = joined_output r \/ out = TruncateOutput (joined_output r) MaxOutputBytes)) ->
  one_run req (sandboxed req finish).
Proof.
  intros Hf w. unfold sandboxed. rewrite st_bind_run. split; [done|].
  destruct (sandbox_Execute req w) as [[r|e] w']; simpl; [|done].
  destruct (Hf r) as (out & meta & -> & Ho). by exists out, meta.
Qed.

Lemma git_one_run params sub repo :
  requireString params "subcommand" = Ok sub -> requireString params "repo_path" = Ok repo ->
  one_run (mkExecRequest (["git"; sub] ++ param_strings params "args") repo {["GIT_TERMINAL_PROMPT" := "0"]}
             0%Z no_limits) (git_Execute params).
Proof.
  intros E1 E2. unfold git_Execute. rewrite (stringOrEmpty_Ok _ _ _ E1), (stringOrEmpty_Ok _ _ _ E2).
  apply sandboxed_one_run. intros r. eexists _, _. split; [reflexivity|by right].
Qed.

(** What the sandboxed tools run.  Accepted parameters make exactly one run of the
    sandbox: the shell tool's of the command given, the git tools' of an allowed subcommand
    with the arguments given, the code tool's of one of three fixed scripts, whatever the
    code, which is a positional argument.  A failed run is an error, otherwise the tool
    succeeds exactly when the status is 0. *)
Theorem sandboxed_tools_exact langs user params w :
  (tool_Validate (shell_tool (F := F)) params w = None -> exists command dir d,
     requireString params "command" = Ok command /\
     one_run (mkExecRequest ["sh"; "-c"; command] dir ∅ d no_limits)
       (tool_Execute (shell_tool (F := F)) user params)) /\
  (forall t allowed, (t, allowed) ∈ [(git_read_tool (F := F), allowedSubcommands);
                                     (git_write_tool, allowedWriteSubcommands)] ->
     tool_Validate t params w = None -> exists sub repo, sub ∈ allowed /\
     one_run (mkExecRequest (["git"; sub] ++ param_strings params "args") repo
                {["GIT_TERMINAL_PROMPT" := "0"]} 0%Z no_limits) (tool_Execute t user params)) /\
  (tool_Validate (code_tool (F := F) langs) params w = None -> exists lang interpreter code,
     lang ∈ langs /\ interpreter ∈ ["python3"; "sh"; "bash"] /\ requireString params "code" = Ok code /\
     one_run (mkExecRequest ["sh"; "-c"; code_script interpreter; "_"; code] "" ∅ 0%Z no_limits)
       (tool_Execute (code_tool (F := F) langs) user params)).
Proof.
  simpl. split_and!.
  - unfold shell_Validate, shell_Execute. destruct (requireString params "command") as [command|e]; [|done].
    intros Hv. assert (forall dir d, one_run (mkExecRequest ["sh"; "-c"; command] dir ∅ d no_limits)
      (sandboxed (mkExecRequest ["sh"; "-c"; command] dir ∅ d no_limits) shell_finish)) as Hrun.
    { intros dir d. apply sandboxed_one_run. intros r. eexists _, _. split; [reflexivity|by left]. }
    exists command, (default "" (param_string params "working_dir")). unfold paramOr, or_text.
    destruct (param_string params "timeout") as [t|]; [|by exists 0%Z].
    destruct (String.eqb t "") eqn:Et; [by exists 0%Z|]. rewrite Et.
    destruct (ParseDuration t) as [d|]; [by exists d|done].
  - intros t allowed Ht Hv. rewrite !elem_of_cons, elem_of_nil in Ht.
    destruct Ht as [Ht|[Ht|[]]]; simplify_eq; simpl in *;
      [apply git_Validate_None in Hv|apply git_write_Validate_None in Hv];
      destruct Hv as (sub & repo & E1 & Ha & E2); exists sub, repo; (split; [done|by apply git_one_run]).
  - unfold code_Validate, code_Execute. destruct (requireString params "language") as [lang|e] eqn:El; [|done].
    case_bool_decide as Hl; simpl; [|done]. destruct (interpreters !! lang) as [i|] eqn:Ei; [|done].
    destruct (requireString params "code") as [code|e] eqn:Ec; [|done]. intros _.
    exists lang, i, code. split_and!; [by apply elem_of_list_to_set in Hl| |done|].
    + unfold interpreters in Ei. apply elem_of_list_to_map_2 in Ei. rewrite !elem_of_cons, elem_of_nil in Ei.
      set_solver.
    + rewrite (stringOrEmpty_Ok _ _ _ El), (stringOrEmpty_Ok _ _ _ Ec), Ei.
      apply sandboxed_one_run. intros r. eexists _, _. split; [reflexivity|by right].
Qed.

(** The read-only git tool changes repositories.  Its subcommand list has [branch], and
    arguments are not looked at: with the arguments that delete a branch, the call is
    accepted at the medium risk of [git_read] and git is run with them. *)
Theorem git_read_deletes repo name user :
  repo <> "" ->
  let params := object [("subcommand", AString "branch"); ("repo_path", AString repo);
                        ("args", AList [AString "-D"; AString name])] in
  (forall w, tool_Validate (git_read_tool (F := F)) params w = None) /\
  act_RiskLevel (tool_RequiredAction (git_read_tool (F := F))) = RiskMedium /\
  one_run (mkExecRequest ["git"; "branch"; "-D"; name] repo {["GIT_TERMINAL_PROMPT" := "0"]} 0%Z no_limits)
    (tool_Execute (git_read_tool (F := F)) user params).
Proof.
  intros Hr params.
  assert (requireString params "subcommand" = Ok "branch") as E1 by done.
  assert (requireString params "repo_path" = Ok repo) as E2.
  { by apply requireString_Ok. }
  split_and!; [|done|exact (git_one_run params "branch" repo E1 E2)].
  intros w. apply git_Validate_None. exists "branch", repo. split_and!; [done| |done].
  unfold allowedSubcommands. set_solver.
Qed.
End runs.
