(* ===== verification/FileSystem.v ===== *)
(** * Paths and files

    The parts of Go's [path/filepath] and [os] that the file tools of
    [src/internal/tools/file/file.go] use, over a tree of directories, files and symbolic
    links.  A path is the list of its components; a link's target is a path too, absolute
    or not.  Permissions and failing disks are left out. *)

From Stdlib Require Import Ascii.
From S2P Require Import Prelude.

Abbreviation path := (list string).

Inductive node : Type :=
  | NFile (content : string)
  | NDir
  | NLink (absolute : bool) (target : path).

(** The root directory is no entry of the map. *)
Record FS := mkFS {
  fs_nodes : gmap path node;
  fs_cwd : result error path;
}.

Definition node_at (nodes : gmap path node) (p : path) : option node :=
  if bool_decide (p = []) then Some NDir else nodes !! p.

(** ** Texts of paths *)

Definition slash : Ascii.ascii := "/"%char.

(** [strings.Split(s, "/")]. *)
Fixpoint split_slash (s : string) : list string :=
  match s with
  | EmptyString => [""]
  | String c s =>
      if Ascii.eqb c slash then "" :: split_slash s
      else match split_slash s with
           | x :: xs => String c x :: xs
           | [] => [String c ""]
           end
  end.

(** [filepath.Clean] of an absolute path, one component at a time. *)
Definition clean_step (acc : path) (c : string) : path :=
  if String.eqb c "" || String.eqb c "." then acc
  else if String.eqb c ".." then removelast acc
  else acc ++ [c].
Definition clean (cs : list string) : path := fold_left clean_step cs [].

Fixpoint dirs (p : path) : string :=
  match p with
  | [] => ""
  | c :: p => "/" +:+ c +:+ dirs p
  end.
Definition render (p : path) : string := match p with [] => "/" | _ => dirs p end.

(** [filepath.Abs]. *)
Definition filepath_Abs (fs : FS) (raw : string) : result error path :=
  if has_prefix raw "/" then Ok (clean (split_slash raw))
  else
    match fs_cwd fs with
    | Err e => Err e
    | Ok cwd => Ok (clean (cwd ++ split_slash raw))
    end.

(** ** Following links *)

(** Where a path leads: an entry, or a missing one in an existing directory. *)
Inductive walked := Found (p : path) | Missing (p : path).

(** The walk of the kernel, and of [filepath.EvalSymlinks], from the directory [cur]. *)
Fixpoint walk (nodes : gmap path node) (links : nat) : path -> list string -> result error walked :=
  fix go (cur : path) (todo : list string) : result error walked :=
    match todo with
    | [] => Ok (Found cur)
    | c :: rest =>
        if String.eqb c "" || String.eqb c "." then go cur rest
        else if String.eqb c ".." then go (removelast cur) rest
        else
          match nodes !! (cur ++ [c]) with
          | None => match rest with
                    | [] => Ok (Missing (cur ++ [c]))
                    | _ => Err (Errorf "no such file or directory")
                    end
          | Some NDir => go (cur ++ [c]) rest
          | Some (NFile _) => match rest with
                              | [] => Ok (Found (cur ++ [c]))
                              | _ => Err (Errorf "not a directory")
                              end
          | Some (NLink absolute target) =>
              match links with
              | O => Err (Errorf "too many links")
              | S links => walk nodes links (if absolute then [] else cur) (target ++ rest)
              end
          end
    end.

(** [filepath.EvalSymlinks] gives up after 255 links, the kernel after 40. *)
Definition EvalSymlinks (fs : FS) (p : path) : result error path :=
  match walk (fs_nodes fs) 255 [] p with
  | Ok (Found q) => Ok q
  | Ok (Missing _) => Err (Errorf "no such file or directory")
  | Err e => Err e
  end.

Definition os_walk (fs : FS) (p : path) : result error walked := walk (fs_nodes fs) 40 [] p.

(** ** Files *)

Definition os_Stat (fs : FS) (p : path) : result error node :=
  match os_walk fs p with
  | Ok (Found q) => match node_at (fs_nodes fs) q with
                    | Some n => Ok n
                    | None => Err (Errorf "no such file or directory")
                    end
  | Ok (Missing _) => Err (Errorf "no such file or directory")
  | Err e => Err e
  end.

Definition os_ReadFile (fs : FS) (p : path) : result error string :=
  match os_Stat fs p with
  | Ok (NFile content) => Ok content
  | Ok _ => Err (Errorf "is a directory")
  | Err e => Err e
  end.

(** The entries of a directory, by name. *)
Definition entry_of (q : path) (kv : path * node) : option (string * node) :=
  match rev (kv.1) with
  | c :: d => if bool_decide (rev d = q) then Some (c, kv.2) else None
  | [] => None
  end.
Definition entries (nodes : gmap path node) (q : path) : list (string * node) :=
  insertion_sort (fun x y => String.ltb x.1 y.1) (omap (entry_of q) (map_to_list nodes)).

Definition os_ReadDir (fs : FS) (p : path) : result error (list (string * node)) :=
  match os_walk fs p with
  | Ok (Found q) => match node_at (fs_nodes fs) q with
                    | Some NDir => Ok (entries (fs_nodes fs) q)
                    | _ => Err (Errorf "not a directory")
                    end
  | Ok (Missing _) => Err (Errorf "no such file or directory")
  | Err e => Err e
  end.

Definition put_node (fs : FS) (p : path) (n : node) : FS := mkFS (<[p := n]> (fs_nodes fs)) (fs_cwd fs).

(** [os.WriteFile]: an existing file is emptied first, a missing one is made. *)
Definition os_WriteFile (fs : FS) (p : path) (content : string) : option error * FS :=
  match os_walk fs p with
  | Ok (Found q) =>
      match node_at (fs_nodes fs) q with
      | Some NDir => (Some (Errorf "is a directory"), fs)
      | _ => (None, put_node fs q (NFile content))
      end
  | Ok (Missing q) => (None, put_node fs q (NFile content))
  | Err e => (Some e, fs)
  end.

Definition os_Mkdir (fs : FS) (p : path) : option error * FS :=
  match os_walk fs p with
  | Ok (Found _) => (Some (Errorf "file exists"), fs)
  | Ok (Missing q) => (None, put_node fs q NDir)
  | Err e => (Some e, fs)
  end.

(** [os.MkdirAll] of a path of [n] components. *)
Fixpoint MkdirAll_go (n : nat) (fs : FS) (p : path) : option error * FS :=
  match os_Stat fs p with
  | Ok NDir => (None, fs)
  | Ok _ => (Some (Errorf "not a directory"), fs)
  | Err _ =>
      match n with
      | O => os_Mkdir fs p
      | S n =>
          match MkdirAll_go n fs (removelast p) with
          | (Some e, fs) => (Some e, fs)
          | (None, fs) => os_Mkdir fs p
          end
      end
  end.
Definition os_MkdirAll (fs : FS) (p : path) : option error * FS := MkdirAll_go (length p) fs p.

(** ** Texts and components *)

Fixpoint no_slash (s : string) : bool :=
  match s with
  | EmptyString => true
  | String c s => negb (Ascii.eqb c slash) && no_slash s
  end.

(** The components of a clean path. *)
Definition name (c : string) : Prop := no_slash c = true /\ c <> "" /\ c <> "." /\ c <> "..".

Lemma split_slash_no_slash s : Forall (fun c => no_slash c = true) (split_slash s).
Proof.
  induction s as [|c s IH]; simpl; [by repeat constructor|].
  destruct (Ascii.eqb c slash) eqn:E; [by constructor|].
  destruct (split_slash s) as [|x xs]; [constructor; [simpl; by rewrite E|done]|].
  inversion IH; subst. constructor; [simpl; by rewrite E|done].
Qed.

Lemma Forall_removelast {A} (Q : A -> Prop) l : Forall Q l -> Forall Q (removelast l).
Proof. induction 1 as [|x [|y l] Hx Hl IH]; simpl in *; by try constructor. Qed.

Lemma clean_names cs : Forall (fun c => no_slash c = true) cs -> Forall name (clean cs).
Proof.
  unfold clean. assert (Forall name (@nil string)) as H0 by constructor. revert H0.
  generalize (@nil string) as acc. induction cs as [|c cs IH]; intros acc Ha Hc; simpl; [done|].
  inversion Hc; subst. apply IH; [|done]. unfold clean_step.
  destruct (String.eqb_spec c ""), (String.eqb_spec c "."); simpl; try done.
  destruct (String.eqb_spec c ".."); [by apply Forall_removelast|].
  apply Forall_app. split; [done|]. by repeat constructor.
Qed.

Lemma filepath_Abs_names fs raw p :
  (forall cwd, fs_cwd fs = Ok cwd -> Forall name cwd) -> filepath_Abs fs raw = Ok p -> Forall name p.
Proof.
  unfold filepath_Abs. intros Hc. destruct (has_prefix raw "/").
  - intros [= <-]. apply clean_names, split_slash_no_slash.
  - destruct (fs_cwd fs) as [cwd|]; [|done]. intros [= <-]. apply clean_names, Forall_app.
    split; [|apply split_slash_no_slash]. eapply Forall_impl; [by apply Hc|]. by intros c [? _].
Qed.

Lemma prefix_cons a s b t :
  String.prefix (String a s) (String b t) = true <-> a = b /\ String.prefix s t = true.
Proof. simpl. destruct (ascii_dec a b) as [->|]; split; try done. all: by intros [? ?]. Qed.

Lemma no_slash_cons a s : no_slash (String a s) = true <-> a <> slash /\ no_slash s = true.
Proof. simpl. rewrite andb_true_iff, negb_true_iff, Ascii.eqb_neq. done. Qed.

(** A text that ends or goes on with a slash determines the component before it. *)
Lemma component_prefix c c' x y :
  no_slash c = true -> no_slash c' = true -> (y = "" \/ exists y', y = String slash y') ->
  String.prefix (c +:+ String slash x) (c' +:+ y) = true <-> c = c' /\ String.prefix (String slash x) y = true.
Proof.
  revert c'. induction c as [|a c IH]; intros [|a' c'] Hc Hc' Hy.
  - change ("" +:+ ?z) with z. tauto.
  - apply no_slash_cons in Hc' as [Ha _]. change ("" +:+ ?z) with z.
    change (String a' c' +:+ y) with (String a' (c' +:+ y)). rewrite prefix_cons. split; [|by intros [? _]].
    intros [<- _]. by destruct Ha.
  - apply no_slash_cons in Hc as [Ha _]. change ("" +:+ ?z) with z.
    change (String a c +:+ ?z) with (String a (c +:+ z)). split; [|by intros [? _]].
    intros Hp. destruct Hy as [->|[y' ->]]; [done|]. apply prefix_cons in Hp as [-> _]. by destruct Ha.
  - apply no_slash_cons in Hc as [_ Hc], Hc' as [_ Hc'].
    change (String a c +:+ ?z) with (String a (c +:+ z)). change (String a' c' +:+ y) with (String a' (c' +:+ y)).
    rewrite prefix_cons, (IH c' Hc Hc' Hy). split; [intros (-> & -> & ?)|intros ([= -> ->] & ?)]; done.
Qed.

Lemma dirs_cons c p : dirs (c :: p) = String slash (c +:+ dirs p).
Proof. done. Qed.

Lemma dirs_start p : dirs p = "" \/ exists y, dirs p = String slash y.
Proof. destruct p as [|c p]; [by left|]. right. by eexists. Qed.

Lemma dirs_prefix p r :
  Forall (fun c => no_slash c = true) p -> Forall (fun c => no_slash c = true) r ->
  String.prefix (dirs p +:+ "/") (dirs r) = true <-> exists c rest, r = p ++ c :: rest.
Proof.
  intros Hp. revert r. induction Hp as [|c p Hc Hp IH]; intros r Hr.
  - change (dirs [] +:+ "/") with (String slash ""). destruct r as [|c r].
    + split; [done|by intros (? & ? & ?)].
    + rewrite dirs_cons, prefix_cons. split; [intros _; by eexists _, _|]. intros _. split; [done|].
      by destruct (c +:+ dirs r).
  - destruct Hr as [|c' r Hc' Hr]; [split; [done|by intros (? & ? & ?)]|].
    rewrite !dirs_cons. change (String slash ?z +:+ "/") with (String slash (z +:+ "/")).
    rewrite prefix_cons, str_app_assoc.
    assert (exists x, dirs p +:+ "/" = String slash x) as [x Ex].
    { destruct (dirs_start p) as [->|[y ->]]; [by exists ""|]. by eexists. }
    specialize (IH r Hr). rewrite Ex in IH |- *. rewrite component_prefix by (done || apply dirs_start).
    rewrite IH. split; [intros (_ & -> & d & rest & ->); by exists d, rest|].
    intros (d & rest & [= -> ->]). split_and!; [done..|]. by exists d, rest.
Qed.

Lemma component_inj c c' x y :
  no_slash c = true -> no_slash c' = true ->
  (x = "" \/ exists x', x = String slash x') -> (y = "" \/ exists y', y = String slash y') ->
  c +:+ x = c' +:+ y -> c = c' /\ x = y.
Proof.
  revert c'. induction c as [|a c IH]; intros [|a' c'] Hc Hc' Hx Hy E.
  - done.
  - apply no_slash_cons in Hc' as [Ha _]. change ("" +:+ x) with x in E. exfalso.
    destruct Hx as [->|[x' ->]]; [done|]. injection E as <- _. by destruct Ha.
  - apply no_slash_cons in Hc as [Ha _]. change ("" +:+ y) with y in E. exfalso.
    destruct Hy as [->|[y' ->]]; [done|]. injection E as -> _. by destruct Ha.
  - apply no_slash_cons in Hc as [_ Hc], Hc' as [_ Hc'].
    change (String a (c +:+ x) = String a' (c' +:+ y)) in E. injection E as -> E.
    by destruct (IH c' Hc Hc' Hx Hy E) as [-> ->].
Qed.

Lemma dirs_inj p r :
  Forall (fun c => no_slash c = true) p -> Forall (fun c => no_slash c = true) r -> dirs p = dirs r -> p = r.
Proof.
  intros Hp. revert r. induction Hp as [|c p Hc Hp IH]; intros r Hr E.
  - by destruct Hr.
  - destruct Hr as [|c' r Hc' Hr]; [done|]. rewrite !dirs_cons in E. injection E as E.
    apply component_inj in E as [-> E]; [|done|done|apply dirs_start..]. f_equal. by apply IH.
Qed.

(** The test of the allow list, on components. *)
Definition beneath (p r : path) : Prop := r = p \/ (p <> [] /\ p `prefix_of` r).

Lemma name_start c : name c -> exists a c', c = String a c' /\ a <> slash.
Proof. intros (Hs & Hne & _). destruct c as [|a c]; [done|]. apply no_slash_cons in Hs as [? _]. by eexists _, _. Qed.

Lemma render_beneath p r :
  Forall name p -> Forall name r ->
  has_prefix (render r) (render p +:+ "/") || String.eqb (render r) (render p) = true <-> beneath p r.
Proof.
  intros Hp Hr. assert (forall l, Forall name l -> Forall (fun c => no_slash c = true) l) as Hns
    by (intros l Hl; eapply Forall_impl; [exact Hl|]; by intros c [? _]).
  unfold has_prefix, beneath. rewrite orb_true_iff, String.eqb_eq. destruct p as [|c p].
  - change (render [] +:+ "/") with (String slash (String slash "")).
    change (render []) with (String slash ""). destruct r as [|d r].
    + split; [by left|by right].
    + inversion Hr as [|? ? (a & d' & -> & Ha)%name_start _]; subst.
      change (render (String a d' :: r)) with (String slash (String a (d' +:+ dirs r))).
      rewrite !prefix_cons. split; [|intros [?|[[] _]]; done].
      intros [(_ & <- & _)|[=]]. by destruct Ha.
  - change (render (c :: p)) with (dirs (c :: p)).
    assert (render r = dirs r \/ r = []) as [->| ->] by (destruct r; auto).
    + rewrite (dirs_prefix (c :: p) r) by auto. split.
      * intros [(d & rest & ->)|E%dirs_inj]; [right; split; [done|by apply prefix_app_r]|by left|auto..].
      * intros [->|[_ [[|d rest] ->]]]; [by right|right; by rewrite app_nil_r|left; by exists d, rest].
    + split; [|intros [?|[_ ?%prefix_nil_inv]]; done].
      inversion Hp as [|? ? (a & c' & -> & Ha)%name_start _]; subst.
      change (render []) with (String slash ""). rewrite dirs_cons.
      change (String slash ?z +:+ "/") with (String slash (z +:+ "/")). rewrite prefix_cons.
      intros [[_ E]|E]; [done|]. by injection E.
Qed.
