(* ===== verification/FileTool.v ===== *)
(** * The file tools

    [src/internal/tools/file/file.go]: [file_read] and [file_write] with the check of
    their paths, over the file system of [FileSystem].  The world a tool acts on has a file
    system ([HasFS]); no one else changes it during a call.  The second part has the
    properties of both tools. *)

From S2P Require Import Prelude Text Security LLM ToolValues FileSystem.

(** A world with a file system in it. *)
Class HasFS (W : Type) := {
  get_fs : W -> FS;
  set_fs : FS -> W -> W;
  get_set_fs : forall fs w, get_fs (set_fs fs w) = fs;
  set_get_fs : forall w, set_fs (get_fs w) w = w;
}.

#[export] Instance fs_has_fs : HasFS FS :=
  {| get_fs := fun fs => fs; set_fs := fun fs _ => fs; get_set_fs := fun _ _ => eq_refl; set_get_fs := fun _ => eq_refl |}.

(** [fs.FileInfo] of an entry: its size and the text of its mode. *)
Class FileInfo := { info_size : node -> Z; info_mode : node -> string }.

Record Config := mkConfig { fc_AllowedPaths : list string; fc_MaxFileSizeBytes : Z }.

Definition defaultMaxFileSize : Z := 10485760.

(** ** The check of a path *)

(** The test of one prefix of the allow list. *)
Definition allows (fs : FS) (resolved : path) (prefix : string) : bool :=
  match filepath_Abs fs prefix with
  | Err _ => false
  | Ok absPrefix =>
      has_prefix (render resolved) (render absPrefix +:+ "/") ||
      String.eqb (render resolved) (render absPrefix)
  end.

(** The path without links, or with its parent's resolved when that fails. *)
Definition resolvePath (fs : FS) (abs : path) : result error path :=
  match EvalSymlinks fs abs with
  | Ok r => Ok r
  | Err err =>
      match EvalSymlinks fs (removelast abs) with
      | Err _ => Err (Wrap "path does not exist and parent is invalid" err)
      | Ok parent => Ok (parent ++ [List.last abs ""])
      end
  end.

Definition safePath (fs : FS) (raw : string) (allowed : list string) : result error path :=
  if String.eqb raw "" then Err (Errorf "path must not be empty")
  else
    match filepath_Abs fs raw with
    | Err err => Err (Wrap "resolving path" err)
    | Ok abs =>
        match resolvePath fs abs with
        | Err err => Err err
        | Ok resolved =>
            if existsb (allows fs resolved) allowed then Ok resolved
            else Err (Errorf "path is outside allowed directories")
        end
    end.

Definition maxSize (cfg : Config) : Z :=
  if (0 <? fc_MaxFileSizeBytes cfg)%Z then fc_MaxFileSizeBytes cfg else defaultMaxFileSize.

Section tools.
Context {F W : Type} `{Num F} `{!HasFS W} `{!FileInfo} `{!Render}.
Implicit Types (cfg : Config) (params : Params).

(** ** file_read *)

Definition read_Validate cfg params : W -> option error := fun w =>
  match requireString params "path" with
  | Err err => Some err
  | Ok path =>
      let op := paramOr params "operation" "read" in
      if negb (String.eqb op "read") && negb (String.eqb op "list")
      then Some (Errorf "operation must be read or list")
      else match safePath (get_fs w) path (fc_AllowedPaths cfg) with Err err => Some err | Ok _ => None end
  end.

Definition readFile cfg (p : path) (w : W) : result error (ToolResult Params) :=
  match os_Stat (get_fs w) p with
  | Err err => Err (Wrap "stat" err)
  | Ok NDir => Err (Errorf "is a directory, use operation=list")
  | Ok n =>
      let size := match n with NFile content => Z.of_nat (String.length content) | _ => 0%Z end in
      if (maxSize cfg <? size)%Z then Err (Errorf "file size exceeds limit")
      else
        match os_ReadFile (get_fs w) p with
        | Err err => Err (Wrap "reading" err)
        | Ok data =>
            Ok (mkToolResult (TruncateOutput data MaxOutputBytes)
                  (object [("path", AString (render p)); ("size_bytes", AInt size)]) true)
        end
  end.

(** [%8d]: padded on the left. *)
Fixpoint spaces (n : nat) : string := match n with O => "" | S n => String (Ascii.ascii_of_nat 32) (spaces n) end.
Definition pad8 (s : string) : string := spaces (8 - String.length s) +:+ s.
Definition entry_line (e : string * node) : string :=
  info_mode e.2 +:+ " " +:+ pad8 (itoa (info_size e.2)) +:+ " " +:+ e.1 +:+ newline.

Definition listDir (p : path) (w : W) : result error (ToolResult Params) :=
  match os_ReadDir (get_fs w) p with
  | Err err => Err (Wrap "listing" err)
  | Ok es =>
      Ok (mkToolResult (TruncateOutput (String.concat "" (map entry_line es)) MaxOutputBytes)
            (object [("path", AString (render p)); ("count", AInt (Z.of_nat (length es)))]) true)
  end.

Definition read_Execute cfg params : st W (result error (ToolResult Params)) := fun w =>
  (match safePath (get_fs w) (stringOrEmpty params "path") (fc_AllowedPaths cfg) with
   | Err err => Err err
   | Ok resolved =>
       if String.eqb (paramOr params "operation" "read") "list" then listDir resolved w
       else readFile cfg resolved w
   end, w).

(** ** file_write *)

Definition write_Validate cfg params : W -> option error := fun w =>
  match requireString params "path" with
  | Err err => Some err
  | Ok path =>
      match requireString params "content" with
      | Err err => Some err
      | Ok content =>
          if (maxSize cfg <? Z.of_nat (String.length content))%Z
          then Some (Errorf "content size exceeds limit")
          else match safePath (get_fs w) path (fc_AllowedPaths cfg) with Err err => Some err | Ok _ => None end
      end
  end.

Definition write_Execute cfg params : st W (result error (ToolResult Params)) := fun w =>
  let content := stringOrEmpty params "content" in
  match safePath (get_fs w) (stringOrEmpty params "path") (fc_AllowedPaths cfg) with
  | Err err => (Err err, w)
  | Ok resolved =>
      match os_MkdirAll (get_fs w) (removelast resolved) with
      | (Some err, fs) => (Err (Wrap "creating parent directory" err), set_fs fs w)
      | (None, fs) =>
          match os_WriteFile fs resolved content with
          | (Some err, fs) => (Err (Wrap "writing" err), set_fs fs w)
          | (None, fs) =>
              let size := Z.of_nat (String.length content) in
              (Ok (mkToolResult ("wrote " +:+ itoa size +:+ " bytes to " +:+ render resolved)
                     (object [("path", AString (render resolved)); ("size_bytes", AInt size)]) true),
               set_fs fs w)
          end
      end
  end.

Definition file_read_tool cfg : Tool F Params W :=
  mkTool "file_read" "Read file contents or list directory within allowed paths"
    (object_schema [("path", prop_schema "string" "Absolute path to the file or directory");
       ("operation", enum_schema ["read"; "list"] "Operation to perform: 'read' for file contents, 'list' for directory listing. Defaults to 'read'")] ["path"])
    (mkAction "read_files" RiskLow) (fun _ => nofZ 0) (read_Validate cfg) (fun _ => read_Execute cfg).

Definition file_write_tool cfg : Tool F Params W :=
  mkTool "file_write" "Write content to a file within allowed paths"
    (object_schema [("path", prop_schema "string" "Absolute path to the file to write");
       ("content", prop_schema "string" "Content to write to the file")] ["path"; "content"])
    (mkAction "write_files" RiskMedium) (fun _ => nofZ 0) (write_Validate cfg) (fun _ => write_Execute cfg).
End tools.

(** ** Walks *)

Lemma walk_nil nodes links cur : walk nodes links cur [] = Ok (Found cur).
Proof. by destruct links. Qed.

Lemma walk_cons nodes links cur c rest :
  walk nodes links cur (c :: rest) =
  if String.eqb c "" || String.eqb c "." then walk nodes links cur rest
  else if String.eqb c ".." then walk nodes links (removelast cur) rest
  else
    match nodes !! (cur ++ [c]) with
    | None => match rest with
              | [] => Ok (Missing (cur ++ [c]))
              | _ => Err (Errorf "no such file or directory")
              end
    | Some NDir => walk nodes links (cur ++ [c]) rest
    | Some (NFile _) => match rest with
                        | [] => Ok (Found (cur ++ [c]))
                        | _ => Err (Errorf "not a directory")
                        end
    | Some (NLink absolute target) =>
        match links with
        | O => Err (Errorf "too many links")
        | S links => walk nodes links (if absolute then [] else cur) (target ++ rest)
        end
    end.
Proof. by destruct links. Qed.

Lemma walk_name nodes links cur c rest :
  name c ->
  walk nodes links cur (c :: rest) =
    match nodes !! (cur ++ [c]) with
    | None => match rest with
              | [] => Ok (Missing (cur ++ [c]))
              | _ => Err (Errorf "no such file or directory")
              end
    | Some NDir => walk nodes links (cur ++ [c]) rest
    | Some (NFile _) => match rest with
                        | [] => Ok (Found (cur ++ [c]))
                        | _ => Err (Errorf "not a directory")
                        end
    | Some (NLink absolute target) =>
        match links with
        | O => Err (Errorf "too many links")
        | S links => walk nodes links (if absolute then [] else cur) (target ++ rest)
        end
    end.
Proof.
  intros (_ & H1 & Hp2 & H3). rewrite walk_cons.
  by rewrite (proj2 (String.eqb_neq _ _) H1), (proj2 (String.eqb_neq _ _) Hp2), (proj2 (String.eqb_neq _ _) H3).
Qed.

(** Every directory on the way is one, no link. *)
Definition real_dir (nodes : gmap path node) (p : path) : Prop :=
  forall q, q <> [] -> q `prefix_of` p -> nodes !! q = Some NDir.

(** A path without links to a directory or a file. *)
Definition real (nodes : gmap path node) (p : path) : Prop :=
  real_dir nodes p \/ exists d c x, p = d ++ [c] /\ real_dir nodes d /\ nodes !! p = Some (NFile x).

Record wf_fs (fs : FS) : Prop := {
  wf_cwd : forall cwd, fs_cwd fs = Ok cwd -> Forall name cwd;
  wf_links : forall p a t, fs_nodes fs !! p = Some (NLink a t) -> Forall (fun c => no_slash c = true) t;
}.

Section walks.
Context (nodes : gmap path node).

Lemma real_dir_nil : real_dir nodes [].
Proof. by intros q Hq ->%prefix_nil_inv. Qed.

Lemma real_dir_prefix p q : real_dir nodes p -> q `prefix_of` p -> real_dir nodes q.
Proof. intros Hp Hq r Hr Hrq. apply Hp; [done|]. by etrans. Qed.

Lemma removelast_prefix {A} (l : list A) : removelast l `prefix_of` l.
Proof.
  destruct l as [|x l] using rev_ind; [done|]. rewrite removelast_last. by apply prefix_app_r.
Qed.

Lemma prefix_snoc {A} (q p : list A) c : q `prefix_of` p ++ [c] -> q `prefix_of` p \/ q = p ++ [c].
Proof.
  intros [k E]. destruct k as [|x k] using rev_ind.
  - right. by rewrite app_nil_r in E.
  - left. rewrite app_assoc in E. apply app_inj_tail in E as [-> _]. by apply prefix_app_r.
Qed.

Lemma real_dir_snoc p c : real_dir nodes p -> nodes !! (p ++ [c]) = Some NDir -> real_dir nodes (p ++ [c]).
Proof. intros Hp Hc q Hq [Hpre| ->]%prefix_snoc; [by apply Hp|done]. Qed.

Context (links_ok : forall p a t, nodes !! p = Some (NLink a t) -> Forall (fun c => no_slash c = true) t).

(** Where a walk ends has no links on the way. *)
Lemma walk_spec links : forall todo cur,
  real_dir nodes cur -> Forall name cur -> Forall (fun c => no_slash c = true) todo ->
  match walk nodes links cur todo with
  | Ok (Found q) => real nodes q /\ Forall name q
  | Ok (Missing q) => exists d c, q = d ++ [c] /\ real_dir nodes d /\ nodes !! q = None /\ Forall name q
  | Err _ => True
  end.
Proof.
  induction links as [links IHl] using lt_wf_ind. induction todo as [|c todo IH]; intros cur Hc Hn Ht.
  - rewrite walk_nil. split; [by left|done].
  - inversion Ht as [|? ? Hs Ht']; subst. rewrite walk_cons.
    destruct (String.eqb_spec c "") as [|H1]; [by apply IH|].
    destruct (String.eqb_spec c ".") as [|Hp2]; [by apply IH|]. simpl.
    destruct (String.eqb_spec c "..") as [|H3].
    { apply IH; [|by apply Forall_removelast|done]. eapply real_dir_prefix; [done|]. apply removelast_prefix. }
    assert (Forall name (cur ++ [c])) as Hn2 by (apply Forall_app; split; [done|by repeat constructor]).
    destruct (nodes !! (cur ++ [c])) as [[x| |a t]|] eqn:E.
    + destruct todo; [|done]. split; [|done]. right. by exists cur, c, x.
    + apply IH; [by apply real_dir_snoc|done..].
    + destruct links as [|links]; [done|]. apply IHl; [lia|by destruct a; [apply real_dir_nil|]|by destruct a|].
      apply Forall_app. split; [by eapply links_ok|done].
    + destruct todo; [|done]. by exists cur, c.
Qed.

Lemma real_snoc d c : real nodes (d ++ [c]) -> real_dir nodes d.
Proof.
  intros [Hr|(d' & c' & x & E & Hd & _)].
  - eapply real_dir_prefix; [done|]. by apply prefix_app_r.
  - by apply app_inj_tail in E as [<- _].
Qed.

(** A path without links leads to itself. *)
Lemma walk_real links rest : forall cur,
  Forall name rest -> real nodes (cur ++ rest) -> walk nodes links cur rest = Ok (Found (cur ++ rest)).
Proof.
  induction rest as [|c rest IH]; intros cur Hn Hr.
  - by rewrite walk_nil, app_nil_r.
  - inversion Hn; subst. rewrite walk_name by done.
    replace (cur ++ c :: rest) with ((cur ++ [c]) ++ rest) in * by (by rewrite <-app_assoc).
    destruct rest as [|z rest _] using rev_ind.
    + rewrite (app_nil_r (cur ++ [c])) in Hr |- *. destruct Hr as [Hr|(d & c' & x & E & _ & ->)]; [|done].
      rewrite Hr; [|by destruct cur|done]. apply walk_nil.
    + assert (nodes !! (cur ++ [c]) = Some NDir) as ->; [|by apply IH].
      rewrite app_assoc in Hr. apply real_snoc in Hr. apply Hr; [by destruct cur|by apply prefix_app_r].
Qed.

Lemma walk_real_dir links p todo :
  Forall name p -> real_dir nodes p -> walk nodes links [] (p ++ todo) = walk nodes links p todo.
Proof.
  assert (forall rest cur, Forall name rest -> real_dir nodes (cur ++ rest) ->
    walk nodes links cur (rest ++ todo) = walk nodes links (cur ++ rest) todo) as Hw; [|by intros; apply (Hw p [])].
  induction rest as [|c rest IH]; intros cur Hn Hr; [by rewrite app_nil_r|].
  inversion Hn; subst. simpl. rewrite walk_name by done.
  replace (cur ++ c :: rest) with ((cur ++ [c]) ++ rest) in * by (by rewrite <-app_assoc).
  rewrite (Hr (cur ++ [c])); [by apply IH|by destruct cur|by apply prefix_app_r].
Qed.

(** More links allowed do not change an answer. *)
Lemma walk_mono links : forall todo cur x m,
  walk nodes links cur todo = Ok x -> links <= m -> walk nodes m cur todo = Ok x.
Proof.
  induction links as [links IHl] using lt_wf_ind. induction todo as [|c todo IH]; intros cur x m.
  - by rewrite !walk_nil.
  - rewrite !walk_cons. destruct (_ || _); [by apply IH|]. destruct (String.eqb c ".."); [by apply IH|].
    destruct (nodes !! (cur ++ [c])) as [[y| |a t]|]; [done|by apply IH| |done].
    intros E Hm. destruct links as [|links]; [done|]. destruct m as [|m]; [lia|].
    apply (IHl links); [lia|done|lia].
Qed.

(** A walk goes on where its first part ended. *)
Lemma walk_app todo2 links : forall todo cur p,
  walk nodes links cur todo = Ok (Found p) -> real_dir nodes p ->
  exists n, n <= links /\ forall k, walk nodes (k + links) cur (todo ++ todo2) = walk nodes (k + n) p todo2.
Proof.
  induction links as [links IHl] using lt_wf_ind. induction todo as [|c todo IH]; intros cur p.
  - rewrite walk_nil. intros [= <-] _. by exists links.
  - rewrite walk_cons. intros E Hp.
    assert (forall k, walk nodes (k + links) cur ((c :: todo) ++ todo2) = walk nodes (k + links) cur (c :: todo ++ todo2))
      as Hk by done. setoid_rewrite Hk. setoid_rewrite walk_cons. clear Hk.
    destruct (_ || _); [by apply IH|]. destruct (String.eqb c ".."); [by apply IH|].
    destruct (nodes !! (cur ++ [c])) as [[y| |a t]|] eqn:En; [|by apply IH| |by destruct todo].
    + destruct todo; [|done]. injection E as <-. rewrite (Hp (cur ++ [c])) in En; [done|by destruct cur|done].
    + destruct links as [|links]; [done|]. destruct (IHl links ltac:(lia) _ _ _ E Hp) as (n & Hn & Hk).
      exists n. split; [lia|]. intros k. rewrite <-plus_n_Sm, app_assoc. apply Hk.
Qed.
End walks.

(** ** What the check lets through *)

Lemma EvalSymlinks_spec fs p r :
  wf_fs fs -> Forall name p -> EvalSymlinks fs p = Ok r -> real (fs_nodes fs) r /\ Forall name r.
Proof.
  intros Hwf Hp. unfold EvalSymlinks.
  assert (Forall (fun c => no_slash c = true) p) as Hns by (eapply Forall_impl; [exact Hp|]; by intros c [? _]).
  pose proof (walk_spec (fs_nodes fs) (wf_links fs Hwf) 255 p [] (real_dir_nil _) ltac:(constructor) Hns) as Hs.
  destruct (walk _ _ _ _) as [[q|q]|e]; [|done..]. by intros [= <-].
Qed.

(** A path that resolves; what is left when only its parent does. *)
Inductive resolves (fs : FS) (abs : path) : path -> Prop :=
  | res_real r : real (fs_nodes fs) r -> resolves fs abs r
  | res_parent dir c par :
      abs = dir ++ [c] -> EvalSymlinks fs dir = Ok par -> real (fs_nodes fs) par ->
      (forall q, walk (fs_nodes fs) 255 [] abs <> Ok (Found q)) -> resolves fs abs (par ++ [c]).

Lemma resolvePath_spec fs abs r :
  wf_fs fs -> Forall name abs -> resolvePath fs abs = Ok r -> Forall name r /\ resolves fs abs r.
Proof.
  intros Hwf Hn. unfold resolvePath. destruct (EvalSymlinks fs abs) as [r'|e] eqn:E.
  - intros [= <-]. destruct (EvalSymlinks_spec fs abs r' Hwf Hn E). split; [done|by constructor].
  - destruct (EvalSymlinks fs (removelast abs)) as [par|] eqn:Ep; [|done]. intros [= <-].
    destruct abs as [|c dir _] using rev_ind; [done|]. rewrite removelast_last in Ep. rewrite List.last_last.
    apply Forall_app in Hn as [Hd Hc]. destruct (EvalSymlinks_spec fs dir par Hwf Hd Ep) as [Hr Hp].
    split; [by apply Forall_app|]. eapply res_parent; [done..|]. intros q Hq. unfold EvalSymlinks in E.
    by rewrite Hq in E.
Qed.

Lemma allows_beneath fs r prefix :
  wf_fs fs -> Forall name r ->
  allows fs r prefix = true <-> exists p, filepath_Abs fs prefix = Ok p /\ beneath p r.
Proof.
  intros Hwf Hr. unfold allows. destruct (filepath_Abs fs prefix) as [p|] eqn:E.
  - rewrite render_beneath; [|eapply filepath_Abs_names; [apply (wf_cwd fs Hwf)|done]|done].
    split; [by exists p|by intros (? & [= <-] & ?)].
  - split; [done|by intros (? & ? & _)].
Qed.

(** In an allowed directory. *)
Definition allowed_at (fs : FS) (allowed : list string) (r : path) : Prop :=
  exists prefix p, prefix ∈ allowed /\ filepath_Abs fs prefix = Ok p /\ beneath p r.

Lemma safePath_Ok fs raw allowed r :
  wf_fs fs -> safePath fs raw allowed = Ok r ->
  exists abs, filepath_Abs fs raw = Ok abs /\ Forall name abs /\ Forall name r /\
    resolves fs abs r /\ allowed_at fs allowed r.
Proof.
  intros Hwf. unfold safePath. destruct (String.eqb raw ""); [done|].
  destruct (filepath_Abs fs raw) as [abs|] eqn:Ea; [|done].
  assert (Forall name abs) as Hn by (eapply filepath_Abs_names; [apply (wf_cwd fs Hwf)|done]).
  destruct (resolvePath fs abs) as [r'|] eqn:Er; [|done].
  destruct (existsb _ allowed) eqn:Eb; [|done]. intros [= ->].
  destruct (resolvePath_spec fs abs r Hwf Hn Er) as [Hnr Hres]. exists abs. split_and!; [done..|].
  apply existsb_exists in Eb as (prefix & Hin & Hal).
  apply allows_beneath in Hal as (p & Hp & Hb); [|done..]. exists prefix, p. by rewrite list_elem_of_In.
Qed.

(** * What the file tools can reach

    The tools stay within the allowed directories as long as no path goes through more
    links than the resolution follows and no link dangles; two ways out when one does. *)

Section contained.
Context {F W : Type} `{Num F} `{!HasFS W} `{!FileInfo} `{!Render}.
Implicit Types (cfg : Config) (params : Params) (fs : FS).

(** The path goes through no more links than [EvalSymlinks] follows. *)
Definition within_limit fs (raw : string) : Prop :=
  forall abs n q, filepath_Abs fs raw = Ok abs ->
    walk (fs_nodes fs) n [] abs = Ok (Found q) -> walk (fs_nodes fs) 255 [] abs = Ok (Found q).

Lemma os_walk_real fs p : Forall name p -> real (fs_nodes fs) p -> os_walk fs p = Ok (Found p).
Proof. intros Hn Hr. unfold os_walk. by apply (walk_real _ 40 p []). Qed.

(** The kernel does not get through a path whose resolution failed. *)
Lemma os_walk_parent fs abs dir c par q :
  abs = dir ++ [c] -> EvalSymlinks fs dir = Ok par -> real (fs_nodes fs) par ->
  Forall name (par ++ [c]) ->
  (forall n q, walk (fs_nodes fs) n [] abs <> Ok (Found q)) ->
  os_walk fs (par ++ [c]) <> Ok (Found q).
Proof.
  intros -> Ep Hr Hn Hno E. apply Forall_app in Hn as [Hp Hc]. inversion Hc; subst.
  assert (walk (fs_nodes fs) 255 [] dir = Ok (Found par)) as Ew.
  { unfold EvalSymlinks in Ep. destruct (walk _ _ _ _) as [[r|r]|]; congruence. }
  destruct Hr as [Hd|(d & f & x & -> & Hd & Hx)].
  - unfold os_walk in E. rewrite walk_real_dir in E by done.
    destruct (walk_app (fs_nodes fs) [c] 255 dir [] par Ew Hd) as (n & Hle & Hk).
    apply (Hno (40 + 255) q). rewrite Hk. eapply walk_mono; [exact E|lia].
  - unfold os_walk in E. apply Forall_app in Hp as [Hdn Hf]. inversion Hf; subst.
    rewrite <-app_assoc, walk_real_dir in E by done. change ([f] ++ [c]) with [f; c] in E.
    rewrite walk_name, Hx in E by done. discriminate E.
Qed.

Lemma within_limit_fails fs raw abs :
  within_limit fs raw -> filepath_Abs fs raw = Ok abs ->
  (forall q, walk (fs_nodes fs) 255 [] abs <> Ok (Found q)) ->
  forall n q, walk (fs_nodes fs) n [] abs <> Ok (Found q).
Proof. intros Hl Ha Hno n q E. eapply Hno, Hl; done. Qed.

(** What a path that passes the check leads to, when it leads anywhere. *)
Lemma checked_walk fs raw allowed r q :
  wf_fs fs -> within_limit fs raw -> safePath fs raw allowed = Ok r ->
  os_walk fs r = Ok (Found q) -> q = r /\ real (fs_nodes fs) r /\ allowed_at fs allowed r.
Proof.
  intros Hwf Hl Hs Hw. destruct (safePath_Ok fs raw allowed r Hwf Hs) as (abs & Ha & _ & Hn & Hres & Hal).
  destruct Hres as [r Hr|dir c par Ed Ep Hr Hno].
  - rewrite os_walk_real in Hw by done. by injection Hw as <-.
  - exfalso. eapply os_walk_parent; [exact Ed|exact Ep|exact Hr|exact Hn| |exact Hw].
    by eapply within_limit_fails.
Qed.

Lemma stat_found fs p n : os_Stat fs p = Ok n -> exists q, os_walk fs p = Ok (Found q) /\ node_at (fs_nodes fs) q = Some n.
Proof.
  unfold os_Stat. destruct (os_walk fs p) as [[q|q]|]; [|done..].
  destruct (node_at (fs_nodes fs) q) eqn:E; [|done]. intros [= ->]. by exists q.
Qed.

(** C6: What [file_read] reads, on a well-formed file system and for a path that does not lead
    through more links than [EvalSymlinks] follows (255; [link_limit_escape] shows that a
    longer one can read anything).  It never changes the world; when it answers, the path it
    read has no links on the way, lies in an allowed directory, and the answer is what is
    there: a file within the size limit, cut at the limit for outputs, or the list of a
    directory. *)
Theorem file_read_contained cfg params (w : W) :
  wf_fs (get_fs w) -> within_limit (get_fs w) (stringOrEmpty params "path") ->
  (read_Execute cfg params w).2 = w /\
  forall res, (read_Execute cfg params w).1 = Ok res ->
    exists p, allowed_at (get_fs w) (fc_AllowedPaths cfg) p /\ real (fs_nodes (get_fs w)) p /\
      ((exists content, fs_nodes (get_fs w) !! p = Some (NFile content) /\
          (Z.of_nat (String.length content) <= maxSize cfg)%Z /\
          tr_Output res = TruncateOutput content MaxOutputBytes) \/
       (node_at (fs_nodes (get_fs w)) p = Some NDir /\
          tr_Output res = TruncateOutput (String.concat "" (map entry_line (entries (fs_nodes (get_fs w)) p)))
                            MaxOutputBytes)).
Proof.
  intros Hwf Hl. split; [done|]. intros res. unfold read_Execute. simpl.
  destruct (safePath _ _ _) as [r|] eqn:Es; [|done].
  pose proof (fun q => checked_walk _ _ _ r q Hwf Hl Es) as Hc.
  destruct (String.eqb _ "list").
  - unfold listDir, os_ReadDir. destruct (os_walk _ r) as [[q|q]|] eqn:Ew; [|done..].
    destruct (Hc q eq_refl) as (-> & Hr & Ha). destruct (node_at _ r) as [[]|] eqn:En; [done| |done..].
    intros [= <-]. exists r. split_and!; [done..|]. by right.
  - unfold readFile, os_ReadFile. destruct (os_Stat (get_fs w) r) as [n|] eqn:Est; [|done].
    destruct (stat_found _ r n Est) as (q & Eq & En). destruct (Hc q Eq) as (-> & Hr & Ha).
    destruct n as [content| |a t]; [|done|by destruct (_ <? _)%Z].
    destruct (Z.ltb_spec (maxSize cfg) (Z.of_nat (String.length content))); [done|].
    intros [= <-]. exists r. split_and!; [done..|]. left. exists content. split_and!; [|lia|done].
    unfold node_at in En. by case_bool_decide.
Qed.

Lemma MkdirAll_real fs p : Forall name p -> real (fs_nodes fs) p -> (os_MkdirAll fs p).2 = fs.
Proof.
  intros Hn Hr. assert (exists n, os_Stat fs p = Ok n) as [n En].
  { unfold os_Stat. rewrite os_walk_real by done. unfold node_at. case_bool_decide as Hp; [by eexists|].
    destruct Hr as [Hr|(d & c & x & _ & _ & ->)]; [|by eexists]. rewrite (Hr p Hp); [by eexists|done]. }
  unfold os_MkdirAll. destruct (length p); simpl; rewrite En; by destruct n.
Qed.

(** No link in an allowed directory leads to a missing entry. *)
Definition no_dangling fs (allowed : list string) : Prop :=
  forall r a t q, allowed_at fs allowed r -> fs_nodes fs !! r = Some (NLink a t) -> os_walk fs r <> Ok (Missing q).

Lemma checked_missing fs raw allowed r q :
  wf_fs fs -> no_dangling fs allowed -> safePath fs raw allowed = Ok r ->
  os_walk fs r = Ok (Missing q) -> q = r /\ allowed_at fs allowed r.
Proof.
  intros Hwf Hd Hs Hw. destruct (safePath_Ok fs raw allowed r Hwf Hs) as (abs & Ha & _ & Hn & Hres & Hal).
  split; [|done]. destruct Hres as [r Hr|dir c par Ed Ep Hr Hno]; [by rewrite os_walk_real in Hw|].
  pose proof Hn as [Hp Hc]%Forall_app. inversion Hc; subst.
  destruct Hr as [Hr|(d & f & x & -> & Hr & Hx)].
  - pose proof Hw as Hw2. unfold os_walk in Hw2. rewrite walk_real_dir, walk_name in Hw2 by done.
    destruct (fs_nodes fs !! (par ++ [c])) as [[y| |a t]|] eqn:E; [done| | |by injection Hw2 as <-].
    + by rewrite walk_nil in Hw2.
    + by destruct (Hd _ a t q Hal E).
  - exfalso. unfold os_walk in Hw. apply Forall_app in Hp as [Hdn Hf]. inversion Hf; subst.
    rewrite <-app_assoc, walk_real_dir in Hw by done. change ([f] ++ [c]) with [f; c] in Hw.
    by rewrite walk_name, Hx in Hw.
Qed.

Lemma parent_real fs raw allowed r :
  wf_fs fs -> safePath fs raw allowed = Ok r -> real (fs_nodes fs) (removelast r) /\ Forall name (removelast r).
Proof.
  intros Hwf Hs. destruct (safePath_Ok fs raw allowed r Hwf Hs) as (abs & _ & _ & Hn & Hres & _).
  split; [|by apply Forall_removelast]. destruct Hres as [r Hr|dir c par _ _ Hr _].
  - destruct r as [|c d _] using rev_ind; [done|]. rewrite removelast_last. left. by eapply real_snoc.
  - by rewrite removelast_last.
Qed.

(** C7: What [file_write] changes, on a well-formed file system, for a path that does not lead
    through more links than [EvalSymlinks] follows, when no link in an allowed directory
    dangles ([dangling_link_escape] shows that a write goes through one that does).  It
    changes nothing at all, or exactly one entry, a file with the content given, that lies in
    an allowed directory; it answers in the second case and fails in the first.  No
    directory is ever made. *)
Theorem file_write_contained cfg params (w : W) :
  wf_fs (get_fs w) -> within_limit (get_fs w) (stringOrEmpty params "path") ->
  no_dangling (get_fs w) (fc_AllowedPaths cfg) ->
  let content := stringOrEmpty params "content" in
  let '(res, w') := write_Execute cfg params w in
  (exists p, allowed_at (get_fs w) (fc_AllowedPaths cfg) p /\
     get_fs w' = put_node (get_fs w) p (NFile content) /\ is_ok res = true) \/
  (get_fs w' = get_fs w /\ is_ok res = false).
Proof.
  intros Hwf Hl Hd. unfold write_Execute. destruct (safePath _ _ _) as [r|] eqn:Es; [|by right].
  destruct (parent_real _ _ _ r Hwf Es) as [Hpr Hpn].
  pose proof (MkdirAll_real _ _ Hpn Hpr) as Hm. destruct (os_MkdirAll _ _) as [[e|] fs1]; simpl in Hm; subst fs1.
  { rewrite get_set_fs. by right. }
  unfold os_WriteFile. destruct (os_walk (get_fs w) r) as [[q|q]|e] eqn:Ew.
  - destruct (checked_walk _ _ _ r q Hwf Hl Es Ew) as (-> & _ & Ha).
    destruct (node_at _ r) as [[]|]; rewrite get_set_fs; (by right) || (left; by exists r).
  - destruct (checked_missing _ _ _ r q Hwf Hd Es Ew) as (-> & Ha). rewrite get_set_fs. left. by exists r.
  - rewrite get_set_fs. by right.
Qed.
End contained.

(** ** Ways out *)

Section escapes.
Context {F W : Type} `{Num F} `{!HasFS W} `{!FileInfo} `{!Render}.
Implicit Types (nodes : gmap path node).

Lemma split_slash_app c s :
  no_slash c = true -> split_slash (c +:+ s) =
  match split_slash s with x :: xs => (c +:+ x) :: xs | [] => [c] end.
Proof.
  assert (split_slash s <> []) as Hs.
  { destruct s as [|a s]; simpl; [done|]. destruct (Ascii.eqb a slash); [done|]. by destruct (split_slash s). }
  induction c as [|a c IH]; intros Hc.
  - change ("" +:+ s) with s. destruct (split_slash s); done.
  - apply no_slash_cons in Hc as [Ha Hc]. change (String a c +:+ s) with (String a (c +:+ s)). simpl.
    rewrite (proj2 (Ascii.eqb_neq a slash) Ha), (IH Hc). by destruct (split_slash s).
Qed.

Lemma split_dirs p : Forall name p -> split_slash (dirs p) = "" :: p.
Proof.
  assert (forall s, s +:+ "" = s) as Hnil by (induction s as [|c s IH]; [done|]; simpl; by rewrite <-IH at 2).
  induction 1 as [|c p Hc Hp IH]; [done|]. rewrite dirs_cons. simpl. f_equal.
  destruct Hc as [Hc _]. rewrite (split_slash_app c (dirs p) Hc), IH. f_equal. apply Hnil.
Qed.

Lemma clean_clean p : Forall name p -> clean p = p.
Proof.
  unfold clean. assert (forall acc, Forall name p -> fold_left clean_step p acc = acc ++ p) as Hc; [|apply (Hc [])].
  induction p as [|c p IH]; intros acc Hp; simpl; [by rewrite app_nil_r|].
  inversion Hp as [|? ? (_ & N1 & N2 & N3) Hp']; subst. rewrite IH by done. unfold clean_step.
  rewrite (proj2 (String.eqb_neq _ _) N1), (proj2 (String.eqb_neq _ _) N2), (proj2 (String.eqb_neq _ _) N3).
  simpl. by rewrite <-app_assoc.
Qed.

(** The text of a clean path stands for it. *)
Lemma Abs_render fs p : Forall name p -> filepath_Abs fs (render p) = Ok p.
Proof.
  intros Hp. unfold filepath_Abs. assert (has_prefix (render p) "/" = true) as ->.
  { destruct p as [|c p]; [done|]. change (String.prefix (String slash "") (String slash (c +:+ dirs p)) = true).
    apply prefix_cons. split; [done|]. by destruct (c +:+ dirs p). }
  f_equal. destruct p as [|c p]; [done|]. change (render (c :: p)) with (dirs (c :: p)).
  rewrite split_dirs by done. unfold clean. simpl. by apply (clean_clean (c :: p)).
Qed.

Lemma render_not_empty p : String.eqb (render p) "" = false.
Proof. by destruct p. Qed.

(** A link to its own directory uses up a followed link each time. *)
Lemma walk_self nodes d l n k rest :
  name l -> nodes !! (d ++ [l]) = Some (NLink false ["."]) ->
  walk nodes (n + k) d (replicate n l ++ rest) = walk nodes k d rest.
Proof.
  intros Hl Hn. induction n as [|n IH]; [done|].
  change (replicate (Datatypes.S n) l ++ rest) with (l :: replicate n l ++ rest).
  change (Datatypes.S n + k) with (Datatypes.S (n + k)). rewrite walk_name, Hn by done.
  change (["."] ++ ?r) with ("." :: r). by rewrite walk_cons.
Qed.

Context (fs : FS) (cfg : Config) (d : path) (l s prefix : string).
Context (Hnames : Forall name (d ++ [l; s])) (Hdir : real_dir (fs_nodes fs) d).
Context (Hprefix : filepath_Abs fs prefix = Ok d) (Hallowed : prefix ∈ fc_AllowedPaths cfg).


Lemma link_names : Forall name d /\ name l /\ name s.
Proof. apply Forall_app in Hnames as [? Hls]. inversion Hls as [|? ? ? Hs]; subst. by inversion Hs. Qed.

(** A link in the allowed directory that is not followed passes the check. *)
Lemma link_passes raw dir n :
  String.eqb raw "" = false -> filepath_Abs fs raw = Ok (dir ++ [s]) ->
  (forall q, walk (fs_nodes fs) 255 [] (dir ++ [s]) <> Ok (Found q)) ->
  walk (fs_nodes fs) n [] dir = Ok (Found d) -> n <= 255 -> d <> [] ->
  safePath fs raw (fc_AllowedPaths cfg) = Ok (d ++ [s]).
Proof.
  destruct link_names as (Hd & Hl & Hs). intros Hraw Ha Hno Hw Hn Hne. unfold safePath. rewrite Hraw, Ha.
  assert (resolvePath fs (dir ++ [s]) = Ok (d ++ [s])) as ->.
  { unfold resolvePath, EvalSymlinks. rewrite removelast_last, List.last_last.
    rewrite (walk_mono _ n dir [] (Found d) 255 Hw Hn).
    destruct (walk _ 255 [] (dir ++ [s])) as [[q|q]|]; [by destruct (Hno q)|done..]. }
  assert (existsb (allows fs (d ++ [s])) (fc_AllowedPaths cfg) = true) as ->; [|done].
  apply existsb_exists. exists prefix. split; [by apply list_elem_of_In|]. unfold allows. rewrite Hprefix.
  apply render_beneath; [done|by apply Forall_app; split; [|by apply Forall_singleton]|].
  right. split; [done|by apply prefix_app_r].
Qed.

(** The parameters that name a path. *)
Lemma path_param raw fields :
  String.eqb raw "" = false -> stringOrEmpty (object (("path", AString raw) :: fields)) "path" = raw.
Proof.
  intros Hr. apply stringOrEmpty_Ok. apply requireString_Ok. split; [|by apply String.eqb_neq].
  unfold param, object. simpl. by rewrite lookup_insert_eq.
Qed.

Context (q : path) (absolute : bool) (target : path) (Hne : d <> []).
Context (Hlink : fs_nodes fs !! (d ++ [s]) = Some (NLink absolute target)).

(** A long path reads through a link.  Let an allowed directory have a link to itself
    and a link to a file anywhere.  The path of the second link passes the check only when
    the file is allowed; with the first link 255 times before it, the resolution gives up,
    the parent alone resolves, the check passes, and the file is read wherever it is. *)
Theorem link_limit_escape content (w : W) :
  get_fs w = fs -> fs_nodes fs !! (d ++ [l]) = Some (NLink false ["."]) ->
  os_walk fs (d ++ [s]) = Ok (Found q) -> node_at (fs_nodes fs) q = Some (NFile content) ->
  (Z.of_nat (String.length content) <= maxSize cfg)%Z ->
  is_ok (safePath fs (render (d ++ [s])) (fc_AllowedPaths cfg)) = existsb (allows fs q) (fc_AllowedPaths cfg) /\
  exists meta, (read_Execute cfg (object [("path", AString (render (d ++ replicate 255 l ++ [s])))]) w).1 =
    Ok (mkToolResult (TruncateOutput content MaxOutputBytes) meta true).
Proof.
  intros Hfs Hself Hw Hfile Hsize. destruct link_names as (Hd & Hl & Hs).
  assert (Forall name (replicate 255 l)) as Hrep by (apply Forall_replicate; exact Hl). split.
  - unfold safePath. rewrite render_not_empty, Abs_render
      by (apply Forall_app; split; [done|by apply Forall_singleton]).
    unfold resolvePath, EvalSymlinks. unfold os_walk in Hw.
    rewrite (walk_mono _ 40 _ [] _ 255 Hw) by lia. by destruct (existsb _ _).
  - set (raw := render _). assert (filepath_Abs fs raw = Ok ((d ++ replicate 255 l) ++ [s])) as Ha.
    { rewrite <-app_assoc. apply Abs_render. rewrite !Forall_app. split_and!; [done..|by apply Forall_singleton]. }
    assert (safePath fs raw (fc_AllowedPaths cfg) = Ok (d ++ [s])) as Hsafe.
    { apply (link_passes raw (d ++ replicate 255 l) 255); [apply render_not_empty|exact Ha| | |lia|exact Hne].
      - intros x. rewrite <-app_assoc, walk_real_dir by done.
        pose proof (walk_self _ d l 255 0 [s] Hl Hself) as E. change (255 + 0) with 255 in E. rewrite E. by rewrite walk_name, Hlink.
      - rewrite walk_real_dir by done. rewrite <-(app_nil_r (replicate 255 l)).
        pose proof (walk_self _ d l 255 0 [] Hl Hself) as E. change (255 + 0) with 255 in E. rewrite E. apply walk_nil. }
    unfold read_Execute. cbn [fst]. rewrite path_param, Hfs, Hsafe by apply render_not_empty.
    assert (os_Stat fs (d ++ [s]) = Ok (NFile content)) as Hst by (unfold os_Stat; by rewrite Hw, Hfile).
    simpl. unfold readFile. rewrite Hfs, Hst. destruct (Z.ltb_spec (maxSize cfg) (Z.of_nat (String.length content))); [lia|].
    unfold os_ReadFile. rewrite Hst. by eexists.
Qed.

(** A dangling link is written through.  When a link in an allowed directory leads to
    a missing entry of an existing directory, anywhere, its path passes the check, because
    the resolution fails and its parent alone resolves, and a write makes the file there. *)
Theorem dangling_link_escape content (w : W) :
  get_fs w = fs -> os_walk fs (d ++ [s]) = Ok (Missing q) -> content <> "" ->
  let '(res, w') := write_Execute cfg
    (object [("path", AString (render (d ++ [s]))); ("content", AString content)]) w in
  is_ok res = true /\ get_fs w' = put_node fs q (NFile content).
Proof.
  intros Hfs Hw Hc. destruct link_names as (Hd & Hl & Hs).
  assert (filepath_Abs fs (render (d ++ [s])) = Ok (d ++ [s])) as Ha
    by (apply Abs_render, Forall_app; split; [done|by apply Forall_singleton]).
  assert (safePath fs (render (d ++ [s])) (fc_AllowedPaths cfg) = Ok (d ++ [s])) as Hsafe.
  { apply (link_passes _ d 255); [apply render_not_empty|exact Ha| | |lia|exact Hne].
    - intros x E. unfold os_walk in Hw. pose proof (walk_mono _ 40 _ [] _ 255 Hw). rewrite H2 in E by lia. done.
    - by apply (walk_real _ 255 d []); [|left]. }
  unfold write_Execute. rewrite path_param, Hfs, Hsafe by apply render_not_empty.
  rewrite removelast_last. pose proof (MkdirAll_real fs d Hd (or_introl Hdir)) as Hm.
  assert ((os_MkdirAll fs d).1 = None) as Hm1.
  { assert (os_Stat fs d = Ok NDir) as Est.
    { unfold os_Stat. rewrite os_walk_real by (done || by left). unfold node_at.
      rewrite bool_decide_false by done. by rewrite (Hdir d Hne). }
    unfold os_MkdirAll. destruct (length d); simpl; by rewrite Est. }
  destruct (os_MkdirAll fs d) as [e fs1]. simpl in Hm, Hm1. subst e fs1.
  unfold os_WriteFile. rewrite Hw. rewrite get_set_fs. split; [done|]. do 2 f_equal.
  apply stringOrEmpty_Ok, requireString_Ok. split; [|done]. unfold param, object. simpl.
  rewrite lookup_insert_ne by done. apply lookup_insert_eq.
Qed.
End escapes.

(** ** Allowed directories behind links *)

(** An allowed directory behind a link allows nothing.  The paths are resolved but the
    allow list is not: when every allowed directory other than the root has a link on its
    way, or is one, no path is accepted but the root itself and links; the root allows
    nothing below it either. *)
Theorem linked_prefix_denies fs raw allowed r :
  wf_fs fs ->
  (forall prefix p, prefix ∈ allowed -> filepath_Abs fs prefix = Ok p -> p <> [] ->
     exists k a t, k <> [] /\ k `prefix_of` p /\ fs_nodes fs !! k = Some (NLink a t)) ->
  safePath fs raw allowed = Ok r -> r = [] \/ exists a t, fs_nodes fs !! r = Some (NLink a t).
Proof.
  intros Hwf Hlink Hs. destruct (safePath_Ok fs raw allowed r Hwf Hs) as (abs & _ & _ & _ & Hres & Hal).
  destruct Hal as (prefix & p & Hin & Ha & Hb).
  destruct (decide (p = [])) as [->|Hp]; [destruct Hb as [?|[Hno _]]; [by left|done]|].
  destruct (Hlink prefix p Hin Ha Hp) as (k & a & t & Hk & Hkp & Hl).
  assert (k `prefix_of` r) as Hkr by (destruct Hb as [->|[_ ?]]; [done|by etrans]).
  assert (forall x, real (fs_nodes fs) x -> k `prefix_of` x -> False) as Hno.
  { intros x [Hx|(d & c & y & -> & Hd & Hy)] Hkx; [by rewrite (Hx k Hk Hkx) in Hl|].
    apply prefix_snoc in Hkx as [Hkd| ->]; [by rewrite (Hd k Hk Hkd) in Hl|congruence]. }
  destruct Hres as [r Hr|dir c par _ _ Hr _]; [by destruct (Hno r)|].
  apply prefix_snoc in Hkr as [Hkpar| ->]; [by destruct (Hno par)|]. right. by exists a, t.
Qed.
