(* ===== verification/WebTool.v ===== *)
(** * The web tools

    [src/internal/tools/web/web.go], [web/ssrf.go] and [src/internal/tools/browser/browser.go]:
    fetching a page of an allowed domain.  The network ([HttpClient]) parses URLs, resolves
    names and makes single requests; following redirects, as [http.Client.Do] does, is
    written out.  The second part has the properties of both tools. *)

From S2P Require Import Prelude Text Security LLM ToolValues.

(** ** Addresses *)

(** [net.IP] as [net.ParseIP] gives it: 16 bytes. *)
Abbreviation IP := (list Z).

Definition To4 (ip : IP) : option (list Z) :=
  if bool_decide (length ip = 16) && bool_decide (take 12 ip = replicate 10 0%Z ++ [255; 255]%Z)
  then Some (drop 12 ip) else None.

Definition byte (ip : list Z) (i : nat) : Z := nth i ip 0%Z.

Definition IsLoopback (ip : IP) : bool :=
  match To4 ip with
  | Some ip4 => (byte ip4 0 =? 127)%Z
  | None => bool_decide (ip = replicate 15 0 ++ [1])%Z
  end.

Definition IsLinkLocalUnicast (ip : IP) : bool :=
  match To4 ip with
  | Some ip4 => (byte ip4 0 =? 169)%Z && (byte ip4 1 =? 254)%Z
  | None => bool_decide (length ip = 16) && (byte ip 0 =? 254)%Z && (Z.land (byte ip 1) 192 =? 128)%Z
  end.

Definition IsLinkLocalMulticast (ip : IP) : bool :=
  match To4 ip with
  | Some ip4 => (byte ip4 0 =? 224)%Z && (byte ip4 1 =? 0)%Z && (byte ip4 2 =? 0)%Z
  | None => bool_decide (length ip = 16) && (byte ip 0 =? 255)%Z && (Z.land (byte ip 1) 15 =? 2)%Z
  end.

Definition IsUnspecified (ip : IP) : bool :=
  bool_decide (ip = replicate 10 0 ++ [255; 255; 0; 0; 0; 0])%Z || bool_decide (ip = replicate 16 0)%Z.

(** [IPNet.Contains] of an IPv4 network. *)
Definition cidr_Contains (nn mask : list Z) (ip : IP) : bool :=
  let ip := default ip (To4 ip) in
  bool_decide (length ip = length nn) &&
  forallb (fun '(n, m, b) => (Z.land n m =? Z.land b m)%Z) (zip (zip nn mask) ip).

Definition privateRanges : list (list Z * list Z) :=
  [([10; 0; 0; 0], [255; 0; 0; 0]); ([172; 16; 0; 0], [255; 240; 0; 0]);
   ([192; 168; 0; 0], [255; 255; 0; 0]); ([169; 254; 0; 0], [255; 255; 0; 0])]%Z.

Definition IsPrivateIP (ip : IP) : bool :=
  if IsLoopback ip then true
  else if IsLinkLocalUnicast ip || IsLinkLocalMulticast ip then true
  else if IsUnspecified ip then true
  else if existsb (fun '(nn, m) => cidr_Contains nn m ip) privateRanges then true
  else bool_decide (length ip = 16) && (Z.land (byte ip 0) 254 =? 252)%Z.

(** ** The network *)

Record URL := mkURL { u_Scheme : string; u_Hostname : string; u_String : string }.

(** A response: its status, the [Location] header and the [Content-Type], and what reading
    its body gives: bytes, then an error or the end. *)
Record http_response := mkHttpResponse {
  hr_StatusCode : Z;
  hr_Location : string;
  hr_ContentType : string;
  hr_Body : string;
  hr_BodyError : option error;
}.

(** [http_RoundTrip] is one request, under a timeout. *)
Class HttpClient (W : Type) := {
  url_Parse : string -> result error URL;
  url_Resolve : URL -> string -> result error URL;
  net_ParseIP : string -> option IP;
  net_LookupHost : string -> W -> result error (list string) * W;
  http_BadRequest : string -> string -> option error;
  http_RoundTrip : Duration -> string -> URL -> W -> result error http_response * W;
}.

(** [strings.ToUpper], as [to_lower]. *)
Definition upper_ascii (c : Ascii.ascii) : Ascii.ascii :=
  let n := Ascii.N_of_ascii c in
  if ((97 <=? n) && (n <=? 122))%N then Ascii.ascii_of_N (n - 32) else c.
Fixpoint to_upper (s : string) : string :=
  match s with EmptyString => EmptyString | String c s => String (upper_ascii c) (to_upper s) end.

Definition IsDomainAllowed (host : string) (allowedDomains : list string) : bool :=
  let host := to_lower host in
  existsb (fun d => String.eqb (to_lower d) host) allowedDomains.

(** The method of the request a redirect leads to; [None] when it is no redirect. *)
Definition redirect_method (status : Z) (method : string) : option string :=
  if bool_decide (status ∈ [301; 302; 303]%Z)
  then Some (if String.eqb method "GET" || String.eqb method "HEAD" then method else "GET")
  else if bool_decide (status ∈ [307; 308]%Z) then Some method
  else None.

Section tools.
Context {F W : Type} `{Num F} `{!HttpClient W}.

(** The addresses of a host in order; the first that is private or no address decides. *)
Fixpoint check_ips (ips : list string) : option error :=
  match ips with
  | [] => None
  | ipStr :: ips =>
      match net_ParseIP ipStr with
      | None => Some (Errorf "invalid IP")
      | Some ip => if IsPrivateIP ip then Some (Errorf "SSRF blocked: host resolves to private IP")
                   else check_ips ips
      end
  end.

Definition CheckSSRF (host : string) : st W (option error) :=
  ips ← (net_LookupHost host : st W (result error (list string)));
  mret (match ips with
        | Err err => Some (Wrap "DNS resolution failed" err)
        | Ok ips => check_ips ips
        end).

(** [checkRedirect]: [via] is the number of requests made. *)
Definition checkRedirect (allowed : list string) (u : URL) (via : nat) : st W (option error) :=
  if (5 <=? via)%nat then mret (Some (Errorf "too many redirects (max 5)"))
  else if negb (IsDomainAllowed (u_Hostname u) allowed)
  then mret (Some (Errorf "redirect to disallowed domain blocked"))
  else CheckSSRF (u_Hostname u).

(** [client.Do]: the answer and the URL it came from. *)
Fixpoint client_Do (fuel : nat) (check : URL -> nat -> st W (option error)) (timeout : Duration)
    (method : string) (u : URL) (via : nat) : st W (result error (http_response * URL)) :=
  r ← (http_RoundTrip timeout method u : st W (result error http_response));
  match r with
  | Err err => mret (Err err)
  | Ok resp =>
      match redirect_method (hr_StatusCode resp) method with
      | None => mret (Ok (resp, u))
      | Some method =>
          if String.eqb (hr_Location resp) "" then mret (Ok (resp, u))
          else
            match url_Resolve u (hr_Location resp), fuel with
            | Err err, _ => mret (Err err)
            | Ok _, O => mret (Err (Errorf "stopped"))
            | Ok u, S fuel =>
                bad ← check u (S via);
                match bad with
                | Some err => mret (Err err)
                | None => client_Do fuel check timeout method u (S via)
                end
            end
      end
  end.

(** The check refuses a sixth request, so the fuel is never used up. *)
Definition max_requests : nat := 5.

(** [io.ReadAll] of an [io.LimitReader]. *)
Definition read_limited (resp : http_response) (n : Z) : result error string :=
  if (n <=? Z.of_nat (String.length (hr_Body resp)))%Z then Ok (str_take (Z.to_nat n) (hr_Body resp))
  else match hr_BodyError resp with Some err => Err err | None => Ok (hr_Body resp) end.

(** The body cut at the limit, and whether it was. *)
Definition read_body (resp : http_response) (maxBytes : Z) : result error (string * bool) :=
  match read_limited resp (maxBytes + 1) with
  | Err err => Err (Wrap "reading response" err)
  | Ok body =>
      if (maxBytes <? Z.of_nat (String.length body))%Z then Ok (str_take (Z.to_nat maxBytes) body, true)
      else Ok (body, false)
  end.

(** ** web_fetch *)

Record WebConfig := mkWebConfig {
  wc_AllowedDomains : list string;
  wc_MaxResponseBytes : Z;
  wc_TimeoutSeconds : Z;
}.

Definition web_method (params : Params) : string :=
  match param_string params "method" with
  | Some m => if String.eqb m "" then "GET" else to_upper m
  | None => "GET"
  end.

Definition web_Validate (cfg : WebConfig) (params : Params) : option error :=
  match requireString params "url" with
  | Err err => Some err
  | Ok rawURL =>
      match url_Parse rawURL with
      | Err err => Some (Wrap "invalid URL" err)
      | Ok parsed =>
          if negb (String.eqb (u_Scheme parsed) "http") && negb (String.eqb (u_Scheme parsed) "https")
          then Some (Errorf "only http/https schemes allowed")
          else if negb (IsDomainAllowed (u_Hostname parsed) (wc_AllowedDomains cfg))
          then Some (Errorf "domain is not in the allowlist")
          else if negb (String.eqb (web_method params) "GET") && negb (String.eqb (web_method params) "HEAD")
          then Some (Errorf "only GET and HEAD methods allowed")
          else None
      end
  end.

(** The request both tools make. *)
Definition fetch (allowed : list string) (timeoutSeconds defaultSeconds : Z) (method rawURL : string)
    : st W (result error (http_response * URL)) :=
  match url_Parse rawURL with
  | Err err => mret (Err (Wrap "invalid URL" err))
  | Ok parsed =>
      bad ← CheckSSRF (u_Hostname parsed);
      match bad with
      | Some err => mret (Err err)
      | None =>
          let timeout := (or_int (timeoutSeconds * Second) (defaultSeconds * Second))%Z in
          match http_BadRequest method rawURL with
          | Some err => mret (Err (Wrap "creating request" err))
          | None =>
              r ← client_Do max_requests (checkRedirect allowed) timeout method parsed 0;
              mret (match r with Err err => Err (Wrap "HTTP request failed" err) | Ok r => Ok r end)
          end
      end
  end.

Definition http_success (resp : http_response) : bool :=
  ((200 <=? hr_StatusCode resp) && (hr_StatusCode resp <? 400))%Z.

Definition web_Execute (cfg : WebConfig) (params : Params) : st W (result error (ToolResult Params)) :=
  r ← fetch (wc_AllowedDomains cfg) (wc_TimeoutSeconds cfg) 10 (web_method params) (stringOrEmpty params "url");
  mret (match r with
        | Err err => Err err
        | Ok (resp, u) =>
            match read_body resp (if (wc_MaxResponseBytes cfg <=? 0)%Z then 5242880 else wc_MaxResponseBytes cfg)%Z with
            | Err err => Err err
            | Ok (body, truncated) =>
                Ok (mkToolResult (TruncateOutput body MaxOutputBytes)
                      (object [("status_code", AInt (hr_StatusCode resp)); ("url", AString (u_String u));
                               ("truncated", ABool truncated)]) (http_success resp))
            end
        end).

Definition web_tool (cfg : WebConfig) : Tool F Params W :=
  mkTool "web_fetch" "Fetch content from allowed URLs with SSRF protection"
    (object_schema [("url", prop_schema "string" "The URL to fetch (http or https)");
       ("method", enum_schema ["GET"; "HEAD"] "HTTP method. Defaults to GET")] ["url"])
    (mkAction "web_search" RiskLow) (fun _ => nofZ 0)
    (fun params _ => web_Validate cfg params) (fun _ => web_Execute cfg).

(** ** browser

    The regular expressions of the code, as the matches they make: the leftmost match, and
    the shortest for [.*?]. *)

Definition less_than : Ascii.ascii := Ascii.ascii_of_nat 60.
Definition greater_than : Ascii.ascii := Ascii.ascii_of_nat 62.
Definition blank : Ascii.ascii := Ascii.ascii_of_nat 32.

(** [<[^>]*>] replaced by a blank. *)
Fixpoint replace_tags (n : nat) (s : string) : string :=
  match n, s with
  | O, _ | _, EmptyString => s
  | S n, String a s' =>
      if Ascii.eqb a less_than
      then match cut_char greater_than s' with
           | Some (_, rest) => String blank (replace_tags n rest)
           | None => String a (replace_tags n s')
           end
      else String a (replace_tags n s')
  end.

(** [\s+] replaced by a blank. *)
Fixpoint collapse (in_space : bool) (s : string) : string :=
  match s with
  | EmptyString => ""
  | String a s =>
      if is_space a then (if in_space then collapse true s else String blank (collapse true s))
      else String a (collapse false s)
  end.

Definition stripTags (s : string) : string :=
  TrimSpace (collapse false (replace_tags (String.length s) s)).

(** [s] without a prefix, up to case. *)
Fixpoint drop_prefix_fold (p s : string) : option string :=
  match p, s with
  | EmptyString, _ => Some s
  | String a p, String b s => if Ascii.eqb (lower_ascii a) (lower_ascii b) then drop_prefix_fold p s else None
  | _, EmptyString => None
  end.

(** The text before the first occurrence of [p], up to case, and after it. *)
Fixpoint cut_fold (p s : string) : option (string * string) :=
  match drop_prefix_fold p s with
  | Some rest => Some ("", rest)
  | None =>
      match s with
      | EmptyString => None
      | String a s => match cut_fold p s with Some (x, y) => Some (String a x, y) | None => None end
      end
  end.

(** A match of [(?is)<tag[^>]*>(.*?)</tag>] at the start: its group and the rest. *)
Definition element_at (tag s : string) : option (string * string) :=
  match drop_prefix_fold (String less_than tag) s with
  | None => None
  | Some rest =>
      match cut_char greater_than rest with
      | None => None
      | Some (_, body) => cut_fold (String less_than ("/" +:+ tag +:+ String greater_than "")) body
      end
  end.

(** The groups of all matches, and the text without them. *)
Fixpoint elements (n : nat) (tag s : string) : list string * string :=
  match n with
  | O => ([], s)
  | S n =>
      match element_at tag s with
      | Some (group, rest) => let '(gs, kept) := elements n tag rest in (group :: gs, kept)
      | None =>
          match s with
          | EmptyString => ([], "")
          | String a s => let '(gs, kept) := elements n tag s in (gs, String a kept)
          end
      end
  end.

Definition extractByTag (html tag : string) : string :=
  String.concat "" (map (fun g => g +:+ newline)
    (elements (S (String.length html)) (to_lower (TrimSpace tag)) html).1).

Definition extractText (html selector : string) : string :=
  stripTags (if String.eqb selector "" then html else extractByTag html selector).

Definition extractVisibleText (html : string) : string :=
  let html := (elements (S (String.length html)) "script" html).2 in
  let html := (elements (S (String.length html)) "style" html).2 in
  stripTags html.

Definition browser_Validate (cfg : WebConfig) (params : Params) : option error :=
  match requireString params "url" with
  | Err err => Some err
  | Ok rawURL =>
      match url_Parse rawURL with
      | Err err => Some (Wrap "invalid URL" err)
      | Ok parsed =>
          if negb (String.eqb (u_Scheme parsed) "https") then Some (Errorf "only https scheme allowed")
          else if negb (IsDomainAllowed (u_Hostname parsed) (wc_AllowedDomains cfg))
          then Some (Errorf "domain is not in the browser allowlist")
          else
            match param_string params "action" with
            | Some action =>
                if slice_contains [""; "get"; "extract_text"; "extract_links"; "screenshot_text"] action then None
                else Some (Errorf "unknown action")
            | None => None
            end
      end
  end.

(** *** Links: [a] elements with their quoted [href], the groups the target and the text *)

Definition is_quote (c : Ascii.ascii) : bool :=
  Ascii.eqb c (Ascii.ascii_of_nat 34) || Ascii.eqb c (Ascii.ascii_of_nat 39).

(** The text before the first quote. *)
Fixpoint cut_quote (s : string) : option (string * string) :=
  match s with
  | EmptyString => None
  | String a s => if is_quote a then Some ("", s)
                  else match cut_quote s with Some (x, y) => Some (String a x, y) | None => None end
  end.

(** The text before the first end tag, on one line. *)
Fixpoint cut_end_tag (s : string) : option (string * string) :=
  match drop_prefix "</a>" s with
  | Some rest => Some ("", rest)
  | None =>
      match s with
      | EmptyString => None
      | String a s =>
          if Ascii.eqb a (Ascii.ascii_of_nat 10) then None
          else match cut_end_tag s with Some (x, y) => Some (String a x, y) | None => None end
      end
  end.

(** The match from [href=] on: the target, the text and the rest. *)
Definition link_tail (s : string) : option (string * string * string) :=
  match drop_prefix "href=" s with
  | Some (String q s) =>
      if negb (is_quote q) then None
      else
        match cut_quote s with
        | Some (String a target, s) =>
            match cut_char greater_than s with
            | Some (_, s) =>
                match cut_end_tag s with
                | Some (text, rest) => Some (String a target, text, rest)
                | None => None
                end
            | None => None
            end
        | _ => None
        end
  | _ => None
  end.

(** The attributes before [href=] are as many as possible: the last place that matches. *)
Fixpoint last_link (s : string) : option (string * string * string) :=
  match s with
  | EmptyString => link_tail s
  | String a s' =>
      if Ascii.eqb a greater_than then link_tail s
      else match last_link s' with Some l => Some l | None => link_tail s end
  end.

Definition link_at (s : string) : option (string * string * string) :=
  match drop_prefix "<a" s with
  | Some (String a s) => if is_space a then last_link s else None
  | _ => None
  end.

(** [FindAllStringSubmatch]. *)
Fixpoint links (n : nat) (s : string) : list (string * string) :=
  match n, s with
  | S n, String _ s' =>
      match link_at s with
      | Some (target, text, rest) => (target, text) :: links n rest
      | None => links n s'
      end
  | _, _ => []
  end.

Definition link_line (l : string * string) : string :=
  "[" +:+ TrimSpace (stripTags l.2) +:+ "](" +:+ l.1 +:+ ")" +:+ newline.

Definition extractLinks (html : string) : string :=
  let out := String.concat "" (map link_line (links (String.length html) html)) in
  if String.eqb out "" then "No links found." else out.

Definition browser_output (action selector content : string) : string :=
  if String.eqb action "extract_text" then extractText content selector
  else if String.eqb action "extract_links" then extractLinks content
  else if String.eqb action "screenshot_text" then extractVisibleText content
  else content.

Definition browser_Execute (cfg : WebConfig) (params : Params)
    : st W (result error (ToolResult Params)) :=
  let action := paramOr params "action" "get" in
  let selector := default "" (param_string params "selector") in
  r ← fetch (wc_AllowedDomains cfg) (wc_TimeoutSeconds cfg) 30 "GET" (stringOrEmpty params "url");
  mret (match r with
        | Err err => Err err
        | Ok (resp, u) =>
            match read_body resp (if (wc_MaxResponseBytes cfg <=? 0)%Z then 10485760 else wc_MaxResponseBytes cfg)%Z with
            | Err err => Err err
            | Ok (body, truncated) =>
                Ok (mkToolResult (TruncateOutput (browser_output action selector body) MaxOutputBytes)
                      (object [("status_code", AInt (hr_StatusCode resp)); ("url", AString (u_String u));
                               ("content_type", AString (hr_ContentType resp));
                               ("truncated", ABool truncated); ("action", AString action)]) (http_success resp))
            end
        end).

Definition browser_tool (cfg : WebConfig) : Tool F Params W :=
  mkTool "browser" "Navigate web pages and extract content (text, links) with SSRF protection and domain allowlist. Supports CSS-like content extraction for targeted data retrieval."
    (object_schema [("url", prop_schema "string" "URL to navigate to (https only)");
       ("action", enum_schema ["get"; "extract_text"; "extract_links"; "screenshot_text"] "Action to perform. Default: get");
       ("selector", prop_schema "string" "Simple tag selector to filter content (e.g., 'title', 'h1', 'p', 'a'). Optional.")] ["url"])
    (mkAction "browser_navigate" RiskMedium) (fun _ => nofZ 0)
    (fun params _ => browser_Validate cfg params) (fun _ => browser_Execute cfg).
End tools.

(** * What the web tools contact

    The hosts of every request, in any sequence of redirects, and the addresses the check
    refuses, as ranges of numbers. *)

(** ** Private addresses *)

Definition is_byte (b : Z) : Prop := (0 <= b < 256)%Z.

(** The 16-byte form of an IPv4 address, and the number it stands for. *)
Definition ipv4 (a b c d : Z) : IP := (replicate 10 0 ++ [255; 255; a; b; c; d])%Z.
Definition number4 (a b c d : Z) : Z := (((a * 256 + b) * 256 + c) * 256 + d)%Z.
Definition at4 (n a b c d size : Z) : bool := (n / size =? number4 a b c d / size)%Z.

(** The networks that are refused, by their first address and size. *)
Definition private4 (n : Z) : bool :=
  at4 n 10 0 0 0 (2 ^ 24) || at4 n 127 0 0 0 (2 ^ 24) || at4 n 172 16 0 0 (2 ^ 20) ||
  at4 n 192 168 0 0 (2 ^ 16) || at4 n 169 254 0 0 (2 ^ 16) || at4 n 224 0 0 0 (2 ^ 8) || at4 n 0 0 0 0 1.

Lemma land_byte (m v : Z) (p : Z -> bool) b :
  forallb (fun b => Bool.eqb (Z.land b m =? v)%Z (p b)) (seqZ 0 256) = true -> is_byte b ->
  (Z.land b m =? v)%Z = p b.
Proof.
  intros Hall Hb. rewrite forallb_forall in Hall. apply Bool.eqb_prop, Hall.
  apply list_elem_of_In, elem_of_seqZ. exact Hb.
Qed.

Lemma land_255 b : is_byte b -> Z.land b 255 = b.
Proof. intros Hb. change 255%Z with (Z.ones 8). rewrite Z.land_ones by lia. by apply Z.mod_small. Qed.

Lemma To4_ipv4 a b c d : To4 (ipv4 a b c d) = Some [a; b; c; d].
Proof. done. Qed.

#[local] Arguments Z.eqb : simpl never.
#[local] Arguments Z.land : simpl never.

Lemma cidr_ipv4 n0 n1 n2 n3 m0 m1 m2 m3 a b c d :
  cidr_Contains [n0; n1; n2; n3] [m0; m1; m2; m3] (ipv4 a b c d) =
  ((Z.land n0 m0 =? Z.land a m0) && ((Z.land n1 m1 =? Z.land b m1) && ((Z.land n2 m2 =? Z.land c m2) &&
   ((Z.land n3 m3 =? Z.land d m3) && true))))%Z.
Proof. reflexivity. Qed.

Lemma in_private_ranges a b c d :
  is_byte a -> is_byte b -> is_byte c -> is_byte d ->
  existsb (fun '(nn, m) => cidr_Contains nn m (ipv4 a b c d)) privateRanges =
  ((a =? 10) || ((a =? 172) && ((16 <=? b) && (b <? 32))) || ((a =? 192) && (b =? 168)) ||
   ((a =? 169) && (b =? 254)))%Z.
Proof.
  intros Ha Hb Hc Hd. unfold privateRanges. cbn [existsb]. rewrite !cidr_ipv4.
  change (Z.land 10 255) with 10%Z. change (Z.land 172 255) with 172%Z. change (Z.land 16 240) with 16%Z.
  change (Z.land 192 255) with 192%Z. change (Z.land 168 255) with 168%Z. change (Z.land 169 255) with 169%Z.
  change (Z.land 254 255) with 254%Z. rewrite !land_255, !Z.land_0_r, Z.eqb_refl by done.
  rewrite (Z.eqb_sym 16), (land_byte 240 16 (fun b => (16 <=? b) && (b <? 32))%Z b)
    by (done || (vm_compute; reflexivity)).
  rewrite !(Z.eqb_sym 10), !(Z.eqb_sym 172), !(Z.eqb_sym 192), !(Z.eqb_sym 168), !(Z.eqb_sym 169), !(Z.eqb_sym 254).
  rewrite !andb_true_r, orb_false_r. by rewrite !orb_assoc.
Qed.

Lemma IsPrivateIP_ipv4 a b c d :
  is_byte a -> is_byte b -> is_byte c -> is_byte d ->
  IsPrivateIP (ipv4 a b c d) =
  ((a =? 127) || ((a =? 169) && (b =? 254) || ((a =? 224) && (b =? 0) && (c =? 0))) ||
   ((a =? 0) && (b =? 0) && (c =? 0) && (d =? 0)) ||
   ((a =? 10) || ((a =? 172) && ((16 <=? b) && (b <? 32))) || ((a =? 192) && (b =? 168)) ||
    ((a =? 169) && (b =? 254))))%Z.
Proof.
  intros Ha Hb Hc Hd. unfold IsPrivateIP. rewrite in_private_ranges by done.
  change (IsLoopback (ipv4 a b c d)) with (a =? 127)%Z.
  change (IsLinkLocalUnicast (ipv4 a b c d)) with ((a =? 169) && (b =? 254))%Z.
  change (IsLinkLocalMulticast (ipv4 a b c d)) with ((a =? 224) && (b =? 0) && (c =? 0))%Z.
  assert (IsUnspecified (ipv4 a b c d) = ((a =? 0) && (b =? 0) && (c =? 0) && (d =? 0))%Z) as ->.
  { unfold IsUnspecified. apply Bool.eq_iff_eq_true.
    rewrite orb_true_iff, !bool_decide_eq_true, !andb_true_iff, !Z.eqb_eq. unfold ipv4.
    split; [by intros [[= -> -> -> ->]|[=]]|by intros [[[-> ->] ->] ->]; left]. }
  assert (bool_decide (length (ipv4 a b c d) = 16) && (Z.land (byte (ipv4 a b c d) 0) 254 =? 252)%Z = false) as ->
    by reflexivity.
  repeat match goal with |- context [if ?x then true else ?y] => change (if x then true else y) with (x || y) end.
  by rewrite orb_false_r, !orb_assoc.
Qed.

(** The private IPv4 addresses, as numbers.  An address is refused exactly when it is
    in one of the networks 10/8, 127/8, 172.16/12, 192.168/16, 169.254/16 and 224.0.0/24, or
    is 0.0.0.0. *)
Theorem private_ipv4_exact a b c d :
  is_byte a -> is_byte b -> is_byte c -> is_byte d ->
  IsPrivateIP (ipv4 a b c d) = private4 (number4 a b c d).
Proof.
  intros Ha Hb Hc Hd. rewrite IsPrivateIP_ipv4 by done. unfold private4, at4, is_byte in *.
  assert (number4 a b c d / 2 ^ 24 = a)%Z as -> by (unfold number4; Z.to_euclidean_division_equations; lia).
  assert (number4 a b c d / 2 ^ 20 = a * 16 + b / 16)%Z as ->
    by (unfold number4; Z.to_euclidean_division_equations; lia).
  assert (number4 a b c d / 2 ^ 16 = a * 256 + b)%Z as -> by (unfold number4; Z.to_euclidean_division_equations; lia).
  assert (number4 a b c d / 2 ^ 8 = (a * 256 + b) * 256 + c)%Z as ->
    by (unfold number4; Z.to_euclidean_division_equations; lia).
  rewrite Z.div_1_r. unfold number4.
  apply Bool.eq_iff_eq_true. rewrite !orb_true_iff, !andb_true_iff, !Z.eqb_eq, Z.leb_le, Z.ltb_lt.
  change ((((10 * 256 + 0) * 256 + 0) * 256 + 0) / 2 ^ 24)%Z with 10%Z.
  change ((((127 * 256 + 0) * 256 + 0) * 256 + 0) / 2 ^ 24)%Z with 127%Z.
  change ((((172 * 256 + 16) * 256 + 0) * 256 + 0) / 2 ^ 20)%Z with 2753%Z.
  change ((((192 * 256 + 168) * 256 + 0) * 256 + 0) / 2 ^ 16)%Z with 49320%Z.
  change ((((169 * 256 + 254) * 256 + 0) * 256 + 0) / 2 ^ 16)%Z with 43518%Z.
  change ((((224 * 256 + 0) * 256 + 0) * 256 + 0) / 2 ^ 8)%Z with 14680064%Z.
  change ((((0 * 256 + 0) * 256 + 0) * 256 + 0) / 1)%Z with 0%Z.
  assert (a * 16 + b / 16 = 2753 <-> a = 172 /\ (16 <= b /\ b < 32))%Z as ->
    by (pose proof (Z.div_mod b 16); pose proof (Z.mod_pos_bound b 16); lia).
  assert (a * 256 + b = 49320 <-> a = 192 /\ b = 168)%Z as -> by lia.
  assert (a * 256 + b = 43518 <-> a = 169 /\ b = 254)%Z as -> by lia.
  assert ((a * 256 + b) * 256 + c = 14680064 <-> (a = 224 /\ b = 0) /\ c = 0)%Z as -> by lia.
  assert (((a * 256 + b) * 256 + c) * 256 + d = 0 <-> ((a = 0 /\ b = 0) /\ c = 0) /\ d = 0)%Z as -> by lia.
  tauto.
Qed.

(** ** The requests of a fetch *)

Inductive net_event :=
  | NeLookup (host : string) (ips : result error (list string))
  | NeRequest (method : string) (u : URL).

(** A network whose world keeps what was asked of it. *)
Class NetLog (W : Type) `{!HttpClient W} := {
  net_log : W -> list net_event;
  log_lookup : forall h w, net_log (net_LookupHost h w).2 = net_log w ++ [NeLookup h (net_LookupHost h w).1];
  log_request : forall d m u w, net_log (http_RoundTrip d m u w).2 = net_log w ++ [NeRequest m u];
}.

(** A request with the answer of the lookup before it. *)
Record visit := mkVisit { vi_method : string; vi_url : URL; vi_ips : list string }.

Definition visit_events (v : visit) : list net_event :=
  [NeLookup (u_Hostname (vi_url v)) (Ok (vi_ips v)); NeRequest (vi_method v) (vi_url v)].

Section requests.
Context {W : Type} `{!HttpClient W} `{!NetLog W}.

(** Every address of the answer is one, and none is private. *)
Definition public (v : visit) : Prop :=
  Forall (fun s => exists ip, net_ParseIP s = Some ip /\ IsPrivateIP ip = false) (vi_ips v).

Lemma check_ips_None ips :
  check_ips ips = None -> Forall (fun s => exists ip, net_ParseIP s = Some ip /\ IsPrivateIP ip = false) ips.
Proof.
  induction ips as [|s ips IH]; simpl; [by constructor|].
  destruct (net_ParseIP s) as [ip|] eqn:Ep; [|done]. destruct (IsPrivateIP ip) eqn:E; [done|].
  intros Hc. constructor; [by exists ip|by apply IH].
Qed.

Lemma CheckSSRF_log host w :
  exists r, net_log (CheckSSRF host w).2 = net_log w ++ [NeLookup host r] /\
    ((CheckSSRF host w).1 = None -> exists ips, r = Ok ips /\
       Forall (fun s => exists ip, net_ParseIP s = Some ip /\ IsPrivateIP ip = false) ips).
Proof.
  unfold CheckSSRF. rewrite st_bind_run. exists (net_LookupHost host w).1. simpl. split; [apply log_lookup|].
  destruct (net_LookupHost host w).1 as [ips|]; [|done]. intros Hc. exists ips. split; [done|by apply check_ips_None].
Qed.

Context (allowed : list string).

Definition refusal (evs : list net_event) : Prop := evs = [] \/ exists h r, evs = [NeLookup h r].

(** The requests after the first one, and the lookup of a refused redirect. *)
Lemma client_Do_log timeout fuel : forall method u via w,
  fuel + via = max_requests -> via < 5 -> method ∈ ["GET"; "HEAD"] ->
  exists visits last, net_log (client_Do fuel (checkRedirect allowed) timeout method u via w).2 =
      net_log w ++ NeRequest method u :: concat (map visit_events visits) ++ last /\
    refusal last /\ length visits + via < 5 /\
    Forall (fun v => public v /\ vi_method v ∈ ["GET"; "HEAD"] /\
                     IsDomainAllowed (u_Hostname (vi_url v)) allowed = true) visits.
Proof.
  unfold max_requests. induction fuel as [|fuel IH]; intros method u via w Hf Hv Hm; [lia|].
  assert (forall w', net_log w' = net_log w ++ [NeRequest method u] ->
    exists visits last, net_log w' = net_log w ++ NeRequest method u :: concat (map visit_events visits) ++ last /\
    refusal last /\ length visits + via < 5 /\ Forall (fun v => public v /\ vi_method v ∈ ["GET"; "HEAD"] /\
      IsDomainAllowed (u_Hostname (vi_url v)) allowed = true) visits) as Hstop.
  { intros w' E. exists [], []. split_and!; [done|by left|simpl; lia|constructor]. }
  simpl client_Do. rewrite st_bind_run. pose proof (log_request timeout method u w) as Hlog.
  destruct (http_RoundTrip timeout method u w) as [[resp|e] w1]; simpl in Hlog |- *; [|by apply Hstop].
  destruct (redirect_method _ method) as [m2|] eqn:Er; [|by apply Hstop].
  destruct (String.eqb _ ""); [by apply Hstop|]. destruct (url_Resolve u _) as [u2|]; [|by apply Hstop].
  assert (m2 ∈ ["GET"; "HEAD"]) as Hm2.
  { unfold redirect_method in Er. case_bool_decide; [|case_bool_decide; congruence].
    destruct (_ || _); injection Er as <-; [done|by left]. }
  rewrite st_bind_run. destruct (checkRedirect allowed u2 (S via) w1) as [bad w2] eqn:Ec.
  unfold checkRedirect in Ec. destruct (Nat.leb_spec 5 (S via)) as [H5|H5]; [injection Ec as <- <-; by apply Hstop|].
  destruct (IsDomainAllowed _ allowed) eqn:Ed; cbn [negb] in Ec; [|injection Ec as <- <-; by apply Hstop].
  destruct (CheckSSRF_log (u_Hostname u2) w1) as (r & Hl & Hok). rewrite Ec in Hl, Hok.
  destruct bad as [e|]; simpl in Hl, Hok |- *.
  - exists [], [NeLookup (u_Hostname u2) r]. rewrite Hl, Hlog, <-app_assoc.
    split_and!; [done|right; by eexists _, _|simpl; lia|constructor].
  - destruct (Hok eq_refl) as (ips & -> & Hips).
    destruct (IH m2 u2 (S via) w2 ltac:(lia) ltac:(lia) Hm2) as (visits & last & E & Hlast & Hlen & Hall).
    exists (mkVisit m2 u2 ips :: visits), last. rewrite E, Hl, Hlog, <-!app_assoc.
    split_and!; [done|done|simpl; lia|by constructor].
Qed.

#[local] Arguments client_Do : simpl never.

Lemma fetch_log timeout dflt method rawURL w :
  method ∈ ["GET"; "HEAD"] ->
  exists visits last, net_log (fetch allowed timeout dflt method rawURL w).2 =
      net_log w ++ concat (map visit_events visits) ++ last /\
    refusal last /\ length visits <= 5 /\ Forall public visits /\
    Forall (fun v => vi_method v ∈ ["GET"; "HEAD"] /\ (url_Parse rawURL = Ok (vi_url v) \/
       IsDomainAllowed (u_Hostname (vi_url v)) allowed = true)) visits.
Proof.
  intros Hm. assert (forall w' last, net_log w' = net_log w ++ last -> refusal last ->
    exists visits last, net_log w' = net_log w ++ concat (map visit_events visits) ++ last /\
    refusal last /\ length visits <= 5 /\ Forall public visits /\
    Forall (fun v => vi_method v ∈ ["GET"; "HEAD"] /\ (url_Parse rawURL = Ok (vi_url v) \/
       IsDomainAllowed (u_Hostname (vi_url v)) allowed = true)) visits) as Hstop.
  { intros w' last E Hl. exists [], last. split_and!; [done|done|simpl; lia|constructor..]. }
  unfold fetch. destruct (url_Parse rawURL) as [u|e] eqn:Eu.
  2: { apply (Hstop w []); [by rewrite app_nil_r|by left]. }
  rewrite st_bind_run. destruct (CheckSSRF_log (u_Hostname u) w) as (r & Hl & Hok).
  destruct (CheckSSRF (u_Hostname u) w) as [[e|] w1]; simpl in Hl, Hok |- *.
  { eapply Hstop; [exact Hl|right; by eexists _, _]. }
  destruct (http_BadRequest method rawURL). { eapply Hstop; [exact Hl|right; by eexists _, _]. }
  destruct (Hok eq_refl) as (ips & -> & Hips). rewrite st_bind_run. simpl.
  destruct (client_Do_log (or_int (timeout * Second) (dflt * Second))%Z max_requests method u 0 w1 eq_refl ltac:(lia) Hm)
    as (visits & last & E & Hlast & Hlen & Hall).
  exists (mkVisit method u ips :: visits), last. rewrite E, Hl, <-app_assoc. rewrite Forall_forall in Hall.
  split_and!; [done|done|simpl; lia|..]; constructor.
  - exact Hips.
  - apply Forall_forall. intros v Hv. by apply Hall.
  - split; [done|by left].
  - apply Forall_forall. intros v Hv. destruct (Hall v Hv) as (_ & ? & ?). by split; [|right].
Qed.
End requests.

(** C8: what the web tools contact.  A call of either tool whose parameters were accepted
    makes at most five requests, all [GET] or [HEAD], each to a host of the allow list, and
    each right after a lookup of that host that gave no private address; besides, at most
    one lookup, of a refused host. *)
Theorem web_requests_checked {F W : Type} `{Num F} `{!HttpClient W} `{!NetLog W} cfg user params w t :
  t ∈ [web_tool (F := F) cfg; browser_tool cfg] -> tool_Validate t params w = None ->
  exists visits last, net_log (tool_Execute t user params w).2 =
      net_log w ++ concat (map visit_events visits) ++ last /\
    (last = [] \/ exists h r, last = [NeLookup h r]) /\ length visits <= 5 /\
    Forall (fun v => public v /\ vi_method v ∈ ["GET"; "HEAD"] /\
                     IsDomainAllowed (u_Hostname (vi_url v)) (wc_AllowedDomains cfg) = true) visits.
Proof.
  assert (forall method timeout dflt u, method ∈ ["GET"; "HEAD"] ->
    requireString params "url" = Ok u ->
    (forall p, url_Parse u = Ok p -> IsDomainAllowed (u_Hostname p) (wc_AllowedDomains cfg) = true) ->
    exists visits last, net_log (fetch (wc_AllowedDomains cfg) timeout dflt method (stringOrEmpty params "url") w).2 =
      net_log w ++ concat (map visit_events visits) ++ last /\
    (last = [] \/ exists h r, last = [NeLookup h r]) /\ length visits <= 5 /\
    Forall (fun v => public v /\ vi_method v ∈ ["GET"; "HEAD"] /\
                     IsDomainAllowed (u_Hostname (vi_url v)) (wc_AllowedDomains cfg) = true) visits) as Hf.
  { intros method timeout dflt u Hm Hu Hd. rewrite (stringOrEmpty_Ok _ _ _ Hu).
    destruct (fetch_log (wc_AllowedDomains cfg) timeout dflt method u w Hm) as (vs & last & E & Hl & Hlen & Hp & Ha).
    exists vs, last. rewrite Forall_forall in Hp, Ha. split_and!; [done..|]. apply Forall_forall. intros v Hv.
    destruct (Ha v Hv) as [? [Hu2|?]]; split_and!; auto. }
  rewrite !elem_of_cons, elem_of_nil. intros [->|[->|[]]]; simpl.
  - unfold web_Validate, web_Execute. destruct (requireString params "url") as [u|] eqn:Eu; [|done].
    destruct (url_Parse u) as [p|] eqn:Ep; [|done]. destruct (_ && _); [done|].
    destruct (IsDomainAllowed (u_Hostname p) _) eqn:Ed; cbn [negb]; [|done].
    destruct (negb (String.eqb (web_method params) "GET") && _) eqn:Em; [done|]. intros _. rewrite st_bind_run.
    unfold mret, st_ret. cbn [snd]. apply (Hf (web_method params) (wc_TimeoutSeconds cfg) 10%Z u); [|done|intros q E; rewrite Ep in E; by injection E as <-]. apply andb_false_iff in Em.
    rewrite !negb_false_iff, !String.eqb_eq in Em. destruct Em as [->| ->]; [by left|by right; left].
  - unfold browser_Validate, browser_Execute. destruct (requireString params "url") as [u|] eqn:Eu; [|done].
    destruct (url_Parse u) as [p|] eqn:Ep; [|done]. destruct (negb _); [done|].
    destruct (IsDomainAllowed (u_Hostname p) _) eqn:Ed; cbn [negb]; [|done]. intros _.
    rewrite st_bind_run. unfold mret, st_ret. cbn [snd].
    apply (Hf "GET" (wc_TimeoutSeconds cfg) 30%Z u); [by left|done|]. intros q E. rewrite Ep in E. by injection E as <-.
Qed.
