(* ===== verification/ToolExamples.v ===== *)
(** * Runs of the providers and of the concrete tools

    Providers whose parameters are texts; a small file system with links, a network of two
    hosts, a sandbox that counts: witnesses of [ProviderProps], [FileTool], [WebTool],
    [Sandbox] and [SandboxTools]. *)

From S2P Require Import Prelude Text Security LLM Providers Anthropic OpenAI Gemini ProviderProps ToolValues.
From S2P Require Import Sandbox SandboxTools FileSystem FileTool WebTool.

(** ** Providers *)

#[local] Instance text_map : GoMap string := {| nil_map := ""; is_nil := fun s => String.eqb s "" |}.
#[local] Instance text_json : GoJson string := {| json_marshal := fun s => s |}.
#[local] Instance text_parse : Decode string := {| json_unmarshal := Ok |}.
#[local] Instance text_law : ParamsLaw string.
Proof. refine {| params_read_back := _ |}. intros s p _. by exists p. Defined.
#[local] Instance provider_render : Render := {| itoa := fun _ => "0"; uuid_String := fun _ => "u" |}.

(** The world counts the requests. *)
Definition ex_down : Provider string nat := mkProvider "down" (fun _ w => (Err (Errorf "down"), S w)).
Definition ex_up : Provider string nat :=
  mkProvider "up" (fun _ w => (Ok (mkLLMResponse "hi" [] (mkUsage 1 1) "end_turn"), S w)).
Definition ex_request : Request string := mkRequest "" [] 0 [].

Lemma fallback_first_success_witness :
  (fallback_SendMessage [ex_down; ex_up; ex_down] ex_request 0 =
     (Ok (mkLLMResponse "hi" [] (mkUsage 1 1) "end_turn"), 2)) /\
  exists r w', fallback_SendMessage [ex_down] ex_request 0 = (r, w').
Proof.
  split; [reflexivity|].
  destruct (fallback_first_success [ex_down] ex_request 0) as [(b & p & a & e & w1 & w2 & resp & _ & _ & _ & E)|(e & w1 & _ & E)];
    [done|by eexists _, _..].
Defined.

Definition ex_anthropic : Anthropic.apiResponse (P:=string) :=
  Anthropic.mkApiResponse
    [Anthropic.mkApiBlock "text" "listing" "" "" "" "" "" false;
     Anthropic.mkApiBlock "tool_use" "" "t1" "shell" "ls" "" "" false] "tool_use" (mkUsage 1 1).

Lemma assistant_echo_witness :
  Anthropic.to_message (mkMessage RoleAssistant "" (rs_ContentBlocks (Anthropic.toResponse ex_anthropic))) =
    Anthropic.mkApiMessage "assistant" (Anthropic.ContentList (Anthropic.ap_Content ex_anthropic)).
Proof.
  apply (proj1 (assistant_echo (P:=string))); [|done].
  constructor; [left; by eexists|]. constructor; [right; by eexists _, _, _|constructor].
Defined.

(** The first call read a file, the second ran a command; the file is sent as the
    command's result. *)
Definition ex_call (name args : string) : Gemini.apiResponse (P:=string) :=
  Gemini.mkApiResponse [Gemini.mkCandidate [Gemini.mkAnswerPart "" (Some (name, args))] "STOP"] None.

Lemma gemini_misattributes_witness :
  exists parts, Gemini.ct_Parts <$> Gemini.ar_Contents (Gemini.buildRequest (mkRequest ""
      [mkMessage RoleUser "hi" [];
       mkMessage RoleAssistant "" (rs_ContentBlocks (Gemini.toResponse (ex_call "file_read" "a")));
       mkMessage RoleUser "" [ToolResultBlock (Gemini.call_id 0) "secret" false];
       mkMessage RoleAssistant "" (rs_ContentBlocks (Gemini.toResponse (ex_call "shell_exec" "b")));
       mkMessage RoleUser "" [ToolResultBlock (Gemini.call_id 0) "done" false]] 0 [])) !! 2 = Some parts /\
    parts = [Gemini.PartResponse "shell_exec" "secret"].
Proof.
  eexists. split; [|reflexivity].
  rewrite (gemini_misattributes (ex_call "file_read" "a") (ex_call "shell_exec" "b")
             (Gemini.mkCandidate [Gemini.mkAnswerPart "" (Some ("file_read", "a"))] "STOP")
             (Gemini.mkCandidate [Gemini.mkAnswerPart "" (Some ("shell_exec", "b"))] "STOP")
             "file_read" "shell_exec" "a" "b"); reflexivity.
Defined.

#[local] Instance tool_render : Render := {| itoa := fun _ => "0"; uuid_String := fun _ => "u" |}.
#[local] Instance tool_info : FileInfo :=
  {| info_size := fun n => match n with NFile c => Z.of_nat (String.length c) | _ => 0%Z end; info_mode := fun _ => "-" |}.

(** ** Files *)

(** [/work] has a file, [/etc] is outside it. *)
Definition plain_nodes : gmap (list string) node :=
  list_to_map [(["work"], NDir); (["work"; "notes"], NFile "hello"); (["etc"], NDir); (["etc"; "passwd"], NFile "root")].
Definition plain_fs : FS := mkFS plain_nodes (Ok ["work"]).

(** The same with a link to itself, a link to the password file and a dangling link. *)
Definition linked_fs : FS :=
  mkFS (<[["work"; "me"] := NLink false ["."]]> (<[["work"; "out"] := NLink true ["etc"; "passwd"]]>
        (<[["work"; "new"] := NLink true ["etc"; "cron"]]> plain_nodes))) (Ok ["work"]).

Definition cfg_ex : FileTool.Config := FileTool.mkConfig ["/work"] 0.
Definition params_ex (p : string) : Params := object [("path", AString p); ("content", AString "text")].

Lemma names_ok (l : list string) :
  forallb (fun c => no_slash c && negb (slice_contains [""; "."; ".."] c)) l = true -> Forall name l.
Proof.
  rewrite forallb_forall. intros Hl. apply Forall_forall. intros c Hc%list_elem_of_In%Hl.
  apply andb_true_iff in Hc as [Hs Hn]. apply negb_true_iff, slice_contains_false in Hn. split; [done|set_solver].
Qed.

Lemma wf_by_map fs :
  (forall cwd, fs_cwd fs = Ok cwd -> Forall name cwd) ->
  map_Forall (fun _ n => match n with NLink _ t => Forall (fun c => no_slash c = true) t | _ => True end) (fs_nodes fs) ->
  wf_fs fs.
Proof. intros Hc Hm. split; [done|]. intros p a t Hp. exact (Hm p _ Hp). Qed.

Lemma plain_wf : wf_fs plain_fs.
Proof.
  apply wf_by_map; [intros cwd [= <-]; by apply names_ok|].
  apply map_Forall_to_list. vm_compute. repeat constructor.
Qed.

(** Without links there is no limit. *)
Lemma plain_within raw p :
  filepath_Abs plain_fs raw = Ok p -> Forall name p -> real plain_nodes p -> within_limit plain_fs raw.
Proof.
  intros Ha Hn Hr abs n q Ha2 Hw. rewrite Ha in Ha2. injection Ha2 as <-.
  change (fs_nodes plain_fs) with plain_nodes in *. rewrite (walk_real _ n p [] Hn Hr) in Hw. injection Hw as <-. exact (walk_real _ 255 p [] Hn Hr).
Qed.

Lemma work_real : real_dir plain_nodes ["work"].
Proof.
  intros k Hk [r E]. destruct k as [|c k]; [done|]. injection E as <- E. by destruct k.
Qed.

Lemma notes_real : real plain_nodes ["work"; "notes"].
Proof. right. exists ["work"], "notes", "hello". split_and!; [done|apply work_real|reflexivity]. Qed.

Lemma file_read_contained_witness :
  exists res, (read_Execute cfg_ex (params_ex "/work/notes") plain_fs).1 = Ok res /\ tr_Output res = "hello" /\
  exists p, allowed_at plain_fs ["/work"] p /\ real plain_nodes p.
Proof.
  eexists. split; [vm_compute; reflexivity|]. split; [reflexivity|].
  destruct (file_read_contained (HasFS0 := fs_has_fs) cfg_ex (params_ex "/work/notes") plain_fs plain_wf
    ltac:(apply (plain_within _ ["work"; "notes"]); [reflexivity|by apply names_ok|apply notes_real])) as [_ Hr].
  edestruct Hr as (p & Hp & Hreal & _); [vm_compute; reflexivity|]. exists p. split; [exact Hp|exact Hreal].
Defined.

Lemma plain_no_links r a t : plain_nodes !! r <> Some (NLink a t).
Proof.
  assert (map_Forall (fun _ n => match n with NLink _ _ => False | _ => True end) plain_nodes) as Hm
    by (apply map_Forall_to_list; vm_compute; repeat constructor).
  intros E. exact (Hm r _ E).
Qed.

Lemma file_write_contained_witness :
  let '(res, fs) := write_Execute cfg_ex (params_ex "/work/notes") plain_fs in
  is_ok res = true /\ exists p, allowed_at plain_fs ["/work"] p /\ fs = put_node plain_fs p (NFile "text").
Proof.
  pose proof (file_write_contained (HasFS0 := fs_has_fs) cfg_ex (params_ex "/work/notes") plain_fs plain_wf
    ltac:(apply (plain_within _ ["work"; "notes"]); [reflexivity|by apply names_ok|apply notes_real])
    ltac:(intros r a t q _ E; by destruct (plain_no_links r a t))) as Hw.
  assert (is_ok (write_Execute cfg_ex (params_ex "/work/notes") plain_fs).1 = true) as Hok by (vm_compute; reflexivity).
  destruct (write_Execute cfg_ex (params_ex "/work/notes") plain_fs) as [res fs]. simpl in Hok, Hw.
  split; [exact Hok|]. destruct Hw as [(p & Hp & Hf & _)|[_ Hf]]; [|congruence]. exists p. split; [exact Hp|exact Hf].
Defined.

Lemma linked_work_real : real_dir (fs_nodes linked_fs) ["work"].
Proof. intros k Hk [r E]. destruct k as [|c k]; [done|]. injection E as <- E. by destruct k. Qed.

(** Through [/work/me] 255 times, then [/work/out]: the password file. *)
Lemma link_limit_escape_witness :
  is_ok (safePath linked_fs "/work/out" ["/work"]) = false /\
  exists meta, (read_Execute cfg_ex
      (object [("path", AString (render (["work"] ++ replicate 255 "me" ++ ["out"])))]) linked_fs).1 =
    Ok (mkToolResult "root" meta true).
Proof.
  split; [vm_compute; reflexivity|].
  destruct (link_limit_escape (HasFS0 := fs_has_fs) linked_fs cfg_ex ["work"] "me" "out" "/work"
    ltac:(by apply names_ok) linked_work_real eq_refl ltac:(left) ["etc"; "passwd"] true ["etc"; "passwd"]
    ltac:(discriminate) eq_refl "root" linked_fs eq_refl eq_refl eq_refl eq_refl
    ltac:(vm_compute; discriminate)) as [_ Hr].
  exact Hr.
Defined.

(** A write to [/work/new] makes [/etc/cron]. *)
Lemma dangling_link_escape_witness :
  let '(res, fs) := write_Execute cfg_ex (object [("path", AString (render ["work"; "new"])); ("content", AString "text")]) linked_fs in
  is_ok res = true /\ fs = put_node linked_fs ["etc"; "cron"] (NFile "text").
Proof.
  apply (dangling_link_escape (HasFS0 := fs_has_fs) linked_fs cfg_ex ["work"] "me" "new" "/work"
    ltac:(by apply names_ok) linked_work_real eq_refl ltac:(left) ["etc"; "cron"]
    ltac:(discriminate) "text" linked_fs eq_refl eq_refl ltac:(discriminate)).
Defined.

(** [/work/me] is allowed, and nothing below it is accepted. *)
Lemma linked_prefix_denies_witness :
  is_ok (safePath linked_fs "/work/me/notes" ["/work/me"]) = false /\
  forall r, safePath linked_fs "/work/me/notes" ["/work/me"] = Ok r ->
    r = [] \/ exists a t, fs_nodes linked_fs !! r = Some (NLink a t).
Proof.
  split; [vm_compute; reflexivity|]. intros r Hr.
  apply (linked_prefix_denies linked_fs "/work/me/notes" ["/work/me"] r); [| |exact Hr].
  - apply wf_by_map; [intros cwd [= <-]; by apply names_ok|].
    apply map_Forall_to_list. vm_compute. repeat constructor.
  - intros prefix p Hin Ha _. apply list_elem_of_singleton in Hin as ->.
    assert (p = ["work"; "me"]) as -> by (vm_compute in Ha; injection Ha as <-; reflexivity).
    exists ["work"; "me"], false, ["."]. split_and!; [discriminate|reflexivity|reflexivity].
Defined.

(** ** The network *)

(** The world is the log; [docs.example] answers with a redirect to itself. *)
#[local] Instance net_ex : HttpClient (list net_event) := {
  url_Parse := fun s => if String.eqb s "" then Err (Errorf "empty") else Ok (mkURL "https" "docs.example" s);
  url_Resolve := fun u s => Ok (mkURL "https" (if String.eqb s "/in" then "docs.example" else "intranet") s);
  net_ParseIP := fun s => if String.eqb s "10.0.0.1" then Some (ipv4 10 0 0 1) else Some (ipv4 93 184 216 34);
  net_LookupHost := fun h w =>
    let r := Ok (if String.eqb h "intranet" then ["10.0.0.1"] else ["93.184.216.34"]) in (r, w ++ [NeLookup h r]);
  http_BadRequest := fun _ _ => None;
  http_RoundTrip := fun _ m u w =>
    (Ok (mkHttpResponse (if String.eqb (u_String u) "/in" then 200 else 302) "/in" "text/html" "<p>hi</p>" None),
     w ++ [NeRequest m u]);
}.

#[local] Instance net_ex_log : NetLog (list net_event).
Proof. refine {| net_log := fun w => w |}; reflexivity. Defined.

Definition web_ex : WebConfig := mkWebConfig ["docs.example"] 0 0.
Definition web_params : Params := object [("url", AString "https://docs.example/")].

Lemma web_requests_checked_witness :
  tool_Validate (web_tool (F := Q) web_ex) web_params [] = None /\
  length (tool_Execute (web_tool (F := Q) web_ex) "u" web_params []).2 = 4 /\
  exists visits last, (tool_Execute (web_tool (F := Q) web_ex) "u" web_params []).2 =
    [] ++ concat (map visit_events visits) ++ last /\ length visits <= 5.
Proof.
  split; [reflexivity|]. split; [vm_compute; reflexivity|].
  destruct (web_requests_checked (F := Q) web_ex "u" web_params [] (web_tool web_ex)
    ltac:(left) eq_refl) as (visits & last & E & _ & Hlen & _).
  exists visits, last. split; [exact E|exact Hlen].
Defined.

Example extract_ex :
  extractText "<title> A  <b>page</b></title><p>x</p>" "title" = "A page" /\
  extractVisibleText "<p>a</p><SCRIPT>alert(1)</script> b" = "a b" /\
  extractLinks "<a class='x' href='/a'>A</a> <a href='/b' title='href='>B <i>b</i></a><a>no</a>" =
    "[A](/a)" +:+ newline +:+ "[B b](/b)" +:+ newline /\
  extractLinks "<b>none</b>" = "No links found.".
Proof. split_and!; vm_compute; reflexivity. Qed.

Lemma private_ipv4_exact_witness : IsPrivateIP (ipv4 172 31 255 1) = private4 (number4 172 31 255 1).
Proof. apply private_ipv4_exact; (split; [discriminate|reflexivity]). Defined.

(** ** Sandboxes *)

(** One directory at a time; a process prints its arguments. *)
#[local] Instance os_ex : ProcessOS (gset string) := {
  os_MkdirTemp := fun w => if bool_decide ("d" ∈ w) then (Err (Errorf "exists"), w) else (Ok "d", {["d"]} ∪ w);
  os_RemoveAll := fun d w => (tt, w ∖ {[d]});
  os_Run := fun c w => (mkRun (cmd_Args c) [] None false 0%Z, w);
  rand_hex := fun w => (Ok "ff", w);
}.

#[local] Instance os_ex_dirs : TempDirs (gset string).
Proof.
  refine {| live_dirs := fun w => w |}.
  - simpl. intros w d w'. case_bool_decide; [done|]. by intros [= <- <-].
  - simpl. intros w e w'. case_bool_decide; [by intros [= _ <-]|done].
  - reflexivity.
  - reflexivity.
Defined.

Definition sandbox_ex : ProcessSandbox := NewProcessSandbox 0%Z (mkLimits 0 0).
#[local] Instance sandbox_of_ex : Sandbox (gset string) := {| sandbox_Execute := process_Execute sandbox_ex |}.
#[local] Instance durations_ex : DurationText :=
  {| ParseDuration := fun _ => Err (Errorf "duration"); Duration_String := fun _ => "0s" |}.

Definition exec_ex : ExecutionRequest := mkExecRequest ["ls"] "" {["A" := "1"]} 0%Z no_limits.

Lemma process_isolated_witness :
  (process_Execute sandbox_ex exec_ex ∅).2 = ∅ /\
  exists r, (process_Execute sandbox_ex exec_ex ∅).1 = Ok r.
Proof.
  split; [|eexists; vm_compute; reflexivity].
  exact (proj1 (process_isolated sandbox_ex exec_ex (∅ : gset string))).
Defined.

Definition git_params (sub : string) : Params :=
  object [("subcommand", AString sub); ("repo_path", AString "/repo")].

Lemma git_tools_split_witness :
  git_Validate (git_params "push") <> None /\ git_write_Validate (git_params "push") <> None.
Proof. apply (proj2 (git_tools_split (git_params "push") "push" eq_refl)). left. Defined.

Lemma git_read_deletes_witness :
  tool_Validate (git_read_tool (F := Q) (W := gset string))
    (object [("subcommand", AString "branch"); ("repo_path", AString "/repo");
             ("args", AList [AString "-D"; AString "main"])]) ∅ = None.
Proof. apply (git_read_deletes (F := Q) (W := gset string) "/repo" "main" "u"). discriminate. Defined.
