(* ===== verification/Conversation.v ===== *)
(** * Conversation memory

    [src/internal/agent/conversation.go]: the interface of a conversation store
    ([ConversationStore], a class), and [memory_conversation.go]: the in-memory
    store, its instance.  Messages are values here: the store and the histories it
    hands out share content blocks in the code, which the single writer of a block
    ([ReplaceToolResult]) makes visible only between concurrent calls.  The last part is the
    cache of tool results, [toolcache.go]. *)

From S2P Require Import Prelude Security LLM.

Definition DefaultMaxHistoryMessages : Z := 100%Z.
Definition DefaultMaxMessageBytes : Z := 32768%Z.

Class ConversationStore (C P : Type) := {
  cs_GetOrCreateConversation : C -> uuid -> string -> uuid -> result error uuid * C;
  cs_AppendMessages : C -> uuid -> uuid -> list (Message P) -> option error * C;
  cs_LoadHistory : C -> uuid -> Z -> result error (list (Message P)) * C;
  cs_ReplaceToolResult : C -> uuid -> string -> string -> bool -> option error * C;
  cs_DeleteConversation : C -> uuid -> option error * C;
}.

Section store.
Context {P : Type} `{GoMap P}.

Record InMemoryConversationStore := mkConvStore {
  ic_history : gmap uuid (list (Message P));
  ic_owners : gmap uuid string;
}.

Definition NewInMemoryConversationStore : InMemoryConversationStore := mkConvStore ∅ ∅.

Definition GetOrCreateConversation (s : InMemoryConversationStore) (orgID : uuid)
    (userID : string) (convID : uuid) : result error uuid * InMemoryConversationStore :=
  match ic_owners s !! convID with
  | Some owner =>
      if negb (String.eqb owner userID)
      then (Err (Errorf "conversation belongs to a different user"), s)
      else (Ok convID, s)
  | None =>
      (Ok convID,
       mkConvStore (<[convID := []]> (ic_history s)) (<[convID := userID]> (ic_owners s)))
  end.

(** [s.history[convID]]. *)
Definition hist_of (s : InMemoryConversationStore) (convID : uuid) : list (Message P) :=
  default [] (ic_history s !! convID).

Definition set_hist (s : InMemoryConversationStore) (convID : uuid) (h : list (Message P))
    : InMemoryConversationStore :=
  mkConvStore (<[convID := h]> (ic_history s)) (ic_owners s).

Definition AppendMessages (s : InMemoryConversationStore) (convID orgID : uuid)
    (msgs : list (Message P)) : option error * InMemoryConversationStore :=
  (None, set_hist s convID (hist_of s convID ++ msgs)).

Definition LoadHistory (s : InMemoryConversationStore) (convID : uuid) (maxMessages : Z)
    : result error (list (Message P)) * InMemoryConversationStore :=
  let hist := hist_of s convID in
  let n := Z.of_nat (length hist) in
  (Ok (if (0 <? maxMessages)%Z && (maxMessages <? n)%Z
       then drop (Z.to_nat (n - maxMessages)) hist else hist), s).

Definition is_result_for (toolUseID : string) (b : ContentBlock P) : bool :=
  String.eqb (cb_Type b) "tool_result" && String.eqb (cb_ToolUseID b) toolUseID.

Definition set_result (content : string) (isError : bool) (b : ContentBlock P) : ContentBlock P :=
  mkBlock (cb_Type b) content (cb_ID b) (cb_Name b) (cb_Input b) (cb_ToolUseID b) isError.

(** The inner loop: the first matching block of a message. *)
Fixpoint replace_block (toolUseID content : string) (isError : bool) (bs : list (ContentBlock P))
    : option (list (ContentBlock P)) :=
  match bs with
  | [] => None
  | b :: bs =>
      if is_result_for toolUseID b then Some (set_result content isError b :: bs)
      else match replace_block toolUseID content isError bs with
           | Some bs' => Some (b :: bs')
           | None => None
           end
  end.

(** The outer loop, from the newest message to the oldest. *)
Fixpoint replace_newest (toolUseID content : string) (isError : bool) (msgs : list (Message P))
    : option (list (Message P)) :=
  match msgs with
  | [] => None
  | m :: msgs =>
      match replace_newest toolUseID content isError msgs with
      | Some msgs' => Some (m :: msgs')
      | None =>
          match replace_block toolUseID content isError (msg_ContentBlocks m) with
          | Some bs => Some (mkMessage (msg_Role m) (msg_Content m) bs :: msgs)
          | None => None
          end
      end
  end.

Definition ReplaceToolResult (s : InMemoryConversationStore) (convID : uuid)
    (toolUseID newContent : string) (isError : bool) : option error * InMemoryConversationStore :=
  match replace_newest toolUseID newContent isError (hist_of s convID) with
  | Some msgs => (None, set_hist s convID msgs)
  | None => (Some (Errorf "tool_result not found"), s)
  end.

Definition DeleteConversation (s : InMemoryConversationStore) (convID : uuid)
    : option error * InMemoryConversationStore :=
  (None, mkConvStore (delete convID (ic_history s)) (delete convID (ic_owners s))).

#[export] Instance memory_store : ConversationStore InMemoryConversationStore P := {
  cs_GetOrCreateConversation := GetOrCreateConversation;
  cs_AppendMessages := AppendMessages;
  cs_LoadHistory := LoadHistory;
  cs_ReplaceToolResult := ReplaceToolResult;
  cs_DeleteConversation := DeleteConversation;
}.

(** ** The operations of a client *)

Inductive conv_op :=
  | CGet (userID : string) (convID : uuid)
  | CAppend (convID : uuid) (msgs : list (Message P))
  | CLoad (convID : uuid) (maxMessages : Z)
  | CReplace (convID : uuid) (toolUseID content : string) (isError : bool).

Definition conv_step (s : InMemoryConversationStore) (op : conv_op) : InMemoryConversationStore :=
  match op with
  | CGet u c => (GetOrCreateConversation s uuid_Nil u c).2
  | CAppend c ms => (AppendMessages s c uuid_Nil ms).2
  | CLoad c n => (LoadHistory s c n).2
  | CReplace c t x e => (ReplaceToolResult s c t x e).2
  end.

Definition conv_run (s : InMemoryConversationStore) (ops : list conv_op) :=
  fold_left conv_step ops s.
End store.

Arguments InMemoryConversationStore P : clear implicits.
Arguments conv_op P : clear implicits.

(** ** Lemmas and properties *)

Section properties.
Context {P : Type} `{GoMap P}.
Implicit Types (s : InMemoryConversationStore P) (msgs : list (Message P)) (m : Message P).

Lemma hist_of_set s c c' h :
  hist_of (set_hist s c h) c' = if decide (c = c') then h else hist_of s c'.
Proof.
  unfold hist_of. simpl. destruct (decide (c = c')) as [->|Hne].
  - by rewrite lookup_insert_eq.
  - by rewrite lookup_insert_ne.
Qed.

Lemma conv_step_owner s op c u : ic_owners s !! c = Some u -> ic_owners (conv_step s op) !! c = Some u.
Proof.
  intros Hc. destruct op as [u' c'|c' ms|c' n|c' t x e]; simpl.
  - unfold GetOrCreateConversation. destruct (ic_owners s !! c') eqn:E; [by destruct (negb _)|].
    simpl. rewrite lookup_insert_ne; [done|congruence].
  - done.
  - done.
  - unfold ReplaceToolResult. by destruct (replace_newest _ _ _ _).
Qed.

(** A conversation stays with its owner.  Once a user has obtained a
    conversation, then through any further creations, appends, loads and
    replacements by anyone, obtaining it succeeds for that user and fails for
    every other one, and neither attempt changes the store. *)
Theorem conversation_ownership s ops c u u' :
  (GetOrCreateConversation s uuid_Nil u c).1 = Ok c ->
  let s' := conv_run (GetOrCreateConversation s uuid_Nil u c).2 ops in
  GetOrCreateConversation s' uuid_Nil u' c =
    (if String.eqb u u' then Ok c
     else Err (Errorf "conversation belongs to a different user"), s').
Proof.
  intros E s'. assert (ic_owners s' !! c = Some u) as Ho.
  { assert (ic_owners (GetOrCreateConversation s uuid_Nil u c).2 !! c = Some u) as H0.
    { unfold GetOrCreateConversation in *. destruct (ic_owners s !! c) as [o|] eqn:Eo.
      - destruct (String.eqb_spec o u) as [->|]; simpl in *; done.
      - simpl. apply lookup_insert_eq. }
    unfold s'. clear s' E. revert H0. generalize (GetOrCreateConversation s uuid_Nil u c).2.
    unfold conv_run. induction ops as [|op ops IH]; intros s0 H0; simpl; [done|].
    apply IH. by apply conv_step_owner. }
  unfold GetOrCreateConversation. rewrite Ho. by destruct (String.eqb u u').
Qed.

(** Appending and loading.  Loading after an append yields the last
    [maxMessages] of the old history followed by the new messages, all of them
    when [maxMessages] is not positive; other conversations are unaffected. *)
Theorem append_load_roundtrip s c c' org msgs n :
  let s' := (AppendMessages s c org msgs).2 in
  let h := (if decide (c = c') then hist_of s c ++ msgs else hist_of s c') in
  exists k, (LoadHistory s' c' n).1 = Ok (drop k h) /\
    length (drop k h) = if (0 <? n)%Z then length h `min` Z.to_nat n else length h.
Proof.
  simpl. intros. unfold LoadHistory. rewrite hist_of_set. simpl.
  set (h := if decide (c = c') then _ else _).
  replace (if decide (c = c') then hist_of s c ++ msgs else hist_of s c') with h by done.
  destruct (Z.ltb_spec 0 n), (Z.ltb_spec n (Z.of_nat (length h))); simpl.
  - eexists. split; [reflexivity|]. rewrite length_drop. lia.
  - exists 0. split; [done|]. rewrite drop_0. lia.
  - exists 0. by rewrite drop_0.
  - exists 0. by rewrite drop_0.
Qed.

Definition has_result (t : string) m : bool := existsb (is_result_for t) (msg_ContentBlocks m).

Lemma replace_block_spec t x e (bs : list (ContentBlock P)) :
  match replace_block t x e bs with
  | Some bs' => exists l b r, bs = l ++ b :: r /\ is_result_for t b = true /\
      existsb (is_result_for t) l = false /\ bs' = l ++ set_result x e b :: r
  | None => existsb (is_result_for t) bs = false
  end.
Proof.
  induction bs as [|b bs IH]; simpl; [done|]. destruct (is_result_for t b) eqn:Hb.
  - by exists [], b, bs.
  - destruct (replace_block t x e bs) as [bs'|]; [|done].
    destruct IH as (l & b' & r & -> & H1 & H2 & ->). exists (b :: l), b', r. simpl.
    by rewrite Hb.
Qed.

Lemma replace_newest_spec t x e msgs :
  match replace_newest t x e msgs with
  | Some msgs' => exists l m l2 bl b br,
      msgs = l ++ mkMessage (msg_Role m) (msg_Content m) (bl ++ b :: br) :: l2 /\
      is_result_for t b = true /\ existsb (is_result_for t) bl = false /\
      existsb (has_result t) l2 = false /\
      msgs' = l ++ mkMessage (msg_Role m) (msg_Content m) (bl ++ set_result x e b :: br) :: l2
  | None => existsb (has_result t) msgs = false
  end.
Proof.
  induction msgs as [|m msgs IH]; simpl; [done|].
  destruct (replace_newest t x e msgs) as [msgs'|].
  - destruct IH as (l & m' & l2 & bl & b & br & -> & H1 & H2 & H3 & ->).
    by exists (m :: l), m', l2, bl, b, br.
  - pose proof (replace_block_spec t x e (msg_ContentBlocks m)) as Hb.
    destruct (replace_block t x e _) as [bs'|].
    + destruct Hb as (bl & b & br & Hm & H1 & H2 & ->). exists [], m, msgs, bl, b, br.
      simpl. rewrite <-Hm. by destruct m.
    + unfold has_result at 1. by rewrite Hb.
Qed.

(** Replacing a tool result touches exactly one block.  When the conversation
    has a tool_result for the identifier, the first such block of the newest such
    message gets the new text and error flag, and every other block and message,
    the number of messages and every other conversation stay the same; otherwise
    the call fails and changes nothing. *)
Theorem replace_tool_result_spec s c t x e :
  let '(err, s') := ReplaceToolResult s c t x e in
  ic_owners s' = ic_owners s /\
  (forall c', c' <> c -> hist_of s' c' = hist_of s c') /\
  if existsb (has_result t) (hist_of s c)
  then err = None /\ exists l m l2 bl b br,
      hist_of s c = l ++ mkMessage (msg_Role m) (msg_Content m) (bl ++ b :: br) :: l2 /\
      is_result_for t b = true /\ existsb (is_result_for t) bl = false /\
      existsb (has_result t) l2 = false /\
      hist_of s' c =
        l ++ mkMessage (msg_Role m) (msg_Content m) (bl ++ set_result x e b :: br) :: l2
  else is_Some err /\ s' = s.
Proof.
  unfold ReplaceToolResult. pose proof (replace_newest_spec t x e (hist_of s c)) as Hn.
  destruct (replace_newest t x e (hist_of s c)) as [msgs'|].
  - destruct Hn as (l & m & l2 & bl & b & br & Hh & H1 & H2 & H3 & ->).
    split; [done|]. split; [intros c' Hne; rewrite hist_of_set; by rewrite decide_False|].
    assert (existsb (has_result t) (hist_of s c) = true) as ->.
    { rewrite Hh, existsb_app. simpl. unfold has_result at 2. simpl.
      rewrite existsb_app. simpl. rewrite H1. by rewrite !orb_true_r. }
    split; [done|]. exists l, m, l2, bl, b, br.
    by rewrite hist_of_set, decide_True.
  - rewrite Hn. done.
Qed.
End properties.

(** ** Witnesses *)

#[local] Instance unit_map : GoMap unit := {| nil_map := tt; is_nil := fun _ => true |}.

Lemma conversation_ownership_witness :
  (GetOrCreateConversation
     (conv_run (GetOrCreateConversation (P:=unit) NewInMemoryConversationStore uuid_Nil "u" 1%N).2
        [CGet "v" 1%N; CAppend 1%N []]) uuid_Nil "v" 1%N).1
  = Err (Errorf "conversation belongs to a different user").
Proof.
  rewrite (conversation_ownership NewInMemoryConversationStore [CGet "v" 1%N; CAppend 1%N []]
             1%N "u" "v"); reflexivity.
Defined.

(** * The tool-result cache

    [src/internal/agent/toolcache.go]: results of read-only tools, kept per tool
    name and parameters for a time to live. *)

Section cache.
Context {F P : Type} `{GoJson P} `{Digest}.

(** [ToolResponse] of [agent.go]. *)
Record ToolResponse := mkToolResponse {
  tp_Output : string;
  tp_Success : bool;
  tp_CostUSD : F;
  tp_Metadata : P;
}.

Record cacheEntry := mkCacheEntry { ce_response : ToolResponse; ce_expiresAt : Time }.

Record ToolCache := mkToolCache {
  tc_entries : gmap string cacheEntry;
  tc_ttl : Duration;
}.

Definition DefaultToolCacheTTL : Duration := (60 * Second)%Z.

Definition NewToolCache (ttl : Duration) : ToolCache :=
  mkToolCache ∅ (if (ttl <=? 0)%Z then DefaultToolCacheTTL else ttl).

Definition cacheKey (toolName : string) (params : P) : string :=
  sha256_16 (toolName +:+ "|" +:+ json_marshal params).

(** [ToolCache.Get]. *)
Definition cache_Get (c : ToolCache) (toolName : string) (params : P) (now : Time)
    : option ToolResponse :=
  match tc_entries c !! cacheKey toolName params with
  | None => None
  | Some entry => if time_After now (ce_expiresAt entry) then None else Some (ce_response entry)
  end.

(** [ToolCache.Set]. *)
Definition cache_Set (c : ToolCache) (toolName : string) (params : P) (resp : ToolResponse)
    (now : Time) : ToolCache :=
  mkToolCache
    (<[cacheKey toolName params := mkCacheEntry resp (now + tc_ttl c)%Z]> (tc_entries c))
    (tc_ttl c).

(** A sequence of stores: tool, parameters, response and clock. *)
Definition cache_sets (c : ToolCache) (l : list (string * P * ToolResponse * Time)) : ToolCache :=
  fold_left (fun c '(n, p, r, t) => cache_Set c n p r t) l c.
End cache.

Arguments ToolResponse F P : clear implicits.
Arguments cacheEntry F P : clear implicits.
Arguments ToolCache F P : clear implicits.

Section properties.
Context {F P : Type} `{GoJson P} `{Digest}.
Implicit Types (c : ToolCache F P) (l : list (string * P * ToolResponse F P * Time)).

Lemma cache_Get_Set c n p r t n' p' now :
  cache_Get (cache_Set c n p r t) n' p' now =
  if String.eqb (cacheKey n p) (cacheKey n' p')
  then if time_After now (t + tc_ttl c)%Z then None else Some r
  else cache_Get c n' p' now.
Proof.
  unfold cache_Get, cache_Set. simpl. destruct (String.eqb_spec (cacheKey n p) (cacheKey n' p')) as [->|Hne].
  - by rewrite lookup_insert_eq.
  - by rewrite lookup_insert_ne.
Qed.

(** A cache hit is the newest stored result and is not stale.  After any
    stores in a new cache, a hit for a tool and parameters at time [now] returns
    the response of the last store under the same key, made no earlier than
    the time to live before [now]. *)
Theorem cache_hit_fresh ttl l n p now r :
  let c := cache_sets (NewToolCache ttl) l in
  cache_Get c n p now = Some r ->
  exists l1 n' p' t l2, l = l1 ++ (n', p', r, t) :: l2 /\ cacheKey n' p' = cacheKey n p /\
    (now <= t + tc_ttl c)%Z /\
    Forall (fun '(n'', p'', _, _) => cacheKey n'' p'' <> cacheKey n p) l2.
Proof.
  simpl. induction l as [|[[[n0 p0] r0] t0] l IH] using rev_ind.
  - unfold cache_Get. simpl. by rewrite lookup_empty.
  - unfold cache_sets in *. rewrite fold_left_app. simpl. rewrite cache_Get_Set.
    destruct (String.eqb_spec (cacheKey n0 p0) (cacheKey n p)) as [Hk|Hk].
    + unfold time_After. destruct (Z.ltb_spec (t0 + tc_ttl (fold_left
        (fun c '(n, p, r, t) => cache_Set c n p r t) l (NewToolCache ttl))) now); [done|].
      intros [= ->]. exists l, n0, p0, t0, []. by repeat split.
    + intros Hg. destruct (IH Hg) as (l1 & n' & p' & t & l2 & -> & Hk' & Ht & Hl2).
      exists l1, n', p', t, (l2 ++ [(n0, p0, r0, t0)]). split; [by rewrite <-app_assoc|].
      split; [done|]. split; [done|]. apply Forall_app. by repeat constructor.
Qed.
End properties.

#[local] Instance json_unit : GoJson unit := {| json_marshal := fun _ => "{}" |}.
#[local] Instance digest_id : Digest := {| sha256_16 := fun s => s |}.

Lemma cache_hit_fresh_witness :
  let r := mkToolResponse "out" true 0%Q tt in
  exists l1 n' p' t l2, [("web_fetch", tt, r, 5%Z)] = l1 ++ (n', p', r, t) :: l2 /\
    cacheKey n' p' = cacheKey "web_fetch" tt /\ (20 <= t + 60000000000)%Z /\
    Forall (fun '(n'', p'', _, _) => cacheKey n'' p'' <> cacheKey "web_fetch" tt) l2.
Proof. intros r. apply (cache_hit_fresh 0%Z [("web_fetch", tt, r, 5%Z)] "web_fetch" tt 20%Z r). reflexivity. Defined.
