(* ===== verification/Prompt.v ===== *)
(** * The system prompt

    [buildSystemPrompt] and the keyword detectors of
    [src/internal/agent/orchestrator.go], the planning trigger and progress text
    ([planner.go]) and the runbook matcher ([runbook_match.go]).  Text is ASCII:
    a byte above 127 counts as a letter of a word and has no lower case. *)

From S2P Require Import Prelude.

Definition nl : string := String (Ascii.ascii_of_nat 10) "".

(** ** Keyword detection *)

Definition contains_any (lower : string) (keywords : list string) : bool :=
  existsb (contains lower) keywords.

Definition incident_keywords : list string :=
  ["incident"; "outage"; "down"; "p1"; "p2"; "on-call"; "pagerduty"; "opsgenie"; "sev1"; "sev2";
   "production issue"; "service degraded"; "alert firing"].

Definition detectIncidentContext (message : string) : bool :=
  if String.eqb message "" then false
  else contains_any (to_lower message) incident_keywords.

Definition investigation_keywords : list string :=
  ["log"; "logs"; "check"; "review"; "show"; "list"; "query"; "search"; "fetch"; "read"; "look";
   "browse"; "database"; "sql"; "status"; "history"; "diff"; "branch"; "commit"; "code"; "analyze"].
Definition infra_keywords : list string :=
  ["server"; "vm"; "node"; "host"; "kubernetes"; "k8s"; "docker"; "cluster"; "pod"; "deployment";
   "infra"; "infrastructure"; "instance"; "machine"; "bare metal"; "ssh"].
Definition git_write_keywords : list string :=
  ["push"; "commit"; "merge"; "rebase"; "tag"; "cherry-pick"; "git write"; "git push"; "git add"].

Definition add_if (b : bool) (cat : string) (s : gset string) : gset string :=
  if b then {[cat]} ∪ s else s.

Definition detectToolIntent (message : string) : gset string :=
  if String.eqb message "" then ∅
  else
    let lower := to_lower message in
    let active := add_if (contains_any lower investigation_keywords) "investigation" ∅ in
    let active := add_if (contains_any lower infra_keywords) "infra" active in
    let active := add_if (contains_any lower git_write_keywords) "git_write" active in
    if detectIncidentContext message
    then add_if true "investigation" (add_if true "infra" active) else active.

Definition complex_keywords : list string :=
  ["investigate"; "troubleshoot"; "diagnose"; "analyze"; "debug"; "fix"; "resolve"; "deploy";
   "migrate"; "set up"; "configure"; "implement"; "create"; "incident"; "outage"; "rollback"].

Definition shouldPlan (message : string) : bool :=
  (200 <? String.length message)%nat ||
  (1 <? count_char (Ascii.ascii_of_nat 63) message)%nat ||
  (2 <? count_char (Ascii.ascii_of_nat 46) message)%nat ||
  contains_any (to_lower message) complex_keywords.

(** ** Plans *)

Record PlanStep := mkPlanStep { ps_Description : string; ps_Status : string }.
Record Plan := mkPlan { plan_Steps : list PlanStep; plan_RawPlan : string; plan_Completed : Z }.

Section render.
Context `{Render}.

Definition step_marker (completed i : Z) : string :=
  if (i <? completed)%Z then "[x]" else if (i =? completed)%Z then "[>]" else "[ ]".

Fixpoint progress_lines (completed i : Z) (steps : list PlanStep) : string :=
  match steps with
  | [] => ""
  | s :: steps =>
      step_marker completed i +:+ " " +:+ ps_Description s +:+ nl
        +:+ progress_lines completed (i + 1) steps
  end.

(** [None] is the nil plan. *)
Definition progressSummary (p : option Plan) : string :=
  match p with
  | None => ""
  | Some p =>
      match plan_Steps p with
      | [] => ""
      | steps =>
          nl +:+ "## Plan Progress (" +:+ itoa (plan_Completed p) +:+ "/"
            +:+ itoa (Z.of_nat (length steps)) +:+ " steps)" +:+ nl
            +:+ progress_lines (plan_Completed p) 0 steps
      end
  end.
End render.

(** ** Runbook matching *)

Record Runbook := mkRunbook { rb_Name : string; rb_Category : string; rb_Description : string }.

Definition agentStopWords : list string :=
  ["the"; "and"; "for"; "are"; "but"; "not"; "you"; "all"; "can"; "has"; "was"; "one"; "our";
   "out"; "with"; "that"; "this"; "from"; "have"; "been"; "will"; "they"; "when"; "what"; "your";
   "which"; "their"; "about"; "would"; "there"; "should"; "each"; "make"].

Definition is_word_char (c : Ascii.ascii) : bool :=
  let n := Ascii.N_of_ascii c in
  (((48 <=? n) && (n <=? 57)) || ((65 <=? n) && (n <=? 90)) || ((97 <=? n) && (n <=? 122))
   || (128 <=? n))%N.

(** [strings.FieldsFunc] with the complement of [is_word_char]; [cur] is the field
    being read, reversed chunks are not needed as fields are built left to right. *)
Fixpoint fields_from (cur s : string) : list string :=
  match s with
  | EmptyString => if String.eqb cur "" then [] else [cur]
  | String c s' =>
      if is_word_char c then fields_from (cur +:+ String c "") s'
      else if String.eqb cur "" then fields_from "" s' else cur :: fields_from "" s'
  end.

Definition keep_token (w : string) : bool :=
  (2 <? String.length w)%nat && negb (slice_contains agentStopWords w).

Definition tokenizeQuery (text : string) : list string :=
  List.filter keep_token (fields_from "" (to_lower text)).

Section runbooks.
Context {F : Type} `{Num F} `{!GoSort (Runbook * F)}.
Local Open Scope go_scope.

(** One iteration of the scoring loop: [None] when the runbook is skipped. *)
Definition score_runbook (query : string) (queryTokens : list string) (threshold : F)
    (rb : Runbook) : option (Runbook * F) :=
  let docTokens := tokenizeQuery (rb_Name rb +:+ " " +:+ rb_Category rb +:+ " " +:+ rb_Description rb) in
  if (length docTokens =? 0)%nat then None
  else
    let hits := countb (slice_contains docTokens) queryTokens in
    if (hits =? 0)%nat then None
    else
      let score := nofZ (Z.of_nat hits) /f nofZ (Z.of_nat (length queryTokens)) in
      let score :=
        if contains (to_lower query) (to_lower (rb_Name rb)) then score *f nofZ 2 else score in
      if score >f? threshold then Some (rb, score) else None.

Definition by_score (x y : Runbook * F) : bool := x.2 >f? y.2.

Definition scored_runbooks (query : string) (runbooks : list Runbook) (threshold : F)
    : list (Runbook * F) :=
  omap (score_runbook query (tokenizeQuery query) threshold) runbooks.

Definition matchRunbooksWithThreshold (query : string) (runbooks : list Runbook) (topN : Z)
    (threshold : F) : list Runbook :=
  if (length runbooks =? 0)%nat || (topN <=? 0)%Z then []
  else if (length (tokenizeQuery query) =? 0)%nat then []
  else
    let results := go_sort by_score (scored_runbooks query runbooks threshold) in
    map fst (if (topN <? Z.of_nat (length results))%Z then take (Z.to_nat topN) results else results).

Definition matchRunbooks (query : string) (runbooks : list Runbook) (topN : Z) : list Runbook :=
  matchRunbooksWithThreshold query runbooks topN (nlit 5 100).

(** ** The prompt *)

Definition planningInstruction : string := "
## Planning Mode
Before taking any actions, create a brief execution plan wrapped in <plan> tags.
List 3-7 concrete steps you will take to accomplish this task.
After creating the plan, proceed to execute each step.

Example:
<plan>
1. Check service health status
2. Review recent logs for errors
3. Identify root cause
4. Recommend remediation
</plan>

After each major step, briefly note which step you completed.".

Definition incidentReportPrompt : string := "

## Incident Report Format
When investigating an incident, conclude with a structured report:
**Severity**: P1/P2/P3/P4
**Status**: Investigating/Identified/Monitoring/Resolved
**Timeline**: Key events with timestamps
**Impact**: What's affected and scope
**Root Cause**: Identified or suspected cause
**Remediation**: Actions taken or recommended
**Action Items**: Follow-up tasks".

(** The fields of [Orchestrator] that shape the prompt. *)
Record PromptConfig := mkPromptConfig {
  pc_systemPrompt : string;
  pc_skillSummary : string;
  pc_skillSummaryCompact : string;
  pc_skillSummaryMode : string;
  pc_soulContext : string;
  pc_runbooks : list Runbook;
  pc_runbookMaxN : Z;
  pc_runbookThreshold : F;
  pc_planningEnabled : bool;
}.

Definition skills_section (o : PromptConfig) : string :=
  let mode := if String.eqb (pc_skillSummaryMode o) "" then "full" else pc_skillSummaryMode o in
  let section s :=
    if String.eqb s "" then "" else nl +:+ nl +:+ "## Available Skills" +:+ nl +:+ s in
  if String.eqb mode "none" then ""
  else if String.eqb mode "compact" then section (pc_skillSummaryCompact o)
  else section (pc_skillSummary o).

Definition injected_runbooks (o : PromptConfig) (userMessage : string) : list Runbook :=
  if (length (pc_runbooks o) =? 0)%nat || String.eqb userMessage "" then []
  else
    let maxN := if (pc_runbookMaxN o <=? 0)%Z then 2%Z else pc_runbookMaxN o in
    let threshold :=
      if pc_runbookThreshold o <=f? nofZ 0 then nlit 5 100 else pc_runbookThreshold o in
    matchRunbooksWithThreshold userMessage (pc_runbooks o) maxN threshold.

Definition runbook_section (rb : Runbook) : string :=
  nl +:+ nl +:+ "## Active Runbook: " +:+ rb_Name rb +:+ nl +:+ rb_Description rb.

Definition buildSystemPrompt (o : PromptConfig) (userMessage : string) : string :=
  let prompt := pc_systemPrompt o in
  let prompt := prompt +:+ skills_section o in
  let prompt := if String.eqb (pc_soulContext o) "" then prompt else prompt +:+ pc_soulContext o in
  let prompt := fold_left (fun p rb => p +:+ runbook_section rb) (injected_runbooks o userMessage) prompt in
  let prompt := if detectIncidentContext userMessage then prompt +:+ incidentReportPrompt else prompt in
  if pc_planningEnabled o && shouldPlan userMessage then prompt +:+ planningInstruction else prompt.
End runbooks.

Arguments PromptConfig F : clear implicits.

(** ** Properties *)

Section properties.
Context {F : Type} `{ExactNum F} `{!GoSort (Runbook * F)}.
Local Open Scope go_scope.

Lemma by_score_weak : weak_order (by_score (F:=F)).
Proof.
  unfold weak_order, by_score. split.
  - intros x y Hxy. num_norm. lra.
  - intros x y z Hxy Hyz. num_norm. lra.
Qed.

(** The runbooks put into the prompt.  At most [topN] of them; each shares a
    word with the query and scores above the threshold; they come in order of
    decreasing score, and no runbook left out scores higher than one kept. *)
Theorem runbook_match_best (query : string) (runbooks : list Runbook) (topN : Z) (threshold : F) :
  let matched := matchRunbooksWithThreshold query runbooks topN threshold in
  (Z.of_nat (length matched) <= Z.max 0 topN)%Z /\
  exists kept dropped,
    matched = map fst kept /\
    (matched <> [] -> kept ++ dropped ≡ₚ scored_runbooks query runbooks threshold) /\
    StronglySorted (fun a b => (toQ b.2 <= toQ a.2)%Q) (kept ++ dropped) /\
    Forall (fun x => x.1 ∈ runbooks /\ (toQ threshold < toQ x.2)%Q /\
      exists w, w ∈ tokenizeQuery query /\
        w ∈ tokenizeQuery (rb_Name x.1 +:+ " " +:+ rb_Category x.1 +:+ " " +:+ rb_Description x.1))
      kept.
Proof.
  simpl. unfold matchRunbooksWithThreshold.
  destruct ((length runbooks =? 0)%nat || (topN <=? 0)%Z) eqn:E0.
  { split; [simpl; lia|]. exists [], []. repeat split; try done; constructor. }
  apply orb_false_iff in E0 as [_ E0]. apply Z.leb_gt in E0.
  destruct (length (tokenizeQuery query) =? 0)%nat.
  { split; [simpl; lia|]. exists [], []. repeat split; try done; constructor. }
  set (sc := scored_runbooks query runbooks threshold). set (l := go_sort by_score sc).
  set (kept := if (topN <? Z.of_nat (length l))%Z then take (Z.to_nat topN) l else l).
  assert (kept ++ drop (length kept) l = l) as Hl.
  { unfold kept. destruct (Z.ltb_spec topN (Z.of_nat (length l))); [|by rewrite drop_all, app_nil_r].
    rewrite length_take, Nat.min_l by lia. apply take_drop. }
  split.
  { unfold kept. rewrite length_fmap. destruct (Z.ltb_spec topN (Z.of_nat (length l)));
      rewrite ?length_take; lia. }
  exists kept, (drop (length kept) l). rewrite Hl. split; [done|]. split; [|split].
  - intros _. apply go_sort_perm.
  - eapply StronglySorted_weaken; [|apply (go_sort_sorted by_score sc by_score_weak)].
    unfold ordered, by_score. intros x y Hy. by num_norm.
  - apply Forall_forall. intros [rb q] Hin.
    assert ((rb, q) ∈ sc) as Hsc.
    { rewrite <-(go_sort_perm by_score sc). fold l. rewrite <-Hl. apply elem_of_app. by left. }
    unfold sc, scored_runbooks in Hsc. apply list_elem_of_omap in Hsc as (rb' & Hrb & Hsc).
    unfold score_runbook in Hsc. destruct (_ =? 0)%nat in Hsc; [done|].
    destruct (_ =? 0)%nat eqn:Hh in Hsc; [done|]. apply Nat.eqb_neq in Hh. destruct (nltb _ _) eqn:Hs in Hsc; [|done].
    injection Hsc as -> <-. simpl. split; [done|]. split; [by apply nltb_spec|].
    apply countb_nonzero in Hh as (w & Hw1 & Hw2). exists w. split; [done|].
    by apply slice_contains_true.
Qed.
End properties.

(** Incident messages open the tools needed to investigate them, and the empty
    message opens nothing beyond the core: [detectToolIntent] of an incident message
    contains the infrastructure and investigation categories, and every category it
    yields is one the tool table knows. *)
Theorem tool_intent_incident (message : string) :
  (detectIncidentContext message = true ->
     "infra" ∈ detectToolIntent message /\ "investigation" ∈ detectToolIntent message) /\
  detectToolIntent message ⊆ {["investigation"; "infra"; "git_write"]} /\
  detectToolIntent "" = ∅.
Proof.
  unfold detectToolIntent. split; [|split; [|done]].
  - intros Hi. rewrite Hi. destruct (String.eqb_spec message "") as [->|_]; [done|].
    unfold add_if. set_solver.
  - destruct (String.eqb message ""); [set_solver|]. unfold add_if.
    repeat case_match; set_solver.
Qed.
