(* ===== verification/SecurityManager.v ===== *)
(** * The security manager

    The [SecurityManager] interface of [src/internal/security/security.go] (a class,
    what the agent is proved against), the audit log ([audit.go]) and the [Manager]
    of [manager.go] that composes any permission enforcer, audit log and budget
    enforcer into one; the in-memory and the persistent budget are both instances. *)

From S2P Require Import Prelude Security Budget.

Record AuditEvent (F P : Type) := mkAuditEvent {
  au_Timestamp : Time;
  au_CorrelationID : string;
  au_UserID : string;
  au_Action : string;
  au_Tool : string;
  au_Parameters : option P;
  au_Result : string;
  au_TokensUsed : Z;
  au_CostUSD : F;
  au_ApprovedBy : string;
  au_Error : string;
}.
Arguments mkAuditEvent {F P}.
Arguments au_Timestamp {F P}.
Arguments au_CorrelationID {F P}.
Arguments au_UserID {F P}.
Arguments au_Action {F P}.
Arguments au_Tool {F P}.
Arguments au_Parameters {F P}.
Arguments au_Result {F P}.
Arguments au_TokensUsed {F P}.
Arguments au_CostUSD {F P}.
Arguments au_ApprovedBy {F P}.
Arguments au_Error {F P}.

(** [SecurityManager]; [Rel] is the type of the release functions. *)
Class SecurityManager (F P S Rel : Type) := {
  sm_CheckPermission : S -> string -> Action -> option error * S;
  sm_RequireApproval : S -> string -> Action -> option error * S;
  sm_CheckBudget : S -> string -> F -> option error * S;
  sm_ReserveBudget : S -> string -> F -> result error Rel * S;
  sm_release : Rel -> S -> S;
  sm_RecordCost : S -> string -> F -> S;
  sm_LogAction : S -> AuditEvent F P -> option error * S;
}.

(** ** The parts a [Manager] composes *)

Class RbacEnforcer (A : Type) := {
  re_CheckPermission : A -> string -> Action -> option error * A;
  re_RequireApproval : A -> string -> Action -> option error * A;
}.

Class AuditAppender (F P B : Type) := { aa_LogAction : B -> AuditEvent F P -> option error * B }.

Class BudgetEnforcer (F D Rel : Type) := {
  be_CheckBudget : D -> string -> F -> option error * D;
  be_ReserveBudget : D -> string -> F -> result error Rel * D;
  be_release : Rel -> D -> D;
  be_RecordCost : D -> string -> F -> D;
}.

#[export] Instance rbac_enforcer : RbacEnforcer RBAC := {
  re_CheckPermission := fun r u a => (rbac_CheckPermission r u a, r);
  re_RequireApproval := fun r u a => (rbac_RequireApproval r u a, r);
}.

#[export] Instance memory_budget {F} `{Num F} : BudgetEnforcer F (BudgetManager F) (releaseFn F) := {
  be_CheckBudget := CheckBudget;
  be_ReserveBudget := ReserveBudget;
  be_release := release;
  be_RecordCost := RecordCost;
}.

(** The flag of the closure is dropped: a caller of the interface runs it once. *)
#[export] Instance pg_budget {F S R} `{Num F} `{BudgetStore F S R}
    : BudgetEnforcer F (PGBudgetManager F S) (pgRelease R) := {
  be_CheckBudget := pg_CheckBudget;
  be_ReserveBudget := pg_ReserveBudget;
  be_release := fun fn b => (pg_release fn b).2;
  be_RecordCost := pg_RecordCost;
}.

(** ** The audit log

    The lines of the file; [marshal] and [write] are what encoding the event and
    writing to the disk answer. *)

Record AuditLogger (F P : Type) := mkAuditLogger { al_lines : list (AuditEvent F P) }.
Arguments mkAuditLogger {F P}.
Arguments al_lines {F P}.

Class AuditFile (F P : Type) := {
  audit_marshal : AuditEvent F P -> option error;
  audit_write : list (AuditEvent F P) -> AuditEvent F P -> option error;
}.

Definition LogAction {F P} `{AuditFile F P} (a : AuditLogger F P) (event : AuditEvent F P)
    : option error * AuditLogger F P :=
  match audit_marshal event with
  | Some err => (Some (Wrap "marshaling audit event" err), a)
  | None =>
      match audit_write (al_lines a) event with
      | Some writeErr => (Some (Wrap "writing audit event" writeErr), a)
      | None => (None, mkAuditLogger (al_lines a ++ [event]))
      end
  end.

#[export] Instance file_audit {F P} `{AuditFile F P} : AuditAppender F P (AuditLogger F P) :=
  {| aa_LogAction := LogAction |}.

(** ** [Manager] *)

Record Manager (A B D : Type) := NewManager { sec_rbac : A; sec_audit : B; sec_budget : D }.
Arguments NewManager {A B D}.
Arguments sec_rbac {A B D}.
Arguments sec_audit {A B D}.
Arguments sec_budget {A B D}.

Section manager.
Context {F P A B D Rel : Type} `{RbacEnforcer A} `{!AuditAppender F P B} `{!BudgetEnforcer F D Rel}.
Implicit Types m : Manager A B D.

Definition m_CheckPermission m (userID : string) (action : Action) : option error * Manager A B D :=
  let '(r, a) := re_CheckPermission (sec_rbac m) userID action in
  (r, NewManager a (sec_audit m) (sec_budget m)).

Definition m_RequireApproval m (userID : string) (action : Action) : option error * Manager A B D :=
  let '(r, a) := re_RequireApproval (sec_rbac m) userID action in
  (r, NewManager a (sec_audit m) (sec_budget m)).

Definition m_CheckBudget m (userID : string) (estimatedCost : F) : option error * Manager A B D :=
  let '(r, d) := be_CheckBudget (sec_budget m) userID estimatedCost in
  (r, NewManager (sec_rbac m) (sec_audit m) d).

Definition m_ReserveBudget m (userID : string) (estimatedCost : F)
    : result error Rel * Manager A B D :=
  let '(r, d) := be_ReserveBudget (sec_budget m) userID estimatedCost in
  (r, NewManager (sec_rbac m) (sec_audit m) d).

Definition m_release (fn : Rel) m : Manager A B D :=
  NewManager (sec_rbac m) (sec_audit m) (be_release fn (sec_budget m)).

Definition m_RecordCost m (userID : string) (actualCost : F) : Manager A B D :=
  NewManager (sec_rbac m) (sec_audit m) (be_RecordCost (sec_budget m) userID actualCost).

Definition m_LogAction m (event : AuditEvent F P) : option error * Manager A B D :=
  let '(r, b) := aa_LogAction (sec_audit m) event in
  (r, NewManager (sec_rbac m) b (sec_budget m)).

#[export] Instance composed_manager : SecurityManager F P (Manager A B D) Rel := {
  sm_CheckPermission := m_CheckPermission;
  sm_RequireApproval := m_RequireApproval;
  sm_CheckBudget := m_CheckBudget;
  sm_ReserveBudget := m_ReserveBudget;
  sm_release := m_release;
  sm_RecordCost := m_RecordCost;
  sm_LogAction := m_LogAction;
}.
End manager.

(** ** Lemmas *)

(** The log is append-only, and only a failed call leaves the event out. *)
Lemma LogAction_spec {F P} `{AuditFile F P} (a : AuditLogger F P) ev :
  let '(err, a') := LogAction a ev in
  al_lines a' = al_lines a ++ match err with None => [ev] | Some _ => [] end.
Proof. unfold LogAction. repeat case_match; simplify_eq/=; by rewrite ?app_nil_r. Qed.
