(* ===== verification/Agent.v ===== *)
(** * The agent: tool execution under the security pipeline

    [src/internal/agent/orchestrator.go] and [agent.go]: executing a tool
    ([ExecuteTool], [runSecurityChecks], [executeWithAudit]) and resuming one after
    an approval ([ResumeWithApproval]).  The conversation loop is in [AgentLoop].

    The state is everything a call reads or changes: the security manager, the
    approval manager, the auto-approver, the tool cache, the conversation store and
    the world the tools and the model act on, with the trace of the calls made
    across those interfaces; the trace is what the theorems speak about.  A
    component that the code allows to be nil is a flag of the configuration. *)

From S2P Require Import Prelude Security SecurityManager Approval AutoApproval.
From S2P Require Import LLM Conversation Prompt.

(** The clock, [uuid.New], the approval identifiers and [uuid.Parse]. *)
Class Env (W : Type) := {
  env_now : W -> Time * W;
  env_uuid : W -> uuid * W;
  env_generateID : W -> result error string * W;
  parse_uuid : string -> option uuid;
}.

Section agent.
Context {F P S Rel C W : Type}.
Context `{Num F} `{GoMap P} `{GoJson P} `{Digest} `{ErrorText} `{Env W}.
Context `{!SecurityManager F P S Rel} `{!ConversationStore C P}.
Context `{!GoSort (Runbook * F)} `{!MapRange string (Tool F P W)}.

(** ** Data *)

Record Input := mkInput {
  in_UserID : string; in_Message : string; in_CorrelationID : string; in_ConversationID : string;
}.

Record ToolRequest := mkToolRequest {
  tq_UserID : string;
  tq_ToolName : string;
  tq_Parameters : P;
  tq_CorrelationID : string;
  tq_ConversationID : string;
  tq_ToolUseID : string;
}.

Record ToolCallResult := mkToolCallResult { tcr_ToolName : string; tcr_Success : bool }.

Record ApprovalRequest := mkApprovalRequest {
  arq_ApprovalID : string; arq_ToolName : string; arq_ActionName : string;
  arq_RiskLevel : string; arq_UserID : string;
}.

Record Response := mkResponse {
  rsp_Message : string;
  rsp_TokensUsed : Z;
  rsp_ApprovalRequests : list ApprovalRequest;
  rsp_ToolResults : list ToolCallResult;
}.

Definition DefaultMaxIterations : Z := 25%Z.

(** The configuration of [Orchestrator].  The flags tell whether the pointer is
    non-nil; the pointed-to component is in the state. *)
Record Orchestrator := mkOrchestrator {
  o_provider : Request P -> W -> result error (LLMResponse P) * W;
  o_prompt : PromptConfig F;
  o_security : bool;
  o_toolRegistry : option (Registry F P W);
  o_approvalMgr : bool;
  o_policyEnforcer : option PolicyEnforcer;
  o_autoApprover : bool;
  o_maxIterations : Z;
  o_toolCache : bool;
  o_readOnlyTools : gset string;
  o_summarizeOnTruncate : bool;
  o_autonomousMode : bool;
  o_lazyToolLoading : bool;
  o_convStore : bool;
  o_convOrgID : uuid;
  o_maxHistoryMessages : Z;
  o_maxMessageBytes : Z;
}.

(** ** The trace and the state *)

Inductive event :=
  | EvPermission (userID : string) (action : Action) (err : option error)
  | EvRequireApproval (userID : string) (action : Action) (err : option error)
  | EvAutoApprove (userID toolName : string) (params : P) (ok : bool)
  | EvCreateApproval (req : CreateRequest F P) (res : result error string)
  | EvReserve (userID : string) (cost : F) (ok : bool)
  | EvAudit (ev : AuditEvent F P)
  | EvExecute (userID toolName : string) (params : P) (res : result error (ToolResult P))
  | EvRecordCost (userID : string) (cost : F)
  | EvRelease
  | EvCacheHit (toolName : string) (params : P) (resp : ToolResponse F P)
  | EvGetApproval (id : string) (res : result error (PendingApproval F P))
  | EvReplaceResult (convID : uuid) (toolUseID content : string) (isError : bool)
  | EvLLM (req : Request P) (res : result error (LLMResponse P))
  | EvAppend (convID : uuid) (msgs : list (Message P)).

Record State := mkState {
  s_security : S;
  s_approvals : Approval.Manager F P;
  s_auto : AutoApprover;
  s_cache : ToolCache F P;
  s_conv : C;
  s_world : W;
  s_trace : list event;
}.

Definition set_security (x : S) (s : State) : State :=
  mkState x (s_approvals s) (s_auto s) (s_cache s) (s_conv s) (s_world s) (s_trace s).
Definition set_approvals (x : Approval.Manager F P) (s : State) : State :=
  mkState (s_security s) x (s_auto s) (s_cache s) (s_conv s) (s_world s) (s_trace s).
Definition set_auto (x : AutoApprover) (s : State) : State :=
  mkState (s_security s) (s_approvals s) x (s_cache s) (s_conv s) (s_world s) (s_trace s).
Definition set_cache (x : ToolCache F P) (s : State) : State :=
  mkState (s_security s) (s_approvals s) (s_auto s) x (s_conv s) (s_world s) (s_trace s).
Definition set_conv (x : C) (s : State) : State :=
  mkState (s_security s) (s_approvals s) (s_auto s) (s_cache s) x (s_world s) (s_trace s).
Definition set_world (x : W) (s : State) : State :=
  mkState (s_security s) (s_approvals s) (s_auto s) (s_cache s) (s_conv s) x (s_trace s).
Definition emit (e : event) (s : State) : State :=
  mkState (s_security s) (s_approvals s) (s_auto s) (s_cache s) (s_conv s) (s_world s)
    (s_trace s ++ [e]).

Abbreviation M := (st State).

Definition on_state {A} (f : State -> A * State) : M A := f.

(** ** The calls across interfaces *)

Definition time_Now : M Time := fun s =>
  let '(t, w) := env_now (s_world s) in (t, set_world w s).

Definition security_CheckPermission (userID : string) (action : Action) : M (option error) := fun s =>
  let '(r, x) := sm_CheckPermission (s_security s) userID action in
  (r, emit (EvPermission userID action r) (set_security x s)).

Definition security_RequireApproval (userID : string) (action : Action) : M (option error) := fun s =>
  let '(r, x) := sm_RequireApproval (s_security s) userID action in
  (r, emit (EvRequireApproval userID action r) (set_security x s)).

Definition security_ReserveBudget (userID : string) (cost : F) : M (result error Rel) := fun s =>
  let '(r, x) := sm_ReserveBudget (s_security s) userID cost in
  (r, emit (EvReserve userID cost (is_ok r)) (set_security x s)).

Definition security_release (fn : Rel) : M unit := fun s =>
  (tt, emit EvRelease (set_security (sm_release fn (s_security s)) s)).

Definition security_RecordCost (userID : string) (cost : F) : M unit := fun s =>
  (tt, emit (EvRecordCost userID cost) (set_security (sm_RecordCost (s_security s) userID cost) s)).

(** The answer of [LogAction] is dropped by every caller. *)
Definition security_LogAction (ev : AuditEvent F P) : M unit := fun s =>
  let '(_, x) := sm_LogAction (s_security s) ev in
  (tt, emit (EvAudit ev) (set_security x s)).

Definition autoApprover_ShouldAutoApprove (userID toolName : string) (params : P) : M bool :=
  now1 ← time_Now;
  now2 ← time_Now;
  on_state (fun s =>
    let '(b, a) := ShouldAutoApprove (s_auto s) userID toolName params now1 now2 in
    (b, emit (EvAutoApprove userID toolName params b) (set_auto a s))).

Definition autoApprover_RecordManualApproval (userID toolName : string) (params : P) : M unit :=
  now1 ← time_Now;
  now2 ← time_Now;
  on_state (fun s =>
    (tt, set_auto (RecordManualApproval (s_auto s) userID toolName params now1 now2) s)).

Definition approvalMgr_Create (req : CreateRequest F P) : M (result error string) := fun s =>
  let '(gen, w) := env_generateID (s_world s) in
  let '(now, w) := env_now w in
  let '(r, m) := Create (s_approvals s) req gen now in
  (r, emit (EvCreateApproval req r) (set_approvals m (set_world w s))).

Definition approvalMgr_Get (id : string) : M (result error (PendingApproval F P)) :=
  now ← time_Now;
  on_state (fun s =>
    let '(r, m) := Get (s_approvals s) id now in
    (r, emit (EvGetApproval id r) (set_approvals m s))).

(** [tool.Validate] on the current world. *)
Definition tool_validate (tool : Tool F P W) (params : P) : M (option error) :=
  on_state (fun s => (tool_Validate tool params (s_world s), s)).

(** [tool.Execute] with the user the context carries. *)
Definition tool_run (userID : string) (tool : Tool F P W) (params : P)
    : M (result error (ToolResult P)) := fun s =>
  let '(r, w) := tool_Execute tool userID params (s_world s) in
  (r, emit (EvExecute userID (tool_Name tool) params r) (set_world w s)).

(** ** Tool execution *)

Definition logAuditEvent (req : ToolRequest) (actionName res : string) (costUSD : F)
    (approvedBy : string) (err : option error) : M unit :=
  now ← time_Now;
  security_LogAction
    (mkAuditEvent now (tq_CorrelationID req) (tq_UserID req) actionName (tq_ToolName req)
       (Some (tq_Parameters req)) res 0 costUSD approvedBy
       (match err with Some e => error_Error e | None => "" end)).

Definition create_request (req : ToolRequest) (action : Action) (estimatedCost : F)
    : CreateRequest F P :=
  mkCreateRequest (tq_UserID req) (tq_ToolName req) (tq_Parameters req) (act_Name action)
    (RiskLevel_String (act_RiskLevel action)) estimatedCost (tq_CorrelationID req)
    (tq_ConversationID req) (tq_ToolUseID req).

(** The two ways around a required approval: autonomous mode, auto-approval. *)
Definition bypassApproval (o : Orchestrator) (req : ToolRequest) (action : Action)
    (estimatedCost : F) (err : error) : M bool :=
  if errors_is err ErrApprovalRequired then
    if o_autonomousMode o then
      _ ← logAuditEvent req (act_Name action) "autonomous_approved" estimatedCost "" None;
      mret true
    else if o_autoApprover o then
      ok ← autoApprover_ShouldAutoApprove (tq_UserID req) (tq_ToolName req) (tq_Parameters req);
      if (ok : bool) then
        _ ← logAuditEvent req (act_Name action) "auto_approved" estimatedCost "" None;
        mret true
      else mret false
    else mret false
  else mret false.

Definition runSecurityChecks (o : Orchestrator) (req : ToolRequest) (action : Action)
    (estimatedCost : F) : M (option error) :=
  perm ← security_CheckPermission (tq_UserID req) action;
  match perm with
  | Some err =>
      _ ← logAuditEvent req (act_Name action) "denied" estimatedCost "" (Some err);
      mret (Some err)
  | None =>
      appr ← security_RequireApproval (tq_UserID req) action;
      match appr with
      | None => mret None
      | Some err =>
          bypass ← bypassApproval o req action estimatedCost err;
          if (bypass : bool) then mret None
          else if errors_is err ErrApprovalRequired && o_approvalMgr o then
            created ← approvalMgr_Create (create_request req action estimatedCost);
            match created with
            | Err createErr => mret (Some (Wrap "creating approval request" createErr))
            | Ok approvalID =>
                _ ← logAuditEvent req (act_Name action) "approval_pending" estimatedCost "" None;
                mret (Some (ErrApprovalPending approvalID (tq_ToolName req) (act_Name action)
                              (RiskLevel_String (act_RiskLevel action)) (tq_UserID req)))
            end
          else
            _ ← logAuditEvent req (act_Name action) "denied" estimatedCost "" (Some err);
            mret (Some err)
      end
  end.

Definition executeWithAudit (o : Orchestrator) (req : ToolRequest) (tool : Tool F P W)
    (action : Action) (estimatedCost : F) (approvedBy : string)
    : M (result error (ToolResponse F P)) :=
  reserved ← security_ReserveBudget (tq_UserID req) estimatedCost;
  match reserved with
  | Err err =>
      _ ← logAuditEvent req (act_Name action) "denied" estimatedCost approvedBy (Some err);
      mret (Err err)
  | Ok release =>
      _ ← logAuditEvent req (act_Name action) "intent" estimatedCost approvedBy None;
      res ← tool_run (tq_UserID req) tool (tq_Parameters req);
      out ← match res with
            | Err execErr =>
                _ ← logAuditEvent req (act_Name action) "failure" estimatedCost approvedBy (Some execErr);
                _ ← security_RecordCost (tq_UserID req) estimatedCost;
                mret (Err (Wrap "tool execution failed" execErr))
            | Ok r =>
                _ ← logAuditEvent req (act_Name action) "success" estimatedCost approvedBy None;
                _ ← security_RecordCost (tq_UserID req) estimatedCost;
                mret (Ok (mkToolResponse (tr_Output r) (tr_Success r) estimatedCost (tr_Metadata r)))
            end;
      _ ← security_release release;
      mret out
  end.

(** The fallback without security: no audit, no budget, cost zero. *)
Definition executeTool (userID : string) (tool : Tool F P W) (params : P)
    : M (result error (ToolResponse F P)) :=
  res ← tool_run userID tool params;
  match res with
  | Err err => mret (Err (Wrap "tool execution failed" err))
  | Ok r => mret (Ok (mkToolResponse (tr_Output r) (tr_Success r) (nofZ 0) (tr_Metadata r)))
  end.

Definition cacheToolResult (o : Orchestrator) (toolName : string) (params : P)
    (resp : ToolResponse F P) : M unit :=
  if o_toolCache o && bool_decide (toolName ∈ o_readOnlyTools o) then
    now ← time_Now;
    on_state (fun s => (tt, set_cache (cache_Set (s_cache s) toolName params resp now) s))
  else mret tt.

Definition cacheLookup (o : Orchestrator) (toolName : string) (params : P)
    : M (option (ToolResponse F P)) :=
  if o_toolCache o && bool_decide (toolName ∈ o_readOnlyTools o) then
    now ← time_Now;
    on_state (fun s =>
      match cache_Get (s_cache s) toolName params now with
      | Some cached => (Some cached, emit (EvCacheHit toolName params cached) s)
      | None => (None, s)
      end)
  else mret None.

Definition policyCheck (o : Orchestrator) (req : ToolRequest) : option error :=
  match o_policyEnforcer o with
  | None => None
  | Some pe => CheckToolAllowed pe (tq_UserID req) (tq_ToolName req)
  end.

(** The audit of a policy denial, which carries no parameters and no cost. *)
Definition logPolicyDenied (o : Orchestrator) (req : ToolRequest) (tool : Tool F P W) (err : error)
    : M unit :=
  if o_security o then
    now ← time_Now;
    security_LogAction
      (mkAuditEvent now (tq_CorrelationID req) (tq_UserID req) (act_Name (tool_RequiredAction tool))
         (tq_ToolName req) None "policy_denied" 0 (nofZ 0) "" (error_Error err))
  else mret tt.

Definition cacheOnSuccess (o : Orchestrator) (req : ToolRequest)
    (r : result error (ToolResponse F P)) : M (result error (ToolResponse F P)) :=
  _ ← match r with
      | Ok resp => cacheToolResult o (tq_ToolName req) (tq_Parameters req) resp
      | Err _ => mret tt
      end;
  mret r.

(** [ExecuteTool] from the policy check on: the tool is known, its parameters valid
    and no cached result is used. *)
Definition executeChecked (o : Orchestrator) (req : ToolRequest) (tool : Tool F P W)
    : M (result error (ToolResponse F P)) :=
  match policyCheck o req with
  | Some err =>
      _ ← logPolicyDenied o req tool err;
      mret (Err (Wrap "policy denied tool" err))
  | None =>
      let secAction := tool_RequiredAction tool in
      let estimatedCost := tool_EstimateCost tool (tq_Parameters req) in
      if o_security o then
        checks ← runSecurityChecks o req secAction estimatedCost;
        match checks with
        | Some err => mret (Err err)
        | None =>
            resp ← executeWithAudit o req tool secAction estimatedCost "";
            cacheOnSuccess o req resp
        end
      else
        resp ← executeTool (tq_UserID req) tool (tq_Parameters req);
        cacheOnSuccess o req resp
  end.

Definition ExecuteTool (o : Orchestrator) (req : ToolRequest) : M (result error (ToolResponse F P)) :=
  match o_toolRegistry o with
  | None => mret (Err (Errorf "no tool registry configured"))
  | Some reg =>
      match registry_Get reg (tq_ToolName req) with
      | None => mret (Err (Errorf "unknown tool"))
      | Some tool =>
          invalid ← tool_validate tool (tq_Parameters req);
          match invalid with
          | Some err => mret (Err (Wrap "tool validation" err))
          | None =>
              cached ← cacheLookup o (tq_ToolName req) (tq_Parameters req);
              match cached with
              | Some resp => mret (Ok resp)
              | None => executeChecked o req tool
              end
          end
      end
  end.

(** ** Resuming after an approval *)

Definition updateApprovalToolResult (o : Orchestrator) (pa : PendingApproval F P) (content : string)
    (isError : bool) : M unit :=
  if negb (o_convStore o) || String.eqb (pa_ConversationID pa) "" || String.eqb (pa_ToolUseID pa) ""
  then mret tt
  else
    match parse_uuid (pa_ConversationID pa) with
    | None => mret tt
    | Some convID => on_state (fun s =>
        let '(_, c) := cs_ReplaceToolResult (s_conv s) convID (pa_ToolUseID pa) content isError in
        (tt, emit (EvReplaceResult convID (pa_ToolUseID pa) content isError) (set_conv c s)))
    end.

Definition resume_request (pa : PendingApproval F P) : ToolRequest :=
  mkToolRequest (pa_UserID pa) (pa_ToolName pa) (pa_Parameters pa) (pa_CorrelationID pa) "" "".

(** [ResumeWithApproval] once the approval is known to be approved. *)
Definition resumeApproved (o : Orchestrator) (pa : PendingApproval F P)
    : M (result error (ToolResponse F P)) :=
  _ ← (if o_autoApprover o
       then autoApprover_RecordManualApproval (pa_UserID pa) (pa_ToolName pa) (pa_Parameters pa)
       else mret tt);
  match o_toolRegistry o with
  | None => mret (Err (Errorf "no tool registry configured"))
  | Some reg =>
      match registry_Get reg (pa_ToolName pa) with
      | None => mret (Err (Errorf "tool no longer available"))
      | Some tool =>
          invalid ← tool_validate tool (pa_Parameters pa);
          match invalid with
          | Some err => mret (Err (Wrap "tool re-validation" err))
          | None =>
              resp ← (if o_security o
                      then executeWithAudit o (resume_request pa) tool (tool_RequiredAction tool)
                             (pa_EstimatedCost pa) (pa_ApprovedBy pa)
                      else executeTool "" tool (pa_Parameters pa));
              match resp with
              | Err execErr =>
                  _ ← updateApprovalToolResult o pa ("Error: " +:+ error_Error execErr) true;
                  mret (Err execErr)
              | Ok r =>
                  _ ← updateApprovalToolResult o pa (tp_Output r) false;
                  mret (Ok r)
              end
          end
      end
  end.

Definition ResumeWithApproval (o : Orchestrator) (approvalID : string)
    : M (result error (ToolResponse F P)) :=
  if negb (o_approvalMgr o) then mret (Err (Errorf "no approval manager configured"))
  else
    got ← approvalMgr_Get approvalID;
    match got with
    | Err err => mret (Err (Wrap "approval lookup" err))
    | Ok pa =>
        if negb (bool_decide (pa_Status pa = StatusApproved))
        then mret (Err (Errorf "approval is not approved"))
        else resumeApproved o pa
    end.
End agent.

Arguments event F P : clear implicits.
Arguments State F P S C W : clear implicits.
Arguments Orchestrator F P W : clear implicits.
Arguments ToolRequest P : clear implicits.
