(* ===== verification/AgentSpec.v ===== *)
(** * What executing a tool promises

    The security pipeline as a specification on traces: [exec_trace] lists the
    traces an execution may have, with its answer, and [ExecuteTool] is shown to
    refine it.  The safety properties follow from the specification.

    Traces are reasoned about with a small logic: [runs m Q] says that from any
    state, [m] only appends to the trace, keeps the invariant [I] of the security
    manager, and that its answer and the appended events satisfy [Q]; every
    appended event satisfies [ok]. *)

From S2P Require Import Prelude Security Budget SecurityManager Approval AutoApproval.
From S2P Require Import LLM Conversation Prompt Agent.

Section spec.
Context {F P S Rel C W : Type}.
Context `{Num F} `{GoMap P} `{GoJson P} `{Digest} `{ErrorText} `{Env W}.
Context `{!SecurityManager F P S Rel} `{!ConversationStore C P}.
Implicit Types (o : Orchestrator F P W) (req : ToolRequest P) (s : State F P S C W).
Implicit Types (tool : Tool F P W) (c : F) (e : error).
Abbreviation M := (st (State F P S C W)).

(** ** The trace logic *)

(** What a group of theorems assumes of the security manager: an invariant its
    operations keep, under which its answers make acceptable events. *)
Record sec_invariant (I : S -> Prop) (ok : event F P -> Prop) : Prop := {
  si_permission : forall x u a, I x ->
    I (sm_CheckPermission x u a).2 /\ ok (EvPermission u a (sm_CheckPermission x u a).1);
  si_approval : forall x u a, I x ->
    I (sm_RequireApproval x u a).2 /\ ok (EvRequireApproval u a (sm_RequireApproval x u a).1);
  si_reserve : forall x u c, I x -> I (sm_ReserveBudget x u c).2;
  si_release : forall x r, I x -> I (sm_release r x);
  si_record : forall x u c, I x -> I (sm_RecordCost x u c);
  si_log : forall x ev, I x -> I (sm_LogAction x ev).2;
  si_ok : forall ev, match ev with
    | EvPermission _ _ _ | EvRequireApproval _ _ _ => True | _ => ok ev end;
}.

Context (I : S -> Prop) (ok : event F P -> Prop) (HI : sec_invariant I ok).

Definition runs {A} (m : M A) (Q : A -> list (event F P) -> Prop) : Prop :=
  forall s, I (s_security s) ->
    exists t, s_trace (m s).2 = s_trace s ++ t /\ Forall ok t /\ I (s_security (m s).2) /\
              Q (m s).1 t.

Lemma runs_ret {A} (a : A) (Q : A -> list (event F P) -> Prop) : Q a [] -> runs (mret a) Q.
Proof. intros HQ s Hs. exists []. simpl. rewrite app_nil_r. by repeat constructor. Qed.

Lemma runs_bind {A B} (m : M A) (k : A -> M B) Q Q' :
  runs m Q -> (forall a t, Q a t -> runs (k a) (fun b t' => Q' b (t ++ t'))) ->
  runs (m ≫= k) Q'.
Proof.
  intros Hm Hk s Hs. destruct (Hm s Hs) as (t & Ht & Hok & HIs & HQ).
  unfold mbind, st_bind. destruct (m s) as [a s1]. simpl in *.
  destruct (Hk a t HQ s1 HIs) as (t' & Ht' & Hok' & HIs' & HQ').
  exists (t ++ t'). rewrite Ht', Ht, app_assoc. split; [done|].
  split; [by apply Forall_app|done].
Qed.

Lemma runs_weaken {A} (m : M A) (Q Q' : A -> list (event F P) -> Prop) :
  runs m Q -> (forall a t, Q a t -> Q' a t) -> runs m Q'.
Proof. intros Hm HQ s Hs. destruct (Hm s Hs) as (t & ?). exists t. naive_solver. Qed.

Lemma runs_now : runs time_Now (fun _ t => t = []).
Proof.
  intros s Hs. exists []. unfold time_Now. destruct (env_now _) as [now w]. simpl.
  rewrite app_nil_r. by repeat constructor.
Qed.

Lemma ok_other ev :
  match ev with EvPermission _ _ _ | EvRequireApproval _ _ _ => False | _ => True end -> ok ev.
Proof. pose proof (si_ok I ok HI ev). by destruct ev. Qed.

Lemma runs_permission u a : runs (security_CheckPermission u a) (fun r t => t = [EvPermission u a r]).
Proof.
  intros s Hs. pose proof (si_permission I ok HI (s_security s) u a Hs) as [Hi1 Hi2].
  unfold security_CheckPermission. destruct (sm_CheckPermission _ _ _) as [r x].
  eexists. split; [reflexivity|]. by repeat constructor.
Qed.

Lemma runs_require u a : runs (security_RequireApproval u a) (fun r t => t = [EvRequireApproval u a r]).
Proof.
  intros s Hs. pose proof (si_approval I ok HI (s_security s) u a Hs) as [Hi1 Hi2].
  unfold security_RequireApproval. destruct (sm_RequireApproval _ _ _) as [r x].
  eexists. split; [reflexivity|]. by repeat constructor.
Qed.

Lemma runs_reserve u c :
  runs (security_ReserveBudget u c) (fun r t => t = [EvReserve u c (is_ok r)]).
Proof.
  intros s Hs. pose proof (si_reserve I ok HI (s_security s) u c Hs) as Hi1.
  unfold security_ReserveBudget. destruct (sm_ReserveBudget _ _ _) as [r x].
  eexists. split; [reflexivity|]. repeat constructor; [by apply ok_other|done].
Qed.

Lemma runs_release r : runs (security_release r) (fun _ t => t = [EvRelease]).
Proof.
  intros s Hs. eexists. split; [reflexivity|]. repeat constructor; [by apply ok_other|].
  by apply (si_release I ok HI).
Qed.

Lemma runs_record u c : runs (security_RecordCost u c) (fun _ t => t = [EvRecordCost u c]).
Proof.
  intros s Hs. eexists. split; [reflexivity|]. repeat constructor; [by apply ok_other|].
  by apply (si_record I ok HI).
Qed.

Lemma runs_log ev : runs (security_LogAction ev) (fun _ t => t = [EvAudit ev]).
Proof.
  intros s Hs. pose proof (si_log I ok HI (s_security s) ev Hs) as Hi1.
  unfold security_LogAction. destruct (sm_LogAction _ _) as [r x].
  eexists. split; [reflexivity|]. repeat constructor; [by apply ok_other|done].
Qed.

Lemma runs_tool u tool p :
  runs (tool_run u tool p) (fun r t => t = [EvExecute u (tool_Name tool) p r]).
Proof.
  intros s Hs. unfold tool_run. destruct (tool_Execute _ _ _ _) as [r w].
  eexists. split; [reflexivity|]. repeat constructor; [by apply ok_other|done].
Qed.

Lemma runs_state {A} (f : State F P S C W -> A * State F P S C W) (Q : A -> list (event F P) -> Prop) :
  (forall s, s_security (f s).2 = s_security s /\ exists t, s_trace (f s).2 = s_trace s ++ t /\
     Forall ok t /\ Q (f s).1 t) -> runs (on_state f) Q.
Proof.
  intros Hf s Hs. destruct (Hf s) as (E & t & ?). exists t. unfold on_state. rewrite E. naive_solver.
Qed.

Lemma runs_validate tool p :
  runs (tool_validate tool p)
    (fun r t => t = [] /\ (r = None -> exists w, tool_Validate tool p w = None)).
Proof.
  intros s Hs. exists []. unfold tool_validate, on_state. simpl. rewrite app_nil_r.
  repeat (split; [done|]). intros E. by exists (s_world s).
Qed.

(** ** The specification *)

(** The audit event [logAuditEvent] writes. *)
Definition audit (now : Time) req (actionName res : string) c (approvedBy : string)
    (err : option error) : event F P :=
  EvAudit (mkAuditEvent now (tq_CorrelationID req) (tq_UserID req) actionName (tq_ToolName req)
     (Some (tq_Parameters req)) res 0 c approvedBy
     (match err with Some e => error_Error e | None => "" end)).

(** Asking the auto-approver, which leaves no event when there is none. *)
Definition asked o req (answer : bool) : list (event F P) :=
  if o_autoApprover o
  then [EvAutoApprove (tq_UserID req) (tq_ToolName req) (tq_Parameters req) answer] else [].

(** The permission and approval checks; [None] grants. *)
Inductive grant_trace o req (a : Action) c : list (event F P) -> option error -> Prop :=
  | gt_denied e t1 :
      grant_trace o req a c
        [EvPermission (tq_UserID req) a (Some e); audit t1 req (act_Name a) "denied" c "" (Some e)]
        (Some e)
  | gt_plain :
      grant_trace o req a c
        [EvPermission (tq_UserID req) a None; EvRequireApproval (tq_UserID req) a None] None
  | gt_autonomous e t1 :
      o_autonomousMode o = true -> errors_is e ErrApprovalRequired = true ->
      grant_trace o req a c
        [EvPermission (tq_UserID req) a None; EvRequireApproval (tq_UserID req) a (Some e);
         audit t1 req (act_Name a) "autonomous_approved" c "" None] None
  | gt_auto e t1 :
      o_autonomousMode o = false -> o_autoApprover o = true ->
      errors_is e ErrApprovalRequired = true ->
      grant_trace o req a c
        ([EvPermission (tq_UserID req) a None; EvRequireApproval (tq_UserID req) a (Some e)] ++
         asked o req true ++ [audit t1 req (act_Name a) "auto_approved" c "" None]) None
  | gt_pending e t1 id :
      o_autonomousMode o = false -> o_approvalMgr o = true ->
      errors_is e ErrApprovalRequired = true ->
      grant_trace o req a c
        ([EvPermission (tq_UserID req) a None; EvRequireApproval (tq_UserID req) a (Some e)] ++
         asked o req false ++
         [EvCreateApproval (create_request req a c) (Ok id);
          audit t1 req (act_Name a) "approval_pending" c "" None])
        (Some (ErrApprovalPending id (tq_ToolName req) (act_Name a)
                 (RiskLevel_String (act_RiskLevel a)) (tq_UserID req)))
  | gt_create_failed e e' :
      o_autonomousMode o = false -> o_approvalMgr o = true ->
      errors_is e ErrApprovalRequired = true ->
      grant_trace o req a c
        ([EvPermission (tq_UserID req) a None; EvRequireApproval (tq_UserID req) a (Some e)] ++
         asked o req false ++ [EvCreateApproval (create_request req a c) (Err e')])
        (Some (Wrap "creating approval request" e'))
  | gt_refused e t1 :
      o_autonomousMode o = false -> o_approvalMgr o = false ->
      errors_is e ErrApprovalRequired = true ->
      grant_trace o req a c
        ([EvPermission (tq_UserID req) a None; EvRequireApproval (tq_UserID req) a (Some e)] ++
         asked o req false ++ [audit t1 req (act_Name a) "denied" c "" (Some e)]) (Some e)
  | gt_error e t1 :
      errors_is e ErrApprovalRequired = false ->
      grant_trace o req a c
        [EvPermission (tq_UserID req) a None; EvRequireApproval (tq_UserID req) a (Some e);
         audit t1 req (act_Name a) "denied" c "" (Some e)] (Some e).

(** Reserving, running and accounting. *)
Inductive run_trace req tool (a : Action) c (by_ : string)
    : list (event F P) -> result error (ToolResponse F P) -> Prop :=
  | rt_no_budget e t1 :
      run_trace req tool a c by_
        [EvReserve (tq_UserID req) c false; audit t1 req (act_Name a) "denied" c by_ (Some e)] (Err e)
  | rt_failure e t1 t2 :
      run_trace req tool a c by_
        [EvReserve (tq_UserID req) c true; audit t1 req (act_Name a) "intent" c by_ None;
         EvExecute (tq_UserID req) (tool_Name tool) (tq_Parameters req) (Err e);
         audit t2 req (act_Name a) "failure" c by_ (Some e);
         EvRecordCost (tq_UserID req) c; EvRelease]
        (Err (Wrap "tool execution failed" e))
  | rt_success r t1 t2 :
      run_trace req tool a c by_
        [EvReserve (tq_UserID req) c true; audit t1 req (act_Name a) "intent" c by_ None;
         EvExecute (tq_UserID req) (tool_Name tool) (tq_Parameters req) (Ok r);
         audit t2 req (act_Name a) "success" c by_ None;
         EvRecordCost (tq_UserID req) c; EvRelease]
        (Ok (mkToolResponse (tr_Output r) (tr_Success r) c (tr_Metadata r))).

Definition unsecured_result (r : result error (ToolResult P)) : result error (ToolResponse F P) :=
  match r with
  | Err e => Err (Wrap "tool execution failed" e)
  | Ok r => Ok (mkToolResponse (tr_Output r) (tr_Success r) (nofZ 0) (tr_Metadata r))
  end.

Definition known_tool o req tool : Prop :=
  exists reg, o_toolRegistry o = Some reg /\ registry_Get reg (tq_ToolName req) = Some tool /\
              exists w, tool_Validate tool (tq_Parameters req) w = None.

(** [ExecuteTool] as a whole. *)
Inductive exec_trace o req : list (event F P) -> result error (ToolResponse F P) -> Prop :=
  | et_rejected e : exec_trace o req [] (Err e)
  | et_cached tool r :
      known_tool o req tool -> o_toolCache o = true -> tq_ToolName req ∈ o_readOnlyTools o ->
      exec_trace o req [EvCacheHit (tq_ToolName req) (tq_Parameters req) r] (Ok r)
  | et_policy tool e ev :
      known_tool o req tool -> policyCheck o req = Some e ->
      (if o_security o then exists a, ev = [EvAudit a] /\ au_Result a = "policy_denied" /\
         au_UserID a = tq_UserID req /\ au_Tool a = tq_ToolName req else ev = []) ->
      exec_trace o req ev (Err (Wrap "policy denied tool" e))
  | et_refused tool e g :
      known_tool o req tool -> policyCheck o req = None -> o_security o = true ->
      grant_trace o req (tool_RequiredAction tool) (tool_EstimateCost tool (tq_Parameters req)) g (Some e) ->
      exec_trace o req g (Err e)
  | et_ran tool g t r :
      known_tool o req tool -> policyCheck o req = None -> o_security o = true ->
      grant_trace o req (tool_RequiredAction tool) (tool_EstimateCost tool (tq_Parameters req)) g None ->
      run_trace req tool (tool_RequiredAction tool) (tool_EstimateCost tool (tq_Parameters req)) "" t r ->
      exec_trace o req (g ++ t) r
  | et_unsecured tool r :
      known_tool o req tool -> policyCheck o req = None -> o_security o = false ->
      exec_trace o req [EvExecute (tq_UserID req) (tool_Name tool) (tq_Parameters req) r]
        (unsecured_result r).

(** ** The definitions refine it *)

Lemma runs_logAuditEvent req an res c by_ err :
  runs (logAuditEvent req an res c by_ err) (fun _ t => exists t1, t = [audit t1 req an res c by_ err]).
Proof.
  unfold logAuditEvent. eapply runs_bind; [apply runs_now|]. intros now t ->.
  eapply runs_weaken; [apply runs_log|]. intros _ t ->. by exists now.
Qed.

Lemma runs_should_auto u n p :
  runs (autoApprover_ShouldAutoApprove u n p) (fun b t => t = [EvAutoApprove u n p b]).
Proof.
  unfold autoApprover_ShouldAutoApprove.
  eapply runs_bind; [apply runs_now|]. intros n1 t ->.
  eapply runs_bind; [apply runs_now|]. intros n2 t ->.
  apply runs_state. intros s. destruct (ShouldAutoApprove _ _ _ _ _ _) as [b a].
  split; [done|]. eexists. split; [reflexivity|]. repeat constructor. by apply ok_other.
Qed.

Lemma runs_create creq :
  runs (approvalMgr_Create creq) (fun r t => t = [EvCreateApproval creq r]).
Proof.
  intros s Hs. unfold approvalMgr_Create. destruct (env_generateID _) as [gen w].
  destruct (env_now w) as [now w']. destruct (Create _ _ _ _) as [r m].
  eexists. split; [reflexivity|]. repeat constructor; [by apply ok_other|done].
Qed.

Lemma runs_bypass o req a c e :
  runs (bypassApproval o req a c e) (fun b t =>
    if b then errors_is e ErrApprovalRequired = true /\
      (o_autonomousMode o = true /\ (exists t1, t = [audit t1 req (act_Name a) "autonomous_approved" c "" None]) \/
       o_autonomousMode o = false /\ o_autoApprover o = true /\
       exists t1, t = asked o req true ++ [audit t1 req (act_Name a) "auto_approved" c "" None])
    else if errors_is e ErrApprovalRequired
    then o_autonomousMode o = false /\ t = asked o req false else t = []).
Proof.
  unfold bypassApproval, asked. destruct (errors_is e _); [|by apply runs_ret].
  destruct (o_autonomousMode o).
  - eapply runs_bind; [apply runs_logAuditEvent|]. intros _ t [t1 ->]. apply runs_ret.
    split; [done|]. left. split; [done|]. by exists t1.
  - destruct (o_autoApprover o); [|by apply runs_ret].
    eapply runs_bind; [apply runs_should_auto|]. intros b t ->. destruct b; [|by apply runs_ret].
    eapply runs_bind; [apply runs_logAuditEvent|]. intros _ t [t1 ->]. apply runs_ret.
    split; [done|]. right. split; [done|]. split; [done|]. by exists t1.
Qed.

Lemma runs_security_checks o req a c :
  runs (runSecurityChecks o req a c) (fun r t => grant_trace o req a c t r).
Proof.
  unfold runSecurityChecks. eapply runs_bind; [apply runs_permission|]. intros [e|] t ->.
  { eapply runs_bind; [apply runs_logAuditEvent|]. intros _ t [t1 ->]. apply runs_ret. constructor. }
  eapply runs_bind; [apply runs_require|]. intros [e|] t ->; [|apply runs_ret; constructor].
  eapply runs_bind; [apply runs_bypass|]. intros b t Hb. destruct b.
  { apply runs_ret. rewrite app_nil_r. destruct Hb as [He [[Ha [t1 ->]]|(Ha & Hau & t1 & ->)]].
    - by apply gt_autonomous.
    - by apply gt_auto. }
  destruct (errors_is e ErrApprovalRequired) eqn:He; simpl.
  - destruct Hb as [Ha ->]. destruct (o_approvalMgr o) eqn:Hm.
    + eapply runs_bind; [apply runs_create|]. intros [id|e'] t ->.
      * eapply runs_bind; [apply runs_logAuditEvent|]. intros _ t [t1 ->]. apply runs_ret.
        by apply (gt_pending o req a c e t1 id).
      * apply runs_ret. by apply gt_create_failed.
    + eapply runs_bind; [apply runs_logAuditEvent|]. intros _ t [t1 ->]. apply runs_ret.
      rewrite app_nil_r. by apply gt_refused.
  - subst t. eapply runs_bind; [apply runs_logAuditEvent|]. intros _ t [t1 ->]. apply runs_ret.
    by apply gt_error.
Qed.

Lemma runs_executeWithAudit o req tool a c by_ :
  runs (executeWithAudit o req tool a c by_) (fun r t => run_trace req tool a c by_ t r).
Proof.
  unfold executeWithAudit. eapply runs_bind; [apply runs_reserve|]. intros [rel|e] t ->.
  - eapply runs_bind; [apply runs_logAuditEvent|]. intros _ t [t1 ->].
    eapply runs_bind; [apply runs_tool|]. intros r t ->.
    eapply runs_bind.
    { instantiate (1 := fun out t => exists t2,
        t = [audit t2 req (act_Name a) (match r with Ok _ => "success" | Err _ => "failure" end) c by_
               (match r with Ok _ => None | Err e => Some e end); EvRecordCost (tq_UserID req) c] /\
        out = match r with
              | Ok r => Ok (mkToolResponse (tr_Output r) (tr_Success r) c (tr_Metadata r))
              | Err e => Err (Wrap "tool execution failed" e) end).
      destruct r as [r|e].
      all: eapply runs_bind; [apply runs_logAuditEvent|]; intros _ t [t2 ->].
      all: eapply runs_bind; [apply runs_record|]; intros _ t ->; apply runs_ret; by exists t2. }
    intros out t (t2 & -> & ->). eapply runs_bind; [apply runs_release|]. intros _ t ->.
    apply runs_ret. destruct r; [apply rt_success|apply rt_failure].
  - eapply runs_bind; [apply runs_logAuditEvent|]. intros _ t [t1 ->]. apply runs_ret. constructor.
Qed.

Lemma runs_executeTool u tool p :
  runs (executeTool u tool p)
    (fun out t => exists r, t = [EvExecute u (tool_Name tool) p r] /\ out = unsecured_result r).
Proof.
  unfold executeTool. eapply runs_bind; [apply runs_tool|]. intros r t ->.
  destruct r; apply runs_ret; by eexists.
Qed.

Lemma runs_cacheOnSuccess o req r : runs (cacheOnSuccess o req r) (fun r' t => r' = r /\ t = []).
Proof.
  unfold cacheOnSuccess. eapply runs_bind with (Q := fun _ t => t = []).
  - destruct r; [|by apply runs_ret]. unfold cacheToolResult.
    destruct (_ && _); [|by apply runs_ret]. eapply runs_bind; [apply runs_now|]. intros n t ->.
    apply runs_state. intros s. split; [done|]. exists []. by rewrite app_nil_r.
  - intros _ t ->. by apply runs_ret.
Qed.

Lemma runs_executeChecked o req tool :
  known_tool o req tool -> runs (executeChecked o req tool) (fun r t => exec_trace o req t r).
Proof.
  intros Hk. unfold executeChecked. destruct (policyCheck o req) as [e|] eqn:Hp.
  - eapply runs_bind with (Q := fun _ t => if o_security o then exists a, t = [EvAudit a] /\
      au_Result a = "policy_denied" /\ au_UserID a = tq_UserID req /\ au_Tool a = tq_ToolName req
      else t = []).
    + unfold logPolicyDenied. destruct (o_security o); [|by apply runs_ret].
      eapply runs_bind; [apply runs_now|]. intros n t ->.
      eapply runs_weaken; [apply runs_log|]. intros _ t ->. by eexists.
    + intros _ t Ht. apply runs_ret. rewrite app_nil_r. by apply (et_policy o req tool).
  - destruct (o_security o) eqn:Hs.
    + eapply runs_bind; [apply runs_security_checks|]. intros [e|] g Hg.
      { apply runs_ret. rewrite app_nil_r. by apply (et_refused o req tool). }
      eapply runs_bind; [apply runs_executeWithAudit|]. intros r t Ht.
      eapply runs_weaken; [apply runs_cacheOnSuccess|]. intros r' t' [-> ->].
      rewrite app_nil_r. by apply (et_ran o req tool).
    + eapply runs_bind; [apply runs_executeTool|]. intros out t (r & -> & ->).
      eapply runs_weaken; [apply runs_cacheOnSuccess|]. intros r' t' [-> ->].
      by apply (et_unsecured o req tool).
Qed.

Lemma runs_ExecuteTool o req : runs (ExecuteTool o req) (fun r t => exec_trace o req t r).
Proof.
  unfold ExecuteTool. destruct (o_toolRegistry o) as [reg|] eqn:Hr; [|apply runs_ret; constructor].
  destruct (registry_Get reg _) as [tool|] eqn:Hg; [|apply runs_ret; constructor].
  eapply runs_bind; [apply runs_validate|]. intros [e|] t [-> Hv]; [apply runs_ret; constructor|].
  assert (known_tool o req tool) as Hk by (exists reg; destruct (Hv eq_refl) as [w ?]; by eauto).
  eapply runs_bind with (Q := fun r t => match r with
    | Some resp => o_toolCache o = true /\ tq_ToolName req ∈ o_readOnlyTools o /\
        t = [EvCacheHit (tq_ToolName req) (tq_Parameters req) resp]
    | None => t = [] end).
  - unfold cacheLookup. destruct (o_toolCache o); simpl; [|by apply runs_ret].
    case_bool_decide; [|by apply runs_ret]. eapply runs_bind; [apply runs_now|]. intros n t ->.
    apply runs_state. intros s. destruct (cache_Get _ _ _ _); (split; [done|]).
    + eexists. split; [reflexivity|]. repeat constructor; [by apply ok_other|done].
    + exists []. by rewrite app_nil_r.
  - intros [resp|] t Ht.
    + destruct Ht as (Hc & Hro & ->). apply runs_ret. by apply (et_cached o req tool).
    + subst t. by apply runs_executeChecked.
Qed.
End spec.
