(* ===== verification/AgentProps.v ===== *)
(** * Properties of tool execution

    What [AgentSpec] gives for whole executions: the refinement itself, the guards
    before a tool runs, the permission decisions of the in-memory role table, the
    cache and the approvals, and the accounting of the in-memory budget. *)

From S2P Require Import Prelude Security Budget SecurityManager Approval AutoApproval.
From S2P Require Import LLM Conversation Prompt Agent AgentSpec.

Section props.
Context {F P S Rel C W : Type}.
Context `{Num F} `{GoMap P} `{GoJson P} `{Digest} `{ErrorText} `{Env W}.
Context `{!SecurityManager F P S Rel} `{!ConversationStore C P}.
Implicit Types (o : Orchestrator F P W) (req : ToolRequest P) (s : State F P S C W) (tool : Tool F P W).

Lemma no_invariant : sec_invariant (F:=F) (P:=P) (S:=S) (fun _ => True) (fun _ => True).
Proof. constructor; try done. by intros []. Qed.

(** C1: executing a tool follows the security pipeline.  From any state, with any
    tools, security manager and stores, [ExecuteTool] appends to the trace exactly
    one of the traces of the pipeline specification, with the answer that goes
    with it: rejected, served from the cache, denied by policy, permission,
    approval or budget, or granted, reserved, audited, run, audited again, charged
    and released, in this order. *)
Theorem execute_tool_refines_pipeline o req s :
  exists t, s_trace (ExecuteTool o req s).2 = s_trace s ++ t /\
            exec_trace o req t (ExecuteTool o req s).1.
Proof.
  destruct (runs_ExecuteTool _ _ no_invariant o req s Logic.I) as (t & Ht & _ & _ & He). eauto.
Qed.

(** A granted check runs no tool and reserves nothing. *)
Lemma grant_trace_quiet o req a c g r :
  grant_trace o req a c g r ->
  Forall (fun ev => match ev with EvExecute _ _ _ _ | EvReserve _ _ _ | EvRecordCost _ _ => False | _ => True end) g.
Proof.
  intros Hg. destruct Hg; unfold asked, audit; destruct (o_autoApprover o); repeat constructor.
Qed.

Lemma grant_trace_no_execute o req a c g r u n p x :
  grant_trace o req a c g r -> EvExecute u n p x ∉ g.
Proof.
  intros Hg Hin. apply grant_trace_quiet in Hg. rewrite Forall_forall in Hg.
  by specialize (Hg _ Hin).
Qed.

(** What surrounds the only execution of an accounted run. *)
Lemma run_trace_execute req (tool : Tool F P W) a c by_ t r u n p x :
  run_trace req tool a c by_ t r -> EvExecute u n p x ∈ t ->
  u = tq_UserID req /\ n = tool_Name tool /\ p = tq_Parameters req /\
  exists t1 t2, t = [EvReserve u c true; audit t1 req (act_Name a) "intent" c by_ None;
    EvExecute u n p x;
    audit t2 req (act_Name a) (if is_ok x then "success" else "failure") c by_
      (match x with Ok _ => None | Err e => Some e end);
    EvRecordCost u c; EvRelease].
Proof.
  intros Ht Hin. destruct Ht as [e t1|e t1 t2|y t1 t2]; unfold audit in *.
  all: repeat (apply elem_of_cons in Hin as [Hin|Hin]; [try done; simplify_eq|]);
    try by apply elem_of_nil in Hin.
  all: split; [done|]; split; [done|]; split; [done|]; by exists t1, t2.
Qed.

Lemma exec_trace_execute o req t r u n p x :
  exec_trace o req t r -> o_security o = true -> EvExecute u n p x ∈ t ->
  exists tool g t',
    t = g ++ t' /\ known_tool o req tool /\ policyCheck o req = None /\
    grant_trace o req (tool_RequiredAction tool) (tool_EstimateCost tool (tq_Parameters req)) g None /\
    run_trace req tool (tool_RequiredAction tool) (tool_EstimateCost tool (tq_Parameters req)) "" t' r /\
    EvExecute u n p x ∈ t'.
Proof.
  intros Ht Hs Hin. destruct Ht as [e|tool y Hk Hc Hr|tool e ev Hk Hp Hev|tool e g Hk Hp Hsec Hg
    |tool g t' y Hk Hp Hsec Hg Hrun|tool y Hk Hp Hsec].
  - by apply elem_of_nil in Hin.
  - by apply list_elem_of_singleton in Hin.
  - rewrite Hs in Hev. destruct Hev as (a & -> & _). by apply list_elem_of_singleton in Hin.
  - by apply (grant_trace_no_execute o req _ _ g _ u n p x) in Hg.
  - exists tool, g, t'. repeat (split; [done|]). apply elem_of_app in Hin as [Hin|Hin]; [|done].
    by apply (grant_trace_no_execute o req _ _ g _ u n p x) in Hg.
  - congruence.
Qed.

(** C2: no tool runs unchecked.  With security on, whenever [ExecuteTool] runs a
    tool, it is the requested tool, with the requested parameters and the
    requesting user; it is registered and its parameters are valid, the policy
    allows it, and before it ran the permission and approval checks granted it,
    its cost was reserved and the intent was audited; right after it comes the
    audit of its success or failure, the charge and the release. *)
Theorem tool_never_runs_unchecked o req s u n p x :
  o_security o = true ->
  exists t, s_trace (ExecuteTool o req s).2 = s_trace s ++ t /\
    (EvExecute u n p x ∈ t ->
     exists tool g t1 t2,
       let a := tool_RequiredAction tool in
       let c := tool_EstimateCost tool p in
       u = tq_UserID req /\ n = tool_Name tool /\ p = tq_Parameters req /\
       known_tool o req tool /\ policyCheck o req = None /\ grant_trace o req a c g None /\
       t = g ++ [EvReserve u c true; audit t1 req (act_Name a) "intent" c "" None;
                 EvExecute u n p x;
                 audit t2 req (act_Name a) (if is_ok x then "success" else "failure") c ""
                   (match x with Ok _ => None | Err e => Some e end);
                 EvRecordCost u c; EvRelease]).
Proof.
  intros Hs. destruct (runs_ExecuteTool _ _ no_invariant o req s Logic.I) as (t & Ht & _ & _ & He).
  exists t. split; [done|]. intros Hin.
  destruct (exec_trace_execute o req t _ u n p x He Hs Hin) as (tool & g & t' & -> & Hk & Hp & Hg & Hr & Hin').
  destruct (run_trace_execute req tool _ _ _ t' _ u n p x Hr Hin') as (-> & -> & -> & t1 & t2 & ->).
  by exists tool, g, t1, t2.
Qed.

(** A cached result is handed out without any check.  When the tool is
    read-only and a result for the same tool and parameters is fresh, any user
    gets it: no permission, policy, approval or budget is looked at and nothing is
    audited.  The key holds no user, so the result may come from another user's
    run; the README has every tool call pass through the full pipeline. *)
Theorem cached_result_skips_checks o req s reg tool r :
  o_toolRegistry o = Some reg -> registry_Get reg (tq_ToolName req) = Some tool ->
  tool_Validate tool (tq_Parameters req) (s_world s) = None ->
  o_toolCache o = true -> tq_ToolName req ∈ o_readOnlyTools o ->
  cache_Get (s_cache s) (tq_ToolName req) (tq_Parameters req) (env_now (s_world s)).1 = Some r ->
  (ExecuteTool o req s).1 = Ok r /\
  s_security (ExecuteTool o req s).2 = s_security s /\
  s_approvals (ExecuteTool o req s).2 = s_approvals s /\
  s_trace (ExecuteTool o req s).2 =
    s_trace s ++ [EvCacheHit (tq_ToolName req) (tq_Parameters req) r].
Proof.
  intros Hr Hg Hv Hc Hro Hhit. unfold ExecuteTool. rewrite Hr, Hg.
  unfold tool_validate. rewrite st_bind_run. unfold on_state at 1 2. simpl. rewrite Hv. unfold cacheLookup. rewrite Hc, (bool_decide_true _ Hro). simpl.
  unfold mbind, st_bind, time_Now. destruct (env_now (s_world s)) as [now w]. simpl in *.
  unfold on_state. simpl. by rewrite Hhit.
Qed.

(** [o] with another policy enforcer. *)
Definition with_policy o (pe : option PolicyEnforcer) : Orchestrator F P W :=
  mkOrchestrator (o_provider o) (o_prompt o) (o_security o) (o_toolRegistry o) (o_approvalMgr o) pe
    (o_autoApprover o) (o_maxIterations o) (o_toolCache o) (o_readOnlyTools o)
    (o_summarizeOnTruncate o) (o_autonomousMode o) (o_lazyToolLoading o) (o_convStore o)
    (o_convOrgID o) (o_maxHistoryMessages o) (o_maxMessageBytes o).

(** A policy restricts tools and nothing else.  Two policies that agree on
    whether the user may use the tool give the same execution: the policy's
    [require_approval] and [max_risk_level], and its path, domain and command
    rules, are never consulted by the agent, though the README documents
    [require_approval] as the tools that always need a human approval. *)
Theorem policy_rules_not_consulted o req s pe pe' :
  CheckToolAllowed pe (tq_UserID req) (tq_ToolName req) =
  CheckToolAllowed pe' (tq_UserID req) (tq_ToolName req) ->
  ExecuteTool (with_policy o (Some pe)) req s = ExecuteTool (with_policy o (Some pe')) req s.
Proof.
  intros E. assert (forall tool, executeChecked (S:=S) (C:=C) (with_policy o (Some pe)) req tool =
executeChecked (with_policy o (Some pe')) req tool) as Hx.
  { intros tool. unfold executeChecked, policyCheck. simpl. by rewrite E. }
  unfold ExecuteTool. simpl. destruct (o_toolRegistry o) as [reg|]; [|done].
  destruct (registry_Get reg _) as [tool|]; [|done].
  unfold mbind, st_bind. destruct (tool_validate tool _ s) as [[e|] s0]; [done|].
  change (cacheLookup (with_policy o (Some pe'))) with (cacheLookup (S:=S) (C:=C) (with_policy o (Some pe))).
  destruct (cacheLookup _ _ _ s0) as [[r|] s']; [done|]. by rewrite Hx.
Qed.

(** ** Resuming *)

Section calls.
Context (I : S -> Prop) (ok : event F P -> Prop) (HI : sec_invariant (F:=F) (P:=P) (S:=S) I ok).
Abbreviation run m Q := (runs (F:=F) (P:=P) (S:=S) (C:=C) (W:=W) I ok m Q).

Lemma runs_get id :
  run (approvalMgr_Get id)
    (fun r t => t = [EvGetApproval id r]).
Proof.
  unfold approvalMgr_Get. eapply runs_bind; [apply runs_now|]. intros n t ->.
  apply runs_state. intros s. destruct (Get _ _ _) as [r m]. split; [done|].
  eexists. split; [reflexivity|]. repeat constructor. by apply (ok_other I ok HI).
Qed.

Definition is_replace (ev : event F P) : Prop :=
  match ev with EvReplaceResult _ _ _ _ => True | _ => False end.

Lemma runs_update o pa content b :
  run (updateApprovalToolResult o pa content b)
    (fun _ t => Forall is_replace t).
Proof.
  unfold updateApprovalToolResult. destruct (_ || _); [by apply runs_ret|].
  destruct (parse_uuid _) as [c|]; [|by apply runs_ret].
  apply runs_state. intros s. destruct (cs_ReplaceToolResult _ _ _ _ _) as [r x].
  split; [done|]. eexists. split; [reflexivity|]. repeat constructor. by apply (ok_other I ok HI).
Qed.

(** The run of an approved request: with security the accounted run, without it
    the tool alone. *)
Definition resumed o pa tool t : Prop :=
  if o_security o
  then exists r, run_trace (resume_request pa) tool (tool_RequiredAction tool) (pa_EstimatedCost pa)
         (pa_ApprovedBy pa) t r
  else exists x, t = [EvExecute "" (tool_Name tool) (pa_Parameters pa) x].

(** The traces of a resumption. *)
Inductive resume_trace o id : list (event F P) -> Prop :=
  | rs_none : resume_trace o id []
  | rs_failed r : resume_trace o id [EvGetApproval id r]
  | rs_ran pa tool t reps :
      pa_Status pa = StatusApproved -> known_tool o (resume_request pa) tool ->
      resumed o pa tool t -> Forall is_replace reps ->
      resume_trace o id (EvGetApproval id (Ok pa) :: t ++ reps).

Lemma runs_recordManual o u n p :
  run
    (if o_autoApprover o then autoApprover_RecordManualApproval u n p else mret tt)
    (fun _ t => t = []).
Proof.
  destruct (o_autoApprover o); [|by apply runs_ret]. unfold autoApprover_RecordManualApproval.
  eapply runs_bind; [apply runs_now|]. intros n1 t ->.
  eapply runs_bind; [apply runs_now|]. intros n2 t ->.
  apply runs_state. intros s. split; [done|]. exists []. by rewrite app_nil_r.
Qed.

(** Nothing happens when the parameters are refused now. *)
Definition refused_now (pa : PendingApproval F P) tool (t : list (event F P)) : Prop :=
  t = [] /\ exists w e, tool_Validate (W:=W) tool (pa_Parameters pa) w = Some e.

Lemma runs_revalidate tool p :
  run (tool_validate tool p)
    (fun r t => t = [] /\ exists w, tool_Validate tool p w = r).
Proof.
  intros s Hs. exists []. unfold tool_validate, on_state. simpl. rewrite app_nil_r.
  repeat (split; [done|]). by exists (s_world s).
Qed.

Lemma runs_resumeApproved o pa reg tool :
  o_toolRegistry o = Some reg -> registry_Get reg (pa_ToolName pa) = Some tool ->
  run (resumeApproved o pa)
    (fun _ t => refused_now pa tool t \/ known_tool o (resume_request pa) tool /\
       exists t0 reps, t = t0 ++ reps /\ resumed o pa tool t0 /\ Forall is_replace reps).
Proof.
  intros Hr Hg. unfold resumeApproved.
  eapply runs_bind; [apply runs_recordManual|]. intros _ t ->. rewrite Hr, Hg.
  eapply runs_bind; [apply runs_revalidate|]. intros [e|] t [-> [w Hv]].
  { apply runs_ret. left. split; [done|]. by eexists _, _. }
  assert (known_tool o (resume_request pa) tool) as Hk by (exists reg; split_and!; [done..|]; by exists w).
  eapply runs_bind with (Q := fun _ t => resumed o pa tool t).
  { unfold resumed. destruct (o_security o).
    - eapply runs_weaken; [apply runs_executeWithAudit, HI|]. intros r t Hrt. by exists r.
    - eapply runs_weaken; [apply runs_executeTool, HI|]. intros out t (x & -> & _).
      by exists x. }
  intros r t Ht. destruct r as [r|e].
  all: eapply runs_bind; [apply runs_update|]; intros ? reps Hreps; apply runs_ret.
  all: right; split; [done|]; exists t, reps; simpl; by rewrite app_nil_r.
Qed.

Lemma runs_resume o id :
  run (ResumeWithApproval o id)
    (fun _ t => resume_trace o id t).
Proof.
  unfold ResumeWithApproval. destruct (o_approvalMgr o); simpl; [|apply runs_ret; constructor].
  eapply runs_bind; [apply runs_get|]. intros [pa|e] t ->; [|apply runs_ret; constructor].
  destruct (bool_decide _) eqn:Hst; simpl; [|apply runs_ret; constructor].
  apply bool_decide_eq_true in Hst.
  destruct (o_toolRegistry o) as [reg|] eqn:Hr.
  2: { unfold resumeApproved. eapply runs_bind; [apply runs_recordManual|]. intros _ t ->.
       rewrite Hr. apply runs_ret. constructor. }
  destruct (registry_Get reg (pa_ToolName pa)) as [tool|] eqn:Hg.
  2: { unfold resumeApproved. eapply runs_bind; [apply runs_recordManual|]. intros _ t ->.
       rewrite Hr, Hg. apply runs_ret. constructor. }
  eapply runs_weaken; [by apply (runs_resumeApproved o pa reg tool)|].
  intros ? t [[-> _]|(Hk & t0 & reps & -> & Ht & Hreps)]; [constructor|]. by eapply rs_ran.
Qed.

End calls.

Lemma Get_approved m id now pa :
  (Get m id now).1 = Ok pa -> pa_Status pa = StatusApproved -> mg_pending (F:=F) (P:=P) m !! id = Some pa.
Proof.
  unfold Get. destruct (mg_pending m !! id) as [pa0|]; simpl; [|done]. intros [= <-].
  unfold expire_if_due. by destruct (_ && _).
Qed.

Lemma resume_trace_execute o id t u n p x :
  resume_trace o id t -> EvExecute u n p x ∈ t ->
  exists pa tool t', t = EvGetApproval id (Ok pa) :: t' /\ pa_Status pa = StatusApproved /\
    known_tool o (resume_request pa) tool /\
    n = tool_Name tool /\ p = pa_Parameters pa /\
    u = (if o_security o then pa_UserID pa else "") /\
    (o_security o = true ->
     exists t1 t2, EvReserve u (pa_EstimatedCost pa) true ∈ t' /\
       audit t1 (resume_request pa) (act_Name (tool_RequiredAction tool)) "intent"
         (pa_EstimatedCost pa) (pa_ApprovedBy pa) None ∈ t' /\
       audit t2 (resume_request pa) (act_Name (tool_RequiredAction tool))
         (if is_ok x then "success" else "failure") (pa_EstimatedCost pa) (pa_ApprovedBy pa)
         (match x with Ok _ => None | Err e => Some e end) ∈ t').
Proof.
  intros Ht Hin. destruct Ht as [|r|pa tool t reps Hst Hk Ht Hreps].
  - by apply elem_of_nil in Hin.
  - by apply list_elem_of_singleton in Hin.
  - apply elem_of_cons in Hin as [?|Hin]; [done|]. apply elem_of_app in Hin as [Hin|Hin]; cycle 1.
    { rewrite Forall_forall in Hreps. by apply Hreps in Hin. }
    exists pa, tool, (t ++ reps). split; [done|]. split; [done|]. split; [done|].
    unfold resumed in Ht. destruct (o_security o).
    + destruct Ht as (r & Ht). destruct (run_trace_execute _ _ _ _ _ t r u n p x Ht Hin) as (-> & -> & -> & t1 & t2 & ->).
      repeat (split; [done|]). intros _. exists t1, t2. unfold audit. split; [set_solver|split]; set_solver.
    + destruct Ht as (y & ->). apply list_elem_of_singleton in Hin as [= -> -> -> ->].
      repeat (split; [done|]). done.
Qed.

(** C17: resuming runs a tool only on an approved request.  When
    [ResumeWithApproval] runs a tool, the approval manager held, when asked, an
    approval under this identifier whose status was Approved; the tool and its
    parameters are the approved ones, and with security on the run is made as the
    requesting user, its estimated cost is reserved, and both its audit records
    name who approved it. *)
Theorem resume_needs_approval o id s u n p x :
  exists t, s_trace (ResumeWithApproval o id s).2 = s_trace s ++ t /\
    (EvExecute u n p x ∈ t ->
     exists pa tool t',
       t = EvGetApproval id (Ok pa) :: t' /\ pa_Status pa = StatusApproved /\
       known_tool o (resume_request pa) tool /\ n = tool_Name tool /\ p = pa_Parameters pa /\
       u = (if o_security o then pa_UserID pa else "") /\
       (o_security o = true ->
        exists t1 t2, EvReserve u (pa_EstimatedCost pa) true ∈ t' /\
          audit t1 (resume_request pa) (act_Name (tool_RequiredAction tool)) "intent"
            (pa_EstimatedCost pa) (pa_ApprovedBy pa) None ∈ t' /\
          audit t2 (resume_request pa) (act_Name (tool_RequiredAction tool))
            (if is_ok x then "success" else "failure") (pa_EstimatedCost pa) (pa_ApprovedBy pa)
            (match x with Ok _ => None | Err e => Some e end) ∈ t')).
Proof.
  destruct (runs_resume _ _ no_invariant o id s Logic.I) as (t & Ht & _ & _ & Hr). exists t. split; [done|].
  intros Hin. by apply (resume_trace_execute o id t u n p x).
Qed.

(** What leaves the approvals alone. *)
Definition keeps {A} (m : st (State F P S C W) A) : Prop :=
  forall s, s_approvals (m s).2 = s_approvals s.

Lemma keeps_ret {A} (a : A) : keeps (mret a).
Proof. done. Qed.

Lemma keeps_bind {A B} (m : st (State F P S C W) A) (k : A -> st (State F P S C W) B) :
  keeps m -> (forall a, keeps (k a)) -> keeps (m ≫= k).
Proof.
  intros Hm Hk s. unfold mbind, st_bind. specialize (Hm s). destruct (m s) as [a s1].
  by rewrite (Hk a s1).
Qed.

Lemma keeps_now : keeps time_Now.
Proof. intros s. unfold time_Now. by destruct (env_now _). Qed.

Lemma keeps_logAudit req an res c by_ err : keeps (logAuditEvent req an res c by_ err).
Proof.
  unfold logAuditEvent. apply keeps_bind; [apply keeps_now|]. intros n s.
  unfold security_LogAction. by destruct (sm_LogAction _ _).
Qed.

Lemma keeps_tool u tool p : keeps (tool_run u tool p).
Proof. intros s. unfold tool_run. by destruct (tool_Execute _ _ _ _). Qed.

Lemma keeps_executeWithAudit o req tool a c by_ : keeps (executeWithAudit o req tool a c by_).
Proof.
  unfold executeWithAudit. apply keeps_bind.
  { intros s. unfold security_ReserveBudget. by destruct (sm_ReserveBudget _ _ _). }
  intros [rel|e]; (apply keeps_bind; [apply keeps_logAudit|intros _]); [|apply keeps_ret].
  apply keeps_bind; [apply keeps_tool|]. intros r. apply keeps_bind.
  - destruct r; (apply keeps_bind; [apply keeps_logAudit|intros _]);
      (apply keeps_bind; [done|intros _; apply keeps_ret]).
  - intros out. apply keeps_bind; [done|intros _; apply keeps_ret].
Qed.

Lemma keeps_resumeApproved o pa : keeps (resumeApproved o pa).
Proof.
  unfold resumeApproved. apply keeps_bind.
  { destruct (o_autoApprover o); [|done]. unfold autoApprover_RecordManualApproval.
    apply keeps_bind; [apply keeps_now|intros n1]. by apply keeps_bind; [apply keeps_now|intros n2]. }
  intros _. destruct (o_toolRegistry o) as [reg|]; [|done].
  destruct (registry_Get reg _) as [tool|]; [|done]. apply keeps_bind; [done|]. intros [e|]; [done|].
  apply keeps_bind.
  { destruct (o_security o); [apply keeps_executeWithAudit|]. unfold executeTool.
    apply keeps_bind; [apply keeps_tool|]. by intros []. }
  intros [r|e]; apply keeps_bind; try done; unfold updateApprovalToolResult.
  all: destruct (_ || _); [done|]; destruct (parse_uuid _); [|done]; intros s; unfold on_state.
  all: by destruct (cs_ReplaceToolResult _ _ _ _ _).
Qed.

(** An approval is never used up.  While a request is approved and its tool
    still accepts its parameters, every [ResumeWithApproval] of it runs the tool
    again, unless the budget refuses the reservation, and leaves the request
    approved: one human decision authorises any number of runs, before and after
    its expiry, until a cleanup removes it. *)
Theorem approval_authorises_many_runs o id s pa reg tool :
  o_approvalMgr o = true -> mg_pending (s_approvals s) !! id = Some pa ->
  pa_Status pa = StatusApproved -> o_toolRegistry o = Some reg ->
  registry_Get reg (pa_ToolName pa) = Some tool ->
  (forall w, tool_Validate tool (pa_Parameters pa) w = None) ->
  let s' := (ResumeWithApproval o id s).2 in
  mg_pending (s_approvals s') !! id = Some pa /\
  exists t, s_trace s' = s_trace s ++ t /\
    ((exists u x, EvExecute u (tool_Name tool) (pa_Parameters pa) x ∈ t) \/
     EvReserve (pa_UserID pa) (pa_EstimatedCost pa) false ∈ t).
Proof.
  intros Hm Hpa Hst Hr Hg Hv. unfold ResumeWithApproval. rewrite Hm. simpl.
  unfold mbind, st_bind. unfold approvalMgr_Get, mbind, st_bind.
  destruct (time_Now s) as [now s1] eqn:En. unfold on_state.
  assert (s_approvals s1 = s_approvals s /\ s_trace s1 = s_trace s) as [Ea Et].
  { unfold time_Now in En. destruct (env_now _). injection En as _ <-. done. }
  unfold Get. rewrite Ea, Hpa. simpl.
  assert (expire_if_due pa now = pa) as ->.
  { unfold expire_if_due. by rewrite bool_decide_false by (by rewrite Hst). }
  rewrite (bool_decide_true _ Hst). simpl.
  set (s2 := emit _ _). split.
  - rewrite keeps_resumeApproved. unfold s2. simpl. by rewrite lookup_insert_eq.
  - destruct (runs_resumeApproved _ _ no_invariant o pa reg tool Hr Hg s2 Logic.I) as (t & Ht & _ & _ & [[_ (w & e & He)]|(_ & t0 & reps & -> & Hres & _)]);
      [by rewrite Hv in He|].
    exists (EvGetApproval id (Ok pa) :: t0 ++ reps). split.
    { rewrite Ht. unfold s2. simpl. by rewrite Et, <-app_assoc. }
    unfold resumed in Hres. destruct (o_security o).
    + destruct Hres as [r Hres]. destruct Hres as [e t1|e t1 t2|y t1 t2]; [right|left|left].
      * set_solver.
      * exists (pa_UserID pa), (Err e). set_solver.
      * exists (pa_UserID pa), (Ok y). set_solver.
    + destruct Hres as [x ->]. left. exists "", x. set_solver.
Qed.
End props.
