(* ===== verification/AgentManager.v ===== *)
(** * The agent with the in-memory security manager

    [AgentProps] holds for every security manager.  Here the manager is the
    [Manager] of [src/internal/security/manager.go] with the in-memory role table
    (any audit log, any budget), and then with the in-memory budget (any role
    table, any audit log). *)

From S2P Require Import Prelude Security Budget SecurityManager Approval AutoApproval.
From S2P Require Import LLM Conversation Prompt Agent AgentSpec AgentProps.

(** ** Roles *)

Section roles.
Context {F P B D Rel C W : Type}.
Context `{Num F} `{GoMap P} `{GoJson P} `{Digest} `{ErrorText} `{Env W}.
Context `{!AuditAppender F P B} `{!BudgetEnforcer F D Rel} `{!ConversationStore C P}.
Abbreviation S := (SecurityManager.Manager RBAC B D).
Implicit Types (o : Orchestrator F P W) (req : ToolRequest P) (s : State F P S C W).

(** The answers a role table gives. *)
Definition rbac_event (r : RBAC) (ev : event F P) : Prop :=
  match ev with
  | EvPermission u a e => e = rbac_CheckPermission r u a
  | EvRequireApproval u a e => e = rbac_RequireApproval r u a
  | _ => True
  end.

Lemma rbac_invariant r :
  sec_invariant (F:=F) (P:=P) (S:=S) (fun m => sec_rbac m = r) (rbac_event r).
Proof.
  constructor; simpl.
  - intros x u a <-. done.
  - intros x u a <-. done.
  - intros x u c <-. unfold m_ReserveBudget. by destruct (be_ReserveBudget _ _ _).
  - by intros x fn <-.
  - by intros x u c <-.
  - intros x ev <-. unfold m_LogAction. by destruct (aa_LogAction _ _).
  - by intros [].
Qed.

Lemma grant_trace_rbac o req r a c g :
  grant_trace o req a c g None -> Forall (rbac_event r) g ->
  rbac_CheckPermission r (tq_UserID req) a = None /\
  (rbac_RequireApproval r (tq_UserID req) a = None \/
   (exists e, rbac_RequireApproval r (tq_UserID req) a = Some e /\
      errors_is e ErrApprovalRequired = true) /\
   (o_autonomousMode o = true \/
    o_autoApprover o = true /\
    EvAutoApprove (tq_UserID req) (tq_ToolName req) (tq_Parameters req) true ∈ g)).
Proof.
  intros Hg Hok. inversion Hg as [|E1 E2|e t1 Ha He E1 E2|e t1 Ha Hau He E1 E2| | | |]; subst g.
  all: apply Forall_cons in Hok as [Hp Hok]; apply Forall_cons in Hok as [Hr _]; simpl in *.
  all: split; [done|].
  - by left.
  - right. split; [by exists e|by left].
  - right. split; [by exists e|]. right. split; [done|]. unfold asked. rewrite Hau. set_solver.
Qed.

(** The role table decides.  With the in-memory manager and security on, the
    role table never changes and a tool only runs when the user's role grants the
    tool's action, and either the role does not ask for an approval of it, or the
    agent is in autonomous mode, or the auto-approver approved this very call. *)
Theorem rbac_guards_tools o req s u n p x :
  o_security o = true ->
  let r := sec_rbac (s_security s) in
  sec_rbac (s_security (ExecuteTool o req s).2) = r /\
  exists t, s_trace (ExecuteTool o req s).2 = s_trace s ++ t /\
    (EvExecute u n p x ∈ t ->
     exists tool, known_tool o req tool /\
       let a := tool_RequiredAction tool in
       rbac_CheckPermission r u a = None /\
       (rbac_RequireApproval r u a = None \/ o_autonomousMode o = true \/
        o_autoApprover o = true /\ EvAutoApprove u (tq_ToolName req) p true ∈ t)).
Proof.
  intros Hs r. destruct (runs_ExecuteTool _ _ (rbac_invariant r) o req s eq_refl)
    as (t & Ht & Hok & HI & He). split; [done|]. exists t. split; [done|]. intros Hin.
  destruct (exec_trace_execute o req t _ u n p x He Hs Hin)
    as (tool & g & t' & -> & Hk & _ & Hg & Hr & Hin').
  destruct (run_trace_execute req tool _ _ _ t' _ u n p x Hr Hin') as (-> & _ & -> & _).
  apply Forall_app in Hok as [Hok _]. exists tool. split; [done|].
  destruct (grant_trace_rbac o req r _ _ g Hg Hok) as (Hp & Ha). split; [done|].
  destruct Ha as [Ha|[_ [Ha|[Ha Hin2]]]]; [by left|right; by left|right; right].
  split; [done|]. apply elem_of_app. by left.
Qed.
End roles.

(** ** The budget *)

Section budget.
Context {F P A B C W : Type}.
Context `{ExactNum F} `{GoMap P} `{GoJson P} `{Digest} `{ErrorText} `{Env W}.
Context `{!RbacEnforcer A} `{!AuditAppender F P B} `{!ConversationStore C P}.
Abbreviation S := (SecurityManager.Manager A B (BudgetManager F)).
Implicit Types (o : Orchestrator F P W) (req : ToolRequest P) (s : State F P S C W).
Implicit Types (b : BudgetManager F) (tool : Tool F P W).

Definition budget_of s : BudgetManager F := sec_budget (s_security s).

(** Reserving, charging and releasing, as [executeWithAudit] does. *)
Definition charge b (u : string) (c : F) : BudgetManager F :=
  match ReserveBudget b u c with
  | (Ok fn, b1) => release fn (RecordCost b1 u c)
  | (Err _, b1) => b1
  end.

Lemma logAuditEvent_budget req an res c by_ err s :
  budget_of (logAuditEvent req an res c by_ err s).2 = budget_of s.
Proof.
  unfold logAuditEvent, mbind, st_bind, time_Now. destruct (env_now _) as [now w].
  unfold security_LogAction. simpl. unfold m_LogAction. by destruct (aa_LogAction _ _).
Qed.

Lemma executeWithAudit_budget o req tool a c by_ s :
  budget_of (executeWithAudit o req tool a c by_ s).2 = charge (budget_of s) (tq_UserID req) c.
Proof.
  unfold executeWithAudit, mbind, st_bind at 1, charge, security_ReserveBudget. simpl.
  unfold m_ReserveBudget. simpl. fold (budget_of s).
  destruct (ReserveBudget (budget_of s) (tq_UserID req) c) as [[fn|e] b1]; cycle 1.
  { unfold st_bind. set (s1 := emit _ _).
    pose proof (logAuditEvent_budget req (act_Name a) "denied" c by_ (Some e) s1) as E.
    destruct (logAuditEvent _ _ _ _ _ _ s1). simpl in *. by rewrite E. }
  unfold st_bind. set (s1 := emit _ _).
  pose proof (logAuditEvent_budget req (act_Name a) "intent" c by_ None s1) as E1.
  destruct (logAuditEvent _ _ "intent" _ _ _ s1) as [[] s2]. simpl in E1.
  unfold tool_run. destruct (tool_Execute _ _ _ _) as [[r|e] w]; set (s3 := emit _ _).
  - pose proof (logAuditEvent_budget req (act_Name a) "success" c by_ None s3) as E3.
    destruct (logAuditEvent _ _ _ _ _ _ s3) as [[] s4]. simpl in *.
    unfold budget_of in *. simpl. rewrite E3. unfold s3. simpl. by rewrite E1.
  - pose proof (logAuditEvent_budget req (act_Name a) "failure" c by_ (Some e) s3) as E3.
    destruct (logAuditEvent _ _ _ _ _ _ s3) as [[] s4]. simpl in *.
    unfold budget_of in *. simpl. rewrite E3. unfold s3. simpl. by rewrite E1.
Qed.

(** The closures handed out so far carry flags below the next one. *)
Definition flags_ok b : Prop := forall f, f ∈ bm_released b -> f < bm_nextFlag b.

Lemma charge_spec b u c :
  flags_ok b -> (0 <= toQ c)%Q -> (toQ (ub_reserved (ub_of b u)) <= 0)%Q ->
  let b' := charge b u c in
  flags_ok b' /\ toQ (ub_limit (ub_of b' u)) = toQ (ub_limit (ub_of b u)) /\
  ((toQ c <= avail b u)%Q ->
     (toQ (ub_spent (ub_of b' u)) == toQ (ub_spent (ub_of b u)) + toQ c)%Q /\
     (toQ (ub_reserved (ub_of b' u)) == - toQ c)%Q) /\
  ((avail b u < toQ c)%Q -> ub_of b' u = ub_of b u).
Proof.
  intros Hf Hc Hr b'. unfold b', charge.
  destruct (ReserveBudget b u c) as [[fn|e] b1] eqn:E.
  - apply ReserveBudget_Ok in E as (Hav & -> & Hu & Hd & Hrel & Hn).
    pose proof (RecordCost_users b1 u c) as Ru. pose proof (RecordCost_misc b1 u c) as (Rd & Rr & Rn).
    assert (rf_flag (mkRelease u c (bm_nextFlag b)) ∉ bm_released (RecordCost b1 u c)) as Hlive.
    { simpl. rewrite Rr, Hrel. intros Hin%Hf. lia. }
    apply release_live in Hlive as (Lu & Lr & Ln & Ld). simpl in Lu, Lr.
    assert (ub_of b1 u = mkUserBudget (ub_limit (ub_of b u)) (ub_spent (ub_of b u))
                           (nadd (ub_reserved (ub_of b u)) c)) as Hb1.
    { apply ub_of_Some. rewrite Hu. apply lookup_insert_eq. }
    rewrite Hb1 in Ru. simpl in Ru. split; [|split; [|split]].
    + intros f. rewrite Lr, Ln, Rn, Hn, elem_of_union, Rr, Hrel.
      intros [Hin|Hin]; [apply elem_of_singleton in Hin as ->; lia|apply Hf in Hin; lia].
    + erewrite ub_of_Some; [|rewrite Lu, Ru, lookup_alter_eq, lookup_insert_eq; reflexivity]. done.
    + intros _. erewrite ub_of_Some; [|rewrite Lu, Ru, lookup_alter_eq, lookup_insert_eq; reflexivity].
      simpl. split; [by rewrite toQ_add|].
      destruct (nleb c (nadd (ub_reserved (ub_of b u)) c)) eqn:El; num_norm; rewrite ?toQ_add, ?toQ_ofZ; unfold inject_Z; lra.
    + intros Hlt. lra.
  - apply ReserveBudget_Err in E as (Hav & _ & ->).
    rewrite ub_of_getOrCreate. destruct (getOrCreate_misc b u) as (E1 & E2 & E3).
    split; [|split; [done|split; [intros Hle; lra|done]]].
    unfold flags_ok. rewrite E2, E3. done.
Qed.

(** A user's runs, one after the other: request, tool, action and cost of each. *)
Fixpoint exec_all o (by_ : string) (l : list (ToolRequest P * Tool F P W * Action * F)) s
    : State F P S C W :=
  match l with
  | [] => s
  | (req, tool, a, c) :: l => exec_all o by_ l (executeWithAudit o req tool a c by_ s).2
  end.

(** The amounts of a user whose runs never overlap, as sums of costs: what was spent and the
    cost of the last run that was charged.  A run is charged when its cost and what was spent
    before the last charged run are within the limit together; the others change nothing. *)
Fixpoint ledger (limit spent last : Q) (cs : list Q) : Q * Q :=
  match cs with
  | [] => (spent, last)
  | c :: cs =>
      if Qle_bool (spent - last + c) limit then ledger limit (spent + c) c cs
      else ledger limit spent last cs
  end.

(** The books hold these amounts. *)
Record books_hold (u : string) b (limit spent last : Q) : Prop := {
  bh_flags : flags_ok b;
  bh_limit : toQ (ub_limit (ub_of b u)) = limit;
  bh_spent : (toQ (ub_spent (ub_of b u)) == spent)%Q;
  bh_reserved : (toQ (ub_reserved (ub_of b u)) == - last)%Q;
  bh_last : (0 <= last <= limit)%Q;
  bh_range : (last <= spent <= 2 * limit)%Q;
}.

Lemma books_hold_charge u b c limit spent last :
  books_hold u b limit spent last -> (0 <= toQ c)%Q ->
  if Qle_bool (spent - last + toQ c) limit
  then books_hold u (charge b u c) limit (spent + toQ c) (toQ c)
  else books_hold u (charge b u c) limit spent last.
Proof.
  intros [Hf Hlim Hs Hr [Hl0 Hl1] [Hr0 Hr1]] Hc.
  destruct (charge_spec b u c Hf Hc ltac:(lra)) as (Hf' & Hl & Hok & Hno).
  pose proof (avail_unfold b u) as Ha. rewrite Hlim, Hs, Hr in Ha.
  destruct (Qle_bool (spent - last + toQ c) limit) eqn:E.
  - apply Qle_bool_iff in E. destruct (Hok ltac:(lra)) as [Hsp Hre].
    split; [done|congruence|lra|lra|lra|lra].
  - assert (avail b u < toQ c)%Q as Hlt.
    { destruct (Qlt_le_dec (avail b u) (toQ c)) as [|Hle]; [done|].
      rewrite (proj2 (Qle_bool_iff _ _)) in E; [done|lra]. }
    pose proof (Hno Hlt) as Heq. split; rewrite ?Heq; try done; lra.
Qed.

Lemma exec_all_books o by_ l s u limit spent last :
  Forall (fun '(req, _, _, c) => tq_UserID req = u /\ (0 <= toQ c)%Q) l ->
  books_hold u (budget_of s) limit spent last ->
  let '(spent', last') := ledger limit spent last (map (fun x => toQ x.2) l) in
  books_hold u (budget_of (exec_all o by_ l s)) limit spent' last'.
Proof.
  revert s spent last. induction l as [|[[[req tool] a] c] l IH]; intros s spent last Hl Hb; simpl; [done|].
  apply Forall_cons in Hl as [[Hu Hc] Hl].
  pose proof (books_hold_charge u (budget_of s) c limit spent last Hb Hc) as Hb'.
  rewrite <-Hu, <-(executeWithAudit_budget o req tool a c by_ s), Hu in Hb'.
  destruct (Qle_bool _ _); by apply IH.
Qed.

Lemma books_hold_new limit u : (0 <= toQ limit)%Q -> books_hold u (NewBudgetManager limit) (toQ limit) 0 0.
Proof.
  intros Hlim. assert (ub_of (NewBudgetManager limit) u = mkUserBudget limit (nofZ 0) (nofZ 0)) as E.
  { unfold ub_of, getOrCreate. simpl. by rewrite lookup_empty. }
  split; rewrite ?E; simpl; rewrite ?toQ_ofZ; unfold inject_Z; try done; try lra.
Qed.

(** C27: the budget is enforced up to one extra limit.  Consider the runs of one user, one
    after the other, with costs that are not negative and sums of amounts that are exact (the
    laws of [Num]; a float64 rounds them), from a new budget manager.  Then after them the books hold
    exactly the amounts of [ledger]: [executeWithAudit] both charges a run ([RecordCost]) and
    releases its reservation, so what is held as reserved is minus the cost of the last
    charged run, and a run is charged exactly when its cost and what was spent before the last
    charged run are within the limit together.  The spending is thus at most twice the limit,
    and no less can be promised: the first run is not held against the user, so two runs that
    cost up to the limit each are both charged. *)
Theorem agent_spending_bound o by_ l s u limit :
  sec_budget (s_security s) = NewBudgetManager limit -> (0 <= toQ limit)%Q ->
  Forall (fun '(req, _, _, c) => tq_UserID req = u /\ (0 <= toQ c)%Q) l ->
  let ub := ub_of (sec_budget (s_security (exec_all o by_ l s))) u in
  let '(spent, last) := ledger (toQ limit) 0 0 (map (fun x => toQ x.2) l) in
  ((toQ (ub_spent ub) == spent)%Q /\ (toQ (ub_reserved ub) == - last)%Q /\ toQ (ub_limit ub) = toQ limit) /\
  ((toQ (ub_spent ub) <= 2 * toQ limit)%Q /\ (- toQ limit <= toQ (ub_reserved ub) <= 0)%Q) /\
  (forall c1 c2, map snd l = [c1; c2] -> (toQ c1 <= toQ limit)%Q -> (toQ c2 <= toQ limit)%Q ->
     (toQ (ub_spent ub) == toQ c1 + toQ c2)%Q).
Proof.
  intros Hb Hlim Hl. pose proof (books_hold_new limit u Hlim) as Hnew.
  fold (budget_of s) in Hb. rewrite <-Hb in Hnew.
  pose proof (exec_all_books o by_ l s u (toQ limit) 0 0 Hl Hnew) as Hx. fold (budget_of (exec_all o by_ l s)).
  destruct (ledger _ _ _ _) as [spent last] eqn:El. destruct Hx as [_ Hli Hsp Hre [Hl0 Hl1] [Hr0 Hr1]].
  split_and!; try done; try lra. intros c1 c2 Ec Hc1 Hc2.
  rewrite <-(map_map snd toQ), Ec in El. simpl in El.
  rewrite (proj2 (Qle_bool_iff _ _)) in El by lra. simpl in El.
  rewrite (proj2 (Qle_bool_iff _ _)) in El by lra. injection El as <- <-. lra.
Qed.

(** A granted call within the budget runs.  When the budget of the user has
    the cost of the call available, [executeWithAudit] runs the tool on the world
    left by the clock, answers with its outcome, adds the cost to what the user
    has spent, and leaves minus that cost as the user's reservation. *)
Theorem affordable_call_runs o req tool a c by_ s :
  flags_ok (sec_budget (s_security s)) ->
  (0 <= toQ c <= avail (sec_budget (s_security s)) (tq_UserID req))%Q ->
  (toQ (ub_reserved (ub_of (sec_budget (s_security s)) (tq_UserID req))) <= 0)%Q ->
  let res := tool_Execute tool (tq_UserID req) (tq_Parameters req) (env_now (s_world s)).2 in
  let '(r, s') := executeWithAudit o req tool a c by_ s in
  r = (match res.1 with
       | Ok x => Ok (mkToolResponse (tr_Output x) (tr_Success x) c (tr_Metadata x))
       | Err e => Err (Wrap "tool execution failed" e)
       end) /\
  let ub := ub_of (sec_budget (s_security s)) (tq_UserID req) in
  let ub' := ub_of (sec_budget (s_security s')) (tq_UserID req) in
  (toQ (ub_spent ub') == toQ (ub_spent ub) + toQ c)%Q /\ (toQ (ub_reserved ub') == - toQ c)%Q.
Proof.
  intros Hf [Hc Hav] Hr res.
  pose proof (executeWithAudit_budget o req tool a c by_ s) as Hb.
  destruct (charge_spec (budget_of s) (tq_UserID req) c Hf Hc Hr) as (_ & _ & Hch & _).
  specialize (Hch Hav). rewrite <-Hb in Hch.
  destruct (executeWithAudit o req tool a c by_ s) as [r s'] eqn:E. split; [|done].
  clear Hb Hch. revert E. unfold executeWithAudit, mbind, st_bind at 1, security_ReserveBudget. simpl.
  unfold m_ReserveBudget. simpl. fold (budget_of s).
  destruct (ReserveBudget (budget_of s) (tq_UserID req) c) as [[fn|e] b1] eqn:Er; cycle 1.
  { apply ReserveBudget_Err in Er as (Hlt & _). unfold budget_of in Hlt. lra. }
  unfold st_bind, logAuditEvent, mbind, st_bind, time_Now, security_LogAction, tool_run.
  unfold res. simpl. destruct (env_now (s_world s)) as [now w]. simpl.
  unfold m_LogAction. destruct (aa_LogAction _ _) as [x au]. simpl.
  destruct (tool_Execute tool _ _ w) as [[y|e] w']; simpl; destruct (env_now w') as [now' w2]; simpl;
    destruct (aa_LogAction _ _) as [x2 au2]; by intros [= <- _].
Qed.
End budget.
