(* ===== verification/AgentLoop.v ===== *)
(** * The agent's conversation loop

    [Process] of [src/internal/agent/orchestrator.go] with what it uses: loading and
    persisting the conversation, the size limits ([truncateContent],
    [truncateHistory]), the summary of old messages ([summarizer.go]), the tool
    definitions sent, and [executeToolCalls].  The token estimates of
    [token_budget.go] are here too.  The loop runs on the iteration limit as fuel. *)

From S2P Require Import Prelude Security SecurityManager Approval AutoApproval.
From S2P Require Import LLM Conversation Prompt Agent.

(** ** Token estimates *)

Definition maxInputTokens : Z := 12000%Z.

Definition estimateTokens (s : string) : Z := ((Z.of_nat (String.length s) + 3) / 4)%Z.

Section tokens.
Context {P : Type} `{GoMap P} `{GoJson P}.

Definition estimateToolDefTokens (td : ToolDefinition P) : Z :=
  (estimateTokens (td_Name td) + estimateTokens (td_Description td) +
   if is_nil (td_InputSchema td) then 0 else estimateTokens (json_marshal (td_InputSchema td)))%Z.

Definition estimateBlockTokens (b : ContentBlock P) : Z :=
  (estimateTokens (cb_Text b) +
   (if is_nil (cb_Input b) then 0 else estimateTokens (json_marshal (cb_Input b))) +
   estimateTokens (cb_Name b) + estimateTokens (cb_ID b) + estimateTokens (cb_ToolUseID b))%Z.

Definition estimateMessageTokens (m : Message P) : Z :=
  (estimateTokens (msg_Role m) + 4 +
   (if String.eqb (msg_Content m) "" then 0 else estimateTokens (msg_Content m)) +
   fold_right (fun b n => estimateBlockTokens b + n) 0 (msg_ContentBlocks m))%Z.

Definition totalTokens (h : list (Message P)) : Z :=
  fold_right (fun m n => (estimateMessageTokens m + n)%Z) 0%Z h.

(** The dropping loop: the total goes down with every message dropped. *)
Fixpoint drop_to_budget (budget total : Z) (h : list (Message P)) : list (Message P) :=
  match h with
  | [] => []
  | m :: h' =>
      if (2 <? length h)%nat && (budget <? total)%Z
      then drop_to_budget budget (total - estimateMessageTokens m) h' else h
  end.

Definition drop_leading_assistant (h : list (Message P)) : list (Message P) :=
  match h with
  | m :: h' => if String.eqb (msg_Role m) RoleAssistant then h' else h
  | [] => []
  end.

Definition trimHistoryToTokenBudget (h : list (Message P)) (fixedTokens maxTokens : Z)
    : list (Message P) :=
  let budget := if (maxTokens - fixedTokens <=? 0)%Z then 2000%Z else (maxTokens - fixedTokens)%Z in
  if (totalTokens h <=? budget)%Z then h
  else drop_leading_assistant (drop_to_budget budget (totalTokens h) h).
End tokens.

(** ** The loop *)

Section loop.
Context {F P S Rel C W : Type}.
Context `{Num F} `{GoMap P} `{GoJson P} `{Digest} `{ErrorText} `{Env W}.
Context `{!SecurityManager F P S Rel} `{!ConversationStore C P}.
Context `{!GoSort (Runbook * F)} `{!MapRange string (Tool F P W)}.
Abbreviation M := (st (State F P S C W)).
Implicit Types (o : Orchestrator F P W).

Definition uuid_New : M uuid := on_state (fun s =>
  let '(u, w) := env_uuid (s_world s) in (u, set_world w s)).

Definition provider_SendMessage o (req : Request P) : M (result error (LLMResponse P)) :=
  on_state (fun s =>
    let '(r, w) := o_provider o req (s_world s) in (r, emit (EvLLM req r) (set_world w s))).

Definition convStore_GetOrCreate o (userID : string) (convID : uuid) : M (result error uuid) :=
  on_state (fun s =>
    let '(r, c) := cs_GetOrCreateConversation (s_conv s) (o_convOrgID o) userID convID in
    (r, set_conv c s)).

Definition convStore_LoadHistory (convID : uuid) (max : Z) : M (result error (list (Message P))) :=
  on_state (fun s =>
    let '(r, c) := cs_LoadHistory (s_conv s) convID max in (r, set_conv c s)).

Definition convStore_AppendMessages o (convID : uuid) (msgs : list (Message P)) : M unit :=
  on_state (fun s =>
    let '(_, c) := cs_AppendMessages (s_conv s) convID (o_convOrgID o) msgs in
    (tt, emit (EvAppend convID msgs) (set_conv c s))).

(** ** Limits *)

Definition maxHistory o : Z :=
  if (o_maxHistoryMessages o <=? 0)%Z then DefaultMaxHistoryMessages else o_maxHistoryMessages o.

Definition truncateContent o (s : string) : string :=
  let max := if (o_maxMessageBytes o <=? 0)%Z then DefaultMaxMessageBytes else o_maxMessageBytes o in
  if (Z.of_nat (String.length s) <=? max)%Z then s
  else str_take (Z.to_nat max) s +:+ nl +:+ "[message truncated]".

Definition truncateHistory o (h : list (Message P)) : list (Message P) :=
  let max := maxHistory o in
  if (Z.of_nat (length h) <=? max)%Z then h
  else drop_leading_assistant (drop (length h - Z.to_nat max) h).

Definition summarizationPrompt : string := "Summarize the following conversation history concisely.
Preserve: key facts, decisions made, tool outputs, errors encountered, and any important context.
Omit: greetings, redundant explanations, and verbose tool output details.
Format as a brief paragraph.".

(** [int(float64(n) * num/den)] in binary64. *)
Definition scaled (n num den : Z) : Z := f64_trunc (nmul (f64_of_Z n) (nlit num den)).

Definition summary_text (h : list (Message P)) : string :=
  fold_left (fun s m =>
    let content := TextContent m in
    if String.eqb content "" then s
    else s +:+ "[" +:+ msg_Role m +:+ "]: " +:+ content +:+ nl) h "".

Definition summarizeHistory o (h : list (Message P)) (maxMessages : Z) : M (list (Message P)) :=
  let threshold := scaled maxMessages 8 10 in
  if (Z.of_nat (length h) <? threshold)%Z then mret h
  else
    let keepRecent := scaled maxMessages 4 10 in
    let keepRecent := if (keepRecent <? 2)%Z then 2%Z else keepRecent in
    let toSummarize := (Z.of_nat (length h) - keepRecent)%Z in
    if (toSummarize <? 4)%Z then mret h
    else
      let text := summary_text (take (Z.to_nat toSummarize) h) in
      if (String.length text =? 0)%nat then mret h
      else
        resp ← provider_SendMessage o
          (mkRequest summarizationPrompt [mkMessage RoleUser text []] 1024 []);
        match resp with
        | Err _ => mret h
        | Ok r =>
            if String.eqb (rs_Content r) "" then mret h
            else mret (mkMessage RoleUser ("[Conversation Summary]" +:+ nl +:+ rs_Content r) []
                         :: drop (Z.to_nat toSummarize) h)
        end.

(** ** Loading and persisting *)

(** Whether the call is persistent, the conversation and its history. *)
Definition loadConversation o (input : Input) : M (bool * uuid * list (Message P)) :=
  if negb (String.eqb (in_ConversationID input) "") && o_convStore o then
    convID ← match parse_uuid (in_ConversationID input) with
             | Some u => mret u
             | None => uuid_New
             end;
    got ← convStore_GetOrCreate o (in_UserID input) convID;
    match got with
    | Err _ => mret (false, uuid_Nil, [])
    | Ok convID =>
        loaded ← convStore_LoadHistory convID (maxHistory o);
        match loaded with
        | Err _ => mret (false, convID, [])
        | Ok h => mret (true, convID, h)
        end
    end
  else mret (false, uuid_Nil, []).

Definition persistNewMessages o (persistent : bool) (convID : uuid) (msgs : list (Message P)) : M unit :=
  if negb persistent || (length msgs =? 0)%nat then mret tt
  else convStore_AppendMessages o convID msgs.

(** [o.persistNewMessages(..., history[historyStart:])] and then [r]; slicing out of
    range panics. *)
Definition persistAndReturn o (persistent : bool) (convID : uuid) (historyStart : nat)
    (history : list (Message P)) (r : result error Response) : M (result error Response) :=
  match slice_from historyStart history with
  | None => mret (Err (Errorf "panic: slice bounds out of range"))
  | Some msgs => _ ← persistNewMessages o persistent convID msgs; mret r
  end.

(** ** Tool calls *)

Definition block_request (input : Input) (b : ContentBlock P) : ToolRequest P :=
  mkToolRequest (in_UserID input) (cb_Name b) (cb_Input b) (in_CorrelationID input)
    (in_ConversationID input) (cb_ID b).

(** What one call contributes: its result block, its summary, its approvals. *)
Definition call_outcome (b : ContentBlock P) (r : result error (ToolResponse F P))
    : ContentBlock P * ToolCallResult * list ApprovalRequest :=
  match r with
  | Ok resp =>
      (ToolResultBlock (cb_ID b) (TruncateOutput (tp_Output resp) MaxOutputBytes) false,
       mkToolCallResult (cb_Name b) (tp_Success resp), [])
  | Err err =>
      match as_approval_pending err with
      | Some (id, tool, action, risk, user) =>
          (ToolResultBlock (cb_ID b)
             ("Tool execution requires approval (id: " +:+ id +:+ "). Waiting for human approval.") true,
           mkToolCallResult (cb_Name b) false, [mkApprovalRequest id tool action risk user])
      | None =>
          (ToolResultBlock (cb_ID b) ("Error: " +:+ error_Error err) true,
           mkToolCallResult (cb_Name b) false, [])
      end
  end.

Fixpoint executeToolCalls o (input : Input) (blocks : list (ContentBlock P))
    : M (list (ContentBlock P) * list ToolCallResult * list ApprovalRequest) :=
  match blocks with
  | [] => mret ([], [], [])
  | b :: blocks =>
      r ← ExecuteTool o (block_request input b);
      let '(rb, tr, aps) := call_outcome b r in
      rest ← executeToolCalls o input blocks;
      let '(rbs, trs, apss) := (rest : list (ContentBlock P) * list ToolCallResult * list ApprovalRequest) in
      mret (rb :: rbs, tr :: trs, aps ++ apss)
  end.

(** The safety net of lazy loading: a known tool that was not sent. *)
Definition needs_expansion o (toolDefs : list (ToolDefinition P)) (blocks : list (ContentBlock P)) : bool :=
  existsb (fun b =>
    match o_toolRegistry o with
    | Some reg =>
        match registry_Get reg (cb_Name b) with
        | Some _ => negb (existsb (fun td => String.eqb (td_Name td) (cb_Name b)) toolDefs)
        | None => false
        end
    | None => false
    end) blocks.

Definition all_definitions o : list (ToolDefinition P) :=
  match o_toolRegistry o with Some reg => ToLLMDefinitions reg | None => [] end.

(** The definitions of the first request, and whether they were filtered. *)
Definition initial_definitions o (message : string) : list (ToolDefinition P) * bool :=
  match o_toolRegistry o with
  | None => ([], false)
  | Some reg =>
      if o_lazyToolLoading o
      then (ToLLMDefinitionsForIntent reg (detectToolIntent message), true)
      else (ToLLMDefinitions reg, false)
  end.

(** ** The iterations *)

Record loopState := mkLoop {
  l_history : list (Message P);
  l_totalTokens : Z;
  l_results : list ToolCallResult;
  l_approvals : list ApprovalRequest;
  l_toolDefs : list (ToolDefinition P);
  l_lazy : bool;
}.

Fixpoint iterate (fuel : nat) o (input : Input) (systemPrompt : string) (persistent : bool)
    (convID : uuid) (historyStart : nat) (l : loopState) : M (result error Response) :=
  match fuel with
  | O =>
      persistAndReturn o persistent convID historyStart (l_history l)
        (Ok (mkResponse "Maximum tool use iterations reached. Please refine your request."
               (l_totalTokens l) (l_approvals l) (l_results l)))
  | Datatypes.S fuel =>
      llmResp ← provider_SendMessage o
        (mkRequest systemPrompt (l_history l) 0 (l_toolDefs l));
      match llmResp with
      | Err err =>
          persistAndReturn o persistent convID historyStart (l_history l)
            (Err (Wrap "llm request failed" err))
      | Ok resp =>
          let tokens := (l_totalTokens l + (InputTokens (rs_Usage resp) + OutputTokens (rs_Usage resp)))%Z in
          let history := l_history l ++ [mkMessage RoleAssistant "" (rs_ContentBlocks resp)] in
          if negb (HasToolUse resp) then
            persistAndReturn o persistent convID historyStart history
              (Ok (mkResponse (rs_Content resp) tokens (l_approvals l) (l_results l)))
          else
            let blocks := ToolUseBlocks resp in
            let expand := l_lazy l && needs_expansion o (l_toolDefs l) blocks in
            let toolDefs := if expand then all_definitions o else l_toolDefs l in
            let lazy := if expand then false else l_lazy l in
            out ← executeToolCalls o input blocks;
            let '(resultBlocks, results, approvals) :=
              (out : list (ContentBlock P) * list ToolCallResult * list ApprovalRequest) in
            let history := history ++ [mkMessage RoleUser "" resultBlocks] in
            let l' := mkLoop history tokens (l_results l ++ results) (l_approvals l ++ approvals)
                        toolDefs lazy in
            if (0 <? length approvals)%nat then
              persistAndReturn o persistent convID historyStart history
                (Ok (mkResponse (rs_Content resp) tokens (l_approvals l') (l_results l')))
            else iterate fuel o input systemPrompt persistent convID historyStart l'
      end
  end.

Definition maxIterations o : Z :=
  if (o_maxIterations o <=? 0)%Z then DefaultMaxIterations else o_maxIterations o.

(** The start of the new messages once old ones were dropped from the front. *)
Definition adjustStart (historyStart preTruncLen len : nat) : nat :=
  let dropped := (Z.of_nat preTruncLen - Z.of_nat len)%Z in
  if (0 <? dropped)%Z then Z.to_nat (Z.of_nat historyStart - dropped) else historyStart.

Definition Process o (input : Input) : M (result error Response) :=
  loaded ← loadConversation o input;
  let '(persistent, convID, history) := (loaded : bool * uuid * list (Message P)) in
  let historyStart := length history in
  let history := history ++ [mkMessage RoleUser (truncateContent o (in_Message input)) []] in
  let preTruncLen := length history in
  history ← (if o_summarizeOnTruncate o then summarizeHistory o history (maxHistory o)
             else mret history);
  let history := truncateHistory o history in
  let historyStart := adjustStart historyStart preTruncLen (length history) in
  let '(toolDefs, lazy) := initial_definitions o (in_Message input) in
  iterate (Z.to_nat (maxIterations o)) o input (buildSystemPrompt (o_prompt o) (in_Message input))
    persistent convID historyStart (mkLoop history 0 [] [] toolDefs lazy).
End loop.
