(* ===== verification/AgentLoopProps.v ===== *)
(** * Properties of the conversation loop

    What [Process] does in every run: the calls it makes across its interfaces
    ([body_trace]), the messages it persists, the window it sends. *)

From S2P Require Import Prelude Security SecurityManager Approval AutoApproval.
From S2P Require Import LLM Conversation Prompt Agent AgentSpec AgentProps AgentLoop.

Section props.
Context {F P S Rel C W : Type}.
Context `{Num F} `{GoMap P} `{GoJson P} `{Digest} `{ErrorText} `{Env W}.
Context `{!SecurityManager F P S Rel} `{!ConversationStore C P}.
Context `{!GoSort (Runbook * F)} `{!MapRange string (Tool F P W)}.
Implicit Types (o : Orchestrator F P W) (s : State F P S C W) (h : list (Message P)).
Implicit Types (b : ContentBlock P) (input : Input).

(** ** The conversation a call writes *)

(** A tool_use block is answered by a tool_result block of the same identifier. *)
Definition answers (a u : Message P) : Prop :=
  map cb_ToolUseID (msg_ContentBlocks u) =
    map cb_ID (List.filter is_tool_use (msg_ContentBlocks a)) /\
  Forall (fun b => cb_Type b = "tool_result") (msg_ContentBlocks u).

(** Assistant messages, each answered by the user message with its tool results,
    but for the last. *)
Inductive turns : list (Message P) -> Prop :=
  | turns_nil : turns []
  | turns_last a : msg_Role a = RoleAssistant -> turns [a]
  | turns_round a u l :
      msg_Role a = RoleAssistant -> msg_Role u = RoleUser -> answers a u -> turns l ->
      turns (a :: u :: l).

(** ** The calls of a run *)

(** At most [n] model requests, each followed by executions for the user. *)
Inductive body_trace o input : nat -> list (event F P) -> Prop :=
  | bt_end n : body_trace o input n []
  | bt_round n req res ts t :
      Forall (fun t1 => exists q r, tq_UserID q = in_UserID input /\ exec_trace o q t1 r) ts ->
      body_trace o input n t ->
      body_trace o input (Datatypes.S n) (EvLLM req res :: concat ts ++ t).

(** ** What a run does, under any invariant of the security manager *)

Section calls.
Context (I : S -> Prop) (ok : event F P -> Prop) (HI : sec_invariant (F:=F) (P:=P) (S:=S) I ok).
Abbreviation run m Q := (runs (F:=F) (P:=P) (S:=S) (C:=C) (W:=W) I ok m Q).

Lemma run_provider o req : run (provider_SendMessage o req) (fun r t => t = [EvLLM req r]).
Proof.
  apply runs_state. intros s. destruct (o_provider o req _) as [r w]. split; [done|].
  eexists. split; [reflexivity|]. repeat constructor. by apply (ok_other I ok HI).
Qed.

Lemma run_silent {A} (f : State F P S C W -> A * State F P S C W) :
  (forall s, s_security (f s).2 = s_security s /\ s_trace (f s).2 = s_trace s) ->
  run (on_state f) (fun _ t => t = []).
Proof.
  intros Hf. apply runs_state. intros s. destruct (Hf s) as [E Et]. split; [done|].
  exists []. rewrite Et, app_nil_r. by repeat constructor.
Qed.

Lemma run_load o input : run (loadConversation o input) (fun _ t => t = []).
Proof.
  unfold loadConversation. destruct (_ && _); [|by apply runs_ret].
  eapply runs_bind with (Q := fun _ t => t = []).
  { destruct (parse_uuid _); [by apply runs_ret|]. apply run_silent. intros s.
    by destruct (env_uuid _). }
  intros c t ->. eapply runs_bind.
  { apply run_silent. intros s. by destruct (cs_GetOrCreateConversation _ _ _ _). }
  intros [c'|e] t ->; [|by apply runs_ret]. eapply runs_bind.
  { apply run_silent. intros s. by destruct (cs_LoadHistory _ _ _). }
  intros [h|e] t ->; by apply runs_ret.
Qed.

Definition appended (persistent : bool) (convID : uuid) (msgs : list (Message P)) : list (event F P) :=
  if negb persistent || (length msgs =? 0)%nat then [] else [EvAppend convID msgs].

Lemma run_persist o persistent convID start h r :
  start <= length h ->
  run (persistAndReturn o persistent convID start h r)
    (fun r' t => r' = r /\ t = appended persistent convID (drop start h)).
Proof.
  intros Hle. unfold persistAndReturn, slice_from. rewrite decide_True by done.
  eapply runs_bind with (Q := fun _ t => t = appended persistent convID (drop start h)).
  - unfold persistNewMessages, appended. destruct (_ || _); [by apply runs_ret|].
    apply runs_state. intros s. destruct (cs_AppendMessages _ _ _ _) as [e c]. split; [done|].
    eexists. split; [reflexivity|]. repeat constructor. by apply (ok_other I ok HI).
  - intros ? t ->. apply runs_ret. by rewrite app_nil_r.
Qed.

Lemma call_outcome_block b (r : result error (ToolResponse F P)) :
  cb_ToolUseID (call_outcome b r).1.1 = cb_ID b /\
  cb_Type (call_outcome b r).1.1 = "tool_result".
Proof.
  unfold call_outcome. destruct r as [resp|e]; [done|].
  by destruct (as_approval_pending e) as [[[[[? ?] ?] ?] ?]|].
Qed.

Lemma run_toolcalls o input blocks :
  run (executeToolCalls o input blocks) (fun out t =>
    exists ts, t = concat ts /\
      Forall (fun t1 => exists q r, tq_UserID q = in_UserID input /\ exec_trace o q t1 r) ts /\
      map cb_ToolUseID out.1.1 = map cb_ID blocks /\
      Forall (fun b => cb_Type b = "tool_result") out.1.1).
Proof.
  induction blocks as [|b blocks IH]; simpl.
  - apply runs_ret. exists []. by repeat constructor.
  - eapply runs_bind; [apply runs_ExecuteTool, HI|]. intros r t Ht.
    pose proof (call_outcome_block b r) as [H1' H2'].
    destruct (call_outcome b r) as [[rb tr] aps]. simpl in *.
    eapply runs_bind; [exact IH|]. intros [[rbs trs] apss] t' (ts & -> & Hts & Hm & Hty).
    apply runs_ret. exists (t :: ts). simpl in *. rewrite app_nil_r. split; [done|].
    split; [|split; [by f_equal|by constructor]].
    constructor; [|done]. by exists (block_request input b), r.
Qed.

(** The iterations: the calls made, and the messages persisted at the end. *)
Lemma run_iterate fuel o input sp persistent convID start (l : loopState (P:=P)) :
  start <= length (l_history l) ->
  run (iterate fuel o input sp persistent convID start l) (fun r t =>
    exists body msgs, t = body ++ appended persistent convID (drop start (l_history l) ++ msgs) /\
      body_trace o input fuel body /\ turns msgs /\
      r <> Err (Errorf "panic: slice bounds out of range")).
Proof.
  revert l. induction fuel as [|fuel IH]; intros l Hle; simpl.
  - eapply runs_weaken; [by apply run_persist|]. intros r t [-> ->].
    exists [], []. rewrite app_nil_r. by repeat constructor.
  - eapply runs_bind; [apply run_provider|]. intros [resp|e] t ->; cycle 1.
    { eapply runs_weaken; [by apply run_persist|]. intros r t [-> ->].
      exists [EvLLM (mkRequest sp (l_history l) 0 (l_toolDefs l)) (Err e)], [].
      rewrite app_nil_r. split; [done|]. split; [|by repeat constructor].
      apply (bt_round o input fuel _ _ [] []); constructor. }
    set (hist := l_history l ++ [_]).
    assert (start <= length hist) as Hle1 by (unfold hist; rewrite length_app; simpl; lia).
    assert (drop start hist = drop start (l_history l) ++ [mkMessage RoleAssistant "" (rs_ContentBlocks resp)]) as Hd.
    { unfold hist. rewrite drop_app_le by done. done. }
    destruct (HasToolUse resp); simpl; cycle 1.
    { eapply runs_weaken; [by apply run_persist|]. intros r t [-> ->].
      exists [EvLLM (mkRequest sp (l_history l) 0 (l_toolDefs l)) (Ok resp)],
        [mkMessage RoleAssistant "" (rs_ContentBlocks resp)].
      rewrite Hd. split; [done|]. split; [|by repeat constructor].
      apply (bt_round o input fuel _ _ [] []); constructor. }
    eapply runs_bind; [apply run_toolcalls|].
    intros [[rbs trs] aps] t (ts & -> & Hts & Hm & Hty). simpl in Hm, Hty.
    set (u := mkMessage RoleUser "" rbs).
    assert (start <= length (hist ++ [u])) as Hle2 by (rewrite length_app; simpl; lia).
    assert (answers (mkMessage RoleAssistant "" (rs_ContentBlocks resp)) u) as Hans by done.
    assert (drop start (hist ++ [u]) =
      drop start (l_history l) ++ [mkMessage RoleAssistant "" (rs_ContentBlocks resp); u]) as Hd2.
    { rewrite drop_app_le by done. by rewrite Hd, <-app_assoc. }
    destruct (0 <? length aps)%nat.
    + eapply runs_weaken; [by apply run_persist|]. intros r t [-> ->].
      exists (EvLLM (mkRequest sp (l_history l) 0 (l_toolDefs l)) (Ok resp) :: concat ts ++ []),
        [mkMessage RoleAssistant "" (rs_ContentBlocks resp); u].
      rewrite Hd2. split; [by rewrite app_nil_r|]. split; [|split; [|done]].
      * apply bt_round; [done|constructor].
      * by apply turns_round; try constructor.
    + eapply runs_weaken; [apply IH; exact Hle2|].
      intros r t (body & msgs & -> & Hb & Hmsgs & Hr). simpl.
      exists (EvLLM (mkRequest sp (l_history l) 0 (l_toolDefs l)) (Ok resp) :: concat ts ++ body),
        (mkMessage RoleAssistant "" (rs_ContentBlocks resp) :: u :: msgs).
      rewrite Hd2, <-!app_assoc. simpl. split; [by rewrite <-app_assoc|].
      split; [by apply bt_round|]. split; [|done]. by apply turns_round.
Qed.

(** ** The window *)

Lemma maxHistory_pos o : (0 < maxHistory o)%Z.
Proof. unfold maxHistory, DefaultMaxHistoryMessages. destruct (Z.leb_spec (o_maxHistoryMessages o) 0); lia. Qed.

Lemma truncate_suffix o h u :
  msg_Role u = RoleUser -> exists pre k, truncateHistory o (h ++ [u]) = pre ++ [u] /\ pre = drop k h.
Proof.
  intros Hu. unfold truncateHistory. pose proof (maxHistory_pos o) as Hm.
  destruct (Z.leb_spec (Z.of_nat (length (h ++ [u]))) (maxHistory o)); [by exists h, 0; rewrite drop_0|].
  rewrite length_app in *. simpl in *.
  assert (length h + 1 - Z.to_nat (maxHistory o) <= length h) as Hk by lia.
  rewrite drop_app_le by done. set (k := length h + 1 - Z.to_nat (maxHistory o)) in *.
  destruct (drop k h) as [|m h'] eqn:E; simpl.
  - rewrite Hu. simpl. by exists (drop k h), k; rewrite E.
  - destruct (String.eqb (msg_Role m) RoleAssistant).
    + exists h', (k + 1). split; [done|]. by rewrite <-drop_drop, E.
    + exists (m :: h'), k. done.
Qed.

Lemma run_summarize o h max :
  run (summarizeHistory o h max) (fun h' t =>
    (t = [] \/ exists req r, t = [EvLLM req r]) /\
    (h' = h \/ exists m k, h' = m :: drop k h /\ 4 <= k /\ k + 2 <= length h)).
Proof.
  unfold summarizeHistory. destruct (Z.ltb_spec (Z.of_nat (length h)) (scaled max 8 10));
    [by apply runs_ret; auto|].
  set (keep := if (scaled max 4 10 <? 2)%Z then 2%Z else scaled max 4 10).
  assert (2 <= keep)%Z as Hkeep by (unfold keep; destruct (Z.ltb_spec (scaled max 4 10) 2); lia).
  destruct (Z.ltb_spec (Z.of_nat (length h) - keep) 4); [by apply runs_ret; auto|].
  destruct (_ =? 0)%nat; [by apply runs_ret; auto|].
  eapply runs_bind; [apply run_provider|]. intros [r|e] t ->.
  - destruct (String.eqb (rs_Content r) ""); apply runs_ret.
    + split; [right; by do 2 eexists|by left].
    + split; [right; by do 2 eexists|right]. do 2 eexists. split; [reflexivity|]. lia.
  - apply runs_ret. split; [right; by do 2 eexists|by left].
Qed.

(** The history the loop starts with ends in the user's message, and the adjusted
    start points at it. *)
Lemma window_start o h u h1 :
  msg_Role u = RoleUser ->
  (h1 = h ++ [u] \/ exists m k, h1 = m :: drop k (h ++ [u]) /\ 4 <= k /\ k + 2 <= length (h ++ [u])) ->
  let h2 := truncateHistory o h1 in
  exists pre, h2 = pre ++ [u] /\ adjustStart (length h) (length (h ++ [u])) (length h2) = length pre.
Proof.
  intros Hu Hh1. assert (exists g, h1 = g ++ [u] /\ length g <= length h) as (g & -> & Hg).
  { destruct Hh1 as [->|(m & k & -> & Hk1 & Hk2)]; [by exists h|]. rewrite length_app in Hk2. simpl in Hk2.
    exists (m :: drop k h). rewrite drop_app_le by lia. split; [done|]. simpl. rewrite length_drop. lia. }
  destruct (truncate_suffix o g u Hu) as (pre & k & E & ->). cbv zeta. rewrite E.
  exists (drop k g). split; [done|]. unfold adjustStart. rewrite !length_app. simpl.
  rewrite length_drop. destruct (Z.ltb_spec 0 (Z.of_nat (length h + 1) - Z.of_nat (length g - k + 1))); lia.
Qed.

(** The number of model requests in a trace. *)
Definition is_llm (ev : event F P) : bool := match ev with EvLLM _ _ => true | _ => false end.

(** An execution sends no request and appends no message. *)
Lemma exec_trace_internal o q t r :
  exec_trace o q t r ->
  Forall (fun ev => match ev with EvLLM _ _ | EvAppend _ _ => False | _ => True end) t.
Proof.
  intros Ht. destruct Ht as [e|tool y Hk Hc Hr|tool e ev Hk Hp Hev|tool e g Hk Hp Hsec Hg
    |tool g t' y Hk Hp Hsec Hg Hrun|tool y Hk Hp Hsec].
  - constructor.
  - by repeat constructor.
  - destruct (o_security o); [destruct Hev as (a & -> & _)|subst ev]; by repeat constructor.
  - destruct Hg; unfold asked, audit; destruct (o_autoApprover o); by repeat constructor.
  - apply Forall_app. split; [|destruct Hrun; by repeat constructor].
    destruct Hg; unfold asked, audit; destruct (o_autoApprover o); by repeat constructor.
  - by repeat constructor.
Qed.

Lemma exec_trace_no_llm o q t r : exec_trace o q t r -> countb is_llm t = 0.
Proof.
  intros Ht%exec_trace_internal. apply countb_zero. eapply Forall_impl; [exact Ht|]. by intros [].
Qed.

Lemma exec_trace_no_append o q t r :
  exec_trace o q t r -> Forall (fun ev => match ev with EvAppend _ _ => true | _ => false end = false) t.
Proof. intros Ht%exec_trace_internal. eapply Forall_impl; [exact Ht|]. by intros []. Qed.

Lemma countb_app {A} (p : A -> bool) l1 l2 : countb p (l1 ++ l2) = countb p l1 + countb p l2.
Proof. unfold countb. by rewrite List.filter_app, length_app. Qed.

Lemma body_trace_llm o input n t : body_trace o input n t -> countb is_llm t <= n.
Proof.
  induction 1 as [n|n req res ts t Hts Ht IH]; [unfold countb; simpl; lia|].
  assert (countb is_llm (concat ts) = 0) as Hz.
  { induction Hts as [|t1 ts (q & r & _ & He) _ IHts]; [done|]. simpl.
    by rewrite countb_app, IHts, (exec_trace_no_llm _ _ _ _ He). }
  change (EvLLM req res :: concat ts ++ t) with ([EvLLM req res] ++ concat ts ++ t).
  rewrite !countb_app, Hz. unfold countb at 1. simpl. lia.
Qed.

(** [Process] as a whole. *)
Lemma run_Process o input :
  run (Process o input) (fun r t =>
    r <> Err (Errorf "panic: slice bounds out of range") /\
    exists pre body persistent convID msgs,
      t = pre ++ body ++ appended persistent convID
            (mkMessage RoleUser (truncateContent o (in_Message input)) [] :: msgs) /\
      (pre = [] \/ o_summarizeOnTruncate o = true /\ exists req x, pre = [EvLLM req x]) /\
      body_trace o input (Z.to_nat (maxIterations o)) body /\ turns msgs).
Proof.
  unfold Process. eapply runs_bind; [apply run_load|]. intros [[persistent convID] h] t ->.
  set (u := mkMessage RoleUser _ _). eapply runs_bind with (Q := fun h1 t =>
    (t = [] \/ o_summarizeOnTruncate o = true /\ exists req r, t = [EvLLM req r]) /\
    (h1 = h ++ [u] \/ exists m k, h1 = m :: drop k (h ++ [u]) /\ 4 <= k /\ k + 2 <= length (h ++ [u]))).
  { destruct (o_summarizeOnTruncate o); [|by apply runs_ret; auto].
    eapply runs_weaken; [apply run_summarize|]. intros h1 t [[->|Ht] Hh]; auto. }
  intros h1 t [Hpre Hh1]. destruct (window_start o h u h1 eq_refl Hh1) as (pre & Hh2 & Hst).
  rewrite Hst. destruct (initial_definitions o (in_Message input)) as [defs lazy].
  eapply runs_weaken; [apply run_iterate; simpl; rewrite Hh2, length_app; lia|].
  simpl. intros r t' (body & msgs & -> & Hb & Hm & Hr). split; [done|].
  exists t, body, persistent, convID, msgs. rewrite Hh2, drop_app_length. done.
Qed.

End calls.

Lemma appended_no_llm persistent convID msgs : countb is_llm (appended persistent convID msgs) = 0.
Proof. unfold appended. by destruct (_ || _). Qed.

(** C23: a call ends, within its limits.  [Process] always answers, makes at most
    [maxIterations] model requests, one more when it summarises old messages, and
    never slices the history out of range, whatever messages were dropped. *)
Theorem process_bounded o input s :
  exists t, s_trace (Process o input s).2 = s_trace s ++ t /\
    countb is_llm t <= Z.to_nat (maxIterations o) + (if o_summarizeOnTruncate o then 1 else 0) /\
    (Process o input s).1 <> Err (Errorf "panic: slice bounds out of range").
Proof.
  destruct (run_Process _ _ no_invariant o input s Logic.I)
    as (t & Ht & _ & _ & Hr & pre & body & ps & c & msgs & -> & Hpre & Hb & _).
  exists (pre ++ body ++ appended ps c (mkMessage RoleUser (truncateContent o (in_Message input)) [] :: msgs)).
  split; [done|]. split; [|done]. rewrite !countb_app, appended_no_llm.
  pose proof (body_trace_llm _ _ _ _ Hb).
  destruct Hpre as [->|[-> (req & x & ->)]]; unfold countb at 1; simpl; destruct (o_summarizeOnTruncate o); lia.
Qed.

(** What a call writes to the conversation.  [Process] appends at most once,
    and what it appends is the (size-limited) message of the user followed by its
    turns: assistant messages, each but the last answered by one user message
    that holds exactly one tool_result for every tool_use of it, in order and
    under the same identifier.  Old messages that were loaded, summarised or
    dropped are not appended again. *)
Theorem process_persists_turns o input s :
  exists t, s_trace (Process o input s).2 = s_trace s ++ t /\
    countb (fun ev => match ev with EvAppend _ _ => true | _ => false end) t <= 1 /\
    forall convID msgs, EvAppend convID msgs ∈ t ->
      exists l, msgs = mkMessage RoleUser (truncateContent o (in_Message input)) [] :: l /\ turns l.
Proof.
  destruct (run_Process _ _ no_invariant o input s Logic.I)
    as (t & Ht & _ & _ & Hr & pre & body & ps & c & msgs & -> & Hpre & Hb & Hm).
  exists (pre ++ body ++ appended ps c (mkMessage RoleUser (truncateContent o (in_Message input)) [] :: msgs)).
  split; [done|].
  assert (Forall (fun ev => match ev with EvAppend _ _ => true | _ => false end = false) (pre ++ body)) as Hno.
  { apply Forall_app. split; [destruct Hpre as [->|[_ (req & x & ->)]]; by repeat constructor|].
    clear -Hb. induction Hb as [n|n req res ts t Hts Ht IH]; constructor; [done|].
    apply Forall_app. split; [|done]. clear IH Ht. induction Hts as [|t1 ts (q & r & _ & He) _ IHts]; [constructor|].
    apply Forall_app. split; [|done]. by apply exec_trace_no_append in He. }
  rewrite app_assoc, countb_app, (proj2 (countb_zero _ _) Hno).
  split; [unfold appended; destruct (_ || _); unfold countb; simpl; lia|].
  intros convID msgs' Hin. apply elem_of_app in Hin as [Hin|Hin].
  - rewrite Forall_forall in Hno. by apply Hno in Hin.
  - unfold appended in Hin. destruct (_ || _); [by apply elem_of_nil in Hin|].
    apply list_elem_of_singleton in Hin as [= -> ->]. eauto.
Qed.

Lemma body_trace_execute o input n t u k p x :
  body_trace o input n t -> EvExecute u k p x ∈ t ->
  exists l1 t1 l2 q r, t = l1 ++ t1 ++ l2 /\ EvExecute u k p x ∈ t1 /\
    tq_UserID q = in_UserID input /\ exec_trace o q t1 r.
Proof.
  induction 1 as [n|n req res ts t Hts Ht IH]; intros Hin; [by apply elem_of_nil in Hin|].
  apply elem_of_cons in Hin as [Hin|Hin]; [done|]. apply elem_of_app in Hin as [Hin|Hin]; cycle 1.
  { destruct (IH Hin) as (l1 & t1 & l2 & q & r & -> & ?).
    exists (EvLLM req res :: concat ts ++ l1), t1, l2, q, r. simpl. by rewrite <-!app_assoc. }
  clear IH Ht. apply list_elem_of_In, in_concat in Hin as (t1 & Hin1 & Hin).
  apply list_elem_of_In in Hin1, Hin. rewrite Forall_forall in Hts.
  destruct (Hts t1 Hin1) as (q & r & Hq & He). apply list_elem_of_split in Hin1 as (l1 & l2 & ->).
  exists (EvLLM req res :: concat l1), t1, (concat l2 ++ t), q, r.
  rewrite concat_app. simpl. by rewrite <-!app_assoc.
Qed.

(** A tool that runs during [Process] runs inside one execution for the user, and the
    security manager keeps its invariants. *)
Lemma process_runs I ok (HI : sec_invariant (F:=F) (P:=P) (S:=S) I ok) o input s :
  I (s_security s) ->
  exists t, s_trace (Process o input s).2 = s_trace s ++ t /\ Forall ok t /\
    I (s_security (Process o input s).2) /\
    forall u k p x, EvExecute u k p x ∈ t ->
      exists l1 t1 l2 q r, t = l1 ++ t1 ++ l2 /\ EvExecute u k p x ∈ t1 /\
        tq_UserID q = in_UserID input /\ exec_trace o q t1 r.
Proof.
  intros Hs. destruct (run_Process I ok HI o input s Hs)
    as (t & Ht & Hok & HI' & Hr & pre & body & ps & c & msgs & -> & Hpre & Hb & Hm).
  eexists. split; [exact Ht|]. split; [done|]. split; [done|].
  intros u k p x Hin. assert (EvExecute u k p x ∈ body) as Hin'.
  { apply elem_of_app in Hin as [Hin|Hin].
    - destruct Hpre as [->|[_ (req & y & ->)]]; [by apply elem_of_nil in Hin|].
      by apply list_elem_of_singleton in Hin.
    - apply elem_of_app in Hin as [Hin|Hin]; [done|]. unfold appended in Hin.
      destruct (_ || _); [by apply elem_of_nil in Hin|by apply list_elem_of_singleton in Hin]. }
  destruct (body_trace_execute o input _ body u k p x Hb Hin') as (l1 & t1 & l2 & q & r & -> & Hin1 & Hq & He).
  eexists (pre ++ l1), t1, (l2 ++ appended ps c _), q, r. by rewrite <-!app_assoc.
Qed.

Lemma process_execution o input s :
  exists t, s_trace (Process o input s).2 = s_trace s ++ t /\
    forall u k p x, EvExecute u k p x ∈ t ->
      exists l1 t1 l2 q r, t = l1 ++ t1 ++ l2 /\ EvExecute u k p x ∈ t1 /\
        tq_UserID q = in_UserID input /\ exec_trace o q t1 r.
Proof. destruct (process_runs _ _ no_invariant o input s Logic.I) as (t & Ht & _ & _ & Hex). eauto. Qed.

(** C3: the loop opens no way around the checks.  With security on, every tool that
    runs during [Process] runs as the user who sent the message, inside an
    execution that followed the pipeline: the tool is registered, the policy
    allows it, the permission and approval checks granted it, its cost was
    reserved and the intent audited before, and the outcome audited after. *)
Theorem process_tools_checked o input s u k p x :
  o_security o = true ->
  exists t, s_trace (Process o input s).2 = s_trace s ++ t /\
    (EvExecute u k p x ∈ t ->
     u = in_UserID input /\
     exists l1 l2 q tool g t1 t2,
       let a := tool_RequiredAction tool in
       let c := tool_EstimateCost tool p in
       tq_UserID q = u /\ tq_Parameters q = p /\ known_tool o q tool /\ k = tool_Name tool /\
       policyCheck o q = None /\ grant_trace o q a c g None /\
       t = l1 ++ (g ++ [EvReserve u c true; audit t1 q (act_Name a) "intent" c "" None;
                 EvExecute u k p x;
                 audit t2 q (act_Name a) (if is_ok x then "success" else "failure") c ""
                   (match x with Ok _ => None | Err e => Some e end);
                 EvRecordCost u c; EvRelease]) ++ l2).
Proof.
  intros Hs. destruct (process_execution o input s) as (t & Ht & Hex). exists t. split; [done|].
  intros Hin. destruct (Hex u k p x Hin) as (l1 & t1 & l2 & q & r & -> & Hin1 & Hq & He).
  destruct (exec_trace_execute o q t1 r u k p x He Hs Hin1) as (tool & g & t' & -> & Hk & Hp & Hg & Hrun & Hin2).
  destruct (run_trace_execute q tool _ _ _ t' r u k p x Hrun Hin2) as (-> & -> & -> & n1 & n2 & ->).
  split; [done|].
  exists l1, l2, q, tool, g, n1, n2. cbv zeta.
  repeat (split; [done|]). by rewrite <-!app_assoc.
Qed.

(** Truncation may cut a tool call in two.  [truncateHistory] keeps the newest
    [maxHistory] messages and drops a leading assistant message, to avoid protocol
    violations of the model; but when the cut falls right after an assistant's
    tool_use message, the window starts with the user message of its tool_result
    blocks, whose tool_use the model no longer sees. *)
Theorem truncation_orphans_results o h a u l :
  turns (a :: u :: l) -> Z.of_nat (length (u :: l)) = maxHistory o ->
  truncateHistory o (h ++ a :: u :: l) = u :: l /\
  map cb_ToolUseID (msg_ContentBlocks u) = map cb_ID (List.filter is_tool_use (msg_ContentBlocks a)).
Proof.
  intros Ht Hlen. inversion Ht as [| |a' u' l' Ha Hu [Hm _] Hl]; subst.
  split; [|done]. unfold truncateHistory. rewrite !length_app in *. simpl in *.
  destruct (Z.leb_spec (Z.of_nat (length h + Datatypes.S (Datatypes.S (length l)))) (maxHistory o)); [lia|].
  replace (length h + Datatypes.S (Datatypes.S (length l)) - Z.to_nat (maxHistory o)) with (length h + 1) by lia.
  rewrite <-drop_drop, drop_app_length. simpl. by rewrite Hu.
Qed.
End props.
