(* ===== verification/Config.v ===== *)
(** * Configuration

    [src/internal/config/config.go]: the settings the modelled components read and
    their defaults.  A nil pointer is [None]. *)

From S2P Require Import Prelude.

(** A duration given in whole seconds, with a default when it is not positive. *)
Definition seconds_or (n : Z) (d : Duration) : Duration :=
  if (0 <? n)%Z then (n * Second)%Z else d.

(** ** The websocket gateway *)

Record WebSocketGatewayConfig := mkWebSocketConfig {
  wsc_Enabled : bool;
  wsc_ListenAddr : string;
  wsc_Path : string;
  wsc_AgentToken : string;
  wsc_HeartbeatIntervalSeconds : Z;
  wsc_AckTimeoutSeconds : Z;
  wsc_TaskReassignTimeoutSeconds : Z;
  wsc_StaleTimeoutSeconds : Z;
}.

Definition WSPath (w : option WebSocketGatewayConfig) : string :=
  match w with
  | Some w => if String.eqb (wsc_Path w) "" then "/ws/agents" else wsc_Path w
  | None => "/ws/agents"
  end.

Definition WSHeartbeatInterval (w : option WebSocketGatewayConfig) : Duration :=
  match w with
  | Some w => seconds_or (wsc_HeartbeatIntervalSeconds w) (30 * Second)%Z
  | None => (30 * Second)%Z
  end.

Definition WSAckTimeout (w : option WebSocketGatewayConfig) : Duration :=
  match w with
  | Some w => seconds_or (wsc_AckTimeoutSeconds w) (30 * Second)%Z
  | None => (30 * Second)%Z
  end.

Definition WSTaskReassignTimeout (w : option WebSocketGatewayConfig) : Duration :=
  match w with
  | Some w => seconds_or (wsc_TaskReassignTimeoutSeconds w) (120 * Second)%Z
  | None => (120 * Second)%Z
  end.

Definition WSStaleTimeout (w : option WebSocketGatewayConfig) : Duration :=
  match w with
  | Some w' => seconds_or (wsc_StaleTimeoutSeconds w') (3 * WSHeartbeatInterval w)%Z
  | None => (3 * WSHeartbeatInterval w)%Z
  end.

(** ** Polling services *)

Definition positive_or (n d : Z) : Z := if (0 <? n)%Z then n else d.

Record SchedulerConfig := mkSchedulerConfig {
  scc_Enabled : bool;
  scc_PollIntervalSeconds : Z;
  scc_MaxConcurrentJobs : Z;
  scc_MissedJobWindowSeconds : Z;
}.

Definition scheduler_PollInterval (s : option SchedulerConfig) : Duration :=
  match s with
  | Some s => seconds_or (scc_PollIntervalSeconds s) (30 * Second)%Z
  | None => (30 * Second)%Z
  end.

Definition scheduler_MaxConcurrent (s : option SchedulerConfig) : Z :=
  match s with Some s => positive_or (scc_MaxConcurrentJobs s) 5 | None => 5%Z end.

Definition MissedJobWindow (s : option SchedulerConfig) : Duration :=
  match s with
  | Some s => seconds_or (scc_MissedJobWindowSeconds s) Hour
  | None => Hour
  end.

(** [HeartbeatTasksConfig]. *)
Record HeartbeatTasksConfig := mkHeartbeatTasksConfig {
  htc_Enabled : bool;
  htc_TasksDirs : list string;
  htc_PollIntervalSeconds : Z;
  htc_FilePollIntervalSeconds : Z;
  htc_MaxConcurrentTasks : Z;
  htc_QuickTaskTimeoutSeconds : Z;
  htc_LongTaskTimeoutSeconds : Z;
  htc_DefaultUserID : string;
  htc_ProactiveAlerts : bool;
}.

(** A field of a section, or its default when the section is absent. *)
Definition section_or {C A} (f : C -> A) (d : A) (c : option C) : A := match c with Some c => f c | None => d end.

Definition heartbeat_PollInterval : option HeartbeatTasksConfig -> Duration :=
  section_or (fun h => seconds_or (htc_PollIntervalSeconds h) (30 * Second)%Z) (30 * Second)%Z.
Definition FilePollInterval : option HeartbeatTasksConfig -> Duration :=
  section_or (fun h => seconds_or (htc_FilePollIntervalSeconds h) (60 * Second)%Z) (60 * Second)%Z.
Definition heartbeat_MaxConcurrent : option HeartbeatTasksConfig -> Z :=
  section_or (fun h => positive_or (htc_MaxConcurrentTasks h) 3) 3%Z.
Definition QuickTaskTimeout : option HeartbeatTasksConfig -> Duration :=
  section_or (fun h => seconds_or (htc_QuickTaskTimeoutSeconds h) (60 * Second)%Z) (60 * Second)%Z.
Definition LongTaskTimeout : option HeartbeatTasksConfig -> Duration :=
  section_or (fun h => seconds_or (htc_LongTaskTimeoutSeconds h) (5 * Minute)%Z) (5 * Minute)%Z.
Definition DefaultUser : option HeartbeatTasksConfig -> string :=
  section_or (fun h => or_text (htc_DefaultUserID h) "system") "system".
