(* ===== verification/Protocol.v ===== *)
(** * The messages between the gateway and remote agents

    [src/internal/protocol/messages.go]: the envelope every message travels in and
    its payloads.  [json.Marshal] of the payload structs and [json.Unmarshal] into
    them are the class [ProtocolJson]; [ProtocolLaws] is what the round trips rely
    on: decoding what was encoded gives it back.  A payload holds finite amounts, so
    its encoding has no error. *)

From S2P Require Import Prelude.

(** ** Message types *)

Definition MessageType : Type := string.
Definition MsgAgentRegister : MessageType := "agent.register".
Definition MsgAgentHeartbeat : MessageType := "agent.heartbeat".
Definition MsgTaskAccepted : MessageType := "task.accepted".
Definition MsgTaskProgress : MessageType := "task.progress".
Definition MsgTaskResult : MessageType := "task.result".
Definition MsgTaskFailed : MessageType := "task.failed".
Definition MsgApprovalRequest : MessageType := "approval.request".
Definition MsgRegistered : MessageType := "gateway.registered".
Definition MsgTaskAssign : MessageType := "task.assign".
Definition MsgTaskCancel : MessageType := "task.cancel".
Definition MsgApprovalResult : MessageType := "approval.result".
Definition MsgPing : MessageType := "gateway.ping".
Definition MsgPong : MessageType := "gateway.pong".
Definition MsgError : MessageType := "error".

(** ** The envelope *)

(** [Payload] is raw JSON; an absent payload is the empty text. *)
Record Envelope := mkEnvelope {
  env_Type : MessageType;
  env_ID : string;
  env_AgentID : string;
  env_TaskID : string;
  env_Payload : string;
  env_Timestamp : Time;
}.

(** [NewEnvelope]; [id] is the fresh identifier and [now] the clock. *)
Definition NewEnvelope (msgType : MessageType) (payload : option string) (id : string)
    (now : Time) : Envelope :=
  mkEnvelope msgType id "" "" (default "" payload) now.

(** [env.AgentID = ...] and [env.TaskID = ...]. *)
Definition with_agent (e : Envelope) (agentID : string) : Envelope :=
  mkEnvelope (env_Type e) (env_ID e) agentID (env_TaskID e) (env_Payload e) (env_Timestamp e).
Definition with_task (e : Envelope) (taskID : string) : Envelope :=
  mkEnvelope (env_Type e) (env_ID e) (env_AgentID e) taskID (env_Payload e) (env_Timestamp e).

(** ** Payloads *)

Record AgentCapabilities := mkCapabilities {
  ac_AgentID : string;
  ac_Skills : list string;
  ac_Model : string;
  ac_MaxParallel : Z;
  ac_Version : string;
}.

Record TaskStateInfo := mkTaskStateInfo {
  ti_TaskID : string;
  ti_State : string;
  ti_Elapsed : string;
}.

Record HeartbeatPayload := mkHeartbeat {
  hb_ActiveTasks : Z;
  hb_TaskIDs : list string;
  hb_TaskStates : list TaskStateInfo;
}.

Record TaskAcceptedPayload := mkAcceptedPayload { ta_AcceptedTaskID : string }.

Record ApprovalRequestPayload := mkApprovalRequestPayload {
  ap_ApprovalID : string;
  ap_UserID : string;
  ap_ToolName : string;
  ap_Parameters : string;
  ap_RiskLevel : string;
}.

Record RegisteredPayload := mkRegistered { rp_Message : string }.
Record TaskCancelPayload := mkTaskCancel { tc_Reason : string }.

Record ApprovalResultPayload := mkApprovalResult {
  ar_ApprovalID : string;
  ar_Decision : string;
  ar_ApproverID : string;
}.

Record ErrorPayload := mkErrorPayload { ep_Code : string; ep_Message : string }.

Section payloads.
Context {F : Type}.

Record TaskProgress := mkTaskProgress {
  pr_Message : string;
  pr_TokensUsed : Z;
  pr_CostUSD : F;
}.

Record TaskResultPayload := mkTaskResult {
  tr_Output : string;
  tr_TokensUsed : Z;
  tr_CostUSD : F;
  tr_ToolCalls : Z;
  tr_Duration : string;
}.

Record TaskFailedPayload := mkTaskFailed {
  tf_Error : string;
  tf_TokensUsed : Z;
  tf_CostUSD : F;
}.

Record TaskAssignment := mkAssignment {
  ta_TaskID : string;
  ta_WorkflowID : string;
  ta_UserID : string;
  ta_Goal : string;
  ta_SkillName : string;
  ta_Context : gmap string string;
  ta_BudgetUSD : F;
  ta_TimeoutSecs : Z;
}.
End payloads.

Arguments TaskProgress F : clear implicits.
Arguments TaskResultPayload F : clear implicits.
Arguments TaskFailedPayload F : clear implicits.
Arguments TaskAssignment F : clear implicits.

(** ** Encoding *)

(** [json.Marshal] of a value of type [A] and [json.Unmarshal] into one. *)
Class Json (A : Type) := {
  marshal : A -> string;
  unmarshal : string -> result error A;
}.

Class JsonLaw (A : Type) `{Json A} := {
  unmarshal_marshal : forall a : A, unmarshal (marshal a) = Ok a;
}.

(** [Envelope.Decode]. *)
Definition Decode {A} `{Json A} (e : Envelope) : result error A := unmarshal (env_Payload e).

(** Every struct that travels. *)
Class ProtocolJson (F : Type) := {
  #[export] json_envelope :: Json Envelope;
  #[export] json_capabilities :: Json AgentCapabilities;
  #[export] json_heartbeat :: Json HeartbeatPayload;
  #[export] json_accepted :: Json TaskAcceptedPayload;
  #[export] json_progress :: Json (TaskProgress F);
  #[export] json_result :: Json (TaskResultPayload F);
  #[export] json_failed :: Json (TaskFailedPayload F);
  #[export] json_approval_request :: Json ApprovalRequestPayload;
  #[export] json_registered :: Json RegisteredPayload;
  #[export] json_assignment :: Json (TaskAssignment F);
  #[export] json_approval_result :: Json ApprovalResultPayload;
  #[export] json_error_payload :: Json ErrorPayload;
}.

Class ProtocolLaws (F : Type) `{ProtocolJson F} := {
  #[export] law_envelope :: JsonLaw Envelope;
  #[export] law_capabilities :: JsonLaw AgentCapabilities;
  #[export] law_result :: JsonLaw (TaskResultPayload F);
  #[export] law_failed :: JsonLaw (TaskFailedPayload F);
  #[export] law_assignment :: JsonLaw (TaskAssignment F);
  #[export] law_accepted :: JsonLaw TaskAcceptedPayload;
}.
