(* ===== verification/AgentRegistry.v ===== *)
(** * The registry of connected agents

    [src/internal/agent/registry.go].  A websocket connection is a pointer, the model
    its identity; an entry's [Info] and [Conn] never change, so a pointer to an entry
    is a copy of them.  [Route] ranges over the map in any order. *)

From S2P Require Import Prelude Protocol.

(** ** Data *)

Definition Conn : Type := N.

Inductive AgentStatus := AgentIdle | AgentBusy | AgentDraining.

#[export] Instance AgentStatus_eq_dec : EqDecision AgentStatus.
Proof. solve_decision. Defined.

Record ConnectedAgent := mkConnectedAgent {
  ca_Info : AgentCapabilities;
  ca_Conn : Conn;
  ca_ActiveTasks : Z;
  ca_LastSeen : Time;
  ca_Status : AgentStatus;
  ca_ConnectedAt : Time;
}.

Record StaleAgent := mkStaleAgent {
  sa_AgentID : string;
  sa_Conn : Conn;
  sa_LastSeen : Time;
  sa_ConnectedAt : Time;
}.

Abbreviation Registry := (gmap string ConnectedAgent).
Definition NewRegistry : Registry := ∅.

Section registry.
Context `{!MapRange string ConnectedAgent}.

(** ** Operations *)

Definition new_agent (info : AgentCapabilities) (conn : Conn) (now : Time) : ConnectedAgent :=
  mkConnectedAgent info conn 0 now AgentIdle now.

(** [RegisterOrReplace]: the connection it replaced, if any. *)
Definition RegisterOrReplace (r : Registry) (info : AgentCapabilities) (conn : Conn) (now : Time)
    : option Conn * Registry :=
  (ca_Conn <$> r !! ac_AgentID info, <[ac_AgentID info := new_agent info conn now]> r).

Definition Register (r : Registry) (info : AgentCapabilities) (conn : Conn) (now : Time)
    : Registry := (RegisterOrReplace r info conn now).2.

Definition Deregister (r : Registry) (agentID : string) (conn : Conn) : Registry :=
  match r !! agentID with
  | None => r
  | Some existing => if bool_decide (ca_Conn existing = conn) then delete agentID r else r
  end.

Definition Get (r : Registry) (agentID : string) : option ConnectedAgent := r !! agentID.

(** [hasAllSkills]: the set of the agent's skills is a [map[string]bool]. *)
Definition hasAllSkills (agentSkills required : list string) : bool :=
  let skillSet : gmap string bool := fold_left (fun m s => <[s := true]> m) agentSkills ∅ in
  forallb (fun req => default false (skillSet !! req)) required.

(** The body of [Route]'s loop: the best agent so far and its load. *)
Definition route_step (skills : list string) (acc : option ConnectedAgent * Z)
    (a : ConnectedAgent) : option ConnectedAgent * Z :=
  if bool_decide (ca_Status a = AgentDraining) then acc
  else
    let active := ca_ActiveTasks a in
    let maxP := ac_MaxParallel (ca_Info a) in
    if ((0 <? maxP) && (maxP <=? active))%Z then acc
    else if negb (bool_decide (skills = [])) && negb (hasAllSkills (ac_Skills (ca_Info a)) skills)
    then acc
    else if (active <? acc.2)%Z then (Some a, active) else acc.

Definition Route (r : Registry) (skills : list string) : result error ConnectedAgent :=
  match (fold_left (route_step skills) (map_range r).*2 (None, maxInt)).1 with
  | None => Err (Sentinel ErrNoAvailableAgent)
  | Some a => Ok a
  end.

Definition set_activity (a : ConnectedAgent) (active : Z) (seen : Time) (s : AgentStatus)
    : ConnectedAgent :=
  mkConnectedAgent (ca_Info a) (ca_Conn a) active seen s (ca_ConnectedAt a).

Definition UpdateHeartbeat (r : Registry) (agentID : string) (activeTasks : Z) (now : Time)
    : Registry :=
  match r !! agentID with
  | None => r
  | Some a =>
      <[agentID :=
          if (0 <=? activeTasks)%Z
          then set_activity a activeTasks now (if (0 <? activeTasks)%Z then AgentBusy else AgentIdle)
          else set_activity a (ca_ActiveTasks a) now (ca_Status a)]> r
  end.

Definition IncrementTasks (r : Registry) (agentID : string) : Registry :=
  match r !! agentID with
  | None => r
  | Some a => <[agentID := set_activity a (wrap64 (ca_ActiveTasks a + 1)) (ca_LastSeen a) AgentBusy]> r
  end.

Definition DecrementTasks (r : Registry) (agentID : string) : Registry :=
  match r !! agentID with
  | None => r
  | Some a =>
      let active := wrap64 (ca_ActiveTasks a - 1) in
      <[agentID :=
          if (active <=? 0)%Z then set_activity a 0 (ca_LastSeen a) AgentIdle
          else set_activity a active (ca_LastSeen a) (ca_Status a)]> r
  end.

Definition List (r : Registry) : list ConnectedAgent := (map_range r).*2.

Definition Count (r : Registry) : nat := size r.

Definition stale_since (cutoff : Time) (a : ConnectedAgent) : bool :=
  time_Before (ca_LastSeen a) cutoff.

(** [RemoveStale]: the range deletes entries as it visits them, each one visited once. *)
Definition RemoveStale (r : Registry) (threshold : Duration) (now : Time)
    : list StaleAgent * Registry :=
  fold_left (fun '(stale, m) '(id, a) =>
      if stale_since (now - threshold)%Z a
      then (stale ++ [mkStaleAgent id (ca_Conn a) (ca_LastSeen a) (ca_ConnectedAt a)], delete id m)
      else (stale, m))
    (map_range r) ([], r).

(** ** The operations as steps *)

Inductive registry_op :=
  | OpRegister (info : AgentCapabilities) (conn : Conn) (now : Time)
  | OpDeregister (agentID : string) (conn : Conn)
  | OpHeartbeat (agentID : string) (activeTasks : Z) (now : Time)
  | OpIncrement (agentID : string)
  | OpDecrement (agentID : string)
  | OpRemoveStale (threshold : Duration) (now : Time).

Definition apply_op (r : Registry) (op : registry_op) : Registry :=
  match op with
  | OpRegister info conn now => Register r info conn now
  | OpDeregister id conn => Deregister r id conn
  | OpHeartbeat id n now => UpdateHeartbeat r id n now
  | OpIncrement id => IncrementTasks r id
  | OpDecrement id => DecrementTasks r id
  | OpRemoveStale th now => (RemoveStale r th now).2
  end.

(** ** Skills *)

Lemma hasAllSkills_spec agentSkills required :
  hasAllSkills agentSkills required = true <-> required ⊆ agentSkills.
Proof.
  unfold hasAllSkills. rewrite forallb_Forall, Forall_forall.
  assert (forall (m : gmap string bool) s,
    fold_left (fun m s => <[s := true]> m) agentSkills m !! s =
    if decide (s ∈ agentSkills) then Some true else m !! s) as Hset.
  { induction agentSkills as [|x xs IH]; intros m s; simpl; [done|].
    rewrite IH. destruct (decide (s ∈ xs)) as [Hin|Hn].
    - rewrite decide_True; [done|by apply elem_of_cons; right].
    - destruct (decide (s = x)) as [->|Hne].
      + rewrite lookup_insert_eq, decide_True; [done|by apply elem_of_cons; left].
      + rewrite lookup_insert_ne, decide_False; [done| |done].
        rewrite elem_of_cons. tauto. }
  apply forall_proper. intros s. rewrite Hset, lookup_empty.
  destruct (decide (s ∈ agentSkills)); simpl; intuition congruence.
Qed.

(** ** Routing *)

(** What [Route] accepts: the three tests of its loop. *)
Definition eligible (skills : list string) (a : ConnectedAgent) : Prop :=
  ca_Status a <> AgentDraining /\
  (ac_MaxParallel (ca_Info a) <= 0 \/ ca_ActiveTasks a < ac_MaxParallel (ca_Info a))%Z /\
  skills ⊆ ac_Skills (ca_Info a).

#[export] Instance eligible_dec skills a : Decision (eligible skills a).
Proof. unfold eligible. apply _. Defined.

Lemma route_step_eq skills acc a :
  route_step skills acc a =
  if decide (eligible skills a /\ (ca_ActiveTasks a < acc.2)%Z)
  then (Some a, ca_ActiveTasks a) else acc.
Proof.
  unfold route_step, eligible. case_bool_decide as Hd; [rewrite decide_False; [done|]; tauto|].
  destruct (_ && _)%Z eqn:Hcap.
  { rewrite decide_False; [done|]. apply andb_true_iff in Hcap. lia. }
  apply andb_false_iff in Hcap. destruct (negb _ && _) eqn:Hsk.
  { rewrite decide_False; [done|]. rewrite andb_true_iff, !negb_true_iff in Hsk.
    destruct Hsk as [_ Hsk]. rewrite <-not_true_iff_false, hasAllSkills_spec in Hsk. tauto. }
  assert (skills ⊆ ac_Skills (ca_Info a)) as Hsub.
  { rewrite andb_false_iff, !negb_false_iff, hasAllSkills_spec, bool_decide_eq_true in Hsk.
    destruct Hsk as [->|?]; [|done]. set_solver. }
  destruct (_ <? acc.2)%Z eqn:Hlt; [rewrite decide_True|rewrite decide_False]; try done; [|lia].
  split_and!; [done|lia|done|lia].
Qed.

(** The fold of [Route] over any list: what it picked is the least loaded. *)
Lemma route_fold skills l acc :
  (forall a, acc.1 = Some a -> acc.2 = ca_ActiveTasks a) ->
  let res := fold_left (route_step skills) l acc in
  (forall a, res.1 = Some a -> res.2 = ca_ActiveTasks a) /\
  (res = acc \/ exists a, res.1 = Some a /\ a ∈ l /\ eligible skills a) /\
  (res.2 <= acc.2)%Z /\
  (forall b, b ∈ l -> eligible skills b -> (res.2 <= ca_ActiveTasks b)%Z).
Proof.
  revert acc. induction l as [|x l IH]; intros acc Hacc; simpl.
  { split_and!; [done|by left|lia|]. intros b []%elem_of_nil. }
  rewrite route_step_eq. destruct (decide _) as [[He Hlt]|Hn].
  - destruct (IH (Some x, ca_ActiveTasks x)) as (H1 & H2 & H3 & H4); [by intros ? [= ->]|].
    split_and!; [done| | |].
    + right. destruct H2 as [->|(a & ? & ? & ?)]; [exists x|exists a]; rewrite elem_of_cons; eauto.
    + simpl in *. lia.
    + intros b [->|Hb]%elem_of_cons Hel; [done|by apply H4].
  - destruct (IH acc Hacc) as (H1 & H2 & H3 & H4). split_and!; [done| |done|].
    + destruct H2 as [?|(a & ? & ? & ?)]; [by left|right; exists a; rewrite elem_of_cons; eauto].
    + intros b [->|Hb]%elem_of_cons Hel; [|by apply H4].
      destruct (Z_lt_ge_dec (ca_ActiveTasks x) acc.2); [tauto|]. lia.
Qed.

Lemma elem_of_range_values (r : Registry) (a : ConnectedAgent) :
  a ∈ (map_range r).*2 <-> exists id, r !! id = Some a.
Proof.
  rewrite list_elem_of_fmap. split.
  - intros ([id b] & -> & Hin). exists id. by apply elem_of_map_range.
  - intros (id & Hid). exists (id, a). by rewrite elem_of_map_range.
Qed.

Lemma Route_Ok r skills a :
  Route r skills = Ok a -> (exists id, r !! id = Some a) /\ eligible skills a.
Proof.
  unfold Route. destruct (route_fold skills (map_range r).*2 (None, maxInt)) as (_ & H2 & _); [done|].
  destruct (fold_left _ _ _) as [[b|] load]; [|done]. intros [= ->].
  destruct H2 as [?|(c & [= ->] & Hin & He)]; [done|]. by rewrite elem_of_range_values in Hin.
Qed.

(** What [Route] chose has a smaller load than it started with. *)
Lemma route_fold_below skills l acc :
  let res := fold_left (route_step skills) l acc in
  res = acc \/ exists a, res.1 = Some a /\ (ca_ActiveTasks a < acc.2)%Z /\ res.2 = ca_ActiveTasks a.
Proof.
  revert acc. induction l as [|x l IH]; intros acc; simpl; [by left|].
  destruct (IH (route_step skills acc x)) as [->|(a & Ha & Hlt & Hl)]; clear IH;
    rewrite route_step_eq in *; destruct (decide _) as [[_ Hx]|]; eauto; right.
  exists a. simpl in *. split_and!; [done|lia|done].
Qed.

Lemma Route_below r skills a : Route r skills = Ok a -> (ca_ActiveTasks a < maxInt)%Z.
Proof.
  unfold Route. destruct (route_fold_below skills (map_range r).*2 (None, maxInt)) as [->|(b & -> & Hb & _)]; [done|].
  by intros [= <-].
Qed.

Lemma Route_min r skills a :
  Route r skills = Ok a ->
  forall id b, r !! id = Some b -> eligible skills b -> (ca_ActiveTasks a <= ca_ActiveTasks b)%Z.
Proof.
  unfold Route. destruct (route_fold skills (map_range r).*2 (None, maxInt)) as (H1 & _ & _ & H4); [done|].
  destruct (fold_left _ _ _) as [[c|] load]; [|done]. intros [= ->] id b Hb He.
  rewrite <-(H1 a) by done. apply H4; [|done]. apply elem_of_range_values. eauto.
Qed.

Lemma Route_Err r skills e :
  Route r skills = Err e -> e = Sentinel ErrNoAvailableAgent /\
  forall id b, r !! id = Some b -> eligible skills b -> (maxInt <= ca_ActiveTasks b)%Z.
Proof.
  unfold Route. destruct (route_fold skills (map_range r).*2 (None, maxInt)) as (_ & H2 & _ & H4); [done|].
  destruct (fold_left _ _ _) as [[c|] load]; [done|]. intros [= <-]. split; [done|].
  intros id b Hb He. destruct H2 as [[= ->]|(? & [=] & _)]. apply H4; [|done].
  apply elem_of_range_values. eauto.
Qed.

(** ** Eviction *)

Definition evicted (cutoff : Time) (e : string * ConnectedAgent) : bool :=
  stale_since cutoff e.2.
Definition stale_of (e : string * ConnectedAgent) : StaleAgent :=
  mkStaleAgent e.1 (ca_Conn e.2) (ca_LastSeen e.2) (ca_ConnectedAt e.2).

Lemma remove_stale_fold cutoff l stale (m : Registry) :
  fold_left (fun '(stale, m) '(id, a) =>
      if stale_since cutoff a
      then (stale ++ [mkStaleAgent id (ca_Conn a) (ca_LastSeen a) (ca_ConnectedAt a)], delete id m)
      else (stale, m)) l (stale, m) =
  (stale ++ map stale_of (List.filter (evicted cutoff) l),
   fold_left (fun m k => delete k m) (List.filter (evicted cutoff) l).*1 m).
Proof.
  revert stale m. induction l as [|[id a] l IH]; intros stale m; simpl.
  { by rewrite app_nil_r. }
  change (evicted cutoff (id, a)) with (stale_since cutoff a).
  destruct (stale_since cutoff a); rewrite IH; [|done].
  simpl. by rewrite <-(assoc_L app).
Qed.

Lemma lookup_delete_all (ks : list string) (m : Registry) id a :
  fold_left (fun m k => delete k m) ks m !! id = Some a <-> m !! id = Some a /\ id ∉ ks.
Proof.
  revert m. induction ks as [|k ks IH]; intros m; simpl.
  { split; [|tauto]. intros ?. split; [done|apply not_elem_of_nil]. }
  rewrite IH, lookup_delete_Some, elem_of_cons. intuition.
Qed.

Lemma RemoveStale_stale r th now sa :
  sa ∈ (RemoveStale r th now).1 <->
  exists id a, r !! id = Some a /\ (ca_LastSeen a < now - th)%Z /\ sa = stale_of (id, a).
Proof.
  unfold RemoveStale. rewrite remove_stale_fold. simpl. rewrite list_elem_of_In, in_map_iff. split.
  - intros ([id a] & <- & [Hin Hs]%filter_In). exists id, a. split_and!; [| |done].
    + apply elem_of_map_range. by apply list_elem_of_In.
    + unfold evicted, stale_since, time_Before in Hs. simpl in Hs. lia.
  - intros (id & a & Hr & Hs & ->). exists (id, a). split; [done|]. apply filter_In. split.
    + apply list_elem_of_In. by apply elem_of_map_range.
    + unfold evicted, stale_since, time_Before. simpl. lia.
Qed.

Lemma RemoveStale_lookup r th now id a :
  (RemoveStale r th now).2 !! id = Some a <->
  r !! id = Some a /\ (now - th <= ca_LastSeen a)%Z.
Proof.
  unfold RemoveStale. rewrite remove_stale_fold. simpl.
  rewrite lookup_delete_all, list_elem_of_fmap. split; intros [Hr Hn]; (split; [done|]).
  - destruct (Z_lt_ge_dec (ca_LastSeen a) (now - th)) as [Hlt|]; [|lia]. destruct Hn.
    exists (id, a). split; [done|]. apply list_elem_of_In, filter_In. split.
    + apply list_elem_of_In. by apply elem_of_map_range.
    + unfold evicted, stale_since, time_Before. simpl. lia.
  - intros ([id' b] & -> & [Hin Hs]%list_elem_of_In%filter_In). simpl in *.
    apply list_elem_of_In, elem_of_map_range in Hin.
    unfold evicted, stale_since, time_Before in Hs. simpl in Hs. simplify_eq. lia.
Qed.

(** ** The invariant of an entry *)

(** What holds of an entry whatever happens: it is stored under its own identifier, its load
    is an integer, an agent with tasks is busy, an idle one has none, and no agent is
    draining. *)
Definition agent_typed (id : string) (a : ConnectedAgent) : Prop :=
  ac_AgentID (ca_Info a) = id /\ is_int (ca_ActiveTasks a) /\
  ((0 < ca_ActiveTasks a)%Z -> ca_Status a = AgentBusy) /\
  (ca_Status a = AgentIdle -> ca_ActiveTasks a = 0%Z) /\ ca_Status a <> AgentDraining.

(** What holds as long as no load overflows: the load is not negative, and the agent is busy
    exactly when it has tasks. *)
Definition load_ok (a : ConnectedAgent) : Prop :=
  (0 <= ca_ActiveTasks a)%Z /\ (ca_Status a = AgentBusy <-> (0 < ca_ActiveTasks a)%Z).

(** The load an agent reports is an [int]. *)
Definition op_typed (op : registry_op) : Prop :=
  match op with OpHeartbeat _ n _ => is_int n | _ => True end.

(** The operation does not count a task of an agent with the largest load. *)
Definition op_fits (r : Registry) (op : registry_op) : Prop :=
  match op with
  | OpIncrement id => forall a, r !! id = Some a -> ca_ActiveTasks a <> maxInt
  | _ => True
  end.

(** An operation changes one entry, or removes some. *)
Lemma apply_op_entries (Q : string -> ConnectedAgent -> Prop) r op :
  (forall info conn now, op = OpRegister info conn now -> Q (ac_AgentID info) (new_agent info conn now)) ->
  (forall id n now a, op = OpHeartbeat id n now -> r !! id = Some a -> Q id a ->
     Q id (if (0 <=? n)%Z then set_activity a n now (if (0 <? n)%Z then AgentBusy else AgentIdle)
           else set_activity a (ca_ActiveTasks a) now (ca_Status a))) ->
  (forall id a, op = OpIncrement id -> r !! id = Some a -> Q id a ->
     Q id (set_activity a (wrap64 (ca_ActiveTasks a + 1)) (ca_LastSeen a) AgentBusy)) ->
  (forall id a, op = OpDecrement id -> r !! id = Some a -> Q id a ->
     Q id (if (wrap64 (ca_ActiveTasks a - 1) <=? 0)%Z then set_activity a 0 (ca_LastSeen a) AgentIdle
           else set_activity a (wrap64 (ca_ActiveTasks a - 1)) (ca_LastSeen a) (ca_Status a))) ->
  map_Forall Q r -> map_Forall Q (apply_op r op).
Proof.
  intros Hnew Hbeat Hinc Hdec Hr. destruct op as [info conn now|id conn|id n now|id|id|th now]; simpl.
  - apply map_Forall_insert_2; [by apply Hnew|done].
  - unfold Deregister. destruct (r !! id) as [a|]; [|done]. case_bool_decide; [|done].
    by apply map_Forall_delete.
  - unfold UpdateHeartbeat. destruct (r !! id) as [a|] eqn:E; [|done].
    apply map_Forall_insert_2; [|done]. by apply Hbeat; [..|apply Hr].
  - unfold IncrementTasks. destruct (r !! id) as [a|] eqn:E; [|done].
    apply map_Forall_insert_2; [|done]. by apply Hinc; [..|apply Hr].
  - unfold DecrementTasks. destruct (r !! id) as [a|] eqn:E; [|done].
    apply map_Forall_insert_2; [|done]. by apply Hdec; [..|apply Hr].
  - intros id a [Ha _]%RemoveStale_lookup. by apply Hr.
Qed.

Lemma apply_op_typed r op :
  op_typed op -> map_Forall agent_typed r -> map_Forall agent_typed (apply_op r op).
Proof.
  intros Ht. apply apply_op_entries.
  - intros info conn now _. split_and!; [done|by compute|simpl; lia|done|done].
  - intros id n now a -> _ (Hid & Hn & Hb & Hi & Hd). simpl in Ht.
    destruct (Z.leb_spec 0 n); [|done]. destruct (Z.ltb_spec 0 n); split_and!; try done; simpl; intros; lia.
  - intros id a _ _ (Hid & _). split_and!; [done|apply wrap64_int|done..].
  - intros id a _ _ (Hid & Hn & Hb & Hi & Hd).
    destruct (Z.leb_spec (wrap64 (ca_ActiveTasks a - 1)) 0) as [|Hpos].
    + split_and!; [done|by compute|simpl; lia|done|done].
    + assert (ca_Status a = AgentBusy) as Hbusy.
      { destruct (ca_Status a) eqn:E; [|done|done]. rewrite (Hi eq_refl) in Hpos. by compute in Hpos. }
      split_and!; simpl; [done|apply wrap64_int|done|congruence|done].
Qed.

Lemma apply_op_load r op :
  op_typed op -> op_fits r op -> map_Forall agent_typed r ->
  map_Forall (fun _ => load_ok) r -> map_Forall (fun _ => load_ok) (apply_op r op).
Proof.
  intros Ht Hfit Hty. apply apply_op_entries.
  - intros info conn now _. by split; [|split; [|simpl; lia]].
  - intros id n now a -> _ Ha. destruct (Z.leb_spec 0 n); [|done].
    destruct (Z.ltb_spec 0 n); (split; [simpl; lia|]); simpl; split; (done || lia).
  - intros id a -> Hr [Hn _]. destruct (Hty _ _ Hr) as (_ & Hint & _). specialize (Hfit a Hr).
    unfold is_int, maxInt in *. unfold load_ok. simpl. rewrite wrap64_id by (unfold is_int; lia).
    split; [lia|]. split; [lia|done].
  - intros id a -> Hr [Hn Hb]. destruct (Hty _ _ Hr) as (_ & Hint & _). unfold is_int in Hint.
    rewrite wrap64_id by (unfold is_int; lia).
    destruct (Z.leb_spec (ca_ActiveTasks a - 1) 0); (split; [simpl; lia|]); simpl; split; try done; try lia.
    intros _. apply Hb. lia.
Qed.

(** The operations that come after [ops]. *)
Fixpoint ops_fit (r : Registry) (ops : list registry_op) : Prop :=
  match ops with [] => True | op :: ops => op_fits r op /\ ops_fit (apply_op r op) ops end.

Lemma ops_typed ops r :
  Forall op_typed ops -> map_Forall agent_typed r -> map_Forall agent_typed (fold_left apply_op ops r).
Proof. intros Hops. revert r. induction Hops; intros r Hr; simpl; [done|]. eauto using apply_op_typed. Qed.

Lemma ops_load ops r :
  Forall op_typed ops -> ops_fit r ops -> map_Forall agent_typed r ->
  map_Forall (fun _ => load_ok) r -> map_Forall (fun _ => load_ok) (fold_left apply_op ops r).
Proof.
  intros Hops. revert r. induction Hops as [|op ops Hop _ IH]; intros r Hfit Ht Hl; simpl; [done|].
  destruct Hfit as [Hfit Hrest]. by apply IH; [|apply apply_op_typed|apply apply_op_load].
Qed.

(** C28: Whatever sequence of operations is applied to an empty registry, with loads reported by
    agents that are any [int], every entry is under its own identifier, its load is an [int],
    an agent with a positive load is busy, an idle agent has the load zero, and no agent is
    draining.  The load is a machine integer: counting a task of an agent with the largest load
    makes it the smallest (the agent reports its load itself, [overflowed_load]).  As long as
    no operation does that, every load is at least zero and an agent is busy exactly when its
    load is positive; and an agent that [Route] just chose can always be counted. *)
Theorem registry_invariant ops :
  Forall op_typed ops ->
  let r := fold_left apply_op ops NewRegistry in
  map_Forall agent_typed r /\
  (ops_fit NewRegistry ops -> map_Forall (fun _ => load_ok) r) /\
  forall skills a, Route r skills = Ok a -> op_fits r (OpIncrement (ac_AgentID (ca_Info a))).
Proof.
  intros Hops r. assert (map_Forall agent_typed r) as Ht by (apply ops_typed; [done|apply map_Forall_empty]).
  split_and!; [done| |].
  - intros Hfit. by apply ops_load; [..|apply map_Forall_empty|apply map_Forall_empty].
  - intros skills a Ha b Hb. pose proof (Route_below r skills a Ha) as Hlt.
    pose proof (Route_Ok _ _ _ Ha) as [[id Hid] _]. destruct (Ht _ _ Hid) as [E _].
    rewrite E, Hid in Hb. injection Hb as <-. lia.
Qed.

(** Routing is exact.  An answer is a registered agent that is not draining, has
    capacity and all the skills, and no other such agent has a smaller load; the only
    error is that no agent is available, and then every such agent has the maximal
    load an integer can hold, which is to say there is none. *)
Theorem route_exact r skills :
  match Route r skills with
  | Ok a =>
      (exists id, r !! id = Some a) /\ eligible skills a /\
      forall id b, r !! id = Some b -> eligible skills b ->
        (ca_ActiveTasks a <= ca_ActiveTasks b)%Z
  | Err e =>
      e = Sentinel ErrNoAvailableAgent /\
      forall id b, r !! id = Some b -> eligible skills b -> (maxInt <= ca_ActiveTasks b)%Z
  end.
Proof.
  destruct (Route r skills) as [a|e] eqn:E; [|by apply Route_Err in E].
  destruct (Route_Ok _ _ _ E). split_and!; [done..|]. by eapply Route_min.
Qed.

(** ** Reconnections *)

(** The operations that may end the registration of [id] under [conn]: another
    registration, a deregistration with this very connection, and the eviction. *)
Definition keeps_conn (id : string) (conn : Conn) (op : registry_op) : Prop :=
  match op with
  | OpRegister info _ _ => ac_AgentID info <> id
  | OpDeregister id' conn' => id' <> id \/ conn' <> conn
  | OpRemoveStale _ _ => False
  | _ => True
  end.

Definition holds_conn (id : string) (info : AgentCapabilities) (conn : Conn) (r : Registry) : Prop :=
  exists a, r !! id = Some a /\ ca_Conn a = conn /\ ca_Info a = info.

Lemma holds_update id info conn r id' a' a'' :
  r !! id' = Some a' -> ca_Conn a'' = ca_Conn a' -> ca_Info a'' = ca_Info a' ->
  holds_conn id info conn r -> holds_conn id info conn (<[id' := a'']> r).
Proof.
  intros Hr Hc Hi (a & Ha & <- & <-). destruct (decide (id' = id)) as [->|Hne].
  - exists a''. rewrite lookup_insert_eq. simplify_eq. by rewrite Hc, Hi.
  - exists a. by rewrite lookup_insert_ne.
Qed.

Lemma keeps_conn_op id info conn r op :
  keeps_conn id conn op -> holds_conn id info conn r -> holds_conn id info conn (apply_op r op).
Proof.
  intros Hk Hr. destruct op as [info' conn' now|id' conn'|id' n now|id'|id'|th now]; simpl in *.
  - destruct Hr as (a & ? & ?). exists a. unfold Register. simpl. by rewrite lookup_insert_ne.
  - unfold Deregister. destruct (r !! id') as [a'|] eqn:E; [|done]. case_bool_decide; [|done].
    destruct Hr as (a & Ha & <- & <-). exists a. rewrite lookup_delete_ne; [done|].
    intros ->. simplify_eq. tauto.
  - unfold UpdateHeartbeat. destruct (r !! id') as [a'|] eqn:E; [|done].
    eapply holds_update; eauto; by destruct (0 <=? n)%Z.
  - unfold IncrementTasks. destruct (r !! id') as [a'|] eqn:E; [|done]. by eapply holds_update.
  - unfold DecrementTasks. destruct (r !! id') as [a'|] eqn:E; [|done].
    eapply holds_update; eauto; by destruct (_ <=? 0)%Z.
  - done.
Qed.

(** A registration survives the clean-up of the connection it replaced.  After an
    agent registers with a connection, no heartbeat, load update, registration of
    another agent or deregistration with any other connection, in any order, removes
    its entry or changes its connection. *)
Theorem registration_survives r info conn now ops :
  Forall (keeps_conn (ac_AgentID info) conn) ops ->
  exists a, fold_left apply_op ops (Register r info conn now) !! ac_AgentID info = Some a /\
    ca_Conn a = conn /\ ca_Info a = info.
Proof.
  intros Hops. change (holds_conn (ac_AgentID info) info conn
    (fold_left apply_op ops (Register r info conn now))).
  assert (holds_conn (ac_AgentID info) info conn (Register r info conn now)) as Hr.
  { exists (new_agent info conn now). unfold Register. simpl. by rewrite lookup_insert_eq. }
  revert Hr. generalize (Register r info conn now) as m.
  induction Hops as [|op ops Hop _ IH]; intros m Hm; simpl; [done|]. by apply IH, keeps_conn_op.
Qed.
End registry.

(** ** Runs *)

Definition caps1 := mkCapabilities "a1" ["git"; "k8s"] "m" 2 "1.0".
Definition caps2 := mkCapabilities "a2" ["git"] "m" 0 "1.0".

(** An agent that reports the largest load, and a task counted for it. *)
Definition reported : list registry_op :=
  [OpRegister caps1 7%N 10%Z; OpHeartbeat "a1" maxInt 20%Z; OpRegister caps2 8%N 30%Z; OpIncrement "a2"].

Lemma registry_invariant_witness :
  let r := fold_left apply_op reported NewRegistry in
  map_Forall agent_typed r /\ map_Forall (fun _ => load_ok) r /\
  ca_ActiveTasks <$> r !! "a1" = Some maxInt.
Proof.
  destruct (registry_invariant reported) as (Ht & Hl & _).
  { repeat constructor; by compute. }
  split; [exact Ht|]. split; [|vm_compute; reflexivity]. apply Hl.
  repeat (split; [try exact I|]); [|exact I]. intros a. vm_compute. intros [= <-]. discriminate.
Defined.

Example overflowed_load :
  let r := fold_left apply_op (reported ++ [OpIncrement "a1"]) NewRegistry in
  (fun a => (ca_ActiveTasks a, ca_Status a)) <$> r !! "a1" = Some ((- 2 ^ 63)%Z, AgentBusy) /\
  (match Route r [] with Ok a => ac_AgentID (ca_Info a) | Err _ => "" end) = "a1".
Proof. vm_compute. split; reflexivity. Qed.

Lemma registration_survives_witness :
  exists a, fold_left apply_op [OpDeregister "a1" 7%N; OpHeartbeat "a1" 1%Z 50%Z; OpIncrement "a1"]
    (Register (Register NewRegistry caps1 7%N 10%Z) caps1 8%N 20%Z) !! "a1" = Some a /\
    ca_Conn a = 8%N /\ ca_Info a = caps1.
Proof.
  apply (registration_survives (Register NewRegistry caps1 7%N 10%Z) caps1 8%N 20%Z).
  constructor; [by right|repeat constructor].
Defined.

Example route_least_loaded :
  let r := IncrementTasks (Register (Register NewRegistry caps1 7%N 0%Z) caps2 8%N 0%Z) "a1" in
  (match Route r ["git"] with Ok a => ac_AgentID (ca_Info a) | Err _ => "" end) = "a2" /\
  (match Route r ["k8s"] with Ok a => ac_AgentID (ca_Info a) | Err _ => "" end) = "a1" /\
  Route (IncrementTasks r "a1") ["k8s"] = Err (Sentinel ErrNoAvailableAgent).
Proof. vm_compute. done. Qed.
