(* ===== verification/TaskTracker.v ===== *)
(** * The tracker of dispatched tasks

    [src/internal/gateway/ws/tasktracker.go]: the life of a task sent to a remote
    agent.  The tasks handed out are pointers that the callers only read. *)

From S2P Require Import Prelude Protocol.

(** ** Data *)

Inductive TaskState :=
  | TaskDispatched | TaskAccepted | TaskRunning
  | TaskCompleted | TaskFailed | TaskTimedOut.

#[export] Instance TaskState_eq_dec : EqDecision TaskState.
Proof. solve_decision. Defined.

Definition active_state (s : TaskState) : bool :=
  bool_decide (s = TaskDispatched) || bool_decide (s = TaskAccepted) || bool_decide (s = TaskRunning).
Definition finished_state (s : TaskState) : bool :=
  bool_decide (s = TaskCompleted) || bool_decide (s = TaskFailed) || bool_decide (s = TaskTimedOut).

Section tracker.
Context {F : Type}.

Record TrackedTask := mkTracked {
  tk_TaskID : string;
  tk_AgentID : string;
  tk_Assignment : TaskAssignment F;
  tk_State : TaskState;
  tk_DispatchedAt : Time;
  tk_AcceptedAt : Time;
  tk_CompletedAt : Time;
  tk_LastProgress : Time;
  tk_Error : string;
}.

Record TaskTracker := mkTracker {
  tr_tasks : gmap string TrackedTask;
  tr_ackTimeout : Duration;
}.

Definition NewTaskTracker (ackTimeout : Duration) : TaskTracker :=
  mkTracker ∅ (if (ackTimeout =? 0)%Z then (30 * Second)%Z else ackTimeout).

Definition with_tasks (t : TaskTracker) (m : gmap string TrackedTask) : TaskTracker :=
  mkTracker m (tr_ackTimeout t).

Context `{!MapRange string TrackedTask}.

(** ** Operations *)

Definition Track (t : TaskTracker) (a : TaskAssignment F) (agentID : string) (now : Time)
    : TaskTracker :=
  with_tasks t (<[ta_TaskID a :=
    mkTracked (ta_TaskID a) agentID a TaskDispatched now time_zero time_zero time_zero ""]>
    (tr_tasks t)).

Definition MarkAccepted (t : TaskTracker) (taskID : string) (now : Time) : bool * TaskTracker :=
  match tr_tasks t !! taskID with
  | None => (false, t)
  | Some k =>
      if negb (bool_decide (tk_State k = TaskDispatched)) then (false, t)
      else (true, with_tasks t (<[taskID :=
        mkTracked (tk_TaskID k) (tk_AgentID k) (tk_Assignment k) TaskAccepted
          (tk_DispatchedAt k) now (tk_CompletedAt k) (tk_LastProgress k) (tk_Error k)]> (tr_tasks t)))
  end.

Definition MarkProgress (t : TaskTracker) (taskID : string) (now : Time) : TaskTracker :=
  match tr_tasks t !! taskID with
  | None => t
  | Some k =>
      let state := if bool_decide (tk_State k = TaskAccepted) then TaskRunning else tk_State k in
      with_tasks t (<[taskID :=
        mkTracked (tk_TaskID k) (tk_AgentID k) (tk_Assignment k) state (tk_DispatchedAt k)
          (tk_AcceptedAt k) (tk_CompletedAt k) now (tk_Error k)]> (tr_tasks t))
  end.

(** The three ways a task ends write the state, the time and for a failure the text. *)
Definition finish (k : TrackedTask) (s : TaskState) (now : Time) (errMsg : string) : TrackedTask :=
  mkTracked (tk_TaskID k) (tk_AgentID k) (tk_Assignment k) s (tk_DispatchedAt k)
    (tk_AcceptedAt k) now (tk_LastProgress k) errMsg.

Definition MarkCompleted (t : TaskTracker) (taskID : string) (now : Time) : TaskTracker :=
  match tr_tasks t !! taskID with
  | None => t
  | Some k => with_tasks t (<[taskID := finish k TaskCompleted now (tk_Error k)]> (tr_tasks t))
  end.

Definition MarkFailed (t : TaskTracker) (taskID errMsg : string) (now : Time) : TaskTracker :=
  match tr_tasks t !! taskID with
  | None => t
  | Some k => with_tasks t (<[taskID := finish k TaskFailed now errMsg]> (tr_tasks t))
  end.

Definition MarkTimedOut (t : TaskTracker) (taskID : string) (now : Time)
    : option TrackedTask * TaskTracker :=
  match tr_tasks t !! taskID with
  | None => (None, t)
  | Some k =>
      let k := finish k TaskTimedOut now (tk_Error k) in
      (Some k, with_tasks t (<[taskID := k]> (tr_tasks t)))
  end.

Definition unacknowledged (deadline : Time) (k : TrackedTask) : bool :=
  bool_decide (tk_State k = TaskDispatched) && time_Before (tk_DispatchedAt k) deadline.

Definition UnacknowledgedTasks (t : TaskTracker) (now : Time) : list TrackedTask :=
  List.filter (unacknowledged (now - tr_ackTimeout t)%Z) (map_range (tr_tasks t)).*2.

Definition of_agent (agentID : string) (k : TrackedTask) : bool :=
  String.eqb (tk_AgentID k) agentID && negb (bool_decide (tk_State k = TaskCompleted)) &&
  negb (bool_decide (tk_State k = TaskFailed)) && negb (bool_decide (tk_State k = TaskTimedOut)).

Definition TasksForAgent (t : TaskTracker) (agentID : string) : list TrackedTask :=
  List.filter (of_agent agentID) (map_range (tr_tasks t)).*2.

Definition Remove (t : TaskTracker) (taskID : string) : TaskTracker :=
  with_tasks t (delete taskID (tr_tasks t)).

Definition cleanable (deadline : Time) (k : TrackedTask) : bool :=
  finished_state (tk_State k) && time_Before (tk_CompletedAt k) deadline.

Definition CleanCompleted (t : TaskTracker) (maxAge : Duration) (now : Time) : nat * TaskTracker :=
  let '(cleaned, m) :=
    fold_left (fun '(n, m) '(id, k) =>
        if cleanable (now - maxAge)%Z k then (Datatypes.S n, delete id m) else (n, m))
      (map_range (tr_tasks t)) (0, tr_tasks t) in
  (cleaned, with_tasks t m).

Definition ActiveCount (t : TaskTracker) : nat :=
  countb (fun k => active_state (tk_State k)) (map_range (tr_tasks t)).*2.

(** ** The operations as steps *)

Inductive tracker_op :=
  | OpTrack (a : TaskAssignment F) (agentID : string) (now : Time)
  | OpAccepted (taskID : string) (now : Time)
  | OpProgress (taskID : string) (now : Time)
  | OpCompleted (taskID : string) (now : Time)
  | OpFailed (taskID errMsg : string) (now : Time)
  | OpTimedOut (taskID : string) (now : Time)
  | OpRemove (taskID : string)
  | OpClean (maxAge : Duration) (now : Time).

Definition apply_op (t : TaskTracker) (op : tracker_op) : TaskTracker :=
  match op with
  | OpTrack a ag now => Track t a ag now
  | OpAccepted id now => (MarkAccepted t id now).2
  | OpProgress id now => MarkProgress t id now
  | OpCompleted id now => MarkCompleted t id now
  | OpFailed id e now => MarkFailed t id e now
  | OpTimedOut id now => (MarkTimedOut t id now).2
  | OpRemove id => Remove t id
  | OpClean a now => (CleanCompleted t a now).2
  end.

(** ** The life cycle *)

(** How far a state is along the life of a task. *)
Definition rank (s : TaskState) : nat :=
  match s with
  | TaskDispatched => 0 | TaskAccepted => 1 | TaskRunning => 2
  | TaskCompleted | TaskFailed | TaskTimedOut => 3
  end.

Definition state_of (t : TaskTracker) (id : string) : option TaskState :=
  tk_State <$> tr_tasks t !! id.

(** The operations on [id] that start its life again or end its tracking. *)
Definition resets (id : string) (op : tracker_op) : Prop :=
  match op with
  | OpTrack a _ _ => ta_TaskID a = id
  | OpRemove id' => id' = id
  | _ => False
  end.

(** The steps a task's state may take, absent included; [reset] when the operation is
    a dispatch or a removal of this task. *)
Inductive transition (reset : Prop) : option TaskState -> option TaskState -> Prop :=
  | tr_stay o : transition reset o o
  | tr_dispatch o : reset -> transition reset o (Some TaskDispatched)
  | tr_remove o : reset -> transition reset o None
  | tr_accept : transition reset (Some TaskDispatched) (Some TaskAccepted)
  | tr_run : transition reset (Some TaskAccepted) (Some TaskRunning)
  | tr_end s s' : finished_state s' = true -> transition reset (Some s) (Some s')
  | tr_clean s : finished_state s = true -> transition reset (Some s) None.

Lemma finished_active s : finished_state s = negb (active_state s).
Proof. by destruct s. Qed.

Lemma active_state_spec s :
  active_state s = true <-> s <> TaskCompleted /\ s <> TaskFailed /\ s <> TaskTimedOut.
Proof. destruct s; vm_compute; intuition congruence. Qed.

Lemma state_of_insert t id id' k :
  state_of (with_tasks t (<[id := k]> (tr_tasks t))) id' =
  if decide (id = id') then Some (tk_State k) else state_of t id'.
Proof.
  unfold state_of, with_tasks. simpl. destruct (decide (id = id')) as [->|Hne].
  - by rewrite lookup_insert_eq.
  - by rewrite lookup_insert_ne.
Qed.

Lemma clean_fold deadline l n (m : gmap string TrackedTask) :
  fold_left (fun '(n, m) '(id, k) =>
      if cleanable deadline k then (Datatypes.S n, delete id m) else (n, m)) l (n, m) =
  (countb (cleanable deadline) l.*2 + n,
   fold_left (fun m id => delete id m) (List.filter (fun e => cleanable deadline e.2) l).*1 m).
Proof.
  revert n m. induction l as [|[id k] l IH]; intros n m; simpl; [done|].
  unfold countb in *. simpl. destruct (cleanable deadline k); rewrite IH; [|done].
  rewrite <-Nat.add_succ_comm. done.
Qed.

Lemma lookup_forget (ids : list string) (m : gmap string TrackedTask) id k :
  fold_left (fun m id => delete id m) ids m !! id = Some k <-> m !! id = Some k /\ id ∉ ids.
Proof.
  revert m. induction ids as [|i ids IH]; intros m; simpl.
  { split; [|tauto]. intros ?. split; [done|apply not_elem_of_nil]. }
  rewrite IH, lookup_delete_Some, elem_of_cons. intuition.
Qed.

Lemma CleanCompleted_lookup t maxAge now id k :
  tr_tasks (CleanCompleted t maxAge now).2 !! id = Some k <->
  tr_tasks t !! id = Some k /\ cleanable (now - maxAge)%Z k = false.
Proof.
  unfold CleanCompleted. rewrite clean_fold. simpl. rewrite lookup_forget.
  split; intros [Hk Hn]; (split; [done|]).
  - destruct (cleanable _ k) eqn:E; [|done]. destruct Hn. apply list_elem_of_fmap.
    exists (id, k). split; [done|]. apply list_elem_of_In, filter_In. split; [|done].
    apply list_elem_of_In. by apply elem_of_map_range.
  - intros ([id' k'] & -> & [Hin Hc]%list_elem_of_In%filter_In)%list_elem_of_fmap. simpl in *.
    apply list_elem_of_In, elem_of_map_range in Hin. congruence.
Qed.

Lemma state_of_clean t maxAge now id :
  state_of (CleanCompleted t maxAge now).2 id = state_of t id \/
  state_of (CleanCompleted t maxAge now).2 id = None /\
  exists s, state_of t id = Some s /\ finished_state s = true.
Proof.
  unfold state_of. destruct (tr_tasks (CleanCompleted t maxAge now).2 !! id) as [k|] eqn:E.
  { apply CleanCompleted_lookup in E as [-> _]. by left. }
  destruct (tr_tasks t !! id) as [k|] eqn:Et; [|by left]. right. split; [done|].
  exists (tk_State k). split; [done|]. destruct (cleanable (now - maxAge)%Z k) eqn:Ec.
  - by apply andb_true_iff in Ec as [? _].
  - assert (tr_tasks (CleanCompleted t maxAge now).2 !! id = Some k) by
      (by apply CleanCompleted_lookup). congruence.
Qed.

Ltac tracker_case :=
  match goal with
  | |- context [tr_tasks ?t !! ?id] =>
      let k := fresh "k" in let E := fresh "E" in
      destruct (tr_tasks t !! id) as [k|] eqn:E; [|by constructor];
      assert (state_of t id = Some (tk_State k)) as HS by (by unfold state_of; rewrite E)
  end.

Ltac finish_case :=
  rewrite state_of_insert; destruct (decide _) as [->|]; [|by constructor];
  match goal with HS : state_of _ _ = _ |- _ => rewrite HS end; by constructor.

Lemma apply_op_transition t op id :
  transition (resets id op) (state_of t id) (state_of (apply_op t op) id).
Proof.
  destruct op as [a ag now|i now|i now|i now|i e now|i now|i|age now]; simpl;
    unfold Track, MarkAccepted, MarkProgress, MarkCompleted, MarkFailed, MarkTimedOut, Remove.
  - rewrite state_of_insert. destruct (decide _); by constructor.
  - tracker_case. case_bool_decide as Hs; simpl; [|constructor].
    rewrite state_of_insert. destruct (decide _) as [->|]; [|constructor].
    rewrite HS, Hs. constructor.
  - tracker_case. rewrite state_of_insert. destruct (decide _) as [->|]; [|constructor].
    rewrite HS. simpl. case_bool_decide as Hs; [rewrite Hs|]; constructor.
  - tracker_case. finish_case.
  - tracker_case. finish_case.
  - tracker_case. simpl. finish_case.
  - unfold state_of. simpl. destruct (decide (i = id)) as [->|].
    + rewrite lookup_delete_eq. by constructor.
    + rewrite lookup_delete_ne by done. constructor.
  - destruct (state_of_clean t age now id) as [-> |[-> (s & -> & ?)]]; by constructor.
Qed.

(** The life cycle of a task.  Every operation moves the state of every task along
    the transition relation: from dispatched to accepted, from accepted to running, to
    one of the three final states, out of the tracker once it is final; only a new
    dispatch or a removal of this very task starts over. *)
Theorem tracker_transitions t op id :
  transition (resets id op) (state_of t id) (state_of (apply_op t op) id).
Proof. apply apply_op_transition. Qed.

(** ** Cleaning *)

Lemma count_delete (p : TrackedTask -> bool) (m : gmap string TrackedTask) id :
  (forall k, m !! id = Some k -> p k = false) ->
  countb p (map_range (delete id m)).*2 = countb p (map_range m).*2.
Proof.
  intros Hp. destruct (m !! id) as [k|] eqn:E; [|by rewrite delete_id].
  rewrite !(countb_perm p _ _ (fmap_Permutation snd _ _ (map_range_perm _))).
  rewrite <-(countb_perm p _ _ (fmap_Permutation snd _ _ (map_to_list_delete m id k E))).
  unfold countb. simpl. by rewrite (Hp k).
Qed.

Lemma count_forget (p : TrackedTask -> bool) ids (m : gmap string TrackedTask) :
  Forall (fun id => forall k, m !! id = Some k -> p k = false) ids ->
  countb p (map_range (fold_left (fun m id => delete id m) ids m)).*2 =
  countb p (map_range m).*2.
Proof.
  revert m. induction ids as [|id ids IH]; intros m Hids; simpl; [done|].
  apply Forall_cons in Hids as [Hid Hids]. rewrite IH; [by apply count_delete|].
  eapply Forall_impl; [exact Hids|]. intros i Hi k Hk. apply Hi.
  by apply lookup_delete_Some in Hk as [_ ?].
Qed.

(** Cleaning up never loses a live task: the number of active tasks is unchanged,
    every task that is not final is still there, and what is removed is final and older
    than the limit. *)
Theorem clean_keeps_active t maxAge now :
  ActiveCount (CleanCompleted t maxAge now).2 = ActiveCount t /\
  forall id k, tr_tasks t !! id = Some k ->
    tr_tasks (CleanCompleted t maxAge now).2 !! id =
    (if finished_state (tk_State k) && (tk_CompletedAt k <? now - maxAge)%Z then None else Some k).
Proof.
  split.
  - unfold ActiveCount, CleanCompleted. rewrite clean_fold. simpl. apply count_forget.
    apply Forall_forall. intros id ([id' k'] & -> & Hin)%list_elem_of_fmap k Hk. simpl in *.
    apply list_elem_of_In, filter_In in Hin as [Hin Hc].
    apply list_elem_of_In, elem_of_map_range in Hin. simplify_eq. simpl in Hc.
    apply andb_true_iff in Hc as [Hf _]. rewrite finished_active in Hf.
    by apply negb_true_iff in Hf.
  - intros id k Hk. apply option_eq. intros k'. rewrite CleanCompleted_lookup, Hk.
    unfold cleanable, time_Before. split.
    + intros [[= ->] ->]. done.
    + destruct (finished_state (tk_State k) && _) eqn:E; [done|]. by intros [= <-].
Qed.

(** ** What the checkers see *)

Lemma elem_of_values (m : gmap string TrackedTask) k :
  k ∈ (map_range m).*2 <-> exists id, m !! id = Some k.
Proof.
  rewrite list_elem_of_fmap. split.
  - intros ([id b] & -> & Hin). exists id. by apply elem_of_map_range.
  - intros (id & Hid). exists (id, k). by rewrite elem_of_map_range.
Qed.

Lemma of_agent_spec agentID k :
  of_agent agentID k = true <-> tk_AgentID k = agentID /\ active_state (tk_State k) = true.
Proof.
  unfold of_agent. rewrite !andb_true_iff, String.eqb_eq, !negb_true_iff, !bool_decide_eq_false.
  rewrite active_state_spec. tauto.
Qed.

Lemma elem_of_TasksForAgent t agentID k :
  k ∈ TasksForAgent t agentID <->
  (exists id, tr_tasks t !! id = Some k) /\ tk_AgentID k = agentID /\
  active_state (tk_State k) = true.
Proof.
  unfold TasksForAgent. rewrite list_elem_of_In, filter_In, <-list_elem_of_In, elem_of_values.
  by rewrite of_agent_spec.
Qed.

Lemma elem_of_Unacknowledged t now k :
  k ∈ UnacknowledgedTasks t now <->
  (exists id, tr_tasks t !! id = Some k) /\ tk_State k = TaskDispatched /\
  (tk_DispatchedAt k < now - tr_ackTimeout t)%Z.
Proof.
  unfold UnacknowledgedTasks. rewrite list_elem_of_In, filter_In, <-list_elem_of_In, elem_of_values.
  unfold unacknowledged, time_Before. rewrite andb_true_iff, bool_decide_eq_true, Z.ltb_lt. done.
Qed.
End tracker.

Arguments TrackedTask F : clear implicits.
Arguments TaskTracker F : clear implicits.
Arguments tracker_op F : clear implicits.
