(* ===== verification/WsServer.v ===== *)
(** * The websocket server of the gateway

    [src/internal/gateway/ws/server.go], [sync.go] and [adapter.go]: remote agents
    connect, register and are sent tasks; a request waits for the answer of its task
    ([ExecuteSync]) or is queued until an agent is free ([AssignTask]).

    One handler is one computation on the server's state.  The goroutines of the
    server, one per connection, the two periodic checkers and one per waiting request,
    are the events of [ws_event] in any order; [ExecuteSync] and [AssignTask] are cut
    where they give up control, so requests overlap.  A channel is a number, and what
    is sent on it is appended to a log: a channel has room for one value, so a second
    entry for it would be a goroutine that never gets past its send. *)

From S2P Require Import Prelude Protocol Config AgentRegistry TaskTracker.

Definition Chan : Type := N.

(** The clock, fresh identifiers and [github.com/coder/websocket]: a connection is
    written and closed; [conn_Write] answers the error of the write. *)
Class WebSocket (N : Type) := {
  ws_now : N -> Time * N;
  ws_uuid : N -> string * N;
  conn_Write : N -> Conn -> string -> option error * N;
  conn_Close : N -> Conn -> N;
}.

Record SyncTaskResult := mkSyncResult {
  sr_Success : bool;
  sr_Output : string;
  sr_TokensUsed : Z;
  sr_Error : string;
}.

(** How a wait ends: with a value of the channel, the timer, or the context. *)
Inductive select_outcome := SelResult | SelTimer | SelDone (err : error).

Section server.
Context {F N : Type}.
Context `{!WebSocket N} `{!ProtocolJson F}.
Context `{!MapRange string ConnectedAgent} `{!MapRange string (TrackedTask F)}.

Record pendingTask := mkPendingTask { pt_assignment : TaskAssignment F; pt_result : Chan }.

Record Server := mkServer {
  sv_registry : Registry;
  sv_tracker : TaskTracker F;
  sv_pending : list pendingTask;
  sv_waiters : gmap string Chan;
  sv_approvals : gmap string string;
  sv_sent : list (Chan * SyncTaskResult);
  sv_sentErr : list (Chan * option error);
  sv_nextChan : Chan;
  sv_net : N;
}.

(** [NewServer]. *)
Definition NewServer (registry : Registry) (cfg : option WebSocketGatewayConfig) (net : N) : Server :=
  mkServer registry (NewTaskTracker (WSAckTimeout cfg)) [] ∅ ∅ [] [] 0%N net.

Definition set_registry (x : Registry) (s : Server) : Server :=
  mkServer x (sv_tracker s) (sv_pending s) (sv_waiters s) (sv_approvals s) (sv_sent s)
    (sv_sentErr s) (sv_nextChan s) (sv_net s).
Definition set_tracker (x : TaskTracker F) (s : Server) : Server :=
  mkServer (sv_registry s) x (sv_pending s) (sv_waiters s) (sv_approvals s) (sv_sent s)
    (sv_sentErr s) (sv_nextChan s) (sv_net s).
Definition set_pending (x : list pendingTask) (s : Server) : Server :=
  mkServer (sv_registry s) (sv_tracker s) x (sv_waiters s) (sv_approvals s) (sv_sent s)
    (sv_sentErr s) (sv_nextChan s) (sv_net s).
Definition set_waiters (x : gmap string Chan) (s : Server) : Server :=
  mkServer (sv_registry s) (sv_tracker s) (sv_pending s) x (sv_approvals s) (sv_sent s)
    (sv_sentErr s) (sv_nextChan s) (sv_net s).
Definition set_approvals (x : gmap string string) (s : Server) : Server :=
  mkServer (sv_registry s) (sv_tracker s) (sv_pending s) (sv_waiters s) x (sv_sent s)
    (sv_sentErr s) (sv_nextChan s) (sv_net s).
Definition set_net (x : N) (s : Server) : Server :=
  mkServer (sv_registry s) (sv_tracker s) (sv_pending s) (sv_waiters s) (sv_approvals s)
    (sv_sent s) (sv_sentErr s) (sv_nextChan s) x.

(** [ch <- v] on a buffered channel. *)
Definition send_result (ch : Chan) (r : SyncTaskResult) (s : Server) : Server :=
  mkServer (sv_registry s) (sv_tracker s) (sv_pending s) (sv_waiters s) (sv_approvals s)
    (sv_sent s ++ [(ch, r)]) (sv_sentErr s) (sv_nextChan s) (sv_net s).
Definition send_err (ch : Chan) (e : option error) (s : Server) : Server :=
  mkServer (sv_registry s) (sv_tracker s) (sv_pending s) (sv_waiters s) (sv_approvals s)
    (sv_sent s) (sv_sentErr s ++ [(ch, e)]) (sv_nextChan s) (sv_net s).
Definition next_chan (s : Server) : Server :=
  mkServer (sv_registry s) (sv_tracker s) (sv_pending s) (sv_waiters s) (sv_approvals s)
    (sv_sent s) (sv_sentErr s) (sv_nextChan s + 1)%N (sv_net s).

Abbreviation M := (st Server).

Definition on_registry (f : Registry -> Registry) : M unit :=
  st_modify (fun s => set_registry (f (sv_registry s)) s).
Definition on_tracker (f : TaskTracker F -> TaskTracker F) : M unit :=
  st_modify (fun s => set_tracker (f (sv_tracker s)) s).

(** [make(chan T, 1)]. *)
Definition make_chan : M Chan := fun s => (sv_nextChan s, next_chan s).

Definition time_Now : M Time := fun s => let '(t, n) := ws_now (sv_net s) in (t, set_net n s).
Definition uuid_NewString : M string := fun s =>
  let '(u, n) := ws_uuid (sv_net s) in (u, set_net n s).

(** ** Messages *)

Definition newEnvelope (msgType : MessageType) (payload : option string) : M Envelope :=
  id ← uuid_NewString;
  now ← time_Now;
  mret (NewEnvelope msgType payload id now).

Definition writeEnvelope (conn : Conn) (env : Envelope) : M (option error) := fun s =>
  let '(e, n) := conn_Write (sv_net s) conn (marshal env) in (e, set_net n s).

Definition close_conn (conn : Conn) : M unit :=
  st_modify (fun s => set_net (conn_Close (sv_net s) conn) s).

(** ** The waiters of [sync.go] *)

(** [syncWaiter.register]. *)
Definition sync_register (taskID : string) : M Chan :=
  ch ← make_chan;
  _ ← st_modify (fun s => set_waiters (<[taskID := ch]> (sv_waiters s)) s);
  mret ch.

(** [syncWaiter.resolve]. *)
Definition sync_resolve (taskID : string) (r : SyncTaskResult) : M bool := fun s =>
  match sv_waiters s !! taskID with
  | Some ch => (true, send_result ch r (set_waiters (delete taskID (sv_waiters s)) s))
  | None => (false, s)
  end.

(** [syncWaiter.remove]. *)
Definition sync_remove (taskID : string) : M unit :=
  st_modify (fun s => set_waiters (delete taskID (sv_waiters s)) s).

(** ** Dispatching *)

Definition sendTaskToAgent (a : ConnectedAgent) (assignment : TaskAssignment F)
    : M (option error) :=
  env ← newEnvelope MsgTaskAssign (Some (marshal assignment));
  let env := with_task (with_agent env (ac_AgentID (ca_Info a))) (ta_TaskID assignment) in
  err ← writeEnvelope (ca_Conn a) env;
  match err with
  | Some e => mret (Some (Wrap "sending task to agent" e))
  | None =>
      _ ← on_registry (fun r => IncrementTasks r (ac_AgentID (ca_Info a)));
      now ← time_Now;
      _ ← on_tracker (fun t => Track t assignment (ac_AgentID (ca_Info a)) now);
      mret None
  end.

(** The loop of [drainPendingTasks]: the tasks that remain. *)
Fixpoint drain (pts : list pendingTask) : M (list pendingTask) :=
  match pts with
  | [] => mret []
  | pt :: pts =>
      r ← st_get (fun s => Route (sv_registry s) []);
      match r with
      | Err _ => remaining ← drain pts; mret (pt :: remaining)
      | Ok a =>
          sendErr ← sendTaskToAgent a (pt_assignment pt);
          _ ← st_modify (send_err (pt_result pt) sendErr);
          drain pts
      end
  end.

Definition drainPendingTasks : M unit :=
  pts ← st_get sv_pending;
  remaining ← drain pts;
  st_modify (set_pending remaining).

(** Append to the queue under a fresh channel. *)
Definition enqueue (assignment : TaskAssignment F) : M Chan :=
  result ← make_chan;
  _ ← st_modify (fun s => set_pending (sv_pending s ++ [mkPendingTask assignment result]) s);
  mret result.

Definition requeueTask (assignment : TaskAssignment F) : M unit :=
  _ ← enqueue assignment;
  drainPendingTasks.

(** [AssignTask] up to its wait: an answer at once, or the channel it waits on. *)
Definition AssignTask (assignment : TaskAssignment F) : M (option error + Chan) :=
  r ← st_get (fun s => Route (sv_registry s) []);
  match r with
  | Ok a => err ← sendTaskToAgent a assignment; mret (inl err)
  | Err _ => result ← enqueue assignment; mret (inr result)
  end.

(** ** Synchronous requests *)

(** [int(timeout.Seconds())]. *)
Definition timeout_secs (timeout : Duration) : Z := Z.quot timeout Second.

Definition sync_assignment (taskID userID message : string) (budgetUSD : F) (timeout : Duration)
    : TaskAssignment F :=
  mkAssignment taskID "" userID message "" ∅ budgetUSD (timeout_secs timeout).

(** The first part of [ExecuteSync]: it finds an agent. *)
Definition ExecuteSync_route : M (result error ConnectedAgent) :=
  st_get (fun s => Route (sv_registry s) []).

(** The second part: register the waiter, then send the task. *)
Definition ExecuteSync_send (a : ConnectedAgent) (userID message : string) (budgetUSD : F)
    (timeout : Duration) : M (result error (string * Chan)) :=
  taskID ← uuid_NewString;
  ch ← sync_register taskID;
  err ← sendTaskToAgent a (sync_assignment taskID userID message budgetUSD timeout);
  match err with
  | Some e => _ ← sync_remove taskID; mret (Err (Wrap "dispatching task to agent" e))
  | None => mret (Ok (taskID, ch))
  end.

(** The value in a channel's buffer. *)
Definition received (ch : Chan) (s : Server) : option SyncTaskResult :=
  snd <$> List.find (fun e => N.eqb e.1 ch) (sv_sent s).

(** The third part: what the [select] does for each of its cases; a case that is not
    ready cannot be taken. *)
Definition ExecuteSync_wait (taskID : string) (ch : Chan) (outcome : select_outcome)
    : M (option (result error SyncTaskResult)) :=
  match outcome with
  | SelResult => r ← st_get (received ch); mret (Ok <$> r)
  | SelTimer => _ ← sync_remove taskID; mret (Some (Err (Errorf "task timed out")))
  | SelDone e => _ ← sync_remove taskID; mret (Some (Err e))
  end.

(** ** Connections *)

(** The token of an upgrade request against the configured one: the query parameter,
    or the header without its prefix. *)
Definition bearer (header : string) : string :=
  if (7 <? String.length header) && String.eqb (str_take 7 header) "Bearer "
  then String.substring 7 (String.length header - 7) header else header.

Definition authorized (cfg : option WebSocketGatewayConfig) (query header : string) : bool :=
  match cfg with
  | Some c =>
      if String.eqb (wsc_AgentToken c) "" then true
      else String.eqb (if String.eqb query "" then bearer header else query) (wsc_AgentToken c)
  | None => true
  end.

(** [waitForRegistration]; [data] is what the first read gave. *)
Definition waitForRegistration (conn : Conn) (data : result error string)
    : M (result error string) :=
  match data with
  | Err e => mret (Err (Wrap "reading registration" e))
  | Ok data =>
      match (unmarshal data : result error Envelope) with
      | Err e => mret (Err (Wrap "parsing registration" e))
      | Ok env =>
          if negb (String.eqb (env_Type env) MsgAgentRegister)
          then mret (Err (Errorf "expected agent.register"))
          else
            match (Decode env : result error AgentCapabilities) with
            | Err e => mret (Err (Wrap "parsing capabilities" e))
            | Ok caps =>
                if String.eqb (ac_AgentID caps) ""
                then mret (Err (Errorf "agent_id is required"))
                else
                  now ← time_Now;
                  replaced ← st_get (fun s => RegisterOrReplace (sv_registry s) caps conn now);
                  _ ← st_modify (set_registry replaced.2);
                  _ ← (match replaced.1 with Some old => close_conn old | None => mret tt end);
                  resp ← newEnvelope MsgRegistered
                    (Some (marshal (mkRegistered ("registered as " +:+ ac_AgentID caps))));
                  _ ← writeEnvelope conn (with_agent resp (ac_AgentID caps));
                  mret (Ok (ac_AgentID caps))
            end
      end
  end.

(** The deferred function of [handleConnection] for one task of the agent. *)
Definition failOrphan (task : TrackedTask F) : M unit :=
  now ← time_Now;
  _ ← on_tracker (fun t => MarkFailed t (tk_TaskID task) "agent disconnected" now);
  _ ← sync_resolve (tk_TaskID task) (mkSyncResult false "" 0 "agent disconnected");
  requeueTask (tk_Assignment task).

Definition handleDisconnect (agentID : string) (conn : Conn) : M unit :=
  if String.eqb agentID "" then close_conn conn
  else
    orphaned ← st_get (fun s => TasksForAgent (sv_tracker s) agentID);
    _ ← st_each failOrphan orphaned;
    _ ← on_registry (fun r => Deregister r agentID conn);
    close_conn conn.

(** [handleConnection] up to its message loop: the agent's identifier if the
    connection goes on. *)
Definition handleConnect (conn : Conn) (data : result error string) : M (option string) :=
  r ← waitForRegistration conn data;
  match r with
  | Err _ => _ ← handleDisconnect "" conn; mret None
  | Ok agentID => _ ← drainPendingTasks; mret (Some agentID)
  end.

Definition handleMessage (agentID : string) (env : Envelope) : M unit :=
  if String.eqb (env_Type env) MsgAgentHeartbeat then
    match (Decode env : result error HeartbeatPayload) with
    | Ok hb => now ← time_Now; on_registry (fun r => UpdateHeartbeat r agentID (hb_ActiveTasks hb) now)
    | Err _ => mret tt
    end
  else if String.eqb (env_Type env) MsgTaskAccepted then
    now ← time_Now;
    on_tracker (fun t => (MarkAccepted t (env_TaskID env) now).2)
  else if String.eqb (env_Type env) MsgTaskProgress then
    match (Decode env : result error (TaskProgress F)) with
    | Ok _ => now ← time_Now; on_tracker (fun t => MarkProgress t (env_TaskID env) now)
    | Err _ => mret tt
    end
  else if String.eqb (env_Type env) MsgTaskResult then
    _ ← on_registry (fun r => DecrementTasks r agentID);
    now ← time_Now;
    _ ← on_tracker (fun t => MarkCompleted t (env_TaskID env) now);
    _ ← (match (Decode env : result error (TaskResultPayload F)) with
         | Ok res =>
             _ ← sync_resolve (env_TaskID env)
                   (mkSyncResult true (tr_Output res) (tr_TokensUsed res) "");
             mret tt
         | Err _ => mret tt
         end);
    drainPendingTasks
  else if String.eqb (env_Type env) MsgTaskFailed then
    _ ← on_registry (fun r => DecrementTasks r agentID);
    _ ← (match (Decode env : result error (TaskFailedPayload F)) with
         | Ok fail =>
             now ← time_Now;
             _ ← on_tracker (fun t => MarkFailed t (env_TaskID env) (tf_Error fail) now);
             _ ← sync_resolve (env_TaskID env)
                   (mkSyncResult false "" (tf_TokensUsed fail) (tf_Error fail));
             mret tt
         | Err _ => mret tt
         end);
    drainPendingTasks
  else if String.eqb (env_Type env) MsgApprovalRequest then
    match (Decode env : result error ApprovalRequestPayload) with
    | Ok req =>
        st_modify (fun s => set_approvals (<[ap_ApprovalID req := agentID]> (sv_approvals s)) s)
    | Err _ => mret tt
    end
  else if String.eqb (env_Type env) MsgPong then
    now ← time_Now; on_registry (fun r => UpdateHeartbeat r agentID (-1)%Z now)
  else mret tt.

(** One round of the message loop: [env.AgentID] is overwritten with the identifier
    the connection registered under. *)
Definition handleData (agentID : string) (data : string) : M unit :=
  match (unmarshal data : result error Envelope) with
  | Err _ => mret tt
  | Ok env => handleMessage agentID (with_agent env agentID)
  end.

Definition RouteApprovalResult (approvalID decision approverID : string) : M (option error) :=
  agent ← st_get (fun s => sv_approvals s !! approvalID);
  match agent with
  | None => mret (Some (Errorf "no agent found for approval"))
  | Some agentID =>
      a ← st_get (fun s => Get (sv_registry s) agentID);
      match a with
      | None => mret (Some (Errorf "agent not connected"))
      | Some a =>
          env ← newEnvelope MsgApprovalResult
                  (Some (marshal (mkApprovalResult approvalID decision approverID)));
          writeEnvelope (ca_Conn a) (with_agent env agentID)
      end
  end.

(** ** The periodic goroutines *)

(** One tick of [heartbeatLoop]: whether it goes on. *)
Definition heartbeatTick (conn : Conn) : M bool :=
  env ← newEnvelope MsgPing None;
  err ← writeEnvelope conn env;
  mret (match err with None => true | Some _ => false end).

(** One tick of [RunStaleChecker]. *)
Definition staleTick (cfg : option WebSocketGatewayConfig) : M unit :=
  now ← time_Now;
  removed ← st_get (fun s => RemoveStale (sv_registry s) (WSStaleTimeout cfg) now);
  _ ← st_modify (set_registry removed.2);
  st_each (fun sa => close_conn (sa_Conn sa)) removed.1.

(** One tick of [RunAckChecker] for one task. *)
Definition ackTimeout (task : TrackedTask F) : M unit :=
  now ← time_Now;
  _ ← on_tracker (fun t => (MarkTimedOut t (tk_TaskID task) now).2);
  _ ← on_registry (fun r => DecrementTasks r (tk_AgentID task));
  requeueTask (tk_Assignment task).

Definition ackTick : M unit :=
  now ← time_Now;
  stale ← st_get (fun s => UnacknowledgedTasks (sv_tracker s) now);
  st_each ackTimeout stale.

Definition cleanTick : M nat :=
  now ← time_Now;
  cleaned ← st_get (fun s => CleanCompleted (sv_tracker s) (5 * Minute)%Z now);
  _ ← st_modify (set_tracker cleaned.2);
  mret cleaned.1.

Definition Shutdown : M unit :=
  agents ← st_get (fun s => List (sv_registry s));
  st_each (fun a => close_conn (ca_Conn a)) agents.

Definition ConnectedAgentCount : M nat := st_get (fun s => Count (sv_registry s)).

(** ** Runs *)

Inductive ws_event :=
  | EvConnect (conn : Conn) (data : result error string)
  | EvData (agentID data : string)
  | EvDisconnect (agentID : string) (conn : Conn)
  | EvAssign (assignment : TaskAssignment F)
  | EvSyncSend (a : ConnectedAgent) (userID message : string) (budgetUSD : F) (timeout : Duration)
  | EvSyncWait (taskID : string) (ch : Chan) (outcome : select_outcome)
  | EvApprovalResult (approvalID decision approverID : string)
  | EvHeartbeat (conn : Conn)
  | EvStaleTick (cfg : option WebSocketGatewayConfig)
  | EvAckTick
  | EvCleanTick
  | EvShutdown.

Definition ws_step (e : ws_event) : M unit :=
  match e with
  | EvConnect conn data => _ ← handleConnect conn data; mret tt
  | EvData agentID data => handleData agentID data
  | EvDisconnect agentID conn => handleDisconnect agentID conn
  | EvAssign assignment => _ ← AssignTask assignment; mret tt
  | EvSyncSend a u m b t => _ ← ExecuteSync_send a u m b t; mret tt
  | EvSyncWait taskID ch outcome => _ ← ExecuteSync_wait taskID ch outcome; mret tt
  | EvApprovalResult id d w => _ ← RouteApprovalResult id d w; mret tt
  | EvHeartbeat conn => _ ← heartbeatTick conn; mret tt
  | EvStaleTick cfg => staleTick cfg
  | EvAckTick => ackTick
  | EvCleanTick => _ ← cleanTick; mret tt
  | EvShutdown => Shutdown
  end.

Definition ws_run (events : list ws_event) : M unit := st_each ws_step events.
End server.

Arguments pendingTask F : clear implicits.
Arguments Server F N : clear implicits.
Arguments ws_event F : clear implicits.
