(* ===== verification/WsProps.v ===== *)
(** * What the websocket server guarantees

    Every result channel gets at most one value, queued tasks are accounted for, and
    what happens to the tasks of an agent that disconnects ([WsServer]). *)

From S2P Require Import Prelude Protocol Config AgentRegistry TaskTracker WsServer.

(** What [github.com/coder/websocket] documents of a connection that is gone: writing
    to it fails, and it does not come back. *)
Class WebSocketLaws (N : Type) `{WebSocket N} := {
  conn_dead : N -> Conn -> Prop;
  dead_write : forall n c d, conn_dead n c -> (conn_Write n c d).1 <> None;
  dead_after_write : forall n c c' d, conn_dead n c -> conn_dead (conn_Write n c' d).2 c;
  dead_after_now : forall n c, conn_dead n c -> conn_dead (ws_now n).2 c;
  dead_after_uuid : forall n c, conn_dead n c -> conn_dead (ws_uuid n).2 c;
  dead_after_close : forall n c c', conn_dead n c \/ c = c' -> conn_dead (conn_Close n c') c;
}.

Section props.
Context {F N : Type}.
Context `{!WebSocket N} `{!ProtocolJson F}.
Context `{!MapRange string ConnectedAgent} `{!MapRange string (TrackedTask F)}.
Implicit Types (s : Server F N) (pts : list (pendingTask F)).

(** ** Channels *)

Definition waiter_chans s : list Chan := (map_to_list (sv_waiters s)).*2.

(** The channels in use, waited on or written, are distinct and not fresh. *)
Definition chans_ok (next : Chan) (waiting written : list Chan) : Prop :=
  NoDup (waiting ++ written) /\ Forall (fun c => (c < next)%N) (waiting ++ written).

Definition sync_ok s : Prop := chans_ok (sv_nextChan s) (waiter_chans s) (sv_sent s).*1.
Definition err_ok pts s : Prop :=
  chans_ok (sv_nextChan s) (map pt_result pts) (sv_sentErr s).*1.
Definition channels_ok s : Prop := sync_ok s /\ err_ok (sv_pending s) s.

Lemma chans_ok_perm next w w' d d' :
  w ++ d ≡ₚ w' ++ d' -> chans_ok next w d -> chans_ok next w' d'.
Proof. unfold chans_ok. by intros ->. Qed.

Lemma chans_ok_drop next c w w' d : c :: w' ≡ₚ w -> chans_ok next w d -> chans_ok next w' d.
Proof.
  unfold chans_ok. intros <-. simpl. rewrite NoDup_cons, Forall_cons. tauto.
Qed.

Lemma chans_ok_fresh next w d : chans_ok next w d -> chans_ok (next + 1)%N (next :: w) d.
Proof.
  intros [Hnd Hlt]. unfold chans_ok. simpl. rewrite NoDup_cons, Forall_cons. split_and!.
  - intros Hin. rewrite Forall_forall in Hlt. specialize (Hlt _ Hin). lia.
  - done.
  - lia.
  - eapply Forall_impl; [exact Hlt|]. simpl. lia.
Qed.

Lemma chans_ok_later next w d : chans_ok next w d -> chans_ok (next + 1)%N w d.
Proof. intros [? Hlt]. split; [done|]. eapply Forall_impl; [exact Hlt|]. simpl. lia. Qed.

(** What most of the server leaves alone. *)
Definition same_channels s s' : Prop :=
  sv_pending s' = sv_pending s /\ sv_waiters s' = sv_waiters s /\ sv_sent s' = sv_sent s /\
  sv_sentErr s' = sv_sentErr s /\ sv_nextChan s' = sv_nextChan s.

Definition frame {A} (m : st (Server F N) A) : Prop :=
  forall s0, preserves (same_channels s0) m.

Lemma frame_ret {A} (a : A) : frame (mret a).
Proof. intros s0. apply preserves_ret. Qed.
Lemma frame_bind {A B} (m : st (Server F N) A) (k : A -> st (Server F N) B) :
  frame m -> (forall a, frame (k a)) -> frame (m ≫= k).
Proof. intros Hm Hk s0. apply preserves_bind; [apply Hm|]. intros a. apply Hk. Qed.
Lemma frame_get {A} (f : Server F N -> A) : frame (st_get f).
Proof. intros s0. apply preserves_get. Qed.
Lemma frame_each {A} (f : A -> st (Server F N) unit) l : (forall x, frame (f x)) -> frame (st_each f l).
Proof. intros Hf s0. apply preserves_each. intros x. apply Hf. Qed.
Lemma frame_on_registry f : frame (on_registry (F := F) (N := N) f).
Proof. intros s0. by apply preserves_modify. Qed.
Lemma frame_set_registry r : frame (st_modify (set_registry (F := F) (N := N) r)).
Proof. intros s0. by apply preserves_modify. Qed.
Lemma frame_on_tracker f : frame (on_tracker (F := F) (N := N) f).
Proof. intros s0. by apply preserves_modify. Qed.
Lemma frame_set_tracker t : frame (st_modify (set_tracker (F := F) (N := N) t)).
Proof. intros s0. by apply preserves_modify. Qed.
Lemma frame_approvals f :
  frame (st_modify (fun s => set_approvals (f (sv_approvals s)) s : Server F N)).
Proof. intros s0. by apply preserves_modify. Qed.
Lemma frame_now : frame (time_Now (F := F) (N := N)).
Proof. intros s0 s Hs. unfold time_Now. by destruct (ws_now _). Qed.
Lemma frame_uuid : frame (uuid_NewString (F := F) (N := N)).
Proof. intros s0 s Hs. unfold uuid_NewString. by destruct (ws_uuid _). Qed.
Lemma frame_write c e : frame (writeEnvelope (F := F) (N := N) c e).
Proof. intros s0 s Hs. unfold writeEnvelope. by destruct (conn_Write _ _ _). Qed.
Lemma frame_close c : frame (close_conn (F := F) (N := N) c).
Proof. intros s0. by apply preserves_modify. Qed.

Ltac framed :=
  repeat first
    [ apply frame_bind | apply frame_ret | apply frame_get | apply frame_on_registry
    | apply frame_on_tracker | apply frame_set_registry | apply frame_set_tracker
    | apply frame_approvals | apply frame_now | apply frame_uuid
    | apply frame_write | apply frame_close | apply frame_each
    | match goal with
      | |- forall _, frame _ => intros ?
      | |- frame (match ?x with _ => _ end) => destruct x
      end ].

Lemma frame_newEnvelope t p : frame (newEnvelope (F := F) (N := N) t p).
Proof. unfold newEnvelope. framed. Qed.

Lemma frame_sendTask a x : frame (sendTaskToAgent (F := F) (N := N) a x).
Proof. unfold sendTaskToAgent. apply frame_bind; [apply frame_newEnvelope|]. framed. Qed.

Lemma frame_channels_ok {A} (m : st (Server F N) A) : frame m -> preserves channels_ok m.
Proof.
  intros Hm s [Hs He]. destruct (Hm s s) as (H1 & H2 & H3 & H4 & H5); [done|].
  unfold channels_ok, sync_ok, err_ok, waiter_chans. by rewrite H1, H2, H3, H4, H5.
Qed.

(** ** Draining the queue *)

(** A drain leaves the queue and the waiters to its caller. *)
Definition drain_frame s s' : Prop :=
  sv_pending s' = sv_pending s /\ sv_waiters s' = sv_waiters s /\ sv_sent s' = sv_sent s /\
  sv_nextChan s' = sv_nextChan s.

Lemma sendTask_channels a x s : same_channels s (sendTaskToAgent a x s).2.
Proof. by apply frame_sendTask. Qed.

Lemma drain_cons pt pts s :
  drain (pt :: pts) s =
  match Route (sv_registry s) [] with
  | Err _ => let '(rem, s') := drain pts s in (pt :: rem, s')
  | Ok a =>
      let '(e, s') := sendTaskToAgent a (pt_assignment pt) s in
      drain pts (send_err (pt_result pt) e s')
  end.
Proof.
  simpl. unfold mbind, st_bind, st_get, st_modify. destruct (Route _ _) as [a|e]; [|done].
  by destruct (sendTaskToAgent _ _ _).
Qed.

Lemma drain_chans pre pts s :
  err_ok (pre ++ pts) s ->
  let '(rem, s') := drain pts s in err_ok (pre ++ rem) s' /\ drain_frame s s'.
Proof.
  revert pre s. induction pts as [|pt pts IH]; intros pre s Hok; [done|].
  rewrite drain_cons. destruct (Route (sv_registry s) []) as [a|e].
  - pose proof (sendTask_channels a (pt_assignment pt) s) as Hf.
    destruct (sendTaskToAgent a (pt_assignment pt) s) as [r s']. simpl in Hf.
    destruct Hf as (H1 & H2 & H3 & H4 & H5).
    specialize (IH pre (send_err (pt_result pt) r s')).
    destruct (drain pts _) as [rem s'']. destruct IH as (IH1 & G1 & G2 & G3 & G4).
    + unfold err_ok in *. simpl. rewrite H4, H5. revert Hok. apply chans_ok_perm.
      rewrite !map_app. simpl. rewrite <-!app_assoc. apply Permutation_app_head. simpl.
      by rewrite (assoc_L app), <-Permutation_cons_append.
    + split; [done|]. unfold drain_frame. simpl in *. by rewrite G1, G2, G3, G4.
  - specialize (IH (pre ++ [pt]) s). destruct (drain pts s) as [rem s'].
    rewrite <-!(assoc_L app) in IH. by apply IH.
Qed.

Lemma drainPending_run s :
  (drainPendingTasks s).2 =
  set_pending (drain (sv_pending s) s).1 (drain (sv_pending s) s).2.
Proof.
  unfold drainPendingTasks. rewrite st_bind_run. simpl. by rewrite st_bind_run.
Qed.

Lemma drain_ok : preserves channels_ok (drainPendingTasks (F := F) (N := N)).
Proof.
  intros s [Hs He]. rewrite drainPending_run. pose proof (drain_chans [] (sv_pending s) s He) as Hd.
  destruct (drain (sv_pending s) s) as [rem s']. destruct Hd as (Hd & H1 & H2 & H3 & H4).
  split; [|exact Hd]. unfold sync_ok, waiter_chans. simpl. by rewrite H2, H3, H4.
Qed.

(** ** Every handler keeps the channels in order *)

Lemma resolve_ok id r : preserves channels_ok (sync_resolve (F := F) (N := N) id r).
Proof.
  intros s [Hs He]. unfold sync_resolve. destruct (sv_waiters s !! id) as [ch|] eqn:E; [|done].
  split; [|done]. unfold sync_ok in *. simpl. revert Hs. apply chans_ok_perm.
  unfold waiter_chans. simpl. rewrite map_app. simpl.
  rewrite <-(fmap_Permutation snd _ _ (map_to_list_delete _ _ _ E)). simpl.
  rewrite (assoc_L app), <-Permutation_cons_append. done.
Qed.

Lemma remove_ok id : preserves channels_ok (sync_remove (F := F) (N := N) id).
Proof.
  apply preserves_modify. intros s [Hs He]. split; [|done]. unfold sync_ok, waiter_chans in *. simpl.
  destruct (sv_waiters s !! id) as [ch|] eqn:E; [|by rewrite delete_id].
  eapply chans_ok_drop; [|exact Hs].
  apply (fmap_Permutation snd _ _ (map_to_list_delete _ _ _ E)).
Qed.

Lemma register_ok id : preserves channels_ok (sync_register (F := F) (N := N) id).
Proof.
  intros s Hs. pose proof (remove_ok id s Hs) as [Hs' He]. unfold sync_register.
  rewrite st_bind_run. simpl. split; [|by apply chans_ok_later].
  apply chans_ok_fresh in Hs'. revert Hs'. apply chans_ok_perm. apply Permutation_app_tail.
  unfold waiter_chans. simpl. rewrite <-insert_delete_eq.
  rewrite (fmap_Permutation snd _ _ (map_to_list_insert _ _ _ (lookup_delete_eq _ _))). done.
Qed.

Lemma enqueue_ok x : preserves channels_ok (enqueue (F := F) (N := N) x).
Proof.
  intros s [Hs He]. unfold enqueue. rewrite st_bind_run. simpl.
  split; [by apply chans_ok_later|]. apply chans_ok_fresh in He. revert He. apply chans_ok_perm.
  simpl. rewrite map_app. simpl. by rewrite <-Permutation_cons_append.
Qed.

#[local] Hint Resolve drain_ok resolve_ok remove_ok register_ok enqueue_ok : go.
#[local] Hint Extern 2 (preserves channels_ok _) => apply frame_channels_ok; framed; fail : go.

Lemma requeue_ok x : preserves channels_ok (requeueTask (F := F) (N := N) x).
Proof. unfold requeueTask. preserve. Qed.
#[local] Hint Resolve requeue_ok : go.

Lemma sendTask_ok a x : preserves channels_ok (sendTaskToAgent (F := F) (N := N) a x).
Proof. apply frame_channels_ok, frame_sendTask. Qed.
Lemma newEnvelope_ok t p : preserves channels_ok (newEnvelope (F := F) (N := N) t p).
Proof. apply frame_channels_ok, frame_newEnvelope. Qed.
#[local] Hint Resolve sendTask_ok newEnvelope_ok : go.

Lemma failOrphan_ok k : preserves channels_ok (failOrphan (F := F) (N := N) k).
Proof. unfold failOrphan. preserve. Qed.
#[local] Hint Resolve failOrphan_ok : go.

Lemma disconnect_ok id c : preserves channels_ok (handleDisconnect (F := F) (N := N) id c).
Proof. unfold handleDisconnect. preserve. Qed.
#[local] Hint Resolve disconnect_ok : go.

Lemma connect_ok c d : preserves channels_ok (handleConnect (F := F) (N := N) c d).
Proof. unfold handleConnect, waitForRegistration. preserve. Qed.

Lemma data_ok id d : preserves channels_ok (handleData (F := F) (N := N) id d).
Proof. unfold handleData, handleMessage. preserve. Qed.

Lemma approval_ok i d w : preserves channels_ok (RouteApprovalResult (F := F) (N := N) i d w).
Proof. unfold RouteApprovalResult. preserve. Qed.

Lemma sync_send_ok a u m b t :
  preserves channels_ok (ExecuteSync_send (F := F) (N := N) a u m b t).
Proof. unfold ExecuteSync_send. preserve. Qed.

Lemma step_ok e : preserves channels_ok (ws_step (F := F) (N := N) e).
Proof.
  destruct e; simpl; unfold AssignTask, ExecuteSync_wait, heartbeatTick, staleTick, ackTick,
    ackTimeout, cleanTick, Shutdown;
    try (by apply disconnect_ok); try (by apply data_ok); preserve;
    auto using connect_ok, approval_ok, sync_send_ok.
Qed.

Lemma new_ok r cfg n : channels_ok (NewServer (F := F) r cfg n).
Proof. split; (split; [apply NoDup_nil_2|constructor]). Qed.

(** C30: no request is answered twice and no goroutine of the server blocks on a
    channel.  However connections, messages, disconnections, requests and timers
    interleave, each result channel of a synchronous request and of a queued task gets
    at most one value, which is what its buffer holds. *)
Theorem channels_written_once r cfg net (events : list (ws_event F)) :
  let s := (ws_run events (NewServer r cfg net)).2 in
  NoDup (sv_sent s).*1 /\ NoDup (sv_sentErr s).*1.
Proof.
  assert (channels_ok (ws_run events (NewServer r cfg net)).2) as [[Hs _] [He _]].
  { unfold ws_run. apply preserves_each; [apply step_ok|apply new_ok]. }
  apply NoDup_app in Hs as (_ & _ & ?). apply NoDup_app in He as (_ & _ & ?). done.
Qed.

(** ** What becomes of a queued task *)

Definition dispatched s (id : string) : Prop := state_of (sv_tracker s) id = Some TaskDispatched.

(** The channel of a queued task got its answer: an error of the connection, or none
    and then the task is with an agent. *)
Definition settled s (pt : pendingTask F) : Prop :=
  exists e, (pt_result pt, e) ∈ sv_sentErr s /\
    (e = None -> dispatched s (ta_TaskID (pt_assignment pt))).

Lemma frame_registry_tracker {A} (m : st (Server F N) A) s :
  (forall s0, preserves (fun s => sv_registry s = sv_registry s0 /\ sv_tracker s = sv_tracker s0) m) ->
  sv_registry (m s).2 = sv_registry s /\ sv_tracker (m s).2 = sv_tracker s.
Proof. intros Hm. by apply (Hm s). Qed.

Lemma newEnvelope_state t p s :
  exists n, (newEnvelope t p s).2 = set_net n s /\ exists i now, (newEnvelope t p s).1 = NewEnvelope t p i now.
Proof.
  unfold newEnvelope, uuid_NewString, time_Now. rewrite st_bind_run.
  destruct (ws_uuid (sv_net s)) as [i n1] eqn:E1. simpl. rewrite st_bind_run. simpl.
  destruct (ws_now n1) as [now n2] eqn:E2. simpl. eauto.
Qed.

(** A task handed to an agent: counted in the registry, dispatched in the tracker. *)
Definition handed (a : ConnectedAgent) (x : TaskAssignment F) (now : Time) s : Server F N :=
  set_tracker (Track (sv_tracker s) x (ac_AgentID (ca_Info a)) now)
    (set_registry (IncrementTasks (sv_registry s) (ac_AgentID (ca_Info a))) s).

Lemma dispatched_handed a x now s n ch e id :
  dispatched s id -> dispatched (send_err ch e (set_net n (handed a x now s))) id.
Proof. unfold dispatched, handed, Track. simpl. intros Hd. rewrite state_of_insert. by destruct (decide _). Qed.

(** The two ways a send ends. *)
Lemma sendTask_run a x s :
  exists n,
    (exists now, sendTaskToAgent a x s = (None, set_net n (handed a x now s))) \/
    (exists e, sendTaskToAgent a x s = (Some (Wrap "sending task to agent" e), set_net n s)).
Proof.
  unfold sendTaskToAgent. destruct (newEnvelope_state MsgTaskAssign (Some (marshal x)) s)
    as (n1 & Hn1 & i & now1 & Henv).
  rewrite st_bind_run, Hn1. simpl. rewrite st_bind_run. unfold writeEnvelope.
  match goal with |- context [conn_Write ?n ?c ?d] => destruct (conn_Write n c d) as [[e|] n2] end; simpl.
  - exists n2. right. by exists e.
  - unfold on_registry, on_tracker, time_Now. rewrite !st_bind_run. simpl.
    destruct (ws_now n2) as [now n3]. simpl.
    exists n3. left. by exists now.
Qed.

Lemma drain_settles_all pts s :
  let '(rem, s') := drain pts s in
  (forall id, dispatched s id -> dispatched s' id) /\
  sv_sentErr s ⊆ sv_sentErr s' /\
  (rem = [] \/ is_ok (Route (sv_registry s') []) = false) /\
  (exists done_, pts = done_ ++ rem /\ Forall (settled s') done_).
Proof.
  revert s. induction pts as [|pt pts IH]; intros s.
  { split_and!; [done|done|by left|by exists []]. }
  rewrite drain_cons. destruct (Route (sv_registry s) []) as [a|e] eqn:Er.
  - destruct (sendTask_run a (pt_assignment pt) s) as (n & [[now ->]|[e ->]]);
      match goal with |- context [drain pts ?s1] => specialize (IH s1); destruct (drain pts s1) as [rem s'] end;
      destruct IH as (Hd & Hs & Hr & dn & -> & Hdn); simpl in *; split_and!; try done.
    + intros id Hid. by apply Hd, dispatched_handed.
    + set_solver.
    + exists (pt :: dn). split; [done|]. constructor; [|done]. exists None. split; [set_solver|].
      intros _. apply Hd. unfold dispatched, handed, Track. simpl. by rewrite state_of_insert, decide_True.
    + intros l Hl. by apply Hs, elem_of_app; left.
    + exists (pt :: dn). split; [done|]. constructor; [|done].
      eexists. split; [by apply Hs, elem_of_app; right; apply list_elem_of_singleton|done].
  - assert (drain pts s = (pts, s)) as ->.
    { clear IH. induction pts as [|p pts IH]; [done|]. by rewrite drain_cons, Er, IH. }
    split_and!; [done|done|by right; rewrite Er|by exists []].
Qed.

(** What a drain does with the queue.  It settles a prefix and keeps the rest in
    order; a settled task is dispatched to an agent, or the goroutine that queued it
    is told why the connection failed; and tasks are left waiting only when no agent
    has capacity. *)
Theorem drain_settles_prefix s :
  let s' := (drainPendingTasks s).2 in
  (exists done_, sv_pending s = done_ ++ sv_pending s' /\ Forall (settled s') done_) /\
  (sv_pending s' = [] \/ Route (sv_registry s') [] = Err (Sentinel ErrNoAvailableAgent)).
Proof.
  simpl. rewrite drainPending_run. pose proof (drain_settles_all (sv_pending s) s) as Hd.
  destruct (drain (sv_pending s) s) as [rem s']. destruct Hd as (_ & _ & Hr & dn & Hp & Hs).
  split; [by exists dn|]. destruct Hr as [|Hr]; [by left|]. right. simpl in *.
  destruct (Route (sv_registry s') []) as [|e] eqn:He; [done|]. by apply Route_Err in He as [-> _].
Qed.

(** ** Disconnection *)

Context `{!WebSocketLaws N}.

(** An agent alone in the registry, with room for a task, behind a dead connection;
    nothing is queued. *)
Definition alone_and_dead (id : string) (a : ConnectedAgent) s : Prop :=
  sv_registry s = {[id := a]} /\ eligible [] a /\ (ca_ActiveTasks a < maxInt)%Z /\
  sv_pending s = [] /\ conn_dead (sv_net s) (ca_Conn a).

Lemma Route_alone id a : eligible [] a -> (ca_ActiveTasks a < maxInt)%Z ->
  Route {[id := a]} [] = Ok a.
Proof.
  intros He Hlt. destruct (Route {[id := a]} []) as [b|e] eqn:E.
  - apply Route_Ok in E as [(i & [_ ->]%lookup_singleton_Some) _]. done.
  - apply Route_Err in E as [_ Hall]. specialize (Hall id a). rewrite lookup_singleton_eq in Hall.
    specialize (Hall eq_refl He). lia.
Qed.

Lemma send_dead a x s :
  conn_dead (sv_net s) (ca_Conn a) ->
  exists n e, sendTaskToAgent a x s = (Some e, set_net n s) /\ conn_dead n (ca_Conn a).
Proof.
  intros Hd. unfold sendTaskToAgent, newEnvelope, uuid_NewString, time_Now, writeEnvelope.
  rewrite st_bind_run. pose proof (dead_after_uuid _ _ Hd) as H1.
  unfold mbind, st_bind. destruct (ws_uuid (sv_net s)) as [i n1]. simpl in *.
  pose proof (dead_after_now _ _ H1) as H2. destruct (ws_now n1) as [now n2]. simpl in *.
  match goal with |- context [conn_Write n2 _ ?d] =>
    pose proof (dead_write _ _ d H2) as Hw; pose proof (dead_after_write _ _ (ca_Conn a) d H2) as H3;
    destruct (conn_Write n2 (ca_Conn a) d) as [[e|] n3] end; simpl in *; [|done].
  by exists n3, (Wrap "sending task to agent" e).
Qed.

(** Failing one orphan: the re-queued task is sent at once to the agent that is gone. *)
Lemma failOrphan_dead id a k s :
  alone_and_dead id a s ->
  alone_and_dead id a (failOrphan k s).2 /\
  exists now, sv_tracker (failOrphan k s).2 =
    MarkFailed (sv_tracker s) (tk_TaskID k) "agent disconnected" now.
Proof.
  intros (Hr & He & Hlt & Hp & Hd). unfold failOrphan, requeueTask, enqueue, make_chan.
  rewrite st_bind_run. unfold time_Now. pose proof (dead_after_now _ _ Hd) as H1.
  destruct (ws_now (sv_net s)) as [now n1]. simpl in H1. simpl.
  rewrite st_bind_run. simpl. rewrite st_bind_run.
  set (s1 := set_tracker _ _).
  assert (exists w se, (sync_resolve (tk_TaskID k) (mkSyncResult false "" 0 "agent disconnected") s1).2 =
    mkServer (sv_registry s) (MarkFailed (sv_tracker s) (tk_TaskID k) "agent disconnected" now)
      [] w (sv_approvals s) se (sv_sentErr s) (sv_nextChan s) n1) as (w & se & ->).
  { unfold sync_resolve, s1. simpl. destruct (sv_waiters s !! tk_TaskID k); simpl;
      unfold set_tracker, set_net, send_result, set_waiters; simpl; rewrite Hp; eauto. }
  rewrite st_bind_run. simpl. rewrite drainPending_run. simpl sv_pending.
  match goal with |- context [drain ?l ?s] => set (s2 := s) end.
  rewrite drain_cons. assert (Route (sv_registry s2) [] = Ok a) as ->.
  { unfold s2. simpl. rewrite Hr. by apply Route_alone. }
  destruct (send_dead a (tk_Assignment k) s2 H1) as (n2 & e & Hsend & H2).
  simpl pt_assignment. rewrite Hsend. simpl. split; [by split_and!|by exists now].
Qed.

Lemma MarkFailed_state (t : TaskTracker F) id e now id' :
  state_of (MarkFailed t id e now) id' =
  if decide (id = id') then (fun _ => TaskFailed) <$> state_of t id' else state_of t id'.
Proof.
  unfold MarkFailed. destruct (tr_tasks t !! id) as [k|] eqn:E.
  - rewrite state_of_insert. destruct (decide (id = id')) as [<-|]; [|done].
    unfold state_of. by rewrite E.
  - destruct (decide (id = id')) as [<-|]; [|done]. unfold state_of. by rewrite E.
Qed.

Lemma failOrphans_dead id a ks s :
  alone_and_dead id a s ->
  alone_and_dead id a (st_each failOrphan ks s).2 /\
  forall i, (i ∈ map tk_TaskID ks \/ state_of (sv_tracker s) i = Some TaskFailed) ->
    is_Some (state_of (sv_tracker s) i) ->
    state_of (sv_tracker (st_each failOrphan ks s).2) i = Some TaskFailed.
Proof.
  revert s. induction ks as [|k ks IH]; intros s Hs; simpl.
  { split; [done|]. intros i [[]%elem_of_nil|?]; done. }
  rewrite st_bind_run. destruct (failOrphan_dead id a k s Hs) as (Hs1 & now & Ht).
  destruct (IH _ Hs1) as [Hs2 Hf]. split; [done|]. intros i Hi Hsome. apply Hf.
  - rewrite Ht, MarkFailed_state. destruct (decide (tk_TaskID k = i)) as [_|Hne].
    + right. destruct Hsome as [? ->]. done.
    + rewrite elem_of_cons in Hi. destruct Hi as [[Heq|?]|?]; [done|by left|by right].
  - rewrite Ht, MarkFailed_state. destruct (decide _); [|done]. destruct Hsome as [? ->]. by eexists.
Qed.

(** A disconnection may lose the tasks of the agent.  The tasks are re-queued
    before the agent is removed from the registry, so when it is the only agent and
    has a free slot every one of them is sent to the connection that is gone; the
    write fails and the task is dropped: it is failed in the tracker and the queue is
    empty, whatever agent connects next. *)
Theorem disconnect_loses_tasks id a s :
  id <> "" -> alone_and_dead id a s ->
  (forall i k, tr_tasks (sv_tracker s) !! i = Some k -> tk_TaskID k = i) ->
  let s' := (handleDisconnect id (ca_Conn a) s).2 in
  sv_registry s' = ∅ /\ sv_pending s' = [] /\
  forall k, k ∈ TasksForAgent (sv_tracker s) id ->
    state_of (sv_tracker s') (tk_TaskID k) = Some TaskFailed.
Proof.
  intros Hid Hs Hkeys. simpl. unfold handleDisconnect. apply String.eqb_neq in Hid as ->.
  rewrite st_bind_run. simpl. rewrite st_bind_run.
  destruct (failOrphans_dead id a (TasksForAgent (sv_tracker s) id) s Hs) as [(Hr & _ & _ & Hp & _) Hf].
  rewrite st_bind_run. simpl. split_and!; [|done|].
  - rewrite Hr. unfold Deregister. rewrite lookup_singleton_eq, bool_decide_true by done.
    apply delete_singleton_eq.
  - intros k Hk. apply Hf; [left; by apply list_elem_of_fmap_2|].
    apply elem_of_TasksForAgent in Hk as [(i & Hi) _]. rewrite (Hkeys _ _ Hi).
    unfold state_of. rewrite Hi. by eexists.
Qed.

(** ** Answers *)

Lemma drain_sent s : sv_sent (drainPendingTasks s).2 = sv_sent s.
Proof.
  rewrite drainPending_run. simpl. generalize (sv_pending s) as pts. intros pts. revert s.
  induction pts as [|pt pts IH]; intros s; [done|]. rewrite drain_cons.
  destruct (Route (sv_registry s) []) as [a|e].
  - pose proof (sendTask_channels a (pt_assignment pt) s) as Hf.
    destruct (sendTaskToAgent _ _ _) as [r s']. destruct Hf as (_ & _ & Hf & _).
    rewrite IH. simpl in *. done.
  - specialize (IH s). by destruct (drain pts s).
Qed.

(** What a result message does to the request that waits for its task. *)
Lemma result_message agentID env res s ch :
  env_Type env = MsgTaskResult -> Decode env = Ok res ->
  sv_waiters s !! env_TaskID env = Some ch ->
  sv_sent (handleMessage agentID env s).2 =
    sv_sent s ++ [(ch, mkSyncResult true (tr_Output res) (tr_TokensUsed res) "")].
Proof.
  intros Ht Hd Hw. unfold handleMessage. rewrite Ht. simpl. rewrite Hd.
  rewrite st_bind_run. simpl. rewrite st_bind_run. rewrite st_bind_run. simpl.
  rewrite st_bind_run, drain_sent, st_bind_run. unfold sync_resolve, time_Now. simpl.
  destruct (ws_now (sv_net s)) as [now n]. simpl. by rewrite Hw.
Qed.

(** An answer is accepted from any agent.  Whatever agent a task was dispatched
    to, a result message from another connected agent that names the task completes
    it, and the request that waits gets the output of that message. *)
Theorem any_agent_may_answer agentID env res s ch :
  env_Type env = MsgTaskResult -> Decode env = Ok res ->
  sv_waiters s !! env_TaskID env = Some ch ->
  (ch, mkSyncResult true (tr_Output res) (tr_TokensUsed res) "")
    ∈ sv_sent (handleMessage agentID env s).2.
Proof.
  intros Ht Hd Hw. rewrite (result_message agentID env res s ch Ht Hd Hw).
  apply elem_of_app. right. by apply list_elem_of_singleton.
Qed.
End props.
