(* ===== verification/WsClient.v ===== *)
(** * The websocket client of a remote agent

    [src/internal/agent/wsclient.go] and the task handler of
    [src/cmd/akili/agent.go].  The client's state and the connection are threaded;
    [executeTask] runs in its own goroutine, so its end is a computation of its own. *)

From S2P Require Import Prelude Protocol AgentRegistry WsServer.

(** ** float64 to int64

    [ntrunc] is the truncation towards zero, out of range for what is not finite.  A conversion that does
    not fit is implementation-defined: [out] is what the machine answers, the least
    int64 on amd64. *)
Class Trunc (F : Type) := { ntrunc : F -> Z }.
Class TruncLaw (F : Type) `{ExactNum F} `{!Trunc F} := {
  ntrunc_exact : forall (x : F) (z : Z), (toQ x == inject_Z z)%Q -> ntrunc x = z;
}.

#[export] Instance f64_Trunc : Trunc f64 := {
  ntrunc := fun x =>
    match x with S754_infinity _ | S754_nan => (2 ^ 63)%Z | _ => f64_trunc x end
}.
#[export] Instance Q_Trunc : Trunc Q := { ntrunc := fun q => Z.quot (Qnum q) (QDen q) }.
#[export] Instance Q_TruncLaw : TruncLaw Q.
Proof.
  constructor. intros [n d] z. unfold Qeq. simpl. intros E. rewrite Z.mul_1_r in E. subst n.
  apply Z.quot_mul. done.
Defined.

Definition minInt64 : Z := (- 2 ^ 63)%Z.

Definition to_int64 {F} `{Trunc F} (out : Z) (x : F) : Z :=
  let z := ntrunc x in
  if ((minInt64 <=? z) && (z <=? maxInt))%Z then z else out.

(** ** The client *)

Inductive ConnectionState :=
  | StateDisconnected | StateConnecting | StateConnected | StateReconnecting.

Record WSClientConfig := mkWSClientConfig {
  wc_GatewayURL : string;
  wc_Token : string;
  wc_AgentID : string;
  wc_Skills : list string;
  wc_Model : string;
  wc_MaxParallel : Z;
  wc_Version : string;
  wc_HeartbeatInterval : Duration;
  wc_ReconnectInterval : Duration;
}.

Definition or_default (z d : Z) : Z := if (z =? 0)%Z then d else z.

(** The defaults [NewWSClient] fills in. *)
Definition with_defaults (cfg : WSClientConfig) : WSClientConfig :=
  mkWSClientConfig (wc_GatewayURL cfg) (wc_Token cfg) (wc_AgentID cfg) (wc_Skills cfg)
    (wc_Model cfg) (or_default (wc_MaxParallel cfg) 5) (wc_Version cfg)
    (or_default (wc_HeartbeatInterval cfg) (30 * Second))
    (or_default (wc_ReconnectInterval cfg) (5 * Second)).

(** The address that is dialled. *)
Definition dialURL (cfg : WSClientConfig) : string :=
  let url := wc_GatewayURL cfg in
  if String.eqb (wc_Token cfg) "" then url
  else url +:+ (if contains url "?" then "&" else "?") +:+ "token=" +:+ wc_Token cfg.

(** [backoff] of [attempt] for [attempt >= 1]; [math.Pow(2, n)] of an integer is exact. *)
Definition backoff {F} `{Num F} `{Trunc F} (out : Z) (cfg : WSClientConfig) (attempt : Z)
    : Duration :=
  let mult : F := nofZ (2 ^ (attempt - 1)) in
  let d := to_int64 out (nmul (nofZ (wc_ReconnectInterval cfg)) mult) in
  if (60 * Second <? d)%Z then (60 * Second)%Z else d.

Section client.
Context {F N : Type}.
Context `{!Num F} `{!WebSocket N} `{!ProtocolJson F} `{!ErrorText}.

Record WSClient := mkWSClient {
  cl_cfg : WSClientConfig;
  cl_conn : option Conn;
  cl_activeTasks : Z;
  cl_activeTaskIDs : gmap string Time;
  cl_state : ConnectionState;
}.

Definition NewWSClient (cfg : WSClientConfig) : WSClient :=
  mkWSClient (with_defaults cfg) None 0 ∅ StateDisconnected.

(** The client and the network it talks to. *)
Record ClientState := mkClientState { cs_client : WSClient; cs_net : N }.

Abbreviation CM := (st ClientState).

Definition set_client (c : WSClient) (s : ClientState) : ClientState :=
  mkClientState c (cs_net s).
Definition set_conn (conn : option Conn) (c : WSClient) : WSClient :=
  mkWSClient (cl_cfg c) conn (cl_activeTasks c) (cl_activeTaskIDs c) (cl_state c).
Definition setState (x : ConnectionState) (c : WSClient) : WSClient :=
  mkWSClient (cl_cfg c) (cl_conn c) (cl_activeTasks c) (cl_activeTaskIDs c) x.
Definition set_active (n : Z) (ids : gmap string Time) (c : WSClient) : WSClient :=
  mkWSClient (cl_cfg c) (cl_conn c) n ids (cl_state c).

Definition on_client (f : WSClient -> WSClient) : CM unit :=
  st_modify (fun s => set_client (f (cs_client s)) s).

Definition cl_Now : CM Time := fun s =>
  let '(t, n) := ws_now (cs_net s) in (t, mkClientState (cs_client s) n).
Definition cl_uuid : CM string := fun s =>
  let '(u, n) := ws_uuid (cs_net s) in (u, mkClientState (cs_client s) n).
Definition cl_newEnvelope (msgType : MessageType) (payload : option string) : CM Envelope :=
  id ← cl_uuid; now ← cl_Now; mret (NewEnvelope msgType payload id now).
Definition cl_write (conn : Conn) (env : Envelope) : CM (option error) := fun s =>
  let '(e, n) := conn_Write (cs_net s) conn (marshal env) in (e, mkClientState (cs_client s) n).
Definition cl_agentID : CM string := st_get (fun s => wc_AgentID (cl_cfg (cs_client s))).

(** An envelope of this agent for a task, written to the connection. *)
Definition cl_send (conn : Conn) (msgType : MessageType) (payload : option string)
    (taskID : string) : CM (option error) :=
  env ← cl_newEnvelope msgType payload;
  agentID ← cl_agentID;
  cl_write conn (with_task (with_agent env agentID) taskID).

(** ** Registration *)

Definition capabilities (cfg : WSClientConfig) : AgentCapabilities :=
  mkCapabilities (wc_AgentID cfg) (wc_Skills cfg) (wc_Model cfg) (wc_MaxParallel cfg)
    (wc_Version cfg).

Definition sendRegistration (conn : Conn) : CM (option error) :=
  caps ← st_get (fun s => capabilities (cl_cfg (cs_client s)));
  cl_send conn MsgAgentRegister (Some (marshal caps)) "".

(** [waitForRegistered]; [data] is what the read gave. *)
Definition waitForRegistered (data : result error string) : option error :=
  match data with
  | Err e => Some (Wrap "reading confirmation" e)
  | Ok data =>
      match (unmarshal data : result error Envelope) with
      | Err e => Some (Wrap "parsing confirmation" e)
      | Ok env =>
          if String.eqb (env_Type env) MsgRegistered then None
          else Some (Errorf "expected gateway.registered")
      end
  end.

(** [connectAndServe] up to its message loop; [dial] is the connection or the error of
    the dial, [data] the answer to the registration. *)
Definition connect (dial : result error Conn) (data : result error string)
    : CM (result error Conn) :=
  match dial with
  | Err e => mret (Err (Wrap "dialing gateway" e))
  | Ok conn =>
      _ ← on_client (set_conn (Some conn));
      err ← sendRegistration conn;
      let failed e :=
        _ ← on_client (set_conn None);
        _ ← st_modify (fun s => mkClientState (cs_client s) (conn_Close (cs_net s) conn));
        mret (Err e) in
      match err with
      | Some e => failed (Wrap "registration" e)
      | None =>
          match waitForRegistered data with
          | Some e => failed (Wrap "registration confirmation" e)
          | None => _ ← on_client (setState StateConnected); mret (Ok conn)
          end
      end
  end.

(** ** Tasks *)

(** The messages that answer a task. *)
Definition sendTaskFailed (conn : Conn) (taskID errMsg : string) : CM (option error) :=
  cl_send conn MsgTaskFailed (Some (marshal (mkTaskFailed (F := F) errMsg 0 (nofZ 0)))) taskID.

Definition sendTaskResult (conn : Conn) (taskID : string) (res : TaskResultPayload F)
    : CM (option error) :=
  cl_send conn MsgTaskResult (Some (marshal res)) taskID.

(** [handleMessage] of an assignment: the task that starts. *)
Definition acceptTask (conn : Conn) (env : Envelope) : CM (option (TaskAssignment F)) :=
  match (Decode env : result error (TaskAssignment F)) with
  | Err _ => mret None
  | Ok a =>
      now ← cl_Now;
      _ ← on_client (fun c => set_active (cl_activeTasks c + 1)
                                (<[ta_TaskID a := now]> (cl_activeTaskIDs c)) c);
      _ ← cl_send conn MsgTaskAccepted (Some (marshal (mkAcceptedPayload (ta_TaskID a)))) (ta_TaskID a);
      mret (Some a)
  end.

(** The time a task may take. *)
Definition task_timeout (a : TaskAssignment F) : Duration :=
  or_default (ta_TimeoutSecs a * Second) (5 * Minute).

(** The end of [executeTask]; [outcome] is what the handler answered, [None] when no
    handler is configured. *)
Definition finishTask (conn : Conn) (a : TaskAssignment F)
    (outcome : option (result error (TaskResultPayload F))) : CM unit :=
  _ ← (match outcome with
       | None => sendTaskFailed conn (ta_TaskID a) "no task handler configured"
       | Some (Err e) => sendTaskFailed conn (ta_TaskID a) (error_Error e)
       | Some (Ok res) => sendTaskResult conn (ta_TaskID a) res
       end);
  on_client (fun c => set_active (cl_activeTasks c - 1)
                        (delete (ta_TaskID a) (cl_activeTaskIDs c)) c).

(** What the gateway asked of the client. *)
Inductive client_action :=
  | CaNone
  | CaStart (a : TaskAssignment F)
  | CaApproval (approvalID decision approverID : string).

(** [handleMessage]; a started task and an approval result are handed to the
    configured handlers. *)
Definition cl_handleMessage (conn : Conn) (env : Envelope) : CM client_action :=
  if String.eqb (env_Type env) MsgTaskAssign then
    a ← acceptTask conn env;
    mret (match a with Some a => CaStart a | None => CaNone end)
  else if String.eqb (env_Type env) MsgTaskCancel then mret CaNone
  else if String.eqb (env_Type env) MsgApprovalResult then
    mret (match (Decode env : result error ApprovalResultPayload) with
          | Ok r => CaApproval (ar_ApprovalID r) (ar_Decision r) (ar_ApproverID r)
          | Err _ => CaNone
          end)
  else if String.eqb (env_Type env) MsgPing then
    _ ← cl_send conn MsgPong None ""; mret CaNone
  else mret CaNone.

Definition cl_handleData (conn : Conn) (data : string) : CM client_action :=
  match (unmarshal data : result error Envelope) with
  | Err _ => mret CaNone
  | Ok env => cl_handleMessage conn env
  end.

Definition SendApprovalRequest (req : ApprovalRequestPayload) : CM (option error) :=
  conn ← st_get (fun s => cl_conn (cs_client s));
  match conn with
  | None => mret (Some (Errorf "not connected to gateway"))
  | Some conn => cl_send conn MsgApprovalRequest (Some (marshal req)) ""
  end.

Definition SendProgress (taskID : string) (progress : TaskProgress F) : CM (option error) :=
  conn ← st_get (fun s => cl_conn (cs_client s));
  match conn with
  | None => mret (Some (Errorf "not connected to gateway"))
  | Some conn => cl_send conn MsgTaskProgress (Some (marshal progress)) taskID
  end.

(** One tick of [heartbeatLoop]; [elapsed] renders a duration. *)
Definition cl_heartbeat `{!MapRange string Time} (elapsed : Duration -> string) (conn : Conn)
    : CM (option error) :=
  now ← cl_Now;
  c ← st_get cs_client;
  let tasks := map_range (cl_activeTaskIDs c) in
  cl_send conn MsgAgentHeartbeat
    (Some (marshal (mkHeartbeat (cl_activeTasks c) tasks.*1
       (map (fun '(id, startedAt) => mkTaskStateInfo id "running" (elapsed (now - startedAt)%Z))
          tasks)))) "".

(** ** Reconnecting *)

(** One round of [Run]: how [connectAndServe] ended, and whether the context was done
    after it or during the wait before it. *)
Record attempt := mkAttempt {
  at_canceled_waiting : bool;
  at_canceled : bool;
  at_connected : bool;
  at_err : error;
}.

(** The loop of [Run] after the first connection: the waits it made, in order.
    [connectAndServe] always ends with an error. *)
Fixpoint reconnect `{!Trunc F} (out : Z) (cfg : WSClientConfig) (n : Z) (rounds : list attempt)
    : list Duration :=
  match rounds with
  | [] => []
  | r :: rounds =>
      let n := (n + 1)%Z in
      backoff (F := F) out cfg n ::
      if at_canceled_waiting r || at_canceled r then []
      else reconnect out cfg (if at_connected r then 0%Z else n) rounds
  end.

(** [Run]: the first connection must succeed; [None] while the loop goes on. *)
Definition Run_first (first : attempt) : option error :=
  if at_canceled first then Some (Sentinel ErrCanceled)
  else if at_connected first then None
  else Some (Wrap "unable to connect to gateway" (at_err first)).
End client.

Arguments WSClient : clear implicits.
Arguments ClientState N : clear implicits.
Arguments client_action F : clear implicits.
