(* ===== verification/RoutingAgent.v ===== *)
(** * Local or remote: the routing agent

    [src/internal/agent/routing.go], with the adapter of
    [src/internal/gateway/ws/adapter.go].  The embedded agent and the websocket
    executor are interfaces: records of operations on a state [W].  The theorems about remote
    execution, from the routing agent to the client, are in the second part. *)

From S2P Require Import Prelude Conversation Agent Config Protocol AgentRegistry TaskTracker WsServer WsProps.
From S2P Require Import WsClient.

Record WSTaskResult := mkWSTaskResult {
  wr_Success : bool;
  wr_Output : string;
  wr_TokensUsed : Z;
  wr_Error : string;
}.

Section routing.
Context {F P W : Type} `{!ErrorText}.

(** The interface [Agent]. *)
Record AgentOps := mkAgentOps {
  ag_Process : Input -> st W (result error Response);
  ag_ExecuteTool : ToolRequest P -> st W (result error (ToolResponse F P));
  ag_ResumeWithApproval : string -> st W (result error (ToolResponse F P));
}.

(** The interface [WSTaskExecutor]. *)
Record WSTaskExecutor := mkWSExecutor {
  ws_ExecuteSync : string -> string -> F -> Duration -> st W (result error WSTaskResult);
  ws_ConnectedAgentCount : st W nat;
}.

Record RoutingAgent := mkRoutingAgent {
  ra_embedded : AgentOps;
  ra_ws : option WSTaskExecutor;
  ra_embeddedEnabled : bool;
  ra_embeddedFallback : bool;
  ra_budgetUSD : F;
  ra_timeout : Duration;
}.

Definition remote_timeout (r : RoutingAgent) : Duration :=
  if (ra_timeout r =? 0)%Z then (5 * Minute)%Z else ra_timeout r.

(** The end of [Process], when no remote agent answered. *)
Definition process_embedded (r : RoutingAgent) (input : Input) : st W (result error Response) :=
  if negb (ra_embeddedEnabled r) && negb (ra_embeddedFallback r)
  then mret (Err (Errorf "no agents available: embedded agent is disabled and no remote agents are connected"))
  else ag_Process (ra_embedded r) input.

Definition routing_Process (r : RoutingAgent) (input : Input) : st W (result error Response) :=
  match ra_ws r with
  | None => process_embedded r input
  | Some ws =>
      count ← ws_ConnectedAgentCount ws;
      if 0 <? count then
        res ← ws_ExecuteSync ws (in_UserID input) (in_Message input) (ra_budgetUSD r)
                (remote_timeout r);
        match res with
        | Ok res =>
            if negb (wr_Success res)
            then mret (Err (Errorf ("remote agent error: " +:+ wr_Error res)))
            else mret (Ok (mkResponse (wr_Output res) (wr_TokensUsed res) [] []))
        | Err err =>
            if negb (ra_embeddedFallback r)
            then mret (Err (Wrap "remote agent failed and embedded fallback is disabled" err))
            else process_embedded r input
        end
      else process_embedded r input
  end.

Definition routing_ExecuteTool (r : RoutingAgent) (req : ToolRequest P) :=
  ag_ExecuteTool (ra_embedded r) req.

Definition routing_ResumeWithApproval (r : RoutingAgent) (approvalID : string) :=
  ag_ResumeWithApproval (ra_embedded r) approvalID.

(** [AgentRouterAdapter.ExecuteSync]: the answer of the server in the agent's terms. *)
Definition adapter_result (res : result error SyncTaskResult) : result error WSTaskResult :=
  match res with
  | Err err => Err err
  | Ok r => Ok (mkWSTaskResult (sr_Success r) (sr_Output r) (sr_TokensUsed r) (sr_Error r))
  end.

(** ** What decides the route *)

(** The specification of [Process] by what the remote side answers: nothing when there
    is no server or no agent, the outcome of the dispatched task otherwise. *)
Inductive remote_answer :=
  | NoRemote
  | RemoteDone (res : WSTaskResult)
  | RemoteFailed (err : error).

Definition ask_remote (r : RoutingAgent) (input : Input) : st W remote_answer :=
  match ra_ws r with
  | None => mret NoRemote
  | Some ws =>
      count ← ws_ConnectedAgentCount ws;
      if 0 <? count then
        res ← ws_ExecuteSync ws (in_UserID input) (in_Message input) (ra_budgetUSD r)
                (remote_timeout r);
        mret (match res with Ok res => RemoteDone res | Err err => RemoteFailed err end)
      else mret NoRemote
  end.

(** The routing table.  A remote answer decides the request, success or failure,
    and the embedded agent is not asked; a remote dispatch that fails goes to the
    embedded agent exactly when the fallback is on; without remote agents the embedded
    agent answers exactly when it is enabled or a fallback; in every other case the
    request fails and the embedded agent does nothing. *)
Theorem routing_table r input w :
  routing_Process r input w =
  let '(answer, w1) := ask_remote r input w in
  match answer with
  | RemoteDone res =>
      (if wr_Success res then Ok (mkResponse (wr_Output res) (wr_TokensUsed res) [] [])
       else Err (Errorf ("remote agent error: " +:+ wr_Error res)), w1)
  | RemoteFailed err =>
      if ra_embeddedFallback r then ag_Process (ra_embedded r) input w1
      else (Err (Wrap "remote agent failed and embedded fallback is disabled" err), w1)
  | NoRemote =>
      if ra_embeddedEnabled r || ra_embeddedFallback r then ag_Process (ra_embedded r) input w1
      else (Err (Errorf "no agents available: embedded agent is disabled and no remote agents are connected"), w1)
  end.
Proof.
  unfold routing_Process, ask_remote, process_embedded, mbind, st_bind.
  destruct (ra_ws r) as [ws|].
  - destruct (ws_ConnectedAgentCount ws w) as [n w1]. destruct (0 <? n).
    + destruct (ws_ExecuteSync _ _ _ _ _ _) as [[res|err] w2]; simpl.
      * by destruct (wr_Success res).
      * destruct (ra_embeddedFallback r); simpl; [|done]. by rewrite andb_false_r.
    + simpl. by destruct (ra_embeddedEnabled r), (ra_embeddedFallback r).
  - simpl. by destruct (ra_embeddedEnabled r), (ra_embeddedFallback r).
Qed.

(** A request that goes to a remote agent loses its conversation.  When the
    dispatch does not fail, the response is the same for any two requests of a user
    with the same text, whatever conversations they belong to, and it never carries a
    pending approval. *)
Theorem remote_route_drops_conversation r input input' w w1 res :
  in_UserID input' = in_UserID input -> in_Message input' = in_Message input ->
  ask_remote r input w = (RemoteDone res, w1) ->
  routing_Process r input' w = routing_Process r input w /\
  match (routing_Process r input w).1 with
  | Ok rsp => rsp_ApprovalRequests rsp = []
  | Err _ => True
  end.
Proof.
  intros Hu Hm Ha.
  assert (ask_remote r input' w = ask_remote r input w) as Ha'
    by (unfold ask_remote; by rewrite Hu, Hm).
  assert (forall i, ask_remote r i w = (RemoteDone res, w1) -> routing_Process r i w =
    (if wr_Success res then Ok (mkResponse (wr_Output res) (wr_TokensUsed res) [] [])
     else Err (Errorf ("remote agent error: " +:+ wr_Error res)), w1)) as Hp.
  { intros i Hi. revert Hi. unfold routing_Process, ask_remote, mbind, st_bind.
    destruct (ra_ws r) as [ws|]; [|done]. destruct (ws_ConnectedAgentCount ws w) as [n w2].
    destruct (0 <? n); [|done].
    destruct (ws_ExecuteSync _ _ _ _ _ _) as [[x|err] w3]; [|done]. simpl.
    intros [= -> ->]. by destruct (wr_Success res). }
  rewrite (Hp input Ha), (Hp input') by congruence. split; [done|]. by destruct (wr_Success res).
Qed.
End routing.

Arguments AgentOps F P W : clear implicits.
Arguments WSTaskExecutor F W : clear implicits.
Arguments RoutingAgent F P W : clear implicits.

(** * Gateway and agent together

    What the two ends of a connection do with each other's messages ([WsServer],
    [WsClient]), and the waits of a client that reconnects. *)

(** ** Reconnection *)

(** The wait before a reconnection is the configured interval doubled at every
    attempt and capped at a minute, as long as the product fits in 63 bits; from the
    attempt where it does not, the wait is whatever the conversion of a float64 that
    is out of range gives, which on amd64 is negative: the client then retries without
    any wait. *)
Theorem backoff_exact {F} `{ExactNum F} `{!Trunc F} `{!TruncLaw F} out cfg n :
  (0 < wc_ReconnectInterval cfg)%Z -> (1 <= n)%Z ->
  backoff (F := F) out cfg n =
  let d := (wc_ReconnectInterval cfg * 2 ^ (n - 1))%Z in
  if (d <? 2 ^ 63)%Z then Z.min d (60 * Second) else Z.min out (60 * Second).
Proof.
  intros Hr Hn. unfold backoff, to_int64. cbv zeta.
  rewrite (ntrunc_exact _ (wc_ReconnectInterval cfg * 2 ^ (n - 1))).
  - assert (0 < 2 ^ (n - 1))%Z as Hp by (apply Z.pow_pos_nonneg; lia).
    assert (0 < wc_ReconnectInterval cfg * 2 ^ (n - 1))%Z as Hd by nia.
    revert Hd. generalize (wc_ReconnectInterval cfg * 2 ^ (n - 1))%Z as d. intros d Hd.
    change minInt64 with (-9223372036854775808)%Z. change maxInt with 9223372036854775807%Z.
    change (2 ^ 63)%Z with 9223372036854775808%Z. change (60 * Second)%Z with 60000000000%Z.
    destruct (-9223372036854775808 <=? d)%Z eqn:E1; [|lia].
    destruct (d <=? 9223372036854775807)%Z eqn:E2, (d <? 9223372036854775808)%Z eqn:E3;
      simpl; try lia; destruct (60000000000 <? _)%Z eqn:E4; lia.
  - rewrite toQ_mul, !toQ_ofZ. by rewrite inject_Z_mult.
Qed.

Section remote.
Context {F N : Type}.
Context `{!Num F} `{!WebSocket N} `{!ProtocolJson F} `{!ProtocolLaws F} `{!ErrorText}.
Context `{!MapRange string ConnectedAgent} `{!MapRange string (TrackedTask F)}.
Implicit Types (s : Server F N) (cs : ClientState N).

(** ** A task on its way out *)

Lemma cl_send_writes conn t p id cs :
  exists n i now,
    cs_net (cl_send conn t p id cs).2 =
      (conn_Write n conn (marshal (with_task (with_agent (NewEnvelope t p i now)
         (wc_AgentID (cl_cfg (cs_client cs)))) id))).2 /\
    cs_client (cl_send conn t p id cs).2 = cs_client cs.
Proof.
  unfold cl_send, cl_newEnvelope, cl_uuid, cl_Now, cl_agentID, cl_write.
  rewrite !st_bind_run. destruct (ws_uuid (cs_net cs)) as [i n1]. simpl.
  destruct (ws_now n1) as [now n2]. simpl. exists n2, i, now.
  match goal with |- context [conn_Write ?n ?c ?d] => by destruct (conn_Write n c d) end.
Qed.

(** The envelope of an assignment, as the server writes it. *)
Definition assign_envelope (a : ConnectedAgent) (x : TaskAssignment F) (i : string) (now : Time)
    : Envelope :=
  with_task (with_agent (NewEnvelope MsgTaskAssign (Some (marshal x)) i now)
    (ac_AgentID (ca_Info a))) (ta_TaskID x).

Lemma sendTask_writes a x s :
  (sendTaskToAgent a x s).1 = None ->
  exists n i now, sv_net (sendTaskToAgent a x s).2 = (ws_now (conn_Write n (ca_Conn a)
    (marshal (assign_envelope a x i now))).2).2.
Proof.
  unfold sendTaskToAgent. destruct (newEnvelope_state MsgTaskAssign (Some (marshal x)) s)
    as (n1 & Hn1 & i & now1 & Henv).
  rewrite st_bind_run, Hn1, Henv. simpl. rewrite st_bind_run. unfold writeEnvelope.
  change (with_task _ _) with (assign_envelope a x i now1).
  destruct (conn_Write (sv_net (set_net n1 s)) (ca_Conn a) (marshal (assign_envelope a x i now1)))
    as [[e|] n2] eqn:E; simpl in *; [done|]. intros _.
  exists n1, i, now1. rewrite E. unfold on_registry, on_tracker, time_Now. rewrite !st_bind_run.
  simpl. by destruct (ws_now n2).
Qed.

(** What the client makes of an assignment it receives. *)
Lemma client_accepts conn a x i now cs :
  (cl_handleData conn (marshal (assign_envelope a x i now)) cs).1 = CaStart x /\
  cl_activeTasks (cs_client (cl_handleData conn (marshal (assign_envelope a x i now)) cs).2) =
    (cl_activeTasks (cs_client cs) + 1)%Z.
Proof.
  unfold cl_handleData. rewrite unmarshal_marshal. unfold cl_handleMessage. simpl.
  unfold acceptTask, Decode. simpl. rewrite unmarshal_marshal.
  unfold cl_Now. rewrite !st_bind_run. simpl. destruct (ws_now (cs_net cs)) as [t n]. simpl.
  split; [done|].
  match goal with |- context [cl_send ?c ?ty ?p ?id ?s0] =>
    destruct (cl_send_writes c ty p id s0) as (n' & i' & now' & _ & ->) end. done.
Qed.

(** A request reaches its agent.  When [ExecuteSync] has dispatched a task, the
    connection of the agent it chose got a message that makes the client at the other
    end start exactly that task (the user, the text, the budget, the timeout in whole
    seconds), and the request waits under the task's identifier. *)
Theorem sync_request_delivered a userID message budgetUSD timeout s taskID ch :
  (ExecuteSync_send a userID message budgetUSD timeout s).1 = Ok (taskID, ch) ->
  let s' := (ExecuteSync_send a userID message budgetUSD timeout s).2 in
  sv_waiters s' !! taskID = Some ch /\
  exists n data, sv_net s' = (ws_now (conn_Write n (ca_Conn a) data).2).2 /\
    forall conn cs, (cl_handleData conn data cs).1 =
      CaStart (sync_assignment taskID userID message budgetUSD timeout).
Proof.
  unfold ExecuteSync_send, uuid_NewString. rewrite !st_bind_run.
  destruct (ws_uuid (sv_net s)) as [id n0]. unfold sync_register. rewrite !st_bind_run. simpl.
  match goal with |- context [sendTaskToAgent a ?x ?s0] =>
    pose proof (sendTask_writes a x s0) as Hw; pose proof (sendTask_channels a x s0) as Hc;
    destruct (sendTaskToAgent a x s0) as [[e|] s1] end; simpl in *; [done|].
  intros [= <- <-]. destruct Hc as (_ & Hwt & _). rewrite Hwt. split; [apply lookup_insert_eq|].
  destruct (Hw eq_refl) as (n & i & now & ->). eexists n, _. split; [done|].
  intros conn cs. by apply client_accepts.
Qed.

(** ** The answer on its way back *)

(** What a request gets for what the agent's handler answered. *)
Definition sync_result (outcome : result error (TaskResultPayload F)) : SyncTaskResult :=
  match outcome with
  | Ok res => mkSyncResult true (tr_Output res) (tr_TokensUsed res) ""
  | Err e => mkSyncResult false "" 0 (error_Error e)
  end.

Definition reply_envelope (agentID : string) (x : TaskAssignment F)
    (outcome : result error (TaskResultPayload F)) (i : string) (now : Time) : Envelope :=
  with_task (with_agent
    (match outcome with
     | Ok res => NewEnvelope MsgTaskResult (Some (marshal res)) i now
     | Err e =>
         NewEnvelope MsgTaskFailed
           (Some (marshal (mkTaskFailed (F := F) (error_Error e) 0 (nofZ 0)))) i now
     end) agentID) (ta_TaskID x).

Lemma finishTask_writes conn x outcome cs :
  exists n i now, cs_net (finishTask conn x (Some outcome) cs).2 =
    (conn_Write n conn (marshal
       (reply_envelope (wc_AgentID (cl_cfg (cs_client cs))) x outcome i now))).2.
Proof.
  unfold finishTask, sendTaskFailed, sendTaskResult. rewrite st_bind_run.
  destruct outcome as [res|e]; simpl;
    match goal with |- context [cl_send ?c ?t ?p ?id ?s0] =>
      destruct (cl_send_writes c t p id s0) as (n & i & now & Hn & _) end;
    exists n, i, now; exact Hn.
Qed.

Lemma reply_sent agentID agentID' x outcome i now s ch :
  sv_waiters s !! ta_TaskID x = Some ch ->
  sv_sent (handleData agentID (marshal (reply_envelope agentID' x outcome i now)) s).2 =
    sv_sent s ++ [(ch, sync_result outcome)].
Proof.
  intros Hw. unfold handleData. rewrite unmarshal_marshal. destruct outcome as [res|e].
  - apply (result_message agentID _ res); [done| |done]. unfold Decode. simpl.
    apply unmarshal_marshal.
  - unfold handleMessage. simpl. unfold Decode. simpl. rewrite unmarshal_marshal.
    rewrite !st_bind_run, drain_sent. unfold time_Now, sync_resolve. simpl.
    destruct (ws_now (sv_net s)) as [t n]. simpl. by rewrite Hw.
Qed.

Lemma received_new s ch r l :
  sv_sent s = l ++ [(ch, r)] -> ch ∉ l.*1 -> received ch s = Some r.
Proof.
  intros Hs Hn. unfold received. rewrite Hs. clear Hs. induction l as [|[c x] l IH]; simpl.
  { by rewrite N.eqb_refl. }
  destruct (N.eqb_spec c ch) as [->|Hne].
  - destruct Hn. apply elem_of_cons. by left.
  - apply IH. intros Hin. apply Hn. apply elem_of_cons. by right.
Qed.

(** An answer reaches its request.  Whatever happened in between, when the request
    of a task still waits and the agent's handler ends, the message the client writes
    makes the gateway answer that request with the handler's output and tokens, or with
    the text of its error. *)
Theorem sync_answer_delivered conn x outcome cs s ch agentID :
  channels_ok s -> sv_waiters s !! ta_TaskID x = Some ch ->
  exists n data, cs_net (finishTask conn x (Some outcome) cs).2 = (conn_Write n conn data).2 /\
    (ExecuteSync_wait (ta_TaskID x) ch SelResult (handleData agentID data s).2).1 =
      Some (Ok (sync_result outcome)).
Proof.
  intros [[Hnd _] _] Hw. destruct (finishTask_writes conn x outcome cs) as (n & i & now & Hn).
  eexists n, _. split; [exact Hn|]. unfold ExecuteSync_wait. rewrite st_bind_run. simpl.
  erewrite received_new; [done|by apply reply_sent|].
  apply NoDup_app in Hnd as (_ & Hd & _). apply Hd. apply list_elem_of_fmap.
  exists (ta_TaskID x, ch). split; [done|]. by apply elem_of_map_to_list.
Qed.
End remote.
