(* ===== verification/RemoteExamples.v ===== *)
(** * Runs of the gateway with remote agents

    A concrete codec and a concrete network, with the witnesses of the properties of
    [WsProps], [RoutingAgent]. *)

From Stdlib Require Import Ascii.
From S2P Require Import Prelude Protocol Config Conversation Agent AgentRegistry TaskTracker.
From S2P Require Import WsServer WsProps WsClient RoutingAgent.

(** ** A codec *)

Fixpoint pos_text (p : positive) : string :=
  match p with
  | xH => ""
  | xO p => String "0"%char (pos_text p)
  | xI p => String "1"%char (pos_text p)
  end.

Fixpoint text_pos (s : string) : positive :=
  match s with
  | EmptyString => xH
  | String c s => if Ascii.eqb c "1"%char then xI (text_pos s) else xO (text_pos s)
  end.

Lemma text_pos_text p : text_pos (pos_text p) = p.
Proof. induction p as [p IH|p IH|]; simpl; by rewrite ?IH. Qed.

(** Any countable type has an encoding as text. *)
Definition countable_json (A : Type) `{Countable A} : Json A := {|
  marshal a := pos_text (encode a);
  unmarshal s :=
    match decode (text_pos s) with
    | Some a => Ok a
    | None => Err (Errorf "invalid character")
    end
|}.

Lemma countable_law (A : Type) `{Countable A} : @JsonLaw A (countable_json A).
Proof. constructor. intros a. simpl. by rewrite text_pos_text, decode_encode. Qed.

Section codec.
Local Instance envelope_eq : EqDecision Envelope.
Proof. solve_decision. Defined.
Local Instance capabilities_eq : EqDecision AgentCapabilities.
Proof. solve_decision. Defined.
Local Instance state_info_eq : EqDecision TaskStateInfo.
Proof. solve_decision. Defined.
Local Instance heartbeat_eq : EqDecision HeartbeatPayload.
Proof. solve_decision. Defined.
Local Instance accepted_eq : EqDecision TaskAcceptedPayload.
Proof. solve_decision. Defined.
Local Instance progress_eq : EqDecision (TaskProgress Z).
Proof. solve_decision. Defined.
Local Instance result_payload_eq : EqDecision (TaskResultPayload Z).
Proof. solve_decision. Defined.
Local Instance failed_eq : EqDecision (TaskFailedPayload Z).
Proof. solve_decision. Defined.
Local Instance approval_request_eq : EqDecision ApprovalRequestPayload.
Proof. solve_decision. Defined.
Local Instance registered_eq : EqDecision RegisteredPayload.
Proof. solve_decision. Defined.
Local Instance assignment_eq : EqDecision (TaskAssignment Z).
Proof. solve_decision. Defined.
Local Instance approval_result_eq : EqDecision ApprovalResultPayload.
Proof. solve_decision. Defined.
Local Instance error_payload_eq : EqDecision ErrorPayload.
Proof. solve_decision. Defined.

Local Instance envelope_countable : Countable Envelope.
Proof.
  refine (inj_countable' (fun e => (env_Type e, env_ID e, env_AgentID e, env_TaskID e, env_Payload e,
    env_Timestamp e)) (fun '(a, b, c, d, e, f) => mkEnvelope a b c d e f) _). by intros [].
Defined.
Local Instance capabilities_countable : Countable AgentCapabilities.
Proof.
  refine (inj_countable' (fun x => (ac_AgentID x, ac_Skills x, ac_Model x, ac_MaxParallel x,
    ac_Version x)) (fun '(a, b, c, d, e) => mkCapabilities a b c d e) _). by intros [].
Defined.
Local Instance state_info_countable : Countable TaskStateInfo.
Proof.
  refine (inj_countable' (fun x => (ti_TaskID x, ti_State x, ti_Elapsed x))
    (fun '(a, b, c) => mkTaskStateInfo a b c) _). by intros [].
Defined.
Local Instance heartbeat_countable : Countable HeartbeatPayload.
Proof.
  refine (inj_countable' (fun x => (hb_ActiveTasks x, hb_TaskIDs x, hb_TaskStates x))
    (fun '(a, b, c) => mkHeartbeat a b c) _). by intros [].
Defined.
Local Instance accepted_countable : Countable TaskAcceptedPayload.
Proof. refine (inj_countable' ta_AcceptedTaskID mkAcceptedPayload _). by intros []. Defined.
Local Instance progress_countable : Countable (TaskProgress Z).
Proof.
  refine (inj_countable' (fun x => (pr_Message x, pr_TokensUsed x, pr_CostUSD x))
    (fun '(a, b, c) => mkTaskProgress a b c) _). by intros [].
Defined.
Local Instance result_payload_countable : Countable (TaskResultPayload Z).
Proof.
  refine (inj_countable' (fun x => (tr_Output x, tr_TokensUsed x, tr_CostUSD x, tr_ToolCalls x,
    tr_Duration x)) (fun '(a, b, c, d, e) => mkTaskResult a b c d e) _). by intros [].
Defined.
Local Instance failed_countable : Countable (TaskFailedPayload Z).
Proof.
  refine (inj_countable' (fun x => (tf_Error x, tf_TokensUsed x, tf_CostUSD x))
    (fun '(a, b, c) => mkTaskFailed a b c) _). by intros [].
Defined.
Local Instance approval_request_countable : Countable ApprovalRequestPayload.
Proof.
  refine (inj_countable' (fun x => (ap_ApprovalID x, ap_UserID x, ap_ToolName x, ap_Parameters x,
    ap_RiskLevel x)) (fun '(a, b, c, d, e) => mkApprovalRequestPayload a b c d e) _). by intros [].
Defined.
Local Instance registered_countable : Countable RegisteredPayload.
Proof. refine (inj_countable' rp_Message mkRegistered _). by intros []. Defined.
Local Instance assignment_countable : Countable (TaskAssignment Z).
Proof.
  refine (inj_countable' (fun x => (ta_TaskID x, ta_WorkflowID x, ta_UserID x, ta_Goal x,
    ta_SkillName x, ta_Context x, ta_BudgetUSD x, ta_TimeoutSecs x))
    (fun '(a, b, c, d, e, f, g, h) => mkAssignment a b c d e f g h) _). by intros [].
Defined.
Local Instance approval_result_countable : Countable ApprovalResultPayload.
Proof.
  refine (inj_countable' (fun x => (ar_ApprovalID x, ar_Decision x, ar_ApproverID x))
    (fun '(a, b, c) => mkApprovalResult a b c) _). by intros [].
Defined.
Local Instance error_payload_countable : Countable ErrorPayload.
Proof.
  refine (inj_countable' (fun x => (ep_Code x, ep_Message x))
    (fun '(a, b) => mkErrorPayload a b) _). by intros [].
Defined.

#[global] Instance text_codec : ProtocolJson Z := {
  json_envelope := countable_json _;
  json_capabilities := countable_json _;
  json_heartbeat := countable_json _;
  json_accepted := countable_json _;
  json_progress := countable_json _;
  json_result := countable_json _;
  json_failed := countable_json _;
  json_approval_request := countable_json _;
  json_registered := countable_json _;
  json_assignment := countable_json _;
  json_approval_result := countable_json _;
  json_error_payload := countable_json _;
}.

#[global] Instance text_laws : ProtocolLaws Z.
Proof. split; apply countable_law. Defined.
End codec.

(** ** A network *)

(** A clock that ticks at every reading, identifiers numbered in unary, the
    connections that are gone and what was written. *)
Record Net := mkNet {
  nt_clock : Time;
  nt_ids : string;
  nt_dead : list Conn;
  nt_log : list (Conn * string);
}.

#[export] Instance net_socket : WebSocket Net := {
  ws_now n := (nt_clock n, mkNet (nt_clock n + 1)%Z (nt_ids n) (nt_dead n) (nt_log n));
  ws_uuid n := (nt_ids n, mkNet (nt_clock n) ("i" +:+ nt_ids n) (nt_dead n) (nt_log n));
  conn_Write n c d :=
    if decide (c ∈ nt_dead n) then (Some (Errorf "use of closed connection"), n)
    else (None, mkNet (nt_clock n) (nt_ids n) (nt_dead n) (nt_log n ++ [(c, d)]));
  conn_Close n c := mkNet (nt_clock n) (nt_ids n) (c :: nt_dead n) (nt_log n);
}.

#[export] Instance net_laws : WebSocketLaws Net.
Proof.
  refine {| conn_dead n c := c ∈ nt_dead n |}; intros n c; simpl.
  - intros d Hd. by rewrite decide_True.
  - intros c' d Hd. by destruct (decide (c' ∈ nt_dead n)).
  - done.
  - done.
  - intros c' Hd. rewrite elem_of_cons. destruct Hd as [?| ->]; [by right|by left].
Defined.

#[export] Instance Z_num : Num Z := {
  nofZ := fun z => z; nadd := Z.add; nsub := Z.sub; nmul := Z.mul; ndiv := Z.quot;
  nltb := Z.ltb; nleb := Z.leb;
}.
#[export] Instance plain_errors : ErrorText :=
  { error_Error e := match e with Errorf m => m | Wrap m _ => m | _ => "" end }.

Definition net0 : Net := mkNet 100%Z "id" [] [].
Definition agent1 : ConnectedAgent := new_agent caps1 7%N 10%Z.
Definition one_agent : Registry := {["a1" := agent1]}.
Definition task1 : TaskAssignment Z := mkAssignment "t1" "" "u" "restart" "" ∅ 5%Z 60%Z.

(** The gateway with one agent that runs [task1], for which a request waits. *)
Definition running1 : Server Z Net :=
  mkServer (IncrementTasks one_agent "a1")
    (Track (NewTaskTracker 0%Z) task1 "a1" 50%Z) [] {["t1" := 0%N]} ∅ [] [] 1%N net0.

(** The same, behind a connection that is gone. *)
Definition gone1 : Server Z Net := set_net (mkNet 100%Z "id" [7%N] []) running1.

Definition result1 : TaskResultPayload Z := mkTaskResult "done" 12%Z 0%Z 1%Z "3s".

(** ** Witnesses *)

Lemma backoff_exact_witness :
  let cfg := with_defaults (mkWSClientConfig "ws://gw" "" "a1" [] "m" 0%Z "1.0" 0%Z 0%Z) in
  backoff (F := Q) minInt64 cfg 3%Z = (20 * Second)%Z /\
  backoff (F := Q) minInt64 cfg 6%Z = (60 * Second)%Z /\
  backoff (F := Q) minInt64 cfg 32%Z = minInt64.
Proof.
  cbv zeta. split_and!.
  - rewrite (backoff_exact (F := Q) minInt64 _ 3%Z) by (vm_compute; done). vm_compute. done.
  - rewrite (backoff_exact (F := Q) minInt64 _ 6%Z) by (vm_compute; done). vm_compute. done.
  - rewrite (backoff_exact (F := Q) minInt64 _ 32%Z) by (vm_compute; done). vm_compute. done.
Defined.

(** On binary64 with the conversion of amd64: the thirty-second wait is negative. *)
Example backoff_overflows :
  let cfg := with_defaults (mkWSClientConfig "ws://gw" "" "a1" [] "m" 0%Z "1.0" 0%Z 0%Z) in
  map (backoff (F := f64) minInt64 cfg) [1; 2; 3; 4; 5; 31; 32; 1100]%Z =
  [5 * Second; 10 * Second; 20 * Second; 40 * Second; 60 * Second; 60 * Second;
   minInt64; minInt64]%Z.
Proof. vm_compute. done. Qed.

Lemma disconnect_loses_tasks_witness :
  let s' := (handleDisconnect "a1" 7%N gone1).2 in
  sv_registry s' = ∅ /\ sv_pending s' = [] /\
  state_of (sv_tracker s') "t1" = Some TaskFailed.
Proof.
  destruct (disconnect_loses_tasks "a1"
    (set_activity agent1 1 10%Z AgentBusy) gone1) as (H1 & H2 & H3).
  - done.
  - split_and!; [by vm_compute| | |done|by apply elem_of_cons; left].
    + split_and!; [done|by right|set_solver].
    + by vm_compute.
  - intros i k Hk. simpl in Hk. apply lookup_insert_Some in Hk as [[<- <-]|[_ Hk]]; [done|].
    by rewrite lookup_empty in Hk.
  - split_and!; [exact H1|exact H2|]. apply (H3 (mkTracked "t1" "a1" task1 TaskDispatched 50%Z
      time_zero time_zero time_zero "")). apply elem_of_TasksForAgent. split_and!; [|done|done].
    exists "t1". done.
Defined.

Definition foreign_result : Envelope :=
  with_task (NewEnvelope MsgTaskResult (Some (marshal result1)) "m1" 0%Z) "t1".

Lemma any_agent_may_answer_witness :
  (0%N, mkSyncResult true "done" 12%Z "") ∈ sv_sent (handleMessage "a2" foreign_result running1).2.
Proof.
  apply (any_agent_may_answer "a2" foreign_result result1 running1 0%N).
  - done.
  - unfold Decode, foreign_result. apply unmarshal_marshal.
  - done.
Defined.

Definition send1 := ExecuteSync_send agent1 "u" "restart" 5%Z (60 * Second)%Z
  (NewServer one_agent None net0 : Server Z Net).

Lemma sync_request_delivered_witness :
  sv_waiters send1.2 !! "id" = Some 0%N /\
  exists n data, sv_net send1.2 = (ws_now (conn_Write n 7%N data).2).2 /\
    forall conn cs, (cl_handleData conn data cs).1 =
      CaStart (sync_assignment "id" "u" "restart" 5%Z (60 * Second)%Z).
Proof.
  apply (sync_request_delivered agent1 "u" "restart" 5%Z (60 * Second)%Z
    (NewServer one_agent None net0) "id" 0%N). vm_compute. done.
Defined.

Definition client1 : ClientState Net :=
  mkClientState (NewWSClient (mkWSClientConfig "ws://gw" "" "a1" [] "m" 0%Z "1.0" 0%Z 0%Z)) net0.

Lemma sync_answer_delivered_witness :
  exists n data, cs_net (finishTask 7%N task1 (Some (Ok result1)) client1).2 = (conn_Write n 7%N data).2 /\
    (ExecuteSync_wait "t1" 0%N SelResult (handleData "a1" data running1).2).1 =
      Some (Ok (mkSyncResult true "done" 12%Z "")).
Proof.
  apply (sync_answer_delivered 7%N task1 (Ok result1) client1 running1 0%N "a1"); [|done].
  split; (split; [apply (bool_decide_unpack _); vm_compute; exact I|]).
  - repeat constructor.
  - constructor.
Defined.

(** A gateway whose remote agent answers every request with the same text. *)
Definition remote1 : RoutingAgent Z nat unit :=
  mkRoutingAgent
    (mkAgentOps (fun _ => mret (Err (Errorf "embedded"))) (fun _ => mret (Err (Errorf "embedded")))
       (fun _ => mret (Err (Errorf "embedded"))))
    (Some (mkWSExecutor (fun _ m _ _ => mret (Ok (mkWSTaskResult true m 3%Z ""))) (mret 1)))
    true true 5%Z 0%Z.

Lemma remote_route_drops_conversation_witness :
  routing_Process remote1 (mkInput "u" "hello" "c1" "conv-1") tt =
  routing_Process remote1 (mkInput "u" "hello" "c2" "conv-2") tt.
Proof.
  destruct (remote_route_drops_conversation remote1 (mkInput "u" "hello" "c1" "conv-1")
    (mkInput "u" "hello" "c2" "conv-2") tt tt (mkWSTaskResult true "hello" 3%Z "")) as [-> _]; done.
Defined.

(** Two requests routed before either is sent: the agent with room for two tasks gets
    three. *)
Example capacity_overrun :
  let s0 : Server Z Net :=
    NewServer (IncrementTasks one_agent "a1") None net0 in
  match (ExecuteSync_route s0).1, (ExecuteSync_route s0).1 with
  | Ok a, Ok b =>
      let s1 := (ExecuteSync_send a "u" "x" 1%Z Minute s0).2 in
      let s2 := (ExecuteSync_send b "v" "y" 1%Z Minute s1).2 in
      (ac_MaxParallel (ca_Info a), ca_ActiveTasks <$> sv_registry s2 !! "a1") = (2%Z, Some 3%Z)
  | _, _ => False
  end.
Proof. vm_compute. done. Qed.

(** After a reconnection the task already running on the new connection is failed and
    sent a second time when the old connection's handler ends. *)
Example reconnection_runs_twice :
  let s0 : Server Z Net := NewServer (Register one_agent caps1 8%N 20%Z) None net0 in
  let s1 := (AssignTask task1 s0).2 in
  let s2 := (handleDisconnect "a1" 7%N s1).2 in
  (map fst (nt_log (sv_net s2)), ca_ActiveTasks <$> sv_registry s2 !! "a1") =
  ([8%N; 8%N], Some 2%Z).
Proof. vm_compute. done. Qed.
