(* ===== verification/WorkflowTypes.v ===== *)
(** * Workflow data

    [src/internal/orchestrator/types.go] and the agent input and output of
    [interfaces.go].  Amounts are any numeric type [F]; metadata is dropped. *)

From S2P Require Import Prelude.

(** A role is a string: a planner's answer may carry any. *)
Definition AgentRole : Type := string.
Definition RoleOrchestrator : AgentRole := "orchestrator".
Definition RolePlanner : AgentRole := "planner".
Definition RoleResearcher : AgentRole := "researcher".
Definition RoleExecutor : AgentRole := "executor".
Definition RoleCompliance : AgentRole := "compliance".
Definition RoleDiagnostician : AgentRole := "diagnostician".

Inductive WorkflowStatus :=
  | WorkflowPending | WorkflowRunning | WorkflowCompleted | WorkflowFailed | WorkflowCancelled.
#[export] Instance WorkflowStatus_eq_dec : EqDecision WorkflowStatus.
Proof. solve_decision. Defined.

Inductive TaskStatus :=
  | TaskPending | TaskBlocked | TaskRunning | TaskCompleted | TaskFailed | TaskRecovering
  | TaskSkipped.
#[export] Instance TaskStatus_eq_dec : EqDecision TaskStatus.
Proof. solve_decision. Defined.

Definition TaskMode : Type := string.
Definition TaskModeSequential : TaskMode := "sequential".
Definition TaskModeParallel : TaskMode := "parallel".

Inductive MessageType :=
  | MsgTaskAssignment | MsgTaskResult | MsgInfoRequest | MsgInfoResponse | MsgComplianceCheck
  | MsgComplianceResult | MsgPlanProposal | MsgRecoveryPlan | MsgRecoveryResult | MsgError.
#[export] Instance MessageType_eq_dec : EqDecision MessageType.
Proof. solve_decision. Defined.

Section types.
Context {F : Type}.

Record Workflow := mkWorkflow {
  wf_ID : uuid;
  wf_OrgID : uuid;
  wf_UserID : string;
  wf_CorrelationID : string;
  wf_Goal : string;
  wf_Status : WorkflowStatus;
  wf_RootTaskID : option uuid;
  wf_BudgetLimitUSD : F;
  wf_BudgetSpentUSD : F;
  wf_MaxDepth : Z;
  wf_MaxTasks : Z;
  wf_TaskCount : Z;
  wf_CreatedAt : Time;
  wf_UpdatedAt : Time;
  wf_CompletedAt : option Time;
  wf_Error : string;
}.

Record Task := mkTask {
  tk_ID : uuid;
  tk_WorkflowID : uuid;
  tk_OrgID : uuid;
  tk_ParentTaskID : option uuid;
  tk_AgentRole : AgentRole;
  tk_Description : string;
  tk_Input : string;
  tk_Output : string;
  tk_Status : TaskStatus;
  tk_Mode : TaskMode;
  tk_Depth : Z;
  tk_Priority : Z;
  tk_DependsOn : list uuid;
  tk_CreatedAt : Time;
  tk_UpdatedAt : Time;
  tk_StartedAt : option Time;
  tk_CompletedAt : option Time;
  tk_Error : string;
  tk_CostUSD : F;
  tk_TokensUsed : Z;
  tk_ClaimedBy : string;
  tk_ClaimedAt : option Time;
  tk_RetryCount : Z;
  tk_MaxRetries : Z;
  tk_OriginalTaskID : option uuid;
}.

Record AgentMessage := mkAgentMessage {
  am_ID : uuid;
  am_WorkflowID : uuid;
  am_FromTaskID : uuid;
  am_ToTaskID : option uuid;
  am_FromRole : AgentRole;
  am_ToRole : AgentRole;
  am_MessageType : MessageType;
  am_Content : string;
  am_CorrelationID : string;
  am_CreatedAt : Time;
}.

Record TaskSpec := mkTaskSpec {
  sp_AgentRole : AgentRole;
  sp_Description : string;
  sp_Input : string;
  sp_Mode : TaskMode;
  sp_DependsOn : list Z;
  sp_Priority : Z;
}.

Record AgentInput := mkAgentInput {
  ai_WorkflowID : uuid;
  ai_TaskID : uuid;
  ai_UserID : string;
  ai_CorrelationID : string;
  ai_Messages : list AgentMessage;
  ai_Instruction : string;
}.

Record AgentOutput := mkAgentOutput {
  ao_Response : string;
  ao_TokensUsed : Z;
  ao_CostUSD : F;
}.

(** Assignments to the fields the scheduler changes. *)
Definition with_status (t : Task) (s : TaskStatus) (now : Time) : Task :=
  mkTask (tk_ID t) (tk_WorkflowID t) (tk_OrgID t) (tk_ParentTaskID t) (tk_AgentRole t)
    (tk_Description t) (tk_Input t) (tk_Output t) s (tk_Mode t) (tk_Depth t) (tk_Priority t)
    (tk_DependsOn t) (tk_CreatedAt t) now (tk_StartedAt t) (tk_CompletedAt t) (tk_Error t)
    (tk_CostUSD t) (tk_TokensUsed t) (tk_ClaimedBy t) (tk_ClaimedAt t) (tk_RetryCount t)
    (tk_MaxRetries t) (tk_OriginalTaskID t).
End types.

Arguments Workflow F : clear implicits.
Arguments Task F : clear implicits.
Arguments AgentOutput F : clear implicits.
