(* ===== verification/Skill.v ===== *)
(** * Skills of the roles

    [src/internal/orchestrator/skill.go]: what a role's past tasks tell about it
    ([RecordCompletion]), the score of a task ([ScoreTasks]) and the order it gives
    ready tasks ([reorderBySkillScore] of [scheduler.go]), over the in-memory skill
    store of [memory_store.go]. *)

From S2P Require Import Prelude WorkflowTypes.

Inductive SkillMaturity := SkillBasic | SkillProven | SkillTrusted | SkillOptimized.
#[export] Instance SkillMaturity_eq_dec : EqDecision SkillMaturity.
Proof. solve_decision. Defined.

Definition maturityRank (m : SkillMaturity) : Z :=
  match m with SkillBasic => 0 | SkillProven => 1 | SkillTrusted => 2 | SkillOptimized => 3 end%Z.

Section skill.
Context {F : Type} `{Num F} `{Render}.
Local Open Scope go_scope.

Definition maturityBonus (m : SkillMaturity) : F :=
  match m with
  | SkillBasic => nofZ 0
  | SkillProven => nlit 25 100
  | SkillTrusted => nlit 50 100
  | SkillOptimized => nofZ 1
  end.

(** The last six fields come from skill files. *)
Record AgentSkill := mkSkill {
  sk_ID : uuid;
  sk_OrgID : uuid;
  sk_AgentRole : AgentRole;
  sk_SkillKey : string;
  sk_SuccessCount : Z;
  sk_FailureCount : Z;
  sk_AvgDurationMS : F;
  sk_AvgCostUSD : F;
  sk_ReliabilityScore : F;
  sk_MaturityLevel : SkillMaturity;
  sk_LastUpdatedAt : Time;
  sk_CreatedAt : Time;
  sk_Name : string;
  sk_Category : string;
  sk_ToolsRequired : list string;
  sk_RiskLevel : string;
  sk_DefaultBudget : F;
  sk_Description : string;
}.

Definition totalCompletions (s : AgentSkill) : Z := (sk_SuccessCount s + sk_FailureCount s)%Z.

(** ** The in-memory skill store *)

Record InMemorySkillStore := mkSkillStore { ss_skills : gmap string AgentSkill }.

Definition NewInMemorySkillStore : InMemorySkillStore := mkSkillStore ∅.

Definition skillMapKey (orgID : uuid) (role : AgentRole) (skillKey : string) : string :=
  uuid_String orgID +:+ ":" +:+ role +:+ ":" +:+ skillKey.

Definition GetSkill (st : InMemorySkillStore) (orgID : uuid) (role : AgentRole) (skillKey : string)
    : result error AgentSkill :=
  match ss_skills st !! skillMapKey orgID role skillKey with
  | None => Err (Errorf "skill not found")
  | Some s => Ok s
  end.

Definition UpsertSkill (st : InMemorySkillStore) (s : AgentSkill) : InMemorySkillStore :=
  mkSkillStore (<[skillMapKey (sk_OrgID s) (sk_AgentRole s) (sk_SkillKey s) := s]> (ss_skills st)).

Context `{!MapRange string AgentSkill}.

Definition ListSkillsByRole (st : InMemorySkillStore) (orgID : uuid) (role : AgentRole)
    : list AgentSkill :=
  (List.filter (fun kv => has_prefix kv.1 (uuid_String orgID +:+ ":" +:+ role +:+ ":"))
     (map_range (ss_skills st))).*2.

(** ** Recording a completion *)

Definition emaAlpha : F := nlit 1 10.

Definition ema (old new : F) : F := emaAlpha *f new +f nlit 9 10 *f old.

Definition computeMaturity (total : Z) (reliability : F) : SkillMaturity :=
  if (100 <=? total)%Z && (reliability >=f? nlit 95 100) then SkillOptimized
  else if (50 <=? total)%Z && (reliability >=f? nlit 85 100) then SkillTrusted
  else if (10 <=? total)%Z && (reliability >=f? nlit 70 100) then SkillProven
  else SkillBasic.

Definition skillKeyForTask (t : Task F) : string := tk_AgentRole t.

Definition new_skill (id orgID : uuid) (role : AgentRole) (skillKey : string) (now : Time) : AgentSkill :=
  mkSkill id orgID role skillKey 0 0 (nofZ 0) (nofZ 0) (nofZ 0) SkillBasic time_zero now
    "" "" [] "" (nofZ 0) "".

(** The update of a skill by one completion. *)
Definition record_one (s : AgentSkill) (durationMS costUSD : F) (success : bool) (now : Time)
    : AgentSkill :=
  let ok := if success then (sk_SuccessCount s + 1)%Z else sk_SuccessCount s in
  let bad := if success then sk_FailureCount s else (sk_FailureCount s + 1)%Z in
  let total := (ok + bad)%Z in
  let duration :=
    if success then if (total =? 1)%Z then durationMS else ema (sk_AvgDurationMS s) durationMS
    else sk_AvgDurationMS s in
  let cost :=
    if success then if (total =? 1)%Z then costUSD else ema (sk_AvgCostUSD s) costUSD
    else sk_AvgCostUSD s in
  let reliability := if (0 <? total)%Z then nofZ ok /f nofZ total else sk_ReliabilityScore s in
  let newMaturity := computeMaturity total reliability in
  let maturity :=
    if (maturityRank (sk_MaturityLevel s) <? maturityRank newMaturity)%Z then newMaturity
    else sk_MaturityLevel s in
  mkSkill (sk_ID s) (sk_OrgID s) (sk_AgentRole s) (sk_SkillKey s) ok bad duration cost reliability
    maturity now (sk_CreatedAt s)
    (sk_Name s) (sk_Category s) (sk_ToolsRequired s) (sk_RiskLevel s) (sk_DefaultBudget s) (sk_Description s).

Definition RecordCompletion (st : InMemorySkillStore) (orgID : uuid) (t : Task F)
    (durationMS costUSD : F) (success : bool) (id : uuid) (now : Time) : InMemorySkillStore :=
  let key := skillKeyForTask t in
  let skill :=
    match GetSkill st orgID (tk_AgentRole t) key with
    | Ok s => s
    | Err _ => new_skill id orgID (tk_AgentRole t) key now
    end in
  UpsertSkill st (record_one skill durationMS costUSD success now).

(** ** Scoring tasks *)

Record SkillWeights := mkWeights {
  sw_Reliability : F; sw_Speed : F; sw_Cost : F; sw_Maturity : F;
}.

Definition DefaultSkillWeights : SkillWeights :=
  mkWeights (nlit 40 100) (nlit 25 100) (nlit 20 100) (nlit 15 100).

Record SkillScore := mkScore { sc_TaskID : uuid; sc_Score : F }.

Record SkillScorer := mkScorer { sr_store : InMemorySkillStore; sr_weights : SkillWeights }.

Definition skill_of (s : SkillScorer) (orgID : uuid) (t : Task F) : option AgentSkill :=
  match GetSkill (sr_store s) orgID (tk_AgentRole t) (skillKeyForTask t) with
  | Ok sk => Some sk
  | Err _ => None
  end.

(** The running maximum [if x > max { max = x }]. *)
Definition fmax (m x : F) : F := if x >f? m then x else m.
Definition max_of (f : AgentSkill -> F) (items : list (Task F * option AgentSkill)) : F :=
  fold_left (fun m item => match item.2 with Some sk => fmax m (f sk) | None => m end) items (nofZ 0).

Definition normalized (x m : F) : F := if m >f? nofZ 0 then x /f m else nofZ 0.

Definition score_item (w : SkillWeights) (maxDuration maxCost : F) (item : Task F * option AgentSkill)
    : SkillScore :=
  match item.2 with
  | None => mkScore (tk_ID item.1) (nlit 5 10)
  | Some sk =>
      mkScore (tk_ID item.1)
        (sw_Reliability w *f sk_ReliabilityScore sk
         +f sw_Speed w *f (nofZ 1 -f normalized (sk_AvgDurationMS sk) maxDuration)
         +f sw_Cost w *f (nofZ 1 -f normalized (sk_AvgCostUSD sk) maxCost)
         +f sw_Maturity w *f maturityBonus (sk_MaturityLevel sk))
  end.

Definition ScoreTasks (s : SkillScorer) (orgID : uuid) (tasks : list (Task F)) : list SkillScore :=
  let items := map (fun t => (t, skill_of s orgID t)) tasks in
  map (score_item (sr_weights s) (max_of sk_AvgDurationMS items) (max_of sk_AvgCostUSD items)) items.

(** ** Ordering ready tasks *)

(** [scoreMap[id]], zero when there is no score. *)
Definition score_of (scores : list SkillScore) (id : uuid) : F :=
  default (nofZ 0)
    ((list_to_map (reverse (map (fun sc => (sc_TaskID sc, sc_Score sc)) scores)) : gmap uuid F) !! id).

Definition skill_less (scores : list SkillScore) (a b : Task F) : bool :=
  if negb (tk_Priority a =? tk_Priority b)%Z then (tk_Priority a <? tk_Priority b)%Z
  else score_of scores (tk_ID a) >f? score_of scores (tk_ID b).

(** [sort.SliceStable] is a stable sort; so is [insertion_sort]. *)
Definition reorderBySkillScore (s : SkillScorer) (orgID : uuid) (tasks : list (Task F))
    : list (Task F) :=
  match ScoreTasks s orgID tasks with
  | [] => tasks
  | scores => insertion_sort (skill_less scores) tasks
  end.
End skill.

Arguments AgentSkill F : clear implicits.
Arguments InMemorySkillStore F : clear implicits.
Arguments SkillScorer F : clear implicits.
Arguments SkillScore F : clear implicits.

(** ** Lemmas and properties *)

Lemma reorder_perm {F} `{Num F} `{Render} (s : SkillScorer F) orgID (tasks : list (Task F)) :
  reorderBySkillScore s orgID tasks ≡ₚ tasks.
Proof. unfold reorderBySkillScore. destruct (ScoreTasks _ _ _); [done|]. apply insertion_sort_perm. Qed.

Section properties.
Context {F : Type} `{ExactNum F} `{Render}.
Implicit Types (st : InMemorySkillStore F) (sk : AgentSkill F).

(** A skill whose reliability is a share and whose averages are not negative. *)
Record sane sk : Prop := {
  sn_success : (0 <= sk_SuccessCount sk)%Z;
  sn_failure : (0 <= sk_FailureCount sk)%Z;
  sn_reliability : (0 <= toQ (sk_ReliabilityScore sk) <= 1)%Q;
  sn_duration : (0 <= toQ (sk_AvgDurationMS sk))%Q;
  sn_cost : (0 <= toQ (sk_AvgCostUSD sk))%Q;
}.

Lemma toQ_lit n d : (toQ (F:=F) (nlit n d) == inject_Z n / inject_Z d)%Q.
Proof. unfold nlit. by rewrite toQ_div, !toQ_ofZ. Qed.

Lemma ema_exact old new : (toQ (F:=F) (ema old new) == (1 # 10) * toQ new + (9 # 10) * toQ old)%Q.
Proof.
  unfold ema, emaAlpha. rewrite toQ_add, !toQ_mul, !toQ_lit. unfold inject_Z. field.
Qed.

Lemma share_range (a t : Z) : (0 <= a <= t)%Z -> (0 < t)%Z ->
  (0 <= inject_Z a / inject_Z t <= 1)%Q.
Proof.
  intros [Ha Hat] Ht. assert (0 < inject_Z t)%Q as Htq by (rewrite (Zlt_Qlt 0 t) in Ht; exact Ht).
  rewrite Zle_Qle in Ha, Hat. split.
  - apply Qle_shift_div_l; [done|]. rewrite Qmult_0_l. exact Ha.
  - apply Qle_shift_div_r; [done|]. rewrite Qmult_1_l. exact Hat.
Qed.

Lemma record_one_counts sk d c ok now :
  sk_SuccessCount (record_one sk d c ok now) = (sk_SuccessCount sk + if ok then 1 else 0)%Z /\
  sk_FailureCount (record_one sk d c ok now) = (sk_FailureCount sk + if ok then 0 else 1)%Z.
Proof. destruct ok; simpl; lia. Qed.

Lemma record_one_reliability sk d c ok now :
  sane sk ->
  (toQ (sk_ReliabilityScore (record_one sk d c ok now)) ==
   inject_Z (sk_SuccessCount (record_one sk d c ok now)) /
   inject_Z (totalCompletions (record_one sk d c ok now)))%Q.
Proof.
  intros [Hs Hf _ _ _]. unfold totalCompletions. simpl.
  destruct (Z.ltb_spec 0 ((if ok then sk_SuccessCount sk + 1 else sk_SuccessCount sk) +
                          (if ok then sk_FailureCount sk else sk_FailureCount sk + 1))%Z).
  - by rewrite toQ_div, !toQ_ofZ.
  - destruct ok; lia.
Qed.

Lemma record_one_sane sk d c ok now :
  sane sk -> (0 <= toQ d)%Q -> (0 <= toQ c)%Q -> sane (record_one sk d c ok now).
Proof.
  intros Hsane Hd Hc. pose proof Hsane as [Hs Hf Hr Hav Hco].
  destruct (record_one_counts sk d c ok now) as [Es Ef]. split.
  - rewrite Es. destruct ok; lia.
  - rewrite Ef. destruct ok; lia.
  - rewrite record_one_reliability by done. unfold totalCompletions. rewrite Es, Ef.
    apply share_range; destruct ok; lia.
  - simpl. destruct ok; [|done]. destruct (_ =? 1)%Z; [done|]. rewrite ema_exact. lra.
  - simpl. destruct ok; [|done]. destruct (_ =? 1)%Z; [done|]. rewrite ema_exact. lra.
Qed.

Lemma record_one_maturity sk d c ok now :
  let sk' := record_one sk d c ok now in
  (maturityRank (sk_MaturityLevel sk) <= maturityRank (sk_MaturityLevel sk'))%Z /\
  (maturityRank (computeMaturity (totalCompletions sk') (sk_ReliabilityScore sk')) <=
   maturityRank (sk_MaturityLevel sk'))%Z.
Proof.
  unfold totalCompletions. cbn -[computeMaturity maturityRank].
  match goal with |- context [(maturityRank ?a <? ?b)%Z] =>
    destruct (Z.ltb_spec (maturityRank a) b) end; lia.
Qed.

(** ** A history of completions *)

Record completion := mkCompletion {
  cp_org : uuid; cp_task : Task F; cp_duration : F; cp_cost : F; cp_ok : bool;
  cp_id : uuid; cp_now : Time;
}.

Definition key_of (e : completion) : string :=
  skillMapKey (cp_org e) (tk_AgentRole (cp_task e)) (skillKeyForTask (cp_task e)).

Definition record_event st (e : completion) : InMemorySkillStore F :=
  RecordCompletion st (cp_org e) (cp_task e) (cp_duration e) (cp_cost e) (cp_ok e) (cp_id e) (cp_now e).

Definition record_all st (l : list completion) : InMemorySkillStore F := fold_left record_event l st.

Definition nonneg (e : completion) : Prop := (0 <= toQ (cp_duration e))%Q /\ (0 <= toQ (cp_cost e))%Q.

(** The skill a completion updates. *)
Definition before st (e : completion) : AgentSkill F :=
  match ss_skills st !! key_of e with
  | Some sk => sk
  | None => new_skill (cp_id e) (cp_org e) (tk_AgentRole (cp_task e)) (skillKeyForTask (cp_task e)) (cp_now e)
  end.

Definition own_key (k : string) sk : Prop :=
  skillMapKey (sk_OrgID sk) (sk_AgentRole sk) (sk_SkillKey sk) = k.

Lemma new_skill_sane id org role key now : sane (new_skill id org role key now).
Proof. split; simpl; [lia|lia| | |]; rewrite toQ_ofZ; unfold inject_Z; lra. Qed.

Lemma record_event_skills st e :
  map_Forall own_key (ss_skills st) ->
  ss_skills (record_event st e) =
    <[key_of e := record_one (before st e) (cp_duration e) (cp_cost e) (cp_ok e) (cp_now e)]> (ss_skills st).
Proof.
  intros Hk. unfold record_event, RecordCompletion, GetSkill, before. fold (key_of e).
  destruct (ss_skills st !! key_of e) as [sk|] eqn:E; [|done].
  unfold UpsertSkill. simpl. by rewrite (Hk _ _ E).
Qed.

Lemma record_event_keys st e :
  map_Forall own_key (ss_skills st) -> map_Forall own_key (ss_skills (record_event st e)).
Proof.
  intros Hk. rewrite record_event_skills by done. apply map_Forall_insert_2; [|done].
  unfold before. destruct (ss_skills st !! key_of e) as [sk|] eqn:E; [|done].
  exact (Hk _ _ E).
Qed.

Lemma record_event_sane st e :
  map_Forall own_key (ss_skills st) -> map_Forall (fun _ sk => sane sk) (ss_skills st) -> nonneg e ->
  map_Forall (fun _ sk => sane sk) (ss_skills (record_event st e)).
Proof.
  intros Hk Hs [Hd Hc]. rewrite record_event_skills by done. apply map_Forall_insert_2; [|done].
  apply record_one_sane; [|done..]. unfold before.
  destruct (ss_skills st !! key_of e) as [sk|] eqn:E; [exact (Hs _ _ E)|apply new_skill_sane].
Qed.

Definition successes (k : string) (l : list completion) : Z :=
  Z.of_nat (countb (fun e => String.eqb (key_of e) k && cp_ok e) l).
Definition failures (k : string) (l : list completion) : Z :=
  Z.of_nat (countb (fun e => String.eqb (key_of e) k && negb (cp_ok e)) l).

Lemma countb_snoc {A} (p : A -> bool) l x : countb p (l ++ [x]) = countb p l + (if p x then 1 else 0).
Proof. unfold countb. rewrite List.filter_app, length_app. simpl. by destruct (p x). Qed.

(** What the store holds after a history. *)
Definition history_ok (l : list completion) st : Prop :=
  map_Forall own_key (ss_skills st) /\ map_Forall (fun _ sk => sane sk) (ss_skills st) /\
  forall k, match ss_skills st !! k with
    | None => successes k l = 0%Z /\ failures k l = 0%Z
    | Some sk =>
        sk_SuccessCount sk = successes k l /\ sk_FailureCount sk = failures k l /\
        (0 < totalCompletions sk)%Z /\
        (toQ (sk_ReliabilityScore sk) ==
           inject_Z (sk_SuccessCount sk) / inject_Z (totalCompletions sk))%Q /\
        (maturityRank (computeMaturity (totalCompletions sk) (sk_ReliabilityScore sk)) <=
         maturityRank (sk_MaturityLevel sk))%Z
    end.

Lemma before_counts l st e :
  history_ok l st ->
  sane (before st e) /\ sk_SuccessCount (before st e) = successes (key_of e) l /\
  sk_FailureCount (before st e) = failures (key_of e) l.
Proof.
  intros (_ & Hs & Hk). specialize (Hk (key_of e)). unfold before.
  destruct (ss_skills st !! key_of e) as [sk|] eqn:E.
  - split; [exact (Hs _ _ E)|]. by destruct Hk as (? & ? & _).
  - split; [apply new_skill_sane|]. simpl. by destruct Hk as [-> ->].
Qed.

Lemma history_ok_snoc l st e :
  history_ok l st -> nonneg e -> history_ok (l ++ [e]) (record_event st e).
Proof.
  intros Hh He. destruct (before_counts l st e Hh) as (Hsane & Hs & Hf). destruct Hh as (Hk & Hall & Hc).
  split; [by apply record_event_keys|]. split; [by apply record_event_sane|]. intros k.
  rewrite record_event_skills by done. unfold successes, failures. rewrite !countb_snoc.
  destruct (decide (key_of e = k)) as [<-|Hne].
  - rewrite lookup_insert_eq, String.eqb_refl.
    set (sk := record_one _ _ _ _ _). destruct (record_one_counts (before st e) (cp_duration e) (cp_cost e)
      (cp_ok e) (cp_now e)) as [E1 E2]. fold sk in E1, E2. rewrite Hs in E1. rewrite Hf in E2.
    unfold successes, failures in E1, E2.
    split; [rewrite E1; destruct (cp_ok e); simpl; lia|]. split; [rewrite E2; destruct (cp_ok e); simpl; lia|].
    split; [unfold totalCompletions; rewrite E1, E2; destruct (cp_ok e); lia|].
    split; [by apply record_one_reliability|]. apply record_one_maturity.
  - rewrite lookup_insert_ne by done. destruct (String.eqb_spec (key_of e) k); [done|].
    simpl. rewrite !Nat.add_0_r. apply Hc.
Qed.

Lemma history_ok_all l : Forall nonneg l -> history_ok l (record_all NewInMemorySkillStore l).
Proof.
  induction l as [|e l IH] using rev_ind; intros Hl.
  - split; [apply map_Forall_empty|]. split; [apply map_Forall_empty|]. intros k. simpl. by rewrite lookup_empty.
  - apply Forall_app in Hl as [Hl He]. unfold record_all. rewrite fold_left_app. simpl.
    apply history_ok_snoc; [by apply IH|]. by apply Forall_inv in He.
Qed.

Lemma record_all_maturity st l k sk :
  map_Forall own_key (ss_skills st) -> ss_skills st !! k = Some sk ->
  exists sk', ss_skills (record_all st l) !! k = Some sk' /\
    (maturityRank (sk_MaturityLevel sk) <= maturityRank (sk_MaturityLevel sk'))%Z.
Proof.
  revert st sk. induction l as [|e l IH]; intros st sk Hk E; simpl; [by exists sk|].
  destruct (decide (key_of e = k)) as [<-|Hne].
  - destruct (IH (record_event st e) (record_one sk (cp_duration e) (cp_cost e) (cp_ok e) (cp_now e)))
      as (sk' & E' & Hr); [by apply record_event_keys| |].
    + rewrite record_event_skills, lookup_insert_eq by done. unfold before. by rewrite E.
    + exists sk'. split; [exact E'|]. etransitivity; [|exact Hr]. apply record_one_maturity.
  - apply (IH (record_event st e)); [by apply record_event_keys|].
    by rewrite record_event_skills, lookup_insert_ne by done.
Qed.

(** The skill table counts right.  After any history of completions, a skill
    holds exactly the numbers of successes and failures recorded under its key, its
    reliability is the share of successes, its maturity is at least what these
    deserve, and whatever completes later its maturity never drops. *)
Theorem skill_record_exact l l' k :
  Forall nonneg l ->
  match ss_skills (record_all NewInMemorySkillStore l) !! k with
  | None => successes k l = 0%Z /\ failures k l = 0%Z
  | Some sk =>
      sk_SuccessCount sk = successes k l /\ sk_FailureCount sk = failures k l /\
      (toQ (sk_ReliabilityScore sk) == inject_Z (successes k l) / inject_Z (successes k l + failures k l))%Q /\
      (maturityRank (computeMaturity (totalCompletions sk) (sk_ReliabilityScore sk)) <=
       maturityRank (sk_MaturityLevel sk))%Z /\
      exists sk', ss_skills (record_all NewInMemorySkillStore (l ++ l')) !! k = Some sk' /\
        (maturityRank (sk_MaturityLevel sk) <= maturityRank (sk_MaturityLevel sk'))%Z
  end.
Proof.
  intros Hl. destruct (history_ok_all l Hl) as (Hk & _ & Hc). specialize (Hc k).
  destruct (ss_skills _ !! k) as [sk|] eqn:E; [|done]. destruct Hc as (Es & Ef & _ & Er & Em).
  split; [done|]. split; [done|]. unfold totalCompletions in Er. rewrite <-Es, <-Ef. split; [done|].
  split; [done|]. unfold record_all in *. rewrite fold_left_app. by apply record_all_maturity.
Qed.

(** ** Scores *)

Lemma fmax_le m x : (toQ m <= toQ (fmax m x))%Q /\ (toQ x <= toQ (fmax m x))%Q.
Proof. unfold fmax. destruct (nltb m x) eqn:E; num_norm; lra. Qed.

Lemma max_of_ge f (items : list (Task F * option (AgentSkill F))) :
  (0 <= toQ (max_of f items))%Q /\
  forall t sk, (t, Some sk) ∈ items -> (toQ (f sk) <= toQ (max_of f items))%Q.
Proof.
  unfold max_of. assert (toQ (F:=F) (nofZ 0) == 0)%Q as E0 by (rewrite toQ_ofZ; reflexivity).
  assert (0 <= toQ (F:=F) (nofZ 0))%Q as H0' by lra. clear E0. revert H0'. generalize (nofZ (F:=F) 0) as m.
  induction items as [|[t0 [sk0|]] items IH]; intros m Hm; simpl.
  - split; [done|]. intros t sk Hin. by apply elem_of_nil in Hin.
  - destruct (fmax_le m (f sk0)) as [H1' H2']. destruct (IH (fmax m (f sk0))) as [Hp Hall]; [lra|].
    split; [done|]. intros t sk [[= -> ->]|Hin]%elem_of_cons; [|by eapply Hall].
    clear IH Hall. revert H2'. generalize (fmax m (f sk0)) as m'. clear H1' Hp.
    induction items as [|[t1 [sk1|]] items IH]; intros m' Hle; simpl; [done| |by apply IH].
    apply IH. destruct (fmax_le m' (f sk1)). lra.
  - destruct (IH m Hm) as [Hp Hall]. split; [done|].
    intros t sk [[=]|Hin]%elem_of_cons. by eapply Hall.
Qed.

Lemma normalized_range x m : (0 <= toQ x)%Q -> (toQ x <= toQ m)%Q ->
  (0 <= toQ (normalized x m) <= 1)%Q.
Proof.
  intros Hx Hm. unfold normalized. destruct (nltb (nofZ 0) m) eqn:E; num_norm; unfold inject_Z in *; [|lra].
  split.
  - apply Qle_shift_div_l; [lra|]. lra.
  - apply Qle_shift_div_r; [lra|]. lra.
Qed.

Lemma maturityBonus_range m : (0 <= toQ (F:=F) (maturityBonus m) <= 1)%Q.
Proof.
  destruct m; simpl; rewrite ?toQ_lit, ?toQ_ofZ; unfold inject_Z; split; vm_compute; discriminate.
Qed.

Lemma weighted_range (w1 w2 w3 w4 a b c d : Q) :
  (w1 == 40 / 100 -> w2 == 25 / 100 -> w3 == 20 / 100 -> w4 == 15 / 100 ->
   0 <= a <= 1 -> 0 <= b <= 1 -> 0 <= c <= 1 -> 0 <= d <= 1 ->
   0 <= w1 * a + w2 * (1 - b) + w3 * (1 - c) + w4 * d <= 1)%Q.
Proof. intros -> -> -> -> Ha Hb Hc Hd. split; unfold Qdiv, Qinv; simpl; lra. Qed.

(** Scores stay in the unit interval.  With the default weights, after any
    history of completions, [ScoreTasks] gives each task one score, in the order of
    the tasks, and every score is between 0 and 1: the normalisation never divides
    by zero nor exceeds one, and a task without history scores one half. *)
Theorem skill_scores_in_unit l orgID (tasks : list (Task F)) :
  Forall nonneg l ->
  let scorer := mkScorer (record_all NewInMemorySkillStore l) DefaultSkillWeights in
  let scores := ScoreTasks scorer orgID tasks in
  map sc_TaskID scores = map tk_ID tasks /\
  Forall (fun sc => (0 <= toQ (sc_Score sc) <= 1)%Q) scores /\
  forall i t sc, tasks !! i = Some t -> scores !! i = Some sc -> skill_of scorer orgID t = None ->
    (toQ (sc_Score sc) == 1 # 2)%Q.
Proof.
  intros Hl scorer scores. destruct (history_ok_all l Hl) as (_ & Hs & _).
  unfold scores, ScoreTasks. set (items := map (fun t => (t, skill_of scorer orgID t)) tasks).
  split; [|split].
  - rewrite map_map. unfold items. rewrite map_map. apply map_ext. intros t.
    unfold score_item. simpl. by destruct (skill_of _ _ _).
  - apply Forall_map, Forall_forall. intros [t [sk|]] Hin; unfold score_item; simpl; cycle 1.
    { rewrite toQ_lit. split; vm_compute; discriminate. }
    assert (sane sk) as Hsane.
    { unfold items in Hin. apply list_elem_of_In, in_map_iff in Hin as (t' & [= -> Hsk] & _).
      unfold skill_of, GetSkill in Hsk. simpl in Hsk.
      destruct (ss_skills _ !! _) as [sk'|] eqn:E; [|done]. injection Hsk as <-. exact (Hs _ _ E). }
    destruct (max_of_ge sk_AvgDurationMS items) as [_ Hd]. destruct (max_of_ge sk_AvgCostUSD items) as [_ Hc].
    rewrite !toQ_add, !toQ_mul, !toQ_sub, !toQ_ofZ.
    apply weighted_range; [apply toQ_lit..|apply Hsane| | |apply maturityBonus_range].
    + apply normalized_range; [apply Hsane|by eapply Hd].
    + apply normalized_range; [apply Hsane|by eapply Hc].
  - intros i t sc Ht Hsc Hno. rewrite list_lookup_fmap in Hsc. unfold items in Hsc.
    rewrite list_lookup_fmap, Ht in Hsc. simpl in Hsc. rewrite Hno in Hsc. injection Hsc as <-.
    simpl. rewrite toQ_lit. reflexivity.
Qed.

(** ** Reordering *)

Lemma skill_less_weak (scores : list (SkillScore F)) : weak_order (skill_less scores).
Proof.
  unfold weak_order, skill_less. split.
  - intros x y. destruct (Z.eqb_spec (tk_Priority x) (tk_Priority y)),
      (Z.eqb_spec (tk_Priority y) (tk_Priority x)); simpl; try lia. intros E. num_norm. lra.
  - intros x y z. destruct (Z.eqb_spec (tk_Priority y) (tk_Priority x)),
      (Z.eqb_spec (tk_Priority z) (tk_Priority y)), (Z.eqb_spec (tk_Priority z) (tk_Priority x));
      simpl; try lia. intros E1 E2. num_norm. lra.
Qed.

Lemma reorder_sorted (s : SkillScorer F) orgID (tasks : list (Task F)) :
  StronglySorted (fun a b =>
    (tk_Priority a < tk_Priority b)%Z \/
    tk_Priority a = tk_Priority b /\
      (toQ (score_of (ScoreTasks s orgID tasks) (tk_ID b)) <=
       toQ (score_of (ScoreTasks s orgID tasks) (tk_ID a)))%Q)
    (reorderBySkillScore s orgID tasks).
Proof.
  unfold reorderBySkillScore. destruct (ScoreTasks s orgID tasks) as [|sc scores] eqn:E.
  { destruct tasks; [constructor|by unfold ScoreTasks in E]. }
  eapply StronglySorted_weaken; [|apply insertion_sort_sorted, skill_less_weak].
  intros a b. unfold ordered, skill_less.
  destruct (Z.eqb_spec (tk_Priority b) (tk_Priority a)) as [Ep|]; simpl; [|lia].
  intros Hle. right. split; [done|]. by apply nltb_false in Hle.
Qed.
End properties.

(** ** Witnesses *)

#[local] Instance render_plain : Render := {| itoa := fun _ => "0"; uuid_String := fun _ => "org" |}.

Definition task_of (role : AgentRole) (id : uuid) (priority : Z) : Task Q :=
  mkTask id 0%N 0%N None role "" "" "" TaskPending TaskModeSequential 0%Z priority [] 0%Z 0%Z None None
    "" 0%Q 0%Z "" None 0%Z 0%Z None.
Definition done_ex (role : AgentRole) (d : Q) (ok : bool) : completion :=
  mkCompletion 0%N (task_of role 0%N 0%Z) d 1%Q ok 0%N 0%Z.
Definition history_ex : list completion :=
  [done_ex RoleExecutor 100%Q false; done_ex RoleExecutor 200%Q true; done_ex RoleResearcher 50%Q true].

Lemma history_ex_nonneg : Forall nonneg history_ex.
Proof. repeat constructor; vm_compute; discriminate. Qed.

(** The first success after a failure is averaged with zero. *)
Example first_average_ex :
  sk_AvgDurationMS <$> (ss_skills (record_all NewInMemorySkillStore history_ex) !! "org:executor:executor")
  = Some (nadd (nmul (nlit 1 10) 200%Q) (nmul (nlit 9 10) 0%Q)).
Proof. vm_compute. reflexivity. Qed.

Lemma skill_record_exact_witness :
  exists sk, ss_skills (record_all NewInMemorySkillStore history_ex) !! "org:executor:executor" = Some sk /\
    sk_SuccessCount sk = 1%Z /\ (toQ (sk_ReliabilityScore sk) == 1 # 2)%Q.
Proof.
  pose proof (skill_record_exact history_ex [] "org:executor:executor" history_ex_nonneg) as Hx.
  destruct (ss_skills _ !! "org:executor:executor") as [sk|] eqn:E; [|by vm_compute in E].
  exists sk. destruct Hx as (Hs & _ & Hr & _). split; [reflexivity|]. rewrite Hs, Hr. by vm_compute.
Defined.

Lemma skill_scores_in_unit_witness :
  let tasks := [task_of RoleExecutor 1%N 0%Z; task_of RoleResearcher 2%N 0%Z; task_of RolePlanner 3%N 0%Z] in
  let scores := ScoreTasks (mkScorer (record_all NewInMemorySkillStore history_ex) DefaultSkillWeights) 0%N tasks in
  map sc_TaskID scores = [1%N; 2%N; 3%N] /\ Forall (fun sc => (0 <= toQ (sc_Score sc) <= 1)%Q) scores.
Proof.
  intros tasks scores.
  destruct (skill_scores_in_unit history_ex 0%N tasks history_ex_nonneg) as (Hids & Hr & _).
  split; [exact Hids|exact Hr].
Defined.
