(* ===== verification/Factory.v ===== *)
(** * Role agents

    [src/internal/orchestrator/factory.go] and [role_agent.go]: the tools a role is
    given, and the adapter that runs a task through the conversation loop of its
    role's agent. *)

From S2P Require Import Prelude Security SecurityManager Approval AutoApproval.
From S2P Require Import LLM Conversation Prompt Agent AgentSpec AgentProps AgentLoop AgentLoopProps.
From S2P Require Import WorkflowTypes.

Definition readOnlyTools : list string := ["file_read"; "web_fetch"; "git_read"; "browser"].

(** The constants of [MessageType] as text. *)
Definition MessageType_String (t : MessageType) : string :=
  match t with
  | MsgTaskAssignment => "task_assignment"
  | MsgTaskResult => "task_result"
  | MsgInfoRequest => "info_request"
  | MsgInfoResponse => "info_response"
  | MsgComplianceCheck => "compliance_check"
  | MsgComplianceResult => "compliance_result"
  | MsgPlanProposal => "plan_proposal"
  | MsgRecoveryPlan => "recovery_plan"
  | MsgRecoveryResult => "recovery_result"
  | MsgError => "error"
  end.

Definition newline : string := String (Ascii.ascii_of_nat 10) "".

(** One message of the context given to a role agent. *)
Definition context_line (m : AgentMessage) : string :=
  "[" +:+ am_FromRole m +:+ " → " +:+ am_ToRole m +:+ "] ("
  +:+ MessageType_String (am_MessageType m) +:+ "): " +:+ am_Content m +:+ newline +:+ newline.

Definition buildPrompt (input : AgentInput) : string :=
  (match ai_Messages input with
   | [] => ""
   | msgs => "## Context from workflow" +:+ newline +:+ newline
             +:+ String.concat "" (map context_line msgs) +:+ "---" +:+ newline +:+ newline
   end)
  +:+ "## Task" +:+ newline +:+ newline +:+ ai_Instruction input.

Section factory.
Context {F P S Rel C W : Type}.
Context `{Num F} `{GoMap P} `{GoJson P} `{Digest} `{ErrorText} `{Env W}.
Context `{!SecurityManager F P S Rel} `{!ConversationStore C P}.
Context `{!GoSort (Runbook * F)} `{!MapRange string (Tool F P W)}.
Implicit Types (o : Orchestrator F P W) (s : State F P S C W) (reg base : Registry F P W).
Local Open Scope go_scope.

(** ** The factory *)

Record DefaultAgentFactory := mkFactory {
  fa_toolReg : option (Registry F P W);
  fa_recoveryAllowedTools : list string;
}.

(** [if t := f.toolReg.Get(name); t != nil { reg.Register(t) }] over a list of names;
    [None] is the panic of [Register]. *)
Fixpoint register_named base (names : list string) reg : option (Registry F P W) :=
  match names with
  | [] => Some reg
  | name :: names =>
      match registry_Get base name with
      | None => register_named base names reg
      | Some t => reg ← Register reg t; register_named base names reg
      end
  end.

(** The registry of a role; the outer [None] is a panic. *)
Definition toolRegistryForRole (f : DefaultAgentFactory) (role : AgentRole)
    : option (option (Registry F P W)) :=
  match fa_toolReg f with
  | None => Some None
  | Some base =>
      if String.eqb role RoleExecutor then Some (Some base)
      else if String.eqb role RoleResearcher
      then Some <$> register_named base readOnlyTools NewRegistry
      else if String.eqb role RoleDiagnostician
      then reg ← register_named base readOnlyTools NewRegistry;
           Some <$> register_named base (fa_recoveryAllowedTools f) reg
      else Some None
  end.

(** [Create]: [inner] is the agent before its tools are set, with the prompt of the
    role and the shared components. *)
Definition with_tools o (reg : option (Registry F P W)) : Orchestrator F P W :=
  mkOrchestrator (o_provider o) (o_prompt o) (o_security o)
    (match reg with Some r => Some r | None => o_toolRegistry o end)
    (o_approvalMgr o) (o_policyEnforcer o) (o_autoApprover o) (o_maxIterations o) (o_toolCache o)
    (o_readOnlyTools o) (o_summarizeOnTruncate o) (o_autonomousMode o) (o_lazyToolLoading o)
    (o_convStore o) (o_convOrgID o) (o_maxHistoryMessages o) (o_maxMessageBytes o).

Definition Create (f : DefaultAgentFactory) (inner : AgentRole -> Orchestrator F P W) (role : AgentRole)
    : option (Orchestrator F P W) :=
  reg ← toolRegistryForRole f role; Some (with_tools (inner role) reg).

(** [roleAgentWrapper.Process]: the cost of the output is left zero. *)
Definition role_Process o (input : AgentInput)
    : st (State F P S C W) (result error (AgentOutput F)) :=
  resp ← Process o (mkInput (ai_UserID input) (buildPrompt input) (ai_CorrelationID input) "");
  mret (match resp with
        | Err err => Err (Wrap "agent process" err)
        | Ok r => Ok (mkAgentOutput (rsp_Message r) (rsp_TokensUsed r) (nofZ 0))
        end).

(** ** The tools of a role *)

(** Every tool is under its own name, as [Register] puts it. *)
Definition own_names reg : Prop :=
  map_Forall (fun n (t : Tool F P W) => tool_Name t = n) (reg_tools reg).

Definition registered base (names : list string) : list string :=
  List.filter (fun n => bool_decide (is_Some (reg_tools base !! n))) names.

Lemma register_named_spec base names reg :
  own_names base ->
  (NoDup (registered base names) /\ Forall (fun n => reg_tools reg !! n = None) (registered base names) ->
   is_Some (register_named base names reg)) /\
  forall reg', register_named base names reg = Some reg' ->
    (NoDup (registered base names) /\ Forall (fun n => reg_tools reg !! n = None) (registered base names)) /\
    forall n t, reg_tools reg' !! n = Some t <->
      reg_tools reg !! n = Some t \/ (n ∈ names /\ reg_tools base !! n = Some t).
Proof.
  intros Hown. revert reg. induction names as [|name names IH]; intros reg; simpl.
  { split; [by eexists|]. intros reg' [= <-]. split; [by split; constructor|].
    intros n t. rewrite elem_of_nil. tauto. }
  unfold registered, registry_Get. simpl.
  destruct (reg_tools base !! name) as [t0|] eqn:E0; simpl; cycle 1.
  { destruct (IH reg) as [IH1 IH2]. split; [exact IH1|]. intros reg' E.
    destruct (IH2 reg' E) as [Hd Hr]. split; [exact Hd|]. intros n t. rewrite Hr, elem_of_cons.
    split; [intros [?|[? ?]]; auto|intros [?|[[->|?] ?]]; auto; congruence]. }
  pose proof (Hown name t0 E0) as Hn0. simpl in Hn0. unfold Register. rewrite Hn0. rewrite NoDup_cons, Forall_cons.
  destruct (reg_tools reg !! name) eqn:Er; simpl; [by split; [intros (_ & ? & _)|]|].
  set (reg1 := mkRegistry _). destruct (IH reg1) as [IH1 IH2].
  assert (Forall (fun n => reg_tools reg1 !! n = None) (registered base names) <->
    name ∉ registered base names /\ Forall (fun n => reg_tools reg !! n = None) (registered base names)) as Hf.
  { rewrite !Forall_forall. simpl. split.
    - intros Hall. split.
      + intros Hin%Hall. by rewrite lookup_insert_eq in Hin.
      + intros n Hn. specialize (Hall n Hn). by apply lookup_insert_None in Hall as [? _].
    - intros [Hni Hall] n Hn. rewrite lookup_insert_ne; [by apply Hall|]. by intros ->. }
  split.
  - intros [[Hni Hnd] [_ Hall]]. apply IH1. split; [done|]. by apply Hf.
  - intros reg' E. destruct (IH2 reg' E) as [[Hnd Hall] Hr]. apply Hf in Hall as [Hni Hall].
    split; [split; [by apply NoDup_cons|by apply Forall_cons]|]. intros n t. rewrite Hr. simpl. rewrite lookup_insert_Some, elem_of_cons.
    destruct (decide (name = n)) as [->|Hne]; [|intuition congruence].
    rewrite E0, Er. intuition congruence.
Qed.

#[local] Arguments register_named : simpl never.

(** Least privilege of the roles.  Over a registry built by [Register], the
    executor gets every tool, the researcher exactly the registered read-only
    tools, and planner, orchestrator, compliance and unknown roles none.  The
    diagnostician gets the read-only tools and the configured recovery tools and
    nothing else; its creation panics exactly when a registered recovery tool is
    listed twice or is one of the read-only tools. *)
Theorem role_tools_spec base recovery role :
  own_names base ->
  let tools_of names reg := forall n t, reg_tools reg !! n = Some t <->
    n ∈ names /\ reg_tools base !! n = Some t in
  let r := toolRegistryForRole (mkFactory (Some base) recovery) role in
  if String.eqb role RoleExecutor then r = Some (Some base)
  else if String.eqb role RoleResearcher
  then exists reg, r = Some (Some reg) /\ tools_of readOnlyTools reg
  else if String.eqb role RoleDiagnostician
  then (r = None /\ ~ NoDup (registered base (readOnlyTools ++ recovery))) \/
       exists reg, r = Some (Some reg) /\ NoDup (registered base (readOnlyTools ++ recovery)) /\
                   tools_of (readOnlyTools ++ recovery) reg
  else r = Some None.
Proof.
  intros Hown tools_of r. subst tools_of r. unfold toolRegistryForRole.
  cbn [fa_toolReg fa_recoveryAllowedTools].
  assert (NoDup (registered base readOnlyTools)) as Hnd.
  { apply NoDup_ListNoDup, List.NoDup_filter, NoDup_ListNoDup. apply (bool_decide_unpack _). vm_compute. exact Logic.I. }
  set (ro := readOnlyTools) in *. clearbody ro. destruct (String.eqb role RoleExecutor); [done|].
  destruct (register_named_spec base ro NewRegistry Hown) as [Hex Hro].
  destruct Hex as [reg0 E0]; [split; [done|]; by apply Forall_forall|].
  destruct (Hro reg0 E0) as [_ Hr0].
  assert (forall n t, reg_tools reg0 !! n = Some t <-> n ∈ ro /\ reg_tools base !! n = Some t) as Hr.
  { intros n t. rewrite Hr0. simpl. rewrite lookup_empty. intuition congruence. }
  destruct (String.eqb role RoleResearcher); [by exists reg0; rewrite E0|].
  destruct (String.eqb role RoleDiagnostician); [|done]. rewrite E0. simpl.
  assert (NoDup (registered base (ro ++ recovery)) <->
    NoDup (registered base recovery) /\ Forall (fun n => reg_tools reg0 !! n = None) (registered base recovery)) as Hdup.
  { unfold registered at 1. rewrite List.filter_app, NoDup_app. fold (registered base ro).
    fold (registered base recovery). rewrite Forall_forall. split.
    - intros (_ & Hdis & Hnd2). split; [done|]. intros n Hn. apply eq_None_not_Some. intros [t Ht%Hr].
      apply (Hdis n); [|done]. apply list_elem_of_In, filter_In. destruct Ht as [Hin Ht].
      split; [by apply list_elem_of_In|]. apply bool_decide_eq_true. by exists t.
    - intros [Hnd2 Hall]. split; [done|]. split; [|done]. intros n Hn Hin%Hall.
      apply list_elem_of_In, filter_In in Hn as [Hro' [t Ht]%bool_decide_eq_true].
      apply eq_None_not_Some in Hin. apply Hin. exists t. apply Hr. split; [by apply list_elem_of_In|done]. }
  destruct (register_named_spec base recovery reg0 Hown) as [Hex2 Hspec].
  destruct (register_named base recovery reg0) as [reg1|] eqn:E1; simpl.
  - right. exists reg1. destruct (Hspec reg1 eq_refl) as [Hd Hr1]. split; [done|].
    split; [by apply Hdup|]. intros n t. rewrite Hr1, Hr, elem_of_app. tauto.
  - left. split; [done|]. rewrite Hdup. intros Hd%Hex2. by destruct Hd.
Qed.

(** A researcher only reads.  A task given to the researcher role, whatever the
    model asks for, runs no tool but the registered read-only ones. *)
Theorem researcher_only_reads base recovery inner o input s :
  own_names base -> (forall role, o_security (inner role) = true) ->
Create (mkFactory (Some base) recovery) inner RoleResearcher = Some o ->
exists t, s_trace (role_Process o input s).2 = s_trace s ++ t /\
  forall u k p x, EvExecute u k p x ∈ t -> u = ai_UserID input /\ k ∈ readOnlyTools.
Proof.
intros Hown Hsec Ho. unfold Create, toolRegistryForRole in Ho. simpl in Ho.
destruct (register_named base readOnlyTools NewRegistry) as [reg|] eqn:E; [|done]. simpl in Ho.
injection Ho as <-. destruct (register_named_spec base readOnlyTools NewRegistry Hown) as [_ Hro].
destruct (Hro reg E) as [_ Hr]. set (o := with_tools _ _).
set (inp := mkInput (ai_UserID input) (buildPrompt input) (ai_CorrelationID input) "").
destruct (process_execution o inp s) as (t & Ht & Hex). exists t. split.
{ unfold role_Process, mbind, st_bind. rewrite <-Ht. fold inp. by destruct (Process o inp s). }
intros u k p x Hin. destruct (Hex u k p x Hin) as (l1 & t1 & l2 & q & r & -> & Hin1 & Hq & He).
destruct (exec_trace_execute o q t1 r u k p x He (Hsec _) Hin1) as (tool & g & t' & -> & Hk & Hp & Hg & Hrun & Hin2).
destruct (run_trace_execute q tool _ _ _ t' r u k p x Hrun Hin2) as (-> & -> & -> & _).
split; [done|]. destruct Hk as (reg' & [= <-] & Hget & _). apply Hr in Hget as [Hget|[Hn Hb]].
- simpl in Hget. by rewrite lookup_empty in Hget.
- by rewrite (Hown _ _ Hb).
Qed.
End factory.
