(* ===== verification/AgentExamples.v ===== *)
(** * The agent on concrete inputs

    An orchestrator with the in-memory components and exact amounts: one tool, one
    user with a role, a budget of ten, a model that asks for the tool once.  The
    theorems of the agent files are applied to it, and those on role agents. *)

From S2P Require Import Prelude Security Budget Approval AutoApproval LLM Conversation Prompt.
From S2P Require Import SecurityManager Agent AgentSpec AgentProps AgentManager AgentLoop AgentLoopProps.
From S2P Require Import WorkflowTypes Factory.

(** ** Instances: parameters are numbers, the world is a counter of runs *)

#[export] Instance nat_map : GoMap nat := {| nil_map := 0; is_nil := Nat.eqb 0 |}.
#[export] Instance nat_json : GoJson nat := {| json_marshal := fun n => if (n =? 0)%nat then "null" else "{}" |}.
#[export] Instance plain_digest : Digest := {| sha256_16 := fun s => s |}.
#[export] Instance plain_errors : ErrorText := {| error_Error := fun _ => "error" |}.
#[export] Instance nat_env : Env nat := {
  env_now := fun w => (5%Z, w);
  env_uuid := fun w => (9%N, w);
  env_generateID := fun w => (Ok "a1", w);
  parse_uuid := fun s => if String.eqb s "c1" then Some 1%N else None;
}.
#[export] Instance disk : AuditFile Q nat :=
  {| audit_marshal := fun _ => None; audit_write := fun _ _ => None |}.

Definition shell : Tool Q nat nat :=
  mkTool "shell_exec" "runs a command" 1 (mkAction "execute" RiskMedium) (fun _ => 10%Q)
    (fun p _ => if (p =? 0)%nat then Some (Errorf "command required") else None)
    (fun _ p w => (Ok (mkToolResult "done" 0 true), Datatypes.S w)).

Definition tools_ex : Registry Q nat nat := mkRegistry {["shell_exec" := shell]}.

(** Asks for the tool once, then answers. *)
Definition model_ex (rq : Request nat) (w : nat) : result error (LLMResponse nat) * nat :=
  (if (length (rq_Messages rq) =? 1)%nat
   then Ok (mkLLMResponse "" [ToolUseBlock "t1" "shell_exec" 1] (mkUsage 3 4) "tool_use")
   else Ok (mkLLMResponse "finished" [TextBlock "finished"] (mkUsage 3 4) "end_turn"), w).

Definition prompt_ex : PromptConfig Q := mkPromptConfig "You are Akili." "" "" "" "" [] 0 0%Q false.

Definition agent_ex (cache : bool) : Orchestrator Q nat nat :=
  mkOrchestrator model_ex prompt_ex true (Some tools_ex) true None false 5 cache {["shell_exec"]}
    false false false true uuid_Nil 2 0.

Definition role_ex (max : string) : RBAC :=
  mkRBAC {["op" := mkRole "op" ["execute"] max []]} {["u" := "op"]} "".

Abbreviation Sec := (SecurityManager.Manager RBAC (AuditLogger Q nat) (BudgetManager Q)).
Abbreviation St := (State Q nat Sec (InMemoryConversationStore nat) nat).

Definition state_ex (max : string) : St :=
  mkState (SecurityManager.NewManager (role_ex max) (mkAuditLogger []) (NewBudgetManager 10%Q))
    (Approval.NewManager 100%Z) (NewAutoApprover (mkAutoConfig false 0 [] 0 0))
    (NewToolCache 0%Z) NewInMemoryConversationStore 0 [].

Definition req_ex : ToolRequest nat := mkToolRequest "u" "shell_exec" 1 "corr" "c1" "t1".
Definition input_ex : Input := mkInput "u" "run it" "corr" "c1".

Lemma shell_known cache : known_tool (agent_ex cache) req_ex shell.
Proof. exists tools_ex. repeat split. by exists 0. Qed.

(** The whole call: the tool runs once, its outcome is reported, one model request
    more ends it. *)
Example process_ex :
  (Process (agent_ex false) input_ex (state_ex "high")).1 =
    Ok (mkResponse "finished" 14 [] [mkToolCallResult "shell_exec" true]).
Proof. vm_compute. reflexivity. Qed.

(** A role that may only go up to low risk leaves the call waiting for an approval. *)
Example process_pending_ex :
  (Process (agent_ex false) input_ex (state_ex "low")).1 =
    Ok (mkResponse "" 7 [mkApprovalRequest "a1" "shell_exec" "execute" "medium" "u"]
          [mkToolCallResult "shell_exec" false]).
Proof. vm_compute. reflexivity. Qed.

Lemma tool_never_runs_unchecked_witness :
  exists t, s_trace (ExecuteTool (agent_ex false) req_ex (state_ex "high")).2 = [] ++ t /\
    exists tool, known_tool (agent_ex false) req_ex tool /\ "shell_exec" = tool_Name tool.
Proof.
  destruct (tool_never_runs_unchecked (agent_ex false) req_ex (state_ex "high") "u" "shell_exec" 1
              (Ok (mkToolResult "done" 0 true)) eq_refl) as (t & Ht & Hin).
  exists t. split; [exact Ht|]. vm_compute in Ht. subst t.
  destruct Hin as (tool & g & t1 & t2 & _ & Hn & _ & Hk & _).
  - do 4 apply list_elem_of_further. apply list_elem_of_here.
  - exists tool. split; [exact Hk|exact Hn].
Defined.

Definition cached_state : St := (ExecuteTool (agent_ex true) req_ex (state_ex "high")).2.

(** The second user has no role at all and gets the first user's result. *)
Definition req_other : ToolRequest nat := mkToolRequest "stranger" "shell_exec" 1 "corr" "" "t2".

Lemma cached_result_skips_checks_witness :
  rbac_CheckPermission (sec_rbac (s_security cached_state)) "stranger" (mkAction "execute" RiskMedium) <> None /\
  (ExecuteTool (agent_ex true) req_other cached_state).1 =
    Ok (mkToolResponse "done" true 10%Q 0).
Proof.
  split; [vm_compute; discriminate|].
  apply (cached_result_skips_checks (agent_ex true) req_other cached_state tools_ex shell
           (mkToolResponse "done" true 10%Q 0)).
  - reflexivity.
  - reflexivity.
  - reflexivity.
  - reflexivity.
  - apply (bool_decide_unpack _). vm_compute. exact Logic.I.
  - vm_compute. reflexivity.
Defined.

Definition policy_ex (approve : list string) : PolicyEnforcer :=
  NewPolicyEnforcer [mkPolicy "p" ["shell_exec"] [] [] [] [] [] [] [] "low" approve [] []] {["u" := "p"]}.

Lemma policy_rules_not_consulted_witness :
  RequiresApproval (policy_ex ["shell_exec"]) "u" "shell_exec" = true /\
  ExecuteTool (with_policy (agent_ex false) (Some (policy_ex ["shell_exec"]))) req_ex (state_ex "high") =
  ExecuteTool (with_policy (agent_ex false) (Some (policy_ex []))) req_ex (state_ex "high").
Proof.
  split; [reflexivity|].
  apply (policy_rules_not_consulted (agent_ex false) req_ex (state_ex "high")
           (policy_ex ["shell_exec"]) (policy_ex [])).
  reflexivity.
Defined.

(** The pending approval of [process_pending_ex], approved. *)
Definition approved_state : St :=
  let s := (ExecuteTool (agent_ex false) req_ex (state_ex "low")).2 in
  set_approvals (Approve (s_approvals s) "a1" "admin" 6%Z 6%Z).2 s.

Definition approved_ex : PendingApproval Q nat :=
  mkPA "a1" "u" "shell_exec" 1 "execute" "medium" 10%Q "corr" "c1" "t1" StatusApproved "admin"
    5%Z 105%Z 6%Z.

(** One approval, three runs. *)
Definition resume_once (s : St) : St := (ResumeWithApproval (agent_ex false) "a1" s).2.

Lemma approval_authorises_many_runs_witness :
  mg_pending (s_approvals (resume_once approved_state)) !! "a1" = Some approved_ex /\
  s_world (resume_once (resume_once approved_state)) = 2.
Proof.
  split; [|vm_compute; reflexivity].
  apply (approval_authorises_many_runs (agent_ex false) "a1" approved_state approved_ex tools_ex shell);
    [reflexivity|vm_compute; reflexivity|reflexivity|reflexivity|reflexivity|intros w; reflexivity].
Defined.

Lemma rbac_guards_tools_witness :
  sec_rbac (s_security (ExecuteTool (agent_ex false) req_ex (state_ex "high")).2) = role_ex "high".
Proof.
  apply (rbac_guards_tools (agent_ex false) req_ex (state_ex "high") "u" "shell_exec" 1
           (Ok (mkToolResult "done" 0 true)) eq_refl).
Defined.

(** Two runs of the full limit both go through: twenty spent of ten. *)
Definition two_runs : list (ToolRequest nat * Tool Q nat nat * Action * Q) :=
  [(req_ex, shell, mkAction "execute" RiskMedium, 10%Q);
   (req_ex, shell, mkAction "execute" RiskMedium, 10%Q)].

Lemma agent_spending_bound_witness :
  let ub := ub_of (sec_budget (s_security (exec_all (agent_ex false) "" two_runs (state_ex "high")))) "u" in
  (ub_spent ub <= 2 * 10)%Q /\ ub_spent ub = 20%Q /\ (ub_reserved ub == - 10)%Q /\ ub_limit ub = 10%Q.
Proof.
  assert (0 <= toQ 10%Q)%Q as H10 by by vm_compute.
  pose proof (agent_spending_bound (agent_ex false) "" two_runs (state_ex "high") "u" 10%Q eq_refl H10
    ltac:(repeat constructor; by vm_compute)) as Hx.
  destruct (ledger _ _ _ _) as [spent last] eqn:El. vm_compute in El. injection El as <- <-.
  destruct Hx as ((_ & Hr & Hl) & (Hb & _) & _). split; [exact Hb|]. split; [vm_compute; reflexivity|].
  split; [exact Hr|exact Hl].
Defined.

Lemma affordable_call_runs_witness :
  let '(r, s') := executeWithAudit (agent_ex false) req_ex shell (mkAction "execute" RiskMedium) 10%Q ""
                    (state_ex "high") in
  r = Ok (mkToolResponse "done" true 10%Q 0).
Proof.
  pose proof (affordable_call_runs (agent_ex false) req_ex shell (mkAction "execute" RiskMedium) 10%Q ""
                (state_ex "high")) as Hx.
  destruct (executeWithAudit (agent_ex false) req_ex shell (mkAction "execute" RiskMedium) 10%Q ""
    (state_ex "high")) as [r s'].
  destruct Hx as [Hr _]; [|split; by vm_compute|by vm_compute|exact Hr].
  intros f Hf. by apply elem_of_empty in Hf.
Defined.

Lemma process_tools_checked_witness :
  exists t, s_trace (Process (agent_ex false) input_ex (state_ex "high")).2 = [] ++ t /\
    exists q, tq_UserID q = "u" /\ policyCheck (agent_ex false) q = None.
Proof.
  destruct (process_tools_checked (agent_ex false) input_ex (state_ex "high") "u" "shell_exec" 1
              (Ok (mkToolResult "done" 0 true)) eq_refl) as (t & Ht & Hin).
  exists t. split; [exact Ht|]. vm_compute in Ht. subst t.
  destruct Hin as (_ & l1 & l2 & q & tool & g & t1 & t2 & Hq & _ & _ & _ & Hp & _).
  - do 5 apply list_elem_of_further. apply list_elem_of_here.
  - exists q. split; [exact Hq|exact Hp].
Defined.

(** A round whose cut leaves the tool_result behind. *)
Definition asked_ex : Message nat := mkMessage RoleAssistant "" [ToolUseBlock "t1" "shell_exec" 1].
Definition told_ex : Message nat := mkMessage RoleUser "" [ToolResultBlock "t1" "done" false].

Lemma truncation_orphans_results_witness :
  truncateHistory (agent_ex false)
    ([mkMessage RoleUser "run it" []] ++ asked_ex :: told_ex :: [mkMessage RoleAssistant "ok" []]) =
  [told_ex; mkMessage RoleAssistant "ok" []].
Proof.
  apply (truncation_orphans_results (agent_ex false) [mkMessage RoleUser "run it" []] asked_ex told_ex
           [mkMessage RoleAssistant "ok" []]); [|reflexivity].
  apply turns_round; [reflexivity|reflexivity|split; [reflexivity|repeat constructor]|].
  apply turns_last. reflexivity.
Defined.

(** ** Role agents *)

Definition named_ex (name : string) : string * Tool Q nat nat := (name, tool_ex name).
Definition base_ex : Registry Q nat nat :=
  mkRegistry (list_to_map (map named_ex ["file_read"; "shell_exec"; "restart"])).

Lemma base_ex_names : own_names base_ex.
Proof. unfold own_names. apply (bool_decide_unpack _). vm_compute. exact Logic.I. Qed.

(** A recovery tool that is also read-only makes the creation panic. *)
Lemma role_tools_spec_witness :
  (exists reg, toolRegistryForRole (mkFactory (Some base_ex) ["restart"]) RoleDiagnostician = Some (Some reg) /\
     reg_tools reg !! "shell_exec" = None) /\
  toolRegistryForRole (mkFactory (Some base_ex) ["file_read"]) RoleDiagnostician = None.
Proof.
  pose proof (role_tools_spec base_ex ["restart"] RoleDiagnostician base_ex_names) as Hd.
  split; [|vm_compute; reflexivity]. simpl in Hd.
  destruct Hd as [[_ Hdup]|(reg & Er & _ & Ht)].
  - destruct Hdup. apply (bool_decide_unpack _). vm_compute. exact Logic.I.
  - exists reg. split; [exact Er|]. destruct (reg_tools reg !! "shell_exec") eqn:E; [|done].
    apply Ht in E as [Hin _]. apply (bool_decide_pack _) in Hin. vm_compute in Hin. destruct Hin.
Defined.

(** A model that asks for a tool the researcher does not have, then for one it has. *)
Definition curious (rq : Request nat) (w : nat) : result error (LLMResponse nat) * nat :=
  (match length (rq_Messages rq) with
   | 1 => Ok (mkLLMResponse "" [ToolUseBlock "t1" "shell_exec" 1] (mkUsage 1 1) "tool_use")
   | 3 => Ok (mkLLMResponse "" [ToolUseBlock "t2" "file_read" 1] (mkUsage 1 1) "tool_use")
   | _ => Ok (mkLLMResponse "read" [] (mkUsage 1 1) "end_turn")
   end, w).

Definition inner_ex (role : AgentRole) : Orchestrator Q nat nat :=
  mkOrchestrator curious prompt_ex true None true None false 5 false ∅ false false false false uuid_Nil 0 0.

Definition researcher_ex : Orchestrator Q nat nat :=
  default (inner_ex "") (Create (mkFactory (Some base_ex) []) inner_ex RoleResearcher).

Definition reader_state : St :=
  mkState (SecurityManager.NewManager
             (mkRBAC {["op" := mkRole "op" ["read"] "high" []]} {["u" := "op"]} "")
             (mkAuditLogger []) (NewBudgetManager 10%Q))
    (Approval.NewManager 100%Z) (NewAutoApprover (mkAutoConfig false 0 [] 0 0))
    (NewToolCache 0%Z) NewInMemoryConversationStore 0 [].

Definition role_task_ex : AgentInput := mkAgentInput 1%N 2%N "u" "corr" [] "look at the logs".

Definition executed {P} (ev : event Q P) : option string :=
  match ev with EvExecute _ k _ _ => Some k | _ => None end.

Lemma researcher_only_reads_witness :
  omap executed (s_trace (role_Process researcher_ex role_task_ex reader_state).2) = ["file_read"] /\
  exists t, s_trace (role_Process researcher_ex role_task_ex reader_state).2 = [] ++ t /\
    forall u k p x, EvExecute u k p x ∈ t -> u = "u" /\ k ∈ readOnlyTools.
Proof.
  split; [vm_compute; reflexivity|].
  apply (researcher_only_reads base_ex [] inner_ex researcher_ex role_task_ex reader_state base_ex_names).
  - intros role. reflexivity.
  - unfold researcher_ex.
    destruct (Create (mkFactory (Some base_ex) []) inner_ex RoleResearcher) eqn:E; [reflexivity|].
    vm_compute in E. discriminate E.
Defined.
