(* ===== verification/Dag.v ===== *)
(** * Task graphs

    [src/internal/orchestrator/dag.go]: the validation of a plan's dependencies, the
    translation of indices into task identifiers and the readiness filter. *)

From S2P Require Import Prelude WorkflowTypes.

Inductive color := White | Gray | Black.
#[export] Instance color_eq_dec : EqDecision color.
Proof. solve_decision. Defined.

Definition deps_of (specs : list TaskSpec) (node : nat) : list Z :=
  match specs !! node with Some spec => sp_DependsOn spec | None => [] end.

(** The first loop: indices in range, no self-reference. *)
Fixpoint check_deps (n i : Z) (deps : list Z) : option error :=
  match deps with
  | [] => None
  | dep :: deps =>
      if (dep <? 0)%Z || (n <=? dep)%Z then Some (Errorf "dependency index out of range")
      else if (dep =? i)%Z then Some (Errorf "self-dependency")
      else check_deps n i deps
  end.

Fixpoint check_specs (n i : Z) (specs : list TaskSpec) : option error :=
  match specs with
  | [] => None
  | spec :: specs =>
      match check_deps n i (sp_DependsOn spec) with
      | Some err => Some err
      | None => check_specs n (i + 1) specs
      end
  end.

(** The loop of [dfs] over the dependencies of [node], given the recursive call. *)
Fixpoint visit (rec : nat -> list color -> option (result error (list color))) (node : nat)
    (deps : list Z) (colors : list color) : option (result error (list color)) :=
  match deps with
  | [] => Some (Ok (<[node := Black]> colors))
  | dep :: deps =>
      match colors !! Z.to_nat dep with
      | None => Some (Err (Errorf "panic: index out of range"))
      | Some Gray => Some (Err (Errorf "cycle detected"))
      | Some White =>
          match rec (Z.to_nat dep) colors with
          | Some (Ok colors) => visit rec node deps colors
          | r => r
          end
      | Some Black => visit rec node deps colors
      end
  end.

(** The recursive closure [dfs]; [None] is out of fuel. *)
Fixpoint dfs (fuel : nat) (specs : list TaskSpec) (node : nat) (colors : list color)
    : option (result error (list color)) :=
  match fuel with
  | O => None
  | S fuel => visit (dfs fuel specs) node (deps_of specs node) (<[node := Gray]> colors)
  end.

(** The outer loop over all nodes. *)
Fixpoint dfs_all (fuel : nat) (specs : list TaskSpec) (nodes : list nat) (colors : list color)
    : option (result error (list color)) :=
  match nodes with
  | [] => Some (Ok colors)
  | i :: nodes =>
      match colors !! i with
      | Some White =>
          match dfs fuel specs i colors with
          | Some (Ok colors) => dfs_all fuel specs nodes colors
          | r => r
          end
      | _ => dfs_all fuel specs nodes colors
      end
  end.

Definition ValidateDAG (specs : list TaskSpec) : option error :=
  let n := length specs in
  match check_specs (Z.of_nat n) 0 specs with
  | Some err => Some err
  | None =>
      match dfs_all n specs (seq 0 n) (replicate n White) with
      | Some (Ok _) => None
      | Some (Err err) => Some err
      | None => Some (Errorf "out of fuel")
      end
  end.

(** The indices of one task resolved; [None] is an index out of range (a panic). *)
Definition resolve_indices (taskIDs : list uuid) (deps : list Z) : option (list uuid) :=
  mapM (fun idx => if (idx <? 0)%Z then None else taskIDs !! Z.to_nat idx) deps.

Fixpoint resolve_from (i : nat) (specs : list TaskSpec) (taskIDs : list uuid)
    : option (gmap nat (list uuid)) :=
  match specs with
  | [] => Some ∅
  | spec :: specs =>
      m ← resolve_from (S i) specs taskIDs;
      match sp_DependsOn spec with
      | [] => Some m
      | deps => resolved ← resolve_indices taskIDs deps; Some (<[i := resolved]> m)
      end
  end.

Definition ResolveDependencies (specs : list TaskSpec) (taskIDs : list uuid)
    : option (gmap nat (list uuid)) :=
  resolve_from 0 specs taskIDs.

Definition deps_met {F} (completed : gset uuid) (t : Task F) : bool :=
  forallb (fun dep => bool_decide (dep ∈ completed)) (tk_DependsOn t).

Definition FilterReadyTasks {F} (candidates : list (Task F)) (completed : gset uuid) : list (Task F) :=
  List.filter (deps_met completed) candidates.

(** ** Lemmas *)

(** Task [i] depends on task [j]. *)
Definition depends (specs : list TaskSpec) (i j : nat) : Prop := Z.of_nat j ∈ deps_of specs i.

(** What a plan must satisfy. *)
Definition in_range (specs : list TaskSpec) : Prop :=
  forall i d, d ∈ deps_of specs i -> (0 <= d < Z.of_nat (length specs))%Z.
Definition acyclic (specs : list TaskSpec) : Prop := forall i, ~ tc (depends specs) i i.

Lemma check_deps_None n i deps :
  check_deps n i deps = None <-> Forall (fun d => (0 <= d < n)%Z /\ d <> i) deps.
Proof.
  induction deps as [|d deps IH]; simpl; [by split|].
  rewrite Forall_cons, <-IH. destruct (Z.ltb_spec d 0), (Z.leb_spec n d), (Z.eqb_spec d i); simpl;
    split; try done; try lia; intros [[? ?] ?]; try lia; done.
Qed.

Lemma check_specs_None n i specs :
  check_specs n i specs = None <->
  forall k spec, specs !! k = Some spec ->
    Forall (fun d => (0 <= d < n)%Z /\ d <> (i + Z.of_nat k)%Z) (sp_DependsOn spec).
Proof.
  revert i. induction specs as [|spec specs IH]; intros i; simpl; [by split|].
  pose proof (check_deps_None n i (sp_DependsOn spec)) as Hd.
  destruct (check_deps n i (sp_DependsOn spec)) as [e|].
  - split; [done|]. intros Hk. specialize (Hk 0 spec eq_refl). rewrite Z.add_0_r in Hk.
    by apply Hd in Hk.
  - rewrite IH. split.
    + intros Hs [|k] sp Hsp; simpl in Hsp.
      * injection Hsp as <-. rewrite Z.add_0_r. by apply Hd.
      * specialize (Hs k sp Hsp). by replace (i + Z.of_nat (S k))%Z with (i + 1 + Z.of_nat k)%Z by lia.
    + intros Hk k sp Hsp. specialize (Hk (S k) sp Hsp).
      by replace (i + 1 + Z.of_nat k)%Z with (i + Z.of_nat (S k))%Z by lia.
Qed.

Lemma check_specs_range specs :
  check_specs (Z.of_nat (length specs)) 0 specs = None <->
  in_range specs /\ forall i, ~ depends specs i i.
Proof.
  rewrite check_specs_None. unfold in_range, depends, deps_of. split.
  - intros Hs. split.
    + intros i d Hd. destruct (specs !! i) as [sp|] eqn:E; [|by apply elem_of_nil in Hd].
      specialize (Hs i sp E). rewrite Forall_forall in Hs. by apply Hs.
    + intros i Hd. destruct (specs !! i) as [sp|] eqn:E; [|by apply elem_of_nil in Hd].
      specialize (Hs i sp E). rewrite Forall_forall in Hs. apply Hs in Hd as [_ Hd]. lia.
  - intros [Hr Hs] k sp Hsp. apply Forall_forall. intros d Hd. split.
    + apply (Hr k). by rewrite Hsp.
    + intros ->. apply (Hs k). rewrite Hsp. by rewrite Z.add_0_l in Hd.
Qed.

Section dfs.
Context (specs : list TaskSpec) (Hrange : in_range specs).
Implicit Types (colors : list color).

Abbreviation R := (fun j i => depends specs i j).

Definition whites colors : nat := countb (fun c => bool_decide (c = White)) colors.

(** What holds of the colors between visits: finished nodes only reach finished
    nodes. *)
Definition sound colors : Prop :=
  length colors = length specs /\ forall i, colors !! i = Some Black -> Acc R i.

(** From [colors] to [colors']: the path is unchanged, finished stays finished,
    no node becomes unvisited. *)
Definition evolves colors colors' : Prop :=
  length colors' = length colors /\ forall i,
    (colors' !! i = Some Gray <-> colors !! i = Some Gray) /\
    (colors !! i = Some Black -> colors' !! i = Some Black).

Lemma evolves_trans c1 c2 c3 : evolves c1 c2 -> evolves c2 c3 -> evolves c1 c3.
Proof.
  intros [L1 E1] [L2 E2]. split; [congruence|]. intros i.
  destruct (E1 i) as [G1 B1], (E2 i) as [G2 B2]. split; [by rewrite G2|auto].
Qed.

Lemma evolves_refl c : evolves c c.
Proof. by split. Qed.

Lemma whites_le colors colors' : evolves colors colors' -> whites colors' <= whites colors.
Proof.
  intros [Hl He]. revert colors' Hl He.
  induction colors as [|c colors IH]; intros [|c' colors'] Hl He; try done.
  assert (whites colors' <= whites colors) as Hw.
  { apply IH; [by injection Hl|]. intros i. apply (He (S i)). }
  destruct (He 0) as [Hg Hb]. simpl in Hg, Hb. unfold whites, countb in *. simpl.
  destruct c, c'; simpl; try lia.
  - destruct Hg as [_ Hg]. by specialize (Hg eq_refl).
  - by specialize (Hb eq_refl).
Qed.

Lemma whites_insert colors node c :
  colors !! node = Some White -> c <> White -> S (whites (<[node := c]> colors)) = whites colors.
Proof.
  revert node. induction colors as [|c0 colors IH]; intros [|node] Hn Hc; simpl in *; try done.
  - injection Hn as ->. unfold whites, countb. simpl.
    rewrite (bool_decide_false (c = White)) by done. done.
  - specialize (IH node Hn Hc). unfold whites, countb in *. simpl.
    destruct (bool_decide (c0 = White)); simpl; lia.
Qed.

(** What a visit of an unvisited node answers. *)
Definition visited node colors (r : option (result error (list color))) : Prop :=
  match r with
  | Some (Ok colors') =>
      sound colors' /\ evolves (<[node := Black]> colors) colors' /\ colors' !! node = Some Black
  | Some (Err e) => e = Errorf "cycle detected" /\ ~ acyclic specs
  | None => False
  end.

(** The result of one visit, seen from the colors before it. *)
Lemma evolves_visit k c c' :
  c !! k = Some White -> evolves (<[k := Black]> c) c' -> c' !! k = Some Black -> evolves c c'.
Proof.
  intros Hk [Hl He] Hb. split; [by rewrite length_insert in Hl|]. intros i.
  destruct (He i) as [Hgi Hbi]. destruct (decide (i = k)) as [->|Hne].
  - by rewrite Hk, Hb.
  - by rewrite list_lookup_insert_ne in Hgi, Hbi by done.
Qed.

(** All dependencies finished: the node is finished too. *)
Lemma visit_finish node colors c :
  node < length colors -> sound c -> evolves (<[node := Gray]> colors) c ->
  (forall d, d ∈ deps_of specs node -> c !! Z.to_nat d = Some Black) ->
  visited node colors (Some (Ok (<[node := Black]> c))).
Proof.
  intros Hnl [Hcl Hcacc] [Hel He] Hdone. rewrite length_insert in Hel.
  split; [split|split].
  - by rewrite length_insert.
  - intros i Hi. apply list_lookup_insert_Some in Hi as [(<- & _ & _)|[_ Hi]]; [|by apply Hcacc].
    constructor. intros j Hj. apply Hcacc. specialize (Hdone _ Hj). by rewrite Nat2Z.id in Hdone.
  - split; [by rewrite !length_insert; lia|]. intros i. destruct (decide (i = node)) as [->|Hne].
    + by rewrite !list_lookup_insert_eq by lia.
    + rewrite !list_lookup_insert_ne by done. destruct (He i) as [Hg1 Hb1].
      by rewrite list_lookup_insert_ne in Hg1, Hb1 by done.
  - apply list_lookup_insert_eq. lia.
Qed.

(** Finished nodes stay finished across a visit of [k], and so becomes [k]. *)
Lemma done_visit k c c' (ds : list Z) :
  evolves (<[k := Black]> c) c' -> c' !! k = Some Black ->
  (forall d, d ∈ ds -> c !! Z.to_nat d = Some Black) ->
  forall d, d ∈ ds -> c' !! Z.to_nat d = Some Black.
Proof.
  intros [_ He] Hk Hd d Hin. destruct (decide (Z.to_nat d = k)) as [->|Hne]; [done|].
  destruct (He (Z.to_nat d)) as [_ Hb]. apply Hb.
  rewrite list_lookup_insert_ne by done. by apply Hd.
Qed.

Lemma visit_spec rec node colors fuel :
  node < length colors -> length colors = length specs -> colors !! node = Some White ->
  (forall g, colors !! g = Some Gray -> tc (depends specs) g node) -> whites colors <= S fuel ->
  (forall k c, sound c -> c !! k = Some White ->
     (forall g, c !! g = Some Gray -> tc (depends specs) g k) -> whites c <= fuel ->
     visited k c (rec k c)) ->
  forall deps ds c, deps_of specs node = ds ++ deps ->
    sound c -> evolves (<[node := Gray]> colors) c ->
    (forall d, d ∈ ds -> c !! Z.to_nat d = Some Black) ->
    visited node colors (visit rec node deps c).
Proof.
  intros Hnl Hlen Hn Hg Hf Hrec. induction deps as [|d deps IHd]; intros ds c Hd Hsc He Hdone.
  { rewrite app_nil_r in Hd. simpl. apply visit_finish; try done. by rewrite Hd. }
  assert (d ∈ deps_of specs node) as Hin by (rewrite Hd; set_solver).
  pose proof (Hrange node d Hin) as Hdr. cbn [visit].
  assert (depends specs node (Z.to_nat d)) as Hdep by (unfold depends; by rewrite Z2Nat.id by lia).
  assert (forall g, c !! g = Some Gray -> g = node \/ tc (depends specs) g node) as Hpath.
  { intros g Hgg. destruct He as [_ He]. destruct (He g) as [Hgi _]. apply Hgi in Hgg.
    apply list_lookup_insert_Some in Hgg as [(-> & _ & _)|[_ Hgg]]; auto. }
  destruct (lookup_lt_is_Some_2 c (Z.to_nat d)) as [k Hk]; [destruct Hsc; lia|]. rewrite Hk.
  destruct k.
  - assert (visited (Z.to_nat d) c (rec (Z.to_nat d) c)) as Hv.
    { apply Hrec; [done|done| |].
      - intros g [->|Hgg]%Hpath; [by apply tc_once|by eapply tc_r].
      - pose proof (whites_insert colors node Gray Hn ltac:(done)).
        pose proof (whites_le _ _ He). lia. }
    destruct (rec (Z.to_nat d) c) as [[c'|e]|]; [|exact Hv|done].
    destruct Hv as (Hs' & He' & Hb'). apply (IHd (ds ++ [d])).
    + by rewrite <-app_assoc.
    + done.
    + eapply evolves_trans; [exact He|]. by eapply evolves_visit.
    + intros d' [Hd'|Hd']%elem_of_app; [by eapply done_visit|].
      by apply list_elem_of_singleton in Hd' as ->.
  - split; [done|]. intros Hac. destruct (Hpath _ Hk) as [Heq|Ht].
    + apply (Hac node). apply tc_once. by rewrite Heq in Hdep.
    + apply (Hac (Z.to_nat d)). by eapply tc_r.
  - apply (IHd (ds ++ [d])); [by rewrite <-app_assoc|done|done|].
    intros d' [Hd'|Hd']%elem_of_app; [by apply Hdone|].
    by apply list_elem_of_singleton in Hd' as ->.
Qed.

(** A call of [dfs] on an unvisited node, all nodes of the path leading to it. *)
Lemma dfs_spec fuel node colors :
  sound colors -> colors !! node = Some White ->
  (forall g, colors !! g = Some Gray -> tc (depends specs) g node) ->
  whites colors <= fuel -> visited node colors (dfs fuel specs node colors).
Proof.
  revert node colors. induction fuel as [|fuel IH]; intros node colors Hs Hn Hg Hf.
  { pose proof (whites_insert colors node Black Hn ltac:(done)). lia. }
  cbn [dfs]. pose proof Hs as [Hlen Hacc].
  apply (visit_spec _ node colors fuel) with (ds := []);
    [by eapply lookup_lt_Some|exact Hlen|exact Hn|exact Hg|exact Hf| |reflexivity| |apply evolves_refl|].
  - intros k c Hsc Hk Hp Hw. by apply IH.
  - split; [by rewrite length_insert|]. intros i Hi.
    apply list_lookup_insert_Some in Hi as [(_ & ? & _)|[_ Hi]]; [done|by apply Hacc].
  - intros d Hd. by apply elem_of_nil in Hd.
Qed.

(** The outer loop starts each visit with no node on the path. *)
Lemma dfs_all_spec fuel nodes colors :
  sound colors -> (forall i, colors !! i <> Some Gray) -> whites colors <= fuel ->
  Forall (fun i => i < length specs) nodes ->
  match dfs_all fuel specs nodes colors with
  | Some (Ok colors') =>
      sound colors' /\ (forall i, colors !! i = Some Black -> colors' !! i = Some Black) /\
      Forall (fun i => colors' !! i = Some Black) nodes
  | Some (Err e) => e = Errorf "cycle detected" /\ ~ acyclic specs
  | None => False
  end.
Proof.
  revert colors. induction nodes as [|i nodes IH]; intros colors Hs Hng Hw Hn; [done|].
  apply Forall_cons in Hn as [Hi Hn]. cbn [dfs_all].
  destruct (lookup_lt_is_Some_2 colors i) as [k Hk]; [destruct Hs; lia|]. rewrite Hk. destruct k.
  - pose proof (dfs_spec fuel i colors Hs Hk (fun g Hg => False_ind _ (Hng g Hg)) Hw) as Hv.
    destruct (dfs fuel specs i colors) as [[c'|e]|]; [|exact Hv|exact Hv].
    destruct Hv as (Hs' & He & Hb). pose proof (evolves_visit i colors c' Hk He Hb) as Hev.
    assert (forall j, c' !! j <> Some Gray) as Hng'.
    { intros j Hj. destruct Hev as [_ Hev]. destruct (Hev j) as [Hgj _]. by apply Hgj, Hng in Hj. }
    pose proof (whites_le _ _ Hev) as Hwl.
    specialize (IH c' Hs' Hng' ltac:(lia) Hn).
    destruct (dfs_all fuel specs nodes c') as [[c''|e]|]; [|done|done].
    destruct IH as (Hs'' & Hkeep & Hall). split; [done|]. split.
    + intros j Hj. apply Hkeep. destruct Hev as [_ Hev]. by apply Hev.
    + constructor; [by apply Hkeep|done].
  - by apply Hng in Hk.
  - specialize (IH colors Hs Hng Hw Hn).
    destruct (dfs_all fuel specs nodes colors) as [[c''|e]|]; [|done|done].
    destruct IH as (Hs'' & Hkeep & Hall). split; [done|]. split; [done|].
    constructor; [by apply Hkeep|done].
Qed.
End dfs.

Lemma Acc_no_cycle specs i :
  Acc (fun j i => depends specs i j) i -> ~ tc (depends specs) i i.
Proof.
  induction 1 as [i _ IH]. intros Ht.
  assert (exists j, depends specs i j /\ tc (depends specs) j j) as (j & Hj & Hjj).
  { inversion Ht as [? ? Hd|? j ? Hd Ht']; subst.
    - by exists i.
    - exists j. split; [done|]. by eapply tc_r. }
  by apply (IH j Hj).
Qed.

(** C16: a plan is accepted exactly when it is a DAG.  [ValidateDAG] returns no error
    if and only if every dependency index names a task of the plan and no task
    depends on itself, directly or through others; in particular the depth-first
    search ends for every plan, and [length specs] nested calls are enough. *)
Theorem validate_dag_exact specs :
  ValidateDAG specs = None <-> in_range specs /\ acyclic specs.
Proof.
  unfold ValidateDAG. pose proof (check_specs_range specs) as Hc.
  destruct (check_specs _ 0 specs) as [e|].
  { split; [done|]. intros [Hr Ha]. apply Hc. split; [done|]. intros i Hi. by apply (Ha i), tc_once. }
  destruct (proj1 Hc eq_refl) as [Hr Hself].
  set (c0 := replicate (length specs) White).
  assert (forall i c, c0 !! i = Some c -> c = White) as Hc0.
  { intros i c Hi. by apply lookup_replicate in Hi as [-> _]. }
  assert (sound specs c0) as Hs.
  { split; [apply length_replicate|]. intros i Hi. by apply Hc0 in Hi. }
  assert (whites c0 <= length specs) as Hw.
  { unfold whites, countb. etransitivity; [apply List.filter_length_le|].
    unfold c0. by rewrite length_replicate. }
  assert (Forall (fun i => i < length specs) (seq 0 (length specs))) as Hseq.
  { apply Forall_forall. intros i Hi%elem_of_seq. lia. }
  pose proof (dfs_all_spec specs Hr (length specs) (seq 0 (length specs)) c0 Hs
    (fun i Hi => ltac:(by apply Hc0 in Hi)) Hw Hseq) as Hd.
  destruct (dfs_all _ _ _ _) as [[c'|e]|]; [|by split; [|intros [_ Ha]; by destruct Hd]|done].
  split; [intros _|done]. split; [done|]. destruct Hd as (Hs' & _ & Hall). intros i.
  destruct (decide (i < length specs)) as [Hlt|Hge].
  - apply Acc_no_cycle. apply Hs'. rewrite Forall_forall in Hall. apply Hall. apply elem_of_seq. lia.
  - intros Ht. assert (deps_of specs i = []) as E.
    { unfold deps_of. by rewrite lookup_ge_None_2 by lia. }
    inversion Ht as [? ? Hd|? j ? Hd _]; subst; unfold depends in Hd; rewrite E in Hd;
      by apply elem_of_nil in Hd.
Qed.

Lemma ValidateDAG_in_range specs : ValidateDAG specs = None -> in_range specs.
Proof.
  unfold ValidateDAG. pose proof (check_specs_range specs) as Hc.
  destruct (check_specs _ 0 specs) as [e|]; [done|]. intros _. apply (proj1 Hc eq_refl).
Qed.

(** ** Resolving and filtering *)

Lemma resolve_indices_spec ids deps :
  Forall (fun d => (0 <= d < Z.of_nat (length ids))%Z) deps ->
  exists rs, resolve_indices ids deps = Some rs /\
             Forall2 (fun d id => ids !! Z.to_nat d = Some id) deps rs.
Proof.
  induction 1 as [|d deps Hd _ (rs & E & Hrs)]; [by exists []|].
  destruct (lookup_lt_is_Some_2 ids (Z.to_nat d)) as [id Hid]; [lia|].
  exists (id :: rs). unfold resolve_indices in *. simpl.
  destruct (Z.ltb_spec d 0); [lia|]. rewrite Hid. simpl. rewrite E. split; [done|by constructor].
Qed.

#[local] Arguments resolve_indices : simpl never.

Lemma resolve_from_spec i specs ids :
  (forall k d, d ∈ deps_of specs k -> (0 <= d < Z.of_nat (length ids))%Z) ->
  exists m, resolve_from i specs ids = Some m /\ (forall k, k < i -> m !! k = None) /\
    forall k, match deps_of specs k with
      | [] => m !! (i + k) = None
      | ds => exists rs, m !! (i + k) = Some rs /\ Forall2 (fun d id => ids !! Z.to_nat d = Some id) ds rs
      end.
Proof.
  revert i. induction specs as [|spec specs IH]; intros i Hr; simpl.
  { exists ∅. split; [done|]. split; intros; unfold deps_of; by rewrite lookup_empty. }
  destruct (IH (S i)) as (m & E & Hlow & Hm); [intros k; apply (Hr (S k))|]. rewrite E. simpl.
  assert (forall m' : gmap nat (list uuid), (forall k, k <> i -> m' !! k = m !! k) -> (forall k, k < i -> m' !! k = None) /\
    forall k, match deps_of specs k with
      | [] => m' !! (i + S k) = None
      | ds => exists rs, m' !! (i + S k) = Some rs /\ Forall2 (fun d id => ids !! Z.to_nat d = Some id) ds rs
      end) as Hrest.
  { intros m' Hm'. split; [intros k Hk; rewrite Hm' by lia; apply Hlow; lia|].
    intros k. specialize (Hm k). rewrite Hm' by lia. by rewrite Nat.add_succ_r. }
  pose proof (Hr 0) as Hr0. unfold deps_of in Hr0. simpl in Hr0.
  destruct (sp_DependsOn spec) as [|d ds] eqn:Ed.
  - destruct (Hrest m) as [Hl Hk]; [done|]. exists m. split; [done|]. split; [done|].
    intros [|k]; [|apply Hk]. unfold deps_of. simpl. rewrite Ed, Nat.add_0_r. apply Hlow. lia.
  - destruct (resolve_indices_spec ids (d :: ds)) as (rs & -> & Hrs).
    { apply Forall_forall. intros x Hx. by apply Hr0. }
    simpl. destruct (Hrest (<[i := rs]> m)) as [Hl Hk].
    { intros k Hk. by rewrite lookup_insert_ne. }
    eexists. split; [reflexivity|]. split; [done|]. intros [|k]; [|apply Hk].
    unfold deps_of. simpl. rewrite Ed, Nat.add_0_r, lookup_insert_eq. by exists rs.
Qed.

(** Resolving a plan's dependencies.  When the indices are in range and there is
    an identifier per task, [ResolveDependencies] does not panic, gives a task
    without dependencies no entry, and every other task the identifiers of its
    dependencies, one per index and in order. *)
Theorem resolve_dependencies_spec specs taskIDs :
  in_range specs -> length taskIDs = length specs ->
  exists deps, ResolveDependencies specs taskIDs = Some deps /\
    forall i, match deps_of specs i with
      | [] => deps !! i = None
      | ds => exists ids, deps !! i = Some ids /\
                Forall2 (fun d id => taskIDs !! Z.to_nat d = Some id) ds ids
      end.
Proof.
  intros Hr Hlen. destruct (resolve_from_spec 0 specs taskIDs) as (m & E & _ & Hm).
  { intros k d Hd. rewrite Hlen. by eapply Hr. }
  by exists m.
Qed.

Lemma deps_met_true {F} (completed : gset uuid) (t : Task F) :
  deps_met completed t = true <-> Forall (fun d => d ∈ completed) (tk_DependsOn t).
Proof.
  unfold deps_met. rewrite forallb_Forall. apply Forall_iff. intros d. apply bool_decide_eq_true.
Qed.

(** ** Witnesses *)

Definition spec_ex (deps : list Z) : TaskSpec := mkTaskSpec RoleExecutor "" "" "" deps 0.
Definition plan_ex : list TaskSpec := [spec_ex []; spec_ex [0%Z]; spec_ex [0%Z; 1%Z]].

Example validate_plan_ex : ValidateDAG plan_ex = None.
Proof. reflexivity. Qed.
Example validate_cycle_ex : is_Some (ValidateDAG [spec_ex [1%Z]; spec_ex [2%Z]; spec_ex [0%Z]]).
Proof. by eexists. Qed.

Lemma resolve_dependencies_spec_witness :
  exists deps, ResolveDependencies plan_ex [7%N; 8%N; 9%N] = Some deps /\ deps !! 2 = Some [7%N; 8%N].
Proof.
  destruct (resolve_dependencies_spec plan_ex [7%N; 8%N; 9%N]) as (deps & E & _).
  - intros [|[|[|i]]] d Hd; simpl in *; repeat (apply elem_of_cons in Hd as [->|Hd]; [lia|]);
      by apply elem_of_nil in Hd.
  - reflexivity.
  - exists deps. split; [exact E|]. vm_compute in E. injection E as <-. reflexivity.
Defined.
