(* ===== verification/PlanParser.v ===== *)
(** * Reading what the agents answer

    [parsePlannerOutput] with its bracket matching
    ([src/internal/orchestrator/task_executor.go]) and [parseRecoveryDecision]
    ([recovery.go]).  Decoding JSON into Go structs is any function ([Decode]). *)

From S2P Require Import Prelude Text WorkflowTypes.

Definition quote : Ascii.ascii := Ascii.ascii_of_nat 34.
Definition backslash : Ascii.ascii := Ascii.ascii_of_nat 92.
Definition lbracket : Ascii.ascii := Ascii.ascii_of_nat 91.
Definition rbracket : Ascii.ascii := Ascii.ascii_of_nat 93.

(** The index of the first ['['], -1 if there is none. *)
Fixpoint find_char (c : Ascii.ascii) (i : Z) (s : string) : Z :=
  match s with
  | EmptyString => (-1)%Z
  | String c' s' => if Ascii.eqb c' c then i else find_char c (i + 1) s'
  end.

Definition findJSONArrayStart (s : string) : Z := find_char lbracket 0 s.

(** The loop of [findJSONArrayEnd] on the rest of the string from index [i]. *)
Fixpoint array_end (depth : Z) (inString escaped : bool) (i : Z) (s : string) : Z :=
  match s with
  | EmptyString => (-1)%Z
  | String c s' =>
      if escaped then array_end depth inString false (i + 1) s'
      else if Ascii.eqb c backslash && inString then array_end depth inString true (i + 1) s'
      else if Ascii.eqb c quote then array_end depth (negb inString) false (i + 1) s'
      else if inString then array_end depth inString false (i + 1) s'
      else if Ascii.eqb c lbracket then array_end (depth + 1) inString false (i + 1) s'
      else if Ascii.eqb c rbracket then
        if (depth - 1 =? 0)%Z then i else array_end (depth - 1) inString false (i + 1) s'
      else array_end depth inString false (i + 1) s'
  end.

Definition findJSONArrayEnd (s : string) (start : Z) : Z :=
  array_end 0 false false start (str_drop (Z.to_nat start) s).

(** [s[start:end+1]]. *)
Definition str_slice (s : string) (start end_ : Z) : string :=
  String.substring (Z.to_nat start) (Z.to_nat (end_ + 1 - start)) s.

Section parse.
Context {F : Type} `{Num F} `{!Decode (list TaskSpec)}.

(** The specifications of the text, or of the array found in it. *)
Definition decode_plan (s : string) : result error (list TaskSpec) :=
  match json_unmarshal s with
  | Ok specs => Ok specs
  | Err err =>
      let start := findJSONArrayStart s in
      if (start <? 0)%Z
      then Err (Wrap "planner response does not contain a JSON task array" err)
      else
        let end_ := findJSONArrayEnd s start in
        if (end_ <? 0)%Z then Err (Wrap "planner response contains malformed JSON array" err)
        else match json_unmarshal (str_slice s start end_) with
             | Ok specs => Ok specs
             | Err err => Err (Wrap "parsing planner JSON" err)
             end
  end.

Definition parsePlannerOutput (output : AgentOutput F) : result error (list TaskSpec) :=
  if String.eqb (ao_Response output) "" then Err (Errorf "planner returned empty response")
  else
    match decode_plan (ao_Response output) with
    | Err err => Err err
    | Ok specs =>
        if (length specs =? 0)%nat then Err (Errorf "planner returned empty task list") else Ok specs
    end.

(** ** Recovery decisions *)

Definition RecoveryAction : Type := string.
Definition RecoveryRetry : RecoveryAction := "retry".
Definition RecoveryEscalate : RecoveryAction := "escalate".
Definition RecoverySkip : RecoveryAction := "skip".

Record RecoveryDecision := mkDecision {
  rd_Action : RecoveryAction;
  rd_Reason : string;
  rd_Evidence : list string;
  rd_RootCause : string;
  rd_Confidence : F;
}.

(** [strings.LastIndex] of one character, -1 if there is none. *)
Fixpoint last_char (c : Ascii.ascii) (i last : Z) (s : string) : Z :=
  match s with
  | EmptyString => last
  | String c' s' => last_char c (i + 1) (if Ascii.eqb c' c then i else last) s'
  end.

Context `{!Decode RecoveryDecision}.

(** The decision of the text, or of the part between its outermost braces. *)
Definition decode_decision (s : string) : result error RecoveryDecision :=
  match json_unmarshal s with
  | Ok d => Ok d
  | Err err =>
      let start := find_char (Ascii.ascii_of_nat 123) 0 s in
      let end_ := last_char (Ascii.ascii_of_nat 125) 0 (-1) s in
      if (start <? 0)%Z || (end_ <=? start)%Z
      then Err (Wrap "no JSON object in diagnostician response" err)
      else match json_unmarshal (str_slice s start end_) with
           | Ok d => Ok d
           | Err err => Err (Wrap "parsing diagnostician JSON" err)
           end
  end.

Definition parseRecoveryDecision (output : AgentOutput F) : result error RecoveryDecision :=
  if String.eqb (ao_Response output) "" then Err (Errorf "diagnostician returned empty response")
  else
    match decode_decision (ao_Response output) with
    | Err err => Err err
    | Ok decision =>
        if negb (slice_contains [RecoveryRetry; RecoveryEscalate; RecoverySkip] (rd_Action decision))
        then Err (Errorf "unknown recovery action")
        else if nltb (rd_Confidence decision) (nlit 5 10) && String.eqb (rd_Action decision) RecoveryRetry
        then Ok (mkDecision RecoveryEscalate
                   (rd_Reason decision +:+ " [overridden: confidence too low for automatic retry]")
                   (rd_Evidence decision) (rd_RootCause decision) (rd_Confidence decision))
        else Ok decision
    end.
End parse.

Arguments RecoveryDecision F : clear implicits.

(** ** Bracket matching *)

(** The text of a JSON string after its opening quote, up to the closing one. *)
Inductive string_tail : string -> Prop :=
  | stl_end : string_tail (String quote "")
  | stl_char c s : c <> quote -> c <> backslash -> string_tail s -> string_tail (String c s)
  | stl_escape c s : string_tail s -> string_tail (String backslash (String c s)).

(** Text in which brackets outside strings match: what is inside a JSON array. *)
Inductive balanced : string -> Prop :=
  | bal_nil : balanced ""
  | bal_char c s :
      c <> quote -> c <> lbracket -> c <> rbracket -> balanced s -> balanced (String c s)
  | bal_string t s : string_tail t -> balanced s -> balanced (String quote (t +:+ s))
  | bal_array b s :
      balanced b -> balanced s -> balanced (String lbracket (b +:+ String rbracket s)).

Lemma array_end_string t depth i s :
  string_tail t ->
  array_end depth true false i (t +:+ s) =
  array_end depth false false (i + Z.of_nat (String.length t)) s.
Proof.
  intros Ht. revert i. induction Ht as [|c t Hq Hb Ht IH|c t Ht IH]; intros i; simpl.
  - by replace (i + 1)%Z with (i + Z.of_nat 1)%Z by lia.
  - apply Ascii.eqb_neq in Hq, Hb. rewrite Hb, Hq. simpl. rewrite IH. f_equal. lia.
  - rewrite IH. f_equal. lia.
Qed.

Lemma array_end_balanced b depth i s :
  balanced b -> (0 < depth)%Z ->
  array_end depth false false i (b +:+ s) =
  array_end depth false false (i + Z.of_nat (String.length b)) s.
Proof.
  intros Hb. revert depth i s. induction Hb as [|c b Hq Hl Hr Hb IH|t b Ht Hb IH|b1 b2 Hb1 IH1 Hb2 IH2];
    intros depth i s Hd; simpl.
  - f_equal. lia.
  - apply Ascii.eqb_neq in Hq, Hl, Hr. rewrite Hq, Hl, Hr, andb_false_r. simpl.
    rewrite IH by done. f_equal. lia.
  - rewrite str_app_assoc, array_end_string, IH, str_app_length by done. f_equal. lia.
  - rewrite str_app_assoc. change (String rbracket b2 +:+ s) with (String rbracket (b2 +:+ s)).
    rewrite IH1 by lia. simpl. destruct (Z.eqb_spec (depth + 1 - 1) 0); [lia|].
    replace (depth + 1 - 1)%Z with depth by lia. rewrite IH2, str_app_length by done. simpl.
    f_equal. lia.
Qed.

Lemma substring_prefix m s : String.substring 0 (String.length m) (m +:+ s) = m.
Proof. induction m as [|c m IH]; [by destruct s|]. simpl. by rewrite IH. Qed.

Lemma substring_app p m s :
  String.substring (String.length p) (String.length m) (p +:+ m +:+ s) = m.
Proof. induction p as [|c p IH]; [exact (substring_prefix m s)|exact IH]. Qed.

Lemma find_char_first c p i s :
  (forall c', c' ∈ String.list_ascii_of_string p -> c' <> c) ->
  find_char c i (p +:+ String c s) = (i + Z.of_nat (String.length p))%Z.
Proof.
  revert i. induction p as [|c0 p IH]; intros i Hp; simpl.
  - rewrite Ascii.eqb_refl. lia.
  - assert (c0 <> c) as Hne by (apply Hp; set_solver). apply Ascii.eqb_neq in Hne. rewrite Hne.
    rewrite IH; [lia|]. intros c' Hc'. apply Hp. set_solver.
Qed.

(** The planner's array is found in the text around it.  When the answer is text
    without ['['], a JSON array and any text after it, the matching picks exactly
    the array: brackets inside strings and escaped quotes do not confuse it, so the
    decoder sees the array and nothing else. *)
Theorem plan_array_extracted pre body post :
  (forall c, c ∈ String.list_ascii_of_string pre -> c <> lbracket) -> balanced body ->
  let array := String lbracket (body +:+ String rbracket "") in
  let s := pre +:+ array +:+ post in
  findJSONArrayStart s = Z.of_nat (String.length pre) /\
  str_slice s (findJSONArrayStart s) (findJSONArrayEnd s (findJSONArrayStart s)) = array.
Proof.
  intros Hpre Hb array s.
  assert (findJSONArrayStart s = Z.of_nat (String.length pre)) as Hs.
  { unfold findJSONArrayStart, s.
    change (array +:+ post) with (String lbracket ((body +:+ String rbracket "") +:+ post)).
    by rewrite find_char_first. }
  split; [done|]. rewrite Hs. unfold findJSONArrayEnd. rewrite Nat2Z.id.
  assert (array_end 0 false false (Z.of_nat (String.length pre)) (str_drop (String.length pre) s) =
          (Z.of_nat (String.length pre) + 1 + Z.of_nat (String.length body))%Z) as ->.
  { unfold s. rewrite str_drop_prefix. unfold array. simpl.
    rewrite str_app_assoc. change (String rbracket "" +:+ post) with (String rbracket post).
    by rewrite array_end_balanced. }
  unfold str_slice. rewrite Nat2Z.id.
  replace (Z.to_nat _) with (String.length array).
  - apply substring_app.
  - unfold array. simpl. rewrite str_app_length. simpl. lia.
Qed.

(** A decision the diagnostician is unsure of is never a retry.  Every decision
    that parses is one of the three actions, and a retry comes with a confidence of
    at least one half. *)
Theorem recovery_decision_safe {F} `{ExactNum F} `{!Decode (RecoveryDecision F)} output d :
  parseRecoveryDecision output = Ok d ->
  rd_Action d ∈ [RecoveryRetry; RecoveryEscalate; RecoverySkip] /\
  (rd_Action d = RecoveryRetry -> (1 # 2 <= toQ (rd_Confidence d))%Q).
Proof.
  unfold parseRecoveryDecision. destruct (String.eqb _ ""); [done|].
  destruct (decode_decision _) as [dec|e]; [|done].
  destruct (slice_contains_spec [RecoveryRetry; RecoveryEscalate; RecoverySkip] (rd_Action dec))
    as [Hin|]; simpl; [|done].
  destruct (nltb (rd_Confidence dec) (nlit 5 10)) eqn:Hc; simpl.
  - destruct (String.eqb_spec (rd_Action dec) RecoveryRetry) as [Ha|Ha]; intros [= <-].
    + simpl. split; [set_solver|]. intros Hx. by vm_compute in Hx.
    + split; [done|]. intros Hx. by rewrite Hx in Ha.
  - intros [= <-]. split; [done|]. intros _. num_norm. unfold nlit in Hc.
    rewrite toQ_div, !toQ_ofZ in Hc.
    assert (inject_Z 5 / inject_Z 10 == 1 # 2)%Q as E by done. rewrite E in Hc. done.
Qed.

(** ** Witnesses *)

Definition q : string := String quote "".
Definition plan_body : string := q +:+ "a]" +:+ String backslash q +:+ q +:+ ", [1]".

Lemma plan_array_extracted_witness :
  let array := String lbracket (plan_body +:+ String rbracket "") in
  let s := "Here is the plan: " +:+ array +:+ " done]" in
  str_slice s (findJSONArrayStart s) (findJSONArrayEnd s (findJSONArrayStart s)) = array.
Proof.
  apply (plan_array_extracted "Here is the plan: " plan_body " done]").
  - intros c Hc. simpl in Hc.
    repeat (apply elem_of_cons in Hc as [->|Hc]; [vm_compute; discriminate|]).
    by apply elem_of_nil in Hc.
  - apply (bal_string (String (Ascii.ascii_of_nat 97) (String rbracket (String backslash (String quote (String quote "")))))
             ", [1]").
    + do 2 (apply stl_char; [discriminate|discriminate|]). apply stl_escape. apply stl_end.
    + do 2 (apply bal_char; [discriminate|discriminate|discriminate|]).
      apply (bal_array "1" ""); [|apply bal_nil].
      apply bal_char; [discriminate|discriminate|discriminate|apply bal_nil].
Defined.

#[local] Instance decode_ex : Decode (RecoveryDecision Q) :=
  {| json_unmarshal := fun _ => Ok (mkDecision RecoveryRetry "flaky" [] "net" (3 # 10)) |}.

Lemma recovery_decision_safe_witness :
  exists d, parseRecoveryDecision (mkAgentOutput "{...}" 0 0%Q) = Ok d /\
    rd_Action d ∈ [RecoveryRetry; RecoveryEscalate; RecoverySkip] /\ rd_Action d = RecoveryEscalate.
Proof.
  eexists. split; [reflexivity|]. split; [|reflexivity].
  eapply (recovery_decision_safe (mkAgentOutput "{...}" 0 0%Q)). reflexivity.
Defined.
