(* ===== verification/WorkflowStore.v ===== *)
(** * The in-memory workflow store

    [src/internal/orchestrator/memory_store.go]: workflows, tasks and messages by
    identifier.  A stored value is a copy, so the store is a map of values. *)

From S2P Require Import Prelude WorkflowTypes Dag.

Section store.
Context {F : Type} `{Num F} `{!GoSort (Task F)} `{!GoSort AgentMessage}.
Context `{!MapRange uuid (Task F)} `{!MapRange uuid AgentMessage}.

Record InMemoryStore := mkStore {
  st_workflows : gmap uuid (Workflow F);
  st_tasks : gmap uuid (Task F);
  st_messages : gmap uuid AgentMessage;
}.

Definition NewInMemoryStore : InMemoryStore := mkStore ∅ ∅ ∅.

Definition CreateWorkflow (s : InMemoryStore) (wf : Workflow F) : option error * InMemoryStore :=
  match st_workflows s !! wf_ID wf with
  | Some _ => (Some (Errorf "workflow already exists"), s)
  | None => (None, mkStore (<[wf_ID wf := wf]> (st_workflows s)) (st_tasks s) (st_messages s))
  end.

Definition touch_wf (wf : Workflow F) (now : Time) : Workflow F :=
  mkWorkflow (wf_ID wf) (wf_OrgID wf) (wf_UserID wf) (wf_CorrelationID wf) (wf_Goal wf) (wf_Status wf)
    (wf_RootTaskID wf) (wf_BudgetLimitUSD wf) (wf_BudgetSpentUSD wf) (wf_MaxDepth wf) (wf_MaxTasks wf)
    (wf_TaskCount wf) (wf_CreatedAt wf) now (wf_CompletedAt wf) (wf_Error wf).

Definition UpdateWorkflow (s : InMemoryStore) (wf : Workflow F) (now : Time)
    : option error * InMemoryStore :=
  match st_workflows s !! wf_ID wf with
  | None => (Some (Errorf "workflow not found"), s)
  | Some _ =>
      (None, mkStore (<[wf_ID wf := touch_wf wf now]> (st_workflows s)) (st_tasks s) (st_messages s))
  end.

Definition GetWorkflow (s : InMemoryStore) (id : uuid) : result error (Workflow F) :=
  match st_workflows s !! id with
  | None => Err (Errorf "workflow not found")
  | Some wf => Ok wf
  end.

Definition CreateTask (s : InMemoryStore) (t : Task F) : option error * InMemoryStore :=
  match st_tasks s !! tk_ID t with
  | Some _ => (Some (Errorf "task already exists"), s)
  | None => (None, mkStore (st_workflows s) (<[tk_ID t := t]> (st_tasks s)) (st_messages s))
  end.

Definition UpdateTask (s : InMemoryStore) (t : Task F) (now : Time) : option error * InMemoryStore :=
  match st_tasks s !! tk_ID t with
  | None => (Some (Errorf "task not found"), s)
  | Some _ =>
      (None, mkStore (st_workflows s)
               (<[tk_ID t := with_status t (tk_Status t) now]> (st_tasks s)) (st_messages s))
  end.

Definition GetTask (s : InMemoryStore) (id : uuid) : result error (Task F) :=
  match st_tasks s !! id with
  | None => Err (Errorf "task not found")
  | Some t => Ok t
  end.

Definition of_workflow (id : uuid) (t : Task F) : bool := bool_decide (tk_WorkflowID t = id).

Definition ListTasksByWorkflow (s : InMemoryStore) (workflowID : uuid) : list (Task F) :=
  go_sort (fun a b => time_Before (tk_CreatedAt a) (tk_CreatedAt b))
    (List.filter (of_workflow workflowID) (map_range (st_tasks s)).*2).

Definition is_completed (t : Task F) : bool := bool_decide (tk_Status t = TaskCompleted).
Definition is_waiting (t : Task F) : bool :=
  bool_decide (tk_Status t = TaskPending) || bool_decide (tk_Status t = TaskBlocked).

(** Priority first (lower runs first), then creation. *)
Definition ready_less (a b : Task F) : bool :=
  if negb (tk_Priority a =? tk_Priority b)%Z then (tk_Priority a <? tk_Priority b)%Z
  else time_Before (tk_CreatedAt a) (tk_CreatedAt b).

(** The identifiers of the completed tasks of the workflow. *)
Definition completed_ids (s : InMemoryStore) (workflowID : uuid) : gset uuid :=
  list_to_set (map tk_ID (List.filter (fun t => of_workflow workflowID t && is_completed t)
                            (map_range (st_tasks s)).*2)).

Definition GetReadyTasks (s : InMemoryStore) (workflowID : uuid) : list (Task F) :=
  let candidates :=
    List.filter (fun t => of_workflow workflowID t && is_waiting t) (map_range (st_tasks s)).*2 in
  go_sort ready_less (List.filter (deps_met (completed_ids s workflowID)) candidates).

Definition SaveMessage (s : InMemoryStore) (m : AgentMessage) : InMemoryStore :=
  mkStore (st_workflows s) (st_tasks s) (<[am_ID m := m]> (st_messages s)).

Definition ListMessages (s : InMemoryStore) (workflowID : uuid) : list AgentMessage :=
  go_sort (fun a b => time_Before (am_CreatedAt a) (am_CreatedAt b))
    (List.filter (fun m => bool_decide (am_WorkflowID m = workflowID)) (map_range (st_messages s)).*2).

Definition ClaimReadyTasks (s : InMemoryStore) : result error (list (Task F)) :=
  Err (Errorf "ClaimReadyTasks is not supported in in-memory mode; agent mode requires postgres").

Definition HeartbeatTasks (s : InMemoryStore) : option error :=
  Some (Errorf "HeartbeatTasks is not supported in in-memory mode; agent mode requires postgres").
End store.

Arguments InMemoryStore F : clear implicits.

(** ** Lemmas and properties *)

Section properties.
Context {F : Type} `{Num F} `{!GoSort (Task F)} `{!MapRange uuid (Task F)}.
Implicit Types (s : InMemoryStore F) (t : Task F).

(** [t] is a stored task of the workflow. *)
Definition stored s (wfID : uuid) t : Prop :=
  (exists id, st_tasks s !! id = Some t) /\ tk_WorkflowID t = wfID.

Lemma elem_of_tasks s t : t ∈ (map_range (st_tasks s)).*2 <-> exists id, st_tasks s !! id = Some t.
Proof.
  rewrite list_elem_of_fmap. split.
  - intros ([id t'] & -> & Hin). exists id. by apply elem_of_map_range.
  - intros (id & Hid). exists (id, t). split; [done|]. by apply elem_of_map_range.
Qed.

Lemma elem_of_filter_of s wfID (p : Task F -> bool) t :
  t ∈ List.filter (fun t => of_workflow wfID t && p t) (map_range (st_tasks s)).*2 <->
  stored s wfID t /\ p t = true.
Proof.
  rewrite list_elem_of_In, filter_In, <-list_elem_of_In, elem_of_tasks. unfold stored, of_workflow.
  by_tests.
Qed.

Lemma elem_of_list_tasks s wfID t : t ∈ ListTasksByWorkflow s wfID <-> stored s wfID t.
Proof.
  unfold ListTasksByWorkflow. rewrite go_sort_perm.
  rewrite list_elem_of_In, filter_In, <-list_elem_of_In, elem_of_tasks. unfold stored, of_workflow.
  by_tests.
Qed.

Lemma elem_of_completed s wfID id :
  id ∈ completed_ids s wfID <-> exists t, stored s wfID t /\ tk_Status t = TaskCompleted /\ tk_ID t = id.
Proof.
  unfold completed_ids. rewrite elem_of_list_to_set, list_elem_of_In, in_map_iff. split.
  - intros (t & <- & Hin). apply list_elem_of_In, elem_of_filter_of in Hin as [Hs Hc].
    apply bool_decide_eq_true in Hc. by exists t.
  - intros (t & Hs & Hc & <-). exists t. split; [done|]. apply list_elem_of_In, elem_of_filter_of.
    split; [done|]. by apply bool_decide_eq_true.
Qed.

Definition ready s wfID t : Prop :=
  stored s wfID t /\ (tk_Status t = TaskPending \/ tk_Status t = TaskBlocked) /\
  Forall (fun d => exists t', stored s wfID t' /\ tk_Status t' = TaskCompleted /\ tk_ID t' = d)
    (tk_DependsOn t).

Lemma elem_of_ready s wfID t : t ∈ GetReadyTasks s wfID <-> ready s wfID t.
Proof.
  unfold GetReadyTasks. rewrite go_sort_perm, list_elem_of_In, filter_In, <-list_elem_of_In,
    elem_of_filter_of, deps_met_true. unfold ready, is_waiting.
  rewrite orb_true_iff, !bool_decide_eq_true.
  setoid_rewrite elem_of_completed. tauto.
Qed.

Lemma ready_less_weak : weak_order (ready_less (F:=F)).
Proof.
  unfold weak_order, ready_less, time_Before. split.
  - intros x y. destruct (Z.eqb_spec (tk_Priority x) (tk_Priority y)),
      (Z.eqb_spec (tk_Priority y) (tk_Priority x)); simpl; try lia.
  - intros x y z. destruct (Z.eqb_spec (tk_Priority y) (tk_Priority x)),
      (Z.eqb_spec (tk_Priority z) (tk_Priority y)), (Z.eqb_spec (tk_Priority z) (tk_Priority x));
      simpl; lia.
Qed.

(** The ready tasks of a workflow.  [GetReadyTasks] lists exactly the stored
    tasks of the workflow that are pending or blocked and whose every dependency
    is a completed task of the same workflow, those with a lower priority value
    first and, among equals, those created first. *)
Theorem ready_tasks_exact s wfID :
  (forall t, t ∈ GetReadyTasks s wfID <-> ready s wfID t) /\
  StronglySorted (fun a b =>
    (tk_Priority a < tk_Priority b)%Z \/
    tk_Priority a = tk_Priority b /\ (tk_CreatedAt a <= tk_CreatedAt b)%Z) (GetReadyTasks s wfID).
Proof.
  split; [intros t; apply elem_of_ready|].
  eapply StronglySorted_weaken; [|apply go_sort_sorted, ready_less_weak].
  intros a b. unfold ordered, ready_less, time_Before.
  destruct (Z.eqb_spec (tk_Priority b) (tk_Priority a)); simpl; lia.
Qed.
End properties.
