(* ===== verification/Scheduler.v ===== *)
(** * The workflow scheduler

    [src/internal/orchestrator/scheduler.go] with the task executor
    ([task_executor.go]), [Submit] of [engine.go] and the recovery settings of
    [src/internal/config/config.go], over the in-memory store.

    A scheduling round dispatches tasks that run concurrently, and handles their
    results as they arrive.  A round is run on an explicit schedule, the list of
    its events in the order they happen: any interleaving is a schedule.  An event
    carries what the environment answers to it: clock readings, new identifiers,
    the output of the agent. *)

From S2P Require Import Prelude WorkflowTypes Skill Dag PlanParser WorkflowStore.

Section scheduler.
Context {F : Type} `{Num F} `{ErrorText}.
Context `{!GoSort (Task F)} `{!MapRange uuid (Task F)}.
Context `{!GoSort AgentMessage} `{!MapRange uuid AgentMessage}.
Context `{!Decode (list TaskSpec)} `{!Decode (RecoveryDecision F)}.
Context `{Render}.
Implicit Types (s : InMemoryStore F) (wf : Workflow F) (t : Task F).
Local Open Scope go_scope.

(** ** Configuration *)

Record RecoveryConfig := mkRecoveryConfig {
  rc_Enabled : bool;
  rc_MaxRetries : Z;
  rc_MaxRecoveryDepth : Z;
  rc_RecoveryBudgetPct : F;
  rc_AllowRetry : bool;
}.

Definition MaxRetriesOrDefault (r : RecoveryConfig) : Z :=
  if (0 <? rc_MaxRetries r)%Z then rc_MaxRetries r else 2%Z.

Definition MaxRecoveryDepthOrDefault (r : RecoveryConfig) : Z :=
  if (0 <? rc_MaxRecoveryDepth r)%Z then rc_MaxRecoveryDepth r else 1%Z.

Definition RecoveryBudgetPctOrDefault (r : RecoveryConfig) : F :=
  if rc_RecoveryBudgetPct r >f? nofZ 0 then rc_RecoveryBudgetPct r else nlit 25 100.

Record EngineConfig := mkEngineConfig {
  ec_DefaultBudgetLimitUSD : F;
  ec_DefaultMaxDepth : Z;
  ec_DefaultMaxTasks : Z;
  ec_MaxConcurrentTasks : Z;
  ec_ExternalAgents : bool;
  ec_Recovery : option RecoveryConfig;
}.

Definition budgetLimit (c : EngineConfig) : F :=
  if ec_DefaultBudgetLimitUSD c >f? nofZ 0 then ec_DefaultBudgetLimitUSD c else nofZ 1.
Definition maxDepth (c : EngineConfig) : Z :=
  if (0 <? ec_DefaultMaxDepth c)%Z then ec_DefaultMaxDepth c else 5%Z.
Definition maxTasks (c : EngineConfig) : Z :=
  if (0 <? ec_DefaultMaxTasks c)%Z then ec_DefaultMaxTasks c else 50%Z.
Definition concurrency (c : EngineConfig) : Z :=
  if (0 <? ec_MaxConcurrentTasks c)%Z then ec_MaxConcurrentTasks c else 5%Z.

(** ** Updates of workflows and tasks *)

Definition wf_set (wf : Workflow F) (status : WorkflowStatus) (root : option uuid) (spent : F)
    (count : Z) (updated : Time) (completed : option Time) (err : string) : Workflow F :=
  mkWorkflow (wf_ID wf) (wf_OrgID wf) (wf_UserID wf) (wf_CorrelationID wf) (wf_Goal wf) status root
    (wf_BudgetLimitUSD wf) spent (wf_MaxDepth wf) (wf_MaxTasks wf) count (wf_CreatedAt wf) updated
    completed err.

(** [wf.TaskCount += n; wf.UpdatedAt = now]. *)
Definition add_tasks (wf : Workflow F) (n : Z) (now : Time) : Workflow F :=
  wf_set wf (wf_Status wf) (wf_RootTaskID wf) (wf_BudgetSpentUSD wf) (wf_TaskCount wf + n) now
    (wf_CompletedAt wf) (wf_Error wf).

(** [wf.BudgetSpentUSD += cost]. *)
Definition add_cost (wf : Workflow F) (cost : F) : Workflow F :=
  wf_set wf (wf_Status wf) (wf_RootTaskID wf) (wf_BudgetSpentUSD wf +f cost) (wf_TaskCount wf)
    (wf_UpdatedAt wf) (wf_CompletedAt wf) (wf_Error wf).

(** [task.Status = TaskRunning; task.StartedAt = &now; task.UpdatedAt = now]. *)
Definition mark_running (t : Task F) (now : Time) : Task F :=
  mkTask (tk_ID t) (tk_WorkflowID t) (tk_OrgID t) (tk_ParentTaskID t) (tk_AgentRole t)
    (tk_Description t) (tk_Input t) (tk_Output t) TaskRunning (tk_Mode t) (tk_Depth t) (tk_Priority t)
    (tk_DependsOn t) (tk_CreatedAt t) now (Some now) (tk_CompletedAt t) (tk_Error t)
    (tk_CostUSD t) (tk_TokensUsed t) (tk_ClaimedBy t) (tk_ClaimedAt t) (tk_RetryCount t)
    (tk_MaxRetries t) (tk_OriginalTaskID t).

Definition mark_completed (t : Task F) (output : AgentOutput F) (now : Time) : Task F :=
  mkTask (tk_ID t) (tk_WorkflowID t) (tk_OrgID t) (tk_ParentTaskID t) (tk_AgentRole t)
    (tk_Description t) (tk_Input t) (ao_Response output) TaskCompleted (tk_Mode t) (tk_Depth t)
    (tk_Priority t) (tk_DependsOn t) (tk_CreatedAt t) now (tk_StartedAt t) (Some now) (tk_Error t)
    (ao_CostUSD output) (ao_TokensUsed output) (tk_ClaimedBy t) (tk_ClaimedAt t) (tk_RetryCount t)
    (tk_MaxRetries t) (tk_OriginalTaskID t).

Definition mark_failed (t : Task F) (err : error) (now : Time) : Task F :=
  mkTask (tk_ID t) (tk_WorkflowID t) (tk_OrgID t) (tk_ParentTaskID t) (tk_AgentRole t)
    (tk_Description t) (tk_Input t) (tk_Output t) TaskFailed (tk_Mode t) (tk_Depth t)
    (tk_Priority t) (tk_DependsOn t) (tk_CreatedAt t) now (tk_StartedAt t) (Some now)
    (error_Error err) (tk_CostUSD t) (tk_TokensUsed t) (tk_ClaimedBy t) (tk_ClaimedAt t)
    (tk_RetryCount t) (tk_MaxRetries t) (tk_OriginalTaskID t).

(** The assignments of [retryTask]. *)
Definition mark_retry (t : Task F) (now : Time) : Task F :=
  mkTask (tk_ID t) (tk_WorkflowID t) (tk_OrgID t) (tk_ParentTaskID t) (tk_AgentRole t)
    (tk_Description t) (tk_Input t) "" TaskPending (tk_Mode t) (tk_Depth t) (tk_Priority t)
    (tk_DependsOn t) (tk_CreatedAt t) now None None "" (tk_CostUSD t) (tk_TokensUsed t) "" None
    (tk_RetryCount t + 1) (tk_MaxRetries t) (tk_OriginalTaskID t).

(** A new pending task. *)
Definition new_task (id : uuid) wf (parent : option uuid) (role : AgentRole)
    (description input : string) (mode : TaskMode) (depth priority : Z) (deps : list uuid)
    (original : option uuid) (now : Time) : Task F :=
  mkTask id (wf_ID wf) (wf_OrgID wf) parent role description input "" TaskPending mode depth priority
    deps now now None None "" (nofZ 0) 0 "" None 0 0 original.

(** ** The task executor *)

(** [executeTask] up to the agent's run. *)
Definition startTask s t (now : Time) : option error * InMemoryStore F * Task F :=
  let t := mark_running t now in
  let '(err, s) := UpdateTask s t now in
  (match err with Some e => Some (Wrap "marking task running" e) | None => None end, s, t).

Definition failTask s t (err : error) (now : Time) : error * InMemoryStore F :=
  (err, (UpdateTask s (mark_failed t err now) now).2).

(** What the environment answers: the factory has no agent for the role, or the
    agent ran. *)
Inductive agent_result :=
  | NoAgent (err : error)
  | Answer (res : result error (AgentOutput F)).

(** [executeTask] after the agent answered [res]. *)
Definition finishTask s wf t (res : agent_result) (msgID : uuid) (now : Time)
    : result error (AgentOutput F) * InMemoryStore F :=
  match res with
  | NoAgent err =>
      let '(err, s) := failTask s t (Wrap "creating agent" err) now in (Err err, s)
  | Answer (Err err) =>
      let '(err, s) := failTask s t (Wrap "agent execution" err) now in (Err err, s)
  | Answer (Ok output) =>
      let s := SaveMessage s
        (mkAgentMessage msgID (wf_ID wf) (tk_ID t) None (tk_AgentRole t) RoleOrchestrator
           MsgTaskResult (ao_Response output) (wf_CorrelationID wf) now) in
      match UpdateTask s (mark_completed t output now) now with
      | (Some err, s) => (Err (Wrap "marking task completed" err), s)
      | (None, s) => (Ok output, s)
      end
  end.

(** The messages the agent of a task gets to see. *)
Definition message_relevant t (m : AgentMessage) : bool :=
  bool_decide (am_ToTaskID m = Some (tk_ID t)) ||
  (bool_decide (am_ToTaskID m = None) && bool_decide (tk_ParentTaskID t = Some (am_FromTaskID m))) ||
  (bool_decide (am_MessageType m = MsgTaskResult) && bool_decide (is_Some (tk_ParentTaskID t))).

Definition filterMessagesForTask (messages : list AgentMessage) t : list AgentMessage :=
  List.filter (message_relevant t) messages.

(** What the agent of a task is given. *)
Definition task_input s wf t : AgentInput :=
  mkAgentInput (wf_ID wf) (tk_ID t) (wf_UserID wf) (wf_CorrelationID wf)
    (filterMessagesForTask (ListMessages s (wf_ID wf)) t) (tk_Input t).

(** ** Planner output *)

Definition ValidateRole (role : AgentRole) : option error :=
  if slice_contains
       [RoleOrchestrator; RolePlanner; RoleResearcher; RoleExecutor; RoleCompliance; RoleDiagnostician]
       role
  then None else Some (Errorf "unknown agent role").

Definition planned_task wf (plannerTask : Task F) (spec : TaskSpec) (id : uuid) (deps : list uuid)
    (now : Time) : Task F :=
  new_task id wf (Some (tk_ID plannerTask)) (sp_AgentRole spec) (sp_Description spec) (sp_Input spec)
    (if String.eqb (sp_Mode spec) "" then TaskModeSequential else sp_Mode spec)
    (tk_Depth plannerTask + 1) (sp_Priority spec) deps None now.

Definition assignment wf (plannerTask : Task F) (spec : TaskSpec) (id msgID : uuid) (now : Time)
    : AgentMessage :=
  mkAgentMessage msgID (wf_ID wf) (tk_ID plannerTask) (Some id) RolePlanner (sp_AgentRole spec)
    MsgTaskAssignment (sp_Input spec) (wf_CorrelationID wf) now.

(** The creation loop from index [i] on. *)
Fixpoint create_planned s wf (plannerTask : Task F) (deps : gmap nat (list uuid)) (now : Time) (i : nat)
    (items : list (TaskSpec * uuid * uuid)) : option error * InMemoryStore F :=
  match items with
  | [] => (None, s)
  | (spec, id, msgID) :: items =>
      match ValidateRole (sp_AgentRole spec) with
      | Some err => (Some (Wrap "task role" err), s)
      | None =>
          match CreateTask s (planned_task wf plannerTask spec id (default [] (deps !! i)) now) with
          | (Some err, s) => (Some (Wrap "creating task" err), s)
          | (None, s) =>
              create_planned (SaveMessage s (assignment wf plannerTask spec id msgID now)) wf plannerTask
                deps now (S i) items
          end
      end
  end.

(** The environment's part of handling a result: a clock reading and as many task
    and message identifiers as needed. *)
Record handle_env := mkHandleEnv {
  he_now : Time; he_taskIDs : list uuid; he_msgIDs : list uuid;
}.

Definition handlePlannerOutput s wf (plannerTask : Task F) (output : AgentOutput F) (env : handle_env)
    : option error * Workflow F * InMemoryStore F :=
  match parsePlannerOutput output with
  | Err err => (Some (Wrap "parsing planner output" err), wf, s)
  | Ok specs =>
      let n := Z.of_nat (length specs) in
      match ValidateDAG specs with
      | Some err => (Some (Wrap "invalid plan DAG" err), wf, s)
      | None =>
          if (wf_MaxTasks wf <? wf_TaskCount wf + n)%Z
          then (Some (Errorf "task count limit exceeded"), wf, s)
          else if (wf_MaxDepth wf <=? tk_Depth plannerTask + 1)%Z
          then (Some (Errorf "depth limit exceeded"), wf, s)
          else
            let taskIDs := take (length specs) (he_taskIDs env) in
            match ResolveDependencies specs taskIDs with
            | None => (Some (Errorf "panic: index out of range"), wf, s)
            | Some deps =>
                let items := zip (zip specs taskIDs) (he_msgIDs env) in
                match create_planned s wf plannerTask deps (he_now env) 0 items with
                | (Some err, s) => (Some err, wf, s)
                | (None, s) =>
                    let wf := add_tasks wf n (he_now env) in
                    let '(err, s) := UpdateWorkflow s wf (he_now env) in
                    (err, wf, s)
                end
            end
      end
  end.

(** ** Ending a workflow *)

Definition finishWorkflow s wf (status : WorkflowStatus) (errMsg : string) (now : Time)
    : option error * Workflow F * InMemoryStore F :=
  let wf := wf_set wf status (wf_RootTaskID wf) (wf_BudgetSpentUSD wf) (wf_TaskCount wf) now
              (Some now) errMsg in
  match UpdateWorkflow s wf now with
  | (Some err, s) => (Some (Wrap "finishing workflow" err), wf, s)
  | (None, s) => (if String.eqb errMsg "" then None else Some (Errorf errMsg), wf, s)
  end.

(** Skipping the waiting tasks of a snapshot. *)
Fixpoint skip_waiting s (tasks : list (Task F)) (now : Time) : InMemoryStore F :=
  match tasks with
  | [] => s
  | t :: tasks =>
      let s := if is_waiting t then (UpdateTask s (with_status t TaskSkipped now) now).2 else s in
      skip_waiting s tasks now
  end.

Definition cancelWorkflow s wf (cause : error) (now : Time) : error * Workflow F * InMemoryStore F :=
  let s := skip_waiting s (ListTasksByWorkflow s (wf_ID wf)) now in
  let wf := wf_set wf WorkflowCancelled (wf_RootTaskID wf) (wf_BudgetSpentUSD wf) (wf_TaskCount wf) now
              (Some now) (error_Error cause) in
  (Wrap "workflow cancelled" cause, wf, (UpdateWorkflow s wf now).2).

Definition countByStatus (tasks : list (Task F)) (status : TaskStatus) : nat :=
  countb (fun t => bool_decide (tk_Status t = status)) tasks.

(** ** Recovery *)

Definition recoverySpent s wf : F :=
  fold_left (fun total t => if String.eqb (tk_AgentRole t) RoleDiagnostician
                            then total +f tk_CostUSD t else total)
    (ListTasksByWorkflow s (wf_ID wf)) (nofZ 0).

Definition shouldAttemptRecovery (c : EngineConfig) s wf t : bool :=
  match ec_Recovery c with
  | None => false
  | Some rc =>
      if negb (rc_Enabled rc) then false
      else
        let maxRetries := if (tk_MaxRetries t <=? 0)%Z then MaxRetriesOrDefault rc else tk_MaxRetries t in
        if (maxRetries <=? tk_RetryCount t)%Z then false
        else
          let recoveryBudget := wf_BudgetLimitUSD wf *f RecoveryBudgetPctOrDefault rc in
          if (recoveryBudget >f? nofZ 0) && (recoverySpent s wf >=f? recoveryBudget) then false
          else if (wf_MaxDepth wf <=? tk_Depth t + 1)%Z then false
          else negb (wf_MaxTasks wf <? wf_TaskCount wf + 1)%Z
  end.

Definition recovery_message wf (failedTask diagTask : Task F) (content : string) (id : uuid) (now : Time)
    : AgentMessage :=
  mkAgentMessage id (wf_ID wf) (tk_ID diagTask) (Some (tk_ID failedTask)) RoleDiagnostician
    (tk_AgentRole failedTask) MsgRecoveryResult content (wf_CorrelationID wf) now.

(** The text given to the diagnostician. *)
Definition nl : string := String (Ascii.ascii_of_nat 10) "".
Definition buildDiagnosticInput (failedTask : Task F) : string :=
  "## Failed Task Analysis" +:+ nl +:+ nl
  +:+ "**Task ID**: " +:+ uuid_String (tk_ID failedTask) +:+ nl
  +:+ "**Role**: " +:+ tk_AgentRole failedTask +:+ nl
  +:+ "**Description**: " +:+ tk_Description failedTask +:+ nl
  +:+ "**Input**: " +:+ tk_Input failedTask +:+ nl +:+ nl
  +:+ "**Error**: " +:+ tk_Error failedTask +:+ nl +:+ nl
  +:+ "**Retry Count**: " +:+ itoa (tk_RetryCount failedTask) +:+ nl
  +:+ "**Max Retries**: "
  +:+ itoa (if (tk_MaxRetries failedTask <=? 0)%Z then 2%Z else tk_MaxRetries failedTask) +:+ nl +:+ nl
  +:+ (if String.eqb (tk_Output failedTask) "" then ""
       else "**Partial Output**:" +:+ nl +:+ tk_Output failedTask +:+ nl +:+ nl)
  +:+ "Analyze this failure and recommend a recovery action." +:+ nl.

Definition diag_task wf (failedTask : Task F) (id : uuid) (now : Time) : Task F :=
  new_task id wf (tk_ParentTaskID failedTask) RoleDiagnostician
    ("Diagnose failure: " +:+ tk_Description failedTask) (buildDiagnosticInput failedTask)
    TaskModeSequential (tk_Depth failedTask + 1) 0 [] (Some (tk_ID failedTask)) now.

Definition initiateRecovery s wf (failedTask : Task F) (diagID msgID : uuid) (now : Time)
    : option error * Workflow F * InMemoryStore F :=
  let failedTask := with_status failedTask TaskRecovering now in
  match UpdateTask s failedTask now with
  | (Some err, s) => (Some (Wrap "marking task recovering" err), wf, s)
  | (None, s) =>
      let diagTask := diag_task wf failedTask diagID now in
      match CreateTask s diagTask with
      | (Some err, s) =>
          (Some (Wrap "creating diagnostician task" err), wf,
           (UpdateTask s (with_status failedTask TaskFailed now) now).2)
      | (None, s) =>
          let wf := add_tasks wf 1 now in
          let s := (UpdateWorkflow s wf now).2 in
          (None, wf, SaveMessage s (recovery_message wf failedTask diagTask "recovery_initiated" msgID now))
      end
  end.

Definition retryTask s t (now : Time) : option error * InMemoryStore F :=
  UpdateTask s (mark_retry t now) now.

Definition recoveryFailed s (diagTask : Task F) (err : error) (now : Time) : error * InMemoryStore F :=
  match tk_OriginalTaskID diagTask with
  | None => (err, s)
  | Some id =>
      match GetTask s id with
      | Err _ => (err, s)
      | Ok original => (err, (UpdateTask s (with_status original TaskFailed now) now).2)
      end
  end.

Definition retry_forbidden (c : EngineConfig) : bool :=
  match ec_Recovery c with Some rc => negb (rc_AllowRetry rc) | None => false end.

Definition handleDiagnosticianOutput (c : EngineConfig) s wf (diagTask : Task F)
    (output : AgentOutput F) (env : handle_env) : option error * InMemoryStore F :=
  let now := he_now env in
  match parseRecoveryDecision output with
  | Err err =>
      let '(e, s) := recoveryFailed s diagTask (Wrap "parsing decision" err) now in (Some e, s)
  | Ok decision =>
      match tk_OriginalTaskID diagTask with
      | None => (Some (Errorf "diagnostician task has no original_task_id"), s)
      | Some id =>
          match GetTask s id with
          | Err err => (Some (Wrap "loading original task" err), s)
          | Ok original =>
              let s := SaveMessage s
                (recovery_message wf original diagTask ("recovery_decision_" +:+ rd_Action decision)
                   (default uuid_Nil (he_msgIDs env !! 0)) now) in
              if String.eqb (rd_Action decision) RecoveryRetry then
                if retry_forbidden c
                then let '(e, s) := recoveryFailed s diagTask (Errorf "retry not allowed by config") now in
                     (Some e, s)
                else retryTask s original now
              else if String.eqb (rd_Action decision) RecoveryEscalate
              then UpdateTask s (with_status original TaskFailed now) now
              else if String.eqb (rd_Action decision) RecoverySkip
              then UpdateTask s (with_status original TaskSkipped now) now
              else let '(e, s) := recoveryFailed s diagTask (Errorf "unknown action") now in (Some e, s)
          end
      end
  end.

(** ** A scheduling round *)

(** Where a dispatched task is. *)
Inductive phase :=
  | PDispatched                                    (* handed to a goroutine *)
  | PRunning                                       (* [startTask] done, the agent runs *)
  | PFinished (res : result error (AgentOutput F)) (* in the results channel *)
  | PHandled.

Record roundState := mkRound {
  rs_store : InMemoryStore F;
  rs_wf : Workflow F;
  rs_items : list (Task F * phase);
}.

Inductive round_event :=
  | RStart (i : nat) (now : Time)
  | REnd (i : nat) (res : agent_result) (msgID : uuid) (now : Time)
  | RHandle (i : nat) (env : handle_env).

Definition set_item (r : roundState) s wf (i : nat) (t : Task F) (p : phase) : roundState :=
  mkRound s wf (<[i := (t, p)]> (rs_items r)).

(** The body of the results loop for one result; errors are logged only. *)
Definition handleResult (c : EngineConfig) s wf (t : Task F) (res : result error (AgentOutput F))
    (env : handle_env) : Workflow F * InMemoryStore F :=
  match res with
  | Err _ => (wf, s)
  | Ok output =>
      let '(wf, s) :=
        if String.eqb (tk_AgentRole t) RolePlanner
        then let '(_, wf, s) := handlePlannerOutput s wf t output env in (wf, s)
        else (wf, s) in
      let s :=
        if String.eqb (tk_AgentRole t) RoleDiagnostician
        then (handleDiagnosticianOutput c s wf t output env).2 else s in
      (add_cost wf (ao_CostUSD output), s)
  end.

(** One event; [None] when the event cannot happen in this state. *)
Definition round_step (c : EngineConfig) (r : roundState) (ev : round_event) : option roundState :=
  match ev with
  | RStart i now =>
      match rs_items r !! i with
      | Some (t, PDispatched) =>
          let '(err, s, t) := startTask (rs_store r) t now in
          Some (set_item r s (rs_wf r) i t
                  (match err with Some e => PFinished (Err e) | None => PRunning end))
      | _ => None
      end
  | REnd i res msgID now =>
      match rs_items r !! i with
      | Some (t, PRunning) =>
          let '(res, s) := finishTask (rs_store r) (rs_wf r) t res msgID now in
          Some (set_item r s (rs_wf r) i t (PFinished res))
      | _ => None
      end
  | RHandle i env =>
      match rs_items r !! i with
      | Some (t, PFinished res) =>
          let '(wf, s) := handleResult c (rs_store r) (rs_wf r) t res env in
          Some (set_item r s wf i t PHandled)
      | _ => None
      end
  end.

Fixpoint round_run (c : EngineConfig) (r : roundState) (evs : list round_event) : option roundState :=
  match evs with
  | [] => Some r
  | ev :: evs => r' ← round_step c r ev; round_run c r' evs
  end.

Definition is_handled (item : Task F * phase) : bool :=
  match item.2 with PHandled => true | _ => false end.

(** ** The scheduling loop *)

Inductive top_result :=
  | TopDispatch (ready : list (Task F))
  | TopWait
  | TopRecovered s wf
  | TopFinish (err : option error) s wf.

(** The recovery loop over the failed tasks of the snapshot. *)
Fixpoint recover_failed (c : EngineConfig) s wf (tasks : list (Task F)) (ids : list (uuid * uuid))
    (now : Time) : bool * Workflow F * InMemoryStore F :=
  match tasks with
  | [] => (false, wf, s)
  | t :: tasks =>
      if bool_decide (tk_Status t = TaskFailed) && shouldAttemptRecovery c s wf t then
        let '(diagID, msgID) := default (uuid_Nil, uuid_Nil) (head ids) in
        let '(err, wf, s) := initiateRecovery s wf t diagID msgID now in
        let '(attempted, wf, s) := recover_failed c s wf tasks (tail ids) now in
        (match err with None => true | Some _ => attempted end, wf, s)
      else recover_failed c s wf tasks ids now
  end.

Definition recovery_enabled (c : EngineConfig) : bool :=
  match ec_Recovery c with Some rc => rc_Enabled rc | None => false end.

(** The reordering of the ready tasks, when there is a scorer. *)
Definition order_ready (scorer : option (SkillScorer F)) wf (ready : list (Task F)) : list (Task F) :=
  match scorer with
  | Some sc => if (1 <? length ready)%nat then reorderBySkillScore sc (wf_OrgID wf) ready else ready
  | None => ready
  end.

(** The loop body up to the dispatch.  The skill store that the scorer reads changes
    between rounds: it is an argument of every step. *)
Definition top (c : EngineConfig) s wf (scorer : option (SkillScorer F)) (ids : list (uuid * uuid))
    (now : Time) : top_result :=
  let ready := order_ready scorer wf (GetReadyTasks s (wf_ID wf)) in
  let allTasks := ListTasksByWorkflow s (wf_ID wf) in
  let running := countByStatus allTasks TaskRunning in
  let recovering := countByStatus allTasks TaskRecovering in
  if (length ready =? 0)%nat && (running =? 0)%nat && (recovering =? 0)%nat then
    let failed := countByStatus allTasks TaskFailed in
    let '(attempted, wf, s) :=
      if (0 <? failed)%nat && recovery_enabled c then recover_failed c s wf allTasks ids now
      else (false, wf, s) in
    if attempted then TopRecovered s wf
    else if (0 <? failed)%nat then
      let '(err, wf, s) := finishWorkflow s wf WorkflowFailed "task(s) failed" now in TopFinish err s wf
    else let '(err, wf, s) := finishWorkflow s wf WorkflowCompleted "" now in TopFinish err s wf
  else if (length ready =? 0)%nat then TopWait
  else
    let slots := (concurrency c - Z.of_nat running)%Z in
    if (slots <=? 0)%Z then TopWait
    else TopDispatch (if (slots <? Z.of_nat (length ready))%Z then take (Z.to_nat slots) ready else ready).

(** The end of the loop body: the workflow is read back from the store, and its
    budget is checked. *)
Definition refresh s wf : Workflow F :=
  match GetWorkflow s (wf_ID wf) with Ok latest => latest | Err _ => wf end.

Definition over_budget wf : bool :=
  (wf_BudgetLimitUSD wf >f? nofZ 0) && (wf_BudgetSpentUSD wf >f? wf_BudgetLimitUSD wf).

(** The scheduler between two rounds, in a round, and done. *)
Inductive sched_state :=
  | Looping s wf
  | InRound (r : roundState)
  | Done (err : option error) s wf.

Definition dispatched (ready : list (Task F)) : list (Task F * phase) :=
  map (fun t => (t, PDispatched)) ready.

Inductive sched_step (c : EngineConfig) : sched_state -> sched_state -> Prop :=
  | ss_dispatch s wf scorer ids now ready :
      top c s wf scorer ids now = TopDispatch ready ->
      sched_step c (Looping s wf) (InRound (mkRound s wf (dispatched ready)))
  | ss_wait s wf scorer ids now :
      top c s wf scorer ids now = TopWait -> sched_step c (Looping s wf) (Looping s wf)
  | ss_recover s wf scorer ids now s' wf' :
      top c s wf scorer ids now = TopRecovered s' wf' -> sched_step c (Looping s wf) (Looping s' wf')
  | ss_finish s wf scorer ids now err s' wf' :
      top c s wf scorer ids now = TopFinish err s' wf' -> sched_step c (Looping s wf) (Done err s' wf')
  | ss_cancel s wf cause now err s' wf' :
      cancelWorkflow s wf cause now = (err, wf', s') -> sched_step c (Looping s wf) (Done (Some err) s' wf')
  | ss_event r ev r' :
      round_step c r ev = Some r' -> sched_step c (InRound r) (InRound r')
  | ss_round_end r :
      forallb is_handled (rs_items r) = true ->
      over_budget (refresh (rs_store r) (rs_wf r)) = false ->
      sched_step c (InRound r) (Looping (rs_store r) (refresh (rs_store r) (rs_wf r)))
  | ss_over_budget r now err s' wf' :
      forallb is_handled (rs_items r) = true ->
      over_budget (refresh (rs_store r) (rs_wf r)) = true ->
      finishWorkflow (rs_store r) (refresh (rs_store r) (rs_wf r)) WorkflowFailed "budget exceeded" now =
        (err, wf', s') ->
      sched_step c (InRound r) (Done err s' wf').

(** ** Submitting *)

Record WorkflowRequest := mkWorkflowRequest {
  wr_UserID : string; wr_OrgID : uuid; wr_Goal : string; wr_CorrelationID : string;
  wr_BudgetLimitUSD : F; wr_MaxDepth : Z; wr_MaxTasks : Z;
}.

Definition Submit (c : EngineConfig) s (req : WorkflowRequest) (wfID taskID : uuid) (now : Time)
    : result error (Workflow F) * InMemoryStore F :=
  let limit := if wr_BudgetLimitUSD req <=f? nofZ 0 then budgetLimit c else wr_BudgetLimitUSD req in
  let depth := if (wr_MaxDepth req <=? 0)%Z then maxDepth c else wr_MaxDepth req in
  let tasks := if (wr_MaxTasks req <=? 0)%Z then maxTasks c else wr_MaxTasks req in
  let wf := mkWorkflow wfID (wr_OrgID req) (wr_UserID req) (wr_CorrelationID req) (wr_Goal req)
              WorkflowPending None limit (nofZ 0) depth tasks 0 now now None "" in
  match CreateWorkflow s wf with
  | (Some err, s) => (Err (Wrap "creating workflow" err), s)
  | (None, s) =>
      let root := new_task taskID wf None RolePlanner "Decompose goal into sub-tasks" (wr_Goal req)
                    TaskModeSequential 0 0 [] None now in
      match CreateTask s root with
      | (Some err, s) => (Err (Wrap "creating root task" err), s)
      | (None, s) =>
          let wf := wf_set wf WorkflowRunning (Some taskID) (nofZ 0) 1 now None "" in
          match UpdateWorkflow s wf now with
          | (Some err, s) => (Err (Wrap "updating workflow with root task" err), s)
          | (None, s) => (Ok wf, s)
          end
      end
  end.

(** ** The other operations of the engine *)

Definition Status s (workflowID : uuid) : result error (Workflow F) := GetWorkflow s workflowID.

(** [Cancel]: whether the workflow's context was cancelled; [cancels] holds the
    workflows the engine runs. *)
Definition Cancel (cancels : gset uuid) s (workflowID : uuid) : result error bool :=
  if bool_decide (workflowID ∈ cancels) then Ok true
  else
    match GetWorkflow s workflowID with
    | Err err => Err (Wrap "workflow not found" err)
    | Ok wf =>
        if bool_decide (wf_Status wf = WorkflowRunning)
        then Err (Errorf "workflow is running but cancel function not found")
        else Ok false
    end.

Definition ListTasks s (workflowID : uuid) : list (Task F) := ListTasksByWorkflow s workflowID.
End scheduler.

Lemma order_ready_perm {F} `{Num F} `{Render} (scorer : option (SkillScorer F)) wf ready :
  order_ready scorer wf ready ≡ₚ ready.
Proof.
  unfold order_ready. destruct scorer; [|done]. destruct (1 <? _); [apply reorder_perm|done].
Qed.

Arguments EngineConfig F : clear implicits.
Arguments RecoveryConfig F : clear implicits.
Arguments WorkflowRequest F : clear implicits.
Arguments agent_result F : clear implicits.
Arguments phase F : clear implicits.
Arguments roundState F : clear implicits.
Arguments round_event F : clear implicits.
Arguments top_result F : clear implicits.
Arguments sched_state F : clear implicits.
