(* ===== verification/SchedulerProps.v ===== *)
(** * Properties of the scheduler

    The limits of a workflow in every reachable state; the dispatch decision, the verdict on a
    workflow, the states the loop cannot leave by itself, what a round keeps of the costs of
    its tasks; the effect of [handlePlannerOutput] on the store and on the task count. *)

From S2P Require Import Prelude WorkflowTypes Skill Dag PlanParser WorkflowStore Scheduler.

Section props.
Context {F : Type} `{Num F} `{ErrorText}.
Context `{!GoSort (Task F)} `{!MapRange uuid (Task F)}.
Context `{!Decode (list TaskSpec)} `{!Decode (RecoveryDecision F)}.
Context `{Render}.
Implicit Types (s : InMemoryStore F) (wf : Workflow F) (t : Task F) (c : EngineConfig F).

(** ** The limits of a workflow *)

Section limits.
Context (id : uuid) (maxD maxT : Z).

Definition wf_lim wf : Prop :=
  wf_ID wf = id /\ wf_MaxDepth wf = maxD /\ wf_MaxTasks wf = maxT /\ (wf_TaskCount wf <= maxT)%Z.
Definition tk_lim t : Prop := tk_WorkflowID t = id -> (0 <= tk_Depth t < maxD)%Z.
Definition st_lim s : Prop :=
  map_Forall (fun _ t => tk_lim t) (st_tasks s) /\
  forall w, st_workflows s !! id = Some w -> wf_lim w.

Definition item_lim (item : Task F * phase F) : Prop :=
  tk_WorkflowID item.1 = id /\ (0 <= tk_Depth item.1 < maxD)%Z.

Lemma UpdateTask_lim s t now : st_lim s -> tk_lim t -> st_lim (UpdateTask s t now).2.
Proof.
  intros [Ht Hw] Hl. unfold UpdateTask. destruct (st_tasks s !! tk_ID t); [|done].
  split; [|done]. apply map_Forall_insert_2; [exact Hl|done].
Qed.

Lemma CreateTask_lim s t : st_lim s -> tk_lim t -> st_lim (CreateTask s t).2.
Proof.
  intros [Ht Hw] Hl. unfold CreateTask. destruct (st_tasks s !! tk_ID t); [done|].
  split; [|done]. apply map_Forall_insert_2; [exact Hl|done].
Qed.

Lemma UpdateWorkflow_lim s wf now : st_lim s -> wf_lim wf -> st_lim (UpdateWorkflow s wf now).2.
Proof.
  intros [Ht Hw] (Hid & Hl). unfold UpdateWorkflow. rewrite Hid.
  case (st_workflows s !! id); [intros _|by split]. split; [done|].
  intros w. simpl. rewrite lookup_insert_eq. intros [= <-]. by split.
Qed.

Lemma GetTask_lim s i t : st_lim s -> GetTask s i = Ok t -> tk_lim t.
Proof.
  unfold GetTask. intros [Ht _] E. destruct (st_tasks s !! i) eqn:E'; [|done].
  injection E as <-. by apply (Ht i).
Qed.

Lemma SaveMessage_lim s m : st_lim s -> st_lim (SaveMessage s m).
Proof. done. Qed.

Lemma create_planned_lim s wf p deps now i items :
  st_lim s -> wf_lim wf -> (0 <= tk_Depth p)%Z -> (tk_Depth p + 1 < maxD)%Z ->
  st_lim (create_planned s wf p deps now i items).2.
Proof.
  intros Hs Hw Hp0 Hd. revert s i Hs. induction items as [|[[spec tid] mid] items IH]; intros s i Hs; simpl; [done|].
  destruct (ValidateRole _); [done|].
  pose proof (CreateTask_lim s (planned_task wf p spec tid (default [] (deps !! i)) now) Hs) as Hc.
  destruct (CreateTask s _) as [[e|] s1]; simpl in *.
  - apply Hc. intros _. simpl. lia.
  - apply IH. apply SaveMessage_lim, Hc. intros _. simpl. lia.
Qed.

Lemma handlePlannerOutput_lim s wf p output env :
  st_lim s -> wf_lim wf -> (0 <= tk_Depth p)%Z ->
  wf_lim (handlePlannerOutput s wf p output env).1.2 /\
  st_lim (handlePlannerOutput s wf p output env).2.
Proof.
  intros Hs Hw Hp. pose proof Hw as (Hid & HD & HT & Hc). unfold handlePlannerOutput.
  destruct (parsePlannerOutput output) as [specs|]; [|done].
  destruct (ValidateDAG specs); [done|]. rewrite HD, HT.
  destruct (Z.ltb_spec maxT (wf_TaskCount wf + Z.of_nat (length specs))); [done|].
  destruct (Z.leb_spec maxD (tk_Depth p + 1)); [done|].
  destruct (ResolveDependencies specs _) as [deps|]; [|done].
  pose proof (create_planned_lim s wf p deps (he_now env) 0
    (zip (zip specs (take (length specs) (he_taskIDs env))) (he_msgIDs env)) Hs Hw Hp ltac:(lia)) as Hcr.
  destruct (create_planned _ _ _ _ _ _ _) as [[e|] s1]; simpl in *; [done|].
  assert (wf_lim (add_tasks wf (Z.of_nat (length specs)) (he_now env))) as Hw'.
  { unfold wf_lim. simpl. by repeat split. }
  pose proof (UpdateWorkflow_lim s1 _ (he_now env) Hcr Hw') as Hu.
  destruct (UpdateWorkflow s1 _ _) as [e s2]. done.
Qed.

Lemma recoveryFailed_lim s d e now : st_lim s -> st_lim (recoveryFailed s d e now).2.
Proof.
  intros Hs. unfold recoveryFailed. destruct (tk_OriginalTaskID d) as [i|]; [|done].
  destruct (GetTask s i) as [t|] eqn:E; [|done]. simpl. apply UpdateTask_lim; [done|].
  by apply (GetTask_lim s i t).
Qed.

Lemma recoveryFailed_some_lim s d e now :
  st_lim s -> st_lim (let '(e, s) := recoveryFailed s d e now in (Some e, s)).2.
Proof. intros Hs. pose proof (recoveryFailed_lim s d e now Hs) as Hr. by destruct (recoveryFailed _ _ _ _). Qed.

Lemma with_status_lim t status now : tk_lim t -> tk_lim (with_status t status now).
Proof. done. Qed.

Lemma mark_retry_lim t now : tk_lim t -> tk_lim (mark_retry t now).
Proof. done. Qed.

#[local] Hint Resolve UpdateTask_lim recoveryFailed_some_lim with_status_lim mark_retry_lim : go.

Lemma handleDiagnosticianOutput_lim c s wf d output env :
  st_lim s -> st_lim (handleDiagnosticianOutput c s wf d output env).2.
Proof.
  intros Hs. unfold handleDiagnosticianOutput.
  destruct (parseRecoveryDecision output) as [dec|e]; [|by auto with go].
  destruct (tk_OriginalTaskID d) as [i|]; [|done].
  destruct (GetTask s i) as [t|] eqn:E; [|done]. pose proof (GetTask_lim s i t Hs E) as Ht.
  set (s1 := SaveMessage s _). assert (st_lim s1) as Hs1 by done.
  destruct (String.eqb _ RecoveryRetry); [destruct (retry_forbidden c)|
    destruct (String.eqb _ RecoveryEscalate); [|destruct (String.eqb _ RecoverySkip)]];
    unfold retryTask; auto with go.
Qed.

Definition round_lim (r : roundState F) : Prop :=
  st_lim (rs_store r) /\ wf_lim (rs_wf r) /\ Forall item_lim (rs_items r).

Lemma round_step_lim c r ev r' : round_lim r -> round_step c r ev = Some r' -> round_lim r'.
Proof.
  intros (Hs & Hw & Hi) E. unfold round_step in E.
  destruct ev as [i now|i res mid now|i env];
    destruct (rs_items r !! i) as [[t [| |res'|]]|] eqn:Eit; try done;
    pose proof (Forall_lookup_1 _ _ _ _ Hi Eit) as [Hid Hdep]; simpl in Hid, Hdep.
  - unfold startTask in E.
    pose proof (UpdateTask_lim (rs_store r) (mark_running t now) now Hs (fun _ => Hdep)) as Hu.
    destruct (UpdateTask _ _ _) as [e s1]. injection E as <-.
    split; [done|]. split; [done|]. simpl. apply Forall_insert; [done|by split].
  - unfold finishTask in E. destruct res as [e|[output|e]].
    + unfold failTask in E. injection E as <-. split; [|split; [done|]].
      * apply UpdateTask_lim; [done|exact (fun _ => Hdep)].
      * simpl. apply Forall_insert; [done|by split].
    + set (s0 := SaveMessage _ _) in E.
      pose proof (UpdateTask_lim s0 (mark_completed t output now) now Hs (fun _ => Hdep)) as Hu.
      destruct (UpdateTask _ _ _) as [[e|] s1]; injection E as <-.
      all: split; [done|]; split; [done|]; simpl; apply Forall_insert; [done|by split].
    + unfold failTask in E. injection E as <-. split; [|split; [done|]].
      * apply UpdateTask_lim; [done|exact (fun _ => Hdep)].
      * simpl. apply Forall_insert; [done|by split].
  - destruct (handleResult c (rs_store r) (rs_wf r) t res' env) as [wf' s'] eqn:Eh.
    injection E as <-. assert (wf_lim wf' /\ st_lim s') as [Hw' Hs'].
    { unfold handleResult in Eh. destruct res' as [output|e]; [|by injection Eh as <- <-].
      destruct (String.eqb (tk_AgentRole t) RolePlanner).
      - pose proof (handlePlannerOutput_lim (rs_store r) (rs_wf r) t output env Hs Hw ltac:(lia)) as [H1' H2'].
        destruct (handlePlannerOutput _ _ _ _ _) as [[e wf1] s1]. simpl in *.
        injection Eh as <- <-. split; [done|].
        destruct (String.eqb _ _); [by apply handleDiagnosticianOutput_lim|done].
      - injection Eh as <- <-. split; [done|].
        destruct (String.eqb _ _); [by apply handleDiagnosticianOutput_lim|done]. }
    split; [done|]. split; [done|]. simpl. apply Forall_insert; [done|by split].
Qed.

Lemma SaveMessage_st s m : st_lim (SaveMessage s m) <-> st_lim s.
Proof. done. Qed.

Lemma initiateRecovery_lim s wf t diagID msgID now :
  st_lim s -> wf_lim wf -> (wf_TaskCount wf + 1 <= maxT)%Z -> (tk_Depth t + 1 < maxD)%Z ->
  tk_lim t -> tk_WorkflowID t = id ->
  wf_lim (initiateRecovery s wf t diagID msgID now).1.2 /\
  st_lim (initiateRecovery s wf t diagID msgID now).2.
Proof.
  intros Hs Hw Hc Hd Ht Hid. pose proof Hw as (Hwid & HD & HT & _). unfold initiateRecovery.
  set (ft := with_status t TaskRecovering now).
  pose proof (UpdateTask_lim s ft now Hs Ht) as Hu.
  destruct (UpdateTask s ft now) as [[e|] s1]; simpl in *; [done|].
  pose proof (CreateTask_lim s1 (diag_task wf ft diagID now) Hu) as Hcr.
  destruct (CreateTask s1 _) as [[e|] s2]; simpl in *.
  - split; [done|]. apply UpdateTask_lim; [|exact Ht]. apply Hcr. intros _. simpl. specialize (Ht Hid). lia.
  - assert (wf_lim (add_tasks wf 1 now)) as Hw' by (unfold wf_lim; simpl; repeat split; done).
    split; [done|]. apply SaveMessage_st, UpdateWorkflow_lim; [|done].
    apply Hcr. intros _. simpl. specialize (Ht Hid). lia.
Qed.

Lemma shouldAttemptRecovery_room c s wf t :
  wf_lim wf -> shouldAttemptRecovery c s wf t = true ->
  (wf_TaskCount wf + 1 <= maxT)%Z /\ (tk_Depth t + 1 < maxD)%Z.
Proof.
  intros (_ & HD & HT & _) E. unfold shouldAttemptRecovery in E. rewrite HD, HT in E.
  destruct (ec_Recovery c) as [rc|]; [|done]. destruct (negb _); [done|].
  destruct (_ <=? tk_RetryCount t)%Z; [done|]. destruct (_ && _); [done|].
  destruct (Z.leb_spec maxD (tk_Depth t + 1)); [done|].
  destruct (Z.ltb_spec maxT (wf_TaskCount wf + 1)); [done|]. lia.
Qed.

Lemma recover_failed_lim c s wf tasks ids now :
  st_lim s -> wf_lim wf -> Forall (fun t => tk_WorkflowID t = id /\ tk_lim t) tasks ->
  wf_lim (recover_failed c s wf tasks ids now).1.2 /\ st_lim (recover_failed c s wf tasks ids now).2.
Proof.
  intros Hs Hw Hall. revert s wf ids Hs Hw.
  induction Hall as [|t tasks [Hid Ht] _ IH]; intros s wf ids Hs Hw; simpl; [done|].
  destruct (bool_decide _ && shouldAttemptRecovery c s wf t) eqn:E; [|by apply IH].
  apply andb_true_iff in E as [_ E]. apply shouldAttemptRecovery_room in E as [Hc Hd]; [|done].
  destruct (default _ (head ids)) as [diagID msgID].
  pose proof (initiateRecovery_lim s wf t diagID msgID now Hs Hw Hc Hd Ht Hid) as [Hw1 Hs1].
  destruct (initiateRecovery s wf t diagID msgID now) as [[e wf1] s1]. simpl in *.
  pose proof (IH s1 wf1 (tail ids) Hs1 Hw1) as Hr.
  by destruct (recover_failed c s1 wf1 tasks (tail ids) now) as [[a wf2] s2].
Qed.

Lemma finishWorkflow_lim s wf status msg now :
  st_lim s -> wf_lim wf ->
  wf_lim (finishWorkflow s wf status msg now).1.2 /\ st_lim (finishWorkflow s wf status msg now).2.
Proof.
  intros Hs Hw. unfold finishWorkflow. set (wf1 := wf_set _ _ _ _ _ _ _ _).
  assert (wf_lim wf1) as Hw1 by exact Hw. pose proof (UpdateWorkflow_lim s wf1 now Hs Hw1) as Hu.
  by destruct (UpdateWorkflow s wf1 now) as [[e|] s1].
Qed.

Lemma skip_waiting_lim s tasks now :
  st_lim s -> Forall tk_lim tasks -> st_lim (skip_waiting s tasks now).
Proof.
  intros Hs Hall. revert s Hs. induction Hall as [|t tasks Ht _ IH]; intros s Hs; simpl; [done|].
  apply IH. destruct (is_waiting t); [|done]. by apply UpdateTask_lim.
Qed.

Lemma list_tasks_lim s :
  st_lim s -> Forall (fun t => tk_WorkflowID t = id /\ tk_lim t) (ListTasksByWorkflow s id).
Proof.
  intros [Ht _]. apply Forall_forall. intros t [(i & Hi) Hid]%elem_of_list_tasks.
  split; [done|]. by apply (Ht i).
Qed.

Lemma refresh_lim s wf : st_lim s -> wf_lim wf -> wf_lim (refresh s wf).
Proof.
  intros [_ Hs] Hw. unfold refresh, GetWorkflow. rewrite (proj1 Hw).
  destruct (st_workflows s !! id) as [w|] eqn:E; [by apply Hs|done].
Qed.

Definition sched_lim (st : sched_state F) : Prop :=
  match st with
  | Looping s wf | Done _ s wf => st_lim s /\ wf_lim wf
  | InRound r => round_lim r
  end.

Lemma top_lim c s wf scorer ids now :
  st_lim s -> wf_lim wf ->
  match top c s wf scorer ids now with
  | TopDispatch ready => Forall item_lim (dispatched ready)
  | TopWait => True
  | TopRecovered s' wf' | TopFinish _ s' wf' => st_lim s' /\ wf_lim wf'
  end.
Proof.
  intros Hs Hw. pose proof (proj1 Hw) as Hid. unfold top. rewrite Hid.
  destruct (_ && _ && _).
  - set (failed := countByStatus _ _). set (pre := if (0 <? failed) && _ then _ else _).
    assert (wf_lim pre.1.2 /\ st_lim pre.2) as [Hw1 Hs1].
    { subst pre. destruct (_ && _); [|done]. apply recover_failed_lim; [done..|]. by apply list_tasks_lim. }
    clearbody pre. destruct pre as [[[] wf1] s1]; simpl in Hw1, Hs1; [done|].
    destruct (0 <? failed).
    + pose proof (finishWorkflow_lim s1 wf1 WorkflowFailed "task(s) failed" now Hs1 Hw1) as Hf.
      destruct (finishWorkflow _ _ _ _ _) as [[e wf2] s2]. by destruct Hf.
    + pose proof (finishWorkflow_lim s1 wf1 WorkflowCompleted "" now Hs1 Hw1) as Hf.
      destruct (finishWorkflow _ _ _ _ _) as [[e wf2] s2]. by destruct Hf.
  - destruct (_ =? 0); [done|]. destruct (_ <=? 0)%Z; [done|].
    assert (Forall item_lim (dispatched (order_ready scorer wf (GetReadyTasks s id)))) as Hr.
    { apply Forall_map, Forall_forall. intros t. rewrite order_ready_perm. intros [[(i & Hi) Ht] _]%elem_of_ready.
      split; [done|]. by apply (proj1 Hs i). }
    destruct (_ <? _)%Z; [|done]. unfold dispatched. rewrite <-firstn_map. by apply Forall_take.
Qed.

Lemma sched_step_lim c st st' : sched_lim st -> sched_step c st st' -> sched_lim st'.
Proof.
  intros Hl Hstep.
  destruct Hstep as [s wf sc ids now ready E|s wf sc ids now E|s wf sc ids now s' wf' E|s wf sc ids now err s' wf' E
    |s wf cause now err s' wf' E|r ev r' E|r Hh Hb|r now err s' wf' Hh Hb E]; simpl in *.
  - destruct Hl as [Hs Hw]. pose proof (top_lim c s wf sc ids now Hs Hw) as Ht. rewrite E in Ht.
    by split.
  - done.
  - destruct Hl as [Hs Hw]. pose proof (top_lim c s wf sc ids now Hs Hw) as Ht. by rewrite E in Ht.
  - destruct Hl as [Hs Hw]. pose proof (top_lim c s wf sc ids now Hs Hw) as Ht. by rewrite E in Ht.
  - destruct Hl as [Hs Hw]. unfold cancelWorkflow in E. injection E as <- <- <-.
    split; [|exact Hw]. apply UpdateWorkflow_lim; [|exact Hw]. rewrite (proj1 Hw). apply skip_waiting_lim; [done|].
    eapply Forall_impl; [by apply list_tasks_lim|]. by intros t [].
  - by apply (round_step_lim c r ev r').
  - destruct Hl as (Hs & Hw & _). split; [done|]. by apply refresh_lim.
  - destruct Hl as (Hs & Hw & _).
    pose proof (finishWorkflow_lim (rs_store r) (refresh (rs_store r) (rs_wf r)) WorkflowFailed
      "budget exceeded" now Hs (refresh_lim _ _ Hs Hw)) as Hf.
    rewrite E in Hf. by destruct Hf.
Qed.
End limits.

(** ** Reachable states *)

(** A workflow in progress: the state [Submit] leaves, and every state the
    scheduler takes it to. *)
Definition workflow_of (st : sched_state F) : InMemoryStore F * Workflow F :=
  match st with
  | Looping s wf | Done _ s wf => (s, wf)
  | InRound r => (rs_store r, rs_wf r)
  end.

Lemma Submit_lim c s req wfID taskID now wf s' :
  map_Forall (fun _ t => tk_WorkflowID t <> wfID) (st_tasks s) ->
  Submit c s req wfID taskID now = (Ok wf, s') ->
  wf_ID wf = wfID /\ sched_lim wfID (wf_MaxDepth wf) (wf_MaxTasks wf) (Looping s' wf).
Proof.
  intros Hfresh E. unfold Submit in E.
  set (depth := if (wr_MaxDepth req <=? 0)%Z then maxDepth c else wr_MaxDepth req) in E.
  set (tasks := if (wr_MaxTasks req <=? 0)%Z then maxTasks c else wr_MaxTasks req) in E.
  assert (0 < depth)%Z as Hd.
  { subst depth. unfold maxDepth. destruct (Z.leb_spec (wr_MaxDepth req) 0); [|done].
    destruct (Z.ltb_spec 0 (ec_DefaultMaxDepth c)); lia. }
  assert (1 <= tasks)%Z as Ht.
  { subst tasks. unfold maxTasks. destruct (Z.leb_spec (wr_MaxTasks req) 0); [|lia].
    destruct (Z.ltb_spec 0 (ec_DefaultMaxTasks c)); lia. }
  clearbody depth tasks. unfold CreateWorkflow in E. simpl in E.
  destruct (st_workflows s !! wfID) eqn:Ew; [done|]. unfold CreateTask in E. simpl in E.
  destruct (st_tasks s !! taskID) eqn:Et; [done|]. unfold UpdateWorkflow in E. simpl in E.
  rewrite lookup_insert_eq in E. injection E as <- <-. simpl. split; [done|].
  split; [|by unfold wf_lim]. split; simpl.
  - apply map_Forall_insert_2; [intros _; simpl; lia|].
    eapply map_Forall_impl; [exact Hfresh|]. intros i t Hne Heq. by destruct Hne.
  - intros w. rewrite lookup_insert_eq. intros [= <-]. by unfold wf_lim.
Qed.

(** C5: the limits of a workflow hold throughout.  From the state [Submit] leaves,
    whatever the agents answer and in whatever order results arrive, retries and
    recoveries included, the scheduler never counts more than [MaxTasks] tasks,
    never changes the limits, and no task of the workflow is stored at a depth of
    [MaxDepth] or more. *)
Theorem workflow_limits_hold c s req wfID taskID now wf s' st :
  map_Forall (fun _ t => tk_WorkflowID t <> wfID) (st_tasks s) ->
  Submit c s req wfID taskID now = (Ok wf, s') ->
  rtc (sched_step c) (Looping s' wf) st ->
  let '(s1, wf1) := workflow_of st in
  wf_MaxTasks wf1 = wf_MaxTasks wf /\ wf_MaxDepth wf1 = wf_MaxDepth wf /\
  (wf_TaskCount wf1 <= wf_MaxTasks wf)%Z /\
  (forall t, stored s1 wfID t -> (0 <= tk_Depth t < wf_MaxDepth wf)%Z).
Proof.
  intros Hf Hsub Hrtc. destruct (Submit_lim c s req wfID taskID now wf s' Hf Hsub) as [Hid Hl].
  assert (sched_lim wfID (wf_MaxDepth wf) (wf_MaxTasks wf) st) as Hst.
  { clear -Hl Hrtc. remember (Looping s' wf) as st0. clear Heqst0.
    induction Hrtc as [|st0 st1 st2 Hstep _ IH]; [done|]. apply IH. by eapply sched_step_lim. }
  assert (forall s1 wf1, st_lim wfID (wf_MaxDepth wf) (wf_MaxTasks wf) s1 ->
    wf_lim wfID (wf_MaxDepth wf) (wf_MaxTasks wf) wf1 ->
    wf_MaxTasks wf1 = wf_MaxTasks wf /\ wf_MaxDepth wf1 = wf_MaxDepth wf /\
    (wf_TaskCount wf1 <= wf_MaxTasks wf)%Z /\
    (forall t, stored s1 wfID t -> (0 <= tk_Depth t < wf_MaxDepth wf)%Z)) as Hgoal.
  { intros s1 wf1 [Ht _] (_ & HD & HT & Hc). split; [done|]. split; [done|]. split; [done|].
    intros t [(i & Hi) Hw]. by apply (Ht i). }
  destruct st as [s1 wf1|r|err s1 wf1]; simpl in *.
  - by apply Hgoal; apply Hst.
  - by apply Hgoal; apply Hst.
  - by apply Hgoal; apply Hst.
Qed.
End props.

Section flow.
Context {F : Type} `{Num F} `{ErrorText}.
Context `{!GoSort (Task F)} `{!MapRange uuid (Task F)}.
Context `{!Decode (list TaskSpec)} `{!Decode (RecoveryDecision F)}.
Context `{Render}.
Implicit Types (s : InMemoryStore F) (wf : Workflow F) (t : Task F) (c : EngineConfig F).

(** ** Counting *)

(** Some stored task of the workflow has the status. *)
Definition some_task s id (status : TaskStatus) : Prop :=
  exists t, stored s id t /\ tk_Status t = status.

Lemma count_zero s id status :
  countByStatus (ListTasksByWorkflow s id) status = 0 <-> ~ some_task s id status.
Proof.
  unfold countByStatus. rewrite countb_zero, Forall_forall. split.
  - intros Hall (t & Hs & Ht). specialize (Hall t (proj2 (elem_of_list_tasks s id t) Hs)).
    by apply bool_decide_eq_false in Hall.
  - intros Hno t Ht%elem_of_list_tasks. apply bool_decide_eq_false. intros E. apply Hno. by exists t.
Qed.

Lemma count_pos s id status :
  (0 <? countByStatus (ListTasksByWorkflow s id) status) = true <-> some_task s id status.
Proof.
  rewrite Nat.ltb_lt. split.
  - intros Hp. destruct (countb_nonzero (fun t => bool_decide (tk_Status t = status))
      (ListTasksByWorkflow s id)) as (t & Ht & E); [unfold countByStatus in Hp; lia|].
    exists t. split; [by apply elem_of_list_tasks|]. by apply bool_decide_eq_true in E.
  - intros Hs. destruct (decide (countByStatus (ListTasksByWorkflow s id) status = 0)) as [E|]; [|lia].
    by apply count_zero in E.
Qed.

(** No task of the workflow is ready, running or recovering. *)
Definition idle s id : Prop :=
  GetReadyTasks s id = [] /\ ~ some_task s id TaskRunning /\ ~ some_task s id TaskRecovering.

Lemma order_ready_length (scorer : option (SkillScorer F)) wf ready :
  length (order_ready scorer wf ready) = length ready.
Proof. apply Permutation_length, order_ready_perm. Qed.

Lemma idle_spec s id :
  ((length (GetReadyTasks s id) =? 0) &&
   (countByStatus (ListTasksByWorkflow s id) TaskRunning =? 0) &&
   (countByStatus (ListTasksByWorkflow s id) TaskRecovering =? 0))%nat = true <-> idle s id.
Proof.
  unfold idle. rewrite !andb_true_iff, !Nat.eqb_eq, !count_zero, length_zero_iff_nil. tauto.
Qed.

Definition running s id : Z := Z.of_nat (countByStatus (ListTasksByWorkflow s id) TaskRunning).

Lemma order_ready_sorted `{!ExactNum F} (scorer : option (SkillScorer F)) wf s id :
  StronglySorted (fun a b => (tk_Priority a <= tk_Priority b)%Z)
    (order_ready scorer wf (GetReadyTasks s id)).
Proof.
  assert (StronglySorted (fun a b => (tk_Priority a <= tk_Priority b)%Z) (GetReadyTasks s id)) as Hr.
  { eapply StronglySorted_weaken; [|apply go_sort_sorted, ready_less_weak]. intros a b.
    unfold ordered, ready_less. destruct (Z.eqb_spec (tk_Priority b) (tk_Priority a)); simpl; lia. }
  unfold order_ready. destruct scorer as [sc|]; [|done]. destruct (1 <? _); [|done].
  eapply StronglySorted_weaken; [|apply reorder_sorted]. intros a b. simpl. lia.
Qed.

(** What the loop does next.  Tasks are dispatched when some are ready and a
    slot is free: ready ones in order of priority, with equal priorities ordered by
    their skill scores when there are any, as many as there are slots, so that
    never more than [concurrency] tasks of the workflow run.  The loop waits only
    while tasks run or recover, and it ends, or tries to recover failed tasks,
    only when no task is ready, running or recovering. *)
Theorem dispatch_bounded `{!ExactNum F} c s wf scorer ids now :
  let id := wf_ID wf in
  let ordered_ready := order_ready scorer wf (GetReadyTasks s id) in
  ordered_ready ≡ₚ GetReadyTasks s id /\
  StronglySorted (fun a b => (tk_Priority a <= tk_Priority b)%Z) ordered_ready /\
  match top c s wf scorer ids now with
  | TopDispatch l =>
      l <> [] /\ (Z.of_nat (length l) + running s id <= concurrency c)%Z /\
      Forall (ready s id) l /\ l = take (length l) ordered_ready /\
      (length l = length (GetReadyTasks s id) \/
       Z.of_nat (length l) + running s id = concurrency c)%Z
  | TopWait =>
      GetReadyTasks s id = [] /\ (some_task s id TaskRunning \/ some_task s id TaskRecovering) \/
      (concurrency c <= running s id)%Z
  | TopRecovered _ _ | TopFinish _ _ _ => idle s id
  end.
Proof.
  intros id ors. split; [apply order_ready_perm|]. split; [apply order_ready_sorted|].
  unfold top. fold id ors. assert (length ors = length (GetReadyTasks s id)) as Elen by apply order_ready_length.
  rewrite Elen. pose proof (idle_spec s id) as Hidle.
  destruct (_ && _ && _) eqn:Ei.
  { specialize (proj1 Hidle eq_refl) as Hi.
    destruct (if (0 <? _) && _ then _ else _) as [[[] wf1] s1]; [done|].
    by destruct (0 <? _); destruct (finishWorkflow _ _ _ _ _) as [[e wf2] s2]. }
  destruct (Nat.eqb_spec (length (GetReadyTasks s id)) 0) as [E0|E0].
  { left. split; [by apply length_zero_iff_nil|]. simpl in Ei.
    rewrite <-!count_pos. destruct (Nat.eqb_spec (countByStatus (ListTasksByWorkflow s id) TaskRunning) 0);
      [right|left]; apply Nat.ltb_lt; [|lia].
    simpl in Ei. apply Nat.eqb_neq in Ei. lia. }
  fold (running s id). destruct (Z.leb_spec (concurrency c - running s id) 0); [right; lia|].
  assert (Forall (ready s id) ors) as Hr.
  { apply Forall_forall. intros t. unfold ors. rewrite order_ready_perm. apply elem_of_ready. }
  destruct (Z.ltb_spec (concurrency c - running s id) (Z.of_nat (length (GetReadyTasks s id)))).
  - rewrite length_take_le by lia. rewrite Z2Nat.id by lia.
    split; [intros E; apply (f_equal length) in E; rewrite length_take_le in E by lia; simpl in E; lia|].
    split; [lia|]. split; [by apply Forall_take|]. split; [done|]. right. lia.
  - split; [intros E; rewrite E in Elen; simpl in Elen; lia|]. split; [lia|]. split; [done|].
    split; [by rewrite take_ge|]. by left.
Qed.

(** ** The verdict *)

Lemma finishWorkflow_status s wf status msg now :
  wf_Status (finishWorkflow s wf status msg now).1.2 = status.
Proof. unfold finishWorkflow. by destruct (UpdateWorkflow _ _ _) as [[e|] s1]. Qed.

Lemma finishWorkflow_tasks s wf status msg now :
  st_tasks (finishWorkflow s wf status msg now).2 = st_tasks s.
Proof.
  unfold finishWorkflow, UpdateWorkflow. by destruct (st_workflows s !! _).
Qed.

(** The verdict on a workflow.  When no task is ready, running or recovering,
    and none failed, the workflow is reported completed, and its tasks are left as
    they are: a task that still waits, because a task it depends on was skipped,
    is never run, and is not reported. *)
Theorem completed_with_waiting_tasks c s wf scorer ids now t :
  idle s (wf_ID wf) -> ~ some_task s (wf_ID wf) TaskFailed ->
  stored s (wf_ID wf) t -> is_waiting t = true ->
  exists err s' wf', top c s wf scorer ids now = TopFinish err s' wf' /\
    wf_Status wf' = WorkflowCompleted /\ stored s' (wf_ID wf) t /\ wf_Error wf' = "".
Proof.
  intros Hi Hf [Hst Hid] Hw. unfold top. rewrite order_ready_length, (proj2 (idle_spec s (wf_ID wf)) Hi).
  destruct (0 <? _) eqn:E; [by apply count_pos in E|]. simpl.
  destruct (finishWorkflow s wf WorkflowCompleted "" now) as [[err wf'] s'] eqn:Ef.
  exists err, s', wf'. split; [done|].
  pose proof (finishWorkflow_status s wf WorkflowCompleted "" now) as Hs. rewrite Ef in Hs.
  pose proof (finishWorkflow_tasks s wf WorkflowCompleted "" now) as Ht. rewrite Ef in Ht.
  split; [exact Hs|]. split; [split; [by rewrite (Ht : st_tasks s' = st_tasks s)|done]|].
  unfold finishWorkflow in Ef. by destruct (UpdateWorkflow _ _ _) as [[e|] s1]; injection Ef as <- <- <-.
Qed.

(** ** A task left recovering *)

Lemma cancelWorkflow_status s wf cause now err wf' s' :
  cancelWorkflow s wf cause now = (err, wf', s') -> wf_Status wf' = WorkflowCancelled.
Proof. unfold cancelWorkflow. by intros [= <- <- <-]. Qed.

Lemma top_recovering c s wf scorer ids now :
  GetReadyTasks s (wf_ID wf) = [] -> some_task s (wf_ID wf) TaskRecovering ->
  top c s wf scorer ids now = TopWait.
Proof.
  intros Hr Hrec. unfold top. rewrite order_ready_length. destruct (_ && _ && _) eqn:E.
  - apply idle_spec in E as (_ & _ & Hno). by destruct Hno.
  - by rewrite Hr.
Qed.

(** A task left recovering stops the workflow for good.  When some task is
    recovering and no task is ready, as after a diagnostician whose agent fails,
    the loop only ever waits: every state it reaches is the same state, or the
    cancelled workflow. *)
Theorem orphaned_recovery_hangs c s wf st :
  GetReadyTasks s (wf_ID wf) = [] -> some_task s (wf_ID wf) TaskRecovering ->
  rtc (sched_step c) (Looping s wf) st ->
  st = Looping s wf \/
  exists err s' wf', st = Done (Some err) s' wf' /\ wf_Status wf' = WorkflowCancelled.
Proof.
  intros Hr Hrec Hrtc. remember (Looping s wf) as st0 eqn:E0.
  induction Hrtc as [|st0 st1 st2 Hstep Hrtc IH]; [by left|]. subst st0.
  pose proof (fun sc ids now => top_recovering c s wf sc ids now Hr Hrec) as Ht.
  inversion Hstep as [? ? sc ids now ? E|? ? sc ids now E|? ? sc ids now ? ? E|? ? sc ids now ? ? ? E
    |? ? cause now err s' wf' E|? ? ? E|? ? ?|? ? ? ? ? ? ? ?]; subst;
    try (by rewrite Ht in E); [by apply IH|].
  right. inversion Hrtc as [|? ? ? Hstep2 _]; subst.
  - exists err, s', wf'. split; [done|]. by eapply cancelWorkflow_status.
  - inversion Hstep2.
Qed.

(** ** The costs of a round *)

Lemma UpdateTask_workflows s t now : st_workflows (UpdateTask s t now).2 = st_workflows s.
Proof. unfold UpdateTask. by destruct (st_tasks s !! _). Qed.

Lemma recoveryFailed_workflows s d e now : st_workflows (recoveryFailed s d e now).2 = st_workflows s.
Proof.
  unfold recoveryFailed. destruct (tk_OriginalTaskID d) as [i|]; [|done].
  destruct (GetTask s i); [|done]. apply UpdateTask_workflows.
Qed.

Lemma recoveryFailed_some_workflows s d e now :
  st_workflows (let '(e, s) := recoveryFailed s d e now in (Some e, s)).2 = st_workflows s.
Proof. pose proof (recoveryFailed_workflows s d e now) as Hr. by destruct (recoveryFailed _ _ _ _). Qed.

#[local] Hint Rewrite UpdateTask_workflows recoveryFailed_some_workflows : go.

Lemma handleDiagnosticianOutput_workflows c s wf d output env :
  st_workflows (handleDiagnosticianOutput c s wf d output env).2 = st_workflows s.
Proof.
  unfold handleDiagnosticianOutput.
  destruct (parseRecoveryDecision output) as [dec|e]; [|apply recoveryFailed_some_workflows].
  destruct (tk_OriginalTaskID d) as [i|]; [|done]. destruct (GetTask s i) as [t|]; [|done].
  set (s1 := SaveMessage s _). change (st_workflows s) with (st_workflows s1).
  destruct (String.eqb _ RecoveryRetry); [destruct (retry_forbidden c)|
    destruct (String.eqb _ RecoveryEscalate); [|destruct (String.eqb _ RecoverySkip)]];
    unfold retryTask; by autorewrite with go.
Qed.

(** The invariant of a round without planner tasks. *)
Definition plain_round (ws : gmap uuid (Workflow F)) (id : uuid) (r : roundState F) : Prop :=
  st_workflows (rs_store r) = ws /\ wf_ID (rs_wf r) = id /\
  Forall (fun item : Task F * phase F => tk_AgentRole item.1 <> RolePlanner) (rs_items r).

Lemma set_item_plain ws id r s wf i t p :
  plain_round ws id r -> st_workflows s = ws -> wf_ID wf = id -> tk_AgentRole t <> RolePlanner ->
  plain_round ws id (set_item r s wf i t p).
Proof. intros (_ & _ & Hi) Hs Hw Ht. split; [done|]. split; [done|]. by apply Forall_insert. Qed.

Lemma round_step_plain c ws id r ev r' :
  plain_round ws id r -> round_step c r ev = Some r' -> plain_round ws id r'.
Proof.
  intros Hp E. pose proof Hp as (Hs & Hw & Hi). unfold round_step in E.
  destruct ev as [i now|i res mid now|i env];
    destruct (rs_items r !! i) as [[t [| |res'|]]|] eqn:Eit; try done;
    pose proof (Forall_lookup_1 _ _ _ _ Hi Eit) as Hrole; simpl in Hrole.
  - unfold startTask in E. pose proof (UpdateTask_workflows (rs_store r) (mark_running t now) now) as Hu.
    destruct (UpdateTask _ _ _) as [e s1]. injection E as <-. apply set_item_plain; simpl in *; congruence.
  - destruct (finishTask _ _ _ _ _ _) as [res1 s1] eqn:Ef. injection E as <-.
    apply set_item_plain; [done| |done|done]. unfold finishTask, failTask in Ef.
    destruct res as [e|[output|e]].
    + injection Ef as _ <-. by rewrite UpdateTask_workflows.
    + set (s0 := SaveMessage _ _) in Ef.
      pose proof (UpdateTask_workflows s0 (mark_completed t output now) now) as Hu.
      destruct (UpdateTask _ _ _) as [[e|] s2]; injection Ef as _ <-; simpl in Hu; congruence.
    + injection Ef as _ <-. by rewrite UpdateTask_workflows.
  - destruct (handleResult _ _ _ _ _ _) as [wf1 s1] eqn:Eh. injection E as <-.
    unfold handleResult in Eh. destruct res' as [output|e].
    + destruct (String.eqb_spec (tk_AgentRole t) RolePlanner); [done|]. injection Eh as <- <-.
      apply set_item_plain; [done| |done|done].
      destruct (String.eqb _ _); [by rewrite handleDiagnosticianOutput_workflows|done].
    + injection Eh as <- <-. by apply set_item_plain.
Qed.

Lemma round_run_plain c ws id r evs r' :
  plain_round ws id r -> round_run c r evs = Some r' -> plain_round ws id r'.
Proof.
  revert r. induction evs as [|ev evs IH]; intros r Hp E; simpl in E; [by injection E as <-|].
  destruct (round_step c r ev) as [r1|] eqn:E1; [|done].
  apply (IH r1); [by apply (round_step_plain c ws id r ev)|done].
Qed.

(** A round's costs are forgotten.  Whatever its tasks cost and in whatever
    order they end, after a round in which no planner ran the loop goes on with
    the workflow as it was stored before the round, its spent budget included:
    the costs added up in memory are dropped, and the budget check that follows
    compares the old amount. *)
Theorem round_costs_forgotten c s wf tasks evs r w :
  st_workflows s !! wf_ID wf = Some w ->
  Forall (fun t => tk_AgentRole t <> RolePlanner) tasks ->
  round_run c (mkRound s wf (dispatched tasks)) evs = Some r ->
  refresh (rs_store r) (rs_wf r) = w.
Proof.
  intros Hw Ht E. apply (round_run_plain c (st_workflows s) (wf_ID wf)) in E as (Hs & Hid & _).
  - unfold refresh, GetWorkflow. by rewrite Hid, Hs, Hw.
  - split; [done|]. split; [done|]. unfold dispatched. by apply Forall_map.
Qed.
End flow.

(** ** Plans *)

Section planner.
Context {F : Type} `{Num F} `{ErrorText}.
Context `{!GoSort (Task F)} `{!MapRange uuid (Task F)}.
Context `{!Decode (list TaskSpec)}.
Implicit Types (s : InMemoryStore F) (wf : Workflow F) (p : Task F).

Definition valid_role (spec : TaskSpec) : bool :=
  match ValidateRole (sp_AgentRole spec) with None => true | Some _ => false end.

(** How many specifications come before the first one with an unknown role. *)
Fixpoint valid_prefix (specs : list TaskSpec) : nat :=
  match specs with
  | [] => 0
  | spec :: specs => if valid_role spec then S (valid_prefix specs) else 0
  end.

Lemma valid_prefix_le specs : valid_prefix specs <= length specs.
Proof. induction specs as [|spec specs IH]; simpl; [done|]. destruct (valid_role spec); lia. Qed.

(** The creation loop, with enough identifiers, none of them in use. *)
Lemma create_planned_spec s wf p deps now i specs ids msgs :
  length ids = length specs -> length specs <= length msgs -> NoDup ids ->
  (forall id, id ∈ ids -> st_tasks s !! id = None) ->
  let '(err, s') := create_planned s wf p deps now i (zip (zip specs ids) msgs) in
  (err = None <-> valid_prefix specs = length specs) /\
  st_workflows s' = st_workflows s /\
  (forall id, id ∉ ids -> st_tasks s' !! id = st_tasks s !! id) /\
  (forall j spec id, specs !! j = Some spec -> ids !! j = Some id ->
     st_tasks s' !! id =
       if j <? valid_prefix specs
       then Some (planned_task wf p spec id (default [] (deps !! (i + j))) now) else None).
Proof.
  revert s i ids msgs. induction specs as [|spec specs IH]; intros s i [|id ids] [|msg msgs] Hl Hm Hnd Hf;
    simpl in *; try lia; try (by repeat split).
  unfold valid_role. destruct (ValidateRole (sp_AgentRole spec)) as [e|] eqn:Er.
  { repeat split; try done. intros j spec' id' _ Hid. apply Hf. by eapply list_elem_of_lookup_2. }
  apply NoDup_cons in Hnd as [Hnin Hnd]. unfold CreateTask. simpl. rewrite Hf by apply list_elem_of_here.
  set (t := planned_task wf p spec id _ now). set (s1 := SaveMessage _ _).
  assert (forall id', id' ∈ ids -> st_tasks s1 !! id' = None) as Hf1.
  { intros id' Hin. simpl. rewrite lookup_insert_ne by congruence. apply Hf. by constructor. }
  specialize (IH s1 (S i) ids msgs ltac:(lia) ltac:(lia) Hnd Hf1).
  destruct (create_planned s1 wf p deps now (S i) _) as [err s'].
  destruct IH as (He & Hw & Hout & Hin). split; [rewrite He; lia|]. split; [done|]. split.
  - intros id' [Hne Hni]%not_elem_of_cons. rewrite Hout by done. simpl. by rewrite lookup_insert_ne.
  - intros [|j] spec' id' Hs' Hid'; simpl in *.
    + injection Hs' as <-. injection Hid' as <-. rewrite Hout by done. simpl.
      by rewrite lookup_insert_eq, Nat.add_0_r.
    + rewrite (Hin j spec' id' Hs' Hid'). by rewrite Nat.add_succ_r.
Qed.

Definition indices_of (ids : list uuid) (spec : TaskSpec) (ds : list uuid) : Prop :=
  Forall2 (fun d id => ids !! Z.to_nat d = Some id) (sp_DependsOn spec) ds.

Lemma resolved_deps specs ids :
  in_range specs -> length ids = length specs ->
  exists deps, ResolveDependencies specs ids = Some deps /\
    forall j spec, specs !! j = Some spec -> indices_of ids spec (default [] (deps !! j)).
Proof.
  intros Hr Hl. destruct (resolve_from_spec 0 specs ids) as (deps & E & _ & Hd).
  { intros k d Hk. rewrite Hl. by eapply Hr. }
  exists deps. split; [done|]. intros j spec Hj. specialize (Hd j). unfold deps_of in Hd.
  rewrite Hj in Hd. simpl in Hd. unfold indices_of. destruct (sp_DependsOn spec).
  - rewrite Hd. constructor.
  - by destruct Hd as (rs & -> & Hrs).
Qed.

(** What the limits and the plan check let through. *)
Definition plan_accepted wf p (specs : list TaskSpec) : Prop :=
  ValidateDAG specs = None /\ (wf_TaskCount wf + Z.of_nat (length specs) <= wf_MaxTasks wf)%Z /\
  (tk_Depth p + 1 < wf_MaxDepth wf)%Z.

(** What the task of a specification is to be, field by field. *)
Record task_of_spec wf p (spec : TaskSpec) (id : uuid) (ds : list uuid) (now : Time) (t : Task F) : Prop := {
  ts_identity : tk_ID t = id /\ tk_WorkflowID t = wf_ID wf /\ tk_OrgID t = wf_OrgID wf;
  ts_below : tk_ParentTaskID t = Some (tk_ID p) /\ (tk_Depth t = tk_Depth p + 1)%Z;
  ts_pending : tk_Status t = TaskPending;
  ts_after : tk_DependsOn t = ds;
  ts_spec : tk_AgentRole t = sp_AgentRole spec /\ tk_Description t = sp_Description spec /\
    tk_Input t = sp_Input spec /\ tk_Priority t = sp_Priority spec /\
    tk_Mode t = if decide (sp_Mode spec = "") then TaskModeSequential else sp_Mode spec;
  ts_times : tk_CreatedAt t = now /\ tk_UpdatedAt t = now /\ tk_StartedAt t = None /\ tk_CompletedAt t = None;
  ts_untouched : tk_Output t = "" /\ tk_Error t = "" /\ tk_CostUSD t = nofZ 0 /\ tk_TokensUsed t = 0%Z /\
    tk_ClaimedBy t = "" /\ tk_ClaimedAt t = None /\ tk_RetryCount t = 0%Z /\ tk_OriginalTaskID t = None;
}.

Lemma planned_task_of_spec wf p spec id ds now :
  task_of_spec wf p spec id ds now (planned_task wf p spec id ds now).
Proof.
  split; simpl; split_and?; try done. destruct (String.eqb_spec (sp_Mode spec) ""); by case_decide.
Qed.

(** The row of the workflow after the count was written. *)
Lemma UpdateWorkflow_count s wf n now :
  is_Some (st_workflows s !! wf_ID wf) ->
  let '(err, s') := UpdateWorkflow s (add_tasks wf n now) now in
  err = None /\ wf_TaskCount <$> st_workflows s' !! wf_ID wf = Some (wf_TaskCount wf + n)%Z.
Proof.
  intros [w Hw]. unfold UpdateWorkflow. simpl. rewrite Hw. simpl. split; [done|].
  by rewrite lookup_insert_eq.
Qed.

Lemma planned_tasks_added (ids : list uuid) specs (deps : gmap nat (list uuid)) s' wf p now :
  (forall j spec, specs !! j = Some spec -> indices_of ids spec (default [] (deps !! j))) ->
  (forall j spec id, specs !! j = Some spec -> ids !! j = Some id ->
     st_tasks s' !! id =
       if j <? valid_prefix specs
       then Some (planned_task wf p spec id (default [] (deps !! (0 + j))) now) else None) ->
  forall j spec id, specs !! j = Some spec -> ids !! j = Some id ->
    if j <? valid_prefix specs
    then exists ds t, indices_of ids spec ds /\ st_tasks s' !! id = Some t /\ task_of_spec wf p spec id ds now t
    else st_tasks s' !! id = None.
Proof.
  intros Hd Hin j spec id Hj Hid. specialize (Hin j spec id Hj Hid).
  destruct (j <? valid_prefix specs); [|done]. do 2 eexists. split; [by apply (Hd j)|].
  split; [exact Hin|apply planned_task_of_spec].
Qed.

Lemma UpdateWorkflow_tasks s wf now : st_tasks (UpdateWorkflow s wf now).2 = st_tasks s.
Proof. unfold UpdateWorkflow. by destruct (st_workflows s !! _). Qed.

(** C21: what a plan adds.  A plan that is not a well-formed acyclic plan within the
    task and depth limits changes nothing and is an error.  An accepted plan adds, for each of
    its specifications before the first one with an unknown role, one task of the workflow and
    the organisation: pending, one level below the planner and with the planner as its
    parent, with the role, description, input and priority of the specification and its mode
    (sequential when it has none), depending on exactly the tasks its indices name, not
    started, not claimed and without cost ([task_of_spec]).  It touches no other task.  When
    every role is known the task count grows by the length of the plan, in the answer and,
    when the workflow is stored, in its row.  When one is not, the tasks before it stay in the
    store but are not counted.  The identifiers are new and different. *)
Theorem planner_output_effect s wf p output env specs :
  parsePlannerOutput output = Ok specs ->
  length (he_taskIDs env) = length specs -> length (he_msgIDs env) = length specs ->
  NoDup (he_taskIDs env) -> (forall id, id ∈ he_taskIDs env -> st_tasks s !! id = None) ->
  let '(err, wf', s') := handlePlannerOutput s wf p output env in
  (~ plan_accepted wf p specs -> is_Some err /\ wf' = wf /\ s' = s) /\
  (plan_accepted wf p specs ->
    (forall id, id ∉ he_taskIDs env -> st_tasks s' !! id = st_tasks s !! id) /\
    (forall j spec id, specs !! j = Some spec -> he_taskIDs env !! j = Some id ->
       if j <? valid_prefix specs
       then exists ds t, indices_of (he_taskIDs env) spec ds /\
              st_tasks s' !! id = Some t /\ task_of_spec wf p spec id ds (he_now env) t
       else st_tasks s' !! id = None) /\
    if valid_prefix specs =? length specs
    then wf_TaskCount wf' = (wf_TaskCount wf + Z.of_nat (length specs))%Z /\
      (is_Some (st_workflows s !! wf_ID wf) -> err = None /\
        wf_TaskCount <$> st_workflows s' !! wf_ID wf = Some (wf_TaskCount wf + Z.of_nat (length specs))%Z)
    else is_Some err /\ wf' = wf).
Proof.
  intros Hp Hl Hm Hnd Hf. unfold handlePlannerOutput. rewrite Hp. unfold plan_accepted. cbv zeta.
  assert (forall (e : error) (P Q : Prop), ~ P ->
    (~ P -> is_Some (Some e) /\ wf = wf /\ s = s) /\ (P -> Q)) as Hrefuse.
  { intros e P Q HP. split; [intros _; by repeat split; eexists|done]. }
  pose proof (ValidateDAG_in_range specs) as Hr.
  destruct (ValidateDAG specs) as [e|]; [apply Hrefuse; by intros []|].
  destruct (Z.ltb_spec (wf_MaxTasks wf) (wf_TaskCount wf + Z.of_nat (length specs)));
    [apply Hrefuse; intros (_ & ? & _); lia|].
  destruct (Z.leb_spec (wf_MaxDepth wf) (tk_Depth p + 1)); [apply Hrefuse; intros (_ & _ & ?); lia|].
  rewrite <-Hl, take_ge by lia. destruct (resolved_deps specs (he_taskIDs env) (Hr eq_refl) Hl) as (deps & -> & Hd).
  pose proof (create_planned_spec s wf p deps (he_now env) 0 specs (he_taskIDs env) (he_msgIDs env)
    Hl ltac:(lia) Hnd Hf) as Hc.
  destruct (create_planned _ _ _ _ _ _ _) as [[e|] s1]; simpl in Hc; destruct Hc as (He & Hws & Hout & Hin);
    pose proof (planned_tasks_added (he_taskIDs env) specs deps _ _ _ _ Hd Hin) as Hadded.
  - split; [intros Hna; destruct Hna; repeat split; lia|intros _]. split_and!; [done..|]. rewrite Hl.
    destruct (Nat.eqb_spec (valid_prefix specs) (length specs)) as [E|]; [by apply He in E|by split].
  - assert (valid_prefix specs = length specs) as E by by apply He.
    pose proof (UpdateWorkflow_count s1 wf (Z.of_nat (length (he_taskIDs env))) (he_now env)) as Hu.
    pose proof (UpdateWorkflow_tasks s1 (add_tasks wf (Z.of_nat (length (he_taskIDs env))) (he_now env)) (he_now env)) as Et.
    destruct (UpdateWorkflow s1 _ _) as [err s2]. simpl in Et. rewrite Hws in Hu.
    split; [intros Hna; destruct Hna; repeat split; lia|intros _]. rewrite Et. split_and!; [done..|].
    rewrite Hl in *. by rewrite E, Nat.eqb_refl.
Qed.
End planner.
