(* ===== verification/WorkflowRepo.v ===== *)
(** * The workflow store over the database

    [src/internal/storage/postgres/workflow_repo.go]: the counterpart of the in-memory
    store of [WorkflowStore], and the claiming of tasks that agents use.  The tables are
    the three maps of that store; [err] is the outcome of the statement of an operation.
    gorm's [Save] inserts a row that is missing and sets [UpdatedAt].  The rows themselves
    ([models.go], [convert_workflow.go]) are in the last part. *)

From S2P Require Import Prelude Protocol WorkflowTypes Dag WorkflowStore.

Section repository.
Context {F : Type} `{Num F} `{!GoSort (Task F)} `{!GoSort AgentMessage}.
Context `{!MapRange uuid (Task F)} `{!MapRange uuid AgentMessage}.
Implicit Types (s : InMemoryStore F) (wf : Workflow F) (t : Task F) (err : option error).

Definition put_workflow s wf : InMemoryStore F :=
  mkStore (<[wf_ID wf := wf]> (st_workflows s)) (st_tasks s) (st_messages s).
Definition put_task s t : InMemoryStore F :=
  mkStore (st_workflows s) (<[tk_ID t := t]> (st_tasks s)) (st_messages s).
Definition put_tasks s (m : gmap uuid (Task F)) : InMemoryStore F :=
  mkStore (st_workflows s) m (st_messages s).

(** The columns [max_depth], [max_tasks] and [mode] have defaults. *)
Definition workflow_row wf : Workflow F :=
  mkWorkflow (wf_ID wf) (wf_OrgID wf) (wf_UserID wf) (wf_CorrelationID wf) (wf_Goal wf) (wf_Status wf)
    (wf_RootTaskID wf) (wf_BudgetLimitUSD wf) (wf_BudgetSpentUSD wf) (or_int (wf_MaxDepth wf) 5)
    (or_int (wf_MaxTasks wf) 50) (wf_TaskCount wf) (wf_CreatedAt wf) (wf_UpdatedAt wf)
    (wf_CompletedAt wf) (wf_Error wf).
Definition task_row t : Task F :=
  mkTask (tk_ID t) (tk_WorkflowID t) (tk_OrgID t) (tk_ParentTaskID t) (tk_AgentRole t)
    (tk_Description t) (tk_Input t) (tk_Output t) (tk_Status t) (or_text (tk_Mode t) "sequential")
    (tk_Depth t) (tk_Priority t) (tk_DependsOn t) (tk_CreatedAt t) (tk_UpdatedAt t) (tk_StartedAt t)
    (tk_CompletedAt t) (tk_Error t) (tk_CostUSD t) (tk_TokensUsed t) (tk_ClaimedBy t) (tk_ClaimedAt t)
    (tk_RetryCount t) (tk_MaxRetries t) (tk_OriginalTaskID t).

Definition db_CreateWorkflow s wf err : option error * InMemoryStore F :=
  match err, st_workflows s !! wf_ID wf with
  | Some e, _ => (Some (Wrap "creating workflow" e), s)
  | None, Some _ => (Some (Wrap "creating workflow" (Errorf "duplicate key")), s)
  | None, None => (None, put_workflow s (workflow_row wf))
  end.

Definition db_UpdateWorkflow s wf (now : Time) err : option error * InMemoryStore F :=
  match err with
  | Some e => (Some (Wrap "updating workflow" e), s)
  | None => (None, put_workflow s (touch_wf wf now))
  end.

Definition db_GetWorkflow s (id : uuid) err : result error (Workflow F) :=
  match err with
  | Some e => Err (Wrap "getting workflow" e)
  | None =>
      match st_workflows s !! id with
      | None => Err (Wrap "getting workflow" (Errorf "record not found"))
      | Some wf => Ok wf
      end
  end.

Definition db_CreateTask s t err : option error * InMemoryStore F :=
  match err, st_tasks s !! tk_ID t with
  | Some e, _ => (Some (Wrap "creating task" e), s)
  | None, Some _ => (Some (Wrap "creating task" (Errorf "duplicate key")), s)
  | None, None => (None, put_task s (task_row t))
  end.

Definition db_UpdateTask s t (now : Time) err : option error * InMemoryStore F :=
  match err with
  | Some e => (Some (Wrap "updating task" e), s)
  | None => (None, put_task s (with_status t (tk_Status t) now))
  end.

Definition db_GetTask s (id : uuid) err : result error (Task F) :=
  match err with
  | Some e => Err (Wrap "getting task" e)
  | None =>
      match st_tasks s !! id with
      | None => Err (Wrap "getting task" (Errorf "record not found"))
      | Some t => Ok t
      end
  end.

Definition db_ListTasksByWorkflow s (workflowID : uuid) err : result error (list (Task F)) :=
  match err with
  | Some e => Err (Wrap "listing tasks for workflow" e)
  | None => Ok (ListTasksByWorkflow s workflowID)
  end.

(** [GetReadyTasks]: in the order the rows come. *)
Definition db_GetReadyTasks s (workflowID : uuid) err : result error (list (Task F)) :=
  match err with
  | Some e => Err (Wrap "loading tasks for readiness check" e)
  | None =>
      let models := List.filter (of_workflow workflowID) (map_range (st_tasks s)).*2 in
      let completed := list_to_set (map tk_ID (List.filter is_completed models)) : gset uuid in
      Ok (List.filter (deps_met completed) (List.filter is_waiting models))
  end.

Definition db_SaveMessage s (m : AgentMessage) err : option error * InMemoryStore F :=
  match err, st_messages s !! am_ID m with
  | Some e, _ => (Some (Wrap "saving agent message" e), s)
  | None, Some _ => (Some (Wrap "saving agent message" (Errorf "duplicate key")), s)
  | None, None => (None, SaveMessage s m)
  end.

Definition db_ListMessages s (workflowID : uuid) err : result error (list AgentMessage) :=
  match err with
  | Some e => Err (Wrap "listing messages for workflow" e)
  | None => Ok (ListMessages s workflowID)
  end.

(** ** Claiming

    [ClaimReadyTasks] is four statements: the candidates, the completed tasks of their
    workflows, the update and the reload.  Each is given on its own, because other agents
    run between them. *)

Definition workflow_running s (id : uuid) : bool :=
  match st_workflows s !! id with Some wf => bool_decide (wf_Status wf = WorkflowRunning) | None => false end.

Definition claimable s (roles : list string) t : bool :=
  workflow_running s (tk_WorkflowID t) && bool_decide (tk_Status t = TaskPending) &&
  String.eqb (tk_ClaimedBy t) "" &&
  (bool_decide (roles = []) || slice_contains roles (tk_AgentRole t)).

Definition claim_candidates s (roles : list string) : list (Task F) :=
  List.filter (claimable s roles) (map_range (st_tasks s)).*2.

(** The completed tasks of a workflow; a failed query leaves none. *)
Definition completed_of s (failed : uuid -> bool) (wfID : uuid) : gset uuid :=
  if failed wfID then ∅ else completed_ids s wfID.

(** The loop that collects ready identifiers up to the limit. *)
Fixpoint claim_ids (completed : uuid -> gset uuid) (limit : Z) (readyIDs : list uuid)
    (models : list (Task F)) : list uuid :=
  match models with
  | [] => readyIDs
  | t :: models =>
      if deps_met (completed (tk_WorkflowID t)) t then
        let readyIDs := readyIDs ++ [tk_ID t] in
        if (limit <=? Z.of_nat (length readyIDs))%Z then readyIDs
        else claim_ids completed limit readyIDs models
      else claim_ids completed limit readyIDs models
  end.

Definition claimed t (agentID : string) (now : Time) : Task F :=
  mkTask (tk_ID t) (tk_WorkflowID t) (tk_OrgID t) (tk_ParentTaskID t) (tk_AgentRole t)
    (tk_Description t) (tk_Input t) (tk_Output t) TaskRunning (tk_Mode t) (tk_Depth t) (tk_Priority t)
    (tk_DependsOn t) (tk_CreatedAt t) now (Some now) (tk_CompletedAt t) (tk_Error t)
    (tk_CostUSD t) (tk_TokensUsed t) agentID (Some now) (tk_RetryCount t) (tk_MaxRetries t)
    (tk_OriginalTaskID t).

(** [UPDATE tasks SET ... WHERE id IN ids AND status = 'pending']. *)
Definition claim_update s (agentID : string) (ids : list uuid) (now : Time) : InMemoryStore F :=
  put_tasks s (map_imap (fun id t =>
    Some (if bool_decide (id ∈ ids) && bool_decide (tk_Status t = TaskPending)
          then claimed t agentID now else t)) (st_tasks s)).

(** [SELECT ... WHERE id IN ids AND claimed_by = agent ORDER BY priority, created_at]. *)
Definition claim_reload s (agentID : string) (ids : list uuid) : list (Task F) :=
  go_sort ready_less (List.filter (fun t => bool_decide (tk_ID t ∈ ids) &&
    String.eqb (tk_ClaimedBy t) agentID) (map_range (st_tasks s)).*2).

(** What the environment answers to a claim: the clock, and the errors of its queries. *)
Record claim_env := mkClaimEnv {
  ce_now : Time;
  ce_load : option error;
  ce_completed : uuid -> bool;
  ce_update : option error;
  ce_reload : option error;
}.

(** The whole of [ClaimReadyTasks], when nothing runs in between. *)
Definition db_ClaimReadyTasks s (agentID : string) (roles : list string) (limit : Z) (e : claim_env)
    : result error (list (Task F)) * InMemoryStore F :=
  match ce_load e with
  | Some err => (Err (Wrap "loading candidate tasks" err), s)
  | None =>
      let allModels := claim_candidates s roles in
      if bool_decide (allModels = []) then (Ok [], s)
      else
        let readyIDs := claim_ids (completed_of s (ce_completed e)) limit [] allModels in
        if bool_decide (readyIDs = []) then (Ok [], s)
        else
          match ce_update e with
          | Some err => (Err (Wrap "claiming tasks" err), s)
          | None =>
              let s := claim_update s agentID readyIDs (ce_now e) in
              (match ce_reload e with
               | Some err => Err (Wrap "loading claimed tasks" err)
               | None => Ok (claim_reload s agentID readyIDs)
               end, s)
          end
  end.

Definition with_claimed_at t (now : Time) : Task F :=
  mkTask (tk_ID t) (tk_WorkflowID t) (tk_OrgID t) (tk_ParentTaskID t) (tk_AgentRole t)
    (tk_Description t) (tk_Input t) (tk_Output t) (tk_Status t) (tk_Mode t) (tk_Depth t) (tk_Priority t)
    (tk_DependsOn t) (tk_CreatedAt t) now (tk_StartedAt t) (tk_CompletedAt t) (tk_Error t)
    (tk_CostUSD t) (tk_TokensUsed t) (tk_ClaimedBy t) (Some now) (tk_RetryCount t) (tk_MaxRetries t)
    (tk_OriginalTaskID t).

(** [HeartbeatTasks]. *)
Definition db_HeartbeatTasks s (agentID : string) (taskIDs : list uuid) (now : Time) err
    : option error * InMemoryStore F :=
  match taskIDs, err with
  | [], _ => (None, s)
  | _, Some e => (Some e, s)
  | _, None =>
      (None, put_tasks s ((fun t => if bool_decide (tk_ID t ∈ taskIDs) && String.eqb (tk_ClaimedBy t) agentID
                                    then with_claimed_at t now else t) <$> st_tasks s))
  end.
End repository.

(** ** Lemmas *)

Section claims.
Context {F : Type} `{Num F} `{!GoSort (Task F)} `{!MapRange uuid (Task F)}.
Implicit Types (s : InMemoryStore F) (t : Task F).

(** Every row is under its identifier. *)
Definition keyed s : Prop := forall id t, st_tasks s !! id = Some t -> tk_ID t = id.

Lemma elem_of_candidates s roles t :
  keyed s -> t ∈ claim_candidates s roles <->
  st_tasks s !! tk_ID t = Some t /\ claimable s roles t = true.
Proof.
  intros Hk. unfold claim_candidates.
  rewrite list_elem_of_In, List.filter_In, <-list_elem_of_In, elem_of_tasks. split.
  - intros [[id Hid] Hc]. by rewrite (Hk id t Hid).
  - intros [Hid Hc]. split; [by eexists|done].
Qed.

Lemma NoDup_candidate_ids s roles : keyed s -> NoDup (map tk_ID (claim_candidates s roles)).
Proof.
  intros Hk. apply (NoDup_fmap_2_strong tk_ID).
  - intros a b Ha Hb E. apply elem_of_candidates in Ha as [Ha _], Hb as [Hb _]; [|done..].
    rewrite E in Ha. congruence.
  - unfold claim_candidates. apply NoDup_ListNoDup, List.NoDup_filter, NoDup_ListNoDup.
    apply NoDup_fmap_2_strong; [|apply (NoDup_fmap_1 fst), NoDup_fst_map_range].
    intros [i a] [j b] Ha Hb E. simpl in E. subst b.
    apply elem_of_map_range in Ha, Hb. f_equal. by rewrite <-(Hk i a Ha), <-(Hk j a Hb).
Qed.

(** The loop keeps what it has and adds ready tasks in order, as many as the limit lets. *)
Lemma claim_ids_spec completed limit picked l :
  exists more, claim_ids completed limit picked l = picked ++ more /\
    more `sublist_of` map tk_ID (List.filter (fun t => deps_met (completed (tk_WorkflowID t)) t) l) /\
    ((Z.of_nat (length picked) < limit)%Z -> (Z.of_nat (length (picked ++ more)) <= limit)%Z /\
     ((Z.of_nat (length (picked ++ more)) < limit)%Z ->
        more = map tk_ID (List.filter (fun t => deps_met (completed (tk_WorkflowID t)) t) l))).
Proof.
  revert picked. induction l as [|t l IH]; intros picked; simpl.
  { exists []. rewrite app_nil_r. split_and!; [done..|]. intros; split; [lia|done]. }
  destruct (deps_met (completed (tk_WorkflowID t)) t); [|apply IH].
  destruct (Z.leb_spec limit (Z.of_nat (length (picked ++ [tk_ID t])))) as [Hle|Hlt].
  - exists [tk_ID t]. split_and!; [done|by apply sublist_skip, sublist_nil_l|].
    rewrite length_app in *. simpl in *. intros; split; lia.
  - destruct (IH (picked ++ [tk_ID t])) as (more & -> & Hs & Hb). exists (tk_ID t :: more).
    rewrite <-app_assoc in *. simpl in *. split_and!; [done|by apply sublist_skip|].
    intros Hp. destruct (Hb Hlt) as [Hb1 Hb2]. split; [done|]. intros Hx. f_equal. by apply Hb2.
Qed.

Lemma claim_update_lookup s a ids now id :
  st_tasks (claim_update s a ids now) !! id =
  (fun t => if bool_decide (id ∈ ids) && bool_decide (tk_Status t = TaskPending)
            then claimed t a now else t) <$> st_tasks s !! id.
Proof. simpl. rewrite map_lookup_imap. by destruct (st_tasks s !! id). Qed.

Lemma claim_update_keyed s a ids now : keyed s -> keyed (claim_update s a ids now).
Proof.
  intros Hk id t. rewrite claim_update_lookup. destruct (st_tasks s !! id) as [t0|] eqn:E; [|done].
  simpl. intros [= <-]. destruct (_ && _); simpl; by apply Hk.
Qed.

Lemma elem_of_reload s a ids t :
  keyed s -> t ∈ claim_reload s a ids <->
  st_tasks s !! tk_ID t = Some t /\ tk_ID t ∈ ids /\ tk_ClaimedBy t = a.
Proof.
  intros Hk. unfold claim_reload. rewrite go_sort_perm, list_elem_of_In, List.filter_In, <-list_elem_of_In,
    elem_of_tasks, andb_true_iff, bool_decide_eq_true, String.eqb_eq. split.
  - intros [[id Hid] Hc]. split; [|done]. by rewrite (Hk id t Hid).
  - intros (Hid & Hc). split; [by eexists|done].
Qed.

Lemma claimable_pending s roles t :
  claimable s roles t = true -> tk_Status t = TaskPending /\ tk_ClaimedBy t = "".
Proof.
  unfold claimable. rewrite !andb_true_iff, bool_decide_eq_true, String.eqb_eq. tauto.
Qed.

(** Claimed identifiers of candidates. *)
Lemma claim_ids_candidates s roles completed limit id :
  keyed s -> id ∈ claim_ids completed limit [] (claim_candidates s roles) ->
  exists t, st_tasks s !! id = Some t /\ claimable s roles t = true /\
    deps_met (completed (tk_WorkflowID t)) t = true.
Proof.
  intros Hk. destruct (claim_ids_spec completed limit [] (claim_candidates s roles)) as (more & -> & Hs & _).
  simpl. intros Hin. eapply elem_of_sublist in Hin; [|done]. apply list_elem_of_In, in_map_iff in Hin as (t & <- & Hf).
  apply List.filter_In in Hf as [Hc Hd]. apply list_elem_of_In, elem_of_candidates in Hc as [Hid Hc]; [|done].
  by exists t.
Qed.

(** A task an agent may be given. *)
Definition offered s roles (e : claim_env) t : Prop :=
  st_tasks s !! tk_ID t = Some t /\ claimable s roles t = true /\
  deps_met (completed_of s (ce_completed e) (tk_WorkflowID t)) t = true.

(** The identifiers a claim picks. *)
Definition picked s roles limit (e : claim_env) : list uuid :=
  claim_ids (completed_of s (ce_completed e)) limit [] (claim_candidates s roles).

Lemma picked_offered s roles limit e id :
  keyed s -> id ∈ picked s roles limit e -> exists t, tk_ID t = id /\ offered s roles e t.
Proof.
  intros Hk Hin. apply claim_ids_candidates in Hin as (t & Hid & Hc & Hd); [|done].
  exists t. unfold offered. by rewrite (Hk id t Hid).
Qed.

Lemma offered_picked s roles limit e t :
  keyed s -> (1 <= limit)%Z -> (Z.of_nat (length (picked s roles limit e)) < limit)%Z ->
  offered s roles e t -> tk_ID t ∈ picked s roles limit e.
Proof.
  intros Hk Hl Hlen (Hid & Hc & Hd). unfold picked in *.
  destruct (claim_ids_spec (completed_of s (ce_completed e)) limit [] (claim_candidates s roles))
    as (more & E & _ & Hb). rewrite E in *. simpl in *. destruct (Hb ltac:(lia)) as [_ ->]; [|lia].
  apply list_elem_of_In, in_map, List.filter_In. split; [|done].
  apply list_elem_of_In. by apply elem_of_candidates.
Qed.

Lemma picked_bound s roles limit e :
  keyed s -> (1 <= limit)%Z ->
  NoDup (picked s roles limit e) /\ (Z.of_nat (length (picked s roles limit e)) <= limit)%Z.
Proof.
  intros Hk Hl. unfold picked.
  destruct (claim_ids_spec (completed_of s (ce_completed e)) limit [] (claim_candidates s roles))
    as (more & -> & Hs & Hb). simpl in *. destruct (Hb ltac:(lia)) as [Hb1 _]. split; [|done].
  eapply sublist_NoDup; [|done].
  assert (forall (p : Task F -> bool) l, NoDup (map tk_ID l) -> NoDup (map tk_ID (List.filter p l))) as Hf.
  { intros p l. induction l as [|x l IH]; simpl; [done|]. intros [Hx Hd]%NoDup_cons.
    destruct (p x); simpl; [|by apply IH]. apply NoDup_cons. split; [|by apply IH].
    intros Hin. apply Hx. apply list_elem_of_In, in_map_iff in Hin as (y & Ey & Hy).
    apply list_elem_of_In, in_map_iff. exists y. split; [done|]. by apply List.filter_In in Hy as [? _]. }
  apply Hf, NoDup_candidate_ids, Hk.
Qed.

(** The rows a claim gives to an agent are the picked ones, claimed. *)
Lemma elem_of_claimed s a roles limit e t :
  keyed s ->
  let ids := picked s roles limit e in
  t ∈ claim_reload (claim_update s a ids (ce_now e)) a ids <->
  exists t0, offered s roles e t0 /\ tk_ID t0 ∈ ids /\ t = claimed t0 a (ce_now e).
Proof.
  intros Hk ids. rewrite elem_of_reload by by apply claim_update_keyed.
  rewrite claim_update_lookup. split.
  - intros (Ht & Hin & Ha). destruct (picked_offered s roles limit e (tk_ID t) Hk Hin) as (t0 & Eid & Ho).
    pose proof Ho as (Hid & Hc & _). apply claimable_pending in Hc as [Hp _]. rewrite <-Eid, Hid in Ht.
    simpl in Ht. rewrite Eid, (bool_decide_eq_true_2 _ Hin), (bool_decide_eq_true_2 _ Hp) in Ht.
    injection Ht as <-. exists t0. by rewrite Eid.
  - intros (t0 & (Hid & Hc & _) & Hin & ->). simpl. rewrite Hid. simpl.
    apply claimable_pending in Hc as [Hp _].
    by rewrite (bool_decide_eq_true_2 _ Hin), (bool_decide_eq_true_2 _ Hp).
Qed.

Lemma reload_length s a roles limit e :
  keyed s ->
  let ids := picked s roles limit e in
  (1 <= limit)%Z ->
  length (claim_reload (claim_update s a ids (ce_now e)) a ids) = length ids.
Proof.
  intros Hk ids Hl. destruct (picked_bound s roles limit e Hk Hl) as [Hd _].
  rewrite <-(length_map tk_ID). apply Permutation_length, NoDup_Permutation; [|done|].
  - assert (keyed (claim_update s a ids (ce_now e))) as Hk' by by apply claim_update_keyed.
    apply (NoDup_fmap_2_strong tk_ID).
    + intros x y Hx Hy E. apply elem_of_reload in Hx as [Hx _], Hy as [Hy _]; [|done..].
      rewrite E in Hx. congruence.
    + unfold claim_reload. rewrite go_sort_perm. apply NoDup_ListNoDup, List.NoDup_filter, NoDup_ListNoDup.
      apply NoDup_fmap_2_strong; [|apply (NoDup_fmap_1 fst), NoDup_fst_map_range].
      intros [i x] [j y] Hx Hy E. simpl in E. subst y.
      apply elem_of_map_range in Hx, Hy. f_equal. by rewrite <-(Hk' i x Hx), <-(Hk' j x Hy).
  - intros id. rewrite list_elem_of_In, in_map_iff. split.
    + intros (t & <- & Hin). apply list_elem_of_In, elem_of_claimed in Hin as (t0 & _ & Hin & ->); done.
    + intros Hin. destruct (picked_offered s roles limit e id Hk Hin) as (t0 & Eid & Ho).
      exists (claimed t0 a (ce_now e)). split; [done|]. apply list_elem_of_In, elem_of_claimed; [done|].
      exists t0. by rewrite Eid.
Qed.

(** A claim on a working database is one update and one reload of the picked rows. *)
Lemma db_claim_run s a roles limit e :
  keyed s -> ce_load e = None -> ce_update e = None -> ce_reload e = None ->
  let ids := picked s roles limit e in
  (db_ClaimReadyTasks s a roles limit e).1 = Ok (claim_reload (claim_update s a ids (ce_now e)) a ids) /\
  forall id, st_tasks (db_ClaimReadyTasks s a roles limit e).2 !! id =
    st_tasks (claim_update s a ids (ce_now e)) !! id.
Proof.
  intros Hk E1 E2 E3 ids. unfold db_ClaimReadyTasks. rewrite E1. fold (picked s roles limit e). fold ids.
  assert (ids = [] -> Ok (E := error) [] = Ok (claim_reload (claim_update s a ids (ce_now e)) a ids) /\
    forall id, st_tasks s !! id = st_tasks (claim_update s a ids (ce_now e)) !! id) as Hnone.
  { intros Eids. split.
    - f_equal. symmetry. apply elem_of_nil_inv. intros t Hin.
      apply elem_of_reload in Hin as (_ & Hin & _); [|by apply claim_update_keyed].
      rewrite Eids in Hin. by apply not_elem_of_nil in Hin.
    - intros id. rewrite claim_update_lookup. destruct (st_tasks s !! id) as [t|]; [|done]. simpl.
      rewrite bool_decide_eq_false_2; [done|]. rewrite Eids. apply not_elem_of_nil. }
  case_bool_decide as Ec.
  { apply Hnone. unfold ids, picked. by rewrite Ec. }
  case_bool_decide as Ei; [by apply Hnone|]. by rewrite E2, E3.
Qed.

(** What a claim hands out.  The tasks an agent gets are pending, unclaimed tasks of
    running workflows, of its roles and with every dependency completed, at most as many
    as it has free slots, and all such tasks when there are fewer; in the table exactly
    these rows change: they are running and carry the agent and the time. *)
Theorem claim_exact s agentID roles limit e :
  keyed s -> (1 <= limit)%Z -> ce_load e = None -> ce_update e = None -> ce_reload e = None ->
  exists ts, (db_ClaimReadyTasks s agentID roles limit e).1 = Ok ts /\
    (Z.of_nat (length ts) <= limit)%Z /\
    (forall t, t ∈ ts -> exists t0, offered s roles e t0 /\ t = claimed t0 agentID (ce_now e)) /\
    ((Z.of_nat (length ts) < limit)%Z -> forall t0, offered s roles e t0 ->
       claimed t0 agentID (ce_now e) ∈ ts) /\
    (forall id, st_tasks (db_ClaimReadyTasks s agentID roles limit e).2 !! id =
       match List.find (fun t => bool_decide (tk_ID t = id)) ts with
       | Some t => Some t
       | None => st_tasks s !! id
       end).
Proof.
  intros Hk Hl E1 E2 E3. destruct (db_claim_run s agentID roles limit e Hk E1 E2 E3) as [Hr Ht].
  set (ids := picked s roles limit e) in *. eexists. split; [exact Hr|].
  pose proof (reload_length s agentID roles limit e Hk Hl) as Hlen. fold ids in Hlen. rewrite Hlen.
  destruct (picked_bound s roles limit e Hk Hl) as [_ Hb]. fold ids in Hb. split_and!; [done| | |].
  - intros t (t0 & Ho & _ & ->)%elem_of_claimed; [|done]. by exists t0.
  - intros Hlt t0 Ho. apply elem_of_claimed; [done|]. exists t0. split_and!; [done| |done].
    by apply offered_picked.
  - intros id. rewrite Ht. set (s' := claim_update s agentID ids (ce_now e)).
    assert (keyed s') as Hk' by by apply claim_update_keyed.
    destruct (List.find _ _) as [t|] eqn:Ef.
    + apply List.find_some in Ef as [Hin Eid]. apply bool_decide_eq_true in Eid. subst id.
      by apply list_elem_of_In, elem_of_reload in Hin as [? _].
    + unfold s'. rewrite claim_update_lookup. destruct (st_tasks s !! id) as [t0|] eqn:E0; [|done]. simpl.
      destruct (decide (id ∈ ids)) as [Hin|Hn]; [|by rewrite bool_decide_eq_false_2].
      exfalso. destruct (picked_offered s roles limit e id Hk Hin) as (t1 & Eid & Ho).
      eapply List.find_none with (x := claimed t1 agentID (ce_now e)) in Ef.
      * apply bool_decide_eq_false in Ef. by apply Ef.
      * apply list_elem_of_In, elem_of_claimed; [done|]. exists t1. by rewrite Eid.
Qed.
End claims.

(** ** Interleaved claims *)

Section interleaving.
Context {F : Type} `{Num F} `{!GoSort (Task F)} `{!MapRange uuid (Task F)}.
Implicit Types (s : InMemoryStore F) (t : Task F).

(** What happens to the table while agents claim: their updates and reloads, in any order
    and with any identifiers (whatever their first two queries answered), their heartbeats,
    and any other change, by anyone, to a row. *)
Inductive claim_event :=
  | CeUpdate (agentID : string) (ids : list uuid) (now : Time)
  | CeReload (agentID : string) (ids : list uuid)
  | CeHeartbeat (agentID : string) (ids : list uuid) (now : Time)
  | CeWrite (id : uuid) (t : Task F).

(** The table after an event, and the tasks it gave to an agent. *)
Definition claim_event_step s (ev : claim_event) : list (string * uuid) * InMemoryStore F :=
  match ev with
  | CeUpdate a ids now => ([], claim_update s a ids now)
  | CeReload a ids => ((fun t => (a, tk_ID t)) <$> claim_reload s a ids, s)
  | CeHeartbeat a ids now => ([], (db_HeartbeatTasks s a ids now None).2)
  | CeWrite id t => ([], put_tasks s (<[id := t]> (st_tasks s)))
  end.

Fixpoint claim_events s (evs : list claim_event) : list (string * uuid) :=
  match evs with
  | [] => []
  | ev :: evs => (claim_event_step s ev).1 ++ claim_events (claim_event_step s ev).2 evs
  end.

(** An event that does not write the row by other means (agents have names). *)
Definition only_claims (id : uuid) (ev : claim_event) : Prop :=
  match ev with
  | CeWrite id' t => id' <> id /\ tk_ID t <> id
  | CeReload a _ => a <> ""
  | _ => True
  end.

(** The row is pending and nobody's, or an agent holds it. *)
Definition unheld s (id : uuid) : Prop :=
  forall i t, st_tasks s !! i = Some t -> tk_ID t = id ->
    i = id /\ tk_Status t = TaskPending /\ tk_ClaimedBy t = "".
Definition held_by s (id : uuid) (a : string) : Prop :=
  forall i t, st_tasks s !! i = Some t -> tk_ID t = id ->
    i = id /\ tk_Status t <> TaskPending /\ tk_ClaimedBy t = a.

(** An event maps the rows of the identifier one by one. *)
Lemma event_row s id ev i t :
  only_claims id ev -> st_tasks (claim_event_step s ev).2 !! i = Some t -> tk_ID t = id ->
  exists t0, st_tasks s !! i = Some t0 /\ tk_ID t0 = id /\
    (tk_Status t = tk_Status t0 /\ tk_ClaimedBy t = tk_ClaimedBy t0 \/
     exists b ids now, ev = CeUpdate b ids now /\ i ∈ ids /\ tk_Status t0 = TaskPending /\
       tk_Status t = TaskRunning /\ tk_ClaimedBy t = b).
Proof.
  intros Ho. destruct ev as [b ids now|b ids|b ids now|i' t']; cbn [claim_event_step snd].
  - rewrite claim_update_lookup. destruct (st_tasks s !! i) as [t0|]; [|done]. simpl. intros [= <-] Hid.
    exists t0. destruct (bool_decide (i ∈ ids)) eqn:Ei; simpl in *; [|by auto].
    apply bool_decide_eq_true in Ei. case_bool_decide as Ep; simpl in *; [|by auto].
    split_and!; [done..|]. right. by eexists _, _, _.
  - intros Ht Hid. exists t. auto.
  - unfold db_HeartbeatTasks. destruct ids as [|x ids]; simpl; [intros Ht Hid; exists t; auto|].
    rewrite lookup_fmap. destruct (st_tasks s !! i) as [t0|]; [|done]. simpl. intros [= <-] Hid.
    exists t0. destruct (_ && _); auto.
  - destruct Ho as [Hi Hn]. simpl. intros [[-> ->]|[_ Hl]]%lookup_insert_Some Hid; [done|]. exists t. auto.
Qed.

Lemma held_step s id a ev :
  held_by s id a -> only_claims id ev -> held_by (claim_event_step s ev).2 id a.
Proof.
  intros Hh Ho i t Ht Hid. destruct (event_row s id ev i t Ho Ht Hid) as (t0 & H0 & Hid0 & Hc).
  destruct (Hh i t0 H0 Hid0) as (Hi & Hp & Ha).
  destruct Hc as [[-> ->]|(b & ids & now & _ & _ & Hp' & _)]; [done|by rewrite Hp' in Hp].
Qed.

Lemma unheld_step s id ev :
  unheld s id -> only_claims id ev ->
  unheld (claim_event_step s ev).2 id \/ exists a, held_by (claim_event_step s ev).2 id a.
Proof.
  intros Hu Ho. set (s' := (claim_event_step s ev).2).
  destruct (st_tasks s' !! id) as [t|] eqn:Et.
  2: { left. intros i t Ht Hid. destruct (event_row s id ev i t Ho Ht Hid) as (t0 & H0 & Hid0 & _).
    destruct (Hu i t0 H0 Hid0) as (-> & _). congruence. }
  assert (forall i t', st_tasks s' !! i = Some t' -> tk_ID t' = id -> i = id) as Hi.
  { intros i t' Ht Hid. destruct (event_row s id ev i t' Ho Ht Hid) as (t0 & H0 & Hid0 & _).
    by destruct (Hu i t0 H0 Hid0). }
  destruct (decide (tk_Status t = TaskPending)) as [Hp|Hp].
  - left. intros i t' Ht Hid. destruct (event_row s id ev i t' Ho Ht Hid) as (t0 & H0 & Hid0 & Hc).
    pose proof (Hi i t' Ht Hid) as ->. assert (t' = t) as -> by congruence.
    destruct (Hu id t0 H0 Hid0) as (_ & Hp0 & Hc0).
    destruct Hc as [[_ ->]|(? & ? & ? & _ & _ & _ & Hr & _)]; [done|congruence].
  - right. exists (tk_ClaimedBy t). intros i t' Ht Hid. pose proof (Hi i t' Ht Hid) as ->.
    by assert (t' = t) as -> by congruence.
Qed.

(** Whom an event gives the task to. *)
Lemma given_to s id ev a :
  only_claims id ev -> (a, id) ∈ (claim_event_step s ev).1 ->
  exists i t, st_tasks s !! i = Some t /\ tk_ID t = id /\ tk_ClaimedBy t = a /\ a <> "".
Proof.
  intros Ho. destruct ev as [b ids now|b ids|b ids now|i' t']; simpl; try by intros ?%not_elem_of_nil.
  intros (t & [= -> ->] & Hin)%list_elem_of_fmap. unfold claim_reload in Hin.
  rewrite go_sort_perm, list_elem_of_In, List.filter_In, <-list_elem_of_In, elem_of_tasks,
    andb_true_iff, String.eqb_eq in Hin. destruct Hin as [[i Hi] [_ Hc]]. by exists i, t.
Qed.

Lemma held_given s id b evs :
  held_by s id b -> Forall (only_claims id) evs -> forall a, (a, id) ∈ claim_events s evs -> a = b.
Proof.
  revert s. induction evs as [|ev evs IH]; intros s Hh Ho a; simpl; [by intros ?%not_elem_of_nil|].
  apply Forall_cons in Ho as [Ho Hos]. rewrite elem_of_app. intros [Hin|Hin].
  - apply given_to in Hin as (i & t & Ht & Hid & <- & _); [|done]. by destruct (Hh i t Ht Hid) as (_ & _ & ->).
  - by eapply IH; [apply held_step| |].
Qed.

(** C22: a claimed task has one agent.  However the statements of claims by any number of
    agents interleave, with their heartbeats and writes to other rows, a task that is
    stored once and pending only while unclaimed is handed to at most one agent, as long as
    nothing else writes its row. *)
Theorem claim_exclusive s id evs a b :
  (forall i t, st_tasks s !! i = Some t -> tk_ID t = id ->
     i = id /\ (tk_Status t = TaskPending -> tk_ClaimedBy t = "")) ->
  Forall (only_claims id) evs ->
  (a, id) ∈ claim_events s evs -> (b, id) ∈ claim_events s evs -> a = b.
Proof.
  intros Hrow Ho. assert (unheld s id \/ exists c, held_by s id c) as Hs.
  { destruct (st_tasks s !! id) as [t|] eqn:E.
    - destruct (decide (tk_Status t = TaskPending)) as [Hp|Hp].
      + left. intros i t' Ht Hid. destruct (Hrow i t' Ht Hid) as [-> Hu].
        assert (t' = t) as -> by congruence. auto.
      + right. exists (tk_ClaimedBy t). intros i t' Ht Hid. destruct (Hrow i t' Ht Hid) as [-> _].
        by assert (t' = t) as -> by congruence.
    - left. intros i t Ht Hid. destruct (Hrow i t Ht Hid) as [-> _]. congruence. }
  clear Hrow. revert s Hs. induction evs as [|ev evs IH]; intros s Hs; simpl; [by intros ?%not_elem_of_nil|].
  destruct Hs as [Hu|[c Hh]].
  - pose proof Ho as Ho'. apply Forall_cons in Ho as [Hev Hos].
    assert (forall x, (x, id) ∉ (claim_event_step s ev).1) as Hnone.
    { intros x Hin. apply given_to in Hin as (i & t & Ht & Hid & Hx & Hne); [|done].
      destruct (Hu i t Ht Hid) as (_ & _ & E). congruence. }
    rewrite !elem_of_app. intros [Ha|Ha] [Hb|Hb]; try by edestruct Hnone.
    eapply IH; [done|by apply unheld_step|done|done].
  - intros Ha Hb. pose proof (held_given s id c (ev :: evs) Hh Ho) as Hg. simpl in Hg.
    by rewrite (Hg a Ha), (Hg b Hb).
Qed.

(** The ready tasks are those of the in-memory store, but not in its order. *)
Lemma db_ready_tasks s wfID :
  exists l, db_GetReadyTasks s wfID None = Ok l /\ l ≡ₚ GetReadyTasks s wfID.
Proof.
  eexists. split; [reflexivity|]. unfold GetReadyTasks. rewrite go_sort_perm.
  assert (forall (p q : Task F -> bool) l,
    List.filter p (List.filter q l) = List.filter (fun t => q t && p t) l) as Hf.
  { intros p q l. induction l as [|x l IH]; simpl; [done|].
    destruct (q x); simpl; [|exact IH]. destruct (p x); by rewrite IH. }
  unfold completed_ids. by rewrite (Hf is_completed), (Hf is_waiting).
Qed.
End interleaving.

(** ** Rows

    [convert_workflow.go]: the rows of the three tables.  The program sets neither the
    metadata of a workflow or task nor the artifacts of a message, so the text of those
    columns is that of a nil map or slice. *)

Definition json_null : string := "null".

Definition workflow_status_text (s : WorkflowStatus) : string :=
  match s with
  | WorkflowPending => "pending" | WorkflowRunning => "running" | WorkflowCompleted => "completed"
  | WorkflowFailed => "failed" | WorkflowCancelled => "cancelled"
  end.
Definition task_status_text (s : TaskStatus) : string :=
  match s with
  | TaskPending => "pending" | TaskBlocked => "blocked" | TaskRunning => "running" | TaskCompleted => "completed"
  | TaskFailed => "failed" | TaskRecovering => "recovering" | TaskSkipped => "skipped"
  end.
Definition message_type_text (m : MessageType) : string :=
  match m with
  | MsgTaskAssignment => "task_assignment" | MsgTaskResult => "task_result" | MsgInfoRequest => "info_request"
  | MsgInfoResponse => "info_response" | MsgComplianceCheck => "compliance_check" | MsgComplianceResult => "compliance_result"
  | MsgPlanProposal => "plan_proposal" | MsgRecoveryPlan => "recovery_plan" | MsgRecoveryResult => "recovery_result"
  | MsgError => "error"
  end.

(** The value of a text, among those the program writes. *)
Definition of_text {A} (text : A -> string) (values : list A) (s : string) : option A :=
  List.find (fun a => String.eqb (text a) s) values.
Definition workflow_statuses : list WorkflowStatus :=
  [WorkflowPending; WorkflowRunning; WorkflowCompleted; WorkflowFailed; WorkflowCancelled].
Definition task_statuses : list TaskStatus :=
  [TaskPending; TaskBlocked; TaskRunning; TaskCompleted; TaskFailed; TaskRecovering; TaskSkipped].
Definition message_types : list MessageType :=
  [MsgTaskAssignment; MsgTaskResult; MsgInfoRequest; MsgInfoResponse; MsgComplianceCheck; MsgComplianceResult;
   MsgPlanProposal; MsgRecoveryPlan; MsgRecoveryResult; MsgError].

Section rows.
Context {F : Type} `{!Json (list uuid)}.

Record WorkflowModel := mkWorkflowModel {
  wm_ID : uuid; wm_OrgID : uuid; wm_UserID : string; wm_CorrelationID : string; wm_Goal : string;
  wm_Status : string; wm_RootTaskID : option uuid; wm_BudgetLimitUSD : F; wm_BudgetSpentUSD : F;
  wm_MaxDepth : Z; wm_MaxTasks : Z; wm_TaskCount : Z; wm_Error : string; wm_Metadata : string;
  wm_CreatedAt : Time; wm_UpdatedAt : Time; wm_CompletedAt : option Time }.
Record TaskModel := mkTaskModel {
  tm_ID : uuid; tm_WorkflowID : uuid; tm_OrgID : uuid; tm_ParentTaskID : option uuid; tm_AgentRole : string;
  tm_Description : string; tm_Input : string; tm_Output : string; tm_Status : string; tm_Mode : string;
  tm_Depth : Z; tm_Priority : Z; tm_DependsOn : string; tm_Error : string; tm_CostUSD : F; tm_TokensUsed : Z;
  tm_ClaimedBy : string; tm_ClaimedAt : option Time; tm_RetryCount : Z; tm_MaxRetries : Z;
  tm_OriginalTaskID : option uuid; tm_Metadata : string; tm_CreatedAt : Time; tm_UpdatedAt : Time;
  tm_StartedAt : option Time; tm_CompletedAt : option Time }.
Record AgentMessageModel := mkMessageModel {
  mm_ID : uuid; mm_WorkflowID : uuid; mm_OrgID : uuid; mm_FromTaskID : uuid; mm_ToTaskID : option uuid;
  mm_FromRole : string; mm_ToRole : string; mm_MessageType : string; mm_Content : string; mm_Artifacts : string;
  mm_CorrelationID : string; mm_CreatedAt : Time }.

Definition toWorkflowModel (wf : Workflow F) : WorkflowModel :=
  mkWorkflowModel
    (wf_ID wf) (wf_OrgID wf) (wf_UserID wf) (wf_CorrelationID wf) (wf_Goal wf) (workflow_status_text (wf_Status wf))
    (wf_RootTaskID wf) (wf_BudgetLimitUSD wf) (wf_BudgetSpentUSD wf) (wf_MaxDepth wf) (wf_MaxTasks wf)
    (wf_TaskCount wf) (wf_Error wf) json_null (wf_CreatedAt wf) (wf_UpdatedAt wf) (wf_CompletedAt wf).
Definition toWorkflowDomain (m : WorkflowModel) : option (Workflow F) :=
  status ← of_text workflow_status_text workflow_statuses (wm_Status m);
  mret (mkWorkflow
    (wm_ID m) (wm_OrgID m) (wm_UserID m) (wm_CorrelationID m) (wm_Goal m) status (wm_RootTaskID m)
    (wm_BudgetLimitUSD m) (wm_BudgetSpentUSD m) (wm_MaxDepth m) (wm_MaxTasks m) (wm_TaskCount m) (wm_CreatedAt m)
    (wm_UpdatedAt m) (wm_CompletedAt m) (wm_Error m)).

Definition toTaskModel (t : Task F) : TaskModel :=
  mkTaskModel
    (tk_ID t) (tk_WorkflowID t) (tk_OrgID t) (tk_ParentTaskID t) (tk_AgentRole t) (tk_Description t) (tk_Input t)
    (tk_Output t) (task_status_text (tk_Status t)) (tk_Mode t) (tk_Depth t) (tk_Priority t)
    (marshal (tk_DependsOn t)) (tk_Error t) (tk_CostUSD t) (tk_TokensUsed t) (tk_ClaimedBy t) (tk_ClaimedAt t)
    (tk_RetryCount t) (tk_MaxRetries t) (tk_OriginalTaskID t) json_null (tk_CreatedAt t) (tk_UpdatedAt t)
    (tk_StartedAt t) (tk_CompletedAt t).
Definition toTaskDomain (m : TaskModel) : option (Task F) :=
  status ← of_text task_status_text task_statuses (tm_Status m);
  mret (mkTask
    (tm_ID m) (tm_WorkflowID m) (tm_OrgID m) (tm_ParentTaskID m) (tm_AgentRole m) (tm_Description m) (tm_Input m)
    (tm_Output m) status (tm_Mode m) (tm_Depth m) (tm_Priority m)
    (match unmarshal (tm_DependsOn m) with Ok deps => deps | Err _ => [] end) (tm_CreatedAt m) (tm_UpdatedAt m)
    (tm_StartedAt m) (tm_CompletedAt m) (tm_Error m) (tm_CostUSD m) (tm_TokensUsed m) (tm_ClaimedBy m)
    (tm_ClaimedAt m) (tm_RetryCount m) (tm_MaxRetries m) (tm_OriginalTaskID m)).

(** The organisation of a message's row is the identifier of its workflow. *)
Definition toAgentMessageModel (msg : AgentMessage) : AgentMessageModel :=
  mkMessageModel
    (am_ID msg) (am_WorkflowID msg) (am_WorkflowID msg) (am_FromTaskID msg) (am_ToTaskID msg) (am_FromRole msg)
    (am_ToRole msg) (message_type_text (am_MessageType msg)) (am_Content msg) json_null (am_CorrelationID msg)
    (am_CreatedAt msg).
Definition toAgentMessageDomain (m : AgentMessageModel) : option AgentMessage :=
  typ ← of_text message_type_text message_types (mm_MessageType m);
  mret (mkAgentMessage
    (mm_ID m) (mm_WorkflowID m) (mm_FromTaskID m) (mm_ToTaskID m) (mm_FromRole m) (mm_ToRole m) typ (mm_Content m)
    (mm_CorrelationID m) (mm_CreatedAt m)).

Lemma of_text_text {A} (text : A -> string) (values : list A) a :
  a ∈ values -> (forall b, b ∈ values -> text b = text a -> b = a) -> of_text text values (text a) = Some a.
Proof.
  intros Ha Hinj. unfold of_text. destruct (List.find _ values) as [b|] eqn:E.
  - apply List.find_some in E as [Hb Et]. apply String.eqb_eq in Et. f_equal. apply Hinj; [|done]. by apply list_elem_of_In.
  - apply list_elem_of_In in Ha. by apply (List.find_none _ _ E), String.eqb_neq in Ha.
Qed.

(** What is stored in a row comes back as it was: the tables are maps of entities. *)
Theorem workflow_rows_roundtrip `{!JsonLaw (list uuid)} (wf : Workflow F) (t : Task F) (msg : AgentMessage) :
  toWorkflowDomain (toWorkflowModel wf) = Some wf /\ toTaskDomain (toTaskModel t) = Some t /\
  toAgentMessageDomain (toAgentMessageModel msg) = Some msg.
Proof.
  split_and!.
  - unfold toWorkflowDomain. change (wm_Status _) with (workflow_status_text (wf_Status wf)).
    rewrite of_text_text; [by destruct wf|by destruct (wf_Status wf); set_solver|].
    intros b _. by destruct b, (wf_Status wf).
  - unfold toTaskDomain. change (tm_Status _) with (task_status_text (tk_Status t)).
    rewrite of_text_text; [|by destruct (tk_Status t); set_solver|].
    + cbn. rewrite unmarshal_marshal. by destruct t.
    + intros b _. by destruct b, (tk_Status t).
  - unfold toAgentMessageDomain. change (mm_MessageType _) with (message_type_text (am_MessageType msg)).
    rewrite of_text_text; [by destruct msg|by destruct (am_MessageType msg); set_solver|].
    intros b _. by destruct b, (am_MessageType msg).
Qed.
End rows.
