(* ===== verification/AgentPoller.v ===== *)
(** * The agent poller

    [src/internal/orchestrator/agent_poller.go]: a headless agent claims ready tasks of any
    workflow from the database and runs them with the executor of [Scheduler].  A task is
    run in two steps, up to its agent's answer and from it on; between them other tasks and
    other agents run.  A timeout is an answer of the agent; metrics are left out. *)

From S2P Require Import Prelude WorkflowTypes Skill Dag PlanParser WorkflowStore Scheduler SchedulerProps WorkflowRepo.

Section poller.
Context {F : Type} `{Num F} `{ErrorText}.
Context `{!GoSort (Task F)} `{!MapRange uuid (Task F)}.
Context `{!GoSort AgentMessage} `{!MapRange uuid AgentMessage}.
Context `{!Decode (list TaskSpec)} `{!Decode (RecoveryDecision F)}.
Implicit Types (s : InMemoryStore F) (wf : Workflow F) (t : Task F).
Local Open Scope go_scope.

Record AgentPollerConfig := mkPollerConfig {
  pc_AgentID : string;
  pc_Roles : list AgentRole;
  pc_PollInterval : Duration;
  pc_MaxConcurrentTasks : Z;
  pc_TaskTimeout : Duration;
  pc_HeartbeatInterval : Duration;
  pc_EngineConfig : EngineConfig F;
}.

(** The state of [Run]: [runningTasks]; [ap_store] is the database. *)
Record AgentPoller := mkPoller {
  ap_store : InMemoryStore F;
  ap_config : AgentPollerConfig;
  ap_running : gset uuid;
}.

Definition NewAgentPoller s (c : AgentPollerConfig) : AgentPoller := mkPoller s c ∅.

Definition ap_set (p : AgentPoller) s (running : gset uuid) : AgentPoller :=
  mkPoller s (ap_config p) running.

(** One tick of [Run]: the tasks whose goroutines start, in order. *)
Definition poll_tick (p : AgentPoller) (e : claim_env) : list (Task F) * AgentPoller :=
  let c := ap_config p in
  let available := (pc_MaxConcurrentTasks c - Z.of_nat (size (ap_running p)))%Z in
  if (available <=? 0)%Z then ([], p)
  else
    match db_ClaimReadyTasks (ap_store p) (pc_AgentID c) (pc_Roles c) available e with
    | (Err _, s) => ([], ap_set p s (ap_running p))
    | (Ok tasks, s) => (tasks, ap_set p s (ap_running p ∪ list_to_set (tk_ID <$> tasks)))
    end.

(** The end of a task's goroutine. *)
Definition poll_release (p : AgentPoller) (id : uuid) : AgentPoller :=
  ap_set p (ap_store p) (ap_running p ∖ {[id]}).

(** A tick of [heartbeatLoop]; the error is logged. *)
Definition poll_heartbeat (p : AgentPoller) (now : Time) (err : option error) : AgentPoller :=
  let ids := elements (ap_running p) in
  if bool_decide (ids = []) then p
  else ap_set p (db_HeartbeatTasks (ap_store p) (pc_AgentID (ap_config p)) ids now err).2 (ap_running p).

(** ** Running a task *)

(** [maybeFinishWorkflow]. *)
Definition maybeFinishWorkflow s (wfID : uuid) (now : Time) : InMemoryStore F :=
  match GetWorkflow s wfID with
  | Err _ => s
  | Ok latest =>
      let allTasks := ListTasksByWorkflow s wfID in
      if ((0 <? countByStatus allTasks TaskRunning) || (0 <? countByStatus allTasks TaskPending) ||
          (0 <? countByStatus allTasks TaskBlocked) || (0 <? countByStatus allTasks TaskRecovering))%nat
      then s
      else if (0 <? countByStatus allTasks TaskFailed)%nat
      then (finishWorkflow s latest WorkflowFailed "task(s) failed" now).2
      else (finishWorkflow s latest WorkflowCompleted "" now).2
  end.

(** [updateWorkflowCost], a read and a write. *)
Definition cost_write s (latest : Workflow F) (costUSD : F) (now : Time) : InMemoryStore F :=
  (UpdateWorkflow s (touch_wf (add_cost latest costUSD) now) now).2.

Definition updateWorkflowCost s (wfID : uuid) (costUSD : F) (now : Time) : InMemoryStore F :=
  match GetWorkflow s wfID with
  | Err _ => s
  | Ok latest => cost_write s latest costUSD now
  end.

(** [executeTask] up to the agent's run: [None] when the workflow cannot be loaded. *)
Definition poll_begin s t (now : Time) : option (option error * InMemoryStore F * Task F * Workflow F) :=
  match GetWorkflow s (tk_WorkflowID t) with
  | Err _ => None
  | Ok wf => let '(err, s, t) := startTask s t now in Some (err, s, t, wf)
  end.

(** [executeTask] once the agent answered. *)
Definition poll_end (c : AgentPollerConfig) s wf t (res : agent_result F) (msgID : uuid)
    (env : handle_env) : InMemoryStore F :=
  let now := he_now env in
  match finishTask s wf t res msgID now with
  | (Err _, s) => maybeFinishWorkflow s (wf_ID wf) now
  | (Ok output, s) =>
      let s := if String.eqb (tk_AgentRole t) RolePlanner
               then (handlePlannerOutput s wf t output env).2 else s in
      let s := if String.eqb (tk_AgentRole t) RoleDiagnostician
               then (handleDiagnosticianOutput (pc_EngineConfig c) s wf t output env).2 else s in
      let s := if ao_CostUSD output >f? nofZ 0
               then updateWorkflowCost s (wf_ID wf) (ao_CostUSD output) now else s in
      maybeFinishWorkflow s (wf_ID wf) now
  end.

(** The whole of [executeTask], alone. *)
Definition poll_execute (c : AgentPollerConfig) s t (now : Time) (res : agent_result F)
    (msgID : uuid) (env : handle_env) : InMemoryStore F :=
  match poll_begin s t now with
  | None => s
  | Some (Some _, s, t, wf) => maybeFinishWorkflow s (wf_ID wf) now
  | Some (None, s, t, wf) => poll_end c s wf t res msgID env
  end.
End poller.

Arguments AgentPollerConfig F : clear implicits.
Arguments AgentPoller F : clear implicits.

(** ** Claims, for any outcome of the statements *)

Section lemmas.
Context {F : Type} `{Num F} `{ErrorText}.
Context `{!GoSort (Task F)} `{!MapRange uuid (Task F)}.
Context `{!GoSort AgentMessage} `{!MapRange uuid AgentMessage}.
Context `{!Decode (list TaskSpec)} `{!Decode (RecoveryDecision F)}.
Implicit Types (s : InMemoryStore F) (wf : Workflow F) (t : Task F).

Lemma claim_store s a roles limit e :
  (db_ClaimReadyTasks s a roles limit e).2 = s \/
  (db_ClaimReadyTasks s a roles limit e).2 = claim_update s a (picked s roles limit e) (ce_now e).
Proof.
  unfold db_ClaimReadyTasks. destruct (ce_load e); [by left|]. case_bool_decide; [by left|].
  case_bool_decide; [by left|]. destruct (ce_update e); [by left|]. by right.
Qed.

Lemma claim_bound s a roles limit e ts :
  keyed s -> (1 <= limit)%Z -> (db_ClaimReadyTasks s a roles limit e).1 = Ok ts ->
  (Z.of_nat (length ts) <= limit)%Z.
Proof.
  intros Hk Hl. unfold db_ClaimReadyTasks. destruct (ce_load e); [done|].
  case_bool_decide; [intros [= <-]; simpl; lia|]. case_bool_decide; [intros [= <-]; simpl; lia|].
  destruct (ce_update e); [done|]. destruct (ce_reload e); [done|]. intros [= <-].
  fold (picked s roles limit e). rewrite reload_length by done. by apply picked_bound.
Qed.

Lemma size_list_le (l : list uuid) : size (list_to_set l : gset uuid) <= length l.
Proof.
  induction l as [|x l IH]; [by rewrite list_to_set_nil, size_empty|].
  rewrite list_to_set_cons. simpl length.
  pose proof (size_union_alt {[x]} (list_to_set l : gset uuid)) as E. rewrite E, size_singleton.
  assert (size (list_to_set l ∖ {[x]} : gset uuid) <= size (list_to_set l : gset uuid))
    by (apply subseteq_size; set_solver). lia.
Qed.

(** An agent never runs more tasks than its limit.  A tick adds to the running tasks
    what it claimed, at most as many as there are free slots, whatever the database
    answers; without a free slot it does not claim. *)
Theorem poller_slots_bound (p : AgentPoller F) e :
  keyed (ap_store p) ->
  (Z.of_nat (size (ap_running p)) <= pc_MaxConcurrentTasks (ap_config p))%Z ->
  (Z.of_nat (size (ap_running (poll_tick p e).2)) <= pc_MaxConcurrentTasks (ap_config p))%Z /\
  (forall t, t ∈ (poll_tick p e).1 -> tk_ID t ∈ ap_running (poll_tick p e).2).
Proof.
  intros Hk Hs. unfold poll_tick. set (available := (_ - _)%Z).
  destruct (Z.leb_spec available 0) as [Hle|Hlt]; [split; [done|by intros t ?%not_elem_of_nil]|].
  pose proof (claim_bound (ap_store p) (pc_AgentID (ap_config p)) (pc_Roles (ap_config p)) available e) as Hb.
  destruct (db_ClaimReadyTasks _ _ _ _ _) as [[ts|err] s]; simpl in *.
  - specialize (Hb ts Hk ltac:(lia) eq_refl). split.
    + pose proof (size_union_alt (ap_running p) (list_to_set (tk_ID <$> ts))) as E. rewrite E.
      pose proof (size_list_le (tk_ID <$> ts)) as Hl. rewrite length_fmap in Hl.
      assert (size (list_to_set (tk_ID <$> ts) ∖ ap_running p) <=
              size (list_to_set (tk_ID <$> ts) : gset uuid)) by (apply subseteq_size; set_solver).
      unfold available in Hb. lia.
    + intros t Ht. apply elem_of_union_r, elem_of_list_to_set. by apply list_elem_of_fmap_2.
  - split; [done|by intros t ?%not_elem_of_nil].
Qed.

(** C24: the verdict of the poller.  After a task, its workflow is left alone while some task
    of it is running, pending, blocked or recovering; otherwise it is failed when a task
    failed and completed when none did; tasks are not touched. *)
Theorem poller_verdict s wfID wf now :
  st_workflows s !! wfID = Some wf -> wf_ID wf = wfID ->
  let unfinished := some_task s wfID TaskRunning \/ some_task s wfID TaskPending \/
    some_task s wfID TaskBlocked \/ some_task s wfID TaskRecovering in
  let s' := maybeFinishWorkflow s wfID now in
  st_tasks s' = st_tasks s /\
  (unfinished -> s' = s) /\
  (~ unfinished -> exists wf', st_workflows s' !! wfID = Some wf' /\ wf_CompletedAt wf' = Some now /\
     (some_task s wfID TaskFailed -> wf_Status wf' = WorkflowFailed) /\
     (~ some_task s wfID TaskFailed -> wf_Status wf' = WorkflowCompleted)).
Proof.
  intros Hwf Hid. unfold maybeFinishWorkflow, GetWorkflow. rewrite Hwf.
  destruct (_ || _ || _ || _) eqn:Eu; rewrite ?orb_true_iff, ?orb_false_iff in Eu.
  - rewrite !count_pos in Eu. cbv zeta. split_and!; [done|done|]. intros []. tauto.
  - assert (forall st, (0 <? countByStatus (ListTasksByWorkflow s wfID) st) = false ->
      ~ some_task s wfID st) as Hno by (intros st Hf Hs; apply count_pos in Hs; congruence).
    destruct Eu as [[[H1 Hp2] Hp3] H4]. apply Hno in H1, Hp2, Hp3, H4.
    assert (forall st msg, exists wf', st_workflows (finishWorkflow s wf st msg now).2 !! wfID = Some wf' /\
      wf_CompletedAt wf' = Some now /\ wf_Status wf' = st) as Hfin.
    { intros st msg. unfold finishWorkflow, UpdateWorkflow. simpl. rewrite Hid, Hwf. simpl.
      rewrite lookup_insert_eq. by eexists. }
    destruct (0 <? countByStatus (ListTasksByWorkflow s wfID) TaskFailed) eqn:Ef; cbv zeta.
    + apply count_pos in Ef. rewrite finishWorkflow_tasks. split_and!; [done|tauto|]. intros _.
      destruct (Hfin WorkflowFailed "task(s) failed") as (wf' & ? & ? & ?). by exists wf'.
    + apply Hno in Ef. rewrite finishWorkflow_tasks. split_and!; [done|tauto|]. intros _.
      destruct (Hfin WorkflowCompleted "") as (wf' & ? & ? & ?). by exists wf'.
Qed.
End lemmas.

(** ** Tasks that wait for a failed task *)

Section waiting.
Context {F : Type} `{Num F} `{ErrorText}.
Context `{!GoSort (Task F)} `{!MapRange uuid (Task F)}.
Context `{!GoSort AgentMessage} `{!MapRange uuid AgentMessage}.
Context `{!Decode (list TaskSpec)} `{!Decode (RecoveryDecision F)}.
Implicit Types (s : InMemoryStore F) (wf : Workflow F) (t : Task F).

(** In a running workflow, [f] failed and [w] waits for it. *)
Record stuck (wfID f w : uuid) s : Prop := {
  stuck_keyed : keyed s;
  stuck_wf_keyed : forall id wf, st_workflows s !! id = Some wf -> wf_ID wf = id;
  stuck_failed : exists t, st_tasks s !! f = Some t /\ tk_Status t = TaskFailed;
  stuck_waits : exists t, st_tasks s !! w = Some t /\ tk_WorkflowID t = wfID /\
    is_waiting t = true /\ f ∈ tk_DependsOn t;
  stuck_running : exists wf, st_workflows s !! wfID = Some wf /\ wf_Status wf = WorkflowRunning;
}.

Context (wfID f w : uuid).

(** Rows other than the two may change. *)
Lemma stuck_put_task s t :
  stuck wfID f w s -> tk_ID t <> f -> tk_ID t <> w -> stuck wfID f w (put_task s t).
Proof.
  intros [K WK Ff Fw R] Hf Hw. split; [|done| | |done]; simpl.
  - intros id t' Hl. simpl in Hl. apply lookup_insert_Some in Hl as [[<- <-]|[_ Hl]]; [done|by apply K].
  - by rewrite lookup_insert_ne.
  - by rewrite lookup_insert_ne.
Qed.

Lemma stuck_update_task s t now :
  stuck wfID f w s -> tk_ID t <> f -> tk_ID t <> w -> stuck wfID f w (UpdateTask s t now).2.
Proof.
  intros Hs Hf Hw. unfold UpdateTask. destruct (st_tasks s !! tk_ID t); [|done].
  by apply (stuck_put_task s (with_status t (tk_Status t) now)).
Qed.

Lemma stuck_create_task s t : stuck wfID f w s -> stuck wfID f w (CreateTask s t).2.
Proof.
  intros Hs. unfold CreateTask. destruct (st_tasks s !! tk_ID t) eqn:E; [done|].
  apply (stuck_put_task s t); [done|intros Ei; rewrite Ei in E..].
  - destruct (stuck_failed _ _ _ _ Hs) as (t' & Ht & _). congruence.
  - destruct (stuck_waits _ _ _ _ Hs) as (t' & Ht & _). congruence.
Qed.

Lemma stuck_save_message s m : stuck wfID f w s -> stuck wfID f w (SaveMessage s m).
Proof. by intros [K WK Ff Fw R]; split. Qed.

Lemma stuck_update_workflow s wf now :
  stuck wfID f w s -> (wf_ID wf = wfID -> wf_Status wf = WorkflowRunning) ->
  stuck wfID f w (UpdateWorkflow s wf now).2.
Proof.
  intros [K WK Ff Fw R] Hr. unfold UpdateWorkflow. destruct (st_workflows s !! wf_ID wf); [|done].
  split; [done| |done|done|]; simpl.
  - intros id wf' Hl. simpl in Hl. apply lookup_insert_Some in Hl as [[<- <-]|[_ Hl]]; [done|by apply WK].
  - destruct (decide (wf_ID wf = wfID)) as [E|Hne].
    + rewrite E, lookup_insert_eq. eexists. split; [done|]. by apply Hr.
    + by rewrite lookup_insert_ne.
Qed.

Lemma stuck_create_planned s wf p deps now i items :
  stuck wfID f w s -> stuck wfID f w (create_planned s wf p deps now i items).2.
Proof.
  revert s i. induction items as [|[[spec id] msg] items IH]; intros s i Hs; simpl; [done|].
  destruct (ValidateRole _); [done|].
  match goal with |- context [CreateTask s ?x] =>
    pose proof (stuck_create_task s x Hs) as Hc; destruct (CreateTask s x) as [[e|] s1] end; [done|].
  by apply IH, stuck_save_message.
Qed.

Lemma stuck_planner s wf p output env :
  stuck wfID f w s -> wf_Status wf = WorkflowRunning ->
  stuck wfID f w (handlePlannerOutput s wf p output env).2.
Proof.
  intros Hs Hr. unfold handlePlannerOutput. destruct (parsePlannerOutput output) as [specs|]; [|done].
  destruct (ValidateDAG specs); [done|]. destruct (_ <? _)%Z; [done|]. destruct (_ <=? _)%Z; [done|].
  destruct (ResolveDependencies _ _) as [deps|]; [|done].
  match goal with |- context [create_planned s wf p deps ?n ?i ?items] =>
    pose proof (stuck_create_planned s wf p deps n i items Hs) as Hc;
    destruct (create_planned s wf p deps n i items) as [[e|] s1] end; [done|].
  pose proof (stuck_update_workflow s1 (add_tasks wf (Z.of_nat (length specs)) (he_now env))
    (he_now env) Hc (fun _ => Hr)) as Hu.
  by destruct (UpdateWorkflow s1 _ _).
Qed.

(** A diagnostician of neither task. *)
Definition not_about t : Prop := tk_OriginalTaskID t <> Some f /\ tk_OriginalTaskID t <> Some w.

Lemma stuck_recovery_failed s d e now :
  stuck wfID f w s -> not_about d -> stuck wfID f w (recoveryFailed s d e now).2.
Proof.
  intros Hs [Hf Hw]. unfold recoveryFailed. destruct (tk_OriginalTaskID d) as [id|]; [|done].
  unfold GetTask. destruct (st_tasks s !! id) as [o|] eqn:E; [|done].
  pose proof (stuck_keyed _ _ _ _ Hs id o E) as Ei.
  apply stuck_update_task; [done|simpl; congruence..].
Qed.

Lemma stuck_diagnostician c s wf d output env :
  stuck wfID f w s -> not_about d -> stuck wfID f w (handleDiagnosticianOutput c s wf d output env).2.
Proof.
  intros Hs Hd. unfold handleDiagnosticianOutput.
  assert (forall s e n, stuck wfID f w s -> stuck wfID f w
    (let '(x, s) := recoveryFailed s d e n in (Some x, s)).2) as Hrf.
  { intros s0 e n Hs0. pose proof (stuck_recovery_failed s0 d e n Hs0 Hd).
    by destruct (recoveryFailed s0 d e n). }
  destruct (parseRecoveryDecision output) as [dec|]; [|by apply Hrf]. destruct Hd as [Hf Hw].
  destruct (tk_OriginalTaskID d) as [id|] eqn:Eo; [|done]. unfold GetTask.
  destruct (st_tasks s !! id) as [o|] eqn:E; [|done]. pose proof (stuck_keyed _ _ _ _ Hs id o E) as Ei.
  apply (stuck_save_message s (recovery_message wf o d ("recovery_decision_" +:+ rd_Action dec)
    (default uuid_Nil (he_msgIDs env !! 0)) (he_now env))) in Hs.
  assert (tk_ID o <> f /\ tk_ID o <> w) as [Nf Nw] by (split; congruence).
  destruct (String.eqb _ RecoveryRetry); [destruct (retry_forbidden c); [by apply Hrf|]|].
  { by apply stuck_update_task. }
  destruct (String.eqb _ RecoveryEscalate); [by apply stuck_update_task|].
  destruct (String.eqb _ RecoverySkip); [by apply stuck_update_task|]. by apply Hrf.
Qed.

Lemma stuck_maybe_finish s id now :
  stuck wfID f w s -> stuck wfID f w (maybeFinishWorkflow s id now).
Proof.
  intros Hs. unfold maybeFinishWorkflow, GetWorkflow.
  destruct (st_workflows s !! id) as [wf|] eqn:E; [|done].
  pose proof (stuck_wf_keyed _ _ _ _ Hs id wf E) as Ei.
  destruct (_ || _ || _ || _) eqn:Eu; [done|].
  assert (id <> wfID) as Hne.
  { intros ->. destruct (stuck_waits _ _ _ _ Hs) as (t & Ht & Hw & Hwait & _).
    rewrite !orb_false_iff in Eu. destruct Eu as [[[_ Hp] Hb] _].
    unfold is_waiting in Hwait. rewrite orb_true_iff, !bool_decide_eq_true in Hwait.
    destruct Hwait as [Hst|Hst]; [apply Bool.not_true_iff_false in Hp as []
      |apply Bool.not_true_iff_false in Hb as []]; apply count_pos; exists t; (split; [|done]);
      (split; [by eexists|done]). }
  assert (forall st msg, stuck wfID f w (finishWorkflow s wf st msg now).2) as Hfin.
  { intros st msg. unfold finishWorkflow.
    match goal with |- context [UpdateWorkflow s ?x now] =>
      pose proof (stuck_update_workflow s x now Hs) as Hu; destruct (UpdateWorkflow s x now) as [[e|] s1] end;
      apply Hu; simpl; congruence. }
  destruct (0 <? countByStatus (ListTasksByWorkflow s id) TaskFailed)%nat; apply Hfin.
Qed.

Lemma stuck_cost s id cost now :
  stuck wfID f w s -> stuck wfID f w (updateWorkflowCost s id cost now).
Proof.
  intros Hs. unfold updateWorkflowCost, GetWorkflow. destruct (st_workflows s !! id) as [wf|] eqn:E; [|done].
  apply stuck_update_workflow; [done|]. simpl. rewrite (stuck_wf_keyed _ _ _ _ Hs id wf E). intros ->.
  destruct (stuck_running _ _ _ _ Hs) as (wf' & Hwf & Hr). congruence.
Qed.

Lemma stuck_finish_task s wf t res msg now :
  stuck wfID f w s -> tk_ID t <> f -> tk_ID t <> w -> stuck wfID f w (finishTask s wf t res msg now).2.
Proof.
  intros Hs Hf Hw. unfold finishTask, failTask. destruct res as [err|[output|err]]; simpl;
    [by apply stuck_update_task| |by apply stuck_update_task].
  match goal with |- context [UpdateTask ?s0 ?x now] =>
    pose proof (stuck_update_task s0 x now (stuck_save_message _ _ Hs) Hf Hw) as Hu;
    destruct (UpdateTask s0 x now) as [[e|] s1] end; done.
Qed.

Lemma stuck_end c s wf t res msg env :
  stuck wfID f w s -> tk_ID t <> f -> tk_ID t <> w -> not_about t -> wf_Status wf = WorkflowRunning ->
  stuck wfID f w (poll_end c s wf t res msg env).
Proof.
  intros Hs Hf Hw Ha Hr. unfold poll_end.
  pose proof (stuck_finish_task s wf t res msg (he_now env) Hs Hf Hw) as H1.
  destruct (finishTask s wf t res msg (he_now env)) as [[output|err] s1]; simpl in H1;
    [|by apply stuck_maybe_finish].
  apply stuck_maybe_finish.
  assert (stuck wfID f w (if String.eqb (tk_AgentRole t) RolePlanner
    then (handlePlannerOutput s1 wf t output env).2 else s1)) as Hp2
    by (destruct (String.eqb _ _); [by apply stuck_planner|done]).
  revert Hp2. generalize (if String.eqb (tk_AgentRole t) RolePlanner
    then (handlePlannerOutput s1 wf t output env).2 else s1). intros s2 Hp2.
  assert (stuck wfID f w (if String.eqb (tk_AgentRole t) RoleDiagnostician
    then (handleDiagnosticianOutput (pc_EngineConfig c) s2 wf t output env).2 else s2)) as Hp3
    by (destruct (String.eqb _ _); [by apply stuck_diagnostician|done]).
  destruct (nltb _ _); [by apply stuck_cost|done].
Qed.

(** A waiting task is not picked: its failed dependency is not completed. *)
Lemma stuck_not_picked s roles limit e : stuck wfID f w s -> w ∉ picked s roles limit e.
Proof.
  intros Hs Hin. destruct Hs as [K _ (r & Hr & Hst) (t & Ht & Hwf & _ & Hd) _].
  destruct (picked_offered s roles limit e w K Hin) as (t0 & Eid & Hid & _ & Hm).
  rewrite Eid, Ht in Hid. injection Hid as <-. apply deps_met_true in Hm. rewrite Forall_forall in Hm.
  specialize (Hm f Hd). unfold completed_of in Hm. destruct (ce_completed e (tk_WorkflowID t));
    [by apply not_elem_of_empty in Hm|].
  apply elem_of_completed in Hm as (x & [[i Hi] _] & Hc & Ex).
  rewrite <-(K i x Hi) in Hi. rewrite Ex, Hr in Hi. congruence.
Qed.

Lemma stuck_claim s a roles limit e :
  stuck wfID f w s -> stuck wfID f w (db_ClaimReadyTasks s a roles limit e).2.
Proof.
  intros Hs. pose proof (stuck_not_picked s roles limit e Hs) as Hn.
  destruct (claim_store s a roles limit e) as [->| ->]; [done|].
  destruct Hs as [K WK (r & Hr & Hst) (t & Ht & Hw) R]. split; [by apply claim_update_keyed|done| | |done].
  - exists r. rewrite claim_update_lookup, Hr. simpl. rewrite Hst, andb_false_r. done.
  - exists t. rewrite claim_update_lookup, Ht. simpl. by rewrite (bool_decide_eq_false_2 _ Hn).
Qed.

Lemma stuck_heartbeat s a ids now err :
  stuck wfID f w s -> stuck wfID f w (db_HeartbeatTasks s a ids now err).2.
Proof.
  intros Hs. unfold db_HeartbeatTasks. destruct ids as [|x ids]; [done|]. destruct err; [done|].
  destruct Hs as [K WK (r & Hr & Hst) (t & Ht & Hw) R]. simpl.
  split; [|done| | |done]; simpl.
  - intros id t' Hl. simpl in Hl. rewrite lookup_fmap in Hl. destruct (st_tasks s !! id) as [t0|] eqn:E; [|done].
    injection Hl as <-. pose proof (K id t0 E). by destruct (_ && _).
  - eexists. rewrite lookup_fmap, Hr. split; [reflexivity|]. by destruct (_ && _).
  - eexists. rewrite lookup_fmap, Ht. split; [reflexivity|]. by destruct (_ && _).
Qed.

(** What agents do to the database: claims and heartbeats of any agent with any outcome,
    and the two steps of any task other than the two in question, no diagnosis of them. *)
Inductive poll_step : InMemoryStore F -> InMemoryStore F -> Prop :=
  | ps_claim s a roles limit e : poll_step s (db_ClaimReadyTasks s a roles limit e).2
  | ps_heartbeat s a ids now err : poll_step s (db_HeartbeatTasks s a ids now err).2
  | ps_begin s t now err s' t' wf :
      tk_ID t <> f -> tk_ID t <> w -> poll_begin s t now = Some (err, s', t', wf) -> poll_step s s'
  | ps_end c s wf t res msg env :
      tk_ID t <> f -> tk_ID t <> w -> not_about t -> wf_Status wf = WorkflowRunning ->
      poll_step s (poll_end c s wf t res msg env).

Lemma stuck_step s s' : poll_step s s' -> stuck wfID f w s -> stuck wfID f w s'.
Proof.
  intros Hstep Hs. destruct Hstep as [s a roles limit e|s a ids now err|s t now err s' t' wf Hf Hw E
    |c s wf t res msg env Hf Hw Ha Hr].
  - by apply stuck_claim.
  - by apply stuck_heartbeat.
  - unfold poll_begin in E. destruct (GetWorkflow _ _); [|done].
    pose proof (stuck_update_task s (mark_running t now) now Hs Hf Hw) as Hu. unfold startTask in E.
    destruct (UpdateTask s (mark_running t now) now) as [er s1]. simpl in *. congruence.
  - by apply stuck_end.
Qed.

(** C25: with pollers, a failed task blocks its workflow for ever.  Once a task failed that
    another task of a running workflow waits for, through any sequence of claims, heartbeats,
    beginnings and ends of runs by any agents, the waiting task is never handed out and the
    workflow stays running: no poller recovers the failed task, skips the waiting one or fails
    the workflow.  The beginnings and ends are those of other tasks than these two (the failed
    one is never handed out again and the waiting one never was, so no agent runs them), the
    ends are not those of a diagnostician about the failed task (only the gateway's scheduler
    makes these), and the workflow an agent read was running ([poll_step]). *)
Theorem poller_waits_forever s s' :
  stuck wfID f w s -> rtc poll_step s s' ->
  (exists wf, st_workflows s' !! wfID = Some wf /\ wf_Status wf = WorkflowRunning) /\
  forall a roles limit e, w ∉ picked s' roles limit e /\
    st_tasks (db_ClaimReadyTasks s' a roles limit e).2 !! w = st_tasks s' !! w.
Proof.
  intros Hs Hr. assert (stuck wfID f w s') as Hs'.
  { induction Hr as [|x y z Hxy _ IH]; [done|]. by apply IH, (stuck_step x y). }
  split; [apply Hs'|]. intros a roles limit e.
  pose proof (stuck_not_picked s' roles limit e Hs') as Hn. split; [done|].
  destruct (claim_store s' a roles limit e) as [->| ->]; [done|].
  rewrite claim_update_lookup. destruct (st_tasks s' !! w); [|done]. simpl.
  by rewrite (bool_decide_eq_false_2 _ Hn).
Qed.
End waiting.

(** ** The scheduler does not look at claims *)

Section shared.
Context {F : Type} `{Num F} `{ErrorText}.
Context `{!GoSort (Task F)} `{!MapRange uuid (Task F)}.
Implicit Types (s : InMemoryStore F) (t : Task F).

(** A task can run in an agent and in the gateway.  A task that is ready is in the
    gateway's list and is offered to agents; when an agent claims it after the gateway read
    its list, the gateway starts it all the same, and its write erases the claim. *)
Theorem claimed_task_also_scheduled s roles limit e t agentID now :
  keyed s -> ce_load e = None -> ce_update e = None -> ce_reload e = None ->
  (forall id, ce_completed e id = false) -> offered s roles e t ->
  tk_ID t ∈ picked s roles limit e ->
  t ∈ GetReadyTasks s (tk_WorkflowID t) /\
  let '(r, s1) := db_ClaimReadyTasks s agentID roles limit e in
  (exists ts, r = Ok ts /\ claimed t agentID (ce_now e) ∈ ts) /\
  let '(err, s2, t2) := startTask s1 t now in
  err = None /\ tk_Status t2 = TaskRunning /\
  exists t3, st_tasks s2 !! tk_ID t = Some t3 /\ tk_Status t3 = TaskRunning /\ tk_ClaimedBy t3 = "".
Proof.
  intros Hk E1 E2 E3 Ec Ho Hin. pose proof Ho as (Hid & Hc & Hd). split.
  - apply elem_of_ready. apply claimable_pending in Hc as [Hp _]. split_and!; [by split; [eexists|]|by left|].
    apply deps_met_true in Hd. unfold completed_of in Hd. rewrite Ec in Hd.
    eapply Forall_impl; [exact Hd|]. intros x Hx. by apply elem_of_completed in Hx.
  - destruct (db_claim_run s agentID roles limit e Hk E1 E2 E3) as [Hr Ht].
    destruct (db_ClaimReadyTasks s agentID roles limit e) as [r s1]. simpl in *. split.
    + eexists. split; [exact Hr|]. apply elem_of_claimed; [done|]. by exists t.
    + specialize (Ht (tk_ID t)). rewrite map_lookup_imap, Hid in Ht. simpl in Ht.
      unfold startTask, UpdateTask. simpl. rewrite Ht. simpl. split_and!; [done..|].
      rewrite lookup_insert_eq. eexists. split_and!; [done..|]. simpl. by apply claimable_pending in Hc as [_ ->].
Qed.
End shared.
