(* ===== verification/SchedulerExamples.v ===== *)
(** * Runs of the scheduler and of the agent poller

    An executable script of decisions and events drives the step relation; the
    concrete runs below witness the theorems of the scheduler's files.  Then a workflow
    with a finished, a failed and three pending tasks, claimed by two agents. *)

From S2P Require Import Prelude WorkflowTypes Skill Dag PlanParser WorkflowStore Scheduler SchedulerProps.
From S2P Require Import SchedulerProps WorkflowRepo AgentPoller.

(** ** Scripts *)

Section script.
Context {F : Type} `{Num F} `{ErrorText}.
Context `{!GoSort (Task F)} `{!MapRange uuid (Task F)}.
Context `{!Decode (list TaskSpec)} `{!Decode (RecoveryDecision F)}.
Context `{Render}.

Inductive decision :=
  | DRecover (ids : list (uuid * uuid)) (now : Time)
  | DRound (now : Time) (evs : list (round_event F)).

Fixpoint follow (c : EngineConfig F) (s : InMemoryStore F) (wf : Workflow F) (ds : list decision)
    : option (InMemoryStore F * Workflow F) :=
  match ds with
  | [] => Some (s, wf)
  | DRecover ids now :: ds =>
      match top c s wf None ids now with
      | TopRecovered s wf => follow c s wf ds
      | _ => None
      end
  | DRound now evs :: ds =>
      match top c s wf None [] now with
      | TopDispatch l =>
          match round_run c (mkRound s wf (dispatched l)) evs with
          | Some r =>
              if forallb is_handled (rs_items r) && negb (over_budget (refresh (rs_store r) (rs_wf r)))
              then follow c (rs_store r) (refresh (rs_store r) (rs_wf r)) ds
              else None
          | None => None
          end
      | _ => None
      end
  end.

Lemma round_run_rtc c r evs r' :
  round_run c r evs = Some r' -> rtc (sched_step c) (InRound r) (InRound r').
Proof.
  revert r. induction evs as [|ev evs IH]; intros r E; simpl in E; [by injection E as <-|].
  destruct (round_step c r ev) as [r1|] eqn:E1; [|done].
  eapply rtc_l; [by eapply ss_event|]. by apply IH.
Qed.

Lemma follow_rtc c s wf ds s' wf' :
  follow c s wf ds = Some (s', wf') -> rtc (sched_step c) (Looping s wf) (Looping s' wf').
Proof.
  revert s wf. induction ds as [|[ids now|now evs] ds IH]; intros s wf E; simpl in E.
  - by injection E as <- <-.
  - destruct (top c s wf None ids now) as [| |s1 wf1|] eqn:Et; try done.
    eapply rtc_l; [by eapply ss_recover|]. by apply IH.
  - destruct (top c s wf None [] now) as [l| | |] eqn:Et; try done.
    destruct (round_run _ _ _) as [r|] eqn:Er; [|done].
    destruct (forallb _ _ && _) eqn:Ed; [|done]. apply andb_true_iff in Ed as [Hh Hb].
    eapply rtc_l; [by eapply ss_dispatch|]. etrans; [by eapply round_run_rtc|].
    eapply rtc_l; [|by apply IH]. apply ss_round_end; [done|]. by apply negb_true_iff.
Qed.
End script.

(** ** A concrete environment

    Amounts are rationals; the planner answers a fixed plan; the diagnostician
    answers ["skip"] or nothing. *)

#[local] Instance error_text_ex : ErrorText := {| error_Error := fun _ => "error" |}.
#[local] Instance render_ex : Render := {| itoa := fun _ => "0"; uuid_String := fun _ => "id" |}.

Definition step_ex (role : AgentRole) (deps : list Z) : TaskSpec :=
  mkTaskSpec role "step" "do it" "" deps 0%Z.
Definition answer_ex (response : string) (cost : Q) : AgentOutput Q := mkAgentOutput response 0%Z cost.

#[local] Instance decode_plan_ex : Decode (list TaskSpec) :=
  {| json_unmarshal := fun text =>
       if String.eqb text "plan" then Ok [step_ex RoleExecutor []; step_ex RoleExecutor [0%Z]]
       else if String.eqb text "bad plan" then Ok [step_ex RoleExecutor []; step_ex "dentist" []]
       else Err (Errorf "syntax error") |}.
#[local] Instance decode_decision_ex : Decode (RecoveryDecision Q) :=
  {| json_unmarshal := fun text =>
       if String.eqb text "skip" then Ok (mkDecision RecoverySkip "" [] "" 1%Q)
       else Err (Errorf "syntax error") |}.

Definition config_ex : EngineConfig Q :=
  mkEngineConfig 0%Q 0%Z 0%Z 0%Z false (Some (mkRecoveryConfig true 0%Z 0%Z 0%Q true)).
Definition request_ex : WorkflowRequest Q := mkWorkflowRequest "alice" 1%N "goal" "c" 1%Q 0%Z 0%Z.
Definition submitted_ex := Submit config_ex NewInMemoryStore request_ex 100%N 1%N 0%Z.
Definition s0 : InMemoryStore Q := submitted_ex.2.
Definition wf0 : Workflow Q :=
  match submitted_ex.1 with Ok wf => wf | Err _ => mkWorkflow 0%N 0%N "" "" "" WorkflowPending None 0%Q 0%Q 0%Z 0%Z 0%Z 0%Z 0%Z None "" end.

Definition env_ex (now : Time) (ids : list uuid) : handle_env := mkHandleEnv now ids ids.

(** The task of the round at index [i] starts, ends with [res] and is handled. *)
Definition one (i : nat) (now : Time) (res : result error (AgentOutput Q)) (ids : list uuid) :=
  [RStart i now; REnd i (Answer res) 0%N now; RHandle i (env_ex now ids)].

(** The planner answers the two-step plan; the first step fails. *)
Definition planned_ex : list decision :=
  [DRound 1%Z (one 0 1%Z (Ok (answer_ex "plan" 0%Q)) [2%N; 3%N]);
   DRound 2%Z (one 0 2%Z (Err (Errorf "boom")) [])].

(** The diagnostician of the failed step fails itself. *)
Definition orphan_ex : list decision :=
  planned_ex ++ [DRecover [(4%N, 5%N)] 3%Z; DRound 4%Z (one 0 4%Z (Err (Errorf "boom")) [])].

(** The diagnostician of the failed step decides to skip it. *)
Definition skip_ex : list decision :=
  planned_ex ++ [DRecover [(4%N, 5%N)] 3%Z; DRound 4%Z (one 0 4%Z (Ok (answer_ex "skip" 0%Q)) [6%N])].

Definition after (ds : list decision) : InMemoryStore Q * Workflow Q :=
  default (NewInMemoryStore, wf0) (follow config_ex s0 wf0 ds).

Lemma reached ds :
  is_Some (follow config_ex s0 wf0 ds) ->
  rtc (sched_step config_ex) (Looping s0 wf0) (Looping (after ds).1 (after ds).2).
Proof. intros [[s wf] E]. unfold after. rewrite E. by apply (follow_rtc _ _ _ ds). Qed.

Definition status_of (s : InMemoryStore Q) (id : uuid) : option TaskStatus :=
  tk_Status <$> (st_tasks s !! id).

(** ** Witnesses *)

Lemma workflow_limits_hold_witness :
  wf_TaskCount (after orphan_ex).2 = 4%Z /\ (wf_TaskCount (after orphan_ex).2 <= wf_MaxTasks wf0)%Z.
Proof.
  pose proof (workflow_limits_hold config_ex NewInMemoryStore request_ex 100%N 1%N 0%Z wf0 s0
    (Looping (after orphan_ex).1 (after orphan_ex).2) (map_Forall_empty _) eq_refl
    (reached orphan_ex ltac:(by vm_compute; eexists))) as (_ & _ & Hc & _).
  split; [by vm_compute|exact Hc].
Defined.

(** The failed step hangs the workflow: after the diagnostician's failure it is
    left recovering, and only a cancellation ends the workflow. *)
Lemma orphaned_recovery_hangs_witness :
  rtc (sched_step config_ex) (Looping s0 wf0) (Looping (after orphan_ex).1 (after orphan_ex).2) /\
  status_of (after orphan_ex).1 2%N = Some TaskRecovering /\
  forall st, rtc (sched_step config_ex) (Looping (after orphan_ex).1 (after orphan_ex).2) st ->
    st = Looping (after orphan_ex).1 (after orphan_ex).2 \/
    exists err s' wf', st = Done (Some err) s' wf' /\ wf_Status wf' = WorkflowCancelled.
Proof.
  split; [by apply (reached orphan_ex); vm_compute; eexists|]. split; [by vm_compute|]. intros st Hst.
  apply (orphaned_recovery_hangs config_ex (after orphan_ex).1 (after orphan_ex).2 st);
    [by vm_compute| |exact Hst].
  destruct (st_tasks (after orphan_ex).1 !! 2%N) as [t|] eqn:E; [|by vm_compute in E].
  exists t. split; [split; [by exists 2%N|]|]; vm_compute in E; injection E as <-; reflexivity.
Defined.

(** The failed step is skipped, and the workflow completes with its second step
    never run. *)
Lemma completed_with_waiting_tasks_witness :
  status_of (after skip_ex).1 2%N = Some TaskSkipped /\
  status_of (after skip_ex).1 3%N = Some TaskPending /\
  exists err s' wf', top config_ex (after skip_ex).1 (after skip_ex).2 None [] 5%Z = TopFinish err s' wf' /\
    wf_Status wf' = WorkflowCompleted.
Proof.
  split; [by vm_compute|]. split; [by vm_compute|].
  destruct (st_tasks (after skip_ex).1 !! 3%N) as [t|] eqn:E; [|by vm_compute in E].
  destruct (completed_with_waiting_tasks config_ex (after skip_ex).1 (after skip_ex).2 None [] 5%Z t)
    as (err & s' & wf' & Et & Hs & _).
  - apply idle_spec. by vm_compute.
  - apply count_zero. by vm_compute.
  - split; [by exists 3%N|]. vm_compute in E. by injection E as <-.
  - vm_compute in E. by injection E as <-.
  - exists err, s', wf'. split; [exact Et|exact Hs].
Defined.

(** Two ready tasks spend 100 each under a limit of 1: the loop goes on. *)
Definition spender (id : uuid) : Task Q := new_task id wf0 None RoleExecutor "" "" TaskModeSequential 1%Z 0%Z [] None 0%Z.
Definition spend_store : InMemoryStore Q :=
  mkStore (st_workflows s0) {[2%N := spender 2%N; 3%N := spender 3%N]} ∅.
Definition spend_round : option (roundState Q) :=
  round_run config_ex (mkRound spend_store wf0 (dispatched [spender 2%N; spender 3%N]))
    (one 1 1%Z (Ok (answer_ex "" 100%Q)) [] ++ one 0 1%Z (Ok (answer_ex "" 100%Q)) []).

Lemma round_costs_forgotten_witness :
  exists r, spend_round = Some r /\ wf_BudgetSpentUSD (rs_wf r) = 200%Q /\
    wf_BudgetSpentUSD (refresh (rs_store r) (rs_wf r)) = 0%Q /\
    over_budget (refresh (rs_store r) (rs_wf r)) = false /\ over_budget (rs_wf r) = true.
Proof.
  destruct spend_round as [r|] eqn:E; [|by vm_compute in E]. exists r. split; [done|].
  assert (refresh (rs_store r) (rs_wf r) = default wf0 (st_workflows s0 !! 100%N)) as Hr.
  { eapply (round_costs_forgotten config_ex spend_store wf0 [spender 2%N; spender 3%N]);
      [reflexivity|by repeat constructor|exact E]. }
  rewrite Hr. assert (wf_BudgetSpentUSD (rs_wf r) = 200%Q /\ over_budget (rs_wf r) = true) as [-> ->].
  { vm_compute in E. injection E as <-. by vm_compute. }
  repeat split; by vm_compute.
Defined.

(** The second specification names an unknown role: its plan is refused with its
    first task stored and not counted. *)
Lemma planner_output_effect_witness :
  let '(err, wf', s') :=
    handlePlannerOutput s0 wf0 (spender 1%N) (answer_ex "bad plan" 0%Q) (env_ex 1%Z [2%N; 3%N]) in
  is_Some err /\ wf' = wf0 /\ st_tasks s' !! 3%N = None /\
  exists t, st_tasks s' !! 2%N = Some t /\ tk_Depth t = (tk_Depth (spender 1%N) + 1)%Z /\
    tk_Status t = TaskPending /\ tk_DependsOn t = [].
Proof.
  pose proof (planner_output_effect s0 wf0 (spender 1%N) (answer_ex "bad plan" 0%Q) (env_ex 1%Z [2%N; 3%N])
    [step_ex RoleExecutor []; step_ex "dentist" []]) as He.
  destruct (handlePlannerOutput _ _ _ _ _) as [[err wf'] s'].
  destruct He as [_ He]; [reflexivity..|by vm_compute; repeat constructor; set_solver| |].
  - intros id Hid. vm_compute in Hid. repeat (apply elem_of_cons in Hid as [->|Hid]; [by vm_compute|]).
    by apply elem_of_nil in Hid.
  - destruct He as (_ & Ht & Hc); [by vm_compute|].
    destruct Hc as [Herr Hwf]. split; [done|]. split; [done|].
    split; [exact (Ht 1 _ 3%N eq_refl eq_refl)|].
    destruct (Ht 0 _ 2%N eq_refl eq_refl) as (ds & t & Hds & H2 & Hspec). exists t. split; [done|].
    split; [apply Hspec|]. split; [apply Hspec|]. rewrite (ts_after _ _ _ _ _ _ _ Hspec).
    by inversion Hds.
Defined.

(** ** The agent poller *)

#[local] Instance poll_errors : ErrorText := {| error_Error := fun _ => "error" |}.
#[local] Instance poll_plans : Decode (list TaskSpec) := {| json_unmarshal := fun _ => Err (Errorf "no plan") |}.
#[local] Instance poll_decisions : Decode (RecoveryDecision Q) :=
  {| json_unmarshal := fun _ => Err (Errorf "no decision") |}.

Definition pl_task (id : uuid) (st : TaskStatus) (deps : list uuid) : Task Q :=
  mkTask id 1%N 9%N None RoleExecutor "step" "do" "" st "sequential" 1%Z 0%Z deps (Z.of_N id) 0%Z None None ""
    0%Q 0%Z "" None 0%Z 0%Z None.

Definition pl_wf : Workflow Q :=
  mkWorkflow 1%N 9%N "alice" "corr" "goal" WorkflowRunning None 1%Q 0%Q 5%Z 50%Z 5%Z 0%Z 0%Z None "".

Definition tables_ex : InMemoryStore Q :=
  mkStore {[1%N := pl_wf]}
    (list_to_map ((fun t => (tk_ID t, t)) <$>
       [pl_task 10%N TaskCompleted []; pl_task 11%N TaskFailed []; pl_task 12%N TaskPending [10%N];
        pl_task 13%N TaskPending []; pl_task 14%N TaskPending [11%N]]))
    ∅.

Definition pl_env (now : Time) : claim_env := mkClaimEnv now None (fun _ => false) None None.

Lemma tables_ex_keyed : keyed tables_ex.
Proof.
  unfold keyed. assert (map_Forall (fun id t => tk_ID t = id) (st_tasks tables_ex)) as Hall.
  { apply map_Forall_to_list. vm_compute. repeat constructor. }
  exact Hall.
Qed.

(** Two free slots, two ready tasks. *)
Lemma claim_exact_witness :
  keyed tables_ex /\ exists ts,
    (db_ClaimReadyTasks tables_ex "agent-1" [] 2%Z (pl_env 5%Z)).1 = Ok ts /\ (Z.of_nat (length ts) <= 2)%Z.
Proof.
  split; [exact tables_ex_keyed|].
  destruct (claim_exact tables_ex "agent-1" [] 2%Z (pl_env 5%Z)) as (ts & Hr & Hb & _);
    [exact tables_ex_keyed|lia|reflexivity..|].
  exists ts. split; [exact Hr|exact Hb].
Defined.

Example claim_run :
  exists ts, (db_ClaimReadyTasks tables_ex "agent-1" [] 2%Z (pl_env 5%Z)).1 = Ok ts /\ map tk_ID ts = [12%N; 13%N].
Proof. eexists. split; vm_compute; reflexivity. Qed.

(** Two agents that both picked task 12. *)
Definition race_ex : list (claim_event (F := Q)) :=
  [CeUpdate "agent-1" [12%N] 5%Z; CeUpdate "agent-2" [12%N; 13%N] 6%Z;
   CeReload "agent-2" [12%N; 13%N]; CeReload "agent-1" [12%N]].

Lemma claim_exclusive_witness :
  claim_events tables_ex race_ex = [("agent-2", 13%N); ("agent-1", 12%N)] /\
  forall a, (a, 12%N) ∈ claim_events tables_ex race_ex -> a = "agent-1".
Proof.
  split; [vm_compute; reflexivity|]. intros a Ha. eapply (claim_exclusive tables_ex 12%N race_ex a "agent-1").
  - intros i t Ht Hid. rewrite (tables_ex_keyed i t Ht) in Hid. subst i. split; [reflexivity|].
    vm_compute in Ht. injection Ht as <-. reflexivity.
  - repeat constructor; discriminate.
  - exact Ha.
  - vm_compute. right. left.
Defined.

Definition poller_ex : AgentPoller Q :=
  NewAgentPoller tables_ex (mkPollerConfig "agent-1" [] 1%Z 1%Z 60%Z 15%Z (mkEngineConfig 1%Q 5%Z 50%Z 4%Z true None)).

(** One slot: a tick claims one task. *)
Lemma poller_slots_bound_witness :
  keyed (ap_store poller_ex) /\
  (Z.of_nat (size (ap_running (poll_tick poller_ex (pl_env 5%Z)).2)) <= 1)%Z /\
  map tk_ID (poll_tick poller_ex (pl_env 5%Z)).1 = [12%N].
Proof.
  split; [exact tables_ex_keyed|].
  split; [|vm_compute; reflexivity].
  apply (poller_slots_bound poller_ex (pl_env 5%Z)); [exact tables_ex_keyed|vm_compute; discriminate].
Defined.

(** With only the finished and the failed task the workflow fails. *)
Definition ended_ex : InMemoryStore Q :=
  mkStore {[1%N := pl_wf]} {[10%N := pl_task 10%N TaskCompleted []; 11%N := pl_task 11%N TaskFailed []]} ∅.

Lemma poller_verdict_witness :
  st_workflows ended_ex !! 1%N = Some pl_wf /\
  st_tasks (maybeFinishWorkflow ended_ex 1%N 7%Z) = st_tasks ended_ex.
Proof.
  split; [reflexivity|]. apply (poller_verdict ended_ex 1%N pl_wf 7%Z); reflexivity.
Defined.

Example verdict_run :
  (wf_Status <$> st_workflows (maybeFinishWorkflow ended_ex 1%N 7%Z) !! 1%N) = Some WorkflowFailed.
Proof. vm_compute. reflexivity. Qed.

(** Task 14 waits for the failed task 11. *)
Lemma tables_ex_stuck : stuck 1%N 11%N 14%N tables_ex.
Proof.
  split.
  - exact tables_ex_keyed.
  - intros id wf Hl. simpl in Hl. apply lookup_singleton_Some in Hl as [<- <-]. reflexivity.
  - eexists. split; [vm_compute; reflexivity|reflexivity].
  - eexists. split; [vm_compute; reflexivity|]. split_and!; [reflexivity|reflexivity|left].
  - eexists. split; [vm_compute; reflexivity|reflexivity].
Qed.

Lemma poller_waits_forever_witness :
  stuck 1%N 11%N 14%N tables_ex /\
  exists wf, st_workflows (db_ClaimReadyTasks tables_ex "agent-1" [] 5%Z (pl_env 5%Z)).2 !! 1%N = Some wf /\
    wf_Status wf = WorkflowRunning.
Proof.
  split; [exact tables_ex_stuck|].
  destruct (poller_waits_forever 1%N 11%N 14%N tables_ex
    (db_ClaimReadyTasks tables_ex "agent-1" [] 5%Z (pl_env 5%Z)).2 tables_ex_stuck
    (rtc_once _ _ (ps_claim 11%N 14%N tables_ex "agent-1" [] 5%Z (pl_env 5%Z)))) as [Hw _].
  exact Hw.
Defined.

Lemma claimed_task_also_scheduled_witness :
  offered tables_ex [] (pl_env 5%Z) (pl_task 12%N TaskPending [10%N]) /\
  pl_task 12%N TaskPending [10%N] ∈ GetReadyTasks tables_ex 1%N.
Proof.
  assert (offered tables_ex [] (pl_env 5%Z) (pl_task 12%N TaskPending [10%N])) as Ho
    by (vm_compute; split_and!; reflexivity).
  split; [exact Ho|].
  apply (claimed_task_also_scheduled tables_ex [] 5%Z (pl_env 5%Z) (pl_task 12%N TaskPending [10%N]) "agent-1" 6%Z);
    [exact tables_ex_keyed|reflexivity..|intros id; reflexivity|exact Ho|].
  vm_compute. left.
Defined.
