(* ===== verification/Domain.v ===== *)
(** * Domain entities and the environment of the background services

    [src/internal/domain/domain.go]: the records the stores keep.  [F] is float64, a
    nullable column or pointer is an [option].  The background services (cron, alerts,
    heartbeat tasks) share the environment below: the clock, random identifiers, the
    outcome of a database statement, and [github.com/robfig/cron]. *)

From S2P Require Import Prelude.

(** ** Entities *)

Record Organization := mkOrganization {
  og_ID : uuid; og_Name : string; og_Slug : string; og_CreatedAt : Time;
}.

Record User := mkUser {
  us_ID : uuid; us_OrgID : uuid; us_ExternalID : string; us_Email : string; us_CreatedAt : Time;
}.

Section entities.
Context {F : Type}.

Record CronJob := mkCronJob {
  cj_ID : uuid;
  cj_OrgID : uuid;
  cj_Name : string;
  cj_Description : string;
  cj_CronExpression : string;
  cj_Goal : string;
  cj_UserID : string;
  cj_BudgetLimitUSD : F;
  cj_MaxDepth : Z;
  cj_MaxTasks : Z;
  cj_Enabled : bool;
  cj_NextRunAt : option Time;
  cj_LastRunAt : option Time;
  cj_LastWorkflowID : option uuid;
  cj_LastError : string;
  cj_CreatedAt : Time;
  cj_UpdatedAt : Time;
}.

Record HeartbeatTask := mkHeartbeatTask {
  ht_ID : uuid;
  ht_OrgID : uuid;
  ht_Name : string;
  ht_Description : string;
  ht_SourceFile : string;
  ht_FileGroup : string;
  ht_CronExpression : string;
  ht_Mode : string;
  ht_UserID : string;
  ht_BudgetLimitUSD : F;
  ht_NotificationChannelIDs : list uuid;
  ht_Enabled : bool;
  ht_NextRunAt : option Time;
  ht_LastRunAt : option Time;
  ht_LastStatus : string;
  ht_LastError : string;
  ht_LastResultSummary : string;
  ht_CreatedAt : Time;
  ht_UpdatedAt : Time;
}.

Record HeartbeatTaskResult := mkHeartbeatTaskResult {
  hr_ID : uuid;
  hr_OrgID : uuid;
  hr_TaskID : uuid;
  hr_Status : string;
  hr_Output : string;
  hr_OutputSummary : string;
  hr_TokensUsed : Z;
  hr_CostUSD : F;
  hr_DurationMS : Z;
  hr_CorrelationID : string;
  hr_NotifiedVia : list string;
  hr_NotifyErrors : list string;
  hr_CreatedAt : Time;
}.
End entities.

Arguments CronJob F : clear implicits.
Arguments HeartbeatTask F : clear implicits.
Arguments HeartbeatTaskResult F : clear implicits.

Record InfraNode := mkInfraNode {
  in_ID : uuid;
  in_OrgID : uuid;
  in_Name : string;
  in_Aliases : list string;
  in_NodeType : string;
  in_Host : string;
  in_Port : Z;
  in_User : string;
  in_CredentialRef : string;
  in_Tags : gmap string string;
  in_MCPServer : string;
  in_Enabled : bool;
  in_CreatedAt : Time;
  in_UpdatedAt : Time;
}.

Record NotificationChannel := mkChannel {
  nc_ID : uuid;
  nc_OrgID : uuid;
  nc_Name : string;
  nc_ChannelType : string;
  nc_Config : gmap string string;
  nc_CredentialRef : string;
  nc_Enabled : bool;
  nc_CreatedAt : Time;
  nc_UpdatedAt : Time;
}.

Record AlertRule := mkAlertRule {
  ar_ID : uuid;
  ar_OrgID : uuid;
  ar_Name : string;
  ar_Description : string;
  ar_Target : string;
  ar_CheckType : string;
  ar_CheckConfig : gmap string string;
  ar_CronExpression : string;
  ar_ChannelIDs : list uuid;
  ar_UserID : string;
  ar_Enabled : bool;
  ar_CooldownS : Z;
  ar_LastCheckedAt : option Time;
  ar_LastAlertedAt : option Time;
  ar_LastStatus : string;
  ar_NextRunAt : option Time;
  ar_CreatedAt : Time;
  ar_UpdatedAt : Time;
}.

Record AlertHistory := mkAlertHistory {
  ah_ID : uuid;
  ah_OrgID : uuid;
  ah_AlertRuleID : uuid;
  ah_Status : string;
  ah_PreviousStatus : string;
  ah_Message : string;
  ah_NotifiedVia : list string;
  ah_NotifyErrors : list string;
  ah_CheckDurationMS : Z;
  ah_CreatedAt : Time;
}.

(** ** The environment *)

(** The clock, [uuid.New], eight random bytes in hexadecimal, and what the next
    database statement answers. *)
Class World (W : Type) := {
  w_now : W -> Time * W;
  w_uuid : W -> uuid * W;
  w_correlationID : W -> string * W;
  w_db : W -> option error * W;
}.

(** Random identifiers do not repeat: an identifier that was given out, or is in a table
    from the start, is not given out again. *)
Class FreshWorld (W : Type) `{World W} := {
  w_used : W -> uuid -> Prop;
  used_now : forall w u, w_used w u -> w_used (w_now w).2 u;
  used_db : forall w u, w_used w u -> w_used (w_db w).2 u;
  used_uuid : forall w u, w_used w u -> w_used (w_uuid w).2 u;
  uuid_new : forall w, ~ w_used w (w_uuid w).1;
  uuid_used : forall w, w_used (w_uuid w).2 (w_uuid w).1;
}.

(** A map of parameters of an audit event. *)
Class GoParams (P : Type) := { params_of : list (string * string) -> P }.

(** [cron.Parser.Parse] of the five-field format, and [Schedule.Next]. *)
Class CronParser := { cron_Parse : string -> result error (Time -> Time) }.

(** The documentation of [Next]: the next activation, later than the given time, or
    the zero time when no time satisfies the schedule. *)
Class CronParserLaw `{CronParser} := {
  next_later : forall expr next t, cron_Parse expr = Ok next ->
    (t < next t)%Z \/ next t = time_zero;
}.

(** [computeNextRun] of the cron scheduler, the alert checker and the heartbeat runner,
    at the clock reading [now]. *)
Definition next_run `{CronParser} (expr : string) (now : Time) : Time :=
  match cron_Parse expr with
  | Err _ => (now + 24 * Hour)%Z
  | Ok next => next now
  end.

(** [enabled = true AND next_run_at IS NOT NULL AND next_run_at <= now], within an
    organisation: what the three stores select. *)
Definition is_due (org orgID : uuid) (enabled : bool) (next : option Time) (now : Time) : bool :=
  bool_decide (org = orgID) && enabled &&
  match next with Some t => (t <=? now)%Z | None => false end.

(** [ORDER BY created_at DESC]; rows created at the same time come in any order. *)
Definition newest {A} `{!GoSort A} (created : A -> Time) (rows : list A) : list A :=
  go_sort (fun a b => created b <? created a)%Z rows.

(** A never satisfied schedule leaves the zero time, which is always due. *)
Lemma zero_time_due org now : (time_zero <= now)%Z -> is_due org org true (Some time_zero) now = true.
Proof. intros H. unfold is_due. rewrite bool_decide_true by done. simpl. by apply Z.leb_le. Qed.

Lemma next_run_later `{CronParserLaw} expr now :
  (now < next_run expr now)%Z \/ next_run expr now = time_zero.
Proof.
  unfold next_run. destruct (cron_Parse expr) as [next|e] eqn:E; [by apply next_later with (1 := E)|].
  left. unfold Hour, Minute, Second, Nanosecond. lia.
Qed.

(** ** Numbered rows

    The rows of one owner, numbered 1, 2, ... in the order they were inserted. *)

(** [MAX(column)]: no rows have no maximum. *)
Definition sql_max (vs : list Z) : option Z :=
  match vs with [] => None | v :: vs => Some (fold_left Z.max vs v) end.

Lemma go_sort_unique {A} `{!GoSort A} (less : A -> A -> bool) (l l' : list A) :
  weak_order less -> StronglySorted (fun a b => less a b = true) l' -> l' ≡ₚ l -> go_sort less l = l'.
Proof.
  intros Hw Hs Hp. apply (StronglySorted_unique_strong (ordered less)).
  - intros x y Hx Hy Hxy Hyx. rewrite go_sort_perm, <-Hp in Hx. unfold ordered in *.
    apply list_elem_of_lookup in Hx as [i Hi], Hy as [j Hj].
    destruct (decide (i = j)) as [->|Hne]; [congruence|]. exfalso.
    assert (i < j \/ j < i) as [Hlt|Hlt] by lia.
    + rewrite <-(take_drop (S i) l') in Hs. apply (StronglySorted_app_1_elem_of _ _ _ x y) in Hs; [congruence|..].
      * apply list_elem_of_lookup. exists i. rewrite lookup_take_lt by lia. done.
      * apply list_elem_of_lookup. exists (j - S i). rewrite lookup_drop. replace (S i + (j - S i)) with j by lia. done.
    + rewrite <-(take_drop (S j) l') in Hs. apply (StronglySorted_app_1_elem_of _ _ _ y x) in Hs; [congruence|..].
      * apply list_elem_of_lookup. exists j. rewrite lookup_take_lt by lia. done.
      * apply list_elem_of_lookup. exists (i - S j). rewrite lookup_drop. replace (S j + (i - S j)) with i by lia. done.
  - by apply go_sort_sorted.
  - eapply StronglySorted_weaken; [|exact Hs]. intros x y Hxy. unfold ordered. by apply Hw.
  - by rewrite go_sort_perm.
Qed.

Section numbered.
Context {A : Type} (f : A -> Z).
Implicit Types (l : list A).

Definition numbered l : Prop := map f l = seqZ 1 (Z.of_nat (length l)).

Lemma numbered_app l l' : numbered l -> map f l' = seqZ (Z.of_nat (length l) + 1) (Z.of_nat (length l')) -> numbered (l ++ l').
Proof.
  unfold numbered. intros Hl Hl'. rewrite map_app, Hl, Hl', length_app, Nat2Z.inj_add, seqZ_app by lia.
  by rewrite Z.add_comm.
Qed.

Lemma numbered_snoc l x : numbered l -> f x = (Z.of_nat (length l) + 1)%Z -> numbered (l ++ [x]).
Proof. intros Hl Hx. apply numbered_app; [done|]. simpl. by rewrite Hx. Qed.

Lemma numbered_sorted l : numbered l -> StronglySorted (fun a b => (f a < f b)%Z) l.
Proof.
  unfold numbered. generalize 1%Z. induction l as [|x l IH]; intros k E; [constructor|].
  cbn [length map] in E. rewrite seqZ_cons in E by lia.
  replace (Z.pred (Z.of_nat (S (length l)))) with (Z.of_nat (length l)) in E by lia.
  injection E as <- E. constructor; [by eapply IH|].
  apply Forall_forall. intros y Hy. assert (f y ∈ map f l) as Hin by by apply list_elem_of_fmap_2.
  rewrite E in Hin. apply elem_of_seqZ in Hin. lia.
Qed.

(** Sorting numbered rows changes nothing. *)
Lemma sort_numbered `{!GoSort A} l : numbered l -> go_sort (fun a b => f a <? f b)%Z l = l.
Proof.
  intros Hl. apply go_sort_unique; [|by eapply StronglySorted_weaken; [|by apply numbered_sorted]; intros x y; rewrite Z.ltb_lt|done].
  unfold weak_order. split; intros *; rewrite ?Z.ltb_lt, ?Z.ltb_ge; lia.
Qed.

Lemma sorted_reverse l : StronglySorted (fun a b => (f a < f b)%Z) l -> StronglySorted (fun a b => (f b < f a)%Z) (reverse l).
Proof.
  induction 1 as [|x l _ IH Hx]; [constructor|]. rewrite reverse_cons. apply StronglySorted_app_2; [|done|repeat constructor].
  intros y z Hy ->%list_elem_of_singleton. rewrite reverse_Permutation in Hy. rewrite Forall_forall in Hx. by apply Hx.
Qed.

(** Sorting them the other way reverses them. *)
Lemma sort_numbered_desc `{!GoSort A} l : numbered l -> go_sort (fun a b => f b <? f a)%Z l = reverse l.
Proof.
  intros Hl. apply go_sort_unique; [| |by rewrite reverse_Permutation].
  - unfold weak_order. split; intros *; rewrite ?Z.ltb_lt, ?Z.ltb_ge; lia.
  - eapply StronglySorted_weaken; [|by apply sorted_reverse, numbered_sorted]. intros x y. by rewrite Z.ltb_lt.
Qed.

(** The largest number is the number of rows. *)
Lemma max_numbered l : numbered l -> default 0%Z (sql_max (map f l)) = Z.of_nat (length l).
Proof.
  assert (forall n k, fold_left Z.max (seqZ (k + 1) (Z.of_nat n)) k = (k + Z.of_nat n)%Z) as Hmax.
  { induction n as [|n IH]; intros k; [simpl; lia|]. rewrite seqZ_cons by lia. cbn [fold_left].
    replace (Z.max k (k + 1)) with (k + 1)%Z by lia. replace (Z.pred (Z.of_nat (S n))) with (Z.of_nat n) by lia.
    rewrite <-Z.add_1_r, IH. lia. }
  unfold numbered, sql_max. intros ->. destruct l as [|x l]; [done|]. cbn [length].
  rewrite seqZ_cons by lia. replace (Z.pred (Z.of_nat (S (length l)))) with (Z.of_nat (length l)) by lia.
  cbn [default]. change (fold_left Z.max (seqZ (1 + 1) (Z.of_nat (length l))) 1 = Z.of_nat (S (length l)))%Z.
  rewrite Hmax. lia.
Qed.
End numbered.
