(* ===== verification/ConversationDB.v ===== *)
(** * Conversations in the database

    [src/internal/storage/postgres/conversation_repo.go] and [convert_conversation.go]: the
    database-backed conversation store, an instance of the interface [ConversationStore] of
    [src/internal/agent/conversation.go], and its relation to the in-memory store.  The JSON
    of content blocks is a parameter; a transaction that fails leaves the tables as they
    were. *)

From S2P Require Import Prelude Security LLM Conversation Domain.

Section conversations.
Context {P W : Type} `{!GoMap P} `{!World W}.

(** [json.Marshal] and [json.Unmarshal] of a slice of content blocks. *)
Class BlocksJson := {
  blocks_Marshal : list (ContentBlock P) -> result error string;
  blocks_Unmarshal : string -> result error (list (ContentBlock P));
}.
Context `{!BlocksJson}.

Record ConversationModel := mkConversationModel {
  vm_ID : uuid;
  vm_OrgID : uuid;
  vm_UserID : string;
  vm_CreatedAt : Time;
  vm_UpdatedAt : Time;
}.

(** A row of conversation_messages; no content blocks are [NULL]. *)
Record ConversationMessageModel := mkConversationMessageModel {
  mm_ID : uuid;
  mm_ConversationID : uuid;
  mm_OrgID : uuid;
  mm_SeqNum : Z;
  mm_Role : string;
  mm_Content : string;
  mm_ContentBlocks : option string;
  mm_TokenEstimate : Z;
  mm_CreatedAt : Time;
}.
Context `{!GoSort ConversationMessageModel}.

(** ** Rows *)

Definition sanitizeRole (role : LRole) : string :=
  if bool_decide (role = RoleUser) then "user"
  else if bool_decide (role = RoleAssistant) then "assistant"
  else "user".

Definition row_estimateTokens (text : string) : Z :=
  let n := (Z.of_nat (String.length text) / 4)%Z in
  if (n =? 0)%Z && (0 <? String.length text)%nat then 1%Z else n.

Definition blocks_column (bs : list (ContentBlock P)) : option string :=
  match bs with
  | [] => None
  | _ => match blocks_Marshal bs with Ok data => Some data | Err _ => None end
  end.

Definition toConversationMessageModel (convID orgID : uuid) (seqNum : Z) (msg : Message P) (id : uuid) (now : Time)
    : ConversationMessageModel :=
  let text := TextContent msg in
  mkConversationMessageModel id convID orgID seqNum (sanitizeRole (msg_Role msg)) text
    (blocks_column (msg_ContentBlocks msg)) (row_estimateTokens text) now.

Definition toMessage (m : ConversationMessageModel) : Message P :=
  match mm_ContentBlocks m with
  | Some text =>
      if String.eqb text "" then mkMessage (mm_Role m) (mm_Content m) []
      else match blocks_Unmarshal text with
           | Ok [] | Err _ => mkMessage (mm_Role m) (mm_Content m) []
           | Ok blocks => mkMessage (mm_Role m) "" blocks
           end
  | None => mkMessage (mm_Role m) (mm_Content m) []
  end.

(** ** The repository *)

Record ConvDB := mkConvDB {
  vd_world : W;
  vd_convs : gmap uuid ConversationModel;
  vd_msgs : list ConversationMessageModel;
}.

Abbreviation VM := (st ConvDB).

Definition vd_do {A} (m : W -> A * W) : VM A := fun d =>
  let '(a, w) := m (vd_world d) in (a, mkConvDB w (vd_convs d) (vd_msgs d)).
Definition set_convs (f : gmap uuid ConversationModel -> gmap uuid ConversationModel) (d : ConvDB) : ConvDB :=
  mkConvDB (vd_world d) (f (vd_convs d)) (vd_msgs d).
Definition set_msgs (f : list ConversationMessageModel -> list ConversationMessageModel) (d : ConvDB) : ConvDB :=
  mkConvDB (vd_world d) (vd_convs d) (f (vd_msgs d)).

Definition touched (now : Time) (m : ConversationModel) : ConversationModel :=
  mkConversationModel (vm_ID m) (vm_OrgID m) (vm_UserID m) (vm_CreatedAt m) now.

(** [None] is [gorm.ErrRecordNotFound]. *)
Definition find_conversation (orgID convID : uuid) (d : ConvDB) : option ConversationModel :=
  match vd_convs d !! convID with
  | Some m => if bool_decide (vm_OrgID m = orgID) then Some m else None
  | None => None
  end.

Definition db_GetOrCreateConversation (orgID : uuid) (userID : string) (convID : uuid) : VM (result error uuid) :=
  err ← vd_do w_db;
  match err with
  | Some e => mret (Err (Wrap "looking up conversation" e))
  | None =>
      existing ← st_get (find_conversation orgID convID);
      match existing with
      | Some existing =>
          if negb (String.eqb (vm_UserID existing) userID)
          then mret (Err (Errorf "conversation belongs to a different user"))
          else
            now ← vd_do w_now;
            err ← vd_do w_db;
            _ ← (match err with
                 | None => st_modify (set_convs (alter (touched now) convID))
                 | Some _ => mret tt
                 end);
            mret (Ok (vm_ID existing))
      | None =>
          now ← vd_do w_now;
          err ← vd_do w_db;
          match err with
          | Some e => mret (Err (Wrap "creating conversation" e))
          | None =>
              taken ← st_get (fun d => vd_convs d !! convID);
              match taken with
              | Some _ => mret (Err (Wrap "creating conversation" (Errorf "duplicate key")))
              | None =>
                  _ ← st_modify (set_convs (<[convID := mkConversationModel convID orgID userID now now]>));
                  mret (Ok convID)
              end
          end
      end
  end.

Definition of_conv (convID : uuid) (rows : list ConversationMessageModel) : list ConversationMessageModel :=
  List.filter (fun m => bool_decide (mm_ConversationID m = convID)) rows.

(** The rows of the messages from a sequence number on. *)
Fixpoint message_rows (convID orgID : uuid) (seq : Z) (msgs : list (Message P)) : VM (list ConversationMessageModel) :=
  match msgs with
  | [] => mret []
  | msg :: msgs =>
      id ← vd_do w_uuid;
      now ← vd_do w_now;
      rest ← message_rows convID orgID (seq + 1) msgs;
      mret (toConversationMessageModel convID orgID seq msg id now :: rest)
  end.

Fixpoint fresh_ids (rows : list ConversationMessageModel) (used : list uuid) : bool :=
  match rows with
  | [] => true
  | r :: rows => bool_decide (mm_ID r ∉ used) && fresh_ids rows (mm_ID r :: used)
  end.

Definition db_AppendMessages (convID orgID : uuid) (msgs : list (Message P)) : VM (option error) :=
  match msgs with
  | [] => mret None
  | _ =>
      err ← vd_do w_db;
      match err with
      | Some e => mret (Some (Wrap "getting max seq_num" e))
      | None =>
          maxSeq ← st_get (fun d => default 0%Z (sql_max (map mm_SeqNum (of_conv convID (vd_msgs d)))));
          rows ← message_rows convID orgID (maxSeq + 1) msgs;
          err ← vd_do w_db;
          match err with
          | Some e => mret (Some (Wrap "inserting messages" e))
          | None =>
              old ← st_get vd_msgs;
              if fresh_ids rows (map mm_ID old)
              then _ ← st_modify (set_msgs (fun l => l ++ rows)); mret None
              else mret (Some (Wrap "inserting messages" (Errorf "duplicate key")))
          end
      end
  end.

(** [ORDER BY seq_num DESC]. *)
Definition newest_first (rows : list ConversationMessageModel) : list ConversationMessageModel :=
  go_sort (fun a b => mm_SeqNum b <? mm_SeqNum a)%Z rows.

Definition db_LoadHistory (convID : uuid) (maxMessages : Z) : VM (result error (list (Message P))) :=
  let maxMessages := if (maxMessages <=? 0)%Z then DefaultMaxHistoryMessages else maxMessages in
  err ← vd_do w_db;
  match err with
  | Some e => mret (Err (Wrap "loading conversation history" e))
  | None =>
      rows ← st_get (fun d => of_conv convID (vd_msgs d));
      mret (Ok (map toMessage (reverse (take (Z.to_nat maxMessages) (newest_first rows)))))
  end.

(** What the loop of [ReplaceToolResult] finds in a row: its new blocks. *)
Definition row_replaced (toolUseID content : string) (isError : bool) (m : ConversationMessageModel)
    : option (list (ContentBlock P)) :=
  match mm_ContentBlocks m with
  | None => None
  | Some text =>
      match blocks_Unmarshal text with
      | Ok blocks => replace_block toolUseID content isError blocks
      | Err _ => None
      end
  end.

Fixpoint first_replaced (toolUseID content : string) (isError : bool) (rows : list ConversationMessageModel)
    : option (ConversationMessageModel * list (ContentBlock P)) :=
  match rows with
  | [] => None
  | m :: rows =>
      match row_replaced toolUseID content isError m with
      | Some blocks => Some (m, blocks)
      | None => first_replaced toolUseID content isError rows
      end
  end.

Definition has_blocks (m : ConversationMessageModel) : bool := bool_decide (is_Some (mm_ContentBlocks m)).

Definition with_blocks (text data : string) (m : ConversationMessageModel) : ConversationMessageModel :=
  mkConversationMessageModel (mm_ID m) (mm_ConversationID m) (mm_OrgID m) (mm_SeqNum m) (mm_Role m) text (Some data)
    (mm_TokenEstimate m) (mm_CreatedAt m).

Definition update_row (id : uuid) (text data : string) (rows : list ConversationMessageModel)
    : list ConversationMessageModel :=
  map (fun m => if bool_decide (mm_ID m = id) then with_blocks text data m else m) rows.

Definition recent_limit : nat := 20.

Definition db_ReplaceToolResult (convID : uuid) (toolUseID newContent : string) (isError : bool) : VM (option error) :=
  err ← vd_do w_db;
  match err with
  | Some e => mret (Some (Wrap "loading messages for tool_result replacement" e))
  | None =>
      rows ← st_get (fun d => of_conv convID (vd_msgs d));
      match first_replaced toolUseID newContent isError
              (take recent_limit (newest_first (List.filter has_blocks rows))) with
      | None => mret (Some (Errorf "tool_result not found"))
      | Some (m, blocks) =>
          match blocks_Marshal blocks with
          | Err e => mret (Some (Wrap "marshaling updated content_blocks" e))
          | Ok data =>
              err ← vd_do w_db;
              match err with
              | Some e => mret (Some e)
              | None => _ ← st_modify (set_msgs (update_row (mm_ID m) newContent data)); mret None
              end
          end
      end
  end.

Definition db_DeleteConversation (convID : uuid) : VM (option error) :=
  err ← vd_do w_db;
  match err with
  | Some e => mret (Some (Wrap "deleting conversation messages" e))
  | None =>
      err ← vd_do w_db;
      match err with
      | Some e => mret (Some (Wrap "deleting conversation" e))
      | None =>
          _ ← st_modify (set_msgs (List.filter (fun m => negb (bool_decide (mm_ConversationID m = convID)))));
          _ ← st_modify (set_convs (delete convID));
          mret None
      end
  end.

#[export] Instance conversation_repository : ConversationStore ConvDB P := {
  cs_GetOrCreateConversation d orgID userID convID := db_GetOrCreateConversation orgID userID convID d;
  cs_AppendMessages d convID orgID msgs := db_AppendMessages convID orgID msgs d;
  cs_LoadHistory d convID maxMessages := db_LoadHistory convID maxMessages d;
  cs_ReplaceToolResult d convID toolUseID newContent isError := db_ReplaceToolResult convID toolUseID newContent isError d;
  cs_DeleteConversation d convID := db_DeleteConversation convID d;
}.
End conversations.

(** ** The two stores *)

Section refinement.
Context {P W : Type} `{!GoMap P} `{!World W} `{!FreshWorld W} `{!BlocksJson (P := P)} `{!GoSort ConversationMessageModel}.
Implicit Types (d : ConvDB (W := W)) (s : InMemoryConversationStore P) (m : ConversationMessageModel)
  (rows : list ConversationMessageModel) (msg : Message P) (bs : list (ContentBlock P)).

(** Blocks the column gives back (no integers beyond 2^53, no invalid UTF-8), and the
    messages a conversation loop stores: a text, or blocks without a text. *)
Definition blocks_safe bs : Prop :=
  exists text, blocks_Marshal bs = Ok text /\ text <> "" /\ blocks_Unmarshal text = Ok bs.

Definition storable msg : Prop :=
  (msg_Role msg = RoleUser \/ msg_Role msg = RoleAssistant) /\
  (msg_ContentBlocks msg = [] \/ msg_Content msg = "" /\ blocks_safe (msg_ContentBlocks msg)).

Definition row_ok m : Prop :=
  match mm_ContentBlocks m with
  | None => True
  | Some text => text <> "" /\ exists b bs, blocks_Unmarshal text = Ok (b :: bs)
  end.

(** The tables hold the conversations of the memory. *)
Record represents (org : uuid) d s : Prop := {
  rp_owners : forall c, vm_UserID <$> (vd_convs d !! c) = ic_owners s !! c;
  rp_keys : forall c v, vd_convs d !! c = Some v -> vm_ID v = c /\ vm_OrgID v = org;
  rp_numbered : forall c, numbered mm_SeqNum (of_conv c (vd_msgs d));
  rp_history : forall c, map toMessage (of_conv c (vd_msgs d)) = hist_of s c;
  rp_orphans : forall c, ic_owners s !! c = None -> hist_of s c = [];
  rp_rows : Forall row_ok (vd_msgs d);
  rp_ids : NoDup (map mm_ID (vd_msgs d));
  rp_used : Forall (fun m => w_used (vd_world d) (mm_ID m)) (vd_msgs d);
}.

Inductive conv_call :=
  | AskConversation (userID : string) (convID : uuid)
  | AskAppend (convID : uuid) (msgs : list (Message P))
  | AskHistory (convID : uuid) (maxMessages : Z)
  | AskReplace (convID : uuid) (toolUseID content : string) (isError : bool)
  | AskDelete (convID : uuid).

Inductive conv_answer :=
  | AnsweredID (r : result error uuid)
  | AnsweredError (e : option error)
  | AnsweredHistory (r : result error (list (Message P))).

(** A call of the interface, for any store. *)
Definition call_on {C} `{!ConversationStore C P} (org : uuid) (call : conv_call) (x : C) : conv_answer * C :=
  match call with
  | AskConversation u c => let r := cs_GetOrCreateConversation x org u c in (AnsweredID r.1, r.2)
  | AskAppend c ms => let r := cs_AppendMessages x c org ms in (AnsweredError r.1, r.2)
  | AskHistory c n => let r := cs_LoadHistory x c n in (AnsweredHistory r.1, r.2)
  | AskReplace c t text e => let r := cs_ReplaceToolResult x c t text e in (AnsweredError r.1, r.2)
  | AskDelete c => let r := cs_DeleteConversation x c in (AnsweredError r.1, r.2)
  end.

Definition failed (a : conv_answer) : bool :=
  match a with
  | AnsweredID (Err _) | AnsweredError (Some _) | AnsweredHistory (Err _) => true
  | _ => false
  end.

(** The last messages with blocks, the ones the database looks at. *)
Definition recent_with_blocks (msgs : list (Message P)) : list (Message P) :=
  let l := List.filter (fun msg => match msg_ContentBlocks msg with [] => false | _ => true end) msgs in
  drop (length l - recent_limit) l.

(** What a client does: messages go to a conversation it asked for, a history has a
    limit, and the result to replace is recent, or absent. *)
Definition call_ok s (call : conv_call) : Prop :=
  match call with
  | AskAppend c ms => is_Some (ic_owners s !! c) /\ Forall storable ms
  | AskHistory c n => (0 < n)%Z
  | AskReplace c t text e =>
      existsb (has_result t) (recent_with_blocks (hist_of s c)) = existsb (has_result t) (hist_of s c) /\
      forall msgs, replace_newest t text e (hist_of s c) = Some msgs -> Forall storable msgs
  | AskConversation _ _ | AskDelete _ => True
  end.

(** A call that fails leaves what was there; the others answer as the memory does; and
    without failures of the database exactly the calls the memory refuses fail. *)
Definition simulates org d s (call : conv_call) : Prop :=
  let r := call_on org call d in
  let r' := call_on org call s in
  (if failed r.1 then represents org r.2 s else r.1 = r'.1 /\ represents org r.2 r'.2) /\
  ((forall w, (w_db w).1 = None) -> failed r.1 = failed r'.1).

(** *** Rows and messages *)

Lemma row_roundtrip convID orgID seq msg id now : storable msg ->
  let m := toConversationMessageModel convID orgID seq msg id now in
  toMessage m = msg /\ row_ok m.
Proof.
  intros [Hr Hb]. cbv zeta. assert (sanitizeRole (msg_Role msg) = msg_Role msg) as Hrole.
  { unfold sanitizeRole. destruct Hr as [->| ->]; done. }
  unfold toConversationMessageModel, toMessage, row_ok. simpl. rewrite Hrole. destruct msg as [r content blocks]. simpl in *.
  destruct Hb as [->|[-> (text & Hm & Hne & Hu)]]; [done|]. destruct blocks as [|b blocks]; [done|].
  unfold blocks_column. rewrite Hm. destruct (String.eqb_spec text ""); [done|]. rewrite Hu. split; [done|]. eauto.
Qed.

Lemma of_conv_app c rows rows' : of_conv c (rows ++ rows') = of_conv c rows ++ of_conv c rows'.
Proof. apply List.filter_app. Qed.

Lemma of_conv_all c rows : Forall (fun m => mm_ConversationID m = c) rows -> of_conv c rows = rows.
Proof. induction 1 as [|m rows Hm _ IH]; simpl; [done|]. by rewrite bool_decide_true, IH. Qed.

Lemma of_conv_none c rows : Forall (fun m => mm_ConversationID m <> c) rows -> of_conv c rows = [].
Proof. induction 1 as [|m rows Hm _ IH]; simpl; [done|]. by rewrite bool_decide_false, IH. Qed.

Lemma of_conv_other c c' rows : c <> c' -> Forall (fun m => mm_ConversationID m = c) rows -> of_conv c' rows = [].
Proof. intros Hne Hall. apply of_conv_none. eapply Forall_impl; [exact Hall|]. by intros m ->. Qed.

Lemma vd_do_run {A} (f : W -> A * W) d :
  vd_do f d = ((f (vd_world d)).1, mkConvDB (f (vd_world d)).2 (vd_convs d) (vd_msgs d)).
Proof. unfold vd_do. by destruct (f (vd_world d)). Qed.

(** The rows of a list of messages. *)
Lemma message_rows_spec c org seq msgs d :
  Forall storable msgs -> exists w rows,
  message_rows c org seq msgs d = (rows, mkConvDB w (vd_convs d) (vd_msgs d)) /\
  (forall u, w_used (vd_world d) u -> w_used w u) /\
  map toMessage rows = msgs /\ map mm_SeqNum rows = seqZ seq (Z.of_nat (length rows)) /\
  Forall (fun m => mm_ConversationID m = c) rows /\ Forall row_ok rows /\
  NoDup (map mm_ID rows) /\ Forall (fun m => ~ w_used (vd_world d) (mm_ID m) /\ w_used w (mm_ID m)) rows.
Proof.
  intros Hms. revert seq d. induction Hms as [|msg msgs Hm _ IH]; intros seq d; cbn [message_rows].
  { exists (vd_world d), []. destruct d. split_and!; try done; constructor. }
  rewrite !st_bind_run, !vd_do_run. cbn [fst snd vd_world vd_convs vd_msgs].
  set (id := (w_uuid (vd_world d)).1). set (w1 := (w_uuid (vd_world d)).2).
  set (now := (w_now w1).1). set (w2 := (w_now w1).2).
  pose proof (uuid_new (vd_world d) : ~ w_used (vd_world d) id) as Hnew.
  assert (forall u, w_used (vd_world d) u -> w_used w2 u) as Hkeep by (intros u Hu; by apply used_now, used_uuid).
  assert (w_used w2 id) as Hused by (apply used_now, uuid_used).
  destruct (IH (seq + 1)%Z (mkConvDB w2 (vd_convs d) (vd_msgs d))) as (w & rows & -> & Hk & Hmap & Hseq & Hc & Hok & Hnd & Hu).
  cbn [fst snd vd_convs vd_msgs vd_world] in *. destruct (row_roundtrip c org seq msg id now Hm) as [Hto Hrow].
  exists w, (toConversationMessageModel c org seq msg id now :: rows). split_and!.
  - done.
  - auto.
  - simpl. by rewrite Hto, Hmap.
  - cbn [map length]. rewrite seqZ_cons, Hseq by lia. cbn [mm_SeqNum toConversationMessageModel].
    rewrite <-Z.add_1_r. do 2 f_equal. lia.
  - by constructor.
  - by constructor.
  - cbn [map]. constructor; [|done]. intros (m & Heq & Hin)%list_elem_of_fmap. rewrite Forall_forall in Hu.
    destruct (Hu m Hin) as [Hno _]. apply Hno. rewrite <-Heq. cbn [mm_ID toConversationMessageModel]. done.
  - constructor; [cbn [mm_ID toConversationMessageModel]; auto|]. eapply Forall_impl; [exact Hu|]. intros m [Hno Hyes].
    split; [|done]. intros H. apply Hno. by apply Hkeep.
Qed.

(** *** The operations *)

(** Time passes, statements are sent: what is represented stays. *)
Lemma represents_later org d s w :
  represents org d s -> (forall u, w_used (vd_world d) u -> w_used w u) ->
  represents org (mkConvDB w (vd_convs d) (vd_msgs d)) s.
Proof.
  intros [] Hw. constructor; try done. eapply Forall_impl; [eassumption|]. intros m. apply Hw.
Qed.

Lemma stmt_used w u : w_used w u -> w_used (w_db w).2 u.
Proof. apply used_db. Qed.

Lemma find_represented org d s c : represents org d s ->
  find_conversation org c d = vd_convs d !! c.
Proof.
  intros Hr. unfold find_conversation. destruct (vd_convs d !! c) as [v|] eqn:Ev; [|done].
  by rewrite bool_decide_true by by apply (rp_keys _ _ _ Hr c v).
Qed.

Lemma simulates_ask org d s u c : represents org d s -> simulates org d s (AskConversation u c).
Proof.
  intros Hr. unfold simulates, call_on. cbn [cs_GetOrCreateConversation conversation_repository memory_store].
  unfold db_GetOrCreateConversation, GetOrCreateConversation. rewrite st_bind_run, vd_do_run. cbn [fst snd].
  set (w1 := (w_db (vd_world d)).2). pose proof (represents_later org d s w1 Hr (stmt_used _)) as Hr1.
  pose proof (rp_owners _ _ _ Hr c) as Ho. destruct (w_db (vd_world d)).1 as [e|] eqn:Ed.
  { split; [exact Hr1|]. intros Hcalm. by rewrite Hcalm in Ed. }
  rewrite st_bind_run. cbn [st_get fst snd]. rewrite (find_represented org _ s c Hr1). cbn [vd_convs] in *.
  destruct (vd_convs d !! c) as [v|] eqn:Ev; rewrite <-Ho; simpl fmap; cbv iota beta.
  - destruct (String.eqb (vm_UserID v) u); cbn [negb]; [|by split].
    rewrite !st_bind_run, !vd_do_run. cbn [fst snd vd_world vd_convs vd_msgs].
    rewrite (proj1 (rp_keys _ _ _ Hr c v Ev)). split; [|by intros _; destruct (w_db _).1].
    cbn [failed]. split; [done|].
    assert (represents org (mkConvDB (w_db (w_now w1).2).2 (vd_convs d) (vd_msgs d)) s) as Hr2.
    { apply (represents_later org _ s _ Hr1). intros x Hx. by apply used_db, used_now. }
    destruct (w_db (w_now w1).2).1; [exact Hr2|]. simpl. destruct Hr2. constructor; try done; simpl in *.
    + intros c'. destruct (decide (c' = c)) as [->|Hne]; [rewrite lookup_alter_eq, <-rp_owners0, Ev; done|].
      by rewrite lookup_alter_ne, <-rp_owners0.
    + intros c' v'. destruct (decide (c' = c)) as [->|Hne]; [|rewrite lookup_alter_ne by done; apply rp_keys0].
      rewrite lookup_alter_eq, Ev. intros [= <-]. exact (rp_keys0 c v Ev).
  - rewrite !st_bind_run, !vd_do_run. cbn [fst snd vd_world vd_convs vd_msgs].
    assert (represents org (mkConvDB (w_db (w_now w1).2).2 (vd_convs d) (vd_msgs d)) s) as Hr2.
    { apply (represents_later org _ s _ Hr1). intros x Hx. by apply used_db, used_now. }
    destruct (w_db (w_now w1).2).1 as [e|] eqn:Ed2; [split; [done|intros Hcalm; by rewrite Hcalm in Ed2]|].
    rewrite !st_bind_run. cbv [st_get st_modify]. cbn [fst snd vd_convs]. rewrite Ev. split; [|done].
    cbn [failed]. split; [done|]. destruct Hr2. constructor; try done; simpl in *.
    + intros c'. destruct (decide (c' = c)) as [->|Hne]; [by rewrite !lookup_insert_eq|].
      rewrite !lookup_insert_ne by done. apply rp_owners0.
    + intros c' v'. destruct (decide (c' = c)) as [->|Hne]; [rewrite lookup_insert_eq; by intros [= <-]|].
      rewrite lookup_insert_ne by done. apply rp_keys0.
    + intros c'. rewrite rp_history0. unfold hist_of. simpl. destruct (decide (c' = c)) as [->|Hne].
      * rewrite lookup_insert_eq. apply (rp_orphans0 c). by rewrite <-Ho.
      * by rewrite lookup_insert_ne.
    + intros c'. unfold hist_of. simpl. destruct (decide (c' = c)) as [->|Hne]; [by rewrite !lookup_insert_eq|].
      rewrite !lookup_insert_ne by done. apply rp_orphans0.
Qed.

Lemma fresh_ids_true rows used :
  NoDup (map mm_ID rows) -> Forall (fun m => mm_ID m ∉ used) rows -> fresh_ids rows used = true.
Proof.
  revert used. induction rows as [|m rows IH]; intros used Hnd Hf; [done|]. cbn [map fresh_ids] in *.
  apply NoDup_cons in Hnd as [Hm Hnd]. apply Forall_cons in Hf as [Hu Hf]. rewrite bool_decide_true by done. simpl.
  apply IH; [done|]. apply Forall_forall. intros x Hx. rewrite Forall_forall in Hf. apply not_elem_of_cons. split; [|by apply Hf].
  intros E. apply Hm. rewrite <-E. by apply list_elem_of_fmap_2.
Qed.

(** New rows at the end of a conversation. *)
Lemma represents_append org d s c w rows :
  represents org d s -> is_Some (ic_owners s !! c) ->
  (forall u, w_used (vd_world d) u -> w_used w u) ->
  map mm_SeqNum rows = seqZ (Z.of_nat (length (of_conv c (vd_msgs d))) + 1) (Z.of_nat (length rows)) ->
  Forall (fun m => mm_ConversationID m = c) rows -> Forall row_ok rows -> NoDup (map mm_ID rows) ->
  Forall (fun m => ~ w_used (vd_world d) (mm_ID m) /\ w_used w (mm_ID m)) rows ->
  represents org (mkConvDB w (vd_convs d) (vd_msgs d ++ rows)) (AppendMessages s c org (map toMessage rows)).2.
Proof.
  intros [] Hc Hw Hseq Hconv Hok Hnd Hu. constructor; cbn [vd_convs vd_msgs vd_world]; try done.
  - intros c'. rewrite of_conv_app. destruct (decide (c' = c)) as [->|Hne].
    + apply numbered_app; [done|]. by rewrite of_conv_all.
    + by rewrite (of_conv_other c c' rows), app_nil_r.
  - intros c'. rewrite of_conv_app, map_app, rp_history0. cbn [AppendMessages snd]. rewrite hist_of_set.
    destruct (decide (c = c')) as [->|Hne]; [by rewrite of_conv_all|].
    by rewrite (of_conv_other c c' rows), app_nil_r.
  - intros c' Hno. cbn [AppendMessages snd] in *. rewrite hist_of_set. destruct (decide (c = c')) as [->|Hne]; [|by apply rp_orphans0].
    simpl in Hno. rewrite Hno in Hc. by destruct Hc.
  - by apply Forall_app.
  - rewrite map_app. apply NoDup_app. split; [done|]. split; [|done]. intros x (m & -> & Hm)%list_elem_of_fmap (m' & E & Hm')%list_elem_of_fmap.
    rewrite Forall_forall in Hu. destruct (Hu m' Hm') as [Hno _]. apply Hno. rewrite <-E. rewrite Forall_forall in rp_used0. by apply rp_used0.
  - apply Forall_app. split; [eapply Forall_impl; [exact rp_used0|]; intros m; apply Hw|].
    eapply Forall_impl; [exact Hu|]. by intros m [].
Qed.

Lemma simulates_append org d s c ms :
  represents org d s -> call_ok s (AskAppend c ms) -> simulates org d s (AskAppend c ms).
Proof.
  intros Hr [Hc Hms]. unfold simulates, call_on. cbn [cs_AppendMessages conversation_repository memory_store].
  unfold db_AppendMessages. destruct ms as [|msg ms].
  { cbn. split; [|done]. split; [done|]. destruct Hr. constructor; try done; intros c'; rewrite hist_of_set.
    - rewrite rp_history0. destruct (decide (c = c')) as [->|]; [by rewrite app_nil_r|done].
    - destruct (decide (c = c')) as [->|]; [rewrite app_nil_r|]; apply rp_orphans0. }
  revert Hms. generalize (msg :: ms). clear msg ms. intros ms Hms.
  rewrite st_bind_run, vd_do_run. cbn [fst snd]. set (w1 := (w_db (vd_world d)).2).
  pose proof (represents_later org d s w1 Hr (stmt_used _)) as Hr1. set (d1 := mkConvDB w1 (vd_convs d) (vd_msgs d)) in *.
  destruct (w_db (vd_world d)).1 as [e|] eqn:Ed; [split; [exact Hr1|intros Hcalm; by rewrite Hcalm in Ed]|].
  rewrite st_bind_run. cbn [st_get fst snd]. rewrite max_numbered by apply (rp_numbered _ _ _ Hr1). rewrite st_bind_run.
  destruct (message_rows_spec c org (Z.of_nat (length (of_conv c (vd_msgs d1))) + 1) ms d1 Hms)
    as (w & rows & -> & Hw & Hmap & Hseq & Hconv & Hok & Hnd & Hu). cbn [fst snd].
  rewrite st_bind_run, vd_do_run. cbn [fst snd vd_world vd_convs vd_msgs].
  assert (represents org (mkConvDB (w_db w).2 (vd_convs d1) (vd_msgs d1)) s) as Hr2.
  { apply (represents_later org d1 s _ Hr1). intros u Hx. by apply used_db, Hw. }
  destruct (w_db w).1 as [e|] eqn:Ed2; [split; [exact Hr2|intros Hcalm; by rewrite Hcalm in Ed2]|].
  rewrite st_bind_run. cbn [st_get fst snd vd_msgs]. rewrite fresh_ids_true; [|done|].
  2:{ apply Forall_forall. intros m Hm (m' & E & Hm')%list_elem_of_fmap. rewrite Forall_forall in Hu. apply (Hu m Hm).
      rewrite E. pose proof (rp_used _ _ _ Hr1) as Hused. rewrite Forall_forall in Hused. by apply Hused. }
  rewrite st_bind_run. cbv [st_modify]. cbn [fst snd]. split; [|done]. split; [done|]. rewrite <-Hmap.
  refine (represents_append org d1 s c (w_db w).2 rows Hr1 Hc _ Hseq Hconv Hok Hnd _).
  - intros u Hx. by apply used_db, Hw.
  - eapply Forall_impl; [exact Hu|]. intros m [? ?]. split; [done|by apply used_db].
Qed.


Lemma simulates_history org d s c n :
  represents org d s -> call_ok s (AskHistory c n) -> simulates org d s (AskHistory c n).
Proof.
  intros Hr Hn. unfold simulates, call_on. cbn [cs_LoadHistory conversation_repository memory_store call_ok] in *.
  unfold db_LoadHistory, LoadHistory. destruct (Z.leb_spec n 0) as [|_]; [lia|].
  rewrite st_bind_run, vd_do_run. cbn [fst snd]. set (w1 := (w_db (vd_world d)).2).
  pose proof (represents_later org d s w1 Hr (stmt_used _)) as Hr1.
  destruct (w_db (vd_world d)).1 as [e|] eqn:Ed; [split; [exact Hr1|intros Hcalm; by rewrite Hcalm in Ed]|].
  rewrite st_bind_run. cbn [st_get fst snd vd_msgs failed mret]. split; [|done]. split; [|exact Hr1].
  unfold newest_first. rewrite (sort_numbered_desc mm_SeqNum) by apply (rp_numbered _ _ _ Hr).
  rewrite take_reverse, reverse_involutive, <-skipn_map, (rp_history _ _ _ Hr c). unfold mret, st_ret. cbn [fst].
  do 2 f_equal. rewrite <-(rp_history _ _ _ Hr c), length_map. destruct (Z.ltb_spec 0 n); [|lia]. cbn [andb].
  destruct (Z.ltb_spec n (Z.of_nat (length (of_conv c (vd_msgs d))))); [f_equal; lia|].
  replace (length (of_conv c (vd_msgs d)) - Z.to_nat n) with 0 by lia. done.
Qed.

(** *** Replacing a tool result *)

Lemma row_replaced_has t text e m : row_ok m ->
  match row_replaced t text e m with
  | Some bs => replace_block t text e (msg_ContentBlocks (toMessage m)) = Some bs /\ msg_Content (toMessage m) = "" /\ has_blocks m = true
  | None => replace_block t text e (msg_ContentBlocks (toMessage m)) = None
  end.
Proof.
  unfold row_ok, row_replaced, toMessage, has_blocks. destruct (mm_ContentBlocks m) as [data|]; [|done].
  intros (Hne & b & bs & Hu). rewrite Hu. destruct (String.eqb_spec data ""); [done|]. cbn [msg_ContentBlocks msg_Content].
  destruct (replace_block t text e (b :: bs)); [|done]. split; [done|]. split; [done|]. by rewrite bool_decide_true by eauto.
Qed.

Lemma first_replaced_spec t text e rows :
  match first_replaced t text e rows with
  | Some (m, bs) => exists l1 l2, rows = l1 ++ m :: l2 /\ row_replaced t text e m = Some bs /\
                      Forall (fun m => row_replaced t text e m = None) l1
  | None => Forall (fun m => row_replaced t text e m = None) rows
  end.
Proof.
  induction rows as [|m rows IH]; simpl; [constructor|]. destruct (row_replaced t text e m) as [bs|] eqn:Em.
  - exists [], rows. split; [done|]. split; [done|constructor].
  - destruct (first_replaced t text e rows) as [[m' bs]|]; [|by constructor].
    destruct IH as (l1 & l2 & -> & ? & ?). exists (m :: l1), l2. split; [done|]. split; [done|by constructor].
Qed.

(** The newest message whose block is replaced. *)
Lemma replace_newest_at t text e (l1 l2 : list (Message P)) msg bs :
  replace_block t text e (msg_ContentBlocks msg) = Some bs ->
  Forall (fun msg => replace_block t text e (msg_ContentBlocks msg) = None) l2 ->
  replace_newest t text e (l1 ++ msg :: l2) = Some (l1 ++ mkMessage (msg_Role msg) (msg_Content msg) bs :: l2).
Proof.
  intros Hm Hl2. assert (replace_newest t text e l2 = None) as Hnone.
  { induction Hl2 as [|x l Hx _ IH]; [done|]. simpl. by rewrite IH, Hx. }
  induction l1 as [|x l1 IH]; simpl; [by rewrite Hnone, Hm|by rewrite IH].
Qed.

Lemma has_result_replaced t text e msg :
  has_result t msg = false <-> replace_block t text e (msg_ContentBlocks msg) = None.
Proof.
  pose proof (replace_block_spec t text e (msg_ContentBlocks msg)) as Hs. unfold has_result.
  destruct (replace_block t text e _) as [bs|]; [|by rewrite Hs].
  destruct Hs as (l & b & r & -> & Hb & _). split; [|done]. rewrite existsb_app. simpl. by rewrite Hb, orb_true_r.
Qed.

(** The rows with blocks are the messages with blocks. *)
Lemma rows_with_blocks rows : Forall row_ok rows ->
  map toMessage (List.filter has_blocks rows) =
  List.filter (fun msg => match msg_ContentBlocks msg with [] => false | _ => true end) (map toMessage rows).
Proof.
  induction 1 as [|m rows Hm _ IH]; [done|]. cbn [List.filter map]. unfold has_blocks at 1, toMessage at 2. unfold row_ok in Hm.
  destruct (mm_ContentBlocks m) as [data|] eqn:Ed; [|by rewrite bool_decide_false by (by intros [? ?])].
  destruct Hm as (Hne & b & bs & Hu). rewrite Hu, bool_decide_true by eauto.
  destruct (String.eqb_spec data ""); [done|]. cbn [msg_ContentBlocks map]. by rewrite IH.
Qed.

Lemma replace_newest_none t text e (msgs : list (Message P)) :
  existsb (has_result t) msgs = false -> replace_newest t text e msgs = None.
Proof.
  induction msgs as [|msg msgs IH]; [done|]. cbn [existsb]. intros [Hm Hms]%orb_false_iff. simpl.
  rewrite IH by done. by apply (has_result_replaced t text e) in Hm as ->.
Qed.

Lemma filter_middle {A} (p : A -> bool) (l l1 l2 : list A) x :
  List.filter p l = l1 ++ x :: l2 -> exists pre post, l = pre ++ x :: post /\ List.filter p post = l2.
Proof.
  revert l1. induction l as [|y l IH]; intros l1 E; [by destruct l1|]. simpl in E. destruct (p y) eqn:Ep.
  - destruct l1 as [|z l1]; injection E as -> E; [by exists [], l|].
    destruct (IH l1 E) as (pre & post & -> & Hp). by exists (z :: pre), post.
  - destruct (IH l1 E) as (pre & post & -> & Hp). by exists (y :: pre), post.
Qed.

Lemma filter_sorted {A} (R : A -> A -> Prop) (p : A -> bool) (l : list A) :
  StronglySorted R l -> StronglySorted R (List.filter p l).
Proof.
  induction 1 as [|x l _ IH Hx]; simpl; [constructor|]. destruct (p x); [|done]. constructor; [done|].
  apply Forall_forall. intros y [Hy _]%list_elem_of_In%filter_In. rewrite Forall_forall in Hx. apply Hx. by apply list_elem_of_In.
Qed.

Lemma of_conv_update c id text data rows :
  of_conv c (update_row id text data rows) = update_row id text data (of_conv c rows).
Proof.
  induction rows as [|m rows IH]; [done|]. cbn [update_row map of_conv List.filter].
  assert (mm_ConversationID (if bool_decide (mm_ID m = id) then with_blocks text data m else m) = mm_ConversationID m) as -> by by case_bool_decide.
  case_bool_decide; cbn [map]; [by f_equal|done].
Qed.

Lemma update_absent id text data rows : id ∉ map mm_ID rows -> update_row id text data rows = rows.
Proof.
  induction rows as [|m rows IH]; [done|]. cbn [map]. intros [Hm Hr]%not_elem_of_cons. cbn [update_row map].
  rewrite bool_decide_false by done. f_equal. by apply IH.
Qed.

Lemma update_at text data pre m post : NoDup (map mm_ID (pre ++ m :: post)) ->
  update_row (mm_ID m) text data (pre ++ m :: post) = pre ++ with_blocks text data m :: post.
Proof.
  rewrite map_app. intros (_ & Hd & [Hm _]%NoDup_cons)%NoDup_app. unfold update_row. rewrite map_app. cbn [map].
  rewrite bool_decide_true by done. f_equal; [apply update_absent|f_equal; by apply update_absent].
  intros Hin. apply (Hd _ Hin). by left.
Qed.

Lemma of_conv_ids c rows x : x ∈ map mm_ID (of_conv c rows) -> x ∈ map mm_ID rows.
Proof.
  intros (m & -> & [Hm _]%list_elem_of_In%filter_In)%list_elem_of_fmap. apply list_elem_of_fmap_2. by apply list_elem_of_In.
Qed.

Lemma NoDup_of_conv c rows : NoDup (map mm_ID rows) -> NoDup (map mm_ID (of_conv c rows)).
Proof.
  induction rows as [|m rows IH]; [done|]. cbn [map of_conv List.filter]. intros [Hm Hnd]%NoDup_cons.
  case_bool_decide; [|by apply IH]. cbn [map]. constructor; [|by apply IH]. intros Hin. by apply Hm, (of_conv_ids c).
Qed.

(** A row found in one conversation is in no other. *)
Lemma id_elsewhere c c' m rows : c <> c' -> m ∈ of_conv c rows -> NoDup (map mm_ID rows) ->
  mm_ID m ∉ map mm_ID (of_conv c' rows).
Proof.
  intros Hne [Hin Hc]%list_elem_of_In%filter_In Hnd (m' & E & [Hin' Hc']%list_elem_of_In%filter_In)%list_elem_of_fmap.
  apply bool_decide_eq_true in Hc, Hc'. apply Hne. rewrite <-Hc, <-Hc'. f_equal.
  apply list_elem_of_In, list_elem_of_lookup in Hin as [i Hi]. apply list_elem_of_In, list_elem_of_lookup in Hin' as [j Hj].
  assert (i = j) as ->; [|congruence]. apply (NoDup_lookup _ i j (mm_ID m) Hnd); rewrite list_lookup_fmap; [by rewrite Hi|by rewrite Hj, E].
Qed.

(** The rows of a conversation are as they were stored. *)
Lemma conv_rows_ok org d s c m : represents org d s -> m ∈ of_conv c (vd_msgs d) -> row_ok m.
Proof.
  intros Hr [Hm _]%list_elem_of_In%filter_In. pose proof (rp_rows _ _ _ Hr) as Hok. rewrite Forall_forall in Hok.
  by apply Hok, list_elem_of_In.
Qed.

Lemma replace_block_nonempty t text e bs bs' : replace_block t text e bs = Some bs' -> bs' <> [].
Proof.
  intros E ->. pose proof (replace_block_spec t text e bs) as Hs. rewrite E in Hs.
  destruct Hs as (l & b & r & _ & _ & _ & E'). by destruct l.
Qed.

(** The memory replaces the same block as the row that was found. *)
Lemma replaced_memory org d s c t text e m bs pre post :
  represents org d s -> of_conv c (vd_msgs d) = pre ++ m :: post ->
  row_replaced t text e m = Some bs -> Forall (fun m => row_replaced t text e m = None) post ->
  replace_newest t text e (hist_of s c) =
    Some (map toMessage pre ++ mkMessage (mm_Role m) "" bs :: map toMessage post) /\ bs <> [].
Proof.
  intros Hr Hrows Hm Hpost. assert (forall x, x ∈ pre ++ m :: post -> row_ok x) as Hok.
  { intros x. rewrite <-Hrows. by apply (conv_rows_ok org d s). }
  pose proof (row_replaced_has t text e m) as Hhas. rewrite Hm in Hhas.
  destruct Hhas as (Hb & Hcont & _); [apply Hok; set_solver|]. split; [|by eapply replace_block_nonempty].
  assert (msg_Role (toMessage m) = mm_Role m) as <- by (unfold toMessage; by repeat case_match).
  rewrite <-(rp_history _ _ _ Hr c), Hrows, map_app, <-Hcont. cbn [map]. apply replace_newest_at; [done|].
  apply Forall_map, Forall_forall. intros x Hx. pose proof (row_replaced_has t text e x) as Hx'.
  rewrite Forall_forall in Hpost. rewrite (Hpost x Hx) in Hx'. apply Hx', Hok. set_solver.
Qed.

(** The row gets the new blocks: the tables hold the new memory. *)
Lemma represents_replace org d s c text m bs data pre post :
  represents org d s -> of_conv c (vd_msgs d) = pre ++ m :: post ->
  bs <> [] -> data <> "" -> blocks_Unmarshal data = Ok bs ->
  represents org (mkConvDB (vd_world d) (vd_convs d) (update_row (mm_ID m) text data (vd_msgs d)))
    (set_hist s c (map toMessage pre ++ mkMessage (mm_Role m) "" bs :: map toMessage post)).
Proof.
  intros Hr Hrows Hbs Hne Hun.
  assert (toMessage (with_blocks text data m) = mkMessage (mm_Role m) "" bs) as Hto.
  { unfold toMessage. simpl. destruct (String.eqb_spec data ""); [done|]. rewrite Hun. by destruct bs. }
  assert (forall c', of_conv c' (update_row (mm_ID m) text data (vd_msgs d)) =
            if decide (c = c') then pre ++ with_blocks text data m :: post else of_conv c' (vd_msgs d)) as Hupd.
  { intros c'. rewrite of_conv_update. destruct (decide (c = c')) as [<-|Hc].
    - rewrite Hrows. apply update_at. rewrite <-Hrows. apply NoDup_of_conv, Hr.
    - apply update_absent. apply (id_elsewhere c); [done| |apply Hr]. rewrite Hrows. set_solver. }
  destruct Hr. constructor; cbn [vd_convs vd_msgs vd_world]; try done.
  - intros c'. rewrite Hupd. destruct (decide (c = c')) as [<-|]; [|done]. specialize (rp_numbered0 c). rewrite Hrows in rp_numbered0.
    unfold numbered in *. rewrite map_app, length_app in *. exact rp_numbered0.
  - intros c'. rewrite Hupd, hist_of_set. destruct (decide (c = c')) as [<-|]; [|done]. rewrite map_app. cbn [map]. by rewrite Hto.
  - intros c' Hno. rewrite hist_of_set. destruct (decide (c = c')) as [<-|]; [|by apply rp_orphans0].
    specialize (rp_orphans0 c Hno). rewrite <-rp_history0, Hrows in rp_orphans0. by destruct pre.
  - rewrite Forall_forall in rp_rows0. unfold update_row. apply Forall_map, Forall_forall. intros x Hx. simpl. case_bool_decide; [|by apply rp_rows0].
    unfold row_ok. simpl. split; [done|]. rewrite Hun. destruct bs; [done|eauto].
  - replace (map mm_ID (update_row (mm_ID m) text data (vd_msgs d))) with (map mm_ID (vd_msgs d)); [done|].
    unfold update_row. rewrite map_map. apply map_ext. intros x. by case_bool_decide.
  - unfold update_row. apply Forall_map. eapply Forall_impl; [exact rp_used0|]. intros x Hx. simpl. by case_bool_decide.
Qed.

(** What the scan of the recent rows finds. *)
Lemma recent_scan org d s c t text e :
  represents org d s ->
  existsb (has_result t) (recent_with_blocks (hist_of s c)) = existsb (has_result t) (hist_of s c) ->
  match first_replaced t text e (take recent_limit (newest_first (List.filter has_blocks (of_conv c (vd_msgs d))))) with
  | Some (m, bs) => exists pre post, of_conv c (vd_msgs d) = pre ++ m :: post /\
      row_replaced t text e m = Some bs /\ Forall (fun m => row_replaced t text e m = None) post
  | None => replace_newest t text e (hist_of s c) = None
  end.
Proof.
  intros Hr Hrecent. set (rows := of_conv c (vd_msgs d)) in *.
  assert (Forall row_ok rows) as Hok by by apply Forall_forall; intros x; apply (conv_rows_ok org d s).
  unfold newest_first. rewrite (go_sort_unique _ _ (reverse (List.filter has_blocks rows))).
  2:{ unfold weak_order. split; intros *; rewrite ?Z.ltb_lt, ?Z.ltb_ge; lia. }
  2:{ eapply StronglySorted_weaken; [|by apply (sorted_reverse mm_SeqNum), filter_sorted, numbered_sorted, (rp_numbered _ _ _ Hr c)].
      intros x y. by rewrite Z.ltb_lt. }
  2:{ by rewrite reverse_Permutation. }
  rewrite take_reverse. set (n := length _ - _). pose proof (first_replaced_spec t text e (reverse (drop n (List.filter has_blocks rows)))) as Hs.
  destruct (first_replaced _ _ _ _) as [[m bs]|].
  - destruct Hs as (l1 & l2 & Hl & Hm & Hl1). apply (f_equal reverse) in Hl.
    rewrite reverse_involutive, reverse_app, reverse_cons, <-app_assoc in Hl. cbn [app] in Hl.
    pose proof (take_drop n (List.filter has_blocks rows)) as Htd. rewrite Hl, app_assoc in Htd. symmetry in Htd.
    apply filter_middle in Htd as (pre & post & Hrows & Hpost). exists pre, post. split; [done|]. split; [done|].
    apply Forall_forall. intros x Hx. destruct (has_blocks x) eqn:Eb.
    + rewrite Forall_forall in Hl1. apply Hl1. rewrite <-reverse_Permutation, <-Hpost. by apply list_elem_of_In, filter_In; split; [apply list_elem_of_In|].
    + unfold has_blocks in Eb. apply bool_decide_eq_false in Eb. unfold row_replaced. destruct (mm_ContentBlocks x); [|done]. by destruct Eb.
  - apply replace_newest_none. rewrite <-Hrecent. unfold recent_with_blocks.
    rewrite <-(rp_history _ _ _ Hr c), <-rows_with_blocks, length_map, skipn_map by done.
    apply not_true_iff_false. intros (msg & Hin & Hh)%existsb_exists. apply in_map_iff in Hin as (x & <- & Hx%list_elem_of_In).
    rewrite Forall_forall in Hs. specialize (Hs x). rewrite reverse_Permutation in Hs. specialize (Hs Hx).
    assert (x ∈ List.filter has_blocks rows) as [Hxr _]%list_elem_of_In%filter_In
      by (rewrite <-(take_drop n (List.filter has_blocks rows)); apply elem_of_app; by right).
    apply list_elem_of_In in Hxr. rewrite Forall_forall in Hok. pose proof (row_replaced_has t text e x (Hok x Hxr)) as Hx'. rewrite Hs in Hx'.
    apply has_result_replaced in Hx'. congruence.
Qed.

Lemma simulates_replace org d s c t text e :
  represents org d s -> call_ok s (AskReplace c t text e) -> simulates org d s (AskReplace c t text e).
Proof.
  intros Hr [Hrecent Hsafe]. unfold simulates, call_on. cbn [cs_ReplaceToolResult conversation_repository memory_store].
  unfold db_ReplaceToolResult, ReplaceToolResult. rewrite st_bind_run, vd_do_run. cbn [fst snd]. set (w1 := (w_db (vd_world d)).2).
  pose proof (represents_later org d s w1 Hr (stmt_used _)) as Hr1. set (d1 := mkConvDB w1 (vd_convs d) (vd_msgs d)) in *.
  destruct (w_db (vd_world d)).1 as [err|] eqn:Ed; [split; [exact Hr1|intros Hcalm; by rewrite Hcalm in Ed]|].
  rewrite st_bind_run. cbn [st_get fst snd]. pose proof (recent_scan org d1 s c t text e Hr1 Hrecent) as Hscan.
  destruct (first_replaced _ _ _ _) as [[m bs]|]; [|rewrite Hscan; by split].
  destruct Hscan as (pre & post & Hrows & Hm & Hpost).
  destruct (replaced_memory org d1 s c t text e m bs pre post Hr1 Hrows Hm Hpost) as [Hmem Hbs]. rewrite Hmem.
  assert (blocks_safe bs) as (data & Hmar & Hne & Hun).
  { specialize (Hsafe _ Hmem). apply Forall_app in Hsafe as [_ [[_ Hst] _]%Forall_cons]. by destruct Hst as [|[_ Hst]]. }
  rewrite Hmar, st_bind_run, vd_do_run. cbn [fst snd vd_world vd_convs vd_msgs].
  change (vd_world d1) with w1. assert (represents org (mkConvDB (w_db w1).2 (vd_convs d1) (vd_msgs d1)) s) as Hr2 by (apply (represents_later org d1 s _ Hr1), stmt_used).
  destruct (w_db w1).1 as [err|] eqn:Ed2; [split; [exact Hr2|intros Hcalm; by rewrite Hcalm in Ed2]|].
  rewrite st_bind_run. cbv [st_modify]. cbn [fst snd]. split; [|done]. split; [done|].
  exact (represents_replace org _ s c text m bs data pre post Hr2 Hrows Hbs Hne Hun).
Qed.

(** *** Deleting a conversation *)

Lemma of_conv_deleted c c' rows :
  of_conv c' (List.filter (fun m => negb (bool_decide (mm_ConversationID m = c))) rows) =
  if decide (c' = c) then [] else of_conv c' rows.
Proof.
  unfold of_conv. induction rows as [|m rows IH]; [by destruct (decide _)|]. cbn [List.filter].
  destruct (bool_decide_reflect (mm_ConversationID m = c)) as [<-|Hne]; cbn [negb List.filter]; rewrite IH.
  - destruct (decide (c' = mm_ConversationID m)) as [->|]; [done|]. by rewrite bool_decide_false.
  - destruct (decide (c' = c)) as [->|]; [by rewrite bool_decide_false|]. done.
Qed.

Lemma simulates_delete org d s c : represents org d s -> simulates org d s (AskDelete c).
Proof.
  intros Hr. unfold simulates, call_on. cbn [cs_DeleteConversation conversation_repository memory_store].
  unfold db_DeleteConversation, DeleteConversation. rewrite st_bind_run, vd_do_run. cbn [fst snd]. set (w1 := (w_db (vd_world d)).2).
  pose proof (represents_later org d s w1 Hr (stmt_used _)) as Hr1. set (d1 := mkConvDB w1 (vd_convs d) (vd_msgs d)) in *.
  destruct (w_db (vd_world d)).1 as [err|] eqn:Ed; [split; [exact Hr1|intros Hcalm; by rewrite Hcalm in Ed]|].
  rewrite st_bind_run, vd_do_run. cbn [fst snd vd_world vd_convs vd_msgs].
  change (vd_world d1) with w1. assert (represents org (mkConvDB (w_db w1).2 (vd_convs d1) (vd_msgs d1)) s) as Hr2 by (apply (represents_later org d1 s _ Hr1), stmt_used).
  destruct (w_db w1).1 as [err|] eqn:Ed2; [split; [exact Hr2|intros Hcalm; by rewrite Hcalm in Ed2]|].
  rewrite !st_bind_run. cbv [st_modify]. cbn [fst snd]. split; [|done]. split; [done|].
  destruct Hr2. constructor; cbn -[of_conv] in *; unfold hist_of in *; cbn -[of_conv] in *.
  - intros c'. destruct (decide (c' = c)) as [->|]; [by rewrite !lookup_delete_eq|by rewrite !lookup_delete_ne].
  - intros c' v. destruct (decide (c' = c)) as [->|]; [by rewrite lookup_delete_eq|rewrite lookup_delete_ne by done; apply rp_keys0].
  - intros c'. rewrite of_conv_deleted. by destruct (decide _).
  - intros c'. rewrite of_conv_deleted. destruct (decide (c' = c)) as [->|]; [by rewrite lookup_delete_eq|by rewrite lookup_delete_ne].
  - intros c'. destruct (decide (c' = c)) as [->|]; [by rewrite !lookup_delete_eq|rewrite !lookup_delete_ne by done; apply rp_orphans0].
  - rewrite Forall_forall in *. intros m [Hm _]%list_elem_of_In%filter_In. by apply rp_rows0, list_elem_of_In.
  - clear -rp_ids0. induction (vd_msgs d) as [|m rows IH]; [done|]. cbn [map List.filter] in *. apply NoDup_cons in rp_ids0 as [Hm Hnd].
    case_bool_decide; cbn [negb map]; [by apply IH|]. constructor; [|by apply IH].
    intros (x & E & [Hx _]%list_elem_of_In%filter_In)%list_elem_of_fmap. apply Hm. rewrite E. by apply list_elem_of_fmap_2, list_elem_of_In.
  - rewrite Forall_forall in *. intros m [Hm _]%list_elem_of_In%filter_In. by apply rp_used0, list_elem_of_In.
Qed.

(** C38: the database store implements the in-memory one.  From tables that hold a memory's
    conversations, every call of the interface that meets the conditions below either fails
    and leaves what they hold, or answers what the memory answers and again holds its
    conversations; without failures of the database it fails exactly when the memory does.
    The conditions ([call_ok]): a client appends to an existing conversation, and only messages
    of the user or the assistant that have a text or blocks but not both, whose blocks come
    back from their JSON ([storable]); it loads histories with a positive limit; and it
    replaces results among the last twenty messages with blocks, the new history being
    storable again.  Nothing is asked of creating or deleting a conversation. *)
Theorem conversation_store_refines org d s call :
  represents org d s -> call_ok s call -> simulates org d s call.
Proof.
  intros Hr Hok. destruct call; [by apply simulates_ask|by apply simulates_append|by apply simulates_history|
    by apply simulates_replace|by apply simulates_delete].
Qed.
End refinement.
