(* ===== verification/Models.v ===== *)
(** * Rows of the database

    [src/internal/storage/postgres/models.go] and [convert.go]: the rows the repositories
    store and the conversions from and to the entities.  A [JSONB] column is the text it
    holds.  The mark of a soft deletion is not a field: a deleted row is out of its table,
    because every query skips it.

    [Create] goes through gorm, which (as its documentation says) writes the [default] of
    a column's tag in place of a field that has Go's zero value; [X_defaults] is that for
    the model [X], with the defaults the tags of [models.go] give.  The time stamps gorm
    maintains are not modelled.  Postgres keeps an amount in a column [numeric(14,6)] and an
    instant in microseconds: [Columns] is what it keeps of them, and [approval_columns] the row
    of an approval as it is stored.  The other tables hold amounts and instants as given. *)

From S2P Require Import Prelude Domain Protocol.
From S2P Require Import Security Approval SecurityManager.

(** ** JSON columns *)

Class RowJson := {
  #[export] json_strings :: Json (list string);
  #[export] json_tags :: Json (gmap string string);
  #[export] json_uuids :: Json (list uuid);
}.

Class RowJsonLaw `{RowJson} := {
  #[export] law_strings :: JsonLaw (list string);
  #[export] law_tags :: JsonLaw (gmap string string);
  #[export] law_uuids :: JsonLaw (list uuid);
}.

(** [_ = json.Unmarshal(m.Column, &x)]: the error is dropped and [x] keeps its zero value. *)
Definition json_or {A} `{Json A} (zero : A) (text : string) : A :=
  match unmarshal text with Ok a => a | Err _ => zero end.

Lemma json_or_marshal {A} `{JsonLaw A} (zero a : A) : json_or zero (marshal a) = a.
Proof. unfold json_or. by rewrite unmarshal_marshal. Qed.
#[export] Hint Rewrite @json_or_marshal using typeclasses eauto : go.

(** [map[string]any]: marshalling can fail (a channel, a NaN), and the text of a nil map
    is [null]. *)
Class ParamsJson (P : Type) := {
  params_Marshal : P -> result error string;
  params_Unmarshal : string -> result error P;
}.

(** A parameter map the column gives back (no integers beyond 2^53, no byte slices). *)
Definition params_safe {P} `{ParamsJson P} (p : P) : Prop :=
  exists text, params_Marshal p = Ok text /\ text <> "" /\ text <> "null" /\
    params_Unmarshal text = Ok p.

(** [params, _ := json.Marshal(x); if params == nil { params = "{}" }]. *)
Definition params_column {P} `{ParamsJson P} (p : P) : string :=
  match params_Marshal p with Ok text => text | Err _ => "{}" end.

(** ** Numbers and instants in columns

    [numeric_column] is what a column [numeric(14,6)] keeps of an amount (six decimals; an
    error from 10^8 on), [time_column] what a [timestamptz] keeps of an instant, in a row or as
    a parameter of a statement. *)
Class Columns (F : Type) := {
  numeric_column : F -> result error F;
  time_column : Time -> Time;
}.

(** ** Rows *)

Record InfraNodeModel := mkInfraNodeModel {
  nm_ID : uuid;
  nm_OrgID : uuid;
  nm_Name : string;
  nm_Aliases : string;
  nm_NodeType : string;
  nm_Host : string;
  nm_Port : Z;
  nm_User : string;
  nm_CredentialRef : string;
  nm_Tags : string;
  nm_MCPServer : string;
  nm_Enabled : bool;
  nm_CreatedAt : Time;
  nm_UpdatedAt : Time;
}.

Record NotificationChannelModel := mkNotificationChannelModel {
  hm_ID : uuid;
  hm_OrgID : uuid;
  hm_Name : string;
  hm_ChannelType : string;
  hm_Config : string;
  hm_CredentialRef : string;
  hm_Enabled : bool;
  hm_CreatedAt : Time;
  hm_UpdatedAt : Time;
}.

Record AlertRuleModel := mkAlertRuleModel {
  rm_ID : uuid;
  rm_OrgID : uuid;
  rm_Name : string;
  rm_Description : string;
  rm_Target : string;
  rm_CheckType : string;
  rm_CheckConfig : string;
  rm_CronExpression : string;
  rm_ChannelIDs : string;
  rm_UserID : string;
  rm_Enabled : bool;
  rm_CooldownS : Z;
  rm_LastCheckedAt : option Time;
  rm_LastAlertedAt : option Time;
  rm_LastStatus : string;
  rm_NextRunAt : option Time;
  rm_CreatedAt : Time;
  rm_UpdatedAt : Time;
}.

Record AlertHistoryModel := mkAlertHistoryModel {
  im_ID : uuid;
  im_OrgID : uuid;
  im_AlertRuleID : uuid;
  im_Status : string;
  im_PreviousStatus : string;
  im_Message : string;
  im_NotifiedVia : string;
  im_NotifyErrors : string;
  im_CheckDurationMS : Z;
  im_CreatedAt : Time;
}.

Record PermissionModel := mkPermissionModel {
  pm_ActionName : string;
  pm_RequiresApproval : bool;
}.

Record RoleModel := mkRoleModel {
  lm_ID : uuid;
  lm_OrgID : uuid;
  lm_Name : string;
  lm_MaxRiskLevel : string;
  lm_Permissions : list PermissionModel;
}.

Record OrgModel := mkOrgModel { om_ID : uuid; om_Name : string; om_Slug : string; om_CreatedAt : Time }.

Record UserModel := mkUserModel {
  um_ID : uuid; um_OrgID : uuid; um_ExternalID : string; um_Email : string; um_CreatedAt : Time;
}.

Section rows.
Context {F : Type}.

Record CronJobModel := mkCronJobModel {
  cm_ID : uuid;
  cm_OrgID : uuid;
  cm_Name : string;
  cm_Description : string;
  cm_CronExpression : string;
  cm_Goal : string;
  cm_UserID : string;
  cm_BudgetLimitUSD : F;
  cm_MaxDepth : Z;
  cm_MaxTasks : Z;
  cm_Enabled : bool;
  cm_NextRunAt : option Time;
  cm_LastRunAt : option Time;
  cm_LastWorkflowID : option uuid;
  cm_LastError : string;
  cm_CreatedAt : Time;
  cm_UpdatedAt : Time;
}.

Record HeartbeatTaskModel := mkHeartbeatTaskModel {
  tm_ID : uuid;
  tm_OrgID : uuid;
  tm_Name : string;
  tm_Description : string;
  tm_SourceFile : string;
  tm_FileGroup : string;
  tm_CronExpression : string;
  tm_Mode : string;
  tm_UserID : string;
  tm_BudgetLimitUSD : F;
  tm_NotificationChannelIDs : string;
  tm_Enabled : bool;
  tm_NextRunAt : option Time;
  tm_LastRunAt : option Time;
  tm_LastStatus : string;
  tm_LastError : string;
  tm_LastResultSummary : string;
  tm_CreatedAt : Time;
  tm_UpdatedAt : Time;
}.

Record HeartbeatTaskResultModel := mkHeartbeatTaskResultModel {
  sm_ID : uuid;
  sm_OrgID : uuid;
  sm_TaskID : uuid;
  sm_Status : string;
  sm_Output : string;
  sm_OutputSummary : string;
  sm_TokensUsed : Z;
  sm_CostUSD : F;
  sm_DurationMS : Z;
  sm_CorrelationID : string;
  sm_NotifiedVia : string;
  sm_NotifyErrors : string;
  sm_CreatedAt : Time;
}.

Record ApprovalModel := mkApprovalModel {
  am_ID : string;
  am_OrgID : uuid;
  am_UserID : string;
  am_ToolName : string;
  am_Parameters : string;
  am_ActionName : string;
  am_RiskLevel : string;
  am_EstimatedCost : F;
  am_CorrelationID : string;
  am_ConversationID : string;
  am_ToolUseID : string;
  am_Status : Status;
  am_ApprovedBy : string;
  am_CreatedAt : Time;
  am_ExpiresAt : Time;
  am_ResolvedAt : option Time;
}.

Record AuditEventModel := mkAuditEventModel {
  em_ID : uuid;
  em_OrgID : uuid;
  em_CorrelationID : string;
  em_UserID : string;
  em_Action : string;
  em_Tool : string;
  em_Parameters : string;
  em_Result : string;
  em_TokensUsed : Z;
  em_CostUSD : F;
  em_ApprovedBy : string;
  em_Error : string;
  em_CreatedAt : Time;
}.
End rows.

Arguments CronJobModel F : clear implicits.
Arguments HeartbeatTaskModel F : clear implicits.
Arguments HeartbeatTaskResultModel F : clear implicits.
Arguments ApprovalModel F : clear implicits.
Arguments AuditEventModel F : clear implicits.

(** ** Conversions *)

Section conversions.
Context {F P : Type} `{Num F} `{RowJson} `{ParamsJson P} `{GoMap P}.
Local Open Scope go_scope.

Definition toInfraNodeModel (n : InfraNode) : InfraNodeModel :=
  mkInfraNodeModel
    (in_ID n) (in_OrgID n) (in_Name n) (marshal (in_Aliases n)) (in_NodeType n) (in_Host n)
    (in_Port n) (in_User n) (in_CredentialRef n) (marshal (in_Tags n)) (in_MCPServer n)
    (in_Enabled n) (in_CreatedAt n) (in_UpdatedAt n).

Definition toInfraNodeDomain (m : InfraNodeModel) : InfraNode :=
  mkInfraNode
    (nm_ID m) (nm_OrgID m) (nm_Name m) (json_or [] (nm_Aliases m)) (nm_NodeType m) (nm_Host m)
    (nm_Port m) (nm_User m) (nm_CredentialRef m) (json_or ∅ (nm_Tags m)) (nm_MCPServer m)
    (nm_Enabled m) (nm_CreatedAt m) (nm_UpdatedAt m).

Definition InfraNode_defaults (m : InfraNodeModel) : InfraNodeModel :=
  mkInfraNodeModel
    (nm_ID m) (nm_OrgID m) (nm_Name m) (nm_Aliases m) (nm_NodeType m) (nm_Host m) (nm_Port m)
    (nm_User m) (nm_CredentialRef m) (nm_Tags m) (nm_MCPServer m) true (nm_CreatedAt m)
    (nm_UpdatedAt m).

Definition toCronJobModel (c : CronJob F) : CronJobModel F :=
  mkCronJobModel
    (cj_ID c) (cj_OrgID c) (cj_Name c) (cj_Description c) (cj_CronExpression c) (cj_Goal c)
    (cj_UserID c) (cj_BudgetLimitUSD c) (cj_MaxDepth c) (cj_MaxTasks c) (cj_Enabled c)
    (cj_NextRunAt c) (cj_LastRunAt c) (cj_LastWorkflowID c) (cj_LastError c) (cj_CreatedAt c)
    (cj_UpdatedAt c).

Definition toCronJobDomain (m : CronJobModel F) : CronJob F :=
  mkCronJob
    (cm_ID m) (cm_OrgID m) (cm_Name m) (cm_Description m) (cm_CronExpression m) (cm_Goal m)
    (cm_UserID m) (cm_BudgetLimitUSD m) (cm_MaxDepth m) (cm_MaxTasks m) (cm_Enabled m)
    (cm_NextRunAt m) (cm_LastRunAt m) (cm_LastWorkflowID m) (cm_LastError m) (cm_CreatedAt m)
    (cm_UpdatedAt m).

Definition CronJob_defaults (m : CronJobModel F) : CronJobModel F :=
  mkCronJobModel
    (cm_ID m) (cm_OrgID m) (cm_Name m) (cm_Description m) (cm_CronExpression m) (cm_Goal m)
    (cm_UserID m) (cm_BudgetLimitUSD m) (or_int (cm_MaxDepth m) 5) (or_int (cm_MaxTasks m) 50)
    true (cm_NextRunAt m) (cm_LastRunAt m) (cm_LastWorkflowID m) (cm_LastError m)
    (cm_CreatedAt m) (cm_UpdatedAt m).

Definition toNotificationChannelModel (n : NotificationChannel) : NotificationChannelModel :=
  mkNotificationChannelModel
    (nc_ID n) (nc_OrgID n) (nc_Name n) (nc_ChannelType n) (marshal (nc_Config n))
    (nc_CredentialRef n) (nc_Enabled n) (nc_CreatedAt n) (nc_UpdatedAt n).

Definition toNotificationChannelDomain (m : NotificationChannelModel) : NotificationChannel :=
  mkChannel
    (hm_ID m) (hm_OrgID m) (hm_Name m) (hm_ChannelType m) (json_or ∅ (hm_Config m))
    (hm_CredentialRef m) (hm_Enabled m) (hm_CreatedAt m) (hm_UpdatedAt m).

Definition NotificationChannel_defaults (m : NotificationChannelModel) : NotificationChannelModel :=
  mkNotificationChannelModel
    (hm_ID m) (hm_OrgID m) (hm_Name m) (hm_ChannelType m) (hm_Config m) (hm_CredentialRef m)
    true (hm_CreatedAt m) (hm_UpdatedAt m).

Definition toAlertRuleModel (a : AlertRule) : AlertRuleModel :=
  mkAlertRuleModel
    (ar_ID a) (ar_OrgID a) (ar_Name a) (ar_Description a) (ar_Target a) (ar_CheckType a)
    (marshal (ar_CheckConfig a)) (ar_CronExpression a) (marshal (ar_ChannelIDs a))
    (ar_UserID a) (ar_Enabled a) (ar_CooldownS a) (ar_LastCheckedAt a) (ar_LastAlertedAt a)
    (ar_LastStatus a) (ar_NextRunAt a) (ar_CreatedAt a) (ar_UpdatedAt a).

Definition toAlertRuleDomain (m : AlertRuleModel) : AlertRule :=
  mkAlertRule
    (rm_ID m) (rm_OrgID m) (rm_Name m) (rm_Description m) (rm_Target m) (rm_CheckType m)
    (json_or ∅ (rm_CheckConfig m)) (rm_CronExpression m) (json_or [] (rm_ChannelIDs m))
    (rm_UserID m) (rm_Enabled m) (rm_CooldownS m) (rm_LastCheckedAt m) (rm_LastAlertedAt m)
    (rm_LastStatus m) (rm_NextRunAt m) (rm_CreatedAt m) (rm_UpdatedAt m).

Definition AlertRule_defaults (m : AlertRuleModel) : AlertRuleModel :=
  mkAlertRuleModel
    (rm_ID m) (rm_OrgID m) (rm_Name m) (rm_Description m) (rm_Target m) (rm_CheckType m)
    (rm_CheckConfig m) (rm_CronExpression m) (rm_ChannelIDs m) (rm_UserID m) true
    (or_int (rm_CooldownS m) 300) (rm_LastCheckedAt m) (rm_LastAlertedAt m)
    (or_text (rm_LastStatus m) "ok") (rm_NextRunAt m) (rm_CreatedAt m) (rm_UpdatedAt m).

Definition toAlertHistoryModel (a : AlertHistory) : AlertHistoryModel :=
  mkAlertHistoryModel
    (ah_ID a) (ah_OrgID a) (ah_AlertRuleID a) (ah_Status a) (ah_PreviousStatus a)
    (ah_Message a) (marshal (ah_NotifiedVia a)) (marshal (ah_NotifyErrors a))
    (ah_CheckDurationMS a) (ah_CreatedAt a).

Definition toAlertHistoryDomain (m : AlertHistoryModel) : AlertHistory :=
  mkAlertHistory
    (im_ID m) (im_OrgID m) (im_AlertRuleID m) (im_Status m) (im_PreviousStatus m)
    (im_Message m) (json_or [] (im_NotifiedVia m)) (json_or [] (im_NotifyErrors m))
    (im_CheckDurationMS m) (im_CreatedAt m).

Definition toHeartbeatTaskModel (h : HeartbeatTask F) : HeartbeatTaskModel F :=
  mkHeartbeatTaskModel
    (ht_ID h) (ht_OrgID h) (ht_Name h) (ht_Description h) (ht_SourceFile h) (ht_FileGroup h)
    (ht_CronExpression h) (ht_Mode h) (ht_UserID h) (ht_BudgetLimitUSD h)
    (marshal (ht_NotificationChannelIDs h)) (ht_Enabled h) (ht_NextRunAt h) (ht_LastRunAt h)
    (ht_LastStatus h) (ht_LastError h) (ht_LastResultSummary h) (ht_CreatedAt h)
    (ht_UpdatedAt h).

Definition toHeartbeatTaskDomain (m : HeartbeatTaskModel F) : HeartbeatTask F :=
  mkHeartbeatTask
    (tm_ID m) (tm_OrgID m) (tm_Name m) (tm_Description m) (tm_SourceFile m) (tm_FileGroup m)
    (tm_CronExpression m) (tm_Mode m) (tm_UserID m) (tm_BudgetLimitUSD m)
    (json_or [] (tm_NotificationChannelIDs m)) (tm_Enabled m) (tm_NextRunAt m) (tm_LastRunAt m)
    (tm_LastStatus m) (tm_LastError m) (tm_LastResultSummary m) (tm_CreatedAt m)
    (tm_UpdatedAt m).

Definition HeartbeatTask_defaults (m : HeartbeatTaskModel F) : HeartbeatTaskModel F :=
  mkHeartbeatTaskModel
    (tm_ID m) (tm_OrgID m) (tm_Name m) (tm_Description m) (tm_SourceFile m) (tm_FileGroup m)
    (tm_CronExpression m) (or_text (tm_Mode m) "quick") (tm_UserID m)
    (or_num (tm_BudgetLimitUSD m) (nofZ 1 /f nofZ 2)) (tm_NotificationChannelIDs m) true
    (tm_NextRunAt m) (tm_LastRunAt m) (tm_LastStatus m) (tm_LastError m)
    (tm_LastResultSummary m) (tm_CreatedAt m) (tm_UpdatedAt m).

Definition toHeartbeatTaskResultModel (h : HeartbeatTaskResult F) : HeartbeatTaskResultModel F :=
  mkHeartbeatTaskResultModel
    (hr_ID h) (hr_OrgID h) (hr_TaskID h) (hr_Status h) (hr_Output h) (hr_OutputSummary h)
    (hr_TokensUsed h) (hr_CostUSD h) (hr_DurationMS h) (hr_CorrelationID h)
    (marshal (hr_NotifiedVia h)) (marshal (hr_NotifyErrors h)) (hr_CreatedAt h).

Definition toHeartbeatTaskResultDomain (m : HeartbeatTaskResultModel F) : HeartbeatTaskResult F :=
  mkHeartbeatTaskResult
    (sm_ID m) (sm_OrgID m) (sm_TaskID m) (sm_Status m) (sm_Output m) (sm_OutputSummary m)
    (sm_TokensUsed m) (sm_CostUSD m) (sm_DurationMS m) (sm_CorrelationID m)
    (json_or [] (sm_NotifiedVia m)) (json_or [] (sm_NotifyErrors m)) (sm_CreatedAt m).

(** Organisations and users are only read through these. *)
Definition toOrgDomain (m : OrgModel) : Organization :=
  mkOrganization (om_ID m) (om_Name m) (om_Slug m) (om_CreatedAt m).

Definition toUserDomain (m : UserModel) : User :=
  mkUser (um_ID m) (um_OrgID m) (um_ExternalID m) (um_Email m) (um_CreatedAt m).

Definition toSecurityRole (m : RoleModel) : Role :=
  mkRole (lm_Name m) (pm_ActionName <$> lm_Permissions m) (lm_MaxRiskLevel m)
    (pm_ActionName <$> List.filter pm_RequiresApproval (lm_Permissions m)).

(** [id] is the fresh [uuid.New()]. *)
Definition toAuditModel (id orgID : uuid) (event : AuditEvent F P) : AuditEventModel F :=
  mkAuditEventModel id orgID (au_CorrelationID event) (au_UserID event) (au_Action event)
    (au_Tool event)
    (match au_Parameters event with Some p => params_column p | None => "null" end)
    (au_Result event) (au_TokensUsed event) (au_CostUSD event) (au_ApprovedBy event)
    (au_Error event) (au_Timestamp event).

Definition toAuditDomain (m : AuditEventModel F) : AuditEvent F P :=
  mkAuditEvent (em_CreatedAt m) (em_CorrelationID m) (em_UserID m) (em_Action m) (em_Tool m)
    (if String.eqb (em_Parameters m) "" || String.eqb (em_Parameters m) "null" then None
     else match params_Unmarshal (em_Parameters m) with Ok p => Some p | Err _ => None end)
    (em_Result m) (em_TokensUsed m) (em_CostUSD m) (em_ApprovedBy m) (em_Error m).

(** The conversion, before the row is stored ([approval_columns]). *)
Definition toApprovalModel (orgID : uuid) (req : CreateRequest F P) (id : string) (ttl : Duration)
    (now : Time) : ApprovalModel F :=
  mkApprovalModel id orgID (cr_UserID req) (cr_ToolName req) (params_column (cr_Parameters req))
    (cr_ActionName req) (cr_RiskLevel req) (cr_EstimatedCost req) (cr_CorrelationID req)
    (cr_ConversationID req) (cr_ToolUseID req) StatusPending "" now (now + ttl)%Z None.

(** The row of an approval as the database keeps it: the cost in [numeric(14,6)], which
    refuses what is too large, and the instants in microseconds. *)
Definition approval_columns `{!Columns F} (m : ApprovalModel F) : result error (ApprovalModel F) :=
  match numeric_column (am_EstimatedCost m) with
  | Err e => Err e
  | Ok cost =>
      Ok (mkApprovalModel (am_ID m) (am_OrgID m) (am_UserID m) (am_ToolName m) (am_Parameters m)
            (am_ActionName m) (am_RiskLevel m) cost (am_CorrelationID m) (am_ConversationID m)
            (am_ToolUseID m) (am_Status m) (am_ApprovedBy m) (time_column (am_CreatedAt m))
            (time_column (am_ExpiresAt m)) (time_column <$> am_ResolvedAt m))
  end.

Definition toApprovalDomain (m : ApprovalModel F) : PendingApproval F P :=
  mkPA (am_ID m) (am_UserID m) (am_ToolName m)
    (if String.eqb (am_Parameters m) "" then nil_map
     else match params_Unmarshal (am_Parameters m) with Ok p => p | Err _ => nil_map end)
    (am_ActionName m) (am_RiskLevel m) (am_EstimatedCost m) (am_CorrelationID m)
    (am_ConversationID m) (am_ToolUseID m) (am_Status m) (am_ApprovedBy m) (am_CreatedAt m)
    (am_ExpiresAt m) (match am_ResolvedAt m with Some t => t | None => time_zero end).
End conversions.

(** ** The conversions as one interface

    What a repository is written against: saving an entity keeps its row, creating one
    keeps the row with its defaults, reading gives the entity of a row. *)

Class Entity (D M : Type) := {
  to_model : D -> M;
  to_domain : M -> D;
  with_defaults : M -> M;
}.

Class EntityLaw (D M : Type) `{Entity D M} := {
  to_domain_to_model : forall d : D, to_domain (to_model d) = d;
}.

(** What is read back after a [Create]. *)
Definition stored {D M} `{Entity D M} (d : D) : D := to_domain (with_defaults (to_model d)).

Section entities.
Context {F : Type} `{Num F} `{RowJson}.

#[export] Instance infra_node_entity : Entity InfraNode InfraNodeModel :=
  Build_Entity _ _ toInfraNodeModel toInfraNodeDomain InfraNode_defaults.
#[export] Instance cron_job_entity : Entity (CronJob F) (CronJobModel F) :=
  Build_Entity _ _ toCronJobModel toCronJobDomain CronJob_defaults.
#[export] Instance channel_entity : Entity NotificationChannel NotificationChannelModel :=
  Build_Entity _ _ toNotificationChannelModel toNotificationChannelDomain
    NotificationChannel_defaults.
#[export] Instance alert_rule_entity : Entity AlertRule AlertRuleModel :=
  Build_Entity _ _ toAlertRuleModel toAlertRuleDomain AlertRule_defaults.
#[export] Instance alert_history_entity : Entity AlertHistory AlertHistoryModel :=
  Build_Entity _ _ toAlertHistoryModel toAlertHistoryDomain (fun m => m).
#[export] Instance heartbeat_task_entity : Entity (HeartbeatTask F) (HeartbeatTaskModel F) :=
  Build_Entity _ _ toHeartbeatTaskModel toHeartbeatTaskDomain HeartbeatTask_defaults.
#[export] Instance heartbeat_result_entity :
    Entity (HeartbeatTaskResult F) (HeartbeatTaskResultModel F) :=
  Build_Entity _ _ toHeartbeatTaskResultModel toHeartbeatTaskResultDomain (fun m => m).

Context `{!RowJsonLaw}.

#[local] Ltac conversion :=
  split; intros []; cbv [to_domain to_model infra_node_entity cron_job_entity channel_entity
    alert_rule_entity alert_history_entity heartbeat_task_entity heartbeat_result_entity
    toInfraNodeModel toInfraNodeDomain toCronJobModel toCronJobDomain
    toNotificationChannelModel toNotificationChannelDomain toAlertRuleModel toAlertRuleDomain
    toAlertHistoryModel toAlertHistoryDomain toHeartbeatTaskModel toHeartbeatTaskDomain
    toHeartbeatTaskResultModel toHeartbeatTaskResultDomain]; simpl;
  rewrite ?json_or_marshal; reflexivity.

#[export] Instance infra_node_law : EntityLaw InfraNode InfraNodeModel.
Proof. conversion. Qed.
#[export] Instance cron_job_law : EntityLaw (CronJob F) (CronJobModel F).
Proof. conversion. Qed.
#[export] Instance channel_law : EntityLaw NotificationChannel NotificationChannelModel.
Proof. conversion. Qed.
#[export] Instance alert_rule_law : EntityLaw AlertRule AlertRuleModel.
Proof. conversion. Qed.
#[export] Instance alert_history_law : EntityLaw AlertHistory AlertHistoryModel.
Proof. conversion. Qed.
#[export] Instance heartbeat_task_law : EntityLaw (HeartbeatTask F) (HeartbeatTaskModel F).
Proof. conversion. Qed.
#[export] Instance heartbeat_result_law :
  EntityLaw (HeartbeatTaskResult F) (HeartbeatTaskResultModel F).
Proof. conversion. Qed.
End entities.

(** ** What the database gives back *)

Section read_back.
Context {F P : Type} `{Num F} `{RowJson} `{ParamsJson P} `{GoMap P} `{!RowJsonLaw}.

Lemma params_column_safe (p : P) :
  params_safe p -> params_column p <> "" /\ params_column p <> "null" /\
    params_Unmarshal (params_column p) = Ok p.
Proof. intros (text & Ht & Hne & Hnn & Hu). unfold params_column. by rewrite Ht. Qed.

(** An approval is read back as the in-memory manager would keep it. *)
Lemma approval_read_back orgID (req : CreateRequest F P) id ttl now :
  params_safe (cr_Parameters req) ->
  toApprovalDomain (toApprovalModel orgID req id ttl now) =
    mkPA id (cr_UserID req) (cr_ToolName req) (cr_Parameters req) (cr_ActionName req)
      (cr_RiskLevel req) (cr_EstimatedCost req) (cr_CorrelationID req)
      (cr_ConversationID req) (cr_ToolUseID req) StatusPending "" now (now + ttl)%Z time_zero.
Proof.
  intros (Hne & _ & Hu)%params_column_safe. unfold toApprovalDomain. simpl.
  apply String.eqb_neq in Hne as ->. by rewrite Hu.
Qed.

Lemma audit_read_back id orgID (e : AuditEvent F P) :
  (forall p, au_Parameters e = Some p -> params_safe p) ->
  toAuditDomain (toAuditModel id orgID e) = e.
Proof.
  intros Hp. destruct e as [ts c u a t [p|] r tk co ap er]; unfold toAuditDomain; simpl; [|done].
  destruct (params_column_safe p (Hp p eq_refl)) as (Hne & Hnn & Hu).
  apply String.eqb_neq in Hne as ->. apply String.eqb_neq in Hnn as ->. simpl. by rewrite Hu.
Qed.

(** Nothing is lost between an entity and its row.  Converting any node, cron job,
    channel, alert rule, alert record, heartbeat task or result to a row and back gives
    the same entity; an approval request and an audit event come back as they were when
    their parameters survive JSON. *)
Theorem rows_roundtrip :
  (forall n, toInfraNodeDomain (toInfraNodeModel n) = n) /\
  (forall cj : CronJob F, toCronJobDomain (toCronJobModel cj) = cj) /\
  (forall ch, toNotificationChannelDomain (toNotificationChannelModel ch) = ch) /\
  (forall r, toAlertRuleDomain (toAlertRuleModel r) = r) /\
  (forall h, toAlertHistoryDomain (toAlertHistoryModel h) = h) /\
  (forall t : HeartbeatTask F, toHeartbeatTaskDomain (toHeartbeatTaskModel t) = t) /\
  (forall r : HeartbeatTaskResult F,
     toHeartbeatTaskResultDomain (toHeartbeatTaskResultModel r) = r) /\
  (forall id orgID (e : AuditEvent F P),
     (forall p, au_Parameters e = Some p -> params_safe p) ->
     toAuditDomain (toAuditModel id orgID e) = e) /\
  (forall orgID (req : CreateRequest F P) id ttl now, params_safe (cr_Parameters req) ->
     toApprovalDomain (toApprovalModel orgID req id ttl now) =
     mkPA id (cr_UserID req) (cr_ToolName req) (cr_Parameters req) (cr_ActionName req)
       (cr_RiskLevel req) (cr_EstimatedCost req) (cr_CorrelationID req)
       (cr_ConversationID req) (cr_ToolUseID req) StatusPending "" now (now + ttl)%Z time_zero).
Proof.
  split_and!; [intros x; exact (to_domain_to_model x)..| |].
  - exact audit_read_back.
  - exact approval_read_back.
Qed.

Lemma or_int_id x d : or_int x d = x <-> (x <> 0 \/ x = d)%Z.
Proof. unfold or_int. destruct (Z.eqb_spec x 0); split; intros; lia. Qed.
Lemma or_text_id x d : d <> "" -> or_text x d = x <-> x <> "".
Proof. unfold or_text. destruct (String.eqb_spec x ""); split; congruence. Qed.

(** What a [Create] stores.  The columns have defaults, and a field with Go's zero
    value is replaced by its default: a cron job, rule, channel, node or heartbeat task
    that is created disabled is stored enabled, limits and cooldowns of zero get the
    default, and an entity is stored as given exactly when it has no such field. *)
Theorem created_with_defaults :
  (forall cj : CronJob F, cj_Enabled (stored cj) = true /\
     (stored cj = cj <-> cj_Enabled cj = true /\ cj_MaxDepth cj <> 0%Z /\ cj_MaxTasks cj <> 0%Z)) /\
  (forall ch, nc_Enabled (stored ch) = true /\ (stored ch = ch <-> nc_Enabled ch = true)) /\
  (forall n, in_Enabled (stored n) = true /\ (stored n = n <-> in_Enabled n = true)) /\
  (forall r, ar_Enabled (stored r) = true /\
     (stored r = r <-> ar_Enabled r = true /\ ar_CooldownS r <> 0%Z /\ ar_LastStatus r <> "")) /\
  (forall t : HeartbeatTask F, ht_Enabled (stored t) = true).
Proof.
  split_and!; try done.
  - intros []. split; [done|]. unfold stored. simpl. unfold toCronJobDomain; simpl. split.
    + intros [= Hd Ht <-]. apply or_int_id in Hd, Ht. simpl. split_and!; [done|lia|lia].
    + intros (-> & Hd & Ht). f_equal; apply or_int_id; auto.
  - intros []. split; [done|]. unfold stored. simpl. unfold toNotificationChannelDomain; simpl.
    rewrite json_or_marshal. split; [by intros [= <-]|by intros ->].
  - intros []. split; [done|]. unfold stored. simpl. unfold toInfraNodeDomain; simpl.
    rewrite !json_or_marshal. split; [by intros [= <-]|by intros ->].
  - intros []. split; [done|]. unfold stored. simpl. unfold toAlertRuleDomain; simpl.
    rewrite !json_or_marshal. split.
    + intros [= <- Hc Hl]. apply or_int_id in Hc. apply or_text_id in Hl; [|done].
      split_and!; [done|lia|done].
    + intros (-> & Hc & Hl). f_equal; [apply or_int_id; auto|by apply or_text_id].
Qed.
End read_back.
