(* ===== verification/SkillLoader.v ===== *)
(** * Skill files

    [src/internal/skillloader/]: skills in Markdown files with a YAML frontmatter
    ([loader.go]), the poller that follows directories of them ([poller.go]), community
    packs ([pack.go], [manifest.go]), the seeding of the skill store ([seed.go]), the match
    of runbooks to a query ([matcher.go]) and the texts for the prompt ([prompt.go]); the
    skill stores are the in-memory one and [storage/postgres/skill_repo.go].

    YAML, SHA-256, the logarithm and the formats of numbers are parameters; the directories
    are an argument of every operation that reads them, and do not change while it runs.
    Logging and metrics are left out, and so is the modification time the poller keeps and
    never reads.  Texts are ASCII, as in [Prompt]. *)

From Stdlib Require Import Ascii.
From S2P Require Import Prelude Text Security LLM FileSystem Prompt WorkflowTypes Skill Scheduler Domain Protocol Models.

(** ** Names of files *)

(** The text before and after the last [c]. *)
Fixpoint split_last (c : Ascii.ascii) (s : string) : option (string * string) :=
  match s with
  | EmptyString => None
  | String a s =>
      match split_last c s with
      | Some (x, y) => Some (String a x, y)
      | None => if Ascii.eqb a c then Some ("", s) else None
      end
  end.

Fixpoint strip_slashes (s : string) : string :=
  match s with
  | EmptyString => ""
  | String a s => let r := strip_slashes s in
                  if String.eqb r "" && Ascii.eqb a slash then "" else String a r
  end.

(** [filepath.Base]. *)
Definition filepath_Base (p : string) : string :=
  if String.eqb p "" then "."
  else
    let p := strip_slashes p in
    let base := match split_last slash p with Some (_, b) => b | None => p end in
    or_text base "/".

(** [filepath.Ext] of a name without slashes is what follows its last dot. *)
Definition filenameStem (p : string) : string :=
  let base := filepath_Base p in
  match split_last "."%char base with Some (stem, _) => stem | None => base end.

(** [filepath.Join] of a clean directory and a file's name. *)
Definition skill_path (dir name : string) : string :=
  if String.eqb dir "" then name else if String.eqb dir "/" then "/" +:+ name else dir +:+ "/" +:+ name.

Definition is_skill_file (e : dir_entry) : bool := negb (de_IsDir e) && has_suffix (de_Name e) ".md".

(** The content of a directory at one moment. *)
Abbreviation disk := (string -> result error (list dir_entry)).

(** ** Skill definitions *)

Section definitions.
Context {F : Type} `{!Num F}.

Record SkillDefinition := mkSkillDef {
  sd_Name : string;
  sd_AgentRole : string;
  sd_Category : string;
  sd_ToolsRequired : list string;
  sd_RiskLevel : string;
  sd_DefaultBudget : F;
  sd_Description : string;
  sd_SourceFile : string;
  sd_SkillKey : string;
}.

Record SkillManifest := mkManifest {
  sm_Name : string;
  sm_Version : string;
  sm_Author : string;
  sm_License : string;
  sm_Homepage : string;
  sm_Repository : string;
  sm_AgentRole : string;
  sm_Category : string;
  sm_Tags : list string;
  sm_ToolsRequired : list string;
  sm_RiskLevel : string;
  sm_DefaultBudget : F;
  sm_ContentHash : string;
  sm_Signature : string;
  sm_SignedBy : string;
  sm_RequiredPermissions : list string;
  sm_RequestedPaths : list string;
  sm_RequestedDomains : list string;
  sm_MaxExecutionSeconds : Z;
  sm_MaxBudgetUSD : F;
  sm_SandboxRequired : bool;
  sm_Description : string;
  sm_SourceFile : string;
  sm_SkillKey : string;
}.

(** [yaml.Unmarshal] into the two types. *)
Class SkillYaml := {
  yaml_definition : string -> result error SkillDefinition;
  yaml_manifest : string -> result error SkillManifest;
}.

(** The fields the loaders set after the frontmatter was read. *)
Definition locate (def : SkillDefinition) (body path : string) : SkillDefinition :=
  mkSkillDef (sd_Name def) (sd_AgentRole def) (sd_Category def) (sd_ToolsRequired def) (sd_RiskLevel def)
    (sd_DefaultBudget def) body path (filenameStem path).

Definition locate_manifest (m : SkillManifest) (body path : string) : SkillManifest :=
  mkManifest (sm_Name m) (sm_Version m) (sm_Author m) (sm_License m) (sm_Homepage m) (sm_Repository m)
    (sm_AgentRole m) (sm_Category m) (sm_Tags m) (sm_ToolsRequired m) (sm_RiskLevel m) (sm_DefaultBudget m)
    (sm_ContentHash m) (sm_Signature m) (sm_SignedBy m) (sm_RequiredPermissions m) (sm_RequestedPaths m)
    (sm_RequestedDomains m) (sm_MaxExecutionSeconds m) (sm_MaxBudgetUSD m) (sm_SandboxRequired m)
    body path (filenameStem path).

Definition ToSkillDefinition (m : SkillManifest) : SkillDefinition :=
  mkSkillDef (sm_Name m) (sm_AgentRole m) (sm_Category m) (sm_ToolsRequired m) (sm_RiskLevel m)
    (sm_DefaultBudget m) (sm_Description m) (sm_SourceFile m) (sm_SkillKey m).

(** The frontmatter and the trimmed body of a file. *)
Definition frontmatter_of (content : result error string) : result error (string * string) :=
  match content with
  | Err err => Err (Wrap "opening file" err)
  | Ok text =>
      let '(lines, err) := scan_lines text in
      match lines with
      | [] => Err (Errorf "empty file")
      | first :: lines =>
          if negb (String.eqb (TrimSpace first) "---")
          then Err (Errorf "missing YAML frontmatter (file must start with ---)")
          else
            match until_close lines with
            | None => Err (Errorf "unclosed YAML frontmatter (missing closing ---)")
            | Some (front, body) =>
                match err with
                | Some e => Err (Wrap "reading file" e)
                | None => Ok (String.concat newline front, TrimSpace (String.concat newline body))
                end
            end
      end
  end.

Context `{!SkillYaml}.

Definition ParseFile (path : string) (content : result error string) : result error SkillDefinition :=
  match frontmatter_of content with
  | Err e => Err e
  | Ok (front, body) =>
      match yaml_definition front with
      | Err e => Err (Wrap "parsing YAML frontmatter" e)
      | Ok def => Ok (locate def body path)
      end
  end.

Definition parseManifestFile (path : string) (content : result error string)
    : result error (SkillManifest * string) :=
  match frontmatter_of content with
  | Err e => Err e
  | Ok (front, body) =>
      match yaml_manifest front with
      | Err e => Err (Wrap "parsing YAML frontmatter" e)
      | Ok m => Ok (locate_manifest m body path, body)
      end
  end.

Definition validRiskLevels : list string := ["low"; "medium"; "high"; "critical"].

(** [Validate], with the test for a registered tool; [None] without a registry. *)
Definition Validate (registered : option (string -> bool)) (def : SkillDefinition) : option error :=
  if String.eqb (sd_Name def) "" then Some (Errorf "name is required")
  else if String.eqb (sd_AgentRole def) "" then Some (Errorf "agent_role is required")
  else
    match ValidateRole (sd_AgentRole def) with
    | Some e => Some (Wrap "invalid agent_role" e)
    | None =>
        if (length (sd_ToolsRequired def) =? 0)%nat
        then Some (Errorf "tools_required must list at least one tool")
        else if match registered with
                | None => false
                | Some known => existsb (fun t => negb (known t)) (sd_ToolsRequired def)
                end
        then Some (Errorf "unknown tool in tools_required")
        else if negb (slice_contains validRiskLevels (sd_RiskLevel def))
        then Some (Errorf "invalid risk_level (must be low, medium, high, or critical)")
        else if nleb (sd_DefaultBudget def) (nofZ 0) then Some (Errorf "default_budget must be > 0")
        else None
    end.
End definitions.

Arguments SkillDefinition F : clear implicits.
Arguments SkillManifest F : clear implicits.
Arguments SkillYaml F : clear implicits.

(** [l.toolRegistry.Get(name) != nil]. *)
Definition known_tools {F P W} (r : Registry F P W) : string -> bool :=
  fun name => bool_decide (is_Some (registry_Get r name)).

(** ** Loading a directory *)

Record LoadError := mkLoadError { ld_File : string; ld_Message : string }.
Record LoadResult := mkLoadResult { ld_Loaded : Z; ld_Errors : list LoadError }.

Section loading.
Context {F : Type} `{!Num F} `{!SkillYaml F} `{!ErrorText}.

(** One more file: loaded, or reported. *)
Definition loaded {A} (path : string) (r : result error A) (acc : list A * LoadResult) : list A * LoadResult :=
  match r with
  | Ok a => (acc.1 ++ [a], mkLoadResult (ld_Loaded acc.2 + 1) (ld_Errors acc.2))
  | Err e => (acc.1, mkLoadResult (ld_Loaded acc.2) (ld_Errors acc.2 ++ [mkLoadError path (error_Error e)]))
  end.

(** The loop of [LoadDir] and of [LoadPack]. *)
Definition load_all {A} (load : string -> result error string -> result error A) (dir : string) (es : list dir_entry)
    : list A * LoadResult :=
  fold_left (fun acc e => loaded (skill_path dir (de_Name e)) (load (skill_path dir (de_Name e)) (de_Content e)) acc)
    (List.filter is_skill_file es) ([], mkLoadResult 0 []).

Definition load_skill (registered : option (string -> bool)) (path : string) (content : result error string)
    : result error (SkillDefinition F) :=
  match ParseFile path content with
  | Err e => Err e
  | Ok def => match Validate registered def with Some e => Err e | None => Ok def end
  end.

Definition LoadDir (registered : option (string -> bool)) (d : disk) (dir : string)
    : result error (list (SkillDefinition F) * LoadResult) :=
  match d dir with
  | Err e => Err (Wrap "reading skills directory" e)
  | Ok es => Ok (load_all (load_skill registered) dir es)
  end.
End loading.

(** ** Community packs *)

(** [hex.EncodeToString] of SHA-256. *)
Class Sha256 := { sha256_hex : string -> string }.

Section packs.
Context {F : Type} `{!Num F} `{!SkillYaml F} `{!ErrorText} `{!Sha256}.
Implicit Types m : SkillManifest F.

(** The longest start of a text in a class of bytes, with what follows. *)
Fixpoint span (p : Ascii.ascii -> bool) (s : string) : string * string :=
  match s with
  | EmptyString => ("", "")
  | String a s' => if p a then let '(x, y) := span p s' in (String a x, y) else ("", s)
  end.

Definition is_digit (c : Ascii.ascii) : bool :=
  let n := Ascii.N_of_ascii c in ((48 <=? n) && (n <=? 57))%N.
Definition is_tag_char (c : Ascii.ascii) : bool :=
  let n := Ascii.N_of_ascii c in
  (is_digit c || ((65 <=? n) && (n <=? 90)) || ((97 <=? n) && (n <=? 122)) || (n =? 46))%N.

(** One number of a version, and what follows. *)
Definition number (s : string) : option (string * string) :=
  let '(ds, rest) := span is_digit s in if String.eqb ds "" then None else Some (ds, rest).

(** The optional groups [(-[a-zA-Z0-9.]+)?] and [(\+[a-zA-Z0-9.]+)?]. *)
Definition optional_tag (mark : Ascii.ascii) (s : string) : string :=
  match s with
  | String a s' =>
      if Ascii.eqb a mark then let '(tag, rest) := span is_tag_char s' in if String.eqb tag "" then s else rest
      else s
  | EmptyString => ""
  end.

Definition dot (s : string) : option string :=
  match s with String a s' => if Ascii.eqb a "."%char then Some s' else None | EmptyString => None end.

(** The three groups of [semverRe], when it matches. *)
Definition semver (s : string) : option (string * string * string) :=
  '(a, s) ← number s; s ← dot s; '(b, s) ← number s; s ← dot s; '(c, s) ← number s;
  if String.eqb (optional_tag "+"%char (optional_tag "-"%char s)) "" then Some (a, b, c) else None.

(** The value of digits; [strconv.Atoi] answers the largest integer when it is out of range. *)
Definition component (ds : string) : Z :=
  Z.min (2 ^ 63 - 1)
    (fold_left (fun v c => v * 10 + (Z.of_N (Ascii.N_of_ascii c) - 48))%Z (String.list_ascii_of_string ds) 0%Z).

Definition ValidateVersion m : option error :=
  if String.eqb (sm_Version m) "" then Some (Errorf "version is required for community skill packs")
  else
    match semver (sm_Version m) with
    | None => Some (Errorf "version is not valid semver (expected MAJOR.MINOR.PATCH)")
    | Some (a, b, c) =>
        if existsb (fun ds => component ds <? 0)%Z [a; b; c]
        then Some (Errorf "version component must be non-negative") else None
    end.

Definition ValidateIntegrity m (body : string) : option error :=
  if String.eqb (sm_ContentHash m) "" then None
  else
    let expected := if has_prefix (sm_ContentHash m) "sha256:" then sm_ContentHash m
                    else "sha256:" +:+ sm_ContentHash m in
    if negb (String.eqb ("sha256:" +:+ sha256_hex body) expected) then Some (Errorf "content_hash mismatch") else None.

(** The first value a check refuses. *)
Fixpoint first_denied (check : string -> option error) (msg : string) (vs : list string) : option error :=
  match vs with
  | [] => None
  | v :: vs => match check v with Some e => Some (Wrap msg e) | None => first_denied check msg vs end
  end.

(** [None]: no policy enforcer. *)
Definition ValidatePermissions (enforcer : option PolicyEnforcer) (agentID : string) m : option error :=
  match enforcer with
  | None => None
  | Some pe =>
      match first_denied (CheckToolAllowed pe agentID) "skill requires a tool which is denied by policy" (sm_ToolsRequired m) with
      | Some e => Some e
      | None =>
          match first_denied (CheckDomainAllowed pe agentID) "skill requires a domain which is denied by policy" (sm_RequestedDomains m) with
          | Some e => Some e
          | None => first_denied (CheckPathAllowed pe agentID) "skill requires a path which is denied by policy" (sm_RequestedPaths m)
          end
      end
  end.

Record PackLoader := mkPackLoader {
  pl_registered : option (string -> bool);
  pl_policyEnforcer : option PolicyEnforcer;
  pl_agentID : string;
}.

Definition load_manifest (pl : PackLoader) (path : string) (content : result error string)
    : result error (SkillManifest F) :=
  match parseManifestFile path content with
  | Err e => Err e
  | Ok (m, body) =>
      match ValidateVersion m with
      | Some e => Err e
      | None =>
          match ValidateIntegrity m body with
          | Some e => Err e
          | None =>
              match Validate (pl_registered pl) (ToSkillDefinition m) with
              | Some e => Err e
              | None => match ValidatePermissions (pl_policyEnforcer pl) (pl_agentID pl) m with
                        | Some e => Err e
                        | None => Ok m
                        end
              end
          end
      end
  end.

Definition LoadPack (pl : PackLoader) (d : disk) (dir : string)
    : result error (list (SkillManifest F) * LoadResult) :=
  match d dir with
  | Err e => Err (Wrap "reading pack directory" e)
  | Ok es => Ok (load_all (load_manifest pl) dir es)
  end.
End packs.

(** ** The stores of skills *)

(** [orchestrator.SkillStore], the two methods the loader calls. *)
Class SkillStore (F T : Type) := {
  store_GetSkill : uuid -> AgentRole -> string -> T -> result error (AgentSkill F) * T;
  store_UpsertSkill : AgentSkill F -> T -> option error * T;
}.

#[export] Instance memory_skills {F} `{!Num F} `{!Render} : SkillStore F (InMemorySkillStore F) := {
  store_GetSkill := fun orgID role key s => (GetSkill s orgID role key, s);
  store_UpsertSkill := fun skill s => (None, UpsertSkill s skill);
}.

Section skill_repo.
Context {F W : Type} `{!Num F} `{!World W} `{!RowJson}.

Record AgentSkillModel := mkSkillModel {
  km_ID : uuid;
  km_OrgID : uuid;
  km_AgentRole : string;
  km_SkillKey : string;
  km_SuccessCount : Z;
  km_FailureCount : Z;
  km_AvgDurationMS : F;
  km_AvgCostUSD : F;
  km_ReliabilityScore : F;
  km_MaturityLevel : SkillMaturity;
  km_CreatedAt : Time;
  km_LastUpdatedAt : Time;
  km_Name : string;
  km_Category : string;
  km_ToolsRequired : string;
  km_RiskLevel : string;
  km_DefaultBudget : F;
  km_Description : string;
}.

Definition toSkillModel (s : AgentSkill F) : AgentSkillModel :=
  mkSkillModel (sk_ID s) (sk_OrgID s) (sk_AgentRole s) (sk_SkillKey s) (sk_SuccessCount s) (sk_FailureCount s)
    (sk_AvgDurationMS s) (sk_AvgCostUSD s) (sk_ReliabilityScore s) (sk_MaturityLevel s) (sk_CreatedAt s)
    (sk_LastUpdatedAt s) (sk_Name s) (sk_Category s)
    (if (0 <? length (sk_ToolsRequired s))%nat then marshal (sk_ToolsRequired s) else "[]")
    (sk_RiskLevel s) (sk_DefaultBudget s) (sk_Description s).

Definition toSkillDomain (m : AgentSkillModel) : AgentSkill F :=
  mkSkill (km_ID m) (km_OrgID m) (km_AgentRole m) (km_SkillKey m) (km_SuccessCount m) (km_FailureCount m)
    (km_AvgDurationMS m) (km_AvgCostUSD m) (km_ReliabilityScore m) (km_MaturityLevel m) (km_LastUpdatedAt m)
    (km_CreatedAt m) (km_Name m) (km_Category m)
    (if String.eqb (km_ToolsRequired m) "" || String.eqb (km_ToolsRequired m) "[]" then []
     else json_or [] (km_ToolsRequired m))
    (km_RiskLevel m) (km_DefaultBudget m) (km_Description m).

(** The rows of [agent_skills]; the unique index is the key of the table. *)
Record SkillRepository := mkSkillRepo {
  kr_world : W;
  kr_rows : gmap (uuid * string * string) AgentSkillModel;
}.

Definition skill_row (orgID : uuid) (role key : string) : uuid * string * string := (orgID, role, key).

Definition skill_stmt (r : SkillRepository) : option error * SkillRepository :=
  let '(err, w) := w_db (kr_world r) in (err, mkSkillRepo w (kr_rows r)).

Definition repo_GetSkill (orgID : uuid) (role : AgentRole) (key : string) (r : SkillRepository)
    : result error (AgentSkill F) * SkillRepository :=
  let '(err, r) := skill_stmt r in
  match err with
  | Some e => (Err (Wrap "getting skill" e), r)
  | None =>
      (match kr_rows r !! skill_row orgID role key with
       | None => Err (Wrap "getting skill" (Errorf "record not found"))
       | Some m => Ok (toSkillDomain m)
       end, r)
  end.

(** What [ON CONFLICT ... DO UPDATE] keeps of the old row. *)
Definition overwritten (old new : AgentSkillModel) : AgentSkillModel :=
  mkSkillModel (km_ID old) (km_OrgID old) (km_AgentRole old) (km_SkillKey old) (km_SuccessCount new)
    (km_FailureCount new) (km_AvgDurationMS new) (km_AvgCostUSD new) (km_ReliabilityScore new)
    (km_MaturityLevel new) (km_CreatedAt old) (km_LastUpdatedAt new) (km_Name new) (km_Category new)
    (km_ToolsRequired new) (km_RiskLevel new) (km_DefaultBudget new) (km_Description new).

Definition repo_UpsertSkill (skill : AgentSkill F) (r : SkillRepository) : option error * SkillRepository :=
  let new := toSkillModel skill in
  let row := skill_row (km_OrgID new) (km_AgentRole new) (km_SkillKey new) in
  let '(err, r) := skill_stmt r in
  match err with
  | Some e => (Some (Wrap "upserting skill" e), r)
  | None =>
      (None, mkSkillRepo (kr_world r)
               (<[row := match kr_rows r !! row with None => new | Some old => overwritten old new end]> (kr_rows r)))
  end.

Context `{!GoSort AgentSkillModel}.

Definition repo_ListSkillsByRole (orgID : uuid) (role : AgentRole) (r : SkillRepository)
    : result error (list (AgentSkill F)) * SkillRepository :=
  let '(err, r) := skill_stmt r in
  match err with
  | Some e => (Err (Wrap "listing skills for role" e), r)
  | None =>
      (Ok (map toSkillDomain (go_sort (fun a b => String.ltb (km_SkillKey a) (km_SkillKey b))
        (List.filter (fun m => bool_decide (km_OrgID m = orgID) && String.eqb (km_AgentRole m) role)
           (map_to_list (kr_rows r)).*2))), r)
  end.

#[export] Instance database_skills : SkillStore F SkillRepository := {
  store_GetSkill := repo_GetSkill;
  store_UpsertSkill := repo_UpsertSkill;
}.
End skill_repo.

Arguments AgentSkillModel F : clear implicits.
Arguments SkillRepository F W : clear implicits.

(** ** Seeding *)

Record SeedResult := mkSeedResult { se_Seeded : Z; se_Skipped : Z }.

Section seeding.
Context {F T W : Type} `{!Num F} `{!SkillStore F T} `{!World W}.

Abbreviation SM := (st (T * W)).

Definition on_store {A} (f : T -> A * T) : SM A := fun s => let '(a, t) := f s.1 in (a, (t, s.2)).
Definition on_clock {A} (f : W -> A * W) : SM A := fun s => let '(a, w) := f s.2 in (a, (s.1, w)).

Definition seeded_skill (id orgID : uuid) (def : SkillDefinition F) (now : Time) : AgentSkill F :=
  mkSkill id orgID (sd_AgentRole def) (sd_SkillKey def) 0 0 (nofZ 0) (nofZ 0) (nofZ 0) SkillBasic now now
    (sd_Name def) (sd_Category def) (sd_ToolsRequired def) (sd_RiskLevel def) (sd_DefaultBudget def)
    (sd_Description def).

Definition seed_one (orgID : uuid) (def : SkillDefinition F) (r : SeedResult) : SM SeedResult :=
  existing ← on_store (store_GetSkill orgID (sd_AgentRole def) (sd_SkillKey def));
  match existing with
  | Ok _ => mret (mkSeedResult (se_Seeded r) (se_Skipped r + 1))
  | Err _ =>
      now ← on_clock w_now;
      id ← on_clock w_uuid;
      err ← on_store (store_UpsertSkill (seeded_skill id orgID def now));
      match err with
      | Some _ => mret r
      | None => mret (mkSeedResult (se_Seeded r + 1) (se_Skipped r))
      end
  end.

Fixpoint seed_from (orgID : uuid) (r : SeedResult) (defs : list (SkillDefinition F)) : SM SeedResult :=
  match defs with
  | [] => mret r
  | def :: defs => r ← seed_one orgID def r; seed_from orgID r defs
  end.

Definition SeedSkills (orgID : uuid) (defs : list (SkillDefinition F)) : SM SeedResult :=
  seed_from orgID (mkSeedResult 0 0) defs.
End seeding.

(** ** The poller *)

Record SkillPollerConfig := mkSkillPollerConfig {
  kc_SkillsDirs : list string;
  kc_OrgID : uuid;
}.

(** [fileState]. *)
Record skill_file := mkSkillFile { sf_Hash : string; sf_SkillKey : string }.

(** [filepath.Abs] of a file in a directory, in the working directory [cwd]. *)
Definition abs_path (cwd : result error path) (dir name : string) : result error string :=
  match filepath_Abs (mkFS ∅ cwd) (skill_path dir name) with
  | Ok p => Ok (render p)
  | Err e => Err e
  end.

(** The skill files of a directory, with their absolute paths; none when it cannot be read. *)
Definition skill_entries (cwd : result error path) (d : disk) (dir : string) : list (string * result error string) :=
  match d dir with
  | Err _ => []
  | Ok es =>
      omap (fun e => match abs_path cwd dir (de_Name e) with
                     | Ok p => Some (p, de_Content e)
                     | Err _ => None
                     end) (List.filter is_skill_file es)
  end.

Section poller.
Context {F T W : Type} `{!Num F} `{!SkillYaml F} `{!Sha256} `{!SkillStore F T} `{!World W}.
Context `{!MapRange string skill_file} `{!MapRange string (SkillDefinition F)}.

Record SkillPoller := mkSkillPoller {
  kp_config : SkillPollerConfig;
  kp_registered : option (string -> bool);
  kp_onReload : bool;
  kp_cwd : result error path;
}.

(** The maps of the poller, the store it seeds, and the calls of [onReload]. *)
Record PollerState := mkPollerState {
  ps_world : W;
  ps_store : option T;
  ps_active : gmap string (SkillDefinition F);
  ps_files : gmap string skill_file;
  ps_reloads : list (list (SkillDefinition F));
}.

Abbreviation KM := (st PollerState).

Definition ActiveSkills (s : PollerState) : list (SkillDefinition F) := (map_range (ps_active s)).*2.

Definition seed_active (orgID : uuid) (def : SkillDefinition F) : KM unit := fun s =>
  match ps_store s with
  | None => (tt, s)
  | Some t =>
      let '(_, (t, w)) := SeedSkills orgID [def] (t, ps_world s) in
      (tt, mkPollerState w (Some t) (ps_active s) (ps_files s) (ps_reloads s))
  end.

Definition activate (path hash : string) (def : SkillDefinition F) (s : PollerState) : PollerState :=
  mkPollerState (ps_world s) (ps_store s) (<[sd_SkillKey def := def]> (ps_active s))
    (<[path := mkSkillFile hash (sd_SkillKey def)]> (ps_files s)) (ps_reloads s).

(** Whether the last known content of a file had this hash. *)
Definition unchanged (s : PollerState) (path hash : string) : bool :=
  match ps_files s !! path with Some f => String.eqb (sf_Hash f) hash | None => false end.

(** One file of the scan, and whether the skills changed. *)
Definition sync_skill (p : SkillPoller) (f : string * result error string) : KM bool :=
  match f.2 with
  | Err _ => mret false
  | Ok text =>
      let hash := sha256_hex text in
      same ← st_get (fun s => unchanged s f.1 hash);
      if (same : bool) then mret false
      else
        match ParseFile f.1 f.2 with
        | Err _ => mret false
        | Ok def =>
            match Validate (kp_registered p) def with
            | Some _ => mret false
            | None =>
                _ ← seed_active (kc_OrgID (kp_config p)) def;
                _ ← st_modify (activate f.1 hash def);
                mret true
            end
        end
  end.

Definition forget (path key : string) (s : PollerState) : PollerState :=
  mkPollerState (ps_world s) (ps_store s) (delete key (ps_active s)) (delete path (ps_files s)) (ps_reloads s).

Definition remove_skill (current : list string) (f : string * skill_file) : KM bool :=
  if slice_contains current f.1 then mret false
  else _ ← st_modify (forget f.1 (sf_SkillKey f.2)); mret true.

(** Do [f] for each element, and tell whether one of them answered true. *)
Fixpoint st_any {S A} (f : A -> st S bool) (l : list A) : st S bool :=
  match l with
  | [] => mret false
  | x :: l => b ← f x; c ← st_any f l; mret (b || c)
  end.

(** All files of a scan, in the order of the directories. *)
Definition scanned (p : SkillPoller) (d : disk) : list (string * result error string) :=
  concat (map (skill_entries (kp_cwd p) d) (kc_SkillsDirs (kp_config p))).

Definition syncAll (p : SkillPoller) (d : disk) : KM unit :=
  changed ← st_any (sync_skill p) (scanned p d);
  files ← st_get (fun s => map_range (ps_files s));
  removed ← st_any (remove_skill (scanned p d).*1) files;
  if ((changed || removed) && kp_onReload p : bool)
  then st_modify (fun s => mkPollerState (ps_world s) (ps_store s) (ps_active s) (ps_files s)
                             (ps_reloads s ++ [ActiveSkills s]))
  else mret tt.

(** [Run]: a synchronisation at the start and one at each tick, with the directories as they
    are then. *)
Definition Run (p : SkillPoller) (disks : list disk) : KM unit := st_each (syncAll p) disks.
End poller.

Arguments PollerState F T W : clear implicits.

(** ** Matching runbooks *)

(** [math.Log]. *)
Class MathLog (F : Type) := { math_Log : F -> F }.

Definition stopWords : list string :=
  ["the"; "and"; "for"; "are"; "but"; "not"; "you"; "all"; "can"; "has"; "her"; "was"; "one"; "our";
   "out"; "with"; "that"; "this"; "from"; "have"; "been"; "will"; "they"; "when"; "what"; "your";
   "which"; "their"; "about"; "would"; "there"; "should"; "each"; "make"; "like"; "than"; "them";
   "then"; "into"; "some"].

Definition tokenize (text : string) : list string :=
  List.filter (fun w => (2 <? String.length w)%nat && negb (slice_contains stopWords w))
    (fields_from "" (to_lower text)).

Section matcher.
Context {F : Type} `{!Num F} `{!MathLog F}.
Local Open Scope go_scope.

Definition runbook_tokens (def : SkillDefinition F) : list string :=
  tokenize (sd_Name def +:+ " " +:+ sd_Category def +:+ " " +:+ sd_Description def).

(** [df[token]]: the runbooks that have it. *)
Definition doc_frequency (defs : list (SkillDefinition F)) (token : string) : Z :=
  Z.of_nat (countb (fun def => slice_contains (runbook_tokens def) token) defs).

Definition tf_idf (defs : list (SkillDefinition F)) (docTokens : list string) (token : string) : F :=
  (nofZ (Z.of_nat (countb (String.eqb token) docTokens)) /f nofZ (Z.of_nat (length docTokens)))
  *f math_Log (nofZ 1 +f nofZ (Z.of_nat (length defs)) /f nofZ (1 + doc_frequency defs token)).

Definition runbook_score (query : string) (defs : list (SkillDefinition F)) (def : SkillDefinition F) : F :=
  let score := fold_left (fun score qt => score +f tf_idf defs (runbook_tokens def) qt) (tokenize query) (nofZ 0) in
  let nameLower := to_lower (sd_Name def) in
  let queryLower := to_lower query in
  let score := if contains queryLower nameLower || contains nameLower queryLower then score *f nofZ 2 else score in
  if contains queryLower (to_lower (sd_Category def)) then score *f nlit 15 10 else score.

Definition score_match (query : string) (defs : list (SkillDefinition F)) (def : SkillDefinition F)
    : option (SkillDefinition F * F) :=
  if (length (runbook_tokens def) =? 0)%nat then None
  else
    let score := runbook_score query defs def in
    if score >f? nlit 1 100 then Some (def, score) else None.

Context `{!GoSort (SkillDefinition F * F)}.

Definition MatchRunbooks (query : string) (defs : list (SkillDefinition F)) (topN : Z)
    : list (SkillDefinition F * F) :=
  if (length defs =? 0)%nat || (topN <=? 0)%Z then []
  else if (length (tokenize query) =? 0)%nat then []
  else
    let matches := go_sort (fun a b => a.2 >f? b.2) (omap (score_match query defs) defs) in
    if (topN <? Z.of_nat (length matches))%Z then take (Z.to_nat topN) matches else matches.
End matcher.

(** ** Texts for the prompt *)

(** The verb [%.0f]. *)
Class WholeFormat (F : Type) := { fmt_whole : F -> string }.

Definition firstSentence (s : string) : string :=
  let s := TrimSpace s in
  match cut s ". " with
  | Some (a, _) => a +:+ "."
  | None =>
      match cut s ("." +:+ newline) with
      | Some (a, _) => a +:+ "."
      | None => if (200 <? String.length s)%nat then str_take 200 s +:+ "..." else s
      end
  end.

Section summaries.
Context {F : Type} `{!Num F} `{!Render} `{!WholeFormat F}.
Local Open Scope go_scope.

Record SkillPerformance := mkPerformance {
  sp_SkillKey : string;
  sp_ReliabilityScore : F;
  sp_AvgDurationMS : F;
  sp_MaturityLevel : string;
  sp_TotalExecutions : Z;
}.

Definition summary_head : string :=
  "You have the following specialized skills available:" +:+ newline +:+ newline.

Definition summary_lines (def : SkillDefinition F) : string :=
  "- **" +:+ sd_Name def +:+ "** (" +:+ sd_Category def +:+ ", risk: " +:+ sd_RiskLevel def +:+ "): "
  +:+ firstSentence (sd_Description def) +:+ newline
  +:+ "  Tools: " +:+ String.concat ", " (sd_ToolsRequired def) +:+ newline.

Definition RenderSkillSummary (defs : list (SkillDefinition F)) : string :=
  if (length defs =? 0)%nat then "" else fold_left (fun s def => s +:+ summary_lines def) defs summary_head.

Definition performance_line (perf : gmap string SkillPerformance) (def : SkillDefinition F) : string :=
  match perf !! sd_SkillKey def with
  | Some p =>
      if (10 <=? sp_TotalExecutions p)%Z
      then "  Performance: " +:+ fmt_whole (sp_ReliabilityScore p *f nofZ 100) +:+ "% reliability, avg "
           +:+ fmt_whole (sp_AvgDurationMS p) +:+ "ms, maturity: " +:+ sp_MaturityLevel p +:+ newline
      else ""
  | None => ""
  end.

Definition RenderSkillSummaryWithPerformance (defs : list (SkillDefinition F)) (perf : gmap string SkillPerformance)
    : string :=
  if (length defs =? 0)%nat then ""
  else fold_left (fun s def => s +:+ summary_lines def +:+ performance_line perf def) defs summary_head.

Definition RenderSkillSummaryCompact (defs : list (SkillDefinition F)) : string :=
  if (length defs =? 0)%nat then "" else "Available skills: " +:+ String.concat ", " (map sd_Name defs) +:+ ".".
End summaries.

(** * What the skill loader guarantees

    Which files a directory and a pack admit, that seeding never touches a known skill, and
    that the skills of the poller are those of the files it sees. *)

(** ** Directories and packs *)

Section load_properties.
Context {F : Type} `{!Num F} `{!SkillYaml F} `{!ErrorText} `{!Sha256}.

Lemma load_all_spec {A} (load : string -> result error string -> result error A) dir es as_ r :
  load_all load dir es = (as_, r) ->
  (forall a, a ∈ as_ <-> exists e, e ∈ es /\ is_skill_file e = true /\
     load (skill_path dir (de_Name e)) (de_Content e) = Ok a) /\
  (forall path, path ∈ map ld_File (ld_Errors r) <-> exists e, e ∈ es /\ is_skill_file e = true /\
     path = skill_path dir (de_Name e) /\ is_ok (load path (de_Content e)) = false) /\
  ld_Loaded r = Z.of_nat (length as_) /\
  length as_ + length (ld_Errors r) = countb is_skill_file es.
Proof.
  assert (forall l acc as_ r,
    fold_left (fun acc e => loaded (skill_path dir (de_Name e)) (load (skill_path dir (de_Name e)) (de_Content e)) acc)
      l acc = (as_, r) ->
    ld_Loaded acc.2 = Z.of_nat (length acc.1) ->
    (forall a, a ∈ as_ <-> a ∈ acc.1 \/ exists e, e ∈ l /\ load (skill_path dir (de_Name e)) (de_Content e) = Ok a) /\
    (forall path, path ∈ map ld_File (ld_Errors r) <-> path ∈ map ld_File (ld_Errors acc.2) \/
       exists e, e ∈ l /\ path = skill_path dir (de_Name e) /\ is_ok (load path (de_Content e)) = false) /\
    ld_Loaded r = Z.of_nat (length as_) /\
    length as_ + length (ld_Errors r) = length acc.1 + length (ld_Errors acc.2) + length l) as Hfold.
  { induction l as [|e l IH]; intros acc as' r' E Hc; cbn [fold_left] in E.
    - subst acc. split; [|split; [|split; [done|simpl; lia]]].
      + intros a. split; [by left|]. intros [?|(e & []%not_elem_of_nil & _)]; done.
      + intros path. split; [by left|]. intros [?|(e & []%not_elem_of_nil & _)]; done.
    - apply IH in E as (Hin & He & Hn & Hl); [|unfold loaded; case_match; simpl; [rewrite length_app; simpl|]; lia].
      split; [|split; [|split; [done|]]].
      + intros a. rewrite Hin. unfold loaded. setoid_rewrite elem_of_cons. case_match eqn:El; simpl.
        * rewrite elem_of_app, list_elem_of_singleton. naive_solver congruence.
        * naive_solver congruence.
      + intros path. rewrite He. unfold loaded. setoid_rewrite elem_of_cons.
        destruct (load (skill_path dir (de_Name e)) (de_Content e)) as [a|x] eqn:El; simpl.
        * split; [naive_solver|]. intros [?|(e' & [->|?] & -> & Hf)]; [by left| |naive_solver]. by rewrite El in Hf.
        * rewrite map_app, elem_of_app. simpl. rewrite list_elem_of_singleton. split.
          -- intros [[?| ->]|?]; [by left| |naive_solver]. right. exists e. rewrite El. naive_solver.
          -- intros [?|(e' & [->|?] & -> & Hf)]; [by left; left|by left; right|]. right. by exists e'.
      + rewrite Hl. unfold loaded. case_match; simpl; rewrite length_app; simpl; lia. }
  unfold load_all. intros E. apply Hfold in E as (Hin & He & Hn & Hl); [|done].
  split; [|split; [|split; [done|]]].
  - intros a. rewrite Hin. setoid_rewrite list_elem_of_In. setoid_rewrite filter_In. simpl. naive_solver.
  - intros path. rewrite He. setoid_rewrite list_elem_of_In. setoid_rewrite filter_In. simpl. naive_solver.
  - unfold countb. simpl in Hl. lia.
Qed.

(** *** Frontmatter *)

Lemma until_close_Some lines front body :
  until_close lines = Some (front, body) <->
  exists close, lines = front ++ close :: body /\ TrimSpace close = "---" /\ Forall (fun l => TrimSpace l <> "---") front.
Proof.
  revert front. induction lines as [|l lines IH]; intros front; simpl.
  - split; [done|]. intros (close & E & _). by destruct front.
  - destruct (String.eqb_spec (TrimSpace l) "---") as [El|El].
    + split; [intros [= <- <-]; by exists l|]. intros (close & E & _ & Hf). destruct front as [|x front].
      * by injection E as <- <-.
      * injection E as <- _. by apply Forall_cons in Hf as [? _].
    + destruct (until_close lines) as [[f b]|].
      * split.
        -- intros [= <- <-]. destruct (proj1 (IH f)) as (close & -> & Hc & Hf); [done|]. exists close. by repeat constructor.
        -- intros (close & E & Hc & Hf). destruct front as [|x front]; [by injection E as -> _|].
           injection E as <- ->. apply Forall_cons in Hf as [_ Hf].
           assert (Some (f, b) = Some (front, body)) as [= -> ->]; [|done]. apply IH. by exists close.
      * split; [done|]. intros (close & E & Hc & Hf). destruct front as [|x front]; [by injection E as -> _|].
        injection E as _ ->. apply Forall_cons in Hf as [_ Hf].
        assert (None = Some (front, body)); [|done]. apply IH. by exists close.
Qed.

(** A text whose first line and a later one are [---]: the lines between them, and the
    trimmed text after the second. *)
Definition has_frontmatter (text front body : string) : Prop :=
  exists first fr close rest, scan_lines text = (first :: fr ++ close :: rest, None) /\
    TrimSpace first = "---" /\ TrimSpace close = "---" /\ Forall (fun l => TrimSpace l <> "---") fr /\
    front = String.concat newline fr /\ body = TrimSpace (String.concat newline rest).

Lemma frontmatter_exact content front body :
  frontmatter_of content = Ok (front, body) <-> exists text, content = Ok text /\ has_frontmatter text front body.
Proof.
  unfold frontmatter_of, has_frontmatter. destruct content as [text|e]; [|split; [done|by intros (? & [=] & _)]].
  split.
  - destruct (scan_lines text) as [[|first lines] err] eqn:Es; [done|].
    destruct (String.eqb_spec (TrimSpace first) "---") as [Ef|]; [|done]. cbn [negb].
    destruct (until_close lines) as [[fr rest]|] eqn:Eu; [|done]. destruct err; [done|]. intros [= <- <-].
    apply until_close_Some in Eu as (close & -> & Hc & Hf). exists text. split; [done|].
    rewrite Es. by exists first, fr, close, rest.
  - intros (text' & [= <-] & first & fr & close & rest & -> & Ef & Hc & Hf & -> & ->). rewrite Ef. cbn.
    by rewrite (proj2 (until_close_Some _ fr rest)) by (by exists close).
Qed.

(** *** Versions *)

Definition all_chars (p : Ascii.ascii -> bool) (s : string) : Prop := Forall (fun c => p c = true) (String.list_ascii_of_string s).

(** The rest of a text does not go on in the class. *)
Definition stops (p : Ascii.ascii -> bool) (s : string) : Prop :=
  match s with String c _ => p c = false | EmptyString => True end.

Lemma span_exact p s x y : span p s = (x, y) <-> s = x +:+ y /\ all_chars p x /\ stops p y.
Proof.
  unfold all_chars. revert x y. induction s as [|c s IH]; intros x y; simpl.
  - split; [intros [= <- <-]; by repeat constructor|]. intros (E & _ & _). by destruct x, y.
  - destruct (p c) eqn:Ec.
    + destruct (span p s) as [x' y'] eqn:Es. destruct (proj1 (IH x' y') eq_refl) as (E & Hx & Hy). split.
      * intros [= <- <-]. split; [by rewrite E at 1|]. split; [by constructor|done].
      * intros (E' & Hx' & Hy'). destruct x as [|a x].
        { change ("" +:+ y) with y in E'. subst y. simpl in Hy'. congruence. }
        injection E' as <- E'. apply Forall_cons in Hx' as [_ Hx'].
        by injection (proj2 (IH x y) (conj E' (conj Hx' Hy'))) as -> ->.
    + split; [intros [= <- <-]; by repeat constructor|]. intros (E & Hx & Hy). destruct x as [|a x].
      * by change ("" +:+ y) with y in E; subst y.
      * injection E as <- _. apply Forall_cons in Hx as [Hx _]. congruence.
Qed.

(** A part of digits, and an optional part of a version after its mark. *)
Definition digits (s : string) : Prop := s <> "" /\ all_chars is_digit s.
Definition tagged (mark : string) (s : string) : Prop :=
  s = "" \/ exists tag, s = mark +:+ tag /\ tag <> "" /\ all_chars is_tag_char tag.

(** [MAJOR.MINOR.PATCH], with a pre-release and build metadata or without. *)
Definition semantic_version (v : string) : Prop :=
  exists a b c pre build, v = a +:+ "." +:+ b +:+ "." +:+ c +:+ pre +:+ build /\
    digits a /\ digits b /\ digits c /\ tagged "-" pre /\ tagged "+" build.

Lemma number_exact s d rest : number s = Some (d, rest) <-> s = d +:+ rest /\ digits d /\ stops is_digit rest.
Proof.
  unfold number, digits. destruct (span is_digit s) as [x y] eqn:Es. apply span_exact in Es as Hs.
  destruct (String.eqb_spec x "") as [->|Hx].
  - split; [done|]. intros (E & [Hd Ha] & Hr). assert (span is_digit s = (d, rest)) as E' by (by apply span_exact). congruence.
  - split; [intros [= <- <-]; tauto|]. intros (E & [Hd Ha] & Hr).
    assert (span is_digit s = (d, rest)) as E' by (by apply span_exact). congruence.
Qed.

Lemma dot_exact s rest : dot s = Some rest <-> s = "." +:+ rest.
Proof.
  destruct s as [|c s]; simpl; [split; [done|by intros [=]]|].
  destruct (Ascii.eqb_spec c "."%char) as [->|Hc]; split; [by intros [= ->]|by intros [= ->]|done|by intros [= ->]].
Qed.

(** What is left after an optional part, when the rest does not go on with it. *)
Lemma optional_tag_skips mark pre rest :
  tagged (String mark "") pre -> stops is_tag_char rest -> stops (fun c => Ascii.eqb c mark) rest ->
  optional_tag mark (pre +:+ rest) = rest.
Proof.
  intros [->|(tag & -> & Ht & Ha)] Hr Hm.
  - change ("" +:+ rest) with rest. destruct rest as [|c rest]; [done|]. simpl in Hm |- *. by rewrite Hm.
  - change ((String mark "" +:+ tag) +:+ rest) with (String mark (tag +:+ rest)). simpl. rewrite Ascii.eqb_refl.
    assert (span is_tag_char (tag +:+ rest) = (tag, rest)) as -> by (by apply span_exact).
    by rewrite (proj2 (String.eqb_neq _ _) Ht).
Qed.

Lemma optional_tag_split mark s : exists pre, s = pre +:+ optional_tag mark s /\ tagged (String mark "") pre.
Proof.
  unfold tagged. destruct s as [|c s]; simpl; [by exists ""; auto|].
  destruct (Ascii.eqb_spec c mark) as [->|Hc]; [|by exists ""; auto].
  destruct (span is_tag_char s) as [x y] eqn:Es. apply span_exact in Es as (-> & Hx & Hy).
  destruct (String.eqb_spec x "") as [->|Hne]; [by exists ""; auto|].
  exists (String mark x). split; [done|]. right. by exists x.
Qed.

Lemma tagged_starts mark s : tagged (String mark "") s -> s = "" \/ exists s', s = String mark s'.
Proof. intros [->|(tag & -> & _)]; [by left|right; by exists tag]. Qed.

Lemma number_skips d rest : digits d -> stops is_digit rest -> number (d +:+ rest) = Some (d, rest).
Proof. intros. by apply number_exact. Qed.

(** The test of a version is the grammar of versions. *)
Lemma semver_exact v : is_Some (semver v) <-> semantic_version v.
Proof.
  unfold semver, semantic_version. split.
  - intros [x E]. apply bind_Some in E as ([a s1] & (-> & Ha & _)%number_exact & E).
    apply bind_Some in E as (s2 & ->%dot_exact & E). apply bind_Some in E as ([b s3] & (-> & Hb & _)%number_exact & E).
    apply bind_Some in E as (s4 & ->%dot_exact & E). apply bind_Some in E as ([c s5] & (-> & Hc & _)%number_exact & E).
    destruct (optional_tag_split "-"%char s5) as (pre & E1 & Hpre).
    destruct (String.eqb_spec (optional_tag "+"%char (optional_tag "-"%char s5)) "") as [Et|]; [|done].
    destruct (optional_tag_split "+"%char (optional_tag "-"%char s5)) as (build & E2 & Hbuild).
    rewrite Et, str_app_nil in E2. rewrite E2 in E1. exists a, b, c, pre, build. by rewrite <-E1.
  - intros (a & b & c & pre & build & -> & Ha & Hb & Hc & Hpre & Hbuild).
    assert (forall d s, digits d -> number (d +:+ "." +:+ s) = Some (d, "." +:+ s)) as Hn by (intros; by apply number_skips).
    assert (forall s, dot ("." +:+ s) = Some s) as Hd by done.
    assert (stops is_digit (pre +:+ build)) as Hs.
    { destruct (tagged_starts _ _ Hpre) as [->|[? ->]]; [|done].
      by destruct (tagged_starts _ _ Hbuild) as [->|[? ->]]. }
    rewrite Hn by done. cbn [mbind option_bind]. rewrite Hd. cbn [mbind option_bind]. rewrite Hn by done. cbn [mbind option_bind].
    rewrite Hd. cbn [mbind option_bind]. rewrite number_skips by done. cbn [mbind option_bind].
    rewrite (optional_tag_skips "-"%char pre build); [|done|..].
    + rewrite <-(str_app_nil build), optional_tag_skips by done. by eexists.
    + by destruct (tagged_starts _ _ Hbuild) as [->|[? ->]].
    + by destruct (tagged_starts _ _ Hbuild) as [->|[? ->]].
Qed.

Lemma component_nonneg ds : all_chars is_digit ds -> (0 <= component ds)%Z.
Proof.
  unfold component, all_chars. intros Hd. apply Z.min_glb; [lia|].
  assert (forall l v, (0 <= v)%Z -> Forall (fun c => is_digit c = true) l ->
    (0 <= fold_left (fun v c => v * 10 + (Z.of_N (Ascii.N_of_ascii c) - 48)) l v)%Z) as Hfold.
  { induction l as [|c l IH]; intros v Hv Hl; [done|]. apply Forall_cons in Hl as [Hc Hl]. simpl. apply IH; [|done].
    unfold is_digit in Hc. apply andb_true_iff in Hc as [Hc _]. apply N.leb_le in Hc. lia. }
  by apply Hfold.
Qed.

Lemma ValidateIntegrity_None (m : SkillManifest F) body :
  ValidateIntegrity m body = None <->
  sm_ContentHash m = "" \/ sm_ContentHash m = sha256_hex body /\ has_prefix (sha256_hex body) "sha256:" = false \/
  sm_ContentHash m = "sha256:" +:+ sha256_hex body.
Proof.
  unfold ValidateIntegrity. destruct (String.eqb_spec (sm_ContentHash m) "") as [E|Hne]; [tauto|].
  destruct (has_prefix (sm_ContentHash m) "sha256:") eqn:Ep.
  - destruct (String.eqb_spec ("sha256:" +:+ sha256_hex body) (sm_ContentHash m)) as [E|E]; simpl.
    + split; [by right; right|done].
    + split; [done|]. intros [?|[[E' Hp]|?]]; [done| |congruence]. rewrite E', Hp in Ep. done.
  - destruct (String.eqb_spec ("sha256:" +:+ sha256_hex body) ("sha256:" +:+ sm_ContentHash m)) as [E|E]; simpl.
    + apply str_app_inj_l in E. split; [|done]. intros _. right; left. by rewrite E.
    + split; [done|]. intros [?|[[E' _]|E']]; [done|by rewrite E' in E|].
      rewrite E' in Ep. exfalso. apply not_true_iff_false in Ep. apply Ep, has_prefix_spec. by eexists.
Qed.

Lemma first_denied_None check msg vs : first_denied check msg vs = None <-> forall v, v ∈ vs -> check v = None.
Proof.
  induction vs as [|v vs IH]; simpl; [split; [by intros _ v ?%not_elem_of_nil|done]|].
  setoid_rewrite elem_of_cons. destruct (check v) eqn:E; [|rewrite IH; naive_solver].
  split; [done|]. intros Hall. specialize (Hall v (or_introl eq_refl)). congruence.
Qed.

(** What a pack may use, when an enforcer holds a policy. *)
Definition permitted (pl : PackLoader) (m : SkillManifest F) : Prop :=
  forall pe, pl_policyEnforcer pl = Some pe ->
    (forall t, t ∈ sm_ToolsRequired m -> CheckToolAllowed pe (pl_agentID pl) t = None) /\
    (forall h, h ∈ sm_RequestedDomains m -> CheckDomainAllowed pe (pl_agentID pl) h = None) /\
    (forall f, f ∈ sm_RequestedPaths m -> CheckPathAllowed pe (pl_agentID pl) f = None).

Lemma ValidatePermissions_None pl (m : SkillManifest F) :
  ValidatePermissions (pl_policyEnforcer pl) (pl_agentID pl) m = None <-> permitted pl m.
Proof.
  unfold ValidatePermissions, permitted. destruct (pl_policyEnforcer pl) as [pe|]; [|naive_solver].
  destruct (first_denied (CheckToolAllowed _ _) _ _) eqn:Et.
  { split; [done|]. intros Hall. destruct (Hall pe eq_refl) as [Ht _].
    by rewrite (proj2 (first_denied_None _ _ _) Ht) in Et. }
  destruct (first_denied (CheckDomainAllowed _ _) _ _) eqn:Ed.
  { split; [done|]. intros Hall. destruct (Hall pe eq_refl) as (_ & Hd & _).
    by rewrite (proj2 (first_denied_None _ _ _) Hd) in Ed. }
  rewrite first_denied_None in *. naive_solver.
Qed.

(** What [Validate] accepts. *)
Record valid_skill (registered : option (string -> bool)) (def : SkillDefinition F) : Prop := {
  vs_name : sd_Name def <> "";
  vs_role : sd_AgentRole def <> "" /\ ValidateRole (sd_AgentRole def) = None;
  vs_tools : sd_ToolsRequired def <> [];
  vs_known : forall known, registered = Some known -> forall t, t ∈ sd_ToolsRequired def -> known t = true;
  vs_risk : sd_RiskLevel def ∈ validRiskLevels;
  vs_budget : nleb (sd_DefaultBudget def) (nofZ 0) = false;
}.

Lemma Validate_None registered (def : SkillDefinition F) :
  Validate registered def = None <-> valid_skill registered def.
Proof.
  unfold Validate. split.
  - destruct (String.eqb_spec (sd_Name def) ""); [done|]. destruct (String.eqb_spec (sd_AgentRole def) ""); [done|].
    destruct (ValidateRole _) eqn:Er; [done|]. destruct (Nat.eqb_spec (length (sd_ToolsRequired def)) 0) as [|Hl]; [done|].
    destruct (match registered with None => false | Some known => _ end) eqn:Ek; [done|].
    destruct (slice_contains validRiskLevels _) eqn:Ev; [|done]. destruct (nleb _ _) eqn:Eb; [done|]. intros _.
    split; try done; [by intros E; rewrite E in Hl| |by apply slice_contains_true].
    intros known -> t Ht. apply not_true_iff_false in Ek. destruct (known t) eqn:Et; [done|]. exfalso. apply Ek.
    apply existsb_exists. exists t. rewrite Et. split; [by apply list_elem_of_In|done].
  - intros [Hn [Hr Hr'] Ht Hk Hv Hb].
    rewrite (proj2 (String.eqb_neq _ _) Hn), (proj2 (String.eqb_neq _ _) Hr), Hr'.
    destruct (sd_ToolsRequired def) as [|t ts] eqn:E; [done|]. simpl length. rewrite <-E in *. cbn [Nat.eqb].
    rewrite (proj2 (slice_contains_true _ _) Hv), Hb.
    destruct registered as [known|]; [|done]. destruct (existsb _ _) eqn:Ex; [|done].
    apply existsb_exists in Ex as (t' & Hin & Hf%negb_true_iff). apply list_elem_of_In in Hin.
    by rewrite (Hk known eq_refl t' Hin) in Hf.
Qed.

Lemma ValidateVersion_None (m : SkillManifest F) : ValidateVersion m = None <-> semantic_version (sm_Version m).
Proof.
  rewrite <-semver_exact. unfold ValidateVersion. destruct (String.eqb_spec (sm_Version m) "") as [->|Hne].
  { split; [done|]. by intros [? [=]]. }
  destruct (semver (sm_Version m)) as [[[a b] c]|] eqn:E; [|split; [done|by intros [? [=]]]].
  unfold semver in E. apply bind_Some in E as ([a' s1] & (_ & [_ Ha] & _)%number_exact & E).
  apply bind_Some in E as (s2 & _ & E). apply bind_Some in E as ([b' s3] & (_ & [_ Hb] & _)%number_exact & E).
  apply bind_Some in E as (s4 & _ & E). apply bind_Some in E as ([c' s5] & (_ & [_ Hc] & _)%number_exact & E).
  destruct (String.eqb _ _); [|done]. injection E as -> -> ->. simpl.
  pose proof (component_nonneg _ Ha). pose proof (component_nonneg _ Hb). pose proof (component_nonneg _ Hc).
  rewrite !(proj2 (Z.ltb_ge _ _)) by done. split; [by eexists|done].
Qed.

(** What a file of a pack must be for its manifest [m] to be admitted, in the terms of the
    checks a pack promises. *)
Record admissible (pl : PackLoader) (path : string) (content : result error string) (m : SkillManifest F) : Prop := {
  ad_file : exists text front m0, content = Ok text /\ has_frontmatter text front (sm_Description m) /\
    yaml_manifest front = Ok m0 /\ m = locate_manifest m0 (sm_Description m) path;
  ad_version : semantic_version (sm_Version m);
  ad_hash : let sum := sha256_hex (sm_Description m) in
    sm_ContentHash m = "" \/ sm_ContentHash m = sum /\ has_prefix sum "sha256:" = false \/ sm_ContentHash m = "sha256:" +:+ sum;
  ad_skill : valid_skill (pl_registered pl) (ToSkillDefinition m);
  ad_policy : permitted pl m;
}.

Lemma load_manifest_exact pl path content m : load_manifest pl path content = Ok m <-> admissible pl path content m.
Proof.
  unfold load_manifest, parseManifestFile. split.
  - destruct (frontmatter_of content) as [[front body]|] eqn:Ef; [|done].
    apply frontmatter_exact in Ef as (text & Et & Hfront). destruct (yaml_manifest front) as [m0|] eqn:Ey; [|done].
    destruct (ValidateVersion _) eqn:Ev; [done|]. destruct (ValidateIntegrity _ _) eqn:Ei; [done|].
    destruct (Validate _ _) eqn:Ed; [done|]. destruct (ValidatePermissions _ _ _) eqn:Ep; [done|]. intros [= <-].
    apply ValidateVersion_None in Ev. apply ValidateIntegrity_None in Ei.
    apply Validate_None in Ed. apply ValidatePermissions_None in Ep. constructor; try done. by exists text, front, m0.
  - intros [(text & front & m0 & -> & Hfront & Ey & Em) Hv Hh Hs Hp].
    rewrite (proj2 (frontmatter_exact _ front (sm_Description m))) by (by exists text). rewrite Ey, <-Em.
    by rewrite (proj2 (ValidateVersion_None m) Hv), (proj2 (ValidateIntegrity_None m _) Hh), (proj2 (Validate_None _ _) Hs),
      (proj2 (ValidatePermissions_None pl m) Hp).
Qed.

(** C12: What a pack admits.  A manifest is loaded exactly when a skill file of the directory (not a
    directory, with the suffix .md) can be read, has a frontmatter that is its YAML, a
    semantic version, no hash or that of its body, makes a valid skill, and the policy
    permits its tools, domains and paths.  Every other skill file is reported under its path, and
    only those; each file gives one manifest or one report, and the manifests are counted. *)
Theorem pack_admits_checked pl (d : disk) dir es :
  d dir = Ok es -> exists ms r, LoadPack pl d dir = Ok (ms, r) /\
  (forall m, m ∈ ms <-> exists e, e ∈ es /\ is_skill_file e = true /\ admissible pl (skill_path dir (de_Name e)) (de_Content e) m) /\
  (forall path, path ∈ map ld_File (ld_Errors r) <-> exists e, e ∈ es /\ is_skill_file e = true /\
     path = skill_path dir (de_Name e) /\ forall m, ~ admissible pl path (de_Content e) m) /\
  ld_Loaded r = Z.of_nat (length ms) /\ length ms + length (ld_Errors r) = countb is_skill_file es.
Proof.
  unfold LoadPack. intros ->. destruct (load_all _ _ _) as [ms r] eqn:El. exists ms, r. split; [done|].
  apply load_all_spec in El as (Hin & He & Hn & Hl). split; [|split; [|done]].
  - intros m. rewrite Hin. by setoid_rewrite load_manifest_exact.
  - intros path. rewrite He. split; intros (e & Hes & Hf & -> & Hx); exists e; (split_and!; [done..|]).
    + intros m Hm%load_manifest_exact. by rewrite Hm in Hx.
    + destruct (load_manifest _ _ _) as [m|] eqn:E; [|done]. by apply load_manifest_exact, Hx in E.
Qed.
End load_properties.

(** ** Seeding the database *)

Section seed_properties.
Context {F W : Type} `{!Num F} `{!World W} `{!RowJson} `{!GoSort (AgentSkillModel F)}.
Implicit Types (def : SkillDefinition F) (t : SkillRepository F W).

Definition row_of (orgID : uuid) def : uuid * string * string :=
  skill_row orgID (sd_AgentRole def) (sd_SkillKey def).

(** What the next two statements of the repository answer. *)
Definition first_answer t : option error := (w_db (kr_world t)).1.
Definition second_answer t : option error := (w_db (w_db (kr_world t)).2).1.

(** Nothing was learned about the skill of a row. *)
Definition unlearned (m : AgentSkillModel F) : Prop :=
  km_SuccessCount m = 0%Z /\ km_FailureCount m = 0%Z /\ km_MaturityLevel m = SkillBasic /\
  km_AvgDurationMS m = nofZ 0 /\ km_AvgCostUSD m = nofZ 0 /\ km_ReliabilityScore m = nofZ 0.

(** Seeding one skill.  While the lookup answers, a known skill is left as it is and a new one
    is stored without any learned data.  A lookup that fails is taken for an unknown skill:
    when the next statement succeeds, what was learned about a known skill is gone. *)
Theorem seeding_outcome orgID def (r : SeedResult) t (w : W) :
  let '(r', (t', _)) := seed_one orgID def r (t, w) in
  (first_answer t = None -> is_Some (kr_rows t !! row_of orgID def) ->
     kr_rows t' = kr_rows t /\ r' = mkSeedResult (se_Seeded r) (se_Skipped r + 1)) /\
  (first_answer t = None -> kr_rows t !! row_of orgID def = None -> second_answer t = None ->
     exists m, kr_rows t' = <[row_of orgID def := m]> (kr_rows t) /\ unlearned m /\
       km_Name m = sd_Name def /\ km_RiskLevel m = sd_RiskLevel def /\ km_DefaultBudget m = sd_DefaultBudget def /\
       r' = mkSeedResult (se_Seeded r + 1) (se_Skipped r)) /\
  (forall old, first_answer t <> None -> kr_rows t !! row_of orgID def = Some old -> second_answer t = None ->
     exists m, kr_rows t' = <[row_of orgID def := m]> (kr_rows t) /\ unlearned m /\ km_ID m = km_ID old) /\
  (first_answer t <> None \/ kr_rows t !! row_of orgID def = None -> second_answer t <> None ->
     kr_rows t' = kr_rows t /\ r' = r).
Proof.
  unfold first_answer, second_answer, seed_one, on_store, on_clock. cbv [mbind st_bind mret st_ret].
  cbn [fst snd store_GetSkill store_UpsertSkill database_skills].
  unfold repo_GetSkill, repo_UpsertSkill, skill_stmt. destruct (w_db (kr_world t)) as [e1 w1].
  destruct (w_now w) as [now w'] eqn:En, (w_uuid w') as [id w''] eqn:Eu.
  destruct e1 as [e1|]; cbn.
  - rewrite En. cbn. rewrite Eu. cbn. destruct (w_db w1) as [[e2|] w2]; cbn.
    { split_and!; try done. }
    change (skill_row _ _ _) with (row_of orgID def).
    split_and!; try done. intros old _ -> _. by eexists.
  - change (skill_row _ _ _) with (row_of orgID def).
    destruct (kr_rows t !! row_of orgID def) as [m|] eqn:Em; cbn.
    { split_and!; try done. by intros [?|?]. }
    rewrite En. cbn. rewrite Eu. cbn. destruct (w_db w1) as [[e2|] w2]; cbn.
    { by split_and!. }
    change (skill_row _ _ _) with (row_of orgID def). rewrite Em. split_and!; try done.
    intros _ _ _. by eexists.
Qed.
End seed_properties.

(** ** The poller *)

Section poller_properties.
Context {F T W : Type} `{!Num F} `{!SkillYaml F} `{!Sha256} `{!SkillStore F T} `{!World W}.
Context `{!MapRange string skill_file} `{!MapRange string (SkillDefinition F)}.
Variable p : SkillPoller.
Implicit Types (s : PollerState F T W) (f : string * result error string).

Abbreviation load := (load_skill (F := F) (kp_registered p)).

Lemma load_key path content def : load path content = Ok def -> sd_SkillKey def = filenameStem path.
Proof.
  unfold load_skill, ParseFile. destruct (frontmatter_of _) as [[front body]|]; [|done].
  destruct (yaml_definition _); [|done]. destruct (Validate _ _); [done|]. by intros [= <-].
Qed.

(** The maps agree: each known file was loaded with the hash that is stored for it, its skill
    is active, and every active skill is that of a known file. *)
Record consistent s : Prop := {
  co_file : forall path fs, ps_files s !! path = Some fs ->
    sf_SkillKey fs = filenameStem path /\
    exists text def, sf_Hash fs = sha256_hex text /\ load path (Ok text) = Ok def /\
      ps_active s !! filenameStem path = Some def;
  co_active : forall key def, ps_active s !! key = Some def ->
    exists path, is_Some (ps_files s !! path) /\ filenameStem path = key;
}.

(** What one file of a scan does. *)
Lemma sync_skill_cases f s :
  sync_skill p f s = (false, s) /\
    ((exists e, load f.1 f.2 = Err e) \/
     exists text, f.2 = Ok text /\ unchanged s f.1 (sha256_hex text) = true) \/
  exists text def s', sync_skill p f s = (true, s') /\ f.2 = Ok text /\ load f.1 f.2 = Ok def /\
    ps_active s' = <[filenameStem f.1 := def]> (ps_active s) /\
    ps_files s' = <[f.1 := mkSkillFile (sha256_hex text) (filenameStem f.1)]> (ps_files s) /\
    ps_reloads s' = ps_reloads s.
Proof.
  destruct f as [path [text|e]]; unfold sync_skill, load_skill; cbn [fst snd].
  2: { left. split; [done|]. left. unfold ParseFile. cbn. by eexists. }
  destruct (unchanged s path (sha256_hex text)) eqn:Eu.
  { left. cbv [st_get mbind st_bind mret st_ret]. rewrite Eu. split; [done|]. right. by exists text. }
  destruct (ParseFile path (Ok text)) as [def|e] eqn:Ep; cycle 1.
  { left. cbv [st_get mbind st_bind mret st_ret]. rewrite Eu. split; [done|]. left. by eexists. }
  destruct (Validate (kp_registered p) def) as [e|] eqn:Ev.
  { left. cbv [st_get mbind st_bind mret st_ret]. rewrite Eu. split; [done|]. left. by eexists. }
  assert (sd_SkillKey def = filenameStem path) as Hk.
  { apply (load_key path (Ok text)). unfold load_skill. by rewrite Ep, Ev. }
  right. cbv [st_get mbind st_bind mret st_ret seed_active st_modify]. rewrite Eu.
  destruct (ps_store s) as [t|].
  - destruct (SeedSkills _ _ _) as [r [t' w']]. eexists text, def, _. split; [done|]. cbn. by rewrite Hk.
  - eexists text, def, _. split; [done|]. cbn. by rewrite Hk.
Qed.
(** No two files, seen or known, have the same stem. *)
Definition distinct_with (l : list (string * result error string)) s : Prop :=
  forall a b, a ∈ l.*1 \/ is_Some (ps_files s !! a) -> b ∈ l.*1 \/ is_Some (ps_files s !! b) ->
    filenameStem a = filenameStem b -> a = b.

(** What the active skill of a scanned file is after the scan: its definition, or the one
    before when the file cannot be loaded. *)
Definition latest s f : option (SkillDefinition F) :=
  match load f.1 f.2 with Ok def => Some def | Err _ => ps_active s !! filenameStem f.1 end.

Hypothesis sha256_injective : forall a b, sha256_hex a = sha256_hex b -> a = b.

Lemma sync_skill_step f l s :
  consistent s -> distinct_with (f :: l) s ->
  let '(b, s') := sync_skill p f s in
  consistent s' /\ distinct_with l s' /\
  ps_active s' !! filenameStem f.1 = latest s f /\
  (forall k, k <> filenameStem f.1 -> ps_active s' !! k = ps_active s !! k) /\
  (forall path, is_Some (ps_files s !! path) -> is_Some (ps_files s' !! path)) /\
  (forall path, is_Some (ps_files s' !! path) -> is_Some (ps_files s !! path) \/ path = f.1) /\
  ps_reloads s' = ps_reloads s /\ (b = false -> s' = s).
Proof.
  intros Hc Hd. destruct (sync_skill_cases f s) as [[-> Hsame]|(text & def & s' & -> & Hf & Hl & Ha & Hfs & Hr)].
  - split_and!; try done; [| |by left].
    + intros a b Ha Hb. apply Hd; [destruct Ha|destruct Hb]; auto; left; by right.
    + unfold latest. destruct Hsame as [[e ->]|(text & Ht & Hu)]; [done|].
      unfold unchanged in Hu. destruct (ps_files s !! f.1) as [fs|] eqn:Ef; [|done].
      destruct (co_file s Hc _ _ Ef) as (_ & text' & def & Hh & Hl & Ha).
      apply String.eqb_eq in Hu. rewrite Hh in Hu. apply sha256_injective in Hu as ->. by rewrite Ht, Hl.
  - assert (forall path, path <> f.1 -> is_Some (ps_files s !! path) -> filenameStem path <> filenameStem f.1) as Hne.
    { intros path Hp Hs E. apply Hp, Hd; [by right|left; by left|done]. }
    split_and!; try done.
    + split.
      * intros path fs. rewrite Hfs, Ha. destruct (decide (path = f.1)) as [->|Hp].
        -- rewrite !lookup_insert_eq. intros [= <-]. split; [done|]. exists text, def. by rewrite <-Hf.
        -- rewrite lookup_insert_ne by done. intros Hs. rewrite lookup_insert_ne by (symmetry; apply Hne; [done|by eexists]).
           by apply Hc.
      * intros key def'. rewrite Ha. destruct (decide (key = filenameStem f.1)) as [->|Hk].
        -- intros _. exists f.1. rewrite Hfs, lookup_insert_eq. split; [by eexists|done].
        -- rewrite lookup_insert_ne by done. intros (path & Hs & Hp)%(co_active s Hc). exists path. split; [|done].
           rewrite Hfs. destruct (decide (path = f.1)) as [->|]; [rewrite lookup_insert_eq; by eexists|].
           by rewrite lookup_insert_ne.
    + intros a b Hx Hy. rewrite Hfs in Hx, Hy.
      assert (forall c, c ∈ l.*1 \/ is_Some (<[f.1:=mkSkillFile (sha256_hex text) (filenameStem f.1)]> (ps_files s) !! c) ->
        c ∈ (f :: l).*1 \/ is_Some (ps_files s !! c)) as Hw.
      { intros c [?|Hc']; [left; by right|]. destruct (decide (c = f.1)) as [->|]; [left; by left|].
        rewrite lookup_insert_ne in Hc' by done. by right. }
      by apply Hd; apply Hw.
    + unfold latest. by rewrite Ha, Hl, lookup_insert_eq.
    + intros k Hk. by rewrite Ha, lookup_insert_ne.
    + intros path Hs. rewrite Hfs. destruct (decide (path = f.1)) as [->|]; [rewrite lookup_insert_eq; by eexists|].
      by rewrite lookup_insert_ne.
    + intros path. rewrite Hfs. destruct (decide (path = f.1)) as [->|]; [by right|]. rewrite lookup_insert_ne by done. by left.
Qed.

Lemma latest_frame s s1 f :
  ps_active s1 !! filenameStem f.1 = ps_active s !! filenameStem f.1 -> latest s1 f = latest s f.
Proof. unfold latest. by intros ->. Qed.

Lemma scan_spec l s :
  consistent s -> distinct_with l s -> NoDup l.*1 ->
  let '(b, s') := st_any (sync_skill p) l s in
  consistent s' /\
  (forall f, f ∈ l -> ps_active s' !! filenameStem f.1 = latest s f) /\
  (forall k, k ∉ map filenameStem l.*1 -> ps_active s' !! k = ps_active s !! k) /\
  (forall path, is_Some (ps_files s !! path) -> is_Some (ps_files s' !! path)) /\
  (forall path, is_Some (ps_files s' !! path) -> is_Some (ps_files s !! path) \/ path ∈ l.*1) /\
  ps_reloads s' = ps_reloads s /\ (b = false -> s' = s).
Proof.
  revert s. induction l as [|f l IH]; intros s Hc Hd Hn; cbn [st_any].
  { cbv [mret st_ret]. split_and!; try done; [by intros f ?%not_elem_of_nil|by left]. }
  cbn [fmap list_fmap] in Hn. apply NoDup_cons in Hn as [Hf Hn].
  pose proof (sync_skill_step f l s Hc Hd) as Hstep. cbv [mbind st_bind]. destruct (sync_skill p f s) as [b s1].
  destruct Hstep as (Hc1 & Hd1 & Ha1 & Hk1 & Hg1 & Hb1 & Hr1 & Hq1).
  specialize (IH s1 Hc1 Hd1 Hn). destruct (st_any (sync_skill p) l s1) as [c s2]. cbv [mret st_ret].
  destruct IH as (Hc2 & Ha2 & Hk2 & Hg2 & Hb2 & Hr2 & Hq2).
  assert (forall g, g ∈ l -> filenameStem g.1 <> filenameStem f.1) as Hne.
  { intros g Hg E. assert (g.1 ∈ l.*1) as Hg' by (by apply list_elem_of_fmap_2).
    apply Hf. replace f.1 with g.1; [done|]. apply Hd; [left; by right|left; by left|done]. }
  split_and!; [done| | | | | |].
  - intros g [->|Hg]%elem_of_cons.
    + rewrite Hk2; [done|]. intros (a & E & (g & -> & Hg)%list_elem_of_fmap)%list_elem_of_fmap. by apply (Hne g).
    + rewrite (Ha2 g Hg). apply latest_frame, Hk1. by apply Hne.
  - intros k Hk. cbn in Hk. apply not_elem_of_cons in Hk as [Hkf Hk]. by rewrite Hk2, Hk1.
  - auto.
  - intros path [Hs|Hin]%Hb2; [|right; by right]. apply Hb1 in Hs as [?| ->]; [by left|right; by left].
  - congruence.
  - intros [-> ->]%orb_false_iff. rewrite Hq2, Hq1; done.
Qed.
Lemma scan_frame l s path :
  path ∉ l.*1 -> ps_files (st_any (sync_skill p) l s).2 !! path = ps_files s !! path.
Proof.
  revert s. induction l as [|f l IH]; intros s Hp; [done|]. cbn in Hp. apply not_elem_of_cons in Hp as [Hf Hp].
  cbn [st_any]. cbv [mbind st_bind mret st_ret].
  destruct (sync_skill_cases f s) as [[-> _]|(text & def & s' & -> & _ & _ & _ & Hfs & _)].
  - specialize (IH s Hp). by destruct (st_any _ l s).
  - specialize (IH s' Hp). rewrite Hfs, lookup_insert_ne in IH by done. by destruct (st_any _ l s').
Qed.

(** What the loop over the known files removes. *)
Lemma remove_spec current fs s :
  let '(b, s') := st_any (remove_skill current) fs s in
  (forall path, path ∉ current -> path ∈ fs.*1 -> ps_files s' !! path = None) /\
  (forall path, path ∈ current \/ path ∉ fs.*1 -> ps_files s' !! path = ps_files s !! path) /\
  (forall g, g ∈ fs -> g.1 ∉ current -> ps_active s' !! sf_SkillKey g.2 = None) /\
  (forall k, (forall g, g ∈ fs -> g.1 ∉ current -> sf_SkillKey g.2 <> k) -> ps_active s' !! k = ps_active s !! k) /\
  ps_reloads s' = ps_reloads s /\ (b = false -> s' = s).
Proof.
  revert s. induction fs as [|f fs IH]; intros s; cbn [st_any].
  { cbv [mret st_ret]. split_and!; try done; [by intros ? _ ?%not_elem_of_nil|by intros ? ?%not_elem_of_nil]. }
  cbv [mbind st_bind]. unfold remove_skill at 1. destruct (slice_contains_spec current f.1) as [Hin|Hout].
  - cbv [mret st_ret]. specialize (IH s). destruct (st_any _ fs s) as [c s'].
    destruct IH as (H1 & H2 & H3 & H4 & H5 & H6). split_and!; try done.
    + intros path Hp. cbn. rewrite elem_of_cons. intros [->|?]; [done|auto].
    + intros path Hp. apply H2. destruct Hp as [?|Hp]; [by left|]. right. cbn in Hp. by apply not_elem_of_cons in Hp as [_ ?].
    + intros g. rewrite elem_of_cons. intros [->|?]; [done|auto].
    + intros k Hk. apply H4. intros g Hg. apply Hk. by right.
  - cbv [mbind st_bind st_modify mret st_ret]. specialize (IH (forget f.1 (sf_SkillKey f.2) s)).
    destruct (st_any _ fs _) as [c s']. destruct IH as (H1 & H2 & H3 & H4 & H5 & _). cbn in *. split_and!; try done.
    + intros path Hp. rewrite elem_of_cons. intros [->|?]; [|auto]. destruct (decide (f.1 ∈ fs.*1)) as [?|Hn]; [auto|].
      rewrite H2 by (by right). apply lookup_delete_eq.
    + intros path Hp. rewrite H2.
      * apply lookup_delete_ne. intros E. destruct Hp as [?|Hp]; [by rewrite E in Hout|]. apply Hp. rewrite E. by left.
      * destruct Hp as [?|Hp]; [by left|]. right. by apply not_elem_of_cons in Hp as [_ ?].
    + intros g Hg Ho. destruct (decide (Exists (fun g' => g'.1 ∉ current /\ sf_SkillKey g'.2 = sf_SkillKey g.2) fs))
        as [(g' & ? & ? & <-)%Exists_exists|Hn]; [auto|]. rewrite Exists_exists in Hn.
      apply elem_of_cons in Hg as [->|Hg]; [|exfalso; apply Hn; by exists g].
      rewrite H4; [apply lookup_delete_eq|]. intros g' Hg' Ho' E. apply Hn. by exists g'.
    + intros k Hk. rewrite H4; [|intros g Hg; apply Hk; by right]. apply lookup_delete_ne. apply Hk; [by left|done].
Qed.

(** The state before the last part of [syncAll]. *)
Lemma syncAll_run d s :
  let '(changed, s1) := st_any (sync_skill p) (scanned p d) s in
  let '(removed, s2) := st_any (remove_skill (scanned p d).*1) (map_range (ps_files s1)) s1 in
  (syncAll p d s).2 =
    if (changed || removed) && kp_onReload p
    then mkPollerState (ps_world s2) (ps_store s2) (ps_active s2) (ps_files s2) (ps_reloads s2 ++ [ActiveSkills s2])
    else s2.
Proof.
  unfold syncAll. cbv [mbind st_bind st_get]. destruct (st_any (sync_skill p) _ s) as [changed s1].
  destruct (st_any (remove_skill _) _ s1) as [removed s2]. by destruct (_ && _).
Qed.

Lemma removed_stems l s1 :
  consistent s1 -> distinct_with l s1 ->
  forall g, g ∈ map_range (ps_files s1) -> g.1 ∉ l.*1 ->
  sf_SkillKey g.2 = filenameStem g.1 /\ is_Some (ps_files s1 !! g.1) /\ filenameStem g.1 ∉ map filenameStem l.*1.
Proof.
  intros Hc Hd [path fs] Hg%elem_of_map_range Hout. cbn in *. split; [by apply (co_file s1 Hc)|]. split; [by eexists|].
  intros (a & E & Ha)%list_elem_of_fmap. apply Hout. replace path with a; [done|].
  apply Hd; [by left|right; by eexists|done].
Qed.

(** The removal keeps the skills of the files seen, and no others. *)
Lemma removal_spec l s1 :
  consistent s1 -> distinct_with l s1 ->
  let '(b, s2) := st_any (remove_skill l.*1) (map_range (ps_files s1)) s1 in
  consistent s2 /\
  (forall k, k ∈ map filenameStem l.*1 -> ps_active s2 !! k = ps_active s1 !! k) /\
  (forall k, k ∉ map filenameStem l.*1 -> ps_active s2 !! k = None) /\
  ps_reloads s2 = ps_reloads s1 /\ (b = false -> s2 = s1).
Proof.
  intros Hc Hd. pose proof (removed_stems l s1 Hc Hd) as Hout.
  pose proof (remove_spec l.*1 (map_range (ps_files s1)) s1) as Hrem.
  destruct (st_any (remove_skill _) _ s1) as [removed s2]. destruct Hrem as (Hf1 & Hf2 & Ha3 & Ha4 & Hr & Hq).
  assert (forall path, path ∉ l.*1 -> ps_files s2 !! path = None) as Hgone.
  { intros path Hp. destruct (ps_files s1 !! path) as [fs|] eqn:Ef.
    - apply Hf1; [done|]. apply list_elem_of_fmap. exists (path, fs). split; [done|]. by apply elem_of_map_range.
    - rewrite Hf2; [done|]. right. intros ((q & fs) & -> & Hin%elem_of_map_range)%list_elem_of_fmap. cbn in *. congruence. }
  assert (forall k, k ∈ map filenameStem l.*1 -> ps_active s2 !! k = ps_active s1 !! k) as Hkeep.
  { intros k Hk. apply Ha4. intros g Hg Ho E. destruct (Hout g Hg Ho) as (E' & _ & Hno). rewrite E' in E. by subst k. }
  assert (consistent s2) as Hc2.
  { split.
    - intros path fs Hfs. destruct (decide (path ∈ l.*1)) as [Hin|Hno]; [|by rewrite Hgone in Hfs].
      rewrite Hf2 in Hfs by (by left). rewrite Hkeep by (by apply list_elem_of_fmap_2). by apply Hc.
    - intros k def Hk. destruct (decide (Exists (fun g => g.1 ∉ l.*1 /\ sf_SkillKey g.2 = k) (map_range (ps_files s1))))
        as [(g & Hg & Ho & <-)%Exists_exists|Hno]; [by rewrite Ha3 in Hk|]. rewrite Exists_exists in Hno.
      rewrite Ha4 in Hk; [|intros g Hg Ho E; apply Hno; by exists g].
      apply Hc in Hk as (path & [fs Hfs] & <-). exists path. split; [|done].
      destruct (decide (path ∈ l.*1)) as [Hin|Ho]; [rewrite Hf2 by (by left); by eexists|].
      exfalso. apply Hno. exists (path, fs). split; [by apply elem_of_map_range|]. split; [done|]. by apply Hc. }
  split_and!; [done|done| |done|done].
  intros k Hk. destruct (ps_active s2 !! k) as [def|] eqn:E; [|done].
  apply Hc2 in E as (path & Hs & <-). exfalso. apply Hk. apply list_elem_of_fmap_2.
  destruct (decide (path ∈ l.*1)); [done|]. destruct Hs as [fs Hs]. by rewrite Hgone in Hs.
Qed.

(** A synchronisation from a consistent state, when no two files, known or seen, have the same
    stem: the state stays consistent, the active skill of each file seen is what the file
    defines now, or what it was before when the file cannot be loaded, there are no other
    active skills, and the callback gets the active skills whenever they change. *)
Theorem poller_follows_directories d s :
  consistent s -> distinct_with (scanned p d) s -> NoDup (scanned p d).*1 ->
  let s' := (syncAll p d s).2 in
  consistent s' /\
  (forall f, f ∈ scanned p d -> ps_active s' !! filenameStem f.1 = latest s f) /\
  (forall k, k ∉ map filenameStem (scanned p d).*1 -> ps_active s' !! k = None) /\
  (ps_reloads s' = ps_reloads s ++ [ActiveSkills s'] \/
   ps_reloads s' = ps_reloads s /\ (ps_active s' = ps_active s \/ kp_onReload p = false)).
Proof.
  intros Hc Hd Hn. pose proof (scan_spec (scanned p d) s Hc Hd Hn) as Hscan. pose proof (syncAll_run d s) as Hrun.
  destruct (st_any (sync_skill p) _ s) as [changed s1]. destruct Hscan as (Hc1 & Ha1 & Hk1 & Hg1 & Hb1 & Hr1 & Hq1).
  assert (distinct_with (scanned p d) s1) as Hd1.
  { intros a b Ha Hb. apply Hd; [destruct Ha as [?|[?|?]%Hb1]|destruct Hb as [?|[?|?]%Hb1]]; auto. }
  pose proof (removal_spec _ s1 Hc1 Hd1) as Hrem. destruct (st_any (remove_skill _) _ s1) as [removed s2].
  destruct Hrem as (Hc2 & Hkeep & Hmiss & Hr2 & Hq2). cbn zeta. rewrite Hrun. split_and!.
  - destruct (_ && _); [|done]. by destruct Hc2.
  - intros f Hf. transitivity (ps_active s2 !! filenameStem f.1); [by destruct (_ && _)|].
    rewrite Hkeep by (apply list_elem_of_fmap_2; by apply list_elem_of_fmap_2). by apply Ha1.
  - intros k Hk. rewrite <-(Hmiss k Hk). by destruct (_ && _).
  - destruct (kp_onReload p); [|right; rewrite andb_false_r; split; [congruence|by right]].
    rewrite andb_true_r. destruct changed, removed; cbn; [left; by rewrite Hr2, Hr1..|].
    right. rewrite (Hq2 eq_refl), (Hq1 eq_refl). split; [done|by left].
Qed.

(** When a known file is gone from the directories and another one with the same stem is there,
    as after moving a file, its skill is inactive after the synchronisation: the other file is
    loaded first and the removal then deletes its skill. *)
Theorem moved_skill_lost d s path fs :
  consistent s -> ps_files s !! path = Some fs -> path ∉ (scanned p d).*1 ->
  ps_active (syncAll p d s).2 !! filenameStem path = None.
Proof.
  intros Hc Hfs Hout. pose proof (syncAll_run d s) as Hrun. pose proof (scan_frame (scanned p d) s path Hout) as Hfr.
  destruct (st_any (sync_skill p) _ s) as [changed s1]. cbn in Hfr.
  pose proof (remove_spec (scanned p d).*1 (map_range (ps_files s1)) s1) as Hrem.
  destruct (st_any (remove_skill _) _ s1) as [removed s2]. destruct Hrem as (_ & _ & Ha3 & _).
  destruct (co_file s Hc path fs Hfs) as [Hk _].
  assert (ps_active s2 !! filenameStem path = None) as Hn.
  { rewrite <-Hk. apply (Ha3 (path, fs)); [|done]. apply elem_of_map_range. by rewrite Hfr. }
  rewrite Hrun, <-Hn. by destruct (_ && _).
Qed.
End poller_properties.

(** ** Matched runbooks *)

Section matcher_properties.
Context {F : Type} `{ExactNum F} `{!MathLog F} `{!GoSort (SkillDefinition F * F)}.
Local Open Scope go_scope.

Lemma tf_idf_zero (defs : list (SkillDefinition F)) tokens w :
  w ∉ tokens -> (toQ (tf_idf defs tokens w) == 0)%Q.
Proof.
  intros Hw. unfold tf_idf. assert (countb (String.eqb w) tokens = 0) as ->.
  { apply countb_zero, Forall_forall. intros x Hx. apply String.eqb_neq. by intros ->. }
  rewrite toQ_mul, toQ_div, toQ_ofZ. change (Z.of_nat 0) with 0%Z. unfold Qdiv. rewrite !Qmult_0_l. reflexivity.
Qed.

Lemma score_no_word (query : string) (defs : list (SkillDefinition F)) def :
  (forall w, w ∈ tokenize query -> w ∉ runbook_tokens def) -> (toQ (runbook_score query defs def) == 0)%Q.
Proof.
  intros Hno. unfold runbook_score.
  assert (forall l acc, (forall w, w ∈ l -> w ∉ runbook_tokens def) -> (toQ acc == 0)%Q ->
    (toQ (fold_left (fun score qt => score +f tf_idf defs (runbook_tokens def) qt) l acc) == 0)%Q) as Hf.
  { induction l as [|w l IH]; intros acc Hl Ha; cbn [fold_left]; [done|]. apply IH.
    - intros v Hv. apply Hl. by right.
    - rewrite toQ_add, tf_idf_zero, Ha by (apply Hl; by left). reflexivity. }
  specialize (Hf (tokenize query) (nofZ 0) Hno (toQ_ofZ 0)). destruct (contains _ _ || contains _ _), (contains _ _);
    rewrite ?toQ_mul, Hf, ?Qmult_0_l; reflexivity.
Qed.

(** At most [topN] runbooks match, each with its score and a word of the query. *)
Lemma MatchRunbooks_words query (defs : list (SkillDefinition F)) topN :
  (Z.of_nat (length (MatchRunbooks query defs topN)) <= Z.max 0 topN)%Z /\
  forall m, m ∈ MatchRunbooks query defs topN ->
    m.1 ∈ defs /\ m.2 = runbook_score query defs m.1 /\ exists w, w ∈ tokenize query /\ w ∈ runbook_tokens m.1.
Proof.
  unfold MatchRunbooks. destruct (_ || _) eqn:E0; [split; [simpl; lia|by intros m ?%not_elem_of_nil]|].
  apply orb_false_iff in E0 as [_ E0]. apply Z.leb_gt in E0.
  destruct (_ =? 0)%nat; [split; [simpl; lia|by intros m ?%not_elem_of_nil]|].
  set (l := go_sort _ _). set (kept := if (topN <? Z.of_nat (length l))%Z then take (Z.to_nat topN) l else l).
  assert (forall m, m ∈ kept -> m ∈ l) as Hk.
  { intros m. unfold kept. destruct (_ <? _)%Z; [|done]. intros Hm. apply elem_of_take in Hm as (i & Hi & _).
    by apply list_elem_of_lookup_2 in Hi. }
  split.
  { unfold kept. destruct (Z.ltb_spec topN (Z.of_nat (length l))); rewrite ?length_take; lia. }
  intros m Hm%Hk. unfold l in Hm. rewrite go_sort_perm in Hm. apply list_elem_of_omap in Hm as (def & Hd & Hs).
  unfold score_match in Hs. destruct (_ =? 0)%nat; [done|]. destruct (nltb _ _) eqn:Es; [|done]. injection Hs as <-.
  cbn [fst snd]. split; [done|]. split; [done|].
  destruct (decide (Exists (fun w => w ∈ runbook_tokens def) (tokenize query))) as [Hw|Hno].
  - apply Exists_exists in Hw as (w & ? & ?). by exists w.
  - exfalso. apply not_Exists_Forall in Hno; [|intros w; apply _].
    rewrite Forall_forall in Hno. pose proof (score_no_word query defs def Hno) as Hz.
    apply nltb_spec in Es. unfold nlit in Es. rewrite Hz, toQ_div, !toQ_ofZ in Es. by vm_compute in Es.
Qed.
End matcher_properties.

(** ** Runs

    Files over the rationals: the frontmatter names the role, the hash of a text is the text. *)

#[local] Instance yaml_ex : SkillYaml Q := {|
  yaml_definition := fun front =>
    if String.eqb front "" then Err (Errorf "no fields")
    else Ok (mkSkillDef "Disk check" front "storage" ["shell_exec"] "low" (nofZ 1) "" "" "");
  yaml_manifest := fun front =>
    Ok (mkManifest "Disk check" front "" "" "" "" "executor" "storage" [] ["shell_exec"] "low" (nofZ 1) "Look at the disks." "" ""
          [] [] ["example.com"] 0 (nofZ 0) false "" "" "");
|}.
#[local] Instance sha_ex : Sha256 := {| sha256_hex := fun s => s |}.
#[local] Instance text_ex : ErrorText := {| error_Error := fun e => match e with Errorf m => m | _ => "" end |}.
#[local] Instance world_ex : World nat := {|
  w_now := fun n => (Z.of_nat n, S n); w_uuid := fun n => (N.of_nat n, S n);
  w_correlationID := fun n => ("", n); w_db := fun n => (if (n <? 3)%nat then Some (Errorf "timeout") else None, (n + 2)%nat);
|}.
#[local] Instance render_skill_ex : Render := {| itoa := fun _ => ""; uuid_String := fun _ => "" |}.

Lemma sha_ex_injective (a b : string) : sha256_hex a = sha256_hex b -> a = b.
Proof. done. Qed.

Definition skill_text (front body : string) : string :=
  "---" +:+ newline +:+ front +:+ newline +:+ "---" +:+ newline +:+ body +:+ newline.

Definition pack_dir : list dir_entry :=
  [mkDirEntry "disk.md" false (Ok (skill_text "1.2.0-rc.1" "Look at the disks."));
   mkDirEntry "bad.md" false (Ok (skill_text "1.2" "Look at the disks."));
   mkDirEntry "forged.md" false (Ok (skill_text "1.2.0" "Wipe the disks."));
   mkDirEntry "README" false (Ok "")].
Definition pack_loader : PackLoader := mkPackLoader None None "agent".

Lemma pack_admits_checked_witness :
  exists ms r, LoadPack pack_loader (fun _ => Ok pack_dir) "/pack" = Ok (ms, r) /\
    map sm_SkillKey ms = ["disk"] /\ map ld_File (ld_Errors r) = ["/pack/bad.md"; "/pack/forged.md"] /\ ld_Loaded r = 1%Z /\
    length ms + length (ld_Errors r) = 3.
Proof.
  destruct (pack_admits_checked pack_loader (fun _ => Ok pack_dir) "/pack" pack_dir eq_refl) as (ms & r & E & _ & _ & Hl & Hc).
  exists ms, r. split; [done|]. vm_compute in E. injection E as <- <-. split; [reflexivity|]. split; [reflexivity|].
  split; [exact Hl|exact Hc].
Defined.

Definition poller_ex : SkillPoller := mkSkillPoller (mkSkillPollerConfig ["/a"; "/b"] 1%N) None true (Ok []).
Definition disk_file (text : string) : list dir_entry := [mkDirEntry "disk.md" false (Ok text)].
Definition disk_a : disk := fun dir => if String.eqb dir "/a" then Ok (disk_file (skill_text "executor" "Old.")) else Ok [].
Definition disk_a2 : disk := fun dir => if String.eqb dir "/a" then Ok (disk_file (skill_text "executor" "New.")) else Ok [].
Definition disk_b : disk := fun dir => if String.eqb dir "/b" then Ok (disk_file (skill_text "executor" "Old.")) else Ok [].
Definition poller_start : PollerState Q (InMemorySkillStore Q) nat :=
  mkPollerState 0 (Some NewInMemorySkillStore) ∅ ∅ [].
Definition poller_loaded : PollerState Q (InMemorySkillStore Q) nat := (syncAll poller_ex disk_a poller_start).2.

Lemma consistent_start : consistent poller_ex poller_start.
Proof. split; intros ? ? Hk; cbn in Hk; by rewrite lookup_empty in Hk. Qed.

Definition disk_skill (body : string) : SkillDefinition Q :=
  mkSkillDef "Disk check" "executor" "storage" ["shell_exec"] "low" (nofZ 1) body "/a/disk.md" "disk".

Lemma consistent_loaded : consistent poller_ex poller_loaded.
Proof.
  assert (ps_files poller_loaded = {["/a/disk.md" := mkSkillFile (skill_text "executor" "Old.") "disk"]}) as Ef by reflexivity.
  assert (ps_active poller_loaded = {["disk" := disk_skill "Old."]}) as Ea by reflexivity.
  split; intros k x; rewrite Ef, Ea.
  - intros [<- <-]%lookup_singleton_Some. split; [reflexivity|]. exists (skill_text "executor" "Old."), (disk_skill "Old.").
    split_and!; reflexivity.
  - intros [<- <-]%lookup_singleton_Some. exists "/a/disk.md". split; [by eexists|reflexivity].
Qed.

Lemma one_file_distinct (d : disk) (s : PollerState Q (InMemorySkillStore Q) nat) (k : string) :
  (scanned poller_ex d).*1 = [k] -> dom (ps_files s) ⊆ ({[k]} : gset string) -> distinct_with (scanned poller_ex d) s.
Proof.
  intros Hs Hd. assert (forall x, x ∈ (scanned poller_ex d).*1 \/ is_Some (ps_files s !! x) -> x = k) as Hk.
  { intros x [Hx|Hx]; [rewrite Hs in Hx; by apply list_elem_of_singleton in Hx|].
    apply (elem_of_dom (D := gset string)), Hd in Hx. by apply elem_of_singleton in Hx. }
  intros a b Ha Hb _. by rewrite (Hk a Ha), (Hk b Hb).
Qed.

Lemma poller_follows_directories_witness :
  ps_active (syncAll poller_ex disk_a2 poller_loaded).2 !! "disk" = Some (disk_skill "New.") /\
  consistent poller_ex (syncAll poller_ex disk_a2 poller_loaded).2.
Proof.
  destruct (poller_follows_directories poller_ex sha_ex_injective disk_a2 poller_loaded consistent_loaded
    (one_file_distinct disk_a2 poller_loaded "/a/disk.md" eq_refl ltac:(vm_compute; set_solver))
    ltac:(vm_compute; apply NoDup_singleton)) as (Hc & Hf & _).
  split; [|exact Hc].
  exact (Hf ("/a/disk.md", Ok (skill_text "executor" "New.")) ltac:(vm_compute; by left)).
Defined.

Lemma moved_skill_lost_witness :
  (scanned poller_ex disk_b).*1 = ["/b/disk.md"] /\
  ps_active (syncAll poller_ex disk_b poller_loaded).2 !! filenameStem "/a/disk.md" = None.
Proof.
  split; [reflexivity|].
  apply (moved_skill_lost poller_ex disk_b poller_loaded "/a/disk.md" (mkSkillFile (skill_text "executor" "Old.") "disk")
    consistent_loaded eq_refl).
  vm_compute. by intros [E|[]%not_elem_of_nil]%elem_of_cons.
Defined.

Definition learned : AgentSkillModel Q :=
  mkSkillModel 7%N 1%N "executor" "disk" 40 2 (nofZ 5) (nofZ 1) (nofZ 1) SkillProven 0%Z 0%Z "Disk check" "storage" "[]" "low"
    (nofZ 1) "".

#[local] Instance rows_ex : RowJson := {|
  json_strings := {| marshal := fun _ => "[x]"; unmarshal := fun _ => Ok [] |};
  json_tags := {| marshal := fun _ => ""; unmarshal := fun _ => Ok ∅ |};
  json_uuids := {| marshal := fun _ => ""; unmarshal := fun _ => Ok [] |};
|}.

Lemma seeding_outcome_witness :
  let t : SkillRepository Q nat := mkSkillRepo 1 {[(1%N, "executor", "disk") := learned]} in
  exists m, kr_rows (seed_one 1%N (disk_skill "") (mkSeedResult 0 0) (t, 0)).2.1 !! (1%N, "executor", "disk") = Some m /\
    unlearned m.
Proof.
  intros t. pose proof (seeding_outcome 1%N (disk_skill "") (mkSeedResult 0 0) t 0) as Hs.
  destruct (seed_one _ _ _ _) as [r [t' w]]. destruct Hs as (_ & _ & Hs & _).
  destruct (Hs learned ltac:(discriminate) eq_refl eq_refl) as (m & Hm & Hu & _). exists m. split; [|exact Hu].
  cbn [fst snd]. rewrite Hm. reflexivity.
Defined.
