(* ===== verification/Fleet.v ===== *)
(** * Agents as a fleet: identities, heartbeats, workspaces

    [src/internal/identity/identity.go]: an agent's Ed25519 key pair and its key file;
    [src/internal/heartbeat/heartbeat.go]: the heartbeats an agent sends and the checker of
    the gateway; their tables in [src/internal/storage/postgres/identity_repo.go] and
    [heartbeat_repo.go]; [src/internal/workspace/workspace.go]: the directories of the
    runtime.

    Ed25519, PEM and JSON are parameters with their documented laws; files are those of
    [FileSystem], without permissions.  The tables are keyed by the unique agent identifier,
    each row with the mark of a soft deletion.  Tickers are lists of ticks; logging is left
    out. *)

From S2P Require Import Prelude Text FileSystem FileTool Domain Protocol Models.

(** ** Parameters *)

(** [crypto/ed25519]: keys, seeds and signatures are byte strings. *)
Class Ed25519 (W : Type) := {
  ed_GenerateKey : W -> result error (string * string) * W;
  ed_NewKeyFromSeed : string -> string;
  ed_Seed : string -> string;
  ed_Public : string -> string;
  ed_Sign : string -> string -> string;
  ed_Verify : string -> string -> string -> bool;
}.

Definition SeedSize : nat := 32.
Definition PublicKeySize : nat := 32.

(** The documentation of the package: a generated key is that of a seed, the seed of a key
    gives it back, and a signature verifies under the public half of its key. *)
Class Ed25519Law (W : Type) `{Ed25519 W} := {
  ed_generated : forall w pub priv, (ed_GenerateKey w).1 = Ok (pub, priv) ->
    exists seed, String.length seed = SeedSize /\ priv = ed_NewKeyFromSeed seed /\ pub = ed_Public priv;
  ed_seed_key : forall seed, String.length seed = SeedSize -> ed_Seed (ed_NewKeyFromSeed seed) = seed;
  ed_public_length : forall seed, String.length seed = SeedSize ->
    String.length (ed_Public (ed_NewKeyFromSeed seed)) = PublicKeySize;
  ed_verify_sign : forall seed data, String.length seed = SeedSize ->
    ed_Verify (ed_Public (ed_NewKeyFromSeed seed)) data (ed_Sign (ed_NewKeyFromSeed seed) data) = true;
}.

(** [encoding/pem], a block as its type and bytes, and [hex.EncodeToString]. *)
Class Pem := { pem_Encode : string * string -> string; pem_Decode : string -> option (string * string) }.
Class PemLaw `{Pem} := {
  pem_decode_encode : forall typ bytes, cut_char line_feed typ = None ->
    pem_Decode (pem_Encode (typ, bytes)) = Some (typ, bytes);
}.
Class Hex := { hex_encode : string -> string }.

(** ** Identities *)

Definition TrustLevel : Type := string.
Definition TrustUntrusted : TrustLevel := "untrusted".
Definition TrustBasic : TrustLevel := "basic".
Definition TrustElevated : TrustLevel := "elevated".
Definition TrustFull : TrustLevel := "full".

Record IdentityConfig := mkIdentity {
  id_AgentID : string;
  id_Name : string;
  id_Version : string;
  id_PublicKey : string;
  id_PrivateKey : string;
  id_Capabilities : list string;
  id_TrustLevel : TrustLevel;
  id_EnvironmentScope : string;
  id_RegisteredAt : Time;
}.

Section identity.
Context {W : Type} `{!Render} `{!World W} `{!Ed25519 W} `{!Pem} `{!Hex}.

Definition NewIdentity (name version envScope : string) (capabilities : list string) : st W (result error IdentityConfig) :=
  fun w =>
  let '(keys, w) := ed_GenerateKey w in
  match keys with
  | Err e => (Err (Wrap "generating keypair" e), w)
  | Ok (pub, priv) =>
      let '(id, w) := w_uuid w in
      let '(now, w) := w_now w in
      (Ok (mkIdentity (uuid_String id) name version pub priv capabilities TrustUntrusted envScope now), w)
  end.

Definition Sign (id : IdentityConfig) (data : string) : string := ed_Sign (id_PrivateKey id) data.

(** [None]: [ed25519.Verify] panics on a key of another size. *)
Definition Verify (id : IdentityConfig) (data signature : string) : option bool :=
  if (String.length (id_PublicKey id) =? PublicKeySize)%nat
  then Some (ed_Verify (id_PublicKey id) data signature) else None.

Definition PublicKeyHex (id : IdentityConfig) : string := hex_encode (id_PublicKey id).

Definition key_type : string := "ED25519 PRIVATE KEY".

Definition SavePrivateKey (id : IdentityConfig) (fs : FS) (p : path) : option error * FS :=
  os_WriteFile fs p (pem_Encode (key_type, ed_Seed (id_PrivateKey id))).

Definition LoadIdentity (fs : FS) (keyFile : path) (agentID name version envScope : string) (capabilities : list string)
    : st W (result error IdentityConfig) := fun w =>
  match os_ReadFile fs keyFile with
  | Err e => (Err (Wrap "reading key file" e), w)
  | Ok data =>
      match pem_Decode data with
      | None => (Err (Errorf "no PEM block found"), w)
      | Some (typ, seed) =>
          if negb (String.eqb typ key_type) then (Err (Errorf "unexpected PEM type"), w)
          else if negb (String.length seed =? SeedSize)%nat then (Err (Errorf "invalid key seed length"), w)
          else
            let priv := ed_NewKeyFromSeed seed in
            let '(now, w) := w_now w in
            (Ok (mkIdentity agentID name version (ed_Public priv) priv capabilities TrustUntrusted envScope now), w)
      end
  end.
End identity.

(** ** Heartbeats *)

Definition HbStatus : Type := string.
Definition StatusOnline : HbStatus := "online".
Definition StatusBusy : HbStatus := "busy".
Definition StatusDraining : HbStatus := "draining".

Record Heartbeat := mkHeartbeat {
  hb_AgentID : string;
  hb_Version : string;
  hb_Status : HbStatus;
  hb_Skills : list string;
  hb_Capabilities : list string;
  hb_ActiveTasks : Z;
  hb_MaxTasks : Z;
  hb_Signature : string;
  hb_Timestamp : Time;
  hb_Metadata : gmap string string;
}.

(** [json.Marshal] of a heartbeat; an empty signature is left out. *)
Class HeartbeatJson := { heartbeat_json : Heartbeat -> result error string }.

(** The two tables. *)
Record AgentIdentityModel := mkIdentityModel {
  im_ID : uuid;
  im_AgentID : string;
  im_Name : string;
  im_Version : string;
  im_PublicKey : string;
  im_Capabilities : string;
  im_TrustLevel : string;
  im_EnvironmentScope : string;
  im_LastHeartbeatAt : option Time;
  im_Status : string;
  im_RegisteredAt : Time;
}.

Record AgentHeartbeatModel := mkHeartbeatModel {
  bm_ID : uuid;
  bm_AgentID : string;
  bm_Version : string;
  bm_Status : string;
  bm_Skills : string;
  bm_Capabilities : string;
  bm_ActiveTasks : Z;
  bm_MaxTasks : Z;
  bm_Metadata : string;
  bm_CreatedAt : Time;
}.

Section fleet.
Context {W : Type} `{!Render} `{!World W} `{!Ed25519 W} `{!Hex} `{!RowJson} `{!HeartbeatJson}.
Context `{!GoSort AgentIdentityModel} `{!GoSort AgentHeartbeatModel} `{!MapRange string (AgentIdentityModel * bool)}.

(** The rows of the identities with whether they are deleted, and the history. *)
Record FleetDB := mkFleetDB {
  fd_world : W;
  fd_agents : gmap string (AgentIdentityModel * bool);
  fd_beats : list AgentHeartbeatModel;
}.

Abbreviation FM := (st FleetDB).

Definition fleet_world {A} (f : W -> A * W) : FM A := fun s =>
  let '(a, w) := f (fd_world s) in (a, mkFleetDB w (fd_agents s) (fd_beats s)).
Definition set_agents (m : gmap string (AgentIdentityModel * bool)) (s : FleetDB) : FleetDB :=
  mkFleetDB (fd_world s) m (fd_beats s).

Definition identity_row (id : uuid) (i : IdentityConfig) : AgentIdentityModel :=
  mkIdentityModel id (id_AgentID i) (id_Name i) (id_Version i) (PublicKeyHex i) (marshal (id_Capabilities i))
    (or_text (id_TrustLevel i) "untrusted") (id_EnvironmentScope i) None "online" (id_RegisteredAt i).

(** What the conflict on [agent_id] updates of the old row. *)
Definition reregistered (old new : AgentIdentityModel) : AgentIdentityModel :=
  mkIdentityModel (im_ID old) (im_AgentID old) (im_Name new) (im_Version new) (im_PublicKey new) (im_Capabilities new)
    (im_TrustLevel old) (im_EnvironmentScope new) (im_LastHeartbeatAt old) (im_Status new) (im_RegisteredAt old).

Definition identity_Register (i : IdentityConfig) : FM (option error) :=
  id ← fleet_world w_uuid;
  err ← fleet_world w_db;
  match err with
  | Some e => mret (Some (Wrap "registering agent identity" e))
  | None =>
      _ ← st_modify (fun s =>
            set_agents (<[id_AgentID i :=
                match fd_agents s !! id_AgentID i with
                | None => (identity_row id i, false)
                | Some (old, deleted) => (reregistered old (identity_row id i), deleted)
                end]> (fd_agents s)) s);
      mret None
  end.

(** The columns that are read back: the public key is not. *)
Definition toIdentityDomain (m : AgentIdentityModel) : IdentityConfig :=
  mkIdentity (im_AgentID m) (im_Name m) (im_Version m) "" "" (json_or [] (im_Capabilities m)) (im_TrustLevel m)
    (im_EnvironmentScope m) (im_RegisteredAt m).

(** A row that is not deleted. *)
Definition agent_row (agentID : string) (s : FleetDB) : option AgentIdentityModel :=
  match fd_agents s !! agentID with Some (m, false) => Some m | _ => None end.

Definition GetByAgentID (agentID : string) : FM (result error IdentityConfig) :=
  err ← fleet_world w_db;
  match err with
  | Some e => mret (Err (Wrap "getting agent identity" e))
  | None =>
      row ← st_get (agent_row agentID);
      mret (match row with
            | Some m => Ok (toIdentityDomain m)
            | None => Err (Wrap "getting agent identity" (Errorf "record not found"))
            end)
  end.

(** [UPDATE ... WHERE agent_id = ?] of rows that are not deleted. *)
Definition update_agent (agentID : string) (f : AgentIdentityModel -> AgentIdentityModel) (s : FleetDB) : FleetDB :=
  set_agents (alter (fun r : AgentIdentityModel * bool => if r.2 then r else (f r.1, false)) agentID (fd_agents s)) s.

Definition with_trust (level : TrustLevel) (m : AgentIdentityModel) : AgentIdentityModel :=
  mkIdentityModel (im_ID m) (im_AgentID m) (im_Name m) (im_Version m) (im_PublicKey m) (im_Capabilities m) level
    (im_EnvironmentScope m) (im_LastHeartbeatAt m) (im_Status m) (im_RegisteredAt m).
Definition with_status (status : string) (at_ : option Time) (m : AgentIdentityModel) : AgentIdentityModel :=
  mkIdentityModel (im_ID m) (im_AgentID m) (im_Name m) (im_Version m) (im_PublicKey m) (im_Capabilities m)
    (im_TrustLevel m) (im_EnvironmentScope m) at_ status (im_RegisteredAt m).

Definition update_stmt (msg agentID : string) (f : AgentIdentityModel -> AgentIdentityModel) : FM (option error) :=
  err ← fleet_world w_db;
  match err with
  | Some e => mret (Some (Wrap msg e))
  | None => _ ← st_modify (update_agent agentID f); mret None
  end.

Definition UpdateTrustLevel (agentID : string) (level : TrustLevel) : FM (option error) :=
  update_stmt "updating trust level" agentID (with_trust level).

Definition UpdateStatus (agentID status : string) (heartbeatAt : Time) : FM (option error) :=
  update_stmt "updating status" agentID (with_status status (Some heartbeatAt)).

(** The rows that are not deleted, in the order the table is listed in. *)
Definition live_agents (s : FleetDB) : list AgentIdentityModel :=
  omap (fun kv : string * (AgentIdentityModel * bool) => if kv.2.2 then None else Some kv.2.1) (map_range (fd_agents s)).

Definition ListByEnvironment (envScope : string) : FM (result error (list IdentityConfig)) :=
  err ← fleet_world w_db;
  match err with
  | Some e => mret (Err (Wrap "listing identities" e))
  | None =>
      rows ← st_get live_agents;
      mret (Ok (map toIdentityDomain (newest im_RegisteredAt
        (List.filter (fun m => String.eqb (im_EnvironmentScope m) envScope) rows))))
  end.

Definition identity_Remove (agentID : string) : FM (option error) :=
  err ← fleet_world w_db;
  match err with
  | Some e => mret (Some (Wrap "removing agent identity" e))
  | None =>
      _ ← st_modify (fun s =>
            set_agents (alter (fun r : AgentIdentityModel * bool => (r.1, true)) agentID (fd_agents s)) s);
      mret None
  end.

(** ** The store of heartbeats *)

Definition heartbeat_row (id : uuid) (hb : Heartbeat) : AgentHeartbeatModel :=
  mkHeartbeatModel id (hb_AgentID hb) (hb_Version hb) (hb_Status hb) (marshal (hb_Skills hb)) (marshal (hb_Capabilities hb))
    (hb_ActiveTasks hb) (hb_MaxTasks hb) (marshal (hb_Metadata hb)) (hb_Timestamp hb).

Definition toHeartbeatDomain (m : AgentHeartbeatModel) : Heartbeat :=
  mkHeartbeat (bm_AgentID m) (bm_Version m) (bm_Status m) (json_or [] (bm_Skills m)) (json_or [] (bm_Capabilities m))
    (bm_ActiveTasks m) (bm_MaxTasks m) "" (bm_CreatedAt m) (json_or ∅ (bm_Metadata m)).

(** Two statements, without a transaction. *)
Definition RecordHeartbeat (hb : Heartbeat) : FM (option error) :=
  id ← fleet_world w_uuid;
  err ← fleet_world w_db;
  match err with
  | Some e => mret (Some (Wrap "recording heartbeat" e))
  | None =>
      _ ← st_modify (fun s => mkFleetDB (fd_world s) (fd_agents s) (fd_beats s ++ [heartbeat_row id hb]));
      update_stmt "updating agent identity heartbeat" (hb_AgentID hb) (with_status (hb_Status hb) (Some (hb_Timestamp hb)))
  end.

Definition GetLastHeartbeat (agentID : string) : FM (result error Heartbeat) :=
  err ← fleet_world w_db;
  match err with
  | Some e => mret (Err (Wrap "getting last heartbeat" e))
  | None =>
      rows ← st_get fd_beats;
      mret (match newest bm_CreatedAt (List.filter (fun m => String.eqb (bm_AgentID m) agentID) rows) with
            | m :: _ => Ok (toHeartbeatDomain m)
            | [] => Err (Wrap "getting last heartbeat" (Errorf "record not found"))
            end)
  end.

(** [status IN ('online', 'busy')], and the comparison of the time, which NULL does not satisfy. *)
Definition reachable_status (m : AgentIdentityModel) : bool := slice_contains ["online"; "busy"] (im_Status m).
Definition beat_after (cutoff : Time) (m : AgentIdentityModel) : bool :=
  reachable_status m && match im_LastHeartbeatAt m with Some t => (cutoff <? t)%Z | None => false end.
Definition beat_before (cutoff : Time) (m : AgentIdentityModel) : bool :=
  reachable_status m && match im_LastHeartbeatAt m with Some t => (t <? cutoff)%Z | None => false end.

Definition online_heartbeat (m : AgentIdentityModel) : Heartbeat :=
  mkHeartbeat (im_AgentID m) (im_Version m) (im_Status m) [] (json_or [] (im_Capabilities m)) 0 0 "" time_zero ∅.

Definition ListOnlineAgents (staleThreshold : Duration) : FM (result error (list Heartbeat)) :=
  now ← fleet_world w_now;
  err ← fleet_world w_db;
  match err with
  | Some e => mret (Err (Wrap "listing online agents" e))
  | None =>
      rows ← st_get live_agents;
      mret (Ok (map online_heartbeat (List.filter (beat_after (now - staleThreshold)%Z) rows)))
  end.

Definition stale_row (cutoff : Time) (r : AgentIdentityModel * bool) : bool := negb r.2 && beat_before cutoff r.1.
Definition mark_row (cutoff : Time) (r : AgentIdentityModel * bool) : AgentIdentityModel * bool :=
  if stale_row cutoff r then (with_status "stale" (im_LastHeartbeatAt r.1) r.1, r.2) else r.

(** The answer is the number of rows the statement changed. *)
Definition MarkStale (staleThreshold : Duration) : FM (result error Z) :=
  now ← fleet_world w_now;
  err ← fleet_world w_db;
  match err with
  | Some e => mret (Err (Wrap "marking stale agents" e))
  | None =>
      n ← st_get (fun s => countb (stale_row (now - staleThreshold)%Z) (map_range (fd_agents s)).*2);
      _ ← st_modify (fun s => set_agents (mark_row (now - staleThreshold)%Z <$> fd_agents s) s);
      mret (Ok (Z.of_nat n))
  end.

(** [RunStaleChecker], one check for each tick. *)
Definition RunStaleChecker (staleThreshold : Duration) (ticks : nat) : FM unit :=
  st_each (fun _ => _ ← MarkStale staleThreshold; mret tt) (seq 0 ticks).

(** ** The sender *)

Record HeartbeatSender := mkSender {
  sn_identity : IdentityConfig;
  sn_maxTasks : Z;
  sn_skills : list string;
}.

Definition SetSkills (s : HeartbeatSender) (skills : list string) : HeartbeatSender :=
  mkSender (sn_identity s) (sn_maxTasks s) skills.

(** The heartbeat before it is signed; [None] when there is no function counting tasks. *)
Definition unsigned (s : HeartbeatSender) (active : option Z) (now : Time) : Heartbeat :=
  let activeTasks := default 0%Z active in
  mkHeartbeat (id_AgentID (sn_identity s)) (id_Version (sn_identity s))
    (if (sn_maxTasks s <=? activeTasks)%Z then StatusBusy else StatusOnline)
    (sn_skills s) (id_Capabilities (sn_identity s)) activeTasks (sn_maxTasks s) "" now ∅.

Definition signed (s : HeartbeatSender) (hb : Heartbeat) : Heartbeat :=
  match heartbeat_json hb with
  | Err _ => hb
  | Ok payload =>
      mkHeartbeat (hb_AgentID hb) (hb_Version hb) (hb_Status hb) (hb_Skills hb) (hb_Capabilities hb) (hb_ActiveTasks hb)
        (hb_MaxTasks hb) (Sign (sn_identity s) payload) (hb_Timestamp hb) (hb_Metadata hb)
  end.

Definition sendHeartbeat (s : HeartbeatSender) (active : option Z) : FM (option error) :=
  now ← fleet_world w_now;
  RecordHeartbeat (signed s (unsigned s active now)).

(** [Run]: a heartbeat at the start and one for each tick, with the tasks active then. *)
Definition sender_Run (s : HeartbeatSender) (actives : list (option Z)) : FM unit :=
  st_each (fun active => _ ← sendHeartbeat s active; mret tt) actives.
End fleet.

Arguments FleetDB W : clear implicits.

(** ** The workspace *)

(** [strings.ReplaceAll] of one byte, and of two dots. *)
Fixpoint replace_byte (old : Ascii.ascii) (new : string) (s : string) : string :=
  match s with
  | EmptyString => ""
  | String a s => if Ascii.eqb a old then new +:+ replace_byte old new s else String a (replace_byte old new s)
  end.

Definition dot : Ascii.ascii := Ascii.ascii_of_nat 46.
Definition backslash : Ascii.ascii := Ascii.ascii_of_nat 92.

Fixpoint replace_dots (s : string) : string :=
  match s with
  | String a (String b s' as rest) =>
      if Ascii.eqb a dot && Ascii.eqb b dot then "_" +:+ replace_dots s' else String a (replace_dots rest)
  | _ => s
  end.

Definition sanitizeName (name : string) : string :=
  or_text (replace_dots (replace_byte backslash "_" (replace_byte slash "_" name))) "_".

(** [filepath.Join] of a clean absolute path and a text without slashes. *)
Definition path_Join (p : path) (c : string) : path := clean_step p c.

Record Workspace := mkWorkspace {
  ws_Root : path;
  ws_created : gset string;
  ws_fs : FS;
}.

Section workspace.
(** [os.UserHomeDir]. *)
Variable home : result error path.

Definition ensureDir (p : path) : st Workspace (option error) := fun w =>
  if bool_decide (render p ∈ ws_created w) then (None, w)
  else
    match os_MkdirAll (ws_fs w) p with
    | (Some e, fs) => (Some (Wrap "creating directory" e), mkWorkspace (ws_Root w) (ws_created w) fs)
    | (None, fs) => (None, mkWorkspace (ws_Root w) ({[render p]} ∪ ws_created w) fs)
    end.

Definition resolvePath (fs : FS) (p : string) : result error path :=
  if has_prefix p "~/" || String.eqb p "~" then
    match home with
    | Err e => Err e
    | Ok h => Ok (clean (h ++ split_slash (str_drop 1 p)))
    end
  else filepath_Abs fs p.

(** [New]. *)
Definition NewWorkspace (fs : FS) (root : string) : result error Workspace * FS :=
  match resolvePath fs root with
  | Err e => (Err (Wrap "resolving workspace root" e), fs)
  | Ok p =>
      let '(err, w) := ensureDir p (mkWorkspace p ∅ fs) in
      match err with
      | Some e => (Err (Wrap "creating workspace root" e), ws_fs w)
      | None => (Ok w, ws_fs w)
      end
  end.

(** [Default]. *)
Definition DefaultWorkspace (fs : FS) : result error Workspace * FS :=
  match home with
  | Err e => (Err (Wrap "determining home directory" e), fs)
  | Ok h => NewWorkspace fs (render (h ++ [".akili"; "workspace"]))
  end.
End workspace.

(** [dir] and [restrictedDir], which differ in the permissions. *)
Definition ws_dir (name : string) : st Workspace path :=
  root ← st_get ws_Root;
  _ ← ensureDir (path_Join root name);
  mret (path_Join root name).

Definition SkillsDir := ws_dir "skills".
Definition SessionsDir := ws_dir "sessions".
Definition AgentsDir := ws_dir "agents".
Definition SandboxDir := ws_dir "sandbox".
Definition MCPDir := ws_dir "mcp".
Definition CredentialsDir := ws_dir "credentials".
Definition LogsDir := ws_dir "logs".
Definition SoulDir := ws_dir "soul".

Definition ConfigPath : st Workspace path := root ← st_get ws_Root; mret (path_Join root "config.json").

Definition AgentDir (agentID : string) : st Workspace path :=
  agents ← AgentsDir;
  let p := path_Join agents (sanitizeName agentID) in
  _ ← ensureDir p;
  mret p.

Definition AgentAuditPath (agentID : string) : st Workspace path :=
  d ← AgentDir agentID; mret (path_Join d "audit.jsonl").

Definition SessionDir (userID : string) : st Workspace path :=
  sessions ← SessionsDir;
  let p := path_Join sessions (sanitizeName userID) in
  _ ← ensureDir p;
  mret p.

Definition SessionFile (userID conversationID : string) : st Workspace path :=
  d ← SessionDir userID; mret (path_Join d (sanitizeName conversationID +:+ ".jsonl")).

(** [os.IsNotExist]. *)
Definition is_not_exist {A} (r : result error A) : bool :=
  match r with Err e => bool_decide (e = Errorf "no such file or directory") | Ok _ => false end.

(** [os.RemoveAll]: the entry and what is below it, without following a link at its end. *)
Definition os_RemoveAll (fs : FS) (p : path) : option error * FS :=
  match os_walk fs (removelast p) with
  | Ok (Found q) =>
      (None, mkFS (filter (fun kv => ~ (q ++ drop (length p - 1) p) `prefix_of` kv.1) (fs_nodes fs)) (fs_cwd fs))
  | Ok (Missing _) => (None, fs)
  | Err e => if is_not_exist (@Err error unit e) then (None, fs) else (Some e, fs)
  end.

Fixpoint remove_entries (fs : FS) (dir : path) (names : list string) : option error * FS :=
  match names with
  | [] => (None, fs)
  | n :: names =>
      match os_RemoveAll fs (path_Join dir n) with
      | (Some e, fs) => (Some (Wrap "removing sandbox entry" e), fs)
      | (None, fs) => remove_entries fs dir names
      end
  end.

Definition CleanSandbox : st Workspace (option error) := fun w =>
  let dir := path_Join (ws_Root w) "sandbox" in
  if is_not_exist (os_Stat (ws_fs w) dir) then (None, w)
  else
    match os_ReadDir (ws_fs w) dir with
    | Err e => (Some (Wrap "reading sandbox dir" e), w)
    | Ok es =>
        let '(err, fs) := remove_entries (ws_fs w) dir es.*1 in
        (err, mkWorkspace (ws_Root w) (ws_created w) fs)
    end.

(** The first directory that cannot be made; each of them was tried before, by its accessor. *)
Fixpoint ensure_all (ps : list path) : st Workspace (option error) :=
  match ps with
  | [] => mret None
  | p :: ps => err ← ensureDir p; match err with Some e => mret (Some e) | None => ensure_all ps end
  end.

Definition EnsureAll : st Workspace (option error) :=
  skills ← SkillsDir; sessions ← SessionsDir; agents ← AgentsDir; sandbox ← SandboxDir;
  mcp ← MCPDir; logs ← LogsDir; soul ← SoulDir;
  err ← ensure_all [skills; sessions; agents; sandbox; mcp; logs; soul];
  match err with
  | Some e => mret (Some e)
  | None => _ ← CredentialsDir; mret None
  end.

(** * What the fleet guarantees

    A key file gives back the key it was written from; registering again never changes the
    trust in an agent; which agents the checker marks; the paths of the workspace stay in
    it. *)

(** ** Files that were written *)

(** A walk that ends at a file, or where there is nothing, ends there as well when a file is
    written to that place. *)
Lemma walk_put nodes q content links : forall todo cur,
  (forall absolute target, nodes !! q <> Some (NLink absolute target)) -> nodes !! q <> Some NDir ->
  walk nodes links cur todo = Ok (Found q) \/ walk nodes links cur todo = Ok (Missing q) ->
  walk (<[q := NFile content]> nodes) links cur todo = Ok (Found q).
Proof.
  intros todo cur Hl Hd. revert todo cur. induction links as [|links IHl].
  all: induction todo as [|c todo IH]; intros cur; [rewrite !walk_nil; by intros [[= ->]|]|].
  all: rewrite !walk_cons; destruct (_ || _); [apply IH|]; destruct (String.eqb c ".."); [apply IH|].
  all: destruct (decide (cur ++ [c] = q)) as [->|Hne];
    [rewrite lookup_insert_eq|rewrite lookup_insert_ne by done].
  all: try (destruct (nodes !! q) as [[?| |absolute target]|] eqn:E; [|done|by destruct (Hl absolute target)|]; destruct todo; by intros [|]).
  all: destruct (nodes !! (cur ++ [c])) as [[?| |absolute target]|] eqn:E; try apply IH; try apply IHl.
  all: destruct todo; intros [[= E']|[= E']]; done.
Qed.

Lemma put_then_read fs p q content :
  q <> [] -> (forall absolute target, fs_nodes fs !! q <> Some (NLink absolute target)) -> fs_nodes fs !! q <> Some NDir ->
  walk (fs_nodes fs) 40 [] p = Ok (Found q) \/ walk (fs_nodes fs) 40 [] p = Ok (Missing q) ->
  os_ReadFile (put_node fs q (NFile content)) p = Ok content.
Proof.
  intros Hne Hl Hd Hq. unfold os_ReadFile, os_Stat, os_walk. cbn [put_node fs_nodes].
  rewrite (walk_put _ q content 40 p [] Hl Hd Hq). unfold node_at. by rewrite bool_decide_false, lookup_insert_eq.
Qed.

Lemma write_then_read fs p content fs' :
  wf_fs fs -> Forall (fun c => no_slash c = true) p ->
  os_WriteFile fs p content = (None, fs') -> os_ReadFile fs' p = Ok content.
Proof.
  intros Hwf Hp. unfold os_WriteFile, os_walk.
  pose proof (walk_spec (fs_nodes fs) (wf_links fs Hwf) 40 p [] (real_dir_nil _) ltac:(constructor) Hp) as Hs.
  destruct (walk (fs_nodes fs) 40 [] p) as [[q|q]|] eqn:Ew; [| |discriminate].
  - destruct Hs as [Hr _]. destruct (decide (q = [])) as [->|Hne]; [discriminate|].
    unfold node_at. rewrite bool_decide_false by exact Hne.
    destruct Hr as [Hr|(d & c & x & Eq & _ & Hx)]; [rewrite (Hr q Hne (reflexivity q)); discriminate|].
    rewrite Hx. intros [= <-]. apply put_then_read; [exact Hne|by rewrite Hx..|by left].
  - destruct Hs as (d & c & Eq & _ & Hx & _). intros [= <-].
    apply put_then_read; [rewrite Eq; by destruct d|by rewrite Hx..|by right].
Qed.

(** ** Keys *)

Section keys.
Context {W : Type} `{!Render} `{!World W} `{!Ed25519 W} `{!Ed25519Law W} `{!Pem} `{!PemLaw} `{!Hex}.

(** C35: A new identity saved to a key file, whatever was at that place, is loaded with the same key
    pair: what either of them signs verifies under the other.  The file holds nothing else:
    the loaded identity has the name it is given and no trust. *)
Theorem key_file_roundtrip name version env caps (w w1 w2 : W) i fs fs' p agentID name' version' env' caps' :
  wf_fs fs -> Forall (fun c => no_slash c = true) p ->
  NewIdentity name version env caps w = (Ok i, w1) -> SavePrivateKey (W := W) i fs p = (None, fs') ->
  exists j, (LoadIdentity fs' p agentID name' version' env' caps' w2).1 = Ok j /\
    id_PrivateKey j = id_PrivateKey i /\ id_PublicKey j = id_PublicKey i /\
    (forall data, Verify (W := W) i data (Sign (W := W) j data) = Some true /\
                  Verify (W := W) j data (Sign (W := W) i data) = Some true) /\
    id_AgentID j = agentID /\ id_TrustLevel j = TrustUntrusted.
Proof.
  intros Hwf Hp. unfold NewIdentity. destruct (ed_GenerateKey w) as [[[pub priv]|e] w0] eqn:Eg; [|done].
  destruct (ed_generated w pub priv) as (seed & Hl & -> & ->); [by rewrite Eg|].
  destruct (w_uuid w0) as [u w3]. destruct (w_now w3) as [now w4]. intros [= <- _] Hs.
  unfold SavePrivateKey in Hs. cbn [id_PrivateKey] in Hs. rewrite ed_seed_key in Hs by done.
  apply write_then_read in Hs; [|done..]. unfold LoadIdentity. rewrite Hs, pem_decode_encode by done.
  rewrite String.eqb_refl, Hl. cbn [negb Nat.eqb SeedSize].
  destruct (w_now w2) as [t w5]. eexists. split; [done|]. cbn. split_and!; try done.
  intros data. unfold Verify, Sign. cbn. rewrite ed_public_length, Nat.eqb_refl, ed_verify_sign by done. done.
Qed.
End keys.

(** ** Registered agents *)

Section fleet_properties.
Context {W : Type} `{!Render} `{!World W} `{!Ed25519 W} `{!Hex} `{!RowJson} `{!RowJsonLaw} `{!HeartbeatJson}.
Context `{!GoSort AgentIdentityModel} `{!GoSort AgentHeartbeatModel} `{!MapRange string (AgentIdentityModel * bool)}.
Implicit Types (s : FleetDB W) (i : IdentityConfig).

Lemma fleet_world_run {A} (f : W -> A * W) s :
  fleet_world f s = ((f (fd_world s)).1, mkFleetDB (f (fd_world s)).2 (fd_agents s) (fd_beats s)).
Proof. unfold fleet_world. by destruct (f _). Qed.

Lemma agent_row_frame a s s' : fd_agents s' !! a = fd_agents s !! a -> agent_row a s' = agent_row a s.
Proof. unfold agent_row. by intros ->. Qed.

(** What a registration does to the rows. *)
Lemma Register_rows i s s' :
  identity_Register i s = (None, s') ->
  (forall a, a <> id_AgentID i -> fd_agents s' !! a = fd_agents s !! a) /\ fd_beats s' = fd_beats s /\
  exists id, fd_agents s' !! id_AgentID i =
    Some match fd_agents s !! id_AgentID i with
         | None => (identity_row id i, false)
         | Some (old, deleted) => (reregistered old (identity_row id i), deleted)
         end.
Proof.
  unfold identity_Register. cbv [mbind st_bind st_modify mret st_ret]. rewrite !fleet_world_run. cbn [fst snd fd_world].
  destruct (w_db _).1; [done|]. intros [= <-]. cbn. split_and!; [|done|].
  - intros a Ha. by apply lookup_insert_ne.
  - eexists. by rewrite lookup_insert_eq.
Qed.

Lemma GetByAgentID_run agentID s :
  (w_db (fd_world s)).1 = None ->
  (GetByAgentID agentID s).1 =
    match agent_row agentID s with
    | Some m => Ok (toIdentityDomain m)
    | None => Err (Wrap "getting agent identity" (Errorf "record not found"))
    end.
Proof.
  intros Hw. unfold GetByAgentID. cbv [mbind st_bind st_get mret st_ret]. rewrite fleet_world_run, Hw. by destruct (agent_row _ _).
Qed.

Lemma Remove_rows agentID s s' :
  identity_Remove agentID s = (None, s') ->
  fd_agents s' = alter (fun r : AgentIdentityModel * bool => (r.1, true)) agentID (fd_agents s).
Proof.
  unfold identity_Remove. cbv [mbind st_bind st_modify mret st_ret]. rewrite fleet_world_run. cbn [fst snd].
  destruct (w_db _).1; [done|]. by intros [= <-].
Qed.

(** C29: Registering an agent.  A known agent gets the new name, version, key, capabilities and
    environment and keeps its identifier, its trust and its last heartbeat, so no agent raises
    its own trust; a new one has the trust it comes with, [untrusted] when it has none.  Other
    agents are not touched.  An agent that was removed stays removed: its registration succeeds,
    its row stays marked as deleted, and the agent is not found, also right after.  What is read
    back of the others has the new settings and no key, so verifying a signature with it
    panics. *)
Theorem registration_keeps_trust i s s' :
  identity_Register i s = (None, s') ->
  (forall m, agent_row (id_AgentID i) s = Some m ->
     exists m', agent_row (id_AgentID i) s' = Some m' /\ im_ID m' = im_ID m /\ im_TrustLevel m' = im_TrustLevel m /\
       im_LastHeartbeatAt m' = im_LastHeartbeatAt m /\ im_PublicKey m' = PublicKeyHex i /\ im_Status m' = "online") /\
  (fd_agents s !! id_AgentID i = None ->
     exists m', agent_row (id_AgentID i) s' = Some m' /\ im_TrustLevel m' = or_text (id_TrustLevel i) TrustUntrusted) /\
  (forall a, a <> id_AgentID i -> agent_row a s' = agent_row a s) /\
  (forall old, fd_agents s !! id_AgentID i = Some (old, true) ->
     (exists m', fd_agents s' !! id_AgentID i = Some (m', true)) /\
     exists e, (GetByAgentID (id_AgentID i) s').1 = Err e) /\
  (forall m s0, agent_row (id_AgentID i) s0 = Some m -> identity_Remove (id_AgentID i) s0 = (None, s) ->
     agent_row (id_AgentID i) s' = None) /\
  ((w_db (fd_world s')).1 = None -> (forall old, fd_agents s !! id_AgentID i <> Some (old, true)) ->
     exists j, (GetByAgentID (id_AgentID i) s').1 = Ok j /\
       id_Name j = id_Name i /\ id_Version j = id_Version i /\ id_Capabilities j = id_Capabilities i /\
       id_EnvironmentScope j = id_EnvironmentScope i /\ forall data sig, Verify (W := W) j data sig = None).
Proof.
  intros (Hother & _ & id & Hrow)%Register_rows. split_and!.
  - intros m Hm. unfold agent_row in *. rewrite Hrow. destruct (fd_agents s !! id_AgentID i) as [[old []]|]; [done| |done].
    injection Hm as ->. by eexists.
  - intros Hn. rewrite Hn in Hrow. unfold agent_row. rewrite Hrow. by eexists.
  - intros a Ha. by apply agent_row_frame, Hother.
  - intros old Hold. rewrite Hold in Hrow. split; [by eexists|]. unfold GetByAgentID. cbv [mbind st_bind st_get mret st_ret].
    rewrite fleet_world_run. destruct (w_db _).1 as [e|]; [by eexists|]. unfold agent_row. cbn. rewrite Hrow. by eexists.
  - intros m s0 Hm Hrem%Remove_rows. unfold agent_row in *. rewrite Hrow, Hrem, lookup_alter_eq.
    by destruct (fd_agents s0 !! _) as [[]|].
  - intros Hw Hlive. rewrite GetByAgentID_run by done. unfold agent_row. rewrite Hrow.
    destruct (fd_agents s !! id_AgentID i) as [[old []]|]; cbn; [by destruct (Hlive old)|..];
      (eexists; split; [reflexivity|]); cbn; by rewrite json_or_marshal.
Qed.

(** ** Stale agents *)

Lemma MarkStale_rows thr s n s' :
  MarkStale thr s = (Ok n, s') ->
  let cutoff := ((w_now (fd_world s)).1 - thr)%Z in
  fd_agents s' = mark_row cutoff <$> fd_agents s /\ fd_beats s' = fd_beats s /\
  n = Z.of_nat (countb (stale_row cutoff) (map_range (fd_agents s)).*2).
Proof.
  unfold MarkStale. cbv [mbind st_bind st_get st_modify mret st_ret]. rewrite !fleet_world_run. cbn [fst snd fd_world fd_agents].
  destruct (w_db _).1; [done|]. by intros [= <- <-].
Qed.

Lemma live_agents_spec s m : m ∈ live_agents s <-> exists a, agent_row a s = Some m.
Proof.
  unfold live_agents, agent_row. rewrite list_elem_of_omap. split.
  - intros ([a [m' []]] & Hin & E); [done|]. cbn in E. injection E as ->. exists a.
    apply elem_of_map_range in Hin. by rewrite Hin.
  - intros [a Ha]. destruct (fd_agents s !! a) as [[m' []]|] eqn:E; [done| |done]. injection Ha as ->.
    exists (a, (m, false)). split; [by apply elem_of_map_range|done].
Qed.

(** One check of the gateway.  An agent becomes stale exactly when it is online or busy and
    its last heartbeat is older than the threshold; the others keep their rows, in particular
    a draining agent and one that never sent a heartbeat, however long they are silent.  No
    agent that is left is due to be marked, and an agent that sent its last heartbeat within
    the threshold is listed as before. *)
Theorem stale_agents_exact thr s n s' :
  MarkStale thr s = (Ok n, s') ->
  let cutoff := ((w_now (fd_world s)).1 - thr)%Z in
  (forall a m, agent_row a s = Some m ->
     agent_row a s' = Some (if beat_before cutoff m then with_status "stale" (im_LastHeartbeatAt m) m else m)) /\
  (forall a, agent_row a s = None -> agent_row a s' = None) /\
  (forall m, m ∈ live_agents s' -> beat_before cutoff m = false) /\
  (forall m, beat_after cutoff m = true -> m ∈ live_agents s' <-> m ∈ live_agents s) /\
  (forall a m, agent_row a s = Some m -> im_Status m = StatusDraining \/ im_LastHeartbeatAt m = None ->
     agent_row a s' = Some m).
Proof.
  intros (Hrows & _ & _)%MarkStale_rows. cbn zeta in *. set (cutoff := ((w_now (fd_world s)).1 - thr)%Z) in *.
  assert (forall a m, agent_row a s = Some m ->
     agent_row a s' = Some (if beat_before cutoff m then with_status "stale" (im_LastHeartbeatAt m) m else m)) as Hm.
  { intros a m. unfold agent_row. rewrite Hrows, lookup_fmap. destruct (fd_agents s !! a) as [[m' []]|]; [done| |done].
    intros [= ->]. cbn. unfold mark_row, stale_row. cbn. by destruct (beat_before cutoff m). }
  assert (forall a, agent_row a s = None -> agent_row a s' = None) as Hn.
  { intros a. unfold agent_row. rewrite Hrows, lookup_fmap. destruct (fd_agents s !! a) as [[m' []]|]; [|done|done].
    intros _. cbn. unfold mark_row, stale_row. done. }
  assert (forall a m, agent_row a s' = Some m -> exists m0, agent_row a s = Some m0 /\
    m = if beat_before cutoff m0 then with_status "stale" (im_LastHeartbeatAt m0) m0 else m0) as Hinv.
  { intros a m Ha. destruct (agent_row a s) as [m0|] eqn:E; [|by rewrite (Hn a E) in Ha].
    rewrite (Hm a m0 E) in Ha. injection Ha as <-. by exists m0. }
  assert (forall m, beat_after cutoff m = true -> beat_before cutoff m = false) as Hafter.
  { intros m. unfold beat_after, beat_before. destruct (reachable_status m); [|done].
    destruct (im_LastHeartbeatAt m); [|done]. simpl. intros ?%Z.ltb_lt. apply Z.ltb_ge. lia. }
  split_and!; [done|done| | |].
  - intros m (a & (m0 & _ & ->)%Hinv)%live_agents_spec. by destruct (beat_before cutoff m0) eqn:E.
  - intros m Ha. rewrite !live_agents_spec. split; intros [a Hrow].
    + apply Hinv in Hrow as (m0 & Hrow & ->). exists a. by destruct (beat_before cutoff m0).
    + exists a. by rewrite (Hm a m Hrow), (Hafter m Ha).
  - intros a m Hrow Hd. rewrite (Hm a m Hrow). assert (beat_before cutoff m = false) as ->; [|done].
    unfold beat_before, reachable_status. destruct Hd as [->| ->]; [done|by rewrite andb_false_r].
Qed.
End fleet_properties.

(** ** Paths of the workspace *)

Lemma no_slash_app a b : no_slash (a +:+ b) = no_slash a && no_slash b.
Proof.
  induction a as [|c a IH]; [done|].
  change (negb (Ascii.eqb c slash) && no_slash (a +:+ b) = negb (Ascii.eqb c slash) && no_slash a && no_slash b).
  by rewrite IH, andb_assoc.
Qed.

Lemma replace_byte_no_slash old s :
  no_slash s = true \/ old = slash -> no_slash (replace_byte old "_" s) = true.
Proof.
  induction s as [|c s IH]; intros Hs; [done|]. cbn [replace_byte]. destruct (Ascii.eqb_spec c old) as [->|Hne].
  - apply IH. destruct Hs as [Hs| ->]; [|by right]. left. by apply no_slash_cons in Hs as [_ ?].
  - apply no_slash_cons. split.
    + destruct Hs as [Hs| ->]; [by apply no_slash_cons in Hs as [? _]|done].
    + apply IH. destruct Hs as [Hs| ->]; [left; by apply no_slash_cons in Hs as [_ ?]|by right].
Qed.

(** Induction over the steps of [replace_dots]. *)
Lemma pair_ind (P : string -> Prop) :
  P "" -> (forall a, P (String a "")) -> (forall a b s, P s -> P (String b s) -> P (String a (String b s))) ->
  forall s, P s.
Proof.
  intros H0 H1 H2 s. enough (P s /\ forall a, P (String a s)) by tauto.
  induction s as [|b s [IH1 IH2]]; [by split|]. split; [done|]. intros a. by apply H2.
Qed.

Lemma replace_dots_pair a b s :
  replace_dots (String a (String b s)) =
    if Ascii.eqb a dot && Ascii.eqb b dot then "_" +:+ replace_dots s else String a (replace_dots (String b s)).
Proof. done. Qed.

Lemma replace_dots_no_slash s : no_slash s = true -> no_slash (replace_dots s) = true.
Proof.
  induction s as [|a|a b s IH1 IH2] using pair_ind; [done..|]. intros (Ha & Hbs)%no_slash_cons.
  pose proof Hbs as (Hb & Hs)%no_slash_cons. rewrite replace_dots_pair. destruct (_ && _).
  - by apply IH1.
  - apply no_slash_cons. split; [done|]. by apply IH2.
Qed.

Lemma replace_dots_start c s : c <> dot -> exists t, replace_dots (String c s) = String c t.
Proof.
  intros Hc. destruct s as [|b s]; [by eexists|]. rewrite replace_dots_pair.
  rewrite (proj2 (Ascii.eqb_neq c dot) Hc). by eexists.
Qed.

Lemma replace_dots_not_parent s : replace_dots s <> "..".
Proof.
  destruct s as [|a [|b s]]; [done| |].
  - intros E. by injection E.
  - rewrite replace_dots_pair. destruct (Ascii.eqb_spec a dot) as [->|Ha]; cbn [andb]; [|intros E; by injection E].
    destruct (Ascii.eqb_spec b dot) as [->|Hb]; [done|].
    destruct (replace_dots_start b s Hb) as [t ->]. intros [= E _]. done.
Qed.

Lemma sanitizeName_spec n :
  no_slash (sanitizeName n) = true /\ sanitizeName n <> "" /\ sanitizeName n <> "..".
Proof.
  unfold sanitizeName, or_text. destruct (String.eqb_spec (replace_dots (replace_byte backslash "_" (replace_byte slash "_" n))) "") as [E|Hne].
  - done.
  - split_and!; [|done|apply replace_dots_not_parent].
    apply replace_dots_no_slash, replace_byte_no_slash. left. apply replace_byte_no_slash. by right.
Qed.

Lemma path_Join_beneath base p c :
  Forall name p -> base <> [] -> base `prefix_of` p -> no_slash c = true -> c <> ".." ->
  Forall name (path_Join p c) /\ base `prefix_of` path_Join p c.
Proof.
  intros Hp Hb Hpre Hc Hup. unfold path_Join, clean_step.
  destruct (String.eqb_spec c ""), (String.eqb_spec c "."); cbn [orb]; try done.
  rewrite (proj2 (String.eqb_neq c "..") Hup). split; [|by apply prefix_app_r].
  apply Forall_app. split; [done|]. by repeat constructor.
Qed.

Lemma ensureDir_root p w : ws_Root (ensureDir p w).2 = ws_Root w.
Proof. unfold ensureDir. destruct (bool_decide _); [done|]. by destruct (os_MkdirAll _ _) as [[]]. Qed.

Lemma ws_dir_run n w : (ws_dir n w).1 = path_Join (ws_Root w) n.
Proof. unfold ws_dir. cbv [mbind st_bind st_get mret st_ret]. by destruct (ensureDir _ w). Qed.

Lemma SessionFile_run u c w :
  (SessionFile u c w).1 =
    path_Join (path_Join (path_Join (ws_Root w) "sessions") (sanitizeName u)) (sanitizeName c +:+ ".jsonl").
Proof.
  unfold SessionFile, SessionDir. cbv [mbind st_bind mret st_ret]. pose proof (ws_dir_run "sessions" w) as Hd.
  unfold SessionsDir. destruct (ws_dir "sessions" w) as [d w1]. cbn in Hd. subst d. by destruct (ensureDir _ w1).
Qed.

Lemma AgentAuditPath_run a w :
  (AgentAuditPath a w).1 = path_Join (path_Join (path_Join (ws_Root w) "agents") (sanitizeName a)) "audit.jsonl".
Proof.
  unfold AgentAuditPath, AgentDir. cbv [mbind st_bind mret st_ret]. pose proof (ws_dir_run "agents" w) as Hd.
  unfold AgentsDir. destruct (ws_dir "agents" w) as [d w1]. cbn in Hd. subst d. by destruct (ensureDir _ w1).
Qed.

(** Whatever the texts of users, conversations and agents are, the file of a session lies
    below the directory of sessions and the audit log of an agent below that of agents, by
    proper names on the way; different users may share a directory. *)
Theorem workspace_contained w user conversation agent :
  Forall name (ws_Root w) ->
  (Forall name (SessionFile user conversation w).1 /\
   ws_Root w ++ ["sessions"] `prefix_of` (SessionFile user conversation w).1) /\
  (Forall name (AgentAuditPath agent w).1 /\
   ws_Root w ++ ["agents"] `prefix_of` (AgentAuditPath agent w).1) /\
  (SessionFile "a/b" conversation w).1 = (SessionFile "a_b" conversation w).1.
Proof.
  intros Hr. rewrite !SessionFile_run, AgentAuditPath_run.
  assert (forall d n c, name d -> no_slash c = true -> c <> ".." ->
    Forall name (path_Join (path_Join (path_Join (ws_Root w) d) (sanitizeName n)) c) /\
    ws_Root w ++ [d] `prefix_of` path_Join (path_Join (path_Join (ws_Root w) d) (sanitizeName n)) c) as Hj.
  { intros d n c Hd Hc Hup. assert (path_Join (ws_Root w) d = ws_Root w ++ [d]) as ->.
    { unfold path_Join, clean_step. destruct Hd as (_ & H1 & Hp2 & H3).
      by rewrite (proj2 (String.eqb_neq _ _) H1), (proj2 (String.eqb_neq _ _) Hp2), (proj2 (String.eqb_neq _ _) H3). }
    destruct (sanitizeName_spec n) as (Hn1 & Hn2 & Hn3).
    destruct (path_Join_beneath (ws_Root w ++ [d]) (ws_Root w ++ [d]) (sanitizeName n)) as [Hx Hy];
      [apply Forall_app; split; [done|by apply Forall_singleton]|by destruct (ws_Root w)|done..|].
    apply path_Join_beneath; [done|by destruct (ws_Root w)|done..]. }
  split_and!; [apply Hj|apply Hj|apply Hj|apply Hj|].
  all: try (by repeat split).
  all: try (rewrite no_slash_app; apply andb_true_iff; split; [by apply sanitizeName_spec|done]).
  all: intros E; apply (f_equal String.length) in E; rewrite str_app_length in E; simpl in E; lia.
Qed.

(** ** Runs

    A toy signature (the public key before the data) and a PEM text that is the type, a line
    feed and the bytes. *)

#[local] Instance fleet_world_ex : World nat := {|
  w_now := fun n => (Z.of_nat n * Minute, n)%Z; w_uuid := fun n => (N.of_nat n, n);
  w_correlationID := fun n => ("", n); w_db := fun n => (None, n);
|}.
#[local] Instance fleet_render_ex : Render := {| itoa := fun _ => ""; uuid_String := fun _ => "id" |}.
#[local] Instance ed_ex : Ed25519 nat := {|
  ed_GenerateKey := fun n => (Ok ("0123456789abcdef0123456789abcdef", "k0123456789abcdef0123456789abcdef"), n);
  ed_NewKeyFromSeed := fun s => "k" +:+ s;
  ed_Seed := fun k => str_drop 1 k;
  ed_Public := fun k => str_drop 1 k;
  ed_Sign := fun k data => str_drop 1 k +:+ data;
  ed_Verify := fun pub data sig => String.eqb sig (pub +:+ data);
|}.
#[local] Instance ed_law_ex : Ed25519Law nat.
Proof.
  split.
  - intros w pub priv [= <- <-]. exists "0123456789abcdef0123456789abcdef". by split_and!.
  - intros seed _. reflexivity.
  - intros seed E. exact E.
  - intros seed data _. apply String.eqb_refl.
Defined.
#[local] Instance pem_ex : Pem := {|
  pem_Encode := fun b => b.1 +:+ String line_feed b.2;
  pem_Decode := cut_char line_feed;
|}.
#[local] Instance pem_law_ex : PemLaw.
Proof.
  split. induction typ as [|a typ IH]; intros bytes; [done|]. cbn. destruct (Ascii.eqb a line_feed) eqn:Ea; [done|].
  specialize (IH bytes). cbn in IH. destruct (cut_char line_feed typ) as [[x y]|]; [done|]. intros _.
  change (String a typ +:+ ?z) with (String a (typ +:+ z)). cbn [cut_char]. rewrite Ea. by rewrite IH.
Defined.
#[local] Instance hex_ex : Hex := {| hex_encode := fun s => s |}.

Definition fleet_fs : FS := mkFS {[ ["keys"] := NDir ]} (Ok []).

Lemma fleet_fs_wf : wf_fs fleet_fs.
Proof.
  split; [by intros cwd [= <-]|]. intros p a t Hl. cbn in Hl. apply lookup_singleton_Some in Hl as [_ [=]].
Qed.

Lemma key_file_roundtrip_witness :
  exists i w1 fs' j, NewIdentity "a" "1" "dev" [] 0 = (Ok i, w1) /\
    SavePrivateKey (W := nat) i fleet_fs ["keys"; "a.pem"] = (None, fs') /\
    (LoadIdentity fs' ["keys"; "a.pem"] "id" "a" "1" "dev" [] 0).1 = Ok j /\ id_PrivateKey j = id_PrivateKey i.
Proof.
  destruct (NewIdentity "a" "1" "dev" [] 0) as [[i|] w1] eqn:Ei; [|by vm_compute in Ei].
  destruct (SavePrivateKey (W := nat) i fleet_fs ["keys"; "a.pem"]) as [err fs'] eqn:Es.
  assert (err = None) as -> by (vm_compute in Ei; injection Ei as <- _; vm_compute in Es; by injection Es as <- _).
  destruct (key_file_roundtrip "a" "1" "dev" [] 0 w1 0 i fleet_fs fs' ["keys"; "a.pem"] "id" "a" "1" "dev" []
    fleet_fs_wf ltac:(by repeat constructor) Ei Es) as (j & Hj & Hk & _).
  by exists i, w1, fs', j.
Defined.

Definition agent_ex (trust : TrustLevel) : IdentityConfig :=
  mkIdentity "agent-1" "worker" "2" "pub" "priv" [] trust "dev" 0%Z.
Definition row_ex (id : string) (last : option Time) (status : string) : AgentIdentityModel :=
  mkIdentityModel 1%N id "worker" "1" "old" "" "basic" "dev" last status 0%Z.

(** The clock stands at ten minutes: of the four agents one is silent for too long. *)
Definition fleet_ex : FleetDB nat :=
  mkFleetDB 10
    (list_to_map [("agent-1", (row_ex "agent-1" (Some (9 * Minute)%Z) "online", false));
                  ("agent-2", (row_ex "agent-2" (Some (2 * Minute)%Z) "busy", false));
                  ("agent-3", (row_ex "agent-3" None "online", false));
                  ("agent-4", (row_ex "agent-4" (Some 0%Z) "draining", false))]) [].

Lemma stale_agents_exact_witness :
  exists n s', MarkStale (3 * Minute)%Z fleet_ex = (Ok n, s') /\ n = 1%Z /\
    map im_Status (omap (fun a => agent_row a s') ["agent-1"; "agent-2"; "agent-3"; "agent-4"]) =
      ["online"; "stale"; "online"; "draining"].
Proof.
  destruct (MarkStale (3 * Minute)%Z fleet_ex) as [[n|e] s'] eqn:E; [|by vm_compute in E].
  destruct (stale_agents_exact (3 * Minute)%Z fleet_ex n s' E) as (Hm & _ & _ & _ & Hd).
  exists n, s'. split; [done|]. split; [vm_compute in E; by injection E as <- _|].
  cbn [omap list_omap map].
  rewrite (Hm "agent-1" _ eq_refl), (Hm "agent-2" _ eq_refl).
  rewrite (Hd "agent-3" _ eq_refl) by (by right). rewrite (Hd "agent-4" _ eq_refl) by (by left). reflexivity.
Defined.

Lemma workspace_contained_witness :
  let w := mkWorkspace ["root"] ∅ fleet_fs in
  (SessionFile "../../etc" "." w).1 = ["root"; "sessions"; "____etc"; "..jsonl"] /\
  ["root"; "sessions"] `prefix_of` (SessionFile "../../etc" "." w).1.
Proof.
  intros w. split; [reflexivity|].
  apply (workspace_contained w "../../etc" "." ""). by apply Forall_singleton.
Defined.
