(* ===== verification/Infra.v ===== *)
(** * Infrastructure nodes, their tools and their secrets

    [src/internal/infra/]: the interface of a store of nodes ([Store], the class
    [InfraStore]), what a model may see of a node, and the in-memory store;
    [src/internal/storage/postgres/infra_repo.go]: the store over the database, with its
    soft deletes; [src/internal/secrets/]: the providers of credentials; and the tools
    [infra_lookup], [infra_manage] and [infra_exec] of [src/internal/tools/infra/].  JSON,
    the environment, HTTP and the tools of MCP servers are parameters; logging is left out.

    [MemoryStore.Lookup] returns a pointer to the stored node, [InfraNodeRepository.Lookup]
    one to a fresh copy: [st_assign] is what assignments through that pointer do to the
    store. *)

From S2P Require Import Prelude Text Security LLM ToolValues SandboxTools Domain Models.

(** ** The interface *)

Definition ErrNodeNotFound : error := Errorf "infrastructure node not found".
Definition ErrNodeExists : error := Errorf "infrastructure node already exists".

Class InfraStore (W : Type) := {
  st_Lookup : uuid -> string -> W -> result error InfraNode * W;
  st_List : uuid -> string -> W -> result error (list InfraNode) * W;
  st_Create : InfraNode -> W -> result error InfraNode * W;
  st_Update : InfraNode -> W -> option error * W;
  st_Delete : uuid -> uuid -> W -> option error * W;
  st_assign : InfraNode -> W -> W;
}.

Definition SanitizeForLLM `{Render} (n : InfraNode) : GoAny :=
  AObject [("id", AString (uuid_String (in_ID n))); ("name", AString (in_Name n));
           ("aliases", AList (map AString (in_Aliases n))); ("type", AString (in_NodeType n));
           ("host", AString (in_Host n)); ("port", AInt (in_Port n)); ("user", AString (in_User n));
           ("tags", AObject (map (fun kv => (kv.1, AString kv.2)) (map_to_list (in_Tags n))));
           ("mcp_server", AString (in_MCPServer n)); ("enabled", ABool (in_Enabled n))].

Definition with_times (id : uuid) (created updated : Time) (n : InfraNode) : InfraNode :=
  mkInfraNode id (in_OrgID n) (in_Name n) (in_Aliases n) (in_NodeType n) (in_Host n) (in_Port n) (in_User n)
    (in_CredentialRef n) (in_Tags n) (in_MCPServer n) (in_Enabled n) created updated.

Definition same_name (org : uuid) (name : string) (n : InfraNode) : bool :=
  bool_decide (in_OrgID n = org) && String.eqb (to_lower (in_Name n)) (to_lower name).

(** ** The store in memory *)

Section memory.
Context {W : Type} `{!World W} `{!UuidParse} `{!MapRange uuid InfraNode}.

Record MemoryStore := mkMemoryStore { ms_world : W; ms_nodes : gmap uuid InfraNode }.

Abbreviation MM := (st MemoryStore).

Definition on_memory {A} (m : W -> A * W) : MM A := fun s =>
  let '(a, w) := m (ms_world s) in (a, mkMemoryStore w (ms_nodes s)).
Definition put_infra_node (n : InfraNode) (s : MemoryStore) : MemoryStore :=
  mkMemoryStore (ms_world s) (<[in_ID n := n]> (ms_nodes s)).

Definition usable (orgID : uuid) (n : InfraNode) : bool := bool_decide (in_OrgID n = orgID) && in_Enabled n.

Definition answers_to (query : string) (n : InfraNode) : bool :=
  String.eqb (to_lower (in_Name n)) (to_lower query) ||
  existsb (fun alias => String.eqb (to_lower alias) (to_lower query)) (in_Aliases n).

Definition mem_Lookup (orgID : uuid) (query : string) (s : MemoryStore) : result error InfraNode * MemoryStore :=
  let by_id := match uuid_Parse query with
               | Ok id => match ms_nodes s !! id with
                          | Some n => if usable orgID n then Some n else None
                          | None => None
                          end
               | Err _ => None
               end in
  match by_id with
  | Some n => (Ok n, s)
  | None =>
      match List.find (fun n => usable orgID n && answers_to query n) (map_range (ms_nodes s)).*2 with
      | Some n => (Ok n, s)
      | None => (Err (Wrap "node" ErrNodeNotFound), s)
      end
  end.

Definition mem_List (orgID : uuid) (nodeType : string) (s : MemoryStore) : result error (list InfraNode) * MemoryStore :=
  (Ok (List.filter (fun n => usable orgID n && (String.eqb nodeType "" || String.eqb (in_NodeType n) nodeType))
         (map_range (ms_nodes s)).*2), s).

Definition mem_Create (node : InfraNode) : MM (result error InfraNode) :=
  nodes ← st_get ms_nodes;
  if existsb (fun kv => same_name (in_OrgID node) (in_Name node) kv.2) (map_range nodes)
  then mret (Err (Wrap "name" ErrNodeExists))
  else
    id ← (if bool_decide (in_ID node = uuid_Nil) then on_memory w_uuid else mret (in_ID node));
    now ← on_memory w_now;
    let node := with_times id now now node in
    _ ← st_modify (put_infra_node node);
    mret (Ok node).

Definition mem_Update (node : InfraNode) : MM (option error) :=
  nodes ← st_get ms_nodes;
  match nodes !! in_ID node with
  | Some existing =>
      if negb (bool_decide (in_OrgID existing = in_OrgID node)) then mret (Some (Wrap "id" ErrNodeNotFound))
      else if negb (String.eqb (to_lower (in_Name existing)) (to_lower (in_Name node))) &&
              existsb (fun kv => negb (bool_decide (in_ID kv.2 = in_ID node)) &&
                                 same_name (in_OrgID node) (in_Name node) kv.2) (map_range nodes)
      then mret (Some (Wrap "name" ErrNodeExists))
      else
        now ← on_memory w_now;
        _ ← st_modify (put_infra_node (with_times (in_ID node) (in_CreatedAt node) now node));
        mret None
  | None => mret (Some (Wrap "id" ErrNodeNotFound))
  end.

Definition mem_Delete (orgID nodeID : uuid) : MM (option error) :=
  nodes ← st_get ms_nodes;
  match nodes !! nodeID with
  | Some n =>
      if negb (bool_decide (in_OrgID n = orgID)) then mret (Some (Wrap "id" ErrNodeNotFound))
      else _ ← st_modify (fun s => mkMemoryStore (ms_world s) (delete nodeID (ms_nodes s))); mret None
  | None => mret (Some (Wrap "id" ErrNodeNotFound))
  end.

#[export] Instance memory_infra : InfraStore MemoryStore := {
  st_Lookup := mem_Lookup;
  st_List := mem_List;
  st_Create := mem_Create;
  st_Update := mem_Update;
  st_Delete := mem_Delete;
  st_assign n s := put_infra_node n s;
}.
#[export] Instance memory_world : World MemoryStore := {
  w_now := on_memory w_now;
  w_uuid := on_memory w_uuid;
  w_correlationID := on_memory w_correlationID;
  w_db := on_memory w_db;
}.
End memory.

Arguments MemoryStore W : clear implicits.

(** ** The store in the database *)

Section repository.
Context {W : Type} `{!World W} `{!UuidParse} `{!RowJson}.

(** The rows, each with whether it is deleted; whether the database has
    [jsonb_array_elements_text], which SQLite has not; the order of texts. *)
Record InfraNodeRepository := mkInfraRepo {
  ir_world : W;
  ir_rows : list (InfraNodeModel * bool);
  ir_jsonb : bool;
  ir_collate : string -> string -> bool;
}.

Abbreviation IM := (st InfraNodeRepository).

Definition on_repo {A} (m : W -> A * W) : IM A := fun s =>
  let '(a, w) := m (ir_world s) in (a, mkInfraRepo w (ir_rows s) (ir_jsonb s) (ir_collate s)).
Definition set_infra_rows (rows : list (InfraNodeModel * bool)) (s : InfraNodeRepository) : InfraNodeRepository :=
  mkInfraRepo (ir_world s) rows (ir_jsonb s) (ir_collate s).

Definition enabled_row (orgID : uuid) (r : InfraNodeModel * bool) : bool :=
  negb r.2 && bool_decide (nm_OrgID r.1 = orgID) && nm_Enabled r.1.

(** [First]: the row with the smallest primary key that satisfies the conditions. *)
Definition keep_first (p : InfraNodeModel * bool -> bool) (best : option InfraNodeModel) (r : InfraNodeModel * bool)
    : option InfraNodeModel :=
  if p r then match best with
              | Some b => if (nm_ID r.1 <? nm_ID b)%N then Some r.1 else best
              | None => Some r.1
              end
  else best.
Definition first_row (p : InfraNodeModel * bool -> bool) (rows : list (InfraNodeModel * bool)) : option InfraNodeModel :=
  fold_left (keep_first p) rows None.

(** One query: [None] for no row and for an error. *)
Definition query_row (p : InfraNodeModel * bool -> bool) : IM (option InfraNodeModel) :=
  err ← on_repo w_db;
  match err with
  | Some _ => mret None
  | None => rows ← st_get ir_rows; mret (first_row p rows)
  end.

Definition row_aliases (m : InfraNodeModel) : list string := in_Aliases (toInfraNodeDomain m).

Definition repo_Lookup (orgID : uuid) (query : string) : IM (result error InfraNode) :=
  by_id ← (match uuid_Parse query with
           | Ok id => query_row (fun r => enabled_row orgID r && bool_decide (nm_ID r.1 = id))
           | Err _ => mret None
           end);
  match by_id with
  | Some m => mret (Ok (toInfraNodeDomain m))
  | None =>
      by_name ← query_row (fun r => enabled_row orgID r && String.eqb (to_lower (nm_Name r.1)) (to_lower query));
      match by_name with
      | Some m => mret (Ok (toInfraNodeDomain m))
      | None =>
          jsonb ← st_get ir_jsonb;
          by_alias ← query_row (fun r => jsonb && enabled_row orgID r &&
                       existsb (fun a => String.eqb (to_lower a) (to_lower query)) (row_aliases r.1));
          match by_alias with
          | Some m => mret (Ok (toInfraNodeDomain m))
          | None => mret (Err (Wrap "node" ErrNodeNotFound))
          end
      end
  end.

(** [ORDER BY name]: the names of an organisation's rows are distinct, so the order is one. *)
Definition by_name (collate : string -> string -> bool) (rows : list InfraNodeModel) : list InfraNodeModel :=
  insertion_sort (fun a b => collate (nm_Name a) (nm_Name b)) rows.

Definition repo_List (orgID : uuid) (nodeType : string) : IM (result error (list InfraNode)) :=
  err ← on_repo w_db;
  match err with
  | Some e => mret (Err (Wrap "listing infra nodes" e))
  | None =>
      rows ← st_get ir_rows;
      collate ← st_get ir_collate;
      mret (Ok (map toInfraNodeDomain (by_name collate
        (List.filter (fun r => enabled_row orgID r && (String.eqb nodeType "" || String.eqb (nm_NodeType r.1) nodeType)) rows).*1)))
  end.

(** The unique index of names also sees the deleted rows. *)
Definition key_taken (m : InfraNodeModel) (r : InfraNodeModel * bool) : bool :=
  bool_decide (nm_ID r.1 = nm_ID m) ||
  (bool_decide (nm_OrgID r.1 = nm_OrgID m) && String.eqb (nm_Name r.1) (nm_Name m)).

Definition repo_Create (node : InfraNode) : IM (result error InfraNode) :=
  id ← (if bool_decide (in_ID node = uuid_Nil) then on_repo w_uuid else mret (in_ID node));
  now ← on_repo w_now;
  let node := with_times id now now node in
  let m := InfraNode_defaults (toInfraNodeModel node) in
  err ← on_repo w_db;
  match err with
  | Some e => mret (Err (Wrap "creating infra node" e))
  | None =>
      rows ← st_get ir_rows;
      if existsb (key_taken m) rows then mret (Err (Wrap "creating infra node" (Errorf "duplicate key")))
      else _ ← st_modify (set_infra_rows (rows ++ [(m, false)])); mret (Ok node)
  end.

(** [Save]: all columns of the live row, or else an insertion that replaces a row of the
    same key. *)
Definition repo_Update (node : InfraNode) : IM (option error) :=
  now ← on_repo w_now;
  let m := toInfraNodeModel (with_times (in_ID node) (in_CreatedAt node) now node) in
  err ← on_repo w_db;
  match err with
  | Some e => mret (Some (Wrap "updating infra node" e))
  | None =>
      rows ← st_get ir_rows;
      if existsb (fun r => negb (bool_decide (nm_ID r.1 = nm_ID m)) && key_taken m r) rows
      then mret (Some (Wrap "updating infra node" (Errorf "duplicate key")))
      else
        let replaced := map (fun r => if bool_decide (nm_ID r.1 = nm_ID m) then (m, false) else r) rows in
        _ ← st_modify (set_infra_rows (if existsb (fun r => bool_decide (nm_ID r.1 = nm_ID m)) rows then replaced
                                       else rows ++ [(InfraNode_defaults m, false)]));
        mret None
  end.

Definition deletable (orgID nodeID : uuid) (r : InfraNodeModel * bool) : bool :=
  negb r.2 && bool_decide (nm_OrgID r.1 = orgID) && bool_decide (nm_ID r.1 = nodeID).

Definition repo_Delete (orgID nodeID : uuid) : IM (option error) :=
  err ← on_repo w_db;
  match err with
  | Some e => mret (Some (Wrap "deleting infra node" e))
  | None =>
      rows ← st_get ir_rows;
      if existsb (deletable orgID nodeID) rows
      then _ ← st_modify (set_infra_rows (map (fun r => if deletable orgID nodeID r then (r.1, true) else r) rows)); mret None
      else mret (Some (Wrap "id" ErrNodeNotFound))
  end.

#[export] Instance repository_infra : InfraStore InfraNodeRepository := {
  st_Lookup := repo_Lookup;
  st_List := repo_List;
  st_Create := repo_Create;
  st_Update := repo_Update;
  st_Delete := repo_Delete;
  st_assign _ s := s;
}.
#[export] Instance repository_world : World InfraNodeRepository := {
  w_now := on_repo w_now;
  w_uuid := on_repo w_uuid;
  w_correlationID := on_repo w_correlationID;
  w_db := on_repo w_db;
}.
End repository.

Arguments InfraNodeRepository W : clear implicits.

(** ** Secrets *)

Section secrets.
Context {W : Type}.

Record Secret := mkSecret { sec_Value : string; sec_Metadata : gmap string string }.

Definition ErrSecretNotFound : error := Errorf "secret not found".

(** The interface [Provider]. *)
Record SecretProvider := mkSecretProvider {
  sp_Name : string;
  sp_Resolve : string -> st W (result error Secret);
}.

Fixpoint composite_Resolve (providers : list SecretProvider) (ref : string) (lastErr : option error)
    : st W (result error Secret) :=
  match providers with
  | [] => mret (Err (match lastErr with
                     | Some e => e
                     | None => Wrap "no provider could resolve" ErrSecretNotFound
                     end))
  | p :: providers =>
      r ← sp_Resolve p ref;
      match r with
      | Ok s => mret (Ok s)
      | Err e => composite_Resolve providers ref (Some e)
      end
  end.

Definition NewCompositeProvider (providers : list SecretProvider) : SecretProvider :=
  mkSecretProvider "composite" (fun ref => composite_Resolve providers ref None).

(** [os.Getenv]. *)
Class Environment := { os_Getenv : string -> W -> string }.
Context `{!Environment}.

Definition env_prefix : string := "env://".

Definition env_Resolve (ref : string) : st W (result error Secret) := fun w =>
  (match drop_prefix env_prefix ref with
   | None => Err (Wrap "env provider only handles env:// references" ErrSecretNotFound)
   | Some var =>
       if String.eqb var "" then Err (Wrap "empty environment variable name" ErrSecretNotFound)
       else
         let value := os_Getenv var w in
         if String.eqb value "" then Err (Wrap "environment variable is not set or empty" ErrSecretNotFound)
         else Ok (mkSecret value (list_to_map [("source", "env"); ("variable", var)]))
   end, w).

Definition NewEnvProvider : SecretProvider := mkSecretProvider "env" env_Resolve.

(** *** Vault *)

Record VaultProvider := mkVault {
  vp_address : string;
  vp_token : string;
  vp_namespace : string;
  vp_timeout : Duration;
  vp_insecure : bool;
}.

(** One GET with the headers of the provider: the status and the first megabyte of the
    body.  [json.Unmarshal] of its envelope, [None] when it has no data, and
    [json.Marshal] of the data. *)
Class VaultHttp := {
  vault_Get : VaultProvider -> string -> W -> result error (Z * result error string) * W;
  vault_Unmarshal : string -> result error (option (gmap string GoAny));
  vault_Marshal : gmap string GoAny -> result error string;
}.
Context `{!VaultHttp} `{!DurationText}.

Fixpoint trim_slashes (s : string) : string :=
  match s with
  | EmptyString => ""
  | String c s' => let r := trim_slashes s' in
                   if String.eqb r "" && Ascii.eqb c (Ascii.ascii_of_nat 47) then "" else String c r
  end.

(** A variable of the environment in place of a key of the configuration. *)
Definition env_or (cfg : gmap string string) (var key : string) (w : W) : string :=
  or_text (os_Getenv var w) (default "" (cfg !! key)).

Definition NewVaultProvider (cfg : gmap string string) (w : W) : result error VaultProvider :=
  let address := env_or cfg "VAULT_ADDR" "address" w in
  if String.eqb address "" then Err (Errorf "vault address is required")
  else
    let token := env_or cfg "VAULT_TOKEN" "token" w in
    if String.eqb token "" then Err (Errorf "vault token is required")
    else
      let namespace := env_or cfg "VAULT_NAMESPACE" "namespace" w in
      let t := default "" (cfg !! "timeout") in
      let insecure := String.eqb (default "" (cfg !! "tls_skip_verify")) "true" in
      if String.eqb t "" then Ok (mkVault (trim_slashes address) token namespace (5 * Second)%Z insecure)
      else match ParseDuration t with
           | Err e => Err (Wrap "invalid vault timeout" e)
           | Ok d => Ok (mkVault (trim_slashes address) token namespace d insecure)
           end.

(** The parsed answer: the field the reference selects, or all the data. *)
Definition vault_secret (path field : string) (data : gmap string GoAny) : result error Secret :=
  if String.eqb field "" then
    match vault_Marshal data with
    | Err e => Err (Wrap "marshaling vault data" e)
    | Ok text => Ok (mkSecret text (list_to_map [("source", "vault"); ("path", path)]))
    end
  else match data !! field with
       | None => Err (Wrap "field not found in vault path" ErrSecretNotFound)
       | Some (AString str) =>
           Ok (mkSecret str (list_to_map [("source", "vault"); ("path", path); ("field", field)]))
       | Some _ => Err (Errorf "vault field is not a string")
       end.

Definition vault_answer (path field : string) (status : Z) (body : result error string) : result error Secret :=
  match body with
  | Err e => Err (Wrap "reading vault response" e)
  | Ok body =>
      if (status =? 404)%Z then Err (Wrap "vault path not found" ErrSecretNotFound)
      else if (status =? 403)%Z then Err (Errorf "vault access denied for path")
      else if (500 <=? status)%Z then Err (Errorf "vault server error")
      else if negb (status =? 200)%Z then Err (Errorf "vault returned status")
      else match vault_Unmarshal body with
           | Err e => Err (Wrap "parsing vault response" e)
           | Ok None => Err (Wrap "vault path returned no data" ErrSecretNotFound)
           | Ok (Some data) => vault_secret path field data
           end
  end.

(** The path and the field of a reference. *)
Definition vault_ref (raw : string) : string * string :=
  match cut raw "#" with Some (path, field) => (path, field) | None => (raw, "") end.

Definition vault_Resolve (p : VaultProvider) (ref : string) : st W (result error Secret) :=
  match drop_prefix "vault://" ref with
  | None => mret (Err (Wrap "vault provider only handles vault:// references" ErrSecretNotFound))
  | Some raw =>
      if String.eqb raw "" then mret (Err (Wrap "empty vault path" ErrSecretNotFound))
      else
        let '(path, field) := vault_ref raw in
        if String.eqb path "" then mret (Err (Wrap "empty vault path" ErrSecretNotFound))
        else
          r ← vault_Get p (vp_address p +:+ "/v1/" +:+ path);
          mret (match r with
                | Err e => Err (Wrap "vault request failed" e)
                | Ok (status, body) => vault_answer path field status body
                end)
  end.
End secrets.

Arguments SecretProvider W : clear implicits.
Arguments Environment W : clear implicits.
Arguments VaultHttp W : clear implicits.

(** ** The tools *)

(** [json.MarshalIndent], whose error the tools drop, and the verb [%q] of [fmt]. *)
Class JsonIndent := { marshal_indent : GoAny -> string; go_quote : string -> string }.

(** [strings.ReplaceAll] of a text that is not empty; [skip] bytes of a replaced
    occurrence are left. *)
Fixpoint replace_from (old new : string) (skip : nat) (s : string) : string :=
  match s with
  | EmptyString => ""
  | String c s' =>
      match skip with
      | S n => replace_from old new n s'
      | 0 => if has_prefix s old then new +:+ replace_from old new (String.length old - 1) s'
             else String c (replace_from old new 0 s')
      end
  end.

Definition redacted : string := "[REDACTED]".

Definition sanitizeOutput (output secret : string) : string :=
  if String.eqb secret "" then output else replace_from secret redacted 0 output.

Section tools.
Context {F W : Type} `{!Num F} `{!Render} `{!World W} `{!UuidParse} `{!InfraStore W} `{!JsonIndent} `{!ErrorText}.

Abbreviation TM := (st W).
Abbreviation Answer := (result error (ToolResult Params)).

(** *** infra_lookup *)

Definition lookup_op (params : Params) : string := paramOr params "operation" "lookup".

Definition lookup_Validate (params : Params) : option error :=
  let op := lookup_op params in
  if String.eqb op "lookup" && String.eqb (default "" (param_string params "query")) ""
  then Some (Errorf "query is required for lookup operation")
  else if negb (String.eqb op "lookup") && negb (String.eqb op "list")
  then Some (Errorf "operation must be 'lookup' or 'list'")
  else None.

Definition lookup_Execute (orgID : uuid) (params : Params) : TM Answer :=
  if String.eqb (lookup_op params) "list" then
    nodes ← st_List orgID (default "" (param_string params "node_type"));
    mret (match nodes with
          | Err e => Err (Wrap "listing nodes" e)
          | Ok nodes => Ok (mkToolResult (marshal_indent (AList (map SanitizeForLLM nodes)))
                              (object [("count", AInt (Z.of_nat (length nodes)))]) true)
          end)
  else
    node ← st_Lookup orgID (default "" (param_string params "query"));
    mret (match node with
          | Err e => Err (Wrap "node lookup" e)
          | Ok node => Ok (mkToolResult (marshal_indent (SanitizeForLLM node))
                             (object [("node_id", AString (uuid_String (in_ID node)))]) true)
          end).

Definition lookup_tool (orgID : uuid) : Tool F Params W :=
  mkTool "infra_lookup"
    ("Look up infrastructure nodes by name, alias, or ID. " +:+
     "Returns connection metadata (host, type, tags) without credentials. " +:+
     "Use 'list' operation to see all registered nodes.")
    (object_schema
       [("query", prop_schema "string" "Node name, alias, or UUID to look up");
        ("operation", enum_schema ["lookup"; "list"] "Operation: 'lookup' for single node, 'list' for all nodes. Default: lookup");
        ("node_type", prop_schema "string" "Filter by node type when listing (vm, kubernetes, docker_host, bare_metal)")] [])
    (mkAction "infra_lookup" RiskLow) (fun _ => nofZ 0) (fun params _ => lookup_Validate params)
    (fun _ => lookup_Execute orgID).

(** *** infra_manage *)

Definition manage_Validate (params : Params) : option error :=
  let text key := default "" (param_string params key) in
  let op := text "operation" in
  if String.eqb op "add" then
    if String.eqb (text "name") "" then Some (Errorf "name is required for add operation")
    else if String.eqb (text "host") "" then Some (Errorf "host is required for add operation")
    else if String.eqb (text "node_type") "" then Some (Errorf "node_type is required for add operation")
    else None
  else if String.eqb op "update" || String.eqb op "remove" then
    if String.eqb (text "node_id") "" then Some (Errorf "node_id is required") else None
  else Some (Errorf "operation must be 'add', 'update', or 'remove'").

(** The strings of a parameter that is an object. *)
Definition param_tags (params : Params) (key : string) : option (gmap string string) :=
  match param params key with
  | Some (AObject fields) =>
      Some (list_to_map (omap (fun kv => match kv.2 with AString s => Some (kv.1, s) | _ => None end) fields))
  | _ => None
  end.

Definition param_aliases (params : Params) (key : string) : option (list string) :=
  match param params key with
  | Some (AList _) => Some (param_strings params key)
  | _ => None
  end.

Definition param_port (params : Params) (key : string) : option Z :=
  match param params key with Some (AFloat x) => Some (f64_trunc x) | _ => None end.

(** A text that is set when it is a string and not empty. *)
Definition param_filled (params : Params) (key old : string) : string := paramOr params key old.

(** The fields both operations read in the same way, over what the node has. *)
Definition with_params (params : Params) (name nodeType host : string) (n : InfraNode) : InfraNode :=
  mkInfraNode (in_ID n) (in_OrgID n) name (default (in_Aliases n) (param_aliases params "aliases")) nodeType host
    (default (in_Port n) (param_port params "port")) (default (in_User n) (param_string params "user"))
    (default (in_CredentialRef n) (param_string params "credential_ref"))
    (default (in_Tags n) (param_tags params "tags")) (default (in_MCPServer n) (param_string params "mcp_server"))
    (in_Enabled n) (in_CreatedAt n) (in_UpdatedAt n).

Definition manage_result (verb : string) (node : InfraNode) (metadata : Params) : Answer :=
  Ok (mkToolResult ("Node " +:+ go_quote (in_Name node) +:+ " " +:+ verb +:+ " successfully." +:+ newline +:+
                    marshal_indent (SanitizeForLLM node)) metadata true).

(** The assertions of [executeAdd] panic when a parameter is not a text; [Validate] has
    seen that they are. *)
Definition executeAdd (orgID : uuid) (params : Params) : TM Answer :=
  match param_string params "name", param_string params "node_type", param_string params "host" with
  | Some name, Some nodeType, Some host =>
      id ← w_uuid;
      created ← w_now;
      updated ← w_now;
      let node := with_params params name nodeType host
                    (mkInfraNode id orgID "" [] "" "" 0 "" "" ∅ "" true created updated) in
      r ← st_Create node;
      mret (match r with
            | Err e => Err (Wrap "creating node" e)
            | Ok node => manage_result "created" node (object [("node_id", AString (uuid_String (in_ID node)))])
            end)
  | _, _, _ => mret (Err (Errorf "panic: interface conversion"))
  end.

Definition executeUpdate (orgID : uuid) (params : Params) : TM Answer :=
  let nodeIDStr := default "" (param_string params "node_id") in
  match uuid_Parse nodeIDStr with
  | Err e => mret (Err (Wrap "invalid node_id" e))
  | Ok _ =>
      r ← st_Lookup orgID nodeIDStr;
      match r with
      | Err e => mret (Err (Wrap "node not found" e))
      | Ok node =>
          let node := with_params params (param_filled params "name" (in_Name node))
                        (param_filled params "node_type" (in_NodeType node))
                        (param_filled params "host" (in_Host node)) node in
          _ ← st_modify (st_assign node);
          err ← st_Update node;
          mret (match err with
                | Some e => Err (Wrap "updating node" e)
                | None => manage_result "updated" node None
                end)
      end
  end.

Definition executeRemove (orgID : uuid) (params : Params) : TM Answer :=
  match uuid_Parse (default "" (param_string params "node_id")) with
  | Err e => mret (Err (Wrap "invalid node_id" e))
  | Ok nodeID =>
      err ← st_Delete orgID nodeID;
      mret (match err with
            | Some e => Err (Wrap "removing node" e)
            | None => Ok (mkToolResult ("Node " +:+ uuid_String nodeID +:+ " removed successfully.") None true)
            end)
  end.

Definition manage_Execute (orgID : uuid) (params : Params) : TM Answer :=
  let op := default "" (param_string params "operation") in
  if String.eqb op "add" then executeAdd orgID params
  else if String.eqb op "update" then executeUpdate orgID params
  else if String.eqb op "remove" then executeRemove orgID params
  else mret (Err (Errorf "unknown operation")).

Definition manage_tool (orgID : uuid) : Tool F Params W :=
  mkTool "infra_manage"
    ("Manage infrastructure nodes: add, update, or remove registered nodes. " +:+
     "When adding a node, provide a credential_ref that references where the secret is stored " +:+
     "(e.g., 'env://VM10_SSH_KEY'). The actual secret is never stored in the node registry.")
    (object_schema
       [("operation", enum_schema ["add"; "update"; "remove"] "Operation to perform");
        ("name", prop_schema "string" "Node canonical name (required for add)");
        ("aliases", AObject [("type", AString "array"); ("items", AObject [("type", AString "string")]);
                             ("description", AString "Alternative names for the node")]);
        ("node_type", enum_schema ["vm"; "kubernetes"; "docker_host"; "bare_metal"] "Infrastructure type");
        ("host", prop_schema "string" "Hostname or IP address");
        ("port", prop_schema "integer" "Connection port (0 = default for type)");
        ("user", prop_schema "string" "Default connection user");
        ("credential_ref", prop_schema "string" "Opaque reference to credentials (e.g., env://KEY_NAME)");
        ("tags", prop_schema "object" "Arbitrary metadata tags");
        ("mcp_server", prop_schema "string" "MCP server name that handles this node type");
        ("node_id", prop_schema "string" "Node UUID (required for update/remove)")] ["operation"])
    (mkAction "infra_manage" RiskHigh) (fun _ => nofZ 0) (fun params _ => manage_Validate params)
    (fun _ => manage_Execute orgID).

(** *** infra_exec *)

Record ExecTool := mkExecTool {
  et_secretProvider : SecretProvider W;
  et_toolRegistry : Registry F Params W;
  et_orgID : uuid;
}.

Definition exec_Validate (params : Params) : option error :=
  match requireString params "node" with
  | Err e => Some e
  | Ok _ => match requireString params "command" with Err e => Some e | Ok _ => None end
  end.

Definition mcp_candidates (mcpServer : string) : list string :=
  ["mcp__" +:+ mcpServer +:+ "__execute"; "mcp__" +:+ mcpServer +:+ "__remote_exec"; "mcp__" +:+ mcpServer +:+ "__run"].

Definition findMCPTool (t : ExecTool) (mcpServer : string) : option (Tool F Params W) :=
  List.hd_error (omap (registry_Get (et_toolRegistry t)) (mcp_candidates mcpServer)).

(** The request with the credential. *)
Definition mcp_params (node : InfraNode) (command timeout : string) (credential : option Secret) : Params :=
  Some ((match credential with Some c => <["credential" := AString (sec_Value c)]> | None => id end)
    (list_to_map [("host", AString (in_Host node)); ("port", AInt (in_Port node)); ("user", AString (in_User node));
                  ("command", AString command); ("timeout", AString timeout); ("node_type", AString (in_NodeType node))])).

Definition redact (credential : option Secret) (text : string) : string :=
  match credential with Some c => sanitizeOutput text (sec_Value c) | None => text end.

(** The answer of the node's tool, without the credential. *)
Definition exec_answer (node : InfraNode) (credential : option Secret) (r : Answer) : Answer :=
  match r with
  | Err e => Err (Errorf ("remote execution on " +:+ go_quote (in_Name node) +:+ " failed: " +:+ redact credential (error_Error e)))
  | Ok r => Ok (mkToolResult (TruncateOutput (redact credential (tr_Output r)) MaxOutputBytes)
                  (object [("node_name", AString (in_Name node)); ("node_type", AString (in_NodeType node));
                           ("host", AString (in_Host node)); ("mcp_server", AString (in_MCPServer node))])
                  (tr_Success r))
  end.

Definition exec_Execute (t : ExecTool) (userID : string) (params : Params) : TM Answer :=
  let command := stringOrEmpty params "command" in
  let timeout := paramOr params "timeout" "30s" in
  r ← st_Lookup (et_orgID t) (stringOrEmpty params "node");
  match r with
  | Err e => mret (Err (Wrap "resolving node" e))
  | Ok node =>
      credential ← (if String.eqb (in_CredentialRef node) "" then mret (Ok None)
                    else r ← sp_Resolve (et_secretProvider t) (in_CredentialRef node);
                         mret (match r with Ok c => Ok (Some c) | Err e => Err e end));
      match credential with
      | Err e => mret (Err (Wrap "resolving credentials for node" e))
      | Ok credential =>
          match findMCPTool t (in_MCPServer node) with
          | None => mret (Err (Errorf "MCP server has no execute tool registered"))
          | Some tool =>
              r ← tool_Execute tool userID (mcp_params node command timeout credential);
              mret (exec_answer node credential r)
          end
      end
  end.

Definition exec_tool (t : ExecTool) : Tool F Params W :=
  mkTool "infra_exec"
    ("Execute a command on a remote infrastructure node. " +:+
     "Specify the node by name or alias (e.g., 'VM10') and the command to run. " +:+
     "Credentials are resolved automatically — never include passwords or keys in the command. " +:+
     "For Kubernetes nodes, the command runs via kubectl. For VMs, it runs via SSH.")
    (object_schema
       [("node", prop_schema "string" "Node name, alias, or ID to execute on");
        ("command", prop_schema "string" "Command to execute on the remote node");
        ("timeout", prop_schema "string" "Execution timeout (e.g., '30s', '2m'). Default: 30s")] ["node"; "command"])
    (mkAction "infra_exec" RiskCritical) (fun _ => nofZ 0) (fun params _ => exec_Validate params) (exec_Execute t).
End tools.

(** ** Redaction *)

Definition mem_char (c : Ascii.ascii) (s : string) : bool := existsb (Ascii.eqb c) (String.list_ascii_of_string s).

Definition left_bracket : Ascii.ascii := Ascii.ascii_of_nat 91.
Definition right_bracket : Ascii.ascii := Ascii.ascii_of_nat 93.

(** A secret on one line without brackets, that is not a part of the texts the code adds. *)
Record plain_secret (s : string) : Prop := {
  ps_nonempty : s <> "";
  ps_chars : forall c, c = left_bracket \/ c = right_bracket \/ c = line_feed -> mem_char c s = false;
  ps_marker : contains "REDACTED" s = false;
  ps_cut : contains "... [output truncated]" s = false;
}.

Lemma mem_char_cons c a s : mem_char c (String a s) = Ascii.eqb c a || mem_char c s.
Proof. done. Qed.

(** A pattern that avoids a byte is found on one side of it. *)
Lemma prefix_avoids p t c x : mem_char c p = false -> String.prefix p (t +:+ String c x) = true -> String.prefix p t = true.
Proof.
  revert t. induction p as [|a p IH]; intros t Hc Hp; [by destruct t|].
  rewrite mem_char_cons in Hc. apply orb_false_iff in Hc as [Ha Hc]. destruct t as [|b t].
  - change ("" +:+ String c x) with (String c x) in Hp. simpl in Hp. destruct (Ascii.ascii_dec a c) as [->|]; [|done].
    by rewrite Ascii.eqb_refl in Ha.
  - change (String b t +:+ String c x) with (String b (t +:+ String c x)) in Hp. simpl in *.
    destruct (Ascii.ascii_dec a b); [|done]. by apply IH.
Qed.

Lemma contains_avoids p t c x : p <> "" -> mem_char c p = false ->
  contains (t +:+ String c x) p = true -> contains t p = true \/ contains x p = true.
Proof.
  intros Hne Hc. induction t as [|b t IH].
  - change ("" +:+ String c x) with (String c x). cbn [contains]. intros [Hp|Hx]%orb_true_iff; [|by right].
    apply (prefix_avoids p "" c x Hc) in Hp. by destruct p.
  - change (String b t +:+ String c x) with (String b (t +:+ String c x)). cbn [contains].
    intros [Hp|Hx]%orb_true_iff.
    + left. apply orb_true_iff. left. by apply (prefix_avoids p (String b t) c x).
    + destruct (IH Hx) as [|]; [left|by right]. apply orb_true_iff. by right.
Qed.

Lemma replace_skip old new p s : replace_from old new (String.length p) (p +:+ s) = replace_from old new 0 s.
Proof. induction p as [|c p IH]; [done|]. exact IH. Qed.

(** One step of the replacement. *)
Lemma replace_found old new s : old <> "" -> replace_from old new 0 (old +:+ s) = new +:+ replace_from old new 0 s.
Proof.
  destruct old as [|c old]; [done|]. intros _. change (String c old +:+ s) with (String c (old +:+ s)). cbn [replace_from].
  change (String c (old +:+ s)) with (String c old +:+ s). rewrite (proj2 (has_prefix_spec _ _)) by by exists s.
  cbn [String.length Nat.sub]. by rewrite Nat.sub_0_r, replace_skip.
Qed.

Lemma replace_cases old new c s : old <> "" ->
  (exists s', String c s = old +:+ s' /\ replace_from old new 0 (String c s) = new +:+ replace_from old new 0 s') \/
  (has_prefix (String c s) old = false /\ replace_from old new 0 (String c s) = String c (replace_from old new 0 s)).
Proof.
  intros Hne. destruct (has_prefix (String c s) old) eqn:Hp.
  - left. apply has_prefix_spec in Hp as [s' ->]. exists s'. split; [done|]. by apply replace_found.
  - right. split; [done|]. cbn [replace_from]. by rewrite Hp.
Qed.

(** A text without brackets at the start of the output was at the start of the input. *)
Lemma redacted_prefix secret p s : secret <> "" -> mem_char left_bracket p = false ->
  String.prefix p (replace_from secret redacted 0 s) = true -> String.prefix p s = true.
Proof.
  intros Hne. revert s. induction p as [|a p IH]; intros s Hp Hpre; [by destruct s|]. destruct s as [|c s]; [done|].
  rewrite mem_char_cons in Hp. apply orb_false_iff in Hp as [Ha Hp].
  destruct (replace_cases secret redacted c s Hne) as [(s' & _ & E)|[_ E]]; rewrite E in Hpre.
  - change (redacted +:+ ?x) with (String left_bracket ("REDACTED]" +:+ x)) in Hpre. cbn [String.prefix] in Hpre.
    destruct (Ascii.ascii_dec a left_bracket) as [->|]; [by rewrite Ascii.eqb_refl in Ha|done].
  - simpl in *. destruct (Ascii.ascii_dec a c); [|done]. by apply IH.
Qed.

Lemma redacted_clean secret s : plain_secret secret -> contains (replace_from secret redacted 0 s) secret = false.
Proof.
  intros [Hne Hch Hmark _]. remember (String.length s) as n eqn:Hn. revert s Hn.
  induction (lt_wf n) as [n _ IH]. intros s ->. apply not_true_iff_false. intros Hc. destruct s as [|c s].
  { by destruct secret. }
  destruct (replace_cases secret redacted c s Hne) as [(s' & Es & E)|[Hno E]]; rewrite E in Hc.
  - assert (contains (replace_from secret redacted 0 s') secret = false) as Hs'.
    { apply (IH (String.length s')); [|done]. rewrite Es, str_app_length. destruct secret; [done|simpl; lia]. }
    change (redacted +:+ ?x) with ("" +:+ String left_bracket ("REDACTED" +:+ String right_bracket x)) in Hc.
    apply contains_avoids in Hc as [Hc|Hc]; [by destruct secret| |done|apply Hch; by left].
    apply contains_avoids in Hc as [Hc|Hc]; [congruence|congruence|done|apply Hch; auto].
  - cbn [contains] in Hc. apply orb_true_iff in Hc as [Hc|Hc].
    + rewrite <-E in Hc. apply redacted_prefix in Hc; [|done|apply Hch; by left]. unfold has_prefix in Hno. congruence.
    + rewrite (IH (String.length s)) in Hc; [done|simpl; lia|done].
Qed.

Lemma contains_take n s p : contains (str_take n s) p = true -> contains s p = true.
Proof.
  unfold str_take. revert n. induction s as [|c s IH]; intros n Hc; [by destruct n|].
  destruct n as [|n]; [destruct p; [done|discriminate]|]. cbn [String.substring contains] in *.
  apply orb_true_iff in Hc as [Hc|Hc]; apply orb_true_iff; [left|right; by eapply IH].
  apply (has_prefix_spec (String c (String.substring 0 n s)) p) in Hc as [u Hu]. apply (has_prefix_spec (String c s) p).
  exists (u +:+ str_drop n s). rewrite <-str_app_assoc, <-Hu.
  change (String c (String.substring 0 n s) +:+ str_drop n s) with (String c (str_take n s +:+ str_drop n s)).
  by rewrite str_take_drop.
Qed.

Lemma truncated_clean secret s n : plain_secret secret -> contains s secret = false ->
  contains (TruncateOutput s n) secret = false.
Proof.
  intros [Hne Hch _ Hcut] Hs. apply not_true_iff_false. unfold TruncateOutput.
  destruct (String.length s <=? n)%nat; [congruence|]. destruct (n <=? _)%nat; intros Hc.
  - apply contains_take in Hc. congruence.
  - apply contains_avoids in Hc as [Hc%contains_take|Hc]; [congruence|congruence|done|apply Hch; auto].
Qed.

(** ** Properties *)

Section exec.
Context {F W : Type} `{!Num F} `{!Render} `{!World W} `{!UuidParse} `{!InfraStore W} `{!JsonIndent} `{!ErrorText}.

(** C39: a remote command does not give its credential back.  When the credential of the node
    is on one line, has no brackets and is no part of the texts the tool itself adds, then
    neither the output the model gets nor what a failure says after the name of the node (the
    error of the server) contains it, whatever the tool of the server answered, and the output
    has at most a megabyte. *)
Theorem exec_output_redacted (t : ExecTool (F := F) (W := W)) userID params w w1 w2 node credential :
  st_Lookup (et_orgID t) (stringOrEmpty params "node") w = (Ok node, w1) ->
  in_CredentialRef node <> "" ->
  sp_Resolve (et_secretProvider t) (in_CredentialRef node) w1 = (Ok credential, w2) ->
  plain_secret (sec_Value credential) ->
  match (exec_Execute t userID params w).1 with
  | Ok r => contains (tr_Output r) (sec_Value credential) = false /\ String.length (tr_Output r) <= MaxOutputBytes
  | Err e => e = Errorf "MCP server has no execute tool registered" \/
             exists msg, e = Errorf ("remote execution on " +:+ go_quote (in_Name node) +:+ " failed: " +:+ msg) /\
               contains msg (sec_Value credential) = false
  end.
Proof.
  intros Hl Href Hres Hplain. assert (Hne : sec_Value credential <> "") by apply Hplain.
  assert (forall text, redact (Some credential) text = replace_from (sec_Value credential) redacted 0 text) as Hred.
  { intros text. unfold redact, sanitizeOutput. by apply String.eqb_neq in Hne as ->. }
  unfold exec_Execute. rewrite st_bind_run, Hl. cbn [fst snd]. rewrite (proj2 (String.eqb_neq _ _) Href), st_bind_run, st_bind_run, Hres.
  unfold mret at 1 2, st_ret at 1 2. cbn [fst snd]. destruct (findMCPTool t (in_MCPServer node)) as [tool|]; [|by left].
  rewrite st_bind_run. unfold mret, st_ret. cbn [fst snd]. destruct (tool_Execute tool _ _ _) as [[r|e] w3]; cbn [fst exec_answer tr_Output].
  - rewrite Hred. split; [by apply truncated_clean, redacted_clean|apply TruncateOutput_bound].
  - right. eexists. split; [done|]. rewrite Hred. by apply redacted_clean.
Qed.
End exec.

(** Lists that agree under a relation are sorted in the same way. *)
Lemma insertion_sort_same {A B} (R : A -> B -> Prop) less less' l l' :
  (forall a b a' b', R a a' -> R b b' -> less a b = less' a' b') -> Forall2 R l l' ->
  Forall2 R (insertion_sort less l) (insertion_sort less' l').
Proof.
  intros Hless. induction 1 as [|a a' l l' Ha _ IH]; [constructor|].
  change (Forall2 R (insert_sorted less a (insertion_sort less l)) (insert_sorted less' a' (insertion_sort less' l'))).
  revert IH. generalize (insertion_sort less l) (insertion_sort less' l'). clear l l'.
  induction 1 as [|b b' m m' Hb Hm IH]; cbn [insert_sorted]; [by constructor|].
  rewrite (Hless b a b' a') by done. destruct (less' b' a'); by repeat constructor.
Qed.

Section hidden.
Context {W : Type} `{!Render} `{!World W} `{!UuidParse} `{!RowJson} `{!RowJsonLaw} `{!JsonIndent}.
Implicit Types (s : InfraNodeRepository W) (m : InfraNodeModel) (n : InfraNode) (r : InfraNodeModel * bool).

(** Nodes, rows and tables that differ in the references to credentials only. *)
Definition node_same n n' : Prop :=
  exists ref, n' = mkInfraNode (in_ID n) (in_OrgID n) (in_Name n) (in_Aliases n) (in_NodeType n) (in_Host n) (in_Port n)
    (in_User n) ref (in_Tags n) (in_MCPServer n) (in_Enabled n) (in_CreatedAt n) (in_UpdatedAt n).
Definition model_same m m' : Prop :=
  exists ref, m' = mkInfraNodeModel (nm_ID m) (nm_OrgID m) (nm_Name m) (nm_Aliases m) (nm_NodeType m) (nm_Host m) (nm_Port m)
    (nm_User m) ref (nm_Tags m) (nm_MCPServer m) (nm_Enabled m) (nm_CreatedAt m) (nm_UpdatedAt m).
Definition row_same r r' : Prop := model_same r.1 r'.1 /\ r.2 = r'.2.
Record same_public s s' : Prop := {
  sp_world : ir_world s = ir_world s';
  sp_jsonb : ir_jsonb s = ir_jsonb s';
  sp_collate : ir_collate s = ir_collate s';
  sp_rows : Forall2 row_same (ir_rows s) (ir_rows s');
}.

(** Two runs from such tables: related answers, and such tables again. *)
Definition agree {A B} (R : A -> B -> Prop) (x : st (InfraNodeRepository W) A) (y : st (InfraNodeRepository W) B) : Prop :=
  forall s s', same_public s s' -> R (x s).1 (y s').1 /\ same_public (x s).2 (y s').2.

Lemma agree_ret {A B} (R : A -> B -> Prop) a b : R a b -> agree R (mret a) (mret b).
Proof. by intros Hr s s' Hs. Qed.

Lemma agree_bind {A B C D} (R : A -> B -> Prop) (Q : C -> D -> Prop) x y (f : A -> st _ C) (g : B -> st _ D) :
  agree R x y -> (forall a b, R a b -> agree Q (f a) (g b)) -> agree Q (x ≫= f) (y ≫= g).
Proof. intros Hx Hf s s' Hs. rewrite !st_bind_run. destruct (Hx s s' Hs) as [Hr Hs1]. by apply Hf. Qed.

Lemma agree_world {A} (f : W -> A * W) : agree eq (on_repo f) (on_repo f).
Proof. intros s s' []. unfold on_repo. rewrite <-sp_world0. destruct (f (ir_world s)). by split. Qed.

Lemma agree_rows : agree (Forall2 row_same) (st_get ir_rows) (st_get ir_rows).
Proof. intros s s' Hs. split; [apply Hs|done]. Qed.

Lemma agree_set rows rows' : Forall2 row_same rows rows' ->
  agree eq (st_modify (set_infra_rows rows)) (st_modify (set_infra_rows rows')).
Proof. intros Hr s s' []. split; [done|]. by constructor. Qed.

(** Related rows: what the conditions of the queries look at is equal. *)
Lemma model_same_refl m : model_same m m.
Proof. exists (nm_CredentialRef m). by destruct m. Qed.

Lemma row_same_new m m' b : model_same m m' -> row_same (m, b) (m', b).
Proof. by split. Qed.

Lemma domain_same m m' : model_same m m' -> node_same (toInfraNodeDomain m) (toInfraNodeDomain m').
Proof. intros [ref ->]. by exists ref. Qed.

Lemma to_model_same n n' : node_same n n' -> model_same (toInfraNodeModel n) (toInfraNodeModel n').
Proof. intros [ref ->]. by exists ref. Qed.

Lemma defaults_same m m' : model_same m m' -> model_same (InfraNode_defaults m) (InfraNode_defaults m').
Proof. intros [ref ->]. by exists ref. Qed.

Lemma times_same id c u n n' : node_same n n' -> node_same (with_times id c u n) (with_times id c u n').
Proof. intros [ref ->]. by exists ref. Qed.

Lemma sanitize_same n n' : node_same n n' -> SanitizeForLLM n = SanitizeForLLM n'.
Proof. by intros [ref ->]. Qed.

Lemma existsb_same (p q : InfraNodeModel * bool -> bool) rows rows' :
  Forall2 row_same rows rows' -> (forall r r', row_same r r' -> p r = q r') -> existsb p rows = existsb q rows'.
Proof. intros Hr Hp. induction Hr as [|r r' rows rows' Hrr _ IH]; [done|]. simpl. by rewrite IH, (Hp r r' Hrr). Qed.

Lemma filter_same (p q : InfraNodeModel * bool -> bool) rows rows' :
  Forall2 row_same rows rows' -> (forall r r', row_same r r' -> p r = q r') ->
  Forall2 row_same (List.filter p rows) (List.filter q rows').
Proof.
  intros Hr Hp. induction Hr as [|r r' rows rows' Hrr _ IH]; [constructor|]. cbn [List.filter]. rewrite (Hp r r' Hrr).
  destruct (q r'); [by constructor|done].
Qed.

Lemma map_same (f g : InfraNodeModel * bool -> InfraNodeModel * bool) rows rows' :
  Forall2 row_same rows rows' -> (forall r r', row_same r r' -> row_same (f r) (g r')) ->
  Forall2 row_same (map f rows) (map g rows').
Proof. intros Hr Hf. induction Hr; constructor; auto. Qed.

Definition option_same (x y : option InfraNodeModel) : Prop :=
  match x, y with Some m, Some m' => model_same m m' | None, None => True | _, _ => False end.

Lemma first_same (p q : InfraNodeModel * bool -> bool) rows rows' :
  Forall2 row_same rows rows' -> (forall r r', row_same r r' -> p r = q r') -> option_same (first_row p rows) (first_row q rows').
Proof.
  intros Hr Hp. unfold first_row.
  enough (forall x y, option_same x y -> option_same (fold_left (keep_first p) rows x) (fold_left (keep_first q) rows' y)) as Hall
    by by apply Hall.
  induction Hr as [|r r' rows rows' Hrr _ IH]; intros x y Hxy; [done|]. cbn [fold_left].
  apply IH. unfold keep_first. rewrite (Hp r r' Hrr). destruct (q r'); [|done]. destruct Hrr as [[ref Hm] _].
  destruct x as [m|], y as [m'|]; try done; simpl in *.
  - destruct Hxy as [ref' ->]. rewrite Hm. simpl. destruct (nm_ID r.1 <? nm_ID m)%N; [by exists ref|by exists ref'].
  - by exists ref.
Qed.

Lemma query_same (p q : InfraNodeModel * bool -> bool) :
  (forall r r', row_same r r' -> p r = q r') -> agree option_same (query_row p) (query_row q).
Proof.
  intros Hp. eapply agree_bind; [apply agree_world|]. intros e ? <-. destruct e; [by apply agree_ret|].
  eapply agree_bind; [apply agree_rows|]. intros rows rows' Hr. by apply agree_ret, first_same.
Qed.

Lemma enabled_same orgID r r' : row_same r r' -> enabled_row orgID r = enabled_row orgID r'.
Proof. intros [[ref Hm] Hb]. unfold enabled_row. by rewrite Hm, Hb. Qed.

(** The answers of a store. *)
Definition result_same (x y : result error InfraNode) : Prop :=
  match x, y with Ok n, Ok n' => node_same n n' | Err e, Err e' => e = e' | _, _ => False end.

Definition results_same (x y : result error (list InfraNode)) : Prop :=
  match x, y with Ok l, Ok l' => Forall2 node_same l l' | Err e, Err e' => e = e' | _, _ => False end.

Lemma lookup_same orgID query : agree result_same (repo_Lookup orgID query) (repo_Lookup orgID query).
Proof.
  unfold repo_Lookup. eapply (agree_bind option_same).
  { destruct (uuid_Parse query); [|by apply agree_ret]. apply query_same. intros r r' Hrr.
    rewrite (enabled_same orgID r r' Hrr). by destruct Hrr as [[ref ->] _]. }
  intros [m|] [m'|] Hm; try done; [by apply agree_ret, domain_same|].
  eapply (agree_bind option_same).
  { apply query_same. intros r r' Hrr. rewrite (enabled_same orgID r r' Hrr). by destruct Hrr as [[ref ->] _]. }
  clear Hm. intros [m|] [m'|] Hm; try done; [by apply agree_ret, domain_same|].
  eapply (agree_bind eq); [intros s s' Hs; split; [apply Hs|done]|]. intros jsonb ? <-.
  eapply (agree_bind option_same).
  { apply query_same. intros r r' Hrr. rewrite (enabled_same orgID r r' Hrr). by destruct Hrr as [[ref ->] _]. }
  clear Hm. intros [m|] [m'|] Hm; try done. by apply agree_ret, domain_same.
Qed.

Lemma list_same orgID nodeType : agree results_same (repo_List orgID nodeType) (repo_List orgID nodeType).
Proof.
  unfold repo_List. eapply agree_bind; [apply agree_world|]. intros e ? <-. destruct e; [by apply agree_ret|].
  eapply agree_bind; [apply agree_rows|]. intros rows rows' Hr.
  eapply (agree_bind eq); [intros s s' Hs; split; [apply Hs|done]|]. intros collate ? <-. apply agree_ret. simpl.
  assert (Forall2 model_same (by_name collate (List.filter (fun r => enabled_row orgID r && (String.eqb nodeType "" || String.eqb (nm_NodeType r.1) nodeType)) rows).*1)
    (by_name collate (List.filter (fun r => enabled_row orgID r && (String.eqb nodeType "" || String.eqb (nm_NodeType r.1) nodeType)) rows').*1)) as Hl.
  { apply (insertion_sort_same model_same).
    - by intros a b a' b' [ref ->] [ref' ->].
    - eapply Forall2_fmap_2, Forall2_impl; [apply (filter_same _ _ rows rows' Hr)|by intros r r' []].
      intros r r' Hrr. rewrite (enabled_same orgID r r' Hrr). by destruct Hrr as [[ref ->] _]. }
  induction Hl; constructor; [by apply domain_same|done].
Qed.

Lemma key_same m m' r r' : model_same m m' -> row_same r r' -> key_taken m r = key_taken m' r'.
Proof. intros [ref ->] [[ref' Hm] _]. unfold key_taken. by rewrite Hm. Qed.

Lemma create_same n n' : node_same n n' -> agree result_same (repo_Create n) (repo_Create n').
Proof.
  intros Hn. unfold repo_Create. assert (in_ID n' = in_ID n) as -> by by destruct Hn as [ref ->].
  eapply (agree_bind eq); [case_bool_decide; [apply agree_world|by apply agree_ret]|]. intros id ? <-.
  eapply agree_bind; [apply agree_world|]. intros now ? <-. cbv zeta.
  eapply agree_bind; [apply agree_world|]. intros e ? <-. destruct e; [by apply agree_ret|].
  eapply agree_bind; [apply agree_rows|]. intros rows rows' Hr.
  assert (model_same (InfraNode_defaults (toInfraNodeModel (with_times id now now n)))
            (InfraNode_defaults (toInfraNodeModel (with_times id now now n')))) as Hm
    by by apply defaults_same, to_model_same, times_same.
  rewrite (existsb_same _ _ rows rows' Hr (fun r r' => key_same _ _ r r' Hm)).
  destruct (existsb _ rows'); [by apply agree_ret|]. eapply agree_bind.
  - apply agree_set, Forall2_app; [done|]. constructor; [by apply row_same_new|constructor].
  - intros ? ? _. apply agree_ret. simpl. by apply times_same.
Qed.

Lemma update_same n n' : node_same n n' -> agree eq (repo_Update n) (repo_Update n').
Proof.
  intros Hn. unfold repo_Update. eapply agree_bind; [apply agree_world|]. intros now ? <-. cbv zeta.
  eapply agree_bind; [apply agree_world|]. intros e ? <-. destruct e; [by apply agree_ret|].
  eapply agree_bind; [apply agree_rows|]. intros rows rows' Hr.
  assert (in_ID n' = in_ID n) as -> by by destruct Hn as [ref ->].
  assert (in_CreatedAt n' = in_CreatedAt n) as -> by by destruct Hn as [ref ->].
  assert (model_same (toInfraNodeModel (with_times (in_ID n) (in_CreatedAt n) now n))
            (toInfraNodeModel (with_times (in_ID n) (in_CreatedAt n) now n'))) as Hm by by apply to_model_same, times_same.
  revert Hm. generalize (toInfraNodeModel (with_times (in_ID n) (in_CreatedAt n) now n)).
  generalize (toInfraNodeModel (with_times (in_ID n) (in_CreatedAt n) now n')). intros m' m Hm.
  assert (nm_ID m' = nm_ID m) as Hid by by destruct Hm as [ref ->].
  rewrite (existsb_same (fun r => negb (bool_decide (nm_ID r.1 = nm_ID m)) && key_taken m r)
             (fun r => negb (bool_decide (nm_ID r.1 = nm_ID m')) && key_taken m' r) rows rows' Hr).
  2:{ intros r r' Hrr. rewrite (key_same m m' r r' Hm Hrr), Hid. by destruct Hrr as [[ref ->] _]. }
  destruct (existsb _ rows'); [by apply agree_ret|].
  rewrite (existsb_same (fun r => bool_decide (nm_ID r.1 = nm_ID m)) (fun r => bool_decide (nm_ID r.1 = nm_ID m')) rows rows' Hr).
  2:{ intros r r' [[ref ->] _]. by rewrite Hid. }
  eapply agree_bind; [apply agree_set|by intros; apply agree_ret]. destruct (existsb _ rows').
  - apply map_same; [done|]. intros r r' Hrr. rewrite Hid. assert (nm_ID r'.1 = nm_ID r.1) as -> by by destruct Hrr as [[ref ->] _].
    case_bool_decide; [by apply row_same_new|done].
  - apply Forall2_app; [done|]. constructor; [by apply row_same_new, defaults_same|constructor].
Qed.

Lemma delete_same orgID nodeID : agree eq (repo_Delete orgID nodeID) (repo_Delete orgID nodeID).
Proof.
  assert (forall r r', row_same r r' -> deletable orgID nodeID r = deletable orgID nodeID r') as Hd
    by (intros r r' [[ref Hm] Hb]; unfold deletable; by rewrite Hm, Hb).
  unfold repo_Delete. eapply agree_bind; [apply agree_world|]. intros e ? <-. destruct e; [by apply agree_ret|].
  eapply agree_bind; [apply agree_rows|]. intros rows rows' Hr. rewrite (existsb_same _ _ rows rows' Hr Hd).
  destruct (existsb _ rows'); [|by apply agree_ret]. eapply agree_bind; [apply agree_set|by intros; apply agree_ret].
  apply map_same; [done|]. intros r r' Hrr. rewrite (Hd r r' Hrr). destruct (deletable orgID nodeID r'); [|done]. by destruct Hrr.
Qed.

Lemma params_same params a b c n n' : node_same n n' -> node_same (with_params params a b c n) (with_params params a b c n').
Proof. intros [ref ->]. eexists. unfold with_params. simpl. reflexivity. Qed.

Lemma manage_result_same verb n n' md : node_same n n' -> manage_result verb n md = manage_result verb n' md.
Proof. intros Hn. unfold manage_result. rewrite (sanitize_same n n' Hn). by destruct Hn as [ref ->]. Qed.

Lemma lookup_tool_same orgID params : agree eq (lookup_Execute orgID params) (lookup_Execute orgID params).
Proof.
  unfold lookup_Execute. destruct (String.eqb _ _).
  - eapply agree_bind; [apply list_same|]. intros [l|e] [l'|e'] Hr; try done; apply agree_ret; simpl in Hr; [|by subst].
    assert (map SanitizeForLLM l = map SanitizeForLLM l') as -> by by induction Hr; simpl; [done|f_equal; [apply sanitize_same|]].
    by rewrite (Forall2_length _ _ _ Hr).
  - eapply agree_bind; [apply lookup_same|]. intros [n|e] [n'|e'] Hr; try done; apply agree_ret; simpl in Hr; [|by subst].
    rewrite (sanitize_same n n' Hr). by destruct Hr as [ref ->].
Qed.

Lemma add_same orgID params : agree eq (executeAdd orgID params) (executeAdd orgID params).
Proof.
  unfold executeAdd. repeat case_match; try (by apply agree_ret).
  do 3 (eapply agree_bind; [apply agree_world|]; intros ? ? <-). cbv zeta.
  eapply agree_bind; [apply create_same; eexists; reflexivity|]. intros [n|e] [n'|e'] Hr; try done; apply agree_ret; simpl in Hr; [|by subst].
  rewrite (manage_result_same "created" n n' _ Hr). by destruct Hr as [ref ->].
Qed.

Lemma update_tool_same orgID params : agree eq (executeUpdate orgID params) (executeUpdate orgID params).
Proof.
  unfold executeUpdate. destruct (uuid_Parse _); [|by apply agree_ret].
  eapply agree_bind; [apply lookup_same|]. intros [n|e] [n'|e'] Hn; try done; [|simpl in Hn; subst; by apply agree_ret].
  assert (in_Name n' = in_Name n /\ in_NodeType n' = in_NodeType n /\ in_Host n' = in_Host n) as (-> & -> & ->) by by destruct Hn as [ref ->].
  cbv zeta. eapply (agree_bind eq); [by intros s s' Hs|]. intros ? ? _.
  pose proof (params_same params (param_filled params "name" (in_Name n)) (param_filled params "node_type" (in_NodeType n))
    (param_filled params "host" (in_Host n)) n n' Hn) as Hp.
  eapply agree_bind; [apply update_same, Hp|]. intros err ? <-. apply agree_ret. destruct err; [done|].
  by apply manage_result_same.
Qed.

Lemma remove_same orgID params : agree eq (executeRemove orgID params) (executeRemove orgID params).
Proof.
  unfold executeRemove. destruct (uuid_Parse _); [|by apply agree_ret].
  eapply agree_bind; [apply delete_same|]. intros err ? <-. by apply agree_ret.
Qed.

(** C40: credentials stay out of the model's sight.  Two inventories that differ in nothing but
    the references to credentials give the same answers to every call of infra_lookup and
    infra_manage, and stay so: no sequence of such calls tells the model where a credential
    is, let alone what it is. *)
Theorem credential_refs_hidden orgID params s s' :
  same_public s s' ->
  forall run, run ∈ [lookup_Execute orgID params; manage_Execute orgID params] ->
  (run s).1 = (run s').1 /\ same_public (run s).2 (run s').2.
Proof.
  intros Hs run Hrun. assert (agree eq run run) as Ha; [|by apply Ha].
  apply elem_of_cons in Hrun as [->|Hrun]; [apply lookup_tool_same|]. apply list_elem_of_singleton in Hrun as ->.
  unfold manage_Execute. repeat case_match; [apply add_same|apply update_tool_same|apply remove_same|by apply agree_ret].
Qed.
End hidden.
