(* ===== verification/ApprovalDB.v ===== *)
(** * Approvals kept in the database

    [src/internal/storage/postgres/approval_repo.go] and [approval/dbmanager.go], the
    database counterpart of the manager of [Approval.v], over the table of approvals as a
    map from identifier to row.  The rows are as the database keeps them ([Columns]).  A call
    carries what its environment answers: two clock
    readings and the errors of its two statements.

    [resolve] is a transaction of two statements, [SELECT] and [UPDATE ... WHERE id].  At
    the isolation level the connections use (the default, read committed) other calls run
    between the two, so it is also given as two steps. *)

From S2P Require Import Prelude Domain Approval Protocol Models.

Record env := mkEnv {
  en_now1 : Time;
  en_now2 : Time;
  en_err1 : option error;
  en_err2 : option error;
}.

(** A working database at these clock readings. *)
Definition calm (now1 now2 : Time) : env := mkEnv now1 now2 None None.

Section repository.
Context {F P : Type} `{ParamsJson P} `{GoMap P} `{!Columns F}.

Abbreviation Approvals := (gmap string (ApprovalModel F)).
Implicit Types (t : Approvals) (m : ApprovalModel F).

Definition am_set_status m (s : Status) (by_ : string) (at_ : option Time) : ApprovalModel F :=
  mkApprovalModel (am_ID m) (am_OrgID m) (am_UserID m) (am_ToolName m) (am_Parameters m)
    (am_ActionName m) (am_RiskLevel m) (am_EstimatedCost m) (am_CorrelationID m)
    (am_ConversationID m) (am_ToolUseID m) s by_ (am_CreatedAt m) (am_ExpiresAt m) at_.

(** [Update("status", StatusExpired)]. *)
Definition am_expire m : ApprovalModel F :=
  am_set_status m StatusExpired (am_ApprovedBy m) (am_ResolvedAt m).

Definition overdue m (now : Time) : bool :=
  bool_decide (am_Status m = StatusPending) && time_After now (am_ExpiresAt m).

(** ** The repository *)

(** [Create]; [gen] is what [generateApprovalID] returned. *)
Definition repo_Create t (orgID : uuid) (req : CreateRequest F P) (ttl : Duration)
    (gen : result error string) (e : env) : result error string * Approvals :=
  match gen with
  | Err err => (Err (Wrap "generating approval ID" err), t)
  | Ok id =>
      match en_err1 e with
      | Some err => (Err (Wrap "creating approval" err), t)
      | None =>
          match approval_columns (toApprovalModel orgID req id ttl (en_now1 e)), t !! id with
          | Err err, _ => (Err (Wrap "creating approval" err), t)
          | Ok _, Some _ => (Err (Wrap "creating approval" (Errorf "duplicate key")), t)
          | Ok m, None => (Ok id, <[id := m]> t)
          end
      end
  end.

(** [Get]: the error of the [UPDATE] is dropped. *)
Definition repo_Get t (id : string) (e : env) : result error (PendingApproval F P) * Approvals :=
  match en_err1 e with
  | Some err => (Err (Wrap "getting approval" err), t)
  | None =>
      match t !! id with
      | None => (Err (Sentinel ErrNotFound), t)
      | Some m =>
          if overdue m (en_now1 e) then
            (Ok (toApprovalDomain (am_expire m)),
             match en_err2 e with None => alter am_expire id t | Some _ => t end)
          else (Ok (toApprovalDomain m), t)
      end
  end.

(** The first half of [resolve]: the [SELECT] and the checks; [None] goes on to the
    [UPDATE].  The [UPDATE] that marks an overdue row is rolled back, because the
    transaction returns an error. *)
Definition resolve_check t (id : string) (e : env) : option error :=
  match en_err1 e with
  | Some err => Some err
  | None =>
      match t !! id with
      | None => Some (Sentinel ErrNotFound)
      | Some m =>
          if time_After (en_now1 e) (am_ExpiresAt m) && bool_decide (am_Status m = StatusPending)
          then Some (Sentinel ErrExpired)
          else if negb (bool_decide (am_Status m = StatusPending))
          then Some (Sentinel ErrAlreadyResolved)
          else None
      end
  end.

(** The second half: [UPDATE ... WHERE id], and the commit. *)
Definition resolve_update t (id resolverID : string) (status : Status) (e : env)
    : option error * Approvals :=
  match en_err2 e with
  | Some err => (Some err, t)
  | None => (None, alter (fun m => am_set_status m status resolverID (Some (time_column (en_now2 e)))) id t)
  end.

Definition repo_resolve t (id resolverID : string) (status : Status) (e : env)
    : option error * Approvals :=
  match resolve_check t id e with
  | Some err => (Some err, t)
  | None => resolve_update t id resolverID status e
  end.

Definition repo_Approve t (id approverID : string) (e : env) :=
  repo_resolve t id approverID StatusApproved e.

Definition repo_Deny t (id denierID : string) (e : env) :=
  repo_resolve t id denierID StatusDenied e.

Definition repo_ExpireOld t (e : env) : option error * Approvals :=
  match en_err1 e with
  | Some err => (Some err, t)
  | None => (None, (fun m => if overdue m (time_column (en_now1 e)) then am_expire m else m) <$> t)
  end.

(** Resolved rows created before the cutoff. *)
Definition resolved_before (cutoff : Time) m : bool :=
  negb (bool_decide (am_Status m = StatusPending)) && time_Before (am_CreatedAt m) cutoff.

Definition repo_DeleteResolved t (olderThan : Duration) (e : env) : option error * Approvals :=
  match en_err1 e with
  | Some err => (Some err, t)
  | None =>
      let cutoff := time_column (en_now1 e - olderThan)%Z in
      (None, omap (fun m => if resolved_before cutoff m then None else Some m) t)
  end.

(** ** The manager *)

Record DBManager := mkDBManager { dm_store : Approvals; dm_orgID : uuid; dm_ttl : Duration }.

Definition NewDBManager (store : Approvals) (orgID : uuid) (ttl : Duration) : DBManager :=
  mkDBManager store orgID ttl.

Definition dm_set (d : DBManager) t : DBManager := mkDBManager t (dm_orgID d) (dm_ttl d).

Definition db_Create (d : DBManager) (req : CreateRequest F P) (gen : result error string) (e : env)
    : result error string * DBManager :=
  let '(r, t) := repo_Create (dm_store d) (dm_orgID d) req (dm_ttl d) gen e in (r, dm_set d t).

Definition db_Get (d : DBManager) (id : string) (e : env)
    : result error (PendingApproval F P) * DBManager :=
  let '(r, t) := repo_Get (dm_store d) id e in (r, dm_set d t).

Definition db_Approve (d : DBManager) (id approverID : string) (e : env) : option error * DBManager :=
  let '(r, t) := repo_Approve (dm_store d) id approverID e in (r, dm_set d t).

Definition db_Deny (d : DBManager) (id denierID : string) (e : env) : option error * DBManager :=
  let '(r, t) := repo_Deny (dm_store d) id denierID e in (r, dm_set d t).

(** One round of [StartCleanup]; errors are logged. *)
Definition db_Cleanup (d : DBManager) (e1 e2 : env) : DBManager :=
  let t := (repo_ExpireOld (dm_store d) e1).2 in
  dm_set d (repo_DeleteResolved t (2 * dm_ttl d)%Z e2).2.
End repository.

Arguments DBManager F : clear implicits.

(** ** Calls and their answers *)

Section calls.
Context {F P : Type} `{ParamsJson P} `{GoMap P} `{!Columns F}.

Inductive db_op :=
  | DbCreate (req : CreateRequest F P) (gen : result error string) (e : env)
  | DbApprove (id who : string) (e : env)
  | DbDeny (id who : string) (e : env)
  | DbGet (id : string) (e : env)
  | DbCleanup (e1 e2 : env).

Inductive answer :=
  | ACreated (r : result error string)
  | ADecided (err : option error)
  | AGot (r : result error (PendingApproval F P))
  | ADone.

Definition db_step (d : DBManager F) (op : db_op) : answer * DBManager F :=
  match op with
  | DbCreate req gen e => let '(r, d) := db_Create d req gen e in (ACreated r, d)
  | DbApprove id who e => let '(r, d) := db_Approve d id who e in (ADecided r, d)
  | DbDeny id who e => let '(r, d) := db_Deny d id who e in (ADecided r, d)
  | DbGet id e => let '(r, d) := db_Get d id e in (AGot r, d)
  | DbCleanup e1 e2 => (ADone, db_Cleanup d e1 e2)
  end.

(** The in-memory manager on the same calls. *)
Definition mem_step (m : Manager F P) (op : mgr_op F P) : answer * Manager F P :=
  match op with
  | OpCreate req gen now => let '(r, m) := Create m req gen now in (ACreated r, m)
  | OpApprove id who n1 n2 => let '(r, m) := Approve m id who n1 n2 in (ADecided r, m)
  | OpDeny id who n1 n2 => let '(r, m) := Deny m id who n1 n2 in (ADecided r, m)
  | OpGet id now => let '(r, m) := Get m id now in (AGot r, m)
  | OpCleanup now => (ADone, Cleanup m now)
  end.

(** A call of the manager as a call on a working database. *)
Definition on_db (op : mgr_op F P) : db_op :=
  match op with
  | OpCreate req gen now => DbCreate req gen (calm now now)
  | OpApprove id who n1 n2 => DbApprove id who (calm n1 n2)
  | OpDeny id who n1 n2 => DbDeny id who (calm n1 n2)
  | OpGet id now => DbGet id (calm now now)
  | OpCleanup now => DbCleanup (calm now now) (calm now now)
  end.

Fixpoint answers {S O : Type} (step : S -> O -> answer * S) (s : S) (ops : list O) : list answer :=
  match ops with
  | [] => []
  | op :: ops => (step s op).1 :: answers step (step s op).2 ops
  end.

(** Clock readings of a call, and a run whose clock does not go back. *)
Definition op_start (op : mgr_op F P) : Time :=
  match op with
  | OpCreate _ _ n | OpApprove _ _ n _ | OpDeny _ _ n _ | OpGet _ n | OpCleanup n => n
  end.
Definition op_end (op : mgr_op F P) : Time :=
  match op with
  | OpApprove _ _ _ n | OpDeny _ _ _ n | OpCreate _ _ n | OpGet _ n | OpCleanup n => n
  end.

Fixpoint clock_ok (now : Time) (ops : list (mgr_op F P)) : Prop :=
  match ops with
  | [] => True
  | op :: ops => (now <= op_start op <= op_end op)%Z /\ clock_ok (op_end op) ops
  end.

(** An instant that a column keeps. *)
Definition kept_time (t : Time) : Prop := time_column t = t.

(** Identifiers are fresh, parameters survive JSON, costs fit their column, the instants that
    are stored are whole microseconds, and nobody decides a request that was settled and has
    expired (there the two managers differ). *)
Definition op_usual (m : Manager F P) (op : mgr_op F P) : Prop :=
  match op with
  | OpCreate req (Ok id) n => mg_pending m !! id = None /\ params_safe (cr_Parameters req) /\
      (exists c, numeric_column (cr_EstimatedCost req) = Ok c) /\ kept_time n /\ kept_time (n + mg_ttl m)%Z
  | OpApprove id _ n n2 | OpDeny id _ n n2 => kept_time n2 /\ forall pa, mg_pending m !! id = Some pa ->
      pa_Status pa = StatusPending \/ time_After n (pa_ExpiresAt pa) = false
  | OpCleanup n => kept_time n /\ kept_time (n - 2 * mg_ttl m)%Z
  | _ => True
  end.

(** A request as the database gives it back: with the cost its column keeps. *)
Definition kept_cost (c : F) : F := match numeric_column c with Ok c => c | Err _ => c end.

Definition kept (pa : PendingApproval F P) : PendingApproval F P :=
  mkPA (pa_ID pa) (pa_UserID pa) (pa_ToolName pa) (pa_Parameters pa) (pa_ActionName pa) (pa_RiskLevel pa)
    (kept_cost (pa_EstimatedCost pa)) (pa_CorrelationID pa) (pa_ConversationID pa) (pa_ToolUseID pa)
    (pa_Status pa) (pa_ApprovedBy pa) (pa_CreatedAt pa) (pa_ExpiresAt pa) (pa_ResolvedAt pa).

Definition kept_answer (a : answer) : answer :=
  match a with AGot (Ok pa) => AGot (Ok (kept pa)) | _ => a end.

Fixpoint usual (m : Manager F P) (ops : list (mgr_op F P)) : Prop :=
  match ops with
  | [] => True
  | op :: ops => op_usual m op /\ usual (mem_step m op).2 ops
  end.
End calls.

Arguments db_op F P : clear implicits.
Arguments answer F P : clear implicits.

(** ** The two managers agree *)

Section agreement.
Context {F P : Type} `{ParamsJson P} `{GoMap P} `{!Columns F}.
Implicit Types (mem : Manager F P) (d : DBManager F) (m : ApprovalModel F) (pa : PendingApproval F P).

(** A row and the entry it stands for at a time: the same, or an overdue request that
    only the memory has marked. *)
Definition row_matches (ttl : Duration) (now : Time) pa m : Prop :=
  am_ExpiresAt m = (am_CreatedAt m + ttl)%Z /\
  (pa = toApprovalDomain m \/
   (overdue m now = true /\ pa = toApprovalDomain (am_expire m))).

Definition agree (now : Time) mem d : Prop :=
  mg_ttl mem = dm_ttl d /\
  forall id, option_Forall2 (row_matches (dm_ttl d) now) (mg_pending mem !! id) (dm_store d !! id).

Lemma overdue_later m now now' : (now <= now')%Z -> overdue m now = true -> overdue m now' = true.
Proof.
  unfold overdue, time_After. rewrite !andb_true_iff, !Z.ltb_lt. intros. split; [tauto|lia].
Qed.

Lemma row_matches_later ttl now now' pa m :
  (now <= now')%Z -> row_matches ttl now pa m -> row_matches ttl now' pa m.
Proof.
  intros Ht [He [->|[Ho ->]]]; split; auto. right. split; [by eapply overdue_later|done].
Qed.

Lemma agree_lookup now now' mem d id :
  (now <= now')%Z -> agree now mem d ->
  (mg_pending mem !! id = None /\ dm_store d !! id = None) \/
  exists pa m, mg_pending mem !! id = Some pa /\ dm_store d !! id = Some m /\
    row_matches (dm_ttl d) now' pa m.
Proof.
  intros Ht [_ Ha]. specialize (Ha id). inversion Ha as [pa m Hm Hp Hs|]; [right|by left].
  exists pa, m. split_and!; [done..|]. by eapply row_matches_later.
Qed.

Lemma agree_later now now' mem d : (now <= now')%Z -> agree now mem d -> agree now' mem d.
Proof.
  intros Ht [He Ha]. split; [done|]. intros id. specialize (Ha id).
  inversion Ha; constructor. by eapply row_matches_later.
Qed.

(** Changing one entry and its row. *)
Lemma agree_insert now mem d id pa m f :
  agree now mem d -> dm_store d !! id = Some m -> row_matches (dm_ttl d) now pa (f m) ->
  agree now (with_pending mem (<[id := pa]> (mg_pending mem))) (dm_set d (alter f id (dm_store d))).
Proof.
  intros [He Ha] Hm Hr. split; [done|]. intros id'. simpl. destruct (decide (id' = id)) as [->|Hne].
  - rewrite lookup_insert_eq, lookup_alter_eq, Hm. by constructor.
  - rewrite lookup_insert_ne, lookup_alter_ne by done. apply Ha.
Qed.

(** Changing one entry only. *)
Lemma agree_entry now mem d id pa m :
  agree now mem d -> dm_store d !! id = Some m -> row_matches (dm_ttl d) now pa m ->
  agree now (with_pending mem (<[id := pa]> (mg_pending mem))) d.
Proof.
  intros [He Ha] Hm Hr. split; [done|]. intros id'. simpl. destruct (decide (id' = id)) as [->|Hne].
  - rewrite lookup_insert_eq, Hm. by constructor.
  - rewrite lookup_insert_ne by done. apply Ha.
Qed.

Lemma dm_set_same d : dm_set d (dm_store d) = d.
Proof. by destruct d. Qed.

(** A decision. *)
Lemma resolve_agrees now mem d id who st n1 n2 :
  agree now mem d -> (now <= n1 <= n2)%Z -> kept_time n2 ->
  (forall pa, mg_pending mem !! id = Some pa ->
     pa_Status pa = StatusPending \/ time_After n1 (pa_ExpiresAt pa) = false) ->
  let r := resolve mem id who st n1 n2 in
  let '(e, t) := repo_resolve (dm_store d) id who st (calm n1 n2) in
  r.1 = e /\ agree n2 r.2 (dm_set d t).
Proof.
  intros Ha Hn Hkept Hu. unfold repo_resolve, resolve_check, resolve_update. cbn [en_err1 en_err2 en_now1 en_now2 calm].
  rewrite Hkept.
  assert (agree n2 mem d) as Ha2 by (eapply agree_later; [|done]; lia).
  destruct (agree_lookup now n1 mem d id) as [[Hp Hs]|(pa & m & Hp & Hs & He & Hm)]; [lia|done|..].
  - unfold resolve. rewrite Hp, Hs, dm_set_same. done.
  - rewrite Hs. specialize (Hu pa Hp). destruct Hm as [->|[Ho ->]].
    + destruct (resolve_present mem id who st n1 n2 _ Hp) as [[Ht ->]|[(Ht & Hst & ->)|(Ht & Hst & ->)]];
        simpl in *; rewrite Ht; simpl.
      * destruct Hu as [Hu|]; [|congruence]. rewrite Hu. simpl. split; [done|].
        rewrite dm_set_same. eapply agree_entry; [done..|]. split; [done|]. right. split; [|done].
        unfold overdue. rewrite Hu. unfold time_After in *. rewrite Z.ltb_lt in *. simpl. lia.
      * rewrite bool_decide_eq_false_2 by done. simpl. by rewrite dm_set_same.
      * rewrite Hst. simpl. split; [done|]. eapply agree_insert; [done..|]. split; [done|]. by left.
    + unfold overdue in Ho. apply andb_true_iff in Ho as [_ Ho]. destruct Hu as [Hu|Hu]; [done|].
      simpl in Hu. congruence.
Qed.

Lemma get_agrees now mem d id n :
  agree now mem d -> (now <= n)%Z ->
  let r := Get mem id n in
  let '(g, t) := repo_Get (dm_store d) id (calm n n) in
  r.1 = g /\ agree n r.2 (dm_set d t).
Proof.
  intros Ha Hn. unfold repo_Get, Get. simpl.
  assert (agree n mem d) as Ha2 by by eapply agree_later.
  destruct (agree_lookup now n mem d id) as [[Hp Hs]|(pa & m & Hp & Hs & He & Hm)]; [done|done|..].
  - rewrite Hp, Hs, dm_set_same. done.
  - rewrite Hp, Hs. assert (expire_if_due pa n = toApprovalDomain (if overdue m n then am_expire m else m)) as ->.
    { unfold expire_if_due. destruct Hm as [->|[Ho ->]]; simpl; [|by rewrite Ho].
      fold (overdue m n). by destruct (overdue m n). }
    destruct (overdue m n); simpl; (split; [done|]).
    + eapply agree_insert; [done..|]. split; [done|]. by left.
    + rewrite dm_set_same. eapply agree_entry; [done..|]. split; [done|]. by left.
Qed.

Lemma cleanup_agrees now mem d n :
  agree now mem d -> (now <= n)%Z -> kept_time n -> kept_time (n - 2 * dm_ttl d)%Z ->
  agree n (Cleanup mem n) (db_Cleanup d (calm n n) (calm n n)).
Proof.
  intros Ha Hn Hk1 Hk2. split; [apply Ha|]. intros id. simpl. rewrite Hk1, Hk2, !lookup_omap, lookup_fmap.
  destruct (agree_lookup now n mem d id) as [[-> ->]|(pa & m & Hp & Hs & He & Hm)]; [done..|constructor|].
  destruct Ha as [Httl _]. rewrite Hp, Hs. simpl. unfold cleanup_entry.
  assert (expire_if_due pa n = toApprovalDomain (if overdue m n then am_expire m else m)) as ->.
  { unfold expire_if_due. destruct Hm as [->|[Ho ->]]; simpl; [|by rewrite Ho].
    fold (overdue m n). by destruct (overdue m n). }
  set (m' := if overdue m n then am_expire m else m).
  assert (am_CreatedAt m' = am_CreatedAt m /\ am_ExpiresAt m' = am_ExpiresAt m) as [Hc Hx]
    by (unfold m'; by destruct (overdue m n)).
  unfold resolved_before. simpl. rewrite Hx, Hc, Httl, He. unfold time_After, time_Before.
  replace (am_CreatedAt m + dm_ttl d + dm_ttl d <? n)%Z
    with (am_CreatedAt m <? n - 2 * dm_ttl d)%Z
    by (destruct (Z.ltb_spec (am_CreatedAt m) (n - 2 * dm_ttl d));
        destruct (Z.ltb_spec (am_CreatedAt m + dm_ttl d + dm_ttl d) n); lia || done).
  destruct (negb _ && _); constructor. split; [by rewrite Hx, Hc|by left].
Qed.
End agreement.

(** ** What the database manager promises *)

Section promises.
Context {F P : Type} `{ParamsJson P} `{GoMap P} `{!Columns F}.
Implicit Types (d : DBManager F) (m : ApprovalModel F) (t : gmap string (ApprovalModel F)).
Implicit Types (mem : Manager F P) (pa : PendingApproval F P).

(** The memory with the costs as the columns keep them. *)
Definition kept_mgr mem : Manager F P := with_pending mem (kept <$> mg_pending mem).

Lemma kept_resolve mem id who st n1 n2 :
  resolve (kept_mgr mem) id who st n1 n2 =
  ((resolve mem id who st n1 n2).1, kept_mgr (resolve mem id who st n1 n2).2).
Proof.
  unfold resolve, kept_mgr. simpl. rewrite lookup_fmap. destruct (mg_pending mem !! id) as [pa|]; simpl; [|done].
  destruct (time_After _ _); [simpl; by rewrite fmap_insert|]. destruct (negb _); simpl; [done|].
  by rewrite fmap_insert.
Qed.

Lemma kept_expire pa n : expire_if_due (kept pa) n = kept (expire_if_due pa n).
Proof. unfold expire_if_due. simpl. by destruct (_ && _). Qed.

Lemma kept_cleanup mem n : Cleanup (kept_mgr mem) n = kept_mgr (Cleanup mem n).
Proof.
  unfold Cleanup, kept_mgr, with_pending. simpl. f_equal. apply map_eq. intros id.
  rewrite lookup_omap, !lookup_fmap, lookup_omap. destruct (mg_pending mem !! id) as [pa|]; simpl; [|done].
  unfold cleanup_entry. rewrite kept_expire. simpl. by destruct (_ && _).
Qed.

Lemma create_agrees now mem d req id n :
  agree now (kept_mgr mem) d -> (now <= n)%Z -> op_usual mem (OpCreate req (Ok id) n) ->
  let '(r, t) := repo_Create (dm_store d) (dm_orgID d) req (dm_ttl d) (Ok id) (calm n n) in
  r = Ok id /\ agree n (kept_mgr (Create mem req (Ok id) n).2) (dm_set d t).
Proof.
  intros Ha Hn (Hf & Hp & (c & Hc) & Hk1 & Hk2). unfold kept_time in *.
  destruct (agree_later _ _ _ _ Hn Ha) as [Ht Hm]. simpl in Ht.
  unfold repo_Create, approval_columns. cbn [calm en_err1 en_now1 am_EstimatedCost toApprovalModel]. rewrite Hc.
  pose proof (Hm id) as Hi. simpl in Hi. rewrite lookup_fmap, Hf in Hi. inversion Hi as [|Hno].
  split; [done|]. split; [done|]. intros id'. simpl. rewrite fmap_insert.
  destruct (decide (id' = id)) as [->|Hne]; [|rewrite !lookup_insert_ne by done; apply Hm].
  rewrite !lookup_insert_eq. constructor. rewrite <-Ht, Hk1, Hk2. split; [done|]. left.
  pose proof (approval_read_back (dm_orgID d) req id (mg_ttl mem) n Hp) as Hr.
  unfold toApprovalDomain, kept, kept_cost in *. cbn in *. rewrite Hc. by injection Hr as ->.
Qed.

Lemma step_agrees now mem d (op : mgr_op F P) :
  agree now (kept_mgr mem) d -> (now <= op_start op <= op_end op)%Z -> op_usual mem op ->
  (db_step d (on_db op)).1 = kept_answer (mem_step mem op).1 /\
  agree (op_end op) (kept_mgr (mem_step mem op).2) (db_step d (on_db op)).2.
Proof.
  intros Ha Hn Hu. assert (forall id who st n1 n2, (now <= n1 <= n2)%Z -> kept_time n2 ->
    (forall pa, mg_pending mem !! id = Some pa -> pa_Status pa = StatusPending \/ time_After n1 (pa_ExpiresAt pa) = false) ->
    let '(e, t) := repo_resolve (dm_store d) id who st (calm n1 n2) in
    e = (resolve mem id who st n1 n2).1 /\ agree n2 (kept_mgr (resolve mem id who st n1 n2).2) (dm_set d t)) as Hres.
  { intros id who st n1 n2 Hn' Hk Hpend. pose proof (resolve_agrees now (kept_mgr mem) d id who st n1 n2 Ha Hn' Hk) as Hr.
    rewrite kept_resolve in Hr. destruct (repo_resolve _ _ _ _ _). cbn [fst snd] in Hr.
    destruct Hr as [<- Hr]; [|done]. intros pa. simpl. rewrite lookup_fmap. destruct (mg_pending mem !! id) as [pa0|] eqn:E; [|done].
    intros [= <-]. exact (Hpend pa0 eq_refl). }
  destruct op as [req gen n|id who n1 n2|id who n1 n2|id n|n]; simpl in Hn.
  - destruct gen as [id|e].
    + pose proof (create_agrees now mem d req id n Ha ltac:(lia) Hu) as Hc. cbn [db_step on_db]. unfold db_Create.
      destruct (repo_Create _ _ _ _ _ _). by destruct Hc as [-> Hc].
    + simpl. split; [done|]. rewrite dm_set_same. by eapply agree_later; [|exact Ha]; lia.
  - destruct Hu as [Hk Hu]. pose proof (Hres id who StatusApproved n1 n2 Hn Hk Hu) as Hr.
    cbn [db_step on_db mem_step]. unfold db_Approve, repo_Approve, Approve.
    destruct (resolve mem id who _ n1 n2), (repo_resolve _ _ _ _ _). by destruct Hr as [-> Hr].
  - destruct Hu as [Hk Hu]. pose proof (Hres id who StatusDenied n1 n2 Hn Hk Hu) as Hr.
    cbn [db_step on_db mem_step]. unfold db_Deny, repo_Deny, Deny.
    destruct (resolve mem id who _ n1 n2), (repo_resolve _ _ _ _ _). by destruct Hr as [-> Hr].
  - pose proof (get_agrees now (kept_mgr mem) d id n Ha ltac:(lia)) as Hr.
    cbn [db_step on_db mem_step op_end]. unfold db_Get. revert Hr. unfold Get at 1 2. simpl. rewrite lookup_fmap.
    unfold Get. destruct (mg_pending mem !! id) as [pa|]; simpl; destruct (repo_Get _ _ _); intros [<- Hr]; [|done].
    rewrite kept_expire in *. split; [done|]. unfold kept_mgr. simpl. by rewrite fmap_insert.
  - destruct Hu as [Hk1 Hk2]. split; [done|]. cbn [db_step on_db mem_step op_end fst snd]. rewrite <-kept_cleanup.
    apply (cleanup_agrees now); [done|simpl in *; lia|done|]. destruct Ha as [Ht _]. simpl in Ht. by rewrite <-Ht.
Qed.

(** C15: the database manager is the in-memory manager.  Starting empty, on a working
    database and a clock that does not go back, every call gets the same answer from both:
    identifiers, errors, and the request that is read, field by field, where the estimated
    cost is what its column [numeric(14,6)] keeps of it ([kept_answer]).  The calls are usual
    ones ([usual]): the identifiers that are generated are fresh, the parameters of a request
    survive JSON ([params_safe]), its cost fits the column, the instants that are stored are
    whole microseconds, as their columns are, and nobody decides a request that was settled
    before it expired (there the in-memory manager marks it expired, the other does not). *)
Theorem db_manager_equivalent orgID ttl now (ops : list (mgr_op F P)) :
  clock_ok now ops -> usual (NewManager ttl) ops ->
  answers db_step (NewDBManager ∅ orgID ttl) (on_db <$> ops) =
    kept_answer <$> answers mem_step (NewManager ttl) ops.
Proof.
  assert (agree now (kept_mgr (@NewManager F P ttl)) (NewDBManager ∅ orgID ttl)) as Ha.
  { split; [done|]. intros id. simpl. rewrite fmap_empty, !lookup_empty. constructor. }
  revert Ha. generalize (@NewManager F P ttl), (@NewDBManager F ∅ orgID ttl). revert now.
  induction ops as [|op ops IH]; intros now mem d Ha Hc Hu; [done|].
  destruct Hc as [Hn Hc], Hu as [Hu Hus].
  destruct (step_agrees now mem d op Ha Hn Hu) as [He Ha']. simpl. rewrite He. f_equal.
  by eapply IH.
Qed.

(** The contract of [ApprovalStore]: a pending request is approved, denied or expires,
    and a settled one keeps its status. *)
Inductive contract : Status -> Status -> Prop :=
  | ct_same s : contract s s
  | ct_settle s : contract StatusPending s.

Lemma contract_expire m now :
  contract (am_Status m) (am_Status (if overdue m now then am_expire m else m)).
Proof.
  unfold overdue. case_bool_decide as E; simpl; [rewrite E|constructor].
  destruct (time_After _ _); simpl; rewrite ?E; constructor.
Qed.

(** What a call leaves of a row: its status along the contract, or nothing, when the
    clean-up found it settled and old. *)
Definition row_kept d d' id : Prop :=
  forall m, dm_store d !! id = Some m ->
    match dm_store d' !! id with
    | Some m' => contract (am_Status m) (am_Status m') /\ am_UserID m' = am_UserID m /\
        am_ToolName m' = am_ToolName m /\ am_Parameters m' = am_Parameters m
    | None => am_Status m <> StatusPending \/ exists now, overdue m now = true
    end.

Lemma row_kept_refl d t id : t = dm_store d -> row_kept d (dm_set d t) id.
Proof. intros -> m Hm. simpl. rewrite Hm. split_and!; [constructor|done..]. Qed.

Lemma resolve_kept d id0 who st e id :
  row_kept d (dm_set d (repo_resolve (dm_store d) id0 who st e).2) id.
Proof.
  unfold repo_resolve. destruct (resolve_check (dm_store d) id0 e) as [err|] eqn:E;
    [by apply row_kept_refl|].
  unfold resolve_update. destruct (en_err2 e); [by apply row_kept_refl|].
  intros m Hm. simpl. unfold resolve_check in E. destruct (en_err1 e); [done|].
  destruct (decide (id = id0)) as [->|Hne].
  - rewrite lookup_alter_eq, Hm. simpl. rewrite Hm in E. destruct (_ && _); [done|].
    case_bool_decide as Hp; [|done]. rewrite Hp. split_and!; [constructor|done..].
  - rewrite lookup_alter_ne, Hm by done. split_and!; [constructor|done..].
Qed.

Lemma cleanup_kept d e1 e2 id : row_kept d (db_Cleanup d e1 e2) id.
Proof.
  intros m Hm. unfold db_Cleanup, repo_ExpireOld, repo_DeleteResolved. simpl.
  destruct (en_err1 e1); simpl; destruct (en_err1 e2); simpl;
    rewrite ?lookup_omap, ?lookup_fmap, Hm; simpl.
  - split_and!; [constructor|done..].
  - unfold resolved_before. case_bool_decide; simpl; [|destruct (time_Before _ _); simpl; [by left|]];
      (split_and!; [constructor|done..]).
  - split; [apply contract_expire|]. by destruct (overdue m _).
  - destruct (overdue m (time_column (en_now1 e1))) eqn:Ho.
    + destruct (resolved_before _ _); simpl; [right; by eexists|].
      split_and!; [|done..]. pose proof (contract_expire m (time_column (en_now1 e1))) as C. by rewrite Ho in C.
    + unfold resolved_before. case_bool_decide; simpl; [|destruct (time_Before _ _); simpl; [by left|]];
        (split_and!; [constructor|done..]).
Qed.

(** A settled request stays settled.  Whatever call is made, at any clock and with any
    failure of the database, the status of every request moves along the contract
    (pending to approved, denied or expired, and never again), what was asked for does
    not change, and a request disappears only after it was settled or is overdue. *)
Theorem db_status_contract d (op : db_op F P) id : row_kept d (db_step d op).2 id.
Proof.
  destruct op as [req gen e|id0 who e|id0 who e|id0 e|e1 e2]; simpl.
  - unfold db_Create, repo_Create. destruct gen as [id0|]; simpl; [|by apply row_kept_refl].
    destruct (en_err1 e); [by apply row_kept_refl|].
    destruct (approval_columns _) as [row|err]; [|by apply row_kept_refl].
    destruct (dm_store d !! id0) eqn:E; [by apply row_kept_refl|]. intros m Hm. simpl.
    rewrite lookup_insert_ne, Hm by congruence. split_and!; [constructor|done..].
  - pose proof (resolve_kept d id0 who StatusApproved e id) as Hk. unfold db_Approve, repo_Approve.
    by destruct (repo_resolve _ _ _ _ _).
  - pose proof (resolve_kept d id0 who StatusDenied e id) as Hk. unfold db_Deny, repo_Deny.
    by destruct (repo_resolve _ _ _ _ _).
  - unfold db_Get, repo_Get. destruct (en_err1 e); [by apply row_kept_refl|].
    destruct (dm_store d !! id0) as [m0|] eqn:E; [|by apply row_kept_refl].
    destruct (overdue m0 (en_now1 e)) eqn:Ho; [|by apply row_kept_refl].
    destruct (en_err2 e); [by apply row_kept_refl|]. intros m Hm. simpl.
    destruct (decide (id = id0)) as [->|Hne].
    + rewrite lookup_alter_eq, Hm. simpl. replace m with m0 by congruence.
      pose proof (contract_expire m0 (en_now1 e)) as C. rewrite Ho in C. by split_and!.
    + rewrite lookup_alter_ne, Hm by done. split_and!; [constructor|done..].
  - apply cleanup_kept.
Qed.

(** Two decisions of one request can both succeed.  The update of a decision does not
    look at the status it overwrites, so when an approver and a denier both read the
    request before either writes, both are told they succeeded and the later one wins:
    an approved request becomes denied, or a denied one approved. *)
Theorem db_decisions_race t id m a b s1 s2 ea eb :
  t !! id = Some m -> am_Status m = StatusPending ->
  (en_now1 ea <= am_ExpiresAt m)%Z -> (en_now1 eb <= am_ExpiresAt m)%Z ->
  en_err1 ea = None -> en_err2 ea = None -> en_err1 eb = None -> en_err2 eb = None ->
  resolve_check t id ea = None /\ resolve_check t id eb = None /\
  let '(ra, t1) := resolve_update t id a s1 ea in
  let '(rb, t2) := resolve_update t1 id b s2 eb in
  ra = None /\ rb = None /\
  (exists m', t1 !! id = Some m' /\ am_Status m' = s1) /\
  (exists m', t2 !! id = Some m' /\ am_Status m' = s2 /\ am_ApprovedBy m' = b).
Proof.
  intros Hm Hp Ha Hb Ea1 Ea2 Eb1 Eb2. unfold resolve_check, resolve_update.
  rewrite Hm, Ea1, Ea2, Eb1, Eb2, Hp. unfold time_After.
  assert (forall n, (n <= am_ExpiresAt m)%Z -> (am_ExpiresAt m <? n)%Z = false) as Hl
    by (intros n Hn; by apply Z.ltb_ge).
  rewrite !Hl by done. simpl. split_and!; [done..| |]; rewrite !lookup_alter_eq, Hm; simpl; by eexists.
Qed.
End promises.
