(* ===== verification/RoleDB.v ===== *)
(** * Roles kept in the database

    [src/internal/storage/postgres/role_repo.go] and [user_repo.go] (roles, permissions,
    users and assignments), [security/pg_rbac.go], the enforcer that caches them, and the
    audit log of [security/pg_audit.go] and [audit_repo.go].

    The tables are maps: roles by organisation and name, users by organisation and
    external identifier, at most one assignment per user.  A statement may fail
    ([w_db]); a transaction that fails gives its writes back. *)

From S2P Require Import Prelude Domain Security Protocol Models SecurityManager.

Section repository.
Context {W : Type} `{!World W} `{!MapRange (uuid * string) RoleModel}.
Context `{!MapRange (uuid * string) uuid}.

Record RoleDB := mkRoleDB {
  rd_roles : gmap (uuid * string) RoleModel;
  rd_users : gmap (uuid * string) uuid;
  rd_userRoles : gmap uuid uuid;
  rd_world : W;
}.

Abbreviation M := (st RoleDB).

Definition set_rows (roles : gmap (uuid * string) RoleModel) (s : RoleDB) : RoleDB :=
  mkRoleDB roles (rd_users s) (rd_userRoles s) (rd_world s).
Definition set_userRoles (ur : gmap uuid uuid) (s : RoleDB) : RoleDB :=
  mkRoleDB (rd_roles s) (rd_users s) ur (rd_world s).
Definition set_users (us : gmap (uuid * string) uuid) (s : RoleDB) : RoleDB :=
  mkRoleDB (rd_roles s) us (rd_userRoles s) (rd_world s).

Definition on_world {A} (m : st W A) : M A := fun s =>
  let '(a, w) := m (rd_world s) in (a, mkRoleDB (rd_roles s) (rd_users s) (rd_userRoles s) w).

(** A statement: go on, or return the wrapped error. *)
Definition stmt (msg : string) (k : M (option error)) : M (option error) :=
  err ← on_world w_db;
  match err with Some e => mret (Some (Wrap msg e)) | None => k end.

(** [db.Transaction]: BEGIN, the function, COMMIT or ROLLBACK. *)
Definition transaction (m : M (option error)) : M (option error) := fun s =>
  let back s' := set_rows (rd_roles s) (set_userRoles (rd_userRoles s) s') in
  match (begin ← on_world w_db;
         match begin with Some e => mret (Some e) | None => m end) s with
  | (Some e, s') => (Some e, back s')
  | (None, s') =>
      match on_world w_db s' with
      | (Some e, s'') => (Some e, back s'')
      | (None, s'') => (None, s'')
      end
  end.

(** ** Users *)

(** [EnsureUser]. *)
Definition EnsureUser (orgID : uuid) (externalID : string) : M (result error uuid) :=
  err ← on_world w_db;
  match err with
  | Some e => mret (Err (Wrap "looking up user" e))
  | None =>
      found ← st_get (fun s => rd_users s !! (orgID, externalID));
      match found with
      | Some id => mret (Ok id)
      | None =>
          id ← on_world w_uuid;
          err ← on_world w_db;
          match err with
          | Some e => mret (Err (Wrap "creating user" e))
          | None =>
              _ ← st_modify (fun s => set_users (<[(orgID, externalID) := id]> (rd_users s)) s);
              mret (Ok id)
          end
      end
  end.

(** ** Roles *)

Definition with_permissions (rm : RoleModel) (ps : list PermissionModel) : RoleModel :=
  mkRoleModel (lm_ID rm) (lm_OrgID rm) (lm_Name rm) (lm_MaxRiskLevel rm) ps.
Definition with_risk (rm : RoleModel) (risk : string) : RoleModel :=
  mkRoleModel (lm_ID rm) (lm_OrgID rm) (lm_Name rm) risk (lm_Permissions rm).

(** The row of a role that did not exist; the column of the risk level has a default. *)
Definition new_role (id orgID : uuid) (role : Role) : RoleModel :=
  mkRoleModel id orgID (role_Name role) (or_text (role_MaxRiskLevel role) "critical") [].

(** The loop that inserts the permissions of a role. *)
Fixpoint create_permissions (key : uuid * string) (required actions : list string)
    : M (option error) :=
  match actions with
  | [] => mret None
  | a :: actions =>
      _ ← on_world w_uuid;
      stmt "creating permission"
        (_ ← st_modify (fun s => set_rows (alter (fun rm => with_permissions rm
               (lm_Permissions rm ++ [mkPermissionModel a (slice_contains required a)])) key (rd_roles s)) s);
         create_permissions key required actions)
  end.

(** From the permissions on, once the row of the role is there. *)
Definition replace_permissions (key : uuid * string) (role : Role) : M (option error) :=
  stmt "clearing permissions"
    (_ ← st_modify (fun s => set_rows (alter (fun rm => with_permissions rm []) key (rd_roles s)) s);
     create_permissions key (role_RequireApproval role) (role_Permissions role)).

Definition SaveRole (orgID : uuid) (role : Role) : M (option error) :=
  let key := (orgID, role_Name role) in
  transaction (stmt "looking up role"
    (found ← st_get (fun s => rd_roles s !! key);
     match found with
     | None =>
         id ← on_world w_uuid;
         stmt "creating role"
           (_ ← st_modify (fun s => set_rows (<[key := new_role id orgID role]> (rd_roles s)) s);
            replace_permissions key role)
     | Some rm =>
         stmt "updating role"
           (_ ← st_modify (fun s => set_rows
                  (<[key := with_risk rm (role_MaxRiskLevel role)]> (rd_roles s)) s);
            replace_permissions key role)
     end)).

(** [AssignUserRole]; the user is created outside the transaction. *)
Definition AssignUserRole (orgID : uuid) (externalUserID roleName : string) : M (option error) :=
  transaction
    (user ← EnsureUser orgID externalUserID;
     match user with
     | Err e => mret (Some e)
     | Ok userID =>
         stmt "role not found"
           (found ← st_get (fun s => rd_roles s !! (orgID, roleName));
            match found with
            | None => mret (Some (Wrap "role not found" (Errorf "record not found")))
            | Some rm =>
                stmt "clearing user role"
                  (_ ← st_modify (fun s => set_userRoles (delete userID (rd_userRoles s)) s);
                   stmt "assigning role"
                     (_ ← st_modify (fun s =>
                            set_userRoles (<[userID := lm_ID rm]> (rd_userRoles s)) s);
                      mret None))
            end)
     end).

(** The role rows of an organisation. *)
Definition org_roles (orgID : uuid) (roles : gmap (uuid * string) RoleModel) : list RoleModel :=
  List.filter (fun rm => bool_decide (lm_OrgID rm = orgID)) (map_range roles).*2.

(** One row of the join of users, assignments and roles. *)
Definition user_role_row (orgID : uuid) (userRoles : gmap uuid uuid) (roles : list RoleModel)
    (u : (uuid * string) * uuid) : option (string * string) :=
  if bool_decide (u.1.1 = orgID) then
    roleID ← userRoles !! u.2;
    rm ← List.find (fun rm => bool_decide (lm_ID rm = roleID)) roles;
    Some (u.1.2, lm_Name rm)
  else None.

Definition config_of (orgID : uuid) (s : RoleDB) : RBAC :=
  let rows := org_roles orgID (rd_roles s) in
  mkRBAC (map_of ((fun rm => (lm_Name rm, toSecurityRole rm)) <$> rows))
    (map_of (omap (user_role_row orgID (rd_userRoles s) rows) (map_range (rd_users s)))) "".

Definition LoadRBACConfig (orgID : uuid) : M (result error RBAC) :=
  err ← on_world w_db;
  match err with
  | Some e => mret (Err (Wrap "loading roles" e))
  | None =>
      err ← on_world w_db;
      match err with
      | Some e => mret (Err (Wrap "loading user roles" e))
      | None => cfg ← st_get (config_of orgID); mret (Ok cfg)
      end
  end.
End repository.

Arguments RoleDB W : clear implicits.

(** ** The cached enforcer *)

Section enforcer.
Context {W : Type} `{!World W} `{!MapRange (uuid * string) RoleModel}.
Context `{!MapRange (uuid * string) uuid} `{!MapRange string Role} `{!MapRange string string}.

Record PGRBAC := mkPGRBAC {
  pr_store : RoleDB W;
  pr_orgID : uuid;
  pr_fallbackCfg : RBAC;
  pr_cached : option RBAC;
  pr_loadedAt : Time;
}.

Abbreviation M := (st PGRBAC).

Definition cacheTTL : Duration := (60 * Second)%Z.

Definition NewPGRBAC (store : RoleDB W) (orgID : uuid) (fallbackCfg : RBAC) : PGRBAC :=
  mkPGRBAC store orgID fallbackCfg None time_zero.

Definition on_store {A} (m : st (RoleDB W) A) : M A := fun p =>
  let '(a, s) := m (pr_store p) in
  (a, mkPGRBAC s (pr_orgID p) (pr_fallbackCfg p) (pr_cached p) (pr_loadedAt p)).

(** The cached configuration, while it is fresh. *)
Definition fresh_cache : M (option RBAC) :=
  cached ← st_get pr_cached;
  match cached with
  | None => mret None
  | Some rbac =>
      now ← on_store (on_world w_now);
      loadedAt ← st_get pr_loadedAt;
      mret (if (now - loadedAt <? cacheTTL)%Z then Some rbac else None)
  end.

Fixpoint save_roles (orgID : uuid) (roles : list Role) : st (RoleDB W) (option error) :=
  match roles with
  | [] => mret None
  | role :: roles =>
      err ← SaveRole orgID role;
      match err with
      | Some e => mret (Some (Wrap "saving role" e))
      | None => save_roles orgID roles
      end
  end.

Fixpoint assign_users (orgID : uuid) (users : list (string * string))
    : st (RoleDB W) (option error) :=
  match users with
  | [] => mret None
  | (userID, roleName) :: users =>
      err ← AssignUserRole orgID userID roleName;
      match err with
      | Some e => mret (Some (Wrap "assigning user" e))
      | None => assign_users orgID users
      end
  end.

Definition bootstrap (orgID : uuid) (cfg : RBAC) : st (RoleDB W) (option error) :=
  err ← save_roles orgID (map_range (rbac_roles cfg)).*2;
  match err with
  | Some e => mret (Some e)
  | None => assign_users orgID (map_range (rbac_userRoles cfg))
  end.

(** The configuration to cache: what is in the database, seeded when it has no role, with
    the fallback's default role. *)
Definition load (orgID : uuid) (fallback : RBAC) : st (RoleDB W) (result error RBAC) :=
  r ← LoadRBACConfig orgID;
  match r with
  | Err e => mret (Err e)
  | Ok cfg =>
      r ← (if bool_decide (rbac_roles cfg = ∅) && negb (bool_decide (rbac_roles fallback = ∅)) then
             err ← bootstrap orgID fallback;
             match err with
             | Some e => mret (Err (Wrap "bootstrapping RBAC" e))
             | None => LoadRBACConfig orgID
             end
           else mret (Ok cfg));
      match r with
      | Err e => mret (Err e)
      | Ok cfg =>
          mret (Ok (mkRBAC (rbac_roles cfg) (rbac_userRoles cfg)
                      (if String.eqb (rbac_defaultRole cfg) "" then rbac_defaultRole fallback
                       else rbac_defaultRole cfg)))
      end
  end.

(** [ensureLoaded]; the cache is looked at again under the write lock. *)
Definition ensureLoaded : M (result error RBAC) :=
  c1 ← fresh_cache;
  match c1 with
  | Some rbac => mret (Ok rbac)
  | None =>
      c2 ← fresh_cache;
      match c2 with
      | Some rbac => mret (Ok rbac)
      | None =>
          orgID ← st_get pr_orgID;
          fallback ← st_get pr_fallbackCfg;
          r ← on_store (load orgID fallback);
          match r with
          | Err e => mret (Err e)
          | Ok cfg =>
              now ← on_store (on_world w_now);
              _ ← st_modify (fun p => mkPGRBAC (pr_store p) (pr_orgID p) (pr_fallbackCfg p)
                                        (Some cfg) now);
              mret (Ok cfg)
          end
      end
  end.

Definition pg_CheckPermission (userID : string) (action : Action) : M (option error) :=
  r ← ensureLoaded;
  match r with
  | Err e => mret (Some (Wrap "loading RBAC config" e))
  | Ok rbac => mret (rbac_CheckPermission rbac userID action)
  end.

Definition pg_RequireApproval (userID : string) (action : Action) : M (option error) :=
  r ← ensureLoaded;
  match r with
  | Err e => mret (Some (Wrap "loading RBAC config" e))
  | Ok rbac => mret (rbac_RequireApproval rbac userID action)
  end.
End enforcer.

Arguments PGRBAC W : clear implicits.

(** ** The audit log *)

Section audit.
Context {F P W : Type} `{!World W} `{!ParamsJson P}.

(** The table and its environment. *)
Record AuditDB := mkAuditDB { ad_events : list (AuditEventModel F); ad_world : W }.

(** [AuditRepository.Append] behind [PGAuditLogger.LogAction]. *)
Definition pg_LogAction (orgID : uuid) (event : AuditEvent F P) : st AuditDB (option error) := fun s =>
  let '(id, w) := w_uuid (ad_world s) in
  match w_db w with
  | (Some e, w) => (Some (Wrap "appending audit event" e), mkAuditDB (ad_events s) w)
  | (None, w) => (None, mkAuditDB (ad_events s ++ [toAuditModel id orgID event]) w)
  end.

Definition newest_first (a b : AuditEventModel F) : bool := time_Before (em_CreatedAt b) (em_CreatedAt a).

(** [AuditRepository.Query]; a limit that is not positive is 100. *)
Definition audit_Query `{!GoSort (AuditEventModel F)} (orgID : uuid) (userID : string) (limit : Z)
    : st AuditDB (result error (list (AuditEvent F P))) := fun s =>
  let limit := if (limit <=? 0)%Z then 100%Z else limit in
  let '(err, w) := w_db (ad_world s) in
  let s := mkAuditDB (ad_events s) w in
  match err with
  | Some e => (Err (Wrap "querying audit events" e), s)
  | None =>
      let rows := List.filter (fun m => bool_decide (em_OrgID m = orgID) &&
        (String.eqb userID "" || String.eqb (em_UserID m) userID)) (ad_events s) in
      (Ok (toAuditDomain <$> take (Z.to_nat limit) (go_sort newest_first rows)), s)
  end.
End audit.
