(* ===== verification/RoleProps.v ===== *)
(** * What the role store and its enforcer promise

    [LoadRBACConfig] gives back what was saved: [SaveRole] and [AssignUserRole] refine
    two operations on a configuration, the abstract specification below.  The cached
    enforcer then decides as the in-memory one does. *)

From S2P Require Import Prelude Domain Security Protocol Models SecurityManager RoleDB.

(** ** The specification: a configuration *)

(** A role as the tables keep it: approval requirements for actions the role does not
    have are dropped. *)
Definition kept_role (role : Role) (risk : string) : Role :=
  mkRole (role_Name role) (role_Permissions role) risk
    (List.filter (slice_contains (role_RequireApproval role)) (role_Permissions role)).

(** The risk level of a new role has a default. *)
Definition kept_risk (cfg : RBAC) (role : Role) : string :=
  match rbac_roles cfg !! role_Name role with
  | Some _ => role_MaxRiskLevel role
  | None => or_text (role_MaxRiskLevel role) "critical"
  end.

Definition spec_SaveRole (cfg : RBAC) (role : Role) : RBAC :=
  mkRBAC (<[role_Name role := kept_role role (kept_risk cfg role)]> (rbac_roles cfg))
    (rbac_userRoles cfg) (rbac_defaultRole cfg).

Definition spec_AssignUserRole (cfg : RBAC) (userID roleName : string) : option error * RBAC :=
  match rbac_roles cfg !! roleName with
  | None => (Some (Wrap "role not found" (Errorf "record not found")), cfg)
  | Some _ =>
      (None, mkRBAC (rbac_roles cfg) (<[userID := roleName]> (rbac_userRoles cfg)) (rbac_defaultRole cfg))
  end.

(** ** Runs on a working database *)

Section store.
Context {W : Type} `{!World W} `{!FreshWorld W}.
Context `{!MapRange (uuid * string) RoleModel} `{!MapRange (uuid * string) uuid}.
Context (Hdb : forall w : W, (w_db w).1 = None).
Implicit Types (s : RoleDB W) (w : W) (rm : RoleModel).

(** A later world: nothing is forgotten. *)
Definition later w w' : Prop := forall u, w_used w u -> w_used w' u.

Definition with_world w s : RoleDB W := mkRoleDB (rd_roles s) (rd_users s) (rd_userRoles s) w.

Lemma on_world_run {A} (m : st W A) s :
  on_world m s = ((m (rd_world s)).1, with_world (m (rd_world s)).2 s).
Proof. unfold on_world. by destruct (m (rd_world s)). Qed.

Definition after_stmt s : RoleDB W := with_world (w_db (rd_world s)).2 s.

Lemma stmt_run msg k s : stmt msg k s = k (after_stmt s).
Proof. unfold stmt. rewrite st_bind_run, on_world_run, Hdb. done. Qed.

Lemma transaction_ok m s s' : m (after_stmt s) = (None, s') -> transaction m s = (None, after_stmt s').
Proof.
  intros Hm. unfold transaction. rewrite st_bind_run, on_world_run, Hdb. simpl.
  change (with_world (w_db (rd_world s)).2 s) with (after_stmt s). rewrite Hm.
  by rewrite on_world_run, Hdb.
Qed.

Lemma transaction_error m s s' e :
  m (after_stmt s) = (Some e, s') ->
  transaction m s = (Some e, set_rows (rd_roles s) (set_userRoles (rd_userRoles s) s')).
Proof.
  intros Hm. unfold transaction. rewrite st_bind_run, on_world_run, Hdb. simpl.
  change (with_world (w_db (rd_world s)).2 s) with (after_stmt s). by rewrite Hm.
Qed.

Definition perm_rows (required actions : list string) : list PermissionModel :=
  (fun a => mkPermissionModel a (slice_contains required a)) <$> actions.

Lemma later_db w : later w (w_db w).2.
Proof. intros u. apply used_db. Qed.
Lemma later_uuid w : later w (w_uuid w).2.
Proof. intros u. apply used_uuid. Qed.
Lemma later_trans w1 w2 w3 : later w1 w2 -> later w2 w3 -> later w1 w3.
Proof. intros H1 H2 u Hu. by apply H2, H1. Qed.
Lemma later_refl w : later w w.
Proof. by intros u. Qed.
#[local] Hint Resolve later_db later_uuid later_refl later_trans : core.

Lemma create_permissions_run key required actions s rm :
  rd_roles s !! key = Some rm ->
  exists w', later (rd_world s) w' /\ create_permissions key required actions s =
    (None, with_world w' (set_rows (<[key := with_permissions rm
       (lm_Permissions rm ++ perm_rows required actions)]> (rd_roles s)) s)).
Proof.
  revert s rm. induction actions as [|a actions IH]; intros s rm Hk; simpl.
  - exists (rd_world s). split; [done|]. rewrite app_nil_r, insert_id; [by destruct s|].
    rewrite Hk. by destruct rm.
  - rewrite st_bind_run, on_world_run, stmt_run, st_bind_run. simpl.
    set (s1 := set_rows _ _).
    destruct (IH s1 (with_permissions rm (lm_Permissions rm ++
      [mkPermissionModel a (slice_contains required a)]))) as (w' & Hl & ->).
    { simpl. by rewrite lookup_alter_eq, Hk. }
    exists w'. split; [simpl in Hl; eauto|]. f_equal. unfold with_world, set_rows. simpl. f_equal.
    rewrite <-app_assoc. simpl. apply map_eq. intros k. destruct (decide (k = key)) as [->|Hne].
    + by rewrite !lookup_insert_eq.
    + by rewrite !lookup_insert_ne, lookup_alter_ne by done.
Qed.

Lemma replace_permissions_run key role s rm :
  rd_roles s !! key = Some rm ->
  exists w', later (rd_world s) w' /\ replace_permissions key role s =
    (None, with_world w' (set_rows (<[key := with_permissions rm
       (perm_rows (role_RequireApproval role) (role_Permissions role))]> (rd_roles s)) s)).
Proof.
  intros Hk. unfold replace_permissions. rewrite stmt_run, st_bind_run. simpl.
  set (s1 := set_rows _ _).
  destruct (create_permissions_run key (role_RequireApproval role) (role_Permissions role) s1
    (with_permissions rm [])) as (w' & Hl & ->); [simpl; by rewrite lookup_alter_eq, Hk|].
  exists w'. split; [simpl in Hl; eauto|]. f_equal. unfold with_world, set_rows. simpl. f_equal.
  apply map_eq. intros k. destruct (decide (k = key)) as [->|Hne].
  - by rewrite !lookup_insert_eq.
  - by rewrite !lookup_insert_ne, lookup_alter_ne by done.
Qed.

(** The row [SaveRole] leaves. *)
Definition saved_row id orgID name role risk : RoleModel :=
  mkRoleModel id orgID name risk (perm_rows (role_RequireApproval role) (role_Permissions role)).

Lemma SaveRole_run orgID role s :
  exists id o n risk w', later (rd_world s) w' /\
    SaveRole orgID role s =
      (None, with_world w' (set_rows (<[(orgID, role_Name role) := saved_row id o n role risk]>
                              (rd_roles s)) s)) /\
    match rd_roles s !! (orgID, role_Name role) with
    | Some rm => id = lm_ID rm /\ o = lm_OrgID rm /\ n = lm_Name rm /\ risk = role_MaxRiskLevel role
    | None => ~ w_used (rd_world s) id /\ w_used w' id /\ o = orgID /\ n = role_Name role /\
        risk = or_text (role_MaxRiskLevel role) "critical"
    end.
Proof.
  unfold SaveRole. set (key := (orgID, role_Name role)).
  set (body := stmt "looking up role" _).
  assert (exists id o n risk w', later (rd_world (after_stmt s)) w' /\
    body (after_stmt s) = (None, with_world w' (set_rows (<[key := saved_row id o n role risk]>
                              (rd_roles s)) s)) /\
    match rd_roles s !! key with
    | Some rm => id = lm_ID rm /\ o = lm_OrgID rm /\ n = lm_Name rm /\ risk = role_MaxRiskLevel role
    | None => ~ w_used (rd_world s) id /\ w_used w' id /\ o = orgID /\ n = role_Name role /\
        risk = or_text (role_MaxRiskLevel role) "critical"
    end) as (id & o & n & risk & w' & Hl & Hb & Hm).
  { unfold body. rewrite stmt_run, st_bind_run. simpl. destruct (rd_roles s !! key) as [rm|] eqn:Ek.
    - rewrite stmt_run, st_bind_run. simpl. set (s1 := set_rows _ _).
      destruct (replace_permissions_run key role s1 (with_risk rm (role_MaxRiskLevel role)))
        as (w' & Hl & ->); [apply lookup_insert_eq|].
      exists (lm_ID rm), (lm_OrgID rm), (lm_Name rm), (role_MaxRiskLevel role), w'.
      split_and!; [simpl in *; eauto| |done..]. f_equal. unfold with_world, set_rows. simpl.
      f_equal. apply insert_insert_eq.
    - rewrite st_bind_run, on_world_run, stmt_run, st_bind_run. simpl. set (s1 := set_rows _ _).
      destruct (replace_permissions_run key role s1 (new_role
        (w_uuid (w_db (w_db (rd_world s)).2).2).1 orgID role)) as (w' & Hl & ->); [apply lookup_insert_eq|].
      exists (w_uuid (w_db (w_db (rd_world s)).2).2).1, orgID, (role_Name role),
        (or_text (role_MaxRiskLevel role) "critical"), w'.
      simpl in *. split_and!; [eauto 8| | |apply Hl, used_db, uuid_used|done..].
      + f_equal. unfold with_world, set_rows. simpl. f_equal. apply insert_insert_eq.
      + intros Hu. by eapply uuid_new, used_db, used_db. }
  rewrite (transaction_ok _ _ _ Hb). exists id, o, n, risk, (w_db w').2.
  split_and!; [simpl in *; eauto|done|].
  destruct (rd_roles s !! key); [done|]. destruct Hm as (? & Hu & ?). split_and!; [done| |tauto..].
  by apply used_db.
Qed.

Lemma EnsureUser_run orgID ext s :
  exists uid w', later (rd_world s) w' /\
    EnsureUser orgID ext s = (Ok uid, with_world w' (set_users (<[(orgID, ext) := uid]> (rd_users s)) s)) /\
    match rd_users s !! (orgID, ext) with
    | Some id => uid = id
    | None => ~ w_used (rd_world s) uid /\ w_used w' uid
    end.
Proof.
  unfold EnsureUser. rewrite st_bind_run, on_world_run, Hdb. simpl. rewrite st_bind_run. simpl.
  destruct (rd_users s !! (orgID, ext)) as [uid|] eqn:E.
  - exists uid, (w_db (rd_world s)).2. split_and!; [done| |done]. unfold set_users, with_world. simpl.
    by rewrite insert_id.
  - rewrite st_bind_run, on_world_run, st_bind_run, on_world_run, Hdb. simpl.
    exists (w_uuid (w_db (rd_world s)).2).1, (w_db (w_uuid (w_db (rd_world s)).2).2).2.
    split_and!; [eauto|done| |apply used_db, uuid_used].
    intros Hu. by eapply uuid_new, used_db.
Qed.

Lemma AssignUserRole_run orgID ext rn s :
  exists uid w', later (rd_world s) w' /\
    AssignUserRole orgID ext rn s =
      match rd_roles s !! (orgID, rn) with
      | Some rm => (None, mkRoleDB (rd_roles s) (<[(orgID, ext) := uid]> (rd_users s))
                            (<[uid := lm_ID rm]> (rd_userRoles s)) w')
      | None => (Some (Wrap "role not found" (Errorf "record not found")),
                 mkRoleDB (rd_roles s) (<[(orgID, ext) := uid]> (rd_users s)) (rd_userRoles s) w')
      end /\
    match rd_users s !! (orgID, ext) with
    | Some id => uid = id
    | None => ~ w_used (rd_world s) uid /\ w_used w' uid
    end.
Proof.
  unfold AssignUserRole. set (body := EnsureUser orgID ext ≫= _).
  destruct (EnsureUser_run orgID ext (after_stmt s)) as (uid & w1 & Hl & HE & Hu).
  assert (forall w2, later w1 w2 -> match rd_users s !! (orgID, ext) with
    | Some id => uid = id | None => ~ w_used (rd_world s) uid /\ w_used w2 uid end) as Hu'.
  { intros w2 H12. simpl in Hu. destruct (rd_users s !! (orgID, ext)); [done|].
    destruct Hu as [Hn Hw]. split; [|by apply H12]. intros Hx. by apply Hn, used_db. }
  assert (body (after_stmt s) = match rd_roles s !! (orgID, rn) with
      | Some rm => (None, mkRoleDB (rd_roles s) (<[(orgID, ext) := uid]> (rd_users s))
          (<[uid := lm_ID rm]> (rd_userRoles s)) (w_db (w_db (w_db w1).2).2).2)
      | None => (Some (Wrap "role not found" (Errorf "record not found")),
          mkRoleDB (rd_roles s) (<[(orgID, ext) := uid]> (rd_users s)) (rd_userRoles s) (w_db w1).2)
      end) as Hb.
  { unfold body. rewrite st_bind_run, HE. cbv beta iota. simpl. rewrite stmt_run, st_bind_run. simpl.
    destruct (rd_roles s !! (orgID, rn)) as [rm|]; [|done].
    rewrite stmt_run, st_bind_run, stmt_run, st_bind_run. simpl.
    unfold set_userRoles. simpl. by rewrite insert_delete_eq. }
  destruct (rd_roles s !! (orgID, rn)) as [rm|].
  - rewrite (transaction_ok _ _ _ Hb). eexists uid, _. split_and!; [|reflexivity|apply Hu']; simpl in *; eauto 8.
  - rewrite (transaction_error _ _ _ _ Hb). eexists uid, _. split_and!; [|reflexivity|apply Hu']; simpl in *; eauto 8.
Qed.

(** ** The tables represent a configuration *)

Definition assigned (orgID : uuid) s (ext rn : string) : Prop :=
  exists uid rm, rd_users s !! (orgID, ext) = Some uid /\
    rd_userRoles s !! uid = Some (lm_ID rm) /\ rd_roles s !! (orgID, rn) = Some rm.

(** Identifiers are unique and known to the world. *)
Record tables_ok s : Prop := {
  ok_keys : forall k rm, rd_roles s !! k = Some rm -> k = (lm_OrgID rm, lm_Name rm);
  ok_ids : forall k k' rm rm', rd_roles s !! k = Some rm -> rd_roles s !! k' = Some rm' ->
    lm_ID rm = lm_ID rm' -> k = k';
  ok_users : forall k k' uid, rd_users s !! k = Some uid -> rd_users s !! k' = Some uid -> k = k';
  ok_role_used : forall k rm, rd_roles s !! k = Some rm -> w_used (rd_world s) (lm_ID rm);
  ok_user_used : forall k uid, rd_users s !! k = Some uid -> w_used (rd_world s) uid;
  ok_assigned_used : forall uid rid, rd_userRoles s !! uid = Some rid ->
    w_used (rd_world s) uid /\ w_used (rd_world s) rid;
}.

Record represents (orgID : uuid) (cfg : RBAC) s : Prop := {
  rep_roles : forall n, rbac_roles cfg !! n = toSecurityRole <$> rd_roles s !! (orgID, n);
  rep_users : forall ext rn, rbac_userRoles cfg !! ext = Some rn <-> assigned orgID s ext rn;
  rep_default : rbac_defaultRole cfg = "";
}.

Lemma elem_of_org_roles orgID s rm :
  tables_ok s -> rm ∈ org_roles orgID (rd_roles s) <-> rd_roles s !! (orgID, lm_Name rm) = Some rm.
Proof.
  intros Hok. unfold org_roles. rewrite list_elem_of_In, List.filter_In, <-list_elem_of_In,
    list_elem_of_fmap, bool_decide_eq_true. split.
  - intros [([k rm'] & -> & Hk%elem_of_map_range) Ho]. simpl in *.
    rewrite (ok_keys s Hok k rm' Hk) in Hk. by rewrite Ho in Hk.
  - intros Hk. pose proof (ok_keys s Hok _ _ Hk) as [= Ho]. split; [|done].
    exists ((orgID, lm_Name rm), rm). split; [done|]. by apply elem_of_map_range.
Qed.

Lemma NoDup_org_roles orgID s : tables_ok s -> NoDup (lm_Name <$> org_roles orgID (rd_roles s)).
Proof.
  intros Hok. apply NoDup_fmap_2_strong.
  - intros a b Ha%elem_of_org_roles Hb%elem_of_org_roles E; [|done..]. rewrite E in Ha. congruence.
  - unfold org_roles. apply NoDup_ListNoDup, List.NoDup_filter, NoDup_ListNoDup.
    apply NoDup_fmap_2_strong; [|apply (NoDup_fmap_1 fst), NoDup_fst_map_range].
    intros [k a] [k' b] Ha%elem_of_map_range Hb%elem_of_map_range E. simpl in E. subst b.
    f_equal. by eapply ok_ids.
Qed.

Lemma NoDup_fst_omap {A K B} (f : A -> option (K * B)) (l : list A) :
  NoDup l ->
  (forall x y a b, x ∈ l -> y ∈ l -> f x = Some a -> f y = Some b -> a.1 = b.1 -> x = y) ->
  NoDup (omap f l).*1.
Proof.
  induction l as [|x l IH]; intros Hd Hf; [constructor|]. apply NoDup_cons in Hd as [Hx Hd].
  assert (NoDup (omap f l).*1) as Hl.
  { apply IH; [done|]. intros y z a b Hy Hz. apply Hf; by right. }
  simpl. destruct (f x) as [a|] eqn:E; [|done]. simpl. apply NoDup_cons. split; [|done].
  intros ([k b] & Hk & (y & Hy & Eb)%list_elem_of_omap)%list_elem_of_fmap. simpl in Hk.
  apply Hx. rewrite (Hf x y a (k, b)); [done|by left|by right|done..].
Qed.

Lemma user_role_row_spec orgID s u p :
  tables_ok s ->
  user_role_row orgID (rd_userRoles s) (org_roles orgID (rd_roles s)) u = Some p <->
  u.1.1 = orgID /\ p.1 = u.1.2 /\ exists rm, rd_userRoles s !! u.2 = Some (lm_ID rm) /\
    rd_roles s !! (orgID, p.2) = Some rm.
Proof.
  intros Hok. unfold user_role_row. case_bool_decide as Ho; [|split; [done|by intros [? _]]].
  split.
  - intros (rid & Hr & (rm & Hf & [= <-])%bind_Some)%bind_Some. split_and!; [done..|].
    apply List.find_some in Hf as [Hin%list_elem_of_In Hid%bool_decide_eq_true].
    apply elem_of_org_roles in Hin; [|done]. exists rm. simpl. by subst rid.
  - intros (_ & Hp & rm & Hr & Hrm). rewrite Hr. simpl.
    pose proof (ok_keys s Hok _ _ Hrm) as [= Ho' Hn].
    destruct (List.find _ _) as [rm'|] eqn:Hf.
    + apply List.find_some in Hf as [Hin%list_elem_of_In Hid%bool_decide_eq_true].
      apply elem_of_org_roles in Hin; [|done]. simpl.
      pose proof (ok_ids s Hok _ _ _ _ Hin Hrm Hid) as [= En]. destruct p. simpl in *. congruence.
    + exfalso. eapply List.find_none with (x := rm) in Hf; [by apply bool_decide_eq_false in Hf|].
      apply list_elem_of_In, elem_of_org_roles; [done|]. by rewrite <-Hn.
Qed.

(** Loading gives the configuration the tables represent. *)
Lemma config_of_represents orgID cfg s :
  tables_ok s -> represents orgID cfg s -> config_of orgID s = cfg.
Proof.
  intros Hok [Hr Hu Hd]. destruct cfg as [roles users def]. simpl in *. unfold config_of.
  f_equal; [| |done].
  - apply map_eq. intros n. rewrite Hr. apply option_eq. intros role.
    rewrite lookup_map_of by (rewrite <-list_fmap_compose; by apply NoDup_org_roles).
    rewrite list_elem_of_fmap, fmap_Some. split.
    + intros (rm & [= -> ->] & Hin%elem_of_org_roles); [|done]. by exists rm.
    + intros (rm & Hrm & ->). pose proof (ok_keys s Hok _ _ Hrm) as [= Ho Hn].
      exists rm. split; [by rewrite <-Hn|]. apply elem_of_org_roles; [done|]. by rewrite <-Hn.
  - apply map_eq. intros ext. apply option_eq. intros rn. rewrite Hu, lookup_map_of.
    + rewrite list_elem_of_omap. split.
      * intros ([k uid] & Hk%elem_of_map_range & (Ho & He & rm & Ha)%user_role_row_spec); [|done].
        simpl in *. exists uid, rm. destruct k. simpl in *. subst. tauto.
      * intros (uid & rm & Hk & Ha). exists ((orgID, ext), uid). split; [by apply elem_of_map_range|].
        apply user_role_row_spec; [done|]. simpl. eauto.
    + apply NoDup_fst_omap; [apply (NoDup_fmap_1 fst), NoDup_fst_map_range|].
      intros [[o x] u] [[o' y] v] a b Hx%elem_of_map_range Hy%elem_of_map_range
        (Ha & Ea & _)%user_role_row_spec (Hb & Eb & _)%user_role_row_spec E; [|done..].
      simpl in *. subst. rewrite E in *. congruence.
Qed.

(** ** The refinement *)

Lemma toSecurityRole_saved id o role risk :
  toSecurityRole (saved_row id o (role_Name role) role risk) = kept_role role risk.
Proof.
  unfold toSecurityRole, kept_role, saved_row, perm_rows. simpl. f_equal.
  - induction (role_Permissions role) as [|a l IH]; [done|].
    simpl. f_equal. exact IH.
  - induction (role_Permissions role) as [|a l IH]; [done|]. simpl.
    destruct (slice_contains (role_RequireApproval role) a); simpl; [f_equal|]; exact IH.
Qed.

(** [SaveRole] puts one row in place, with the identifier the role has or a new one. *)
Lemma SaveRole_row orgID role s :
  tables_ok s ->
  exists id risk w', later (rd_world s) w' /\ w_used w' id /\
    SaveRole orgID role s = (None, with_world w' (set_rows (<[(orgID, role_Name role) :=
      saved_row id orgID (role_Name role) role risk]> (rd_roles s)) s)) /\
    (forall rid uid, rd_userRoles s !! uid = Some rid -> rid = id ->
       exists rm, rd_roles s !! (orgID, role_Name role) = Some rm /\ lm_ID rm = id) /\
    (forall k rm, rd_roles s !! k = Some rm -> lm_ID rm = id -> k = (orgID, role_Name role)) /\
    (forall rm, rd_roles s !! (orgID, role_Name role) = Some rm -> lm_ID rm = id) /\
    risk = match rd_roles s !! (orgID, role_Name role) with
           | Some _ => role_MaxRiskLevel role
           | None => or_text (role_MaxRiskLevel role) "critical"
           end.
Proof.
  intros Hok. destruct (SaveRole_run orgID role s) as (id & o & n & risk & w' & Hl & HS & Hm).
  destruct (rd_roles s !! (orgID, role_Name role)) as [rm|] eqn:E.
  - destruct Hm as (-> & -> & -> & ->). pose proof (ok_keys s Hok _ _ E) as [= Ho Hn].
    rewrite <-Ho, <-Hn in HS. exists (lm_ID rm), (role_MaxRiskLevel role), w'.
    split_and!; [done|by eapply Hl, ok_role_used|done|by eauto| |by intros ? [= ->]|done].
    intros k rm' Hk Hid. by eapply ok_ids.
  - destruct Hm as (Hf & Hu & -> & -> & ->). eexists id, _, w'.
    split_and!; [done|done|exact HS| | |done|done].
    + intros rid uid Hr ->. exfalso. by apply Hf, (ok_assigned_used s Hok uid).
    + intros k rm Hk <-. exfalso. by eapply Hf, ok_role_used.
Qed.

Lemma SaveRole_ok orgID role s :
  tables_ok s -> tables_ok (SaveRole orgID role s).2 /\ (SaveRole orgID role s).1 = None.
Proof.
  intros Hok. destruct (SaveRole_row orgID role s Hok) as (id & risk & w' & Hl & Hu & -> & _ & Hk & Hi & _).
  split; [|done]. destruct Hok as [K I U R S A]. simpl. split; simpl.
  - intros k rm Hrm. apply lookup_insert_Some in Hrm as [[<- <-]|[_ Hrm]]; [done|by apply K].
  - intros k k' rm rm' Hrm Hrm' E.
    apply lookup_insert_Some in Hrm as [[<- <-]|[_ Hrm]];
      apply lookup_insert_Some in Hrm' as [[<- <-]|[_ Hrm']]; simpl in *; [done| | |by eapply I].
    + symmetry. by apply (Hk k' rm').
    + by apply (Hk k rm).
  - done.
  - intros k rm Hrm. apply lookup_insert_Some in Hrm as [[<- <-]|[_ Hrm]]; [done|by eapply Hl, R].
  - intros k uid Hk'. by eapply Hl, S.
  - intros uid rid Hr. destruct (A uid rid Hr). split; by apply Hl.
Qed.

Lemma SaveRole_assigned orgID org2 role s ext rn :
  tables_ok s -> assigned orgID (SaveRole org2 role s).2 ext rn <-> assigned orgID s ext rn.
Proof.
  intros Hok. destruct (SaveRole_row org2 role s Hok) as (id & risk & w' & _ & _ & -> & Hr & Hk & Hi & _).
  unfold assigned. simpl. split.
  - intros (uid & rm & Hu & Ha & Hrm). exists uid.
    apply lookup_insert_Some in Hrm as [[E <-]|[_ Hrm]]; [|by exists rm].
    simpl in *. destruct (Hr _ _ Ha eq_refl) as (rm & Hrm & Hid). exists rm.
    rewrite Hid, <-E. done.
  - intros (uid & rm & Hu & Ha & Hrm). exists uid. destruct (decide ((org2, role_Name role) = (orgID, rn))) as [E|Hne].
    + rewrite <-E, lookup_insert_eq. eexists. split_and!; [done| |done]. simpl. rewrite <-E in Hrm.
      by rewrite <-(Hi rm Hrm).
    + exists rm. by rewrite lookup_insert_ne.
Qed.

Lemma SaveRole_represents orgID org2 cfg role s :
  tables_ok s -> represents orgID cfg s ->
  represents orgID (if bool_decide (org2 = orgID) then spec_SaveRole cfg role else cfg)
    (SaveRole org2 role s).2.
Proof.
  intros Hok [Hr Hu Hd]. split.
  - intros n. destruct (SaveRole_row org2 role s Hok) as (id & risk & w' & _ & _ & -> & _ & _ & _ & Hrisk).
    simpl. case_bool_decide as E; simpl.
    + subst org2. destruct (decide (role_Name role = n)) as [<-|Hne].
      * rewrite !lookup_insert_eq. simpl. rewrite toSecurityRole_saved. f_equal. f_equal.
        unfold kept_risk. rewrite Hr, Hrisk. by destruct (rd_roles s !! _).
      * rewrite !lookup_insert_ne by congruence. apply Hr.
    + rewrite lookup_insert_ne by congruence. apply Hr.
  - intros ext rn. rewrite SaveRole_assigned, <-Hu by done. by case_bool_decide.
  - by case_bool_decide.
Qed.

(** [AssignUserRole] on the tables. *)
Lemma AssignUserRole_tables orgID ext rn s :
  tables_ok s ->
  exists uid w', later (rd_world s) w' /\ w_used w' uid /\
    (forall k, rd_users s !! k = Some uid -> k = (orgID, ext)) /\
    (forall id, rd_users s !! (orgID, ext) = Some id -> id = uid) /\
    AssignUserRole orgID ext rn s =
      match rd_roles s !! (orgID, rn) with
      | Some rm => (None, mkRoleDB (rd_roles s) (<[(orgID, ext) := uid]> (rd_users s))
                            (<[uid := lm_ID rm]> (rd_userRoles s)) w')
      | None => (Some (Wrap "role not found" (Errorf "record not found")),
                 mkRoleDB (rd_roles s) (<[(orgID, ext) := uid]> (rd_users s)) (rd_userRoles s) w')
      end /\
    (rd_users s !! (orgID, ext) = None -> rd_userRoles s !! uid = None).
Proof.
  intros Hok. destruct (AssignUserRole_run orgID ext rn s) as (uid & w' & Hl & HA & Hu).
  exists uid, w'. destruct (rd_users s !! (orgID, ext)) as [id|] eqn:E.
  - subst id. split_and!; [done|by eapply Hl, ok_user_used| |by intros ? [= ->]|done|done].
    intros k Hk. by eapply ok_users.
  - destruct Hu as [Hf Hu]. split_and!; [done|done| |done|done|].
    + intros k Hk. exfalso. by eapply Hf, ok_user_used.
    + intros _. destruct (rd_userRoles s !! uid) as [rid|] eqn:Er; [|done].
      destruct Hf. by apply (ok_assigned_used s Hok uid rid).
Qed.

Lemma AssignUserRole_ok orgID ext rn s :
  tables_ok s -> tables_ok (AssignUserRole orgID ext rn s).2.
Proof.
  intros Hok. destruct (AssignUserRole_tables orgID ext rn s Hok)
    as (uid & w' & Hl & Hu & Hk & _ & -> & _). destruct Hok as [K I U R S A].
  assert (forall ur, (forall u r, ur !! u = Some r -> w_used w' u /\ w_used w' r) ->
    tables_ok (mkRoleDB (rd_roles s) (<[(orgID, ext) := uid]> (rd_users s)) ur w')) as Hg.
  { intros ur Hur. split; simpl; [done|done| | | |done].
    - intros k k' x Hx Hx'.
      apply lookup_insert_Some in Hx as [[<- <-]|[_ Hx]];
        apply lookup_insert_Some in Hx' as [[<- E]|[_ Hx']]; [done| | |by eapply U].
      + symmetry. by apply Hk.
      + subst x. by apply Hk.
    - intros k rm Hrm. by eapply Hl, R.
    - intros k x Hx. apply lookup_insert_Some in Hx as [[_ <-]|[_ Hx]]; [done|by eapply Hl, S]. }
  destruct (rd_roles s !! (orgID, rn)) as [rm|] eqn:E; apply Hg.
  - intros u r Hr. apply lookup_insert_Some in Hr as [[<- <-]|[_ Hr]].
    + split; [done|]. by eapply Hl, R.
    + destruct (A u r Hr). split; by apply Hl.
  - intros u r Hr. destruct (A u r Hr). split; by apply Hl.
Qed.

(** The assignments are the same after a user is created, and an assignment changes only
    the assignments of its user. *)
Lemma assigned_new_user orgID org2 ext uid s e r w :
  (forall id, rd_users s !! (org2, ext) = Some id -> id = uid) ->
  (rd_users s !! (org2, ext) = None -> rd_userRoles s !! uid = None) ->
  assigned orgID (mkRoleDB (rd_roles s) (<[(org2, ext) := uid]> (rd_users s)) (rd_userRoles s) w) e r
  <-> assigned orgID s e r.
Proof.
  intros Hid Hnone. unfold assigned. simpl.
  split; intros (u & rm & Hx & Ha & Hrm); exists u, rm; split_and!; auto.
  - apply lookup_insert_Some in Hx as [[E <-]|[_ Hx]]; [|done].
    destruct (rd_users s !! (org2, ext)) as [id|] eqn:Eu; [|by rewrite Hnone in Ha].
    rewrite (Hid id eq_refl) in Eu. by rewrite <-E.
  - destruct (decide ((org2, ext) = (orgID, e))) as [E|Hne]; [|by rewrite lookup_insert_ne].
    rewrite <-E, lookup_insert_eq. rewrite <-E in Hx. by rewrite (Hid u Hx).
Qed.

Lemma assigned_other orgID org2 ext uid rid s e r w :
  (forall k, rd_users s !! k = Some uid -> k = (org2, ext)) ->
  (org2, ext) <> (orgID, e) ->
  assigned orgID (mkRoleDB (rd_roles s) (<[(org2, ext) := uid]> (rd_users s))
    (<[uid := rid]> (rd_userRoles s)) w) e r <-> assigned orgID s e r.
Proof.
  intros Hk Hne. unfold assigned. simpl. split; intros (u & rm' & Hx & Ha & Hrm); exists u, rm'.
  - rewrite lookup_insert_ne in Hx by done. rewrite lookup_insert_ne in Ha; [done|].
    intros <-. by apply Hne, eq_sym, Hk.
  - rewrite lookup_insert_ne by done. rewrite lookup_insert_ne; [done|].
    intros <-. by apply Hne, eq_sym, Hk.
Qed.

Lemma AssignUserRole_represents orgID org2 cfg ext rn s :
  tables_ok s -> represents orgID cfg s ->
  represents orgID (if bool_decide (org2 = orgID) then (spec_AssignUserRole cfg ext rn).2 else cfg)
    (AssignUserRole org2 ext rn s).2 /\
  (org2 = orgID -> (AssignUserRole org2 ext rn s).1 = (spec_AssignUserRole cfg ext rn).1).
Proof.
  intros Hok [Hr Hu Hd]. destruct (AssignUserRole_tables org2 ext rn s Hok)
    as (uid & w' & _ & _ & Hk & Hid & -> & Hnone).
  unfold spec_AssignUserRole.
  destruct (rd_roles s !! (org2, rn)) as [rm|] eqn:E; simpl.
  2: { split; [|intros ->; rewrite Hr, E; done].
    replace (if bool_decide (org2 = orgID) then _ else cfg) with cfg.
    2: { case_bool_decide as Eo; [|done]. subst org2. by rewrite Hr, E. }
    split; [done| |done]. intros e r. by rewrite (assigned_new_user _ _ _ _ _ _ _ _ Hid Hnone). }
  split; [|intros ->; rewrite Hr, E; done].
  case_bool_decide as Eo.
  2: { split; [done| |done]. intros e r. rewrite assigned_other by (done || congruence). done. }
  subst org2. rewrite Hr, E. simpl. split; [done| |done]. intros e r. simpl.
  destruct (decide (e = ext)) as [->|Hne].
  2: { rewrite lookup_insert_ne, Hu, assigned_other by (done || congruence). done. }
  rewrite lookup_insert_eq. split.
  - intros [= <-]. exists uid, rm. simpl. by rewrite !lookup_insert_eq.
  - intros (u & rm' & Hx & Ha & Hrm). simpl in *. rewrite lookup_insert_eq in Hx. simplify_eq.
    rewrite lookup_insert_eq in Ha. injection Ha as Ha.
    by pose proof (ok_ids s Hok _ _ _ _ E Hrm Ha) as [= ->].
Qed.

(** Operations on the store, of any organisation. *)
Inductive role_op :=
  | RoSave (orgID : uuid) (role : Role)
  | RoAssign (orgID : uuid) (userID roleName : string).

Definition store_step s (op : role_op) : option error * RoleDB W :=
  match op with
  | RoSave o role => SaveRole o role s
  | RoAssign o u r => AssignUserRole o u r s
  end.

(** What an operation means to one organisation. *)
Definition spec_step (orgID : uuid) (cfg : RBAC) (op : role_op) : RBAC :=
  match op with
  | RoSave o role => if bool_decide (o = orgID) then spec_SaveRole cfg role else cfg
  | RoAssign o u r => if bool_decide (o = orgID) then (spec_AssignUserRole cfg u r).2 else cfg
  end.

Lemma store_step_refines orgID cfg s op :
  tables_ok s -> represents orgID cfg s ->
  tables_ok (store_step s op).2 /\ represents orgID (spec_step orgID cfg op) (store_step s op).2.
Proof.
  intros Hok Hr. destruct op as [o role|o u r]; simpl.
  - split; [by apply SaveRole_ok|by apply SaveRole_represents].
  - split; [by apply AssignUserRole_ok|by apply AssignUserRole_represents].
Qed.

Lemma store_run_refines orgID ops cfg s :
  tables_ok s -> represents orgID cfg s ->
  let s' := fold_left (fun s op => (store_step s op).2) ops s in
  tables_ok s' /\ represents orgID (fold_left (spec_step orgID) ops cfg) s'.
Proof.
  revert cfg s. induction ops as [|op ops IH]; intros cfg s Hok Hr; simpl; [done|].
  destruct (store_step_refines orgID cfg s op Hok Hr). by apply IH.
Qed.

Lemma LoadRBACConfig_run orgID cfg s :
  tables_ok s -> represents orgID cfg s ->
  exists w', LoadRBACConfig orgID s = (Ok cfg, with_world w' s) /\ later (rd_world s) w'.
Proof.
  intros Hok Hr. unfold LoadRBACConfig.
  rewrite st_bind_run, on_world_run, Hdb. simpl. rewrite st_bind_run, on_world_run, Hdb. simpl.
  rewrite st_bind_run. simpl. exists (w_db (w_db (rd_world s)).2).2. split; [|eauto].
  f_equal. f_equal. rewrite <-(config_of_represents orgID cfg s Hok Hr). done.
Qed.

(** The tables of a new database. *)
Definition empty_tables w : RoleDB W := mkRoleDB ∅ ∅ ∅ w.

Lemma empty_represents orgID w : tables_ok (empty_tables w) /\ represents orgID (mkRBAC ∅ ∅ "") (empty_tables w).
Proof.
  split; split; simpl; try (intros *; rewrite ?lookup_empty; done).
  intros ext rn. rewrite lookup_empty. split; [done|]. by intros (uid & rm & Hu & _).
Qed.

(** C18: the role store keeps what it is given.  After any operations on a new, working
    database, whatever organisations they are for, loading the configuration of one gives
    exactly what its own operations say: each saved role with its permissions, its risk
    level and the approval requirements for actions it has, and each user's last
    assignment to a role that existed. *)
Theorem role_store_refines orgID ops w :
  (LoadRBACConfig orgID (fold_left (fun s op => (store_step s op).2) ops (empty_tables w))).1 =
  Ok (fold_left (spec_step orgID) ops (mkRBAC ∅ ∅ "")).
Proof.
  destruct (empty_represents orgID w) as [Hok Hr].
  destruct (store_run_refines orgID ops _ _ Hok Hr) as [Hok' Hr'].
  by destruct (LoadRBACConfig_run _ _ _ Hok' Hr') as (w' & -> & _).
Qed.
End store.

(** ** The cached enforcer *)

(** A role of the configuration file once it went through the tables. *)
Definition boot_role (role : Role) : Role :=
  kept_role role (or_text (role_MaxRiskLevel role) "critical").

(** The configuration file as the tables keep it, and as the enforcer caches it. *)
Definition booted (cfg : RBAC) : RBAC := mkRBAC (boot_role <$> rbac_roles cfg) (rbac_userRoles cfg) "".
Definition cached_config (cfg : RBAC) : RBAC :=
  mkRBAC (boot_role <$> rbac_roles cfg) (rbac_userRoles cfg) (rbac_defaultRole cfg).

(** The file names its roles by their names and assigns roles it defines. *)
Record file_ok (cfg : RBAC) : Prop := {
  file_names : forall n role, rbac_roles cfg !! n = Some role -> role_Name role = n;
  file_users : forall u r, rbac_userRoles cfg !! u = Some r -> is_Some (rbac_roles cfg !! r);
}.

Lemma resolve_cached cfg u : resolveRole (cached_config cfg) u = boot_role <$> resolveRole cfg u.
Proof.
  unfold resolveRole, roleNameOf. simpl. destruct (String.eqb _ ""); [done|]. apply lookup_fmap.
Qed.

Lemma cached_permission cfg u a :
  rbac_CheckPermission (cached_config cfg) u a = rbac_CheckPermission cfg u a.
Proof. unfold rbac_CheckPermission. rewrite resolve_cached. by destruct (resolveRole cfg u). Qed.

Lemma boot_requires role a :
  slice_contains (role_Permissions role) a = true ->
  slice_contains (role_RequireApproval (boot_role role)) a = slice_contains (role_RequireApproval role) a.
Proof.
  rewrite slice_contains_true. intros Hp. simpl. apply eq_true_iff_eq.
  rewrite slice_contains_true, list_elem_of_In, List.filter_In, <-list_elem_of_In. tauto.
Qed.

Lemma cached_approval cfg u a :
  rbac_CheckPermission cfg u a = None ->
  rbac_RequireApproval (cached_config cfg) u a = rbac_RequireApproval cfg u a.
Proof.
  unfold rbac_CheckPermission, rbac_RequireApproval. rewrite resolve_cached.
  destruct (resolveRole cfg u) as [role|]; [|done]. unfold roleHasPermission. simpl fmap.
  destruct (slice_contains (role_Permissions role) (act_Name a)) eqn:E; [|done]. intros _.
  simpl option_fmap. cbv beta iota. rewrite boot_requires by done.
  replace (ParseRiskLevel (role_MaxRiskLevel (boot_role role)))
    with (ParseRiskLevel (role_MaxRiskLevel role)); [done|].
  simpl. unfold or_text. by destruct (String.eqb_spec (role_MaxRiskLevel role) "") as [->|].
Qed.

Section enforcer.
Context {W : Type} `{!World W} `{!FreshWorld W}.
Context `{!MapRange (uuid * string) RoleModel} `{!MapRange (uuid * string) uuid}.
Context `{!MapRange string Role} `{!MapRange string string}.
Context (Hdb : forall w : W, (w_db w).1 = None).
Implicit Types (s : RoleDB W) (cfg : RBAC) (p : PGRBAC W).

Lemma save_roles_run orgID l cfg s :
  tables_ok s -> represents orgID cfg s ->
  NoDup (role_Name <$> l) -> (forall r, r ∈ l -> rbac_roles cfg !! role_Name r = None) ->
  exists s', save_roles orgID l s = (None, s') /\ tables_ok s' /\
    represents orgID (mkRBAC (fold_left (fun m x => <[x.1 := x.2]> m)
      ((fun r => (role_Name r, boot_role r)) <$> l) (rbac_roles cfg)) (rbac_userRoles cfg) "") s'.
Proof.
  revert cfg s. induction l as [|r l IH]; intros cfg s Hok Hr Hd Hn; simpl.
  { exists s. split_and!; [done..|]. destruct cfg, Hr as [? ? Hdef]. simpl in *. by rewrite <-Hdef. }
  rewrite st_bind_run. destruct (SaveRole_ok Hdb orgID r s Hok) as [Hok' ->].
  pose proof (SaveRole_represents Hdb orgID orgID cfg r s Hok Hr) as Hr'.
  rewrite bool_decide_eq_true_2 in Hr' by done. apply NoDup_cons in Hd as [Hx Hd].
  destruct (IH _ _ Hok' Hr' Hd) as (s' & Hs & Hok'' & Hrep).
  { intros r' Hin. simpl. rewrite lookup_insert_ne; [by apply Hn; right|].
    intros E. apply Hx. rewrite E. by apply list_elem_of_fmap_2. }
  exists s'. split_and!; [done..|]. unfold spec_SaveRole, kept_risk in Hrep.
  rewrite Hn in Hrep by (by left). exact Hrep.
Qed.

Lemma assign_users_run orgID l cfg s :
  tables_ok s -> represents orgID cfg s -> (forall x, x ∈ l -> is_Some (rbac_roles cfg !! x.2)) ->
  exists s', assign_users orgID l s = (None, s') /\ tables_ok s' /\
    represents orgID (mkRBAC (rbac_roles cfg)
      (fold_left (fun m x => <[x.1 := x.2]> m) l (rbac_userRoles cfg)) "") s'.
Proof.
  revert cfg s. induction l as [|[u r] l IH]; intros cfg s Hok Hr Hk; simpl.
  { exists s. split_and!; [done..|]. destruct cfg, Hr as [? ? Hdef]. simpl in *. by rewrite <-Hdef. }
  rewrite st_bind_run. pose proof (AssignUserRole_ok Hdb orgID u r s Hok) as Hok'.
  destruct (AssignUserRole_represents Hdb orgID orgID cfg u r s Hok Hr) as [Hr' He].
  rewrite bool_decide_eq_true_2 in Hr' by done. rewrite (He eq_refl).
  destruct (Hk (u, r)) as [role Hrole]; [by left|]. simpl in Hrole.
  unfold spec_AssignUserRole in *. rewrite Hrole in *. simpl in *.
  apply (IH _ _ Hok' Hr'). intros x Hx. apply Hk. by right.
Qed.

Lemma map_of_range {A} `{!MapRange string A} (m : gmap string A) : map_of (map_range m) = m.
Proof.
  apply map_eq. intros k. apply option_eq. intros v.
  rewrite lookup_map_of by apply NoDup_fst_map_range. apply elem_of_map_range.
Qed.

Lemma bootstrap_run orgID cfg s :
  file_ok cfg -> tables_ok s -> represents orgID (mkRBAC ∅ ∅ "") s ->
  exists s', bootstrap orgID cfg s = (None, s') /\ tables_ok s' /\ represents orgID (booted cfg) s'.
Proof.
  intros [Hn Hu] Hok Hr. unfold bootstrap. rewrite st_bind_run.
  assert (role_Name <$> (map_range (rbac_roles cfg)).*2 = (map_range (rbac_roles cfg)).*1) as Enames.
  { rewrite <-list_fmap_compose. apply list_fmap_ext. intros i [k r] Hi%list_elem_of_lookup_2.
    apply elem_of_map_range in Hi. by apply Hn. }
  destruct (save_roles_run orgID (map_range (rbac_roles cfg)).*2 _ s Hok Hr) as (s1 & -> & Hok1 & Hr1).
  { rewrite Enames. apply NoDup_fst_map_range. }
  { intros r _. apply lookup_empty. }
  assert (fold_left (fun m x => <[x.1 := x.2]> m) ((fun r => (role_Name r, boot_role r)) <$>
    (map_range (rbac_roles cfg)).*2) ∅ = boot_role <$> rbac_roles cfg) as Eroles.
  { apply map_eq. intros n. apply option_eq. intros r. rewrite lookup_fmap, fmap_Some.
    change (fold_left _ ?l ∅) with (map_of l). rewrite lookup_map_of.
    - rewrite list_elem_of_fmap. split.
      + intros (r0 & [= -> ->] & ([k r1] & -> & Hk%elem_of_map_range)%list_elem_of_fmap).
        simpl in *. exists r1. by rewrite (Hn _ _ Hk).
      + intros (r0 & Hr0 & ->). exists r0. split; [by rewrite (Hn _ _ Hr0)|].
        apply list_elem_of_fmap. exists (n, r0). split; [done|]. by apply elem_of_map_range.
    - rewrite <-list_fmap_compose. change (fst ∘ _) with role_Name. rewrite Enames.
      apply NoDup_fst_map_range. }
  simpl in Hr1. rewrite Eroles in Hr1. simpl.
  destruct (assign_users_run orgID (map_range (rbac_userRoles cfg)) _ s1 Hok1 Hr1) as (s2 & Hs2 & Hok2 & Hr2).
  { intros [u r] Hin%elem_of_map_range. simpl. rewrite lookup_fmap, fmap_is_Some. by eapply Hu. }
  exists s2. split_and!; [done..|]. simpl in Hr2.
  change (fold_left _ (map_range (rbac_userRoles cfg)) ∅) with (map_of (map_range (rbac_userRoles cfg))) in Hr2.
  by rewrite map_of_range in Hr2.
Qed.

(** What the store holds along a run: nothing yet, or the file. *)
Definition seeded orgID cfg s : Prop :=
  tables_ok s /\ (represents orgID (mkRBAC ∅ ∅ "") s \/ represents orgID (booted cfg) s).

Lemma with_world_ok w s : later (rd_world s) w -> tables_ok s -> tables_ok (with_world w s).
Proof.
  intros Hl [K I U R S A]. split; simpl; [done..| | |].
  - intros k rm Hk. by eapply Hl, R.
  - intros k u Hk. by eapply Hl, S.
  - intros u r Hr. destruct (A u r Hr). split; by apply Hl.
Qed.

Lemma with_world_represents orgID cfg w s : represents orgID cfg s -> represents orgID cfg (with_world w s).
Proof. by intros [Hr Hu Hd]; split. Qed.

Lemma load_seeded orgID cfg s :
  tables_ok s -> represents orgID (booted cfg) s ->
  exists s', LoadRBACConfig orgID s = (Ok (booted cfg), s') /\ seeded orgID cfg s'.
Proof.
  intros Hok Hr. destruct (LoadRBACConfig_run Hdb orgID _ s Hok Hr) as (w & -> & Hl).
  eexists. split; [done|]. split; [by apply with_world_ok|]. right. by apply with_world_represents.
Qed.

#[local] Arguments bootstrap : simpl never.
#[local] Arguments LoadRBACConfig : simpl never.

Lemma load_run orgID cfg s :
  file_ok cfg -> seeded orgID cfg s ->
  (load orgID cfg s).1 = Ok (cached_config cfg) /\ seeded orgID cfg (load orgID cfg s).2.
Proof.
  intros Hf [Hok Hr]. unfold load. rewrite st_bind_run.
  assert (represents orgID (booted cfg) s \/
    represents orgID (mkRBAC ∅ ∅ "") s /\ rbac_roles cfg <> ∅) as [Hb|[He Hne]].
  { destruct Hr as [Hr|Hr]; [|by left]. destruct (decide (rbac_roles cfg = ∅)) as [E|]; [left|by right].
    replace (booted cfg) with (mkRBAC ∅ ∅ ""); [done|]. unfold booted. rewrite E, fmap_empty.
    f_equal. symmetry. apply map_empty. intros u.
    destruct (rbac_userRoles cfg !! u) as [r|] eqn:Eu; [|done].
    destruct (file_users cfg Hf u r Eu) as [x Hx]. by rewrite E in Hx. }
  - destruct (load_seeded orgID cfg s Hok Hb) as (s' & -> & Hs). simpl.
    replace (bool_decide (boot_role <$> rbac_roles cfg = ∅) && negb (bool_decide (rbac_roles cfg = ∅)))
      with false.
    2: { destruct (decide (rbac_roles cfg = ∅)) as [E|Hne].
      - by rewrite (bool_decide_eq_true_2 _ E), andb_false_r.
      - rewrite (bool_decide_eq_false_2 (_ <$> _ = _)); [done|]. by rewrite fmap_empty_iff. }
    by rewrite st_bind_run.
  - destruct (LoadRBACConfig_run Hdb orgID _ s Hok He) as (w & -> & Hl). simpl.
    rewrite (bool_decide_eq_false_2 _ Hne), bool_decide_eq_true_2 by done. simpl. rewrite !st_bind_run.
    destruct (bootstrap_run orgID cfg (with_world w s)) as (s' & -> & Hok' & Hb); [done| | |].
    + by apply with_world_ok.
    + by apply with_world_represents.
    + destruct (load_seeded orgID cfg s' Hok' Hb) as (s2 & Hl2 & Hs).
      simpl. rewrite Hl2. done.
Qed.

Definition with_store s p : PGRBAC W :=
  mkPGRBAC s (pr_orgID p) (pr_fallbackCfg p) (pr_cached p) (pr_loadedAt p).

Lemma on_store_run {A} (m : st (RoleDB W) A) p :
  on_store m p = ((m (pr_store p)).1, with_store (m (pr_store p)).2 p).
Proof. unfold on_store. by destruct (m (pr_store p)). Qed.

(** The states of an enforcer that was created on a new database. *)
Definition enforcer_ok orgID cfg p : Prop :=
  pr_orgID p = orgID /\ pr_fallbackCfg p = cfg /\ seeded orgID cfg (pr_store p) /\
  (forall c, pr_cached p = Some c -> c = cached_config cfg).

Lemma fresh_cache_run orgID cfg p :
  enforcer_ok orgID cfg p ->
  enforcer_ok orgID cfg (fresh_cache p).2 /\
  (forall c, (fresh_cache p).1 = Some c -> c = cached_config cfg).
Proof.
  intros Hp. pose proof Hp as (Ho & Hf & [Hok Hs] & Hc). unfold fresh_cache. rewrite st_bind_run. simpl.
  destruct (pr_cached p) as [c|] eqn:E; [|by split].
  rewrite st_bind_run. unfold on_store. rewrite on_world_run. simpl. split.
  - split_and!; [done..| |intros c' Hc'; apply Hc; simpl in Hc'; congruence]. split.
    + apply with_world_ok; [|done]. intros u. apply used_now.
    + destruct Hs; [left|right]; by apply with_world_represents.
  - destruct (_ <? _)%Z; [|done]. intros c' [= <-]. by apply Hc.
Qed.

Lemma ensureLoaded_run orgID cfg p :
  file_ok cfg -> enforcer_ok orgID cfg p ->
  (ensureLoaded p).1 = Ok (cached_config cfg) /\ enforcer_ok orgID cfg (ensureLoaded p).2.
Proof.
  intros Hf Hp. unfold ensureLoaded. rewrite st_bind_run.
  destruct (fresh_cache_run orgID cfg p Hp) as [Hp1 Hc1].
  destruct (fresh_cache p) as [[c|] p1]; simpl in *; [by rewrite (Hc1 c eq_refl)|].
  rewrite st_bind_run. destruct (fresh_cache_run orgID cfg p1 Hp1) as [Hp2 Hc2].
  destruct (fresh_cache p1) as [[c|] p2]; simpl in *; [by rewrite (Hc2 c eq_refl)|].
  destruct Hp2 as (Ho & Hfb & Hs & _). rewrite st_bind_run. simpl. rewrite st_bind_run. simpl.
  rewrite st_bind_run, on_store_run, Ho, Hfb. cbn [fst snd].
  destruct (load_run orgID cfg (pr_store p2) Hf Hs) as [-> Hs'].
  rewrite st_bind_run, on_store_run, on_world_run. simpl.
  split; [done|]. split_and!; [done..| |by intros ? [= <-]].
  destruct Hs' as [Hok Hr]. split; [apply with_world_ok; [|done]; intros u; apply used_now|].
  destruct Hr; [left|right]; by apply with_world_represents.
Qed.

(** The calls the security manager makes: an approval is asked for after the permission
    was granted. *)
Inductive rbac_call :=
  | AskPermission (userID : string) (action : Action)
  | AskApproval (userID : string) (action : Action).

Definition pg_call p (c : rbac_call) : option error * PGRBAC W :=
  match c with
  | AskPermission u a => pg_CheckPermission u a p
  | AskApproval u a => pg_RequireApproval u a p
  end.

Definition rbac_call_on cfg (c : rbac_call) : option error :=
  match c with
  | AskPermission u a => rbac_CheckPermission cfg u a
  | AskApproval u a => rbac_RequireApproval cfg u a
  end.

Fixpoint pg_calls p (cs : list rbac_call) : list (option error) :=
  match cs with [] => [] | c :: cs => (pg_call p c).1 :: pg_calls (pg_call p c).2 cs end.

Definition granted_first cfg (c : rbac_call) : Prop :=
  match c with
  | AskPermission _ _ => True
  | AskApproval u a => rbac_CheckPermission cfg u a = None
  end.

(** C19: the enforcer over the database decides like the in-memory one.  Let the
    configuration file be such that every role is listed under its own name and every user is
    assigned to a listed role ([file_ok]; for a user of an unlisted role the seeding stops half
    way, [partial_seed]).  Then on a new database whose statements do not fail, every sequence
    of permission and approval checks, in which approval is only asked for an action the user
    is permitted ([granted_first]: the security manager asks in that order), gets one by one
    the answers the in-memory enforcer gives on the configuration file, whether the first call
    seeds the database, the cache answers, or the tables are read again after a minute. *)
Theorem pg_rbac_equivalent orgID cfg w cs :
  file_ok cfg -> Forall (granted_first cfg) cs ->
  pg_calls (NewPGRBAC (empty_tables w) orgID cfg) cs = rbac_call_on cfg <$> cs.
Proof.
  intros Hf. assert (enforcer_ok orgID cfg (NewPGRBAC (empty_tables w) orgID cfg)) as Hp.
  { split_and!; [done..| |done]. split; [|left]; apply (empty_represents orgID w). }
  revert Hp. generalize (NewPGRBAC (empty_tables w) orgID cfg).
  induction cs as [|c cs IH]; intros p Hp Hg; [done|]. apply Forall_cons in Hg as [Hc Hg].
  destruct (ensureLoaded_run orgID cfg p Hf Hp) as [He Hp']. simpl.
  destruct c as [u a|u a]; simpl; [unfold pg_CheckPermission|unfold pg_RequireApproval];
    rewrite st_bind_run, He; simpl; (f_equal; [|by apply IH]).
  - apply cached_permission.
  - by apply cached_approval.
Qed.
End enforcer.

(** ** Failures *)

Section failures.
Context {W : Type} `{!World W}.
Context `{!MapRange (uuid * string) RoleModel} `{!MapRange (uuid * string) uuid}.
Context `{!MapRange string Role} `{!MapRange string string}.
Implicit Types (p : PGRBAC W).

(** A cache entry is used within a minute of its loading, by some reading of the clock. *)
Lemma fresh_cache_spec p :
  let p' := (fresh_cache p).2 in
  (pr_orgID p' = pr_orgID p /\ pr_fallbackCfg p' = pr_fallbackCfg p /\
   pr_cached p' = pr_cached p /\ pr_loadedAt p' = pr_loadedAt p) /\
  forall c, (fresh_cache p).1 = Some c -> pr_cached p = Some c /\
    exists w : W, ((w_now w).1 - pr_loadedAt p < cacheTTL)%Z.
Proof.
  unfold fresh_cache. rewrite st_bind_run. simpl. destruct (pr_cached p) as [c|] eqn:E; [|by split_and!].
  rewrite st_bind_run. unfold on_store, on_world.
  destruct (w_now (rd_world (pr_store p))) as [t w] eqn:Ew. simpl. split; [by split_and!|].
  destruct (Z.ltb_spec (t - pr_loadedAt p) cacheTTL); [|done].
  intros c' [= <-]. split; [done|]. exists (rd_world (pr_store p)). by rewrite Ew.
Qed.

(** Permissions fail closed.  Whatever the database does, a permission is granted only
    by a configuration that grants it and that is either the cached one, read less than a
    minute after it was loaded, or one loaded by this very call; when the cache is stale
    and loading fails the answer is a denial that carries the error. *)
Theorem pg_rbac_fail_closed userID action p :
  (pg_CheckPermission userID action p).1 = None ->
  exists cfg, pr_cached (pg_CheckPermission userID action p).2 = Some cfg /\
    rbac_CheckPermission cfg userID action = None /\
    ((pr_cached p = Some cfg /\ exists w : W, ((w_now w).1 - pr_loadedAt p < cacheTTL)%Z) \/
     exists s, (load (pr_orgID p) (pr_fallbackCfg p) s).1 = Ok cfg).
Proof.
  unfold pg_CheckPermission, ensureLoaded. rewrite !st_bind_run.
  destruct (fresh_cache_spec p) as ((Ho1 & Hb1 & Hc1 & Hl1) & Hf1).
  destruct (fresh_cache p) as [[c|] p1]; simpl in *.
  { intros Ha. exists c. destruct (Hf1 c eq_refl) as [Hc Hw]. rewrite Hc1. auto. }
  rewrite st_bind_run. destruct (fresh_cache_spec p1) as ((Ho2 & Hb2 & Hc2 & Hl2) & Hf2).
  destruct (fresh_cache p1) as [[c|] p2]; simpl in *.
  { intros Ha. exists c. destruct (Hf2 c eq_refl) as [Hc Hw]. rewrite Hc2, Hc.
    rewrite Hc1 in Hc. rewrite Hl1 in Hw. auto. }
  rewrite st_bind_run. simpl. rewrite st_bind_run. simpl. rewrite st_bind_run, on_store_run.
  rewrite Ho2, Hb2, Ho1, Hb1. cbn [fst snd].
  destruct (load (pr_orgID p) (pr_fallbackCfg p) (pr_store p2)) as [[cfg|e] s'] eqn:El; [|done].
  cbn [fst snd]. rewrite st_bind_run, on_store_run. simpl. intros Ha.
  exists cfg. split_and!; [done..|]. right. exists (pr_store p2). by rewrite El.
Qed.
End failures.
