(* ===== verification/Notification.v ===== *)
(** * The notification dispatcher

    [src/internal/notification/notification.go] over the channels of
    [src/internal/storage/postgres/notification_repo.go].  The senders (Telegram,
    Slack, e-mail, webhook, ...) are any functions of the world; the state keeps what
    was handed to them and the audit events. *)

From S2P Require Import Prelude Domain Protocol Models SecurityManager.

Record Message := mkMessage {
  ms_Subject : string;
  ms_Body : string;
  ms_Metadata : list (string * string);
}.

Section notification.
Context {F P W : Type}.
Context `{!Num F} `{!ErrorText} `{!Render} `{!World W} `{!GoParams P}.
Context `{!MapRange uuid NotificationChannel}.

(** [Sender.Send] of a channel type. *)
Definition Sender : Type := NotificationChannel -> Message -> W -> option error * W.

Record Dispatcher := mkDispatcher { dp_senders : gmap string Sender; dp_security : bool }.

Definition NewDispatcher (security : bool) : Dispatcher := mkDispatcher ∅ security.

Definition RegisterSender (d : Dispatcher) (typ : string) (s : Sender) : Dispatcher :=
  mkDispatcher (<[typ := s]> (dp_senders d)) (dp_security d).

(** What the background services share: the world, the table of channels, the audit
    log and the trace of the sends. *)
Record Bg := mkBg {
  bg_world : W;
  bg_channels : gmap uuid NotificationChannel;
  bg_audit : list (AuditEvent F P);
  bg_sent : list (NotificationChannel * Message * option error);
}.

Definition bg_set_world (w : W) (s : Bg) : Bg := mkBg w (bg_channels s) (bg_audit s) (bg_sent s).
Definition bg_set_channels (c : gmap uuid NotificationChannel) (s : Bg) : Bg :=
  mkBg (bg_world s) c (bg_audit s) (bg_sent s).
Definition bg_log (e : AuditEvent F P) (s : Bg) : Bg :=
  mkBg (bg_world s) (bg_channels s) (bg_audit s ++ [e]) (bg_sent s).

Abbreviation BM := (st Bg).

Definition bg_now : BM Time := fun s =>
  let '(t, w) := w_now (bg_world s) in (t, bg_set_world w s).
Definition bg_uuid : BM uuid := fun s =>
  let '(u, w) := w_uuid (bg_world s) in (u, bg_set_world w s).
Definition bg_correlationID : BM string := fun s =>
  let '(u, w) := w_correlationID (bg_world s) in (u, bg_set_world w s).
Definition bg_stmt : BM (option error) := fun s =>
  let '(e, w) := w_db (bg_world s) in (e, bg_set_world w s).

(** [SecurityManager.LogAction]; the callers drop its answer. *)
Definition LogAction (e : AuditEvent F P) : BM unit := st_modify (bg_log e).

(** ** The channel store *)

(** A row is visible within its organisation only. *)
Definition in_org (orgID : uuid) (c : NotificationChannel) : bool := bool_decide (nc_OrgID c = orgID).

(** [Create]: the row has its defaults. *)
Definition channel_Create `{!RowJson} (ch : NotificationChannel) : BM (option error) :=
  err ← bg_stmt;
  match err with
  | Some e => mret (Some (Wrap "creating notification channel" e))
  | None => _ ← st_modify (fun s => bg_set_channels (<[nc_ID ch := stored ch]> (bg_channels s)) s); mret None
  end.

Definition channel_Get (orgID id : uuid) : BM (result error NotificationChannel) :=
  err ← bg_stmt;
  match err with
  | Some e => mret (Err (Wrap "getting notification channel" e))
  | None =>
      ch ← st_get (fun s => bg_channels s !! id);
      mret (match ch with
            | Some ch => if in_org orgID ch then Ok ch
                         else Err (Wrap "getting notification channel" (Errorf "record not found"))
            | None => Err (Wrap "getting notification channel" (Errorf "record not found"))
            end)
  end.

Definition channel_GetByName (orgID : uuid) (name : string) : BM (result error NotificationChannel) :=
  err ← bg_stmt;
  match err with
  | Some e => mret (Err (Wrap "getting notification channel" e))
  | None =>
      chs ← st_get (fun s => (map_range (bg_channels s)).*2);
      mret (match List.filter (fun c => in_org orgID c && String.eqb (nc_Name c) name) chs with
            | ch :: _ => Ok ch
            | [] => Err (Wrap "getting notification channel" (Errorf "record not found"))
            end)
  end.

Definition channel_List (orgID : uuid) : BM (result error (list NotificationChannel)) :=
  err ← bg_stmt;
  match err with
  | Some e => mret (Err (Wrap "listing notification channels" e))
  | None =>
      chs ← st_get (fun s => (map_range (bg_channels s)).*2);
      mret (Ok (newest nc_CreatedAt (List.filter (in_org orgID) chs)))
  end.

Definition channel_Update (ch : NotificationChannel) : BM (option error) :=
  err ← bg_stmt;
  match err with
  | Some e => mret (Some (Wrap "updating notification channel" e))
  | None => _ ← st_modify (fun s => bg_set_channels (<[nc_ID ch := ch]> (bg_channels s)) s); mret None
  end.

Definition channel_Delete (orgID id : uuid) : BM (option error) :=
  err ← bg_stmt;
  match err with
  | Some e => mret (Some (Wrap "deleting notification channel" e))
  | None =>
      ch ← st_get (fun s => bg_channels s !! id);
      match ch with
      | Some ch =>
          if in_org orgID ch
          then _ ← st_modify (fun s => bg_set_channels (delete id (bg_channels s)) s); mret None
          else mret (Some (Errorf "notification channel not found"))
      | None => mret (Some (Errorf "notification channel not found"))
      end
  end.

(** ** Dispatching *)

Definition auditNotify (d : Dispatcher) (userID channelName channelType res errMsg : string) : BM unit :=
  if dp_security d then
    now ← bg_now;
    LogAction (mkAuditEvent now "" userID "notification.send" "notification"
      (Some (params_of [("channel_name", channelName); ("channel_type", channelType)]))
      res 0 (nofZ 0) "" errMsg)
  else mret tt.

(** [sender.Send]. *)
Definition send (s : Sender) (ch : NotificationChannel) (msg : Message) : BM (option error) :=
  fun b =>
    let '(e, w) := s ch msg (bg_world b) in
    (e, mkBg w (bg_channels b) (bg_audit b) (bg_sent b ++ [(ch, msg, e)])).

(** One round of [Notify]'s loop: the entry it writes for the channel. *)
Definition notify_one (d : Dispatcher) (orgID : uuid) (msg : Message) (userID : string) (chID : uuid)
    : BM (option error) :=
  r ← channel_Get orgID chID;
  match r with
  | Err err =>
      _ ← auditNotify d userID (uuid_String chID) "" "failure" (error_Error err);
      mret (Some (Wrap "channel lookup" err))
  | Ok ch =>
      if negb (nc_Enabled ch) then mret (Some (Errorf "channel is disabled"))
      else
        match dp_senders d !! nc_ChannelType ch with
        | None =>
            _ ← auditNotify d userID (nc_Name ch) (nc_ChannelType ch) "failure" "no sender";
            mret (Some (Errorf "no sender registered for channel type"))
        | Some sender =>
            err ← send sender ch msg;
            match err with
            | Some e =>
                _ ← auditNotify d userID (nc_Name ch) (nc_ChannelType ch) "failure" (error_Error e);
                mret (Some e)
            | None =>
                _ ← auditNotify d userID (nc_Name ch) (nc_ChannelType ch) "success" "";
                mret None
            end
        end
  end.

(** [Notify]: the map of the answers. *)
Fixpoint notify_from (d : Dispatcher) (orgID : uuid) (msg : Message) (userID : string)
    (chIDs : list uuid) (errors : gmap uuid (option error)) : BM (gmap uuid (option error)) :=
  match chIDs with
  | [] => mret errors
  | chID :: chIDs =>
      e ← notify_one d orgID msg userID chID;
      notify_from d orgID msg userID chIDs (<[chID := e]> errors)
  end.

Definition Notify (d : Dispatcher) (orgID : uuid) (chIDs : list uuid) (msg : Message)
    (userID : string) : BM (gmap uuid (option error)) :=
  notify_from d orgID msg userID chIDs ∅.

(** [NotifyWithFallback]; [lastErr] is the error so far, nil at first. *)
Fixpoint fallback_from (d : Dispatcher) (orgID : uuid) (msg : Message) (userID : string)
    (chIDs : list uuid) (lastErr : option error) : BM (option error) :=
  match chIDs with
  | [] =>
      mret (Some (match lastErr with
                  | Some e => Wrap "all notification channels failed, last error" e
                  | None => Errorf "all notification channels failed, last error"
                  end))
  | chID :: chIDs =>
      r ← channel_Get orgID chID;
      match r with
      | Err err => fallback_from d orgID msg userID chIDs (Some (Wrap "channel lookup" err))
      | Ok ch =>
          if negb (nc_Enabled ch)
          then fallback_from d orgID msg userID chIDs (Some (Errorf "channel is disabled"))
          else
            match dp_senders d !! nc_ChannelType ch with
            | None => fallback_from d orgID msg userID chIDs (Some (Errorf "no sender for type"))
            | Some sender =>
                err ← send sender ch msg;
                match err with
                | Some e => fallback_from d orgID msg userID chIDs (Some e)
                | None =>
                    _ ← auditNotify d userID (nc_Name ch) (nc_ChannelType ch) "success" "";
                    mret None
                end
            end
      end
  end.

Definition NotifyWithFallback (d : Dispatcher) (orgID : uuid) (chIDs : list uuid) (msg : Message)
    (userID : string) : BM (option error) :=
  fallback_from d orgID msg userID chIDs None.

(** ** What is sent *)

(** Every send of a computation goes to an enabled channel of the organisation, with
    the given message, and the audit log only grows. *)
Definition sends_to (orgID : uuid) (msg : Message) (b b' : Bg) : Prop :=
  bg_channels b' = bg_channels b /\
  (exists es, bg_audit b' = bg_audit b ++ es) /\
  exists l, bg_sent b' = bg_sent b ++ l /\
    Forall (fun x => x.1.2 = msg /\ nc_OrgID x.1.1 = orgID /\ nc_Enabled x.1.1 = true) l.

Lemma sends_to_refl orgID msg b : sends_to orgID msg b b.
Proof. split_and!; [done|exists []; by rewrite app_nil_r|exists []; by rewrite app_nil_r]. Qed.

Lemma sends_to_world orgID msg w b : sends_to orgID msg b (bg_set_world w b).
Proof. exact (sends_to_refl orgID msg b). Qed.

Lemma sends_to_trans orgID msg b1 b2 b3 :
  sends_to orgID msg b1 b2 -> sends_to orgID msg b2 b3 -> sends_to orgID msg b1 b3.
Proof.
  intros (H1 & [e1 E1] & l1 & L1 & F1) (H2 & [e2 E2] & l2 & L2 & F2). split_and!.
  - congruence.
  - exists (e1 ++ e2). by rewrite E2, E1, (assoc_L app).
  - exists (l1 ++ l2). split; [by rewrite L2, L1, (assoc_L app)|by apply Forall_app].
Qed.

Lemma channel_Get_run orgID id b :
  exists w, (channel_Get orgID id b).2 = bg_set_world w b /\
    forall ch, (channel_Get orgID id b).1 = Ok ch ->
      bg_channels b !! id = Some ch /\ nc_OrgID ch = orgID.
Proof.
  unfold channel_Get, bg_stmt. rewrite st_bind_run.
  destruct (w_db (bg_world b)) as [[e|] w]; simpl; [by exists w|].
  exists w. split; [done|]. intros ch.
  destruct (bg_channels b !! id) as [c|]; [|done]. unfold in_org.
  case_bool_decide; [|done]. by intros [= ->].
Qed.

Lemma auditNotify_run d u n t r e b :
  exists w l, (auditNotify d u n t r e b).2 = mkBg w (bg_channels b) (bg_audit b ++ l) (bg_sent b) /\
    (if dp_security d then length l = 1 else l = []).
Proof.
  unfold auditNotify, bg_now, LogAction. destruct (dp_security d).
  - rewrite st_bind_run. destruct (w_now (bg_world b)) as [t' w]. simpl. by eexists w, [_].
  - exists (bg_world b), []. rewrite app_nil_r. by destruct b.
Qed.

Lemma auditNotify_sends d orgID msg u n t r e b :
  sends_to orgID msg b (auditNotify d u n t r e b).2.
Proof.
  destruct (auditNotify_run d u n t r e b) as (w & l & -> & _).
  split_and!; [done|by exists l|exists []; by rewrite app_nil_r].
Qed.

Lemma notify_one_sends d orgID msg u id b :
  sends_to orgID msg b (notify_one d orgID msg u id b).2.
Proof.
  unfold notify_one. rewrite st_bind_run.
  destruct (channel_Get_run orgID id b) as (w & Hb & Hok).
  destruct (channel_Get orgID id b) as [[ch|e] b1]; simpl in *; subst b1.
  - destruct (Hok ch eq_refl) as [_ Horg]. destruct (nc_Enabled ch) eqn:Een; simpl.
    + destruct (dp_senders d !! nc_ChannelType ch) as [sender|].
      * rewrite st_bind_run. unfold send. simpl. destruct (sender ch msg w) as [e w2]. simpl.
        assert (sends_to orgID msg b
          (mkBg w2 (bg_channels b) (bg_audit b) (bg_sent b ++ [(ch, msg, e)]))) as Hs.
        { split_and!; [done|exists []; by rewrite app_nil_r|]. eexists. split; [done|].
          by constructor. }
        destruct e; rewrite st_bind_run; simpl;
          (eapply sends_to_trans; [exact Hs|apply auditNotify_sends]).
      * rewrite st_bind_run. simpl. apply (sends_to_trans _ _ _ (bg_set_world w b)).
        -- apply sends_to_world.
        -- apply auditNotify_sends.
    + apply sends_to_world.
  - rewrite st_bind_run. simpl. apply (sends_to_trans _ _ _ (bg_set_world w b)).
    + apply sends_to_world.
    + apply auditNotify_sends.
Qed.

Lemma notify_from_spec d orgID msg u ids errors b :
  sends_to orgID msg b (notify_from d orgID msg u ids errors b).2 /\
  forall id, is_Some ((notify_from d orgID msg u ids errors b).1 !! id) <->
    id ∈ ids \/ is_Some (errors !! id).
Proof.
  revert errors b. induction ids as [|i ids IH]; intros errors b; simpl.
  - split; [apply sends_to_refl|]. intros id. rewrite elem_of_nil. tauto.
  - rewrite st_bind_run.
    destruct (IH (<[i := (notify_one d orgID msg u i b).1]> errors)
      (notify_one d orgID msg u i b).2) as [Hs Hd].
    split; [eapply sends_to_trans; [apply notify_one_sends|done]|].
    intros id. rewrite Hd, elem_of_cons, lookup_insert_is_Some. clear.
    destruct (decide (i = id)) as [->|]; intuition congruence.
Qed.

(** A notification goes only where it may.  [Notify] answers for exactly the
    channels it was given; everything it sends is the given message, to enabled
    channels of the caller's organisation; and it keeps the audit log append-only. *)
Theorem notify_within_org d orgID ids msg u b :
  sends_to orgID msg b (Notify d orgID ids msg u b).2 /\
  forall id, is_Some ((Notify d orgID ids msg u b).1 !! id) <-> id ∈ ids.
Proof.
  unfold Notify. destruct (notify_from_spec d orgID msg u ids ∅ b) as [Hs Hd]. split; [done|].
  intros id. rewrite Hd, lookup_empty. split; [intros [?|[? ?]]|left]; done.
Qed.
End notification.

Arguments Sender W : clear implicits.
Arguments Dispatcher W : clear implicits.
Arguments Bg F P W : clear implicits.
