(* ===== verification/Cron.v ===== *)
(** * The cron scheduler

    [src/internal/scheduler/scheduler.go] over the jobs of
    [src/internal/storage/postgres/cronjob_repo.go].  The workflow engine is the
    interface [CronEngine]; the state keeps the requests submitted to it.  A tick runs
    in one database transaction; the goroutines of a tick work on different rows, and
    the model fires them one after the other, in any order the table is listed in. *)

From S2P Require Import Prelude SecurityManager Config WorkflowTypes Scheduler Domain Models Notification.

(** [orchestrator.WorkflowEngine.Submit]. *)
Class CronEngine (F E : Type) := {
  we_Submit : E -> WorkflowRequest F -> result error (Workflow F) * E;
}.

Section cron.
Context {F P W E : Type}.
Context `{!Num F} `{!ErrorText} `{!Render} `{!World W} `{!GoParams P}.
Context `{!CronParser} `{!CronEngine F E}.
Context `{!MapRange uuid NotificationChannel} `{!MapRange uuid (CronJob F)}.

Record CronScheduler := mkCronScheduler {
  cs_security : bool;
  cs_config : option SchedulerConfig;
  cs_orgID : uuid;
  cs_dispatcher : option (Dispatcher W);
  cs_failChannelIDs : list uuid;
}.

(** [WithNotifications]. *)
Definition WithNotifications (s : CronScheduler) (d : Dispatcher W) (ids : list uuid) : CronScheduler :=
  mkCronScheduler (cs_security s) (cs_config s) (cs_orgID s) (Some d) ids.

Record CronState := mkCronState {
  ct_bg : Bg F P W;
  ct_jobs : gmap uuid (CronJob F);
  ct_engine : E;
  ct_submits : list (WorkflowRequest F);
}.

Abbreviation CM := (st CronState).

Definition set_jobs (m : gmap uuid (CronJob F)) (s : CronState) : CronState :=
  mkCronState (ct_bg s) m (ct_engine s) (ct_submits s).

Definition on_bg {A} (m : st (Bg F P W) A) : CM A := fun s =>
  let '(a, b) := m (ct_bg s) in (a, mkCronState b (ct_jobs s) (ct_engine s) (ct_submits s)).

(** ** The store *)

(** [Create]: the row has its defaults. *)
Definition job_Create (cj : CronJob F) : CM (option error) :=
  err ← on_bg bg_stmt;
  match err with
  | Some e => mret (Some (Wrap "creating cron job" e))
  | None => _ ← st_modify (fun s => set_jobs (<[cj_ID cj := stored cj]> (ct_jobs s)) s); mret None
  end.

Definition job_Get (orgID id : uuid) : CM (result error (CronJob F)) :=
  err ← on_bg bg_stmt;
  match err with
  | Some e => mret (Err (Wrap "getting cron job" e))
  | None =>
      job ← st_get (fun s => ct_jobs s !! id);
      mret (match job with
            | Some j => if bool_decide (cj_OrgID j = orgID) then Ok j
                        else Err (Wrap "getting cron job" (Errorf "record not found"))
            | None => Err (Wrap "getting cron job" (Errorf "record not found"))
            end)
  end.

Definition job_List (orgID : uuid) : CM (result error (list (CronJob F))) :=
  err ← on_bg bg_stmt;
  match err with
  | Some e => mret (Err (Wrap "listing cron jobs" e))
  | None =>
      jobs ← st_get (fun s => (map_range (ct_jobs s)).*2);
      mret (Ok (newest cj_CreatedAt (List.filter (fun j => bool_decide (cj_OrgID j = orgID)) jobs)))
  end.

(** [Update] saves the row by its key. *)
Definition job_Update (cj : CronJob F) : CM (option error) :=
  err ← on_bg bg_stmt;
  match err with
  | Some e => mret (Some (Wrap "updating cron job" e))
  | None => _ ← st_modify (fun s => set_jobs (<[cj_ID cj := cj]> (ct_jobs s)) s); mret None
  end.

Definition job_Delete (orgID id : uuid) : CM (option error) :=
  err ← on_bg bg_stmt;
  match err with
  | Some e => mret (Some (Wrap "deleting cron job" e))
  | None =>
      job ← st_get (fun s => ct_jobs s !! id);
      match job with
      | Some j =>
          if bool_decide (cj_OrgID j = orgID)
          then _ ← st_modify (fun s => set_jobs (delete id (ct_jobs s)) s); mret None
          else mret (Some (Errorf "cron job not found"))
      | None => mret (Some (Errorf "cron job not found"))
      end
  end.

Definition due_job (orgID : uuid) (now : Time) (j : CronJob F) : bool :=
  is_due (cj_OrgID j) orgID (cj_Enabled j) (cj_NextRunAt j) now.

Definition GetDueJobs (orgID : uuid) (now : Time) : CM (result error (list (CronJob F))) :=
  err ← on_bg bg_stmt;
  match err with
  | Some e => mret (Err (Wrap "getting due cron jobs" e))
  | None => jobs ← st_get (fun s => (map_range (ct_jobs s)).*2);
            mret (Ok (List.filter (due_job orgID now) jobs))
  end.

(** The columns [RecordExecution] writes. *)
Definition executed (j : CronJob F) (workflowID : uuid) (nextRunAt : Time) (errMsg : string)
    (now : Time) : CronJob F :=
  mkCronJob (cj_ID j) (cj_OrgID j) (cj_Name j) (cj_Description j) (cj_CronExpression j) (cj_Goal j)
    (cj_UserID j) (cj_BudgetLimitUSD j) (cj_MaxDepth j) (cj_MaxTasks j) (cj_Enabled j)
    (Some nextRunAt) (Some now) (Some workflowID) errMsg (cj_CreatedAt j) now.

Definition RecordExecution (id workflowID : uuid) (nextRunAt : Time) (errMsg : string)
    : CM (option error) :=
  now ← on_bg bg_now;
  err ← on_bg bg_stmt;
  match err with
  | Some e => mret (Some (Wrap "recording execution for cron job" e))
  | None =>
      _ ← st_modify (fun s =>
            set_jobs (alter (fun j => executed j workflowID nextRunAt errMsg now) id (ct_jobs s)) s);
      mret None
  end.

(** [db.Transaction]: the rows are restored when the body or the commit fails. *)
Definition transaction (body : CM (option error)) : CM (option error) :=
  jobs ← st_get ct_jobs;
  err ← body;
  match err with
  | Some e => _ ← st_modify (set_jobs jobs); mret (Some e)
  | None =>
      commit ← on_bg bg_stmt;
      match commit with
      | Some e => _ ← st_modify (set_jobs jobs); mret (Some e)
      | None => mret None
      end
  end.

(** ** Firing a job *)

Definition engine_Submit (req : WorkflowRequest F) : CM (result error (Workflow F)) := fun s =>
  let '(r, e) := we_Submit (ct_engine s) req in
  (r, mkCronState (ct_bg s) (ct_jobs s) e (ct_submits s ++ [req])).

Definition audit (s : CronScheduler) (job : CronJob F) (correlationID res errMsg : string)
    (params : option P) : CM unit :=
  if cs_security s then
    now ← on_bg bg_now;
    on_bg (LogAction (mkAuditEvent now correlationID (cj_UserID job) "cronjob.fire" "scheduler"
      params res 0 (nofZ 0) "" errMsg))
  else mret tt.

Definition job_request (job : CronJob F) (correlationID : string) : WorkflowRequest F :=
  mkWorkflowRequest (cj_UserID job) (cj_OrgID job) (cj_Goal job) correlationID
    (cj_BudgetLimitUSD job) (cj_MaxDepth job) (cj_MaxTasks job).

Definition failure_message (job : CronJob F) (errMsg : string) : Message :=
  mkMessage ("[Akili] CronJob Failed: " +:+ cj_Name job)
    ("CronJob failed." +:+ cj_Name job +:+ uuid_String (cj_ID job) +:+ cj_Goal job +:+ errMsg)
    [("type", "cronjob_failure"); ("cronjob_id", uuid_String (cj_ID job))].

Definition notifyFailure (s : CronScheduler) (job : CronJob F) (errMsg : string) : CM unit :=
  match cs_dispatcher s with
  | Some d =>
      if 0 <? length (cs_failChannelIDs s) then
        _ ← on_bg (Notify d (cj_OrgID job) (cs_failChannelIDs s) (failure_message job errMsg)
                     (cj_UserID job));
        mret tt
      else mret tt
  | None => mret tt
  end.

Definition fireJob (s : CronScheduler) (job : CronJob F) : CM unit :=
  correlationID ← on_bg bg_correlationID;
  _ ← audit s job correlationID "intent" ""
        (Some (params_of [("cronjob_id", uuid_String (cj_ID job)); ("cronjob_name", cj_Name job);
                 ("cron_expression", cj_CronExpression job); ("goal", cj_Goal job)]));
  wf ← engine_Submit (job_request job correlationID);
  now ← on_bg bg_now;
  let nextRun := next_run (cj_CronExpression job) now in
  match wf with
  | Err err =>
      let errMsg := error_Error err in
      _ ← audit s job correlationID "failure" errMsg None;
      _ ← notifyFailure s job errMsg;
      _ ← RecordExecution (cj_ID job) uuid_Nil nextRun errMsg;
      mret tt
  | Ok wf =>
      let workflowID := wf_ID wf in
      _ ← audit s job correlationID "success" ""
            (Some (params_of [("workflow_id", uuid_String workflowID)]));
      _ ← RecordExecution (cj_ID job) workflowID nextRun "";
      mret tt
  end.

(** [tick]; its error is logged only. *)
Definition tick (s : CronScheduler) : CM (option error) :=
  now ← on_bg bg_now;
  transaction (
    due ← GetDueJobs (cs_orgID s) now;
    match due with
    | Err e => mret (Some (Wrap "polling due jobs" e))
    | Ok jobs => _ ← st_each (fireJob s) jobs; mret None
    end).

(** One job of [recoverMissedJobs]: skipped when its time is before the window. *)
Definition recoverJob (s : CronScheduler) (window : Time) (job : CronJob F) : CM unit :=
  if match cj_NextRunAt job with Some t => time_Before t window | None => false end then
    now ← on_bg bg_now;
    _ ← RecordExecution (cj_ID job) uuid_Nil (next_run (cj_CronExpression job) now)
          "skipped: outside missed job window";
    mret tt
  else fireJob s job.

Definition recoverMissedJobs (s : CronScheduler) : CM (option error) :=
  now ← on_bg bg_now;
  transaction (
    due ← GetDueJobs (cs_orgID s) now;
    match due with
    | Err e => mret (Some e)
    | Ok jobs =>
        _ ← st_each (recoverJob s (now - MissedJobWindow (cs_config s))%Z) jobs; mret None
    end).

(** [ComputeNextRunFrom]. *)
Definition ComputeNextRunFrom (expr : string) (from : Time) : result error Time :=
  match cron_Parse expr with
  | Err err => Err (Wrap "invalid cron expression" err)
  | Ok next => Ok (next from)
  end.
End cron.

Arguments CronScheduler W : clear implicits.
Arguments CronState F P W E : clear implicits.

(** * What the cron scheduler guarantees

    Which workflows a tick and the recovery at start-up submit, and when a job is due
    again ([Cron]). *)

Section props.
Context {F P W E : Type}.
Context `{!Num F} `{!ErrorText} `{!Render} `{!World W} `{!GoParams P}.
Context `{!CronParser} `{!CronEngine F E}.
Context `{!MapRange uuid NotificationChannel} `{!MapRange uuid (CronJob F)}.
Implicit Types (s : CronScheduler W) (c : CronState F P W E) (j : CronJob F).

(** ** What each step leaves alone *)

Definition rows_kept c c' : Prop :=
  ct_jobs c' = ct_jobs c /\ ct_submits c' = ct_submits c.

Lemma on_bg_run {A} (m : st (Bg F P W) A) c :
  on_bg m c = ((m (ct_bg c)).1, mkCronState (m (ct_bg c)).2 (ct_jobs c) (ct_engine c) (ct_submits c)).
Proof. unfold on_bg. by destruct (m (ct_bg c)). Qed.

Lemma on_bg_kept {A} (m : st (Bg F P W) A) c0 : preserves (rows_kept c0) (on_bg m).
Proof. intros c Hc. by rewrite on_bg_run. Qed.
#[local] Hint Resolve on_bg_kept : go.

Lemma audit_kept s j id r e p c0 : preserves (rows_kept c0) (audit (E := E) s j id r e p).
Proof. unfold audit. preserve. Qed.
Lemma notifyFailure_kept s j e c0 :
  preserves (rows_kept c0) (notifyFailure (P := P) (E := E) s j e).
Proof. unfold notifyFailure. preserve. Qed.

Lemma audit_rows s j id r e p c :
  rows_kept c (audit s j id r e p c).2.
Proof. by apply audit_kept. Qed.
Lemma notifyFailure_rows s j e c : rows_kept c (notifyFailure s j e c).2.
Proof. by apply notifyFailure_kept. Qed.

Lemma bg_stmt_run (b : Bg F P W) :
  (bg_stmt b).1 = (w_db (bg_world b)).1 /\ (bg_stmt b).2 = bg_set_world (w_db (bg_world b)).2 b.
Proof. unfold bg_stmt. by destruct (w_db (bg_world b)). Qed.

(** Recording an execution writes one row, or nothing when the statement fails. *)
Lemma RecordExecution_run id w n e c :
  ct_submits (RecordExecution id w n e c).2 = ct_submits c /\
  (ct_jobs (RecordExecution id w n e c).2 = ct_jobs c /\
     (exists b, (w_db b).1 <> None) \/
   exists now, ct_jobs (RecordExecution id w n e c).2 =
     alter (fun j => executed j w n e now) id (ct_jobs c)).
Proof.
  unfold RecordExecution. rewrite st_bind_run, on_bg_run. simpl. rewrite st_bind_run, on_bg_run. simpl.
  destruct (bg_stmt_run (bg_now (ct_bg c)).2) as [He _].
  destruct (bg_stmt (bg_now (ct_bg c)).2) as [[err|] b]; simpl in *.
  - split; [done|]. left. split; [done|]. eexists. by rewrite <-He.
  - split; [done|]. right. by eexists.
Qed.

(** One job fired: one request, its own row. *)
Definition fired c j c' : Prop :=
  (exists id, ct_submits c' = ct_submits c ++ [job_request j id]) /\
  (ct_jobs c' = ct_jobs c /\ (exists b, (w_db b).1 <> None) \/
   exists w t e now, ct_jobs c' =
     alter (fun j' => executed j' w (next_run (cj_CronExpression j) t) e now) (cj_ID j) (ct_jobs c)).

Lemma fireJob_fired s j c : fired c j (fireJob s j c).2.
Proof.
  unfold fireJob. rewrite st_bind_run, on_bg_run. simpl. rewrite st_bind_run.
  set (c1 := mkCronState _ _ _ _). set (id := (bg_correlationID (ct_bg c)).1).
  match goal with |- context [audit s j id "intent" ?e ?p c1] =>
    destruct (audit_rows s j id "intent" e p c1) as [Hj2 Hs2];
    generalize dependent (audit s j id "intent" e p c1).2 end.
  intros c2 Hj2 Hs2. rewrite st_bind_run. unfold engine_Submit.
  destruct (we_Submit (ct_engine c2) (job_request j id)) as [wf e'] eqn:Ewf. simpl.
  rewrite st_bind_run, on_bg_run. simpl. set (now := (bg_now (ct_bg c2)).1).
  set (c3 := mkCronState _ _ _ _).
  assert (ct_jobs c3 = ct_jobs c /\ ct_submits c3 = ct_submits c ++ [job_request j id]) as [Hj3 Hs3].
  { unfold c3. simpl. by rewrite Hj2, Hs2. }
  assert (forall c4 w e, rows_kept c3 c4 -> fired c j
    (RecordExecution (cj_ID j) w (next_run (cj_CronExpression j) now) e c4).2) as Hrec.
  { intros c4 w e [Hj4 Hs4]. destruct (RecordExecution_run (cj_ID j) w
      (next_run (cj_CronExpression j) now) e c4) as [Hs5 Hj5]. split.
    - exists id. by rewrite Hs5, Hs4, Hs3.
    - destruct Hj5 as [[Hj5 Hd]|(t & Hj5)].
      + left. by rewrite Hj5, Hj4, Hj3.
      + right. exists w, now, e, t. by rewrite Hj5, Hj4, Hj3. }
  destruct wf as [wid|err]; repeat (rewrite st_bind_run; simpl).
  - apply Hrec, audit_rows.
  - apply Hrec. destruct (notifyFailure_rows s j (error_Error err)
      (audit s j id "failure" (error_Error err) None c3).2) as [Ha1 Ha2].
    destruct (audit_rows s j id "failure" (error_Error err) None c3) as [Ha3 Ha4].
    split; congruence.
Qed.

Lemma recoverJob_run s window j c :
  let old := match cj_NextRunAt j with Some t => time_Before t window | None => false end in
  if old then
    ct_submits (recoverJob s window j c).2 = ct_submits c /\
    (ct_jobs (recoverJob s window j c).2 = ct_jobs c /\ (exists b, (w_db b).1 <> None) \/
     exists t now, ct_jobs (recoverJob s window j c).2 =
       alter (fun j' => executed j' uuid_Nil (next_run (cj_CronExpression j) t)
                          "skipped: outside missed job window" now) (cj_ID j) (ct_jobs c))
  else fired c j (recoverJob s window j c).2.
Proof.
  cbv zeta. unfold recoverJob.
  destruct (match cj_NextRunAt j with Some t => time_Before t window | None => false end);
    [|apply fireJob_fired].
  rewrite st_bind_run, on_bg_run. simpl. rewrite st_bind_run. simpl.
  set (now := (bg_now (ct_bg c)).1). set (c1 := mkCronState _ _ _ _).
  destruct (RecordExecution_run (cj_ID j) uuid_Nil (next_run (cj_CronExpression j) now)
    "skipped: outside missed job window" c1) as [Hs Hj].
  split; [done|]. destruct Hj as [Hj|(t & Hj)]; [by left|]. right. by exists now, t.
Qed.

(** ** A sweep over the due jobs *)

Definition skipped_msg : string := "skipped: outside missed job window".

(** What a sweep does to one job, with a database that answers: it submits the job's
    request unless the job is too old, and reschedules the job's row. *)
Definition swept (old : CronJob F -> bool) c j c' : Prop :=
  (exists id, ct_submits c' = ct_submits c ++ (if old j then [] else [job_request j id])) /\
  exists w t e now, ct_jobs c' =
    alter (fun j' => executed j' w (next_run (cj_CronExpression j) t) e now) (cj_ID j) (ct_jobs c) /\
    (old j = true -> w = uuid_Nil /\ e = skipped_msg).

Definition keys_ok c : Prop := map_Forall (fun id j => cj_ID j = id) (ct_jobs c).

(** The row of a swept job. *)
Definition rescheduled (old : CronJob F -> bool) j (row : option (CronJob F)) : Prop :=
  exists w t e now, row = Some (executed j w (next_run (cj_CronExpression j) t) e now) /\
    (old j = true -> w = uuid_Nil /\ e = skipped_msg).

Lemma sweep old (f : CronJob F -> st (CronState F P W E) unit) js c :
  (forall j c, swept old c j (f j c).2) ->
  NoDup (map cj_ID js) -> (forall j, j ∈ js -> ct_jobs c !! cj_ID j = Some j) ->
  let c' := (st_each f js c).2 in
  (exists ids, length ids = length (List.filter (fun j => negb (old j)) js) /\
    ct_submits c' = ct_submits c ++
      zip_with job_request (List.filter (fun j => negb (old j)) js) ids) /\
  (forall j, j ∈ js -> rescheduled old j (ct_jobs c' !! cj_ID j)) /\
  (forall id, id ∉ map cj_ID js -> ct_jobs c' !! id = ct_jobs c !! id).
Proof.
  intros Hf. revert c. induction js as [|j js IH]; intros c Hnd Hin; simpl.
  { split_and!; [exists []; by rewrite app_nil_r|by intros j []%elem_of_nil|done]. }
  apply NoDup_cons in Hnd as [Hj Hnd]. rewrite st_bind_run.
  destruct (Hf j c) as [(id & Hs) (w & t & e & now & Hrow & Hold)].
  destruct (IH (f j c).2 Hnd) as [(ids & Hlen & Hsub) [Hres Hrest]].
  { intros j' Hj'. rewrite Hrow, lookup_alter_ne; [apply Hin; by right|].
    intros Heq. apply Hj, list_elem_of_fmap. by exists j'. }
  split_and!.
  - rewrite Hsub, Hs. destruct (old j); simpl.
    + exists ids. by rewrite app_nil_r.
    + exists (id :: ids). simpl. rewrite Hlen. split; [done|]. by rewrite <-(assoc_L app).
  - intros j' [->|Hj']%elem_of_cons; [|by apply Hres].
    rewrite Hrest by done. rewrite Hrow, lookup_alter_eq, (Hin j) by (by left).
    exists w, t, e, now. done.
  - intros i Hi. rewrite Hrest by (intros ?; apply Hi; by right).
    rewrite Hrow, lookup_alter_ne; [done|]. intros <-. apply Hi. by left.
Qed.

(** ** A tick and the recovery, over a database that answers *)

Context (Hdb : forall w : W, (w_db w).1 = None).

Definition due s (now : Time) c : list (CronJob F) :=
  List.filter (due_job (cs_orgID s) now) (map_range (ct_jobs c)).*2.

Lemma elem_of_due s now c j :
  keys_ok c -> j ∈ due s now c <-> ct_jobs c !! cj_ID j = Some j /\ due_job (cs_orgID s) now j = true.
Proof.
  intros Hk. unfold due. rewrite list_elem_of_In, filter_In, <-list_elem_of_In, list_elem_of_fmap.
  split; intros [Hj Hd]; (split; [|done]).
  - destruct Hj as ([id j'] & -> & Hin). simpl. apply elem_of_map_range in Hin.
    by rewrite (Hk _ _ Hin).
  - exists (cj_ID j, j). by rewrite elem_of_map_range.
Qed.

Lemma NoDup_due s now c : keys_ok c -> NoDup (map cj_ID (due s now c)).
Proof.
  intros Hk. unfold due. assert (NoDup (map cj_ID (map_range (ct_jobs c)).*2)) as Hnd.
  { replace (map cj_ID (map_range (ct_jobs c)).*2) with (map_range (ct_jobs c)).*1.
    - apply NoDup_fst_map_range.
    - rewrite <-list_fmap_compose. apply list_fmap_ext. intros i [id j] Hi. simpl.
      symmetry. apply Hk, elem_of_map_range. by eapply list_elem_of_lookup_2. }
  revert Hnd. generalize (map_range (ct_jobs c)).*2 as l.
  induction l as [|x l IH]; simpl; [done|]. intros [Hx Hl]%NoDup_cons.
  destruct (due_job _ _ x); simpl; [|by apply IH]. apply NoDup_cons. split; [|by apply IH].
  intros (y & Hy & Hin)%list_elem_of_fmap. apply Hx. rewrite Hy.
  apply list_elem_of_fmap_2. apply list_elem_of_In, filter_In in Hin as [Hin _].
  by apply list_elem_of_In.
Qed.

Lemma stmt_ok c : exists b, on_bg bg_stmt c = (None, mkCronState b (ct_jobs c) (ct_engine c) (ct_submits c)).
Proof.
  rewrite on_bg_run. destruct (bg_stmt_run (ct_bg c)) as [-> _]. rewrite Hdb. by eexists.
Qed.

(** A transaction whose body succeeds keeps what the body did. *)
Lemma sweep_run s now (f : CronJob F -> st (CronState F P W E) unit) (msg : error -> error) c :
  exists c0, rows_kept c c0 /\
    rows_kept (st_each f (due s now c) c0).2
      (transaction (d ← GetDueJobs (cs_orgID s) now;
         match d with
         | Err e => mret (Some (msg e))
         | Ok jobs => _ ← st_each f jobs; mret None
         end) c).2.
Proof.
  unfold transaction. rewrite st_bind_run. simpl. rewrite st_bind_run.
  assert (exists c0, rows_kept c c0 /\
    GetDueJobs (cs_orgID s) now c = (Ok (due s now c), c0)) as (c0 & Hk & Hd).
  { unfold GetDueJobs. rewrite st_bind_run. destruct (stmt_ok c) as [b ->]. simpl.
    eexists. split; [|reflexivity]. done. }
  exists c0. split; [done|]. rewrite st_bind_run, Hd. simpl. rewrite st_bind_run. simpl.
  rewrite st_bind_run. match goal with |- context [on_bg bg_stmt ?x] =>
    destruct (stmt_ok x) as [b ->] end. simpl. done.
Qed.

Lemma reliable_row (A B : Prop) : A /\ (exists b : W, (w_db b).1 <> None) \/ B -> B.
Proof. intros [[_ [b Hb]]|HB]; [|done]. by rewrite Hdb in Hb. Qed.

(** What a sweep over the due jobs of the organisation does to the engine and the
    table. *)
Definition sweeps (old : CronJob F -> bool) s (now : Time) c c' : Prop :=
  (exists ids, length ids = length (List.filter (fun j => negb (old j)) (due s now c)) /\
    ct_submits c' = ct_submits c ++
      zip_with job_request (List.filter (fun j => negb (old j)) (due s now c)) ids) /\
  (forall j, j ∈ due s now c -> rescheduled old j (ct_jobs c' !! cj_ID j)) /\
  (forall id, id ∉ map cj_ID (due s now c) -> ct_jobs c' !! id = ct_jobs c !! id).

Lemma transaction_sweeps old s now (f : CronJob F -> st (CronState F P W E) unit) msg c :
  keys_ok c -> (forall j c, swept old c j (f j c).2) ->
  sweeps old s now c
    (transaction (d ← GetDueJobs (cs_orgID s) now;
       match d with
       | Err e => mret (Some (msg e))
       | Ok jobs => _ ← st_each f jobs; mret None
       end) c).2.
Proof.
  intros Hk Hf. destruct (sweep_run s now f msg c) as (c0 & [Hj0 Hs0] & [Hj Hs]).
  destruct (sweep old f (due s now c) c0 Hf) as (Ha & Hb & Hc).
  - by apply NoDup_due.
  - intros j Hjd. rewrite Hj0. by apply elem_of_due in Hjd as [? _].
  - unfold sweeps. rewrite Hj, Hs. split_and!; [|done|].
    + by rewrite <-Hs0.
    + intros id Hid. by rewrite Hc, Hj0.
Qed.

Lemma tick_sweeps s c :
  keys_ok c -> sweeps (fun _ => false) s (w_now (bg_world (ct_bg c))).1 c (tick s c).2.
Proof.
  intros Hk. unfold tick. rewrite st_bind_run, on_bg_run. simpl. unfold bg_now.
  destruct (w_now (bg_world (ct_bg c))) as [now w]. simpl.
  set (c1 := mkCronState _ _ _ _).
  apply (transaction_sweeps (fun _ => false) s now (fireJob s) (Wrap "polling due jobs") c1 Hk).
  intros j c2. destruct (fireJob_fired s j c2) as [Hs Hj%reliable_row]. split; [done|].
  destruct Hj as (w' & t & e & n & Hj). by exists w', t, e, n.
Qed.

(** A tick submits exactly the due jobs.  Each enabled job of the organisation
    whose time has come is submitted once, as the user that owns it and with its own
    budget and limits, and nothing else is; its row gets the next time of its schedule
    and no other row changes. *)
Theorem tick_submits_due s c :
  keys_ok c -> sweeps (fun _ => false) s (w_now (bg_world (ct_bg c))).1 c (tick s c).2.
Proof. exact (tick_sweeps s c). Qed.

(** The recovery at start-up.  Of the jobs that are due, those whose time lies
    before the missed-job window are not submitted and are moved to their next time
    with the reason in their error; the others are submitted once each. *)
Theorem recovery_skips_old s c :
  keys_ok c ->
  let now := (w_now (bg_world (ct_bg c))).1 in
  sweeps (fun j => match cj_NextRunAt j with
                   | Some t => (t <? now - MissedJobWindow (cs_config s))%Z
                   | None => false
                   end) s now c (recoverMissedJobs s c).2.
Proof.
  intros Hk. unfold recoverMissedJobs. rewrite st_bind_run, on_bg_run. simpl. unfold bg_now.
  destruct (w_now (bg_world (ct_bg c))) as [now w]. simpl.
  set (c1 := mkCronState _ _ _ _).
  apply (transaction_sweeps _ s now (recoverJob s (now - MissedJobWindow (cs_config s))%Z)
    (fun e => e) c1 Hk).
  intros j c2. pose proof (recoverJob_run s (now - MissedJobWindow (cs_config s))%Z j c2) as Hr.
  cbv zeta in Hr. unfold time_Before in Hr. unfold swept.
  destruct (match cj_NextRunAt j with Some t => (t <? _)%Z | None => false end).
  - destruct Hr as [Hs Hj%reliable_row]. split; [exists ""; by rewrite app_nil_r|].
    destruct Hj as (t & n & Hj). exists uuid_Nil, t, skipped_msg, n. by split.
  - destruct Hr as [Hs Hj%reliable_row]. split; [done|].
    destruct Hj as (w' & t & e & n & Hj). by exists w', t, e, n.
Qed.

(** A schedule that is never satisfied (the thirtieth of February) runs at every
    poll.  Such an expression parses, its next time is the zero time, and a job that
    was due stays due after every tick, at any clock reading. *)
Theorem impossible_schedule_always_due s c j next now' :
  keys_ok c -> j ∈ due s (w_now (bg_world (ct_bg c))).1 c ->
  cron_Parse (cj_CronExpression j) = Ok next -> (forall t, next t = time_zero) ->
  (time_zero <= now')%Z ->
  exists j', ct_jobs (tick s c).2 !! cj_ID j = Some j' /\ due_job (cs_orgID s) now' j' = true /\
    cj_CronExpression j' = cj_CronExpression j.
Proof.
  intros Hk Hj Hp Hz Hnow. destruct (tick_sweeps s c Hk) as (_ & Hres & _).
  destruct (Hres j Hj) as (w & t & e & n & Hrow & _). eexists. split; [exact Hrow|]. split; [|done].
  apply elem_of_due in Hj as [_ Hd]; [|done]. unfold due_job, is_due in *. simpl.
  apply andb_true_iff in Hd as [Hd _]. rewrite Hd. simpl. apply Z.leb_le.
  unfold next_run. rewrite Hp, Hz. done.
Qed.

(** A job does not run twice at one time.  After a tick, every job that was due is
    next due strictly after a clock reading made when it was fired, unless its
    schedule is never satisfied. *)
Theorem fired_job_not_due_again `{!CronParserLaw} s c j :
  keys_ok c -> j ∈ due s (w_now (bg_world (ct_bg c))).1 c ->
  exists j' t, ct_jobs (tick s c).2 !! cj_ID j = Some j' /\
    (due_job (cs_orgID s) t j' = false \/ cj_NextRunAt j' = Some time_zero).
Proof.
  intros Hk Hj. destruct (tick_sweeps s c Hk) as (_ & Hres & _).
  destruct (Hres j Hj) as (w & t & e & n & Hrow & _). eexists _, t. split; [exact Hrow|].
  unfold due_job, is_due. simpl. destruct (next_run_later (cj_CronExpression j) t) as [Hlt| ->].
  - left. destruct (_ <=? t)%Z eqn:Hle; [lia|]. by rewrite andb_false_r.
  - by right.
Qed.
End props.
