(* ===== verification/Alerting.v ===== *)
(** * Alert rules

    [src/internal/alerting/alerting.go] and [checks.go] over the rules and the history
    of [src/internal/storage/postgres/alert_repo.go].  The HTTP client and the resolver
    are parameters ([HttpNet]).  As in [Cron], a tick evaluates its rules one after the
    other inside a transaction. *)

From Stdlib Require Import Ascii.
From S2P Require Import Prelude Text Config Domain Protocol Models SecurityManager Notification.

(** ** Strings *)

(** [s[:strings.IndexAny(s, chars)]], all of [s] when there is none. *)
Fixpoint before_any (s : string) (chars : list ascii) : string :=
  match s with
  | EmptyString => ""
  | String c s' => if existsb (Ascii.eqb c) chars then "" else String c (before_any s' chars)
  end.

Definition digit (c : ascii) : option Z :=
  let n := Z.of_N (N_of_ascii c) in
  if ((48 <=? n) && (n <=? 57))%Z then Some (n - 48)%Z else None.

Fixpoint digits (s : string) (acc : Z) : option Z :=
  match s with
  | EmptyString => Some acc
  | String c s' => match digit c with Some d => digits s' (acc * 10 + d)%Z | None => None end
  end.

(** [strconv.Atoi]. *)
Definition Atoi (s : string) : result error Z :=
  let unsigned s :=
    match s with EmptyString => None | _ => digits s 0 end in
  let r :=
    match s with
    | String "-" s' => Z.opp <$> unsigned s'
    | String "+" s' => unsigned s'
    | _ => unsigned s
    end in
  match r with
  | Some z =>
      if ((- 2 ^ 63 <=? z) && (z <=? 2 ^ 63 - 1))%Z then Ok z
      else Err (Errorf "strconv.Atoi: value out of range")
  | None => Err (Errorf "strconv.Atoi: invalid syntax")
  end.

(** ** The network *)

(** [net.LookupHost]; [net.ParseIP] with the tests of the check ([IsLoopback],
    [IsPrivate], [IsLinkLocalUnicast], [IsLinkLocalMulticast], [IsUnspecified]), [None]
    when it is no address; [http.NewRequest]; the status of [client.Do]. *)
Class HttpNet (W : Type) := {
  LookupHost : string -> result error (list string);
  ip_internal : string -> option bool;
  http_NewRequest : string -> option error;
  http_Do : string -> Duration -> W -> result error Z * W;
}.

Section checks.
Context {W : Type} `{!HttpNet W} `{!ErrorText} `{!Render}.

(** The host name [validateCheckURL] cuts out of the text of a URL. *)
Definition check_hostname (rawURL : string) : string :=
  let rest := match cut rawURL "://" with Some (_, r) => r | None => rawURL end in
  before_any rest [":"; "/"]%char.

Definition validateCheckURL (rawURL : string) : option error :=
  let hostname := check_hostname rawURL in
  let lower := to_lower hostname in
  if slice_contains ["localhost"; "127.0.0.1"; "::1"; "0.0.0.0"] lower
  then Some (Errorf "loopback addresses not allowed")
  else
    match LookupHost hostname with
    | Err err => Some (Wrap "DNS lookup failed" err)
    | Ok ips =>
        if existsb (fun ip => default false (ip_internal ip)) ips
        then Some (Errorf "private/internal IP not allowed") else None
    end.

(** A check's status, message and error. *)
Definition outcome : Type := string * string * option error.

Definition config_get (config : gmap string string) (k : string) : string := default "" (config !! k).

(** The expected status and the timeout of the configuration. *)
Definition expected_status (config : gmap string string) : result error Z :=
  let v := config_get config "expected_status" in
  if String.eqb v "" then Ok 200%Z else Atoi v.

Definition check_timeout (config : gmap string string) : Duration :=
  let v := config_get config "timeout_seconds" in
  (match Atoi v with
   | Ok n => if negb (String.eqb v "") && (0 <? n)%Z then n else 10
   | Err _ => 10
   end * Second)%Z.

Definition status_message (got expected : Z) : string :=
  "HTTP " +:+ itoa got +:+ " (expected " +:+ itoa expected +:+ ")".

Definition HTTPCheck (config : gmap string string) : st W outcome :=
  let rawURL := config_get config "url" in
  if String.eqb rawURL "" then mret ("error", "missing url in check config", Some (Errorf "missing url"))
  else
    match validateCheckURL rawURL with
    | Some err => mret ("error", "URL rejected: " +:+ error_Error err, Some err)
    | None =>
        match expected_status config with
        | Err e => mret ("error", "invalid expected_status", Some (Wrap "invalid expected_status" e))
        | Ok expected =>
            match http_NewRequest rawURL with
            | Some err => mret ("error", "creating request: " +:+ error_Error err, Some err)
            | None =>
                resp ← (http_Do rawURL (check_timeout config) : st W (result error Z));
                mret (match resp with
                      | Err err => ("alert", "request failed: " +:+ error_Error err, None)
                      | Ok code =>
                          (if (code =? expected)%Z then "ok" else "alert",
                           status_message code expected, None)
                      end)
            end
        end
    end.

Definition RunCheck (checkType : string) (config : gmap string string) : st W outcome :=
  if String.eqb checkType "http_status" then HTTPCheck config
  else if String.eqb checkType "command" then
    mret ("error", "command checks must be executed via workflow engine",
      Some (Errorf "command check type not supported in direct evaluation"))
  else mret ("error", "unknown check type: " +:+ checkType, Some (Errorf "unknown check type")).
End checks.

(** ** The checker *)

Record CheckerConfig := mkCheckerConfig { ck_PollIntervalSeconds : Z; ck_MaxConcurrentChecks : Z }.

Definition checker_pollInterval (c : option CheckerConfig) : Duration :=
  match c with Some c => seconds_or (ck_PollIntervalSeconds c) (30 * Second)%Z | None => (30 * Second)%Z end.
Definition checker_maxConcurrent (c : option CheckerConfig) : Z :=
  match c with Some c => positive_or (ck_MaxConcurrentChecks c) 10 | None => 10%Z end.

(** Whether a check notifies: its status is bad and new, and the cooldown is over. *)
Definition status_changed (previous status : string) : bool :=
  negb (String.eqb previous "") && negb (String.eqb previous status).

Definition bad_status (status : string) : bool :=
  String.eqb status "alert" || String.eqb status "error".

Definition wants_notification (rule : AlertRule) (status : string) : bool :=
  bad_status status &&
  (status_changed (ar_LastStatus rule) status || String.eqb (ar_LastStatus rule) "").

(** The end of the rule's cooldown, when it has one and has alerted. *)
Definition cooldown_until (rule : AlertRule) : option Time :=
  match ar_LastAlertedAt rule with
  | Some at_ =>
      if (0 <? ar_CooldownS rule)%Z then Some (at_ + wrap64 (ar_CooldownS rule * Second))%Z else None
  | None => None
  end.

Section alerting.
Context {F P W : Type}.
Context `{!Num F} `{!ErrorText} `{!Render} `{!World W} `{!GoParams P} `{!HttpNet W} `{!CronParser}.
Context `{!MapRange uuid NotificationChannel} `{!MapRange uuid AlertRule}.
Context `{!MapRange uuid (option error)}.

Record Checker := mkChecker {
  ck_dispatcher : option (Dispatcher W);
  ck_security : bool;
  ck_config : option CheckerConfig;
  ck_orgID : uuid;
}.

(** [al_fired] are the alerts counted by the metric [AlertsFired]: rule and status. *)
Record AlertState := mkAlertState {
  al_bg : Bg F P W;
  al_rules : gmap uuid AlertRule;
  al_history : list AlertHistory;
  al_fired : list (uuid * string);
}.

Abbreviation AM := (st AlertState).

Definition set_rules (m : gmap uuid AlertRule) (s : AlertState) : AlertState :=
  mkAlertState (al_bg s) m (al_history s) (al_fired s).

Definition on_bg {A} (m : st (Bg F P W) A) : AM A := fun s =>
  let '(a, b) := m (al_bg s) in (a, mkAlertState b (al_rules s) (al_history s) (al_fired s)).

Definition on_world {A} (m : st W A) : AM A :=
  on_bg (fun b => let '(a, w) := m (bg_world b) in (a, bg_set_world w b)).

(** ** The stores *)

(** [Create]: the row has its defaults. *)
Definition rule_Create `{!RowJson} (r : AlertRule) : AM (option error) :=
  err ← on_bg bg_stmt;
  match err with
  | Some e => mret (Some (Wrap "creating alert rule" e))
  | None => _ ← st_modify (fun s => set_rules (<[ar_ID r := stored r]> (al_rules s)) s); mret None
  end.

Definition rule_Get (orgID id : uuid) : AM (result error AlertRule) :=
  err ← on_bg bg_stmt;
  match err with
  | Some e => mret (Err (Wrap "getting alert rule" e))
  | None =>
      rule ← st_get (fun s => al_rules s !! id);
      mret (match rule with
            | Some r => if bool_decide (ar_OrgID r = orgID) then Ok r
                        else Err (Wrap "getting alert rule" (Errorf "record not found"))
            | None => Err (Wrap "getting alert rule" (Errorf "record not found"))
            end)
  end.

Definition rule_List (orgID : uuid) : AM (result error (list AlertRule)) :=
  err ← on_bg bg_stmt;
  match err with
  | Some e => mret (Err (Wrap "listing alert rules" e))
  | None =>
      rules ← st_get (fun s => (map_range (al_rules s)).*2);
      mret (Ok (newest ar_CreatedAt (List.filter (fun r => bool_decide (ar_OrgID r = orgID)) rules)))
  end.

(** [Update] saves the row by its key. *)
Definition rule_Update (r : AlertRule) : AM (option error) :=
  err ← on_bg bg_stmt;
  match err with
  | Some e => mret (Some (Wrap "updating alert rule" e))
  | None => _ ← st_modify (fun s => set_rules (<[ar_ID r := r]> (al_rules s)) s); mret None
  end.

Definition rule_Delete (orgID id : uuid) : AM (option error) :=
  err ← on_bg bg_stmt;
  match err with
  | Some e => mret (Some (Wrap "deleting alert rule" e))
  | None =>
      rule ← st_get (fun s => al_rules s !! id);
      match rule with
      | Some r =>
          if bool_decide (ar_OrgID r = orgID)
          then _ ← st_modify (fun s => set_rules (delete id (al_rules s)) s); mret None
          else mret (Some (Errorf "alert rule not found"))
      | None => mret (Some (Errorf "alert rule not found"))
      end
  end.

Definition due_rule (orgID : uuid) (now : Time) (r : AlertRule) : bool :=
  is_due (ar_OrgID r) orgID (ar_Enabled r) (ar_NextRunAt r) now.

Definition GetDueAlerts (orgID : uuid) (now : Time) : AM (result error (list AlertRule)) :=
  err ← on_bg bg_stmt;
  match err with
  | Some e => mret (Err (Wrap "getting due alert rules" e))
  | None => rules ← st_get (fun s => (map_range (al_rules s)).*2);
            mret (Ok (List.filter (due_rule orgID now) rules))
  end.

Definition checked (r : AlertRule) (nextRunAt : Time) (status errMsg : string) (now : Time) : AlertRule :=
  mkAlertRule (ar_ID r) (ar_OrgID r) (ar_Name r) (ar_Description r) (ar_Target r) (ar_CheckType r)
    (ar_CheckConfig r) (ar_CronExpression r) (ar_ChannelIDs r) (ar_UserID r) (ar_Enabled r)
    (ar_CooldownS r) (Some now) (ar_LastAlertedAt r)
    (if String.eqb errMsg "" then status else "error") (Some nextRunAt) (ar_CreatedAt r) now.

Definition RecordCheck (id : uuid) (nextRunAt : Time) (status errMsg : string) : AM (option error) :=
  now ← on_bg bg_now;
  err ← on_bg bg_stmt;
  match err with
  | Some e => mret (Some (Wrap "recording check for alert rule" e))
  | None =>
      _ ← st_modify (fun s =>
            set_rules (alter (fun r => checked r nextRunAt status errMsg now) id (al_rules s)) s);
      mret None
  end.

Definition alerted (r : AlertRule) (now : Time) : AlertRule :=
  mkAlertRule (ar_ID r) (ar_OrgID r) (ar_Name r) (ar_Description r) (ar_Target r) (ar_CheckType r)
    (ar_CheckConfig r) (ar_CronExpression r) (ar_ChannelIDs r) (ar_UserID r) (ar_Enabled r)
    (ar_CooldownS r) (ar_LastCheckedAt r) (Some now) (ar_LastStatus r) (ar_NextRunAt r)
    (ar_CreatedAt r) (ar_UpdatedAt r).

Definition RecordAlerted (id : uuid) : AM (option error) :=
  now ← on_bg bg_now;
  err ← on_bg bg_stmt;
  match err with
  | Some e => mret (Some (Wrap "recording alerted for alert rule" e))
  | None => _ ← st_modify (fun s => set_rules (alter (fun r => alerted r now) id (al_rules s)) s);
            mret None
  end.

(** [AlertHistoryRepository.Append]. *)
Definition history_Append (h : AlertHistory) : AM (option error) :=
  err ← on_bg bg_stmt;
  match err with
  | Some e => mret (Some (Wrap "appending alert history" e))
  | None =>
      _ ← st_modify (fun s => mkAlertState (al_bg s) (al_rules s) (al_history s ++ [h]) (al_fired s));
      mret None
  end.

(** [ListByRule] and [ListRecent]. *)
Definition history_limit (limit : Z) : nat := Z.to_nat (if (limit <=? 0)%Z then 50 else limit).

Definition history_List (orgID : uuid) (ruleID : option uuid) (limit : Z) : AM (result error (list AlertHistory)) :=
  err ← on_bg bg_stmt;
  match err with
  | Some e => mret (Err (Wrap "listing alert history" e))
  | None =>
      rows ← st_get al_history;
      mret (Ok (take (history_limit limit) (newest ah_CreatedAt
        (List.filter (fun h => bool_decide (ah_OrgID h = orgID) &&
           match ruleID with Some id => bool_decide (ah_AlertRuleID h = id) | None => true end) rows))))
  end.

(** ** Evaluating a rule *)

Definition auditLog (c : Checker) (correlationID action : string) (rule : AlertRule)
    (res errMsg : string) : AM unit :=
  if ck_security c then
    now ← on_bg bg_now;
    on_bg (LogAction (mkAuditEvent now correlationID (ar_UserID rule) action "alerting"
      (Some (params_of [("rule_id", uuid_String (ar_ID rule)); ("rule_name", ar_Name rule);
               ("target", ar_Target rule); ("check_type", ar_CheckType rule)]))
      res 0 (nofZ 0) "" errMsg))
  else mret tt.

Definition nl : string := String (ascii_of_N 10) "".

Definition alert_message (rule : AlertRule) (status message : string) : Message :=
  mkMessage ("[Akili Alert] " +:+ ar_Name rule +:+ " — " +:+ status)
    ("Alert: " +:+ ar_Name rule +:+ nl +:+ "Target: " +:+ ar_Target rule +:+ nl +:+
     "Status: " +:+ status +:+ " (was: " +:+ ar_LastStatus rule +:+ ")" +:+ nl +:+
     "Details: " +:+ message)
    [("alert_rule_id", uuid_String (ar_ID rule)); ("status", status);
     ("previous_status", ar_LastStatus rule); ("target", ar_Target rule); ("type", "alert")].

(** The dispatch of [evaluateRule]: the channels that took the message and the errors
    of the others. *)
Definition dispatchAlert (c : Checker) (rule : AlertRule) (status message : string)
    (shouldNotify : bool) : AM (list string * list string) :=
  match ck_dispatcher c with
  | Some d =>
      if shouldNotify && (0 <? length (ar_ChannelIDs rule)) then
        results ← on_bg (Notify d (ar_OrgID rule) (ar_ChannelIDs rule)
                           (alert_message rule status message) (ar_UserID rule));
        _ ← st_modify (fun s => mkAlertState (al_bg s) (al_rules s) (al_history s)
                                  (al_fired s ++ [(ar_ID rule, status)]));
        _ ← RecordAlerted (ar_ID rule);
        let entries := map_range results in
        mret (omap (fun '(id, e) => match e with None => Some (uuid_String id) | Some _ => None end)
                entries,
              omap (fun '(id, e) => match e with
                                    | Some e => Some (uuid_String id +:+ ": " +:+ error_Error e)
                                    | None => None
                                    end) entries)
      else mret ([], [])
  | None => mret ([], [])
  end.

(** The decision to notify; the clock is read for a cooldown only. *)
Definition decideNotify (rule : AlertRule) (status : string) : AM bool :=
  if wants_notification rule status then
    match cooldown_until rule with
    | Some until_ => now ← on_bg bg_now; mret (negb (time_Before now until_))
    | None => mret true
    end
  else mret false.

Definition evaluateRule (c : Checker) (rule : AlertRule) : AM unit :=
  correlationID ← on_bg bg_correlationID;
  checkStart ← on_bg bg_now;
  _ ← auditLog c correlationID "alert.check" rule "intent" "";
  out ← on_world (RunCheck (ar_CheckType rule) (ar_CheckConfig rule));
  checkEnd ← on_bg bg_now;
  let '(status, message, checkErr) := out in
  let status := match checkErr with Some _ => "error" | None => status end in
  let message := match checkErr with Some e => error_Error e | None => message end in
  next ← on_bg bg_now;
  shouldNotify ← decideNotify rule status;
  notified ← dispatchAlert c rule status message shouldNotify;
  hid ← on_bg bg_uuid;
  created ← on_bg bg_now;
  _ ← history_Append (mkAlertHistory hid (ar_OrgID rule) (ar_ID rule) status (ar_LastStatus rule)
        message notified.1 notified.2 (Z.quot (checkEnd - checkStart) 1000000) created);
  let errMsg := match checkErr with Some e => error_Error e | None => "" end in
  _ ← RecordCheck (ar_ID rule) (next_run (ar_CronExpression rule) next) status errMsg;
  auditLog c correlationID "alert.check" rule
    (match checkErr with Some _ => "failure" | None => "success" end) errMsg.

(** [tick]: the rows are restored when the poll or the commit fails. *)
Definition alert_tick (c : Checker) : AM (option error) :=
  now ← on_bg bg_now;
  rules ← st_get al_rules;
  due ← GetDueAlerts (ck_orgID c) now;
  match due with
  | Err e => mret (Some (Wrap "polling due alerts" e))
  | Ok dueAlerts =>
      _ ← st_each (evaluateRule c) dueAlerts;
      commit ← on_bg bg_stmt;
      match commit with
      | Some e => _ ← st_modify (set_rules rules); mret (Some e)
      | None => mret None
      end
  end.
End alerting.

Arguments Checker W : clear implicits.
Arguments AlertState F P W : clear implicits.
