(* ===== verification/AlertingProps.v ===== *)
(** * What the alert checker guarantees

    When a check notifies, what it records, and what the SSRF filter of the HTTP check
    lets through ([Alerting]). *)

From Stdlib Require Import Ascii.
From S2P Require Import Prelude Text Config Domain SecurityManager Notification Alerting.

Section props.
Context {F P W : Type}.
Context `{!Num F} `{!ErrorText} `{!Render} `{!World W} `{!GoParams P} `{!HttpNet W} `{!CronParser}.
Context `{!MapRange uuid NotificationChannel} `{!MapRange uuid AlertRule}.
Context `{!MapRange uuid (option error)}.
Implicit Types (c : Checker W) (s : AlertState F P W) (rule : AlertRule).

(** ** What the steps leave alone *)

(** Messages sent and channels. *)
Definition bg_same (b b' : Bg F P W) : Prop := bg_sent b' = bg_sent b /\ bg_channels b' = bg_channels b.

Lemma bg_same_trans (b1 b2 b3 : Bg F P W) : bg_same b1 b2 -> bg_same b2 b3 -> bg_same b1 b3.
Proof. intros [] []. unfold bg_same. split; congruence. Qed.

Definition al_kept s s' : Prop :=
  al_rules s' = al_rules s /\ al_history s' = al_history s /\ al_fired s' = al_fired s /\
  bg_same (al_bg s) (al_bg s').

Lemma al_kept_trans s1 s2 s3 : al_kept s1 s2 -> al_kept s2 s3 -> al_kept s1 s3.
Proof. intros (? & ? & ? & ? & ?) (? & ? & ? & ? & ?). unfold al_kept, bg_same. split_and!; congruence. Qed.

Lemma alert_bg_run {A} (m : st (Bg F P W) A) s :
  on_bg m s = ((m (al_bg s)).1,
    mkAlertState (m (al_bg s)).2 (al_rules s) (al_history s) (al_fired s)).
Proof. unfold on_bg. by destruct (m (al_bg s)). Qed.

Lemma bg_now_run (b : Bg F P W) : bg_now b = ((w_now (bg_world b)).1, bg_set_world (w_now (bg_world b)).2 b).
Proof. unfold bg_now. by destruct (w_now _). Qed.

(** The steps that neither send nor change a channel. *)
Definition quiet {A} (m : st (Bg F P W) A) : Prop := forall b, bg_same b (m b).2.

Lemma quiet_now : quiet bg_now.
Proof. intros b. by rewrite bg_now_run. Qed.
Lemma quiet_uuid : quiet bg_uuid.
Proof. intros b. unfold bg_uuid. by destruct (w_uuid _). Qed.
Lemma quiet_correlationID : quiet bg_correlationID.
Proof. intros b. unfold bg_correlationID. by destruct (w_correlationID _). Qed.
Lemma quiet_stmt : quiet bg_stmt.
Proof. intros b. unfold bg_stmt. by destruct (w_db _). Qed.
Lemma quiet_log e : quiet (LogAction e).
Proof. done. Qed.
#[local] Hint Resolve quiet_now quiet_uuid quiet_correlationID quiet_stmt quiet_log : go.

Lemma alert_bg_kept {A} (m : st (Bg F P W) A) s0 : quiet m -> preserves (al_kept s0) (on_bg m).
Proof. intros Hm s Hs. rewrite alert_bg_run. eapply al_kept_trans; [exact Hs|]. by split_and!; [..|apply Hm]. Qed.
#[local] Hint Extern 1 (preserves _ (on_bg _)) => (apply alert_bg_kept; eauto 2 with go) : go.

Lemma alert_audit_kept c id a rule r e s0 : preserves (al_kept s0) (auditLog c id a rule r e).
Proof. unfold auditLog. preserve. Qed.
#[local] Hint Resolve alert_audit_kept : go.

Lemma decide_kept rule status s0 : preserves (al_kept s0) (decideNotify rule status).
Proof. unfold decideNotify. preserve. Qed.
#[local] Hint Resolve decide_kept : go.

Lemma on_bg_rows {A} (m : st (Bg F P W) A) s : quiet m -> al_kept s (on_bg m s).2.
Proof. intros Hm. by apply alert_bg_kept. Qed.

(** ** When a rule is due to notify *)

(** The status is bad and not the recorded one, the rule has channels and somebody to send,
    and a cooldown, counted from the last alert, is over at [now]. *)
Record alert_due c rule (status : string) (now : Time) : Prop := {
  due_bad : status = "alert" \/ status = "error";
  due_new : ar_LastStatus rule <> status;
  due_cool : forall t, ar_LastAlertedAt rule = Some t -> (0 < ar_CooldownS rule)%Z ->
    (t + wrap64 (ar_CooldownS rule * Second) <= now)%Z;
  due_channels : ar_ChannelIDs rule <> [];
  due_dispatcher : ck_dispatcher c <> None;
}.

(** The decision of the code, by the clock of the world. *)
Definition decided rule (status : string) (now : Time) : bool :=
  wants_notification rule status &&
  match cooldown_until rule with Some until_ => negb (time_Before now until_) | None => true end.

Definition can_notify c rule : bool :=
  match ck_dispatcher c with Some _ => 0 <? length (ar_ChannelIDs rule) | None => false end.

Lemma wants_notification_spec rule status :
  wants_notification rule status = true <-> (status = "alert" \/ status = "error") /\ ar_LastStatus rule <> status.
Proof.
  unfold wants_notification, bad_status, status_changed.
  rewrite andb_true_iff, !orb_true_iff, andb_true_iff, !negb_true_iff, !String.eqb_eq, !String.eqb_neq. split.
  - intros [Hb [[_ Hne]|E]]; (split; [done|]); [done|]. rewrite E. by destruct Hb as [->| ->].
  - intros [Hb Hne]. split; [done|]. destruct (String.eqb_spec (ar_LastStatus rule) ""); auto.
Qed.

Lemma due_spec c rule status now : decided rule status now && can_notify c rule = true <-> alert_due c rule status now.
Proof.
  unfold decided, can_notify. rewrite !andb_true_iff, wants_notification_spec. unfold cooldown_until, time_Before. split.
  - intros [[[Hb Hn] Hc] Hd]. destruct (ck_dispatcher c) eqn:Ed; [|done].
    split; [done|done| | |congruence].
    + intros t Ht Hpos. rewrite Ht in Hc. destruct (Z.ltb_spec 0 (ar_CooldownS rule)); lia.
    + intros E. by rewrite E in Hd.
  - intros [Hb Hn Hc Hch Hd]. split_and!; [done|done| |].
    + destruct (ar_LastAlertedAt rule) as [t|]; [|done]. destruct (Z.ltb_spec 0 (ar_CooldownS rule)); [|done].
      specialize (Hc t eq_refl). lia.
    + destruct (ck_dispatcher c); [|done]. by destruct (ar_ChannelIDs rule).
Qed.

Lemma decide_run rule status s :
  (decideNotify rule status s).1 = decided rule status (w_now (bg_world (al_bg s))).1.
Proof.
  unfold decideNotify, decided. destruct (wants_notification rule status); [|done].
  destruct (cooldown_until rule); [|done]. by rewrite st_bind_run, alert_bg_run, bg_now_run.
Qed.

(** ** The statements, when none of them fails *)

Context (Hdb : forall w : W, (w_db w).1 = None).

Lemma alert_stmt_ok s : exists b, bg_same (al_bg s) b /\
  on_bg bg_stmt s = (None, mkAlertState b (al_rules s) (al_history s) (al_fired s)).
Proof.
  exists (bg_stmt (al_bg s)).2. split; [apply quiet_stmt|]. rewrite alert_bg_run. f_equal.
  unfold bg_stmt. pose proof (Hdb (bg_world (al_bg s))) as Hw. by destruct (w_db _).
Qed.

Lemma RecordAlerted_run id s :
  exists now, al_rules (RecordAlerted id s).2 = alter (fun r => alerted r now) id (al_rules s) /\
    al_history (RecordAlerted id s).2 = al_history s /\ al_fired (RecordAlerted id s).2 = al_fired s /\
    bg_same (al_bg s) (al_bg (RecordAlerted id s).2).
Proof.
  unfold RecordAlerted. rewrite st_bind_run, alert_bg_run, bg_now_run. simpl. rewrite st_bind_run.
  match goal with |- context [on_bg bg_stmt ?x] => destruct (alert_stmt_ok x) as (b & Hb & ->) end. simpl. by eexists.
Qed.

Lemma RecordCheck_run id n st_ e s :
  exists now, al_rules (RecordCheck id n st_ e s).2 = alter (fun r => checked r n st_ e now) id (al_rules s) /\
    al_history (RecordCheck id n st_ e s).2 = al_history s /\ al_fired (RecordCheck id n st_ e s).2 = al_fired s /\
    bg_same (al_bg s) (al_bg (RecordCheck id n st_ e s).2).
Proof.
  unfold RecordCheck. rewrite st_bind_run, alert_bg_run, bg_now_run. simpl. rewrite st_bind_run.
  match goal with |- context [on_bg bg_stmt ?x] => destruct (alert_stmt_ok x) as (b & Hb & ->) end. simpl. by eexists.
Qed.

Lemma Append_run h s :
  al_rules (history_Append h s).2 = al_rules s /\
  al_history (history_Append h s).2 = al_history s ++ [h] /\
  al_fired (history_Append h s).2 = al_fired s /\ bg_same (al_bg s) (al_bg (history_Append h s).2).
Proof.
  unfold history_Append. rewrite st_bind_run. destruct (alert_stmt_ok s) as (b & Hb & ->). done.
Qed.

(** What the notification leaves: the message sent to the channels of the rule and the alert
    counted, or nothing. *)
Definition sent_for c rule (status message : string) (b b' : Bg F P W) : Prop :=
  exists d b1, ck_dispatcher c = Some d /\ bg_same b b1 /\
    bg_sent b' = bg_sent (Notify d (ar_OrgID rule) (ar_ChannelIDs rule) (alert_message rule status message)
                            (ar_UserID rule) b1).2.

Lemma dispatch_run c rule status message should s :
  let s' := (dispatchAlert c rule status message should s).2 in
  al_history s' = al_history s /\
  if should && can_notify c rule
  then al_fired s' = al_fired s ++ [(ar_ID rule, status)] /\ sent_for c rule status message (al_bg s) (al_bg s') /\
       exists now, al_rules s' = alter (fun r => alerted r now) (ar_ID rule) (al_rules s)
  else al_kept s s'.
Proof.
  unfold dispatchAlert, can_notify. destruct (ck_dispatcher c) as [d|] eqn:Ed; [|by rewrite andb_false_r].
  destruct should; simpl; [|done]. destruct (0 <? length (ar_ChannelIDs rule)); simpl; [|done].
  rewrite st_bind_run, alert_bg_run. simpl. rewrite st_bind_run. simpl. rewrite st_bind_run.
  match goal with |- context [RecordAlerted ?i ?x] =>
    destruct (RecordAlerted_run i x) as (now & Hr & Hh & Hf & Hs & _) end.
  simpl in *. rewrite Hh, Hf, Hr. split_and!; [done|done| |by exists now].
  exists d, (al_bg s). by rewrite Hs.
Qed.

(** ** One evaluation *)

(** The status and the message a check ends with. *)
Definition final_status (o : outcome) : string :=
  match o.2 with Some _ => "error" | None => o.1.1 end.
Definition final_message (o : outcome) : string :=
  match o.2 with Some e => error_Error e | None => o.1.2 end.

Definition same_identity (r r' : AlertRule) : Prop :=
  ar_ID r' = ar_ID r /\ ar_CheckType r' = ar_CheckType r /\ ar_CheckConfig r' = ar_CheckConfig r /\
  ar_ChannelIDs r' = ar_ChannelIDs r /\ ar_CooldownS r' = ar_CooldownS r.

(** The check of an evaluation: it runs on the world after the correlation identifier and the
    clock were read, the clock once more when the audit is on. *)
Definition check_of c rule s : outcome * W :=
  let w := (w_now (w_correlationID (bg_world (al_bg s))).2).2 in
  RunCheck (ar_CheckType rule) (ar_CheckConfig rule) (if ck_security c then (w_now w).2 else w).

(** When it is decided: the clock is read twice after the check, and then for the decision. *)
Definition decision_time c rule s : Time := (w_now (w_now (w_now (check_of c rule s).2).2).2).1.

(** What an evaluation does whose check ended with [o] and that decides at [now]. *)
Record concluded c rule (o : outcome) (now : Time) s s' : Prop := {
  ev_fires : alert_due c rule (final_status o) now ->
    al_fired s' = al_fired s ++ [(ar_ID rule, final_status o)] /\
    sent_for c rule (final_status o) (final_message o) (al_bg s) (al_bg s');
  ev_silent : ~ alert_due c rule (final_status o) now ->
    al_fired s' = al_fired s /\ bg_sent (al_bg s') = bg_sent (al_bg s);
  ev_history : exists h, al_history s' = al_history s ++ [h] /\
    ah_AlertRuleID h = ar_ID rule /\ ah_Status h = final_status o /\
    ah_PreviousStatus h = ar_LastStatus rule /\ ah_Message h = final_message o;
  ev_others : forall id, id <> ar_ID rule -> al_rules s' !! id = al_rules s !! id;
  ev_row : forall r, al_rules s !! ar_ID rule = Some r -> exists r', al_rules s' !! ar_ID rule = Some r' /\
    same_identity r r' /\ ar_LastStatus r' = final_status o /\
    (~ alert_due c rule (final_status o) now -> ar_LastAlertedAt r' = ar_LastAlertedAt r);
}.

Definition evaluated c rule s s' : Prop :=
  concluded c rule (check_of c rule s).1 (decision_time c rule s) s s'.

(** The rows after the check of [rule] was recorded. *)
Lemma checked_rows rule (o : outcome) n now (rules : gmap uuid AlertRule) r :
  rules !! ar_ID rule = Some r ->
  exists r', alter (fun r => checked r n (final_status o) (match o.2 with Some e => error_Error e | None => "" end) now)
      (ar_ID rule) rules !! ar_ID rule = Some r' /\
    same_identity r r' /\ ar_LastStatus r' = final_status o /\ ar_LastAlertedAt r' = ar_LastAlertedAt r.
Proof.
  intros Hr. rewrite lookup_alter_eq, Hr. eexists. split; [reflexivity|]. split; [by split_and!|]. split; [|done].
  unfold final_status. simpl. destruct o.2 as [e|]; [|done]. by destruct (String.eqb _ _).
Qed.

(** The last stages: append the record, record the check. *)
Lemma record_stage_run c rule o cid start end_ next (notified : list string * list string) s :
  let status := final_status o in
  let errMsg := match o.2 with Some e => error_Error e | None => "" end in
  let s' := ((hid ← on_bg bg_uuid;
      created ← on_bg bg_now;
      _ ← history_Append (mkAlertHistory hid (ar_OrgID rule) (ar_ID rule) status (ar_LastStatus rule)
            (final_message o) notified.1 notified.2 (Z.quot (end_ - start) 1000000) created);
      _ ← RecordCheck (ar_ID rule) (next_run (ar_CronExpression rule) next) status errMsg;
      auditLog c cid "alert.check" rule (match o.2 with Some _ => "failure" | None => "success" end) errMsg) s).2 in
  (exists h, al_history s' = al_history s ++ [h] /\ ah_AlertRuleID h = ar_ID rule /\ ah_Status h = status /\
     ah_PreviousStatus h = ar_LastStatus rule /\ ah_Message h = final_message o) /\
  al_fired s' = al_fired s /\ bg_same (al_bg s) (al_bg s') /\
  exists now, al_rules s' =
    alter (fun r => checked r (next_run (ar_CronExpression rule) next) status errMsg now) (ar_ID rule) (al_rules s).
Proof.
  cbv zeta. rewrite st_bind_run, alert_bg_run. cbn [fst snd]. rewrite st_bind_run, alert_bg_run. cbn [fst snd al_bg].
  rewrite st_bind_run.
  match goal with |- context [history_Append ?h ?x] => destruct (Append_run h x) as (Hr3 & Hh3 & Hf3 & Hs3);
    generalize dependent (history_Append h x).2 end.
  cbn [al_rules al_history al_fired al_bg]. intros s3 Hr3 Hh3 Hf3 Hs3. rewrite st_bind_run.
  match goal with |- context [RecordCheck ?i ?n ?st ?e s3] =>
    destruct (RecordCheck_run i n st e s3) as (t & Hr4 & Hh4 & Hf4 & Hs4);
    generalize dependent (RecordCheck i n st e s3).2 end.
  intros s4 Hr4 Hh4 Hf4 Hs4.
  match goal with |- context [auditLog c ?a ?b rule ?r ?e s4] =>
    destruct (alert_audit_kept c a b rule r e s4 s4) as (Hr5 & Hh5 & Hf5 & Hs5); [done|];
    generalize dependent (auditLog c a b rule r e s4).2 end.
  intros s5 Hr5 Hh5 Hf5 Hs5. rewrite Hh5, Hh4, Hh3, Hf5, Hf4, Hf3, Hr5, Hr4, Hr3.
  split; [eexists; by split_and!|]. split; [done|]. split; [|by eexists].
  eapply bg_same_trans; [apply quiet_uuid|]. eapply bg_same_trans; [apply quiet_now|].
  eapply bg_same_trans; [exact Hs3|]. by eapply bg_same_trans.
Qed.

(** The stages after the check. *)
Lemma conclude_run c rule o cid start end_ next s s0 :
  al_kept s0 s ->
  concluded c rule o (w_now (bg_world (al_bg s))).1 s0
    ((shouldNotify ← decideNotify rule (final_status o);
      notified ← dispatchAlert c rule (final_status o) (final_message o) shouldNotify;
      hid ← on_bg bg_uuid;
      created ← on_bg bg_now;
      _ ← history_Append (mkAlertHistory hid (ar_OrgID rule) (ar_ID rule) (final_status o) (ar_LastStatus rule)
            (final_message o) notified.1 notified.2 (Z.quot (end_ - start) 1000000) created);
      _ ← RecordCheck (ar_ID rule) (next_run (ar_CronExpression rule) next) (final_status o)
            (match o.2 with Some e => error_Error e | None => "" end);
      auditLog c cid "alert.check" rule (match o.2 with Some _ => "failure" | None => "success" end)
        (match o.2 with Some e => error_Error e | None => "" end)) s).2.
Proof.
  intros Hk0. rewrite st_bind_run, decide_run. set (now := (w_now _).1).
  pose proof (decide_kept rule (final_status o) s0 s Hk0) as Hk1.
  generalize dependent (decideNotify rule (final_status o) s).2. intros s1 (Hr1 & Hh1 & Hf1 & Hs1). rewrite st_bind_run.
  pose proof (dispatch_run c rule (final_status o) (final_message o) (decided rule (final_status o) now) s1) as Hd.
  generalize dependent (dispatchAlert c rule (final_status o) (final_message o) (decided rule (final_status o) now) s1).
  intros [notified s2] [Hh2 Hd]. cbn [fst snd] in *.
  destruct (record_stage_run c rule o cid start end_ next notified s2) as ((h & Hh & Hfields) & Hf & Hs & t & Hr).
  match type of Hf with al_fired ?x = _ => generalize dependent x end. intros s5 Hh Hf Hs Hr.
  destruct (decided rule (final_status o) now && can_notify c rule) eqn:Edue.
  - destruct Hd as (Hf2 & (d & b1 & Ed & Hb1 & Hsent) & t2 & Hr2). apply due_spec in Edue. split.
    + intros _. rewrite Hf, Hf2, Hf1. split; [done|]. exists d, b1. split; [done|].
      split; [by eapply bg_same_trans|]. rewrite <-Hsent. apply Hs.
    + done.
    + exists h. by rewrite Hh, Hh2, Hh1.
    + intros id Hid. by rewrite Hr, Hr2, !lookup_alter_ne, Hr1.
    + intros r Hrow. rewrite <-Hr1 in Hrow.
      destruct (checked_rows rule o (next_run (ar_CronExpression rule) next) t (al_rules s2) (alerted r t2)) as (r' & Hr' & Hi & Hst & _).
      { by rewrite Hr2, lookup_alter_eq, Hrow. }
      exists r'. rewrite Hr. by split_and!.
  - assert (~ alert_due c rule (final_status o) now) as Hnot by by rewrite <-due_spec, Edue.
    destruct Hd as (Hr2 & _ & Hf2 & Hs2). split.
    + done.
    + intros _. rewrite Hf, Hf2, Hf1. split; [done|]. destruct Hs, Hs2, Hs1. congruence.
    + exists h. by rewrite Hh, Hh2, Hh1.
    + intros id Hid. by rewrite Hr, lookup_alter_ne, Hr2, Hr1.
    + intros r Hrow. rewrite <-Hr1, <-Hr2 in Hrow.
      destruct (checked_rows rule o (next_run (ar_CronExpression rule) next) t _ r Hrow) as (r' & Hr' & Hi & Hst & Ha).
      exists r'. rewrite Hr. by split_and!.
Qed.

(** The world after an audit entry. *)
Lemma audit_world c id a rule r e s :
  bg_world (al_bg (auditLog c id a rule r e s).2) =
  if ck_security c then (w_now (bg_world (al_bg s))).2 else bg_world (al_bg s).
Proof.
  unfold auditLog. destruct (ck_security c); [|done]. rewrite st_bind_run, !alert_bg_run. cbn. by rewrite bg_now_run.
Qed.

Lemma evaluateRule_evaluated c rule s : evaluated c rule s (evaluateRule c rule s).2.
Proof.
  unfold evaluateRule, evaluated. rewrite st_bind_run.
  pose proof (on_bg_rows bg_correlationID s quiet_correlationID) as R1.
  assert (bg_world (al_bg (on_bg bg_correlationID s).2) = (w_correlationID (bg_world (al_bg s))).2) as W1.
  { rewrite alert_bg_run. simpl. unfold bg_correlationID. by destruct (w_correlationID _). }
  generalize dependent (on_bg bg_correlationID s). intros [cid s1] R1 W1. cbn [fst snd] in *.
  rewrite st_bind_run. pose proof (on_bg_rows bg_now s1 quiet_now) as R2. rewrite alert_bg_run, bg_now_run in R2 |- *.
  cbn [fst snd] in *. rewrite st_bind_run.
  match goal with |- context [auditLog c cid "alert.check" rule "intent" "" ?x] =>
    pose proof (alert_audit_kept c cid "alert.check" rule "intent" "" s x (al_kept_trans _ _ _ R1 R2)) as R3;
    pose proof (audit_world c cid "alert.check" rule "intent" "" x) as W3;
    generalize dependent (auditLog c cid "alert.check" rule "intent" "" x).2 end.
  intros s3 R3 W3. cbn [al_bg bg_world bg_set_world] in W3. rewrite W1 in W3.
  assert (RunCheck (ar_CheckType rule) (ar_CheckConfig rule) (bg_world (al_bg s3)) = check_of c rule s) as Ec.
  { unfold check_of. rewrite W3. by destruct (ck_security c). }
  rewrite st_bind_run. unfold on_world. rewrite alert_bg_run, Ec. unfold decision_time.
  destruct (check_of c rule s) as [o w]. cbn [fst snd al_bg al_rules al_history al_fired].
  rewrite st_bind_run, alert_bg_run, bg_now_run. cbn [fst snd al_bg al_rules al_history al_fired].
  destruct o as [[status message] checkErr]. rewrite st_bind_run, alert_bg_run, bg_now_run.
  cbn [fst snd al_bg al_rules al_history al_fired bg_world bg_set_world].
  match goal with |- concluded _ _ _ _ _ (mbind _ _ ?x).2 => set (s6 := x) end.
  apply (conclude_run c rule (status, message, checkErr) cid _ _ _ s6 s). exact R3.
Qed.

(** C32: when an alert fires.  On a database that never fails, evaluating a rule counts an alert
    and sends one notification for the rule (to its channels, in its organisation, with the
    status and the message of the check) exactly when it is due: the check's status, on the
    world at the time of the check, is [alert] or [error] (an error of the check is the status
    [error]) and is not the recorded one, the rule has channels and the checker a dispatcher,
    and the cooldown, when the rule has one and has alerted, is over by the clock as it is read
    for the decision, after the check ([decision_time]).  Otherwise nothing is sent or counted
    and the time of the last alert stays.  In each case one history record with the old and
    the new status and the message is appended, the new status is stored in the rule's row,
    and every other row is left alone. *)
Theorem alert_fires_exactly c rule s : evaluated c rule s (evaluateRule c rule s).2.
Proof. apply evaluateRule_evaluated. Qed.

(** ** Silence after a suppressed notification *)

(** The rule as the next polls find it, evaluated [n] times. *)
Fixpoint rounds (n : nat) c (id : uuid) : st (AlertState F P W) unit :=
  match n with
  | 0 => mret tt
  | Datatypes.S n =>
      row ← st_get (fun s => al_rules s !! id);
      _ ← (match row with Some rule => evaluateRule c rule | None => mret tt end);
      rounds n c id
  end.

Lemma rounds_silent n c rule status s :
  (forall w, final_status (RunCheck (ar_CheckType rule) (ar_CheckConfig rule) w).1 = status) ->
  (exists r, al_rules s !! ar_ID rule = Some r /\ same_identity rule r /\ ar_LastStatus r = status) ->
  al_fired (rounds n c (ar_ID rule) s).2 = al_fired s.
Proof.
  intros Hc. revert s. induction n as [|n IH]; intros s (r & Hr & Hi & Hs); simpl; [done|].
  rewrite st_bind_run. simpl. rewrite Hr, st_bind_run.
  destruct (evaluateRule_evaluated c r s) as [_ Hf _ _ Hrow].
  destruct Hi as (Hid & Hty & Hcf & Hrest).
  assert (final_status (check_of c r s).1 = status) as Hst by (unfold check_of; rewrite Hty, Hcf; apply Hc).
  rewrite Hst in Hf, Hrow. rewrite IH.
  - apply Hf. intros [_ Hne _ _ _]. by rewrite Hs in Hne.
  - rewrite Hid in Hrow. destruct (Hrow r Hr) as (r' & Hr' & (I1 & I2 & I3 & I4 & I5) & Hs' & _).
    exists r'. split_and!; [done| |done]. destruct Hrest. unfold same_identity. split_and!; congruence.
Qed.

(** An alert suppressed by the cooldown is never sent.  The status of a check is
    stored whether or not it was notified, so when a rule turns bad without firing, and
    the check goes on answering the same, no later poll ever fires, however long after
    the end of the cooldown. *)
Theorem suppressed_alert_stays_silent n c rule status s :
  al_rules s !! ar_ID rule = Some rule ->
  (forall w, final_status (RunCheck (ar_CheckType rule) (ar_CheckConfig rule) w).1 = status) ->
  bad_status status = true ->
  al_fired (evaluateRule c rule s).2 = al_fired s ->
  al_fired (rounds n c (ar_ID rule) (evaluateRule c rule s).2).2 = al_fired s.
Proof.
  intros Hr Hc Hb Hq. rewrite (rounds_silent n c rule status); [done|done|].
  destruct (evaluateRule_evaluated c rule s) as [_ _ _ _ Hrow].
  unfold check_of in Hrow. rewrite Hc in Hrow. destruct (Hrow rule Hr) as (r' & Hr' & Hi & Hs & _). by exists r'.
Qed.
End props.

(** ** The filter of the HTTP check *)

(** The text after the last [c], all of it when there is none. *)
Fixpoint after_last (c : ascii) (s : string) : string :=
  match s with
  | EmptyString => ""
  | String d s' =>
      if existsb (Ascii.eqb c) (String.list_ascii_of_string s') then after_last c s'
      else if Ascii.eqb c d then s' else s
  end.

(** The host name [net/url] finds in an absolute URL (not an IPv6 literal): the
    authority ends at a slash, a question mark or a hash, the user information ends at
    its last at sign, the port is cut. *)
Definition url_hostname (rawURL : string) : string :=
  let rest := match cut rawURL "://" with Some (_, r) => r | None => "" end in
  before_any (after_last "@"%char (before_any rest ["/"; "?"; "#"]%char)) [":"]%char.

(** A text without any of some characters. *)
Definition without (chars : list ascii) (s : string) : bool :=
  forallb (fun c => negb (existsb (Ascii.eqb c) chars)) (String.list_ascii_of_string s).

Lemma before_any_stop chars s c rest :
  without chars s = true -> existsb (Ascii.eqb c) chars = true ->
  before_any (s +:+ String c rest) chars = s.
Proof.
  intros Hs Hc. induction s as [|d s IH]; simpl; [by rewrite Hc|].
  unfold without in Hs. simpl in Hs. apply andb_true_iff in Hs as [Hd Hs].
  apply negb_true_iff in Hd. rewrite Hd. f_equal. by apply IH.
Qed.

Lemma before_any_all chars s : without chars s = true -> before_any s chars = s.
Proof.
  intros Hs. induction s as [|d s IH]; simpl; [done|].
  unfold without in Hs. simpl in Hs. apply andb_true_iff in Hs as [Hd Hs].
  apply negb_true_iff in Hd. rewrite Hd. f_equal. by apply IH.
Qed.

Lemma without_app chars s t : without chars (s +:+ t) = without chars s && without chars t.
Proof.
  unfold without. induction s as [|c s IH]; simpl; [done|]. by rewrite IH, andb_assoc.
Qed.

Lemma without_weaken chars chars' s :
  (forall c, existsb (Ascii.eqb c) chars' = true -> existsb (Ascii.eqb c) chars = true) ->
  without chars s = true -> without chars' s = true.
Proof.
  intros Hc. unfold without. rewrite !forallb_Forall. intros Hs. eapply Forall_impl; [exact Hs|].
  intros c. simpl. rewrite !negb_true_iff, <-!not_true_iff_false. auto.
Qed.

Lemma after_last_at s host :
  without ["@"]%char host = true -> after_last "@"%char (s +:+ String "@"%char host) = host.
Proof.
  intros Hh. assert (existsb (Ascii.eqb "@"%char) (String.list_ascii_of_string host) = false) as Hno.
  { revert Hh. unfold without. induction host as [|c host IH]; [done|].
    cbn [forallb existsb String.list_ascii_of_string]. rewrite orb_false_r. intros [Hc Hr]%andb_true_iff. apply negb_true_iff in Hc.
    by rewrite (IH Hr), orb_false_r, Ascii.eqb_sym. }
  induction s as [|c s IH].
  - change (after_last "@"%char (String "@"%char host) = host). unfold after_last. fold after_last.
    rewrite Hno. done.
  - change (after_last "@"%char (String c (s +:+ String "@"%char host)) = host).
    unfold after_last. fold after_last.
    assert (existsb (Ascii.eqb "@"%char) (String.list_ascii_of_string (s +:+ String "@"%char host)) = true) as ->.
    { clear. induction s as [|c s IH]; [done|]. simpl. by rewrite IH, orb_true_r. }
    exact IH.
Qed.

Lemma substring_all s : String.substring 0 (String.length s) s = s.
Proof. induction s as [|c s IH]; simpl; [done|]. by rewrite IH. Qed.

Lemma cut_http rest : cut ("http://" +:+ rest) "://" = Some ("http", rest).
Proof.
  simpl. change ("" +:+ rest) with rest. rewrite Nat.sub_0_r, substring_all.
  by destruct rest.
Qed.

Section ssrf.
Context {W : Type} `{!HttpNet W} `{!ErrorText} `{!Render}.

(** The private-address filter of the HTTP check can be passed by.  The filter cuts
    the host name at the first colon or slash, the client takes what follows the user
    information: a URL whose user name is a public host is checked against that host,
    and the request goes to the host after the at sign, internal or not. *)
Theorem ssrf_filter_bypassed good pass host path ips :
  without [":"; "/"; "?"; "#"; "@"]%char good = true ->
  without ["/"; "?"; "#"; "@"]%char pass = true ->
  without [":"; "/"; "?"; "#"; "@"]%char host = true ->
  slice_contains ["localhost"; "127.0.0.1"; "::1"; "0.0.0.0"] (to_lower good) = false ->
  LookupHost good = Ok ips -> Forall (fun ip => ip_internal ip <> Some true) ips ->
  let url := "http://" +:+ good +:+ ":" +:+ pass +:+ "@" +:+ host +:+ "/" +:+ path in
  validateCheckURL url = None /\ url_hostname url = host.
Proof.
  intros Hg Hp Hh Hl Hlook Hips. cbv zeta. split.
  - unfold validateCheckURL.
    assert (check_hostname ("http://" +:+ good +:+ ":" +:+ pass +:+ "@" +:+ host +:+ "/" +:+ path) = good)
      as ->.
    { unfold check_hostname. rewrite cut_http. apply before_any_stop; [|done].
      revert Hg. apply without_weaken. intros c. simpl. rewrite !orb_true_iff. tauto. }
    rewrite Hl, Hlook. replace (existsb _ ips) with false; [done|]. symmetry.
    apply not_true_iff_false. rewrite existsb_exists. intros (ip & Hin & Hip).
    rewrite Forall_forall in Hips. apply list_elem_of_In in Hin. specialize (Hips ip Hin).
    by destruct (ip_internal ip) as [[]|].
  - unfold url_hostname. rewrite cut_http.
    replace (good +:+ ":" +:+ pass +:+ "@" +:+ host +:+ "/" +:+ path)
      with ((good +:+ ":" +:+ pass +:+ "@" +:+ host) +:+ String "/"%char path)
      by (rewrite !str_app_assoc; done).
    assert (forall s, without [":"; "/"; "?"; "#"; "@"]%char s = true ->
      without ["/"; "?"; "#"]%char s = true) as Hsub.
    { intros s. apply without_weaken. intros c. simpl. rewrite !orb_true_iff. tauto. }
    rewrite before_any_stop; [|rewrite !without_app; simpl|done].
    + replace (good +:+ ":" +:+ pass +:+ "@" +:+ host)
        with ((good +:+ ":" +:+ pass) +:+ String "@"%char host) by (rewrite !str_app_assoc; done).
      rewrite after_last_at; [apply before_any_all|];
        revert Hh; apply without_weaken; intros c; simpl; rewrite !orb_true_iff; tauto.
    + rewrite (Hsub good Hg), (Hsub host Hh). simpl. rewrite andb_true_r.
      revert Hp. apply without_weaken. intros c. simpl. rewrite !orb_true_iff. tauto.
Qed.
End ssrf.
