(* ===== verification/Soul.v ===== *)
(** * The soul

    [src/internal/soul/]: the events of an organisation's soul, the soul they replay to
    ([soul.go]), its manager with the cached soul ([manager.go]), the reflection cycle over a
    model ([reflection.go]), the texts of its prompts ([prompts.go]) and SOUL.md
    ([renderer.go]), over the table of [src/internal/storage/postgres/soul_repo.go].  The JSON
    of an event's evidence and of the model's answer, the formats of percentages and dates,
    and writing a file are parameters.  Logging is left out; the timer of the loop is the
    number of its ticks. *)

From S2P Require Import Prelude Text LLM Providers Domain.

(** ** Events and the soul *)

Definition EventTaskCompletion : string := "task_completion".
Definition EventIncidentReview : string := "incident_review".
Definition EventReflectionCycle : string := "reflection_cycle".
Definition EventPatternLearned : string := "pattern_learned".
Definition EventGuardrailUpdate : string := "guardrail_update".
Definition EventManualUpdate : string := "manual_update".

Definition SeverityMinor : string := "minor".
Definition SeverityNormal : string := "normal".
Definition SeverityMajor : string := "major".

Record SoulEvent := mkSoulEvent {
  se_ID : uuid;
  se_OrgID : uuid;
  se_Version : Z;
  se_EventType : string;
  se_Severity : string;
  se_Category : string;
  se_Title : string;
  se_Description : string;
  se_Evidence : string;
  se_PriorState : string;
  se_CreatedAt : Time;
}.

Record Principle := mkPrinciple { pr_Name : string; pr_Description : string }.
Record Insight := mkInsight { is_Topic : string; is_Description : string; is_LearnedAt : Time; is_EventID : uuid }.
Record Reflection := mkReflection {
  rf_Context : string;
  rf_Lesson : string;
  rf_Impact : string;
  rf_LearnedAt : Time;
  rf_EventID : uuid;
}.
Record Strategy := mkStrategy { sy_Name : string; sy_Description : string; sy_LearnedAt : Time; sy_EventID : uuid }.
Record Guardrail := mkGuardrail { gd_Name : string; gd_Description : string; gd_LearnedAt : Time; gd_EventID : uuid }.

Section soul.
Context {F P W : Type} `{!Num F} `{!GoMap P} `{!Render} `{!World W}.

Record Pattern := mkPattern {
  pn_Category : string;
  pn_Description : string;
  pn_LearnedAt : Time;
  pn_EventID : uuid;
  pn_Confidence : F;
}.

Record Soul := mkSoul {
  sl_Version : Z;
  sl_LastUpdatedAt : Time;
  sl_TotalEvents : Z;
  sl_CorePrinciples : list Principle;
  sl_LearnedPatterns : list Pattern;
  sl_Philosophy : list Insight;
  sl_Reflections : list Reflection;
  sl_ReasoningStrategies : list Strategy;
  sl_Guardrails : list Guardrail;
}.

Definition empty_soul : Soul := mkSoul 0 time_zero 0 [] [] [] [] [] [].

(** [json.Unmarshal] of evidence into a map: its field [category], when it is a text, and
    its field [confidence], when it is a number. *)
Class EvidenceJson := { evidence_Unmarshal : string -> result error (option string * option F) }.
Context `{!EvidenceJson}.

Definition extractSubCategory (evidence : string) : string :=
  match evidence_Unmarshal evidence with
  | Ok (Some cat, _) => cat
  | _ => ""
  end.

Definition extractConfidence (evidence : string) : F :=
  match evidence_Unmarshal evidence with
  | Ok (_, Some conf) => conf
  | _ => nlit 5 10
  end.

(** What an event adds to the section of its category. *)
Definition applyEvent (s : Soul) (e : SoulEvent) : Soul :=
  let base prs pns phs rfs sys gds :=
    mkSoul (se_Version e) (se_CreatedAt e) (sl_TotalEvents s + 1) prs pns phs rfs sys gds in
  let '(mkSoul _ _ _ prs pns phs rfs sys gds) := s in
  let at_ := se_CreatedAt e in
  let id := se_ID e in
  if String.eqb (se_Category e) "principle" then
    base (prs ++ [mkPrinciple (se_Title e) (se_Description e)]) pns phs rfs sys gds
  else if String.eqb (se_Category e) "pattern" then
    base prs (pns ++ [mkPattern (extractSubCategory (se_Evidence e)) (se_Description e) at_ id
                        (extractConfidence (se_Evidence e))]) phs rfs sys gds
  else if String.eqb (se_Category e) "philosophy" then
    base prs pns (phs ++ [mkInsight (se_Title e) (se_Description e) at_ id]) rfs sys gds
  else if String.eqb (se_Category e) "reflection" then
    base prs pns phs (rfs ++ [mkReflection (se_Title e) (se_Description e) (se_PriorState e) at_ id]) sys gds
  else if String.eqb (se_Category e) "reasoning" then
    base prs pns phs rfs (sys ++ [mkStrategy (se_Title e) (se_Description e) at_ id]) gds
  else if String.eqb (se_Category e) "guardrail" then
    base prs pns phs rfs sys (gds ++ [mkGuardrail (se_Title e) (se_Description e) at_ id])
  else base prs pns phs rfs sys gds.

Definition Materialize (events : list SoulEvent) : Soul :=
  let s := fold_left applyEvent events empty_soul in
  let n := Z.of_nat (length events) in
  match last events with
  | None => mkSoul (sl_Version s) (sl_LastUpdatedAt s) n (sl_CorePrinciples s) (sl_LearnedPatterns s)
              (sl_Philosophy s) (sl_Reflections s) (sl_ReasoningStrategies s) (sl_Guardrails s)
  | Some e => mkSoul (se_Version e) (se_CreatedAt e) n (sl_CorePrinciples s) (sl_LearnedPatterns s)
                (sl_Philosophy s) (sl_Reflections s) (sl_ReasoningStrategies s) (sl_Guardrails s)
  end.

(** ** Prompts *)

(** A line of a list. *)
Definition item_line (text : string) : string := "- " +:+ text +:+ newline.
Definition texts (l : list string) : string := String.concat "" l.

(** A section that is left out when it has no lines. *)
Definition prompt_section (title : string) (lines : list string) : string :=
  match lines with
  | [] => ""
  | _ => newline +:+ "### " +:+ title +:+ newline +:+ texts (map item_line lines)
  end.

Definition bold (name description : string) : string := "**" +:+ name +:+ "**: " +:+ description.
Definition named (name description : string) : string := name +:+ ": " +:+ description.

Definition RenderPromptContext (s : Soul) : string :=
  newline +:+ newline +:+ "## Soul (v" +:+ itoa (sl_Version s) +:+ ")" +:+ newline +:+
  prompt_section "Learned Patterns"
    (map pn_Description (List.filter (fun p => (pn_Confidence p >=f? nlit 7 10)%go) (sl_LearnedPatterns s))) +:+
  prompt_section "Reasoning Strategies" (map (fun x => bold (sy_Name x) (sy_Description x)) (sl_ReasoningStrategies s)) +:+
  prompt_section "Self-Imposed Guardrails" (map (fun x => named (gd_Name x) (gd_Description x)) (sl_Guardrails s)) +:+
  prompt_section "Operational Philosophy" (map (fun x => bold (is_Topic x) (is_Description x)) (sl_Philosophy s)) +:+
  prompt_section "Recent Reflections"
    (map rf_Lesson (drop (length (sl_Reflections s) - 3) (sl_Reflections s))).

(** [fmt] with the verb for a fraction as a percentage, [time.Format] of RFC 3339 and of a date. *)
Class SoulFormats := {
  percent : F -> string;
  rfc3339 : Time -> string;
  date : Time -> string;
}.
Context `{!SoulFormats}.

(** A section of the reflection prompt. *)
Definition reflection_section (title : string) (lines : list string) : string :=
  match lines with
  | [] => ""
  | _ => "## " +:+ title +:+ newline +:+ texts (map item_line lines) +:+ newline
  end.

Definition pattern_line (p : Pattern) : string :=
  "[" +:+ pn_Category p +:+ "] " +:+ pn_Description p +:+ " (confidence: " +:+
  percent (pn_Confidence p *f nofZ 100)%go +:+ ")".

Definition count {A} (l : list A) : string := itoa (Z.of_nat (length l)).

Definition BuildReflectionPrompt (s : Soul) : string :=
  "Perform a self-reflection on Akili's current operational state." +:+ newline +:+ newline +:+
  "Current soul version: " +:+ itoa (sl_Version s) +:+ newline +:+
  "Total events: " +:+ itoa (sl_TotalEvents s) +:+ newline +:+
  "Patterns: " +:+ count (sl_LearnedPatterns s) +:+ " | Reflections: " +:+ count (sl_Reflections s) +:+
  " | Strategies: " +:+ count (sl_ReasoningStrategies s) +:+ " | Guardrails: " +:+ count (sl_Guardrails s) +:+
  newline +:+ newline +:+
  reflection_section "Core Principles (immutable, cannot be changed)"
    (map (fun x => named (pr_Name x) (pr_Description x)) (sl_CorePrinciples s)) +:+
  reflection_section "Current Learned Patterns" (map pattern_line (sl_LearnedPatterns s)) +:+
  reflection_section "Current Reasoning Strategies"
    (map (fun x => named (sy_Name x) (sy_Description x)) (sl_ReasoningStrategies s)) +:+
  reflection_section "Current Self-Imposed Guardrails"
    (map (fun x => named (gd_Name x) (gd_Description x)) (sl_Guardrails s)) +:+
  texts (map (fun l => l +:+ newline)
    ["## Task"; "Review the current soul state. Identify:";
     "1. New patterns that should be codified from operational experience";
     "2. Reasoning strategies that could be refined or added";
     "3. New guardrails needed based on observed risks";
     "4. Philosophy updates reflecting operational maturity";
     "5. Reflections from recent operational patterns"; "";
     "Only produce events when genuine learning has occurred. Do not force evolution."]).

Definition quotation : string := String (Ascii.ascii_of_nat 34) "".
Definition quoted_text (s : string) : string := quotation +:+ s +:+ quotation.
Definition json_field (name value : string) : string := "    " +:+ quoted_text name +:+ ": " +:+ quoted_text value.

Definition reflectionSystemPrompt : string :=
  String.concat newline
    ["You are the self-reflection module of Akili, a security-first autonomous AI operator.";
     "Your role is to analyze Akili's current operational state and produce evolution events that improve";
     "reasoning quality, operational efficiency, and security awareness."; "";
     "You MUST NOT:";
     "- Weaken any security guardrails";
     "- Override immutable core principles";
     "- Suggest actions that bypass policy constraints";
     "- Produce speculative changes without evidence"; "";
     "Output ONLY a JSON array of evolution events:";
     "["; "  {";
     json_field "severity" "minor|normal|major" +:+ ",";
     json_field "category" "pattern|philosophy|reflection|reasoning|guardrail" +:+ ",";
     json_field "title" "Short title (one line)" +:+ ",";
     json_field "description" "Detailed description of the learning or improvement" +:+ ",";
     json_field "evidence" ("{\" +:+ quotation +:+ "reason\" +:+ quotation +:+ ": \" +:+ quotation +:+
                            "supporting data or observation\" +:+ quotation +:+ "}");
     "  }"; "]"; "";
     "Category definitions:";
     "- pattern: A new operational pattern learned from repeated experience";
     "- philosophy: An evolving approach to operations or decision-making";
     "- reflection: A lesson learned from a past incident or failure";
     "- reasoning: An improvement to the decision-making process";
     "- guardrail: A new self-imposed behavioral constraint discovered through experience"; "";
     "If no meaningful evolution is warranted, return an empty array: []";
     "Do not force evolution — only produce events when genuine learning has occurred."].

(** ** SOUL.md *)

Definition markdown_section (title : string) (lines : list string) : string :=
  match lines with
  | [] => ""
  | _ => "---" +:+ newline +:+ newline +:+ "## " +:+ title +:+ newline +:+ newline +:+
         texts (map item_line lines) +:+ newline
  end.

(** The patterns under their categories: a map of slices, filled in order. *)
Definition group_patterns (ps : list Pattern) : gmap string (list Pattern) :=
  fold_left (fun m p => let cat := or_text (pn_Category p) "general" in
                        <[cat := default [] (m !! cat) ++ [p]]> m) ps ∅.
Context `{!MapRange string (list Pattern)}.

Definition render_pattern (p : Pattern) : string :=
  item_line (pn_Description p +:+ " (confidence: " +:+ percent (pn_Confidence p *f nofZ 100)%go +:+
             ", learned: " +:+ date (pn_LearnedAt p) +:+ ")").

Definition render_group (g : string * list Pattern) : string :=
  "### " +:+ g.1 +:+ newline +:+ newline +:+ texts (map render_pattern g.2) +:+ newline.

Definition render_patterns (ps : list Pattern) : string :=
  match ps with
  | [] => ""
  | _ => newline +:+ "---" +:+ newline +:+ newline +:+ "## Learned Patterns" +:+ newline +:+ newline +:+
         texts (map render_group (map_range (group_patterns ps)))
  end.

Definition render_reflection (r : Reflection) : string :=
  "### " +:+ rf_Context r +:+ newline +:+ newline +:+
  item_line ("**Lesson**: " +:+ rf_Lesson r) +:+
  (if String.eqb (rf_Impact r) "" then "" else item_line ("**Impact**: " +:+ rf_Impact r)) +:+
  item_line ("_Learned: " +:+ date (rf_LearnedAt r) +:+ "_") +:+ newline.

Definition render_reflections (rs : list Reflection) : string :=
  match rs with
  | [] => ""
  | _ => "---" +:+ newline +:+ newline +:+ "## Reflections" +:+ newline +:+ newline +:+
         texts (map render_reflection rs)
  end.

Definition RenderMarkdown (s : Soul) : string :=
  "# Akili Soul" +:+ newline +:+ newline +:+
  "> Version " +:+ itoa (sl_Version s) +:+ " | Last updated: " +:+ rfc3339 (sl_LastUpdatedAt s) +:+
  " | Total events: " +:+ itoa (sl_TotalEvents s) +:+ newline +:+ newline +:+
  "---" +:+ newline +:+ newline +:+
  "## Core Principles (Immutable)" +:+ newline +:+ newline +:+
  (match sl_CorePrinciples s with
   | [] => "_No principles seeded yet._" +:+ newline
   | ps => texts (map (fun x => item_line (bold (pr_Name x) (pr_Description x))) ps)
   end) +:+
  render_patterns (sl_LearnedPatterns s) +:+
  markdown_section "Operational Philosophy" (map (fun x => bold (is_Topic x) (is_Description x)) (sl_Philosophy s)) +:+
  render_reflections (sl_Reflections s) +:+
  markdown_section "Reasoning Strategies" (map (fun x => bold (sy_Name x) (sy_Description x)) (sl_ReasoningStrategies s)) +:+
  markdown_section "Self-Imposed Guardrails" (map (fun x => bold (gd_Name x) (gd_Description x)) (sl_Guardrails s)) +:+
  "---" +:+ newline +:+ newline +:+
  "_This file is auto-generated from Akili's soul event log. Do not edit manually._" +:+ newline.

(** ** The table *)

(** [filepath.Join] and [os.WriteFile]. *)
Class FileWriter := {
  path_Join : string -> string -> string;
  os_WriteFile : string -> string -> W -> option error * W;
}.
Context `{!FileWriter} `{!GoSort SoulEvent}.

(** The world, the table in the order its rows were inserted, and the cached soul. *)
Record SoulState := mkSoulState {
  ss_world : W;
  ss_rows : list SoulEvent;
  ss_soul : option Soul;
}.

Abbreviation SM := (st SoulState).

Definition on_world {A} (m : W -> A * W) : SM A := fun s =>
  let '(a, w) := m (ss_world s) in (a, mkSoulState w (ss_rows s) (ss_soul s)).
Definition set_soul (x : option Soul) (s : SoulState) : SoulState := mkSoulState (ss_world s) (ss_rows s) x.
Definition add_row (e : SoulEvent) (s : SoulState) : SoulState :=
  mkSoulState (ss_world s) (ss_rows s ++ [e]) (ss_soul s).

(** A row as gorm inserts it: defaults in place of empty texts. *)
Definition toSoulEventModel (e : SoulEvent) : SoulEvent :=
  mkSoulEvent (se_ID e) (se_OrgID e) (se_Version e) (se_EventType e) (or_text (se_Severity e) "normal")
    (se_Category e) (se_Title e) (se_Description e) (or_text (se_Evidence e) "{}") (se_PriorState e) (se_CreatedAt e).

(** The primary key and the unique index of an organisation's versions. *)
Definition conflicts (e row : SoulEvent) : bool :=
  bool_decide (se_ID row = se_ID e) ||
  (bool_decide (se_OrgID row = se_OrgID e) && Z.eqb (se_Version row) (se_Version e)).

Definition AppendEvent (e : SoulEvent) : SM (option error) :=
  err ← on_world w_db;
  match err with
  | Some e => mret (Some (Wrap "appending soul event" e))
  | None =>
      rows ← st_get ss_rows;
      if existsb (conflicts e) rows then mret (Some (Wrap "appending soul event" (Errorf "duplicate key")))
      else _ ← st_modify (add_row (toSoulEventModel e)); mret None
  end.

Definition of_org (orgID : uuid) (rows : list SoulEvent) : list SoulEvent :=
  List.filter (fun e => bool_decide (se_OrgID e = orgID)) rows.

Definition before_version (a b : SoulEvent) : bool := (se_Version a <? se_Version b)%Z.

Definition events_of (orgID : uuid) (rows : list SoulEvent) : list SoulEvent :=
  go_sort before_version (of_org orgID rows).

Definition ListEvents (orgID : uuid) : SM (result error (list SoulEvent)) :=
  err ← on_world w_db;
  match err with
  | Some e => mret (Err (Wrap "listing soul events" e))
  | None => rows ← st_get ss_rows; mret (Ok (events_of orgID rows))
  end.

Definition ListEventsSince (orgID : uuid) (afterVersion : Z) : SM (result error (list SoulEvent)) :=
  err ← on_world w_db;
  match err with
  | Some e => mret (Err (Wrap "listing soul events since" e))
  | None =>
      rows ← st_get ss_rows;
      mret (Ok (go_sort before_version (List.filter (fun e => (afterVersion <? se_Version e)%Z) (of_org orgID rows))))
  end.

Definition LatestVersion (orgID : uuid) : SM (result error Z) :=
  err ← on_world w_db;
  match err with
  | Some e => mret (Err (Wrap "getting latest soul version" e))
  | None => rows ← st_get ss_rows; mret (Ok (default 0%Z (sql_max (map se_Version (of_org orgID rows)))))
  end.

Definition CountEvents (orgID : uuid) : SM (result error Z) :=
  err ← on_world w_db;
  match err with
  | Some e => mret (Err (Wrap "counting soul events" e))
  | None => rows ← st_get ss_rows; mret (Ok (Z.of_nat (length (of_org orgID rows))))
  end.

(** ** The manager *)

Record SoulConfig := mkSoulConfig {
  sc_Enabled : bool;
  sc_ReflectionIntervalMins : Z;
  sc_MaxPatternsPerCategory : Z;
  sc_MaxReflections : Z;
  sc_MaxStrategies : Z;
}.

Definition reflectionInterval (c : SoulConfig) : Z :=
  if (0 <? sc_ReflectionIntervalMins c)%Z then sc_ReflectionIntervalMins c * Minute else 60 * Minute.

(** The fields of a manager that do not change; [None] is the nil manager. *)
Record SoulManager := mkSoulManager {
  sm_orgID : uuid;
  sm_soulDir : string;
  sm_provider : option (Provider P W);
  sm_config : SoulConfig;
}.

Definition NewManager (store : bool) (orgID : uuid) (soulDir : string)
    (provider : option (Provider P W)) (cfg : SoulConfig) : option SoulManager :=
  if store then Some (mkSoulManager orgID soulDir provider cfg) else None.

Definition WriteSoulFile (dir : string) (s : option Soul) : SM (option error) :=
  match s with
  | None => mret None
  | Some s => on_world (os_WriteFile (path_Join dir "SOUL.md") (RenderMarkdown s))
  end.

Definition principles : list (string * string) :=
  [("Default Deny", "If something is ambiguous, unsafe, or outside explicit authorization, do not execute it.");
   ("Explicit Allow", "Act only when permission, scope, and intent are clear.");
   ("Auditability Over Convenience", "Every action must be explainable and justifiable.");
   ("Reliability Over Speed", "Fast and wrong is worse than slow and correct.");
   ("Security Before Automation", "Automation that weakens control is a failure.")].

Definition seed_evidence : string :=
  "{" +:+ quoted_text "source" +:+ ": " +:+ quoted_text "CONTEXT.md" +:+ ", " +:+ quoted_text "immutable" +:+ ": true}".

(** The loop of [seedCorePrinciples] from a version on: it ends at the first error. *)
Fixpoint seed_from (m : SoulManager) (version : Z) (ps : list (string * string)) : SM (option error) :=
  match ps with
  | [] => mret None
  | (name, desc) :: ps =>
      id ← on_world w_uuid;
      now ← on_world w_now;
      err ← AppendEvent (mkSoulEvent id (sm_orgID m) version EventManualUpdate SeverityMajor "principle"
                           name desc seed_evidence "" now);
      match err with
      | Some e => mret (Some (Wrap "seeding principle" e))
      | None => seed_from m (version + 1) ps
      end
  end.

Definition seedCorePrinciples (m : SoulManager) : SM (option error) := seed_from m 1 principles.

(** The end of [Load]: the soul of the events is cached and written. *)
Definition install (m : SoulManager) (events : list SoulEvent) : SM (option error) :=
  let s := Materialize events in
  _ ← st_modify (set_soul (Some s));
  _ ← WriteSoulFile (sm_soulDir m) (Some s);
  mret None.

Definition soul_Load (m : option SoulManager) : SM (option error) :=
  match m with
  | None => mret None
  | Some m =>
      events ← ListEvents (sm_orgID m);
      match events with
      | Err e => mret (Some (Wrap "loading soul events" e))
      | Ok [] =>
          err ← seedCorePrinciples m;
          match err with
          | Some e => mret (Some (Wrap "seeding core principles" e))
          | None =>
              events ← ListEvents (sm_orgID m);
              match events with
              | Err e => mret (Some (Wrap "reloading soul events" e))
              | Ok events => install m events
              end
          end
      | Ok events => install m events
      end
  end.

(** The event as [Evolve] completes it. *)
Definition completed (m : SoulManager) (id : uuid) (version : Z) (now : Time) (e : SoulEvent) : SoulEvent :=
  mkSoulEvent id (sm_orgID m) version (se_EventType e) (se_Severity e) (se_Category e) (se_Title e)
    (se_Description e) (se_Evidence e) (se_PriorState e) now.

Definition Evolve (m : option SoulManager) (event : SoulEvent) : SM (option error) :=
  match m with
  | None => mret None
  | Some m =>
      latest ← LatestVersion (sm_orgID m);
      match latest with
      | Err e => mret (Some (Wrap "getting latest version" e))
      | Ok latestVersion =>
          id ← on_world w_uuid;
          now ← on_world w_now;
          let event := completed m id (latestVersion + 1) now event in
          err ← AppendEvent event;
          match err with
          | Some e => mret (Some (Wrap "appending soul event" e))
          | None =>
              old ← st_get ss_soul;
              let s := applyEvent (default empty_soul old) event in
              _ ← st_modify (set_soul (Some s));
              _ ← WriteSoulFile (sm_soulDir m) (Some s);
              mret None
          end
      end
  end.

Definition CurrentPromptContext (m : option SoulManager) (s : SoulState) : string :=
  match m, ss_soul s with
  | Some _, Some soul => RenderPromptContext soul
  | _, _ => ""
  end.

Definition Current (m : option SoulManager) (s : SoulState) : option Soul :=
  match m with None => None | Some _ => ss_soul s end.

(** ** Reflection *)

Record reflectionEvent := mkReflectionEvent {
  re_Severity : string;
  re_Category : string;
  re_Title : string;
  re_Description : string;
  re_Evidence : string;
}.

(** The scan of [extractJSONArray] from byte [i]: where the array starts, and the depth. *)
Fixpoint array_from (s rest : string) (i : nat) (start : option nat) (depth : Z) : string :=
  match rest with
  | EmptyString => ""
  | String c rest =>
      if Ascii.eqb c (Ascii.ascii_of_nat 91) then
        array_from s rest (S i) (match start with None => Some i | Some _ => start end) (depth + 1)
      else if Ascii.eqb c (Ascii.ascii_of_nat 93) then
        let depth := (depth - 1)%Z in
        match start with
        | Some b => if (depth =? 0)%Z then str_drop b (str_take (i + 1) s) else array_from s rest (S i) start depth
        | None => array_from s rest (S i) start depth
        end
      else array_from s rest (S i) start depth
  end.

Definition extractJSONArray (s : string) : string := array_from s s 0 None 0.

Definition validCategories : list string := ["pattern"; "philosophy"; "reflection"; "reasoning"; "guardrail"].

(** An item as an event; its identity and times are filled in by [Evolve]. *)
Definition of_item (item : reflectionEvent) : option SoulEvent :=
  if negb (existsb (String.eqb (re_Category item)) validCategories) then None
  else if String.eqb (re_Title item) "" || String.eqb (re_Description item) "" then None
  else if String.eqb (re_Category item) "principle" then None
  else
    let severity :=
      if negb (String.eqb (re_Severity item) SeverityMinor) && negb (String.eqb (re_Severity item) SeverityNormal)
         && negb (String.eqb (re_Severity item) SeverityMajor)
      then SeverityMinor else re_Severity item in
    Some (mkSoulEvent uuid_Nil uuid_Nil 0 "" severity (re_Category item) (re_Title item) (re_Description item)
            (or_text (re_Evidence item) "{}") "" time_zero).

Context `{!Decode (list reflectionEvent)}.

Definition parseReflectionOutput (raw : string) : result error (list SoulEvent) :=
  let raw := extractJSONArray raw in
  if String.eqb raw "" then Err (Errorf "no JSON array found in output")
  else match json_unmarshal (A := list reflectionEvent) raw with
       | Err e => Err (Wrap "unmarshaling reflection output" e)
       | Ok items => Ok (omap of_item items)
       end.

(** The text of an answer: its content, or else its text blocks. *)
Definition answer_text (r : LLMResponse P) : string :=
  if String.eqb (rs_Content r) "" then
    texts (map cb_Text (List.filter (fun b => String.eqb (cb_Type b) "text") (rs_ContentBlocks r)))
  else rs_Content r.

Definition with_type (typ : string) (e : SoulEvent) : SoulEvent :=
  mkSoulEvent (se_ID e) (se_OrgID e) (se_Version e) typ (se_Severity e) (se_Category e) (se_Title e)
    (se_Description e) (se_Evidence e) (se_PriorState e) (se_CreatedAt e).

Definition RunReflection (m : option SoulManager) : SM (option error) :=
  match m with
  | None => mret None
  | Some mg =>
      match sm_provider mg with
      | None => mret None
      | Some provider =>
          currentSoul ← st_get ss_soul;
          match currentSoul with
          | None => mret None
          | Some soul =>
              resp ← on_world (pv_SendMessage provider
                       (mkRequest reflectionSystemPrompt [mkMessage RoleUser (BuildReflectionPrompt soul) []] 2048 []));
              match resp with
              | Err e => mret (Some (Wrap "LLM reflection" e))
              | Ok resp =>
                  match parseReflectionOutput (answer_text resp) with
                  | Err _ => mret None
                  | Ok events =>
                      _ ← st_each (fun e => _ ← Evolve m (with_type EventReflectionCycle e); mret tt) events;
                      mret None
                  end
              end
          end
      end
  end.

(** Whether the loop runs, and what it does in [n] ticks. *)
Definition StartReflectionLoop (m : option SoulManager) : option Z :=
  match m with
  | Some mg => if bool_decide (is_Some (sm_provider mg)) && negb (sc_ReflectionIntervalMins (sm_config mg) =? 0)%Z
               then Some (reflectionInterval (sm_config mg)) else None
  | None => None
  end.

Definition reflectionLoop (m : option SoulManager) (n : nat) : SM unit :=
  st_each (fun _ => _ ← RunReflection m; mret tt) (replicate n tt).
End soul.

(** * What the soul promises

    The events of an organisation are numbered without gaps and only added to, the cached
    soul is the replay of them, and no reflection adds a principle. *)

Section soul.
Context {F P W : Type} `{!Num F} `{!GoMap P} `{!Render} `{!World W}.
Context `{!EvidenceJson (F := F)} `{!SoulFormats (F := F)} `{!MapRange string (list (Pattern (F := F)))}.
Context `{!FileWriter (W := W)} `{!GoSort SoulEvent} `{!Decode (list reflectionEvent)}.
Implicit Types (s : SoulState (F := F) (W := W)) (m : SoulManager (P := P) (W := W)) (log : list SoulEvent).

(** An empty text and an empty object of evidence have no fields. *)
Class EvidenceLaw := {
  evidence_empty_text : exists e, evidence_Unmarshal (F := F) "" = Err e;
  evidence_empty_object : evidence_Unmarshal (F := F) "{}" = Ok (None, None);
}.
Context `{!EvidenceLaw}.

(** ** Replaying *)

Lemma apply_version (x : Soul (F := F)) e :
  sl_Version (applyEvent x e) = se_Version e /\ sl_LastUpdatedAt (applyEvent x e) = se_CreatedAt e /\
  sl_TotalEvents (applyEvent x e) = (sl_TotalEvents x + 1)%Z.
Proof. destruct x. unfold applyEvent. by repeat case_match. Qed.

Lemma replay_total log : sl_TotalEvents (fold_left applyEvent log (empty_soul (F := F))) = Z.of_nat (length log).
Proof.
  induction log as [|e log IH] using rev_ind; [done|].
  rewrite fold_left_app, length_app. cbn [fold_left length]. destruct (apply_version (fold_left applyEvent log empty_soul) e) as (_ & _ & ->).
  rewrite IH. lia.
Qed.

(** The assignments after the loop of [Materialize] change nothing. *)
Lemma materialize_fold log : Materialize log = fold_left applyEvent log (empty_soul (F := F)).
Proof.
  unfold Materialize. rewrite <-replay_total. destruct log as [|e log _] using rev_ind; [done|].
  rewrite last_snoc, fold_left_app. cbn [fold_left].
  destruct (apply_version (fold_left applyEvent log empty_soul) e) as (<- & <- & _).
  by destruct (applyEvent (fold_left applyEvent log empty_soul) e).
Qed.

Lemma extract_stored (e : SoulEvent) :
  extractSubCategory (F := F) (or_text (se_Evidence e) "{}") = extractSubCategory (F := F) (se_Evidence e) /\
  extractConfidence (F := F) (or_text (se_Evidence e) "{}") = extractConfidence (F := F) (se_Evidence e).
Proof.
  unfold or_text. destruct (String.eqb_spec (se_Evidence e) "") as [->|]; [|done].
  unfold extractSubCategory, extractConfidence. destruct evidence_empty_text as [err ->].
  by rewrite evidence_empty_object.
Qed.

(** The soul sees no difference between an event and its row. *)
Lemma apply_stored (x : Soul (F := F)) e : applyEvent x (toSoulEventModel e) = applyEvent x e.
Proof. unfold applyEvent. destruct x. simpl. by destruct (extract_stored e) as [-> ->]. Qed.

Lemma materialize_snoc log e : Materialize (log ++ [toSoulEventModel e]) = applyEvent (Materialize (F := F) log) e.
Proof. by rewrite !materialize_fold, fold_left_app, <-apply_stored. Qed.

Lemma principles_kept (x : Soul (F := F)) log :
  Forall (fun e => se_Category e <> "principle") log ->
  sl_CorePrinciples (fold_left applyEvent log x) = sl_CorePrinciples x.
Proof.
  intros Hl. revert x. induction Hl as [|e log He _ IH]; intros x; [done|]. cbn [fold_left]. rewrite IH.
  destruct x. unfold applyEvent. apply String.eqb_neq in He as ->. by repeat case_match.
Qed.

(** ** The log *)

(** The versions of a log are 1, 2, and so on. *)
Abbreviation numbered log := (numbered se_Version log).

(** ** The operations *)

Definition log_of m s : list SoulEvent := of_org (sm_orgID m) (ss_rows s).

(** The log is numbered, and the cached soul, if there is one, is its replay. *)
Definition mirrors m s : Prop :=
  numbered (log_of m s) /\
  (ss_soul s = None \/ log_of m s <> [] /\ ss_soul s = Some (Materialize (log_of m s))).

Definition not_principle (e : SoulEvent) : Prop := se_Category e <> "principle".

(** The log only grows, by principles only when it was empty. *)
Definition grows m s s' : Prop :=
  exists new, log_of m s' = log_of m s ++ new /\ (log_of m s <> [] -> Forall not_principle new).

Definition good m s s' : Prop :=
  mirrors m s -> mirrors m s' /\ grows m s s' /\ (is_Some (ss_soul s) -> is_Some (ss_soul s')).

(** Only the world differs. *)
Definition same s s' : Prop := ss_rows s' = ss_rows s /\ ss_soul s' = ss_soul s.

Lemma good_same m s s' : same s s' -> good m s s'.
Proof.
  intros [Hr Hs] Hm. unfold mirrors, grows, log_of in *. rewrite Hr, Hs. repeat split; try apply Hm; [|done].
  exists []. by rewrite app_nil_r.
Qed.

Lemma good_trans m s1 s2 s3 : good m s1 s2 -> good m s2 s3 -> good m s1 s3.
Proof.
  intros H12 H23 H1. destruct (H12 H1) as (H2 & (n2 & E2 & P2) & S2). destruct (H23 H2) as (H3 & (n3 & E3 & P3) & S3).
  split; [done|]. split; [|auto]. exists (n2 ++ n3). rewrite E3, E2, app_assoc. split; [done|].
  intros Hne. apply Forall_app. split; [auto|]. apply P3. rewrite E2. by destruct (log_of m s1).
Qed.

Lemma on_world_same {A} (f : W -> A * W) s : same s (on_world f s).2.
Proof. unfold on_world. by destruct (f (ss_world s)). Qed.

Lemma same_trans s1 s2 s3 : same s1 s2 -> same s2 s3 -> same s1 s3.
Proof. intros [A B] [C D]. split; congruence. Qed.

Lemma write_same dir x s : same s (WriteSoulFile dir x s).2.
Proof. destruct x; [apply on_world_same|done]. Qed.

Lemma append_event_run e s :
  let '(err, s') := AppendEvent e s in
  ss_soul s' = ss_soul s /\
  match err with
  | None => ss_rows s' = ss_rows s ++ [toSoulEventModel e]
  | Some _ => ss_rows s' = ss_rows s
  end.
Proof.
  unfold AppendEvent. rewrite st_bind_run. pose proof (on_world_same w_db s) as [Hr Hs]. revert Hr Hs.
  destruct (on_world w_db s) as [[err|] s1]; cbn [fst snd]; intros Hr Hs; [done|].
  rewrite st_bind_run. cbn [st_get fst snd]. destruct (existsb _ _); [done|].
  rewrite st_bind_run. cbn. by rewrite Hr.
Qed.

(** One appended event of the manager's organisation. *)
Lemma append_log m e s : se_OrgID e = sm_orgID m ->
  (AppendEvent e s).1 = None -> log_of m (AppendEvent e s).2 = log_of m s ++ [toSoulEventModel e].
Proof.
  intros Ho. pose proof (append_event_run e s) as Ha. destruct (AppendEvent e s) as [err s']. simpl. intros ->.
  destruct Ha as [_ Ha]. unfold log_of, of_org. rewrite Ha, List.filter_app. f_equal. simpl. by rewrite bool_decide_true.
Qed.

Lemma append_failed e s err : (AppendEvent e s).1 = Some err -> same s (AppendEvent e s).2.
Proof. pose proof (append_event_run e s) as Ha. destruct (AppendEvent e s) as [r s']. simpl. intros ->. by destruct Ha. Qed.

Lemma latest_run orgID s :
  same s (LatestVersion orgID s).2 /\
  forall v, (LatestVersion orgID s).1 = Ok v -> v = default 0%Z (sql_max (map se_Version (of_org orgID (ss_rows s)))).
Proof.
  unfold LatestVersion. rewrite st_bind_run. pose proof (on_world_same w_db s) as Hs. revert Hs.
  destruct (on_world w_db s) as [[err|] s1]; cbn [fst snd]; [done|]. intros [Hr Hs].
  rewrite st_bind_run. cbn. split; [done|]. by intros v [= <-]; rewrite Hr.
Qed.

Lemma list_run orgID s :
  same s (ListEvents orgID s).2 /\ forall l, (ListEvents orgID s).1 = Ok l -> l = events_of orgID (ss_rows s).
Proof.
  unfold ListEvents. rewrite st_bind_run. pose proof (on_world_same w_db s) as Hs. revert Hs.
  destruct (on_world w_db s) as [[err|] s1]; cbn [fst snd]; [done|]. intros [Hr Hs].
  rewrite st_bind_run. cbn. split; [done|]. by intros v [= <-]; rewrite Hr.
Qed.

(** [Evolve] adds its event to the log and to the cached soul. *)
Lemma evolve_good m e s : is_Some (ss_soul s) -> not_principle e -> good m s (Evolve (Some m) e s).2.
Proof.
  intros Hsoul Hcat. unfold Evolve. rewrite st_bind_run. destruct (latest_run (sm_orgID m) s) as [Hs1 Hv]. revert Hs1 Hv.
  destruct (LatestVersion (sm_orgID m) s) as [[v|err] s1]; cbn [fst snd]; intros Hs1 Hv; [|by apply good_same].
  specialize (Hv v eq_refl). rewrite st_bind_run. pose proof (on_world_same w_uuid s1) as Hs2. revert Hs2.
  destruct (on_world w_uuid s1) as [id s2]. cbn [fst snd]. intros Hs2.
  rewrite st_bind_run. pose proof (on_world_same w_now s2) as Hs3. revert Hs3.
  destruct (on_world w_now s2) as [now s3]. cbn [fst snd]. intros Hs3. cbv zeta.
  assert (same s s3) as Hs by by repeat (eapply same_trans; [eassumption|]).
  rewrite st_bind_run. set (ev := completed m id (v + 1) now e).
  pose proof (append_failed ev s3) as Hfail. pose proof (append_log m ev s3 eq_refl) as Hlog.
  pose proof (append_event_run ev s3) as Hrun. revert Hfail Hlog Hrun.
  destruct (AppendEvent ev s3) as [[err|] s4]; cbn [fst snd]; intros Hfail Hlog [Hsoul4 _].
  - apply good_same. eapply same_trans; [exact Hs|by eapply Hfail].
  - specialize (Hlog eq_refl). destruct Hs as [Hr Hq].
    rewrite !st_bind_run. cbv [st_get st_modify]. cbn [fst snd].
    eapply good_trans; [|apply good_same; exact (write_same _ _ _)]. intros [Hnum Hcache].
    assert (log_of m s3 = log_of m s) as E3 by (unfold log_of; congruence). rewrite E3 in Hlog.
    destruct Hcache as [Hc|[Hne Hc]]; [by rewrite Hc in Hsoul; destruct Hsoul|].
    unfold mirrors, grows. change (log_of m (set_soul ?x s4)) with (log_of m s4). rewrite Hlog. repeat split.
    + apply numbered_snoc; [done|]. simpl. by rewrite Hv, max_numbered.
    + right. split; [by destruct (log_of m s)|]. simpl. by rewrite Hsoul4, Hq, Hc, materialize_snoc.
    + eexists. split; [done|]. intros _. by repeat constructor.
    + done.
Qed.

(** What reflections produce. *)
Lemma of_item_category item e : of_item item = Some e -> se_Category e ∈ validCategories /\ not_principle e.
Proof.
  unfold of_item. destruct (existsb _ validCategories) eqn:Ec; simpl; [|done].
  destruct (_ || _); [done|]. destruct (String.eqb_spec (re_Category item) "principle") as [|Hne]; [done|].
  intros [= <-]. split; [|done]. apply existsb_exists in Ec as (c & Hin & ->%String.eqb_eq). by apply list_elem_of_In.
Qed.

Lemma parsed_events raw events : parseReflectionOutput raw = Ok events -> Forall not_principle events.
Proof.
  unfold parseReflectionOutput. destruct (String.eqb _ _); [done|]. destruct (json_unmarshal _) as [items|]; [|done].
  intros [= <-]. apply Forall_forall. intros e Hin. apply list_elem_of_omap in Hin as (item & _ & Hi).
  by apply (of_item_category item).
Qed.

Lemma evolve_each_good m events s : is_Some (ss_soul s) -> mirrors m s -> Forall not_principle events ->
  good m s (st_each (fun e => _ ← Evolve (Some m) (with_type EventReflectionCycle e); mret tt) events s).2.
Proof.
  intros Hsoul Hm He. revert s Hsoul Hm. induction He as [|e events He _ IH]; intros s Hsoul Hm; cbn [st_each]; [by apply good_same|].
  rewrite !st_bind_run.
  pose proof (evolve_good m (with_type EventReflectionCycle e) s Hsoul He) as Hg. destruct (Hg Hm) as (Hm' & _ & Hs').
  eapply good_trans; [exact Hg|]. by apply IH; [apply Hs'|].
Qed.

Lemma reflection_good m s : good m s (RunReflection (Some m) s).2.
Proof.
  unfold RunReflection. destruct (sm_provider m) as [provider|]; [|by apply good_same].
  rewrite st_bind_run. cbn [st_get fst snd]. destruct (ss_soul s) as [x|] eqn:Ex; [|by apply good_same].
  rewrite st_bind_run. match goal with |- context [on_world ?f s] => pose proof (on_world_same f s) as Hs; revert Hs;
    destruct (on_world f s) as [[resp|err] s1]; cbn [fst snd]; intros Hs end; [|by apply good_same].
  destruct (parseReflectionOutput (answer_text resp)) as [events|] eqn:Ep; [|by apply good_same].
  rewrite st_bind_run. intros Hm. assert (mirrors m s1) as Hm1 by by apply (good_same m s s1 Hs).
  revert Hm. eapply good_trans; [by apply good_same|]. apply (evolve_each_good m events s1); [|done|by eapply parsed_events].
  by rewrite (proj2 Hs), Ex.
Qed.

(** What seeding leaves of an empty log, whether it fails or not. *)
Lemma seed_good m ps v s :
  ss_soul s = None -> numbered (log_of m s) -> v = (Z.of_nat (length (log_of m s)) + 1)%Z ->
  let '(err, s') := seed_from m v ps s in
  ss_soul s' = None /\ numbered (log_of m s') /\
  exists new, log_of m s' = log_of m s ++ new /\ (err = None -> length new = length ps).
Proof.
  revert v s. induction ps as [|[name desc] ps IH]; intros v s Hsoul Hnum Hv; cbn [seed_from].
  { split; [done|]. split; [done|]. exists []. by rewrite app_nil_r. }
  rewrite st_bind_run. pose proof (on_world_same w_uuid s) as Hs1. revert Hs1.
  destruct (on_world w_uuid s) as [id s1]. cbn [fst snd]. intros Hs1.
  rewrite st_bind_run. pose proof (on_world_same w_now s1) as Hs2. revert Hs2.
  destruct (on_world w_now s1) as [now s2]. cbn [fst snd]. intros Hs2. rewrite st_bind_run.
  assert (same s s2) as [Hr Hq] by by eapply same_trans.
  assert (log_of m s2 = log_of m s) as Hlog2 by (unfold log_of; congruence).
  set (ev := mkSoulEvent _ _ _ _ _ _ _ _ _ _ _).
  pose proof (append_failed ev s2) as Hfail. pose proof (append_log m ev s2 eq_refl) as Hlog.
  pose proof (append_event_run ev s2) as Hrun. revert Hfail Hlog Hrun.
  destruct (AppendEvent ev s2) as [[err|] s3]; cbn [fst snd]; intros Hfail Hlog [Hsoul3 _].
  - destruct (Hfail _ eq_refl) as [Hr3 _]. assert (log_of m s3 = log_of m s) as Hl3 by (unfold log_of in *; congruence).
    cbn. split; [congruence|]. rewrite Hl3. split; [done|]. exists []. by rewrite app_nil_r.
  - specialize (Hlog eq_refl). rewrite Hlog2 in Hlog.
    assert (numbered (log_of m s3)) as Hn3 by (rewrite Hlog; by apply numbered_snoc).
    specialize (IH (v + 1)%Z s3). rewrite Hlog, length_app in IH. cbn [length] in IH.
    assert (ss_soul s3 = None) as Hq3 by congruence. rewrite Hlog in Hn3. specialize (IH Hq3 Hn3 ltac:(lia)).
    destruct (seed_from m (v + 1) ps s3) as [err s4]. destruct IH as (? & ? & new & Hnew & Hlen). split; [done|]. split; [done|].
    exists (toSoulEventModel ev :: new). rewrite Hnew, <-app_assoc. split; [done|]. intros E. simpl. by rewrite Hlen.
Qed.

Lemma events_log m s : numbered (log_of m s) -> events_of (sm_orgID m) (ss_rows s) = log_of m s.
Proof. apply (sort_numbered se_Version). Qed.

(** Caching the replay of the log. *)
Lemma install_good m s s' : log_of m s <> [] -> same s s' -> good m s (install m (log_of m s) s').2.
Proof.
  intros Hne Hs. unfold install. rewrite !st_bind_run. cbn [st_modify fst snd].
  eapply good_trans; [by apply good_same|]. assert (log_of m s' = log_of m s) as <- by (unfold log_of; by rewrite (proj1 Hs)).
  eapply good_trans; [|apply good_same; exact (write_same _ _ _)]. intros [Hnum _]. repeat split; [done| |exists []|done].
  - right. split; [|done]. unfold log_of in *. simpl. by rewrite (proj1 Hs).
  - by rewrite app_nil_r.
Qed.

Lemma load_good m s : good m s (soul_Load (Some m) s).2.
Proof.
  intros Hm. pose proof Hm as [Hnum Hcache]. unfold soul_Load. rewrite st_bind_run.
  destruct (list_run (sm_orgID m) s) as [Hs1 Hl]. revert Hs1 Hl.
  destruct (ListEvents (sm_orgID m) s) as [[l|err] s1]; cbn [fst snd]; intros Hs1 Hl; [|by apply good_same].
  specialize (Hl l eq_refl). rewrite events_log in Hl by done.
  destruct l as [|e l]; [|by rewrite Hl; apply install_good; [rewrite <-Hl|..]].
  destruct Hcache as [Hnone|[Hne _]]; [|by rewrite <-Hl in Hne].
  assert (log_of m s1 = []) as Hl1 by (unfold log_of in *; by rewrite (proj1 Hs1)).
  assert (ss_soul s1 = None) as Hn1 by (by rewrite (proj2 Hs1)).
  pose proof (seed_good m principles 1 s1 Hn1) as Hseed. rewrite Hl1 in Hseed. specialize (Hseed eq_refl eq_refl).
  rewrite st_bind_run. unfold seedCorePrinciples. revert Hseed.
  destruct (seed_from m 1 principles s1) as [err s2]. cbn [fst snd app]. intros (Hn2 & Hnum2 & new & Hnew & Hlen).
  assert (good m s s2) as Hg.
  { intros _. split; [by split; [|left]|]. split; [|by intros [x Hx]; congruence].
    exists new. rewrite <-Hl. by split. }
  destruct err as [err|]; [by apply Hg|]. rewrite st_bind_run.
  destruct (list_run (sm_orgID m) s2) as [Hs3 Hl3]. revert Hs3 Hl3.
  destruct (ListEvents (sm_orgID m) s2) as [[l|err] s3]; cbn [fst snd]; intros Hs3 Hl3.
  - revert Hm. eapply good_trans; [exact Hg|]. rewrite (Hl3 l eq_refl), events_log by done.
    apply install_good; [|done]. rewrite Hnew. intros ->. by specialize (Hlen eq_refl).
  - revert Hm. eapply good_trans; [exact Hg|by apply good_same].
Qed.

(** ** Runs *)

(** What changes the table and the cached soul of a manager: its own operations, and
    those of the managers of other organisations. *)
Inductive soul_step m : SoulState (F := F) (W := W) -> SoulState (F := F) (W := W) -> Prop :=
  | step_load s : soul_step m s (soul_Load (Some m) s).2
  | step_reflection s : soul_step m s (RunReflection (Some m) s).2
  | step_other e s : se_OrgID e <> sm_orgID m -> soul_step m s (AppendEvent e s).2.

Lemma step_good m s s' : soul_step m s s' -> good m s s'.
Proof.
  destruct 1 as [s|s|e s Ho]; [apply load_good|apply reflection_good|].
  intros Hm. pose proof (append_event_run e s) as Ha. destruct (AppendEvent e s) as [err s1]. cbn [snd] in *.
  destruct Ha as [Hs Hr]. assert (log_of m s1 = log_of m s) as Hl.
  { unfold log_of, of_org. destruct err; [by rewrite Hr|]. rewrite Hr, List.filter_app. simpl.
    by rewrite bool_decide_false, app_nil_r. }
  unfold mirrors, grows. rewrite Hl, Hs. repeat split; try apply Hm; [|done]. exists []. by rewrite app_nil_r.
Qed.

Lemma steps_good m s s' : rtc (soul_step m) s s' -> good m s s'.
Proof. induction 1 as [|s1 s2 s3 H1%step_good _ IH]; [by apply good_same|by eapply good_trans]. Qed.

(** C37: the cached soul is the replay of the log.  Whatever a manager's loads and reflections
    do from the start of the process, with any model and any failures of the database, the
    versions of its organisation's events stay 1, 2, ..., and the soul in memory is what
    replaying the events of the table gives. *)
Theorem soul_replays_log m s s' :
  ss_soul s = None -> numbered (log_of m s) -> rtc (soul_step m) s s' ->
  numbered (events_of (sm_orgID m) (ss_rows s')) /\
  forall x, Current (Some m) s' = Some x -> x = Materialize (events_of (sm_orgID m) (ss_rows s')).
Proof.
  intros Hnone Hnum Hsteps. destruct (steps_good _ _ _ Hsteps) as ([Hnum' Hc] & _); [by split; [|left]|].
  rewrite events_log by done. split; [done|]. intros x Hx. simpl in Hx.
  destruct Hc as [Hc|[_ Hc]]; congruence.
Qed.

(** The log is append-only and principles are immutable.  Along any run the earlier events
    of an organisation stay, in their order, in front of the later ones; once there are
    events, no load and no answer of the model adds a principle, so that a seeding that
    failed half-way is never completed. *)
Theorem principles_immutable m s s1 s2 :
  ss_soul s = None -> numbered (log_of m s) -> rtc (soul_step m) s s1 -> rtc (soul_step m) s1 s2 ->
  let log1 := events_of (sm_orgID m) (ss_rows s1) in
  let log2 := events_of (sm_orgID m) (ss_rows s2) in
  exists new, log2 = log1 ++ new /\
    (log1 <> [] -> sl_CorePrinciples (Materialize (F := F) log2) = sl_CorePrinciples (Materialize (F := F) log1)).
Proof.
  intros Hnone Hnum H1 H2. cbv zeta. destruct (steps_good _ _ _ H1) as (Hm1 & _); [by split; [|left]|].
  destruct (steps_good _ _ _ H2 Hm1) as (Hm2 & (new & Hnew & Hp) & _).
  rewrite !events_log by apply Hm1 || apply Hm2. exists new. split; [done|]. intros Hne.
  rewrite !materialize_fold, Hnew, fold_left_app. by apply principles_kept, Hp.
Qed.
End soul.

(** ** Arrays in answers *)

Definition open_b : Ascii.ascii := Ascii.ascii_of_nat 91.
Definition close_b : Ascii.ascii := Ascii.ascii_of_nat 93.

(** Texts whose brackets match. *)
Inductive matched : string -> Prop :=
  | bal_empty : matched ""
  | bal_char c s : c <> open_b -> c <> close_b -> matched s -> matched (String c s)
  | bal_nest s t : matched s -> matched t -> matched (String open_b (s +:+ String close_b t)).

Lemma scan_balanced s b : matched b -> forall rest i k d, (1 <= d)%Z ->
  array_from s (b +:+ rest) i (Some k) d = array_from s rest (i + String.length b) (Some k) d.
Proof.
  induction 1 as [|c b Ho Hc _ IH|b t _ IHb _ IHt]; intros rest i k d Hd.
  - by rewrite Nat.add_0_r.
  - change (String c b +:+ rest) with (String c (b +:+ rest)). cbn [array_from String.length].
    rewrite (proj2 (Ascii.eqb_neq c (Ascii.ascii_of_nat 91)) Ho), (proj2 (Ascii.eqb_neq c (Ascii.ascii_of_nat 93)) Hc), IH by done. f_equal. lia.
  - change (String open_b (b +:+ String close_b t) +:+ rest)
      with (String open_b ((b +:+ String close_b t) +:+ rest)).
    rewrite str_app_assoc. change (String close_b t +:+ rest) with (String close_b (t +:+ rest)).
    cbn [array_from]. change (Ascii.eqb open_b (Ascii.ascii_of_nat 91)) with true. cbv iota. rewrite IHb by lia.
    cbn [array_from]. change (Ascii.eqb close_b (Ascii.ascii_of_nat 91)) with false.
    change (Ascii.eqb close_b (Ascii.ascii_of_nat 93)) with true. cbv iota zeta.
    destruct (Z.eqb_spec (d + 1 - 1) 0); [lia|]. replace (d + 1 - 1)%Z with d by lia. rewrite IHt by done. f_equal.
    change (String.length (String open_b (b +:+ String close_b t))) with (S (String.length (b +:+ String close_b t))).
    rewrite str_app_length. simpl. lia.
Qed.

Lemma scan_plain s p rest i : (forall c, c ∈ String.list_ascii_of_string p -> c <> open_b /\ c <> close_b) ->
  array_from s (p +:+ rest) i None 0 = array_from s rest (i + String.length p) None 0.
Proof.
  revert i. induction p as [|c p IH]; intros i Hp; [by rewrite Nat.add_0_r|].
  change (String c p +:+ rest) with (String c (p +:+ rest)). cbn [array_from String.length String.list_ascii_of_string] in *.
  destruct (Hp c) as [Ho Hc]; [left|]. rewrite (proj2 (Ascii.eqb_neq c (Ascii.ascii_of_nat 91)) Ho), (proj2 (Ascii.eqb_neq c (Ascii.ascii_of_nat 93)) Hc), IH.
  - f_equal. lia.
  - intros a Ha. apply Hp. by right.
Qed.

(** The array of an answer is found.  An answer with text without brackets, an array whose
    brackets match, and any text after it: the parser gets exactly the array. *)
Theorem answer_array_found p b rest :
  (forall c, c ∈ String.list_ascii_of_string p -> c <> open_b /\ c <> close_b) -> matched b ->
  extractJSONArray (p +:+ (String open_b (b +:+ String close_b "") +:+ rest)) = String open_b (b +:+ String close_b "").
Proof.
  intros Hp Hb. unfold extractJSONArray. rewrite scan_plain by done. set (all := p +:+ _).
  change (String open_b (b +:+ String close_b "") +:+ rest) with (String open_b ((b +:+ String close_b "") +:+ rest)).
  rewrite str_app_assoc. change (String close_b "" +:+ rest) with (String close_b rest).
  cbn [array_from Nat.add]. change (Ascii.eqb open_b (Ascii.ascii_of_nat 91)) with true. cbv iota.
  rewrite scan_balanced by done. cbn [array_from]. change (Ascii.eqb close_b (Ascii.ascii_of_nat 91)) with false.
  change (Ascii.eqb close_b (Ascii.ascii_of_nat 93)) with true. cbv iota zeta. cbn [Z.eqb Z.add Z.sub].
  assert (Hlen : S (String.length p) + String.length b + 1 = String.length p + String.length (String open_b (b +:+ String close_b ""))).
  { change (String.length (String open_b (b +:+ String close_b ""))) with (S (String.length (b +:+ String close_b ""))).
    rewrite str_app_length. simpl. lia. }
  rewrite Hlen. unfold all. rewrite <-str_app_assoc, str_take_app, str_app_length, Nat.sub_diag, str_take_zero, str_app_nil.
  rewrite str_take_all by (by rewrite str_app_length). apply str_drop_prefix.
Qed.
