(* ===== verification/HeartbeatTask.v ===== *)
(** * Heartbeat tasks

    [src/internal/heartbeattask/]: Markdown files with tasks ([loader.go]), their
    synchronisation with the database ([poller.go]), the execution of the tasks that are due
    ([runner.go]) and the alerts about failures ([proactive.go]), over the tables of
    [src/internal/storage/postgres/heartbeattask_repo.go].  The directories are an argument
    of a synchronisation; YAML frontmatter and the digest of a file are parameters, and so
    is the agent.  Metrics and logging are left out, and the concurrent executions of a tick
    come one after the other. *)

From S2P Require Import Prelude Text SecurityManager Agent Config Domain Models Notification Cron.

(** ** Task files *)

Section loader.
Context {F : Type} `{!Num F}.

Record HeartbeatTaskFile := mkTaskFile {
  tf_Name : string;
  tf_Description : string;
  tf_UserID : string;
  tf_DefaultCron : string;
  tf_DefaultBudgetUSD : F;
  tf_NotificationChannelIDs : list string;
  tf_Enabled : bool;
}.

Record ParsedTask := mkParsedTask {
  pt_Name : string;
  pt_Mode : string;
  pt_CronExpression : string;
  pt_BudgetUSD : F;
  pt_Prompt : string;
}.

(** [strconv.ParseFloat]. *)
Class FloatParse := { ParseFloat : string -> result error F }.

(** [strings.Trim] with the two quotes. *)
Definition is_quote_mark (c : Ascii.ascii) : bool :=
  Ascii.eqb c (Ascii.ascii_of_nat 34) || Ascii.eqb c (Ascii.ascii_of_nat 39).
Fixpoint unquote_left (s : string) : string :=
  match s with
  | String a s' => if is_quote_mark a then unquote_left s' else s
  | EmptyString => ""
  end.
Fixpoint unquote_right (s : string) : string :=
  match s with
  | String a s' => let r := unquote_right s' in
                   if String.eqb r "" && is_quote_mark a then "" else String a r
  | EmptyString => ""
  end.
Definition trim_quotes (s : string) : string := unquote_right (unquote_left s).

Context `{!FloatParse}.

(** The variables of [parseTasks]. *)
Record parsing := mkParsing {
  ps_tasks : list ParsedTask;
  ps_mode : string;
  ps_current : option ParsedTask;
  ps_prompt : list string;
}.

Definition flush (p : parsing) : parsing :=
  match ps_current p with
  | None => p
  | Some t =>
      mkParsing
        (ps_tasks p ++ [mkParsedTask (pt_Name t) (or_text (pt_Mode t) (ps_mode p)) (pt_CronExpression t)
                          (pt_BudgetUSD t) (TrimSpace (String.concat newline (ps_prompt p)))])
        (ps_mode p) None []
  end.

Definition section_mode (heading old : string) : string :=
  if contains (to_lower heading) "quick" then "quick"
  else if contains (to_lower heading) "long" then "long" else old.

(** A line inside a task. *)
Definition task_line (t : ParsedTask) (line : string) (p : parsing) : parsing :=
  let trimmed := TrimSpace line in
  let set t := mkParsing (ps_tasks p) (ps_mode p) (Some t) (ps_prompt p) in
  match drop_prefix "- cron:" trimmed, drop_prefix "- mode:" trimmed, drop_prefix "- budget_usd:" trimmed with
  | Some v, _, _ => set (mkParsedTask (pt_Name t) (pt_Mode t) (trim_quotes (TrimSpace v)) (pt_BudgetUSD t) (pt_Prompt t))
  | None, Some v, _ => set (mkParsedTask (pt_Name t) (TrimSpace v) (pt_CronExpression t) (pt_BudgetUSD t) (pt_Prompt t))
  | None, None, Some v =>
      match ParseFloat (TrimSpace v) with
      | Ok f => set (mkParsedTask (pt_Name t) (pt_Mode t) (pt_CronExpression t) f (pt_Prompt t))
      | Err _ => p
      end
  | None, None, None => mkParsing (ps_tasks p) (ps_mode p) (ps_current p) (ps_prompt p ++ [line])
  end.

Definition parse_line (p : parsing) (line : string) : parsing :=
  let trimmed := TrimSpace line in
  match drop_prefix "## " trimmed with
  | Some heading =>
      let p := flush p in
      mkParsing (ps_tasks p) (section_mode heading (ps_mode p)) (ps_current p) (ps_prompt p)
  | None =>
      match drop_prefix "### " trimmed with
      | Some name =>
          let p := flush p in
          mkParsing (ps_tasks p) (ps_mode p) (Some (mkParsedTask (TrimSpace name) "" "" (nofZ 0) "")) []
      | None => match ps_current p with None => p | Some t => task_line t line p end
      end
  end.

Definition parseTasks (lines : list string) : list ParsedTask :=
  ps_tasks (flush (fold_left parse_line lines (mkParsing [] "quick" None []))).

(** [yaml.Unmarshal] of a frontmatter. *)
Class Yaml := { yaml_Unmarshal : string -> result error HeartbeatTaskFile }.

Definition ParseFile `{!Yaml} (content : result error string) : result error (HeartbeatTaskFile * list ParsedTask) :=
  match content with
  | Err err => Err (Wrap "opening file" err)
  | Ok text =>
      let '(lines, err) := scan_lines text in
      match lines with
      | [] => Err (Errorf "empty file")
      | first :: lines =>
          if negb (String.eqb (TrimSpace first) "---") then Err (Errorf "missing YAML frontmatter")
          else
            match until_close lines with
            | None => Err (Errorf "unclosed YAML frontmatter")
            | Some (front, body) =>
                match yaml_Unmarshal (String.concat newline front) with
                | Err e => Err (Wrap "parsing frontmatter" e)
                | Ok file =>
                    match err with
                    | Some e => Err (Wrap "reading file" e)
                    | None => Ok (file, parseTasks body)
                    end
                end
            end
      end
  end.

Definition bad_task (t : ParsedTask) : bool :=
  String.eqb (pt_Name t) "" || negb (slice_contains ["quick"; "long"] (pt_Mode t)) || String.eqb (pt_Prompt t) "".

Definition Validate (file : HeartbeatTaskFile) (tasks : list ParsedTask) : option error :=
  if String.eqb (tf_Name file) "" then Some (Errorf "frontmatter 'name' is required")
  else if existsb bad_task tasks then Some (Errorf "task is not valid") else None.
End loader.

Arguments HeartbeatTaskFile F : clear implicits.
Arguments ParsedTask F : clear implicits.
Arguments FloatParse F : clear implicits.
Arguments Yaml F : clear implicits.

(** ** Failure alerts *)

Definition truncateProactiveOutput (s : string) (maxLen : nat) : string :=
  if (String.length s <=? maxLen)%nat then s
  else str_take maxLen s +:+ newline +:+ "... [truncated]".

Definition classifySeverity (output : string) : string :=
  let lower := to_lower output in
  if existsb (contains lower) ["critical"; "fatal"; "panic"; "oom"; "out of memory"; "disk full"] then "critical"
  else if existsb (contains lower) ["error"; "failed"; "timeout"; "unreachable"; "down"] then "high"
  else "medium".

Definition truncate (s : string) (maxLen : nat) : string :=
  if (String.length s <=? maxLen)%nat then s
  else if (maxLen <=? 3)%nat then str_take maxLen s
  else str_take (maxLen - 3) s +:+ "...".

(** The agent, with the time it is given. *)
Class HeartbeatAgent (A : Type) := {
  agent_Process : Duration -> Input -> A -> result error Response * A;
}.

Section heartbeat.
Context {F P W A : Type}.
Context `{!Num F} `{!ErrorText} `{!Render} `{!World W} `{!GoParams P} `{!RowJson}.
Context `{!CronParser} `{!UuidParse} `{!FloatParse F} `{!Yaml F} `{!Digest} `{!HeartbeatAgent A}.
Context `{!GoSort (HeartbeatTask F)} `{!GoSort (HeartbeatTaskResult F)}.
Context `{!MapRange uuid (HeartbeatTask F * bool)} `{!MapRange uuid (option error)}.

Record fileState := mkFileState { fs_Hash : string; fs_FileGroup : string }.
Context `{!MapRange string fileState}.

(** The rows, with whether they are deleted ([deleted_at] is set), and the states of the
    files the poller has in memory. *)
Record HbState := mkHbState {
  hb_bg : Bg F P W;
  hb_rows : gmap uuid (HeartbeatTask F * bool);
  hb_results : list (HeartbeatTaskResult F);
  hb_files : gmap string fileState;
  hb_agent : A;
}.

Abbreviation HM := (st HbState).

Definition on_bg {B} (m : st (Bg F P W) B) : HM B := fun s =>
  let '(b, bg) := m (hb_bg s) in (b, mkHbState bg (hb_rows s) (hb_results s) (hb_files s) (hb_agent s)).
Definition set_rows (m : gmap uuid (HeartbeatTask F * bool)) (s : HbState) : HbState :=
  mkHbState (hb_bg s) m (hb_results s) (hb_files s) (hb_agent s).
Definition set_files (m : gmap string fileState) (s : HbState) : HbState :=
  mkHbState (hb_bg s) (hb_rows s) (hb_results s) m (hb_agent s).

(** ** The store *)

Definition same_key (org : uuid) (group name : string) (t : HeartbeatTask F) : bool :=
  bool_decide (ht_OrgID t = org) && String.eqb (ht_FileGroup t) group && String.eqb (ht_Name t) name.

(** The columns an upsert assigns to the row in conflict. *)
Definition assigned (old new : HeartbeatTask F) : HeartbeatTask F :=
  mkHeartbeatTask (ht_ID old) (ht_OrgID old) (ht_Name old) (ht_Description new) (ht_SourceFile new)
    (ht_FileGroup old) (ht_CronExpression new) (ht_Mode new) (ht_UserID new) (ht_BudgetLimitUSD new)
    (ht_NotificationChannelIDs new) (ht_Enabled new) (ht_NextRunAt new) (ht_LastRunAt old) (ht_LastStatus old)
    (ht_LastError old) (ht_LastResultSummary old) (ht_CreatedAt old) (ht_UpdatedAt new).

(** The unique index on organisation, group and name covers deleted rows too. *)
Definition conflicting (t : HeartbeatTask F) (rows : gmap uuid (HeartbeatTask F * bool))
    : option (uuid * (HeartbeatTask F * bool)) :=
  List.find (fun r => same_key (ht_OrgID t) (ht_FileGroup t) (ht_Name t) r.2.1) (map_range rows).

Definition task_Upsert (t : HeartbeatTask F) : HM (option error) :=
  err ← on_bg bg_stmt;
  match err with
  | Some e => mret (Some e)
  | None =>
      rows ← st_get hb_rows;
      match conflicting t rows with
      | Some (id, (old, deleted)) =>
          _ ← st_modify (set_rows (<[id := (assigned old (stored t), deleted)]> rows)); mret None
      | None =>
          match rows !! ht_ID t with
          | Some _ => mret (Some (Errorf "duplicate key"))
          | None => _ ← st_modify (set_rows (<[ht_ID t := (stored t, false)]> rows)); mret None
          end
      end
  end.

(** A row that a query of an organisation sees. *)
Definition visible (org : uuid) (r : HeartbeatTask F * bool) : bool :=
  negb r.2 && bool_decide (ht_OrgID r.1 = org).

Definition task_Get (org id : uuid) : HM (result error (HeartbeatTask F)) :=
  err ← on_bg bg_stmt;
  match err with
  | Some e => mret (Err e)
  | None =>
      row ← st_get (fun s => hb_rows s !! id);
      mret (match row with
            | Some r => if visible org r then Ok r.1 else Err (Errorf "record not found")
            | None => Err (Errorf "record not found")
            end)
  end.

(** [ORDER BY file_group, name]. *)
Definition before_task (a b : HeartbeatTask F) : bool :=
  match String.compare (ht_FileGroup a) (ht_FileGroup b) with
  | Lt => true
  | Gt => false
  | Eq => match String.compare (ht_Name a) (ht_Name b) with Lt => true | _ => false end
  end.

Definition seen_tasks (org : uuid) (rows : gmap uuid (HeartbeatTask F * bool)) : list (HeartbeatTask F) :=
  (List.filter (visible org) (map_range rows).*2).*1.

Definition task_List (org : uuid) : HM (result error (list (HeartbeatTask F))) :=
  err ← on_bg bg_stmt;
  match err with
  | Some e => mret (Err e)
  | None => rows ← st_get hb_rows; mret (Ok (go_sort before_task (seen_tasks org rows)))
  end.

(** A soft delete of the rows a test selects. *)
Definition delete_where (test : HeartbeatTask F -> bool) (rows : gmap uuid (HeartbeatTask F * bool))
    : gmap uuid (HeartbeatTask F * bool) :=
  (fun r => (r.1, r.2 || test r.1)) <$> rows.

Definition task_Delete (org id : uuid) : HM (option error) :=
  err ← on_bg bg_stmt;
  match err with
  | Some e => mret (Some e)
  | None =>
      _ ← st_modify (fun s =>
            set_rows (alter (fun r => (r.1, r.2 || bool_decide (ht_OrgID r.1 = org))) id (hb_rows s)) s);
      mret None
  end.

Definition DeleteByFileGroup (org : uuid) (group : string) : HM (option error) :=
  err ← on_bg bg_stmt;
  match err with
  | Some e => mret (Some e)
  | None =>
      _ ← st_modify (fun s =>
            set_rows (delete_where (fun t => bool_decide (ht_OrgID t = org) && String.eqb (ht_FileGroup t) group)
                        (hb_rows s)) s);
      mret None
  end.

Definition due_task (org : uuid) (now : Time) (t : HeartbeatTask F) : bool :=
  is_due (ht_OrgID t) org (ht_Enabled t) (ht_NextRunAt t) now.

Definition GetDueTasks (org : uuid) (now : Time) : HM (result error (list (HeartbeatTask F))) :=
  err ← on_bg bg_stmt;
  match err with
  | Some e => mret (Err e)
  | None => rows ← st_get hb_rows; mret (Ok (List.filter (due_task org now) (seen_tasks org rows)))
  end.

(** The columns [RecordExecution] writes. *)
Definition ran (t : HeartbeatTask F) (next : Time) (status lastError summary : string) (now : Time) : HeartbeatTask F :=
  mkHeartbeatTask (ht_ID t) (ht_OrgID t) (ht_Name t) (ht_Description t) (ht_SourceFile t) (ht_FileGroup t)
    (ht_CronExpression t) (ht_Mode t) (ht_UserID t) (ht_BudgetLimitUSD t) (ht_NotificationChannelIDs t)
    (ht_Enabled t) (Some next) (Some now) status lastError summary (ht_CreatedAt t) now.

Definition task_RecordExecution (id : uuid) (next : Time) (status lastError summary : string) : HM (option error) :=
  now ← on_bg bg_now;
  err ← on_bg bg_stmt;
  match err with
  | Some e => mret (Some e)
  | None =>
      _ ← st_modify (fun s =>
            set_rows (alter (fun r : HeartbeatTask F * bool => if r.2 then r else (ran r.1 next status lastError summary now, false)) id
                        (hb_rows s)) s);
      mret None
  end.

Definition result_Append (r : HeartbeatTaskResult F) : HM (option error) :=
  err ← on_bg bg_stmt;
  match err with
  | Some e => mret (Some e)
  | None =>
      _ ← st_modify (fun s => mkHbState (hb_bg s) (hb_rows s) (hb_results s ++ [stored r]) (hb_files s) (hb_agent s));
      mret None
  end.

(** [ListByTask] with a task, [ListRecent] without. *)
Definition result_List (org : uuid) (task : option uuid) (limit : nat) : HM (result error (list (HeartbeatTaskResult F))) :=
  err ← on_bg bg_stmt;
  match err with
  | Some e => mret (Err e)
  | None =>
      rs ← st_get hb_results;
      mret (Ok (take limit (newest hr_CreatedAt
        (List.filter (fun r => bool_decide (hr_OrgID r = org) &&
           match task with Some id => bool_decide (hr_TaskID r = id) | None => true end) rs))))
  end.

(** ** Synchronisation *)

Record TaskPollerConfig := mkTaskPollerConfig {
  tpc_TasksDirs : list string;
  tpc_OrgID : uuid;
  tpc_DefaultUser : string;
}.

Definition parse_channels (ids : list string) : list uuid :=
  omap (fun s => match uuid_Parse s with Ok id => Some id | Err _ => None end) ids.

Definition task_budget (file : HeartbeatTaskFile F) (t : ParsedTask F) : F :=
  let budget := if nleb (pt_BudgetUSD t) (nofZ 0) then tf_DefaultBudgetUSD file else pt_BudgetUSD t in
  if nleb budget (nofZ 0) then ndiv (nofZ 1) (nofZ 2) else budget.

(** One task of a file: skipped without a schedule or with a bad one. *)
Definition sync_task (c : TaskPollerConfig) (path : string) (file : HeartbeatTaskFile F) (t : ParsedTask F) : HM unit :=
  let cronExpr := or_text (pt_CronExpression t) (tf_DefaultCron file) in
  if String.eqb cronExpr "" then mret tt
  else
    from ← on_bg bg_now;
    match ComputeNextRunFrom cronExpr from with
    | Err _ => mret tt
    | Ok next =>
        now ← on_bg bg_now;
        id ← on_bg bg_uuid;
        _ ← task_Upsert (mkHeartbeatTask id (tpc_OrgID c) (pt_Name t) (pt_Prompt t) path (tf_Name file) cronExpr
              (pt_Mode t) (or_text (tf_UserID file) (tpc_DefaultUser c)) (task_budget file t)
              (parse_channels (tf_NotificationChannelIDs file)) (tf_Enabled file) (Some next) None "" "" "" now now);
        mret tt
    end.

Definition syncFile (c : TaskPollerConfig) (path : string) (content : result error string) (hash : string) : HM unit :=
  match ParseFile content with
  | Err _ => mret tt
  | Ok (file, tasks) =>
      match Validate file tasks with
      | Some _ => mret tt
      | None =>
          _ ← st_each (sync_task c path file) tasks;
          st_modify (fun s => set_files (<[path := mkFileState hash (tf_Name file)]> (hb_files s)) s)
      end
  end.

(** [filepath.Join] of a clean directory and a file's name. *)
Definition task_path (dir : string) (e : dir_entry) : string := dir +:+ "/" +:+ de_Name e.

Definition is_task_file (e : dir_entry) : bool := negb (de_IsDir e) && has_suffix (de_Name e) ".md".

Definition fileHash (content : result error string) : result error string :=
  match content with Ok text => Ok (sha256_16 text) | Err err => Err err end.

Definition sync_entry (c : TaskPollerConfig) (dir : string) (e : dir_entry) : HM unit :=
  match fileHash (de_Content e) with
  | Err _ => mret tt
  | Ok hash =>
      prev ← st_get (fun s => hb_files s !! task_path dir e);
      match prev with
      | Some f => if String.eqb (fs_Hash f) hash then mret tt
                  else syncFile c (task_path dir e) (de_Content e) hash
      | None => syncFile c (task_path dir e) (de_Content e) hash
      end
  end.

(** The task files of a directory; those of one that cannot be read are not seen. *)
Definition task_files (disk : string -> result error (list dir_entry)) (dir : string) : list dir_entry :=
  match disk dir with Ok es => List.filter is_task_file es | Err _ => [] end.

Definition seen_paths (c : TaskPollerConfig) (disk : string -> result error (list dir_entry)) : list string :=
  concat (map (fun dir => map (task_path dir) (task_files disk dir)) (tpc_TasksDirs c)).

Definition remove_unseen (c : TaskPollerConfig) (seen : list string) (f : string * fileState) : HM unit :=
  if slice_contains seen f.1 then mret tt
  else
    _ ← DeleteByFileGroup (tpc_OrgID c) (fs_FileGroup f.2);
    st_modify (fun s => set_files (delete f.1 (hb_files s)) s).

Definition syncAll (c : TaskPollerConfig) (disk : string -> result error (list dir_entry)) : HM unit :=
  _ ← st_each (fun dir => st_each (sync_entry c dir) (task_files disk dir)) (tpc_TasksDirs c);
  files ← st_get (fun s => map_range (hb_files s));
  st_each (remove_unseen c (seen_paths c disk)) files.

(** ** Execution *)

(** [ProactiveHandler]; [None] is a nil dispatcher. *)
Record ProactiveHandler := mkProactive { ph_dispatcher : option (Dispatcher W); ph_orgID : uuid }.

Definition proactive_message (taskName output : string) : Message :=
  mkMessage ("Alert: " +:+ taskName +:+ " — Issue Detected")
    ("Proactive Alert: " +:+ taskName +:+ " detected an issue." +:+ newline +:+ newline +:+
     "Initial findings:" +:+ newline +:+ truncateProactiveOutput output 500 +:+ newline +:+ newline +:+
     "Awaiting human guidance.")
    [("source", "heartbeat_proactive"); ("task_name", taskName); ("severity", classifySeverity output)].

(** A delivery that succeeded: its error is nil. *)
Definition delivered (e : uuid * option error) : bool := match e.2 with None => true | Some _ => false end.

(** Whether [HandleFailure] panics: it asks every answer of the channels for its text, also
    a nil error. *)
Definition HandleFailure (h : ProactiveHandler) (taskName output userID : string) (channelIDs : list uuid) : HM bool :=
  match ph_dispatcher h with
  | None => mret false
  | Some d =>
      if bool_decide (channelIDs = []) then mret false
      else
        errs ← on_bg (Notify d (ph_orgID h) channelIDs (proactive_message taskName output) userID);
        mret (existsb delivered (map_range errs))
  end.

Record Runner := mkRunner {
  hr_dispatcher : option (Dispatcher W);
  hr_proactive : option ProactiveHandler;
  hr_config : option HeartbeatTasksConfig;
  hr_orgID : uuid;
}.

Definition audit_fire (t : HeartbeatTask F) (correlationID : string) (more : list (string * string))
    (res : string) (tokens : Z) (errMsg : string) : HM unit :=
  now ← on_bg bg_now;
  on_bg (LogAction (mkAuditEvent now correlationID (ht_UserID t) "heartbeat_task.fire" "heartbeat_task_runner"
    (Some (params_of ([("task_id", uuid_String (ht_ID t)); ("task_name", ht_Name t); ("file_group", ht_FileGroup t)] ++ more)))
    res tokens (nofZ 0) "" errMsg)).

(** The names and errors [notify] puts into the result, which is not stored again. *)
Definition hb_notify (r : Runner) (d : Dispatcher W) (t : HeartbeatTask F) (res : HeartbeatTaskResult F)
    : HM (list string * list string) :=
  let subject := "Heartbeat Task: " +:+ ht_Name t +:+ " [" +:+ hr_Status res +:+ "]" in
  let body := "Task: " +:+ ht_Name t +:+ newline +:+ "Status: " +:+ hr_Status res +:+ newline +:+
              "Duration: " +:+ itoa (hr_DurationMS res) +:+ "ms" +:+ newline +:+ newline +:+ hr_OutputSummary res in
  errs ← on_bg (Notify d (hr_orgID r) (ht_NotificationChannelIDs t)
    (mkMessage subject body [("task_id", uuid_String (ht_ID t)); ("task_name", ht_Name t);
       ("status", hr_Status res); ("correlation_id", hr_CorrelationID res)]) (ht_UserID t));
  mret (map (fun e => uuid_String e.1) (List.filter delivered (map_range errs)),
        omap (fun e => match e.2 with Some err => Some (uuid_String e.1 +:+ ": " +:+ error_Error err) | None => None end)
          (map_range errs)).

Definition task_timeout (r : Runner) (t : HeartbeatTask F) : Duration :=
  if String.eqb (ht_Mode t) "long" then LongTaskTimeout (hr_config r) else QuickTaskTimeout (hr_config r).

(** The next time, five minutes later when the schedule does not parse. *)
Definition task_next_run (t : HeartbeatTask F) : HM Time :=
  from ← on_bg bg_now;
  match ComputeNextRunFrom (ht_CronExpression t) from with
  | Ok next => mret next
  | Err _ => now ← on_bg bg_now; mret (now + 5 * Minute)%Z
  end.

Definition task_result (t : HeartbeatTask F) (id : uuid) (correlationID : string) (resp : result error Response)
    (durationMS : Z) (now : Time) : HeartbeatTaskResult F :=
  match resp with
  | Err err =>
      mkHeartbeatTaskResult id (ht_OrgID t) (ht_ID t) "failure" (error_Error err) (truncate (error_Error err) 500)
        0 (nofZ 0) durationMS correlationID [] [] now
  | Ok r =>
      mkHeartbeatTaskResult id (ht_OrgID t) (ht_ID t) "success" (rsp_Message r) (truncate (rsp_Message r) 500)
        (rsp_TokensUsed r) (nofZ 0) durationMS correlationID [] [] now
  end.

Definition run_agent (r : Runner) (t : HeartbeatTask F) (correlationID : string) : HM (result error Response) := fun s =>
  let '(resp, a) := agent_Process (task_timeout r t) (mkInput (ht_UserID t) (ht_Description t) correlationID "") (hb_agent s) in
  (resp, mkHbState (hb_bg s) (hb_rows s) (hb_results s) (hb_files s) a).

(** Milliseconds of a duration. *)
Definition Milliseconds (d : Duration) : Z := Z.quot d 1000000.

(** The execution of a task; the answer tells whether the process panics. *)
Definition executeTask (r : Runner) (t : HeartbeatTask F) : HM bool :=
  u ← on_bg bg_uuid;
  let correlationID := "hbt-" +:+ str_take 8 (uuid_String u) in
  start ← on_bg bg_now;
  _ ← audit_fire t correlationID [("mode", ht_Mode t); ("cron_expression", ht_CronExpression t)] "intent" 0 "";
  resp ← run_agent r t correlationID;
  next ← task_next_run t;
  stop ← on_bg bg_now;
  id ← on_bg bg_uuid;
  now ← on_bg bg_now;
  let res := task_result t id correlationID resp (Milliseconds (stop - start)%Z) now in
  _ ← result_Append res;
  _ ← task_RecordExecution (ht_ID t) next (hr_Status res) (hr_OutputSummary res) (hr_OutputSummary res);
  _ ← audit_fire t correlationID [] (hr_Status res) (hr_TokensUsed res)
        (match resp with Err err => error_Error err | Ok _ => "" end);
  panics ← match hr_proactive r with
           | Some h =>
               if String.eqb (hr_Status res) "failure" && bool_decide (ht_NotificationChannelIDs t <> [])
               then HandleFailure h (ht_Name t) (hr_Output res) (ht_UserID t) (ht_NotificationChannelIDs t)
               else mret false
           | None => mret false
           end;
  if (panics : bool) then mret true
  else
    match hr_dispatcher r with
    | Some d =>
        if bool_decide (ht_NotificationChannelIDs t <> []) then _ ← hb_notify r d t res; mret false else mret false
    | None => mret false
    end.

(** The executions of a tick, up to the first that panics. *)
Fixpoint execute_all (r : Runner) (ts : list (HeartbeatTask F)) : HM bool :=
  match ts with
  | [] => mret false
  | t :: ts =>
      panics ← executeTask r t;
      if (panics : bool) then mret true else execute_all r ts
  end.

(** [tick]: the transaction ends before the tasks are executed. *)
Definition hb_tick (r : Runner) : HM bool :=
  now ← on_bg bg_now;
  due ← GetDueTasks (hr_orgID r) now;
  match due with
  | Err _ => mret false
  | Ok tasks =>
      commit ← on_bg bg_stmt;
      match commit with Some _ => mret false | None => execute_all r tasks end
  end.
End heartbeat.

Arguments HbState F P W A : clear implicits.
Arguments Runner W : clear implicits.
Arguments ProactiveHandler W : clear implicits.

(** * What heartbeat tasks do

    A task file is read back as it was written; which rows a synchronisation changes and
    which it never brings back; what one execution records, and when it panics. *)

(** ** Task files *)

Section files.
Context {F : Type} `{!Num F} `{!FloatParse F}.

(** A task as it is written: the budget is a text, the prompt a list of lines. *)
Record written := mkWritten {
  wt_name : string;
  wt_mode : string;
  wt_cron : string;
  wt_budget : string;
  wt_lines : list string;
}.

Definition written_lines (w : written) : list string :=
  ["### " +:+ wt_name w; "- mode: " +:+ wt_mode w; "- cron: " +:+ wt_cron w; "- budget_usd: " +:+ wt_budget w] ++ wt_lines w.

Definition trimmed (s : string) : Prop := s <> "" /\ TrimSpace s = s.

(** A line the parser takes as text of the prompt. *)
Definition prompt_line (line : string) : Prop :=
  Forall (fun p => has_prefix (TrimSpace line) p = false) ["## "; "### "; "- cron:"; "- mode:"; "- budget_usd:"].

Record well_written (w : written) (f : F) : Prop := {
  ww_name : trimmed (wt_name w);
  ww_mode : trimmed (wt_mode w);
  ww_cron : trimmed (wt_cron w) /\ trim_quotes (wt_cron w) = wt_cron w;
  ww_budget : trimmed (wt_budget w) /\ ParseFloat (wt_budget w) = Ok f;
  ww_lines : Forall prompt_line (wt_lines w);
}.

Definition parsed (w : written) (f : F) : ParsedTask F :=
  mkParsedTask (wt_name w) (wt_mode w) (wt_cron w) f (TrimSpace (String.concat newline (wt_lines w))).

Lemma trim_right_app s t : trim_right t <> "" -> trim_right (s +:+ t) = s +:+ trim_right t.
Proof.
  intros Ht. induction s as [|c s IH]; [done|]. change (trim_right (String c (s +:+ t)) = String c (s +:+ trim_right t)).
  cbn [trim_right]. rewrite IH. destruct (String.eqb_spec (s +:+ trim_right t) "") as [E|]; [|done].
  destruct s; [done|discriminate].
Qed.

Lemma trim_left_ends s : trim_left s = s \/ String.length (trim_left s) < String.length s.
Proof. induction s as [|c s [IH|IH]]; simpl; [by left|..]; destruct (is_trimmed c); auto; right; rewrite ?IH; lia. Qed.

Lemma trim_right_length s : String.length (trim_right s) <= String.length s.
Proof. induction s as [|c s IH]; simpl; [done|]. case_match; simpl; lia. Qed.

(** A trimmed text begins and ends as itself. *)
Lemma trimmed_ends s : trimmed s -> trim_left s = s /\ trim_right s = s.
Proof.
  intros [_ Ht]. unfold TrimSpace in Ht. pose proof (trim_right_length (trim_left s)) as Hl.
  rewrite Ht in Hl. destruct (trim_left_ends s) as [E|]; [|lia]. by rewrite E in Ht.
Qed.

(** A line of a word, a blank and a trimmed text. *)
Lemma trim_keyword c p s : is_trimmed c = false -> trimmed s ->
  TrimSpace (String c p +:+ s) = String c p +:+ s.
Proof.
  intros Hc Hs. pose proof (trimmed_ends s Hs) as [_ Hr]. destruct Hs as [Hne _].
  unfold TrimSpace. change (String c p +:+ s) with (String c (p +:+ s)). cbn [trim_left]. rewrite Hc.
  change (String c (p +:+ s)) with (String c p +:+ s). rewrite trim_right_app, Hr by congruence. done.
Qed.

Lemma drop_word p s : drop_prefix p (p +:+ s) = Some s.
Proof.
  unfold drop_prefix. rewrite (proj2 (has_prefix_spec _ _)) by (by exists s). by rewrite substring_skip.
Qed.

Lemma trim_blank s : trimmed s -> TrimSpace (" " +:+ s) = s.
Proof. intros Hs. change (TrimSpace (" " +:+ s)) with (TrimSpace s). apply Hs. Qed.

Lemma not_prefix line p : has_prefix line p = false -> drop_prefix p line = None.
Proof. intros E. unfold drop_prefix. by rewrite E. Qed.

(** The state inside a task. *)
Definition inside (ts : list (ParsedTask F)) mode (t : ParsedTask F) lines : parsing :=
  mkParsing ts mode (Some t) lines.

Lemma parse_prompt ts mode t lines ls : Forall prompt_line ls ->
  fold_left parse_line ls (inside ts mode t lines) = inside ts mode t (lines ++ ls).
Proof.
  revert lines. induction ls as [|l ls IH]; intros lines Hls; [by rewrite app_nil_r|].
  apply Forall_cons in Hls as [Hl Hls]. simpl. repeat apply Forall_cons in Hl as [? Hl].
  unfold parse_line at 2, task_line. cbn [inside ps_current ps_tasks ps_mode ps_prompt].
  rewrite !not_prefix by done. etrans; [by apply (IH (lines ++ [l]))|]. by rewrite <-app_assoc.
Qed.

(** The lines of a task's settings. *)
Lemma parse_heading p name : trimmed name ->
  parse_line p ("### " +:+ name) =
  inside (ps_tasks (flush p)) (ps_mode (flush p)) (mkParsedTask name "" "" (nofZ 0) "") [].
Proof.
  intros Hn. unfold parse_line. rewrite trim_keyword by done.
  change (drop_prefix "## " ("### " +:+ name)) with (@None string). by rewrite drop_word, (proj2 Hn).
Qed.

Lemma parse_mode ts mode t lines v : trimmed v ->
  parse_line (inside ts mode t lines) ("- mode: " +:+ v) =
  inside ts mode (mkParsedTask (pt_Name t) v (pt_CronExpression t) (pt_BudgetUSD t) (pt_Prompt t)) lines.
Proof.
  intros Hv. unfold parse_line, task_line. rewrite trim_keyword by done.
  change ("- mode: " +:+ v) with ("- mode:" +:+ (" " +:+ v)). rewrite drop_word, trim_blank by done. done.
Qed.

Lemma parse_cron ts mode t lines v : trimmed v ->
  parse_line (inside ts mode t lines) ("- cron: " +:+ v) =
  inside ts mode (mkParsedTask (pt_Name t) (pt_Mode t) (trim_quotes v) (pt_BudgetUSD t) (pt_Prompt t)) lines.
Proof.
  intros Hv. unfold parse_line, task_line. rewrite trim_keyword by done.
  change ("- cron: " +:+ v) with ("- cron:" +:+ (" " +:+ v)). rewrite drop_word, trim_blank by done. done.
Qed.

Lemma parse_budget ts mode t lines v f : trimmed v -> ParseFloat v = Ok f ->
  parse_line (inside ts mode t lines) ("- budget_usd: " +:+ v) =
  inside ts mode (mkParsedTask (pt_Name t) (pt_Mode t) (pt_CronExpression t) f (pt_Prompt t)) lines.
Proof.
  intros Hv Hf. unfold parse_line, task_line. rewrite trim_keyword by done.
  change ("- budget_usd: " +:+ v) with ("- budget_usd:" +:+ (" " +:+ v)). rewrite drop_word, trim_blank, Hf by done. done.
Qed.

Lemma parse_written ts w f p :
  well_written w f -> ps_tasks (flush p) = ts ->
  ps_tasks (flush (fold_left parse_line (written_lines w) p)) = ts ++ [parsed w f].
Proof.
  intros [Hn Hm [Hc Hq] [Hb Hf] Hl] <-. unfold written_lines. rewrite fold_left_app. cbn [fold_left].
  rewrite parse_heading, parse_mode, parse_cron, Hq, (parse_budget _ _ _ _ _ f), parse_prompt by done.
  unfold flush at 1, parsed, or_text, inside. cbn [ps_current ps_tasks ps_mode ps_prompt pt_Name pt_Mode pt_CronExpression pt_BudgetUSD].
  destruct (String.eqb_spec (wt_mode w) "") as [E|]; [by destruct Hm|]. done.
Qed.

(** C36: task files are read as they are written.  For every list of tasks, each written as a
    heading, its three settings (mode, schedule, budget) and the lines of its prompt, the
    parser gives the tasks back in order, each with its own settings and its prompt, under the
    conditions of [well_written]: name, mode, schedule and budget are not empty and have no
    blank at their ends, the schedule has no quotes around it, the budget is a number, and no
    line of the prompt begins, after its blanks, like a heading or a setting.  The prompt comes
    back without the blanks and empty lines at its ends. *)
Theorem task_file_roundtrip (ws : list (written * F)) :
  Forall (fun x => well_written x.1 x.2) ws ->
  parseTasks (concat (map (fun x => written_lines x.1) ws)) = map (fun x => parsed x.1 x.2) ws.
Proof.
  intros Hws. unfold parseTasks. set (p := mkParsing [] "quick" None []).
  change (map (fun x => parsed x.1 x.2) ws) with (ps_tasks (flush p) ++ map (fun x => parsed x.1 x.2) ws).
  generalize p. clear p. induction Hws as [|[w f] ws Hw Hws IH]; intros p; cbn [map concat fst snd]; [by rewrite app_nil_r|].
  rewrite fold_left_app. rewrite IH, (parse_written _ w f p Hw eq_refl), <-app_assoc. done.
Qed.
End files.

(** ** Rows *)

Section rows.
Context {F P W A : Type}.
Context `{!Num F} `{!ErrorText} `{!Render} `{!World W} `{!GoParams P} `{!RowJson}.
Context `{!CronParser} `{!UuidParse} `{!FloatParse F} `{!Yaml F} `{!Digest} `{!HeartbeatAgent A}.
Context `{!GoSort (HeartbeatTask F)} `{!GoSort (HeartbeatTaskResult F)}.
Context `{!MapRange uuid (HeartbeatTask F * bool)} `{!MapRange uuid (option error)} `{!MapRange string fileState}.
Implicit Types (s : HbState F P W A) (t : HeartbeatTask F) (rows : gmap uuid (HeartbeatTask F * bool)).

(** What the unique index is on. *)
Definition task_key t : uuid * string * string := (ht_OrgID t, ht_FileGroup t, ht_Name t).

Lemma same_key_true o g n t : same_key o g n t = true <-> task_key t = (o, g, n).
Proof.
  unfold same_key, task_key. rewrite !andb_true_iff, bool_decide_eq_true, !String.eqb_eq.
  split; [by intros [[-> ->] ->]|by intros [= -> -> ->]].
Qed.

Lemma conflicting_Some t rows id r : conflicting t rows = Some (id, r) ->
  rows !! id = Some r /\ task_key r.1 = task_key t.
Proof.
  intros E. unfold conflicting in E. apply find_some in E as [Hin Hk]. split.
  - by apply elem_of_map_range, list_elem_of_In.
  - by apply same_key_true in Hk.
Qed.

Lemma conflicting_None t rows id r : conflicting t rows = None -> rows !! id = Some r -> task_key r.1 <> task_key t.
Proof.
  intros E Hr Hk. unfold conflicting in E.
  assert (In (id, r) (map_range rows)) as Hin by by apply list_elem_of_In, elem_of_map_range.
  pose proof (find_none _ _ E _ Hin) as Hf. simpl in Hf.
  assert (same_key (ht_OrgID t) (ht_FileGroup t) (ht_Name t) r.1 = true) as Ht by by apply same_key_true.
  congruence.
Qed.

(** How one statement may change the table: rows keep their keys and stay deleted, and a
    new row has a key of its own. *)
Inductive row_step rows : gmap uuid (HeartbeatTask F * bool) -> Prop :=
  | rs_each (f : uuid -> HeartbeatTask F * bool -> HeartbeatTask F * bool) :
      (forall id r, task_key (f id r).1 = task_key r.1 /\ (r.2 = true -> (f id r).2 = true)) ->
      row_step rows (map_imap (fun id r => Some (f id r)) rows)
  | rs_new id t :
      rows !! id = None -> (forall id' r, rows !! id' = Some r -> task_key r.1 <> task_key t) ->
      row_step rows (<[id := (t, false)]> rows).

(** What holds of the table along these changes. *)
Record row_law (I : gmap uuid (HeartbeatTask F * bool) -> Prop) : Prop := {
  row_closed : forall rows rows', I rows -> row_step rows rows' -> I rows';
}.

Lemma alter_imap (f : HeartbeatTask F * bool -> HeartbeatTask F * bool) (id : uuid) rows :
  alter f id rows = map_imap (fun i r => Some (if decide (i = id) then f r else r)) rows.
Proof.
  apply map_eq. intros i. rewrite map_lookup_imap. destruct (decide (i = id)) as [->|Hne].
  - rewrite lookup_alter_eq. by destruct (rows !! id).
  - rewrite lookup_alter_ne by done. by destruct (rows !! i).
Qed.

Lemma fmap_imap (f : HeartbeatTask F * bool -> HeartbeatTask F * bool) rows :
  f <$> rows = map_imap (fun _ r => Some (f r)) rows.
Proof. apply map_eq. intros i. rewrite map_lookup_imap, lookup_fmap. by destruct (rows !! i). Qed.

Lemma alter_step f (id : uuid) rows :
  (forall r, task_key (f r).1 = task_key r.1 /\ (r.2 = true -> (f r).2 = true)) -> row_step rows (alter f id rows).
Proof. intros Hf. rewrite alter_imap. apply rs_each. intros i r. by destruct (decide (i = id)). Qed.

Lemma assign_step (id : uuid) r t rows : rows !! id = Some r -> row_step rows (<[id := (assigned r.1 t, r.2)]> rows).
Proof.
  intros Hr. replace (<[id := (assigned r.1 t, r.2)]> rows)
    with (alter (fun r : HeartbeatTask F * bool => (assigned r.1 t, r.2)) id rows).
  - by apply alter_step.
  - apply map_eq. intros i. destruct (decide (i = id)) as [->|Hne].
    + by rewrite lookup_alter_eq, lookup_insert_eq, Hr.
    + by rewrite lookup_alter_ne, lookup_insert_ne.
Qed.

Section kept.
Context (I : gmap uuid (HeartbeatTask F * bool) -> Prop) (HI : row_law I).

Abbreviation keeps m := (preserves (fun s : HbState F P W A => I (hb_rows s)) m).

Lemma keeps_bg {B} (m : st (Bg F P W) B) : keeps (on_bg m).
Proof. intros s Hs. unfold on_bg. by destruct (m (hb_bg s)). Qed.

Lemma keeps_modify (f : HbState F P W A -> HbState F P W A) :
  (forall s, hb_rows (f s) = hb_rows s \/ row_step (hb_rows s) (hb_rows (f s))) -> keeps (st_modify f).
Proof. intros Hf. apply preserves_modify. intros s Hs. destruct (Hf s) as [->|]; [done|]. by eapply HI. Qed.
#[local] Hint Resolve keeps_bg : go.

Lemma keeps_upsert t : keeps (task_Upsert t).
Proof.
  unfold task_Upsert. apply preserves_bind; [apply keeps_bg|]. intros [e|]; [apply preserves_ret|].
  intros s Hs. rewrite st_bind_run. simpl. destruct (conflicting t (hb_rows s)) as [[id [old d]]|] eqn:Ec.
  - rewrite st_bind_run. simpl. apply conflicting_Some in Ec as [Hr _].
    eapply HI; [exact Hs|]. exact (assign_step id (old, d) (stored t) (hb_rows s) Hr).
  - destruct (hb_rows s !! ht_ID t) eqn:Ei; [done|]. rewrite st_bind_run. simpl.
    eapply HI; [exact Hs|]. apply rs_new; [done|]. intros id r Hr. by apply (conflicting_None t (hb_rows s) id r).
Qed.

Lemma keeps_delete_group org group : keeps (DeleteByFileGroup org group).
Proof.
  unfold DeleteByFileGroup. apply preserves_bind; [apply keeps_bg|]. intros [e|]; [apply preserves_ret|].
  apply preserves_bind; [|intros; apply preserves_ret]. apply keeps_modify. intros s. right. simpl.
  unfold delete_where. rewrite fmap_imap. apply rs_each. intros _ r. split; [done|]. simpl. by intros ->.
Qed.

Lemma keeps_delete org id : keeps (task_Delete org id).
Proof.
  unfold task_Delete. apply preserves_bind; [apply keeps_bg|]. intros [e|]; [apply preserves_ret|].
  apply preserves_bind; [|intros; apply preserves_ret]. apply keeps_modify. intros s. right. simpl.
  apply alter_step. intros r. split; [done|]. simpl. by intros ->.
Qed.

Lemma keeps_record id next status e sum : keeps (task_RecordExecution id next status e sum).
Proof.
  unfold task_RecordExecution. apply preserves_bind; [apply keeps_bg|]. intros now.
  apply preserves_bind; [apply keeps_bg|]. intros [err|]; [apply preserves_ret|].
  apply preserves_bind; [|intros; apply preserves_ret]. apply keeps_modify. intros s. right. simpl.
  apply alter_step. intros [r []]; [by split|]. by split.
Qed.
#[local] Hint Resolve keeps_upsert keeps_delete_group keeps_record : go.

Lemma keeps_reading c disk :
  keeps (st_each (fun dir => st_each (sync_entry c dir) (task_files disk dir)) (tpc_TasksDirs c)).
Proof.
  assert (forall path content hash, keeps (syncFile c path content hash)) as Hf.
  { intros. unfold syncFile, sync_task. preserve. apply keeps_modify. intros s. by left. }
  apply preserves_each. intros dir. apply preserves_each. intros e. unfold sync_entry. preserve; apply Hf.
Qed.

Lemma keeps_remove c seen f : keeps (remove_unseen c seen f).
Proof. unfold remove_unseen. preserve. apply keeps_modify. intros s. by left. Qed.

Lemma keeps_sync c disk : keeps (syncAll c disk).
Proof.
  unfold syncAll. apply preserves_bind; [apply keeps_reading|intros _].
  apply preserves_bind; [apply preserves_get|]. intros files. apply preserves_each. intros f. apply keeps_remove.
Qed.

Lemma keeps_append r : keeps (result_Append r).
Proof. unfold result_Append. preserve. apply keeps_modify. intros s. by left. Qed.

Lemma keeps_agent r t c : keeps (run_agent r t c).
Proof. intros s Hs. unfold run_agent. by destruct (agent_Process _ _ _). Qed.
#[local] Hint Resolve keeps_append keeps_agent : go.

Lemma keeps_execute r t : keeps (executeTask r t).
Proof.
  assert (forall corr m res z e, keeps (audit_fire t corr m res z e)) as Ha by (intros; unfold audit_fire; preserve).
  assert (forall h a b c d, keeps (HandleFailure h a b c d)) as Hh by (intros; unfold HandleFailure; preserve).
  assert (forall d res, keeps (hb_notify r d t res)) as Hn by (intros; unfold hb_notify; preserve).
  unfold executeTask, task_next_run. preserve; auto.
Qed.

Lemma keeps_tick r : keeps (hb_tick r).
Proof.
  assert (forall ts, keeps (execute_all r ts)) as He.
  { induction ts as [|t ts IH]; simpl; [apply preserves_ret|].
    apply preserves_bind; [apply keeps_execute|]. intros []; [apply preserves_ret|done]. }
  unfold hb_tick, GetDueTasks. preserve; apply He.
Qed.
End kept.

(** ** Tasks that were removed *)

(** What the poller, the runner and the callers of the store do. *)
Inductive hb_step : HbState F P W A -> HbState F P W A -> Prop :=
  | hs_sync c disk s : hb_step s (syncAll c disk s).2
  | hs_tick r s : hb_step s (hb_tick r s).2
  | hs_upsert t s : hb_step s (task_Upsert t s).2
  | hs_delete org id s : hb_step s (task_Delete org id s).2
  | hs_delete_group org group s : hb_step s (DeleteByFileGroup org group s).2.

Lemma steps_keep (I : gmap uuid (HeartbeatTask F * bool) -> Prop) s s' :
  row_law I -> rtc hb_step s s' -> I (hb_rows s) -> I (hb_rows s').
Proof.
  intros HI. induction 1 as [|s1 s2 s3 Hs _ IH]; [done|]. intros Hi. apply IH.
  destruct Hs; [by apply keeps_sync|by apply keeps_tick|by apply keeps_upsert|by apply keeps_delete|by apply keeps_delete_group].
Qed.

(** The key has a row, and its rows are deleted. *)
Definition gone (k : uuid * string * string) rows : Prop :=
  (exists id r, rows !! id = Some r /\ task_key r.1 = k) /\
  forall id r, rows !! id = Some r -> task_key r.1 = k -> r.2 = true.

Lemma gone_law k : row_law (gone k).
Proof.
  constructor. intros rows rows' [(id0 & r0 & Hr0 & Hk0) Hall] Hs. destruct Hs as [f Hf|id t Hid Hnew]; split.
  - exists id0, (f id0 r0). rewrite map_lookup_imap, Hr0. split; [done|]. by rewrite (proj1 (Hf _ _)).
  - intros id r. rewrite map_lookup_imap. destruct (rows !! id) as [r1|] eqn:Er; [|done]. intros [= <-].
    destruct (Hf id r1) as [-> Hd]. intros Hk. by apply Hd, (Hall id).
  - exists id0, r0. rewrite lookup_insert_ne; [done|]. intros ->. congruence.
  - intros i r. destruct (decide (i = id)) as [->|Hne].
    + rewrite lookup_insert_eq. intros [= <-] Hk. simpl in Hk. destruct (Hnew id0 r0 Hr0). congruence.
    + rewrite lookup_insert_ne by done. apply Hall.
Qed.

Lemma elem_of_seen_tasks org rows t :
  t ∈ seen_tasks org rows <-> exists id, rows !! id = Some (t, false) /\ ht_OrgID t = org.
Proof.
  unfold seen_tasks. rewrite list_elem_of_fmap. split.
  - intros ([t' d] & -> & Hin). apply list_elem_of_In, filter_In in Hin as [Hin Hv].
    apply list_elem_of_In, list_elem_of_fmap in Hin as ([id r] & E & Hin). simpl in E. subst r.
    apply elem_of_map_range in Hin. unfold visible in Hv. simpl in *. apply andb_true_iff in Hv as [Hd Ho].
    apply negb_true_iff in Hd as ->. apply bool_decide_eq_true in Ho. by exists id.
  - intros (id & Hr & Ho). exists (t, false). split; [done|]. apply list_elem_of_In, filter_In. split.
    + apply list_elem_of_In, list_elem_of_fmap. exists (id, (t, false)). by rewrite elem_of_map_range.
    + unfold visible. simpl. by apply bool_decide_eq_true.
Qed.

Lemma due_tasks_seen org now s ts :
  (GetDueTasks org now s).1 = Ok ts -> forall t, t ∈ ts -> exists id, hb_rows s !! id = Some (t, false) /\ ht_OrgID t = org.
Proof.
  unfold GetDueTasks. rewrite st_bind_run. unfold on_bg. destruct (bg_stmt (hb_bg s)) as [[e|] bg]; simpl; [done|].
  intros [= <-] t Hin. apply list_elem_of_In, filter_In in Hin as [Hin _].
  by apply elem_of_seen_tasks, list_elem_of_In.
Qed.

(** A row of the key, deleted or not. *)
Definition has_row (k : uuid * string * string) rows : Prop := exists id r, rows !! id = Some r /\ task_key r.1 = k.

Lemma has_row_law k : row_law (has_row k).
Proof.
  constructor. intros rows rows' (id0 & r0 & Hr0 & Hk0) Hs. destruct Hs as [f Hf|id t Hid _].
  - exists id0, (f id0 r0). rewrite map_lookup_imap, Hr0. split; [done|]. by rewrite (proj1 (Hf _ _)).
  - exists id0, r0. rewrite lookup_insert_ne; [done|]. intros ->. congruence.
Qed.

Lemma deleted_gone org group name s :
  has_row (org, group, name) (hb_rows s) ->
  (DeleteByFileGroup org group s).1 = None -> gone (org, group, name) (hb_rows (DeleteByFileGroup org group s).2).
Proof.
  intros (id0 & r0 & Hr0 & Hk0). unfold DeleteByFileGroup. rewrite st_bind_run. unfold on_bg.
  destruct (bg_stmt (hb_bg s)) as [[e|] bg]; simpl; [done|]. intros _. split.
  - exists id0. eexists. unfold delete_where. rewrite lookup_fmap, Hr0. split; [done|]. exact Hk0.
  - intros id r. unfold delete_where. rewrite lookup_fmap. destruct (hb_rows s !! id) as [r1|]; [|done].
    intros [= <-] Hk. simpl in *. unfold task_key in Hk. injection Hk as -> -> _.
    rewrite bool_decide_true, String.eqb_refl by done. by rewrite orb_true_r.
Qed.

(** No readable directory of the configuration lists a file at the path. *)
Definition unlisted (c : TaskPollerConfig) (disk : string -> result error (list dir_entry)) (path : string) : Prop :=
  forall dir es e, dir ∈ tpc_TasksDirs c -> disk dir = Ok es -> e ∈ es -> de_IsDir e = false -> task_path dir e <> path.

Lemma unlisted_file c disk path dir e :
  unlisted c disk path -> dir ∈ tpc_TasksDirs c -> e ∈ task_files disk dir -> task_path dir e <> path.
Proof.
  intros Hu Hd He. unfold task_files in He. destruct (disk dir) as [es|] eqn:Ed; [|by apply elem_of_nil in He].
  apply list_elem_of_In, filter_In in He as [He Hf]. apply (Hu dir es e Hd Ed); [by apply list_elem_of_In|].
  unfold is_task_file in Hf. apply andb_true_iff in Hf as [Hf _]. by apply negb_true_iff.
Qed.

Lemma unlisted_unseen c disk path : unlisted c disk path -> slice_contains (seen_paths c disk) path = false.
Proof.
  intros Hu. apply slice_contains_false. unfold seen_paths. intros Hin.
  apply list_elem_of_In, in_concat in Hin as (l & Hl & Hin). apply in_map_iff in Hl as (dir & <- & Hdir).
  apply in_map_iff in Hin as (e & Hp & He). apply list_elem_of_In in Hdir, He.
  by apply (unlisted_file c disk path dir e Hu).
Qed.

(** Reading the files leaves the state of a file that is not listed. *)
Section unread.
Context (path : string) (f : fileState).
Abbreviation holds m := (preserves (fun s : HbState F P W A => hb_files s !! path = Some f) m).

Lemma file_bg {B} (m : st (Bg F P W) B) : holds (on_bg m).
Proof. intros s Hs. unfold on_bg. by destruct (m (hb_bg s)). Qed.
#[local] Hint Resolve file_bg : go.

Lemma file_upsert t : holds (task_Upsert t).
Proof. unfold task_Upsert. preserve; by apply preserves_modify. Qed.
#[local] Hint Resolve file_upsert : go.

Lemma file_sync c dir e : task_path dir e <> path -> holds (sync_entry c dir e).
Proof.
  intros Hne. unfold sync_entry, syncFile, sync_task. preserve;
    apply preserves_modify; intros s Hs; simpl; by rewrite lookup_insert_ne.
Qed.
End unread.

(** The step of [syncAll] for a file that is not seen. *)
Lemma remove_unseen_gone (Hdb : forall w : W, (w_db w).1 = None) c seen path f name s :
  slice_contains seen path = false -> has_row (tpc_OrgID c, fs_FileGroup f, name) (hb_rows s) ->
  gone (tpc_OrgID c, fs_FileGroup f, name) (hb_rows (remove_unseen c seen (path, f) s).2).
Proof.
  intros Hseen Hrow. unfold remove_unseen. cbn [fst snd]. rewrite Hseen, st_bind_run. simpl.
  apply deleted_gone; [done|]. unfold DeleteByFileGroup. rewrite st_bind_run. unfold on_bg, bg_stmt.
  pose proof (Hdb (bg_world (hb_bg s))) as Hw. destruct (w_db _) as [e w]. simpl in *. by rewrite Hw.
Qed.

Lemma removals_gone (Hdb : forall w : W, (w_db w).1 = None) c seen path f name files s :
  (path, f) ∈ files -> slice_contains seen path = false ->
  has_row (tpc_OrgID c, fs_FileGroup f, name) (hb_rows s) ->
  gone (tpc_OrgID c, fs_FileGroup f, name) (hb_rows (st_each (remove_unseen c seen) files s).2).
Proof.
  intros Hin Hseen. revert s. induction files as [|x files IH]; [by apply elem_of_nil in Hin|].
  intros s Hrow. simpl. rewrite st_bind_run. apply elem_of_cons in Hin as [<-|Hin].
  - apply (preserves_each (fun s => gone _ (hb_rows s))); [intros; apply keeps_remove, gone_law|].
    by apply remove_unseen_gone.
  - apply IH; [done|]. by apply (keeps_remove _ (has_row_law _)).
Qed.

Lemma syncAll_gone (Hdb : forall w : W, (w_db w).1 = None) c disk path f name s :
  hb_files s !! path = Some f -> unlisted c disk path ->
  has_row (tpc_OrgID c, fs_FileGroup f, name) (hb_rows s) ->
  gone (tpc_OrgID c, fs_FileGroup f, name) (hb_rows (syncAll c disk s).2).
Proof.
  intros Hf Hu Hrow. unfold syncAll. rewrite st_bind_run. set (m := st_each _ (tpc_TasksDirs c)).
  assert (hb_files (m s).2 !! path = Some f) as Hf'.
  { clear Hrow. revert s Hf. change (preserves (fun s : HbState F P W A => hb_files s !! path = Some f) m).
    apply preserves_each_in. intros dir Hdir. apply preserves_each_in. intros e He.
    apply file_sync. by apply (unlisted_file c disk). }
  assert (has_row (tpc_OrgID c, fs_FileGroup f, name) (hb_rows (m s).2)) as Hrow' by by apply keeps_reading; [apply has_row_law|].
  destruct (m s) as [[] s1]. cbn [fst snd] in *. rewrite st_bind_run. cbn [st_get fst snd].
  apply (removals_gone Hdb c _ path); [by apply elem_of_map_range|by apply unlisted_unseen|done].
Qed.

(** C34: a removed task never comes back.  Let the database not fail, let the poller have read a file at
    [path], and let a task have a row in the group of that file.  When at one synchronisation
    the file is not there any more, or its directory cannot be read this once, the
    synchronisation marks the row as deleted.  Whatever synchronisations, ticks and calls of
    the store follow, also of the same file put back, no query of due tasks of any
    organisation returns a task of that name in that group and organisation. *)
Theorem removed_task_never_due c disk path f name s s' org now ts :
  (forall w : W, (w_db w).1 = None) ->
  hb_files s !! path = Some f -> unlisted c disk path ->
  (exists id r, hb_rows s !! id = Some r /\ task_key r.1 = (tpc_OrgID c, fs_FileGroup f, name)) ->
  rtc hb_step (syncAll c disk s).2 s' ->
  (exists id r, hb_rows s' !! id = Some (r, true) /\ task_key r = (tpc_OrgID c, fs_FileGroup f, name)) /\
  ((GetDueTasks org now s').1 = Ok ts -> forall t, t ∈ ts -> task_key t <> (tpc_OrgID c, fs_FileGroup f, name)).
Proof.
  intros Hdb Hf Hu Hrow Hsteps.
  pose proof (steps_keep _ _ _ (gone_law _) Hsteps (syncAll_gone Hdb c disk path f name s Hf Hu Hrow))
    as [(id & [r d] & Hr & Hk) Hall]. split.
  - exists id, r. pose proof (Hall _ _ Hr Hk) as Hd. simpl in Hd. by subst d.
  - intros Hdue t Hin Ht. destruct (due_tasks_seen _ _ _ _ Hdue t Hin) as (id' & Hr' & _). by specialize (Hall _ _ Hr' Ht).
Qed.

(** A task dropped from its file stays: the rows whose keys the file does not name are
    the same after its synchronisation, and so go on being executed. *)
Definition in_file (c : TaskPollerConfig) (file : HeartbeatTaskFile F) (tasks : list (ParsedTask F)) t : Prop :=
  exists p, p ∈ tasks /\ task_key t = (tpc_OrgID c, tf_Name file, pt_Name p).

Definition others_kept (named : HeartbeatTask F -> Prop) rows rows' : Prop :=
  forall id r, rows !! id = Some r -> ~ named r.1 -> rows' !! id = Some r.

Lemma others_refl named rows : others_kept named rows rows.
Proof. by intros id r Hr _. Qed.

Lemma upsert_others t s named : named t \/ (forall t', task_key t' = task_key t -> named t') ->
  (forall t1 t2, task_key t1 = task_key t2 -> named t1 -> named t2) ->
  others_kept named (hb_rows s) (hb_rows (task_Upsert t s).2).
Proof.
  intros Hn Hext. assert (forall t', task_key t' = task_key t -> named t') as Hk.
  { intros t' E. destruct Hn as [Hn|Hn]; [|by apply Hn]. by eapply Hext. }
  unfold task_Upsert. rewrite st_bind_run. unfold on_bg. destruct (bg_stmt (hb_bg s)) as [[e|] bg]; simpl; [apply others_refl|].
  rewrite st_bind_run. cbn [fst snd st_get hb_rows]. intros id r Hr Hno. destruct (conflicting t (hb_rows s)) as [[id' [old d]]|] eqn:Ec.
  - apply conflicting_Some in Ec as [Hr' Hk']. rewrite st_bind_run. simpl. rewrite lookup_insert_ne; [done|].
    intros ->. rewrite Hr in Hr'. injection Hr' as ->. by apply Hno, Hk.
  - destruct (hb_rows s !! ht_ID t) eqn:Ei; [done|]. rewrite st_bind_run. simpl. rewrite lookup_insert_ne; [done|].
    intros <-. congruence.
Qed.

Lemma others_trans named rows1 rows2 rows3 :
  others_kept named rows1 rows2 -> others_kept named rows2 rows3 -> others_kept named rows1 rows3.
Proof. intros Ha Hb id r Hr Hn. apply Hb; [|done]. by apply Ha. Qed.

Lemma on_bg_keeps_rows {B} (m : st (Bg F P W) B) s : hb_rows (on_bg m s).2 = hb_rows s.
Proof. unfold on_bg. by destruct (m (hb_bg s)). Qed.

Lemma sync_task_others c path file tasks p s : p ∈ tasks ->
  others_kept (in_file c file tasks) (hb_rows s) (hb_rows (sync_task c path file p s).2).
Proof.
  intros Hp. unfold sync_task. destruct (String.eqb _ ""); [apply others_refl|]. rewrite st_bind_run.
  rewrite <-(on_bg_keeps_rows bg_now s). generalize (on_bg bg_now s). intros [from s1]. cbn [fst snd].
  destruct (ComputeNextRunFrom _ _) as [next|e]; [|apply others_refl].
  rewrite st_bind_run, <-(on_bg_keeps_rows bg_now s1). generalize (on_bg bg_now s1). intros [now s2]. cbn [fst snd].
  rewrite st_bind_run, <-(on_bg_keeps_rows bg_uuid s2). generalize (on_bg bg_uuid s2). intros [id s3]. cbn [fst snd].
  rewrite st_bind_run.
  apply upsert_others; [right; intros t' E; exists p; by rewrite E|].
  intros t1 t2 E (q & Hq & Hk). exists q. by rewrite <-E.
Qed.

Lemma sync_tasks_others c path file tasks ps s : (forall p, p ∈ ps -> p ∈ tasks) ->
  others_kept (in_file c file tasks) (hb_rows s) (hb_rows (st_each (sync_task c path file) ps s).2).
Proof.
  revert s. induction ps as [|p ps IH]; intros s Hps; [apply others_refl|]. simpl. rewrite st_bind_run.
  eapply others_trans; [apply sync_task_others, Hps; by left|]. apply IH. intros q Hq. apply Hps. by right.
Qed.

Theorem dropped_task_stays c path content hash file tasks s :
  ParseFile content = Ok (file, tasks) ->
  others_kept (in_file c file tasks) (hb_rows s) (hb_rows (syncFile c path content hash s).2).
Proof.
  intros Hp. unfold syncFile. rewrite Hp. destruct (Validate file tasks); [apply others_refl|].
  rewrite st_bind_run. simpl. by apply sync_tasks_others.
Qed.

(** ** One execution *)

(** Only the services were used. *)
Definition bg_only s s' : Prop :=
  (hb_rows s', hb_results s', hb_agent s') = (hb_rows s, hb_results s, hb_agent s).

Lemma bg_only_bg {B} (m : st (Bg F P W) B) s : bg_only s (on_bg m s).2.
Proof. unfold bg_only, on_bg. by destruct (m (hb_bg s)). Qed.

Lemma bg_only_preserves {B} (m : st (HbState F P W A) B) s0 :
  (forall s, bg_only s (m s).2) -> preserves (bg_only s0) m.
Proof. intros Hm s Hs. unfold bg_only in *. by rewrite Hm. Qed.

Lemma bg_keeps {B} (m : st (Bg F P W) B) s0 : preserves (bg_only s0) (on_bg m).
Proof. apply bg_only_preserves. intros. apply bg_only_bg. Qed.
#[local] Hint Resolve bg_keeps : go.

Lemma audit_bg t c m r z e s : bg_only s (audit_fire t c m r z e s).2.
Proof. assert (preserves (bg_only s) (audit_fire t c m r z e)) as Ha by (unfold audit_fire; preserve). by apply Ha. Qed.

Lemma next_bg t s : bg_only s (task_next_run t s).2.
Proof. assert (preserves (bg_only s) (task_next_run t)) as Ha by (unfold task_next_run; preserve). by apply Ha. Qed.

(** A step that uses the services only. *)
Ltac step_bg u s1 E :=
  rewrite st_bind_run;
  match goal with
  | |- context [snd (?m ?s)] =>
      assert (bg_only s (m s).2) as E by first [apply bg_only_bg | apply audit_bg | apply next_bg];
      revert E; generalize (m s); intros [u s1] E; cbn [fst snd] in *
  end.

(** What the end of an execution does: alerts and notifications. *)
Lemma tail_bg (r : Runner W) t (res : HeartbeatTaskResult F) s :
  bg_only s ((panics ← match hr_proactive r with
           | Some h =>
               if String.eqb (hr_Status res) "failure" && bool_decide (ht_NotificationChannelIDs t <> [])
               then HandleFailure h (ht_Name t) (hr_Output res) (ht_UserID t) (ht_NotificationChannelIDs t)
               else mret false
           | None => mret false
           end;
  if (panics : bool) then mret true
  else
    match hr_dispatcher r with
    | Some d =>
        if bool_decide (ht_NotificationChannelIDs t <> []) then _ ← hb_notify r d t res; mret false else mret false
    | None => mret false
    end) s).2.
Proof.
  match goal with |- bg_only s (?m s).2 => assert (preserves (bg_only s) m) as Ha end.
  { unfold HandleFailure, hb_notify. preserve. }
  by apply Ha.
Qed.

Lemma truncate_length str : String.length (truncate str 500) <= 500.
Proof.
  unfold truncate. destruct (Nat.leb_spec (String.length str) 500); [done|].
  change (500 <=? 3) with false. cbv iota. rewrite str_app_length, str_take_length. change (String.length "...") with 3. lia.
Qed.

(** What an execution records of the agent's answer. *)
Definition answer_recorded t corr (resp : result error Response) (res : HeartbeatTaskResult F) : Prop :=
  hr_TaskID res = ht_ID t /\ hr_CorrelationID res = corr /\ String.length (hr_OutputSummary res) <= 500 /\
  match resp with
  | Ok a => hr_Status res = "success" /\ hr_Output res = rsp_Message a /\ hr_TokensUsed res = rsp_TokensUsed a
  | Err e => hr_Status res = "failure" /\ hr_Output res = error_Error e
  end.

Lemma result_recorded t id corr resp ms now : answer_recorded t corr resp (task_result t id corr resp ms now).
Proof. destruct resp; simpl; split_and!; try done; apply truncate_length. Qed.

Lemma stmt_answers s : (forall w, (w_db w).1 = None) -> (on_bg bg_stmt s).1 = None.
Proof. intros Hdb. unfold on_bg, bg_stmt. specialize (Hdb (bg_world (hb_bg s))). by destruct (w_db _). Qed.

Lemma append_run (res : HeartbeatTaskResult F) s : (forall w, (w_db w).1 = None) ->
  (hb_rows (result_Append res s).2, hb_results (result_Append res s).2, hb_agent (result_Append res s).2) =
  (hb_rows s, hb_results s ++ [stored res], hb_agent s).
Proof.
  intros Hdb. unfold result_Append. rewrite st_bind_run, stmt_answers by done.
  pose proof (bg_only_bg bg_stmt s) as E. revert E. generalize (on_bg bg_stmt s).2. intros s1 [= E1 E2 E3].
  rewrite st_bind_run. simpl. by rewrite E1, E2, E3.
Qed.

Lemma record_run id next status e sum s : (forall w, (w_db w).1 = None) ->
  exists now, (hb_rows (task_RecordExecution id next status e sum s).2, hb_results (task_RecordExecution id next status e sum s).2) =
    (alter (fun r : HeartbeatTask F * bool => if r.2 then r else (ran r.1 next status e sum now, false)) id (hb_rows s),
     hb_results s).
Proof.
  intros Hdb. exists (on_bg bg_now s).1. unfold task_RecordExecution. rewrite st_bind_run.
  pose proof (bg_only_bg bg_now s) as E1. revert E1. generalize (on_bg bg_now s). intros [now s1] E1. cbn [fst snd] in *.
  rewrite st_bind_run, stmt_answers by done. pose proof (bg_only_bg bg_stmt s1) as E2.
  revert E2. generalize (on_bg bg_stmt s1).2. intros s2 [= E2 E3 E4]. injection E1 as E5 E6 E7.
  rewrite st_bind_run. simpl. by rewrite E2, E3, E5, E6.
Qed.

Lemma alter_live (f : HeartbeatTask F * bool -> HeartbeatTask F * bool) (id : uuid) rows r :
  rows !! id = Some r -> alter f id rows = <[id := f r]> rows.
Proof.
  intros Hr. apply map_eq. intros i. destruct (decide (i = id)) as [->|Hne].
  - by rewrite lookup_alter_eq, lookup_insert_eq, Hr.
  - by rewrite lookup_alter_ne, lookup_insert_ne.
Qed.

(** An execution is recorded.  The agent is asked once, as the owner of the task and with
    its text; one result with its answer is appended, with a summary of at most 500 bytes,
    and the row of the task, and no other, gets its next time, the status and the summary,
    which becomes its last error also after a success. *)
Theorem task_execution_recorded r t t0 s :
  (forall w, (w_db w).1 = None) -> hb_rows s !! ht_ID t = Some (t0, false) ->
  let s' := (executeTask r t s).2 in
  exists corr next now res,
    answer_recorded t corr
      (agent_Process (task_timeout r t) (mkInput (ht_UserID t) (ht_Description t) corr "") (hb_agent s)).1 res /\
    hb_results s' = hb_results s ++ [stored res] /\
    hb_rows s' = <[ht_ID t := (ran t0 next (hr_Status res) (hr_OutputSummary res) (hr_OutputSummary res) now, false)]>
                   (hb_rows s).
Proof.
  intros Hdb Hrow. cbv zeta. unfold executeTask.
  step_bg u s1 E1.
  set (corr := "hbt-" +:+ _). exists corr.
  step_bg start s2 E2.
  step_bg u3 s3 E3. rewrite st_bind_run. unfold run_agent.
  assert (hb_agent s3 = hb_agent s) as -> by (unfold bg_only in *; congruence).
  destruct (agent_Process _ _ _) as [resp a]. cbn [fst snd]. set (s4 := mkHbState _ _ _ _ a).
  step_bg next s5 E5.
  step_bg stop s6 E6.
  step_bg rid s7 E7.
  step_bg created s8 E8.
  set (res := task_result _ _ _ _ _ _). rewrite st_bind_run.
  pose proof (append_run res s8 Hdb) as E9. revert E9. generalize (result_Append res s8). intros [e9 s9] E9.
  cbn [fst snd] in *. rewrite st_bind_run.
  destruct (record_run (ht_ID t) next (hr_Status res) (hr_OutputSummary res) (hr_OutputSummary res) s9 Hdb) as [now E10].
  revert E10. generalize (task_RecordExecution (ht_ID t) next (hr_Status res) (hr_OutputSummary res) (hr_OutputSummary res) s9).
  intros [e10 s10] E10. cbn [fst snd] in *.
  step_bg u11 s11 E11.
  exists next, now, res. split; [apply result_recorded|].
  pose proof (tail_bg r t res s11) as E12. unfold bg_only in *. subst s4. simpl in *.
  injection E12 as -> -> _. injection E11 as -> -> _. injection E10 as -> ->. injection E9 as -> -> _.
  injection E8 as -> -> _. injection E7 as -> -> _. injection E6 as -> -> _. injection E5 as -> -> _.
  injection E3 as -> -> _. injection E2 as -> -> _. injection E1 as -> -> _.
  split; [done|]. by rewrite (alter_live _ _ _ _ Hrow).
Qed.

(** A failure alert panics when it is delivered.  The handler of failures asks every
    channel's answer for the text of its error: it panics exactly when some channel took the
    message, since the error of a delivery that succeeded is nil. *)
Theorem alert_panics_when_delivered h taskName output userID ids s :
  (HandleFailure h taskName output userID ids s).1 = true <->
  ids <> [] /\ exists d id, ph_dispatcher h = Some d /\
    (Notify d (ph_orgID h) ids (proactive_message taskName output) userID (hb_bg s)).1 !! id = Some None.
Proof.
  unfold HandleFailure. destruct (ph_dispatcher h) as [d|]; [|split; [intros [=]|by intros (_ & d & id & ? & _)]].
  case_bool_decide as Hn; [split; [intros [=]|by intros [? _]]|]. rewrite st_bind_run. unfold on_bg.
  destruct (Notify _ _ _ _ _ (hb_bg s)) as [errs bg] eqn:En. cbn [fst snd mret]. split.
  - intros He. split; [done|]. change (existsb delivered (map_range errs) = true) in He.
    apply existsb_exists in He as ([id e] & Hin & Hd). exists d, id. split; [done|].
    apply list_elem_of_In, elem_of_map_range in Hin. destruct e; [discriminate|]. by rewrite En.
  - intros (_ & d' & id & [= <-] & Hid). rewrite En in Hid. change (existsb delivered (map_range errs) = true).
    apply existsb_exists. exists (id, None). split; [|done]. by apply list_elem_of_In, elem_of_map_range.
Qed.
End rows.
