(* ===== verification/ServiceTools.v ===== *)
(** * Tools over the background services

    [create_cronjob] ([src/internal/tools/cronjob/cronjob.go]), [create_alert] and
    [send_notification] ([src/internal/tools/alert/]) over the states of [Cron], [Alerting]
    and [Notification].  The formats of a time and of a value are parameters; logging is
    left out.  Amounts are binary64, as the parameters of a tool. *)

From S2P Require Import Prelude Text Security LLM ToolValues Config Domain Models SecurityManager Notification Cron Alerting.

(** [Format(time.RFC3339)] and the verb [%v]. *)
Class ToolFormats := { fmt_rfc3339 : Time -> string; fmt_value : GoAny -> string; fmt_names : list string -> string }.

Definition fmt_bool (b : bool) : string := if b then "true" else "false".

(** [toInt]: a number that is a [float64] or an [int]. *)
Definition toInt (v : option GoAny) : option Z :=
  match v with
  | Some (AFloat x) => Some (f64_trunc x)
  | Some (AInt n) => Some n
  | _ => None
  end.

(** [v, ok := params[key].(bool); ok], true without it. *)
Definition enabled_param (params : Params) : bool :=
  match param params "enabled" with Some (ABool b) => b | _ => true end.
Definition float_param (params : Params) (key : string) : f64 :=
  match param params key with Some (AFloat x) => x | _ => nofZ 0 end.
Definition text_param (params : Params) (key : string) : string := default "" (param_string params key).
Definition list_param (params : Params) (key : string) : list GoAny :=
  match param params key with Some (AList l) => l | _ => [] end.

Definition quotation : string := String (Ascii.ascii_of_nat 34) "".

Definition no_user : error := Errorf "user identity not available in execution context".

(** The channels a parameter must name. *)
Definition validate_channels (params : Params) : option error :=
  match param params "channels" with
  | None => Some (Errorf "missing required parameter: channels")
  | Some (AList (_ :: _)) => None
  | Some _ => Some (Errorf "channels must be a non-empty array of channel names")
  end.

(** The first error of a sequence of checks. *)
Definition first_error (checks : list (option error)) : option error := head (omap id checks).
Definition required (params : Params) (key : string) : option error :=
  match requireString params key with Ok _ => None | Err e => Some e end.

Section tools.
Context {W E : Type} `{!ErrorText} `{!Render} `{!World W} `{!GoParams Params} `{!CronParser} `{!RowJson} `{!ToolFormats}.
Context `{!MapRange uuid NotificationChannel} `{!MapRange uuid (option error)}.

Abbreviation BM := (st (Bg f64 Params W)).
Abbreviation CM := (st (CronState f64 Params W E)).
Abbreviation AM := (st (AlertState f64 Params W)).

Definition cron_check (expr : string) (now : Time) : option error :=
  match ComputeNextRunFrom expr now with Ok _ => None | Err e => Some (Wrap "invalid cron_expression" e) end.

Definition name_check (params : Params) : option error :=
  if (200 <? String.length (stringOrEmpty params "name"))%nat
  then Some (Errorf "name must be 200 characters or fewer") else None.

(** ** create_cronjob *)

Definition cron_Validate (params : Params) (s : CronState f64 Params W E) : option error :=
  first_error
    [required params "name"; name_check params; required params "cron_expression";
     cron_check (stringOrEmpty params "cron_expression") (w_now (bg_world (ct_bg s))).1;
     required params "goal"].

Definition tool_job (orgID id : uuid) (userID : string) (params : Params) (next now : Time) : CronJob f64 :=
  mkCronJob id orgID (stringOrEmpty params "name") (text_param params "description")
    (stringOrEmpty params "cron_expression") (stringOrEmpty params "goal") userID
    (float_param params "budget_limit_usd") (default 0%Z (toInt (param params "max_depth")))
    (default 0%Z (toInt (param params "max_tasks"))) (enabled_param params) (Some next) None None "" now now.

Definition job_output (j : CronJob f64) (next : Time) : string :=
  "Cron job created successfully." +:+ newline +:+ "ID: " +:+ uuid_String (cj_ID j) +:+ newline
  +:+ "Name: " +:+ cj_Name j +:+ newline +:+ "Schedule: " +:+ cj_CronExpression j +:+ newline
  +:+ "Next run: " +:+ fmt_rfc3339 next +:+ newline +:+ "Enabled: " +:+ fmt_bool (cj_Enabled j) +:+ newline
  +:+ "Goal: " +:+ cj_Goal j.

Definition cron_Execute (orgID : uuid) (userID : string) (params : Params) : CM (result error (ToolResult Params)) :=
  if String.eqb userID "" then mret (Err no_user)
  else
    from ← Cron.on_bg bg_now;
    match ComputeNextRunFrom (stringOrEmpty params "cron_expression") from with
    | Err e => mret (Err (Wrap "invalid cron_expression" e))
    | Ok next =>
        now ← Cron.on_bg bg_now;
        id ← Cron.on_bg bg_uuid;
        let cj := tool_job orgID id userID params next now in
        err ← job_Create cj;
        match err with
        | Some e => mret (Err (Wrap "persisting cron job" e))
        | None =>
            mret (Ok (mkToolResult (job_output cj next)
              (object [("cronjob_id", AString (uuid_String id)); ("cron_expression", AString (cj_CronExpression cj));
                       ("next_run_at", AString (fmt_rfc3339 next)); ("enabled", ABool (cj_Enabled cj))]) true))
        end
    end.

Definition cronjob_tool (orgID : uuid) : Tool f64 Params (CronState f64 Params W E) :=
  mkTool "create_cronjob"
    ("Create a scheduled cron job that runs a workflow on a recurring schedule. " +:+
     "Convert the user's natural language schedule into a standard 5-field cron expression " +:+
     "(minute hour day-of-month month day-of-week). The goal field should describe what " +:+
     "the workflow should accomplish on each run.")
    (object_schema
      [("name", prop_schema "string" "Short descriptive name for the cron job (e.g. 'check-failed-pods')");
       ("cron_expression", prop_schema "string" "Standard 5-field cron expression: minute hour day-of-month month day-of-week (e.g. '*/15 * * * *' for every 15 minutes)");
       ("goal", prop_schema "string" "The workflow goal — what the agent should do on each scheduled run");
       ("description", prop_schema "string" "Optional longer description of the cron job's purpose");
       ("budget_limit_usd", prop_schema "number" "Optional per-execution budget limit in USD (default: system default)");
       ("max_depth", prop_schema "integer" "Optional maximum workflow depth (default: system default)");
       ("max_tasks", prop_schema "integer" "Optional maximum number of tasks per execution (default: system default)");
       ("enabled", prop_schema "boolean" "Whether the cron job is enabled immediately (default: true)")]
      ["name"; "cron_expression"; "goal"])
    (mkAction "create_cronjob" RiskHigh) (fun _ => nofZ 0) cron_Validate (cron_Execute orgID).

(** ** Channels by name *)

(** The identifiers and names of the channels in a list, up to the first that is not found;
    entries that are no texts are skipped. *)
Fixpoint resolve_channels (orgID : uuid) (l : list GoAny) : BM (result error (list (uuid * string))) :=
  match l with
  | [] => mret (Ok [])
  | AString name :: l =>
      ch ← channel_GetByName orgID name;
      match ch with
      | Err e => mret (Err (Wrap "notification channel not found" e))
      | Ok ch =>
          rest ← resolve_channels orgID l;
          mret (match rest with Ok cs => Ok ((nc_ID ch, name) :: cs) | Err e => Err e end)
      end
  | _ :: l => resolve_channels orgID l
  end.

(** ** create_alert *)

Definition check_type_error (params : Params) : option error :=
  if slice_contains ["http_status"; "command"] (stringOrEmpty params "check_type") then None
  else Some (Errorf "check_type must be http_status or command").

Definition alert_Validate (params : Params) (s : AlertState f64 Params W) : option error :=
  first_error
    [required params "name"; name_check params; required params "target"; required params "check_type";
     check_type_error params; required params "cron_expression";
     cron_check (stringOrEmpty params "cron_expression") (w_now (bg_world (al_bg s))).1;
     validate_channels params].

Definition check_config (params : Params) : gmap string string :=
  let config := match param params "check_config" with
                | Some (AObject fields) => map_of (map (fun kv => (kv.1, fmt_value kv.2)) fields)
                | _ => ∅
                end in
  if String.eqb (stringOrEmpty params "check_type") "http_status" && String.eqb (default "" (config !! "url")) ""
  then <["url" := stringOrEmpty params "target"]> config else config.

Definition cooldown_param (params : Params) : Z :=
  match toInt (param params "cooldown_seconds") with Some v => if (0 <? v)%Z then v else 300 | None => 300 end.

Definition tool_rule (orgID id : uuid) (userID : string) (params : Params) (channelIDs : list uuid) (next now : Time)
    : AlertRule :=
  mkAlertRule id orgID (stringOrEmpty params "name") (text_param params "description") (stringOrEmpty params "target")
    (stringOrEmpty params "check_type") (check_config params) (stringOrEmpty params "cron_expression") channelIDs userID
    (enabled_param params) (cooldown_param params) None None "ok" (Some next) now now.

Definition rule_output (r : AlertRule) (names : list string) (next : Time) : string :=
  "Alert rule created successfully." +:+ newline +:+ "ID: " +:+ uuid_String (ar_ID r) +:+ newline
  +:+ "Name: " +:+ ar_Name r +:+ newline +:+ "Target: " +:+ ar_Target r +:+ newline
  +:+ "Check: " +:+ ar_CheckType r +:+ newline +:+ "Schedule: " +:+ ar_CronExpression r +:+ newline
  +:+ "Next check: " +:+ fmt_rfc3339 next +:+ newline +:+ "Channels: " +:+ fmt_names names +:+ newline
  +:+ "Cooldown: " +:+ itoa (ar_CooldownS r) +:+ "s" +:+ newline +:+ "Enabled: " +:+ fmt_bool (ar_Enabled r).

Definition alert_Execute (orgID : uuid) (userID : string) (params : Params) : AM (result error (ToolResult Params)) :=
  if String.eqb userID "" then mret (Err no_user)
  else
    channels ← Alerting.on_bg (resolve_channels orgID (list_param params "channels"));
    match channels with
    | Err e => mret (Err e)
    | Ok chs =>
        from ← Alerting.on_bg bg_now;
        match ComputeNextRunFrom (stringOrEmpty params "cron_expression") from with
        | Err e => mret (Err (Wrap "invalid cron_expression" e))
        | Ok next =>
            now ← Alerting.on_bg bg_now;
            id ← Alerting.on_bg bg_uuid;
            let rule := tool_rule orgID id userID params chs.*1 next now in
            err ← rule_Create rule;
            match err with
            | Some e => mret (Err (Wrap "persisting alert rule" e))
            | None =>
                mret (Ok (mkToolResult (rule_output rule chs.*2 next)
                  (object [("rule_id", AString (uuid_String id)); ("cron_expression", AString (ar_CronExpression rule));
                           ("next_run_at", AString (fmt_rfc3339 next)); ("channels", AList (map AString chs.*2));
                           ("enabled", ABool (ar_Enabled rule))]) true))
            end
        end
    end.

Definition array_schema (description : string) : GoAny :=
  AObject [("type", AString "array"); ("items", AObject [("type", AString "string")]); ("description", AString description)].

Definition alert_tool (orgID : uuid) : Tool f64 Params (AlertState f64 Params W) :=
  mkTool "create_alert"
    ("Create a monitoring alert rule that checks a target on a recurring schedule and " +:+
     "sends notifications when conditions change. Convert the user's request into structured " +:+
     "parameters: target URL or resource, check type, schedule (5-field cron expression), " +:+
     "and notification channel names.")
    (object_schema
      [("name", prop_schema "string" "Short descriptive name for the alert rule (e.g. 'api-health-check')");
       ("target", prop_schema "string" "Resource to monitor (e.g. 'https://api.example.com/health')");
       ("check_type", enum_schema ["http_status"; "command"] "Type of check to perform");
       ("check_config", prop_schema "object" ("Check-specific parameters (e.g. {" +:+ quotation +:+ "url" +:+ quotation +:+ ": " +:+ quotation
          +:+ "..." +:+ quotation +:+ ", " +:+ quotation +:+ "expected_status" +:+ quotation +:+ ": " +:+ quotation +:+ "200" +:+ quotation +:+ "})"));
       ("cron_expression", prop_schema "string" "Standard 5-field cron expression for check frequency (e.g. '*/5 * * * *' for every 5 minutes)");
       ("channels", array_schema "Notification channel names to alert on (must already exist)");
       ("cooldown_seconds", prop_schema "integer" "Minimum seconds between notifications for same rule (default: 300)");
       ("description", prop_schema "string" "Optional longer description of what this alert monitors");
       ("enabled", prop_schema "boolean" "Whether the alert is enabled immediately (default: true)")]
      ["name"; "target"; "check_type"; "cron_expression"; "channels"])
    (mkAction "create_alert" RiskHigh) (fun _ => nofZ 0) alert_Validate (alert_Execute orgID).

(** ** send_notification *)

Definition notification_Validate (params : Params) : option error :=
  first_error [validate_channels params; required params "message"].

Definition tool_message (userID : string) (params : Params) : Message :=
  mkMessage (text_param params "subject") (stringOrEmpty params "message") [("type", "manual"); ("user_id", userID)].

(** The name of the first channel with the identifier. *)
Definition name_of (chs : list (uuid * string)) (id : uuid) : string :=
  match List.find (fun c => bool_decide (c.1 = id)) chs with Some c => c.2 | None => uuid_String id end.

Definition succeeded (chs : list (uuid * string)) (answers : list (uuid * option error)) : list string :=
  omap (fun a => match a.2 with None => Some (name_of chs a.1) | Some _ => None end) answers.
Definition failed (chs : list (uuid * string)) (answers : list (uuid * option error)) : list string :=
  omap (fun a => match a.2 with None => None | Some e => Some (name_of chs a.1 +:+ ": " +:+ error_Error e) end) answers.

Definition notification_result (chs : list (uuid * string)) (answers : list (uuid * option error)) : ToolResult Params :=
  let ok := succeeded chs answers in
  let bad := failed chs answers in
  let output := "Notification sent." +:+ newline +:+ "Succeeded: " +:+ String.concat ", " ok in
  mkToolResult
    (if (0 <? length bad)%nat then output +:+ newline +:+ "Failed: " +:+ String.concat "; " bad else output)
    (object [("succeeded", AList (map AString ok)); ("failed", AList (map AString bad))])
    (length bad =? 0)%nat.

Definition notification_Execute (d : Dispatcher W) (orgID : uuid) (userID : string) (params : Params)
    : BM (result error (ToolResult Params)) :=
  if String.eqb userID "" then mret (Err no_user)
  else
    channels ← resolve_channels orgID (list_param params "channels");
    match channels with
    | Err e => mret (Err e)
    | Ok chs =>
        answers ← Notify d orgID chs.*1 (tool_message userID params) userID;
        mret (Ok (notification_result chs (map_range answers)))
    end.

Definition notification_tool (d : Dispatcher W) (orgID : uuid) : Tool f64 Params (Bg f64 Params W) :=
  mkTool "send_notification"
    ("Send a notification message to one or more configured notification channels " +:+
     "(Telegram, Slack, email, webhook). Specify the channel names and the message to send.")
    (object_schema
      [("channels", array_schema "Notification channel names to send to (must already exist)");
       ("subject", prop_schema "string" "Message subject (used by email; optional for chat channels)");
       ("message", prop_schema "string" "The notification message body")]
      ["channels"; "message"])
    (mkAction "send_notification" RiskMedium) (fun _ => nofZ 0) (fun params _ => notification_Validate params)
    (notification_Execute d orgID).
End tools.

(** * What the service tools do

    Each acts for the user of its context, within its organisation, and only when the
    statement succeeds. *)

Section properties.
Context {W E : Type} `{!ErrorText} `{!Render} `{!World W} `{!GoParams Params} `{!CronParser} `{!RowJson} `{!RowJsonLaw}
  `{!ToolFormats}.
Context `{!MapRange uuid NotificationChannel} `{!MapRange uuid (option error)}.
Implicit Types (b : Bg f64 Params W) (s : CronState f64 Params W E) (a : AlertState f64 Params W).

Lemma cron_bg_run {A} (m : st (Bg f64 Params W) A) s :
  Cron.on_bg m s = ((m (ct_bg s)).1, mkCronState (m (ct_bg s)).2 (ct_jobs s) (ct_engine s) (ct_submits s)).
Proof. unfold Cron.on_bg. by destruct (m _). Qed.

Lemma alerts_bg_run {A} (m : st (Bg f64 Params W) A) a :
  Alerting.on_bg m a = ((m (al_bg a)).1, mkAlertState (m (al_bg a)).2 (al_rules a) (al_history a) (al_fired a)).
Proof. unfold Alerting.on_bg. by destruct (m _). Qed.

(** A channel of the organisation with the identifier. *)
Definition channel_of (orgID : uuid) b (id : uuid) : Prop :=
  exists key ch, bg_channels b !! key = Some ch /\ nc_ID ch = id /\ nc_OrgID ch = orgID.

(** Looking channels up changes nothing but the world. *)
Lemma GetByName_spec orgID name b :
  (exists w, (channel_GetByName orgID name b).2 = bg_set_world w b) /\
  forall ch, (channel_GetByName orgID name b).1 = Ok ch -> channel_of orgID b (nc_ID ch).
Proof.
  unfold channel_GetByName. rewrite st_bind_run. unfold bg_stmt. destruct (w_db (bg_world b)) as [[e|] w]; cbn [fst snd].
  - split; [by exists w|done].
  - cbv [mbind st_bind st_get mret st_ret]. cbn [fst snd]. split; [by exists w|]. intros ch.
    destruct (List.filter _ _) as [|c l] eqn:El; [done|]. intros [= <-].
    assert (In c (c :: l)) as Hin by (by left). rewrite <-El in Hin. apply filter_In in Hin as [Hin Ht].
    apply andb_true_iff in Ht as [Ho _]. apply list_elem_of_In, list_elem_of_fmap in Hin as ([k c'] & -> & Hin%elem_of_map_range).
    cbn in Hin. exists k, c'. unfold in_org in Ho. by apply bool_decide_eq_true in Ho.
Qed.

Lemma resolve_channels_spec orgID l b :
  (exists w, (resolve_channels orgID l b).2 = bg_set_world w b) /\
  forall chs, (resolve_channels orgID l b).1 = Ok chs -> Forall (channel_of orgID b) chs.*1.
Proof.
  revert b. induction l as [|v l IH]; intros b.
  { split; [exists (bg_world b); by destruct b|by intros chs [= <-]]. }
  destruct v as [name| | | | | |]; try apply IH. cbn [resolve_channels]. rewrite st_bind_run.
  destruct (GetByName_spec orgID name b) as [[w Hw] Hch]. destruct (channel_GetByName orgID name b) as [[ch|e] b1]; cbn [fst snd] in *;
    [|split; [by exists w|done]].
  subst b1. rewrite st_bind_run. destruct (IH (bg_set_world w b)) as [[w' Hw'] Hrest].
  destruct (resolve_channels orgID l (bg_set_world w b)) as [rest b2]. cbn [fst snd] in *.
  cbv [mret st_ret]. split; [exists w'; by rewrite Hw'|].
  destruct rest as [cs|]; [|done]. intros chs [= <-]. cbn. constructor; [by apply Hch|]. by apply Hrest.
Qed.

(** Where a call of [create_cronjob] reads the clock, the clock again, the identifier, and
    where its statement runs. *)
Definition cron_stmt_world (w : W) : W := (w_uuid (w_now (w_now w).2).2).2.

Lemma cron_Execute_stmt (b : Bg f64 Params W) :
  (bg_uuid (bg_now (bg_now b).2).2).1 = (w_uuid (w_now (w_now (bg_world b)).2).2).1 /\
  (bg_stmt (bg_uuid (bg_now (bg_now b).2).2).2).1 = (w_db (cron_stmt_world (bg_world b))).1.
Proof.
  unfold cron_stmt_world, bg_now. destruct (w_now (bg_world b)) as [t w]. cbn. destruct (w_now w) as [t' w']. cbn.
  unfold bg_uuid. cbn. destruct (w_uuid w') as [u w'']. cbn. unfold bg_stmt. cbn. by destruct (w_db w'').
Qed.

(** C33: [create_cronjob].  There is an error, and no job is added, exactly when the context has
    no user, the schedule of the parameters does not parse, or the statement fails.  Otherwise
    exactly one job is added, under a new identifier: it belongs to the user of the context and
    to the organisation of the tool, whatever the parameters are; its name, description,
    schedule and goal are those of the parameters; it is due at the time that schedule gives
    next after the reading of the clock at the beginning of the call; it never ran; and it is
    enabled also when the parameters and the answer say it is not.  Nothing is submitted. *)
Theorem cronjob_for_caller orgID user params s :
  let w := bg_world (ct_bg s) in
  let text key := match param params key with Some (AString x) => x | _ => "" end in
  let '(r, s') := cron_Execute orgID user params s in
  ct_submits s' = ct_submits s /\
  ((exists e, r = Err e) <->
     user = "" \/ (exists e, cron_Parse (text "cron_expression") = Err e) \/ (w_db (cron_stmt_world w)).1 <> None) /\
  match r with
  | Err _ => ct_jobs s' = ct_jobs s
  | Ok res =>
      exists job next,
        ct_jobs s' = <[cj_ID job := job]> (ct_jobs s) /\ cj_ID job = (w_uuid (w_now (w_now w).2).2).1 /\
        cj_UserID job = user /\ cj_OrgID job = orgID /\
        cj_Name job = text "name" /\ cj_Description job = text "description" /\
        cj_CronExpression job = text "cron_expression" /\ cj_Goal job = text "goal" /\
        cron_Parse (text "cron_expression") = Ok next /\ cj_NextRunAt job = Some (next (w_now w).1) /\
        cj_LastRunAt job = None /\
        cj_Enabled job = true /\ param (tr_Metadata res) "enabled" = Some (ABool (enabled_param params))
  end.
Proof.
  cbv zeta. set (text := fun key => match param params key with Some (AString x) => x | _ => "" end).
  assert (forall key, stringOrEmpty params key = text key) as Htext.
  { intros key. unfold stringOrEmpty, requireString, text. destruct (param params key) as [[x| | | | | |]|]; try done.
    by destruct (String.eqb_spec x "") as [->|]. }
  assert (text_param params "description" = text "description") as Hdesc.
  { unfold text_param, param_string, text. by destruct (param params "description") as [[]|]. }
  unfold cron_Execute. destruct (String.eqb_spec user "") as [Eu|Hu].
  { cbv [mret st_ret]. split_and!; [done| |done]. split; [by left|by eexists]. }
  rewrite st_bind_run, cron_bg_run. cbn [fst snd]. unfold ComputeNextRunFrom. rewrite Htext.
  destruct (cron_Parse (text "cron_expression")) as [parsed|e] eqn:Ep.
  2: { cbv [mret st_ret]. split_and!; [done| |done]. split; [right; left; by eexists|by eexists]. }
  rewrite st_bind_run, cron_bg_run. cbn [fst snd ct_bg]. rewrite st_bind_run, cron_bg_run. cbn [fst snd ct_bg].
  set (job := tool_job _ _ _ _ _ _). unfold job_Create. rewrite st_bind_run, st_bind_run, cron_bg_run.
  cbn [fst snd ct_bg]. destruct (cron_Execute_stmt (ct_bg s)) as [Hid Hdb].
  destruct (bg_stmt _) as [er b']; cbn [fst snd] in *. rewrite <-Hdb.
  destruct er as [e|]; cbn [fst snd]; [cbv [mret st_ret]; split_and!; [done| |done]|].
  { split; [by right; right|by eexists]. }
  cbv [mbind st_bind st_modify mret st_ret]. split; [done|]. split.
  { split; [by intros [? [=]]|by intros [?|[[? [=]]|?]]]. }
  exists (stored job), parsed.
  assert ((bg_now (ct_bg s)).1 = (w_now (bg_world (ct_bg s))).1) as Hnow
    by (unfold bg_now; by destruct (w_now (bg_world (ct_bg s)))).
  unfold job, tool_job. cbn -[bg_now bg_uuid w_uuid w_now]. rewrite !Htext, Hdesc, Hnow, Hid. by split_and!.
Qed.

(** [create_alert]: likewise, and every channel of the rule is one of the organisation. *)
Theorem alert_for_caller orgID user params a :
  let '(r, a') := alert_Execute orgID user params a in
  bg_sent (al_bg a') = bg_sent (al_bg a) /\ al_history a' = al_history a /\
  match r with
  | Err _ => al_rules a' = al_rules a
  | Ok _ =>
      user <> "" /\ exists rule,
        al_rules a' = <[ar_ID rule := rule]> (al_rules a) /\
        ar_UserID rule = user /\ ar_OrgID rule = orgID /\ ar_Target rule = stringOrEmpty params "target" /\
        ar_CheckConfig rule = check_config params /\ ar_Enabled rule = true /\ (0 < ar_CooldownS rule)%Z /\
        Forall (channel_of orgID (al_bg a)) (ar_ChannelIDs rule)
  end.
Proof.
  unfold alert_Execute. destruct (String.eqb_spec user "") as [_|Hu]; [by cbv [mret st_ret]|].
  rewrite st_bind_run, alerts_bg_run. cbn [fst snd].
  destruct (resolve_channels_spec orgID (list_param params "channels") (al_bg a)) as [[w Hw] Hch].
  destruct (resolve_channels _ _ _) as [[chs|e] b1]; cbn [fst snd] in *; subst b1; [|by cbv [mret st_ret]].
  rewrite st_bind_run, alerts_bg_run. cbn [fst snd al_bg]. unfold ComputeNextRunFrom.
  destruct (cron_Parse (stringOrEmpty params "cron_expression")) as [parsed|e] eqn:Ep; [|unfold bg_now; by destruct (w_now _)].
  rewrite st_bind_run, alerts_bg_run. cbn [fst snd al_bg]. rewrite st_bind_run, alerts_bg_run. cbn [fst snd al_bg].
  set (rule := tool_rule _ _ _ _ _ _ _). unfold rule_Create. rewrite st_bind_run, st_bind_run, alerts_bg_run. cbn [fst snd al_bg].
  assert (forall b : Bg f64 Params W, bg_sent (bg_now b).2 = bg_sent b) as Hn by (intros b; unfold bg_now; by destruct (w_now _)).
  assert (forall b : Bg f64 Params W, bg_sent (bg_uuid b).2 = bg_sent b) as Hi by (intros b; unfold bg_uuid; by destruct (w_uuid _)).
  assert (forall b : Bg f64 Params W, bg_sent (bg_stmt b).2 = bg_sent b) as Hs by (intros b; unfold bg_stmt; by destruct (w_db _)).
  match goal with |- context [bg_stmt ?b] => pose proof (Hs b) as Hsent; destruct (bg_stmt b) as [[e|] b'] end;
    rewrite Hi, !Hn in Hsent; cbn [fst snd] in *; [by cbv [mret st_ret]|].
  cbv [mbind st_bind st_modify mret st_ret]. split; [done|]. split; [done|]. split; [done|].
  exists (stored rule). split_and!; try done.
  - cbn. by rewrite json_or_marshal.
  - cbn. unfold or_int, cooldown_param. destruct (toInt _) as [v|]; [|done].
    destruct (Z.ltb_spec 0 v); [|done]. destruct (Z.eqb_spec v 0); lia.
  - cbn. rewrite json_or_marshal. by apply Hch.
Qed.

(** [send_notification]: what is sent is the message of the parameters, to enabled channels of
    the organisation, and the answer is a success exactly when no channel failed. *)
Theorem notification_for_caller d orgID user params b :
  let '(r, b') := notification_Execute d orgID user params b in
  sends_to orgID (tool_message user params) b b' /\
  (user = "" -> b' = b) /\
  match r with
  | Err _ => bg_sent b' = bg_sent b
  | Ok res => user <> "" /\ (tr_Success res = true <-> param (tr_Metadata res) "failed" = Some (AList []))
  end.
Proof.
  unfold notification_Execute. destruct (String.eqb_spec user "") as [_|Hu].
  { cbv [mret st_ret]. split; [apply sends_to_refl|done]. }
  rewrite st_bind_run. destruct (resolve_channels_spec orgID (list_param params "channels") b) as [[w Hw] _].
  destruct (resolve_channels _ _ _) as [[chs|e] b1]; cbn [fst snd] in *; subst b1.
  2: { cbv [mret st_ret]. split; [apply sends_to_world|done]. }
  rewrite st_bind_run. destruct (notify_from_spec d orgID (tool_message user params) user chs.*1 ∅ (bg_set_world w b)) as [Hs _].
  unfold Notify. destruct (notify_from _ _ _ _ _ _ _) as [answers b']. cbn [fst snd] in *. cbv [mret st_ret].
  split; [eapply sends_to_trans; [apply sends_to_world|exact Hs]|]. split; [done|]. split; [done|].
  unfold notification_result. cbn [tr_Success tr_Metadata]. set (bad := failed _ _).
  change (param _ "failed") with (Some (AList (map AString bad))).
  destruct bad; split; by intros [=] || done.
Qed.
End properties.
