(* ===== verification/Senders.v ===== *)
(** * The senders of notifications

    [src/internal/notification/telegram.go], [slack.go], [whatsapp.go], [signal.go],
    [webhook.go] and [email.go], and their registration in [src/cmd/akili/shared.go].  A
    sender acts on a [Wire]: the world, and what it put on the network so far.  The HTTP
    client, the mail client, DNS and JSON are parameters. *)

From S2P Require Import Prelude Text LLM ToolValues WebTool Domain Notification Infra.

(** ** The network *)

Record http_request := mkHttpRequest { hq_URL : string; hq_Headers : list (string * string); hq_Body : string }.

(** The steps of a mail client. *)
Inductive smtp_command :=
  | SmtpTLSDial (addr host : string)
  | SmtpNewClient (host : string)
  | SmtpAuth (username password host : string)
  | SmtpMail (from : string)
  | SmtpRcpt (to : string)
  | SmtpData
  | SmtpWrite (body : string)
  | SmtpCloseData
  | SmtpQuit
  | SmtpCloseConn
  | SmtpClose.

(** [smtp.SendMail], a dialogue of its own; [auth] is a user with a password. *)
Record mail := mkMail { ml_addr : string; ml_auth : option (string * string * string); ml_from : string; ml_to : list string; ml_body : string }.

(** A POST request, of a client that follows redirects or not, and the mail client. *)
Inductive wire_event :=
  | WPost (follow : bool) (timeout : Duration) (req : http_request)
  | WSmtp (c : smtp_command)
  | WMail (m : mail).

Record SlackResponse := mkSlackResponse { sr_OK : bool; sr_Error : string }.

Class SenderNet (W : Type) := {
  json_Marshal : GoAny -> string;
  http_Post : bool -> Duration -> http_request -> W -> result error http_response * W;
  smtp_Do : smtp_command -> W -> option error * W;
  smtp_SendMail : mail -> W -> option error * W;
}.

Record Wire (W : Type) := mkWire { wi_world : W; wi_events : list wire_event }.
Arguments mkWire {W}.
Arguments wi_world {W}.
Arguments wi_events {W}.

(** ** Splitting of messages *)

(** After the last newline in the second half of the first [maxLen] bytes, from [i] down. *)
Fixpoint cut_point (text : string) (maxLen i : nat) : nat :=
  match i with
  | O => maxLen
  | S i' =>
      if (i <=? maxLen / 2)%nat then maxLen
      else if bool_decide (String.get i text = Some line_feed) then S i
      else cut_point text maxLen i'
  end.

Fixpoint split_chunks (fuel : nat) (text : string) (maxLen : nat) : option (list string) :=
  match fuel with
  | O => None
  | S fuel =>
      if (maxLen <? String.length text)%nat then
        let cutAt := cut_point text maxLen (maxLen - 1) in
        cons (str_take cutAt text) <$> split_chunks fuel (str_drop cutAt text) maxLen
      else Some (if (0 <? String.length text)%nat then [text] else [])
  end.

Definition splitMessage (text : string) (maxLen : nat) : option (list string) :=
  if (String.length text <=? maxLen)%nat then Some [text] else split_chunks (S (String.length text)) text maxLen.

(** ** Texts *)

(** [replaceAll]; [skip] is the number of bytes of a match still to pass over. *)
Fixpoint replace_at (s old new : string) (skip : nat) : string :=
  match s with
  | EmptyString => ""
  | String c s' =>
      match skip with
      | S skip => replace_at s' old new skip
      | O => if has_prefix s old then new +:+ replace_at s' old new (String.length old - 1)
             else String c (replace_at s' old new 0)
      end
  end.
Definition replaceAll (s old new : string) : string := replace_at s old new 0.

Definition markdown_replacer : list (string * string) := [("_", "\_"); ("*", "\*"); ("[", "\["); ("`", "\`")].
Definition escapeMarkdown (s : string) : string :=
  fold_left (fun result r => replaceAll result r.1 r.2) markdown_replacer s.

(** The subject in front of the text, when there is one. *)
Definition with_title (title sep body : string) : string := "*" +:+ (title +:+ ("*" +:+ (sep +:+ body))).
Definition titled (subject sep body : string) : string :=
  if String.eqb subject "" then body else with_title subject sep body.

Definition crlf : string := String (Ascii.ascii_of_nat 13) newline.
Definition header_quote : string := String (Ascii.ascii_of_nat 34) "".

Definition buildEmailBody (from : string) (to : list string) (subject text : string) : string :=
  "From: " +:+ (from +:+ (crlf +:+ ("To: " +:+ (String.concat ", " to +:+ (crlf +:+ ("Subject: " +:+ (subject +:+ (crlf +:+
  ("MIME-Version: 1.0" +:+ (crlf +:+ ("Content-Type: text/plain; charset=" +:+ (header_quote +:+ ("utf-8" +:+ (header_quote +:+
  (crlf +:+ (crlf +:+ text)))))))))))))))).

(** [strings.Split(s, ",")]. *)
Fixpoint split_commas (s : string) : list string :=
  match s with
  | EmptyString => [""]
  | String c s =>
      if Ascii.eqb c (Ascii.ascii_of_nat 44) then "" :: split_commas s
      else match split_commas s with x :: xs => String c x :: xs | [] => [String c ""] end
  end.

(** [net.JoinHostPort]. *)
Definition JoinHostPort (host port : string) : string :=
  if contains host ":" || contains host "%" then "[" +:+ host +:+ "]:" +:+ port else host +:+ ":" +:+ port.

(** ** Addresses a webhook may not have *)

Definition IsPrivate (ip : IP) : bool :=
  match To4 ip with
  | Some ip4 =>
      (byte ip4 0 =? 10)%Z || ((byte ip4 0 =? 172) && (Z.land (byte ip4 1) 240 =? 16))%Z
      || ((byte ip4 0 =? 192) && (byte ip4 1 =? 168))%Z
  | None => bool_decide (length ip = 16) && (Z.land (byte ip 0) 254 =? 252)%Z
  end.

Definition blocked_ip (ip : IP) : bool :=
  IsLoopback ip || IsPrivate ip || IsLinkLocalUnicast ip || IsLinkLocalMulticast ip || IsUnspecified ip.

Definition loopback_names : list string := ["localhost"; "127.0.0.1"; "::1"; "0.0.0.0"].

Section senders.
Context {W : Type} `{!ErrorText} `{!Render} `{!HttpClient W} `{!SenderNet W} `{!Environment W}.
Context `{!Decode SlackResponse}.

Abbreviation NM := (st (Wire W)).

Definition do_post (follow : bool) (timeout : Duration) (req : http_request) : NM (result error http_response) :=
  fun s => let '(r, w) := http_Post follow timeout req (wi_world s) in
           (r, mkWire w (wi_events s ++ [WPost follow timeout req])).
Definition do_smtp (c : smtp_command) : NM (option error) :=
  fun s => let '(e, w) := smtp_Do c (wi_world s) in (e, mkWire w (wi_events s ++ [WSmtp c])).
Definition do_mail (m : mail) : NM (option error) :=
  fun s => let '(e, w) := smtp_SendMail m (wi_world s) in (e, mkWire w (wi_events s ++ [WMail m])).
Definition lookup_host (host : string) : NM (result error (list string)) :=
  fun s => let '(r, w) := net_LookupHost host (wi_world s) in (r, mkWire w (wi_events s)).
Definition getenv (name : string) : NM string := fun s => (os_Getenv name (wi_world s), s).

(** A request is made when its URL is one; [judge] reads the response. *)
Definition post (follow : bool) (timeout : Duration) (req : http_request) (judge : http_response -> option error)
    : NM (option error) :=
  match http_BadRequest "POST" (hq_URL req) with
  | Some e => mret (Some (Wrap "creating request" e))
  | None =>
      r ← do_post follow timeout req;
      mret (match r with Err e => Some (Wrap "sending request" e) | Ok resp => judge resp end)
  end.

Definition excerpt (n : nat) (resp : http_response) : string := str_take n (hr_Body resp).
Definition is_2xx (resp : http_response) : bool := ((200 <=? hr_StatusCode resp) && (hr_StatusCode resp <? 300))%Z.

(** An error unless the status is good. *)
Definition expect_status (good : http_response -> bool) (api : string) (resp : http_response) : option error :=
  if good resp then None
  else Some (Errorf (api +:+ " returned " +:+ itoa (hr_StatusCode resp) +:+ ": " +:+ excerpt 512 resp)).

Definition json_header : string * string := ("Content-Type", "application/json").

(** ** Sending a text in parts *)

Definition part_header (i n : nat) : string :=
  "[Part " +:+ itoa (Z.of_nat (S i)) +:+ "/" +:+ itoa (Z.of_nat n) +:+ "]" +:+ newline.
Definition part (n i : nat) (chunk : string) : string :=
  if (1 <? n)%nat then part_header i n +:+ chunk else chunk.

Fixpoint send_parts (send1 : string -> NM (option error)) (what : string) (n i : nat) (chunks : list string)
    : NM (option error) :=
  match chunks with
  | [] => mret None
  | chunk :: chunks =>
      err ← send1 (part n i chunk);
      match err with
      | Some e => mret (Some (Wrap ("sending " +:+ what +:+ " message (part " +:+ itoa (Z.of_nat (S i)) +:+ "/"
                                    +:+ itoa (Z.of_nat n) +:+ ")") e))
      | None => send_parts send1 what n (S i) chunks
      end
  end.

Definition send_text (send1 : string -> NM (option error)) (what text : string) (maxLen : nat) : NM (option error) :=
  let chunks := default [] (splitMessage text maxLen) in
  send_parts send1 what (length chunks) 0 chunks.

Definition config (ch : NotificationChannel) (key : string) : string := default "" (nc_Config ch !! key).
Definition missing (ch : NotificationChannel) (kind key : string) : error :=
  Errorf (kind +:+ " channel " +:+ nc_Name ch +:+ " missing " +:+ key +:+ " in config").

(** ** Telegram *)

Definition telegram_limit : nat := 4000.
Definition telegram_request (botToken chatID text : string) : http_request :=
  mkHttpRequest ("https://api.telegram.org/bot" +:+ botToken +:+ "/sendMessage") [json_header]
    (json_Marshal (AObject [("chat_id", AString chatID); ("parse_mode", AString "Markdown"); ("text", AString text)])).
Definition telegram_send1 (botToken chatID text : string) : NM (option error) :=
  post true (15 * Second)%Z (telegram_request botToken chatID text)
    (expect_status (fun r => (hr_StatusCode r =? 200)%Z) "telegram API").

Definition telegram_text (msg : Message) : string :=
  if String.eqb (ms_Subject msg) "" then ms_Body msg
  else with_title (escapeMarkdown (ms_Subject msg)) (newline +:+ newline) (ms_Body msg).

Definition telegram_Send (botToken : string) (ch : NotificationChannel) (msg : Message) : NM (option error) :=
  let chatID := config ch "chat_id" in
  if String.eqb chatID "" then mret (Some (missing ch "telegram" "chat_id"))
  else send_text (telegram_send1 botToken chatID) "telegram" (telegram_text msg) telegram_limit.

(** ** Slack *)

Definition slack_request (botToken channelID text : string) : http_request :=
  mkHttpRequest "https://slack.com/api/chat.postMessage"
    [("Content-Type", "application/json; charset=utf-8"); ("Authorization", "Bearer " +:+ botToken)]
    (json_Marshal (AObject [("channel", AString channelID); ("text", AString text)])).

(** Slack answers 200 also to what it refuses. *)
Definition slack_judge (resp : http_response) : option error :=
  let body := excerpt 1024 resp in
  if negb (hr_StatusCode resp =? 200)%Z
  then Some (Errorf ("slack API returned " +:+ itoa (hr_StatusCode resp) +:+ ": " +:+ body))
  else match json_unmarshal body with
       | Ok r => if sr_OK r then None else Some (Errorf ("slack API error: " +:+ sr_Error r))
       | Err _ => None
       end.

Definition slack_Send (botToken : string) (ch : NotificationChannel) (msg : Message) : NM (option error) :=
  let channelID := config ch "channel_id" in
  if String.eqb channelID "" then mret (Some (missing ch "slack" "channel_id"))
  else post true (15 * Second)%Z (slack_request botToken channelID (titled (ms_Subject msg) newline (ms_Body msg))) slack_judge.

(** ** WhatsApp *)

Definition whatsapp_limit : nat := 4096.
Definition whatsapp_request (phoneNumberID recipient token text : string) : http_request :=
  mkHttpRequest ("https://graph.facebook.com/v21.0/" +:+ phoneNumberID +:+ "/messages")
    [json_header; ("Authorization", "Bearer " +:+ token)]
    (json_Marshal (AObject [("messaging_product", AString "whatsapp"); ("text", AObject [("body", AString text)]);
                            ("to", AString recipient); ("type", AString "text")])).
Definition whatsapp_send1 (phoneNumberID recipient token text : string) : NM (option error) :=
  post true (15 * Second)%Z (whatsapp_request phoneNumberID recipient token text) (expect_status is_2xx "whatsapp API").

Definition whatsapp_Send (accessToken : string) (ch : NotificationChannel) (msg : Message) : NM (option error) :=
  let phoneNumberID := config ch "phone_number_id" in
  let recipient := config ch "recipient" in
  if String.eqb phoneNumberID "" then mret (Some (missing ch "whatsapp" "phone_number_id"))
  else if String.eqb recipient "" then mret (Some (missing ch "whatsapp" "recipient"))
  else
    envToken ← (if String.eqb (nc_CredentialRef ch) "" then mret "" else getenv (nc_CredentialRef ch));
    let token := or_text envToken accessToken in
    if String.eqb token "" then mret (Some (Errorf ("whatsapp channel " +:+ nc_Name ch +:+ ": no access token available")))
    else send_text (whatsapp_send1 phoneNumberID recipient token) "whatsapp"
           (titled (ms_Subject msg) (newline +:+ newline) (ms_Body msg)) whatsapp_limit.

(** ** Signal *)

Record SignalSender := mkSignalSender { ss_apiURL : string; ss_senderNumber : string }.
Definition NewSignalSender (apiURL senderNumber : string) : SignalSender := mkSignalSender (trim_slashes apiURL) senderNumber.

Definition signal_limit : nat := 4096.
Definition signal_request (apiURL sender recipient text : string) : http_request :=
  mkHttpRequest (apiURL +:+ "/v2/send") [json_header]
    (json_Marshal (AObject
      (if has_prefix recipient "group."
       then [("group_id", AString recipient); ("message", AString text); ("number", AString sender); ("recipients", AList [])]
       else [("message", AString text); ("number", AString sender); ("recipients", AList [AString recipient])]))).
Definition signal_send1 (apiURL sender recipient text : string) : NM (option error) :=
  post true (15 * Second)%Z (signal_request apiURL sender recipient text) (expect_status is_2xx "signal API").

Definition signal_url (s : SignalSender) (ch : NotificationChannel) : string :=
  if String.eqb (config ch "signal_api_url") "" then ss_apiURL s else trim_slashes (config ch "signal_api_url").
Definition signal_number (s : SignalSender) (ch : NotificationChannel) : string :=
  or_text (config ch "sender_number") (ss_senderNumber s).

Definition signal_Send (s : SignalSender) (ch : NotificationChannel) (msg : Message) : NM (option error) :=
  let recipient := config ch "recipient" in
  if String.eqb recipient "" then mret (Some (missing ch "signal" "recipient"))
  else send_text (signal_send1 (signal_url s ch) (signal_number s ch) recipient) "signal"
         (titled (ms_Subject msg) (newline +:+ newline) (ms_Body msg)) signal_limit.

(** ** Webhook *)

(** The first blocked address decides; a text that is no address is passed over. *)
Fixpoint check_addresses (ips : list string) : option error :=
  match ips with
  | [] => None
  | ipStr :: ips =>
      match net_ParseIP ipStr with
      | None => check_addresses ips
      | Some ip => if blocked_ip ip then Some (Errorf ("private/internal IP " +:+ ipStr +:+ " not allowed")) else check_addresses ips
      end
  end.

Definition validateWebhookURL (rawURL : string) : NM (option error) :=
  match url_Parse rawURL with
  | Err e => mret (Some (Wrap "invalid URL" e))
  | Ok u =>
      if negb (String.eqb (u_Scheme u) "http") && negb (String.eqb (u_Scheme u) "https")
      then mret (Some (Errorf "scheme must be http or https"))
      else if slice_contains loopback_names (to_lower (u_Hostname u))
      then mret (Some (Errorf "loopback addresses not allowed"))
      else
        ips ← lookup_host (u_Hostname u);
        mret (match ips with
              | Err e => Some (Wrap "DNS lookup failed" e)
              | Ok ips => check_addresses ips
              end)
  end.

Definition webhook_request (url : string) (ch : NotificationChannel) (msg : Message) : http_request :=
  mkHttpRequest url [json_header; ("User-Agent", "Akili-Webhook/1.0")]
    (json_Marshal (AObject
      [("body", AString (ms_Body msg)); ("channel", AString (nc_Name ch));
       ("metadata", AObject (map (fun kv => (kv.1, AString kv.2)) (ms_Metadata msg)));
       ("subject", AString (ms_Subject msg))])).

Definition webhook_Send (ch : NotificationChannel) (msg : Message) : NM (option error) :=
  let webhookURL := config ch "url" in
  if String.eqb webhookURL "" then mret (Some (missing ch "webhook" "url"))
  else
    bad ← validateWebhookURL webhookURL;
    match bad with
    | Some e => mret (Some (Wrap "webhook URL rejected" e))
    | None => post false (10 * Second)%Z (webhook_request webhookURL ch msg) (expect_status is_2xx "webhook")
    end.

(** ** E-mail *)

Record SMTPConfig := mkSMTPConfig { sm_Host : string; sm_Port : Z; sm_Username : string; sm_From : string; sm_TLS : bool }.

Definition NewEmailSender (cfg : SMTPConfig) : SMTPConfig :=
  mkSMTPConfig (sm_Host cfg) (or_int (sm_Port cfg) 587) (sm_Username cfg) (sm_From cfg) (sm_TLS cfg).

(** Commands in order up to the first error, each with the text its error is wrapped in. *)
Fixpoint smtp_steps (steps : list (option string * smtp_command)) : NM (option error) :=
  match steps with
  | [] => mret None
  | (what, c) :: steps =>
      err ← do_smtp c;
      match err with
      | Some e => mret (Some (match what with Some w => Wrap w e | None => e end))
      | None => smtp_steps steps
      end
  end.

Definition smtp_dialogue (m : mail) : list (option string * smtp_command) :=
  match ml_auth m with Some (user, password, host) => [(Some "smtp auth", SmtpAuth user password host)] | None => [] end ++
  (Some "smtp MAIL FROM", SmtpMail (ml_from m)) ::
  map (fun a => (Some ("smtp RCPT TO " +:+ a), SmtpRcpt a)) (ml_to m) ++
  [(Some "smtp DATA", SmtpData); (Some "smtp write body", SmtpWrite (ml_body m));
   (Some "smtp close data", SmtpCloseData); (None, SmtpQuit)].

Definition sendTLS (cfg : SMTPConfig) (m : mail) : NM (option error) :=
  err ← do_smtp (SmtpTLSDial (ml_addr m) (sm_Host cfg));
  match err with
  | Some e => mret (Some (Wrap ("tls dial " +:+ ml_addr m) e))
  | None =>
      err ← do_smtp (SmtpNewClient (sm_Host cfg));
      match err with
      | Some e => _ ← do_smtp SmtpCloseConn; mret (Some (Wrap "smtp client" e))
      | None => err ← smtp_steps (smtp_dialogue m); _ ← do_smtp SmtpClose; mret err
      end
  end.

Definition recipients (to : string) : list string := map TrimSpace (split_commas to).

(** The mail for a channel, with the password of its credential. *)
Definition mail_for (cfg : SMTPConfig) (ch : NotificationChannel) (msg : Message) (password : string) : mail :=
  let rcpts := recipients (config ch "to") in
  mkMail (JoinHostPort (sm_Host cfg) (itoa (sm_Port cfg)))
    (if negb (String.eqb (sm_Username cfg) "") && negb (String.eqb password "")
     then Some (sm_Username cfg, password, sm_Host cfg) else None)
    (sm_From cfg) rcpts
    (buildEmailBody (sm_From cfg) rcpts (or_text (ms_Subject msg) "[Akili] Notification") (ms_Body msg)).

Definition email_Send (cfg : SMTPConfig) (ch : NotificationChannel) (msg : Message) : NM (option error) :=
  if String.eqb (config ch "to") "" then mret (Some (missing ch "email" "to"))
  else
    password ← (if String.eqb (nc_CredentialRef ch) "" then mret "" else getenv (nc_CredentialRef ch));
    let m := mail_for cfg ch msg password in
    if sm_TLS cfg then sendTLS cfg m else do_mail m.

(** ** Registration *)

(** The settings the senders are made from: a bot token or a section that is there. *)
Record SenderSetup := mkSenderSetup {
  st_Telegram : option string;
  st_Slack : option string;
  st_Email : option SMTPConfig;
  st_WhatsApp : option string;
  st_Signal : option (string * string);
}.

(** A sender for the dispatcher: its world is that of the wire. *)
Definition as_sender (f : NotificationChannel -> Message -> NM (option error)) : Sender W :=
  fun ch msg w => let '(e, s) := f ch msg (mkWire w []) in (e, wi_world s).

Definition filled (s : option string) : option string :=
  match s with Some s => if String.eqb s "" then None else Some s | None => None end.
Definition register_some {A} (a : option A) (typ : string) (f : A -> NotificationChannel -> Message -> NM (option error))
    (d : Dispatcher W) : Dispatcher W :=
  match a with Some a => RegisterSender d typ (as_sender (f a)) | None => d end.

Definition register_senders (c : SenderSetup) (d : Dispatcher W) : Dispatcher W :=
  let d := register_some (filled (st_Telegram c)) "telegram" telegram_Send d in
  let d := register_some (filled (st_Slack c)) "slack" slack_Send d in
  let d := register_some (st_Email c) "email" (fun cfg => email_Send (NewEmailSender cfg)) d in
  let d := register_some (filled (st_WhatsApp c)) "whatsapp" whatsapp_Send d in
  let d := match st_Signal c with
           | Some (url, number) =>
               if String.eqb url "" || String.eqb number "" then d
               else RegisterSender d "signal" (as_sender (signal_Send (NewSignalSender url number)))
           | None => d
           end in
  RegisterSender d "webhook" (as_sender webhook_Send).
End senders.

(** * What the senders do *)

(** ** Parts *)

Lemma cut_point_bound text maxLen i : 0 < maxLen -> i < maxLen -> 0 < cut_point text maxLen i <= maxLen.
Proof.
  intros Hm. induction i as [|i IH]; intros Hi; cbn [cut_point]; [lia|].
  destruct (_ <=? _); [lia|]. destruct (bool_decide _); [lia|]. apply IH. lia.
Qed.

Lemma split_chunks_ok maxLen : 0 < maxLen -> forall fuel text, String.length text < fuel ->
  exists cs, split_chunks fuel text maxLen = Some cs /\ String.concat "" cs = text /\
    Forall (fun c => 0 < String.length c <= maxLen) cs.
Proof.
  intros Hm. induction fuel as [|fuel IH]; intros r Hr; [lia|]. cbn [split_chunks].
  destruct (Nat.ltb_spec maxLen (String.length r)) as [Hgt|Hle].
  - pose proof (cut_point_bound r maxLen (maxLen - 1) Hm ltac:(lia)) as Hk.
    destruct (IH (str_drop (cut_point r maxLen (maxLen - 1)) r)) as (cs & -> & Hc & Hall); [rewrite str_drop_length; lia|].
    eexists. split; [reflexivity|]. split; [by rewrite concat_cons, Hc, str_take_drop|].
    constructor; [rewrite str_take_length; lia|done].
  - destruct (Nat.ltb_spec 0 (String.length r)) as [H0|H0].
    + exists [r]. split_and!; [done..|]. by constructor; [lia|].
    + exists []. split_and!; [done| |done]. destruct r; [done|simpl in H0; lia].
Qed.

(** [splitMessage] ends and loses nothing. *)
Lemma splitMessage_exact text maxLen : 0 < maxLen ->
  exists cs, splitMessage text maxLen = Some cs /\ String.concat "" cs = text /\
    Forall (fun c => String.length c <= maxLen) cs.
Proof.
  intros Hm. unfold splitMessage. destruct (Nat.leb_spec (String.length text) maxLen) as [Hle|Hgt].
  - exists [text]. split_and!; [done..|]. by constructor.
  - destruct (split_chunks_ok maxLen Hm (S (String.length text)) text) as (cs & -> & Hc & Hall); [lia|].
    exists cs. split_and!; [done..|]. eapply Forall_impl; [exact Hall|]. simpl. lia.
Qed.

Section properties.
Context {W : Type} `{!ErrorText} `{!Render} `{!HttpClient W} `{!SenderNet W} `{!Environment W}.
Context `{!Decode SlackResponse}.
Implicit Types (s : Wire W) (ch : NotificationChannel) (msg : Message).

(** The messages of the chunks from number [i] on, of [n]. *)
Fixpoint parts (n i : nat) (chunks : list string) : list string :=
  match chunks with [] => [] | c :: cs => part n i c :: parts n (S i) cs end.

(** [send1] puts one event on the wire. *)
Definition one_event (send1 : string -> st (Wire W) (option error)) (ev : string -> wire_event) : Prop :=
  forall t s, wi_events (send1 t s).2 = wi_events s ++ [ev t].

Lemma send_parts_spec send1 ev what n chunks : one_event send1 ev -> forall i s,
  exists k, wi_events (send_parts send1 what n i chunks s).2 = wi_events s ++ map ev (take k (parts n i chunks)) /\
    k <= length chunks /\ ((send_parts send1 what n i chunks s).1 = None -> k = length chunks) /\
    ((send_parts send1 what n i chunks s).1 <> None -> 0 < k).
Proof.
  intros H1. induction chunks as [|c cs IH]; intros i s; cbn [send_parts parts].
  { exists 0. cbn. rewrite app_nil_r. by split_and!. }
  rewrite st_bind_run. pose proof (H1 (part n i c) s) as He. destruct (send1 _ s) as [[e|] s1]; cbn [fst snd] in *.
  { exists 1. cbn [fst snd mret st_ret take map length]. cbv [mret st_ret]. cbn [fst snd]. split_and!; [done|cbn; lia|done|lia]. }
  destruct (IH (S i) s1) as (k & Hk & Hle & Hn & Hs). exists (S k). cbn [take map length].
  rewrite Hk, He, <-(assoc_L app). split_and!; [done|lia|intros; f_equal; by apply Hn|lia].
Qed.

(** What a sender that splits [text] at [maxLen] puts on the wire: the chunks are the text,
    each within the limit; they go out in order, numbered, up to the first failure; and
    without a failure all of them did. *)
Definition delivers (ev : string -> wire_event) (text : string) (maxLen : nat) (r : option error) s s' : Prop :=
  exists chunks k, String.concat "" chunks = text /\ Forall (fun c => String.length c <= maxLen) chunks /\
    wi_events s' = wi_events s ++ map ev (take k (parts (length chunks) 0 chunks)) /\
    k <= length chunks /\ (r = None -> k = length chunks) /\ (r <> None -> 0 < k).

Lemma send_text_delivers send1 ev what text maxLen s : 0 < maxLen -> one_event send1 ev ->
  delivers ev text maxLen (send_text send1 what text maxLen s).1 s (send_text send1 what text maxLen s).2.
Proof.
  intros Hm H1. unfold send_text. destruct (splitMessage_exact text maxLen Hm) as (cs & -> & Hc & Hall). cbn [default].
  destruct (send_parts_spec send1 ev what (length cs) cs H1 0 s) as (k & Hk). exists cs, k. by destruct Hk as (?&?&?&?).
Qed.

Lemma post_one_event follow timeout (req : string -> http_request) judge :
  (forall t, http_BadRequest "POST" (hq_URL (req t)) = None) ->
  one_event (fun t => post follow timeout (req t) judge) (fun t => WPost follow timeout (req t)).
Proof.
  intros Hu t s. unfold post. rewrite Hu, st_bind_run. unfold do_post. by destruct (http_Post _ _ _ _).
Qed.

Lemma limits_positive : 0 < telegram_limit /\ 0 < whatsapp_limit /\ 0 < signal_limit.
Proof. unfold telegram_limit, whatsapp_limit, signal_limit. lia. Qed.

(** Long messages arrive whole and in order: the three senders that split a message put the
    parts of exactly the titled text on the wire, in order, to the chat of the channel, with
    nothing in between, and report success only when every part was accepted. *)
Theorem chat_messages_delivered token sender ch msg s :
  config ch "chat_id" <> "" -> config ch "recipient" <> "" -> config ch "phone_number_id" <> "" ->
  token <> "" -> nc_CredentialRef ch = "" -> (forall url, http_BadRequest "POST" url = None) ->
  let text := titled (ms_Subject msg) (newline +:+ newline) (ms_Body msg) in
  (let '(r, s') := telegram_Send token ch msg s in
   delivers (fun t => WPost true (15 * Second)%Z (telegram_request (W := W) token (config ch "chat_id") t))
     (telegram_text msg) 4000 r s s') /\
  (let '(r, s') := whatsapp_Send token ch msg s in
   delivers (fun t => WPost true (15 * Second)%Z
       (whatsapp_request (W := W) (config ch "phone_number_id") (config ch "recipient") token t)) text 4096 r s s') /\
  (let '(r, s') := signal_Send sender ch msg s in
   delivers (fun t => WPost true (15 * Second)%Z
       (signal_request (W := W) (signal_url sender ch) (signal_number sender ch) (config ch "recipient") t)) text 4096 r s s').
Proof.
  intros Hc%String.eqb_neq Hr%String.eqb_neq Hp%String.eqb_neq Ht%String.eqb_neq Hcr Hu text.
  destruct limits_positive as (L1 & L2 & L3). split_and!.
  - unfold telegram_Send. rewrite Hc. rewrite (surjective_pairing (send_text _ _ _ _ s)).
    apply send_text_delivers; [exact L1|]. by apply (post_one_event true _ (fun t => telegram_request token _ t)).
  - unfold whatsapp_Send. rewrite Hp, Hr, Hcr. cbv [mbind st_bind mret st_ret]. cbn [String.eqb or_text]. rewrite Ht.
    rewrite (surjective_pairing (send_text _ _ _ _ s)).
    apply send_text_delivers; [exact L2|]. by apply (post_one_event true _ (fun t => whatsapp_request _ _ token t)).
  - unfold signal_Send. rewrite Hr. rewrite (surjective_pairing (send_text _ _ _ _ s)).
    apply send_text_delivers; [exact L3|]. by apply (post_one_event true _ (fun t => signal_request _ _ _ t)).
Qed.
End properties.

(** ** Escaping *)

Abbreviation chr := Ascii.ascii_of_nat.
Definition markdown_specials : list Ascii.ascii := [chr 95; chr 42; chr 91; chr 96].
Definition backslash : Ascii.ascii := chr 92.

(** A backslash in front of every character of [cs]. *)
Fixpoint escaped (cs : list Ascii.ascii) (text : string) : string :=
  match text with
  | EmptyString => ""
  | String c text => if bool_decide (c ∈ cs) then String backslash (String c (escaped cs text)) else String c (escaped cs text)
  end.

Lemma has_prefix_char c d text : has_prefix (String c text) (String d "") = bool_decide (c = d).
Proof.
  unfold has_prefix. cbn. destruct (Ascii.ascii_dec d c) as [->|Hne]; [|rewrite bool_decide_eq_false_2 by congruence; done].
  rewrite bool_decide_eq_true_2 by done. by destruct text.
Qed.

Lemma replaceAll_escaped cs d text : d ∉ cs -> d <> backslash ->
  replaceAll (escaped cs text) (String d "") (String backslash (String d "")) = escaped (d :: cs) text.
Proof.
  intros Hd Hb. unfold replaceAll. induction text as [|c text IH]; [done|]. cbn [escaped].
  destruct (decide (c = d)) as [->|Hne].
  - rewrite (bool_decide_eq_false_2 (d ∈ cs)) by done. rewrite (bool_decide_eq_true_2 (d ∈ d :: cs)) by (by left).
    cbn [replace_at]. rewrite has_prefix_char, bool_decide_eq_true_2 by done. cbn [String.length Nat.sub]. by rewrite IH.
  - rewrite (bool_decide_ext (c ∈ d :: cs) (c ∈ cs)) by (rewrite elem_of_cons; tauto). destruct (bool_decide (c ∈ cs)).
    + cbn [replace_at]. rewrite !has_prefix_char, !bool_decide_eq_false_2 by congruence. by rewrite IH.
    + cbn [replace_at]. rewrite has_prefix_char, bool_decide_eq_false_2 by done. by rewrite IH.
Qed.

(** The four passes over a subject are one: exactly the characters that begin Markdown get a
    backslash, one each, and nothing else changes. *)
Theorem escape_markdown_exact text : escapeMarkdown text = escaped markdown_specials text.
Proof.
  unfold escapeMarkdown, markdown_replacer. cbn [fold_left fst snd].
  assert (text = escaped [] text) as E. { induction text as [|c t IH]; [done|]. cbn. by rewrite <-IH. }
  rewrite E at 1. clear E.
  rewrite (replaceAll_escaped [] (chr 95)) by (done || by apply not_elem_of_nil).
  rewrite (replaceAll_escaped _ (chr 42)) by (vm_compute; set_solver || done).
  rewrite (replaceAll_escaped _ (chr 91)) by (vm_compute; set_solver || done).
  rewrite (replaceAll_escaped _ (chr 96)) by (vm_compute; set_solver || done).
  clear. induction text as [|c t IH]; [done|]. cbn [escaped]. rewrite IH.
  by rewrite (bool_decide_ext (c ∈ [chr 96; chr 91; chr 42; chr 95]) (c ∈ markdown_specials)) by set_solver.
Qed.

(** ** Webhook addresses *)

Definition is_ip (ip : IP) : Prop := length ip = 16 /\ Forall is_byte ip.

Lemma land_eqb_255 n b : is_byte n -> is_byte b -> (Z.land n 255 =? Z.land b 255)%Z = (b =? n)%Z.
Proof. intros Hn Hb. rewrite !land_255 by done. apply Z.eqb_sym. Qed.

Lemma land_eqb_0 n b : (Z.land n 0 =? Z.land b 0)%Z = true.
Proof. by rewrite !Z.land_0_r. Qed.

Lemma To4_Some ip ip4 : is_ip ip -> To4 ip = Some ip4 ->
  exists a b c d, ip4 = [a; b; c; d] /\ is_byte a /\ is_byte b /\ is_byte c /\ is_byte d.
Proof.
  intros [Hl Hb] E. unfold To4 in E. destruct (_ && _); [|done]. injection E as <-.
  assert (length (drop 12 ip) = 4) as Hl4 by (rewrite length_drop, Hl; done).
  apply (Forall_drop _ 12) in Hb. destruct (drop 12 ip) as [|a [|b [|c [|d [|]]]]]; try done.
  rewrite !Forall_cons in Hb. destruct Hb as (?&?&?&?&_). by exists a, b, c, d.
Qed.

(** The two filters of addresses agree: what a webhook may not reach is exactly what the
    web tools call private, for every IPv4 and IPv6 address. *)
Theorem blocked_ip_exact ip : is_ip ip -> blocked_ip ip = IsPrivateIP ip.
Proof.
  intros Hip. unfold blocked_ip, IsPrivateIP, IsPrivate, IsLinkLocalUnicast.
  destruct (IsLoopback ip); [done|]. cbn [orb].
  destruct (IsLinkLocalMulticast ip); [by rewrite ?orb_true_r, ?orb_true_l|].
  destruct (IsUnspecified ip); [rewrite !orb_true_r; by destruct (_ || false)|].
  rewrite !orb_false_r. pose proof Hip as [Hl _].
  destruct (To4 ip) as [ip4|] eqn:E4.
  - destruct (To4_Some ip ip4 Hip E4) as (a & b & c & d & -> & Ha & Hb & Hc & Hd).
    assert ((Z.land (byte ip 0) 254 =? 252)%Z = false) as ->.
    { unfold To4 in E4. destruct (_ && _) eqn:Ep; [|done]. apply andb_true_iff in Ep as [_ Ep].
      apply bool_decide_eq_true in Ep. destruct ip as [|x ip]; [done|]. injection Ep as -> _. done. }
    rewrite andb_false_r. unfold privateRanges, cidr_Contains. rewrite E4. cbn [default existsb length id].
    rewrite !bool_decide_eq_true_2 by done. cbn [andb zip zip_with forallb byte nth id].
    rewrite !land_eqb_0, !land_eqb_255 by (done || (unfold is_byte; lia)). change (Z.land 16 240) with 16%Z. rewrite (Z.eqb_sym (Z.land 16 240)).
    change (Z.land 16 240) with 16%Z. rewrite !andb_true_r, !orb_false_r.
    destruct (a =? 169)%Z, (b =? 254)%Z, (a =? 10)%Z, (a =? 172)%Z, (a =? 192)%Z, (b =? 168)%Z, (Z.land b 240 =? 16)%Z; done.
  - unfold privateRanges, cidr_Contains. rewrite E4. cbn [default existsb id].
    rewrite (bool_decide_eq_true_2 (length ip = 16)) by done. rewrite Hl. cbn [length].
    rewrite !(bool_decide_eq_false_2 (16 = 4)) by done. cbn [andb orb].
    destruct (byte ip 0 =? 254)%Z, (Z.land (byte ip 1) 192 =? 128)%Z, (Z.land (byte ip 0) 254 =? 252)%Z; done.
Qed.

Section webhook.
Context {W : Type} `{!ErrorText} `{!Render} `{!HttpClient W} `{!SenderNet W}.
Implicit Types (s : Wire W) (ch : NotificationChannel) (msg : Message).

Lemma check_addresses_None (ips : list string) : check_addresses (W := W) ips = None ->
  Forall (fun i => forall ip, net_ParseIP (W := W) i = Some ip -> blocked_ip ip = false) ips.
Proof.
  induction ips as [|i ips IH]; [by constructor|]. cbn [check_addresses].
  destruct (net_ParseIP i) as [ip|] eqn:E; [destruct (blocked_ip ip) eqn:Eb; [done|]|];
    intros Hc; constructor; try (by apply IH); congruence.
Qed.

Lemma validate_spec url s :
  (wi_events (validateWebhookURL url s).2 = wi_events s) /\
  ((validateWebhookURL url s).1 = None -> exists u ips w,
     url_Parse (W := W) url = Ok u /\ (u_Scheme u = "http" \/ u_Scheme u = "https") /\
     slice_contains loopback_names (to_lower (u_Hostname u)) = false /\
     net_LookupHost (u_Hostname u) (wi_world s) = (Ok ips, w) /\
     Forall (fun i => forall ip, net_ParseIP (W := W) i = Some ip -> blocked_ip ip = false) ips).
Proof.
  unfold validateWebhookURL. destruct (url_Parse url) as [u|e]; [|done].
  destruct (negb _ && negb _) eqn:Es; [done|]. destruct (slice_contains _ _) eqn:El; [done|].
  rewrite st_bind_run. unfold lookup_host. destruct (net_LookupHost _ _) as [[ips|e] w] eqn:En; [|done].
  cbv [mret st_ret]. cbn [fst snd wi_events]. split; [done|]. intros Hc%check_addresses_None.
  exists u, ips, w. split_and!; [done| |done..].
  destruct (String.eqb_spec (u_Scheme u) "http"); [by left|]. destruct (String.eqb_spec (u_Scheme u) "https"); [by right|done].
Qed.

(** C20: A webhook goes to public hosts only, as far as the check can see: there is at most one
    request, a POST to the URL of the channel by a client that follows no redirect, and only
    after the URL was found to be HTTP, its host no name of the loopback interface, and every
    address its name resolved to at that moment public.  A success means it was sent. *)
Theorem webhook_checked ch msg s :
  let '(r, s') := webhook_Send ch msg s in
  (r <> None /\ wi_events s' = wi_events s) \/
  exists u ips w,
    url_Parse (W := W) (config ch "url") = Ok u /\ (u_Scheme u = "http" \/ u_Scheme u = "https") /\
    slice_contains loopback_names (to_lower (u_Hostname u)) = false /\
    net_LookupHost (u_Hostname u) (wi_world s) = (Ok ips, w) /\
    Forall (fun i => forall ip, net_ParseIP (W := W) i = Some ip -> blocked_ip ip = false) ips /\
    wi_events s' = wi_events s ++ [WPost false (10 * Second)%Z (webhook_request (W := W) (config ch "url") ch msg)].
Proof.
  unfold webhook_Send. destruct (String.eqb _ _); [by left|]. rewrite st_bind_run.
  destruct (validate_spec (config ch "url") s) as [He Hv]. destruct (validateWebhookURL _ s) as [[e|] s1]; cbn [fst snd] in *.
  { left. by cbv [mret st_ret]. }
  unfold post. cbn [hq_URL webhook_request]. destruct (http_BadRequest _ _); [left; by cbv [mret st_ret]|].
  destruct (Hv eq_refl) as (u & ips & w & Hu). rewrite st_bind_run. unfold do_post. destruct (http_Post _ _ _ _) as [r w'].
  right. exists u, ips, w. destruct Hu as (?&?&?&?&?). split_and!; [done..|]. cbn. by rewrite He.
Qed.
End webhook.

(** ** E-mail *)

Definition cr : Ascii.ascii := chr 13.
Fixpoint lacks (d : Ascii.ascii) (s : string) : bool :=
  match s with EmptyString => true | String c s => negb (Ascii.eqb c d) && lacks d s end.

Lemma lacks_app d a b : lacks d (a +:+ b) = lacks d a && lacks d b.
Proof. induction a as [|c a IH]; [done|]. change (lacks d (String c (a +:+ b)) = lacks d (String c a) && lacks d b). cbn. by rewrite IH, andb_assoc. Qed.

Lemma cut_first d sep line rest : lacks d line = true ->
  cut (line +:+ (String d sep +:+ rest)) (String d sep) = Some (line, rest).
Proof.
  induction line as [|c line IH]; [intros _; exact (cut_now (String d sep) rest)|]. cbn [lacks].
  intros [Hc Hl]%andb_true_iff. apply negb_true_iff, Ascii.eqb_neq in Hc.
  change (String c line +:+ (String d sep +:+ rest)) with (String c (line +:+ (String d sep +:+ rest))). cbn [cut].
  assert (String.prefix (String d sep) (String c (line +:+ (String d sep +:+ rest))) = false) as ->.
  { cbn [String.prefix]. by destruct (Ascii.ascii_dec d c). }
  by rewrite IH.
Qed.

(** How a mail is read: lines up to the first empty one, each a name, a colon and a value;
    the rest is the body. *)
Fixpoint read_mail (lines : nat) (text : string) : option (list (string * string) * string) :=
  match lines with
  | O => None
  | S lines =>
      match cut text crlf with
      | Some (line, rest) =>
          if String.eqb line "" then Some ([], rest)
          else match cut line ": " with
               | Some h => (fun r => (h :: r.1, r.2)) <$> read_mail lines rest
               | None => None
               end
      | None => None
      end
  end.

Definition header_names : list string := ["From"; "To"; "Subject"; "MIME-Version"; "Content-Type"].

Lemma header_name_lacks name : name ∈ header_names -> lacks cr name = true /\ lacks (chr 58) name = true /\ name <> "".
Proof. unfold header_names. rewrite !elem_of_cons, elem_of_nil. by intros [->|[->|[->|[->|[->|[]]]]]]. Qed.

Lemma read_header lines start name value rest : lacks cr value = true -> name ∈ header_names -> start = name +:+ ": " ->
  read_mail (S lines) (start +:+ (value +:+ (crlf +:+ rest))) =
  (fun r => ((name, value) :: r.1, r.2)) <$> read_mail lines rest.
Proof.
  intros Hv (Hn & Hc & Hne)%header_name_lacks ->. cbn [read_mail].
  assert ((name +:+ ": ") +:+ (value +:+ (crlf +:+ rest)) = (name +:+ (": " +:+ value)) +:+ (crlf +:+ rest)) as ->
    by (by rewrite !str_app_assoc).
  change crlf with (String cr newline). rewrite (cut_first cr) by (by rewrite !lacks_app, Hn, Hv).
  destruct (String.eqb_spec (name +:+ (": " +:+ value)) "") as [E|]; [by destruct name|].
  assert (cut (name +:+ (": " +:+ value)) ": " = Some (name, value)) as -> by exact (cut_first (chr 58) " " name value Hc).
  done.
Qed.

(** A mail says what it should: when no header holds a line break, the mail is read back as
    the five headers with the values given and the text as its body, whatever the text is. *)
Theorem email_roundtrip from to subject text :
  lacks cr from = true -> lacks cr (String.concat ", " to) = true -> lacks cr subject = true ->
  read_mail 6 (buildEmailBody from to subject text) =
  Some ([("From", from); ("To", String.concat ", " to); ("Subject", subject); ("MIME-Version", "1.0");
         ("Content-Type", "text/plain; charset=" +:+ header_quote +:+ "utf-8" +:+ header_quote)], text).
Proof.
  intros Hf Ht Hs. unfold buildEmailBody. set (content := "text/plain; charset=" +:+ _).
  assert (forall rest, "Content-Type: text/plain; charset=" +:+ (header_quote +:+ ("utf-8" +:+ (header_quote +:+ rest))) =
    "Content-Type: " +:+ (content +:+ rest)) as ->. { intros rest. unfold content. by rewrite !str_app_assoc. }
  change ("MIME-Version: 1.0" +:+ ?x) with ("MIME-Version: " +:+ ("1.0" +:+ x)).
  rewrite (read_header 5 "From: " "From"), (read_header 4 "To: " "To"), (read_header 3 "Subject: " "Subject"),
    (read_header 2 "MIME-Version: " "MIME-Version" "1.0"), (read_header 1 "Content-Type: " "Content-Type" content)
    by (done || (unfold header_names; set_solver)).
  cbn [read_mail]. assert (cut (crlf +:+ text) crlf = Some ("", text)) as -> by apply cut_now. done.
Qed.

(** ** Examples *)

(** A subject with a line break adds a header to the mail. *)
Example email_header_injected :
  read_mail 7 (buildEmailBody "akili@x" ["ops@x"] ("Down" +:+ (crlf +:+ "Reply-To: evil@y")) "text") =
  Some ([("From", "akili@x"); ("To", "ops@x"); ("Subject", "Down"); ("Reply-To", "evil@y"); ("MIME-Version", "1.0");
         ("Content-Type", "text/plain; charset=" +:+ header_quote +:+ "utf-8" +:+ header_quote)], "text").
Proof. vm_compute. reflexivity. Qed.

Definition mail_subject_ex : string := "[Akili Alert] api - down".

Example email_roundtrip_witness :
  lacks cr mail_subject_ex = true /\
  read_mail 6 (buildEmailBody "akili@x" ["ops@x"; "me@x"] mail_subject_ex ("a" +:+ (crlf +:+ "b: c"))) =
  Some ([("From", "akili@x"); ("To", "ops@x, me@x"); ("Subject", mail_subject_ex); ("MIME-Version", "1.0");
         ("Content-Type", "text/plain; charset=" +:+ header_quote +:+ "utf-8" +:+ header_quote)], "a" +:+ (crlf +:+ "b: c")).
Proof. split; [reflexivity|]. exact (email_roundtrip "akili@x" ["ops@x"; "me@x"] mail_subject_ex _ eq_refl eq_refl eq_refl). Defined.

(** 172.20.0.1, mapped into IPv6. *)
Definition private_ip_ex : IP := (replicate 10 0 ++ [255; 255; 172; 20; 0; 1])%Z.

Example blocked_ip_exact_witness : is_ip private_ip_ex /\ blocked_ip private_ip_ex = IsPrivateIP private_ip_ex.
Proof. 
  assert (is_ip private_ip_ex) as H by (split; [done|]; unfold private_ip_ex; repeat (constructor; [unfold is_byte; lia|]); constructor).
  split; [exact H|]. exact (blocked_ip_exact private_ip_ex H).
Defined.

Section examples.
#[local] Instance wire_errors : ErrorText := { error_Error _ := "e" }.
#[local] Instance wire_render : Render := { itoa z := if (z =? 1)%Z then "1" else if (z =? 2)%Z then "2" else "n"; uuid_String _ := "id" }.
#[local] Instance wire_http : HttpClient unit := {
  url_Parse s := Ok (mkURL "https" "hooks.example.com" s);
  url_Resolve u _ := Ok u;
  net_ParseIP _ := None;
  net_LookupHost _ w := (Ok ["93.184.216.34"], w);
  http_BadRequest _ _ := None;
  http_RoundTrip _ _ _ w := (Ok (mkHttpResponse 200 "" "" "" None), w);
}.
#[local] Instance wire_net : SenderNet unit := {
  json_Marshal _ := "{}";
  http_Post _ _ _ w := (Ok (mkHttpResponse 200 "" "" "" None), w);
  smtp_Do _ w := (None, w);
  smtp_SendMail _ w := (None, w);
}.
#[local] Instance wire_env : Environment unit := { os_Getenv _ _ := "" }.
#[local] Instance wire_slack : Decode SlackResponse := { json_unmarshal _ := Ok (mkSlackResponse true "") }.

Definition chat_channel_ex : NotificationChannel :=
  mkChannel 1%N 1%N "ops" "telegram" (list_to_map [("chat_id", "42"); ("recipient", "+1"); ("phone_number_id", "7")]) "" true 0%Z 0%Z.
Definition chat_message_ex : Message := mkMessage "disk_full" "free space" [("type", "manual")].

Example chat_messages_delivered_witness :
  config chat_channel_ex "chat_id" <> "" /\
  (let '(r, s') := telegram_Send (W := unit) "T" chat_channel_ex chat_message_ex (mkWire tt []) in
   delivers (fun t => WPost true (15 * Second)%Z (telegram_request (W := unit) "T" (config chat_channel_ex "chat_id") t))
     (telegram_text chat_message_ex) 4000 r (mkWire tt []) s').
Proof.
  split; [by vm_compute|].
  exact (proj1 (chat_messages_delivered (W := unit) "T" (NewSignalSender "http://s" "+2") chat_channel_ex chat_message_ex (mkWire tt [])
    ltac:(by vm_compute) ltac:(by vm_compute) ltac:(by vm_compute) ltac:(done) eq_refl (fun _ => eq_refl))).
Defined.

(** The header of a part comes on top of the limit its chunk was cut to. *)
Example part_over_limit :
  let text := String.concat "" (replicate 4097 "a") in
  match splitMessage text whatsapp_limit with
  | Some cs => map String.length (parts (length cs) 0 cs) = [4107; 12]
  | None => False
  end.
Proof. vm_compute. reflexivity. Qed.
End examples.
