(* ===== verification/Settings.v ===== *)
(** * The configuration file

    [src/internal/config/config.go]: every section of the file with the defaults of its
    settings, the variables of the environment that override it, and its validation.  The
    sections of the websocket gateway and of the polling services are in [Config].  A
    section that is a pointer is an [option]; amounts are binary64; the parsers of JSON and
    YAML, the environment, the home and the working directory are parameters. *)

From S2P Require Import Prelude Text Config FileSystem SkillLoader.

(** ** Storage, optimisations and observability *)

Record SQLiteStorageConfig := mkSQLiteStorage { sq_Path : string; sq_JournalMode : string }.
Record PostgresStorageConfig := mkPostgresStorage {
  pc_DSN : string; pc_MaxOpenConns : Z; pc_MaxIdleConns : Z; pc_ConnMaxLifetimeS : Z; pc_DefaultOrgName : string }.
Record StorageConfig := mkStorage {
  sg_Driver : string; sg_SQLite : option SQLiteStorageConfig; sg_Postgres : option PostgresStorageConfig }.

Definition StorageDriver : option StorageConfig -> string := section_or (fun s => or_text (sg_Driver s) "sqlite") "sqlite".

Record EmbeddedAgentConfig := mkEmbeddedAgent { ea_Enabled : bool; ea_Fallback : bool }.
Record SoulConfig := mkSoulSection {
  so_Enabled : bool; so_ReflectionIntervalMins : Z; so_MaxPatternsPerCategory : Z; so_MaxReflections : Z; so_MaxStrategies : Z }.

Record OptimizationConfig := mkOptimization {
  op_LazyToolLoading : bool; op_MaxRunbookMatches : Z; op_RunbookMatchThreshold : f64; op_SkillSummaryMode : string }.

Definition MaxRunbookMatchesOrDefault : option OptimizationConfig -> Z :=
  section_or (fun o => positive_or (op_MaxRunbookMatches o) 2) 2%Z.
Definition positive_num (x d : f64) : f64 := if nltb (nofZ 0) x then x else d.
Definition RunbookThresholdOrDefault : option OptimizationConfig -> f64 :=
  section_or (fun o => positive_num (op_RunbookMatchThreshold o) (nlit 5 100)) (nlit 5 100).
Definition SkillSummaryModeOrDefault : option OptimizationConfig -> string :=
  section_or (fun o => or_text (op_SkillSummaryMode o) "full") "full".

Record MetricsConfig := mkMetricsSection { me_Enabled : bool; me_Path : string }.
Record TracingConfig := mkTracingSection {
  tc_Enabled : bool; tc_Endpoint : string; tc_Protocol : string; tc_ServiceName : string; tc_SampleRate : f64; tc_Insecure : bool }.
Record HealthConfig := mkHealthSection { hc_IncludeDB : bool; hc_IncludeSandbox : bool }.
Record AnomalySection := mkAnomalySection {
  as_Enabled : bool; as_ErrorRateThreshold : f64; as_BudgetSpikeMultiplier : f64; as_WindowSeconds : Z }.
Record ObservabilitySection := mkObservabilitySection {
  os_Metrics : option MetricsConfig; os_Tracing : option TracingConfig; os_Health : option HealthConfig; os_Anomaly : option AnomalySection }.

(** ** Workflows, agents and background services *)

Record RecoveryConfig := mkRecoverySection {
  re_Enabled : bool; re_MaxRetries : Z; re_MaxRecoveryDepth : Z; re_RecoveryBudgetPct : f64;
  re_AllowedTools : list string; re_AllowRetry : bool; re_EscalateOnFailure : bool }.

Definition recovery_MaxRetries : option RecoveryConfig -> Z := section_or (fun r => positive_or (re_MaxRetries r) 2) 2%Z.
Definition recovery_MaxDepth : option RecoveryConfig -> Z := section_or (fun r => positive_or (re_MaxRecoveryDepth r) 1) 1%Z.
Definition recovery_BudgetPct : option RecoveryConfig -> f64 :=
  section_or (fun r => positive_num (re_RecoveryBudgetPct r) (nlit 25 100)) (nlit 25 100).

Record OrchestratorConfig := mkOrchestratorSection {
  oc_Enabled : bool; oc_DefaultBudgetUSD : f64; oc_DefaultMaxDepth : Z; oc_DefaultMaxTasks : Z; oc_MaxConcurrentTasks : Z;
  oc_TaskTimeoutSeconds : Z; oc_SkillsDir : string; oc_SkillsDirs : list string; oc_SkillPollIntervalSeconds : Z;
  oc_CommunityPacksDirs : list string; oc_PlanningEnabled : bool; oc_Recovery : option RecoveryConfig }.

(** Zero means that the skills are loaded once. *)
Definition SkillPollInterval : option OrchestratorConfig -> Duration :=
  section_or (fun o => seconds_or (oc_SkillPollIntervalSeconds o) 0%Z) 0%Z.
Definition AllSkillsDirs : option OrchestratorConfig -> list string :=
  section_or (fun o => (if String.eqb (oc_SkillsDir o) "" then [] else [oc_SkillsDir o]) ++ oc_SkillsDirs o) [].

Record AgentConfig := mkAgentSection {
  ag_AgentID : string; ag_GatewayURL : string; ag_Token : string; ag_Roles : list string; ag_PollIntervalSeconds : Z;
  ag_MaxConcurrentTasks : Z; ag_TaskTimeoutSeconds : Z; ag_HeartbeatIntervalSeconds : Z; ag_ReconnectIntervalSeconds : Z;
  ag_StaleClaimSeconds : Z; ag_Name : string; ag_Version : string; ag_Capabilities : list string;
  ag_EnvironmentScope : string; ag_KeyFile : string }.

Definition agent_seconds (f : AgentConfig -> Z) (d : Duration) : option AgentConfig -> Duration :=
  section_or (fun a => seconds_or (f a) d) d.
Definition agent_ReconnectInterval := agent_seconds ag_ReconnectIntervalSeconds (5 * Second)%Z.
Definition UseWebSocket : option AgentConfig -> bool := section_or (fun a => negb (String.eqb (ag_GatewayURL a) "")) false.
Definition agent_PollInterval := agent_seconds ag_PollIntervalSeconds (2 * Second)%Z.
Definition agent_Concurrency : option AgentConfig -> Z := section_or (fun a => positive_or (ag_MaxConcurrentTasks a) 5) 5%Z.
Definition agent_TaskTimeout := agent_seconds ag_TaskTimeoutSeconds (5 * Minute)%Z.
Definition agent_HeartbeatInterval := agent_seconds ag_HeartbeatIntervalSeconds (30 * Second)%Z.
Definition agent_StaleClaim := agent_seconds ag_StaleClaimSeconds (2 * Minute)%Z.

Record RuntimeConfig := mkRuntime { rt_Mode : string; rt_Agent : option AgentConfig }.

Record MemoryConfig := mkMemory {
  mc_Enabled : bool; mc_MaxHistoryMessages : Z; mc_MaxMessageBytes : Z; mc_SummarizeOnTruncate : bool }.
Definition MaxHistory : option MemoryConfig -> Z := section_or (fun m => positive_or (mc_MaxHistoryMessages m) 100) 100%Z.
Definition MaxMsgBytes : option MemoryConfig -> Z := section_or (fun m => positive_or (mc_MaxMessageBytes m) 32768) 32768%Z.

Record InfrastructureConfig := mkInfrastructure { if_Enabled : bool }.
Record SecretProviderConfig := mkSecretProviderConfig { sp_Type : string; sp_Config : gmap string string }.
Record SecretsConfig := mkSecrets { sc_Providers : list SecretProviderConfig }.

Record EmailConfig := mkEmail { em_Host : string; em_Port : Z; em_Username : string; em_From : string; em_TLS : bool }.
Record WhatsAppConfig := mkWhatsApp { wa_AccessToken : string }.
Record SignalConfig := mkSignal { sn_APIURL : string; sn_SenderNumber : string }.
Record NotificationConfig := mkNotification {
  no_Enabled : bool; no_Email : option EmailConfig; no_WhatsApp : option WhatsAppConfig; no_Signal : option SignalConfig }.

Record AlertingConfig := mkAlerting {
  al_Enabled : bool; al_PollIntervalSeconds : Z; al_MaxConcurrentChecks : Z; al_DefaultCooldownS : Z }.
Definition AlertPollInterval : option AlertingConfig -> Duration :=
  section_or (fun a => seconds_or (al_PollIntervalSeconds a) (30 * Second)%Z) (30 * Second)%Z.
Definition AlertMaxConcurrent : option AlertingConfig -> Z := section_or (fun a => positive_or (al_MaxConcurrentChecks a) 10) 10%Z.
Definition AlertDefaultCooldown : option AlertingConfig -> Z := section_or (fun a => positive_or (al_DefaultCooldownS a) 300) 300%Z.

(** ** Policies, roles, sandbox and tools *)

Record PolicyConfig := mkPolicyConfig {
  pl_Name : string; pl_AllowedTools : list string; pl_DeniedTools : list string; pl_AllowedPaths : list string;
  pl_DeniedPaths : list string; pl_AllowedDomains : list string; pl_DeniedDomains : list string;
  pl_AllowedCommands : list string; pl_DeniedCommands : list string; pl_MaxRiskLevel : string;
  pl_RequireApproval : list string; pl_AllowedSkills : list string; pl_DeniedSkills : list string }.
Record PoliciesConfig := mkPolicies { pl_Policies : list PolicyConfig; pl_Bindings : gmap string string }.

Record RoleConfig := mkRoleConfig { ro_Permissions : list string; ro_MaxRiskLevel : string; ro_RequireApproval : list string }.
Record SecurityConfig := mkSecurity {
  se_DefaultPermissions : list string; se_RequireApproval : list string; se_AuditLogPath : string;
  se_Roles : gmap string RoleConfig; se_UserRoles : gmap string string; se_DefaultRole : string }.
Record BudgetConfig := mkBudget { bu_DefaultLimitUSD : f64 }.

Record DockerSandboxConfig := mkDockerSection { dk_Image : string; dk_CPUCores : f64; dk_PIDsLimit : Z }.
Record SandboxConfig := mkSandbox {
  sb_Type : string; sb_MaxCPUCores : Z; sb_MaxMemoryMB : Z; sb_MaxExecutionSeconds : Z; sb_NetworkAllowed : bool;
  sb_Docker : DockerSandboxConfig }.

Record BrowserToolConfig := mkBrowserTool {
  br_AllowedDomains : list string; br_MaxResponseBytes : Z; br_TimeoutSeconds : Z; br_MaxNavigationsPerCall : Z }.
Record MCPServerConfig := mkMCPServer {
  mp_Name : string; mp_Transport : string; mp_Command : string; mp_Args : list string; mp_Env : gmap string string;
  mp_URL : string; mp_Headers : gmap string string; mp_Permission : string; mp_RiskLevel : string }.
Record FileToolConfig := mkFileTool { fi_AllowedPaths : list string; fi_MaxFileSizeBytes : Z }.
Record WebToolConfig := mkWebTool { we_AllowedDomains : list string; we_MaxResponseBytes : Z; we_TimeoutSeconds : Z }.
Record CodeToolConfig := mkCodeTool { co_AllowedLanguages : list string }.
Record DatabaseToolConfig := mkDatabaseTool { dt_DSN : string; dt_MaxRows : Z; dt_TimeoutSeconds : Z }.
Record GitToolConfig := mkGitTool { gi_AllowedPaths : list string }.
Record ToolsConfig := mkTools {
  to_File : FileToolConfig; to_Web : WebToolConfig; to_Browser : BrowserToolConfig; to_Code : CodeToolConfig;
  to_Database : DatabaseToolConfig; to_Git : GitToolConfig; to_MCP : list MCPServerConfig }.

(** ** Gateways, approvals and providers *)

Record RateLimitConfig := mkRateLimit { ra_RequestsPerMinute : Z; ra_BurstSize : Z }.
Record CLIGatewayConfig := mkCLIGateway { cl_Enabled : bool; cl_UserID : string }.
Record HTTPGatewayConfig := mkHTTPGateway {
  ht_Enabled : bool; ht_EnableDocs : bool; ht_ListenAddr : string; ht_MaxRequestSizeBytes : Z;
  ht_APIKeyUserMapping : gmap string string; ht_RateLimit : RateLimitConfig; ht_SSE : bool }.
Record SlackGatewayConfig := mkSlackGateway {
  sl_Enabled : bool; sl_SigningSecret : string; sl_BotToken : string; sl_ListenAddr : string;
  sl_UserMapping : gmap string string; sl_DefaultUserRole : string; sl_ApprovalChannel : string; sl_RateLimit : RateLimitConfig }.
Record TelegramGatewayConfig := mkTelegramGateway {
  tg_Enabled : bool; tg_BotToken : string; tg_WebhookURL : string; tg_ListenAddr : string; tg_AllowedUsers : list Z;
  tg_UserMapping : gmap string string; tg_PollTimeoutSeconds : Z; tg_RateLimit : RateLimitConfig }.
Record SignalGatewayConfig := mkSignalGateway {
  si_Enabled : bool; si_APIURL : string; si_SenderNumber : string; si_AllowedUsers : list string;
  si_UserMapping : gmap string string; si_PollIntervalSeconds : Z; si_RateLimit : RateLimitConfig }.
Record GatewaysConfig := mkGateways {
  gw_CLI : option CLIGatewayConfig; gw_HTTP : option HTTPGatewayConfig; gw_Slack : option SlackGatewayConfig;
  gw_Telegram : option TelegramGatewayConfig; gw_Signal : option SignalGatewayConfig;
  gw_WebSocket : option WebSocketGatewayConfig }.

Record AutoApprovalConfig := mkAutoApprovalSection {
  aa_Enabled : bool; aa_MaxAutoApprovals : Z; aa_AllowedTools : list string; aa_RequiredApprovals : Z; aa_WindowHours : Z }.
Record ApprovalConfig := mkApproval { ap_TTLSeconds : Z; ap_AutoApproval : option AutoApprovalConfig }.

Record AnthropicConfig := mkAnthropic { an_APIKey : string; an_Model : string }.
Record OpenAIConfig := mkOpenAI { oa_APIKey : string; oa_Model : string; oa_BaseURL : string }.
Record GeminiConfig := mkGemini { ge_APIKey : string; ge_Model : string; ge_BaseURL : string }.
Record OllamaConfig := mkOllama { ol_Model : string; ol_BaseURL : string }.
Record ProvidersConfig := mkProviders {
  pr_Default : string; pr_Fallback : list string; pr_Anthropic : AnthropicConfig; pr_OpenAI : OpenAIConfig;
  pr_Gemini : GeminiConfig; pr_Ollama : OllamaConfig }.

(** ** The whole configuration *)

Record Config := mkConfiguration {
  c_Workspace : string; c_DataDir : string; c_AutonomousMode : bool; c_Storage : option StorageConfig;
  c_Security : SecurityConfig; c_Budget : BudgetConfig; c_Sandbox : SandboxConfig; c_Tools : ToolsConfig;
  c_Gateways : GatewaysConfig; c_Approval : ApprovalConfig; c_Providers : ProvidersConfig;
  c_Observability : option ObservabilitySection; c_Orchestrator : option OrchestratorConfig;
  c_Runtime : option RuntimeConfig; c_Scheduler : option SchedulerConfig; c_Memory : option MemoryConfig;
  c_Infrastructure : option InfrastructureConfig; c_Secrets : option SecretsConfig;
  c_Notification : option NotificationConfig; c_Alerting : option AlertingConfig;
  c_HeartbeatTasks : option HeartbeatTasksConfig; c_Policies : option PoliciesConfig;
  c_EmbeddedAgent : option EmbeddedAgentConfig; c_Soul : option SoulConfig; c_Optimization : option OptimizationConfig }.

Definition Mode (c : Config) : string := section_or (fun r => or_text (rt_Mode r) "gateway") "gateway" (c_Runtime c).
Definition StorageDriverName (c : Config) : string := StorageDriver (c_Storage c).
Definition HasDatabase (c : Config) : bool := true.

(** ** Validation *)

(** The first error of a list of checks in order. *)
Fixpoint first_err (l : list (option error)) : option error :=
  match l with [] => None | Some e :: _ => Some e | None :: l => first_err l end.
Definition refuse (bad : bool) (msg : string) : option error := if bad then Some (Errorf msg) else None.

Definition validateProvider (p : ProvidersConfig) : option error :=
  if String.eqb (pr_Default p) "anthropic" then
    first_err [refuse (String.eqb (an_Model (pr_Anthropic p)) "") "providers.anthropic.model is required";
               refuse (String.eqb (an_APIKey (pr_Anthropic p)) "") "providers.anthropic.api_key is required (set ANTHROPIC_API_KEY env var)"]
  else if String.eqb (pr_Default p) "openai" then
    first_err [refuse (String.eqb (oa_Model (pr_OpenAI p)) "") "providers.openai.model is required";
               refuse (String.eqb (oa_APIKey (pr_OpenAI p)) "") "providers.openai.api_key is required (set OPENAI_API_KEY env var)"]
  else if String.eqb (pr_Default p) "gemini" then
    first_err [refuse (String.eqb (ge_Model (pr_Gemini p)) "") "providers.gemini.model is required";
               refuse (String.eqb (ge_APIKey (pr_Gemini p)) "") "providers.gemini.api_key is required (set GEMINI_API_KEY env var)"]
  else if String.eqb (pr_Default p) "ollama" then
    refuse (String.eqb (ol_Model (pr_Ollama p)) "") "providers.ollama.model is required"
  else Some (Errorf "providers.default is not supported (use anthropic, openai, gemini, or ollama)").

Definition on {C} (enabled : C -> bool) (c : option C) : bool := match c with Some c => enabled c | None => false end.
Definition orchestrator_on (c : Config) : bool := on oc_Enabled (c_Orchestrator c).
Definition notification_on (c : Config) : bool := on no_Enabled (c_Notification c).

Definition validateRoles (s : SecurityConfig) : option error :=
  first_err
    [refuse (negb (String.eqb (se_DefaultRole s) "") && negb (bool_decide (is_Some (se_Roles s !! se_DefaultRole s))))
       "security.default_role not found in roles";
     refuse (negb (bool_decide (map_Forall (fun _ r => ro_MaxRiskLevel r <> "") (se_Roles s)))) "security.roles.max_risk_level is required"].

(** The mode [agent] needs a gateway to connect to, or the workflow engine. *)
Definition validateRuntime (c : Config) : option error :=
  match c_Runtime c with
  | Some r =>
      if String.eqb (rt_Mode r) "agent" then
        if UseWebSocket (rt_Agent r)
        then refuse (section_or (fun a => String.eqb (ag_GatewayURL a) "") false (rt_Agent r))
               "runtime.agent.gateway_url is required for WebSocket agent mode"
        else refuse (negb (orchestrator_on c)) "runtime.mode=agent requires orchestrator to be enabled"
      else None
  | None => None
  end.

Definition validateStorage (s : option StorageConfig) : option error :=
  match s with
  | Some s => refuse (negb (slice_contains [""; "sqlite"; "postgres"] (sg_Driver s))) "storage.driver is not supported (use sqlite or postgres)"
  | None => None
  end.

Definition validateServer (mcpNames : list string) (srv : MCPServerConfig) : option error :=
  first_err
    [refuse (String.eqb (mp_Name srv) "") "tools.mcp.name is required";
     refuse (slice_contains mcpNames (mp_Name srv)) "tools.mcp: duplicate server name";
     if String.eqb (mp_Transport srv) "stdio"
     then refuse (String.eqb (mp_Command srv) "") "tools.mcp: command is required for stdio transport"
     else if slice_contains ["sse"; "streamable_http"] (mp_Transport srv)
     then refuse (String.eqb (mp_URL srv) "") "tools.mcp: url is required for this transport"
     else Some (Errorf "tools.mcp: transport must be stdio, sse, or streamable_http")].
Fixpoint validateServers (mcpNames : list string) (l : list MCPServerConfig) : option error :=
  match l with
  | [] => None
  | srv :: l =>
      match validateServer mcpNames srv with
      | Some e => Some e
      | None => validateServers (mp_Name srv :: mcpNames) l
      end
  end.

Definition checks (c : Config) : list (option error) :=
  [validateProvider (c_Providers c);
   refuse (nleb (bu_DefaultLimitUSD (c_Budget c)) (nofZ 0)) "budget.default_limit_usd must be positive";
   validateRoles (c_Security c);
   refuse (sb_MaxMemoryMB (c_Sandbox c) <? 0)%Z "sandbox.max_memory_mb must not be negative";
   refuse (sb_MaxExecutionSeconds (c_Sandbox c) <? 0)%Z "sandbox.max_execution_seconds must not be negative";
   validateRuntime c;
   validateStorage (c_Storage c);
   refuse (on scc_Enabled (c_Scheduler c) && negb (orchestrator_on c)) "scheduler requires orchestrator to be enabled";
   refuse (on al_Enabled (c_Alerting c) && negb (notification_on c)) "alerting requires notification to be enabled";
   refuse (on (fun h => htc_Enabled h && bool_decide (htc_TasksDirs h = [])) (c_HeartbeatTasks c))
     "heartbeat_tasks.tasks_dirs must contain at least one directory when enabled";
   validateServers [] (to_MCP (c_Tools c))].

Definition with_default_provider (p : ProvidersConfig) : ProvidersConfig :=
  mkProviders (or_text (pr_Default p) "anthropic") (pr_Fallback p) (pr_Anthropic p) (pr_OpenAI p) (pr_Gemini p) (pr_Ollama p).

(** The configuration with other values for what loading changes. *)
Definition changed (c : Config) (workspace dataDir : string) (autonomous : bool) (gateways : GatewaysConfig)
    (providers : ProvidersConfig) (notification : option NotificationConfig) : Config :=
  mkConfiguration workspace dataDir autonomous (c_Storage c) (c_Security c) (c_Budget c) (c_Sandbox c) (c_Tools c) gateways
    (c_Approval c) providers (c_Observability c) (c_Orchestrator c) (c_Runtime c) (c_Scheduler c) (c_Memory c)
    (c_Infrastructure c) (c_Secrets c) notification (c_Alerting c) (c_HeartbeatTasks c) (c_Policies c) (c_EmbeddedAgent c)
    (c_Soul c) (c_Optimization c).

(** [validate] fills in the default provider first. *)
Definition validate (c : Config) : result error Config :=
  let c := changed c (c_Workspace c) (c_DataDir c) (c_AutonomousMode c) (c_Gateways c) (with_default_provider (c_Providers c))
             (c_Notification c) in
  match first_err (checks c) with Some e => Err e | None => Ok c end.

(** ** Loading *)

(** A variable of the environment that is not empty sets a field of a section, which is made
    when it is not there. *)
Definition override {A} (value : string) (set : string -> A -> A) (zero : A) (section : option A) : option A :=
  if String.eqb value "" then section else Some (set value (default zero section)).

Definition no_rate : RateLimitConfig := mkRateLimit 0 0.
Definition no_slack : SlackGatewayConfig := mkSlackGateway false "" "" "" ∅ "" "" no_rate.
Definition no_telegram : TelegramGatewayConfig := mkTelegramGateway false "" "" "" [] ∅ 0 no_rate.
Definition no_signal : SignalGatewayConfig := mkSignalGateway false "" "" [] ∅ 0 no_rate.
Definition no_notification : NotificationConfig := mkNotification false None None None.

Definition set_signing v s := mkSlackGateway (sl_Enabled s) v (sl_BotToken s) (sl_ListenAddr s) (sl_UserMapping s)
  (sl_DefaultUserRole s) (sl_ApprovalChannel s) (sl_RateLimit s).
Definition set_slack_token v s := mkSlackGateway (sl_Enabled s) (sl_SigningSecret s) v (sl_ListenAddr s) (sl_UserMapping s)
  (sl_DefaultUserRole s) (sl_ApprovalChannel s) (sl_RateLimit s).
Definition set_telegram_token v t := mkTelegramGateway (tg_Enabled t) v (tg_WebhookURL t) (tg_ListenAddr t) (tg_AllowedUsers t)
  (tg_UserMapping t) (tg_PollTimeoutSeconds t) (tg_RateLimit t).
Definition set_signal_url v s := mkSignalGateway (si_Enabled s) v (si_SenderNumber s) (si_AllowedUsers s) (si_UserMapping s)
  (si_PollIntervalSeconds s) (si_RateLimit s).
Definition set_signal_sender v s := mkSignalGateway (si_Enabled s) (si_APIURL s) v (si_AllowedUsers s) (si_UserMapping s)
  (si_PollIntervalSeconds s) (si_RateLimit s).
Definition set_whatsapp w n := mkNotification (no_Enabled n) (no_Email n) w (no_Signal n).
Definition set_signal_section g n := mkNotification (no_Enabled n) (no_Email n) (no_WhatsApp n) g.

(** The file, the environment, the home directory and the parsers. *)
Class Machine := {
  env : string -> string;
  home : result error path;
  parse_YAML : string -> result error Config;
  parse_JSON : string -> result error Config;
}.

Section load.
Context `{!Machine}.

Definition env_providers (p : ProvidersConfig) : ProvidersConfig :=
  mkProviders (pr_Default p) (pr_Fallback p)
    (mkAnthropic (or_text (env "ANTHROPIC_API_KEY") (an_APIKey (pr_Anthropic p))) (an_Model (pr_Anthropic p)))
    (mkOpenAI (or_text (env "OPENAI_API_KEY") (oa_APIKey (pr_OpenAI p))) (oa_Model (pr_OpenAI p)) (oa_BaseURL (pr_OpenAI p)))
    (mkGemini (or_text (env "GEMINI_API_KEY") (ge_APIKey (pr_Gemini p))) (ge_Model (pr_Gemini p)) (ge_BaseURL (pr_Gemini p)))
    (pr_Ollama p).

Definition env_autonomous (b : bool) : bool :=
  if String.eqb (env "AKILI_AUTONOMOUS_MODE") "true" || String.eqb (env "AKILI_AUTONOMOUS_MODE") "1" then true else b.

Definition env_gateways (g : GatewaysConfig) : GatewaysConfig :=
  mkGateways (gw_CLI g) (gw_HTTP g)
    (override (env "SLACK_BOT_TOKEN") set_slack_token no_slack
      (override (env "SLACK_SIGNING_SECRET") set_signing no_slack (gw_Slack g)))
    (override (env "TELEGRAM_BOT_TOKEN") set_telegram_token no_telegram (gw_Telegram g))
    (override (env "SIGNAL_GATEWAY_SENDER_NUMBER") set_signal_sender no_signal
      (override (env "SIGNAL_GATEWAY_API_URL") set_signal_url no_signal (gw_Signal g)))
    (gw_WebSocket g).

Definition env_whatsapp : option NotificationConfig -> option NotificationConfig :=
  override (env "WHATSAPP_ACCESS_TOKEN") (fun v n => set_whatsapp (Some (mkWhatsApp v)) n) no_notification.
Definition env_signal_url : option NotificationConfig -> option NotificationConfig :=
  override (env "SIGNAL_API_URL")
    (fun v n => set_signal_section (Some (mkSignal v (section_or sn_SenderNumber "" (no_Signal n)))) n) no_notification.
(** Only when the section is there already. *)
Definition env_signal_number (n : option NotificationConfig) : option NotificationConfig :=
  match n with
  | Some n' =>
      match no_Signal n' with
      | Some s => if String.eqb (env "SIGNAL_SENDER_NUMBER") "" then n
                  else Some (set_signal_section (Some (mkSignal (sn_APIURL s) (env "SIGNAL_SENDER_NUMBER"))) n')
      | None => n
      end
  | None => n
  end.

Definition default_data_dir (dir : string) : string :=
  if String.eqb dir "" then match home with Ok h => render (clean (h ++ [".akili"; "data"])) | Err _ => dir end else dir.

Definition apply_env (c : Config) : Config :=
  changed c (or_text (env "AKILI_WORKSPACE") (c_Workspace c)) (default_data_dir (or_text (env "AKILI_DATA_DIR") (c_DataDir c)))
    (env_autonomous (c_AutonomousMode c)) (env_gateways (c_Gateways c)) (env_providers (c_Providers c))
    (env_signal_number (env_signal_url (env_whatsapp (c_Notification c)))).

Definition DefaultConfigPath : string :=
  match home with Ok h => render (clean (h ++ [".akili"; "config.json"])) | Err _ => "configs/akili.json" end.

Definition config_resolvePath (fs : FS) (p : string) : result error path :=
  if has_prefix p "~/" || String.eqb p "~" then
    match home with Err e => Err e | Ok h => Ok (clean (h ++ split_slash (str_drop 1 p))) end
  else filepath_Abs fs p.

(** [strings.ToLower(filepath.Ext(path))] is one of YAML's. *)
Definition is_yaml (p : path) : bool :=
  match last p with
  | Some n => match split_last (Ascii.ascii_of_nat 46) n with Some (_, e) => slice_contains ["yml"; "yaml"] (to_lower e) | None => false end
  | None => false
  end.

Definition Load (fs : FS) (p : string) : result error Config :=
  match config_resolvePath fs p with
  | Err e => Err (Wrap "resolving config path" e)
  | Ok resolved =>
      match os_ReadFile fs resolved with
      | Err e => Err (Wrap "reading config" e)
      | Ok data =>
          match (if is_yaml resolved then parse_YAML data else parse_JSON data) with
          | Err e => Err (Wrap (if is_yaml resolved then "parsing YAML config" else "parsing JSON config") e)
          | Ok c => match validate (apply_env c) with Err e => Err (Wrap "invalid config" e) | Ok c => Ok c end
          end
      end
  end.

(** ** Paths of a loaded configuration *)

Definition ResolvedDataDir (fs : FS) (c : Config) : string :=
  if String.eqb (c_DataDir c) "" then match home with Ok h => render (clean (h ++ [".akili"; "data"])) | Err _ => "data" end
  else match config_resolvePath fs (c_DataDir c) with Ok p => render p | Err _ => c_DataDir c end.
Definition DatabasePath (fs : FS) (c : Config) : string := skill_path (ResolvedDataDir fs c) "akili.db".
Definition AuditLogPath (fs : FS) (c : Config) : string := skill_path (ResolvedDataDir fs c) "audit.jsonl".
Definition CLIUserID (c : option CLIGatewayConfig) : string :=
  or_text (section_or cl_UserID "" c) (or_text (env "AKILI_CLI_USER") "cli-user").
End load.

(** * What a loaded configuration is *)

(** ** Validity *)

Definition valid_provider (p : ProvidersConfig) : Prop :=
  (pr_Default p = "anthropic" /\ an_Model (pr_Anthropic p) <> "" /\ an_APIKey (pr_Anthropic p) <> "") \/
  (pr_Default p = "openai" /\ oa_Model (pr_OpenAI p) <> "" /\ oa_APIKey (pr_OpenAI p) <> "") \/
  (pr_Default p = "gemini" /\ ge_Model (pr_Gemini p) <> "" /\ ge_APIKey (pr_Gemini p) <> "") \/
  (pr_Default p = "ollama" /\ ol_Model (pr_Ollama p) <> "").

Definition valid_roles (s : SecurityConfig) : Prop :=
  (se_DefaultRole s = "" \/ is_Some (se_Roles s !! se_DefaultRole s)) /\
  map_Forall (fun _ r => ro_MaxRiskLevel r <> "") (se_Roles s).

Definition enabled {C} (f : C -> bool) (c : option C) : Prop := exists x, c = Some x /\ f x = true.

(** An agent has a gateway to connect to or the workflow engine. *)
Definition valid_runtime (c : Config) : Prop :=
  forall r, c_Runtime c = Some r -> rt_Mode r = "agent" ->
    (exists a, rt_Agent r = Some a /\ ag_GatewayURL a <> "") \/ enabled oc_Enabled (c_Orchestrator c).

Definition valid_server (srv : MCPServerConfig) : Prop :=
  mp_Name srv <> "" /\
  ((mp_Transport srv = "stdio" /\ mp_Command srv <> "") \/
   (mp_Transport srv ∈ ["sse"; "streamable_http"] /\ mp_URL srv <> "")).

Record valid (c : Config) : Prop := {
  v_provider : valid_provider (c_Providers c);
  v_budget : nleb (bu_DefaultLimitUSD (c_Budget c)) (nofZ 0) = false;
  v_roles : valid_roles (c_Security c);
  v_memory : (0 <= sb_MaxMemoryMB (c_Sandbox c))%Z;
  v_seconds : (0 <= sb_MaxExecutionSeconds (c_Sandbox c))%Z;
  v_runtime : valid_runtime c;
  v_storage : forall s, c_Storage c = Some s -> sg_Driver s ∈ [""; "sqlite"; "postgres"];
  v_scheduler : enabled scc_Enabled (c_Scheduler c) -> enabled oc_Enabled (c_Orchestrator c);
  v_alerting : enabled al_Enabled (c_Alerting c) -> enabled no_Enabled (c_Notification c);
  v_heartbeat : forall h, c_HeartbeatTasks c = Some h -> htc_Enabled h = true -> htc_TasksDirs h <> [];
  v_servers : NoDup (mp_Name <$> to_MCP (c_Tools c)) /\ Forall valid_server (to_MCP (c_Tools c));
}.

Lemma refuse_None bad msg : refuse bad msg = None <-> bad = false.
Proof. by destruct bad. Qed.

Lemma first_err_None l : first_err l = None <-> Forall (fun e => e = None) l.
Proof.
  induction l as [|[e|] l IH]; cbn; [split; [constructor|done]|split; [done|by inversion 1]|].
  rewrite IH, Forall_cons. naive_solver.
Qed.

Lemma slice_contains_In l s : slice_contains l s = true <-> s ∈ l.
Proof.
  unfold slice_contains. rewrite existsb_exists. setoid_rewrite String.eqb_eq.
  rewrite list_elem_of_In. split; [intros (x & Hx & E); by subst|intros Hs; by exists s].
Qed.

Lemma slice_contains_not l s : slice_contains l s = false <-> s ∉ l.
Proof. rewrite <-slice_contains_In. by destruct (slice_contains l s); split. Qed.

Lemma on_enabled {C} (f : C -> bool) c : on f c = true <-> enabled f c.
Proof. unfold on, enabled. destruct c as [c|]; [|naive_solver]. split; [by exists c|]. by intros (x & [= ->] & Hx). Qed.

Lemma provider_exact p : validateProvider p = None <-> valid_provider p.
Proof.
  unfold validateProvider, valid_provider.
  destruct (String.eqb_spec (pr_Default p) "anthropic") as [->|H1]; [|destruct (String.eqb_spec (pr_Default p) "openai") as [->|H2];
    [|destruct (String.eqb_spec (pr_Default p) "gemini") as [->|H3]; [|destruct (String.eqb_spec (pr_Default p) "ollama") as [->|H4]]]];
    rewrite ?first_err_None, ?Forall_cons, ?Forall_nil, ?refuse_None, ?String.eqb_neq; naive_solver.
Qed.

Lemma roles_exact s : validateRoles s = None <-> valid_roles s.
Proof.
  unfold validateRoles, valid_roles. rewrite first_err_None, !Forall_cons, Forall_nil, !refuse_None.
  rewrite negb_false_iff, bool_decide_eq_true, andb_false_iff, !negb_false_iff, String.eqb_eq, bool_decide_eq_true. tauto.
Qed.

Lemma runtime_exact c : validateRuntime c = None <-> valid_runtime c.
Proof.
  unfold validateRuntime, valid_runtime, orchestrator_on. destruct (c_Runtime c) as [r|]; [|by split].
  destruct (String.eqb_spec (rt_Mode r) "agent") as [Hm|Hm]; [|split; [intros _ r' [= <-]; done|done]].
  trans (UseWebSocket (rt_Agent r) = true \/ enabled oc_Enabled (c_Orchestrator c)).
  - destruct (rt_Agent r) as [a|]; cbn; [destruct (String.eqb (ag_GatewayURL a) ""); cbn|];
      rewrite ?refuse_None, ?negb_false_iff, ?on_enabled; naive_solver.
  - assert (UseWebSocket (rt_Agent r) = true <-> exists a, rt_Agent r = Some a /\ ag_GatewayURL a <> "") as ->.
    { destruct (rt_Agent r) as [a|]; cbn; [rewrite negb_true_iff, String.eqb_neq|]; naive_solver. }
    split; [by intros H r' [= <-] _|]. intros H. by apply (H r).
Qed.

(** The message for an agent without a gateway is never given. *)
Lemma gateway_url_never_missed c :
  validateRuntime c <> Some (Errorf "runtime.agent.gateway_url is required for WebSocket agent mode").
Proof.
  unfold validateRuntime. destruct (c_Runtime c) as [r|]; [|done]. destruct (String.eqb _ _); [|done].
  destruct (rt_Agent r) as [a|]; cbn; [destruct (String.eqb (ag_GatewayURL a) ""); cbn|]; try done; by destruct (orchestrator_on c).
Qed.

Lemma server_exact names srv : validateServer names srv = None <-> mp_Name srv ∉ names /\ valid_server srv.
Proof.
  unfold validateServer, valid_server. rewrite first_err_None, !Forall_cons, Forall_nil, !refuse_None, String.eqb_neq, slice_contains_not.
  destruct (String.eqb_spec (mp_Transport srv) "stdio") as [->|Ht].
  - rewrite refuse_None, String.eqb_neq. split; [naive_solver|]. intros (? & ? & [[_ ?]|[Hs _]]); [done|]. exfalso. revert Hs. set_solver.
  - destruct (slice_contains ["sse"; "streamable_http"] (mp_Transport srv)) eqn:Es.
    + apply slice_contains_In in Es. rewrite refuse_None, String.eqb_neq. naive_solver.
    + apply slice_contains_not in Es. naive_solver.
Qed.

Lemma servers_exact l : forall names, validateServers names l = None <->
  Forall (fun srv => mp_Name srv ∉ names) l /\ NoDup (mp_Name <$> l) /\ Forall valid_server l.
Proof.
  induction l as [|srv l IH]; intros names; cbn [validateServers].
  { split; [intros _; split_and!; constructor|done]. }
  rewrite fmap_cons, NoDup_cons, !Forall_cons. destruct (validateServer names srv) as [e|] eqn:Ev.
  - split; [done|]. intros ((? & _) & _ & ? & _). assert (validateServer names srv = None) by by apply server_exact. congruence.
  - apply server_exact in Ev as [Hn Hs]. rewrite IH. split.
    + intros (Hall & Hd & Hv). split_and!; try done.
      * eapply Forall_impl; [exact Hall|]. cbn. set_solver.
      * intros (srv' & E & Hin)%list_elem_of_fmap. rewrite Forall_forall in Hall. specialize (Hall _ Hin). rewrite <-E in Hall. set_solver.
    + intros ((_ & Hall) & (Hni & Hd) & _ & Hv). split_and!; try done. rewrite Forall_forall in Hall |- *. intros x Hx Hin.
      apply elem_of_cons in Hin as [E|Hin]; [|by apply (Hall x)]. apply Hni, list_elem_of_fmap. by exists x.
Qed.

Lemma storage_exact s : validateStorage s = None <-> forall x, s = Some x -> sg_Driver x ∈ [""; "sqlite"; "postgres"].
Proof.
  unfold validateStorage. destruct s as [x|]; [|by split]. rewrite refuse_None, negb_false_iff, slice_contains_In. naive_solver.
Qed.

Lemma implies_exact {A B} (f : A -> bool) (g : B -> bool) a b : on f a && negb (on g b) = false <-> (enabled f a -> enabled g b).
Proof. rewrite <-!on_enabled. destruct (on f a), (on g b); cbn; intuition congruence. Qed.

Lemma heartbeat_exact (h : option HeartbeatTasksConfig) :
  on (fun h => htc_Enabled h && bool_decide (htc_TasksDirs h = [])) h = false <->
  forall x, h = Some x -> htc_Enabled x = true -> htc_TasksDirs x <> [].
Proof.
  destruct h as [x|]; cbn; [|by split]. rewrite andb_false_iff, bool_decide_eq_false. split.
  - intros [H|H] ? [= <-]; congruence.
  - intros H. destruct (htc_Enabled x) eqn:E; [right; by apply H|by left].
Qed.

Lemma checks_exact d : first_err (checks d) = None <-> valid d.
Proof.
  unfold checks. rewrite first_err_None, !Forall_cons, Forall_nil, !refuse_None, provider_exact, roles_exact, runtime_exact,
    servers_exact, storage_exact, !Z.ltb_ge, heartbeat_exact. unfold orchestrator_on, notification_on. rewrite !implies_exact.
  split.
  - intros (?&?&?&?&?&?&?&?&?&?&(_&?&?)&_). by constructor.
  - intros [? ? ? ? ? ? ? ? ? ? [? ?]]. split_and!; try done. apply Forall_forall. intros x _. apply not_elem_of_nil.
Qed.

(** Validation accepts exactly the valid configurations, and changes nothing but an empty
    default provider, which becomes [anthropic]. *)
Theorem validate_exact c c' :
  validate c = Ok c' <->
  valid c' /\ c' = changed c (c_Workspace c) (c_DataDir c) (c_AutonomousMode c) (c_Gateways c)
                     (with_default_provider (c_Providers c)) (c_Notification c).
Proof.
  unfold validate. set (d := changed c _ _ _ _ _ _). clearbody d. rewrite <-checks_exact.
  destruct (first_err (checks d)) eqn:E; [split; [done|]|split; [by intros [= <-]|by intros [_ ->]]].
  intros [H ->]. congruence.
Qed.

(** ** Loading *)

Section load_properties.
Context `{!Machine}.

(** C26: A configuration is loaded exactly when the file is there and parses, by its extension,
    and what it says with the environment applied is valid. *)
Theorem load_exact fs p c :
  Load fs p = Ok c <->
  exists resolved data file, config_resolvePath fs p = Ok resolved /\ os_ReadFile fs resolved = Ok data /\
    (if is_yaml resolved then parse_YAML data else parse_JSON data) = Ok file /\
    valid c /\ c = changed (apply_env file) (c_Workspace (apply_env file)) (c_DataDir (apply_env file))
      (c_AutonomousMode (apply_env file)) (c_Gateways (apply_env file)) (with_default_provider (c_Providers (apply_env file)))
      (c_Notification (apply_env file)).
Proof.
  unfold Load. split.
  - destruct (config_resolvePath fs p) as [resolved|e]; [|done].
    destruct (os_ReadFile fs resolved) as [data|e] eqn:Er; [|done].
    destruct (if is_yaml resolved then parse_YAML data else parse_JSON data) as [file|e] eqn:Ep; [|done].
    destruct (validate (apply_env file)) as [x|e] eqn:Ev; [|done]. intros [= <-]. apply validate_exact in Ev as [Hv E].
    exists resolved, data, file. by split_and!.
  - intros (resolved & data & file & -> & -> & -> & Hv & E).
    assert (validate (apply_env file) = Ok c) as ->; [by apply validate_exact|done].
Qed.

Lemma override_set {A} v set (zero : A) x : v <> "" -> override v set zero x = Some (set v (default zero x)).
Proof. unfold override. by intros ->%String.eqb_neq. Qed.

(** A second override keeps what a field it does not set has. *)
Lemma override_keeps {A} (f : A -> string) v set (zero : A) x y : (forall v a, f (set v a) = f a) ->
  f <$> x = Some y -> f <$> override v set zero x = Some y.
Proof. intros Hf E. unfold override. destruct (String.eqb v ""); [done|]. destruct x; cbn in *; congruence. Qed.

Lemma number_keeps_url n u : sn_APIURL <$> (n ≫= no_Signal) = Some u -> sn_APIURL <$> (env_signal_number n ≫= no_Signal) = Some u.
Proof.
  unfold env_signal_number. destruct n as [n|]; [|done]. cbn. destruct (no_Signal n) as [s|] eqn:E; [|cbn; by rewrite E].
  destruct (String.eqb _ _); cbn; [by rewrite E|done].
Qed.

Lemma number_keeps {A} (f : NotificationConfig -> A) n : (forall g n, f (set_signal_section g n) = f n) ->
  f <$> env_signal_number n = f <$> n.
Proof.
  intros Hf. unfold env_signal_number. destruct n as [n|]; [|done]. destruct (no_Signal n); [|done].
  destruct (String.eqb _ _); cbn; by rewrite ?Hf.
Qed.

Lemma notification_env (n : option NotificationConfig) :
  let n' := env_signal_number (env_signal_url (env_whatsapp n)) in
  (env "WHATSAPP_ACCESS_TOKEN" <> "" -> wa_AccessToken <$> (n' ≫= no_WhatsApp) = Some (env "WHATSAPP_ACCESS_TOKEN")) /\
  (env "SIGNAL_API_URL" <> "" -> sn_APIURL <$> (n' ≫= no_Signal) = Some (env "SIGNAL_API_URL")) /\
  (forall x, n' = Some x -> no_Enabled x = section_or no_Enabled false n).
Proof.
  cbn. set (w := env_whatsapp n). set (u := env_signal_url w). split_and!.
  - intros Hw. assert (no_WhatsApp <$> env_signal_number u = Some (Some (mkWhatsApp (env "WHATSAPP_ACCESS_TOKEN")))) as E.
    { rewrite number_keeps by done. unfold u, env_signal_url, override, w, env_whatsapp. rewrite override_set by done.
      by destruct (String.eqb _ _). }
    destruct (env_signal_number u); [|done]. injection E as E. cbn. by rewrite E.
  - intros Hu. apply number_keeps_url. unfold u, env_signal_url. by rewrite override_set.
  - intros x Hx. assert (no_Enabled <$> env_signal_number u = Some (no_Enabled x)) as E by by rewrite Hx.
    rewrite number_keeps in E by done. revert E. unfold u, env_signal_url, w, env_whatsapp, override.
    destruct (String.eqb (env "SIGNAL_API_URL") ""), (String.eqb (env "WHATSAPP_ACCESS_TOKEN") ""), n; cbn; congruence.
Qed.

Lemma no_environment (c : Config) : (forall k, env k = "") ->
  c_Gateways (apply_env c) = c_Gateways c /\ c_Providers (apply_env c) = c_Providers c /\
  c_Notification (apply_env c) = c_Notification c /\ c_AutonomousMode (apply_env c) = c_AutonomousMode c.
Proof.
  intros He. cbn. unfold env_gateways, env_providers, env_signal_number, env_signal_url, env_whatsapp, env_autonomous.
  rewrite !He. cbn. split_and!; [by destruct (c_Gateways c)| |by destruct (c_Notification c) as [n|]; [destruct (no_Signal n)|]|done].
  by destruct (c_Providers c) as [? ? [] [] [] ?].
Qed.

(** Variables of the environment come before the file: a key, token or address that is set
    there is the one of the loaded configuration, whatever the file says, and makes its
    section; they touch no other setting; and with none of them set the gateways, the
    providers and the notifications are those of the file. *)
Theorem environment_precedence (c : Config) :
  let c' := apply_env c in
  (env "ANTHROPIC_API_KEY" <> "" -> an_APIKey (pr_Anthropic (c_Providers c')) = env "ANTHROPIC_API_KEY") /\
  (env "OPENAI_API_KEY" <> "" -> oa_APIKey (pr_OpenAI (c_Providers c')) = env "OPENAI_API_KEY") /\
  (env "GEMINI_API_KEY" <> "" -> ge_APIKey (pr_Gemini (c_Providers c')) = env "GEMINI_API_KEY") /\
  (env "SLACK_SIGNING_SECRET" <> "" -> sl_SigningSecret <$> gw_Slack (c_Gateways c') = Some (env "SLACK_SIGNING_SECRET")) /\
  (env "SLACK_BOT_TOKEN" <> "" -> sl_BotToken <$> gw_Slack (c_Gateways c') = Some (env "SLACK_BOT_TOKEN")) /\
  (env "TELEGRAM_BOT_TOKEN" <> "" -> tg_BotToken <$> gw_Telegram (c_Gateways c') = Some (env "TELEGRAM_BOT_TOKEN")) /\
  (env "SIGNAL_GATEWAY_API_URL" <> "" -> si_APIURL <$> gw_Signal (c_Gateways c') = Some (env "SIGNAL_GATEWAY_API_URL")) /\
  (env "WHATSAPP_ACCESS_TOKEN" <> "" ->
     wa_AccessToken <$> (c_Notification c' ≫= no_WhatsApp) = Some (env "WHATSAPP_ACCESS_TOKEN")) /\
  (env "SIGNAL_API_URL" <> "" -> sn_APIURL <$> (c_Notification c' ≫= no_Signal) = Some (env "SIGNAL_API_URL")) /\
  (forall n, c_Notification c' = Some n -> no_Enabled n = section_or no_Enabled false (c_Notification c)) /\
  (c_Security c', c_Budget c', c_Sandbox c', c_Tools c', c_Approval c', c_Policies c') =
  (c_Security c, c_Budget c, c_Sandbox c, c_Tools c, c_Approval c, c_Policies c) /\
  ((forall k, env k = "") -> c_Gateways c' = c_Gateways c /\ c_Providers c' = c_Providers c /\
     c_Notification c' = c_Notification c /\ c_AutonomousMode c' = c_AutonomousMode c).
Proof.
  destruct (notification_env (c_Notification c)) as (N1 & N2 & N3).
  split_and!; try exact N1; try exact N2; try exact N3; try done; try apply no_environment; cbn; unfold or_text.
  - by intros ->%String.eqb_neq.
  - by intros ->%String.eqb_neq.
  - by intros ->%String.eqb_neq.
  - intros Hne. apply override_keeps; [done|]. by rewrite override_set.
  - intros Hne. by rewrite override_set.
  - intros Hne. by rewrite override_set.
  - intros Hne. apply override_keeps; [done|]. by rewrite override_set.
Qed.
End load_properties.

(** ** An example *)

Section example.
Definition example_config : Config :=
  mkConfiguration "" "" false None
    (mkSecurity [] [] "" {["viewer" := mkRoleConfig ["read_files"] "low" []]} ∅ "viewer") (mkBudget (nofZ 10))
    (mkSandbox "process" 1 512 30 false (mkDockerSection "" (nofZ 0) 0))
    (mkTools (mkFileTool [] 0) (mkWebTool [] 0 0) (mkBrowserTool [] 0 0 0) (mkCodeTool []) (mkDatabaseTool "" 0 0) (mkGitTool [])
       [mkMCPServer "github" "stdio" "gh-mcp" [] ∅ "" ∅ "" ""])
    (mkGateways None None None None None None) (mkApproval 0 None)
    (mkProviders "" [] (mkAnthropic "" "claude") (mkOpenAI "" "" "") (mkGemini "" "" "") (mkOllama "" ""))
    None None None None None None None None None None None None None None.

#[local] Instance example_machine : Machine := {
  env k := if String.eqb k "ANTHROPIC_API_KEY" then "sk-1" else "";
  home := Ok ["home"; "ann"];
  parse_YAML _ := Ok example_config;
  parse_JSON _ := Err (Errorf "invalid character");
}.

Definition example_files : FS := mkFS {[["home"; "ann"; ".akili"; "config.yaml"] := NFile "providers: ..."; ["home"] := NDir;
  ["home"; "ann"] := NDir; ["home"; "ann"; ".akili"] := NDir]} (Ok []).

(** The key is taken from the environment, the provider and the directory are the defaults. *)
Example example_loads :
  match Load example_files "~/.akili/config.yaml" with
  | Ok c => (pr_Default (c_Providers c), an_APIKey (pr_Anthropic (c_Providers c)), c_DataDir c)
  | Err _ => ("", "", "")
  end = ("anthropic", "sk-1", "/home/ann/.akili/data").
Proof. vm_compute. reflexivity. Qed.
End example.
