(* ===== verification/Startup.v ===== *)
(** * Starting the agent

    [src/internal/tools/mcp/mcp.go]: the tools of MCP servers; [src/cmd/akili/shared.go]: how
    the configuration of [Settings] becomes the components of the other files and the
    orchestrator that composes them, with a database ([initShared]) and without one
    ([initSharedForWSAgent]).

    The MCP library, the opening of the databases and of the audit log, and the set-up of
    the observability are parameters; logging, the wrappers of [Observability] (which are
    transparent) and the notification senders ([Senders]) are left out. *)

From S2P Require Import Prelude Text Security Budget SecurityManager Approval AutoApproval.
From S2P Require Import LLM Providers Anthropic OpenAI Gemini ToolValues Sandbox SandboxTools FileSystem FileTool WebTool.
From S2P Require Import Conversation Prompt Agent AgentSpec AgentProps AgentManager AgentLoop AgentLoopProps.
From S2P Require Import Domain Models RoleDB Config SkillLoader Fleet Infra Settings.

(** ** Variables of the environment in a text *)

Definition is_char (n : nat) (c : Ascii.ascii) : bool := Ascii.eqb c (Ascii.ascii_of_nat n).
Definition between (lo hi : nat) (c : Ascii.ascii) : bool :=
  (lo <=? Ascii.nat_of_ascii c)%nat && (Ascii.nat_of_ascii c <=? hi)%nat.

(** [os.isShellSpecialVar]: one of * # $ @ ! ? - and the digits; [os.isAlphaNum]. *)
Definition isShellSpecialVar (c : Ascii.ascii) : bool :=
  existsb (fun n => is_char n c) [42; 35; 36; 64; 33; 63; 45] || between 48 57 c.
Definition isAlphaNum (c : Ascii.ascii) : bool :=
  is_char 95 c || between 48 57 c || between 97 122 c || between 65 90 c.

Fixpoint take_while (p : Ascii.ascii -> bool) (s : string) : string :=
  match s with String c s => if p c then String c (take_while p s) else "" | EmptyString => "" end.

(** [os.getShellName]: the name after the dollar and how many bytes it takes. *)
Definition getShellName (s : string) : string * nat :=
  match s with
  | EmptyString => ("", 0)
  | String c rest =>
      if is_char 123 c then
        let inner := take_while (fun d => negb (is_char 125 d)) rest in
        match rest with
        | String d (String e _) =>
            if isShellSpecialVar d && is_char 125 e then (String d "", 3)
            else if (String.length inner =? String.length rest)%nat then ("", 1)
            else if String.eqb inner "" then ("", 2) else (inner, String.length inner + 2)
        | _ =>
            if (String.length inner =? String.length rest)%nat then ("", 1)
            else if String.eqb inner "" then ("", 2) else (inner, String.length inner + 2)
        end
      else if isShellSpecialVar c then (String c "", 1)
      else let name := take_while isAlphaNum s in (name, String.length name)
  end.

Definition dollar : Ascii.ascii := Ascii.ascii_of_nat 36.

(** [os.Expand]; [skip] bytes of a reference are left. *)
Fixpoint expand_from (mapping : string -> string) (skip : nat) (s : string) : string :=
  match s with
  | EmptyString => ""
  | String c rest =>
      match skip with
      | S n => expand_from mapping n rest
      | 0 =>
          if Ascii.eqb c dollar && negb (String.eqb rest "") then
            let '(name, width) := getShellName rest in
            (if String.eqb name "" then (if (0 <? width)%nat then "" else String c "") else mapping name)
              +:+ expand_from mapping width rest
          else String c (expand_from mapping 0 rest)
      end
  end.
Definition Expand (s : string) (mapping : string -> string) : string := expand_from mapping 0 s.

Example expand_cases : let m v := "<" +:+ v +:+ ">" in
  Expand "a$HOME/b" m = "a<HOME>/b" /\ Expand "${X_1}y$" m = "<X_1>y$" /\ Expand "$$x" m = "<$>x" /\
  Expand "a${}b" m = "ab" /\ Expand "a${b" m = "ab" /\ Expand "$ x" m = "$ x" /\ Expand "${*}" m = "<*>".
Proof. by vm_compute. Qed.

(** A text without a dollar is kept. *)
Lemma expand_plain m s : mem_char dollar s = false -> Expand s m = s.
Proof.
  unfold Expand, mem_char. induction s as [|c s IH]; [done|].
  cbn [String.list_ascii_of_string existsb expand_from].
  rewrite Ascii.eqb_sym. intros [-> Hs]%orb_false_iff. cbn [andb]. by rewrite IH.
Qed.

(** ** The tools of MCP servers *)

(** [mcp.ToolInputSchema] and [mcp.Tool], as far as the bridge reads them. *)
Record ToolInputSchema := mkInputSchema {
  is_Type : string;
  is_Properties : option (list (string * GoAny));
  is_Required : list string;
}.
Record ToolInfo := mkToolInfo { ti_Name : string; ti_Description : string; ti_InputSchema : ToolInputSchema }.

(** The library mcp-go: its clients, the contents of an answer, and its calls; the world
    holds the servers. *)
Class McpLibrary (Client Content W : Type) := {
  NewStdioMCPClient : string -> list string -> list string -> W -> result error Client * W;
  NewSSEMCPClient : string -> gmap string string -> W -> result error Client * W;
  NewStreamableHttpClient : string -> gmap string string -> W -> result error Client * W;
  mcp_Initialize : Client -> W -> option error * W;
  mcp_ListTools : Client -> W -> result error (list ToolInfo) * W;
  mcp_CallTool : Client -> string -> Params -> W -> result error (list Content * bool) * W;
  mcp_Close : Client -> W -> option error * W;
  AsTextContent : Content -> option string;
  content_Marshal : Content -> string;
}.

(** [MCPTool.Validate]: the strings of the schema's list of required keys. *)
Definition mcp_required (inputSchema : Params) : list string :=
  match param inputSchema "required" with
  | Some (AList l) => omap (fun a => match a with AString s => Some s | _ => None end) l
  | _ => []
  end.
Fixpoint missing_key (keys : list string) (params : Params) : option error :=
  match keys with
  | [] => None
  | key :: keys =>
      match param params key with
      | None => Some (Errorf ("missing required parameter: " +:+ key))
      | Some _ => missing_key keys params
      end
  end.
Definition mcp_Validate (inputSchema params : Params) : option error := missing_key (mcp_required inputSchema) params.

(** [convertInputSchema]. *)
Definition convertInputSchema (schema : ToolInputSchema) : Params :=
  object ([("type", AString (is_Type schema))] ++
    (match is_Properties schema with Some props => [("properties", AObject props)] | None => [] end) ++
    (if bool_decide (is_Required schema = []) then [] else [("required", AList (map AString (is_Required schema)))])).

(** ** The bridge *)

Section bridge.
Context {Client Content W : Type} `{!McpLibrary Client Content W} `{!Environment W} `{!MapRange string string}.

(** [formatMCPContent]. *)
Definition content_text (c : Content) : string := match AsTextContent c with Some t => t | None => content_Marshal c end.
Definition formatMCPContent (content : list Content) : string := String.concat newline (map content_text content).

Definition mcp_Execute (client : Client) (serverName originalName : string) (params : Params)
    : st W (result error (ToolResult Params)) :=
  callResult ← (mcp_CallTool client originalName params : st W (result error (list Content * bool)));
  mret (match callResult with
        | Err err => Err (Wrap ("MCP call to " +:+ serverName +:+ "/" +:+ originalName +:+ " failed") err)
        | Ok (content, isError) =>
            Ok (mkToolResult (TruncateOutput (formatMCPContent content) MaxOutputBytes)
                  (object [("mcp_server", AString serverName); ("mcp_tool", AString originalName);
                           ("content_items", AInt (Z.of_nat (length content)))]) (negb isError))
        end).

(** [MCPTool] as a tool of the registry: the client, and the action of its server. *)
Definition mcp_tool (client : Client) (serverName : string) (action : Action) (t : ToolInfo) : Tool f64 Params W :=
  let schema := convertInputSchema (ti_InputSchema t) in
  mkTool ("mcp__" +:+ serverName +:+ "__" +:+ ti_Name t) ("[MCP:" +:+ serverName +:+ "] " +:+ ti_Description t) schema
    action (fun _ => nofZ 0) (fun params _ => mcp_Validate schema params)
    (fun _ => mcp_Execute client serverName (ti_Name t)).

Definition expandEnvMap (m : gmap string string) (w : W) : list string :=
  map (fun kv => kv.1 +:+ "=" +:+ Expand kv.2 (fun v => os_Getenv v w)) (map_range m).
Definition expandEnvToMap (m : gmap string string) (w : W) : gmap string string :=
  (fun v => Expand v (fun v => os_Getenv v w)) <$> m.

Definition createClient (cfg : MCPServerConfig) : st W (result error Client) := fun w =>
  if String.eqb (mp_Transport cfg) "stdio" then NewStdioMCPClient (mp_Command cfg) (expandEnvMap (mp_Env cfg) w) (mp_Args cfg) w
  else if String.eqb (mp_Transport cfg) "sse" then NewSSEMCPClient (mp_URL cfg) (expandEnvToMap (mp_Headers cfg) w) w
  else if String.eqb (mp_Transport cfg) "streamable_http"
  then NewStreamableHttpClient (mp_URL cfg) (expandEnvToMap (mp_Headers cfg) w) w
  else (Err (Errorf ("unsupported transport: " +:+ mp_Transport cfg)), w).

(** The permission and the risk of all tools of a server. *)
Definition mcp_action (cfg : MCPServerConfig) : Action :=
  mkAction (or_text (mp_Permission cfg) ("mcp__" +:+ mp_Name cfg))
    (if String.eqb (mp_RiskLevel cfg) "" then RiskMedium else ParseRiskLevel (mp_RiskLevel cfg)).

(** [ConnectAndDiscover]; a bridge is the list of its clients, the newest last. *)
Definition ConnectAndDiscover (cfg : MCPServerConfig) (clients : list Client)
    : st W (result error (list (Tool f64 Params W)) * list Client) :=
  c ← createClient cfg;
  match c with
  | Err err => mret (Err (Wrap "creating MCP client" err), clients)
  | Ok c =>
      err ← (mcp_Initialize c : st W (option error));
      match err with
      | Some err => mret (Err (Wrap "MCP initialize" err), clients)
      | None =>
          listResp ← (mcp_ListTools c : st W (result error (list ToolInfo)));
          mret (match listResp with
                | Err err => Err (Wrap "MCP list tools" err)
                | Ok infos => Ok (map (mcp_tool c (mp_Name cfg) (mcp_action cfg)) infos)
                end, clients ++ [c])
      end
  end.

(** [Close]; the errors are logged. *)
Fixpoint bridge_Close (clients : list Client) : st W unit :=
  match clients with
  | [] => mret tt
  | c :: clients => _ ← (mcp_Close c : st W (option error)); bridge_Close clients
  end.

(** The loop over the configured servers: a server that fails is skipped; [None] is the
    panic of a name that is registered already. *)
Fixpoint register_servers (cfgs : list MCPServerConfig) (reg : Registry f64 Params W) (clients : list Client)
    : st W (option (Registry f64 Params W * list Client)) :=
  match cfgs with
  | [] => mret (Some (reg, clients))
  | cfg :: cfgs =>
      '(r, clients) ← ConnectAndDiscover cfg clients;
      match r with
      | Err _ => register_servers cfgs reg clients
      | Ok ts =>
          match register_all reg ts with
          | None => mret None
          | Some reg => register_servers cfgs reg clients
          end
      end
  end.
End bridge.

(** ** Components from their sections of the configuration *)

Definition to_policy (p : PolicyConfig) : SecurityPolicy :=
  mkPolicy (pl_Name p) (pl_AllowedTools p) (pl_DeniedTools p) (pl_AllowedPaths p) (pl_DeniedPaths p)
    (pl_AllowedDomains p) (pl_DeniedDomains p) (pl_AllowedCommands p) (pl_DeniedCommands p) (pl_MaxRiskLevel p)
    (pl_RequireApproval p) (pl_AllowedSkills p) (pl_DeniedSkills p).

(** [None]: the policies are not enforced. *)
Definition policy_enforcer (policies : option PoliciesConfig) : option PolicyEnforcer :=
  match policies with
  | Some p => if bool_decide (pl_Policies p = []) then None
              else Some (NewPolicyEnforcer (map to_policy (pl_Policies p)) (pl_Bindings p))
  | None => None
  end.

Definition buildRBACConfig (sc : SecurityConfig) : RBAC :=
  mkRBAC (map_imap (fun name rc => Some (mkRole name (ro_Permissions rc) (ro_MaxRiskLevel rc) (ro_RequireApproval rc))) (se_Roles sc))
    (se_UserRoles sc) (se_DefaultRole sc).

Definition approvalTTL (a : ApprovalConfig) : Duration :=
  if (0 <? ap_TTLSeconds a)%Z then (ap_TTLSeconds a * Second)%Z else (5 * Minute)%Z.

Definition auto_approver (a : ApprovalConfig) : option AutoApprover :=
  match ap_AutoApproval a with
  | Some s => if aa_Enabled s
              then Some (NewAutoApprover (mkAutoConfig true (aa_MaxAutoApprovals s) (aa_AllowedTools s) (aa_RequiredApprovals s) (aa_WindowHours s)))
              else None
  | None => None
  end.

(** *** Providers *)

Section providers.
Context {W : Type} `{!GoJson Params} `{!Decode Params} `{!Render} `{!LlmHttp W}.
Context `{!Encode (Anthropic.apiRequest (P := Params))} `{!Decode (Anthropic.apiResponse (P := Params))}.
Context `{!Encode (OpenAI.apiRequest (P := Params))} `{!Decode OpenAI.apiResponse}.
Context `{!Encode (Gemini.apiRequest (P := Params))} `{!Decode (Gemini.apiResponse (P := Params))}.

Definition anthropic_url : string := "https://api.anthropic.com".
Definition openai_url : string := "https://api.openai.com".
Definition gemini_url : string := "https://generativelanguage.googleapis.com".
Definition ollama_url : string := "http://localhost:11434".

Definition buildProvider (p : ProvidersConfig) (name : string) : result error (Provider Params W) :=
  if slice_contains ["anthropic"; ""] name
  then Ok (Anthropic.NewClient (an_APIKey (pr_Anthropic p)) (an_Model (pr_Anthropic p)) anthropic_url)
  else if String.eqb name "openai"
  then Ok (OpenAI.NewClient "openai" (oa_APIKey (pr_OpenAI p)) (oa_Model (pr_OpenAI p)) (or_text (oa_BaseURL (pr_OpenAI p)) openai_url))
  else if String.eqb name "gemini"
  then Ok (Gemini.NewClient (ge_APIKey (pr_Gemini p)) (ge_Model (pr_Gemini p)) (or_text (ge_BaseURL (pr_Gemini p)) gemini_url))
  else if String.eqb name "ollama"
  then Ok (OpenAI.NewClient "ollama" "" (ol_Model (pr_Ollama p)) (or_text (ol_BaseURL (pr_Ollama p)) ollama_url))
  else Err (Errorf ("unknown provider: " +:+ name)).

(** The fallbacks; an unknown name is skipped. *)
Definition fallback_providers (p : ProvidersConfig) : list (Provider Params W) :=
  omap (fun name => match buildProvider p name with Ok fb => Some fb | Err _ => None end) (pr_Fallback p).

Definition newLLMProvider (p : ProvidersConfig) : result error (Provider Params W) :=
  match buildProvider p (pr_Default p) with
  | Err err => Err err
  | Ok primary =>
      let providers := primary :: fallback_providers p in
      if (1 <? length providers)%nat
      then match NewFallbackProvider providers with Some f => Ok f | None => Ok primary end
      else Ok primary
  end.
End providers.

(** *** The sandbox, the tools and the secrets *)

Section components.
Context {W : Type} `{!ProcessOS W} `{!Render} `{!MapRange string string} `{!CpuFormat f64}.

Definition initSandbox (c : SandboxConfig) : result error (ToolValues.Sandbox W) :=
  let timeout := (sb_MaxExecutionSeconds c * Second)%Z in
  if String.eqb (sb_Type c) "docker" then
    let d := sb_Docker c in
    if String.eqb (dk_Image d) "" then Err (Errorf "sandbox.docker.image is required when type is docker")
    else let box := NewDockerSandbox (mkDockerConfig (dk_Image d) timeout (sb_MaxMemoryMB c) (dk_CPUCores d) (dk_PIDsLimit d) (sb_NetworkAllowed c)) in
         Ok (Build_Sandbox W (docker_Execute box))
  else if slice_contains ["process"; ""] (sb_Type c) then
    let box := NewProcessSandbox timeout (mkLimits (sb_MaxCPUCores c * 60) (sb_MaxMemoryMB c)) in
    Ok (Build_Sandbox W (process_Execute box))
  else Err (Errorf ("unknown sandbox type: " +:+ sb_Type c)).
End components.

Section tool_set.
Context {W : Type} `{!HasFS W} `{!FileInfo} `{!Render} `{!HttpClient W} `{!DurationText}.

(** The tools both modes register first, in this order. *)
Definition builtin_tools (sbx : ToolValues.Sandbox W) (t : ToolsConfig) : list (Tool f64 Params W) :=
  let files := FileTool.mkConfig (fi_AllowedPaths (to_File t)) (fi_MaxFileSizeBytes (to_File t)) in
  let web := to_Web t in
  let browser := to_Browser t in
  [shell_tool (Sandbox0 := sbx); file_read_tool files; file_write_tool files;
   web_tool (mkWebConfig (we_AllowedDomains web) (we_MaxResponseBytes web) (we_TimeoutSeconds web));
   browser_tool (mkWebConfig (br_AllowedDomains browser) (br_MaxResponseBytes browser) (br_TimeoutSeconds browser));
   git_read_tool (Sandbox0 := sbx); git_write_tool (Sandbox0 := sbx);
   code_tool (Sandbox0 := sbx) (co_AllowedLanguages (to_Code t))].
End tool_set.

(** ** The agent *)

Definition systemPrompt : string := "You are Akili, an autonomous AI operator for DevOps, SRE and Platform teams.
You are not an assistant. You are not a chatbot.
You are a controlled, auditable, production-safe operator.

Your purpose is to protect infrastructure, maintain reliability, reduce operational risk,
and automate safely within enforced policy boundaries.

Core axioms:
- Default Deny: if something is ambiguous, unsafe, or outside explicit authorization, do not execute it.
- Explicit Allow: act only when permission, scope, and intent are clear.
- Auditability Over Convenience: every action must be explainable and justifiable.
- Reliability Over Speed: fast and wrong is worse than slow and correct.
- Security Before Automation: automation that weakens control is a failure.

Before acting, classify intent (read-only, mutating, destructive, investigative), assess risk
(blast radius, privilege level, reversibility, environment, data sensitivity), and decide on
an execution strategy. For high-risk actions, propose a plan and request confirmation.

You have access to tools for executing shell commands, reading/writing files, querying databases,
fetching web content, executing code, and performing git operations. Use tools when the task
requires interacting with external systems. Explain what you intend to do before using a tool.

When a user refers to infrastructure by name or alias (e.g., " +:+
  quoted "VM10" +:+
  ", " +:+
  quoted "prod-k8s" +:+
  ", " +:+
  quoted "staging-db" +:+
  "),
use infra_lookup to resolve the node first, then infra_exec to run commands on it.
Never ask for passwords, SSH keys, or other credentials — they are resolved automatically.
Never include raw credentials in any command parameter.".

Definition autonomousModePromptSection : string := "

## Autonomous Mode
You are operating in autonomous mode. You may execute tools — including high-risk operations
like shell_exec — without waiting for human approval. Use this capability responsibly:

- Investigate issues independently: gather evidence, diagnose root causes, and attempt remediation.
- Execute operations decisively when the intent is clear and the action is within policy.
- All actions are still subject to RBAC permissions, security policies, budget limits, and sandbox constraints.
- Every action is logged and auditable — act as if every decision will be reviewed.
- Prefer the least-destructive approach when multiple options exist.
- If an action could cause irreversible damage (data loss, production outage), proceed only when
  the risk is justified by the severity of the issue being addressed.".

(** [WithOptimization] with the settings of its section. *)
Record optimisation := mkOptimised { on_lazy : bool; on_runbooks : Z; on_threshold : f64; on_mode : string }.
Definition optimised (c : option OptimizationConfig) : optimisation :=
  match c with
  | None => mkOptimised false 0 (nofZ 0) ""
  | Some o =>
      let n := MaxRunbookMatchesOrDefault c in
      let t := RunbookThresholdOrDefault c in
      mkOptimised (op_LazyToolLoading o) (if (n <=? 0)%Z then 2 else n)%Z (if nleb t (nofZ 0) then nlit 5 100 else t)
        (or_text (SkillSummaryModeOrDefault c) "full")
  end.

Definition prompt_config (c : Settings.Config) (soulContext : string) : PromptConfig f64 :=
  let opt := optimised (c_Optimization c) in
  mkPromptConfig (systemPrompt +:+ if c_AutonomousMode c then autonomousModePromptSection else "") "" "" (on_mode opt)
    soulContext [] (on_runbooks opt) (on_threshold opt)
    (match c_Orchestrator c with Some o => oc_PlanningEnabled o | None => false end).

(** [Memory != nil && Memory.Enabled]: the conversations are kept. *)
Definition memory_on (c : option MemoryConfig) : option MemoryConfig :=
  match c with Some m => if mc_Enabled m then Some m else None | None => None end.

Definition ws_read_only : list string := ["file_read"; "web_fetch"; "git_read"; "browser_fetch"].
Definition read_only : list string := ["file_read"; "web_fetch"; "git_read"; "infra_lookup"; "browser_fetch"].

(** [NewOrchestrator] and the [With] calls after it. *)
Definition new_agent {W} (c : Settings.Config) (llm : Provider Params W) (reg : Registry f64 Params W) (orgID : uuid)
    (memory : option MemoryConfig) (readOnlyTools : list string) (soulContext : string) : Orchestrator f64 Params W :=
  mkOrchestrator (pv_SendMessage llm) (prompt_config c soulContext) true (Some reg) true (policy_enforcer (c_Policies c))
    (bool_decide (is_Some (auto_approver (c_Approval c)))) 0 true (list_to_set readOnlyTools)
    (match memory with Some m => mc_SummarizeOnTruncate m | None => false end) (c_AutonomousMode c)
    (on_lazy (optimised (c_Optimization c))) (bool_decide (is_Some memory))
    (match memory with Some _ => orgID | None => 0%N end)
    (match memory with Some _ => MaxHistory memory | None => 0%Z end)
    (match memory with Some _ => MaxMsgBytes memory | None => 0%Z end).

(** [SharedComponents], as far as it is decided at the start: the agent and the states of the
    components it uses. *)
Record SharedComponents (S W Client : Type) := mkShared {
  sh_Agent : Orchestrator f64 Params W;
  sh_Security : S;
  sh_Sandbox : ToolValues.Sandbox W;
  sh_ApprovalMgr : Approval.Manager f64 Params;
  sh_AutoApprover : AutoApprover;
  sh_Workspace : Workspace;
  sh_OrgID : uuid;
  sh_MCP : list Client;
}.
Arguments mkShared {S W Client}.
Arguments sh_Agent {S W Client}.
Arguments sh_Security {S W Client}.
Arguments sh_Sandbox {S W Client}.
Arguments sh_ApprovalMgr {S W Client}.
Arguments sh_AutoApprover {S W Client}.
Arguments sh_Workspace {S W Client}.
Arguments sh_OrgID {S W Client}.
Arguments sh_MCP {S W Client}.

(** An auto-approver the agent does not use. *)
Definition no_approver : AutoApprover := NewAutoApprover (mkAutoConfig false 0 [] 0 0).

(** The state the agent starts in. *)
Definition agent_state {S C W Client} (sh : SharedComponents S W Client) (conv : C) (w : W) : State f64 Params S C W :=
  mkState (sh_Security sh) (sh_ApprovalMgr sh) (sh_AutoApprover sh) (NewToolCache DefaultToolCacheTTL) conv w [].

(** ** Starting *)

(** What the system answers at the start: [observability.New], [os.OpenFile] of the audit
    log, and the databases with their migrations and [EnsureOrg]. *)
Class StartupOS (W : Type) := {
  observability_New : option ObservabilitySection -> W -> option error * W;
  audit_Open : string -> W -> option error * W;
  sqlite_Open : string -> string -> W -> option error * W;
  postgres_Open : string -> Z -> Z -> Duration -> W -> option error * W;
  store_Migrate : W -> option error * W;
  store_EnsureOrg : string -> W -> result error uuid * W;
}.

(** A start ends in an error, in a panic ([None]) or with the components. *)
Definition outcome (A : Type) : Type := option (result error A).

Definition attempt {A B W} (m : st W (result error A)) (msg : string) (k : A -> st W (outcome B)) : st W (outcome B) :=
  r ← m;
  match r with
  | Err e => mret (Some (Err (if String.eqb msg "" then e else Wrap msg e)))
  | Ok a => k a
  end.
Definition unless {W} (m : st W (option error)) : st W (result error unit) :=
  e ← m; mret (match e with Some e => Err e | None => Ok tt end).

Section startup.
Context {Client Content W : Type} `{!McpLibrary Client Content W} `{!StartupOS W} `{!Machine}.
Context `{!ProcessOS W} `{!HasFS W} `{!FileInfo} `{!HttpClient W} `{!DurationText} `{!CpuFormat f64}.
Context `{!Environment W} `{!VaultHttp W} `{!Render} `{!MapRange string string} `{!GoJson Params} `{!Decode Params}.
Context `{!LlmHttp W} `{!Encode (Anthropic.apiRequest (P := Params))} `{!Decode (Anthropic.apiResponse (P := Params))}.
Context `{!Encode (OpenAI.apiRequest (P := Params))} `{!Decode OpenAI.apiResponse}.
Context `{!Encode (Gemini.apiRequest (P := Params))} `{!Decode (Gemini.apiResponse (P := Params))}.

Definition initWorkspace (c : Settings.Config) : st W (result error Workspace) := fun w =>
  let '(r, fs) := if String.eqb (c_Workspace c) "" then DefaultWorkspace home (get_fs w)
                  else NewWorkspace home (get_fs w) (c_Workspace c) in
  (r, set_fs fs w).

(** [os.MkdirAll] of a path as a text. *)
Definition make_dirs (dir : string) : st W (result error unit) := fun w =>
  match filepath_Abs (get_fs w) dir with
  | Err e => (Err e, w)
  | Ok p => match os_MkdirAll (get_fs w) p with
            | (Some e, fs) => (Err e, set_fs fs w)
            | (None, fs) => (Ok tt, set_fs fs w)
            end
  end.

(** [filepath.Dir]. *)
Definition filepath_Dir (p : string) : string :=
  match split_last slash p with Some (dir, _) => or_text dir "/" | None => "." end.

(** Where the audit log is. *)
Definition audit_path (c : Settings.Config) (fs : FS) : string :=
  or_text (se_AuditLogPath (c_Security c)) (AuditLogPath fs c).

Definition initInMemorySecurity (c : Settings.Config) (auditPath : string)
    : st W (result error (SecurityManager.Manager RBAC (AuditLogger f64 Params) (BudgetManager f64))) :=
  r ← make_dirs (filepath_Dir auditPath);
  match r with
  | Err e => mret (Err (Wrap "creating audit log directory" e))
  | Ok _ =>
      err ← (audit_Open auditPath : st W (option error));
      mret (match err with
            | Some e => Err (Wrap "initializing audit logger" (Wrap "opening audit log" e))
            | None => Ok (SecurityManager.NewManager (buildRBACConfig (c_Security c)) (mkAuditLogger [])
                            (NewBudgetManager (bu_DefaultLimitUSD (c_Budget c))))
            end)
  end.

(** The steps both modes begin with: workspace, data directory, observability, model. *)
Definition begin_start {A} (c : Settings.Config) (k : Workspace -> string -> Provider Params W -> st W (outcome A)) : st W (outcome A) :=
  attempt (initWorkspace c) "initializing workspace" (fun ws =>
  attempt (fun w => make_dirs (ResolvedDataDir (get_fs w) c) w) "creating data directory" (fun _ =>
  auditPath ← st_get (fun w => audit_path c (get_fs w));
  attempt (unless (observability_New (c_Observability c))) "initializing observability" (fun _ =>
  attempt (mret (newLLMProvider (c_Providers c))) "initializing LLM provider" (fun llm =>
  k ws auditPath llm)))).

(** The registry with the built-in tools and those of the MCP servers. *)
Definition build_registry (sbx : ToolValues.Sandbox W) (t : ToolsConfig) : st W (option (Registry f64 Params W * list Client)) :=
  match register_all NewRegistry (builtin_tools sbx t) with
  | None => mret None
  | Some reg => register_servers (to_MCP t) reg []
  end.

(** [initSharedForWSAgent]. *)
Definition initSharedForWSAgent (c : Settings.Config)
    : st W (outcome (SharedComponents (SecurityManager.Manager RBAC (AuditLogger f64 Params) (BudgetManager f64)) W Client)) :=
  begin_start c (fun ws auditPath llm =>
  attempt (initInMemorySecurity c auditPath) "initializing in-memory security" (fun secMgr =>
  attempt (mret (initSandbox (c_Sandbox c))) "initializing sandbox" (fun sbx =>
  regs ← build_registry sbx (c_Tools c);
  match regs with
  | None => mret None
  | Some (reg, clients) =>
      mret (Some (Ok (mkShared (new_agent c llm reg 0%N None ws_read_only "") secMgr sbx
        (Approval.NewManager (approvalTTL (c_Approval c))) (default no_approver (auto_approver (c_Approval c))) ws 0%N clients)))
  end))).

(** *** With a database *)

Definition initSQLiteStore (c : Settings.Config) : st W (result error unit) := fun w =>
  let s := match c_Storage c with Some s => sg_SQLite s | None => None end in
  let dbPath := or_text (section_or sq_Path "" s) (DatabasePath (get_fs w) c) in
  unless (sqlite_Open dbPath (or_text (section_or sq_JournalMode "" s) "wal")) w.

Definition initPostgresStore (c : Settings.Config) : st W (result error unit) := fun w =>
  let s := match c_Storage c with Some s => sg_Postgres s | None => None end in
  let dsn := or_text (os_Getenv "AKILI_DB_DSN" w) (section_or pc_DSN "" s) in
  if String.eqb dsn "" then (Err (Errorf "postgres DSN is required (set storage.postgres.dsn or AKILI_DB_DSN)"), w)
  else
    let '(err, w) := postgres_Open dsn (section_or pc_MaxOpenConns 0%Z s) (section_or pc_MaxIdleConns 0%Z s)
                       (section_or pc_ConnMaxLifetimeS 0%Z s * Second)%Z w in
    (match err with Some e => Err (Wrap "opening postgres" e) | None => Ok tt end, w).

Definition initStore (c : Settings.Config) : st W (result error unit) :=
  if String.eqb (StorageDriverName c) "postgres" then initPostgresStore c
  else if String.eqb (StorageDriverName c) "sqlite" then initSQLiteStore c
  else mret (Err (Errorf ("unknown storage driver: " +:+ StorageDriverName c))).

Definition org_name (c : Settings.Config) : string :=
  or_text (section_or (fun s => section_or pc_DefaultOrgName "" (sg_Postgres s)) "" (c_Storage c)) "default".

(** The security manager on the tables of the store. *)
Definition initSecurityFromStore {DW B D} (c : Settings.Config) (orgID : uuid) (roles : RoleDB DW) (audit : B) (budgets : D)
    : SecurityManager.Manager (PGRBAC DW) B (PGBudgetManager f64 D) :=
  SecurityManager.NewManager (NewPGRBAC roles orgID (buildRBACConfig (c_Security c))) audit (mkPG budgets (bu_DefaultLimitUSD (c_Budget c))).

(** The providers of the secrets; one that cannot be made, or is unknown, is skipped, and
    without any the environment is the provider. *)
Definition secret_provider_of (w : W) (sp : SecretProviderConfig) : option (SecretProvider W) :=
  if String.eqb (Settings.sp_Type sp) "env" then Some NewEnvProvider
  else if String.eqb (Settings.sp_Type sp) "vault" then
    match NewVaultProvider (Settings.sp_Config sp) w with
    | Err _ => None
    | Ok vp => Some (mkSecretProvider "vault" (vault_Resolve vp))
    end
  else None.
Definition secret_provider (s : option SecretsConfig) (w : W) : SecretProvider W :=
  match omap (secret_provider_of w) (section_or sc_Providers [] s) with
  | [] => NewEnvProvider
  | providers => NewCompositeProvider providers
  end.

(** The tools of the infrastructure; [infra_exec] looks up the tools of MCP servers, which
    are registered by then. *)
Definition infra_tools `{!World W} `{!UuidParse} `{!InfraStore W} `{!JsonIndent} `{!ErrorText} (c : Settings.Config)
    (orgID : uuid) (reg : Registry f64 Params W) (w : W) : list (Tool f64 Params W) :=
  if section_or if_Enabled false (c_Infrastructure c)
  then [lookup_tool orgID; manage_tool orgID; exec_tool (mkExecTool (secret_provider (c_Secrets c) w) reg orgID)]
  else [].

(** [initShared]; [soulContext] is what loading the soul gave (the empty text without one). *)
Definition initShared `{!World W} `{!UuidParse} `{!InfraStore W} `{!JsonIndent} `{!ErrorText} {DW B D} (c : Settings.Config)
    (roles : RoleDB DW) (audit : B) (budgets : D) (soulContext : string)
    : st W (outcome (SharedComponents (SecurityManager.Manager (PGRBAC DW) B (PGBudgetManager f64 D)) W Client)) :=
  begin_start c (fun ws auditPath llm =>
  attempt (initStore c) "initializing storage" (fun _ =>
  attempt (unless store_Migrate) "running migrations" (fun _ =>
  attempt (store_EnsureOrg (org_name c)) "ensuring default org" (fun orgID =>
  attempt (mret (initSandbox (c_Sandbox c))) "initializing sandbox" (fun sbx =>
  regs ← build_registry sbx (c_Tools c);
  match regs with
  | None => mret None
  | Some (reg, clients) =>
      infra ← st_get (infra_tools c orgID reg);
      match register_all reg infra with
      | None => mret None
      | Some reg =>
          mret (Some (Ok (mkShared (new_agent c llm reg orgID (memory_on (c_Memory c)) read_only soulContext)
            (initSecurityFromStore c orgID roles audit budgets) sbx
            (Approval.NewManager (approvalTTL (c_Approval c))) (default no_approver (auto_approver (c_Approval c))) ws orgID clients)))
      end
  end))))).
End startup.

(** * Properties *)

(** ** The registered tools *)

Section registered.
Context {Client Content W : Type} `{!McpLibrary Client Content W} `{!Environment W} `{!MapRange string string}.
Context `{!HasFS W} `{!FileInfo} `{!Render} `{!HttpClient W} `{!DurationText}.
Implicit Types (reg : Registry f64 Params W) (t : Tool f64 Params W) (cfgs : list MCPServerConfig).

Definition mcp_tool_of (srv : MCPServerConfig) (t : Tool f64 Params W) : Prop :=
  exists client info, t = mcp_tool client (mp_Name srv) (mcp_action srv) info.

Lemma ConnectAndDiscover_tools cfg clients w ts :
  (ConnectAndDiscover cfg clients w).1.1 = Ok ts -> Forall (mcp_tool_of cfg) ts.
Proof.
  unfold ConnectAndDiscover, mbind, st_bind. destruct (createClient cfg w) as [[c|e] w1]; [|done].
  destruct (mcp_Initialize c w1) as [[e|] w2]; [done|]. destruct (mcp_ListTools c w2) as [[infos|e] w3]; [|done].
  simpl. intros [= <-]. apply Forall_forall. intros t (info & -> & _)%list_elem_of_fmap. by exists c, info.
Qed.

(** What is registered after the servers: nothing is lost, and what is new is a tool of a
    configured server. *)
Lemma register_servers_spec cfgs reg clients w reg' clients' :
  (register_servers cfgs reg clients w).1 = Some (reg', clients') ->
  (forall n t, reg_tools reg !! n = Some t -> reg_tools reg' !! n = Some t) /\
  (forall n t, reg_tools reg' !! n = Some t ->
     reg_tools reg !! n = Some t \/ exists srv, srv ∈ cfgs /\ mcp_tool_of srv t /\ n = tool_Name t).
Proof.
  revert reg clients w. induction cfgs as [|cfg cfgs IH]; intros reg clients w; simpl.
  { intros [= <- <-]. by split; [|left]. }
  unfold mbind, st_bind. pose proof (ConnectAndDiscover_tools cfg clients w) as Hts.
  destruct (ConnectAndDiscover cfg clients w) as [[[ts|e] clients1] w1]; simpl in *.
  2: { intros [Hk Hn]%IH. split; [done|]. intros n t [Ht|(srv & Hin & Ht)]%Hn; [by left|right].
       exists srv. split; [by constructor|done]. }
  specialize (Hts ts eq_refl). destruct (register_all reg ts) as [reg1|] eqn:E; [|done].
  intros [Hk Hn]%IH. pose proof (register_all_Some ts reg reg1 E) as Hr. split.
  - intros n t Ht. apply Hk, Hr. by left.
  - intros n t [Ht|(srv & Hin & Ht)]%Hn.
    + apply Hr in Ht as [Ht|[Hin ->]]; [by left|right]. exists cfg. split; [by constructor|].
      rewrite Forall_forall in Hts. split; [by apply Hts|done].
    + right. exists srv. split; [by constructor|done].
Qed.

Definition builtin_names : list string :=
  ["shell_exec"; "file_read"; "file_write"; "web_fetch"; "browser"; "git_read"; "git_write"; "code_exec"].

Lemma builtin_tools_names sbx cfg : map tool_Name (builtin_tools (W := W) sbx cfg) = builtin_names.
Proof. done. Qed.

Lemma register_all_fresh (ts : list (Tool f64 Params W)) reg :
  NoDup (map tool_Name ts) -> Forall (fun t => reg_tools reg !! tool_Name t = None) ts ->
  exists reg', register_all reg ts = Some reg'.
Proof.
  revert reg. induction ts as [|t ts IH]; intros reg Hnd Hf; simpl in *; [by eexists|].
  apply NoDup_cons in Hnd as [Hnin Hnd]. apply Forall_cons in Hf as [Ht Hf].
  unfold Register. rewrite Ht. apply IH; [done|]. apply Forall_forall. intros t' Hin. simpl.
  rewrite Forall_forall in Hf. rewrite lookup_insert_ne; [by apply Hf|].
  intros E. apply Hnin. rewrite E. by apply list_elem_of_fmap_2.
Qed.

Lemma builtin_registered sbx cfg :
  exists reg, register_all NewRegistry (builtin_tools (W := W) sbx cfg) = Some reg /\
    forall n t, reg_tools reg !! n = Some t <-> t ∈ builtin_tools sbx cfg /\ n = tool_Name t.
Proof.
  destruct (register_all_fresh (builtin_tools (W := W) sbx cfg) NewRegistry) as (reg & E).
  - rewrite builtin_tools_names. by apply (bool_decide_unpack _).
  - apply Forall_forall. intros t _. by apply lookup_empty.
  - exists reg. split; [done|]. intros n t. rewrite (register_all_Some _ _ _ E). simpl.
    rewrite lookup_empty. naive_solver.
Qed.

(** The registry a start builds holds the built-in tools and, beside them, only tools of the
    configured servers. *)
Lemma build_registry_spec sbx cfg w reg clients :
  (build_registry sbx cfg w).1 = Some (reg, clients) ->
  (forall t, t ∈ builtin_tools sbx cfg -> registry_Get reg (tool_Name t) = Some t) /\
  (forall n t, registry_Get reg n = Some t ->
     n = tool_Name t /\ (t ∈ builtin_tools sbx cfg \/ exists srv, srv ∈ to_MCP cfg /\ mcp_tool_of srv t)).
Proof.
  unfold build_registry. destruct (builtin_registered sbx cfg) as (reg0 & -> & Hr0).
  intros [Hk Hn]%register_servers_spec. split.
  - intros t Hin. apply Hk, Hr0. done.
  - intros n t [[Hin ->]%Hr0|(srv & Hin & Ht & ->)]%Hn; (split; [done|]); [by left|right; by exists srv].
Qed.
End registered.

(** The tools of the infrastructure are always new: registering them cannot panic. *)
Lemma infra_registered {Client Content W} `{!McpLibrary Client Content W} `{!Environment W} `{!MapRange string string}
    `{!HasFS W} `{!FileInfo} `{!Render} `{!HttpClient W} `{!DurationText} `{!VaultHttp W} `{!World W} `{!UuidParse}
    `{!InfraStore W} `{!JsonIndent} `{!ErrorText} c orgID sbx cfg w w' (reg : Registry f64 Params W) (clients : list Client) :
  (build_registry sbx cfg w).1 = Some (reg, clients) ->
  exists reg', register_all reg (infra_tools c orgID reg w') = Some reg'.
Proof.
  intros [_ Hn]%build_registry_spec. unfold infra_tools. destruct (section_or if_Enabled false _); [|by eexists].
  apply register_all_fresh; [by apply (bool_decide_unpack _)|]. apply Forall_forall. intros t Ht.
  destruct (reg_tools reg !! tool_Name t) as [t'|] eqn:E; [|done]. destruct (Hn _ _ E) as [En [Hin|(srv & _ & cl & info & ->)]].
  - apply (list_elem_of_fmap_2 tool_Name) in Hin. change (tool_Name t' ∈ map tool_Name (builtin_tools sbx cfg)) in Hin.
    rewrite builtin_tools_names, <-En in Hin. set_solver.
  - set_solver.
Qed.

(** ** What the configuration grants *)

Definition configured_role (s : SecurityConfig) (u : string) : option RoleConfig :=
  let name := default (se_DefaultRole s) (se_UserRoles s !! u) in
  if String.eqb name "" then None else se_Roles s !! name.

(** The role of the user names the action. *)
Definition permitted (s : SecurityConfig) (u : string) (a : Action) : Prop :=
  exists r, configured_role s u = Some r /\ act_Name a ∈ ro_Permissions r.

(** The role of the user covers the risk of the action and asks for no approval of it. *)
Definition cleared (s : SecurityConfig) (u : string) (a : Action) : Prop :=
  exists r, configured_role s u = Some r /\ (act_RiskLevel a <= ParseRiskLevel (ro_MaxRiskLevel r))%Z /\
    act_Name a ∉ ro_RequireApproval r.

Lemma configured_role_resolved s u :
  (resolveRole (buildRBACConfig s) u = None /\ configured_role s u = None) \/
  (exists name r, configured_role s u = Some r /\
    resolveRole (buildRBACConfig s) u = Some (mkRole name (ro_Permissions r) (ro_MaxRiskLevel r) (ro_RequireApproval r))).
Proof.
  unfold resolveRole, configured_role, roleNameOf. simpl.
  replace (match se_UserRoles s !! u with Some name => name | None => se_DefaultRole s end)
    with (default (se_DefaultRole s) (se_UserRoles s !! u)) by (by destruct (se_UserRoles s !! u)).
  set (name := default _ _). destruct (String.eqb name ""); [by left|]. rewrite map_lookup_imap.
  destruct (se_Roles s !! name) as [r|]; [right; by exists name, r|by left].
Qed.

Lemma rbac_permitted s u a : rbac_CheckPermission (buildRBACConfig s) u a = None <-> permitted s u a.
Proof.
  unfold rbac_CheckPermission, permitted. destruct (configured_role_resolved s u) as [[-> ->]|(name & r & -> & ->)].
  - split; [done|]. by intros (r & ? & _).
  - unfold roleHasPermission. simpl. destruct (slice_contains _ _) eqn:E; split; try done.
    + intros _. exists r. split; [done|]. by apply slice_contains_true.
    + intros (r' & [= <-] & Hin%slice_contains_true). by rewrite Hin in E.
Qed.

Lemma rbac_cleared s u a : rbac_RequireApproval (buildRBACConfig s) u a = None <-> cleared s u a.
Proof.
  unfold rbac_RequireApproval, cleared. destruct (configured_role_resolved s u) as [[-> ->]|(name & r & -> & ->)].
  - split; [done|]. by intros (r & ? & _).
  - simpl. destruct (Z.ltb_spec (ParseRiskLevel (ro_MaxRiskLevel r)) (act_RiskLevel a)).
    { split; [done|]. intros (r' & [= <-] & Hle & _). lia. }
    destruct (slice_contains _ _) eqn:E; split; try done.
    + intros (r' & [= <-] & _ & Hnin). by apply slice_contains_true in E.
    + intros _. exists r. split; [done|]. split; [done|]. intros Hin%slice_contains_true. by rewrite Hin in E.
Qed.

(** The policies let the user call the tool. *)
Definition policy_allows (c : Settings.Config) (u k : string) : Prop :=
  match policy_enforcer (c_Policies c) with None => True | Some pe => CheckToolAllowed pe u k = None end.

(** ** A started agent at work *)

(** The calls of the gateways, and what happens between them: approvals are resolved, the
    world goes on. *)
Inductive agent_call (W : Type) : Type :=
  | CallProcess (input : Input)
  | CallExecute (req : ToolRequest Params)
  | CallResume (id : string)
  | Between (resolve : Approval.Manager f64 Params -> Approval.Manager f64 Params) (world : W -> W).
Arguments CallProcess {W}.
Arguments CallExecute {W}.
Arguments CallResume {W}.
Arguments Between {W}.

Section served.
Context {Client Content W C : Type} `{!McpLibrary Client Content W} `{!StartupOS W} `{!Machine}.
Context `{!ProcessOS W} `{!HasFS W} `{!FileInfo} `{!HttpClient W} `{!DurationText} `{!CpuFormat f64}.
Context `{!Environment W} `{!VaultHttp W} `{!Render} `{!MapRange string string} `{!GoJson Params} `{!Decode Params}.
Context `{!LlmHttp W} `{!Encode (Anthropic.apiRequest (P := Params))} `{!Decode (Anthropic.apiResponse (P := Params))}.
Context `{!Encode (OpenAI.apiRequest (P := Params))} `{!Decode OpenAI.apiResponse}.
Context `{!Encode (Gemini.apiRequest (P := Params))} `{!Decode (Gemini.apiResponse (P := Params))}.
Context `{!Digest} `{!ErrorText} `{!Env W} `{!AuditFile f64 Params} `{!ConversationStore C Params}.
Context `{!GoSort (Runbook * f64)} `{!MapRange string (Tool f64 Params W)}.
Abbreviation S := (SecurityManager.Manager RBAC (AuditLogger f64 Params) (BudgetManager f64)).
Abbreviation AgentState := (State f64 Params S C W).
Implicit Types (o : Orchestrator f64 Params W) (s : AgentState) (c : Settings.Config).

Definition serve_call o (call : agent_call W) : st AgentState unit :=
  match call with
  | CallProcess input => _ ← Process o input; mret tt
  | CallExecute req => _ ← ExecuteTool o req; mret tt
  | CallResume id => _ ← ResumeWithApproval o id; mret tt
  | Between f g => st_modify (fun s => mkState (s_security s) (f (s_approvals s)) (s_auto s) (s_cache s) (s_conv s) (g (s_world s)) (s_trace s))
  end.
Definition serve o (calls : list (agent_call W)) : st AgentState unit := st_each (serve_call o) calls.

(** A run that was checked for its user, or that resumes an approved request. *)
Definition checked_run (r : RBAC) o (u : string) (t : Tool f64 Params W) : Prop :=
  let a := tool_RequiredAction t in
  rbac_CheckPermission r u a = None /\
  (match o_policyEnforcer o with None => True | Some pe => CheckToolAllowed pe u (tool_Name t) = None end) /\
  (rbac_RequireApproval r u a = None \/ o_autonomousMode o = true \/ o_autoApprover o = true).
(** The call resumes a request that is approved: it begins with reading the request, whose
    user, tool and parameters are those of the run. *)
Definition resumed_run (call : agent_call W) (tr : list (event f64 Params)) (u k : string) (p : Params) : Prop :=
  exists id pa tr', call = CallResume id /\ tr = EvGetApproval id (Ok pa) :: tr' /\ pa_Status pa = StatusApproved /\
    pa_ToolName pa = k /\ pa_Parameters pa = p /\ pa_UserID pa = u.
(** [tr] are the events of the call. *)
Definition guarded_run (r : RBAC) o (reg : Registry f64 Params W) (call : agent_call W) (tr : list (event f64 Params))
    (u k : string) (p : Params) : Prop :=
  exists t, registry_Get reg k = Some t /\ tool_Name t = k /\ (checked_run r o u t \/ resumed_run call tr u k p).

(** One execution, when the tools are registered under their names. *)
Lemma execution_guarded r o reg q tr y u k p x call tr' :
  o_security o = true -> o_toolRegistry o = Some reg ->
  (forall n t, registry_Get reg n = Some t -> n = tool_Name t) ->
  exec_trace o q tr y -> Forall (rbac_event r) tr -> EvExecute u k p x ∈ tr -> guarded_run r o reg call tr' u k p.
Proof.
  intros Hs Hreg Hnames Ht Hok Hin.
  destruct (exec_trace_execute o q tr y u k p x Ht Hs Hin) as (t & g & t' & -> & Hk & Hp & Hg & Hr & Hin').
  destruct (run_trace_execute q t _ _ _ t' _ u k p x Hr Hin') as (-> & -> & -> & _).
  apply Forall_app in Hok as [Hok _]. destruct (grant_trace_rbac o q r _ _ g Hg Hok) as (Hperm & Ha).
  destruct Hk as (reg' & Hreg' & Hget & _). rewrite Hreg in Hreg'. injection Hreg' as <-.
  pose proof (Hnames _ _ Hget) as Hn. exists t. rewrite <-Hn. split; [done|]. split; [done|]. left. split; [done|].
  unfold policyCheck in Hp. rewrite Hn in Hp. split; [by destruct (o_policyEnforcer o)|].
  destruct Ha as [Ha|[_ [Ha|[Ha _]]]]; auto.
Qed.

Lemma resume_guarded r o reg id tr u k p x :
  o_security o = true -> o_toolRegistry o = Some reg ->
  (forall n t, registry_Get reg n = Some t -> n = tool_Name t) ->
  resume_trace o id tr -> EvExecute u k p x ∈ tr -> guarded_run r o reg (CallResume id) tr u k p.
Proof.
  intros Hs Hreg Hnames Ht Hin.
  destruct (resume_trace_execute o id tr u k p x Ht Hin) as (pa & t & t' & -> & Hst & Hk & -> & -> & Hu & _).
  rewrite Hs in Hu. subst u. destruct Hk as (reg' & Hreg' & Hget & _). rewrite Hreg in Hreg'. injection Hreg' as <-.
  pose proof (Hnames _ _ Hget) as Hn. simpl in Hn, Hget. exists t. rewrite <-Hn. split; [done|]. split; [done|]. right.
  by exists id, pa, t'.
Qed.

Lemma serve_call_guarded r o reg call s :
  o_security o = true -> o_toolRegistry o = Some reg ->
  (forall n t, registry_Get reg n = Some t -> n = tool_Name t) -> sec_rbac (s_security s) = r ->
  exists tr, s_trace (serve_call o call s).2 = s_trace s ++ tr /\ sec_rbac (s_security (serve_call o call s).2) = r /\
    forall u k p x, EvExecute u k p x ∈ tr -> guarded_run r o reg call tr u k p.
Proof.
  intros Hs Hreg Hnames Hr. pose proof (rbac_invariant (F := f64) (P := Params)
    (B := AuditLogger f64 Params) (D := BudgetManager f64) r) as HI.
  destruct call as [input|req|id|f g]; simpl; unfold mbind, st_bind.
  - destruct (process_runs _ _ HI o input s Hr) as (tr & Ht & Hok & Hr' & Hex).
    destruct (Process o input s) as [y s']. simpl in *. exists tr. split; [done|]. split; [done|].
    intros u k p x Hin. destruct (Hex u k p x Hin) as (l1 & t1 & l2 & q & y' & -> & Hin1 & _ & He).
    apply Forall_app in Hok as [_ [Hok _]%Forall_app].
    by eapply execution_guarded.
  - destruct (runs_ExecuteTool _ _ HI o req s Hr) as (tr & Ht & Hok & Hr' & He).
    destruct (ExecuteTool o req s) as [y s']. simpl in *. exists tr. split; [done|]. split; [done|].
    intros u k p x Hin. by eapply execution_guarded.
  - destruct (runs_resume _ _ HI o id s Hr) as (tr & Ht & Hok & Hr' & He).
    destruct (ResumeWithApproval o id s) as [y s']. simpl in *. exists tr. split; [done|]. split; [done|].
    intros u k p x Hin. by eapply resume_guarded.
  - exists []. rewrite app_nil_r. split; [done|]. split; [done|]. intros u k p x Hin. by apply elem_of_nil in Hin.
Qed.

(** Every run of a tool belongs to one of the calls served. *)
Lemma serve_guarded r o reg calls s :
  o_security o = true -> o_toolRegistry o = Some reg ->
  (forall n t, registry_Get reg n = Some t -> n = tool_Name t) -> sec_rbac (s_security s) = r ->
  exists all, s_trace (serve o calls s).2 = s_trace s ++ all /\
    forall u k p x, EvExecute u k p x ∈ all -> exists before call after tr,
      calls = before ++ call :: after /\
      s_trace (serve o (before ++ [call]) s).2 = s_trace (serve o before s).2 ++ tr /\
      EvExecute u k p x ∈ tr /\ guarded_run r o reg call tr u k p.
Proof.
  intros Hs Hreg Hnames. revert s. induction calls as [|call calls IH]; intros s Hr.
  { exists []. unfold serve. simpl. rewrite app_nil_r. split; [done|]. intros u k p x Hin. by apply elem_of_nil in Hin. }
  destruct (serve_call_guarded r o reg call s Hs Hreg Hnames Hr) as (t1 & Ht1 & Hr1 & Hex1).
  assert (forall l, serve o (call :: l) s = serve o l (serve_call o call s).2) as Hstep.
  { intros l. unfold serve. simpl. unfold mbind, st_bind. by destruct (serve_call o call s) as [[] s1]. }
  destruct (IH _ Hr1) as (t2 & Ht2 & Hex2). exists (t1 ++ t2). rewrite Hstep, Ht2, Ht1, app_assoc.
  split; [done|]. intros u k p x [Hin|Hin]%elem_of_app.
  - exists [], call, calls, t1. split; [done|]. split; [|by split; [|apply Hex1 with (x := x)]].
    rewrite app_nil_l, Hstep. exact Ht1.
  - destruct (Hex2 u k p x Hin) as (before & call' & after & tr & -> & Htr & Hin' & Hg).
    exists (call :: before), call', after, tr. split; [done|]. rewrite <-app_comm_cons, !Hstep. by split.
Qed.

(** ** The start *)

Lemma attempt_Ok {A B} (m : st W (result error A)) msg (k : A -> st W (outcome B)) w b w' :
  attempt m msg k w = (Some (Ok b), w') -> exists a w1, m w = (Ok a, w1) /\ k a w1 = (Some (Ok b), w').
Proof.
  unfold attempt, mbind, st_bind. destruct (m w) as [[a|e] w1]; [|done]. intros E. by exists a, w1.
Qed.

Lemma begin_start_Ok {A} c (k : Workspace -> string -> Provider Params W -> st W (outcome A)) w a w' :
  begin_start c k w = (Some (Ok a), w') ->
  exists ws auditPath llm w1, newLLMProvider (c_Providers c) = Ok llm /\ k ws auditPath llm w1 = (Some (Ok a), w').
Proof.
  unfold begin_start. intros (ws & w1 & _ & (u1 & w2 & _ & E)%attempt_Ok)%attempt_Ok.
  unfold mbind at 1, st_bind at 1, st_get in E.
  destruct (attempt_Ok _ _ _ _ _ _ E) as (u2 & w3 & _ & E2).
  destruct (attempt_Ok _ _ _ _ _ _ E2) as (llm & w4 & Hp & E3). injection Hp as Hp <-.
  by exists ws, (audit_path c (get_fs w2)), llm, w3.
Qed.

(** What a start without a database gives. *)
Lemma ws_start_Ok c w sh w' :
  initSharedForWSAgent c w = (Some (Ok sh), w') ->
  exists llm reg clients w1, newLLMProvider (c_Providers c) = Ok llm /\
    initSandbox (c_Sandbox c) = Ok (sh_Sandbox sh) /\
    build_registry (sh_Sandbox sh) (c_Tools c) w1 = (Some (reg, clients), w') /\
    sh_Agent sh = new_agent c llm reg 0%N None ws_read_only "" /\
    sec_rbac (sh_Security sh) = buildRBACConfig (c_Security c) /\
    sec_budget (sh_Security sh) = NewBudgetManager (bu_DefaultLimitUSD (c_Budget c)).
Proof.
  intros (ws & auditPath & llm & w1 & Hp & E)%begin_start_Ok.
  destruct (attempt_Ok _ _ _ _ _ _ E) as (secMgr & w2 & Hsec & E2).
  destruct (attempt_Ok _ _ _ _ _ _ E2) as (sbx & w3 & Hsbx & E3). injection Hsbx as Hsbx <-.
  unfold mbind, st_bind in E3. destruct (build_registry sbx (c_Tools c) w2) as [[[reg clients]|] w4] eqn:Hreg; [|done].
  injection E3 as <- <-. exists llm, reg, clients, w2. simpl. do 4 (split; [done|]).
  unfold initInMemorySecurity, mbind, st_bind in Hsec. destruct (make_dirs _ w1) as [[[]|e] w5]; [|done].
  destruct (audit_Open _ _) as [[e|] w6]; [done|]. by injection Hsec as <- _.
Qed.

(** What is in the trace of an agent that served [calls] from its start. *)
Definition started_trace (sh : SharedComponents S W Client) (conv : C) (w : W) calls : list (event f64 Params) :=
  s_trace (serve (sh_Agent sh) calls (agent_state sh conv w)).2.

(** C4: An agent started without a database (the websocket mode) does what its configuration
    grants.  Let it start from any configuration, and then serve any messages, tool requests
    and resumptions of any users, while approvals are resolved and the world changes in any
    way.  Every run of a tool belongs to one of those calls, and the tool is a built-in one
    or one of a configured MCP server, with the name and action of its server.  Either that
    call resumes a request, read as approved at its beginning, of that user for that tool
    with those parameters; or the role the configuration gives the user (or the default role)
    names the action, the policies of the configuration allow the tool, and the role covers
    the risk and asks for no approval of it, unless the configuration turns on the
    autonomous mode or the auto-approval. *)
Theorem started_agent_guarded c w sh w' (conv : C) calls u k p x :
  initSharedForWSAgent c w = (Some (Ok sh), w') ->
  EvExecute u k p x ∈ started_trace sh conv w' calls ->
  exists before call after tr t,
    calls = before ++ call :: after /\
    started_trace sh conv w' (before ++ [call]) = started_trace sh conv w' before ++ tr /\ EvExecute u k p x ∈ tr /\
    tool_Name t = k /\
    (t ∈ builtin_tools (sh_Sandbox sh) (c_Tools c) \/ exists srv, srv ∈ to_MCP (c_Tools c) /\ mcp_tool_of srv t) /\
    (resumed_run call tr u k p \/
     permitted (c_Security c) u (tool_RequiredAction t) /\ policy_allows c u k /\
     (cleared (c_Security c) u (tool_RequiredAction t) \/ c_AutonomousMode c = true \/
      is_Some (auto_approver (c_Approval c)))).
Proof.
  intros (llm & reg & clients & w1 & _ & _ & Hreg & Ho & Hrbac & _)%ws_start_Ok Hin. unfold started_trace in *.
  rewrite Ho in *. pose proof (build_registry_spec (sh_Sandbox sh) (c_Tools c) w1 reg clients) as Hspec.
  rewrite Hreg in Hspec. destruct (Hspec eq_refl) as [_ Hn].
  destruct (serve_guarded (buildRBACConfig (c_Security c)) (new_agent c llm reg 0%N None ws_read_only "") reg
    calls (agent_state sh conv w') eq_refl eq_refl (fun n t Hget => proj1 (Hn n t Hget)) Hrbac) as (all & Hall & Hex).
  rewrite Hall in Hin. destruct (Hex u k p x Hin) as (before & call & after & tr & -> & Htr & Hin' & t & Hget & <- & Hc).
  exists before, call, after, tr, t. do 4 (split; [done|]). split; [by apply (Hn _ _ Hget)|].
  destruct Hc as [(Hperm & Hpol & Ha)|Ha]; [right|by left]. rewrite <-rbac_permitted, <-rbac_cleared.
  split; [done|]. split; [done|]. simpl in Ha. rewrite bool_decide_eq_true in Ha. tauto.
Qed.
End served.

(** ** MCP tools *)

Lemma drop_required schema : mcp_required (convertInputSchema schema) = is_Required schema.
Proof.
  unfold mcp_required, convertInputSchema, param, object. simpl.
  destruct (is_Properties schema) as [props|], (bool_decide_reflect (is_Required schema = [])) as [->|Hne]; simpl;
    (rewrite !lookup_insert_ne by done); rewrite ?lookup_empty, ?lookup_insert_eq; [done| |done|].
  all: clear Hne; induction (is_Required schema) as [|s l IH]; simpl; [done|by f_equal].
Qed.

Lemma missing_key_None keys params : missing_key keys params = None <-> Forall (fun key => is_Some (param params key)) keys.
Proof.
  induction keys as [|key keys IH]; simpl; [by split; [constructor|]|]. rewrite Forall_cons, <-IH.
  destruct (param params key); split; [by intros ->|by intros [_ ?]|done|by intros [[? ?] _]].
Qed.

Definition infra_names : list string := ["infra_lookup"; "infra_manage"; "infra_exec"].

Section mcp_properties.
Context {Client Content W : Type} `{!McpLibrary Client Content W}.

(** C31: What the bridge makes of a tool of a server.  It never takes the name of a built-in
    tool or of an infrastructure tool; all tools of a server need the same permission, which
    names the server unless one is configured, and an unknown risk is the highest; the
    parameters are valid exactly when the keys the server requires are there; a call reaches
    the server once, under the server's own name for the tool, and its answer is bounded
    and marked as the server marked it. *)
Theorem mcp_tool_contract (client : Client) srv info :
  let t := mcp_tool client (mp_Name srv) (mcp_action srv) info in
  tool_Name t ∉ builtin_names ++ infra_names /\
  (act_Name (tool_RequiredAction t) = if String.eqb (mp_Permission srv) "" then "mcp__" +:+ mp_Name srv else mp_Permission srv) /\
  (mp_RiskLevel srv ∉ [""; "low"; "medium"; "high"] -> act_RiskLevel (tool_RequiredAction t) = RiskCritical) /\
  (forall params w, tool_Validate t params w = None <->
     Forall (fun key => is_Some (param params key)) (is_Required (ti_InputSchema info))) /\
  (forall user params w, let '(r, w') := tool_Execute t user params w in
     w' = (mcp_CallTool client (ti_Name info) params w).2 /\
     match (mcp_CallTool client (ti_Name info) params w).1, r with
     | Err _, Err _ => True
     | Ok (content, isError), Ok res =>
         tr_Success res = negb isError /\ tr_Output res = TruncateOutput (formatMCPContent content) MaxOutputBytes /\
         String.length (tr_Output res) <= MaxOutputBytes
     | _, _ => False
     end).
Proof.
  intros t. split; [|split; [|split; [|split]]].
  - unfold t. intros Hin. simpl in Hin.
    repeat (apply elem_of_cons in Hin as [Hin|Hin]; [done|]). by apply elem_of_nil in Hin.
  - done.
  - unfold t, mcp_tool, mcp_action, ParseRiskLevel. simpl. intros Hn.
    repeat match goal with |- context [String.eqb ?a ?b] => destruct (String.eqb_spec a b) end; set_solver.
  - intros params w. unfold t. simpl. unfold mcp_Validate. by rewrite missing_key_None, drop_required.
  - intros user params w. unfold t. simpl. unfold mcp_Execute, mbind, st_bind.
    destruct (mcp_CallTool client (ti_Name info) params w) as [[[content isError]|e] w1]; simpl; [|done].
    do 3 (split; [done|]). apply TruncateOutput_bound.
Qed.
End mcp_properties.

(** ** Witnesses

    A machine on which everything answers at once: one MCP server with one tool. *)

Section example.
#[local] Instance start_lib : McpLibrary string string FS := {
  NewStdioMCPClient command _ _ w := (Ok command, w);
  NewSSEMCPClient _ _ w := (Err (Errorf "refused"), w);
  NewStreamableHttpClient _ _ w := (Err (Errorf "refused"), w);
  mcp_Initialize _ w := (None, w);
  mcp_ListTools c w := (Ok [mkToolInfo (c +:+ "search") "Search issues" (mkInputSchema "object" None ["q"])], w);
  mcp_CallTool _ name _ w := (Ok (["two issues"; name], false), w);
  mcp_Close _ w := (None, w);
  AsTextContent s := Some s;
  content_Marshal _ := "";
}.
#[local] Instance start_os : StartupOS FS := {
  observability_New _ w := (None, w);
  audit_Open _ w := (None, w);
  sqlite_Open _ _ w := (None, w);
  postgres_Open _ _ _ _ w := (None, w);
  store_Migrate w := (None, w);
  store_EnsureOrg _ w := (Ok 1%N, w);
}.
#[local] Instance start_machine : Machine := {
  env _ := ""; home := Ok ["home"; "ann"];
  parse_YAML _ := Err (Errorf "yaml"); parse_JSON _ := Err (Errorf "json");
}.
#[local] Instance start_process : ProcessOS FS := {
  os_MkdirTemp w := (Ok "/tmp/x", w); os_RemoveAll _ w := (tt, w);
  os_Run _ w := (mkRun [] [] None false 0%Z, w); rand_hex w := (Ok "ff", w);
}.
#[local] Instance start_info : FileInfo := { info_size _ := 0%Z; info_mode _ := "-rw-r--r--" }.
#[local] Instance start_http : HttpClient FS := {
  url_Parse _ := Err (Errorf "url"); url_Resolve _ _ := Err (Errorf "url"); net_ParseIP _ := None;
  net_LookupHost _ w := (Err (Errorf "host"), w); http_BadRequest _ _ := None;
  http_RoundTrip _ _ _ w := (Err (Errorf "net"), w);
}.
#[local] Instance start_durations : DurationText := { ParseDuration _ := Err (Errorf "duration"); Duration_String _ := "0s" }.
#[local] Instance start_cpus : CpuFormat f64 := { format_cpus _ := "1.00" }.
#[local] Instance start_env : Environment FS := { os_Getenv _ _ := "" }.
#[local] Instance start_vault : VaultHttp FS := {
  vault_Get _ _ w := (Err (Errorf "vault"), w); vault_Unmarshal _ := Err (Errorf "json"); vault_Marshal _ := Err (Errorf "json");
}.
#[local] Instance start_render : Render := { itoa _ := "0"; uuid_String _ := "id" }.
#[local] Instance start_json : GoJson Params := { json_marshal _ := "{}" }.
#[local] Instance start_params : Decode Params := { json_unmarshal _ := Err (Errorf "json") }.
#[local] Instance start_llm : LlmHttp FS := { post_invalid _ := None; http_post _ _ _ w := (Err (Errorf "net"), w) }.
#[local] Instance start_encode {A} : Encode A := { encode _ := Ok "{}" }.
#[local] Instance start_decode {A} : Decode A | 200 := { json_unmarshal _ := Err (Errorf "json") }.
#[local] Instance start_digest : Digest := { sha256_16 s := s }.
#[local] Instance start_errors : ErrorText := { error_Error _ := "error" }.
#[local] Instance start_ids : Env FS := {
  env_now w := (0%Z, w); env_uuid w := (1%N, w); env_generateID w := (Ok "a1", w); parse_uuid _ := None;
}.
#[local] Instance start_audit : AuditFile f64 Params := { audit_marshal _ := None; audit_write _ _ := None }.

Definition start_world : FS := mkFS {[["home"] := NDir; ["home"; "ann"] := NDir]} (Ok ["home"; "ann"]).

(** Everybody is an operator, who may search the issues. *)
Definition start_config (servers : list MCPServerConfig) : Settings.Config :=
  mkConfiguration "" "" false None
    (mkSecurity [] [] "" {["operator" := mkRoleConfig ["mcp__github"] "medium" []]} ∅ "operator") (mkBudget (nofZ 10))
    (mkSandbox "" 1 512 30 false (mkDockerSection "" (nofZ 0) 0))
    (mkTools (mkFileTool [] 0) (mkWebTool [] 0 0) (mkBrowserTool [] 0 0 0) (mkCodeTool []) (mkDatabaseTool "" 0 0) (mkGitTool []) servers)
    (mkGateways None None None None None None) (mkApproval 0 None)
    (mkProviders "" ["openai"; "mystery"] (mkAnthropic "k" "claude") (mkOpenAI "k" "gpt" "") (mkGemini "" "" "") (mkOllama "" ""))
    None None None None None None None None None None None None None None.
Definition mcp_server (name command : string) : MCPServerConfig := mkMCPServer name "stdio" command [] ∅ "" ∅ "" "".
Definition search_request : ToolRequest Params :=
  mkToolRequest "bob" "mcp__github__search" (object [("q", AString "crash")]) "c1" "" "t1".

Definition started := initSharedForWSAgent (start_config [mcp_server "github" ""]) start_world.

Example github_searched :
  match started with
  | (Some (Ok sh), w) => exists r, started_trace sh NewInMemoryConversationStore w [CallExecute search_request] !! 4 =
      Some (EvExecute "bob" "mcp__github__search" (object [("q", AString "crash")]) r) /\ is_ok r = true
  | _ => False
  end.
Proof. vm_compute. eexists. split; reflexivity. Qed.

Lemma started_agent_guarded_witness :
  match started with
  | (Some (Ok sh), w) => exists t, tool_Name t = "mcp__github__search" /\
      (t ∈ builtin_tools (sh_Sandbox sh) (c_Tools (start_config [mcp_server "github" ""])) \/
       exists srv, srv = mcp_server "github" "" /\ mcp_tool_of srv t) /\
      exists r, configured_role (c_Security (start_config [])) "bob" = Some r /\ act_Name (tool_RequiredAction t) ∈ ro_Permissions r
  | _ => False
  end.
Proof.
  pose proof github_searched as Hex. unfold started in *.
  destruct (initSharedForWSAgent _ start_world) as [[[sh|e]|] w] eqn:E; try done.
  destruct Hex as (r & Hin & _). apply list_elem_of_lookup_2 in Hin.
  destruct (started_agent_guarded _ _ sh w _ _ _ _ _ _ E Hin) as (before & call & after & tr & t & Hcalls & _ & _ & Hn & Ht & Hc).
  exists t. split; [done|]. split.
  - destruct Ht as [Ht|(srv & Hin' & Ht)]; [by left|right]. exists srv. split; [|done].
    by apply list_elem_of_singleton in Hin'.
  - destruct Hc as [(id & pa & tr' & -> & _)|(Hc & _ & _)]; [|exact Hc].
    destruct before as [|b [|b' before]]; [by injection Hcalls|by injection Hcalls|by injection Hcalls].
Defined.

(** A server of which nothing is granted: nobody may use its tools. *)
Example other_server_denied :
  match initSharedForWSAgent (start_config [mcp_server "jira" ""]) start_world with
  | (Some (Ok sh), w) =>
      existsb (fun ev => match ev with EvExecute _ _ _ _ => true | _ => false end)
        (started_trace sh NewInMemoryConversationStore w
           [CallExecute (mkToolRequest "bob" "mcp__jira__search" (object [("q", AString "crash")]) "c1" "" "t1")]) = false
  | _ => False
  end.
Proof. by vm_compute. Qed.

(** The names of two servers can make one name of two tools, and the start then panics. *)
Example nested_names_panic :
  (initSharedForWSAgent (start_config [mcp_server "a" "b__"; mcp_server "a__b" ""]) start_world).1 = None.
Proof. by vm_compute. Qed.

(** The process sandbox takes no notice of the network setting. *)
Lemma process_sandbox_ignores_network c net :
  sb_Type c = "process" ->
  initSandbox (W := FS) (mkSandbox (sb_Type c) (sb_MaxCPUCores c) (sb_MaxMemoryMB c) (sb_MaxExecutionSeconds c) net (sb_Docker c)) =
  initSandbox c.
Proof. intros E. unfold initSandbox. simpl. by rewrite E. Qed.

(** An unknown fallback is left out of the chain, an unknown default ends the start. *)
Example providers_ex :
  (match newLLMProvider (W := FS) (c_Providers (start_config [])) with Ok p => pv_Name p | Err _ => "" end) = "anthropic+fallback" /\
  is_ok (newLLMProvider (W := FS) (mkProviders "mystery" ["openai"] (mkAnthropic "" "") (mkOpenAI "" "" "") (mkGemini "" "" "") (mkOllama "" ""))) = false.
Proof. by vm_compute. Qed.
End example.
