(* ===== verification/Observability.v ===== *)
(** * Observability

    [src/internal/observability/anomaly.go], [health.go], [metrics.go], [middleware.go],
    [wrappers.go] and [observability.go]: sliding windows and the detector of error rates,
    readiness, the series of the metrics, and the providers, sandboxes and security managers
    that record what they pass on.  Spans of the tracer and what Prometheus does with a
    series are left out; a lock is held through every operation of the detector. *)

From S2P Require Import Prelude Security LLM Budget SecurityManager Providers ToolValues Config.

(** ** Sliding windows *)

Record AnomalyConfig (F : Type) := mkAnomalyConfig {
  ac_Enabled : bool;
  ac_ErrorRateThreshold : F;
  ac_BudgetSpikeMultiplier : F;
  ac_WindowSeconds : Z;
}.
Arguments mkAnomalyConfig {F}.
Arguments ac_Enabled {F}.
Arguments ac_ErrorRateThreshold {F}.
Arguments ac_BudgetSpikeMultiplier {F}.
Arguments ac_WindowSeconds {F}.

(** The clock of [time.Now]. *)
Class Clock (C : Type) := { c_now : C -> Time * C }.

Section windows.
Context {F : Type} `{Num F}.

Record windowEntry := mkEntry { we_timestamp : Time; we_value : F }.
Record slidingWindow := mkWindow { sw_entries : list windowEntry; sw_window : Duration }.

Fixpoint prune_entries (cutoff : Time) (l : list windowEntry) : list windowEntry :=
  match l with
  | e :: l' => if time_Before (we_timestamp e) cutoff then prune_entries cutoff l' else l
  | [] => []
  end.
Definition prune (now : Time) (w : slidingWindow) : slidingWindow :=
  mkWindow (prune_entries (now - sw_window w)%Z (sw_entries w)) (sw_window w).

Definition window_add (now : Time) (value : F) (w : slidingWindow) : slidingWindow :=
  prune now (mkWindow (sw_entries w ++ [mkEntry now value]) (sw_window w)).

Definition total (l : list windowEntry) : F := fold_left (fun t e => nadd t (we_value e)) l (nofZ 0).
Definition window_sum (now : Time) (w : slidingWindow) : F * slidingWindow :=
  let w := prune now w in (total (sw_entries w), w).
End windows.

Arguments windowEntry F : clear implicits.
Arguments slidingWindow F : clear implicits.

(** ** The detector *)

(** [ad_warnings]: the operations that were reported. *)
Record AnomalyDetector (F : Type) := mkDetector {
  ad_errorCounts : gmap string (slidingWindow F);
  ad_successCounts : gmap string (slidingWindow F);
  ad_budgetSpend : gmap string (slidingWindow F);
  ad_cfg : AnomalyConfig F;
  ad_warnings : list string;
}.
Arguments mkDetector {F}.
Arguments ad_errorCounts {F}.
Arguments ad_successCounts {F}.
Arguments ad_budgetSpend {F}.
Arguments ad_cfg {F}.
Arguments ad_warnings {F}.

(** A detector with the clock it reads. *)
Record Detecting (F C : Type) := mkDetecting { dt_detector : AnomalyDetector F; dt_clock : C }.
Arguments mkDetecting {F C}.
Arguments dt_detector {F C}.
Arguments dt_clock {F C}.

(** ** The series of the metrics *)

(** Counters that grow by whole numbers, counters of amounts, the observations of histograms,
    and the gauge of active requests; a series is a metric with its labels. *)
Definition series : Type := string * list string.
Record MetricsCollector (F : Type) := mkMetrics {
  mt_counts : gmap series Z;
  mt_amounts : gmap series F;
  mt_observed : gmap series (list F);
  mt_active : Z;
}.
Arguments mkMetrics {F}.
Arguments mt_counts {F}.
Arguments mt_amounts {F}.
Arguments mt_observed {F}.
Arguments mt_active {F}.

(** What the wrappers share: the clock, the metrics and the detector, when they are on. *)
Record Observed (F C : Type) := mkObserved {
  ob_clock : C;
  ob_metrics : option (MetricsCollector F);
  ob_anomaly : option (AnomalyDetector F);
}.
Arguments mkObserved {F C}.
Arguments ob_clock {F C}.
Arguments ob_metrics {F C}.
Arguments ob_anomaly {F C}.

Section observability.
Context {F C : Type} `{Num F} `{!Clock C}.

Definition NewAnomalyDetector (cfg : AnomalyConfig F) : AnomalyDetector F := mkDetector ∅ ∅ ∅ cfg [].

Definition windowDuration (a : AnomalyDetector F) : Duration :=
  seconds_or (ac_WindowSeconds (ad_cfg a)) (300 * Second)%Z.

(** The window of a key, a new one when there is none. *)
Definition getOrCreateWindow (a : AnomalyDetector F) (m : gmap string (slidingWindow F)) (key : string)
    : slidingWindow F := default (mkWindow [] (windowDuration a)) (m !! key).

Definition set_errors (m : gmap string (slidingWindow F)) (a : AnomalyDetector F) : AnomalyDetector F :=
  mkDetector m (ad_successCounts a) (ad_budgetSpend a) (ad_cfg a) (ad_warnings a).
Definition set_successes (m : gmap string (slidingWindow F)) (a : AnomalyDetector F) : AnomalyDetector F :=
  mkDetector (ad_errorCounts a) m (ad_budgetSpend a) (ad_cfg a) (ad_warnings a).
Definition set_spend (m : gmap string (slidingWindow F)) (a : AnomalyDetector F) : AnomalyDetector F :=
  mkDetector (ad_errorCounts a) (ad_successCounts a) m (ad_cfg a) (ad_warnings a).
Definition warn (operation : string) (a : AnomalyDetector F) : AnomalyDetector F :=
  mkDetector (ad_errorCounts a) (ad_successCounts a) (ad_budgetSpend a) (ad_cfg a) (ad_warnings a ++ [operation]).

Abbreviation AM := (st (Detecting F C)).

Definition on_detector (f : AnomalyDetector F -> AnomalyDetector F) (s : Detecting F C) : Detecting F C :=
  mkDetecting (f (dt_detector s)) (dt_clock s).
Definition now : AM Time := fun s => let '(t, c) := c_now (dt_clock s) in (t, mkDetecting (dt_detector s) c).

(** [add] to the window of a key in one of the maps. *)
Definition record_in (get : AnomalyDetector F -> gmap string (slidingWindow F))
    (set : gmap string (slidingWindow F) -> AnomalyDetector F -> AnomalyDetector F) (key : string) (value : F) : AM unit :=
  t ← now;
  st_modify (on_detector (fun a => set (<[key := window_add t value (getOrCreateWindow a (get a) key)]> (get a)) a)).

Definition sum_in (get : AnomalyDetector F -> gmap string (slidingWindow F))
    (set : gmap string (slidingWindow F) -> AnomalyDetector F -> AnomalyDetector F) (key : string) : AM F :=
  t ← now;
  w ← st_get (fun s => window_sum t (getOrCreateWindow (dt_detector s) (get (dt_detector s)) key));
  _ ← st_modify (on_detector (fun a => set (<[key := w.2]> (get a)) a));
  mret w.1.

Definition checkErrorRate (operation : string) : AM unit :=
  threshold ← st_get (fun s => ac_ErrorRateThreshold (ad_cfg (dt_detector s)));
  if nleb threshold (nofZ 0) then mret tt
  else
    errors ← sum_in ad_errorCounts set_errors operation;
    successes ← sum_in ad_successCounts set_successes operation;
    let total := nadd errors successes in
    if nltb total (nofZ 5) then mret tt
    else if nltb threshold (ndiv errors total) then st_modify (on_detector (warn operation))
    else mret tt.

Definition RecordError (operation : string) : AM unit :=
  _ ← record_in ad_errorCounts set_errors operation (nofZ 1);
  checkErrorRate operation.
Definition RecordSuccess (operation : string) : AM unit := record_in ad_successCounts set_successes operation (nofZ 1).
Definition RecordBudgetSpend (userID : string) (amount : F) : AM unit := record_in ad_budgetSpend set_spend userID amount.

(** ** Metrics *)

Definition NewMetricsCollector : MetricsCollector F := mkMetrics ∅ ∅ ∅ 0.

Definition count_of (m : MetricsCollector F) (s : series) : Z := default 0%Z (mt_counts m !! s).
Definition add_count (s : series) (n : Z) (m : MetricsCollector F) : MetricsCollector F :=
  mkMetrics (<[s := (count_of m s + n)%Z]> (mt_counts m)) (mt_amounts m) (mt_observed m) (mt_active m).
Definition add_amount (s : series) (x : F) (m : MetricsCollector F) : MetricsCollector F :=
  mkMetrics (mt_counts m) (<[s := nadd (default (nofZ 0) (mt_amounts m !! s)) x]> (mt_amounts m)) (mt_observed m) (mt_active m).
Definition observe (s : series) (x : F) (m : MetricsCollector F) : MetricsCollector F :=
  mkMetrics (mt_counts m) (mt_amounts m) (<[s := default [] (mt_observed m !! s) ++ [x]]> (mt_observed m)) (mt_active m).
Definition set_active (n : Z) (m : MetricsCollector F) : MetricsCollector F :=
  mkMetrics (mt_counts m) (mt_amounts m) (mt_observed m) n.

Definition with_metrics (f : MetricsCollector F -> MetricsCollector F) (o : Observed F C) : Observed F C :=
  mkObserved (ob_clock o) (f <$> ob_metrics o) (ob_anomaly o).
Definition with_anomaly (f : AM unit) (o : Observed F C) : Observed F C :=
  match ob_anomaly o with
  | Some a => let s := (f (mkDetecting a (ob_clock o))).2 in
              mkObserved (dt_clock s) (ob_metrics o) (Some (dt_detector s))
  | None => o
  end.
Definition read_clock (o : Observed F C) : Time * Observed F C :=
  let '(t, c) := c_now (ob_clock o) in (t, mkObserved c (ob_metrics o) (ob_anomaly o)).

(** A call between two readings of the clock: its answer, its state and the duration. *)
Definition timed {W A} (call : W -> A * W) (s : W * Observed F C) : A * Duration * (W * Observed F C) :=
  let '(start, o) := read_clock s.2 in
  let '(a, w) := call s.1 in
  let '(stop, o) := read_clock o in
  (a, (stop - start)%Z, (w, o)).

Definition record_outcome (ok : bool) (operation : string) (o : Observed F C) : Observed F C :=
  with_anomaly (if ok then RecordSuccess operation else RecordError operation) o.
End observability.

(** ** Wrappers *)

Section wrappers.
Context {F C P W S Rel : Type} `{Num F} `{!Clock C}.

Definition success_label (ok : bool) : string := if ok then "success" else "error".

(** [InstrumentedProvider]. *)
Definition llm_metrics (name : string) (resp : result error (LLMResponse P)) (d : Duration)
    (m : MetricsCollector F) : MetricsCollector F :=
  let m := add_count ("llm_requests_total", [name; ""; success_label (is_ok resp)]) 1 m in
  let m := observe ("llm_request_duration_seconds", [name; ""]) (Duration_Seconds d) m in
  match resp with
  | Ok r =>
      let m := add_count ("llm_tokens_used_total", [name; ""; "input"]) (InputTokens (rs_Usage r)) m in
      add_count ("llm_tokens_used_total", [name; ""; "output"]) (OutputTokens (rs_Usage r)) m
  | Err _ => m
  end.

Definition NewInstrumentedProvider (inner : Provider P W) : Provider P (W * Observed F C) :=
  mkProvider (pv_Name inner) (fun req s =>
    let '(resp, d, (w, o)) := timed (pv_SendMessage inner req) s in
    (resp, (w, record_outcome (is_ok resp) "llm_request" (with_metrics (llm_metrics (pv_Name inner) resp d) o)))).

(** [InstrumentedSandbox]. *)
Definition sandbox_status (r : result error ExecutionResult) : string :=
  match r with
  | Err _ => "error"
  | Ok r => if (xr_ExitCode r =? 0)%Z then "success" else "nonzero_exit"
  end.

Definition instrumented_Execute (execute : ExecutionRequest -> W -> result error ExecutionResult * W) (sandboxType : string)
    (req : ExecutionRequest) (s : W * Observed F C) : result error ExecutionResult * (W * Observed F C) :=
  let '(r, d, (w, o)) := timed (execute req) s in
  let o := with_metrics (fun m =>
    observe ("sandbox_execution_duration_seconds", [sandboxType]) (Duration_Seconds d)
      (add_count ("sandbox_executions_total", [sandboxType; sandbox_status r]) 1 m)) o in
  (r, (w, record_outcome (is_ok r) ("sandbox_" +:+ sandboxType) o)).

Definition NewInstrumentedSandbox `{!Sandbox W} (sandboxType : string) : Sandbox (W * Observed F C) :=
  {| sandbox_Execute := instrumented_Execute sandbox_Execute sandboxType |}.

(** [InstrumentedSecurityManager]. *)
Definition recordSecurityCheck (checkType : string) (ok : bool) : Observed F C -> Observed F C :=
  with_metrics (add_count ("security_checks_total", [checkType; if ok then "allowed" else "denied"]) 1).

Definition checked_by (checkType : string) (call : S -> option error * S) (s : S * Observed F C)
    : option error * (S * Observed F C) :=
  let '(err, s') := call s.1 in
  (err, (s', recordSecurityCheck checkType (match err with None => true | Some _ => false end) s.2)).

Section manager.
Context `{!SecurityManager F P S Rel}.
Abbreviation SO := (S * Observed F C)%type.

Definition observed_CheckPermission (s : SO) (userID : string) (action : Action) : option error * SO :=
  checked_by "permission" (fun s => sm_CheckPermission (P := P) (F := F) (Rel := Rel) s userID action) s.
Definition observed_RequireApproval (s : SO) (userID : string) (action : Action) : option error * SO :=
  checked_by "approval" (fun s => sm_RequireApproval (P := P) (F := F) (Rel := Rel) s userID action) s.
Definition observed_CheckBudget (s : SO) (userID : string) (estimatedCost : F) : option error * SO :=
  checked_by "budget" (fun s => sm_CheckBudget (P := P) (Rel := Rel) s userID estimatedCost) s.
Definition observed_ReserveBudget (s : SO) (userID : string) (estimatedCost : F) : result error Rel * SO :=
  let '(r, s') := sm_ReserveBudget (P := P) s.1 userID estimatedCost in
  (r, (s', recordSecurityCheck "budget_reserve" (is_ok r) s.2)).
Definition observed_RecordCost (s : SO) (userID : string) (actualCost : F) : SO :=
  (sm_RecordCost (P := P) (Rel := Rel) s.1 userID actualCost,
   with_metrics (add_amount ("budget_spent_usd_total", [userID]) actualCost) s.2).
Definition observed_LogAction (s : SO) (event : AuditEvent F P) : option error * SO :=
  let '(err, s') := sm_LogAction (Rel := Rel) s.1 event in (err, (s', s.2)).

#[export] Instance NewInstrumentedSecurityManager : SecurityManager F P SO Rel := {
  sm_CheckPermission := observed_CheckPermission;
  sm_RequireApproval := observed_RequireApproval;
  sm_CheckBudget := observed_CheckBudget;
  sm_ReserveBudget := observed_ReserveBudget;
  sm_release fn s := (sm_release (P := P) (F := F) fn s.1, s.2);
  sm_RecordCost := observed_RecordCost;
  sm_LogAction := observed_LogAction;
}.
End manager.

(** [MetricsMiddleware]: [next] gives the handler's error and the status it set, 0 when none. *)
Definition MetricsMiddleware (status : Z -> string) (method path : string) (next : W -> (option error * Z) * W)
    (s : W * Observed F C) : option error * (W * Observed F C) :=
  let o := with_metrics (fun m => set_active (mt_active m + 1) m) s.2 in
  let '((err, code), d, (w, o)) := timed next (s.1, o) in
  let code := if (code =? 0)%Z then 200%Z else code in
  let o := with_metrics (fun m =>
    observe ("http_request_duration_seconds", [method; path]) (Duration_Seconds d)
      (add_count ("http_requests_total", [method; path; status code]) 1 m)) o in
  (err, (w, with_metrics (fun m => set_active (mt_active m - 1) m) o)).
End wrappers.

(** ** Health *)

Record CheckResult := mkCheckResult { cr_Status : string; cr_Message : string }.
Record HealthStatus := mkHealthStatus { hs_Status : string; hs_Checks : gmap string CheckResult }.

Section health.
Context {W : Type} `{!ErrorText}.

Record HealthCheck := mkHealthCheck { hc_Name : string; hc_Check : W -> option error * W }.

Definition AddCheck (h : list HealthCheck) (name : string) (check : W -> option error * W) : list HealthCheck :=
  h ++ [mkHealthCheck name check].

Definition CheckHealth : HealthStatus := mkHealthStatus "ok" ∅.

Definition check_result (err : option error) : CheckResult :=
  match err with Some e => mkCheckResult "fail" (error_Error e) | None => mkCheckResult "ok" "" end.

Fixpoint run_checks (checks : list HealthCheck) (status : HealthStatus) : st W HealthStatus :=
  match checks with
  | [] => mret status
  | c :: checks =>
      err ← (hc_Check c : st W (option error));
      run_checks checks
        (mkHealthStatus (match err with Some _ => "degraded" | None => hs_Status status end)
           (<[hc_Name c := check_result err]> (hs_Checks status)))
  end.

Definition CheckReady (h : list HealthCheck) : st W HealthStatus := run_checks h (mkHealthStatus "ok" ∅).
End health.

Arguments HealthCheck W : clear implicits.

(** ** The facade *)

Record ObservabilityConfig (F : Type) := mkObservabilityConfig {
  oc_Metrics : option bool;
  oc_Anomaly : option (AnomalyConfig F);
}.
Arguments mkObservabilityConfig {F}.
Arguments oc_Metrics {F}.
Arguments oc_Anomaly {F}.

(** [New], without the tracer: nothing without a section, else what is enabled. *)
Definition NewObservability {F C} (c : C) (cfg : option (ObservabilityConfig F)) : option (Observed F C) :=
  match cfg with
  | None => None
  | Some cfg =>
      Some (mkObserved c
        (match oc_Metrics cfg with Some true => Some NewMetricsCollector | _ => None end)
        (match oc_Anomaly cfg with Some a => if ac_Enabled a then Some (NewAnomalyDetector a) else None | None => None end))
  end.

(** * What is observed *)

(** ** Windows

    The reference is the list of everything recorded, with its times; a window keeps what it
    needs of it. *)

Section window_properties.
Context {F : Type} `{Num F}.
Implicit Types (w : slidingWindow F) (log : list (windowEntry F)).

Definition earlier (a b : windowEntry F) : Prop := (we_timestamp a <= we_timestamp b)%Z.
Definition recent (cutoff : Time) log : list (windowEntry F) := filter (fun e => (cutoff <= we_timestamp e)%Z) log.

(** [log] is in order, nothing in it is later than [last], and [w] has all of it that is not
    older than its duration, at least. *)
Definition represents w log (d : Duration) (last : Time) : Prop :=
  sw_window w = d /\ StronglySorted earlier log /\ Forall (fun e => (we_timestamp e <= last)%Z) log /\
  exists cutoff, (cutoff <= last - d)%Z /\ sw_entries w = recent cutoff log.

Lemma recent_recent c c' log : (c <= c')%Z -> recent c' (recent c log) = recent c' log.
Proof.
  intros Hc. unfold recent. induction log as [|e log IH]; [done|].
  rewrite !filter_cons. destruct (decide (c <= we_timestamp e)%Z).
  - rewrite filter_cons. destruct (decide (c' <= we_timestamp e)%Z); by rewrite IH.
  - rewrite decide_False by lia. done.
Qed.

Lemma recent_sorted c log : StronglySorted earlier log -> StronglySorted earlier (recent c log).
Proof.
  induction 1 as [|e log Hs IH Hall]; [constructor|]. unfold recent. rewrite filter_cons.
  destruct (decide _); [|done]. constructor; [done|]. rewrite Forall_forall in Hall |- *.
  intros x [_ Hx]%list_elem_of_filter. by apply Hall.
Qed.

Lemma prune_recent c log : StronglySorted earlier log -> prune_entries c log = recent c log.
Proof.
  induction 1 as [|e log Hs IH Hall]; [done|]. cbn [prune_entries]. unfold recent. rewrite filter_cons.
  unfold time_Before. destruct (Z.ltb_spec (we_timestamp e) c).
  - by rewrite decide_False by lia.
  - rewrite decide_True by lia. f_equal. clear IH Hs. induction Hall as [|x l Hx Hl IH]; [done|].
    rewrite filter_cons, decide_True by (unfold earlier in Hx; lia). by rewrite <-IH.
Qed.

Lemma represents_until w log d last last' : (last <= last')%Z -> represents w log d last -> represents w log d last'.
Proof.
  intros Hl (Hw & Hs & Ha & c & Hc & He). split_and!; [done..| |].
  - eapply Forall_impl; [exact Ha|]. cbn. lia.
  - exists c. split; [lia|done].
Qed.

Lemma prune_represents w log d last now : (last <= now)%Z -> represents w log d last ->
  represents (prune now w) log d now /\ sw_entries (prune now w) = recent (now - d)%Z log.
Proof.
  intros Hl (Hw & Hs & Ha & c & Hc & He).
  assert (sw_entries (prune now w) = recent (now - d)%Z log) as E.
  { unfold prune. cbn. rewrite Hw, He, prune_recent by by apply recent_sorted. apply recent_recent. lia. }
  split; [|done]. split_and!; [done..| |].
  - eapply Forall_impl; [exact Ha|]. cbn. lia.
  - exists (now - d)%Z. split; [lia|done].
Qed.

Lemma add_represents w log d last now v : (0 <= d)%Z -> (last <= now)%Z -> represents w log d last ->
  represents (window_add now v w) (log ++ [mkEntry now v]) d now.
Proof.
  intros Hd Hl (Hw & Hs & Ha & c & Hc & He). unfold window_add. apply (prune_represents _ _ _ now); [lia|].
  split_and!; [done| | |].
  - apply StronglySorted_app_2; [|done|repeat constructor]. intros x y Hx Hy%list_elem_of_singleton. subst y.
    rewrite Forall_forall in Ha. unfold earlier. cbn. by apply Ha in Hx; lia.
  - apply Forall_app. split; [|by constructor]. eapply Forall_impl; [exact Ha|]. cbn. lia.
  - exists c. split; [lia|]. cbn. rewrite He. unfold recent. rewrite filter_app. cbn.
    by rewrite decide_True by lia.
Qed.

Lemma sum_represents w log d last now : (last <= now)%Z -> represents w log d last ->
  represents (window_sum now w).2 log d now /\ (window_sum now w).1 = total (recent (now - d)%Z log).
Proof.
  intros Hl Hr. destruct (prune_represents w log d last now Hl Hr) as [H1 H2].
  unfold window_sum. cbn [fst snd]. by rewrite H2.
Qed.
End window_properties.

(** ** The detector *)

Class MonotoneClock (C : Type) `{!Clock C} := c_now_later : forall c, ((c_now c).1 <= (c_now (c_now c).2).1)%Z.

Section detector.
Context {F C : Type} `{Num F} `{!Clock C} `{!MonotoneClock C}.
Implicit Types (a : AnomalyDetector F) (s : Detecting F C) (l : string -> list (windowEntry F)).

(** What was recorded for every operation. *)
Record History := mkHistory { hi_errors : string -> list (windowEntry F); hi_successes : string -> list (windowEntry F) }.

Definition append_to l (key : string) (e : windowEntry F) : string -> list (windowEntry F) :=
  fun k => if String.eqb k key then l k ++ [e] else l k.

Definition windows_follow a (m : gmap string (slidingWindow F)) l (last : Time) : Prop :=
  forall key, represents (getOrCreateWindow a m key) (l key) (windowDuration a) last.

(** The detector has what it needs of the history, all of it before the next reading. *)
Definition follows s (h : History) : Prop :=
  let a := dt_detector s in
  exists last, (last <= (c_now (dt_clock s)).1)%Z /\
    windows_follow a (ad_errorCounts a) (hi_errors h) last /\
    windows_follow a (ad_successCounts a) (hi_successes h) last.

(** The reference: the error rate over the window ending at [t1] for the errors and at [t2]
    for the successes. *)
Definition alarm (cfg : AnomalyConfig F) (d : Duration) (errors successes : list (windowEntry F)) (t1 t2 : Time) : bool :=
  let e := total (recent (t1 - d)%Z errors) in
  let n := nadd e (total (recent (t2 - d)%Z successes)) in
  negb (nleb (ac_ErrorRateThreshold cfg) (nofZ 0)) && negb (nltb n (nofZ 5)) &&
  nltb (ac_ErrorRateThreshold cfg) (ndiv e n).

Lemma windowDuration_positive a : (0 <= windowDuration a)%Z.
Proof. unfold windowDuration, seconds_or. destruct (Z.ltb_spec 0 (ac_WindowSeconds (ad_cfg a))); assert (0 < Second)%Z by done; nia. Qed.

Lemma follow_insert a a' m l l' last last' key w : windowDuration a' = windowDuration a -> (last <= last')%Z ->
  windows_follow a m l last -> (forall k, k <> key -> l' k = l k) -> represents w (l' key) (windowDuration a) last' ->
  windows_follow a' (<[key := w]> m) l' last'.
Proof.
  intros Hd Hl Hm Hk Hw k. unfold getOrCreateWindow. rewrite Hd. destruct (decide (k = key)) as [->|Hne].
  - by rewrite lookup_insert_eq.
  - rewrite lookup_insert_ne, Hk by done. eapply represents_until; [exact Hl|]. exact (Hm k).
Qed.

Lemma follow_later a a' m l last last' : windowDuration a' = windowDuration a -> (last <= last')%Z ->
  windows_follow a m l last -> windows_follow a' m l last'.
Proof. intros Hd Hl Hm k. unfold getOrCreateWindow. rewrite Hd. eapply represents_until; [exact Hl|]. exact (Hm k). Qed.

(** The reading of the clock, and the state after it. *)
Definition reading s : Time := (c_now (dt_clock s)).1.
Definition ticked s : Detecting F C := mkDetecting (dt_detector s) (c_now (dt_clock s)).2.

Lemma now_run s : now s = (reading s, ticked s).
Proof. unfold now, reading, ticked. by destruct (c_now _). Qed.

Lemma reading_later s : (reading s <= reading (ticked s))%Z.
Proof. exact (c_now_later (dt_clock s)). Qed.

Lemma recording_run get set key v s : record_in get set key v s =
  (tt, on_detector (fun a => set (<[key := window_add (reading s) v (getOrCreateWindow a (get a) key)]> (get a)) a) (ticked s)).
Proof. unfold record_in. by rewrite st_bind_run, now_run. Qed.

Lemma sum_run get set key s :
  let x := window_sum (reading s) (getOrCreateWindow (dt_detector s) (get (dt_detector s)) key) in
  sum_in get set key s = (x.1, on_detector (fun a => set (<[key := x.2]> (get a)) a) (ticked s)).
Proof. unfold sum_in. by rewrite st_bind_run, now_run. Qed.

Lemma append_to_same l key e : append_to l key e key = l key ++ [e].
Proof. unfold append_to. by rewrite String.eqb_refl. Qed.
Lemma append_to_other l key e k : k <> key -> append_to l key e k = l k.
Proof. unfold append_to. by intros ->%String.eqb_neq. Qed.

Definition recorded_error (op : string) s (h : History) : History :=
  mkHistory (append_to (hi_errors h) op (mkEntry (reading s) (nofZ 1))) (hi_successes h).
Definition recorded_success (op : string) s (h : History) : History :=
  mkHistory (hi_errors h) (append_to (hi_successes h) op (mkEntry (reading s) (nofZ 1))).

Lemma add_follows a m l key t t' v : windows_follow a m l t -> (t <= t')%Z ->
  represents (window_add t' v (getOrCreateWindow a m key)) (append_to l key (mkEntry t' v) key) (windowDuration a) t'.
Proof.
  intros Hf Ht. rewrite append_to_same. apply (add_represents _ _ _ t); [apply windowDuration_positive|done|apply Hf].
Qed.

Lemma record_error_follows op s h : follows s h ->
  follows (record_in ad_errorCounts set_errors op (nofZ 1) s).2 (recorded_error op s h).
Proof.
  intros (last & Hl & He & Hs). rewrite recording_run. cbn [fst snd]. exists (reading s). cbn. split; [apply reading_later|]. split.
  - eapply (follow_insert (dt_detector s)); [done|exact Hl|exact He|apply append_to_other|]. by eapply add_follows.
  - eapply (follow_later (dt_detector s)); [done|exact Hl|exact Hs].
Qed.

Lemma record_success_follows op s h : follows s h ->
  follows (record_in ad_successCounts set_successes op (nofZ 1) s).2 (recorded_success op s h).
Proof.
  intros (last & Hl & He & Hs). rewrite recording_run. cbn [fst snd]. exists (reading s). cbn. split; [apply reading_later|]. split.
  - eapply (follow_later (dt_detector s)); [done|exact Hl|exact He].
  - eapply (follow_insert (dt_detector s)); [done|exact Hl|exact Hs|apply append_to_other|]. by eapply add_follows.
Qed.

(** A sum changes nothing the detector follows, and is the sum of what is recent. *)
Lemma sum_errors_follows op s h : follows s h ->
  let r := sum_in ad_errorCounts set_errors op s in
  follows r.2 h /\ dt_clock r.2 = dt_clock (ticked s) /\ ad_cfg (dt_detector r.2) = ad_cfg (dt_detector s) /\
  ad_warnings (dt_detector r.2) = ad_warnings (dt_detector s) /\
  r.1 = total (recent (reading s - windowDuration (dt_detector s))%Z (hi_errors h op)).
Proof.
  intros (last & Hl & He & Hs). rewrite sum_run. cbn [fst snd]. destruct (sum_represents _ _ _ last (reading s) Hl (He op)) as [H1 H2].
  split_and!; try done. exists (reading s). cbn. split; [apply reading_later|]. split.
  - by eapply (follow_insert (dt_detector s)); [done|exact Hl|exact He| |].
  - eapply (follow_later (dt_detector s)); [done|exact Hl|exact Hs].
Qed.

Lemma sum_successes_follows op s h : follows s h ->
  let r := sum_in ad_successCounts set_successes op s in
  follows r.2 h /\ ad_cfg (dt_detector r.2) = ad_cfg (dt_detector s) /\
  ad_warnings (dt_detector r.2) = ad_warnings (dt_detector s) /\
  r.1 = total (recent (reading s - windowDuration (dt_detector s))%Z (hi_successes h op)).
Proof.
  intros (last & Hl & He & Hs). rewrite sum_run. cbn [fst snd]. destruct (sum_represents _ _ _ last (reading s) Hl (Hs op)) as [H1 H2].
  split_and!; try done. exists (reading s). cbn. split; [apply reading_later|]. split.
  - eapply (follow_later (dt_detector s)); [done|exact Hl|exact He].
  - by eapply (follow_insert (dt_detector s)); [done|exact Hl|exact Hs| |].
Qed.

Lemma follows_warn op s h : follows s h -> follows (on_detector (warn op) s) h.
Proof. done. Qed.

Lemma check_follows op s h : follows s h ->
  let a := dt_detector s in
  let s' := (checkErrorRate op s).2 in
  follows s' h /\ ad_warnings (dt_detector s') = ad_warnings a ++
    (if alarm (ad_cfg a) (windowDuration a) (hi_errors h op) (hi_successes h op) (reading s) (reading (ticked s)) then [op] else []).
Proof.
  intros Hf a. unfold checkErrorRate. rewrite st_bind_run. cbn [st_get fst snd]. unfold st_get. cbn [fst snd]. unfold alarm.
  fold a. destruct (nleb (ac_ErrorRateThreshold (ad_cfg a)) (nofZ 0)); [by rewrite app_nil_r|]. rewrite st_bind_run.
  destruct (sum_errors_follows op s h Hf) as (H1 & Hc & Hg & Hw & Hx). destruct (sum_in ad_errorCounts _ _ _) as [x s1].
  cbn [fst snd] in *. rewrite st_bind_run. destruct (sum_successes_follows op s1 h H1) as (H2 & Hg2 & Hw2 & Hy).
  destruct (sum_in ad_successCounts _ _ _) as [y s2]. cbn [fst snd] in *.
  assert (reading s1 = reading (ticked s)) as Hr by (unfold reading; by rewrite Hc).
  assert (windowDuration (dt_detector s1) = windowDuration a) as Hd by (unfold windowDuration; by rewrite Hg).
  rewrite Hr, Hd in Hy. subst x y. fold a. cbn [negb andb]. rewrite Hw in Hw2.
  destruct (nltb _ (nofZ 5)); cbn [negb andb]; [by rewrite app_nil_r|]. destruct (nltb _ _); [|by rewrite app_nil_r].
  split; [by apply follows_warn|]. cbn. by rewrite Hw2.
Qed.

(** The detector forgets nothing it needs and reports exactly the alarms.  After any call
    it still follows the history with the new entry; a success never reports; an error
    reports its operation exactly when the threshold is positive, at least five calls are in
    the window and the share of errors among them is above the threshold. *)
Theorem anomaly_detector_exact op s h : follows s h ->
  let e := (RecordError op s).2 in
  let k := (RecordSuccess op s).2 in
  let cfg := ad_cfg (dt_detector s) in
  follows e (recorded_error op s h) /\ follows k (recorded_success op s h) /\
  ad_warnings (dt_detector k) = ad_warnings (dt_detector s) /\
  ad_warnings (dt_detector e) = ad_warnings (dt_detector s) ++
    (if alarm cfg (windowDuration (dt_detector s)) (hi_errors (recorded_error op s h) op) (hi_successes h op)
          (reading (ticked s)) (reading (ticked (ticked s))) then [op] else []).
Proof.
  intros Hf e k cfg. subst e k. unfold RecordError, RecordSuccess. rewrite st_bind_run.
  destruct (check_follows op _ _ (record_error_follows op s h Hf)) as [H1 H2].
  split; [exact H1|]. split; [by apply record_success_follows|]. split; [by rewrite recording_run|].
  rewrite H2. rewrite recording_run. done.
Qed.
End detector.

(** ** Wrappers *)

Section wrapper_properties.
Context {F C P W S Rel : Type} `{Num F} `{!Clock C}.
Context `{!SecurityManager F P S Rel}.

Lemma timed_transparent {A} (call : W -> A * W) (s : W * Observed F C) :
  (timed call s).1.1 = (call s.1).1 /\ (timed call s).2.1 = (call s.1).2.
Proof. unfold timed. destruct (read_clock s.2) as [t o], (call s.1) as [x w]. by destruct (read_clock o). Qed.

(** Observing changes no answer: every wrapped provider, sandbox, security manager and
    handler answers what the wrapped one does and leaves it in the same state, whether
    metrics and the detector are on or off. *)
Theorem wrappers_transparent (p : Provider P W) `{!Sandbox W} (typ : string) s w (o : Observed F C) :
  (forall req, let '(r, t) := pv_SendMessage (NewInstrumentedProvider p) req (w, o) in (r, t.1) = pv_SendMessage p req w) /\
  (forall req, let '(r, t) := sandbox_Execute (Sandbox := NewInstrumentedSandbox typ) req (w, o) in (r, t.1) = sandbox_Execute req w) /\
  (forall u a, let '(r, t) := sm_CheckPermission (P := P) (Rel := Rel) (s, o) u a in
     (r, t.1) = sm_CheckPermission (P := P) (F := F) (Rel := Rel) s u a) /\
  (forall u a, let '(r, t) := sm_RequireApproval (P := P) (Rel := Rel) (s, o) u a in
     (r, t.1) = sm_RequireApproval (P := P) (F := F) (Rel := Rel) s u a) /\
  (forall u x, let '(r, t) := sm_CheckBudget (P := P) (Rel := Rel) (s, o) u x in (r, t.1) = sm_CheckBudget (P := P) (Rel := Rel) s u x) /\
  (forall u x, let '(r, t) := sm_ReserveBudget (P := P) (s, o) u x in (r, t.1) = sm_ReserveBudget (P := P) s u x) /\
  (forall fn, (sm_release (P := P) (F := F) fn (s, o)).1 = sm_release (P := P) (F := F) fn s) /\
  (forall u x, (sm_RecordCost (P := P) (Rel := Rel) (s, o) u x).1 = sm_RecordCost (P := P) (Rel := Rel) s u x) /\
  (forall e, let '(r, t) := sm_LogAction (Rel := Rel) (s, o) e in (r, t.1) = sm_LogAction (Rel := Rel) s e) /\
  (forall st m path next, let '(e, t) := MetricsMiddleware st m path next (w, o) in (e, t.1) = ((next w).1.1, (next w).2)).
Proof.
  split_and!; intros; cbn.
  - destruct (timed_transparent (pv_SendMessage p req) (w, o)) as [H1 H2]. destruct (timed _ _) as [[r d] [w' o']].
    cbn in *. rewrite H1, H2. by destruct (pv_SendMessage p req w).
  - unfold instrumented_Execute. destruct (timed_transparent (sandbox_Execute req) (w, o)) as [H1 H2].
    destruct (timed _ _) as [[r d] [w' o']]. cbn in *. rewrite H1, H2. by destruct (sandbox_Execute req w).
  - unfold observed_CheckPermission, checked_by. cbn. by destruct (sm_CheckPermission s u a).
  - unfold observed_RequireApproval, checked_by. cbn. by destruct (sm_RequireApproval s u a).
  - unfold observed_CheckBudget, checked_by. cbn. by destruct (sm_CheckBudget s u x).
  - unfold observed_ReserveBudget. cbn. by destruct (sm_ReserveBudget s u x).
  - done.
  - done.
  - unfold observed_LogAction. cbn. by destruct (sm_LogAction s e).
  - unfold MetricsMiddleware. cbn [fst snd]. set (o1 := with_metrics _ o).
    destruct (timed_transparent next (w, o1)) as [H1 H2]. destruct (timed _ _) as [[[r c] d] [w' o']]. cbn in *.
    rewrite H2. f_equal. by destruct (next w) as [[] ?]; inversion H1.
Qed.

(** *** Counts *)

Inductive check_call :=
  | CallPermission (u : string) (a : Action)
  | CallApproval (u : string) (a : Action)
  | CallBudget (u : string) (x : F)
  | CallReserve (u : string) (x : F).

Definition call_type (c : check_call) : string :=
  match c with CallPermission _ _ => "permission" | CallApproval _ _ => "approval" | CallBudget _ _ => "budget" | CallReserve _ _ => "budget_reserve" end.

Definition allowed (err : option error) : bool := match err with None => true | Some _ => false end.
Definition label (ok : bool) : string := if ok then "allowed" else "denied".

(** A call of any security manager: whether it was allowed, and the manager after it. *)
Definition run_call {S'} `{!SecurityManager F P S' Rel} (c : check_call) (s : S') : bool * S' :=
  match c with
  | CallPermission u a => let '(e, s) := sm_CheckPermission (P := P) (F := F) (Rel := Rel) s u a in (allowed e, s)
  | CallApproval u a => let '(e, s) := sm_RequireApproval (P := P) (F := F) (Rel := Rel) s u a in (allowed e, s)
  | CallBudget u x => let '(e, s) := sm_CheckBudget (P := P) (Rel := Rel) s u x in (allowed e, s)
  | CallReserve u x => let '(r, s) := sm_ReserveBudget (P := P) (Rel := Rel) s u x in (is_ok r, s)
  end.
Fixpoint run_calls {S'} `{!SecurityManager F P S' Rel} (cs : list check_call) (s : S') : list bool * S' :=
  match cs with
  | [] => ([], s)
  | c :: cs => let '(b, s) := run_call c s in let '(bs, s) := run_calls cs s in (b :: bs, s)
  end.

Definition outcome_count (typ : string) (ok : bool) (cs : list check_call) (bs : list bool) : Z :=
  Z.of_nat (countb (fun cb => String.eqb (call_type cb.1) typ && Bool.eqb cb.2 ok) (zip cs bs)).

Lemma run_call_observed c s (o : Observed F C) : run_call c (s, o) =
  ((run_call c s).1, ((run_call c s).2, recordSecurityCheck (call_type c) (run_call c s).1 o)).
Proof.
  destruct c; cbn; unfold observed_CheckPermission, observed_RequireApproval, observed_CheckBudget, checked_by, observed_ReserveBudget; cbn.
  - by destruct (sm_CheckPermission s u a).
  - by destruct (sm_RequireApproval s u a).
  - by destruct (sm_CheckBudget s u x).
  - by destruct (sm_ReserveBudget s u x).
Qed.

Lemma count_of_add (m : MetricsCollector F) sr sr' n b : (b = true <-> sr = sr') ->
  count_of (add_count sr n m) sr' = (count_of m sr' + if b then n else 0)%Z.
Proof.
  intros Hb. unfold count_of at 1, add_count. cbn [mt_counts]. destruct b.
  - destruct (proj1 Hb eq_refl). by rewrite lookup_insert_eq.
  - rewrite lookup_insert_ne by (intros E; by apply Hb in E). unfold count_of. lia.
Qed.

(** The counters of the security checks are exact: over any sequence of checks the wrapped
    manager gives the answers of the inner one, and the counter of each kind and result has
    grown by the number of those checks that had that result. *)
Theorem security_counts_exact cs s (o : Observed F C) m : ob_metrics o = Some m ->
  let '(bs, (s', o')) := run_calls cs (s, o) in
  (bs, s') = run_calls cs s /\ exists m', ob_metrics o' = Some m' /\ forall typ ok,
    count_of m' ("security_checks_total", [typ; label ok]) =
    (count_of m ("security_checks_total", [typ; label ok]) + outcome_count typ ok cs bs)%Z.
Proof.
  revert s o m. induction cs as [|c cs IH]; intros s o m Hm; cbn [run_calls].
  { split; [done|]. exists m. split; [done|]. intros. unfold outcome_count, countb. cbn [zip zip_with List.filter length]. lia. }
  rewrite run_call_observed. destruct (run_call c s) as [b s1]. cbn [fst snd].
  specialize (IH s1 (recordSecurityCheck (call_type c) b o) _ ltac:(cbn; by rewrite Hm)).
  destruct (run_calls cs (s1, _)) as [bs [s' o']]. destruct IH as (<- & m' & Hm' & Hc).
  split; [done|]. exists m'. split; [done|]. intros typ ok.
  rewrite Hc, (count_of_add _ _ _ _ (String.eqb (call_type c) typ && Bool.eqb b ok)).
  - unfold outcome_count, countb. cbn [zip zip_with List.filter fst snd]. destruct (_ && _); cbn [length]; lia.
  - rewrite andb_true_iff, String.eqb_eq, Bool.eqb_true_iff. split; [by intros [-> ->]|]. intros [= -> E]. split; [done|].
    by destruct b, ok.
Qed.
End wrapper_properties.

(** ** Health *)

Section health_properties.
Context {W : Type} `{!ErrorText}.
Implicit Types (h : list (HealthCheck W)).

(** The outcomes of the checks, one after the other. *)
Fixpoint outcomes h (w : W) : list (option error) :=
  match h with [] => [] | c :: h => (hc_Check c w).1 :: outcomes h (hc_Check c w).2 end.

Lemma run_checks_spec h : forall status w,
  (hs_Status (run_checks h status w).1 = if forallb allowed (outcomes h w) then hs_Status status else "degraded") /\
  hs_Checks (run_checks h status w).1 =
    fold_left (fun m ce => <[hc_Name ce.1 := check_result ce.2]> m) (zip h (outcomes h w)) (hs_Checks status).
Proof.
  induction h as [|c h IH]; intros status w; [done|]. cbn [run_checks outcomes zip zip_with fold_left forallb].
  rewrite st_bind_run. destruct (IH (mkHealthStatus (match (hc_Check c w).1 with Some _ => "degraded" | None => hs_Status status end)
    (<[hc_Name c := check_result (hc_Check c w).1]> (hs_Checks status))) (hc_Check c w).2) as [H1 H2].
  split; [|exact H2]. rewrite H1. cbn [hs_Status]. destruct (hc_Check c w).1; cbn [allowed andb]; [|done]. by destruct (forallb _ _).
Qed.

(** Readiness tells the truth: the service is ready exactly when every check passed, each
    was run once and in order, and each is reported as it came out. *)
Theorem ready_exact h w : NoDup (hc_Name <$> h) ->
  (hs_Status (CheckReady h w).1 = "ok" <-> Forall (fun e => e = None) (outcomes h w)) /\
  forall i c e, h !! i = Some c -> outcomes h w !! i = Some e -> hs_Checks (CheckReady h w).1 !! hc_Name c = Some (check_result e).
Proof.
  intros Hn. unfold CheckReady. destruct (run_checks_spec h (mkHealthStatus "ok" ∅) w) as [H1 H2]. rewrite H1, H2. cbn [hs_Status hs_Checks].
  split.
  - trans (forallb allowed (outcomes h w) = true); [destruct (forallb _ _); split; done|].
    rewrite forallb_forall, Forall_forall. split.
    + intros Hall e He. apply list_elem_of_In in He. specialize (Hall e He). by destruct e.
    + intros Hall e He. apply list_elem_of_In in He. by rewrite (Hall e He).
  - assert (forall l (m0 : gmap string CheckResult) i c e, NoDup ((fun ce => hc_Name ce.1) <$> l) -> l !! i = Some (c, e) ->
      fold_left (fun m ce => <[hc_Name ce.1 := check_result ce.2]> m) l m0 !! hc_Name (W := W) c = Some (check_result e)) as Hfold.
    { clear. induction l as [|x l IH] using rev_ind; intros m0 i c e Hn Hi; [done|]. rewrite fold_left_app. cbn [fold_left].
      rewrite fmap_app in Hn. apply NoDup_app in Hn as (Hn & Hx & _).
      apply lookup_app_Some in Hi as [Hi|[Hl Hi]].
      - rewrite lookup_insert_ne; [by eapply IH|]. intros E. apply (Hx (hc_Name c)); [|cbn; rewrite E; by left].
        apply list_elem_of_fmap. exists (c, e). split; [done|by eapply list_elem_of_lookup_2].
      - destruct (i - length l); [|done]. injection Hi as ->. cbn. by rewrite lookup_insert_eq. }
    intros i c e Hc He. apply (Hfold _ _ i).
    + clear -Hn. revert w. induction h as [|c h IH]; intros w; [constructor|]. cbn in *. apply NoDup_cons in Hn as [Hc Hn].
      constructor; [|by apply IH]. intros ([c' e'] & E & Hin)%list_elem_of_fmap. apply Hc. rewrite E. apply list_elem_of_fmap.
      exists c'. split; [done|]. by apply elem_of_zip_l in Hin.
    + rewrite lookup_zip_with. by rewrite Hc, He.
Qed.
End health_properties.

(** ** Examples *)

Section examples.
#[local] Instance ticks : Clock Z := { c_now c := (c, (c + Second)%Z) }.
#[local] Instance ticks_later : MonotoneClock Z.
Proof. intros c. cbn. assert (0 < Second)%Z by done. lia. Qed.
#[local] Instance health_errors : ErrorText := { error_Error e := match e with Errorf s => s | _ => "e" end }.

Definition no_history : History (F := Q) := mkHistory (fun _ => []) (fun _ => []).
Definition detector_ex : Detecting Q Z := mkDetecting (NewAnomalyDetector (mkAnomalyConfig true (1 # 2)%Q (3 # 1)%Q 60)) 0%Z.

Lemma new_detector_follows : follows detector_ex no_history.
Proof.
  exists 0%Z. split; [done|].
  assert (forall m, m = ∅ -> windows_follow (dt_detector detector_ex) m (fun _ => []) 0%Z) as Hw.
  { intros m -> key. unfold getOrCreateWindow. rewrite lookup_empty. split_and!; [done|constructor|constructor|].
    exists (0 - windowDuration (dt_detector detector_ex))%Z. by split. }
  split; by apply Hw.
Qed.

(** Five errors in a minute: the fifth is reported. *)
Definition four_errors : Detecting Q Z :=
  let e := fun s => (RecordError "llm_request" s).2 in e (e (e (e detector_ex))).
Example fifth_error_reported :
  ad_warnings (dt_detector four_errors) = [] /\
  ad_warnings (dt_detector (RecordError "llm_request" four_errors).2) = ["llm_request"].
Proof. vm_compute. done. Qed.

Example anomaly_detector_exact_witness :
  follows detector_ex no_history /\
  follows (RecordError "llm_request" detector_ex).2 (recorded_error "llm_request" detector_ex no_history).
Proof.
  split; [apply new_detector_follows|].
  exact (proj1 (anomaly_detector_exact "llm_request" detector_ex no_history new_detector_follows)).
Defined.

(** A manager that allows the actions of one user. *)
#[local] Instance one_user : SecurityManager Q unit nat unit := {
  sm_CheckPermission s u _ := (if String.eqb u "ann" then None else Some (Errorf "denied"), S s);
  sm_RequireApproval s _ _ := (None, s);
  sm_CheckBudget s _ _ := (None, s);
  sm_ReserveBudget s _ _ := (Ok tt, s);
  sm_release _ s := s;
  sm_RecordCost s _ _ := s;
  sm_LogAction s _ := (None, s);
}.

Definition calls_ex : list (check_call (F := Q)) :=
  [CallPermission "ann" (mkAction "a" RiskLow); CallPermission "bob" (mkAction "a" RiskLow); CallPermission "bob" (mkAction "b" RiskLow)].
Definition observed_ex : Observed Q Z := mkObserved 0%Z (Some NewMetricsCollector) None.

Example security_counts_exact_witness :
  ob_metrics observed_ex = Some NewMetricsCollector /\
  let '(bs, (s', o')) := run_calls (P := unit) (Rel := unit) calls_ex (0, observed_ex) in
  (bs, s') = run_calls (P := unit) (Rel := unit) calls_ex 0 /\ exists m', ob_metrics o' = Some m' /\ forall typ ok,
    count_of m' ("security_checks_total", [typ; label ok]) =
    (count_of (NewMetricsCollector (F := Q)) ("security_checks_total", [typ; label ok]) + outcome_count typ ok calls_ex bs)%Z.
Proof. split; [reflexivity|]. exact (security_counts_exact (P := unit) (Rel := unit) calls_ex 0 observed_ex NewMetricsCollector eq_refl). Defined.

Definition checks_ex : list (HealthCheck nat) :=
  [mkHealthCheck "database" (fun w => (Some (Errorf "connection refused"), S w)); mkHealthCheck "sandbox" (fun w => (None, S w))].

Example ready_exact_witness :
  NoDup (hc_Name <$> checks_ex) /\
  (hs_Status (CheckReady checks_ex 0).1 = "ok" <-> Forall (fun e => e = None) (outcomes checks_ex 0)).
Proof.
  assert (NoDup (hc_Name <$> checks_ex)) as Hn by (apply (bool_decide_unpack _); vm_compute; exact I).
  split; [exact Hn|]. exact (proj1 (ready_exact checks_ex 0 Hn)).
Defined.
End examples.
