(* ===== verification/GatewayText.v ===== *)
(** * The texts a chat gateway sends

    From [src/internal/gateway/telegram/telegram.go] and [signal/signal.go]: escaping, the
    conversion of Markdown to Telegram's HTML, and the splitting of long messages.  Splitting
    keeps the text and ends; the HTML is a sequence of whole elements. *)

From S2P Require Import Prelude Text.

(** ** Escaping *)

Definition amp : Ascii.ascii := Ascii.ascii_of_nat 38.
Definition lt_sign : Ascii.ascii := Ascii.ascii_of_nat 60.
Definition gt_sign : Ascii.ascii := Ascii.ascii_of_nat 62.
Definition backtick : Ascii.ascii := Ascii.ascii_of_nat 96.
Definition star : Ascii.ascii := Ascii.ascii_of_nat 42.
Definition hash : Ascii.ascii := Ascii.ascii_of_nat 35.
Definition space : Ascii.ascii := Ascii.ascii_of_nat 32.
Definition quote : string := String (Ascii.ascii_of_nat 34) "".

Definition escape_char (c : Ascii.ascii) : string :=
  if Ascii.eqb c amp then "&amp;"
  else if Ascii.eqb c lt_sign then "&lt;"
  else if Ascii.eqb c gt_sign then "&gt;"
  else String c "".

Fixpoint escapeHTML (s : string) : string :=
  match s with
  | EmptyString => ""
  | String c s => escape_char c +:+ escapeHTML s
  end.

(** ** Markdown to HTML *)

(** The first byte of a text is [c]. *)
Definition starts (c : Ascii.ascii) (s : string) : bool :=
  match s with String a _ => Ascii.eqb a c | EmptyString => false end.

Definition fence : string := "```".

(** The element that begins at a line's first byte: its tag, its text and what follows. *)
Definition inline_element (line : string) : option (string * string * string) :=
  match line with
  | EmptyString => None
  | String c rest =>
      let code :=
        if Ascii.eqb c backtick
        then match cut_char backtick rest with Some (t, r) => Some ("code", t, r) | None => None end
        else None in
      let bold :=
        if Ascii.eqb c star && starts star rest
        then match cut (String.substring 1 (String.length rest - 1) rest) "**" with
             | Some (t, r) => if String.eqb t "" then None else Some ("b", t, r)
             | None => None
             end
        else None in
      let italic :=
        if Ascii.eqb c star && negb (starts star rest)
        then match cut_char star rest with
             | Some (t, r) => if String.eqb t "" || starts star r then None else Some ("i", t, r)
             | None => None
             end
        else None in
      match code, bold, italic with
      | Some e, _, _ => Some e
      | None, Some e, _ => Some e
      | None, None, e => e
      end
  end.

Definition element (tag text : string) : string :=
  "<" +:+ tag +:+ ">" +:+ escapeHTML text +:+ "</" +:+ tag +:+ ">".

(** The loop of [formatInline]; every turn takes at least one byte. *)
Fixpoint inline_from (fuel : nat) (line : string) : string :=
  match fuel, line with
  | S fuel, String c rest =>
      match inline_element line with
      | Some (tag, text, after) => element tag text +:+ inline_from fuel after
      | None => escape_char c +:+ inline_from fuel rest
      end
  | _, _ => ""
  end.

Definition formatInline (line : string) : string := inline_from (String.length line) line.

(** [n] hashes, at most six with the blank: a header's text. *)
Definition header_text (line : string) : option string :=
  match cut_char space line with
  | Some (marks, text) =>
      if starts hash line && (String.length marks <=? 6)%nat &&
         (count_char hash marks =? String.length marks)%nat
      then Some text else None
  | None => None
  end.

Definition formatLine (line : string) : string :=
  match header_text line with
  | Some text => element "b" (TrimSpace text)
  | None => formatInline line
  end.

Definition open_code (lang : string) : string :=
  if String.eqb lang "" then "<pre><code>"
  else "<pre><code class=" +:+ quote +:+ "language-" +:+ escapeHTML lang +:+ quote +:+ ">".
Definition close_code : string := "</code></pre>".

(** The loop of [markdownToTelegramHTML] over the lines; [first] is [i = 0]. *)
Fixpoint md_lines (lines : list string) (first inCodeBlock firstCodeLine : bool) : string :=
  match lines with
  | [] => if inCodeBlock then close_code else ""
  | line :: lines =>
      let trimmed := TrimSpace line in
      if has_prefix trimmed fence then
        if negb inCodeBlock
        then open_code (TrimSpace (String.substring 3 (String.length trimmed - 3) trimmed)) +:+
             md_lines lines false true true
        else close_code +:+ (match lines with [] => "" | _ => newline end) +:+
             md_lines lines false false firstCodeLine
      else if inCodeBlock
      then (if firstCodeLine then "" else newline) +:+ escapeHTML line +:+ md_lines lines false true false
      else (if first then "" else newline) +:+ formatLine line +:+ md_lines lines false false firstCodeLine
  end.

Definition markdownToTelegramHTML (text : string) : string := md_lines (split_lines text) true false true.

(** ** Splitting *)

(** [strings.LastIndex]. *)
Fixpoint last_index (s sub : string) : option nat :=
  match s with
  | EmptyString => if has_prefix s sub then Some 0 else None
  | String _ s' =>
      match last_index s' sub with
      | Some i => Some (S i)
      | None => if has_prefix s sub then Some 0 else None
      end
  end.

(** Where a text is cut: after a newline that starts a paragraph break, else after a
    newline, else after a blank, else at the limit. *)
Definition split_at (maxLen : nat) (remaining : string) : nat :=
  let candidate := str_take maxLen remaining in
  match last_index candidate (newline +:+ newline) with
  | Some (S i) => S (S i)
  | _ =>
      match last_index candidate newline with
      | Some (S i) => S (S i)
      | _ => match last_index candidate " " with Some (S i) => S (S i) | _ => maxLen end
      end
  end.

(** [splitMessage] of the Signal gateway; [None] when the fuel runs out. *)
Fixpoint split_from (fuel maxLen : nat) (remaining : string) : option (list string) :=
  match fuel with
  | O => None
  | S fuel =>
      if String.eqb remaining "" then Some []
      else if (String.length remaining <=? maxLen)%nat then Some [remaining]
      else
        let k := split_at maxLen remaining in
        cons (str_take k remaining) <$> split_from fuel maxLen (str_drop k remaining)
  end.

Definition signal_splitMessage (text : string) (maxLen : nat) : option (list string) :=
  if (String.length text <=? maxLen)%nat then Some [text]
  else split_from (S (String.length text)) maxLen text.

(** The fences of a chunk: their number and the language of the last one that opens. *)
Fixpoint scan_fences (fuel : nat) (s : string) (count : nat) (inCodeBlock : bool) (lang : string)
    : nat * string :=
  match fuel with
  | O => (count, lang)
  | S fuel =>
      match cut s fence with
      | None => (count, lang)
      | Some (_, after) =>
          let lang :=
            if Nat.odd (S count) && negb inCodeBlock
            then TrimSpace (match cut after newline with Some (l, _) => l | None => after end)
            else lang in
          scan_fences fuel after (S count) inCodeBlock lang
      end
  end.

(** The fence that opens the next chunk again. *)
Definition reopened (lang : string) : string := fence +:+ lang +:+ newline.

(** [splitMessage] of the Telegram gateway. *)
Fixpoint tg_split_from (fuel maxLen : nat) (remaining : string) (inCodeBlock : bool) (lang : string)
    : option (list string) :=
  match fuel with
  | O => None
  | S fuel =>
      if String.eqb remaining "" then Some []
      else if (String.length remaining <=? maxLen)%nat then Some [remaining]
      else
        let k := split_at maxLen remaining in
        let chunk := str_take k remaining in
        let remaining := str_drop k remaining in
        let '(count, lang) := scan_fences (String.length chunk) chunk 0 inCodeBlock lang in
        let inCodeBlock := if Nat.odd count then negb inCodeBlock else inCodeBlock in
        if inCodeBlock
        then cons (chunk +:+ newline +:+ fence) <$> tg_split_from fuel maxLen (reopened lang +:+ remaining) true lang
        else cons chunk <$> tg_split_from fuel maxLen remaining false lang
  end.

Definition split_fuel (maxLen : nat) (text : string) : nat := S (String.length text) * (maxLen + 3).

Definition telegram_splitMessage (text : string) (maxLen : nat) : option (list string) :=
  if (String.length text <=? maxLen)%nat then Some [text]
  else tg_split_from (split_fuel maxLen text) maxLen text false "".

(** ** Where a text is cut *)

Lemma last_index_Some s sub i :
  last_index s sub = Some i -> has_prefix (str_drop i s) sub = true /\ i + String.length sub <= String.length s.
Proof.
  assert (forall s, has_prefix s sub = true -> String.length sub <= String.length s) as Hlen.
  { intros t [u ->]%has_prefix_spec. rewrite str_app_length. lia. }
  revert i. induction s as [|c s IH]; intros i; cbn [last_index].
  - destruct (has_prefix "" sub) eqn:Ep; [|done]. intros [= <-]. split; [done|]. by apply Hlen in Ep.
  - destruct (last_index s sub) as [j|] eqn:El.
    + intros [= <-]. destruct (IH j eq_refl) as [? ?]. split; [done|]. simpl. lia.
    + destruct (has_prefix (String c s) sub) eqn:Ep; [|done]. intros [= <-]. split; [done|]. by apply Hlen in Ep.
Qed.

(** Every candidate position is the limit, or just after the start of a break in the
    candidate. *)
Lemma split_at_cases maxLen r :
  split_at maxLen r = maxLen \/
  exists i sub, split_at maxLen r = S (S i) /\ sub ∈ [newline +:+ newline; newline; " "] /\
    has_prefix (str_drop (S i) (str_take maxLen r)) sub = true /\ S i + 1 <= String.length (str_take maxLen r).
Proof.
  assert (forall sub i, 1 <= String.length sub -> sub ∈ [newline +:+ newline; newline; " "] ->
    last_index (str_take maxLen r) sub = Some (S i) -> exists j sub', S (S i) = S (S j) /\
      sub' ∈ [newline +:+ newline; newline; " "] /\
      has_prefix (str_drop (S j) (str_take maxLen r)) sub' = true /\ S j + 1 <= String.length (str_take maxLen r)) as Hi.
  { intros sub i Hlen Hin El. apply last_index_Some in El as [Hp Hl]. exists i, sub. split_and!; [done..|lia]. }
  unfold split_at.
  destruct (last_index _ (newline +:+ newline)) as [[|i]|] eqn:E1; [|right; apply Hi with (newline +:+ newline); [simpl; lia|by left|done]|];
  (destruct (last_index _ newline) as [[|i]|] eqn:E2; [|right; apply Hi with newline; [simpl; lia|by right; left|done]|]);
  (destruct (last_index _ " ") as [[|i]|] eqn:E3; [by left|right; apply Hi with " "; [simpl; lia|by right; right; left|done]|by left]).
Qed.

Lemma split_at_bound maxLen r :
  0 < maxLen -> maxLen < String.length r -> 0 < split_at maxLen r <= maxLen.
Proof.
  intros H0 Hr. destruct (split_at_cases maxLen r) as [->|(i & sub & -> & _ & _ & Hi)]; [lia|].
  rewrite str_take_length in Hi. lia.
Qed.

(** A text that begins with a fence is cut after it. *)
Lemma split_at_fence maxLen r : 4 <= maxLen -> 4 <= split_at maxLen (fence +:+ r).
Proof.
  intros Hm. destruct (split_at_cases maxLen (fence +:+ r)) as [->|(i & sub & -> & Hin & Hp & _)]; [done|].
  rewrite str_take_app, str_drop_app, (str_take_all maxLen fence) in Hp by (simpl; lia).
  destruct i as [|[|i]]; [| |lia]; exfalso; revert Hp;
    rewrite !elem_of_cons, elem_of_nil in Hin; destruct Hin as [->|[->|[->|[]]]]; done.
Qed.

(** ** Splitting in the Signal gateway *)

Lemma split_from_ok maxLen : 0 < maxLen -> forall fuel r, String.length r < fuel ->
  exists cs, split_from fuel maxLen r = Some cs /\ String.concat "" cs = r /\
    Forall (fun c => 0 < String.length c <= maxLen) cs.
Proof.
  intros Hm. induction fuel as [|fuel IH]; intros r Hr; [lia|]. cbn [split_from].
  destruct (String.eqb_spec r "") as [->|Hne]; [by exists []|].
  assert (0 < String.length r) as Hr0 by (destruct r; [done|simpl; lia]).
  destruct (Nat.leb_spec (String.length r) maxLen) as [Hle|Hgt].
  { exists [r]. split_and!; [done|by simpl|]. constructor; [lia|done]. }
  pose proof (split_at_bound maxLen r Hm Hgt) as Hk.
  destruct (IH (str_drop (split_at maxLen r) r)) as (cs & -> & Hc & Hall); [rewrite str_drop_length; lia|].
  eexists. split; [reflexivity|]. split.
  - by rewrite concat_cons, Hc, str_take_drop.
  - constructor; [rewrite str_take_length; lia|done].
Qed.

Lemma split_from_mono maxLen f : forall r cs f', split_from f maxLen r = Some cs -> f <= f' ->
  split_from f' maxLen r = Some cs.
Proof.
  induction f as [|f IH]; intros r cs f' E Hf; [done|]. destruct f' as [|f']; [lia|].
  revert E. cbn [split_from]. destruct (String.eqb r ""); [done|]. destruct (_ <=? _)%nat; [done|].
  destruct (split_from f maxLen _) as [cs1|] eqn:E1; [|done]. by rewrite (IH _ cs1 f' E1 ltac:(lia)).
Qed.

(** Signal messages lose nothing.  A text is split, after finitely many cuts, into
    messages of at most the limit that are the text when put together; none is empty,
    unless the text is. *)
Theorem signal_split_exact text maxLen :
  0 < maxLen ->
  exists cs, signal_splitMessage text maxLen = Some cs /\ String.concat "" cs = text /\
    Forall (fun c => String.length c <= maxLen /\ (c = "" -> text = "")) cs.
Proof.
  intros Hm. unfold signal_splitMessage. destruct (Nat.leb_spec (String.length text) maxLen) as [Hle|Hgt].
  - exists [text]. split_and!; [done..|]. by constructor.
  - destruct (split_from_ok maxLen Hm (S (String.length text)) text) as (cs & E & Hc & Hall); [lia|].
    exists cs. split_and!; [done..|]. eapply Forall_impl; [exact Hall|]. simpl. intros c Hl.
    split; [lia|]. intros ->. simpl in Hl. lia.
Qed.

(** ** Splitting in the Telegram gateway *)

Abbreviation fence_free := (without_text fence).

Lemma scan_free fuel s n inC lang : fence_free s -> scan_fences fuel s n inC lang = (n, lang).
Proof. intros Hw%without_text_cut. destruct fuel; cbn [scan_fences]; [done|]. by rewrite Hw. Qed.

Lemma scan_in_block fuel : forall s n lang, (scan_fences fuel s n true lang).2 = lang.
Proof.
  induction fuel as [|fuel IH]; intros s n lang; cbn [scan_fences]; [done|].
  destruct (cut s fence) as [[a b]|]; [|done]. cbn [negb]. rewrite andb_false_r. apply IH.
Qed.

Lemma scan_count_mono fuel : forall s n lang, n <= (scan_fences fuel s n false lang).1.
Proof.
  induction fuel as [|fuel IH]; intros s n lang; cbn [scan_fences]; [done|].
  destruct (cut s fence) as [[a b]|]; [|done]. etrans; [|apply IH]. lia.
Qed.

Lemma free_part a s b : fence_free (a +:+ (s +:+ b)) -> fence_free s.
Proof. apply without_text_part. Qed.

Lemma free_trim s : fence_free s -> fence_free (TrimSpace s).
Proof. intros Hs. destruct (TrimSpace_part s) as (a & b & E). rewrite E in Hs. by apply free_part in Hs. Qed.

Lemma free_line s : fence_free s -> fence_free (match cut s newline with Some (l, _) => l | None => s end).
Proof.
  intros Hs. destruct (cut s newline) as [[l r]|] eqn:E; [|done]. apply cut_Some in E. subst s.
  by apply (free_part "" l (newline +:+ r)) in Hs.
Qed.

Lemma trim_length s : String.length (TrimSpace s) <= String.length s.
Proof. destruct (TrimSpace_part s) as (a & b & E). rewrite E at 2. rewrite !str_app_length. lia. Qed.

Lemma line_length s : String.length (match cut s newline with Some (l, _) => l | None => s end) <= String.length s.
Proof. destruct (cut s newline) as [[l r]|] eqn:E; [|done]. apply cut_Some in E. subst s. rewrite str_app_length. lia. Qed.

(** The language after a scan that ends with an open fence is free of fences, and shorter
    than the chunk. *)
Lemma scan_opens fuel : forall s n lang, String.length s <= fuel ->
  let '(m, lang') := scan_fences fuel s n false lang in
  m <> n -> Nat.odd m = true -> fence_free lang' /\ String.length lang' + 3 <= String.length s.
Proof.
  induction fuel as [|fuel IH]; intros s n lang Hs; cbn [scan_fences]; [done|].
  destruct (cut s fence) as [[a after]|] eqn:Ec; [|done]. apply cut_Some in Ec. subst s.
  rewrite !str_app_length in *. simpl String.length in *.
  assert (String.length after <= fuel) as Ha by lia. cbn [negb]. rewrite andb_true_r.
  set (lang1 := if Nat.odd (S n) then _ else _).
  specialize (IH after (S n) lang1 Ha). pose proof (scan_free fuel after (S n) false lang1) as Hfree.
  destruct (decide ((scan_fences fuel after (S n) false lang1).1 = S n)) as [E|E].
  - assert (fence_free after) as Hf.
    { destruct (cut after fence) as [[x y]|] eqn:Ey; [|by apply without_text_cut].
      destruct fuel as [|fuel]; [by destruct after; [|simpl in Ha; lia]|].
      exfalso. revert E. cbn [scan_fences]. rewrite Ey.
      intros E. pose proof (scan_count_mono fuel y (S (S n))
        (if Nat.odd (S (S n)) && negb false then TrimSpace (match cut y newline with Some (l, _) => l | None => y end) else lang1)). lia. }
    rewrite Hfree by done. intros _ Ho. subst lang1. rewrite Ho. split; [by apply free_trim, free_line|].
    pose proof (trim_length (match cut after newline with Some (l, _) => l | None => after end)).
    pose proof (line_length after). lia.
  - destruct (scan_fences fuel after (S n) false lang1) as [m lang']. intros _ Ho.
    destruct (IH E Ho). split; [done|lia].
Qed.

Lemma free_newline s : fence_free s -> fence_free (s +:+ newline).
Proof. apply (without_text_last "``" backtick). done. Qed.

Lemma free_drop n s : fence_free s -> fence_free (str_drop n s).
Proof. intros Hs. rewrite <-(str_take_drop n s), <-(str_app_nil (str_drop n s)) in Hs. by apply free_part in Hs. Qed.

Lemma free_take n s : fence_free s -> fence_free (str_take n s).
Proof. intros Hs. rewrite <-(str_take_drop n s) in Hs. by apply (free_part "") in Hs. Qed.

Lemma scan_step fuel s n inC lang :
  scan_fences (S fuel) (fence +:+ s) n inC lang =
  scan_fences fuel s (S n) inC
    (if Nat.odd (S n) && negb inC
     then TrimSpace (match cut s newline with Some (l, _) => l | None => s end) else lang).
Proof. cbn [scan_fences]. by rewrite cut_now. Qed.

(** A chunk inside a reopened fence has that fence only. *)
Lemma scan_reopened k lang : fence_free lang -> 4 <= k <= String.length (reopened lang) ->
  let chunk := str_take k (reopened lang) in
  scan_fences (String.length chunk) chunk 0 true lang = (1, lang).
Proof.
  intros Hf Hk. cbn zeta. unfold reopened in *. rewrite str_take_app, str_take_all by (simpl; lia).
  rewrite str_app_length. change (String.length fence + String.length ?x) with (S (2 + String.length x)).
  rewrite scan_step, andb_false_r. by apply scan_free, free_take, free_newline.
Qed.

Lemma free_empty : fence_free "".
Proof. by apply without_text_cut. Qed.

Section telegram.
Context (m : nat) (Hm : 4 <= m).

(** What is left of the loop: inside a block the reopened fence and the text [s]; outside,
    a rest [t] of a reopened fence and [s].  The last argument decreases. *)
Inductive tg_state : bool -> string -> string -> nat -> Prop :=
  | tg_in lang s : fence_free lang -> String.length lang + 3 <= m ->
      tg_state true lang (reopened lang +:+ s) (String.length s * (m + 3) + (m + 2))
  | tg_out lang t s : fence_free t ->
      tg_state false lang (t +:+ s) (String.length s * (m + 3) + String.length t).

Lemma tg_out_start lang s : tg_state false lang s (String.length s * (m + 3)).
Proof. rewrite (plus_n_O (_ * _)). by apply (tg_out lang "" s), free_empty. Qed.

(** One turn of the loop. *)
Definition tg_turn (inCodeBlock : bool) (lang remaining : string) : bool * string * string :=
  let chunk := str_take (split_at m remaining) remaining in
  let rest := str_drop (split_at m remaining) remaining in
  let '(count, lang) := scan_fences (String.length chunk) chunk 0 inCodeBlock lang in
  let inCodeBlock := if Nat.odd count then negb inCodeBlock else inCodeBlock in
  (inCodeBlock, lang, if inCodeBlock then reopened lang +:+ rest else rest).

Lemma tg_next b lang r mu :
  tg_state b lang r mu -> m < String.length r ->
  let '(b', lang', r') := tg_turn b lang r in
  exists mu', tg_state b' lang' r' mu' /\ mu' < mu.
Proof.
  intros Hs Hlen. unfold tg_turn. pose proof (split_at_bound m r ltac:(lia) Hlen) as Hk.
  assert (forall x y : string, String.length x < String.length y ->
    String.length x * (m + 3) + (m + 3) <= String.length y * (m + 3)) as Hmul.
  { intros x y Hxy. etrans; [|apply Nat.mul_le_mono_r, Hxy]. lia. }
  destruct Hs as [lang s Hf Hl|lang t s Hf].
  - pose proof (split_at_fence m (lang +:+ newline +:+ s) Hm) as Hk4.
    replace (fence +:+ lang +:+ newline +:+ s) with (reopened lang +:+ s) in Hk4
      by (unfold reopened; by rewrite !str_app_assoc).
    rewrite str_app_length in Hlen. set (k := split_at m (reopened lang +:+ s)) in *.
    destruct (decide (k <= String.length (reopened lang))) as [Hin|Hout].
    + rewrite str_take_app. replace (k - String.length (reopened lang)) with 0 by lia.
      rewrite str_take_zero, str_app_nil, scan_reopened by (done || lia). cbn [Nat.odd Nat.even negb].
      rewrite str_drop_app. replace (k - String.length (reopened lang)) with 0 by lia. cbn [str_drop].
      eexists. split; [apply tg_out|].
      * unfold reopened. rewrite str_drop_app, (str_drop_all k fence) by (simpl; lia). by apply free_drop, free_newline.
      * rewrite str_drop_length. unfold reopened. rewrite !str_app_length. simpl. lia.
    + pose proof (scan_in_block (String.length (str_take k (reopened lang +:+ s))) (str_take k (reopened lang +:+ s)) 0 lang) as El.
      destruct (scan_fences _ _ 0 true lang) as [count lang']. simpl in El. subst lang'.
      rewrite str_drop_app, (str_drop_all k (reopened lang)) by lia. rewrite str_nil_app.
      assert (String.length (str_drop (k - String.length (reopened lang)) s) < String.length s) as Hlt
        by (rewrite str_drop_length; lia).
      specialize (Hmul _ _ Hlt). destruct (Nat.odd count); cbn [negb].
      * eexists. split; [apply tg_out_start|]. lia.
      * eexists. split; [by apply tg_in|]. lia.
  - rewrite str_app_length in Hlen. set (k := split_at m (t +:+ s)) in *.
    destruct (decide (k <= String.length t)) as [Hin|Hout].
    + rewrite str_take_app. replace (k - String.length t) with 0 by lia.
      rewrite str_take_zero, str_app_nil, scan_free by by apply free_take. cbn [Nat.odd Nat.even negb].
      rewrite str_drop_app. replace (k - String.length t) with 0 by lia. cbn [str_drop].
      eexists. split; [by apply tg_out, free_drop|]. rewrite str_drop_length. lia.
    + pose proof (scan_opens (String.length (str_take k (t +:+ s))) (str_take k (t +:+ s)) 0 lang (le_n _)) as Ho.
      destruct (scan_fences _ _ 0 false lang) as [count lang'].
      rewrite str_drop_app, (str_drop_all k t) by lia. rewrite str_nil_app.
      assert (String.length (str_drop (k - String.length t) s) < String.length s) as Hlt
        by (rewrite str_drop_length; lia).
      specialize (Hmul _ _ Hlt). destruct (Nat.odd count) eqn:Eo; cbn [negb].
      * destruct Ho as [Hf' Hl']; [by intros ->|done|]. rewrite str_take_length in Hl'.
        eexists. split; [apply tg_in; [done|lia]|]. lia.
      * eexists. split; [apply tg_out_start|]. lia.
Qed.

Lemma tg_split_step fuel lang r b :
  m < String.length r ->
  let '(b', lang', r') := tg_turn b lang r in
  tg_split_from (S fuel) m r b lang =
  cons (str_take (split_at m r) r +:+ (if b' then newline +:+ fence else "")) <$> tg_split_from fuel m r' b' lang'.
Proof.
  intros Hr. unfold tg_turn. cbn [tg_split_from].
  destruct (String.eqb_spec r "") as [->|_]; [simpl in Hr; lia|].
  destruct (Nat.leb_spec (String.length r) m) as [|_]; [lia|].
  destruct (scan_fences _ _ 0 b lang) as [count lang'].
  destruct (if Nat.odd count then negb b else b); [done|]. by rewrite str_app_nil.
Qed.

Lemma tg_split_ok fuel : forall b lang r mu, tg_state b lang r mu -> mu < fuel ->
  exists cs, tg_split_from fuel m r b lang = Some cs /\ Forall (fun c => String.length c <= m + 4) cs.
Proof.
  induction fuel as [|fuel IH]; intros b lang r mu Hs Hmu; [lia|].
  destruct (decide (String.length r <= m)) as [Hle|Hgt].
  - cbn [tg_split_from]. apply Nat.leb_le in Hle as E. rewrite E.
    destruct (String.eqb r ""); [by exists []|]. exists [r]. split; [done|]. constructor; [lia|done].
  - pose proof (tg_next b lang r mu Hs ltac:(lia)) as Hn.
    pose proof (tg_split_step fuel lang r b ltac:(lia)) as Hstep.
    destruct (tg_turn b lang r) as [[b' lang'] r']. rewrite Hstep. destruct Hn as (mu' & Hs' & Hlt).
    destruct (IH b' lang' r' mu' Hs' ltac:(lia)) as (cs & -> & Hall).
    eexists. split; [reflexivity|]. constructor; [|done].
    pose proof (split_at_bound m r ltac:(lia) ltac:(lia)). rewrite str_app_length, str_take_length.
    destruct b'; simpl; lia.
Qed.

(** Without fences the loop is that of the Signal gateway. *)
Lemma tg_split_free fuel : forall r lang, fence_free r ->
  tg_split_from fuel m r false lang = split_from fuel m r.
Proof.
  induction fuel as [|fuel IH]; intros r lang Hf; [done|]. cbn [tg_split_from split_from].
  destruct (String.eqb r ""); [done|]. destruct (_ <=? _)%nat; [done|].
  rewrite scan_free by by apply free_take. cbn [Nat.odd Nat.even negb].
  by rewrite IH by by apply free_drop.
Qed.
End telegram.

(** C13: the splitting of Telegram messages ends.  The loop puts text back, the fence of an
    open block, but its turns are finitely many for every text; the messages exceed the
    limit by at most the four bytes that close a block; and a text without fences is cut
    exactly as by the Signal gateway. *)
Theorem telegram_split_ends text m :
  4 <= m ->
  exists cs, telegram_splitMessage text m = Some cs /\ Forall (fun c => String.length c <= m + 4) cs /\
    (without_text fence text -> signal_splitMessage text m = Some cs).
Proof.
  intros Hm. unfold telegram_splitMessage, signal_splitMessage.
  destruct (Nat.leb_spec (String.length text) m) as [Hle|Hgt].
  - exists [text]. split_and!; [done| |done]. constructor; [lia|done].
  - destruct (tg_split_ok m Hm (split_fuel m text) false "" text _ (tg_out_start m "" text)) as (cs & E & Hall);
      [unfold split_fuel; simpl; lia|].
    exists cs. split_and!; [done..|]. intros Hf. rewrite tg_split_free in E by done.
    destruct (split_from_ok m ltac:(lia) (S (String.length text)) text ltac:(lia)) as (cs' & E' & _).
    rewrite E'. rewrite <-E. symmetry. apply (split_from_mono m (S (String.length text))); [done|].
    unfold split_fuel. lia.
Qed.

(** ** Markdown *)

(** A piece of a message: a text, or an element with a text in it. *)
Inductive piece :=
  | Plain (text : string)
  | Element (opening text closing : string).

Definition piece_html (p : piece) : string :=
  match p with
  | Plain t => escapeHTML t
  | Element o t c => o +:+ escapeHTML t +:+ c
  end.

(** The elements of Telegram's HTML the gateway uses. *)
Definition known_element (p : piece) : Prop :=
  match p with
  | Plain _ => True
  | Element o _ c =>
      (o, c) ∈ [("<b>", "</b>"); ("<i>", "</i>"); ("<code>", "</code>")] \/
      exists lang, o = open_code lang /\ c = close_code
  end.

Definition html_of (ps : list piece) : string := String.concat "" (map piece_html ps).

Lemma escape_app a b : escapeHTML (a +:+ b) = escapeHTML a +:+ escapeHTML b.
Proof.
  induction a as [|c a IH]; [done|].
  change (escape_char c +:+ escapeHTML (a +:+ b) = (escape_char c +:+ escapeHTML a) +:+ escapeHTML b).
  by rewrite IH, str_app_assoc.
Qed.

Lemma escape_one c : escapeHTML (String c "") = escape_char c.
Proof. simpl. apply str_app_nil. Qed.

(** [s] is the HTML of known pieces. *)
Definition well_formed (s : string) : Prop := exists ps, Forall known_element ps /\ s = html_of ps.

Lemma wf_nil : well_formed "".
Proof. by exists []. Qed.

Lemma wf_piece p s : known_element p -> well_formed s -> well_formed (piece_html p +:+ s).
Proof.
  intros Hp (ps & Hps & ->). exists (p :: ps). split; [by constructor|]. unfold html_of. simpl map.
  by rewrite concat_cons.
Qed.

Lemma wf_plain t s : well_formed s -> well_formed (escapeHTML t +:+ s).
Proof. by apply (wf_piece (Plain t)). Qed.

Lemma wf_element tag t s : tag ∈ ["b"; "i"; "code"] -> well_formed s -> well_formed (element tag t +:+ s).
Proof.
  intros Ht Hs. assert (element tag t = piece_html (Element ("<" +:+ tag +:+ ">") t ("</" +:+ tag +:+ ">"))) as ->.
  { unfold element. simpl piece_html. by rewrite !str_app_assoc. }
  apply wf_piece; [|done]. left.
  rewrite !elem_of_cons, elem_of_nil in Ht. rewrite !elem_of_cons.
  destruct Ht as [->|[->|[->|[]]]]; [by left|by right; left|by right; right; left].
Qed.

Lemma wf_app a b : well_formed a -> well_formed b -> well_formed (a +:+ b).
Proof.
  intros (ps & Hps & ->) Hb. induction Hps as [|p ps Hp _ IH]; [done|].
  unfold html_of. simpl map. rewrite concat_cons, str_app_assoc. by apply wf_piece.
Qed.

Lemma inline_tag line tag t r : inline_element line = Some (tag, t, r) -> tag ∈ ["b"; "i"; "code"].
Proof.
  unfold inline_element. intros E. rewrite !elem_of_cons.
  repeat case_match; simplify_eq; first [by left|by right; left|by right; right; left].
Qed.

Lemma wf_inline fuel : forall line, well_formed (inline_from fuel line).
Proof.
  induction fuel as [|fuel IH]; intros line; [apply wf_nil|]. destruct line as [|c rest]; [apply wf_nil|].
  cbn [inline_from]. destruct (inline_element (String c rest)) as [[[tag t] r]|] eqn:E.
  - apply wf_element; [by eapply inline_tag|apply IH].
  - rewrite <-escape_one. apply wf_plain, IH.
Qed.

Lemma wf_line line : well_formed (formatLine line).
Proof.
  unfold formatLine. destruct (header_text line) as [t|]; [|apply wf_inline].
  rewrite <-str_app_nil. apply wf_element; [by left|apply wf_nil].
Qed.

Lemma wf_md lines : forall first fc,
  well_formed (md_lines lines first false fc) /\
  exists body rest, md_lines lines first true fc = escapeHTML body +:+ (close_code +:+ rest) /\ well_formed rest.
Proof.
  assert (forall b : bool, escapeHTML (if b then "" else newline) = if b then "" else newline) as Hnl by by intros [].
  induction lines as [|line lines IH]; intros first fc; cbn [md_lines negb].
  { split; [apply wf_nil|]. exists "", "". split; [done|apply wf_nil]. }
  destruct (has_prefix (TrimSpace line) fence).
  - split.
    + set (lang := TrimSpace _). destruct (IH false true) as [_ (body & rest & -> & Hr)].
      assert (open_code lang +:+ (escapeHTML body +:+ (close_code +:+ rest)) =
        piece_html (Element (open_code lang) body close_code) +:+ rest) as -> by (simpl piece_html; by rewrite !str_app_assoc).
      apply wf_piece; [|done]. right. by exists lang.
    + exists "". eexists. split; [reflexivity|]. apply wf_app; [|apply IH].
      destruct lines; [apply wf_nil|]. rewrite <-(str_app_nil newline). apply (wf_plain newline), wf_nil.
  - split.
    + rewrite <-Hnl. apply wf_plain, wf_app; [apply wf_line|apply IH].
    + destruct (IH false false) as [_ (body & rest & -> & Hr)].
      exists ((if fc then "" else newline) +:+ (line +:+ body)), rest. split; [|done].
      by rewrite !escape_app, Hnl, !str_app_assoc.
Qed.

Lemma escape_no_tag s : count_char lt_sign (escapeHTML s) = 0 /\ count_char gt_sign (escapeHTML s) = 0.
Proof.
  assert (forall c a b, count_char c (a +:+ b) = count_char c a + count_char c b) as Happ.
  { intros c a b. induction a as [|d a IH]; [done|].
    change (count_char c (String d a +:+ b)) with ((if Ascii.eqb c d then 1 else 0) + count_char c (a +:+ b)).
    rewrite IH. simpl. lia. }
  induction s as [|c s [IH1 IH2]]; [done|]. cbn [escapeHTML]. rewrite !Happ, IH1, IH2.
  unfold escape_char. destruct (Ascii.eqb_spec c amp); [done|]. destruct (Ascii.eqb_spec c lt_sign) as [|Hl]; [done|].
  destruct (Ascii.eqb_spec c gt_sign) as [|Hg]; [done|]. cbn [count_char].
  destruct (Ascii.eqb_spec lt_sign c); [congruence|]. by destruct (Ascii.eqb_spec gt_sign c); [congruence|].
Qed.

(** Markdown becomes well-formed HTML.  Whatever the model writes, its message is a
    sequence of escaped texts and of whole elements, bold, italic, code and code blocks,
    each with an escaped text: every element is closed, none is inside another, and no text
    has an angle bracket, so the model cannot write tags of its own. *)
Theorem telegram_html_well_formed text :
  well_formed (markdownToTelegramHTML text) /\
  forall t, count_char lt_sign (escapeHTML t) = 0 /\ count_char gt_sign (escapeHTML t) = 0.
Proof. split; [apply wf_md|apply escape_no_tag]. Qed.
