(* ===== verification/Gateway.v ===== *)
(** * What every gateway calls

    The gateways of [src/internal/gateway/] put messages of users before an agent and their
    decisions before an approval manager.  Both, the rate limiter and the ways to answer
    are interfaces here: records of operations on a state [W].  [github.com/google/uuid]
    and random bytes are parameters.  The second part is the command line,
    [src/internal/gateway/cli/cli.go], over a terminal. *)

From S2P Require Import Prelude Text LLM ToolValues Conversation SecurityManager Agent RoutingAgent GatewayText.

Section gateway.
Context {F P W : Type}.

(** The two operations of [ApprovalManager] a gateway uses. *)
Record ApprovalOps := mkApprovalOps {
  ao_Approve : string -> string -> st W (option error);
  ao_Deny : string -> string -> st W (option error);
}.

(** The fields every [Gateway] has; [None] is a nil pointer. *)
Record Services := mkServices {
  sv_agent : AgentOps F P W;
  sv_approvalMgr : option ApprovalOps;
  sv_limiter : option (string -> st W (option error));
}.

(** The limiter, when there is one. *)
Definition rate_limited (g : Services) (userID : string) : st W bool :=
  match sv_limiter g with
  | Some allow => err ← allow userID; mret (match err with Some _ => true | None => false end)
  | None => mret false
  end.
End gateway.

Arguments ApprovalOps W : clear implicits.
Arguments Services F P W : clear implicits.

(** [newCorrelationID] and [uuid.New().String()]; [sha1_uuid] is the text of [uuid.NewSHA1]
    in the DNS name space. *)
Class GatewayIds (W : Type) := {
  newCorrelationID : W -> string * W;
  uuid_New : W -> string * W;
  sha1_uuid : string -> string;
}.

(** The error a response's approval request stands for. *)
Definition pending_of (a : ApprovalRequest) : error :=
  ErrApprovalPending (arq_ApprovalID a) (arq_ToolName a) (arq_ActionName a) (arq_RiskLevel a) (arq_UserID a).

(** ** What reaches the agent and the approval manager *)

(** A call of a gateway, an approval with the error it returned. *)
Inductive gw_event :=
  | GeProcess (input : Input)
  | GeApprove (approvalID approverID : string) (err : option error)
  | GeDeny (approvalID denierID : string) (err : option error)
  | GeResume (approvalID : string).

(** What one request of a user may come to: nothing, one message to the agent, a denial, or
    an approval, and only a granted one resumes the execution. *)
Inductive acts_for (user : string) : list gw_event -> Prop :=
  | af_nothing : acts_for user []
  | af_message input : in_UserID input = user -> acts_for user [GeProcess input]
  | af_denied id err : acts_for user [GeDeny id user err]
  | af_refused id e : acts_for user [GeApprove id user (Some e)]
  | af_granted id : acts_for user [GeApprove id user None; GeResume id].

(** A log of these calls in the state: each is appended, nothing else touches it. *)
Record logged {F P W} `{!GatewayIds W} (g : Services F P W) (log : W -> list gw_event) : Prop := {
  log_process : forall i w, log (ag_Process (sv_agent g) i w).2 = log w ++ [GeProcess i];
  log_resume : forall id w, log (ag_ResumeWithApproval (sv_agent g) id w).2 = log w ++ [GeResume id];
  log_approve : forall am id u w, sv_approvalMgr g = Some am ->
    log (ao_Approve am id u w).2 = log w ++ [GeApprove id u (ao_Approve am id u w).1];
  log_deny : forall am id u w, sv_approvalMgr g = Some am ->
    log (ao_Deny am id u w).2 = log w ++ [GeDeny id u (ao_Deny am id u w).1];
  log_limiter : forall allow u w, sv_limiter g = Some allow -> log (allow u w).2 = log w;
  log_correlation : forall w, log (newCorrelationID w).2 = log w;
  log_uuid : forall w, log (uuid_New w).2 = log w;
}.

(** ** Computations by the calls they make *)

Section emits.
Context {W : Type} (log : W -> list gw_event).

(** Every run of [m] appends some calls, which its result agrees with. *)
Definition emits {A} (m : st W A) (Q : A -> list gw_event -> Prop) : Prop :=
  forall w, exists evs, log (m w).2 = log w ++ evs /\ Q (m w).1 evs.

Lemma emits_ret {A} (a : A) (Q : A -> list gw_event -> Prop) : Q a [] -> emits (mret a) Q.
Proof. intros Hq w. exists []. by rewrite app_nil_r. Qed.

Lemma emits_bind {A B} (m : st W A) (k : A -> st W B) Q R :
  emits m Q -> (forall a evs, Q a evs -> emits (k a) (fun b evs' => R b (evs ++ evs'))) -> emits (m ≫= k) R.
Proof.
  intros Hm Hk w. rewrite st_bind_run. destruct (Hm w) as (e1 & E1 & Hq).
  destruct (Hk _ _ Hq (m w).2) as (e2 & E2 & Hr). exists (e1 ++ e2). by rewrite E2, E1, app_assoc.
Qed.

Lemma emits_weaken {A} (m : st W A) (Q R : A -> list gw_event -> Prop) :
  emits m Q -> (forall a evs, Q a evs -> R a evs) -> emits m R.
Proof. intros Hm Hqr w. destruct (Hm w) as (evs & E & Hq). exists evs. auto. Qed.

(** A silent step before the rest. *)
Definition silent {A} (m : st W A) : Prop := forall w, log (m w).2 = log w.

Lemma silent_emits {A} (m : st W A) : silent m -> emits m (fun _ evs => evs = []).
Proof. intros Hm w. exists []. by rewrite app_nil_r. Qed.

Lemma emits_after {A B} (m : st W A) (k : A -> st W B) R :
  silent m -> (forall a, emits (k a) R) -> emits (m ≫= k) R.
Proof. intros Hm Hk. eapply emits_bind; [by apply silent_emits|]. by intros a evs ->. Qed.

Lemma silent_ret {A} (a : A) : silent (mret a).
Proof. by intros w. Qed.

Lemma silent_bind {A B} (m : st W A) (k : A -> st W B) : silent m -> (forall a, silent (k a)) -> silent (m ≫= k).
Proof. intros Hm Hk w. by rewrite st_bind_run, Hk. Qed.

Lemma silent_each {A} (f : A -> st W unit) l : (forall x, silent (f x)) -> silent (st_each f l).
Proof. intros Hf. induction l as [|x l IH]; simpl; [apply silent_ret|]. by apply silent_bind. Qed.

(** The end of a computation makes no more calls. *)
Lemma emits_end {A} (m : st W A) (R : list gw_event -> Prop) : silent m -> R [] -> emits m (fun _ => R).
Proof. intros Hm Hr. eapply emits_weaken; [by apply silent_emits|]. by intros a evs ->. Qed.
End emits.

(** The calls of the services themselves. *)
Section calls.
Context {F P W : Type} `{!GatewayIds W} (g : Services F P W) (log : W -> list gw_event) (Hlog : logged g log).

Lemma emits_Process i : emits log (ag_Process (sv_agent g) i) (fun _ evs => evs = [GeProcess i]).
Proof. intros w. eexists. split; [apply Hlog|done]. Qed.

Lemma emits_Resume id : emits log (ag_ResumeWithApproval (sv_agent g) id) (fun _ evs => evs = [GeResume id]).
Proof. intros w. eexists. split; [apply Hlog|done]. Qed.

Lemma emits_Approve am id u : sv_approvalMgr g = Some am ->
  emits log (ao_Approve am id u) (fun err evs => evs = [GeApprove id u err]).
Proof. intros Ham w. eexists. split; [by apply (log_approve _ _ Hlog)|done]. Qed.

Lemma emits_Deny am id u : sv_approvalMgr g = Some am ->
  emits log (ao_Deny am id u) (fun err evs => evs = [GeDeny id u err]).
Proof. intros Ham w. eexists. split; [by apply (log_deny _ _ Hlog)|done]. Qed.

Lemma silent_limited u : silent log (rate_limited g u).
Proof.
  unfold rate_limited. destruct (sv_limiter g) as [allow|] eqn:E; [|apply silent_ret].
  apply silent_bind; [intros w; by apply (log_limiter _ _ Hlog)|intros; apply silent_ret].
Qed.

Lemma silent_correlation : silent log newCorrelationID.
Proof. intros w. apply Hlog. Qed.

Lemma silent_uuid : silent log uuid_New.
Proof. intros w. apply Hlog. Qed.
End calls.

(** * The command line gateway

    [src/internal/gateway/cli/cli.go].  The terminal is the class [Terminal]; the values of
    audit parameters are those of [ToolValues]; logging to the log file is left out. *)

(** [scan] is [scanner.Scan] with its text, [None] at the end; [scan_err] its error;
    [shut_down] is whether the context was cancelled or [Stop] called. *)
Class Terminal (W : Type) := {
  scan : W -> option string * W;
  scan_err : W -> option error * W;
  print : string -> W -> unit * W;
  shut_down : W -> bool * W;
  cli_now : W -> Time * W;
}.

Section cli.
Context {F P W : Type} `{!Num F} `{!GatewayIds W} `{!Terminal W} `{!ErrorText}.

(** [cl_LogAction] is the security manager, when there is one. *)
Record CliGateway := mkCliGateway {
  cl_services : Services F P W;
  cl_LogAction : option (AuditEvent F Params -> st W unit);
  cl_userID : string;
  cl_conversationID : string;
}.

(** [NewGateway]; the identifier is a new one. *)
Definition NewGateway (g : Services F P W) (security : option (AuditEvent F Params -> st W unit))
    (userID conversationID : string) : CliGateway :=
  mkCliGateway g security (or_text userID "cli-user") conversationID.

Definition cli_logAudit (g : CliGateway) (e : AuditEvent F Params) : st W unit :=
  match cl_LogAction g with Some log => log e | None => mret tt end.

Definition approveAndResume (g : CliGateway) (approvalID : string) : st W unit :=
  match sv_approvalMgr (cl_services g) with
  | None => print "No approval manager configured."
  | Some am =>
      err ← ao_Approve am approvalID (cl_userID g);
      match err with
      | Some e => print ("Approval failed: " +:+ error_Error e)
      | None =>
          r ← ag_ResumeWithApproval (sv_agent (cl_services g)) approvalID;
          match r with
          | Err err => print ("Execution after approval failed: " +:+ error_Error err)
          | Ok res => print (newline +:+ "Approved. Result:" +:+ newline +:+ tp_Output res)
          end
      end
  end.

Definition approval_event (g : CliGateway) (now : Time) (tool res approvedBy approvalID : string) : AuditEvent F Params :=
  mkAuditEvent now "" (cl_userID g) "cli.approval" tool (Some (object [("approval_id", AString approvalID)]))
    res 0 (nofZ 0) approvedBy "".

Definition approval_prompt (toolName actionName riskLevel userID approvalID : string) : string :=
  newline +:+ "Approval required for " +:+ actionName +:+ " (risk: " +:+ riskLevel +:+ ")" +:+ newline +:+
  "  Tool:       " +:+ toolName +:+ newline +:+ "  Requested:  " +:+ userID +:+ newline +:+
  "  Approval ID: " +:+ approvalID +:+ newline +:+ "Approve? [y/N]: ".

(** [handleApproval] and [handleApprovalRequest], which differ in the type of the argument
    only. *)
Definition cli_handleApproval (g : CliGateway) (e : string * string * string * string * string) : st W unit :=
  let '(approvalID, toolName, actionName, riskLevel, userID) := e in
  _ ← print (approval_prompt toolName actionName riskLevel userID approvalID);
  line ← (scan : st W (option string));
  match line with
  | None => mret tt
  | Some line =>
      let reply := TrimSpace (to_lower line) in
      now ← (cli_now : st W Time);
      if slice_contains ["y"; "yes"] reply then
        _ ← cli_logAudit g (approval_event g now toolName "approved" (cl_userID g) approvalID);
        approveAndResume g approvalID
      else
        _ ← cli_logAudit g (approval_event g now toolName "denied" "" approvalID);
        _ ← match sv_approvalMgr (cl_services g) with
            | Some am => err ← ao_Deny am approvalID (cl_userID g); mret tt
            | None => mret tt
            end;
        print "Denied."
  end.

Definition request_event (g : CliGateway) (now : Time) (correlationID : string) (params : option Params)
    (res : string) (tokens : Z) (errMsg : string) : AuditEvent F Params :=
  mkAuditEvent now correlationID (cl_userID g) "cli.request" "" params res tokens (nofZ 0) "" errMsg.

(** A line that is neither empty nor the end of the session. *)
Definition cli_request (g : CliGateway) (line : string) : st W unit :=
  correlationID ← (newCorrelationID : st W string);
  start ← (cli_now : st W Time);
  _ ← cli_logAudit g (request_event g start correlationID
        (Some (object [("message_length", AInt (Z.of_nat (String.length line)))])) "intent" 0 "");
  r ← ag_Process (sv_agent (cl_services g)) (mkInput (cl_userID g) line correlationID (cl_conversationID g));
  match r with
  | Err err =>
      match as_approval_pending err with
      | Some e => cli_handleApproval g e
      | None =>
          now ← (cli_now : st W Time);
          _ ← cli_logAudit g (request_event g now correlationID None "failure" 0 (error_Error err));
          print ("Error: " +:+ error_Error err)
      end
  | Ok resp =>
      now ← (cli_now : st W Time);
      _ ← cli_logAudit g (request_event g now correlationID None "success" (rsp_TokensUsed resp) "");
      _ ← print (newline +:+ rsp_Message resp);
      _ ← st_each (fun a => cli_handleApproval g
             (arq_ApprovalID a, arq_ToolName a, arq_ActionName a, arq_RiskLevel a, arq_UserID a))
            (rsp_ApprovalRequests resp);
      print newline
  end.

(** One turn of the loop of [Start]: [Some] ends the session with that error. *)
Definition cli_turn (g : CliGateway) : st W (option (option error)) :=
  _ ← print "akili> ";
  stop ← (shut_down : st W bool);
  if (stop : bool) then _ ← print (newline +:+ "Shutting down."); mret (Some None)
  else
    line ← (scan : st W (option string));
    match line with
    | None =>
        err ← (scan_err : st W (option error));
        mret (Some (match err with Some e => Some (Wrap "reading stdin" e) | None => None end))
    | Some text =>
        let line := TrimSpace text in
        if String.eqb line "" then mret None
        else if slice_contains ["exit"; "quit"] line then _ ← print "Goodbye."; mret (Some None)
        else _ ← cli_request g line; mret None
    end.

(** The loop, [None] while it goes on after [fuel] turns. *)
Fixpoint cli_loop (fuel : nat) (g : CliGateway) : st W (option (option error)) :=
  match fuel with
  | O => mret None
  | S fuel =>
      r ← cli_turn g;
      match r with Some err => mret (Some err) | None => cli_loop fuel g end
  end.

Definition cli_Start (fuel : nat) (g : CliGateway) : st W (option (option error)) :=
  _ ← print "Akili — Autonomous AI Operator System for DevOps, SRE, and Platform Teams";
  _ ← print ("Type your message (or " +:+ quote +:+ "exit" +:+ quote +:+ " to quit).");
  cli_loop fuel g.
End cli.

Arguments CliGateway F P W : clear implicits.
