(* ===== verification/ChatGateways.v ===== *)
(** * The chat gateways

    [src/internal/gateway/telegram/telegram.go], [signal/signal.go] and [slack/slack.go].
    The Bot API is the class [TelegramApi]; the REST API in front of Signal is
    [SignalApi]; HMAC-SHA256, the parsing of forms and JSON, and the call of the Slack API
    are [SlackApi].  Logging is left out, and so is Telegram's webhook server around
    [processUpdate]. *)

From Stdlib Require Import Ascii.
From S2P Require Import Prelude Text LLM Conversation Agent RoutingAgent Alerting GatewayText.
From S2P Require Import Gateway.

(** ** Telegram *)

(** ** The types of the Bot API *)

Record tgUser := mkTgUser { tu_ID : Z }.
Record tgMessage := mkTgMessage { tm_From : option tgUser; tm_ChatID : Z; tm_Text : string }.
Record CallbackQuery := mkCallbackQuery {
  cq_ID : string;
  cq_From : option tgUser;
  cq_Message : option tgMessage;
  cq_Data : string;
}.
Record Update := mkUpdate {
  up_UpdateID : Z;
  up_Message : option tgMessage;
  up_CallbackQuery : option CallbackQuery;
}.

(** A button: its text and the data a press sends back. *)
Definition InlineKeyboardButton : Type := string * string.

(** The calls the gateway makes; the texts are HTML. *)
Inductive tg_call :=
  | SendMessage (chatID : Z) (html : string)
  | SendKeyboard (chatID : Z) (html : string) (buttons : list InlineKeyboardButton)
  | AnswerCallback (callbackID text : string).

(** [callAPI], whose errors are logged only, and the answer to [getUpdates]: the field
    [ok] and the updates. *)
Class TelegramApi (W : Type) := {
  callAPI : tg_call -> W -> unit * W;
  api_getUpdates : Z -> Z -> W -> result error (bool * list Update) * W;
}.

Record TelegramConfig := mkTelegramConfig {
  tc_AllowedUsers : list Z;
  tc_UserMapping : gmap string string;
  tc_PollTimeout : Z;
}.

Definition pollTimeout (c : TelegramConfig) : Z := if (0 <? tc_PollTimeout c)%Z then tc_PollTimeout c else 30.

Definition telegramSafeMaxLen : nat := Z.to_nat 4000.

Section telegram.
Context {F P W : Type} `{!GatewayIds W} `{!TelegramApi W} `{!Render} `{!ErrorText}.
Implicit Types (g : Services F P W) (c : TelegramConfig).

(** ** Answers *)

Definition split_html (html : string) : list string :=
  default [] (telegram_splitMessage html telegramSafeMaxLen).

Definition sendMarkdown (chatID : Z) (text : string) : st W unit :=
  if String.eqb text "" then mret tt
  else st_each (fun chunk => callAPI (SendMessage chatID (markdownToTelegramHTML chunk))) (split_html text).

Definition sendHTML (chatID : Z) (html : string) : st W unit :=
  st_each (fun chunk => callAPI (SendMessage chatID chunk)) (split_html html).

Definition answerCallback (callbackID text : string) : st W unit := callAPI (AnswerCallback callbackID text).

Definition approval_text (toolName actionName riskLevel userID approvalID : string) : string :=
  (if String.eqb riskLevel "critical" then "🚨" else "⚠️") +:+ " <b>Approval Required</b>" +:+ newline +:+ newline +:+
  "🔧 <b>Tool:</b> <code>" +:+ escapeHTML toolName +:+ "</code>" +:+ newline +:+
  "🎯 <b>Action:</b> " +:+ escapeHTML actionName +:+ newline +:+
  "⚡ <b>Risk:</b> " +:+ escapeHTML riskLevel +:+ newline +:+
  "👤 <b>Requested by:</b> " +:+ escapeHTML userID +:+ newline +:+ newline +:+
  "<i>Approval ID:</i> <code>" +:+ escapeHTML approvalID +:+ "</code>".

(** The argument is the fields of an [ErrApprovalPending]. *)
Definition sendApprovalKeyboard (chatID : Z) (e : string * string * string * string * string) : st W unit :=
  let '(approvalID, toolName, actionName, riskLevel, userID) := e in
  callAPI (SendKeyboard chatID (approval_text toolName actionName riskLevel userID approvalID)
    [("✅ Approve", "approve:" +:+ approvalID); ("❌ Deny", "deny:" +:+ approvalID)]).

Definition request_fields (a : ApprovalRequest) : string * string * string * string * string :=
  (arq_ApprovalID a, arq_ToolName a, arq_ActionName a, arq_RiskLevel a, arq_UserID a).

(** ** Messages *)

Definition start_text : string :=
  "🛡 <b>Akili</b> — Autonomous AI Operator System" +:+ newline +:+ newline +:+
  "Send a message to get started." +:+ newline +:+
  "All actions follow <b>default-deny</b> security and require explicit permission.".

Definition tg_handleMessage g c (msg : tgMessage) : st W unit :=
  match tm_From msg with
  | None => mret tt
  | Some from =>
      if String.eqb (tm_Text msg) "" then mret tt
      else
        let chatID := tm_ChatID msg in
        if negb (bool_decide (tu_ID from ∈ tc_AllowedUsers c))
        then sendHTML chatID "You are not authorized to use Akili."
        else
          match tc_UserMapping c !! itoa (tu_ID from) with
          | None => sendHTML chatID "Your Telegram account is not mapped to an Akili user."
          | Some userID =>
              limited ← rate_limited g userID;
              if (limited : bool) then sendHTML chatID "Rate limit exceeded. Please wait before trying again."
              else
                correlationID ← (newCorrelationID : st W string);
                if has_prefix (tm_Text msg) "/start" then sendHTML chatID start_text
                else
                  let conversationID := sha1_uuid ("telegram:" +:+ itoa (tu_ID from) +:+ ":" +:+ itoa chatID) in
                  r ← ag_Process (sv_agent g) (mkInput userID (tm_Text msg) correlationID conversationID);
                  match r with
                  | Err err =>
                      match as_approval_pending err with
                      | Some e => sendApprovalKeyboard chatID e
                      | None => sendHTML chatID "❗ Error processing your request."
                      end
                  | Ok resp =>
                      _ ← st_each (fun a => sendApprovalKeyboard chatID (request_fields a)) (rsp_ApprovalRequests resp);
                      sendMarkdown chatID (rsp_Message resp)
                  end
          end
  end.

(** ** Decisions *)

(** A message to the chat of the pressed button, when it is known. *)
Definition when_chat (chatID : Z) (m : st W unit) : st W unit := if (chatID =? 0)%Z then mret tt else m.

(** The buttons' data: [decision:approvalID]. *)
Definition handleCallback g c (cb : CallbackQuery) : st W unit :=
  match cq_From cb with
  | None => mret tt
  | Some from =>
      if String.eqb (cq_Data cb) "" then mret tt
      else if negb (bool_decide (tu_ID from ∈ tc_AllowedUsers c)) then answerCallback (cq_ID cb) "Not authorized."
      else
        match tc_UserMapping c !! itoa (tu_ID from) with
        | None => answerCallback (cq_ID cb) "User not mapped."
        | Some approverID =>
            match cut (cq_Data cb) ":" with
            | None => answerCallback (cq_ID cb) "Invalid action."
            | Some (decision, approvalID) =>
                match sv_approvalMgr g with
                | None => answerCallback (cq_ID cb) "Approval manager not configured."
                | Some am =>
                    let chatID := match cq_Message cb with Some m => tm_ChatID m | None => 0%Z end in
                    if String.eqb decision "deny" then
                      err ← ao_Deny am approvalID approverID;
                      match err with
                      | Some e => answerCallback (cq_ID cb) ("Deny failed: " +:+ error_Error e)
                      | None =>
                          _ ← answerCallback (cq_ID cb) "❌ Denied.";
                          when_chat chatID (sendHTML chatID ("❌ <b>Denied</b> by " +:+ escapeHTML approverID +:+ "."))
                      end
                    else
                      err ← ao_Approve am approvalID approverID;
                      match err with
                      | Some e => answerCallback (cq_ID cb) ("Approval failed: " +:+ error_Error e)
                      | None =>
                          _ ← answerCallback (cq_ID cb) "✅ Approved. Executing...";
                          r ← ag_ResumeWithApproval (sv_agent g) approvalID;
                          match r with
                          | Err err =>
                              when_chat chatID (sendHTML chatID
                                ("❗ Execution after approval failed: " +:+ escapeHTML (error_Error err)))
                          | Ok res =>
                              when_chat chatID
                                (_ ← sendHTML chatID ("✅ <b>Approved</b> by " +:+ escapeHTML approverID +:+ ".");
                                 sendMarkdown chatID (tp_Output res))
                          end
                      end
                end
            end
        end
  end.

Definition processUpdate g c (u : Update) : st W unit :=
  match up_CallbackQuery u, up_Message u with
  | Some cb, _ => handleCallback g c cb
  | None, Some msg => tg_handleMessage g c msg
  | None, None => mret tt
  end.

(** ** Long polling *)

Definition getUpdates c (offset : Z) : st W (result error (list Update)) :=
  r ← (api_getUpdates offset (pollTimeout c) : st W (result error (bool * list Update)));
  mret (match r with
        | Err err => Err err
        | Ok (ok, us) => if (ok : bool) then Ok us else Err (Errorf "telegram API returned ok=false")
        end).

Definition next_offset (offset : Z) (u : Update) : Z :=
  if (offset <=? up_UpdateID u)%Z then (up_UpdateID u + 1)%Z else offset.

(** One turn of the loop of [startPolling]: the new offset and the updates processed. *)
Definition poll_once g c (offset : Z) : st W (Z * list Update) :=
  r ← getUpdates c offset;
  match r with
  | Err _ => mret (offset, [])
  | Ok us => _ ← st_each (processUpdate g c) us; mret (fold_left next_offset us offset, us)
  end.

(** [n] turns. *)
Fixpoint startPolling (n : nat) g c (offset : Z) : st W (Z * list Update) :=
  match n with
  | O => mret (offset, [])
  | S n =>
      r ← poll_once g c offset;
      r' ← startPolling n g c r.1;
      mret (r'.1, r.2 ++ r'.2)
  end.
End telegram.

(** ** Signal *)

Record DataMessage := mkDataMessage { dm_Message : string; dm_GroupInfo : option string }.
Record Envelope := mkEnvelope { ev_Source : string; ev_DataMessage : option DataMessage }.

(** Where a message goes: a number or a group. *)
Inductive signal_target := ToNumber (number : string) | ToGroup (groupID : string).

(** The request of [callSend], whose errors are logged only, and that of
    [receiveMessages]: the status and what decoding the body gives. *)
Class SignalApi (W : Type) := {
  signal_post : signal_target -> string -> W -> unit * W;
  signal_get : W -> result error (Z * result error (list Envelope)) * W;
}.

Record SignalConfig := mkSignalConfig {
  sc_AllowedUsers : list string;
  sc_UserMapping : gmap string string;
  sc_PollIntervalSeconds : Z;
}.

Definition pollInterval (c : SignalConfig) : Duration :=
  if (0 <? sc_PollIntervalSeconds c)%Z then (sc_PollIntervalSeconds c * Second)%Z else (2 * Second)%Z.

Definition signalSafeMaxLen : nat := Z.to_nat 4000.

(** [strings.Fields], on ASCII. *)
Fixpoint words (s : string) : list string :=
  match s with
  | EmptyString => []
  | String c s' =>
      if is_trimmed c then words s'
      else
        match s' with
        | String d _ =>
            if is_trimmed d then String c "" :: words s'
            else match words s' with w :: ws => String c w :: ws | [] => [String c ""] end
        | EmptyString => [String c ""]
        end
  end.

Section signal.
Context {F P W : Type} `{!GatewayIds W} `{!SignalApi W} `{!ErrorText}.
Implicit Types (g : Services F P W) (c : SignalConfig).

Definition callSend (recipient groupID text : string) : st W unit :=
  signal_post (if String.eqb groupID "" then ToNumber recipient else ToGroup groupID) text.

Definition signal_sendMessage (recipient groupID text : string) : st W unit :=
  if String.eqb text "" then mret tt
  else st_each (callSend recipient groupID) (default [] (signal_splitMessage text signalSafeMaxLen)).

(** The argument is the fields of an [ErrApprovalPending]. *)
Definition sendApprovalMessage (recipient groupID : string) (e : string * string * string * string * string)
    : st W unit :=
  let '(approvalID, toolName, actionName, riskLevel, userID) := e in
  signal_sendMessage recipient groupID
    ("APPROVAL REQUIRED" +:+ newline +:+ newline +:+
     "Tool: " +:+ toolName +:+ newline +:+ "Action: " +:+ actionName +:+ newline +:+
     "Risk: " +:+ riskLevel +:+ newline +:+ "Requested by: " +:+ userID +:+ newline +:+ newline +:+
     "Approval ID: " +:+ approvalID +:+ newline +:+ newline +:+
     "Reply with:" +:+ newline +:+ "  /approve " +:+ approvalID +:+ newline +:+ "  /deny " +:+ approvalID).

Definition handleApprovalCommand g (senderPhone groupID approverID text : string) : st W unit :=
  let reply := signal_sendMessage senderPhone groupID in
  match words text with
  | [first; approvalID] =>
      let command := match drop_prefix "/" first with Some s => s | None => first end in
      match sv_approvalMgr g with
      | None => reply "Approval manager not configured."
      | Some am =>
          if String.eqb command "deny" then
            err ← ao_Deny am approvalID approverID;
            match err with
            | Some e => reply ("Deny failed: " +:+ error_Error e)
            | None => reply ("Denied by " +:+ approverID +:+ ".")
            end
          else
            err ← ao_Approve am approvalID approverID;
            match err with
            | Some e => reply ("Approval failed: " +:+ error_Error e)
            | None =>
                r ← ag_ResumeWithApproval (sv_agent g) approvalID;
                match r with
                | Err err => reply ("Execution after approval failed: " +:+ error_Error err)
                | Ok res => reply ("Approved by " +:+ approverID +:+ "." +:+ newline +:+ newline +:+
                                   "Result:" +:+ newline +:+ tp_Output res)
                end
            end
      end
  | _ => reply "Usage: /approve <id> or /deny <id>"
  end.

Definition signal_processMessage g c (env : Envelope) : st W unit :=
  match ev_DataMessage env with
  | None => mret tt
  | Some msg =>
      let text := dm_Message msg in
      let senderPhone := ev_Source env in
      if String.eqb text "" then mret tt
      else if String.eqb senderPhone "" then mret tt
      else if negb (bool_decide (senderPhone ∈ sc_AllowedUsers c))
      then signal_sendMessage senderPhone "" "You are not authorized to use Akili."
      else
        match sc_UserMapping c !! senderPhone with
        | None => signal_sendMessage senderPhone "" "Your Signal number is not mapped to an Akili user."
        | Some userID =>
            limited ← rate_limited g userID;
            if (limited : bool)
            then signal_sendMessage senderPhone "" "Rate limit exceeded. Please wait before trying again."
            else
              correlationID ← (newCorrelationID : st W string);
              let groupID := default "" (dm_GroupInfo msg) in
              if has_prefix text "/approve " || has_prefix text "/deny "
              then handleApprovalCommand g senderPhone groupID userID text
              else
                let conversationID := sha1_uuid ("signal:" +:+ senderPhone +:+ ":" +:+ groupID) in
                r ← ag_Process (sv_agent g) (mkInput userID text correlationID conversationID);
                match r with
                | Err err =>
                    match as_approval_pending err with
                    | Some e => sendApprovalMessage senderPhone groupID e
                    | None => signal_sendMessage senderPhone groupID "Error processing your request."
                    end
                | Ok resp =>
                    _ ← st_each (fun a => sendApprovalMessage senderPhone groupID
                                   (arq_ApprovalID a, arq_ToolName a, arq_ActionName a, arq_RiskLevel a, arq_UserID a))
                          (rsp_ApprovalRequests resp);
                    signal_sendMessage senderPhone groupID (rsp_Message resp)
                end
        end
  end.

Definition receiveMessages : st W (result error (list Envelope)) :=
  r ← (signal_get : st W (result error (Z * result error (list Envelope))));
  mret (match r with
        | Err err => Err err
        | Ok (status, body) =>
            if negb (status =? 200)%Z then Err (Errorf "signal API returned an error")
            else match body with Err err => Err (Wrap "decoding envelopes" err) | Ok es => Ok es end
        end).

(** One tick of [startPolling]. *)
Definition signal_tick g c : st W unit :=
  r ← receiveMessages;
  match r with Err _ => mret tt | Ok es => st_each (signal_processMessage g c) es end.
End signal.

(** ** Slack *)

Record SlackConfig := mkSlackConfig {
  sl_SigningSecret : string;
  sl_UserMapping : gmap string string;
  sl_ApprovalChannel : string;
}.

Definition signatureMaxAge : Duration := (5 * Minute)%Z.

(** A request: its two headers, empty when absent, and what reading the first 256 KB of its
    body gives. *)
Record slack_request := mkSlackRequest {
  rq_timestamp : string;
  rq_signature : string;
  rq_body : result error string;
}.

(** A press of a button: the values of the actions and the user. *)
Record interactionPayload := mkPayload { ip_Actions : list string; ip_UserID : string }.

(** The hexadecimal [hmac_sha256]; [form_get] is [url.ParseQuery] and one of its values;
    [slack_post] is a posted approval message: its channel, its text, its attachment and
    the values of its buttons. *)
Class SlackApi (W : Type) := {
  hmac_sha256 : string -> string -> string;
  form_get : string -> result error (string -> string);
  parse_payload : string -> result error interactionPayload;
  slack_now : W -> Time * W;
  slack_post : string -> string -> string -> list string -> W -> unit * W;
}.

(** ** Signatures *)

(** [parseUnixTimestamp], on 64-bit integers; the result is in seconds. *)
Fixpoint parse_digits (s : string) (ts : Z) : result error Z :=
  match s with
  | EmptyString => Ok ts
  | String c s =>
      match digit c with
      | None => Err (Errorf "non-numeric timestamp")
      | Some d =>
          let ts := wrap64 (wrap64 (ts * 10) + d) in
          if (Z.quot (2 ^ 63 - 1) 10 <? ts)%Z then Err (Errorf "timestamp overflow") else parse_digits s ts
      end
  end.

Definition parseUnixTimestamp (s : string) : result error Z := parse_digits s 0.

(** [time.Since] saturates at the ends of [time.Duration]. *)
Definition saturate (d : Z) : Duration := Z.max (- 2 ^ 63) (Z.min (2 ^ 63 - 1) d).
Definition time_Since (now t : Time) : Duration := saturate (now - t).

Section slack.
Context {F P W : Type} `{!GatewayIds W} `{!SlackApi W} `{!ErrorText}.
Implicit Types (g : Services F P W) (c : SlackConfig).

Definition signature_of c (timestamp body : string) : string :=
  "v0=" +:+ hmac_sha256 (sl_SigningSecret c) ("v0:" +:+ timestamp +:+ ":" +:+ body).

Definition readAndVerify c (r : slack_request) : st W (result error string) :=
  match rq_body r with
  | Err err => mret (Err (Wrap "reading body" err))
  | Ok body =>
      if String.eqb (rq_timestamp r) "" || String.eqb (rq_signature r) ""
      then mret (Err (Errorf "missing signature headers"))
      else
        match parseUnixTimestamp (rq_timestamp r) with
        | Err err => mret (Err (Wrap "invalid timestamp" err))
        | Ok ts =>
            now ← (slack_now : st W Time);
            if (signatureMaxAge <? time_Since now (ts * Second))%Z
            then mret (Err (Errorf "request too old"))
            else if negb (String.eqb (signature_of c (rq_timestamp r) body) (rq_signature r))
            then mret (Err (Errorf "signature mismatch"))
            else mret (Ok body)
        end
  end.

(** ** Answers *)

(** An HTTP error, or the ephemeral message of [writeSlackResponse]. *)
Inductive slack_answer := HttpError (status : Z) | SlackText (text : string).

(** The argument is the fields of an [ErrApprovalPending]. *)
Definition postApprovalMessage c (channelID : string) (e : string * string * string * string * string) : st W unit :=
  let '(approvalID, toolName, actionName, riskLevel, userID) := e in
  slack_post (or_text (sl_ApprovalChannel c) channelID)
    ("Approval required for *" +:+ actionName +:+ "* (risk: " +:+ riskLevel +:+ ")")
    ("Tool: " +:+ toolName +:+ newline +:+ "Requested by: " +:+ userID +:+ newline +:+ "Approval ID: " +:+ approvalID)
    ["approve:" +:+ approvalID; "deny:" +:+ approvalID].

Definition handleSlashCommand g c (r : slack_request) : st W slack_answer :=
  body ← readAndVerify c r;
  match body with
  | Err _ => mret (HttpError 401)
  | Ok body =>
      match form_get body with
      | Err _ => mret (HttpError 400)
      | Ok values =>
          let slackUserID := values "user_id" in
          let text := values "text" in
          let channelID := values "channel_id" in
          match sl_UserMapping c !! slackUserID with
          | None => mret (SlackText "You are not authorized to use Akili.")
          | Some userID =>
              limited ← rate_limited g userID;
              if (limited : bool) then mret (SlackText "Rate limit exceeded. Please wait before trying again.")
              else
                correlationID ← (newCorrelationID : st W string);
                let conversationID := sha1_uuid ("slack:" +:+ slackUserID +:+ ":" +:+ channelID) in
                r ← ag_Process (sv_agent g) (mkInput userID text correlationID conversationID);
                match r with
                | Err err =>
                    match as_approval_pending err with
                    | Some (approvalID, toolName, actionName, riskLevel, user) =>
                        _ ← postApprovalMessage c channelID (approvalID, toolName, actionName, riskLevel, user);
                        mret (SlackText ("Approval required for " +:+ actionName +:+
                                         ". Check the channel for approval buttons."))
                    | None => mret (SlackText "Error processing your request.")
                    end
                | Ok resp =>
                    _ ← st_each (fun a => postApprovalMessage c channelID
                                   (arq_ApprovalID a, arq_ToolName a, arq_ActionName a, arq_RiskLevel a, arq_UserID a))
                          (rsp_ApprovalRequests resp);
                    mret (SlackText (rsp_Message resp))
                end
          end
      end
  end.

Definition handleInteraction g c (r : slack_request) : st W slack_answer :=
  body ← readAndVerify c r;
  match body with
  | Err _ => mret (HttpError 401)
  | Ok body =>
      match form_get body with
      | Err _ => mret (HttpError 400)
      | Ok values =>
          match parse_payload (values "payload") with
          | Err _ => mret (HttpError 400)
          | Ok payload =>
              match ip_Actions payload with
              | [] => mret (HttpError 400)
              | action :: _ =>
                  match sl_UserMapping c !! ip_UserID payload with
                  | None => mret (SlackText "You are not authorized to approve actions.")
                  | Some approverID =>
                      match cut action ":" with
                      | None => mret (HttpError 400)
                      | Some (decision, approvalID) =>
                          match sv_approvalMgr g with
                          | None => mret (SlackText "Approval manager not configured.")
                          | Some am =>
                              if String.eqb decision "deny" then
                                err ← ao_Deny am approvalID approverID;
                                mret (SlackText (match err with
                                                 | Some e => "Deny failed: " +:+ error_Error e
                                                 | None => "Denied by " +:+ approverID +:+ "."
                                                 end))
                              else
                                err ← ao_Approve am approvalID approverID;
                                match err with
                                | Some e => mret (SlackText ("Approval failed: " +:+ error_Error e))
                                | None =>
                                    r ← ag_ResumeWithApproval (sv_agent g) approvalID;
                                    mret (SlackText (match r with
                                       | Err err => "Execution after approval failed: " +:+ error_Error err
                                       | Ok res => "Approved by " +:+ approverID +:+ "." +:+ newline +:+ newline +:+
                                                   "Result:" +:+ newline +:+ tp_Output res
                                       end))
                                end
                          end
                      end
                  end
              end
          end
      end
  end.
End slack.
