(* ===== verification/HttpApi.v ===== *)
(** * The HTTP gateway

    [src/internal/gateway/httpapi/httpapi.go] and [sse.go]: authentication, queries,
    approvals and workflows.  The framework ([github.com/jkaninda/okapi]) is left out: a
    handler gets what [Bind] makes of the body and the path parameter, and returns the
    answer it writes.  The routes and the probes are in [Routes]. *)

From S2P Require Import Prelude Text LLM Conversation Agent RoutingAgent WorkflowTypes Scheduler Gateway.

(** What a handler writes: an error with its message, or a status with a body. *)
Inductive answer (A : Type) :=
  | Abort (status : Z) (message : string)
  | Json (status : Z) (body : A).
Arguments Abort {A} status message.
Arguments Json {A} status body.

(** ** Authentication *)

Definition bearer : string := "Bearer ".

(** [authenticate]: the user of the key, for the handlers behind it. *)
Definition authenticate `{!MapRange string string} (keys : gmap string string) (authHeader : string) : result string string :=
  match drop_prefix bearer authHeader with
  | None => Err "missing or invalid Authorization header"
  | Some apiKey =>
      let userID := fold_left (fun userID kv => if String.eqb apiKey kv.1 then kv.2 else userID)
                      (map_range keys) "" in
      if String.eqb userID "" then Err "invalid API key" else Ok userID
  end.

Definition with_auth {W A} `{!MapRange string string} (keys : gmap string string) (authHeader : string)
    (next : string -> st W (answer A)) : st W (answer A) :=
  match authenticate keys authHeader with
  | Err msg => mret (Abort 401 msg)
  | Ok userID => next userID
  end.

Section http.
Context {F P W : Type} `{!Num F} `{!GatewayIds W} `{!Render} `{!UuidParse}.
Implicit Types (g : Services F P W) (userID : string).

(** The guards most handlers begin with. *)
Definition with_user {A} userID (next : st W (answer A)) : st W (answer A) :=
  if String.eqb userID "" then mret (Abort 401 "Unauthorized") else next.

Definition with_limit {A} g userID (next : st W (answer A)) : st W (answer A) :=
  limited ← rate_limited g userID;
  if (limited : bool) then mret (Abort 429 "rate limit exceeded") else next.

(** ** Queries *)

Record QueryRequest := mkQueryRequest { qr_Message : string; qr_ConversationID : string }.

Inductive query_body :=
  | QueryResponse (message correlationID conversationID : string) (tokensUsed : Z)
  | ApprovalPendingResponse (approvalID action tool riskLevel message correlationID : string).

Definition query_input userID (req : QueryRequest) : st W Input :=
  correlationID ← (newCorrelationID : st W string);
  if String.eqb (qr_ConversationID req) ""
  then conversationID ← (uuid_New : st W string); mret (mkInput userID (qr_Message req) correlationID conversationID)
  else mret (mkInput userID (qr_Message req) correlationID (qr_ConversationID req)).

Definition handleQuery g userID (bound : result error QueryRequest) : st W (answer query_body) :=
  with_limit g userID
    match bound with
    | Err _ => mret (Abort 400 "message is required")
    | Ok req =>
        if String.eqb (qr_Message req) "" then mret (Abort 400 "message is required")
        else
          input ← query_input userID req;
          r ← ag_Process (sv_agent g) input;
          mret (match r with
                | Err err =>
                    match as_approval_pending err with
                    | Some (approvalID, toolName, actionName, riskLevel, _) =>
                        Json 202 (ApprovalPendingResponse approvalID actionName toolName riskLevel
                          "Approval required. POST to /v1/approve to approve or deny." (in_CorrelationID input))
                    | None => Abort 500 "processing failed"
                    end
                | Ok resp =>
                    Json 200 (QueryResponse (rsp_Message resp) (in_CorrelationID input)
                                (in_ConversationID input) (rsp_TokensUsed resp))
                end)
    end.

(** [handleQueryStream]: the events after a good request, each with its name. *)
Record SSEEvent := mkSSEEvent { ss_Type : string; ss_Content : string; ss_Tool : string }.

Definition handleQueryStream g userID (bound : result error QueryRequest)
    : st W (answer (list (string * SSEEvent))) :=
  with_user userID (with_limit g userID
    match bound with
    | Err _ => mret (Abort 400 "Bad request")
    | Ok req =>
        if String.eqb (qr_Message req) "" then mret (Abort 400 "message is required")
        else
          input ← query_input userID req;
          r ← ag_Process (sv_agent g) input;
          mret (Json 200
            (match r with
             | Err err =>
                 match as_approval_pending err with
                 | Some (approvalID, _, _, _, _) =>
                     [("error", mkSSEEvent "" ("Approval required (id: " +:+ approvalID +:+ ")") "")]
                 | None => [("error", mkSSEEvent "" "processing failed" "")]
                 end
             | Ok resp =>
                 map (fun t => ("tool_result", mkSSEEvent "" "" (tcr_ToolName t))) (rsp_ToolResults resp) ++
                 (if String.eqb (rsp_Message resp) "" then [] else [("text", mkSSEEvent "" (rsp_Message resp) "")]) ++
                 [("done", mkSSEEvent "done" "" "")]
             end))
    end).

(** ** Approvals *)

Record ApproveRequest := mkApproveRequest { pr_ApprovalID : string; pr_Decision : string }.

(** The fields [output], [success] and [metadata] are absent after a denial. *)
Record ApproveResponse := mkApproveResponse {
  ps_ApprovalID : string;
  ps_Status : string;
  ps_Result : option (string * bool * P);
}.

Definition approvalError {A} (err : error) : answer A :=
  if errors_is err ErrNotFound then Abort 404 "approval not found"
  else if errors_is err ErrExpired then Abort 410 "approval expired"
  else if errors_is err ErrAlreadyResolved then Abort 409 "approval already resolved"
  else Abort 500 "approval error".

Definition handleApprove g userID (bound : result error ApproveRequest) : st W (answer ApproveResponse) :=
  with_user userID (with_limit g userID
    match bound with
    | Err _ => mret (Abort 400 "invalid request body")
    | Ok req =>
        if String.eqb (pr_ApprovalID req) "" then mret (Abort 400 "approval_id is required")
        else if negb (String.eqb (pr_Decision req) "approve") && negb (String.eqb (pr_Decision req) "deny")
        then mret (Abort 400 "decision must be approve or deny")
        else
          match sv_approvalMgr g with
          | None => mret (Abort 503 "approval manager not configured")
          | Some am =>
              if String.eqb (pr_Decision req) "deny" then
                err ← ao_Deny am (pr_ApprovalID req) userID;
                mret (match err with
                      | Some e => approvalError e
                      | None => Json 200 (mkApproveResponse (pr_ApprovalID req) "denied" None)
                      end)
              else
                err ← ao_Approve am (pr_ApprovalID req) userID;
                match err with
                | Some e => mret (approvalError e)
                | None =>
                    r ← ag_ResumeWithApproval (sv_agent g) (pr_ApprovalID req);
                    mret (match r with
                          | Err _ => Abort 500 "execution after approval failed"
                          | Ok res =>
                              Json 200 (mkApproveResponse (pr_ApprovalID req) "approved"
                                          (Some (tp_Output res, tp_Success res, tp_Metadata res)))
                          end)
                end
          end
    end).

(** ** Workflows *)

(** The interface [WorkflowEngine]. *)
Record WorkflowEngine := mkWorkflowEngine {
  wfe_Submit : WorkflowRequest F -> st W (result error (Workflow F));
  wfe_Status : uuid -> st W (result error (Workflow F));
  wfe_Cancel : uuid -> st W (option error);
  wfe_ListTasks : uuid -> st W (result error (list (Task F)));
}.

Record WorkflowSubmitRequest := mkWorkflowSubmitRequest {
  ws_Goal : string;
  ws_BudgetLimitUSD : F;
  ws_MaxDepth : Z;
  ws_MaxTasks : Z;
}.

Record WorkflowResponse := mkWorkflowResponse {
  wp_ID : string;
  wp_Status : WorkflowStatus;
  wp_Goal : string;
  wp_CorrelationID : string;
  wp_TaskCount : Z;
  wp_BudgetSpentUSD : F;
  wp_Error : string;
}.

(** The answer to a submission has no spending and no error yet. *)
Definition submitted_response (wf : Workflow F) : WorkflowResponse :=
  mkWorkflowResponse (uuid_String (wf_ID wf)) (wf_Status wf) (wf_Goal wf) (wf_CorrelationID wf) (wf_TaskCount wf)
    (nofZ 0) "".

Definition handleWorkflowSubmit g (engine : WorkflowEngine) userID (bound : result error WorkflowSubmitRequest)
    : st W (answer WorkflowResponse) :=
  with_user userID (with_limit g userID
    match bound with
    | Err _ => mret (Abort 400 "invalid request body")
    | Ok req =>
        if String.eqb (ws_Goal req) "" then mret (Abort 400 "goal is required")
        else
          correlationID ← (newCorrelationID : st W string);
          r ← wfe_Submit engine (mkWorkflowRequest userID uuid_Nil (ws_Goal req) correlationID
                (ws_BudgetLimitUSD req) (ws_MaxDepth req) (ws_MaxTasks req));
          mret (match r with
                | Err _ => Abort 500 "workflow submission failed"
                | Ok wf => Json 202 (submitted_response wf)
                end)
    end).

(** The identifier of the path, for the rest of a handler. *)
Definition with_id {S A} (id msg : string) (next : uuid -> st S (answer A)) : st S (answer A) :=
  match uuid_Parse id with Err _ => mret (Abort 400 msg) | Ok id => next id end.

Definition handleWorkflowStatus (engine : WorkflowEngine) userID (id : string) : st W (answer WorkflowResponse) :=
  with_user userID (with_id id "invalid workflow ID" (fun id =>
    r ← wfe_Status engine id;
    mret (match r with
          | Err _ => Abort 404 "workflow not found"
          | Ok wf => Json 200 (mkWorkflowResponse (uuid_String (wf_ID wf)) (wf_Status wf) (wf_Goal wf)
                       (wf_CorrelationID wf) (wf_TaskCount wf) (wf_BudgetSpentUSD wf) (wf_Error wf))
          end))).

Definition handleWorkflowCancel (engine : WorkflowEngine) userID (id : string) : st W (answer string) :=
  with_user userID (with_id id "invalid workflow ID" (fun id =>
    err ← wfe_Cancel engine id;
    mret (match err with Some _ => Abort 500 "cancellation failed" | None => Json 200 "cancelled" end))).

Record TaskResponse := mkTaskResponse {
  tr_ID : string;
  tr_AgentRole : AgentRole;
  tr_Description : string;
  tr_Status : TaskStatus;
  tr_Depth : Z;
  tr_CostUSD : F;
  tr_Error : string;
}.

Definition task_response (t : Task F) : TaskResponse :=
  mkTaskResponse (uuid_String (tk_ID t)) (tk_AgentRole t) (tk_Description t) (tk_Status t) (tk_Depth t)
    (tk_CostUSD t) (tk_Error t).

Definition handleWorkflowTasks (engine : WorkflowEngine) userID (id : string) : st W (answer (list TaskResponse)) :=
  with_user userID (with_id id "invalid workflow ID" (fun id =>
    r ← wfe_ListTasks engine id;
    mret (match r with
          | Err _ => Abort 404 "workflow not found"
          | Ok tasks => Json 200 (map task_response tasks)
          end))).
End http.

Arguments WorkflowEngine F W : clear implicits.
Arguments WorkflowSubmitRequest F : clear implicits.
Arguments WorkflowResponse F : clear implicits.
Arguments ApproveResponse P : clear implicits.
