(* ===== verification/Routes.v ===== *)
(** * The routes of the HTTP gateway

    [src/internal/gateway/httpapi/httpapi.go]: what [Start] registers, in its order, and the
    probes.  The framework ([github.com/jkaninda/okapi]) dispatches a request to a registered
    route; a group applies its middleware, [authenticate], to every route of it.  The routes
    of the API documentation are the framework's and left out, and so are the server and its
    timeouts. *)

From S2P Require Import Prelude LLM SecurityManager RoutingAgent HttpApi Settings Observability Commands.

Inductive http_method := GET | POST | PUT | DELETE.
#[export] Instance http_method_dec : EqDecision http_method.
Proof. solve_decision. Defined.

(** The handlers; those of a resource by its name. *)
Inductive resource := CronJobs | Alerts | Channels.
Inductive operation := OpCreate | OpList | OpGet | OpUpdate | OpDelete.
Inductive handler :=
  | HQuery | HApprove | HHealth | HQueryStream
  | HWorkflowSubmit | HWorkflowStatus | HWorkflowCancel | HWorkflowTasks
  | HResource (r : resource) (o : operation)
  | HCronJobTrigger | HAlertHistory | HChannelTest
  | HMounted | HLiveness | HReadiness | HMetrics.
#[export] Instance resource_dec : EqDecision resource.
Proof. solve_decision. Defined.
#[export] Instance operation_dec : EqDecision operation.
Proof. solve_decision. Defined.
#[export] Instance handler_dec : EqDecision handler.
Proof. solve_decision. Defined.

(** A route; [rt_grouped] when it is of the group with [authenticate]. *)
Record route := mkRoute { rt_method : http_method; rt_pattern : string; rt_handler : handler; rt_grouped : bool }.

Definition v1 (m : http_method) (path : string) (h : handler) : route := mkRoute m ("/v1" +:+ path) h true.

Definition crud (base : string) (r : resource) : list route :=
  [v1 POST base (HResource r OpCreate); v1 GET base (HResource r OpList); v1 GET (base +:+ "/{id}") (HResource r OpGet);
   v1 PUT (base +:+ "/{id}") (HResource r OpUpdate); v1 DELETE (base +:+ "/{id}") (HResource r OpDelete)].

(** What the gateway has when it starts: the services and handlers attached to it, and its
    registry of metrics. *)
Record Attached := mkAttached {
  at_sse : bool; at_workflows : bool; at_cron : bool; at_alerts : bool; at_channels : bool; at_extra : list string;
  at_metrics : option string }.

Definition query_routes : list route :=
  [v1 POST "/query" HQuery; v1 POST "/approve" HApprove; v1 GET "/healthz" HHealth].
Definition workflow_routes : list route :=
  [v1 POST "/workflows" HWorkflowSubmit; v1 GET "/workflows/{id}" HWorkflowStatus;
   v1 POST "/workflows/{id}/cancel" HWorkflowCancel; v1 GET "/workflows/{id}/tasks" HWorkflowTasks].
Definition cron_routes : list route := crud "/cronjobs" CronJobs ++ [v1 POST "/cronjobs/{id}/trigger" HCronJobTrigger].
Definition alert_routes : list route := crud "/alerts" Alerts ++ [v1 GET "/alerts/{id}/history" HAlertHistory].
Definition channel_routes : list route :=
  crud "/notification-channels" Channels ++ [v1 POST "/notification-channels/{id}/test" HChannelTest].
Definition probe_routes : list route := [mkRoute GET "/healthz" HLiveness false; mkRoute GET "/readyz" HReadiness false].

Definition when (b : bool) (rs : list route) : list route := if b then rs else [].

Definition Start (g : Attached) : list route :=
  query_routes ++ when (at_sse g) [v1 POST "/query/stream" HQueryStream] ++ when (at_workflows g) workflow_routes ++
  when (at_cron g) cron_routes ++ when (at_alerts g) alert_routes ++ when (at_channels g) channel_routes ++
  map (fun pattern => mkRoute GET pattern HMounted false) (at_extra g) ++ probe_routes ++
  match at_metrics g with Some path => [mkRoute GET (or_text path "/metrics") HMetrics false] | None => [] end.

(** The gateway as [buildGateways] attaches the services to it; [registry] when metrics are
    collected. *)
Definition attached (h : http_setup) (registry : bool) : Attached :=
  mkAttached (hs_sse h) (hs_workflows h) (hs_cron h) (hs_alerts h) (hs_alerts h)
    (match hs_ws h with Some path => [path] | None => [] end) (if registry then Some (hs_metricsPath h) else None).

(** A request that the framework dispatched to a route: [run] is the handler, of the user the
    group found. *)
Definition serve {W A} `{!MapRange string string} (keys : gmap string string) (authHeader : string) (r : route)
    (run : handler -> string -> st W (answer A)) : st W (answer A) :=
  if rt_grouped r then with_auth keys authHeader (run (rt_handler r)) else run (rt_handler r) "".

(** ** Probes *)

Definition handleHealth {W} : st W (answer HealthStatus) := mret (Json 200 (mkHealthStatus "ok" ∅)).
Definition handleLiveness {W} : st W (answer HealthStatus) := mret (Json 200 (mkHealthStatus "ok" ∅)).
Definition handleReadiness {W} `{!ErrorText} (checker : option (list (HealthCheck W))) : st W (answer HealthStatus) :=
  match checker with
  | None => mret (Json 200 (mkHealthStatus "ok" ∅))
  | Some h =>
      status ← CheckReady h;
      mret (Json (if String.eqb (hs_Status status) "ok" then 200 else 503) status)
  end.

(** * Properties *)

(** The handlers without a key: the probes, the metrics and what is mounted, which has an
    authentication of its own. *)
Definition open_handler (h : handler) : bool :=
  bool_decide (h = HMounted) || bool_decide (h = HLiveness) || bool_decide (h = HReadiness) || bool_decide (h = HMetrics).

Lemma when_elem b rs (r : route) : r ∈ when b rs <-> b = true /\ r ∈ rs.
Proof. destruct b; cbn; set_solver. Qed.

(** A route is of the group exactly when its handler is not open, and the group is below /v1. *)
Definition well_grouped (r : route) : Prop :=
  rt_grouped r = negb (open_handler (rt_handler r)) /\ (rt_grouped r = true -> exists path, rt_pattern r = "/v1" +:+ path).

Lemma v1_grouped m path h : open_handler h = false -> well_grouped (v1 m path h).
Proof. intros Hh. split; cbn; [by rewrite Hh|eauto]. Qed.

Lemma crud_grouped base r : Forall well_grouped (crud base r).
Proof. repeat (apply Forall_cons; split; [by apply v1_grouped|]). by apply Forall_nil. Qed.

Lemma when_grouped b rs : Forall well_grouped rs -> Forall well_grouped (when b rs).
Proof. by destruct b. Qed.

#[local] Ltac grouped :=
  repeat first [apply when_grouped | apply crud_grouped | by apply v1_grouped | by split | apply Forall_app; split
               | apply Forall_cons; split | by apply Forall_nil].

(** Every route of the gateway asks for a key but the probes, the metrics and the mounted
    handlers, whatever is attached. *)
Theorem routes_grouped g : Forall well_grouped (Start g).
Proof.
  unfold Start, query_routes, workflow_routes, cron_routes, alert_routes, channel_routes, probe_routes. grouped.
  - apply Forall_map, Forall_forall. intros x _. by split.
  - destruct (at_metrics g); grouped.
Qed.

(** A request without a known key leaves the state as it is and is answered 401, on every
    route that is not open. *)
Theorem unknown_key_refused {W A} `{!MapRange string string} g keys authHeader r (run : handler -> string -> st W (answer A)) (w : W) msg :
  r ∈ Start g -> open_handler (rt_handler r) = false -> authenticate keys authHeader = Err msg ->
  serve keys authHeader r run w = (Abort 401 msg, w).
Proof.
  intros Hr Ho Ha. pose proof (routes_grouped g) as Hg. rewrite Forall_forall in Hg.
  destruct (Hg r Hr) as [Hgr _]. unfold serve, with_auth. by rewrite Hgr, Ho, Ha.
Qed.

Lemma elem_handler (h : handler) (l : list handler) : h ∈ l <-> bool_decide (h ∈ l) = true.
Proof. by rewrite bool_decide_eq_true. Qed.

(** In a configuration that loads, the routes of a service are there exactly when its section
    is enabled. *)
Theorem service_routes `{!Machine} (c : Settings.Config) h registry : valid c ->
  let rs := map rt_handler (Start (attached (http_gateway c h) registry)) in
  (HWorkflowSubmit ∈ rs <-> on oc_Enabled (c_Orchestrator c) = true) /\
  (HCronJobTrigger ∈ rs <-> on Config.scc_Enabled (c_Scheduler c) = true) /\
  (HAlertHistory ∈ rs <-> on no_Enabled (c_Notification c) = true) /\
  (HChannelTest ∈ rs <-> on no_Enabled (c_Notification c) = true) /\
  (HQueryStream ∈ rs <-> ht_SSE h = true) /\ HQuery ∈ rs /\ HApprove ∈ rs.
Proof.
  intros Hv rs. destruct (enabled_services_start c Hv) as (<- & <- & <- & _).
  subst rs. unfold Start, attached, http_gateway. cbn [at_sse at_workflows at_cron at_alerts at_channels at_extra at_metrics hs_sse
    hs_workflows hs_cron hs_alerts hs_ws hs_metricsPath].
  rewrite (elem_handler HWorkflowSubmit), (elem_handler HCronJobTrigger), (elem_handler HAlertHistory), (elem_handler HChannelTest),
    (elem_handler HQueryStream), (elem_handler HQuery), (elem_handler HApprove).
  destruct (st_workflows _), (st_cron _), (st_notifications _), (ht_SSE h), (st_websocket _), registry; vm_compute; tauto.
Qed.

(** No route of the API is registered twice. *)
Theorem routes_distinct g : at_extra g = [] -> at_metrics g = None ->
  NoDup (map (fun r => (rt_method r, rt_pattern r)) (Start g)).
Proof.
  intros He Hm. unfold Start. rewrite He, Hm.
  destruct (at_sse g), (at_workflows g), (at_cron g), (at_alerts g), (at_channels g); cbn [when map];
    apply (bool_decide_unpack _); vm_compute; reflexivity.
Qed.

(** A path of the configuration can be that of a probe. *)
Example path_taken : map rt_handler (List.filter (fun r => String.eqb (rt_pattern r) "/healthz")
    (Start (mkAttached false false false false false ["/healthz"] None))) = [HMounted; HLiveness].
Proof. vm_compute. reflexivity. Qed.

(** The readiness probe answers 200 exactly when every check passes. *)
Theorem readiness_exact {W} `{!ErrorText} (checker : option (list (HealthCheck W))) w :
  status_of (handleReadiness checker w).1 = 200%Z <->
  match checker with Some h => hs_Status (CheckReady h w).1 = "ok" | None => True end.
Proof.
  unfold handleReadiness. destruct checker as [h|]; [|done]. cbv [mbind st_bind mret st_ret].
  destruct (CheckReady h w) as [s w']. cbn. destruct (String.eqb (hs_Status s) "ok") eqn:E; cbn.
  - by apply String.eqb_eq in E.
  - apply String.eqb_neq in E. naive_solver.
Qed.
