(* ===== verification/HttpJobs.v ===== *)
(** * The HTTP gateway: cron jobs, alert rules and notification channels

    [src/internal/gateway/httpapi/cronjob_handlers.go], over the job store and the workflow
    engine of [Cron], and [alert_handlers.go], over the stores of [Alerting] and
    [Notification]. *)

From S2P Require Import Prelude Text SecurityManager Agent Config RoutingAgent WorkflowTypes Scheduler Domain.
From S2P Require Import Models Notification Cron Alerting Gateway HttpApi.

(** ** Cron jobs *)

Section cron.
Context {F P W E : Type}.
Context `{!Num F} `{!ErrorText} `{!Render} `{!World W} `{!GoParams P}.
Context `{!CronParser} `{!CronEngine F E} `{!UuidParse}.
Context `{!MapRange uuid NotificationChannel} `{!MapRange uuid (CronJob F)}.

Abbreviation CS := (CronState F P W E).
Implicit Types (g : Services F P CS) (org : uuid) (userID : string).

Record CronJobRequest := mkCronJobRequest {
  jr_Name : string;
  jr_Description : string;
  jr_CronExpression : string;
  jr_Goal : string;
  jr_BudgetLimitUSD : F;
  jr_MaxDepth : Z;
  jr_MaxTasks : Z;
  jr_Enabled : option bool;
}.

Record CronJobResponse := mkCronJobResponse {
  jp_ID : string;
  jp_Name : string;
  jp_Description : string;
  jp_CronExpression : string;
  jp_Goal : string;
  jp_UserID : string;
  jp_BudgetLimitUSD : F;
  jp_MaxDepth : Z;
  jp_MaxTasks : Z;
  jp_Enabled : bool;
  jp_NextRunAt : option Time;
  jp_LastRunAt : option Time;
  jp_LastWorkflowID : string;
  jp_LastError : string;
  jp_CreatedAt : Time;
  jp_UpdatedAt : Time;
}.

Definition toCronJobResponse (cj : CronJob F) : CronJobResponse :=
  mkCronJobResponse (uuid_String (cj_ID cj)) (cj_Name cj) (cj_Description cj) (cj_CronExpression cj) (cj_Goal cj)
    (cj_UserID cj) (cj_BudgetLimitUSD cj) (cj_MaxDepth cj) (cj_MaxTasks cj) (cj_Enabled cj) (cj_NextRunAt cj)
    (cj_LastRunAt cj) (match cj_LastWorkflowID cj with Some id => uuid_String id | None => "" end)
    (cj_LastError cj) (cj_CreatedAt cj) (cj_UpdatedAt cj).

Definition handleCronJobCreate g org userID (bound : result error CronJobRequest)
    : st CS (answer CronJobResponse) :=
  with_user userID (with_limit g userID
    match bound with
    | Err _ => mret (Abort 400 "invalid request body")
    | Ok req =>
        if String.eqb (jr_Name req) "" then mret (Abort 400 "name is required")
        else if String.eqb (jr_CronExpression req) "" then mret (Abort 400 "cron_expression is required")
        else if String.eqb (jr_Goal req) "" then mret (Abort 400 "goal is required")
        else
          t ← Cron.on_bg bg_now;
          match ComputeNextRunFrom (jr_CronExpression req) t with
          | Err err => mret (Abort 400 ("invalid cron_expression: " +:+ error_Error err))
          | Ok nextRun =>
              now ← Cron.on_bg bg_now;
              id ← Cron.on_bg bg_uuid;
              let cj := mkCronJob id org (jr_Name req) (jr_Description req) (jr_CronExpression req) (jr_Goal req)
                          userID (jr_BudgetLimitUSD req) (jr_MaxDepth req) (jr_MaxTasks req)
                          (default true (jr_Enabled req)) (Some nextRun) None None "" now now in
              err ← job_Create cj;
              mret (match err with
                    | Some _ => Abort 500 "failed to create cron job"
                    | None => Json 201 (toCronJobResponse cj)
                    end)
          end
    end).

Definition handleCronJobList org userID : st CS (answer (list CronJobResponse)) :=
  with_user userID (
    r ← job_List org;
    mret (match r with
          | Err _ => Abort 500 "failed to list cron jobs"
          | Ok jobs => Json 200 (map toCronJobResponse jobs)
          end)).

Definition handleCronJobGet org userID (id : string) : st CS (answer CronJobResponse) :=
  with_user userID (with_id id "invalid cron job ID" (fun id =>
    r ← job_Get org id;
    mret (match r with
          | Err _ => Abort 404 "cron job not found"
          | Ok cj => Json 200 (toCronJobResponse cj)
          end))).

(** The fields of a request that replace those of a job; the schedule comes with its next
    time. *)
Definition updated_job (cj : CronJob F) (req : CronJobRequest) (schedule : option (string * Time)) (now : Time)
    : CronJob F :=
  mkCronJob (cj_ID cj) (cj_OrgID cj) (or_text (jr_Name req) (cj_Name cj))
    (or_text (jr_Description req) (cj_Description cj))
    (match schedule with Some (expr, _) => expr | None => cj_CronExpression cj end)
    (or_text (jr_Goal req) (cj_Goal cj)) (cj_UserID cj)
    (if nltb (nofZ 0) (jr_BudgetLimitUSD req) then jr_BudgetLimitUSD req else cj_BudgetLimitUSD cj)
    (if (0 <? jr_MaxDepth req)%Z then jr_MaxDepth req else cj_MaxDepth cj)
    (if (0 <? jr_MaxTasks req)%Z then jr_MaxTasks req else cj_MaxTasks cj)
    (default (cj_Enabled cj) (jr_Enabled req))
    (match schedule with Some (_, next) => Some next | None => cj_NextRunAt cj end)
    (cj_LastRunAt cj) (cj_LastWorkflowID cj) (cj_LastError cj) (cj_CreatedAt cj) now.

(** The new schedule of an update: none, a bad expression, or the expression with its next
    time. *)
Definition new_schedule (expr : string) : st CS (result error (option (string * Time))) :=
  if String.eqb expr "" then mret (Ok None)
  else
    t ← Cron.on_bg bg_now;
    mret (match ComputeNextRunFrom expr t with
          | Err err => Err err
          | Ok next => Ok (Some (expr, next))
          end).

Definition handleCronJobUpdate org userID (id : string) (bound : result error CronJobRequest)
    : st CS (answer CronJobResponse) :=
  with_user userID (with_id id "invalid cron job ID" (fun id =>
    r ← job_Get org id;
    match r with
    | Err _ => mret (Abort 404 "cron job not found")
    | Ok cj =>
        match bound with
        | Err _ => mret (Abort 400 "invalid request body")
        | Ok req =>
            schedule ← new_schedule (jr_CronExpression req);
            match schedule with
            | Err err => mret (Abort 400 ("invalid cron_expression: " +:+ error_Error err))
            | Ok schedule =>
                now ← Cron.on_bg bg_now;
                let cj := updated_job cj req schedule now in
                err ← job_Update cj;
                mret (match err with
                      | Some _ => Abort 500 "failed to update cron job"
                      | None => Json 200 (toCronJobResponse cj)
                      end)
            end
        end
    end)).

Definition handleCronJobDelete org userID (id : string) : st CS (answer string) :=
  with_user userID (with_id id "invalid cron job ID" (fun id =>
    err ← job_Delete org id;
    mret (match err with Some _ => Abort 404 "cron job not found" | None => Json 200 "deleted" end))).

(** [engine] tells whether there is a workflow engine. *)
Definition handleCronJobTrigger (engine : bool) org userID (id : string) : st CS (answer (WorkflowResponse F)) :=
  with_user userID
    (if negb engine then mret (Abort 503 "workflow engine not available")
     else with_id id "invalid cron job ID" (fun id =>
       r ← job_Get org id;
       match r with
       | Err _ => mret (Abort 404 "cron job not found")
       | Ok cj =>
           correlationID ← Cron.on_bg bg_correlationID;
           wf ← engine_Submit (mkWorkflowRequest userID (cj_OrgID cj) (cj_Goal cj) correlationID
                  (cj_BudgetLimitUSD cj) (cj_MaxDepth cj) (cj_MaxTasks cj));
           mret (match wf with
                 | Err _ => Abort 500 "workflow submission failed"
                 | Ok wf => Json 202 (submitted_response wf)
                 end)
       end)).
End cron.

Arguments CronJobRequest F : clear implicits.
Arguments CronJobResponse F : clear implicits.

(** ** Alerts *)

Section alerts.
Context {F P W : Type}.
Context `{!Num F} `{!ErrorText} `{!Render} `{!World W} `{!GoParams P} `{!CronParser} `{!UuidParse} `{!RowJson}.
Context `{!MapRange uuid NotificationChannel} `{!MapRange uuid AlertRule}.

Abbreviation AS := (AlertState F P W).
Implicit Types (g : Services F P AS) (org : uuid) (userID : string).

Definition on_bg {A} (m : st (Bg F P W) A) : st AS A := Alerting.on_bg m.

(** ** Alert rules *)

(** [check_config] is [None] when it is absent. *)
Record AlertRuleRequest := mkAlertRuleRequest {
  aq_Name : string;
  aq_Description : string;
  aq_Target : string;
  aq_CheckType : string;
  aq_CheckConfig : option (gmap string string);
  aq_CronExpression : string;
  aq_Channels : list string;
  aq_CooldownS : Z;
  aq_Enabled : option bool;
}.

Record AlertRuleResponse := mkAlertRuleResponse {
  as_ID : string;
  as_Name : string;
  as_Description : string;
  as_Target : string;
  as_CheckType : string;
  as_CheckConfig : gmap string string;
  as_CronExpression : string;
  as_ChannelIDs : list string;
  as_UserID : string;
  as_Enabled : bool;
  as_CooldownS : Z;
  as_LastCheckedAt : option Time;
  as_LastAlertedAt : option Time;
  as_LastStatus : string;
  as_NextRunAt : option Time;
  as_CreatedAt : Time;
  as_UpdatedAt : Time;
}.

Definition toAlertRuleResponse (r : AlertRule) : AlertRuleResponse :=
  mkAlertRuleResponse (uuid_String (ar_ID r)) (ar_Name r) (ar_Description r) (ar_Target r) (ar_CheckType r)
    (ar_CheckConfig r) (ar_CronExpression r) (map uuid_String (ar_ChannelIDs r)) (ar_UserID r) (ar_Enabled r)
    (ar_CooldownS r) (ar_LastCheckedAt r) (ar_LastAlertedAt r) (ar_LastStatus r) (ar_NextRunAt r)
    (ar_CreatedAt r) (ar_UpdatedAt r).

(** The identifiers of the channels, or the answer for the first name without one. *)
Fixpoint resolve_channels org (names : list string) : st AS (result string (list uuid)) :=
  match names with
  | [] => mret (Ok [])
  | name :: names =>
      r ← on_bg (channel_GetByName org name);
      match r with
      | Err _ => mret (Err ("notification channel not found: " +:+ name))
      | Ok ch =>
          rest ← resolve_channels org names;
          mret (match rest with Ok ids => Ok (nc_ID ch :: ids) | Err e => Err e end)
      end
  end.

(** The URL of an HTTP check defaults to the target. *)
Definition check_config (checkType target : string) (config : option (gmap string string)) : gmap string string :=
  let config := default ∅ config in
  if String.eqb checkType "http_status" && String.eqb (config_get config "url") ""
  then <["url" := target]> config else config.

Definition missing_field (req : AlertRuleRequest) : option string :=
  if String.eqb (aq_Name req) "" then Some "name is required"
  else if String.eqb (aq_Target req) "" then Some "target is required"
  else if String.eqb (aq_CheckType req) "" then Some "check_type is required"
  else if String.eqb (aq_CronExpression req) "" then Some "cron_expression is required"
  else if bool_decide (aq_Channels req = []) then Some "channels is required"
  else None.

Definition handleAlertCreate g org userID (bound : result error AlertRuleRequest) : st AS (answer AlertRuleResponse) :=
  with_user userID (with_limit g userID
    match bound with
    | Err _ => mret (Abort 400 "invalid request body")
    | Ok req =>
        match missing_field req with
        | Some msg => mret (Abort 400 msg)
        | None =>
            t ← on_bg bg_now;
            match ComputeNextRunFrom (aq_CronExpression req) t with
            | Err err => mret (Abort 400 ("invalid cron_expression: " +:+ error_Error err))
            | Ok nextRun =>
                ids ← resolve_channels org (aq_Channels req);
                match ids with
                | Err msg => mret (Abort 400 msg)
                | Ok channelIDs =>
                    now ← on_bg bg_now;
                    id ← on_bg bg_uuid;
                    let rule := mkAlertRule id org (aq_Name req) (aq_Description req) (aq_Target req)
                      (aq_CheckType req) (check_config (aq_CheckType req) (aq_Target req) (aq_CheckConfig req))
                      (aq_CronExpression req) channelIDs userID (default true (aq_Enabled req))
                      (if (0 <? aq_CooldownS req)%Z then aq_CooldownS req else 300) None None "ok"
                      (Some nextRun) now now in
                    err ← rule_Create rule;
                    mret (match err with
                          | Some _ => Abort 500 "failed to create alert rule"
                          | None => Json 201 (toAlertRuleResponse rule)
                          end)
                end
            end
        end
    end).

Definition handleAlertList org userID : st AS (answer (list AlertRuleResponse)) :=
  with_user userID (
    r ← rule_List org;
    mret (match r with
          | Err _ => Abort 500 "failed to list alert rules"
          | Ok rules => Json 200 (map toAlertRuleResponse rules)
          end)).

Definition handleAlertGet org userID (id : string) : st AS (answer AlertRuleResponse) :=
  with_user userID (with_id id "invalid alert rule ID" (fun id =>
    r ← rule_Get org id;
    mret (match r with
          | Err _ => Abort 404 "alert rule not found"
          | Ok rule => Json 200 (toAlertRuleResponse rule)
          end))).

(** The fields of a request that replace those of a rule. *)
Definition updated_rule (r : AlertRule) (req : AlertRuleRequest) (schedule : option (string * Time))
    (channelIDs : option (list uuid)) (now : Time) : AlertRule :=
  mkAlertRule (ar_ID r) (ar_OrgID r) (or_text (aq_Name req) (ar_Name r))
    (or_text (aq_Description req) (ar_Description r)) (or_text (aq_Target req) (ar_Target r))
    (or_text (aq_CheckType req) (ar_CheckType r)) (default (ar_CheckConfig r) (aq_CheckConfig req))
    (match schedule with Some (expr, _) => expr | None => ar_CronExpression r end)
    (default (ar_ChannelIDs r) channelIDs) (ar_UserID r) (default (ar_Enabled r) (aq_Enabled req))
    (if (0 <? aq_CooldownS req)%Z then aq_CooldownS req else ar_CooldownS r)
    (ar_LastCheckedAt r) (ar_LastAlertedAt r) (ar_LastStatus r)
    (match schedule with Some (_, next) => Some next | None => ar_NextRunAt r end) (ar_CreatedAt r) now.

(** The new schedule and channels of an update, or the answer when one is bad. *)
Definition alert_schedule (expr : string) : st AS (result string (option (string * Time))) :=
  if String.eqb expr "" then mret (Ok None)
  else
    t ← on_bg bg_now;
    mret (match ComputeNextRunFrom expr t with
          | Err err => Err ("invalid cron_expression: " +:+ error_Error err)
          | Ok next => Ok (Some (expr, next))
          end).

Definition alert_channels org (names : list string) : st AS (result string (option (list uuid))) :=
  match names with
  | [] => mret (Ok None)
  | _ => ids ← resolve_channels org names; mret (match ids with Ok ids => Ok (Some ids) | Err e => Err e end)
  end.

Definition handleAlertUpdate org userID (id : string) (bound : result error AlertRuleRequest)
    : st AS (answer AlertRuleResponse) :=
  with_user userID (with_id id "invalid alert rule ID" (fun id =>
    r ← rule_Get org id;
    match r with
    | Err _ => mret (Abort 404 "alert rule not found")
    | Ok rule =>
        match bound with
        | Err _ => mret (Abort 400 "invalid request body")
        | Ok req =>
            schedule ← alert_schedule (aq_CronExpression req);
            match schedule with
            | Err msg => mret (Abort 400 msg)
            | Ok schedule =>
                channels ← alert_channels org (aq_Channels req);
                match channels with
                | Err msg => mret (Abort 400 msg)
                | Ok channels =>
                    now ← on_bg bg_now;
                    let rule := updated_rule rule req schedule channels now in
                    err ← rule_Update rule;
                    mret (match err with
                          | Some _ => Abort 500 "failed to update alert rule"
                          | None => Json 200 (toAlertRuleResponse rule)
                          end)
                end
            end
        end
    end)).

Definition handleAlertDelete org userID (id : string) : st AS (answer string) :=
  with_user userID (with_id id "invalid alert rule ID" (fun id =>
    err ← rule_Delete org id;
    mret (match err with Some _ => Abort 404 "alert rule not found" | None => Json 200 "deleted" end))).

Record AlertHistoryResponse := mkAlertHistoryResponse {
  ahr_ID : string;
  ahr_AlertRuleID : string;
  ahr_Status : string;
  ahr_PreviousStatus : string;
  ahr_Message : string;
  ahr_NotifiedVia : list string;
  ahr_NotifyErrors : list string;
  ahr_CheckDurationMS : Z;
  ahr_CreatedAt : Time;
}.

Definition toAlertHistoryResponse (h : AlertHistory) : AlertHistoryResponse :=
  mkAlertHistoryResponse (uuid_String (ah_ID h)) (uuid_String (ah_AlertRuleID h)) (ah_Status h)
    (ah_PreviousStatus h) (ah_Message h) (ah_NotifiedVia h) (ah_NotifyErrors h) (ah_CheckDurationMS h)
    (ah_CreatedAt h).

Definition handleAlertHistory org userID (id : string) : st AS (answer (list AlertHistoryResponse)) :=
  with_user userID (with_id id "invalid alert rule ID" (fun id =>
    r ← history_List org (Some id) 50;
    mret (match r with
          | Err _ => Abort 500 "failed to list alert history"
          | Ok hs => Json 200 (map toAlertHistoryResponse hs)
          end))).

(** ** Notification channels *)

(** [config] is [None] when it is absent. *)
Record NotificationChannelRequest := mkChannelRequest {
  nq_Name : string;
  nq_ChannelType : string;
  nq_Config : option (gmap string string);
  nq_CredentialRef : string;
  nq_Enabled : option bool;
}.

Record NotificationChannelResponse := mkChannelResponse {
  ns_ID : string;
  ns_Name : string;
  ns_ChannelType : string;
  ns_Config : gmap string string;
  ns_Enabled : bool;
  ns_CreatedAt : Time;
  ns_UpdatedAt : Time;
}.

Definition toNotificationChannelResponse (ch : NotificationChannel) : NotificationChannelResponse :=
  mkChannelResponse (uuid_String (nc_ID ch)) (nc_Name ch) (nc_ChannelType ch) (nc_Config ch) (nc_Enabled ch)
    (nc_CreatedAt ch) (nc_UpdatedAt ch).

Definition handleChannelCreate org userID (bound : result error NotificationChannelRequest)
    : st AS (answer NotificationChannelResponse) :=
  with_user userID
    match bound with
    | Err _ => mret (Abort 400 "invalid request body")
    | Ok req =>
        if String.eqb (nq_Name req) "" then mret (Abort 400 "name is required")
        else if String.eqb (nq_ChannelType req) "" then mret (Abort 400 "channel_type is required")
        else if negb (slice_contains ["telegram"; "slack"; "email"; "webhook"] (nq_ChannelType req))
        then mret (Abort 400 "channel_type must be telegram, slack, email, or webhook")
        else
          now ← on_bg bg_now;
          id ← on_bg bg_uuid;
          let ch := mkChannel id org (nq_Name req) (nq_ChannelType req) (default ∅ (nq_Config req))
                      (nq_CredentialRef req) (default true (nq_Enabled req)) now now in
          err ← on_bg (channel_Create ch);
          mret (match err with
                | Some _ => Abort 500 "failed to create notification channel"
                | None => Json 201 (toNotificationChannelResponse ch)
                end)
    end.

Definition handleChannelList org userID : st AS (answer (list NotificationChannelResponse)) :=
  with_user userID (
    r ← on_bg (channel_List org);
    mret (match r with
          | Err _ => Abort 500 "failed to list notification channels"
          | Ok chs => Json 200 (map toNotificationChannelResponse chs)
          end)).

Definition handleChannelGet org userID (id : string) : st AS (answer NotificationChannelResponse) :=
  with_user userID (with_id id "invalid channel ID" (fun id =>
    r ← on_bg (channel_Get org id);
    mret (match r with
          | Err _ => Abort 404 "notification channel not found"
          | Ok ch => Json 200 (toNotificationChannelResponse ch)
          end))).

Definition updated_channel (ch : NotificationChannel) (req : NotificationChannelRequest) (now : Time)
    : NotificationChannel :=
  mkChannel (nc_ID ch) (nc_OrgID ch) (or_text (nq_Name req) (nc_Name ch))
    (or_text (nq_ChannelType req) (nc_ChannelType ch)) (default (nc_Config ch) (nq_Config req))
    (or_text (nq_CredentialRef req) (nc_CredentialRef ch)) (default (nc_Enabled ch) (nq_Enabled req))
    (nc_CreatedAt ch) now.

Definition handleChannelUpdate org userID (id : string) (bound : result error NotificationChannelRequest)
    : st AS (answer NotificationChannelResponse) :=
  with_user userID (with_id id "invalid channel ID" (fun id =>
    r ← on_bg (channel_Get org id);
    match r with
    | Err _ => mret (Abort 404 "notification channel not found")
    | Ok ch =>
        match bound with
        | Err _ => mret (Abort 400 "invalid request body")
        | Ok req =>
            now ← on_bg bg_now;
            let ch := updated_channel ch req now in
            err ← on_bg (channel_Update ch);
            mret (match err with
                  | Some _ => Abort 500 "failed to update notification channel"
                  | None => Json 200 (toNotificationChannelResponse ch)
                  end)
        end
    end)).

Definition handleChannelDelete org userID (id : string) : st AS (answer string) :=
  with_user userID (with_id id "invalid channel ID" (fun id =>
    err ← on_bg (channel_Delete org id);
    mret (match err with Some _ => Abort 404 "notification channel not found" | None => Json 200 "deleted" end))).

Definition test_message : Message :=
  mkMessage "[Akili] Test Notification"
    "This is a test notification from Akili. If you receive this, your notification channel is configured correctly."
    [("type", "test")].

(** The status, and the error of a failed delivery. *)
Definition handleChannelTest (d : Dispatcher W) org userID (id : string) : st AS (answer (string * string)) :=
  with_user userID (with_id id "invalid channel ID" (fun id =>
    results ← on_bg (Notify d org [id] test_message userID);
    mret (match results !! id with
          | Some (Some err) => Json 200 ("failed", error_Error err)
          | _ => Json 200 ("sent", "")
          end))).
End alerts.
