(* ===== verification/GatewayProps.v ===== *)
(** * Who acts through the gateways, and what comes of it

    Every gateway hands a request to the agent or the approval manager in the name of the
    user its sender is mapped to, and of no one when the sender is unknown.  No update of
    Telegram is handled twice; which texts Slack's timestamps are; what an update over HTTP
    does to a cron job and to its next run. *)

From Stdlib Require Import Ascii.
From S2P Require Import Prelude Text LLM Conversation Agent Config RoutingAgent WorkflowTypes Scheduler Domain.
From S2P Require Import Notification Cron Alerting GatewayText Gateway ChatGateways.
From S2P Require Import HttpApi HttpJobs.

(** ** Shared steps *)

Section shared.
Context {F P W : Type} `{!GatewayIds W} (g : Services F P W) (log : W -> list gw_event) (Hlog : logged g log).

(** A message to the agent, whatever is done with the answer. *)
Lemma emits_message {A} i (k : result error Response -> st W A) :
  (forall r, silent log (k r)) ->
  emits log (r ← ag_Process (sv_agent g) i; k r) (fun _ => acts_for (in_UserID i)).
Proof.
  intros Hk. eapply emits_bind; [apply (emits_Process g log Hlog)|]. intros r evs ->.
  apply (emits_end log _ (fun evs' => acts_for (in_UserID i) ([_] ++ evs'))); [apply Hk|]. by constructor.
Qed.

Lemma emits_denial {A} am id u (k : option error -> st W A) :
  sv_approvalMgr g = Some am -> (forall r, silent log (k r)) ->
  emits log (err ← ao_Deny am id u; k err) (fun _ => acts_for u).
Proof.
  intros Ham Hk. eapply emits_bind; [by apply (emits_Deny g log Hlog)|]. intros r evs ->.
  apply (emits_end log _ (fun evs' => acts_for u ([_] ++ evs'))); [apply Hk|]. constructor.
Qed.

(** An approval: a refused one ends, a granted one resumes. *)
Lemma emits_approval {A} am id u (refused : error -> st W A) (granted : st W A) :
  sv_approvalMgr g = Some am -> (forall e, silent log (refused e)) ->
  emits log granted (fun _ evs => evs = [GeResume id]) ->
  emits log (err ← ao_Approve am id u; match err with Some e => refused e | None => granted end)
    (fun _ => acts_for u).
Proof.
  intros Ham Hr Hg. eapply emits_bind; [by apply (emits_Approve g log Hlog)|]. intros [e|] evs ->.
  - apply (emits_end log _ (fun evs' => acts_for u ([_] ++ evs'))); [apply Hr|]. constructor.
  - eapply emits_weaken; [exact Hg|]. intros a evs ->. constructor.
Qed.

Lemma emits_resume {A} id (k : result error (ToolResponse F P) -> st W A) :
  (forall r, silent log (k r)) ->
  emits log (r ← ag_ResumeWithApproval (sv_agent g) id; k r) (fun _ evs => evs = [GeResume id]).
Proof.
  intros Hk. eapply emits_bind; [apply (emits_Resume g log Hlog)|]. intros r evs ->.
  apply (emits_end log _ (fun evs' => [_] ++ evs' = [_])); [apply Hk|done].
Qed.
End shared.

(** Nothing was done, or what [user] may do, for a user with [known user]. *)
Definition done_for (known : string -> Prop) {A} (_ : A) (evs : list gw_event) : Prop :=
  evs = [] \/ exists user, known user /\ acts_for user evs.

Lemma emits_nothing {W A} (log : W -> list gw_event) known (m : st W A) :
  silent log m -> emits log m (done_for known).
Proof. intros Hm. by apply (emits_end log m (done_for known tt)); [|left]. Qed.

Lemma emits_known {W A} (log : W -> list gw_event) (known : string -> Prop) user (m : st W A) :
  known user -> emits log m (fun _ => acts_for user) -> emits log m (done_for known).
Proof. intros Hk Hm. eapply emits_weaken; [exact Hm|]. intros a evs He. right. by exists user. Qed.

(** ** Telegram *)

Section telegram.
Context {F P W : Type} `{!GatewayIds W} `{!TelegramApi W} `{!Render} `{!ErrorText}.
Context (g : Services F P W) (c : TelegramConfig) (log : W -> list gw_event).
Context (Hlog : logged g log) (Hapi : forall call, silent log (callAPI call)).

(** The sender is on the list, and mapped to this user. *)
Definition telegram_user (from : option tgUser) (user : string) : Prop :=
  exists t, from = Some t /\ tu_ID t ∈ tc_AllowedUsers c /\ tc_UserMapping c !! itoa (tu_ID t) = Some user.

Definition telegram_sender (u : Update) : option tgUser :=
  match up_CallbackQuery u with Some cb => cq_From cb | None => up_Message u ≫= tm_From end.

Lemma silent_sendHTML chat html : silent log (sendHTML chat html).
Proof. apply silent_each. intros. apply Hapi. Qed.

Lemma silent_sendMarkdown chat text : silent log (sendMarkdown chat text).
Proof. unfold sendMarkdown. case_match; [apply silent_ret|]. apply silent_each. intros. apply Hapi. Qed.

Lemma silent_keyboard chat e : silent log (sendApprovalKeyboard chat e).
Proof. destruct e as [[[[??]?]?]?]. apply Hapi. Qed.

Lemma silent_when_chat chat m : silent log m -> silent log (when_chat chat m).
Proof. unfold when_chat. case_match; [intros; apply silent_ret|done]. Qed.

Lemma telegram_message msg :
  emits log (tg_handleMessage g c msg) (done_for (telegram_user (tm_From msg))).
Proof.
  unfold tg_handleMessage. destruct (tm_From msg) as [t|]; [|apply emits_nothing, silent_ret].
  case_match; [apply emits_nothing, silent_ret|].
  case_bool_decide as Hin; cbn [negb]; [|apply emits_nothing, silent_sendHTML].
  destruct (tc_UserMapping c !! itoa (tu_ID t)) as [user|] eqn:Em; [|apply emits_nothing, silent_sendHTML].
  apply emits_after; [by eapply silent_limited|]. intros [].
  { apply emits_nothing, silent_sendHTML. }
  apply emits_after; [by eapply silent_correlation|]. intros cid.
  case_match; [apply emits_nothing, silent_sendHTML|].
  eapply emits_known; [by exists t|]. apply (emits_message g log Hlog). intros [resp|err].
  - apply silent_bind; [apply silent_each; intros; apply silent_keyboard|intros; apply silent_sendMarkdown].
  - case_match; [apply silent_keyboard|apply silent_sendHTML].
Qed.

Lemma telegram_callback cb :
  emits log (handleCallback g c cb) (done_for (telegram_user (cq_From cb))).
Proof.
  unfold handleCallback. destruct (cq_From cb) as [t|]; [|apply emits_nothing, silent_ret].
  case_match; [apply emits_nothing, silent_ret|].
  case_bool_decide as Hin; cbn [negb]; [|apply emits_nothing, Hapi].
  destruct (tc_UserMapping c !! itoa (tu_ID t)) as [user|] eqn:Em; [|apply emits_nothing, Hapi].
  destruct (cut (cq_Data cb) ":") as [[decision id]|]; [|apply emits_nothing, Hapi].
  destruct (sv_approvalMgr g) as [am|] eqn:Ham; [|apply emits_nothing, Hapi].
  eapply emits_known; [by exists t|]. case_match.
  - apply (emits_denial g log Hlog); [done|]. intros [e|]; [apply Hapi|].
    apply silent_bind; [apply Hapi|]. intros _. apply silent_when_chat, silent_sendHTML.
  - apply (emits_approval g log Hlog); [done|intros; apply Hapi|].
    apply emits_after; [apply Hapi|]. intros _. apply (emits_resume g log Hlog).
    intros [res|err]; apply silent_when_chat; [|apply silent_sendHTML].
    apply silent_bind; [apply silent_sendHTML|]. intros _. apply silent_sendMarkdown.
Qed.

Lemma telegram_update u : emits log (processUpdate g c u) (done_for (telegram_user (telegram_sender u))).
Proof.
  unfold processUpdate, telegram_sender. destruct (up_CallbackQuery u) as [cb|]; [apply telegram_callback|].
  destruct (up_Message u) as [msg|]; [apply telegram_message|apply emits_nothing, silent_ret].
Qed.
End telegram.

(** ** Signal *)

Section signal.
Context {F P W : Type} `{!GatewayIds W} `{!SignalApi W} `{!ErrorText}.
Context (g : Services F P W) (c : SignalConfig) (log : W -> list gw_event).
Context (Hlog : logged g log) (Hapi : forall to text, silent log (signal_post to text)).

Definition signal_user (source user : string) : Prop :=
  source ∈ sc_AllowedUsers c /\ sc_UserMapping c !! source = Some user.

Lemma silent_signal to group text : silent log (signal_sendMessage to group text).
Proof. unfold signal_sendMessage. case_match; [apply silent_ret|]. apply silent_each. intros. apply Hapi. Qed.

Lemma silent_approval_message to group e : silent log (sendApprovalMessage to group e).
Proof. destruct e as [[[[??]?]?]?]. apply silent_signal. Qed.

Lemma signal_command (known : string -> Prop) phone group user text : known user ->
  emits log (handleApprovalCommand g phone group user text) (done_for known).
Proof.
  intros Hk. unfold handleApprovalCommand.
  destruct (words text) as [|first [|id [|]]]; try apply emits_nothing, silent_signal.
  destruct (sv_approvalMgr g) as [am|] eqn:Ham; [|apply emits_nothing, silent_signal].
  eapply emits_known; [done|]. case_match.
  - apply (emits_denial g log Hlog); [done|]. intros []; apply silent_signal.
  - apply (emits_approval g log Hlog); [done|intros; apply silent_signal|].
    apply (emits_resume g log Hlog). intros []; apply silent_signal.
Qed.

Lemma signal_message env :
  emits log (signal_processMessage g c env) (done_for (signal_user (ev_Source env))).
Proof.
  unfold signal_processMessage. destruct (ev_DataMessage env) as [msg|]; [|apply emits_nothing, silent_ret].
  case_match; [apply emits_nothing, silent_ret|]. case_match; [apply emits_nothing, silent_ret|].
  case_bool_decide as Hin; cbn [negb]; [|apply emits_nothing, silent_signal].
  destruct (sc_UserMapping c !! ev_Source env) as [user|] eqn:Em; [|apply emits_nothing, silent_signal].
  apply emits_after; [by eapply silent_limited|]. intros [].
  { apply emits_nothing, silent_signal. }
  apply emits_after; [by eapply silent_correlation|]. intros cid.
  case_match; [by apply signal_command|].
  eapply emits_known; [done|]. apply (emits_message g log Hlog). intros [resp|err].
  - apply silent_bind; [apply silent_each; intros; apply silent_approval_message|intros; apply silent_signal].
  - case_match; [apply silent_approval_message|apply silent_signal].
Qed.
End signal.

(** ** Slack *)

Section slack.
Context {F P W : Type} `{!GatewayIds W} `{!SlackApi W} `{!ErrorText}.
Context (g : Services F P W) (c : SlackConfig) (log : W -> list gw_event).
Context (Hlog : logged g log) (Hnow : silent log slack_now).
Context (Hpost : forall channel text att vals, silent log (slack_post channel text att vals)).

(** The body was signed with the secret, not long before [now]. *)
Definition slack_signed (r : slack_request) (body : string) (now : Time) : Prop :=
  rq_body r = Ok body /\ rq_timestamp r <> "" /\ rq_signature r = signature_of c (rq_timestamp r) body /\
  exists ts, parseUnixTimestamp (rq_timestamp r) = Ok ts /\ (time_Since now (ts * Second) <= signatureMaxAge)%Z.

Lemma readAndVerify_Ok r body w : (readAndVerify c r w).1 = Ok body <-> slack_signed r body (slack_now w).1.
Proof.
  unfold slack_signed, readAndVerify. destruct (rq_body r) as [b|e]; [|split; [done|by intros []]].
  destruct (String.eqb_spec (rq_timestamp r) "") as [Ht|Ht]; [split; [done|by intros (_ & [] & _)]|].
  destruct (String.eqb_spec (rq_signature r) "") as [Hs|Hs].
  { split; [done|]. intros (_ & _ & E & _). by rewrite E in Hs. }
  cbn [orb]. destruct (parseUnixTimestamp (rq_timestamp r)) as [ts|e].
  2: { split; [done|]. intros (_ & _ & _ & ts & [= ] & _). }
  rewrite st_bind_run. destruct (Z.ltb_spec signatureMaxAge (time_Since (slack_now w).1 (ts * Second)%Z)) as [Hl|Hl].
  { split; [done|]. intros (_ & _ & _ & ts' & [= <-] & ?). lia. }
  destruct (String.eqb_spec (signature_of c (rq_timestamp r) b) (rq_signature r)) as [E|E]; simpl.
  - split; [intros [= <-]; split_and!; [done..|by exists ts]|]. by intros ([= <-] & _).
  - split; [done|]. intros ([= <-] & _ & E' & _). congruence.
Qed.

Lemma silent_verify r : silent log (readAndVerify c r).
Proof.
  unfold readAndVerify. destruct (rq_body r) as [b|e]; [|apply silent_ret].
  destruct (_ || _); [apply silent_ret|]. destruct (parseUnixTimestamp _) as [ts|e]; [|apply silent_ret].
  apply silent_bind; [apply Hnow|]. intros now. repeat case_match; apply silent_ret.
Qed.

(** A user named in a body that was signed. *)
Definition slack_user (r : slack_request) (user : string) : Prop :=
  exists body now values id, slack_signed r body now /\ form_get body = Ok values /\
    sl_UserMapping c !! id = Some user /\
    (id = values "user_id" \/ exists p, parse_payload (values "payload") = Ok p /\ id = ip_UserID p).

Lemma emits_verified {A} r (k : result error string -> st W A) (Q : A -> list gw_event -> Prop) :
  (forall e, emits log (k (Err e)) Q) ->
  (forall body now, slack_signed r body now -> emits log (k (Ok body)) Q) ->
  emits log (readAndVerify c r ≫= k) Q.
Proof.
  intros He Hk w. rewrite st_bind_run. rewrite <-(silent_verify r w).
  pose proof (readAndVerify_Ok r) as Hv. destruct ((readAndVerify c r w).1) as [body|e] eqn:E; [|apply He].
  eapply Hk. by apply Hv.
Qed.

Lemma silent_postApproval channel e : silent log (postApprovalMessage c channel e).
Proof. destruct e as [[[[??]?]?]?]. apply Hpost. Qed.

Lemma slack_command r : emits log (handleSlashCommand g c r) (done_for (slack_user r)).
Proof.
  unfold handleSlashCommand. apply emits_verified; [intros; apply emits_nothing, silent_ret|].
  intros body now Hs. destruct (form_get body) as [values|] eqn:Ef; [|apply emits_nothing, silent_ret].
  destruct (sl_UserMapping c !! values "user_id") as [user|] eqn:Em; [|apply emits_nothing, silent_ret].
  apply emits_after; [by eapply silent_limited|]. intros []; [apply emits_nothing, silent_ret|].
  apply emits_after; [by eapply silent_correlation|]. intros cid.
  eapply emits_known; [exists body, now, values, (values "user_id"); split_and!; [done..|by left]|].
  apply (emits_message g log Hlog). intros [resp|err].
  - apply silent_bind; [apply silent_each; intros; apply silent_postApproval|intros; apply silent_ret].
  - destruct (as_approval_pending err) as [[[[[??]?]?]?]|]; [|apply silent_ret].
    apply silent_bind; [apply silent_postApproval|intros; apply silent_ret].
Qed.

Lemma slack_interaction r : emits log (handleInteraction g c r) (done_for (slack_user r)).
Proof.
  unfold handleInteraction. apply emits_verified; [intros; apply emits_nothing, silent_ret|].
  intros body now Hs. destruct (form_get body) as [values|] eqn:Ef; [|apply emits_nothing, silent_ret].
  destruct (parse_payload (values "payload")) as [p|] eqn:Ep; [|apply emits_nothing, silent_ret].
  destruct (ip_Actions p) as [|action l]; [apply emits_nothing, silent_ret|].
  destruct (sl_UserMapping c !! ip_UserID p) as [user|] eqn:Em; [|apply emits_nothing, silent_ret].
  destruct (cut action ":") as [[decision id]|]; [|apply emits_nothing, silent_ret].
  destruct (sv_approvalMgr g) as [am|] eqn:Ham; [|apply emits_nothing, silent_ret].
  eapply emits_known; [exists body, now, values, (ip_UserID p); split_and!; [done..|right; by exists p]|]. case_match.
  - apply (emits_denial g log Hlog); [done|]. intros; apply silent_ret.
  - apply (emits_approval g log Hlog); [done|intros; apply silent_ret|].
    apply (emits_resume g log Hlog). intros; apply silent_ret.
Qed.
End slack.

(** ** HTTP *)

(** The request has the key of this user. *)
Definition http_user (keys : gmap string string) (authHeader user : string) : Prop :=
  user <> "" /\ exists key, authHeader = bearer +:+ key /\ keys !! key = Some user.

Lemma fold_key (l : list (string * string)) key acc :
  NoDup l.*1 ->
  fold_left (fun userID kv => if String.eqb key kv.1 then kv.2 else userID) l acc =
  default acc ((list_to_map l : gmap string string) !! key).
Proof.
  revert acc. induction l as [|[k v] l IH]; intros acc Hd; [done|].
  apply NoDup_cons in Hd as [Hk Hd]. simpl. rewrite IH by done.
  destruct (String.eqb_spec key k) as [->|Hne].
  - rewrite lookup_insert_eq. simpl. by rewrite not_elem_of_list_to_map_1 by done.
  - by rewrite lookup_insert_ne by done.
Qed.

Lemma map_range_back `{!MapRange string string} (m : gmap string string) : list_to_map (map_range m) = m.
Proof. rewrite (list_to_map_proper _ (map_to_list m)); [apply list_to_map_to_list|apply NoDup_fst_map_range|apply map_range_perm]. Qed.

Lemma drop_prefix_Some p s t : drop_prefix p s = Some t <-> s = p +:+ t.
Proof.
  unfold drop_prefix. destruct (has_prefix s p) eqn:Ep.
  - apply has_prefix_spec in Ep as [u ->]. rewrite substring_skip. split; [by intros [= ->]|].
    by intros ->%str_app_inj_l.
  - split; [done|]. intros ->. enough (has_prefix (p +:+ t) p = true) by congruence.
    apply has_prefix_spec. by exists t.
Qed.

Lemma authenticate_Ok `{!MapRange string string} keys authHeader user :
  authenticate keys authHeader = Ok user <-> http_user keys authHeader user.
Proof.
  unfold authenticate, http_user. destruct (drop_prefix bearer authHeader) as [key|] eqn:Ed.
  - apply drop_prefix_Some in Ed as ->. rewrite fold_key, map_range_back by apply NoDup_fst_map_range.
    destruct (keys !! key) as [u|] eqn:Ek; simpl.
    + destruct (String.eqb_spec u "") as [->|Hne].
      * split; [done|]. intros (Hu & k & <-%str_app_inj_l & E). rewrite Ek in E. by injection E as <-.
      * split; [intros [= <-]; split; [done|by exists key]|]. intros (_ & k & <-%str_app_inj_l & E). congruence.
    + split; [done|]. intros (_ & k & <-%str_app_inj_l & E). congruence.
  - split; [done|]. intros (_ & key & E & _). apply drop_prefix_Some in E. congruence.
Qed.

Section http.
Context {F P W : Type} `{!GatewayIds W} `{!MapRange string string}.
Context (g : Services F P W) (log : W -> list gw_event) (Hlog : logged g log).

Lemma emits_with_user {A} user (m : st W (answer A)) :
  emits log m (fun _ => acts_for user) -> emits log (with_user user m) (fun _ => acts_for user).
Proof. intros Hm. unfold with_user. case_match; [|done]. apply emits_end; [apply silent_ret|constructor]. Qed.

Lemma emits_with_limit {A} user (m : st W (answer A)) :
  emits log m (fun _ => acts_for user) -> emits log (with_limit g user m) (fun _ => acts_for user).
Proof.
  intros Hm. apply emits_after; [by eapply silent_limited|]. intros []; [|done].
  apply emits_end; [apply silent_ret|constructor].
Qed.

Lemma http_input user req :
  silent log (query_input user req) /\ forall w, in_UserID (query_input user req w).1 = user.
Proof.
  unfold query_input. split.
  - apply silent_bind; [by eapply silent_correlation|]. intros cid. case_match; [|apply silent_ret].
    apply silent_bind; [by eapply silent_uuid|]. intros; apply silent_ret.
  - intros w. rewrite st_bind_run. case_match; [|done]. by rewrite st_bind_run.
Qed.

Lemma emits_query {A} user req (k : Input -> result error Response -> st W A) :
  (forall i r, silent log (k i r)) ->
  emits log (i ← query_input user req; r ← ag_Process (sv_agent g) i; k i r) (fun _ => acts_for user).
Proof.
  intros Hk w. destruct (http_input user req) as [Hs Hu]. rewrite st_bind_run, <-(Hs w).
  pose proof (emits_message g log Hlog (query_input user req w).1
                (k (query_input user req w).1) (Hk (query_input user req w).1) (query_input user req w).2) as He.
  rewrite Hu in He. exact He.
Qed.

Lemma http_query user bound : emits log (handleQuery g user bound) (fun _ => acts_for user).
Proof.
  apply emits_with_limit. destruct bound as [req|e]; [|apply emits_end; [apply silent_ret|constructor]].
  case_match; [apply emits_end; [apply silent_ret|constructor]|]. apply emits_query. intros; apply silent_ret.
Qed.

Lemma http_stream user bound : emits log (handleQueryStream g user bound) (fun _ => acts_for user).
Proof.
  apply emits_with_user, emits_with_limit. destruct bound as [req|e]; [|apply emits_end; [apply silent_ret|constructor]].
  case_match; [apply emits_end; [apply silent_ret|constructor]|]. apply emits_query. intros; apply silent_ret.
Qed.

Lemma http_approve user bound : emits log (handleApprove g user bound) (fun _ => acts_for user).
Proof.
  apply emits_with_user, emits_with_limit. destruct bound as [req|e]; [|apply emits_end; [apply silent_ret|constructor]].
  case_match; [apply emits_end; [apply silent_ret|constructor]|].
  case_match; [apply emits_end; [apply silent_ret|constructor]|].
  destruct (sv_approvalMgr g) as [am|] eqn:Ham; [|apply emits_end; [apply silent_ret|constructor]].
  case_match.
  - apply (emits_denial g log Hlog); [done|]. intros; apply silent_ret.
  - apply (emits_approval g log Hlog); [done|intros; apply silent_ret|].
    apply (emits_resume g log Hlog). intros; apply silent_ret.
Qed.

(** A handler behind the authentication. *)
Lemma http_known {A} keys authHeader (h : string -> st W (answer A)) :
  (forall user, emits log (h user) (fun _ => acts_for user)) ->
  emits log (with_auth keys authHeader h) (done_for (http_user keys authHeader)).
Proof.
  intros Hh. unfold with_auth. destruct (authenticate keys authHeader) as [user|] eqn:Ea.
  - apply authenticate_Ok in Ea. by eapply emits_known.
  - apply emits_nothing, silent_ret.
Qed.
End http.

(** ** The four gateways *)

Section gateways.
Context {F P W : Type} `{!GatewayIds W} `{!TelegramApi W} `{!SignalApi W} `{!SlackApi W}.
Context `{!Render} `{!ErrorText} `{!MapRange string string}.

(** The answers of the gateways and the clock do not reach the agent. *)
Record quiet (log : W -> list gw_event) : Prop := {
  quiet_telegram : forall call, silent log (callAPI call);
  quiet_signal : forall to text, silent log (signal_post to text);
  quiet_slack : forall channel text att vals, silent log (slack_post channel text att vals);
  quiet_clock : silent log slack_now;
}.

(** C10: only known users act, and as themselves.  What a request of a gateway makes the
    agent and the approval manager do is nothing, or one message, one denial, or one
    approval followed by the execution when it was granted, all in the name of one user:
    the one an allowed Telegram or Signal sender is mapped to, the one a body signed with
    the Slack secret names, or the one whose key an HTTP request has. *)
Theorem gateways_act_for_known_users (g : Services F P W) log :
  logged g log -> quiet log ->
  (forall c u, emits log (processUpdate g c u) (done_for (telegram_user c (telegram_sender u)))) /\
  (forall c env, emits log (signal_processMessage g c env) (done_for (signal_user c (ev_Source env)))) /\
  (forall c r, emits log (handleSlashCommand g c r) (done_for (slack_user c r)) /\
               emits log (handleInteraction g c r) (done_for (slack_user c r))) /\
  (forall keys authHeader,
     (forall bound, emits log (with_auth keys authHeader (fun u => handleQuery g u bound))
                      (done_for (http_user keys authHeader))) /\
     (forall bound, emits log (with_auth keys authHeader (fun u => handleQueryStream g u bound))
                      (done_for (http_user keys authHeader))) /\
     (forall bound, emits log (with_auth keys authHeader (fun u => handleApprove g u bound))
                      (done_for (http_user keys authHeader)))).
Proof.
  intros Hlog [Ht Hs Hp Hn]. split_and!.
  - intros c u. by apply telegram_update.
  - intros c env. by apply signal_message.
  - intros c r. split; [by apply slack_command|by apply slack_interaction].
  - intros keys authHeader. split_and!; intros bound; apply http_known; intros user;
      [by apply http_query|by apply http_stream|by apply http_approve].
Qed.

(** What the HTTP gateway accepts.  A request is a user's exactly when its header is
    [Bearer] and a key of that user, in whatever order the keys are compared. *)
Theorem http_auth_exact keys authHeader user :
  authenticate keys authHeader = Ok user <->
  user <> "" /\ exists key, authHeader = bearer +:+ key /\ keys !! key = Some user.
Proof. apply authenticate_Ok. Qed.

(** C11: what the Slack gateway accepts.  A body is taken exactly when it was read, its
    signature is that of its timestamp and itself under the secret, and the timestamp is at
    most five minutes old on the clock; nothing else counts, so the same request is taken
    again until then, and one from the future as well. *)
Theorem slack_verify_exact c r body w :
  (readAndVerify c r w).1 = Ok body <->
  rq_body r = Ok body /\ rq_timestamp r <> "" /\ rq_signature r = signature_of c (rq_timestamp r) body /\
  exists ts, parseUnixTimestamp (rq_timestamp r) = Ok ts /\
    (time_Since (slack_now w).1 (ts * Second) <= signatureMaxAge)%Z.
Proof. apply readAndVerify_Ok. Qed.
End gateways.

(** ** Long polling *)

(** The documented answer to [getUpdates]: updates from the offset on, by identifier. *)
Class TelegramApiLaw W `{!TelegramApi W} := {
  api_from_offset : forall offset timeout w us,
    (api_getUpdates offset timeout w).1 = Ok (true, us) ->
    StronglySorted Z.lt (map up_UpdateID us) /\ Forall (fun u => (offset <= up_UpdateID u)%Z) us;
}.

Section polling.
Context {F P W : Type} `{!GatewayIds W} `{!TelegramApi W} `{!TelegramApiLaw W} `{!Render} `{!ErrorText}.
Implicit Types (g : Services F P W) (c : TelegramConfig).

Abbreviation ids := (map up_UpdateID).

(** What a run from an offset may have handled, and the offset it ends with. *)
Record in_order (offset : Z) (r : Z * list Update) : Prop := {
  io_sorted : StronglySorted Z.lt (ids r.2);
  io_from : Forall (fun i => offset <= i < r.1)%Z (ids r.2);
  io_offset : (offset <= r.1)%Z;
}.

Lemma in_order_nil offset : in_order offset (offset, []).
Proof. split; simpl; [constructor|constructor|lia]. Qed.

Lemma next_offset_sorted us : forall offset,
  StronglySorted Z.lt (ids us) -> Forall (fun u => (offset <= up_UpdateID u)%Z) us ->
  in_order offset (fold_left next_offset us offset, us).
Proof.
  induction us as [|u us IH]; intros offset Hs Hf; [apply in_order_nil|].
  apply StronglySorted_inv in Hs as [Hs Hu]. apply Forall_cons in Hf as [Ho Hf].
  simpl. unfold next_offset at 2. rewrite (proj2 (Z.leb_le _ _) Ho).
  destruct (IH (up_UpdateID u + 1)%Z Hs) as [H1 H2 H3].
  { apply (proj1 (List.Forall_map _ _ _)) in Hu. eapply Forall_impl; [exact Hu|]. simpl. lia. }
  simpl in *. split; simpl; [by constructor| |lia].
  constructor; [lia|]. eapply Forall_impl; [exact H2|]. simpl. lia.
Qed.

Lemma poll_in_order g c offset w : in_order offset (poll_once g c offset w).1.
Proof.
  unfold poll_once, getUpdates. rewrite !st_bind_run.
  pose proof (api_from_offset offset (pollTimeout c) w) as Hl.
  destruct (api_getUpdates offset (pollTimeout c) w) as [[[[] us]|e] w']; simpl in *.
  - rewrite st_bind_run. destruct (Hl us eq_refl). by apply next_offset_sorted.
  - apply in_order_nil.
  - apply in_order_nil.
Qed.

Lemma in_order_app offset a b : in_order offset a -> in_order a.1 b -> in_order offset (b.1, a.2 ++ b.2).
Proof.
  intros [A1 A2 A3] [B1 B2 B3]. split; simpl.
  - rewrite map_app. apply StronglySorted_app_2; [|done..].
    intros x y Hx Hy. rewrite Forall_forall in A2, B2. specialize (A2 x Hx). specialize (B2 y Hy). lia.
  - rewrite map_app. apply Forall_app. split; (eapply Forall_impl; [eassumption|]); simpl; lia.
  - lia.
Qed.

Lemma polls_in_order n g c : forall offset w, in_order offset (startPolling n g c offset w).1.
Proof.
  induction n as [|n IH]; intros offset w; simpl; [apply in_order_nil|].
  rewrite !st_bind_run. simpl. apply in_order_app; [apply poll_in_order|apply IH].
Qed.

(** No update is handled twice.  Whatever the turns of the polling loop meet, failed
    calls included, the updates they handled have increasing identifiers, all from the first
    offset on, and the next call asks for those after the last. *)
Theorem telegram_updates_once n g c offset w :
  let r := (startPolling n g c offset w).1 in
  StronglySorted Z.lt (ids r.2) /\ NoDup (ids r.2) /\ Forall (fun i => offset <= i < r.1)%Z (ids r.2).
Proof.
  cbv zeta. destruct (polls_in_order n g c offset w) as [H1 H2 H3]. split_and!; [done| |done].
  revert H1. generalize (ids (startPolling n g c offset w).1.2). clear.
  induction l as [|x l IH]; intros Hs; constructor; apply StronglySorted_inv in Hs as [Hs Hx].
  - intros Hin. rewrite Forall_forall in Hx. specialize (Hx x Hin). lia.
  - by apply IH.
Qed.
End polling.

(** ** Timestamps of Slack *)

Definition max_ts : Z := Z.quot (2 ^ 63 - 1) 10.

Lemma digit_range c d : digit c = Some d -> (0 <= d <= 9)%Z.
Proof. unfold digit. case_match eqn:E; [|done]. intros [= <-]. apply andb_true_iff in E. lia. Qed.

Lemma digits_ge s : forall acc v, digits s acc = Some v -> (0 <= acc)%Z -> (acc <= v)%Z.
Proof.
  induction s as [|c s IH]; intros acc v; simpl; [intros [= ->]; lia|].
  destruct (digit c) as [d|] eqn:Ed; [|done]. apply digit_range in Ed. intros Hv Ha.
  specialize (IH _ _ Hv). lia.
Qed.

Lemma digits_None s : forall a b, digits s a = None <-> digits s b = None.
Proof. induction s as [|c s IH]; intros a b; simpl; [done|]. by destruct (digit c). Qed.

Lemma parse_digits_Ok s : forall ts v r, (ts mod 2 ^ 64 = v mod 2 ^ 64)%Z -> (- 2 ^ 63 <= ts <= max_ts)%Z ->
  parse_digits s ts = Ok r ->
  exists v', digits s v = Some v' /\ (r mod 2 ^ 64 = v' mod 2 ^ 64)%Z /\ (- 2 ^ 63 <= r <= max_ts)%Z.
Proof.
  induction s as [|c s IH]; intros ts v r Hm Hb; cbn [parse_digits digits].
  { intros [= <-]. by exists v. }
  destruct (digit c) as [d|] eqn:Ed; [|done]. fold max_ts.
  destruct (Z.ltb_spec max_ts (wrap64 (wrap64 (ts * 10) + d))) as [|Hle]; [done|].
  intros E. eapply IH; [| |exact E].
  - rewrite wrap64_mod, Zplus_mod, wrap64_mod, <-Zplus_mod, Zplus_mod, Zmult_mod, Hm, <-Zmult_mod, <-Zplus_mod. done.
  - split; [apply wrap64_int|done].
Qed.

Lemma parse_digits_small s : forall ts v, (0 <= ts)%Z -> digits s ts = Some v -> (v <= max_ts)%Z ->
  parse_digits s ts = Ok v.
Proof.
  assert (max_ts * 10 + 9 < 2 ^ 63 + 10 /\ max_ts < 2 ^ 63)%Z as [Hm Hm'] by (split; vm_compute; reflexivity).
  induction s as [|c s IH]; intros ts v Ht; cbn [parse_digits digits]; [by intros [= ->]|].
  destruct (digit c) as [d|] eqn:Ed; [|done]. apply digit_range in Ed. intros Hv Hle.
  pose proof (digits_ge _ _ _ Hv ltac:(lia)). fold max_ts.
  rewrite (wrap64_id (ts * 10)), wrap64_id by (unfold is_int; lia).
  rewrite (proj2 (Z.ltb_ge _ _)) by lia. apply IH; [lia|done..].
Qed.

(** Timestamps of Slack.  A timestamp that is read is made of decimal digits; it is their
    number modulo 2^64, at most a tenth of the largest integer; every number up to that is
    read as itself, and a text with another character is refused.  Larger numbers may be read
    as others, since the overflow is tested after the wrap. *)
Theorem timestamp_parse_exact s :
  (forall ts, parseUnixTimestamp s = Ok ts ->
     exists v, digits s 0 = Some v /\ (ts mod 2 ^ 64 = v mod 2 ^ 64)%Z /\ (- 2 ^ 63 <= ts <= max_ts)%Z) /\
  (forall v, digits s 0 = Some v -> (v <= max_ts)%Z -> parseUnixTimestamp s = Ok v) /\
  (digits s 0 = None -> exists e, parseUnixTimestamp s = Err e).
Proof.
  assert (forall ts, parseUnixTimestamp s = Ok ts -> exists v, digits s 0 = Some v /\
    (ts mod 2 ^ 64 = v mod 2 ^ 64)%Z /\ (- 2 ^ 63 <= ts <= max_ts)%Z) as Hok.
  { intros ts. apply parse_digits_Ok; [done|]. vm_compute. split; discriminate. }
  split_and!; [exact Hok|intros v; by apply parse_digits_small|].
  intros Hn. destruct (parseUnixTimestamp s) as [ts|e]; [|by exists e].
  destruct (Hok ts eq_refl) as (v & E & _). congruence.
Qed.

(** ** Cron jobs over HTTP *)

Section jobs.
Context {F P W E : Type}.
Context `{!Num F} `{!ErrorText} `{!Render} `{!World W} `{!GoParams P}.
Context `{!CronParser} `{!CronEngine F E} `{!UuidParse}.
Context `{!MapRange uuid NotificationChannel} `{!MapRange uuid (CronJob F)}.
Implicit Types (c : CronState F P W E) (j : CronJob F) (req : CronJobRequest F).

(** The update of a job by a request: only its row changes, and its owner does not. *)
Definition job_updated org user idText req c j' c' : Prop :=
  user <> "" /\ exists id j, uuid_Parse idText = Ok id /\ ct_jobs c !! id = Some j /\ cj_OrgID j = org /\
    (cj_ID j', cj_OrgID j', cj_UserID j', cj_CreatedAt j') = (cj_ID j, cj_OrgID j, cj_UserID j, cj_CreatedAt j) /\
    cj_Goal j' = or_text (jr_Goal req) (cj_Goal j) /\ ct_jobs c' = <[cj_ID j := j']> (ct_jobs c).

Lemma new_schedule_kept expr c : rows_kept c (new_schedule expr c).2.
Proof.
  unfold new_schedule. destruct (String.eqb expr ""); [done|]. rewrite st_bind_run, on_bg_run. simpl. done.
Qed.

Lemma job_Get_run org id c r c' : job_Get org id c = (r, c') ->
  rows_kept c c' /\ forall j, r = Ok j -> ct_jobs c !! id = Some j /\ cj_OrgID j = org.
Proof.
  unfold job_Get. rewrite st_bind_run, on_bg_run. simpl.
  destruct (bg_stmt (ct_bg c)).1; simpl; [intros [= <- <-]; by split|].
  rewrite st_bind_run. simpl. intros [= <- <-]. split; [done|]. intros j.
  destruct (ct_jobs c !! id) as [j'|]; [|done]. case_bool_decide; [|done]. by intros [= <-].
Qed.

Lemma job_Update_run cj c r c' : job_Update cj c = (r, c') ->
  ct_submits c' = ct_submits c /\
  ct_jobs c' = match r with None => <[cj_ID cj := cj]> (ct_jobs c) | Some _ => ct_jobs c end.
Proof.
  unfold job_Update. rewrite st_bind_run, on_bg_run. simpl.
  destruct (bg_stmt (ct_bg c)).1; simpl; [by intros [= <- <-]|].
  rewrite st_bind_run. simpl. by intros [= <- <-].
Qed.

Lemma update_run org user idText bound c :
  let r := handleCronJobUpdate org user idText bound c in
  match r.1 with
  | Json _ body => exists req j', bound = Ok req /\ body = toCronJobResponse j' /\
                     job_updated org user idText req c j' r.2
  | Abort _ _ => ct_jobs r.2 = ct_jobs c
  end.
Proof.
  cbv zeta. unfold handleCronJobUpdate, with_user, with_id.
  destruct (String.eqb_spec user "") as [|Hu]; [done|]. destruct (uuid_Parse idText) as [id|e] eqn:Eid; [|done].
  rewrite st_bind_run. destruct (job_Get org id c) as [[j|e] c1] eqn:Eg; apply job_Get_run in Eg as [[Hj1 _] Hg];
    cbn [fst snd]; [|done].
  destruct (Hg j eq_refl) as [Hj Ho]. destruct bound as [req|e]; [|done].
  rewrite st_bind_run. pose proof (new_schedule_kept (jr_CronExpression req) c1) as [Hj2 _].
  destruct (new_schedule (jr_CronExpression req) c1) as [[schedule|e] c2]; cbn [fst snd] in *; [|simpl; congruence].
  rewrite st_bind_run, on_bg_run. cbn [fst snd]. set (c3 := mkCronState _ _ _ _). set (now := (bg_now _).1).
  rewrite st_bind_run. destruct (job_Update _ c3) as [[e|] c4] eqn:Eu; apply job_Update_run in Eu as [_ Hj4];
    simpl in *; [congruence|].
  exists req, (updated_job j req schedule now). split_and!; [done..|]. split; [done|]. exists id, j.
  split_and!; [done..|]. simpl in *. by rewrite Hj4, Hj2, Hj1.
Qed.

(** An update of a job keeps its owner.  An answered update writes one row of the
    organisation, whose identity and owner stay whoever asks, and a refused one writes
    none; the next run of the job then submits the goal of the request in the owner's
    name. *)
Theorem cron_update_keeps_owner s org user idText bound c :
  match (handleCronJobUpdate org user idText bound c).1 with
  | Json _ body =>
      let c' := (handleCronJobUpdate org user idText bound c).2 in
      exists req j' cid, bound = Ok req /\ body = toCronJobResponse j' /\
        job_updated org user idText req c j' c' /\
        ct_submits (fireJob s j' c').2 =
          ct_submits c' ++ [mkWorkflowRequest (cj_UserID j') (cj_OrgID j') (cj_Goal j') cid
                              (cj_BudgetLimitUSD j') (cj_MaxDepth j') (cj_MaxTasks j')]
  | Abort _ _ => ct_jobs (handleCronJobUpdate org user idText bound c).2 = ct_jobs c
  end.
Proof.
  pose proof (update_run org user idText bound c) as Hr. cbv zeta in *.
  destruct (handleCronJobUpdate org user idText bound c) as [[st msg|st body] c']; cbn [fst snd] in *; [done|].
  destruct Hr as (req & j' & Hb & Hbody & Hj). destruct (fireJob_fired s j' c') as [(cid & Hs) _].
  by exists req, j', cid.
Qed.
End jobs.
