(* ===== verification/ServiceExamples.v ===== *)
(** * Runs of the background services, the gateways and the database-backed managers

    A clock that ticks at every reading, a database that answers, two cron expressions, one
    public host that answers with a failure; an agent that answers everything behind the
    gateways; a codec for the tables: witnesses of [Notification], [Cron], [AlertingProps],
    [GatewayText], [GatewayProps], [Models], [ApprovalDB], [RoleProps], [ConversationDB],
    [HeartbeatTask], [Soul], [Infra], [ServiceTools] and [Fleet]. *)

From S2P Require Import Prelude Text Security Approval LLM Conversation SecurityManager Agent Config Protocol.
From S2P Require Import RoutingAgent RemoteExamples WorkflowTypes Scheduler Domain Models ApprovalDB RoleDB.
From S2P Require Import RoleProps Notification Cron Alerting AlertingProps GatewayText.
From S2P Require Import GatewayText Gateway ChatGateways HttpApi HttpJobs GatewayProps.

Definition BW : Type := Z.

#[export] Instance bw_world : World BW := {
  w_now w := (w, (w + 1)%Z);
  w_uuid w := (Z.to_N w, w);
  w_correlationID w := ("corr", w);
  w_db w := (None, w);
}.

#[export] Instance plain_params : GoParams (list (string * string)) := { params_of l := l }.

#[export] Instance bg_errors : ErrorText :=
  { error_Error e := match e with Errorf m => m | Wrap m _ => m | _ => "" end }.
#[export] Instance bg_render : Render := { itoa _ := "n"; uuid_String _ := "id" }.

#[export] Instance bg_num : Num Z := {
  nofZ := fun z => z; nadd := Z.add; nsub := Z.sub; nmul := Z.mul; ndiv := Z.quot;
  nltb := Z.ltb; nleb := Z.leb;
}.

(** Every hour, and a date that does not exist. *)
#[export] Instance two_schedules : CronParser := {
  cron_Parse e :=
    if String.eqb e "0 * * * *" then Ok (fun t => (t + Hour)%Z)
    else if String.eqb e "0 0 30 2 *" then Ok (fun _ => time_zero)
    else Err (Errorf "expected exactly 5 fields")
}.
#[export] Instance two_schedules_law : CronParserLaw.
Proof.
  constructor. intros e next t. simpl. destruct (String.eqb e "0 * * * *").
  { intros [= <-]. left. unfold Hour, Minute, Second, Nanosecond. lia. }
  destruct (String.eqb e "0 0 30 2 *"); [|done]. intros [= <-]. by right.
Defined.

Definition one_workflow : Workflow Z :=
  mkWorkflow 9%N 1%N "u" "c" "g" WorkflowPending None 0%Z 0%Z 5 50 1 0%Z 0%Z None "".
#[export] Instance one_engine : CronEngine Z unit := { we_Submit e _ := (Ok one_workflow, e) }.

#[export] Instance one_host : HttpNet BW := {
  LookupHost h := if String.eqb h "example.com" then Ok ["93.184.216.34"] else Err (Errorf "no such host");
  ip_internal ip := Some (has_prefix ip "10." || has_prefix ip "169.254.");
  http_NewRequest _ := None;
  http_Do _ _ w := (Ok 500%Z, w);
}.

Lemma db_ok (w : BW) : (w_db w).1 = None.
Proof. reflexivity. Defined.

(** ** Cron *)

Definition job (id : uuid) (expr : string) (next : Time) : CronJob Z :=
  mkCronJob id 1%N "backup" "" expr "run the backup" "alice" 2%Z 3%Z 10%Z true (Some next) None None "" 0%Z 0%Z.

Definition sched1 : CronScheduler BW := mkCronScheduler true None 1%N None [].

Definition cron1 : CronState Z (list (string * string)) BW unit :=
  mkCronState (mkBg (10 * Hour)%Z ∅ [] [])
    (list_to_map [(5%N, job 5%N "0 * * * *" (10 * Hour)%Z); (6%N, job 6%N "0 0 30 2 *" (8 * Hour)%Z)]) tt [].

Lemma cron1_keys : keys_ok cron1.
Proof. apply (bool_decide_unpack _). vm_compute. exact I. Defined.

Lemma cron1_due (id : uuid) j : ct_jobs cron1 !! id = Some j -> cj_ID j = id ->
  due_job 1%N (10 * Hour)%Z j = true -> j ∈ due sched1 (10 * Hour)%Z cron1.
Proof. intros Hj Hid Hd. apply elem_of_due; [apply cron1_keys|]. by rewrite Hid. Defined.

Lemma tick_submits_due_witness :
  sweeps (fun _ => false) sched1 (10 * Hour)%Z cron1 (tick sched1 cron1).2 /\
  map wr_UserID (ct_submits (tick sched1 cron1).2) = ["alice"; "alice"].
Proof.
  split; [|vm_compute; reflexivity].
  apply (tick_submits_due db_ok sched1 cron1). apply cron1_keys.
Defined.

Lemma recovery_skips_old_witness :
  sweeps (fun j => match cj_NextRunAt j with
                   | Some t => (t <? 10 * Hour - Hour)%Z
                   | None => false
                   end) sched1 (10 * Hour)%Z cron1 (recoverMissedJobs sched1 cron1).2 /\
  length (ct_submits (recoverMissedJobs sched1 cron1).2) = 1.
Proof.
  split; [|vm_compute; reflexivity].
  apply (recovery_skips_old db_ok sched1 cron1). apply cron1_keys.
Defined.

Lemma impossible_schedule_always_due_witness :
  exists j', ct_jobs (tick sched1 cron1).2 !! 6%N = Some j' /\
    due_job 1%N (10 * Hour + 30 * Second)%Z j' = true /\ cj_CronExpression j' = "0 0 30 2 *".
Proof.
  apply (impossible_schedule_always_due db_ok sched1 cron1 (job 6%N "0 0 30 2 *" (8 * Hour)%Z)
    (fun _ => time_zero) (10 * Hour + 30 * Second)%Z).
  - apply cron1_keys.
  - by apply (cron1_due 6%N).
  - done.
  - done.
  - vm_compute. discriminate.
Defined.

Lemma fired_job_not_due_again_witness :
  exists j' t, ct_jobs (tick sched1 cron1).2 !! 5%N = Some j' /\
    (due_job 1%N t j' = false \/ cj_NextRunAt j' = Some time_zero).
Proof.
  apply (fired_job_not_due_again db_ok sched1 cron1 (job 5%N "0 * * * *" (10 * Hour)%Z)).
  - apply cron1_keys.
  - by apply (cron1_due 5%N).
Defined.

(** ** Alerts *)

(** A rule on a host that fails, in order the last time, that alerted a minute ago and
    has a cooldown of five minutes. *)
Definition rule1 : AlertRule :=
  mkAlertRule 7%N 1%N "api" "" "https://example.com" "http_status"
    {["url" := "https://example.com/health"]} "0 * * * *" [3%N] "alice" true 300%Z None
    (Some (10 * Hour - Minute)%Z) "ok" (Some (10 * Hour)%Z) 0%Z 0%Z.

Definition checker1 : Checker BW := mkChecker (Some (NewDispatcher true)) true None 1%N.

Definition alert1 : AlertState Z (list (string * string)) BW :=
  mkAlertState (mkBg (10 * Hour)%Z ∅ [] []) {[7%N := rule1]} [] [].

Lemma check1 w : final_status (RunCheck (ar_CheckType rule1) (ar_CheckConfig rule1) w).1 = "alert".
Proof. vm_compute. reflexivity. Defined.

Lemma alert_fires_exactly_witness :
  evaluated checker1 rule1 alert1 (evaluateRule checker1 rule1 alert1).2.
Proof. apply (alert_fires_exactly db_ok). Defined.

Lemma suppressed_alert_stays_silent_witness :
  al_fired (rounds 3 checker1 7%N (evaluateRule checker1 rule1 alert1).2).2 = [].
Proof.
  apply (suppressed_alert_stays_silent db_ok 3 checker1 rule1 "alert" alert1).
  - done.
  - exact check1.
  - done.
  - vm_compute. reflexivity.
Defined.

(** Without the cooldown the same check fires. *)
Example alert_fires :
  map snd (al_fired (evaluateRule checker1 (alerted rule1 0%Z) alert1).2) = ["alert"].
Proof. vm_compute. reflexivity. Qed.

Lemma ssrf_filter_bypassed_witness :
  let url := "http://" +:+ "example.com" +:+ ":" +:+ "80" +:+ "@" +:+ "169.254.169.254" +:+ "/" +:+ "latest" in
  validateCheckURL url = None /\ url_hostname url = "169.254.169.254".
Proof.
  apply (ssrf_filter_bypassed "example.com" "80" "169.254.169.254" "latest" ["93.184.216.34"]);
    try (vm_compute; reflexivity).
  constructor; [vm_compute; discriminate|constructor].
Defined.

(** ** Notifications *)

Definition channel (id org : uuid) (enabled : bool) : NotificationChannel :=
  mkChannel id org "ops" "slack" ∅ "" enabled 0%Z 0%Z.
Definition bg1 : Bg Z (list (string * string)) BW :=
  mkBg 0%Z (list_to_map [(3%N, channel 3%N 1%N true); (4%N, channel 4%N 2%N true); (5%N, channel 5%N 1%N false)]) [] [].
Definition disp1 : Dispatcher BW := RegisterSender (NewDispatcher true) "slack" (fun _ _ w => (None, w)).

(** Only the enabled channel of the organisation gets the message; the disabled one
    leaves no audit event. *)
Example notify_run :
  let b := (Notify disp1 1%N [3%N; 4%N; 5%N] (mkMessage "s" "b" []) "u" bg1).2 in
  map (fun x => nc_ID x.1.1) (bg_sent b) = [3%N] /\ map au_Result (bg_audit b) = ["success"; "failure"].
Proof. vm_compute. done. Qed.

(** The fallback records the success only: the attempts that failed leave no trace. *)
Example fallback_audit :
  let d := RegisterSender disp1 "email" (fun _ _ w => (Some (Errorf "refused"), w)) in
  let b := bg_set_channels (<[6%N := mkChannel 6%N 1%N "mail" "email" ∅ "" true 0%Z 0%Z]> (bg_channels bg1)) bg1 in
  let r := NotifyWithFallback d 1%N [6%N; 3%N] (mkMessage "s" "b" []) "u" b in
  r.1 = None /\ length (bg_sent r.2) = 2 /\ map au_Result (bg_audit r.2) = ["success"].
Proof. vm_compute. done. Qed.

(** ** Texts *)

Definition text_ex : string := "one two" +:+ newline +:+ newline +:+ "three four five".

Lemma signal_split_exact_witness :
  0 < 8 /\ exists cs, signal_splitMessage text_ex 8 = Some cs /\ String.concat "" cs = text_ex /\
    Forall (fun c => String.length c <= 8 /\ (c = "" -> text_ex = "")) cs.
Proof. split; [lia|]. apply (signal_split_exact text_ex 8). lia. Defined.

Definition fenced_ex : string := fence +:+ "go" +:+ newline +:+ "aaaa bbbb cccc" +:+ newline +:+ fence.

Lemma telegram_split_ends_witness :
  4 <= 12 /\ exists cs, telegram_splitMessage fenced_ex 12 = Some cs /\
    Forall (fun c => String.length c <= 12 + 4) cs /\
    (without_text fence fenced_ex -> signal_splitMessage fenced_ex 12 = Some cs).
Proof. split; [lia|]. apply (telegram_split_ends fenced_ex 12). lia. Defined.

(** A block over four messages: the second opens it without closing it, and the others do
    neither. *)
Example fence_lost :
  telegram_splitMessage (String.concat newline [fence; "aaaaaa"; "bbbbbb"; "cccccc"; "dddddd"; fence]) 12 =
  Some [String.concat newline [fence; "aaaaaa"; ""; fence]; String.concat newline [fence; "bbbbbb"; ""];
        "cccccc" +:+ newline; "dddddd" +:+ newline +:+ fence].
Proof. vm_compute. reflexivity. Qed.

(** The number 2^63, times ten, wraps to zero: what follows its digits is read alone. *)
Example timestamp_wraps : parseUnixTimestamp "92233720368547758081700000000" = Ok 1700000000%Z.
Proof. vm_compute. reflexivity. Qed.

(** ** A world behind the gateways *)

(** The calls made and the Telegram messages sent. *)
Record GwWorld := mkGwWorld { gx_log : list gw_event; gx_sent : list tg_call }.

Definition log_call (e : gw_event) (w : GwWorld) : GwWorld := mkGwWorld (gx_log w ++ [e]) (gx_sent w).

Definition message_ex (id from : Z) (text : string) : Update :=
  mkUpdate id (Some (mkTgMessage (Some (mkTgUser from)) 7%Z text)) None.

Definition updates_ex : list Update :=
  [message_ex 3 11 "disk usage?"; message_ex 5 99 "let me in";
   mkUpdate 8 None (Some (mkCallbackQuery "q" (Some (mkTgUser 11)) None "approve:a1"))].

#[export] Instance gx_ids : GatewayIds GwWorld :=
  { newCorrelationID w := ("corr", w); uuid_New w := ("uuid", w); sha1_uuid s := s }.

#[export] Instance gx_telegram : TelegramApi GwWorld := {
  callAPI call w := (tt, mkGwWorld (gx_log w) (gx_sent w ++ [call]));
  api_getUpdates offset _ w :=
    (Ok (true, List.filter (fun u => (offset <=? up_UpdateID u)%Z) updates_ex), w);
}.

#[export] Instance gx_telegram_law : TelegramApiLaw GwWorld.
Proof.
  constructor. intros offset timeout w us [= <-]. simpl.
  destruct (Z.leb_spec offset 3), (Z.leb_spec offset 5), (Z.leb_spec offset 8); try lia;
    split; repeat constructor; simpl; lia.
Qed.

#[export] Instance gx_signal : SignalApi GwWorld :=
  { signal_post _ _ w := (tt, w); signal_get w := (Ok (200%Z, Ok []), w) }.

(** A digest for examples: the secret before the text. *)
#[export] Instance gx_slack : SlackApi GwWorld := {
  hmac_sha256 secret text := secret +:+ "/" +:+ text;
  form_get body := Ok (fun key => if String.eqb key "user_id" then "U1" else body);
  parse_payload _ := Err (Errorf "no payload");
  slack_now w := ((1700000000 * Second)%Z, w);
  slack_post _ _ _ _ w := (tt, w);
}.

Definition agent_ex : AgentOps Z unit GwWorld := mkAgentOps
  (fun i w => (Ok (mkResponse ("hello " +:+ in_UserID i) 1%Z [] []), log_call (GeProcess i) w))
  (fun _ w => (Err (Errorf "not used"), w))
  (fun id w => (Ok (mkToolResponse "done" true 0%Z tt), log_call (GeResume id) w)).

Definition services_ex : Services Z unit GwWorld := mkServices agent_ex
  (Some (mkApprovalOps (fun id u w => (None, log_call (GeApprove id u None) w))
                       (fun id u w => (None, log_call (GeDeny id u None) w))))
  None.

Lemma services_logged : logged services_ex gx_log.
Proof. by split; intros; simplify_eq/=. Defined.

Lemma services_quiet : quiet gx_log.
Proof. by split. Defined.

Definition empty_world : GwWorld := mkGwWorld [] [].

Definition telegram_ex : TelegramConfig := mkTelegramConfig [11%Z] {["n" := "alice"]} 0.
Definition signal_ex : SignalConfig := mkSignalConfig ["+1"] {["+1" := "bob"]} 0.
Definition slack_ex : SlackConfig := mkSlackConfig "s3" {["U1" := "carol"]} "".

Lemma gateways_act_for_known_users_witness :
  logged services_ex gx_log /\ quiet gx_log /\
  (exists evs, gx_log (processUpdate services_ex telegram_ex (message_ex 3 11 "disk usage?") empty_world).2 = evs /\
     done_for (telegram_user telegram_ex (Some (mkTgUser 11))) tt evs) /\
  gx_log (processUpdate services_ex telegram_ex (message_ex 5 99 "let me in") empty_world).2 = [].
Proof.
  split; [exact services_logged|]. split; [exact services_quiet|]. split; [|vm_compute; reflexivity].
  destruct (gateways_act_for_known_users services_ex gx_log services_logged services_quiet) as [Ht _].
  destruct (Ht telegram_ex (message_ex 3 11 "disk usage?") empty_world) as (evs & E & Hd).
  exists evs. split; [exact E|exact Hd].
Defined.

(** Three turns handle the three updates, a stranger's with a refusal. *)
Lemma telegram_updates_once_witness :
  (let r := (startPolling 3 services_ex telegram_ex 0%Z empty_world).1 in
   StronglySorted Z.lt (map up_UpdateID r.2) /\ NoDup (map up_UpdateID r.2) /\
   Forall (fun i => 0 <= i < r.1)%Z (map up_UpdateID r.2)) /\
  gx_log (startPolling 3 services_ex telegram_ex 0%Z empty_world).2 =
    [GeProcess (mkInput "alice" "disk usage?" "corr" "telegram:n:n");
     GeApprove "a1" "alice" None; GeResume "a1"].
Proof.
  split; [|vm_compute; reflexivity].
  apply (telegram_updates_once 3 services_ex telegram_ex 0%Z empty_world).
Defined.

(** A key of the HTTP gateway, and a body signed for the Slack gateway. *)
Example http_key_ex : authenticate {["k1" := "dave"]} "Bearer k1" = Ok "dave".
Proof. vm_compute. reflexivity. Qed.

Example slack_signed_ex :
  (readAndVerify slack_ex (mkSlackRequest "1700000000" "v0=s3/v0:1700000000:text" (Ok "text")) empty_world).1 = Ok "text" /\
  (readAndVerify slack_ex (mkSlackRequest "1699999000" "v0=s3/v0:1699999000:text" (Ok "text")) empty_world).1 =
    Err (Errorf "request too old").
Proof. vm_compute. done. Qed.

(** ** Another user's job *)

#[export] Instance gx_uuids : UuidParse := { uuid_Parse s := if String.eqb s "job5" then Ok 5%N else Err (Errorf "invalid UUID") }.

Definition goal_request (goal : string) : CronJobRequest Z := mkCronJobRequest "" "" "" goal 0%Z 0%Z 0%Z None.

(** Mallory changes what Alice's job does, and it runs as Alice. *)
Example cron_goal_changed :
  let r := handleCronJobUpdate 1%N "mallory" "job5" (Ok (goal_request "send me the keys")) cron1 in
  match r.1 with
  | Json status body => (status, jp_UserID body, jp_Goal body) = (200%Z, "alice", "send me the keys")
  | Abort _ _ => False
  end /\
  map (fun q => (wr_UserID q, wr_Goal q)) (ct_submits (tick sched1 r.2).2) =
    [("alice", "run the backup"); ("alice", "send me the keys")].
Proof. vm_compute. done. Qed.

(** ** The concrete environment *)

Local Instance st_strings : Protocol.Json (list string) := countable_json (list string).
Local Instance st_tags : Protocol.Json (gmap string string) := countable_json (gmap string string).
Local Instance st_uuids : Protocol.Json (list uuid) := countable_json (list uuid).
#[export] Instance st_json : RowJson := Build_RowJson st_strings st_tags st_uuids.
#[export] Instance st_json_law : RowJsonLaw.
Proof. constructor; apply countable_law. Defined.

Definition SP : Type := list (string * string).

#[export] Instance st_params : ParamsJson SP := {
  params_Marshal p := Ok (@marshal _ (countable_json SP) p);
  params_Unmarshal t := @unmarshal _ (countable_json SP) t;
}.
#[export] Instance st_map : GoMap SP := { nil_map := []; is_nil p := bool_decide (p = []) }.

Definition SW : Type := N.

#[export] Instance counter_world : World SW := {
  w_now w := (Z.of_N w, (w + 1)%N);
  w_uuid w := (w, (w + 1)%N);
  w_correlationID w := ("corr", w);
  w_db w := (None, w);
}.
#[export] Instance counter_fresh : FreshWorld SW.
Proof.
  refine {| w_used w u := (u < w)%N |}; simpl; intros; lia.
Defined.

Lemma counter_db (w : SW) : (w_db w).1 = None.
Proof. reflexivity. Defined.

(** ** Rows *)

Definition rule_ex : AlertRule :=
  mkAlertRule 1%N 2%N "disk" "" "srv" "http_status" {["url" := "http://x"]} "0 * * * *" [5%N]
    "alice" false 0%Z None None "" None 3%Z 3%Z.

Lemma rows_roundtrip_witness :
  RowJsonLaw /\ toAlertRuleDomain (toAlertRuleModel rule_ex) = rule_ex.
Proof.
  split; [exact st_json_law|]. apply (rows_roundtrip (F := Z) (P := SP)).
Defined.

(** A rule created disabled, without a cooldown, is stored enabled with one. *)
Lemma created_with_defaults_witness :
  RowJsonLaw /\ ar_Enabled rule_ex = false /\ ar_Enabled (stored rule_ex) = true /\
  ar_CooldownS (stored rule_ex) = 300%Z.
Proof.
  split; [exact st_json_law|]. split; [reflexivity|].
  pose proof (created_with_defaults (F := Z)) as (_ & _ & _ & Hr & _).
  split; [apply (Hr rule_ex)|reflexivity].
Defined.

(** ** Approvals *)

(** Amounts in tenths of a millionth: the column keeps millionths.  It keeps microseconds. *)
#[export] Instance columns_ex : Columns Z := {
  numeric_column c := if (c <? 10 ^ 15)%Z then Ok (c - c mod 10)%Z else Err (Errorf "numeric field overflow");
  time_column t := (t - t mod 1000)%Z;
}.

Definition req_ex : CreateRequest Z SP :=
  mkCreateRequest "alice" "shell" [("cmd", "ls")] "shell.exec" "high" 17%Z "corr" "conv" "use".

(** A request is created, read, approved in time, approved again and cleaned up. *)
Definition calls_ex : list (mgr_op Z SP) :=
  [OpCreate req_ex (Ok "a1") 0%Z; OpGet "a1" 10000%Z; OpApprove "a1" "bob" 20000%Z 21000%Z;
   OpDeny "a1" "carol" 30000%Z 30000%Z; OpGet "a1" 40000%Z; OpCleanup 500000%Z; OpGet "a1" 600000%Z].

Definition ttl_ex : Duration := 100000%Z.

Lemma req_ex_safe : params_safe (cr_Parameters req_ex).
Proof.
  exists (@marshal _ (countable_json SP) [("cmd", "ls")]). vm_compute. split_and!; (reflexivity || discriminate).
Defined.

Lemma calls_ex_usual : usual (Approval.NewManager ttl_ex) calls_ex.
Proof.
  cbn [usual calls_ex]. split.
  { split; [reflexivity|]. split; [exact req_ex_safe|]. split; [by eexists|]. by split. }
  split; [exact I|]. split; [split; [reflexivity|]; intros pa Hpa; left; vm_compute in Hpa; by simplify_eq|].
  split; [split; [reflexivity|]; intros pa Hpa; right; vm_compute in Hpa; by simplify_eq|]. by repeat split.
Qed.

Lemma calls_ex_clock : clock_ok 0%Z calls_ex.
Proof. cbn. lia. Qed.

Lemma db_manager_equivalent_witness :
  clock_ok 0%Z calls_ex /\ usual (Approval.NewManager ttl_ex) calls_ex /\
  answers db_step (NewDBManager ∅ 7%N ttl_ex) (on_db <$> calls_ex) =
    kept_answer <$> answers mem_step (Approval.NewManager ttl_ex) calls_ex.
Proof.
  split; [exact calls_ex_clock|]. split; [exact calls_ex_usual|].
  apply (db_manager_equivalent 7%N ttl_ex 0%Z calls_ex); [exact calls_ex_clock|exact calls_ex_usual].
Defined.

(** What the run answers: the second decision is refused and the clean-up removes it.  The
    database gives the cost back as its column keeps it. *)
Example calls_ex_run :
  (exists pa pa', answers mem_step (Approval.NewManager ttl_ex) calls_ex =
    [ACreated (Ok "a1"); AGot (Ok pa); ADecided None; ADecided (Some (Sentinel ErrAlreadyResolved));
     AGot (Ok pa'); ADone; AGot (Err (Sentinel ErrNotFound))] /\ pa_Status pa' = StatusApproved /\
     pa_EstimatedCost pa' = 17%Z) /\
  (match answers db_step (NewDBManager ∅ 7%N ttl_ex) (on_db <$> calls_ex) with
   | _ :: AGot (Ok pa) :: _ => pa_EstimatedCost pa
   | _ => 0%Z
   end) = 10%Z.
Proof. split; [do 2 eexists; split_and!; vm_compute; reflexivity|vm_compute; reflexivity]. Qed.

Definition row_ex : ApprovalModel Z := toApprovalModel 7%N req_ex "a1" 100%Z 0%Z.

Lemma db_decisions_race_witness :
  am_Status row_ex = StatusPending /\
  let t1 := (resolve_update {["a1" := row_ex]} "a1" "bob" StatusApproved (calm 20%Z 20%Z)).2 in
  (exists m', t1 !! "a1" = Some m' /\ am_Status m' = StatusApproved) /\
  (exists m', (resolve_update t1 "a1" "carol" StatusDenied (calm 20%Z 20%Z)).2 !! "a1" = Some m' /\
     am_Status m' = StatusDenied /\ am_ApprovedBy m' = "carol").
Proof.
  split; [reflexivity|].
  destruct (db_decisions_race {["a1" := row_ex]} "a1" row_ex "bob" "carol" StatusApproved StatusDenied
    (calm 20%Z 20%Z) (calm 20%Z 20%Z)) as (_ & _ & Hr);
    [apply lookup_singleton_eq|reflexivity|vm_compute; discriminate|vm_compute; discriminate
    |reflexivity..|].
  exact (proj2 (proj2 Hr)).
Defined.

(** ** Roles *)

Definition dev : Role := mkRole "dev" ["shell.exec"; "file.read"] "" ["shell.exec"; "web.fetch"].

Definition file_ex : RBAC := mkRBAC {["dev" := dev]} {["alice" := "dev"]} "".

Lemma file_ex_ok : file_ok file_ex.
Proof.
  split.
  - intros n role H. simpl in H. apply lookup_singleton_Some in H as [<- <-]. done.
  - intros u r H. simpl in H. apply lookup_singleton_Some in H as [<- <-]. by eexists.
Qed.

Lemma role_store_refines_witness :
  (forall w : SW, (w_db w).1 = None) /\
  (LoadRBACConfig 1%N (fold_left (fun s op => (store_step s op).2)
     [RoSave 1%N dev; RoSave 2%N dev; RoAssign 1%N "alice" "dev"; RoAssign 1%N "bob" "ops"]
     (empty_tables (0%N : SW)))).1 =
  Ok (mkRBAC {["dev" := kept_role dev "critical"]} {["alice" := "dev"]} "").
Proof.
  split; [exact counter_db|].
  rewrite (role_store_refines counter_db). vm_compute. reflexivity.
Defined.

Definition shell : Action := mkAction "shell.exec" RiskHigh.

Lemma pg_rbac_equivalent_witness :
  file_ok file_ex /\
  pg_calls (NewPGRBAC (empty_tables (0%N : SW)) 1%N file_ex)
    [AskPermission "alice" shell; AskApproval "alice" shell; AskPermission "bob" shell] =
  [None; Some (Wrap "action requires explicit approval" (Sentinel ErrApprovalRequired));
   Some (Wrap "user has no assigned role" (Sentinel ErrPermissionDenied))].
Proof.
  split; [exact file_ex_ok|].
  rewrite (pg_rbac_equivalent counter_db 1%N file_ex 0%N);
    [vm_compute; reflexivity|exact file_ex_ok|repeat constructor].
Defined.

Lemma pg_rbac_fail_closed_witness :
  (pg_CheckPermission "alice" shell (NewPGRBAC (empty_tables (0%N : SW)) 1%N file_ex)).1 = None /\
  exists cfg, pr_cached (pg_CheckPermission "alice" shell
      (NewPGRBAC (empty_tables (0%N : SW)) 1%N file_ex)).2 = Some cfg /\
    rbac_CheckPermission cfg "alice" shell = None.
Proof.
  split; [vm_compute; reflexivity|].
  destruct (pg_rbac_fail_closed "alice" shell (NewPGRBAC (empty_tables (0%N : SW)) 1%N file_ex))
    as (cfg & Hc & Hp & _); [vm_compute; reflexivity|].
  exists cfg. split; [exact Hc|exact Hp].
Defined.

(** A file that assigns a role it does not define: the first call fails, the roles stay
    saved, and from the second call on the assignments after the failed one are missing
    without an error. *)
Definition broken_file : RBAC :=
  mkRBAC {["dev" := dev]} {["alice" := "ops"; "bob" := "dev"]} "".

Example partial_seed :
  pg_calls (NewPGRBAC (empty_tables (0%N : SW)) 1%N broken_file)
    [AskPermission "bob" shell; AskPermission "bob" shell] =
  [Some (Wrap "loading RBAC config" (Wrap "bootstrapping RBAC" (Wrap "assigning user"
     (Wrap "role not found" (Errorf "record not found")))));
   Some (Wrap "user has no assigned role" (Sentinel ErrPermissionDenied))] /\
  rbac_CheckPermission broken_file "bob" shell = None.
Proof. vm_compute. split; reflexivity. Qed.

(** ** Heartbeat tasks *)

From S2P Require Import HeartbeatTask.

#[export] Instance hb_floats : FloatParse Z := { ParseFloat s := if String.eqb s "2" then Ok 2%Z else Err (Errorf "invalid syntax") }.

Definition disk_task : written := mkWritten "Disk" "quick" "0 * * * *" "2" ["Check the disk."; ""; "Report what is full."].

Lemma task_file_roundtrip_witness :
  parseTasks (written_lines disk_task) =
    [mkParsedTask "Disk" "quick" "0 * * * *" 2%Z
       (String.concat newline ["Check the disk."; ""; "Report what is full."])].
Proof.
  refine (task_file_roundtrip [(disk_task, 2%Z)] _).
  repeat constructor; vm_compute; done.
Defined.

(** The frontmatter is the name of the group; the file asks to be disabled. *)
#[export] Instance hb_yaml : Yaml Z :=
  { yaml_Unmarshal s := Ok (mkTaskFile s "" "alice" "" 0%Z [] false) }.
#[export] Instance hb_digest : Digest := { sha256_16 s := s }.

(** An agent that fails when it is asked for a failure. *)
#[export] Instance hb_agent_ex : HeartbeatAgent nat := {
  agent_Process _ i n :=
    (if contains (in_Message i) "fail" then Err (Errorf "disk full") else Ok (mkResponse "all good" 3%Z [] []), S n);
}.

Definition task_text (name : string) : string :=
  String.concat newline ["---"; "ops"; "---"; "### " +:+ name; "- cron: 0 * * * *"; "Check it."].
Definition disk_ex (name : string) (dir : string) : result error (list dir_entry) :=
  Ok [mkDirEntry "ops.md" false (Ok (task_text name)); mkDirEntry "notes.txt" false (Ok "")].
Definition poller_cfg : TaskPollerConfig := mkTaskPollerConfig ["/tasks"] 1%N "system".

Abbreviation Hb := (HbState Z (list (string * string)) BW nat).
Definition hb0 : Hb := mkHbState (mkBg (10 * Hour)%Z {[7%N := channel 7%N 1%N true]} [] []) ∅ [] ∅ 0.
Definition hb1 : Hb := (syncAll poller_cfg (disk_ex "Disk") hb0).2.

(** What a query of the tasks due a day later returns. *)
Definition due_names (s : Hb) : list string :=
  match (GetDueTasks 1%N (36 * Hour)%Z s).1 with Ok ts => map ht_Name ts | Err _ => ["error"] end.

(** The file asks to be disabled, and its task is due all the same. *)
Example disabled_task_is_due : due_names hb1 = ["Disk"].
Proof. vm_compute. reflexivity. Qed.

(** A task renamed in its file is executed under both names. *)
Example renamed_task_twice : due_names (syncAll poller_cfg (disk_ex "Disks") hb1).2 = ["Disk"; "Disks"].
Proof. vm_compute. reflexivity. Qed.

(** The directory cannot be read once. *)
Definition hb_unread : Hb := (syncAll poller_cfg (fun _ => Err (Errorf "permission denied")) hb1).2.

(** A failed read of the directory removes the task, and the directory read again does not
    bring it back. *)
Lemma removed_task_never_due_witness :
  let s' := (syncAll poller_cfg (disk_ex "Disk") hb_unread).2 in
  (exists id r, hb_rows s' !! id = Some (r, true) /\ task_key r = (1%N, "ops", "Disk")) /\ due_names s' = [].
Proof.
  cbv zeta. split; [|vm_compute; reflexivity].
  apply (removed_task_never_due poller_cfg (fun _ => Err (Errorf "permission denied")) "/tasks/ops.md"
    (mkFileState (task_text "Disk") "ops") "Disk" hb1 _ 1%N 0%Z []).
  - exact db_ok.
  - vm_compute. reflexivity.
  - by intros dir es e _.
  - exists 36000000000002%N. eexists. split; vm_compute; reflexivity.
  - eapply rtc_l; [apply (hs_sync poller_cfg (disk_ex "Disk"))|apply rtc_refl].
Defined.

Definition failing_task (ids : list uuid) : HeartbeatTask Z :=
  mkHeartbeatTask 40%N 1%N "Disk" "fail" "/tasks/ops.md" "ops" "0 * * * *" "quick" "alice" 2%Z ids true
    (Some (9 * Hour)%Z) None "" "" "" 0%Z 0%Z.
Definition hb_due (ids : list uuid) : Hb :=
  mkHbState (mkBg (10 * Hour)%Z {[7%N := channel 7%N 1%N true]} [] []) {[40%N := (failing_task ids, false)]} [] ∅ 0.
Definition runner_ex : Runner BW := mkRunner None (Some (mkProactive (Some disp1) 1%N)) None 1%N.

Lemma task_execution_recorded_witness :
  let s' := (executeTask runner_ex (failing_task []) (hb_due [])).2 in
  exists corr next now res,
    answer_recorded (failing_task []) corr
      (agent_Process (task_timeout runner_ex (failing_task [])) (mkInput "alice" "fail" corr "") 0).1 res /\
    hb_results s' = [stored res] /\
    hb_rows s' = <[40%N := (ran (failing_task []) next (hr_Status res) (hr_OutputSummary res) (hr_OutputSummary res) now, false)]>
                   (hb_rows (hb_due [])).
Proof.
  apply (task_execution_recorded runner_ex (failing_task []) (failing_task []) (hb_due [])).
  - exact db_ok.
  - vm_compute. reflexivity.
Defined.

(** The same task with a channel that works: the alert is sent, and the process panics. *)
Example failure_alert_panics :
  let r := executeTask runner_ex (failing_task [7%N]) (hb_due [7%N]) in
  r.1 = true /\ length (bg_sent (hb_bg r.2)) = 1.
Proof. vm_compute. done. Qed.

(** ** The soul *)

From S2P Require Import Providers Soul.

(** A clock and identifiers that count, and the statements that fail. *)
Record UW := mkUW { uw_n : N; uw_fails : list bool }.
#[export] Instance uw_world : World UW := {
  w_now w := (Z.of_N (uw_n w), w);
  w_uuid w := (uw_n w, mkUW (uw_n w + 1) (uw_fails w));
  w_correlationID w := ("corr", w);
  w_db w := match uw_fails w with
            | [] => (None, w)
            | b :: bs => (if b then Some (Errorf "connection refused") else None, mkUW (uw_n w) bs)
            end;
}.
#[export] Instance uw_files : FileWriter (W := UW) :=
  { path_Join a b := a +:+ "/" +:+ b; os_WriteFile _ _ w := (None, w) }.
#[export] Instance uw_formats : SoulFormats (F := Z) := { percent _ := "n%"; rfc3339 _ := "t"; date _ := "d" }.
#[export] Instance uw_evidence : EvidenceJson (F := Z) := {
  evidence_Unmarshal s := if String.eqb s "" then Err (Errorf "unexpected end of JSON input")
                          else if String.eqb s "sure" then Ok (Some "deploy", Some 1%Z) else Ok (None, None);
}.
#[export] Instance uw_evidence_law : EvidenceLaw (F := Z).
Proof. constructor; [by eexists|done]. Defined.

(** The model asks for a pattern and for a new principle. *)
#[export] Instance uw_items : Prelude.Decode (list reflectionEvent) := {
  json_unmarshal s :=
    if String.eqb s "[..]"
    then Ok [mkReflectionEvent "major" "pattern" "Canary" "Deploy in steps" "sure";
             mkReflectionEvent "major" "principle" "Act first" "Do not ask" ""]
    else Err (Errorf "invalid character");
}.
Definition uw_model (text : string) : Provider SP UW :=
  mkProvider "model" (fun _ w => (Ok (mkLLMResponse text [] (mkUsage 1 1) "end_turn"), w)).
Definition soul_manager (text : string) : SoulManager (P := SP) (W := UW) :=
  mkSoulManager 1%N "/soul" (Some (uw_model text)) (mkSoulConfig true 60 20 50 20).

Abbreviation SoulSt := (SoulState (F := Z) (W := UW)).
Definition soul0 (fails : list bool) : SoulSt := mkSoulState (mkUW 1 fails) [] None.
Definition soul_loaded : SoulSt := (soul_Load (Some (soul_manager "Done: [..]")) (soul0 [])).2.
Definition soul_reflected : SoulSt := (RunReflection (Some (soul_manager "Done: [..]")) soul_loaded).2.

Lemma soul_steps : rtc (soul_step (soul_manager "Done: [..]")) (soul0 []) soul_loaded /\
  rtc (soul_step (soul_manager "Done: [..]")) soul_loaded soul_reflected.
Proof. split; (eapply rtc_l; [constructor|apply rtc_refl]). Defined.

Lemma soul_replays_log_witness :
  (exists x, Current (Some (soul_manager "Done: [..]")) soul_reflected = Some x /\
     x = Materialize (events_of 1%N (ss_rows soul_reflected)) /\
     map pn_Description (sl_LearnedPatterns x) = ["Deploy in steps"] /\ length (sl_CorePrinciples x) = 5).
Proof.
  destruct (soul_replays_log (soul_manager "Done: [..]") (soul0 []) soul_reflected eq_refl eq_refl) as [_ Hx].
  { etrans; apply soul_steps. }
  destruct (ss_soul soul_reflected) as [x|] eqn:Ex; [|by vm_compute in Ex].
  exists x. split; [exact Ex|]. split; [by apply Hx|]. vm_compute in Ex. injection Ex as <-. by split.
Defined.

Lemma principles_immutable_witness :
  let log1 := events_of 1%N (ss_rows soul_loaded) in
  let log2 := events_of 1%N (ss_rows soul_reflected) in
  exists new, log2 = log1 ++ new /\
    (log1 <> [] -> sl_CorePrinciples (Materialize (F := Z) log2) = sl_CorePrinciples (Materialize (F := Z) log1)).
Proof.
  apply (principles_immutable (soul_manager "Done: [..]") (soul0 []) soul_loaded soul_reflected eq_refl eq_refl);
    apply soul_steps.
Defined.

(** The third insertion of the first start fails: the soul has two principles for good. *)
Example interrupted_seeding :
  let m := Some (soul_manager "Done: [..]") in
  let r1 := soul_Load m (soul0 [false; false; false; true]) in
  let r2 := soul_Load m r1.2 in
  r1.1 = Some (Wrap "seeding core principles" (Wrap "seeding principle"
                 (Wrap "appending soul event" (Errorf "connection refused")))) /\
  r2.1 = None /\
  (sl_CorePrinciples <$> Current m r2.2) =
    Some (map (fun p => mkPrinciple p.1 p.2) (take 2 principles)).
Proof. vm_compute. done. Qed.

(** A bracket that closes nothing hides the array behind it, and a bracket in a text of the
    array closes it. *)
Example arrays_not_found :
  extractJSONArray "Steps a] and b]: [..]" = "" /\ extractJSONArray "[{a: b]}]" = "[{a: b]".
Proof. vm_compute. done. Qed.

(** ** Conversations *)

From S2P Require Import Conversation ConversationDB.

#[export] Instance block_eq : EqDecision (ContentBlock SP).
Proof. solve_decision. Defined.
#[export] Instance block_countable : Countable (ContentBlock SP).
Proof.
  refine (inj_countable' (fun b : ContentBlock SP => (cb_Type b, cb_Text b, cb_ID b, cb_Name b, cb_Input b, cb_ToolUseID b, cb_IsError b))
    (fun t => let '(a, b, c, d, e, f, g) := t in mkBlock a b c d e f g) _). by intros [].
Defined.

(** The text of blocks begins with a bracket, as that of an array. *)
#[export] Instance st_blocks : BlocksJson (P := SP) := {
  blocks_Marshal bs := Ok ("[" +:+ @marshal _ (countable_json (list (ContentBlock SP))) bs);
  blocks_Unmarshal t := @unmarshal _ (countable_json (list (ContentBlock SP))) (str_drop 1 t);
}.

Definition conv_db0 : ConvDB (W := SW) := mkConvDB 0%N ∅ [].
Definition memory0 : InMemoryConversationStore SP := NewInMemoryConversationStore.

Lemma represents_empty : represents 1%N conv_db0 memory0.
Proof. constructor; try done; constructor. Qed.

(** A question, the model's call of a tool and its placeholder, which is then replaced. *)
Definition turn_ex : list (LLM.Message SP) :=
  [LLM.mkMessage RoleUser "restart it" []; LLM.mkMessage RoleAssistant "" [ToolUseBlock "t1" "shell" []];
   LLM.mkMessage RoleUser "" [ToolResultBlock "t1" "approval pending" false]].

Definition after_calls {C} `{!ConversationStore C SP} (calls : list conv_call) (x : C) : C :=
  fold_left (fun x call => (call_on 1%N call x).2) calls x.

Definition conv_calls : list conv_call := [AskConversation "alice" 5%N; AskAppend 5%N turn_ex].

Lemma conversation_store_refines_witness :
  let call := AskReplace 5%N "t1" "restarted" false in
  simulates 1%N (after_calls conv_calls conv_db0) (after_calls conv_calls memory0) call /\
  (call_on 1%N (AskHistory 5%N 100) (call_on 1%N call (after_calls conv_calls conv_db0)).2).1 =
    AnsweredHistory (Ok (take 2 turn_ex ++ [LLM.mkMessage RoleUser "" [ToolResultBlock "t1" "restarted" false]])).
Proof.
  split; [|vm_compute; reflexivity].
  pose proof (conversation_store_refines 1%N conv_db0 memory0 (AskConversation "alice" 5%N) represents_empty I) as [[_ H1] _].
  pose proof (conversation_store_refines 1%N _ _ (AskAppend 5%N turn_ex) H1) as H2.
  assert (storable (LLM.mkMessage RoleAssistant "" [ToolUseBlock "t1" "shell" ([] : SP)])) as S1.
  { split; [by right|]. right. split; [done|]. eexists. split; [reflexivity|]. split; [done|]. vm_compute. reflexivity. }
  assert (forall text e, text = "approval pending" \/ text = "restarted" -> storable (LLM.mkMessage RoleUser "" [ToolResultBlock (P := SP) "t1" text e])) as S2.
  { intros text [] [->| ->]; (split; [by left|]); right; (split; [done|]); eexists; (split; [reflexivity|]); (split; [done|]); vm_compute; reflexivity. }
  assert (storable (LLM.mkMessage RoleUser "restart it" ([] : list (ContentBlock SP)))) as S0 by (split; [by left|by left]).
  destruct H2 as [[_ H2] _].
  { split; [by eexists|]. unfold turn_ex. rewrite !Forall_cons. split_and!; [exact S0|exact S1|apply S2; by left|constructor]. }
  apply (conversation_store_refines 1%N _ _ _ H2). split; [vm_compute; reflexivity|].
  intros msgs E. vm_compute in E. injection E as <-. rewrite !Forall_cons. split_and!; [exact S0|exact S1|apply S2; by right|constructor].
Defined.

(** A result with more than twenty messages with blocks after it: only the memory replaces it. *)
Example old_result_not_found :
  let later := replicate 20 (LLM.mkMessage RoleAssistant "" [ToolUseBlock "t2" "shell" ([] : SP)]) in
  let calls := conv_calls ++ [AskAppend 5%N later] in
  let call := AskReplace 5%N "t1" "restarted" false in
  failed (call_on 1%N call (after_calls calls conv_db0)).1 = true /\
  failed (call_on 1%N call (after_calls calls memory0)).1 = false.
Proof. vm_compute. done. Qed.

(** The identifier of a conversation of another organisation: the insertion fails. *)
Example foreign_conversation :
  (call_on 2%N (AskConversation "alice" 5%N) (after_calls conv_calls conv_db0)).1 =
    AnsweredID (Err (Wrap "creating conversation" (Errorf "duplicate key"))).
Proof. vm_compute. done. Qed.

(** ** Infrastructure *)

From S2P Require Import ToolValues SandboxTools Infra.

#[export] Instance ex_indent : JsonIndent := {
  marshal_indent v := match v with
                      | AObject ((_, AString id) :: (_, AString name) :: _) => name
                      | AList l => String.concat "," (map (fun _ => "node") l)
                      | _ => ""
                      end;
  go_quote s := s;
}.
#[export] Instance ex_node_ids : UuidParse :=
  { uuid_Parse s := if String.eqb s "n1" then Ok 11%N else if String.eqb s "n2" then Ok 12%N else Err (Errorf "invalid UUID") }.

Definition node_row (id : uuid) (name alias ref : string) : InfraNodeModel * bool :=
  (toInfraNodeModel (mkInfraNode id 1%N name [alias] "vm" "10.0.0.1" 22 "root" ref ∅ "ssh" true 0%Z 0%Z), false).
Definition inventory (jsonb : bool) (ref : string) : InfraNodeRepository SW :=
  mkInfraRepo 100%N [node_row 11%N "VM10" "db" ref; node_row 12%N "VM11" "web" "env://WEB_KEY"] jsonb
    (fun a b => (String.length a <? String.length b)%nat).

(** The tool of the node's server shows the credential it was given. *)
Definition echo_tool : Tool Z Params (InfraNodeRepository SW) :=
  mkTool "mcp__ssh__execute" "" None (mkAction "mcp" RiskHigh) (fun _ => 0%Z) (fun _ _ => None)
    (fun _ params w => (Ok (mkToolResult ("key=" +:+ default "" (param_string params "credential") +:+ ";") None true), w)).
Definition vault_ex (value : string) : SecretProvider (InfraNodeRepository SW) :=
  mkSecretProvider "vault" (fun _ w => (Ok (mkSecret value ∅), w)).
Definition exec_ex (value : string) : ExecTool (F := Z) (W := InfraNodeRepository SW) :=
  mkExecTool (vault_ex value) (mkRegistry {["mcp__ssh__execute" := echo_tool]}) 1%N.
Definition run_ex : Params := object [("node", AString "vm10"); ("command", AString "uptime")].

Lemma plain_hunter : plain_secret "hunter2".
Proof. constructor; [done| |vm_compute; done|vm_compute; done]. intros c [->|[->| ->]]; vm_compute; done. Defined.

Lemma exec_output_redacted_witness :
  match (exec_Execute (exec_ex "hunter2") "alice" run_ex (inventory true "env://VM10_KEY")).1 with
  | Ok r => contains (LLM.tr_Output r) "hunter2" = false /\ LLM.tr_Output r = "key=[REDACTED];"
  | Err _ => False
  end.
Proof.
  pose proof (exec_output_redacted (exec_ex "hunter2") "alice" run_ex (inventory true "env://VM10_KEY") _ _ _ _
    eq_refl ltac:(vm_compute; discriminate) eq_refl plain_hunter) as H.
  destruct (exec_Execute (exec_ex "hunter2") "alice" run_ex (inventory true "env://VM10_KEY")) as [[r|e] w] eqn:E;
    vm_compute in E; [|discriminate]. injection E as <- _. split; [apply H|vm_compute; reflexivity].
Defined.

(** A secret that begins with a bracket comes out again behind the marker, and so do the
    lines of a key that the server wraps. *)
Example secrets_not_redacted :
  contains (sanitizeOutput "]aa" "]a") "]a" = true /\
  sanitizeOutput "BEGIN|abc" ("BEGIN" +:+ newline +:+ "abc") = "BEGIN|abc".
Proof. vm_compute. done. Qed.

Lemma inventories_same : same_public (inventory true "env://VM10_KEY") (inventory true "vault://ssh/vm10#key").
Proof.
  constructor; [done..|]. constructor; [split; [by eexists|done]|]. constructor; [split; [by eexists|done]|constructor].
Defined.

Lemma credential_refs_hidden_witness :
  (lookup_Execute 1%N (object [("query", AString "DB")]) (inventory true "env://VM10_KEY")).1 =
  (lookup_Execute 1%N (object [("query", AString "DB")]) (inventory true "vault://ssh/vm10#key")).1 /\
  is_ok (lookup_Execute 1%N (object [("query", AString "DB")]) (inventory true "env://VM10_KEY")).1 = true.
Proof.
  split; [|vm_compute; reflexivity].
  apply (credential_refs_hidden 1%N (object [("query", AString "DB")]) _ _ inventories_same). by left.
Defined.

(** On SQLite an alias is never found. *)
Example alias_on_sqlite :
  is_ok (lookup_Execute 1%N (object [("query", AString "DB")]) (inventory false "")).1 = false.
Proof. vm_compute. reflexivity. Qed.

(** The name of a removed node cannot be given again. *)
Example removed_name_taken :
  let remove := object [("operation", AString "remove"); ("node_id", AString "n1")] in
  let add := object [("operation", AString "add"); ("name", AString "VM10"); ("host", AString "h"); ("node_type", AString "vm")] in
  let r := manage_Execute 1%N remove (inventory true "") in
  is_ok r.1 = true /\ is_ok (lookup_Execute 1%N (object [("query", AString "VM10")]) r.2).1 = false /\
  (manage_Execute 1%N add r.2).1 = Err (Wrap "creating node" (Wrap "creating infra node" (Errorf "duplicate key"))).
Proof. vm_compute. done. Qed.

(** The in-memory store: the tool writes the new name through the pointer before the store
    compares names, so that two nodes get one name; the database refuses. *)
Definition memory_nodes : MemoryStore SW :=
  mkMemoryStore 100%N (list_to_map (map (fun r => (nm_ID r.1, toInfraNodeDomain r.1)) (ir_rows (inventory true "")))).
Example memory_name_taken_twice :
  let rename := object [("operation", AString "update"); ("node_id", AString "n2"); ("name", AString "VM10")] in
  let r := manage_Execute 1%N rename memory_nodes in
  is_ok r.1 = true /\ map in_Name (map_to_list (ms_nodes r.2)).*2 = ["VM10"; "VM10"] /\
  is_ok (manage_Execute 1%N rename (inventory true "")).1 = false.
Proof. vm_compute. done. Qed.

(** ** Tools over the services *)

From S2P Require Import ServiceTools.

#[local] Instance tools_formats : ToolFormats := { fmt_rfc3339 _ := "t"; fmt_value _ := "v"; fmt_names := String.concat " " }.
#[local] Instance tools_params : GoParams Params := { params_of l := object (map (fun kv => (kv.1, AString kv.2)) l) }.
Definition tools_workflow : Workflow f64 :=
  mkWorkflow 9%N 1%N "u" "c" "g" WorkflowPending None (nofZ 0) (nofZ 0) 5 50 1 0%Z 0%Z None "".
#[local] Instance tools_engine : CronEngine f64 unit := { we_Submit e _ := (Ok tools_workflow, e) }.

Definition chat_channel : NotificationChannel := mkChannel 3%N 1%N "ops" "chat" ∅ "" true 0%Z 0%Z.
Definition foreign_channel : NotificationChannel := mkChannel 4%N 2%N "theirs" "chat" ∅ "" true 0%Z 0%Z.
Definition tools_bg : Bg f64 Params BW :=
  mkBg (10 * Hour)%Z (list_to_map [(3%N, chat_channel); (4%N, foreign_channel)]) [] [].
Definition tools_cron : CronState f64 Params BW unit := mkCronState tools_bg ∅ tt [].
Definition tools_alerts : AlertState f64 Params BW := mkAlertState tools_bg ∅ [] [].

Definition job_params : Params :=
  object [("name", AString "backup"); ("cron_expression", AString "0 * * * *"); ("goal", AString "run the backup");
          ("user_id", AString "mallory"); ("enabled", ABool false)].

(** The job is asked for disabled, and the answer says so; an hour later it runs. *)
Lemma cronjob_for_caller_witness :
  let r := cron_Execute 1%N "alice" job_params tools_cron in
  is_ok r.1 = true /\ map cj_UserID (map_to_list (ct_jobs r.2)).*2 = ["alice"] /\
  (exists res, r.1 = Ok res /\ param (tr_Metadata res) "enabled" = Some (ABool false)) /\
  let later := mkCronState (bg_set_world (11 * Hour + 5)%Z (ct_bg r.2)) (ct_jobs r.2) tt [] in
  map wr_UserID (ct_submits (tick sched1 later).2) = ["alice"].
Proof.
  intros r. split; [reflexivity|]. split; [vm_compute; reflexivity|]. split; [|vm_compute; reflexivity].
  pose proof (cronjob_for_caller 1%N "alice" job_params tools_cron) as H. fold r in H.
  destruct r as [[res|e] s'] eqn:Er; [|vm_compute in Er; discriminate].
  exists res. split; [done|]. by destruct H as (_ & _ & job & next & _ & _ & _ & _ & _ & _ & _ & _ & _ & _ & _ & _ & H).
Defined.

Definition rule_params (channel : string) : Params :=
  object [("name", AString "api"); ("target", AString "https://example.com"); ("check_type", AString "http_status");
          ("cron_expression", AString "0 * * * *"); ("channels", AList [AString channel; AInt 7])].

Lemma alert_for_caller_witness :
  let r := alert_Execute 1%N "alice" (rule_params "ops") tools_alerts in
  is_ok r.1 = true /\ is_ok (alert_Execute 1%N "alice" (rule_params "theirs") tools_alerts).1 = false /\
  exists rule, al_rules r.2 = <[ar_ID rule := rule]> ∅ /\ Forall (channel_of 1%N tools_bg) (ar_ChannelIDs rule).
Proof.
  intros r. split; [vm_compute; reflexivity|]. split; [vm_compute; reflexivity|].
  pose proof (alert_for_caller 1%N "alice" (rule_params "ops") tools_alerts) as H. fold r in H.
  destruct r as [[res|e] s'] eqn:Er; [|vm_compute in Er; discriminate].
  destruct H as (_ & _ & _ & rule & Hr & _ & _ & _ & _ & _ & _ & Hc). by exists rule.
Defined.

Definition chat_dispatcher : Dispatcher BW := RegisterSender (NewDispatcher true) "chat" (fun _ _ w => (None, w)).
Definition send_params : Params := object [("channels", AList [AString "ops"]); ("message", AString "hello")].

Lemma notification_for_caller_witness :
  let r := notification_Execute chat_dispatcher 1%N "alice" send_params tools_bg in
  sends_to 1%N (tool_message "alice" send_params) tools_bg r.2 /\
  map (fun x => nc_Name x.1.1) (bg_sent r.2) = ["ops"].
Proof.
  intros r. pose proof (notification_for_caller chat_dispatcher 1%N "alice" send_params tools_bg) as H. fold r in H.
  split; [|vm_compute; reflexivity]. destruct r as [res b']. by destruct H.
Defined.

(** ** Agents of the fleet *)

From S2P Require Import Fleet.

#[local] Instance toy_keys : Ed25519 SW := {
  ed_GenerateKey w := (Err (Errorf "no entropy"), w);
  ed_NewKeyFromSeed s := s; ed_Seed s := s; ed_Public s := s;
  ed_Sign _ data := data; ed_Verify _ data sig := String.eqb sig data;
}.
#[local] Instance toy_hex : Hex := { hex_encode s := s }.

(** A known agent that claims to be trusted. *)
Definition claim_ex : IdentityConfig := mkIdentity "agent-1" "worker" "2" "pub" "priv" [] "trusted" "dev" 0%Z.
Definition known_ex : FleetDB SW :=
  mkFleetDB 0%N {["agent-1" := (mkIdentityModel 1%N "agent-1" "worker" "1" "old" "" "untrusted" "dev" None "stale" 0%Z, false)]} [].

Definition removed_ex : FleetDB SW :=
  mkFleetDB 0%N {["agent-1" := (mkIdentityModel 1%N "agent-1" "worker" "1" "old" "" "untrusted" "dev" None "stale" 0%Z, true)]} [].

Lemma registration_keeps_trust_witness :
  (exists s', identity_Register claim_ex known_ex = (None, s') /\
    (exists m, agent_row "agent-1" s' = Some m /\ im_TrustLevel m = "untrusted" /\ im_Status m = "online") /\
    agent_row "agent-2" s' = None) /\
  exists s' e, identity_Register claim_ex removed_ex = (None, s') /\ (GetByAgentID "agent-1" s').1 = Err e.
Proof.
  split.
  - destruct (identity_Register claim_ex known_ex) as [err s'] eqn:E.
    assert (err = None) as -> by (vm_compute in E; by injection E as <- _).
    destruct (registration_keeps_trust claim_ex known_ex s' E) as (Hm & _ & Ho & _). exists s'. split; [done|]. split.
    + destruct (Hm _ eq_refl) as (m & Hr & _ & Ht & _ & _ & Hs). by exists m.
    + by rewrite (Ho "agent-2").
  - destruct (identity_Register claim_ex removed_ex) as [err s'] eqn:E.
    assert (err = None) as -> by (vm_compute in E; by injection E as <- _).
    destruct (registration_keeps_trust claim_ex removed_ex s' E) as (_ & _ & _ & Hr & _).
    destruct (Hr _ eq_refl) as [_ [e He]]. by exists s', e.
Defined.
